(* ===== verification/_CoqProject ===== *)
-Q . S2P
Prelude.v
Regex.v
Codec.v
PyValue.v
Redaction.v
GatewayConfig.v
GatewaySessions.v
GatewayApp.v
AgentCardMirror.v
GatewayAdmin.v
Transition.v
Schemas.v
Reducer.v
Compatibility.v
Cards.v
Policy.v
Store.v
Migrations.v
AuditLog.v
SessionStore.v
ApprovalStore.v
ArtifactVault.v
PeerCards.v
Registry.v
Relay.v
History.v
Keychain.v
CardFiles.v
Identity.v
Ingest.v
RetryQueue.v
Offers.v
Senders.v
Patch.v
Workspace.v
Preview.v
Pantry.v
Depth.v
Adapters.v
Orchestrator.v
Backend.v
Tasks.v
TaskClient.v
TaskBounds.v
Pairing.v
AuditExport.v
OwnerCommands.v
FirstFlight.v
TermShell.v
Preferences.v
Keymap.v
Projections.v
NodeApi.v
Doctor.v
CliViews.v
Views.v
Themes.v
