(* ===== verification/Prelude.v ===== *)
(** * KIN: gateway, node and relay

    KIN lets the agents of two people work together under the control of their
    owners.  Three programs are verified here.

    - The gateway ([src/kin_gateway]) stands between A2A callers and a private
      upstream agent.  It forwards admitted JSON-RPC and REST operations with a
      fixed set of headers and its own credential, streams answers, publishes a
      projection of the private Agent Card, and writes one completion record
      per request.
    - The node ([src/kin-node/kin]) runs on each owner's machine.  Signed
      envelopes arrive over HTTP or through the relay, pass a six-stage
      verification, are reduced to a session state, and are stored with an
      append-only encrypted log in SQLite.  Agents act under the boundaries of
      their card and the approvals of the owner.
    - The relay ([src/kin-relay/kin_relay]) keeps a directory of usernames and
      mailboxes of encrypted messages for nodes that are offline.

    ** How the code is modelled

    Pure Python functions are Rocq functions.  A function that may raise
    returns [result E A]; stateful code runs in the monad [M S E A], whose
    exceptions keep the state reached, as Python does.  Strings are strings of
    code points up to U+00FF, bytes are the same type; integers are [Z]; JSON
    documents are the type [json] with objects as lists of pairs in insertion
    order.  SQLite tables are lists of rows with their constraints written as
    guards; a connection has the rows it sees and the rows that are committed,
    so that a lost transaction can be stated.  Exceptions are named by their
    class; the text of an error message is kept only where the code stores it.

    Code outside the repository is a parameter with its documented laws: the
    classes [Jcs] and [Ed25519] (canonical JSON and signatures, [Schemas]),
    [NodeEnv] (AES-GCM, random source, clock, JSON decoder, [Store]), [Clock]
    ([Ingest]), [X25519] ([Identity]), [RelayEnv] ([Relay]), [LatestRow] (ties
    of a SQL ordering, [ApprovalStore]), and section variables for URL and
    address parsing, HTTP answers, protobuf parsing and pydantic's lax
    integers.  SHA-256, base64, UTF-8, hexadecimal and the regular expressions
    used by the validators are defined and evaluated, not assumed.  Every
    class has a concrete instance in a [*Demo] module, in which the theorems
    with hypotheses are applied to evaluated inputs.

    ** Files

    Foundations.
    - [Prelude]: results, the state and exception monad, frames ([keeps]),
      what a computation returns ([returns]), Python strings, list lemmas,
      tactics.
    - [Regex]: regular expressions with a derivative matcher, Python's [$].
    - [Codec]: SHA-256, hex, base64, UTF-8, with their round trips.
    - [PyValue]: JSON documents, Python values, [json.dumps].
    - [Redaction]: [tui/redaction.py] over a matcher with the priorities of a
      backtracking engine.

    Gateway.
    - [GatewayConfig]: [config.py] and [upstream/credentials.py].
    - [GatewaySessions]: [sessions.py], request hashes and completion records.
    - [GatewayApp]: [app.py], the data plane with buffered and streamed
      exchanges, as a program over a trace of upstream events.
    - [AgentCardMirror]: [agent_card.py], fetching, target validation,
      projection, and the cache under concurrent callers (a step relation).
    - [GatewayAdmin]: [admin.py].

    Node, pure part.
    - [Transition]: [session/transition_matrix.py].
    - [Schemas]: [schemas.py], enumerations, envelope validation, hashing,
      signing, the verification pipeline.
    - [Reducer]: [session/reducer.py], the three process functions, with
      histories of accepted inputs as a step relation.
    - [Compatibility]: [session/compatibility.py].
    - [Cards]: the card models of [schemas.py], [agent_registry] publication
      and availability.
    - [Policy]: [policy/evaluator.py].
    - [Patch]: [apply_unified_patch], against a specification by edit scripts.
    - [Preview]: [artifacts/preview.py] with the CSV dialect it uses.

    Node, over the database.
    - [Store]: the tables of [storage/migrations.py], the connection, and
      [storage/vault.py].
    - [Migrations]: the migration scripts statement by statement, the runner
      and the [migrate] command.
    - [AuditLog]: [audit/writer.py].  [AuditExport]: [audit/export.py] and
      [audit/legacy.py].
    - [SessionStore]: reconstruction of a session state and the two command
      transitions of [transport/v11.py].
    - [ApprovalStore]: [policy/persistence.py].
    - [ArtifactVault]: [artifacts/vault.py].  [Workspace]: the file operations
      of [artifacts/workspace.py] over a disk that can fail.
    - [PeerCards]: [agent_registry/peer_cards.py], with an abstract map as its
      specification.  [Registry]: [agent_registry/registry.py].  [CardFiles]:
      card files, the scan of their directory, import.
    - [History]: [session/history.py].
    - [Pantry]: [context_pantry.py].  [Depth]: [collaboration_depth.py].

    Node, keys and transport.
    - [Keychain]: [identity/storage.py] and the boundaries of profiles.
    - [Identity]: [identity/keys.py], [identity/auth.py],
      [identity/fingerprint.py], relay credentials.
    - [Ingest]: the stages of [ingest_envelope] up to the stored status and the
      outcome card.  [Offers]: artifact offers and their signed answers, and
      [ingest_envelope] complete with its recursion.
    - [RetryQueue]: [retry_outbound_queue].  [Senders]: dispatch, messages,
      commands, offers, the relay poll, capabilities and cards.
    - [NodeApi]: the routes beside the tasks and the synchronization pass.

    Node, agents.
    - [Adapters]: [adapters], the gate for what an agent answers.
    - [Orchestrator]: [session/orchestrator.py].
    - [Backend]: the rosters and reply backends of the first protocol.
    - [Tasks]: the task routes.  [TaskClient]: [ask], [respond], [fetch].
      [TaskBounds]: how long a task exchange can get.

    Node, the owner.
    - [Pairing]: [pair], [init], [restore] and the other identity commands.
      [FirstFlight]: the guided set-up.
    - [OwnerCommands]: what [tui/local_state.py] changes.  [Projections] and
      [Views]: what it reads.
    - [TermShell], [Preferences], [Keymap], [Themes]: the state of the terminal
      interface without its widgets.
    - [Doctor]: [doctor.py].  [CliViews]: [cli_v11.py] and the commands that
      print.

    Relay.
    - [Relay]: [kin_relay/routes.py] over the schema of [kin_relay/db.py].

    ** What is shown

    - Envelopes: acceptance is exactly the six stages, an honest envelope is
      accepted, only the owner and verified contacts write to a session log,
      and what is acknowledged as delivered is committed ([Schemas], [Offers],
      [NodeApi]).
    - Sessions: reachable states are consistent, replays are refused, turns are
      bounded, terminal states are final in memory and in the database, stored
      statuses follow the matrix, only the two parties speak ([Reducer],
      [Transition], [SessionStore], [Ingest], [Offers]).
    - Log: append-only, densely numbered, idempotent under redelivery, with a
      stable replay; a transcript without notes is the transcript of a profile
      without them ([AuditLog], [History], [AuditExport]).
    - Owner control: when an action is allowed, one-time approvals are used
      once, decisions are final, reruns start without authority, what leaves of
      the context was reviewed ([Policy], [ApprovalStore], [History],
      [Pantry]).
    - Agents: a turn sends only what the output gate and the policy let pass,
      whatever the agent answers; an answer of the first protocol is not
      delivered without review unless the contact allows it; task exchanges
      are bounded ([Adapters], [Orchestrator], [Tasks], [TaskBounds]).
    - Storage: encryption and artifact round trips, the card cache refines a
      map, card files survive import and scan, a migration keeps every row and
      is all or nothing ([Store], [ArtifactVault], [PeerCards], [CardFiles],
      [Migrations]).
    - Artifacts: a patch is applied exactly, a workspace is written only under
      a decision and inside its root, a preview marks what it cuts ([Patch],
      [Workspace], [Preview]).
    - Delivery: a message that was sent is delivered, in the relay or in the
      committed queue; polling acknowledges only what was processed; a
      synchronization pass loses nothing; the relay loses no mail and accepts
      the credentials nodes build ([Senders], [RetryQueue], [NodeApi], [Relay],
      [Identity]).
    - Identity: pairing needs the owner and the fingerprint, the identity and
      the keychain stay in step along the commands, and where the guided
      restore breaks this ([Pairing], [FirstFlight]).
    - What is shown: redacted text matches no secret pattern, timelines and
      scripted views hold no local row, published cards go to verified contacts
      only, the doctor reveals no secret ([Redaction], [Projections],
      [CliViews], [NodeApi], [Doctor]).
    - Interface: tabs, preferences, key bindings and themes keep their
      invariants ([TermShell], [Preferences], [Keymap], [Themes]).
    - Gateway: caller headers do not interfere, requests that are not admitted
      reach no upstream, one completion record per request, bodies and streams
      are forwarded unchanged, fetches stay on the configured origin, the
      public card discloses only what was approved, the cache refreshes once
      per period ([GatewayApp], [AgentCardMirror], [GatewayConfig],
      [GatewayAdmin]).

    Where the code does not do what its documentation says, an [Example] of the
    component evaluates the case.

    ** Bounds and termination

    All functions are total.  Fuel appears only where the code has a bound of
    its own or a proved one: the redirect loop of the card fetch runs at most
    [max_redirects + 1] requests, the streaming loop follows the finite list of
    upstream events, SHA-256 runs over the blocks of its padded input, and the
    ingestion of an envelope calls itself at most twice
    (proved in [Offers]).  Sequence numbers, sizes and times are
    unbounded integers as in Python; where SQLite or a model bounds them, the
    bound is a guard.

    ** Not modelled

    The widgets and drawing of the terminal interface, the contrast of colours
    (float powers), starting the servers and the tunnel, the application
    objects of the web framework, the development scripts and fixtures, and the
    remaining commands that only print.  Of the modelled code: the text of
    [difflib], decoding with replacement characters, the threads of an adapter
    call after its deadline, code points above U+00FF (glyphs are parameters),
    and a second reading of the clock within one call of a sender.  In a pass
    of the poll a message whose sender's stored key is malformed is rejected,
    where the code records a failure; it stays in the mailbox either way. *)

From Stdlib Require Import Ascii String ZArith Lia.
From stdpp Require Import base gmap sets list strings sorting.

Declare Scope kin_scope.
Delimit Scope kin_scope with kin.
#[global] Open Scope kin_scope.
#[global] Open Scope string_scope.
#[global] Open Scope list_scope.

(** ** Hint databases of the development *)

Create HintDb kin discriminated.
#[export] Hint Constants Opaque : kin.
#[export] Hint Variables Transparent : kin.

(** ** Fallible computations

    A Python function that may raise is a [result]: [Ok] for the returned
    value, [Err] for the exception (or the error value the code returns). *)

Inductive result (E A : Type) : Type :=
| Ok (a : A)
| Err (e : E).
Arguments Ok {E A} a.
Arguments Err {E A} e.

#[export] Instance result_eq_dec {E A} `{EqDecision E} `{EqDecision A} :
  EqDecision (result E A).
Proof. solve_decision. Defined.

Definition rbind {E A B} (m : result E A) (k : A -> result E B) : result E B :=
  match m with
  | Ok a => k a
  | Err e => Err e
  end.

Notation "'let?' x ':=' m 'in' k" := (rbind m (fun x => k))
  (at level 10, x pattern, m at level 100, k at level 200,
   format "'let?'  x  ':='  m  'in' '//' k") : kin_scope.

(** [ensure b e] is the guard [if not b: raise e]. *)
Definition ensure {E} (b : bool) (e : E) : result E unit :=
  if b then Ok tt else Err e.

Lemma rbind_Ok {E A B} (m : result E A) (k : A -> result E B) b :
  rbind m k = Ok b <-> exists a, m = Ok a /\ k a = Ok b.
Proof.
  destruct m as [a|e]; cbn; split.
  - intros H. by exists a.
  - intros (a' & [= ->] & H). done.
  - discriminate.
  - intros (a' & H & _). discriminate.
Qed.

Lemma ensure_Ok {E} b (e : E) u : ensure b e = Ok u <-> b = true.
Proof. destruct b, u; cbn; split; congruence. Qed.

(** ** Effectful computations

    [M S E A] threads a state [S]; an exception carries the state reached when
    it was raised, because Python keeps the effects performed before a raise. *)

Definition M (S E A : Type) : Type := S -> result E A * S.

Section monad.
Context {S E : Type}.

Definition ret {A} (a : A) : M S E A := fun s => (Ok a, s).

Definition mraise {A} (e : E) : M S E A := fun s => (Err e, s).

Definition bind {A B} (m : M S E A) (k : A -> M S E B) : M S E B :=
  fun s => match m s with
           | (Ok a, s') => k a s'
           | (Err e, s') => (Err e, s')
           end.

Definition mgets {A} (f : S -> A) : M S E A := fun s => (Ok (f s), s).

Definition mmodify (f : S -> S) : M S E unit := fun s => (Ok tt, f s).

(** [try: m  except: h]. *)
Definition mcatch {A} (m : M S E A) (h : E -> M S E A) : M S E A :=
  fun s => match m s with
           | (Ok a, s') => (Ok a, s')
           | (Err e, s') => h e s'
           end.

(** [try: m  finally: f]: [f] runs on both exits; its own exception wins. *)
Definition mfinally {A} (m : M S E A) (f : M S E unit) : M S E A :=
  fun s => match m s with
           | (r, s') => match f s' with
                        | (Ok _, s'') => (r, s'')
                        | (Err e, s'') => (Err e, s'')
                        end
           end.

Definition mlift {A} (r : result E A) : M S E A := fun s => (r, s).

Definition mwhen (b : bool) (m : M S E unit) : M S E unit :=
  if b then m else ret tt.

End monad.

Notation "'let*' x ':=' m 'in' k" := (bind m (fun x => k))
  (at level 10, x pattern, m at level 100, k at level 200,
   format "'let*'  x  ':='  m  'in' '//' k") : kin_scope.
Notation "m ;;; k" := (bind m (fun _ => k))
  (at level 100, k at level 200, right associativity, format "m ;;; '//' k") : kin_scope.

(** Computations that agree step by step agree. *)
Lemma bind_ext {S E A B} (m : M S E A) (k1 k2 : A -> M S E B) s :
  (forall a s', k1 a s' = k2 a s') -> bind m k1 s = bind m k2 s.
Proof. intros Hk. unfold bind. destruct (m s) as [[a|e] s']; [apply Hk|done]. Qed.

Lemma bind_ext_at {S E A B} (m1 m2 : M S E A) (k1 k2 : A -> M S E B) s :
  m1 s = m2 s -> (forall a s1, m2 s = (Ok a, s1) -> k1 a s1 = k2 a s1) -> bind m1 k1 s = bind m2 k2 s.
Proof. intros Hm Hk. unfold bind. rewrite Hm. destruct (m2 s) as [[a|e] s1]; [by apply Hk|done]. Qed.

(** ** Frames

    [keeps R m]: whatever [m] returns or raises, the state it leaves is related
    to the one it found.  With [R] a preorder this is closed under the monad. *)

Definition keeps {S E A} (R : S -> S -> Prop) (m : M S E A) : Prop := forall s, R s (m s).2.

Section keeps.
Context {S E : Type} (R : S -> S -> Prop) `{!PreOrder R}.

Lemma keeps_ret {A} (a : A) : keeps R (ret a : M S E A).
Proof. intros s. reflexivity. Qed.

Lemma keeps_raise {A} (e : E) : keeps R (mraise e : M S E A).
Proof. intros s. reflexivity. Qed.

Lemma keeps_gets {A} (f : S -> A) : keeps R (mgets f : M S E A).
Proof. intros s. reflexivity. Qed.

Lemma keeps_lift {A} (r : result E A) : keeps R (mlift r : M S E A).
Proof. intros s. reflexivity. Qed.

Lemma keeps_bind {A B} (m : M S E A) (k : A -> M S E B) :
  keeps R m -> (forall a, keeps R (k a)) -> keeps R (bind m k).
Proof.
  intros Hm Hk s. unfold bind. specialize (Hm s). destruct (m s) as [[a|e] s']; [|done].
  etrans; [exact Hm|apply Hk].
Qed.

(** The same at one state, with what the first computation returned. *)
Lemma keeps_bind_at {A B} (m : M S E A) (k : A -> M S E B) s :
  R s (m s).2 -> (forall a s1, m s = (Ok a, s1) -> R s1 (k a s1).2) -> R s (bind m k s).2.
Proof.
  intros Hm Hk. unfold bind. destruct (m s) as [[a|e] s']; [|done].
  etrans; [exact Hm|by apply Hk].
Qed.

Lemma keeps_run {A} (m : M S E A) s r s1 : keeps R m -> m s = (r, s1) -> R s s1.
Proof. intros Hm Em. specialize (Hm s). by rewrite Em in Hm. Qed.

Lemma keeps_catch {A} (m : M S E A) (h : E -> M S E A) :
  keeps R m -> (forall e, keeps R (h e)) -> keeps R (mcatch m h).
Proof.
  intros Hm Hh s. unfold mcatch. specialize (Hm s). destruct (m s) as [[a|e] s']; [done|].
  etrans; [exact Hm|apply Hh].
Qed.

Lemma keeps_when b (m : M S E unit) : keeps R m -> keeps R (mwhen b m).
Proof. destruct b; [done|]. intros _. apply keeps_ret. Qed.

Lemma keeps_modify (f : S -> S) : (forall s, R s (f s)) -> keeps R (mmodify f : M S E unit).
Proof. intros H s. apply H. Qed.
End keeps.

(** ** Results

    [returns P m]: whatever [m] returns satisfies [P]. *)

Definition returns {S E A} (P : A -> Prop) (m : M S E A) : Prop :=
  forall s a s', m s = (Ok a, s') -> P a.

Section returns.
Context {S E : Type}.

Lemma returns_ret {A} (P : A -> Prop) (a : A) : P a -> returns P (ret a : M S E A).
Proof. intros HP s b s' [= <- _]. exact HP. Qed.

Lemma returns_raise {A} (P : A -> Prop) (e : E) : returns P (mraise e : M S E A).
Proof. done. Qed.

Lemma returns_bind {A B} (Q : A -> Prop) (P : B -> Prop) (m : M S E A) (k : A -> M S E B) :
  returns Q m -> (forall a, Q a -> returns P (k a)) -> returns P (bind m k).
Proof.
  intros Hm Hk s b s'. unfold bind. destruct (m s) as [[a|e] s1] eqn:Em; [|done].
  apply Hk. by eapply Hm.
Qed.

Lemma returns_catch {A} (Q : A -> Prop) (m : M S E A) (h : E -> M S E A) :
  returns Q m -> (forall e, returns Q (h e)) -> returns Q (mcatch m h).
Proof.
  intros Hm Hh s a s'. unfold mcatch. specialize (Hm s). destruct (m s) as [[b|e] s1]; [|apply Hh].
  intros [= <- <-]. by eapply Hm.
Qed.

(** When nothing is known of the first result. *)
Lemma returns_after {A B} (P : B -> Prop) (m : M S E A) (k : A -> M S E B) :
  (forall a, returns P (k a)) -> returns P (bind m k).
Proof. intros Hk. by apply (returns_bind (fun _ => True)). Qed.
End returns.

(** ** Triples *)

(** From [P], a run that returns ends in [Q] and one that raises in [X]. *)
Definition triple {S E A} (P : S -> Prop) (m : M S E A) (Q : A -> S -> Prop) (X : S -> Prop) : Prop :=
  forall s, P s -> match m s with (Ok a, s') => Q a s' | (Err _, s') => X s' end.

Section triples.
Context {S E A B : Type}.
Implicit Types (P R X : S -> Prop).

Lemma triple_ret P (a : A) (Q : A -> S -> Prop) X : (forall s, P s -> Q a s) -> triple P (ret a : M S E A) Q X.
Proof. intros HQ s. apply HQ. Qed.

Lemma triple_raise P (e : E) (Q : A -> S -> Prop) X : (forall s, P s -> X s) -> triple P (mraise e) Q X.
Proof. intros HX s. apply HX. Qed.

Lemma triple_lift P (r : result E A) (Q : A -> S -> Prop) X :
  (forall a s, r = Ok a -> P s -> Q a s) -> (forall s, P s -> X s) -> triple P (mlift r) Q X.
Proof. intros HQ HX s Hs. unfold mlift. destruct r; auto. Qed.

Lemma triple_bind P (m : M S E A) (Q : A -> S -> Prop) (k : A -> M S E B) (Q' : B -> S -> Prop) X :
  triple P m Q X -> (forall a, triple (Q a) (k a) Q' X) -> triple P (bind m k) Q' X.
Proof.
  intros Hm Hk s Hs. specialize (Hm s Hs). unfold bind. destruct (m s) as [[a|e] s']; [by apply Hk|done].
Qed.

Lemma triple_catch P (m : M S E A) (h : E -> M S E A) (Q : A -> S -> Prop) Y X :
  triple P m Q Y -> (forall e, triple Y (h e) Q X) -> triple P (mcatch m h) Q X.
Proof.
  intros Hm Hh s Hs. specialize (Hm s Hs). unfold mcatch. destruct (m s) as [[a|e] s']; [done|by apply Hh].
Qed.

Lemma triple_weaken P P' (m : M S E A) (Q Q' : A -> S -> Prop) X X' :
  triple P m Q X -> (forall s, P' s -> P s) -> (forall a s, Q a s -> Q' a s) -> (forall s, X s -> X' s) ->
  triple P' m Q' X'.
Proof.
  intros Hm HP HQ HX s Hs. specialize (Hm s (HP s Hs)). destruct (m s) as [[a|e] s']; auto.
Qed.
End triples.

Create HintDb keeps discriminated.

(** Walks a monadic program down to the operations the hint database knows. *)
Ltac keeps_step :=
  lazymatch goal with
  | |- keeps ?R (bind ?m ?k) => refine (keeps_bind R m k _ _); [|intros ?]
  | |- keeps ?R (mcatch ?m ?h) => refine (keeps_catch R m h _ _); [|intros ?]
  | |- keeps ?R (mwhen ?b ?m) => refine (keeps_when R b m _)
  | |- keeps ?R (ret ?a) => exact (keeps_ret R a)
  | |- keeps ?R (mraise ?e) => exact (keeps_raise R e)
  | |- keeps ?R (mgets ?f) => exact (keeps_gets R f)
  | |- keeps ?R (mlift ?r) => exact (keeps_lift R r)
  | |- keeps _ (match ?x with _ => _ end) => destruct x
  | |- keeps _ (let _ := _ in _) => cbv zeta
  | |- keeps _ _ => solve [eauto 2 with keeps]
  end.
Ltac solve_keeps := cbv beta; repeat (keeps_step; cbv beta).

(** ** Python strings

    A Python [str] is a [string] of 8-bit code points (U+0000 to U+00FF); a
    Python [bytes] is the same type.  Case mapping and white space follow the
    Unicode tables on that range. *)

Abbreviation bytes := string (only parsing).

Definition code (c : ascii) : Z := Z.of_N (N_of_ascii c).
Definition chr (z : Z) : ascii := ascii_of_N (Z.to_N z).

(** [str.isspace] on one character, the class [str.strip] removes. *)
Definition is_space (c : ascii) : bool :=
  let n := code c in
  ((9 <=? n) && (n <=? 13) || (28 <=? n) && (n <=? 32)
   || (n =? 133) || (n =? 160))%Z.

Definition lower_ascii (c : ascii) : ascii :=
  let n := code c in
  if ((65 <=? n) && (n <=? 90) || (192 <=? n) && (n <=? 222) && negb (n =? 215))%Z
  then chr (n + 32) else c.

Fixpoint str_map (f : ascii -> ascii) (s : string) : string :=
  match s with
  | "" => ""
  | String c s' => String (f c) (str_map f s')
  end.

(** [str.lower]. *)
Definition lower (s : string) : string := str_map lower_ascii s.

(** [str.startswith]. *)
Fixpoint startswith (p s : string) : bool :=
  match p, s with
  | "", _ => true
  | String a p', String b s' => Ascii.eqb a b && startswith p' s'
  | _, "" => false
  end.

(** [p in s] for strings. *)
Fixpoint contains (p s : string) : bool :=
  startswith p s ||
  match s with
  | "" => false
  | String _ s' => contains p s'
  end.

Fixpoint str_exists (f : ascii -> bool) (s : string) : bool :=
  match s with
  | "" => false
  | String c s' => f c || str_exists f s'
  end.

Definition str_forall (f : ascii -> bool) (s : string) : bool :=
  negb (str_exists (fun c => negb (f c)) s).

(** [s.lstrip()] and [s.rstrip()] for a class of characters. *)
Fixpoint lstrip_by (f : ascii -> bool) (s : string) : string :=
  match s with
  | String c s' => if f c then lstrip_by f s' else s
  | "" => ""
  end.

Fixpoint rstrip_by (f : ascii -> bool) (s : string) : string :=
  match s with
  | "" => ""
  | String c s' =>
      match rstrip_by f s' with
      | "" => if f c then "" else String c ""
      | t => String c t
      end
  end.

(** [str.strip()]. *)
Definition strip (s : string) : string := rstrip_by is_space (lstrip_by is_space s).

(** Truth value of a [str]. *)
Definition truthy (s : string) : bool := negb (String.eqb s "").

(** [s[n:]]. *)
Fixpoint str_drop (n : nat) (s : string) : string :=
  match n, s with
  | 0, _ => s
  | S n', String _ s' => str_drop n' s'
  | _, "" => ""
  end.

Fixpoint str_take (n : nat) (s : string) : string :=
  match n, s with
  | S n', String c s' => String c (str_take n' s')
  | _, _ => ""
  end.

(** [x or d] on an optional string. *)
Definition or_str (o : option string) (d : string) : string :=
  match o with
  | Some s => if truthy s then s else d
  | None => d
  end.

(** Membership of a string in a literal set or tuple of strings. *)
Definition str_in (s : string) (l : list string) : bool :=
  existsb (String.eqb s) l.

Lemma str_in_spec s l : str_in s l = true <-> s ∈ l.
Proof.
  unfold str_in. rewrite existsb_exists. split.
  - intros (x & Hx & He). apply String.eqb_eq in He as ->. by apply list_elem_of_In.
  - intros H. exists s. split; [by apply list_elem_of_In | apply String.eqb_refl].
Qed.

Lemma truthy_spec s : truthy s = true <-> s <> "".
Proof.
  unfold truthy. rewrite negb_true_iff. split; intros H.
  - by apply String.eqb_neq.
  - by apply String.eqb_neq.
Qed.

Lemma str_app_cons c a b : String c a +:+ b = String c (a +:+ b).
Proof. reflexivity. Qed.

Lemma str_app_nil a : "" +:+ a = a.
Proof. done. Qed.

Lemma str_app_nil_r a : a +:+ "" = a.
Proof. induction a as [|c a IH]; [done|]. by rewrite str_app_cons, IH. Qed.

Lemma str_app_assoc a b c : a +:+ (b +:+ c) = (a +:+ b) +:+ c.
Proof. induction a as [|x a IH]; [done|]. rewrite !str_app_cons. by rewrite IH. Qed.

Lemma str_length_app a b : String.length (a +:+ b) = String.length a + String.length b.
Proof. induction a as [|x a IH]; [done|]. rewrite !str_app_cons. cbn. by rewrite IH. Qed.

Lemma str_exists_app f a b : str_exists f (a +:+ b) = str_exists f a || str_exists f b.
Proof. induction a as [|c a IH]; [done|]. rewrite str_app_cons. cbn. by rewrite IH, orb_assoc. Qed.

Lemma startswith_refl_app a b : startswith a (a +:+ b) = true.
Proof.
  induction a as [|c a IH]; [by destruct b|]. rewrite str_app_cons. cbn.
  by rewrite Ascii.eqb_refl.
Qed.

Lemma startswith_refl a : startswith a a = true.
Proof. rewrite <- (str_app_nil_r a) at 2. apply startswith_refl_app. Qed.

Lemma startswith_drop p s : startswith p s = true -> s = p +:+ str_drop (String.length p) s.
Proof.
  induction p as [|c p IH] in s |- *; intros Hs; [by destruct s|].
  destruct s as [|c' s]; [discriminate|]. cbn in Hs. apply andb_true_iff in Hs as [Hc Hs].
  apply Ascii.eqb_eq in Hc as ->. rewrite str_app_cons. cbn. by rewrite <- IH.
Qed.

Lemma str_drop_app a b : str_drop (String.length a) (a +:+ b) = b.
Proof. induction a as [|c a IH]; [done|]. by rewrite str_app_cons. Qed.

Lemma str_app_inj_l a b c : a +:+ b = a +:+ c -> b = c.
Proof. induction a as [|x a IH]; [done|]. rewrite !str_app_cons. intros [= Hbc]. auto. Qed.

Lemma list_ascii_app a b :
  list_ascii_of_string (a +:+ b) = list_ascii_of_string a ++ list_ascii_of_string b.
Proof. induction a as [|c a IH]; [done|]. rewrite str_app_cons. cbn. by rewrite IH. Qed.

Lemma str_app_inj_r a b c : b +:+ a = c +:+ a -> b = c.
Proof.
  intros He. apply (f_equal list_ascii_of_string) in He. rewrite !list_ascii_app in He.
  apply app_inv_tail in He.
  rewrite <- (string_of_list_ascii_of_string b), <- (string_of_list_ascii_of_string c). by rewrite He.
Qed.

(** ** Lists *)

(** First element satisfying a boolean test: [cursor.fetchone()] of a query
    without ordering, and dictionary lookup. *)
Fixpoint find_first {A} (f : A -> bool) (l : list A) : option A :=
  match l with
  | [] => None
  | x :: l' => if f x then Some x else find_first f l'
  end.

Lemma find_first_Some {A} (f : A -> bool) l x :
  find_first f l = Some x -> x ∈ l /\ f x = true.
Proof.
  induction l as [|y l IH]; cbn; [discriminate|].
  destruct (f y) eqn:E; intros H.
  - injection H as ->. split; [left|done].
  - destruct (IH H). split; [by right|done].
Qed.

Lemma find_first_None {A} (f : A -> bool) l :
  find_first f l = None <-> Forall (fun x => f x = false) l.
Proof.
  induction l as [|y l IH]; cbn.
  - split; [constructor | done].
  - destruct (f y) eqn:E; rewrite Forall_cons; split.
    + discriminate.
    + intros [? _]; congruence.
    + intros H. split; [done | by apply IH].
    + intros [_ H]. by apply IH.
Qed.

Lemma find_first_ext {A} (f g : A -> bool) l :
  (forall x, x ∈ l -> f x = g x) -> find_first f l = find_first g l.
Proof.
  induction l as [|y l IH]; cbn; intros H; [done|].
  rewrite (H y) by left. rewrite IH; [done|]. intros x Hx. apply H. by right.
Qed.

Lemma find_first_app {A} (f : A -> bool) l1 l2 :
  find_first f (l1 ++ l2) =
  match find_first f l1 with Some x => Some x | None => find_first f l2 end.
Proof. induction l1 as [|y l1 IH]; cbn; [done|]. by destruct (f y). Qed.

(** Unique keys identify the elements of a list. *)
Lemma NoDup_map_unique {A B} (f : A -> B) l x y :
  NoDup (map f l) -> x ∈ l -> y ∈ l -> f x = f y -> x = y.
Proof.
  induction l as [|a l IH]; cbn; intros Hn Hx Hy He; [set_solver|].
  apply NoDup_cons in Hn as [Hn Hl].
  apply elem_of_cons in Hx as [->|Hx], Hy as [->|Hy]; auto.
  - destruct Hn. rewrite He. apply list_elem_of_fmap. eauto.
  - destruct Hn. rewrite <- He. apply list_elem_of_fmap. eauto.
Qed.

(** [ORDER BY] and [sorted(key=..)]: a stable insertion sort under a boolean
    order. *)
Fixpoint insert_by {A} (le : A -> A -> bool) (x : A) (l : list A) : list A :=
  match l with
  | [] => [x]
  | y :: l' => if le x y then x :: y :: l' else y :: insert_by le x l'
  end.
Definition order_by {A} (le : A -> A -> bool) (l : list A) : list A := foldr (insert_by le) [] l.

Lemma insert_by_perm {A} (le : A -> A -> bool) x l : insert_by le x l ≡ₚ x :: l.
Proof.
  induction l as [|y l IH]; cbn; [done|]. destruct (le x y); [done|]. rewrite IH. apply Permutation_swap.
Qed.

Lemma order_by_perm {A} (le : A -> A -> bool) l : order_by le l ≡ₚ l.
Proof. induction l as [|x l IH]; cbn; [done|]. by rewrite insert_by_perm, IH. Qed.

Lemma order_by_elem {A} (le : A -> A -> bool) l x : x ∈ order_by le l <-> x ∈ l.
Proof. by rewrite order_by_perm. Qed.

Lemma insert_by_sorted {A} (le : A -> A -> bool) x l :
  (forall a b, le a b = false -> le b a = true) ->
  Sorted (fun a b => le a b = true) l -> Sorted (fun a b => le a b = true) (insert_by le x l).
Proof.
  intros Ht. induction 1 as [|y l Hs IH Hd]; cbn; [by repeat constructor|].
  destruct (le x y) eqn:E; [by repeat constructor|]. constructor; [done|].
  destruct l as [|z l]; cbn in *; [constructor; auto|].
  destruct (le x z); constructor; auto. by inversion Hd.
Qed.

Lemma order_by_sorted {A} (le : A -> A -> bool) l :
  (forall a b, le a b = false -> le b a = true) -> Sorted (fun a b => le a b = true) (order_by le l).
Proof. intros Ht. induction l as [|x l IH]; cbn; [constructor|]. by apply insert_by_sorted. Qed.

Lemma str_leb_total a b : String.leb a b = false -> String.leb b a = true.
Proof.
  unfold String.leb. rewrite (String.compare_antisym b a). by destruct (String.compare a b).
Qed.

(** ** Tactics *)

(** Case analysis on every scrutinee of a hypothesis, closing absurd branches. *)
Ltac split_match_in H :=
  repeat (
    match type of H with
    | context [match ?x with _ => _ end] =>
        lazymatch x with
        | context [match _ with _ => _ end] => fail
        | _ => let E := fresh "E" in destruct x eqn:E
        end
    end; try discriminate H; try congruence).

Ltac split_match :=
  repeat (
    match goal with
    | |- context [match ?x with _ => _ end] =>
        lazymatch x with
        | context [match _ with _ => _ end] => fail
        | _ => let E := fresh "E" in destruct x eqn:E
        end
    end; try discriminate; try congruence).

(** Break boolean conjunctions in the context into their conjuncts. *)
Ltac split_bools :=
  repeat match goal with
  | H : _ && _ = true |- _ => apply andb_true_iff in H; destruct H
  | H : _ || _ = false |- _ => apply orb_false_iff in H; destruct H
  | H : negb _ = true |- _ => apply negb_true_iff in H
  | H : negb _ = false |- _ => apply negb_false_iff in H
  | H : String.eqb _ _ = true |- _ => apply String.eqb_eq in H
  | H : String.eqb _ _ = false |- _ => apply String.eqb_neq in H
  | H : bool_decide _ = true |- _ => apply bool_decide_eq_true in H
  | H : bool_decide _ = false |- _ => apply bool_decide_eq_false in H
  end.

#[export] Hint Resolve str_in_spec truthy_spec : kin.
#[global] Arguments str_in : simpl never.
#[global] Arguments lower : simpl never.
#[global] Arguments strip : simpl never.
