(* ===== verification/Regex.v ===== *)
(** * Regular expressions

    The validators and routers of the program use [re.fullmatch] and
    [re.match] with patterns anchored by [^] and [$].  This file gives the
    pattern language they need, its meaning as an inductive relation, a
    matcher by derivatives, and the theorem that the matcher decides the
    relation.  [$] without [re.MULTILINE] also matches before one final line
    feed, which [re_match_dollar] keeps. *)

From Stdlib Require Import Ascii String ZArith Lia.
From stdpp Require Import base strings.
From S2P Require Import Prelude.

Inductive re : Type :=
| RNone
| REps
| RChr (f : ascii -> bool)
| RSeq (r1 r2 : re)
| RAlt (r1 r2 : re)
| RStar (r : re).

(** The language of a pattern. *)
Inductive matches : re -> string -> Prop :=
| m_eps : matches REps ""
| m_chr f c : f c = true -> matches (RChr f) (String c "")
| m_seq r1 r2 s1 s2 : matches r1 s1 -> matches r2 s2 -> matches (RSeq r1 r2) (s1 +:+ s2)
| m_alt_l r1 r2 s : matches r1 s -> matches (RAlt r1 r2) s
| m_alt_r r1 r2 s : matches r2 s -> matches (RAlt r1 r2) s
| m_star_nil r : matches (RStar r) ""
| m_star_cons r c s1 s2 :
    matches r (String c s1) -> matches (RStar r) s2 ->
    matches (RStar r) (String c (s1 +:+ s2)).

#[export] Hint Constructors matches : kin.

(** ** Derived patterns *)

Fixpoint rlit (s : string) : re :=
  match s with
  | "" => REps
  | String c s' => RSeq (RChr (Ascii.eqb c)) (rlit s')
  end.
Definition rplus (r : re) : re := RSeq r (RStar r).
Definition ropt (r : re) : re := RAlt REps r.

(** [r{n}] and [r{0,n}]. *)
Fixpoint rcount (n : nat) (r : re) : re :=
  match n with
  | 0 => REps
  | S n' => RSeq r (rcount n' r)
  end.
Fixpoint rupto (n : nat) (r : re) : re :=
  match n with
  | 0 => REps
  | S n' => RAlt REps (RSeq r (rupto n' r))
  end.
(** [r{lo,lo+extra}]. *)
Definition rrange (lo extra : nat) (r : re) : re := RSeq (rcount lo r) (rupto extra r).
Fixpoint rseqs (l : list re) : re :=
  match l with
  | [] => REps
  | r :: l' => RSeq r (rseqs l')
  end.

(** ** Character classes *)

Definition cc_range (lo hi : Z) (c : ascii) : bool :=
  ((lo <=? code c) && (code c <=? hi))%Z.
Definition cc_digit := cc_range 48 57.
Definition cc_lower := cc_range 97 122.
Definition cc_upper := cc_range 65 90.
Definition cc_alpha (c : ascii) : bool := cc_lower c || cc_upper c.
Definition cc_alnum (c : ascii) : bool := cc_alpha c || cc_digit c.
Definition cc_of (s : string) (c : ascii) : bool := str_exists (Ascii.eqb c) s.
Definition cc_not (f : ascii -> bool) (c : ascii) : bool := negb (f c).
Definition cc_or (f g : ascii -> bool) (c : ascii) : bool := f c || g c.

(** ** The matcher *)

Fixpoint nullable (r : re) : bool :=
  match r with
  | RNone => false
  | REps => true
  | RChr _ => false
  | RSeq r1 r2 => nullable r1 && nullable r2
  | RAlt r1 r2 => nullable r1 || nullable r2
  | RStar _ => true
  end.

(** Smart constructors keep the derivatives small. *)
Definition mk_seq (r1 r2 : re) : re :=
  match r1 with
  | RNone => RNone
  | REps => r2
  | _ => RSeq r1 r2
  end.
Definition mk_alt (r1 r2 : re) : re :=
  match r1, r2 with
  | RNone, _ => r2
  | _, RNone => r1
  | _, _ => RAlt r1 r2
  end.

Fixpoint deriv (c : ascii) (r : re) : re :=
  match r with
  | RNone | REps => RNone
  | RChr f => if f c then REps else RNone
  | RSeq r1 r2 =>
      if nullable r1
      then mk_alt (mk_seq (deriv c r1) r2) (deriv c r2)
      else mk_seq (deriv c r1) r2
  | RAlt r1 r2 => mk_alt (deriv c r1) (deriv c r2)
  | RStar r' => mk_seq (deriv c r') (RStar r')
  end.

(** [re.fullmatch]. *)
Fixpoint re_fullmatch (r : re) (s : string) : bool :=
  match s with
  | "" => nullable r
  | String c s' => re_fullmatch (deriv c r) s'
  end.

(** [re.match(r"^...$", s)]: [$] also matches before a final line feed. *)
Definition re_match_dollar (r : re) (s : string) : bool :=
  re_fullmatch (RSeq r (ropt (rlit (String "010" "")))) s.

(** ** Inversion and correctness *)

Lemma matches_seq_inv r1 r2 s :
  matches (RSeq r1 r2) s <-> exists s1 s2, s = s1 +:+ s2 /\ matches r1 s1 /\ matches r2 s2.
Proof.
  split.
  - intros H. inv H. eauto.
  - intros (s1 & s2 & -> & H1 & H2). by constructor.
Qed.

Lemma matches_alt_inv r1 r2 s :
  matches (RAlt r1 r2) s <-> matches r1 s \/ matches r2 s.
Proof.
  split.
  - intros H. inv H; auto.
  - intros [H|H]; [by apply m_alt_l | by apply m_alt_r].
Qed.

Lemma matches_none s : ~ matches RNone s.
Proof. intros H. inv H. Qed.

Lemma matches_eps_inv s : matches REps s <-> s = "".
Proof. split; [intros H; by inv H | intros ->; constructor]. Qed.

Lemma matches_chr_inv f s :
  matches (RChr f) s <-> exists c, s = String c "" /\ f c = true.
Proof.
  split; [intros H; inv H; eauto | intros (c & -> & H); by constructor].
Qed.

Lemma mk_seq_spec r1 r2 s : matches (mk_seq r1 r2) s <-> matches (RSeq r1 r2) s.
Proof.
  destruct r1; cbn; try reflexivity; rewrite matches_seq_inv.
  - split; [intros H; by destruct (matches_none s)|].
    intros (s1 & s2 & _ & H & _). by destruct (matches_none s1).
  - split.
    + intros H. exists "", s. split; [done|]. split; [constructor|done].
    + intros (s1 & s2 & -> & H1%matches_eps_inv & H2). by subst.
Qed.

Lemma mk_alt_spec r1 r2 s : matches (mk_alt r1 r2) s <-> matches r1 s \/ matches r2 s.
Proof.
  assert (forall A : Prop, (matches RNone s \/ A) <-> A) as HL.
  { intros A. split; [intros [H|H]; [by destruct (matches_none s)|done] | auto]. }
  assert (forall A : Prop, (A \/ matches RNone s) <-> A) as HR.
  { intros A. split; [intros [H|H]; [done|by destruct (matches_none s)] | auto]. }
  destruct r1, r2; cbn; rewrite ?HL, ?HR, ?matches_alt_inv; reflexivity.
Qed.

Lemma nullable_spec r : nullable r = true <-> matches r "".
Proof.
  induction r as [| |f|r1 IH1 r2 IH2|r1 IH1 r2 IH2|r IH]; cbn.
  - split; [discriminate | intros H; by destruct (matches_none "")].
  - split; [constructor | done].
  - split; [discriminate | intros H; inv H].
  - rewrite andb_true_iff, IH1, IH2, matches_seq_inv. split.
    + intros [H1 H2]. by exists "", "".
    + intros (s1 & s2 & E & H1 & H2).
      destruct s1; [|discriminate]. destruct s2; [done|discriminate].
  - by rewrite orb_true_iff, IH1, IH2, matches_alt_inv.
  - split; [intros _; constructor | done].
Qed.

Lemma matches_star_cons_inv r c s :
  matches (RStar r) (String c s) <->
  exists s1 s2, s = s1 +:+ s2 /\ matches r (String c s1) /\ matches (RStar r) s2.
Proof.
  split.
  - intros H. inv H. eauto.
  - intros (s1 & s2 & -> & H1 & H2). by constructor.
Qed.

Lemma deriv_spec r c s : matches (deriv c r) s <-> matches r (String c s).
Proof.
  revert s. induction r as [| |f|r1 IH1 r2 IH2|r1 IH1 r2 IH2|r IH]; intros s; cbn.
  - split; intros H; inv H.
  - split; intros H; inv H.
  - rewrite matches_chr_inv. destruct (f c) eqn:E.
    + rewrite matches_eps_inv. split; [intros ->; eauto | intros (? & [= _ ->] & _); done].
    + split; [intros H; by destruct (matches_none s) | intros (? & [= <- _] & ?); congruence].
  - assert (matches (mk_seq (deriv c r1) r2) s <->
            exists s1 s2, s = s1 +:+ s2 /\ matches r1 (String c s1) /\ matches r2 s2) as Hseq.
    { rewrite mk_seq_spec, matches_seq_inv. by setoid_rewrite IH1. }
    rewrite (matches_seq_inv r1 r2 (String c s)).
    destruct (nullable r1) eqn:En.
    + rewrite mk_alt_spec, Hseq, IH2. apply nullable_spec in En. split.
      * intros [(s1 & s2 & -> & H1 & H2)|H]; [exists (String c s1), s2 | exists "", (String c s)]; done.
      * intros ([|c' s1] & s2 & E & H1 & H2); cbn in E.
        -- right. rewrite E. exact H2.
        -- rewrite str_app_cons in E. injection E as <- ->. left. eauto.
    + rewrite Hseq. split.
      * intros (s1 & s2 & -> & H1 & H2). by exists (String c s1), s2.
      * intros ([|c' s1] & s2 & E & H1 & H2).
        -- apply nullable_spec in H1. congruence.
        -- rewrite str_app_cons in E. injection E as <- ->. eauto.
  - by rewrite mk_alt_spec, IH1, IH2, matches_alt_inv.
  - rewrite mk_seq_spec, matches_seq_inv, matches_star_cons_inv. by setoid_rewrite IH.
Qed.

Lemma re_fullmatch_spec r s : re_fullmatch r s = true <-> matches r s.
Proof.
  revert r. induction s as [|c s IH]; intros r; cbn.
  - apply nullable_spec.
  - by rewrite IH, deriv_spec.
Qed.

(** ** Consequences used by the components *)

Lemma matches_lit p s : matches (rlit p) s <-> s = p.
Proof.
  revert s. induction p as [|c p IH]; intros s; cbn.
  - apply matches_eps_inv.
  - rewrite matches_seq_inv. setoid_rewrite matches_chr_inv. setoid_rewrite IH. split.
    + intros (s1 & s2 & -> & (c' & -> & E%Ascii.eqb_eq) & ->). by subst.
    + intros ->. exists (String c ""), p. split; [done|]. split; [|done].
      exists c. split; [done|]. apply Ascii.eqb_refl.
Qed.

Lemma matches_star_chr f s : matches (RStar (RChr f)) s <-> str_forall f s = true.
Proof.
  unfold str_forall. rewrite negb_true_iff.
  induction s as [|c s IH]; cbn.
  - split; [done | intros _; constructor].
  - rewrite matches_star_cons_inv, orb_false_iff, negb_false_iff, <- IH.
    setoid_rewrite matches_chr_inv. split.
    + intros (s1 & s2 & -> & (c' & [= <- ->] & H) & H2). done.
    + intros [H H2]. exists "", s. split; [done|]. split; [|done]. by exists c.
Qed.

Lemma matches_plus_chr f s :
  matches (rplus (RChr f)) s <-> s <> "" /\ str_forall f s = true.
Proof.
  unfold rplus. rewrite matches_seq_inv. setoid_rewrite matches_chr_inv.
  setoid_rewrite matches_star_chr. unfold str_forall. split.
  - intros (s1 & s2 & -> & (c & -> & H) & H2). split; [done|].
    change (String c "" +:+ s2) with (String c s2). cbn. by rewrite H.
  - intros [Hne H]. destruct s as [|c s]; [done|]. cbn in H.
    rewrite negb_orb, negb_involutive in H. split_bools.
    exists (String c ""), s. split; [done|]. split; [by exists c|].
    by rewrite H0.
Qed.

Lemma matches_count_chr f n s :
  matches (rcount n (RChr f)) s <-> String.length s = n /\ str_forall f s = true.
Proof.
  induction n as [|n IH] in s |- *; cbn [rcount].
  - rewrite matches_eps_inv. destruct s; cbn; split; [done|done|done|by intros [? _]].
  - rewrite matches_seq_inv. setoid_rewrite matches_chr_inv. setoid_rewrite IH. unfold str_forall. split.
    + intros (s1 & s2 & -> & (c & -> & H) & Hl & H2).
      change (String c "" +:+ s2) with (String c s2). cbn. rewrite H, Hl. by split.
    + intros [Hl H]. destruct s as [|c s]; [done|]. cbn in H, Hl.
      rewrite negb_orb, negb_involutive in H. split_bools.
      exists (String c ""), s. split; [done|]. split; [by exists c|]. split; [lia|]. by rewrite H0.
Qed.

(** A [$]-anchored match is a full match of the pattern on the text, or on the
    text without one final line feed. *)
Lemma re_match_dollar_spec r s :
  re_match_dollar r s = true <->
  matches r s \/ exists s', s = s' +:+ String "010" "" /\ matches r s'.
Proof.
  unfold re_match_dollar, ropt. rewrite re_fullmatch_spec, matches_seq_inv.
  setoid_rewrite matches_alt_inv. setoid_rewrite matches_eps_inv.
  setoid_rewrite matches_lit. split.
  - intros (s1 & s2 & -> & H & [->| ->]).
    + left. by rewrite str_app_nil_r.
    + right. eauto.
  - intros [H|(s' & -> & H)].
    + exists s, "". rewrite str_app_nil_r. auto.
    + exists s', (String "010" ""). auto.
Qed.

(** ** Searching *)

(** Some prefix of the text matches. *)
Fixpoint re_prefix (r : re) (s : string) : bool :=
  nullable r || match s with
                | "" => false
                | String c s' => re_prefix (deriv c r) s'
                end.

(** [re.search]. *)
Fixpoint re_search (r : re) (s : string) : bool :=
  re_prefix r s || match s with
                   | "" => false
                   | String _ s' => re_search r s'
                   end.

Lemma re_prefix_spec r s :
  re_prefix r s = true <-> exists a b, s = a +:+ b /\ matches r a.
Proof.
  revert r. induction s as [|c s IH]; intros r; cbn [re_prefix].
  - rewrite orb_false_r, nullable_spec. split.
    + intros Hm. by exists "", "".
    + intros ([|] & b & E & Hm); [done|discriminate].
  - rewrite orb_true_iff, nullable_spec, IH. split.
    + intros [Hm|(a & b & -> & Hm%deriv_spec)]; [by exists "", (String c s)|by exists (String c a), b].
    + intros ([|c' a] & b & E & Hm); [by left|]. injection E as <- ->. right. exists a, b.
      split; [done|]. by apply deriv_spec.
Qed.

(** [re.search] finds a match exactly when some part of the text matches. *)
Lemma re_search_spec r s :
  re_search r s = true <-> exists a b c, s = a +:+ b +:+ c /\ matches r b.
Proof.
  induction s as [|c s IH]; cbn [re_search].
  - rewrite orb_false_r, re_prefix_spec. split.
    + intros (a & b & E & Hm). exists "", a, b. by split.
    + intros ([|] & b & d & E & Hm); [|discriminate]. by exists b, d.
  - rewrite orb_true_iff, re_prefix_spec, IH. split.
    + intros [(a & b & E & Hm)|(a & b & d & -> & Hm)]; [by exists "", a, b|by exists (String c a), b, d].
    + intros ([|c' a] & b & d & E & Hm); [left; by exists b, d|right]. injection E as <- ->. by exists a, b, d.
Qed.
