(* ===== verification/Codec.v ===== *)
(** * Byte codecs and SHA-256

    The parts of the Python standard library every component leans on:
    [hashlib.sha256], [bytes.hex], UTF-8 encoding, and the URL-safe base64
    codec of [kin/schemas.py] ([base64url_encode], [base64url_decode]) on top
    of [base64]/[binascii].  The decoder follows the non-strict mode of
    [binascii.a2b_base64]: characters outside the alphabet are skipped and a
    complete padding ends the input.

    Main results: [base64url_decode] inverts [base64url_encode]; the encoder
    emits only alphabet characters; a SHA-256 digest has 32 bytes, so its
    encoding has the 43 characters the envelope schema asks for. *)

From Stdlib Require Import Ascii String ZArith Lia.
From stdpp Require Import base list numbers strings.
From S2P Require Import Prelude.
Local Open Scope Z_scope.

#[local] Ltac Zify.zify_post_hook ::= Z.to_euclidean_division_equations.

(** ** Strings as lists of code points *)

Fixpoint codes (s : string) : list Z :=
  match s with
  | "" => []
  | String c s' => code c :: codes s'
  end.

Fixpoint of_codes (l : list Z) : string :=
  match l with
  | [] => ""
  | z :: l' => String (chr z) (of_codes l')
  end.

Lemma code_range c : 0 <= code c < 256.
Proof.
  unfold code. pose proof (N_ascii_bounded c) as H. lia.
Qed.

Lemma chr_code c : chr (code c) = c.
Proof. unfold chr, code. rewrite N2Z.id. apply ascii_N_embedding. Qed.

Lemma code_chr z : 0 <= z < 256 -> code (chr z) = z.
Proof. intros H. unfold chr, code. rewrite N_ascii_embedding; lia. Qed.

Lemma of_codes_codes s : of_codes (codes s) = s.
Proof. induction s as [|c s IH]; cbn; [done|]. by rewrite chr_code, IH. Qed.

Lemma codes_range s : Forall (fun z => 0 <= z < 256) (codes s).
Proof. induction s as [|c s IH]; cbn; constructor; [apply code_range | done]. Qed.

Lemma of_codes_length l : String.length (of_codes l) = length l.
Proof. induction l; cbn; [done|]. by rewrite IHl. Qed.

(** [str.encode("utf-8")] on the modelled range of code points. *)
Fixpoint utf8_encode (s : string) : bytes :=
  match s with
  | "" => ""
  | String c s' =>
      if code c <? 128 then String c (utf8_encode s')
      else String (chr (192 + Z.shiftr (code c) 6))
             (String (chr (128 + Z.land (code c) 63)) (utf8_encode s'))
  end.

(** ** Enumeration of bytes *)

Definition Zrange (n : nat) : list Z := Z.of_nat <$> seq 0 n.

Lemma Zrange_in n z : 0 <= z < Z.of_nat n -> z ∈ Zrange n.
Proof.
  intros H. unfold Zrange. apply list_elem_of_fmap. exists (Z.to_nat z).
  split; [lia|]. apply elem_of_seq. lia.
Qed.

Lemma forallb_Zrange n (f : Z -> bool) z :
  forallb f (Zrange n) = true -> 0 <= z < Z.of_nat n -> f z = true.
Proof.
  intros Hf Hz. rewrite forallb_forall in Hf. apply Hf, list_elem_of_In. by apply Zrange_in.
Qed.

(** ** SHA-256 *)

Section sha256.

(** Reduction to 32 bits and to 8 bits. *)
Definition w32 (z : Z) : Z := Z.land z 4294967295.
Definition byte_of (z : Z) : Z := Z.land z 255.
Definition rotr (x n : Z) : Z :=
  w32 (Z.lor (Z.shiftr x n) (Z.shiftl x (32 - n))).
Definition ch (x y z : Z) : Z :=
  Z.lxor (Z.land x y) (Z.land (4294967295 - x) z).
Definition maj (x y z : Z) : Z :=
  Z.lxor (Z.lxor (Z.land x y) (Z.land x z)) (Z.land y z).
Definition big0 (x : Z) : Z := Z.lxor (Z.lxor (rotr x 2) (rotr x 13)) (rotr x 22).
Definition big1 (x : Z) : Z := Z.lxor (Z.lxor (rotr x 6) (rotr x 11)) (rotr x 25).
Definition small0 (x : Z) : Z := Z.lxor (Z.lxor (rotr x 7) (rotr x 18)) (Z.shiftr x 3).
Definition small1 (x : Z) : Z := Z.lxor (Z.lxor (rotr x 17) (rotr x 19)) (Z.shiftr x 10).

(** The constants are the first 32 fractional bits of the cube roots of the
    first 64 primes and of the square roots of the first 8; they are computed
    here by integer root extraction. *)
Fixpoint iroot (k : Z) (bits : nat) (n acc : Z) : Z :=
  match bits with
  | O => acc
  | S b =>
      let cand := acc + 2 ^ Z.of_nat b in
      iroot k b n (if cand ^ k <=? n then cand else acc)
  end.

Definition is_prime (n : Z) : bool :=
  (2 <=? n) && forallb (fun d => negb (n mod d =? 0)) (map (fun d => d + 2) (Zrange (Z.to_nat (n - 2)))).

Definition primes64 : list Z := Eval vm_compute in List.filter is_prime (Zrange 312).

Definition sha_k : list Z := Eval vm_compute in
  map (fun p => w32 (iroot 3 36 (p * 2 ^ 96) 0)) primes64.
Definition sha_h0 : list Z := Eval vm_compute in
  map (fun p => w32 (iroot 2 38 (p * 2 ^ 64) 0)) (take 8 primes64).

(** Big-endian bytes of a word of [n] bytes. *)
Fixpoint be_bytes (n : nat) (z : Z) : list Z :=
  match n with
  | O => []
  | S n' => byte_of (Z.shiftr z (8 * Z.of_nat n')) :: be_bytes n' z
  end.

Definition pad (m : list Z) : list Z :=
  let len := Z.of_nat (length m) in
  m ++ [128] ++ replicate (Z.to_nat ((55 - len) mod 64)) 0 ++ be_bytes 8 (8 * len).

Fixpoint words (l : list Z) : list Z :=
  match l with
  | a :: b :: c :: d :: l' =>
      (a * 16777216 + b * 65536 + c * 256 + d) :: words l'
  | _ => []
  end.

(** Message schedule, newest word first. *)
Fixpoint schedule (n : nat) (rev : list Z) : list Z :=
  match n with
  | O => rev
  | S n' =>
      let w i := nth i rev 0 in
      schedule n' (w32 (small1 (w 1%nat) + w 6%nat + small0 (w 14%nat) + w 15%nat) :: rev)
  end.

Definition round (st : list Z) (kw : Z * Z) : list Z :=
  match st with
  | [a; b; c; d; e; f; g; h] =>
      let t1 := h + big1 e + ch e f g + fst kw + snd kw in
      let t2 := big0 a + maj a b c in
      [w32 (t1 + t2); a; b; c; w32 (d + t1); e; f; g]
  | _ => st
  end.

Definition compress (st : list Z) (block : list Z) : list Z :=
  let ws := reverse (schedule 48 (reverse block)) in
  zip_with (fun x y => w32 (x + y)) st (fold_left round (zip sha_k ws) st).

Fixpoint blocks (n : nat) (l : list Z) (st : list Z) : list Z :=
  match n with
  | O => st
  | S n' => blocks n' (drop 16 l) (compress st (take 16 l))
  end.

Definition sha256_codes (m : list Z) : list Z :=
  let p := words (pad m) in
  concat (map (be_bytes 4) (blocks (length p / 16) p sha_h0)).

End sha256.

(** [hashlib.sha256(b).digest()]. *)
Definition sha256 (b : bytes) : bytes := of_codes (sha256_codes (codes b)).

Definition hex_digit (z : Z) : ascii := chr (if z <? 10 then 48 + z else 87 + z).

(** [bytes.hex()]. *)
Fixpoint hexlify (b : bytes) : string :=
  match b with
  | "" => ""
  | String c b' =>
      String (hex_digit (Z.shiftr (code c) 4))
        (String (hex_digit (Z.land (code c) 15)) (hexlify b'))
  end.

(** [hashlib.sha256(b).hexdigest()]. *)
Definition sha256_hex (b : bytes) : string := hexlify (sha256 b).

Example sha256_abc :
  sha256_hex "abc" = "ba7816bf8f01cfea414140de5dae2223b00361a396177a9cb410ff61f20015ad".
Proof. vm_compute. reflexivity. Qed.

Example sha256_empty :
  sha256_hex "" = "e3b0c44298fc1c149afbf4c8996fb92427ae41e4649b934ca495991b7852b855".
Proof. vm_compute. reflexivity. Qed.

(** ** Length of a digest *)

Lemma be_bytes_length n z : length (be_bytes n z) = n.
Proof. induction n; cbn; [done|]. by rewrite IHn. Qed.

Lemma be_bytes_range n z : Forall (fun b => 0 <= b < 256) (be_bytes n z).
Proof.
  induction n as [|n IH]; cbn; constructor; [|done].
  unfold byte_of. change 255 with (Z.ones 8). rewrite Z.land_ones by lia. apply Z.mod_pos_bound. lia.
Qed.

Lemma round_length st kw : length st = 8%nat -> length (round st kw) = 8%nat.
Proof. intros H. do 9 (destruct st as [|? st]; [discriminate || done|]). discriminate. Qed.

Lemma rounds_length l st : length st = 8%nat -> length (fold_left round l st) = 8%nat.
Proof.
  revert st. induction l as [|kw l IH]; cbn; intros st H; [done|]. by apply IH, round_length.
Qed.

Lemma blocks_length n l st : length st = 8%nat -> length (blocks n l st) = 8%nat.
Proof.
  revert l st. induction n as [|n IH]; cbn; intros l st H; [done|].
  apply IH. unfold compress. rewrite length_zip_with, rounds_length; lia.
Qed.

Lemma concat_be_length l : length (concat (map (be_bytes 4) l)) = (4 * length l)%nat.
Proof. induction l as [|x l IH]; cbn [map concat]; [done|].
  rewrite length_app, be_bytes_length, IH. cbn. lia. Qed.

Lemma sha256_length b : String.length (sha256 b) = 32%nat.
Proof.
  unfold sha256. rewrite of_codes_length. unfold sha256_codes.
  rewrite concat_be_length, blocks_length; done.
Qed.

(** ** Base64 *)

Definition enc6 (z : Z) : ascii :=
  chr (if z <? 26 then 65 + z
       else if z <? 52 then 71 + z
       else if z <? 62 then z - 4
       else if z =? 62 then 45 else 95).

(** The 6-bit value of an alphabet character, after the translation of
    [-] to [+] and [_] to [/] that [urlsafe_b64decode] performs. *)
Definition dec6 (c : ascii) : option Z :=
  let n := code c in
  if (65 <=? n) && (n <=? 90) then Some (n - 65)
  else if (97 <=? n) && (n <=? 122) then Some (n - 71)
  else if (48 <=? n) && (n <=? 57) then Some (n + 4)
  else if (n =? 45) || (n =? 43) then Some 62
  else if (n =? 95) || (n =? 47) then Some 63
  else None.

Fixpoint b64_groups (l : list Z) : string :=
  match l with
  | [] => ""
  | [a] =>
      String (enc6 (Z.shiftr a 2)) (String (enc6 (Z.shiftl (Z.land a 3) 4)) "")
  | [a; b] =>
      String (enc6 (Z.shiftr a 2))
        (String (enc6 (Z.lor (Z.shiftl (Z.land a 3) 4) (Z.shiftr b 4)))
           (String (enc6 (Z.shiftl (Z.land b 15) 2)) ""))
  | a :: b :: c :: l' =>
      String (enc6 (Z.shiftr a 2))
        (String (enc6 (Z.lor (Z.shiftl (Z.land a 3) 4) (Z.shiftr b 4)))
           (String (enc6 (Z.lor (Z.shiftl (Z.land b 15) 2) (Z.shiftr c 6)))
              (String (enc6 (Z.land c 63)) (b64_groups l'))))
  end.

(** [base64url_encode]: [urlsafe_b64encode] with the padding removed. *)
Definition base64url_encode (data : bytes) : string := b64_groups (codes data).

(** State of [binascii.a2b_base64]: position in the current quad, bits left
    over, number of padding characters seen.  The result is the decoded bytes,
    or [None] for [binascii.Error]. *)
Fixpoint a2b_base64 (s : string) (quad : Z) (left : Z) (pads : Z) : option (list Z) :=
  match s with
  | "" => if quad =? 0 then Some [] else None
  | String c s' =>
      if Ascii.eqb c "=" then
        if quad <? 2 then a2b_base64 s' quad left pads
        else if 4 <=? quad + (pads + 1) then Some []
        else a2b_base64 s' quad left (pads + 1)
      else
        match dec6 c with
        | None => a2b_base64 s' quad left pads
        | Some v =>
            if quad =? 0 then a2b_base64 s' 1 v 0
            else if quad =? 1 then
              cons (Z.lor (Z.shiftl left 2) (Z.shiftr v 4)) <$> a2b_base64 s' 2 (Z.land v 15) 0
            else if quad =? 2 then
              cons (Z.lor (Z.shiftl left 4) (Z.shiftr v 2)) <$> a2b_base64 s' 3 (Z.land v 3) 0
            else
              cons (Z.lor (Z.shiftl left 6) v) <$> a2b_base64 s' 0 0 0
        end
  end.

(** [base64url_decode]: pad to a multiple of four, then decode; text outside
    ASCII makes [.encode("ascii")] raise. *)
Definition base64url_decode (encoded : string) : option bytes :=
  if str_exists (fun c => 128 <=? code c) encoded then None else
  let padding := of_codes (replicate (Z.to_nat ((- Z.of_nat (String.length encoded)) mod 4)) 61) in
  of_codes <$> a2b_base64 (encoded +:+ padding) 0 0 0.

(** ** The decoder inverts the encoder *)

Lemma dec6_enc6 z : 0 <= z < 64 -> dec6 (enc6 z) = Some z /\ Ascii.eqb (enc6 z) "=" = false.
Proof.
  intros H.
  assert (forallb (fun z => bool_decide (dec6 (enc6 z) = Some z) && negb (Ascii.eqb (enc6 z) "="))
            (Zrange 64) = true) as Hall by (vm_compute; reflexivity).
  apply (forallb_Zrange _ _ z) in Hall; [|lia]. cbv beta in Hall. by split_bools.
Qed.

(** Bit identities of one group, checked on every byte value. *)
Definition group_ok (a b c : Z) : bool :=
  let v0 := Z.shiftr a 2 in
  let v1 := Z.lor (Z.shiftl (Z.land a 3) 4) (Z.shiftr b 4) in
  let v2 := Z.lor (Z.shiftl (Z.land b 15) 2) (Z.shiftr c 6) in
  let v3 := Z.land c 63 in
  (0 <=? v0) && (v0 <? 64) && (0 <=? v1) && (v1 <? 64)
  && (0 <=? v2) && (v2 <? 64) && (0 <=? v3) && (v3 <? 64)
  && (Z.lor (Z.shiftl v0 2) (Z.shiftr v1 4) =? a)
  && (Z.lor (Z.shiftl (Z.land v1 15) 4) (Z.shiftr v2 2) =? b)
  && (Z.lor (Z.shiftl (Z.land v2 3) 6) v3 =? c).

Lemma lor_disjoint x y k :
  0 <= k -> 0 <= y < 2 ^ k -> Z.lor (Z.shiftl x k) y = x * 2 ^ k + y.
Proof.
  intros Hk Hy. rewrite <- Z.shiftl_mul_pow2 by done.
  assert (Z.land (Z.shiftl x k) y = 0) as H0.
  { apply Z.bits_inj'. intros n Hn. rewrite Z.land_spec, Z.bits_0.
    destruct (Z.lt_ge_cases n k) as [Hlt|Hge].
    - by rewrite Z.shiftl_spec_low.
    - rewrite <- (Z.mod_small y (2 ^ k)) by done.
      rewrite Z.mod_pow2_bits_high by lia. apply andb_false_r. }
  by rewrite Z.add_nocarry_lxor, Z.lxor_lor.
Qed.

Lemma lor_shift x y k p :
  2 ^ k = p -> 0 <= k -> 0 <= y < p -> Z.lor (Z.shiftl x k) y = x * p + y.
Proof. intros <-. apply lor_disjoint. Qed.

Lemma group_bits a b c :
  0 <= a < 256 -> 0 <= b < 256 -> 0 <= c < 256 -> group_ok a b c = true.
Proof.
  intros Ha Hb Hc. unfold group_ok.
  change 3 with (Z.ones 2). change 15 with (Z.ones 4). change 63 with (Z.ones 6).
  rewrite !Z.land_ones, !Z.shiftr_div_pow2 by lia.
  change (2 ^ 2) with 4. change (2 ^ 4) with 16. change (2 ^ 6) with 64.
  rewrite (lor_shift (a mod 4) (b / 16) 4 16) by (reflexivity || lia).
  rewrite (lor_shift (b mod 16) (c / 64) 2 4) by (reflexivity || lia).
  rewrite (lor_shift (a / 4) _ 2 4) by (reflexivity || lia).
  rewrite (lor_shift _ ((_ + c / 64) / 4) 4 16) by (reflexivity || lia).
  rewrite (lor_shift _ (c mod 64) 6 64) by (reflexivity || lia).
  repeat (apply andb_true_iff; split); try apply Z.leb_le; try apply Z.ltb_lt;
    try apply Z.eqb_eq; lia.
Qed.

Lemma a2b_sym z s quad left pads :
  0 <= z < 64 ->
  a2b_base64 (String (enc6 z) s) quad left pads =
  (if quad =? 0 then a2b_base64 s 1 z 0
   else if quad =? 1 then
     cons (Z.lor (Z.shiftl left 2) (Z.shiftr z 4)) <$> a2b_base64 s 2 (Z.land z 15) 0
   else if quad =? 2 then
     cons (Z.lor (Z.shiftl left 4) (Z.shiftr z 2)) <$> a2b_base64 s 3 (Z.land z 3) 0
   else cons (Z.lor (Z.shiftl left 6) z) <$> a2b_base64 s 0 0 0).
Proof. intros H. destruct (dec6_enc6 z H) as [E1 E2]. cbn. by rewrite E2, E1. Qed.

(** A full group followed by any tail decodes to its three bytes. *)
Lemma a2b_group a b c s :
  0 <= a < 256 -> 0 <= b < 256 -> 0 <= c < 256 ->
  a2b_base64
    (String (enc6 (Z.shiftr a 2))
       (String (enc6 (Z.lor (Z.shiftl (Z.land a 3) 4) (Z.shiftr b 4)))
          (String (enc6 (Z.lor (Z.shiftl (Z.land b 15) 2) (Z.shiftr c 6)))
             (String (enc6 (Z.land c 63)) s)))) 0 0 0
  = (fun l => a :: b :: c :: l) <$> a2b_base64 s 0 0 0.
Proof.
  intros Ha Hb Hc. pose proof (group_bits a b c Ha Hb Hc) as H. unfold group_ok in H.
  rewrite !andb_true_iff, !Z.leb_le, !Z.ltb_lt, !Z.eqb_eq in H. destruct_and!.
  rewrite !a2b_sym by lia. cbn -[Z.lor Z.land Z.shiftl Z.shiftr].
  destruct (a2b_base64 s 0 0 0); cbn -[Z.lor Z.land Z.shiftl Z.shiftr]; congruence.
Qed.

(** [encoded + "=" * (-len % 4)] for the three residues. *)
Definition tail_pad (l : list Z) : string :=
  of_codes (replicate (Z.to_nat ((- Z.of_nat (String.length (b64_groups l))) mod 4)) 61).

Lemma b64_groups_ind (P : list Z -> Prop) :
  P [] -> (forall a, P [a]) -> (forall a b, P [a; b]) ->
  (forall a b c l, P l -> P (a :: b :: c :: l)) -> forall l, P l.
Proof.
  intros H0 H1 H2 H3.
  assert (forall n l, (length l <= n)%nat -> P l) as Hn.
  { induction n as [|n IH]; intros l Hl.
    - destruct l; [done | cbn in Hl; lia].
    - destruct l as [|a [|b [|c l]]]; try done. apply H3, IH. cbn in Hl. lia. }
  intros l. by apply (Hn (length l)).
Qed.

Lemma a2b_groups l :
  Forall (fun z => 0 <= z < 256) l ->
  a2b_base64 (b64_groups l +:+ tail_pad l) 0 0 0 = Some l.
Proof.
  induction l as [|a|a b|a b c l IH] using b64_groups_ind; intros Hl.
  - reflexivity.
  - inv Hl. pose proof (group_bits a 0 0) as H. unfold group_ok in H.
    rewrite !andb_true_iff, !Z.leb_le, !Z.ltb_lt, !Z.eqb_eq in H.
    destruct H as [[[[[[[[[[? ?] ?] ?] ?] ?] ?] ?] E] ?] ?]; try lia.
    rewrite Z.shiftr_0_l, Z.lor_0_r in *.
    cbn [b64_groups]. change (tail_pad [a]) with "==". rewrite !str_app_cons.
    rewrite !a2b_sym by lia. cbn -[Z.lor Z.land Z.shiftl Z.shiftr]. by rewrite E.
  - inv Hl. match goal with H : Forall _ [b] |- _ => inv H end.
    pose proof (group_bits a b 0) as H. unfold group_ok in H.
    rewrite !andb_true_iff, !Z.leb_le, !Z.ltb_lt, !Z.eqb_eq in H.
    destruct H as [[[[[[[[[[? ?] ?] ?] ?] ?] ?] ?] E] E'] ?]; try lia.
    rewrite (Z.shiftr_0_l 6), (Z.lor_0_r (Z.shiftl (Z.land b 15) 2)) in *.
    cbn [b64_groups]. change (tail_pad [a; b]) with "=". rewrite !str_app_cons.
    rewrite !a2b_sym by lia. cbn -[Z.lor Z.land Z.shiftl Z.shiftr]. by rewrite E, E'.
  - inv Hl. do 2 (match goal with H : Forall _ (_ :: _) |- _ => inv H end).
    assert (tail_pad (a :: b :: c :: l) = tail_pad l) as ->.
    { unfold tail_pad. cbn [b64_groups String.length]. do 3 f_equal. lia. }
    cbn [b64_groups]. rewrite !str_app_cons, a2b_group by done. by rewrite IH.
Qed.

(** ** Shape of the encoding *)

(** [[a-zA-Z0-9_-]]. *)
Definition b64url_char (c : ascii) : bool :=
  let n := code c in
  ((65 <=? n) && (n <=? 90)) || ((97 <=? n) && (n <=? 122))
  || ((48 <=? n) && (n <=? 57)) || (n =? 45) || (n =? 95).

Lemma enc6_char z : b64url_char (enc6 (z mod 64)) = true.
Proof.
  assert (forallb (fun z => b64url_char (enc6 z)) (Zrange 64) = true) as Hall
    by (vm_compute; reflexivity).
  apply (forallb_Zrange _ _ (z mod 64)) in Hall; [done|]. apply Z.mod_pos_bound. lia.
Qed.

Lemma enc6_char_range z : 0 <= z < 64 -> b64url_char (enc6 z) = true.
Proof. intros H. rewrite <- (Z.mod_small z 64) by done. apply enc6_char. Qed.

Lemma str_forall_cons f c s : str_forall f (String c s) = f c && str_forall f s.
Proof. unfold str_forall. cbn. by rewrite negb_orb, negb_involutive. Qed.

Lemma b64_groups_chars l :
  Forall (fun z => 0 <= z < 256) l -> str_forall b64url_char (b64_groups l) = true.
Proof.
  induction l as [|a|a b|a b c l IH] using b64_groups_ind; intros Hl; [done|..];
    rewrite ?Forall_cons in Hl; destruct_and!.
  - pose proof (group_bits a 0 0) as H. unfold group_ok in H.
    rewrite !andb_true_iff, !Z.leb_le, !Z.ltb_lt in H.
    rewrite (Z.shiftr_0_l 4), Z.lor_0_r in H. destruct H; [lia..|]. destruct_and!.
    cbn [b64_groups]. rewrite !str_forall_cons, !enc6_char_range by lia. done.
  - pose proof (group_bits a b 0) as H. unfold group_ok in H.
    rewrite !andb_true_iff, !Z.leb_le, !Z.ltb_lt in H.
    rewrite (Z.shiftr_0_l 6), (Z.lor_0_r (Z.shiftl (Z.land b 15) 2)) in H.
    destruct H; [lia..|]. destruct_and!.
    cbn [b64_groups]. rewrite !str_forall_cons, !enc6_char_range by lia. done.
  - pose proof (group_bits a b c) as H. unfold group_ok in H.
    rewrite !andb_true_iff, !Z.leb_le, !Z.ltb_lt in H. destruct H; [lia..|]. destruct_and!.
    cbn [b64_groups]. rewrite !str_forall_cons, !enc6_char_range by lia.
    rewrite IH by done. done.
Qed.

Lemma base64url_encode_chars b : str_forall b64url_char (base64url_encode b) = true.
Proof. apply b64_groups_chars, codes_range. Qed.

Lemma b64_groups_length l :
  Z.of_nat (String.length (b64_groups l)) = (4 * Z.of_nat (length l) + 2) / 3.
Proof.
  induction l as [|a|a b|a b c l IH] using b64_groups_ind; [done..|].
  cbn [b64_groups String.length length]. lia.
Qed.

Lemma codes_length s : length (codes s) = String.length s.
Proof. induction s; cbn; [done|]. by rewrite IHs. Qed.

Lemma base64url_encode_length b :
  Z.of_nat (String.length (base64url_encode b)) = (4 * Z.of_nat (String.length b) + 2) / 3.
Proof. unfold base64url_encode. by rewrite b64_groups_length, codes_length. Qed.

Lemma str_forall_exists_false f g s :
  (forall c, f c = true -> g c = false) -> str_forall f s = true -> str_exists g s = false.
Proof.
  intros Hfg. induction s as [|c s IH]; [done|]. rewrite str_forall_cons. intros Hs.
  apply andb_true_iff in Hs as [Hc Hs]. cbn. by rewrite (Hfg _ Hc), IH.
Qed.

Lemma base64url_roundtrip b : base64url_decode (base64url_encode b) = Some b.
Proof.
  unfold base64url_decode. rewrite (str_forall_exists_false b64url_char).
  - unfold base64url_encode. fold (tail_pad (codes b)).
    rewrite a2b_groups by apply codes_range. cbn. by rewrite of_codes_codes.
  - intros c Hc. unfold b64url_char in Hc. lia.
  - apply base64url_encode_chars.
Qed.

(** ** The standard alphabet *)

(** [base64.b64encode(data).decode()]: padded, with [+] and [/]. *)
Definition to_std (c : ascii) : ascii :=
  if Ascii.eqb c "-" then "+"%char else if Ascii.eqb c "_" then "/"%char else c.
Definition b64encode (data : bytes) : string :=
  str_map to_std (b64_groups (codes data)) +:+ tail_pad (codes data).

(** [base64.b64decode(text)]: characters outside the alphabet are discarded,
    among them [-] and [_]. *)
Fixpoint drop_urlsafe (s : string) : string :=
  match s with
  | "" => ""
  | String c s' =>
      if Ascii.eqb c "-" || Ascii.eqb c "_" then drop_urlsafe s' else String c (drop_urlsafe s')
  end.
Definition b64decode (text : string) : option bytes :=
  of_codes <$> a2b_base64 (drop_urlsafe text) 0 0 0.

Lemma dec6_to_std c : dec6 (to_std c) = dec6 c /\ Ascii.eqb (to_std c) "=" = Ascii.eqb c "=".
Proof. destruct c as [[] [] [] [] [] [] [] []]; vm_compute; done. Qed.

Lemma a2b_to_std s t quad left pads :
  a2b_base64 (str_map to_std s +:+ t) quad left pads = a2b_base64 (s +:+ t) quad left pads.
Proof.
  induction s as [|c s IH] in quad, left, pads |- *; [done|]. cbn [str_map].
  rewrite !str_app_cons. cbn [a2b_base64]. destruct (dec6_to_std c) as [-> ->].
  destruct (dec6 c); by rewrite !IH.
Qed.

Lemma drop_urlsafe_std s t : drop_urlsafe (str_map to_std s +:+ t) = str_map to_std s +:+ drop_urlsafe t.
Proof.
  induction s as [|c s IH]; [done|]. cbn [str_map]. rewrite !str_app_cons. cbn [drop_urlsafe].
  assert (Ascii.eqb (to_std c) "-" || Ascii.eqb (to_std c) "_" = false) as ->
    by (destruct c as [[] [] [] [] [] [] [] []]; vm_compute; done).
  by rewrite IH.
Qed.

Lemma drop_urlsafe_pad n : drop_urlsafe (of_codes (replicate n 61)) = of_codes (replicate n 61).
Proof. induction n as [|n IH]; [done|]. cbn [replicate of_codes drop_urlsafe]. by rewrite IH. Qed.

Lemma b64_roundtrip b : b64decode (b64encode b) = Some b.
Proof.
  unfold b64decode, b64encode. rewrite drop_urlsafe_std. unfold tail_pad.
  rewrite drop_urlsafe_pad, a2b_to_std. fold (tail_pad (codes b)).
  rewrite a2b_groups by apply codes_range. cbn. by rewrite of_codes_codes.
Qed.

(** ** UTF-8 decoding *)

(** [bytes.decode("utf-8")] where the text stays in the modelled range;
    [None] otherwise, invalid sequences included. *)
Fixpoint utf8_decode (b : bytes) : option string :=
  match b with
  | "" => Some ""
  | String c b' =>
      if code c <? 128 then String c <$> utf8_decode b'
      else match b' with
           | String d b'' =>
               if (194 <=? code c) && (code c <=? 195) && (128 <=? code d) && (code d <? 192)
               then String (chr (Z.lor (Z.shiftl (code c - 192) 6) (code d - 128))) <$> utf8_decode b''
               else None
           | "" => None
           end
  end.

Lemma utf8_roundtrip s : utf8_decode (utf8_encode s) = Some s.
Proof.
  induction s as [|c s IH]; [done|]. cbn [utf8_encode].
  destruct (code c <? 128) eqn:E.
  - cbn [utf8_decode]. by rewrite E, IH.
  - cbn [utf8_decode]. rewrite IH. revert E.
    destruct c as [[] [] [] [] [] [] [] []]; vm_compute; done.
Qed.

(** ** [bytes.fromhex] *)

Definition hex_val (c : ascii) : option Z :=
  let n := code c in
  if (48 <=? n) && (n <=? 57) then Some (n - 48)
  else if (97 <=? n) && (n <=? 102) then Some (n - 87)
  else if (65 <=? n) && (n <=? 70) then Some (n - 55)
  else None.

Definition hex_space (c : ascii) : bool :=
  let n := code c in (n =? 32) || ((9 <=? n) && (n <=? 13)).

(** Pairs of digits, with ASCII white space allowed between pairs. *)
Fixpoint fromhex (s : string) : option bytes :=
  match s with
  | "" => Some ""
  | String a s' =>
      if hex_space a then fromhex s'
      else match s' with
           | "" => None
           | String b s'' =>
               match hex_val a, hex_val b with
               | Some x, Some y => String (chr (16 * x + y)) <$> fromhex s''
               | _, _ => None
               end
           end
  end.

Lemma hex_digit_val z : 0 <= z < 16 ->
  hex_val (hex_digit z) = Some z /\ hex_space (hex_digit z) = false.
Proof.
  intros Hz.
  assert (forallb (fun z => bool_decide (hex_val (hex_digit z) = Some z) && negb (hex_space (hex_digit z)))
            (Zrange 16) = true) as Hall by (vm_compute; reflexivity).
  apply (forallb_Zrange _ _ z) in Hall; [|lia]. cbv beta in Hall. by split_bools.
Qed.

(** [bytes.fromhex] inverts [bytes.hex]. *)
Lemma fromhex_hexlify b : fromhex (hexlify b) = Some b.
Proof.
  induction b as [|c b IH]; [done|]. cbn [hexlify fromhex].
  pose proof (code_range c) as Hc.
  assert (Hhi : 0 <= Z.shiftr (code c) 4 < 16)
    by (rewrite Z.shiftr_div_pow2 by lia; split; [apply Z.div_pos; lia|apply Z.div_lt_upper_bound; lia]).
  assert (Hlo : Z.land (code c) 15 = code c mod 16)
    by (change 15 with (Z.ones 4); rewrite Z.land_ones by lia; done).
  assert (0 <= Z.land (code c) 15 < 16) by (rewrite Hlo; apply Z.mod_pos_bound; lia).
  destruct (hex_digit_val _ Hhi) as [-> ->]. destruct (hex_digit_val (Z.land (code c) 15)) as [-> _]; [done|].
  rewrite IH. cbn. rewrite Hlo, Z.shiftr_div_pow2 by lia. change (2 ^ 4) with 16.
  rewrite <- Z.div_mod by lia. by rewrite chr_code.
Qed.
