(* ===== verification/PyValue.v ===== *)
(** * Python values and JSON documents

    [pyval] is the part of the Python value space that reaches the payload
    validator of [kin/schemas.py]; [json] is the space of documents that
    [json.loads] yields and [json.dumps] accepts, objects being lists of pairs
    in insertion order as Python dictionaries are.  A finite float is named by
    its [repr], which is what [json.dumps] prints.

    [validate_json_primitives] is the recursive validator; it accepts exactly
    the values that are JSON documents without NaN or infinities.
    [json_dumps] is [json.dumps] with the separators, key order and escaping
    the program asks for.  [json.loads] has no definition here: the components
    that call it are parameterised by the decoder, so that their theorems hold
    for every decoder. *)

From Stdlib Require Import Ascii String ZArith Lia.
From stdpp Require Import base list numbers strings pretty.
From S2P Require Import Prelude Codec.

Inductive pyfloat : Type :=
| FNan
| FInf (negative : bool)
| FFin (repr : string).

#[export] Instance pyfloat_eq_dec : EqDecision pyfloat.
Proof. solve_decision. Defined.

(** ** JSON documents *)

Unset Elimination Schemes.
Inductive json : Type :=
| JNull
| JBool (b : bool)
| JInt (z : Z)
| JFloat (f : pyfloat)
| JStr (s : string)
| JList (l : list json)
| JObj (kvs : list (string * json)).
Set Elimination Schemes.

Section json_ind.
Variable P : json -> Prop.
Hypothesis Hnull : P JNull.
Hypothesis Hbool : forall b, P (JBool b).
Hypothesis Hint : forall z, P (JInt z).
Hypothesis Hfloat : forall f, P (JFloat f).
Hypothesis Hstr : forall s, P (JStr s).
Hypothesis Hlist : forall l, Forall P l -> P (JList l).
Hypothesis Hobj : forall kvs, Forall (fun kv => P kv.2) kvs -> P (JObj kvs).

Fixpoint json_ind (v : json) : P v :=
  match v with
  | JNull => Hnull
  | JBool b => Hbool b
  | JInt z => Hint z
  | JFloat f => Hfloat f
  | JStr s => Hstr s
  | JList l =>
      Hlist l ((fix go (l : list json) : Forall P l :=
                  match l with
                  | [] => Forall_nil_2 _
                  | x :: l' => Forall_cons_2 _ _ _ (json_ind x) (go l')
                  end) l)
  | JObj kvs =>
      Hobj kvs ((fix go (l : list (string * json)) : Forall (fun kv => P kv.2) l :=
                   match l with
                   | [] => Forall_nil_2 _
                   | kv :: l' => Forall_cons_2 _ _ _ (json_ind kv.2) (go l')
                   end) kvs)
  end.
End json_ind.

#[export] Instance json_eq_dec : EqDecision json.
Proof.
  refine (fix go (x y : json) : Decision (x = y) :=
    match x, y with
    | JNull, JNull => left eq_refl
    | JBool a, JBool b => cast_if (decide (a = b))
    | JInt a, JInt b => cast_if (decide (a = b))
    | JFloat a, JFloat b => cast_if (decide (a = b))
    | JStr a, JStr b => cast_if (decide (a = b))
    | JList l, JList k => cast_if (@decide (l = k) (@list_eq_dec _ go l k))
    | JObj l, JObj k =>
        cast_if (@decide (l = k) (@list_eq_dec _ (@prod_eq_dec _ _ _ go) l k))
    | _, _ => right _
    end); clear go; abstract congruence.
Defined.

(** ** Dictionary access *)

(** [d.get(k)]: the last binding wins in a Python dictionary; documents bind a
    key once, and the first binding is the one looked up. *)
Fixpoint obj_get {A} (k : string) (kvs : list (string * A)) : option A :=
  match kvs with
  | [] => None
  | (k', v) :: kvs' => if String.eqb k k' then Some v else obj_get k kvs'
  end.

(** [d[k] = v]: replaces in place, or appends. *)
Fixpoint obj_set {A} (k : string) (v : A) (kvs : list (string * A)) : list (string * A) :=
  match kvs with
  | [] => [(k, v)]
  | (k', v') :: kvs' =>
      if String.eqb k k' then (k', v) :: kvs' else (k', v') :: obj_set k v kvs'
  end.

(** [{k: v for k, v in d.items() if k != key}]. *)
Definition obj_without {A} (key : string) (kvs : list (string * A)) : list (string * A) :=
  List.filter (fun kv => negb (String.eqb kv.1 key)) kvs.

Definition get_str (k : string) (kvs : list (string * json)) : option string :=
  match obj_get k kvs with
  | Some (JStr s) => Some s
  | _ => None
  end.

(** Truth value of a document. *)
Definition json_truthy (v : json) : bool :=
  match v with
  | JNull => false
  | JBool b => b
  | JInt z => negb (z =? 0)%Z
  | JFloat (FFin r) => negb (str_in r ["0.0"; "-0.0"])
  | JFloat _ => true
  | JStr s => truthy s
  | JList l => match l with [] => false | _ => true end
  | JObj l => match l with [] => false | _ => true end
  end.

Lemma obj_get_set_eq {A} k (v : A) kvs : obj_get k (obj_set k v kvs) = Some v.
Proof.
  induction kvs as [|[k' v'] kvs IH]; cbn.
  - by rewrite String.eqb_refl.
  - destruct (String.eqb k k') eqn:E; cbn; by rewrite E.
Qed.

Lemma obj_get_set_ne {A} k k' (v : A) kvs : k <> k' -> obj_get k (obj_set k' v kvs) = obj_get k kvs.
Proof.
  intros H. induction kvs as [|[k2 v2] kvs IH]; cbn.
  - by apply String.eqb_neq in H as ->.
  - destruct (String.eqb k' k2) eqn:E; cbn; [|by rewrite IH].
    apply String.eqb_eq in E as ->. by apply String.eqb_neq in H as ->.
Qed.

Lemma obj_without_absent {A} k (kvs : list (string * A)) : obj_get k kvs = None -> obj_without k kvs = kvs.
Proof.
  unfold obj_without. induction kvs as [|[k' v] kvs IH]; cbn; [done|].
  rewrite (String.eqb_sym k' k). destruct (String.eqb k k'); [done|]. cbn.
  intros H. by rewrite IH.
Qed.

(** Setting a key and then dropping it leaves the other entries. *)
Lemma obj_without_set {A} k (v : A) kvs : obj_without k (obj_set k v kvs) = obj_without k kvs.
Proof.
  unfold obj_without. induction kvs as [|[k' v'] kvs IH]; cbn.
  - by rewrite String.eqb_refl.
  - rewrite (String.eqb_sym k k'). destruct (String.eqb k' k) eqn:E; cbn; rewrite ?E; cbn;
      [done|]. by rewrite IH.
Qed.

(** ** Python values reaching the validator *)

Inductive pykey : Type :=
| KStr (s : string)
| KOther (type_name : string).

Unset Elimination Schemes.
Inductive pyval : Type :=
| PNone
| PBool (b : bool)
| PInt (z : Z)
| PFloat (f : pyfloat)
| PStr (s : string)
| PList (l : list pyval)
| PDict (kvs : list (pykey * pyval))
| PObj (type_name : string).
Set Elimination Schemes.

Section pyval_ind.
Variable P : pyval -> Prop.
Hypothesis Hnone : P PNone.
Hypothesis Hbool : forall b, P (PBool b).
Hypothesis Hint : forall z, P (PInt z).
Hypothesis Hfloat : forall f, P (PFloat f).
Hypothesis Hstr : forall s, P (PStr s).
Hypothesis Hlist : forall l, Forall P l -> P (PList l).
Hypothesis Hdict : forall kvs, Forall (fun kv => P kv.2) kvs -> P (PDict kvs).
Hypothesis Hobj : forall t, P (PObj t).

Fixpoint pyval_ind (v : pyval) : P v :=
  match v with
  | PNone => Hnone
  | PBool b => Hbool b
  | PInt z => Hint z
  | PFloat f => Hfloat f
  | PStr s => Hstr s
  | PList l =>
      Hlist l ((fix go (l : list pyval) : Forall P l :=
                  match l with
                  | [] => Forall_nil_2 _
                  | x :: l' => Forall_cons_2 _ _ _ (pyval_ind x) (go l')
                  end) l)
  | PDict kvs =>
      Hdict kvs ((fix go (l : list (pykey * pyval)) : Forall (fun kv => P kv.2) l :=
                    match l with
                    | [] => Forall_nil_2 _
                    | kv :: l' => Forall_cons_2 _ _ _ (pyval_ind kv.2) (go l')
                    end) kvs)
  | PObj t => Hobj t
  end.
End pyval_ind.

(** [validate_json_primitives]: [true] when the function returns, [false] when
    it raises [ValueError]. *)
Fixpoint validate_json_primitives (val : pyval) : bool :=
  match val with
  | PNone | PStr _ | PBool _ => true
  | PInt _ => true
  | PFloat f =>
      match f with
      | FNan | FInf _ => false
      | FFin _ => true
      end
  | PList l => forallb validate_json_primitives l
  | PDict kvs =>
      forallb (fun kv => match kv.1 with
                         | KStr _ => validate_json_primitives kv.2
                         | KOther _ => false
                         end) kvs
  | PObj _ => false
  end.

(** Every JSON document is a Python value. *)
Fixpoint py_of_json (v : json) : pyval :=
  match v with
  | JNull => PNone
  | JBool b => PBool b
  | JInt z => PInt z
  | JFloat f => PFloat f
  | JStr s => PStr s
  | JList l => PList (map py_of_json l)
  | JObj kvs => PDict (map (fun kv => (KStr kv.1, py_of_json kv.2)) kvs)
  end.

(** Documents RFC 8259 can express: no NaN, no infinity. *)
Fixpoint finite_json (v : json) : bool :=
  match v with
  | JFloat FNan | JFloat (FInf _) => false
  | JList l => forallb finite_json l
  | JObj kvs => forallb (fun kv => finite_json kv.2) kvs
  | _ => true
  end.

Lemma validate_of_json v : validate_json_primitives (py_of_json v) = finite_json v.
Proof.
  induction v as [|b|z|f|s|l IH|kvs IH] using json_ind; cbn; try done; try by destruct f.
  - induction IH as [|x l Hx _ IHl]; cbn; [done|]. by rewrite Hx, IHl.
  - induction IH as [|x l Hx _ IHl]; cbn; [done|]. by rewrite Hx, IHl.
Qed.

Lemma validate_image v :
  validate_json_primitives v = true -> exists d, v = py_of_json d /\ finite_json d = true.
Proof.
  induction v as [|b|z|f|s|l IH|kvs IH|t] using pyval_ind; cbn; intros H.
  - by exists JNull.
  - by exists (JBool b).
  - by exists (JInt z).
  - destruct f as [| |r]; [done..|]. by exists (JFloat (FFin r)).
  - by exists (JStr s).
  - assert (exists ds, l = map py_of_json ds /\ forallb finite_json ds = true) as (ds & -> & Hf).
    { induction IH as [|x l Hx _ IHl]; cbn in H; [by exists []|]. split_bools.
      destruct Hx as (d & -> & Hd); [done|]. destruct IHl as (ds & -> & Hds); [done|].
      exists (d :: ds). cbn. by rewrite Hd, Hds. }
    by exists (JList ds).
  - assert (exists ds, kvs = map (fun kv => (KStr kv.1, py_of_json kv.2)) ds
                       /\ forallb (fun kv => finite_json kv.2) ds = true) as (ds & -> & Hf).
    { induction IH as [|[k x] l Hx _ IHl]; cbn in H; [by exists []|]. cbn in Hx. split_bools.
      destruct k as [k|]; [|done].
      destruct Hx as (d & -> & Hd); [done|]. destruct IHl as (ds & -> & Hds); [done|].
      exists ((k, d) :: ds). cbn. by rewrite Hd, Hds. }
    by exists (JObj ds).
  - done.
Qed.

(** ** [json.dumps] *)

Record dump_opts := {
  item_sep : string;
  key_sep : string;
  sort_keys : bool;
  ensure_ascii : bool
}.

(** [json.dumps(v, ensure_ascii=False, separators=(",", ":"), sort_keys=True)]. *)
Definition dumps_canonical : dump_opts :=
  {| item_sep := ","; key_sep := ":"; sort_keys := true; ensure_ascii := false |}.
(** [json.dumps(v, separators=(",", ":"))]. *)
Definition dumps_compact : dump_opts :=
  {| item_sep := ","; key_sep := ":"; sort_keys := false; ensure_ascii := true |}.
(** [json.dumps(v, sort_keys=True)]. *)
Definition dumps_sorted : dump_opts :=
  {| item_sep := ", "; key_sep := ": "; sort_keys := true; ensure_ascii := true |}.
(** [json.dumps(v)] and [json.dumps(v, ensure_ascii=False)]. *)
Definition dumps_default : dump_opts :=
  {| item_sep := ", "; key_sep := ": "; sort_keys := false; ensure_ascii := true |}.
Definition dumps_unicode : dump_opts :=
  {| item_sep := ", "; key_sep := ": "; sort_keys := false; ensure_ascii := false |}.

Definition hex2 (n : Z) : string :=
  String (hex_digit (Z.shiftr n 4)) (String (hex_digit (Z.land n 15)) "").

Definition escape_char (ascii_only : bool) (c : ascii) : string :=
  let n := code c in
  (if n =? 34 then String "\" (String "034" "")
   else if n =? 92 then "\\"
   else if n =? 10 then "\n"
   else if n =? 13 then "\r"
   else if n =? 9 then "\t"
   else if n =? 12 then "\f"
   else if n =? 8 then "\b"
   else if (n <? 32) || ascii_only && (128 <=? n) then "\u00" +:+ hex2 n
   else String c "")%Z.

Fixpoint escape (ascii_only : bool) (s : string) : string :=
  match s with
  | "" => ""
  | String c s' => escape_char ascii_only c +:+ escape ascii_only s'
  end.

Definition quote (o : dump_opts) (s : string) : string :=
  String "034" (escape (ensure_ascii o) s +:+ String "034" "").

Fixpoint insert_key {A} (k : string) (v : A) (l : list (string * A)) : list (string * A) :=
  match l with
  | [] => [(k, v)]
  | (k', v') :: l' =>
      if String.leb k k' then (k, v) :: l else (k', v') :: insert_key k v l'
  end.

(** [sorted(d.items())] by key. *)
Definition sort_items {A} (l : list (string * A)) : list (string * A) :=
  foldr (fun kv acc => insert_key kv.1 kv.2 acc) [] l.

Definition print_float (f : pyfloat) : string :=
  match f with
  | FNan => "NaN"
  | FInf false => "Infinity"
  | FInf true => "-Infinity"
  | FFin r => r
  end.

Definition print_int (z : Z) : string := pretty z.

Fixpoint json_dumps (o : dump_opts) (v : json) : string :=
  match v with
  | JNull => "null"
  | JBool true => "true"
  | JBool false => "false"
  | JInt z => print_int z
  | JFloat f => print_float f
  | JStr s => quote o s
  | JList l => "[" +:+ String.concat (item_sep o) (map (json_dumps o) l) +:+ "]"
  | JObj kvs =>
      let items := map (fun kv => (kv.1, json_dumps o kv.2)) kvs in
      let items := if sort_keys o then sort_items items else items in
      "{" +:+ String.concat (item_sep o)
                (map (fun kv => quote o kv.1 +:+ key_sep o +:+ kv.2) items) +:+ "}"
  end.

Example dumps_example :
  json_dumps dumps_canonical
    (JObj [("b", JList [JInt (-12); JBool true; JNull]); ("a", JStr "x")])
  = String.concat (String "034" "") ["{"; "a"; ":"; "x"; ","; "b"; ":[-12,true,null]}"].
Proof. vm_compute. reflexivity. Qed.
