(* ===== verification/Redaction.v ===== *)
(** * Redaction of displayed text

    [kin/tui/redaction.py]: the text shown to the owner and exported by the
    scriptable commands, with secrets, absolute paths and reasoning replaced.
    [re.sub] takes the first match in the order a backtracking matcher tries
    the alternatives; the file gives that matcher, shows that it finds a match
    exactly where the pattern of [Regex] has one, and builds the substitution
    on it. *)

From Stdlib Require Import Ascii String ZArith Lia.
From stdpp Require Import base sets list strings.
From S2P Require Import Prelude Regex Codec PyValue.

#[local] Open Scope nat_scope.

(** ** Patterns with priorities *)

(** [PMany true f] is the greedy repetition of a character class, [PMany false
    f] the lazy one. *)
Inductive pat :=
| PEps
| PChr (f : ascii -> bool)
| PSeq (p q : pat)
| PAlt (p q : pat)
| PMany (greedy : bool) (f : ascii -> bool).

(** The language of a pattern, where priorities do not matter. *)
Fixpoint re_of (p : pat) : re :=
  match p with
  | PEps => REps
  | PChr f => RChr f
  | PSeq p q => RSeq (re_of p) (re_of q)
  | PAlt p q => RAlt (re_of p) (re_of q)
  | PMany _ f => RStar (RChr f)
  end.

Fixpoint many (greedy : bool) (f : ascii -> bool) (s : string) (k : string -> option string) : option string :=
  let more := match s with
              | String c s' => if f c then many greedy f s' k else None
              | "" => None
              end in
  if greedy then match more with Some r => Some r | None => k s end
  else match k s with Some r => Some r | None => more end.

(** The backtracking matcher: [k] matches what follows and returns the rest. *)
Fixpoint pm (p : pat) (s : string) (k : string -> option string) : option string :=
  match p with
  | PEps => k s
  | PChr f => match s with String c s' => if f c then k s' else None | "" => None end
  | PSeq p q => pm p s (fun s' => pm q s' k)
  | PAlt p q => match pm p s k with Some r => Some r | None => pm q s k end
  | PMany greedy f => many greedy f s k
  end.

(** [pattern.match(s)]: the rest after the match. *)
Definition pmatch (p : pat) (s : string) : option string := pm p s Some.

Lemma many_sound g f s k r :
  many g f s k = Some r -> exists a b, s = a +:+ b /\ str_forall f a = true /\ k b = Some r.
Proof.
  revert r. induction s as [|c s IH]; intros r; cbn [many].
  - intros Hk. exists "", "". split; [done|]. split; [done|]. destruct g; [done|]. by destruct (k "").
  - assert (forall r, (if f c then many g f s k else None) = Some r ->
            exists a b, String c s = a +:+ b /\ str_forall f a = true /\ k b = Some r) as Hmore.
    { intros r0. destruct (f c) eqn:Ec; [|done]. intros (a & b & -> & Ha & Hb)%IH.
      exists (String c a), b. split; [done|]. split; [|done]. by rewrite str_forall_cons, Ec. }
    assert (k (String c s) = Some r -> exists a b, String c s = a +:+ b /\ str_forall f a = true /\ k b = Some r) as Hk
      by (intros Hk; by exists "", (String c s)).
    destruct g.
    + destruct (if f c then _ else _) as [x|] eqn:E; [|exact Hk]. intros [= <-]. by apply Hmore.
    + destruct (k (String c s)) as [x|] eqn:E; [exact Hk|]. apply Hmore.
Qed.

Lemma many_complete g f a b k : str_forall f a = true -> k b <> None -> many g f (a +:+ b) k <> None.
Proof.
  intros Ha Hb. induction a as [|c a IH].
  - rewrite str_app_nil. destruct b as [|c b]; cbn [many]; destruct g; repeat case_match; congruence.
  - rewrite str_forall_cons in Ha. apply andb_true_iff in Ha as [Hc Ha]. specialize (IH Ha). rewrite str_app_cons. cbn [many].
    rewrite Hc. destruct g; repeat case_match; congruence.
Qed.

Lemma pm_sound p s k r : pm p s k = Some r -> exists a b, s = a +:+ b /\ matches (re_of p) a /\ k b = Some r.
Proof.
  revert s k r. induction p as [|f|p IHp q IHq|p IHp q IHq|g f]; intros s k r; cbn [pm re_of].
  - intros Hk. exists "", s. split; [done|]. split; [constructor|done].
  - destruct s as [|c s]; [done|]. destruct (f c) eqn:Ec; [|done]. intros Hk. exists (String c ""), s.
    split; [done|]. split; [by constructor|done].
  - intros (a & b & -> & Ha & (a' & b' & -> & Ha' & Hk)%IHq)%IHp. exists (a +:+ a'), b'.
    split; [by rewrite str_app_assoc|]. split; [by constructor|done].
  - destruct (pm p s k) as [x|] eqn:E.
    + intros [= <-]. apply IHp in E as (a & b & -> & Ha & Hk). exists a, b. eauto using matches.
    + intros (a & b & -> & Ha & Hk)%IHq. exists a, b. eauto using matches.
  - intros (a & b & -> & Ha & Hk)%many_sound. exists a, b. split; [done|]. split; [by apply matches_star_chr|done].
Qed.

Lemma pm_complete p a b k : matches (re_of p) a -> k b <> None -> pm p (a +:+ b) k <> None.
Proof.
  revert a b k. induction p as [|f|p IHp q IHq|p IHp q IHq|g f]; intros a b k; cbn [pm re_of].
  - intros ->%matches_eps_inv. by rewrite str_app_nil.
  - intros (c & -> & Hc)%matches_chr_inv. rewrite str_app_cons, str_app_nil. by rewrite Hc.
  - intros (a1 & a2 & -> & H1 & H2)%matches_seq_inv Hk. rewrite <- str_app_assoc. apply IHp; [done|]. by apply IHq.
  - intros [Ha|Ha]%matches_alt_inv Hk.
    + apply (IHp _ _ _ Ha) in Hk. by destruct (pm p (a +:+ b) k).
    + apply (IHq _ _ _ Ha) in Hk. by destruct (pm p (a +:+ b) k).
  - intros Ha%matches_star_chr. by apply many_complete.
Qed.

(** The matcher finds a prefix of the language whenever there is one. *)
Lemma pmatch_spec p s :
  match pmatch p s with
  | Some rest => exists a, s = a +:+ rest /\ matches (re_of p) a
  | None => forall a b, s = a +:+ b -> ~ matches (re_of p) a
  end.
Proof.
  unfold pmatch. destruct (pm p s Some) as [rest|] eqn:E.
  - apply pm_sound in E as (a & b & -> & Ha & [= ->]). by exists a.
  - intros a b -> Ha. by apply (pm_complete p a b Some Ha) in E.
Qed.

(** ** Substitution *)

(** A text cut at the matches, from left to right. *)
Inductive segment :=
| Keep (c : ascii)
| Hit (m : string).

Definition original (x : segment) : string := match x with Keep c => String c "" | Hit m => m end.
Definition shown (replacement : string) (x : segment) : string :=
  match x with Keep c => String c "" | Hit _ => replacement end.

(** [skip] characters belong to the match found last. *)
Fixpoint segments (p : pat) (skip : nat) (s : string) : list segment :=
  match s with
  | "" => []
  | String c s' =>
      match skip with
      | S k => segments p k s'
      | 0 =>
          match pmatch p s with
          | Some rest =>
              match String.length s - String.length rest with
              | 0 => Keep c :: segments p 0 s'
              | S n => Hit (str_take (S n) s) :: segments p n s'
              end
          | None => Keep c :: segments p 0 s'
          end
      end
  end.

Definition join (l : list string) : string := foldr String.append "" l.

(** [pattern.sub(replacement, text)] for a pattern that matches no empty text. *)
Definition sub (p : pat) (replacement text : string) : string :=
  join (map (shown replacement) (segments p 0 text)).

(** [pattern.search(text)]. *)
Definition found (p : pat) (text : string) : bool := re_search (re_of p) text.

(** ** The patterns of the module *)

Definition lit (s : string) : pat :=
  (fix go s := match s with "" => PEps | String c s' => PSeq (PChr (Ascii.eqb c)) (go s') end) s.
(** Under [(?i)]. *)
Definition lit_i (s : string) : pat :=
  (fix go s := match s with
               | "" => PEps
               | String c s' => PSeq (PChr (fun x => Ascii.eqb (lower_ascii x) (lower_ascii c))) (go s')
               end) s.
Fixpoint seqs (l : list pat) : pat := match l with [] => PEps | [p] => p | p :: l' => PSeq p (seqs l') end.
Fixpoint alts (p : pat) (l : list pat) : pat := match l with [] => p | q :: l' => PAlt p (alts q l') end.
Definition opt (p : pat) : pat := PAlt p PEps.
Fixpoint times (n : nat) (p : pat) : pat := match n with 0 => PEps | S n' => PSeq p (times n' p) end.
Definition at_least (n : nat) (f : ascii -> bool) : pat := PSeq (times n (PChr f)) (PMany true f).
Definition spaces_ : pat := PMany true is_space.

Definition dash_ : pat := PChr (cc_of "_-").
Definition no_space_comma (c : ascii) : bool := negb (is_space c) && cc_not (cc_of ",;") c.
(** [\s*[:=]\s*[^\s,;]+] *)
Definition assigned : list pat := [spaces_; PChr (cc_of ":="); spaces_; at_least 1 no_space_comma].
Definition alnum_dash (extra : string) : ascii -> bool := cc_or cc_alnum (cc_of extra).

Definition SECRET_PATTERN : pat :=
  alts (seqs [lit_i "api"; opt dash_; lit_i "key"])
    [seqs [lit_i "secret"; opt dash_; lit_i "key"];
     seqs [lit_i "access"; opt dash_; lit_i "token"];
     seqs [lit_i "bearer"; at_least 1 is_space; at_least 20 (alnum_dash "_-.")];
     seqs [lit_i "sk"; dash_; lit_i "live"; dash_; at_least 24 cc_alnum];
     seqs [lit_i "ghp_"; times 36 (PChr cc_alnum)]].

Definition TUI_SECRET_REGEX : pat :=
  alts (seqs ([lit_i "api"; opt dash_; lit_i "key"] ++ assigned))
    [seqs ([lit_i "secret"; opt dash_; lit_i "key"] ++ assigned);
     seqs ([lit_i "access"; opt dash_; lit_i "token"] ++ assigned);
     seqs (lit_i "password" :: assigned);
     seqs (lit_i "token" :: assigned);
     seqs [lit_i "bearer"; at_least 1 is_space; at_least 20 (alnum_dash "_-.")];
     seqs [lit_i "sk"; dash_; lit_i "live"; dash_; at_least 24 cc_alnum];
     seqs [lit_i "sk"; dash_; lit_i "proj"; dash_; at_least 24 (alnum_dash "_-")];
     seqs [lit_i "sk"; dash_; at_least 24 cc_alnum];
     seqs [lit_i "ghp_"; times 36 (PChr cc_alnum)];
     seqs [lit_i "AWS_"; times 20 (PChr cc_alnum)]].

(** No white space, colon, question mark, angle bracket, bar or quotation mark
    (character 34). *)
Definition path_char (c : ascii) : bool :=
  negb (is_space c) && cc_not (cc_of ":?<>|") c && negb (Ascii.eqb c "034").

Definition PATH_WIN_REGEX : pat := seqs [PChr cc_alpha; lit ":\"; at_least 4 path_char].
Definition PATH_POSIX_REGEX : pat :=
  seqs [lit "/"; alts (lit "Users") [lit "home"; lit "private"; lit "root"; lit "var"; lit "etc"];
        lit "/"; at_least 3 path_char].

Definition any (_ : ascii) : bool := true.
Definition not_newline (c : ascii) : bool := negb (Ascii.eqb c "010").
Definition COT_TAG_REGEX : pat :=
  alts (seqs [lit_i "<think>"; PMany false any; lit_i "</think>"])
    [seqs [lit_i "<scratchpad>"; PMany false any; lit_i "</scratchpad>"];
     seqs [lit_i "chain"; spaces_; lit_i "of"; spaces_; lit_i "thought"; spaces_; lit ":"; spaces_;
           at_least 1 not_newline];
     seqs [lit_i "internal"; spaces_; lit_i "reasoning"; spaces_; lit ":"; spaces_; at_least 1 not_newline]].

(** ** Redaction *)

Definition passes : list (pat * string) :=
  [(COT_TAG_REGEX, "[reasoning hidden]"); (SECRET_PATTERN, "[REDACTED SECRET]");
   (TUI_SECRET_REGEX, "[REDACTED SECRET]"); (PATH_WIN_REGEX, "[REDACTED PATH]");
   (PATH_POSIX_REGEX, "[REDACTED PATH]")].

Definition redact_text (text : string) : string :=
  fold_left (fun t pr => sub pr.1 pr.2 t) passes text.

(** [redact_ui_text]: [None] becomes the empty text. *)
Definition redact_ui_text (text : option string) : string :=
  match text with None => "" | Some t => redact_text t end.

Definition contains_secrets_or_paths (text : string) : bool :=
  found SECRET_PATTERN text || found TUI_SECRET_REGEX text || found PATH_WIN_REGEX text
  || found PATH_POSIX_REGEX text || found COT_TAG_REGEX text.

Example redact_demo :
  redact_text "see /home/bob/notes.txt, token=abc, <think>hm</think> C:\Users\bob and sk-live" =
  "see [REDACTED PATH] [REDACTED SECRET], [reasoning hidden] [REDACTED PATH] and sk-live".
Proof. vm_compute. reflexivity. Qed.

(** ** Cutting a text at its matches *)

Lemma join_app l1 l2 : join (l1 ++ l2) = join l1 +:+ join l2.
Proof.
  induction l1 as [|x l1 IH]; [done|]. change (x +:+ join (l1 ++ l2) = (x +:+ join l1) +:+ join l2).
  by rewrite IH, str_app_assoc.
Qed.

Definition source (l : list segment) : string := join (map original l).
Definition display (rep : string) (l : list segment) : string := join (map (shown rep) l).

Lemma source_keep c l : source (Keep c :: l) = String c (source l).
Proof. done. Qed.
Lemma source_hit m l : source (Hit m :: l) = m +:+ source l.
Proof. done. Qed.
Lemma display_keep rep c l : display rep (Keep c :: l) = String c (display rep l).
Proof. done. Qed.
Lemma display_hit rep m l : display rep (Hit m :: l) = rep +:+ display rep l.
Proof. done. Qed.

Lemma source_app l1 l2 : source (l1 ++ l2) = source l1 +:+ source l2.
Proof. unfold source. by rewrite map_app, join_app. Qed.
Lemma display_app rep l1 l2 : display rep (l1 ++ l2) = display rep l1 +:+ display rep l2.
Proof. unfold display. by rewrite map_app, join_app. Qed.

Lemma str_take_drop n s : str_take n s +:+ str_drop n s = s.
Proof.
  revert s. induction n as [|n IH]; intros [|c s]; try done. cbn [str_take str_drop].
  by rewrite str_app_cons, IH.
Qed.

Lemma str_app_split a b c d :
  a +:+ b = c +:+ d ->
  (exists u, c = a +:+ u /\ b = u +:+ d) \/ (exists u, u <> "" /\ a = c +:+ u /\ d = u +:+ b).
Proof.
  revert c. induction a as [|x a IH]; intros c E.
  - left. exists c. by rewrite str_app_nil in *.
  - destruct c as [|y c]; [right; exists (String x a); split; [done|]; by rewrite str_app_nil in *|].
    rewrite !str_app_cons in E. injection E as <- E.
    apply IH in E as [(u & -> & ->)|(u & Hu & -> & ->)]; [left|right]; exists u; by rewrite ?str_app_cons.
Qed.

(** The segments make up the text, the hits are matches, and at a kept
    character no match begins. *)
Definition cut_ok (p : pat) (l : list segment) : Prop :=
  (forall m, Hit m ∈ l -> matches (re_of p) m) /\
  forall l1 c l2, l = l1 ++ Keep c :: l2 -> forall a b, source (Keep c :: l2) = a +:+ b -> ~ matches (re_of p) a.

Lemma segments_ok p s : nullable (re_of p) = false ->
  forall skip, source (segments p skip s) = str_drop skip s /\ cut_ok p (segments p skip s).
Proof.
  intros Hn. induction s as [|c s IH]; intros skip.
  - destruct skip; (split; [done|]); (split; [intros m Hm; by apply not_elem_of_nil in Hm|]); intros [] ? ? [=].
  - cbn [segments]. destruct skip as [|k]; [|apply IH].
    assert (Hkeep : (forall a b, String c s = a +:+ b -> ~ matches (re_of p) a) ->
      source (Keep c :: segments p 0 s) = String c s /\ cut_ok p (Keep c :: segments p 0 s)).
    { intros Hno. destruct (IH 0) as (Hs & Hm & Hk). cbn [str_drop] in Hs. split.
      - by rewrite source_keep, Hs.
      - split.
        + intros m [[=]|Hin]%elem_of_cons. by apply Hm.
        + intros [|x l1] c' l2 [=].
          * subst. rewrite source_keep, Hs. exact Hno.
          * by eapply Hk. }
    pose proof (pmatch_spec p (String c s)) as Hp. destruct (pmatch p (String c s)) as [rest|]; [|by apply Hkeep].
    destruct Hp as (a & E & Ha).
    assert (String.length (String c s) - String.length rest = String.length a) as ->
      by (rewrite E, str_length_app; lia).
    destruct a as [|x a]; [apply nullable_spec in Ha; congruence|].
    injection E as <- ->. cbn [String.length]. destruct (IH (String.length a)) as (Hs & Hm & Hk).
    assert (str_take (S (String.length a)) (String c (a +:+ rest)) = String c a) as ->.
    { cbn. f_equal. clear. induction a as [|x a IHa]; [by destruct rest|]. rewrite str_app_cons. cbn. by rewrite IHa. }
    split.
    + rewrite source_hit, Hs, str_drop_app. done.
    + split; [intros m [[= ->]|Hin]%elem_of_cons; [done|by apply Hm]|].
      intros [|y l1] c' l2 [=]. by eapply Hk.
Qed.

(** A position in the displayed text is before a segment or inside a replacement. *)
Lemma display_cut rep l x w :
  display rep l = x +:+ w ->
  (exists l1 l2, l = l1 ++ l2 /\ x = display rep l1 /\ w = display rep l2) \/
  (exists l1 m l2 u v, l = l1 ++ Hit m :: l2 /\ rep = u +:+ v /\ v <> "" /\ w = v +:+ display rep l2).
Proof.
  revert x. induction l as [|[c|m] l IH]; intros x E.
  - left. exists [], []. destruct x; [by split_and!|done].
  - destruct x as [|y x]; [left; exists [], (Keep c :: l); rewrite str_app_nil in E; by split_and!|].
    rewrite display_keep in E. injection E as <- E.
    apply IH in E as [(l1 & l2 & -> & -> & ->)|(l1 & m & l2 & u & v & -> & Hr & Hv & ->)].
    + left. exists (Keep c :: l1), l2. by split_and!.
    + right. exists (Keep c :: l1), m, l2, u, v. by split_and!.
  - rewrite display_hit in E. apply str_app_split in E as [(u & -> & E)|(u & Hu & -> & ->)].
    + apply IH in E as [(l1 & l2 & -> & -> & ->)|(l1 & m' & l2 & u' & v & -> & Hr & Hv & ->)].
      * left. exists (Hit m :: l1), l2. by split_and!.
      * right. exists (Hit m :: l1), m', l2, u', v. by split_and!.
    + right. exists [], m, l, x, u. by split_and!.
Qed.

(** ** Patterns that do not begin inside a replacement *)

Definition is_none (r : re) : bool := match r with RNone => true | _ => false end.

(** No text that begins with [v] has a prefix in the language. *)
Fixpoint dead (r : re) (v : string) : bool :=
  is_none r || match v with "" => false | String c v' => negb (nullable r) && dead (deriv c r) v' end.

Lemma dead_spec r v w a b : dead r v = true -> v +:+ w = a +:+ b -> ~ matches r a.
Proof.
  revert r a. induction v as [|c v IH]; intros r a; cbn [dead].
  - rewrite orb_false_r. destruct r; try done. intros _ _. apply matches_none.
  - intros [Hr|Hv]%orb_true_iff E Hm; [destruct r; try done; by eapply matches_none|].
    apply andb_true_iff in Hv as [Hn Hv]. destruct a as [|x a].
    + apply nullable_spec in Hm. by rewrite Hm in Hn.
    + rewrite !str_app_cons in E. injection E as <- E. eapply IH; [exact Hv|exact E|]. by apply deriv_spec.
Qed.

(** It is enough to look at the ends of the replacement. *)
Fixpoint never_inside (r : re) (rep : string) : bool :=
  match rep with "" => true | String _ rep' => dead r rep && never_inside r rep' end.

Lemma never_inside_spec r u v : never_inside r (u +:+ v) = true -> v <> "" -> dead r v = true.
Proof.
  induction u as [|c u IH].
  - rewrite str_app_nil. destruct v as [|c v]; [done|]. cbn [never_inside]. by intros [? _]%andb_true_iff.
  - rewrite str_app_cons. cbn [never_inside]. intros [_ Hu]%andb_true_iff. by apply IH.
Qed.

(** ** What a match in the displayed text says of the original *)

Section through.
Context (rep : string) (rest : string) (Hrep : rep = String "[" rest).
(** What is known of the hits. *)
Context (hit_ok : string -> Prop).

Definition hits_ok (l : list segment) : Prop := forall m, Hit m ∈ l -> hit_ok m.

Lemma hits_ok_app l1 l2 : hits_ok (l1 ++ l2) <-> hits_ok l1 /\ hits_ok l2.
Proof. unfold hits_ok. set_solver. Qed.

(** A match is made of kept characters only. *)
Definition tracks (p : pat) : Prop := forall l y z,
  display rep l = y +:+ z -> matches (re_of p) y ->
  exists l1 l2, l = l1 ++ l2 /\ y = display rep l1 /\ z = display rep l2 /\ matches (re_of p) (source l1).

(** A match in the display has a match in the original at the same place. *)
Definition reflects (p : pat) : Prop := forall l y z,
  hits_ok l -> display rep l = y +:+ z -> matches (re_of p) y ->
  exists a b, source l = a +:+ b /\ matches (re_of p) a.

Fixpoint no_bracket (p : pat) : bool :=
  match p with
  | PEps => true
  | PChr f | PMany _ f => negb (f "["%char)
  | PSeq p q | PAlt p q => no_bracket p && no_bracket q
  end.

Lemma kept_prefix f l y z : f "["%char = false -> str_forall f y = true -> display rep l = y +:+ z ->
  exists l1 l2, l = l1 ++ l2 /\ y = display rep l1 /\ z = display rep l2 /\ source l1 = y.
Proof.
  intros Hf. revert l. induction y as [|c y IH]; intros l Hy E.
  - exists [], l. by split_and!.
  - rewrite str_forall_cons in Hy. apply andb_true_iff in Hy as [Hc Hy]. rewrite str_app_cons in E.
    destruct l as [|[d|m] l].
    + done.
    + rewrite display_keep in E. injection E as -> E. apply IH in E as (l1 & l2 & -> & -> & -> & Hs); [|done].
      exists (Keep c :: l1), l2. split_and!; try done. by rewrite source_keep, Hs.
    + rewrite display_hit, Hrep, str_app_cons in E. injection E as <- _. congruence.
Qed.

Lemma no_bracket_tracks p : no_bracket p = true -> tracks p.
Proof.
  induction p as [|f|p IHp q IHq|p IHp q IHq|g f]; cbn [no_bracket re_of]; intros Hb l y z E Hm.
  - apply matches_eps_inv in Hm as ->. exists [], l. split_and!; try done. constructor.
  - apply matches_chr_inv in Hm as (c & -> & Hc). apply negb_true_iff in Hb.
    apply (kept_prefix f) in E as (l1 & l2 & -> & Hy & -> & Hs); [|done|by rewrite str_forall_cons, Hc].
    exists l1, l2. split_and!; try done. rewrite Hs. by constructor.
  - apply andb_true_iff in Hb as [Hp Hq]. apply matches_seq_inv in Hm as (y1 & y2 & -> & H1 & H2).
    rewrite <- str_app_assoc in E. destruct (IHp Hp _ _ _ E H1) as (l1 & l2 & -> & -> & E2 & Hm1).
    destruct (IHq Hq _ _ _ (eq_sym E2) H2) as (l3 & l4 & -> & -> & -> & Hm2).
    exists (l1 ++ l3), l4. rewrite app_assoc, display_app, source_app. split_and!; try done. by constructor.
  - apply andb_true_iff in Hb as [Hp Hq]. apply matches_alt_inv in Hm as [Hm|Hm].
    + destruct (IHp Hp l y z E Hm) as (l1 & l2 & ? & ? & ? & ?). exists l1, l2. split_and!; try done. by constructor.
    + destruct (IHq Hq l y z E Hm) as (l1 & l2 & ? & ? & ? & ?). exists l1, l2. split_and!; try done. by constructor.
  - apply negb_true_iff in Hb. apply matches_star_chr in Hm as Hy.
    apply (kept_prefix f) in E as (l1 & l2 & -> & Hd & -> & Hs); [|done|done].
    exists l1, l2. split_and!; try done. by rewrite Hs.
Qed.

Lemma reflects_tracks p : no_bracket p = true -> reflects p.
Proof.
  intros Hb l y z _ E Hm. destruct (no_bracket_tracks p Hb l y z E Hm) as (l1 & l2 & -> & _ & _ & Hs).
  exists (source l1), (source l2). by rewrite source_app.
Qed.

Lemma reflects_alt p q : reflects p -> reflects q -> reflects (PAlt p q).
Proof.
  intros Hp Hq l y z Hl E [Hm|Hm]%matches_alt_inv.
  - destruct (Hp l y z Hl E Hm) as (a & b & Es & Ha). exists a, b. split; [done|]. by constructor.
  - destruct (Hq l y z Hl E Hm) as (a & b & Es & Ha). exists a, b. split; [done|]. by constructor.
Qed.

Lemma reflects_seq p q : no_bracket p = true -> reflects q -> reflects (PSeq p q).
Proof.
  intros Hb Hq l y z Hl E (y1 & y2 & -> & H1 & H2)%matches_seq_inv. rewrite <- str_app_assoc in E.
  destruct (no_bracket_tracks p Hb _ _ _ E H1) as (l1 & l2 & -> & -> & E2 & Hm1).
  apply hits_ok_app in Hl as [_ Hl]. destruct (Hq l2 y2 z Hl (eq_sym E2) H2) as (a & b & Es & Ha).
  exists (source l1 +:+ a), b. rewrite source_app, Es, str_app_assoc. split; [done|]. by constructor.
Qed.

(** [.*?q] *)
Lemma reflects_lazy q : no_bracket q = true -> never_inside (re_of q) rep = true ->
  reflects (PSeq (PMany false any) q).
Proof.
  intros Hb Hi l y z _ E (y1 & y2 & -> & _ & H2)%matches_seq_inv. rewrite <- str_app_assoc in E.
  apply display_cut in E as [(l1 & l2 & -> & _ & E)|(l1 & m & l2 & u & v & -> & Hr & Hv & E)].
  - destruct (no_bracket_tracks q Hb _ _ _ (eq_sym E) H2) as (l3 & l4 & -> & _ & _ & Hm).
    exists (source l1 +:+ source l3), (source l4). rewrite !source_app, str_app_assoc. split; [done|].
    constructor; [|done]. apply matches_star_chr. unfold str_forall. by induction (source l1).
  - exfalso. symmetry in E. eapply dead_spec; [|exact E|exact H2]. apply (never_inside_spec _ u); [|done].
    by rewrite <- Hr.
Qed.

(** [f{n,}] *)
Lemma at_least_spec n f y : matches (re_of (at_least n f)) y <-> str_forall f y = true /\ n <= String.length y.
Proof.
  assert (re_of (times n (PChr f)) = rcount n (RChr f)) as E by (induction n as [|n IH]; [done|cbn; by rewrite IH]).
  unfold at_least. cbn [re_of]. rewrite E. split.
  - intros (a & b & -> & [Hl Ha]%matches_count_chr & Hb%matches_star_chr)%matches_seq_inv.
    rewrite str_length_app. split; [|lia]. clear -Ha Hb. induction a as [|c a IH]; [done|].
    rewrite str_app_cons, str_forall_cons in *. apply andb_true_iff in Ha as [-> Ha]. by rewrite IH.
  - intros [Hy Hn]. apply matches_seq_inv. exists (str_take n y), (str_drop n y).
    split; [by rewrite str_take_drop|]. rewrite matches_count_chr, matches_star_chr.
    clear E. revert n Hn. induction y as [|c y IH]; intros n Hn.
    + destruct n; [done|cbn in Hn; lia].
    + rewrite str_forall_cons in Hy. apply andb_true_iff in Hy as [Hc Hy]. destruct n as [|n].
      * cbn [str_take str_drop]. rewrite str_forall_cons, Hc. done.
      * cbn [str_take str_drop String.length] in *. rewrite str_forall_cons, Hc.
        destruct (IH Hy n) as [[Hl Hf] Hd]; [lia|]. split_and!; [lia|done|done].
Qed.

Lemma take_fewer f j n m :
  j <= n -> n <= String.length m -> str_forall f (str_take n m) = true ->
  str_forall f (str_take j m) = true /\ String.length (str_take j m) = j.
Proof.
  revert n m. induction j as [|j IH]; intros n m Hj Hn Hf; [by destruct m|].
  destruct m as [|c m]; [cbn in Hn; lia|]. destruct n as [|n]; [lia|]. cbn [str_take String.length] in *.
  rewrite str_forall_cons in *. apply andb_true_iff in Hf as [-> Hf].
  destruct (IH n m) as [-> ->]; [lia|lia|done|done].
Qed.

Lemma class_prefix n f k l y z :
  (forall m, hit_ok m -> n <= String.length m /\ str_forall f (str_take n m) = true) ->
  k <= n -> hits_ok l -> display rep l = y +:+ z -> str_forall f y = true -> k <= String.length y ->
  exists a b, source l = a +:+ b /\ str_forall f a = true /\ String.length a = k.
Proof.
  intros Hh. revert l y. induction k as [|k IH]; intros l y Hkn Hl E Hy Hn.
  { by exists "", (source l). }
  destruct y as [|c y]; [cbn in Hn; lia|]. rewrite str_forall_cons in Hy. apply andb_true_iff in Hy as [Hc Hy].
  destruct l as [|[d|m] l]; [done| |].
  - rewrite display_keep, str_app_cons in E. injection E as -> E. cbn [String.length] in Hn.
    destruct (IH l y) as (a & b & Es & Ha & Hla); [lia| |done|done|lia|].
    { intros m Hm. apply Hl. by right. }
    exists (String c a), b. rewrite source_keep, Es, str_forall_cons, Hc. cbn. by rewrite Hla.
  - destruct (Hh m) as [Hm Hf]; [apply Hl; by left|]. rewrite source_hit.
    exists (str_take (S k) m), (str_drop (S k) m +:+ source l).
    split; [by rewrite str_app_assoc, str_take_drop|]. by apply (take_fewer f (S k) n).
Qed.

Lemma reflects_class n f :
  (forall m, hit_ok m -> n <= String.length m /\ str_forall f (str_take n m) = true) ->
  reflects (at_least n f).
Proof.
  intros Hh l y z Hl E [Hy Hn]%at_least_spec.
  destruct (class_prefix n f n l y z Hh ltac:(lia) Hl E Hy Hn) as (a & b & Es & Ha & Hla).
  exists a, b. split; [done|]. apply at_least_spec. split; [done|lia].
Qed.

(** A pattern that begins at no kept character, nor inside a replacement, is
    nowhere in the displayed text. *)
Lemma display_clean p l :
  nullable (re_of p) = false -> never_inside (re_of p) rep = true -> reflects p -> hits_ok l ->
  (forall l1 c l2, l = l1 ++ Keep c :: l2 -> forall a b, source (Keep c :: l2) = a +:+ b -> ~ matches (re_of p) a) ->
  found p (display rep l) = false.
Proof.
  intros Hn Hi Hp Hl Hk. unfold found. destruct (re_search _ _) eqn:E; [|done].
  apply re_search_spec in E as (x & y & z & E & Hm).
  apply display_cut in E as [(l1 & l2 & -> & _ & E)|(l1 & m & l2 & u & v & -> & Hr & Hv & E)].
  - destruct l2 as [|[c|m] l2].
    + destruct y; [|done]. apply nullable_spec in Hm. congruence.
    + apply hits_ok_app in Hl as [_ Hl]. destruct (Hp _ y z Hl (eq_sym E) Hm) as (a & b & Es & Ha).
      by destruct (Hk l1 c l2 eq_refl a b Es).
    + exfalso. rewrite display_hit in E. eapply dead_spec; [|exact (eq_sym E)|exact Hm].
      apply (never_inside_spec _ ""); [exact Hi|by rewrite Hrep].
  - exfalso. eapply dead_spec; [|exact (eq_sym E)|exact Hm]. apply (never_inside_spec _ u); [|done]. by rewrite <- Hr.
Qed.
End through.

(** One pass: its own pattern is gone, and a pattern that was nowhere stays away. *)
Lemma sub_clean pr rep rest p t :
  rep = String "[" rest -> nullable (re_of pr) = false -> nullable (re_of p) = false ->
  never_inside (re_of p) rep = true -> reflects rep (matches (re_of pr)) p ->
  p = pr \/ found p t = false -> found p (sub pr rep t) = false.
Proof.
  intros Hr Hpr Hn Hi Hp Hor. unfold sub. change (join (map (shown rep) ?l)) with (display rep l).
  destruct (segments_ok pr t Hpr 0) as (Hs & Hm & Hk). cbn [str_drop] in Hs.
  apply (display_clean rep rest Hr (matches (re_of pr))); try done.
  destruct Hor as [->|Hf]; [exact Hk|]. intros l1 c l2 El a b Es Ha.
  assert (found p t = true) as Ht; [|congruence]. apply re_search_spec.
  exists (source l1), a, b. split; [|done]. by rewrite <- Es, <- source_app, <- El.
Qed.

(** ** How matches begin *)

Definition all_ascii : list ascii := map ascii_of_nat (seq 0 256).

Lemma all_ascii_elem c : In c all_ascii.
Proof.
  unfold all_ascii. rewrite <- (ascii_nat_embedding c). apply in_map, in_seq.
  pose proof (nat_ascii_bounded c). lia.
Qed.

(** Every text of the language has at least [n] characters, the first [n] in
    the class. *)
Fixpoint begins (f : ascii -> bool) (n : nat) (r : re) : bool :=
  match n with
  | 0 => true
  | S n' => negb (nullable r)
            && forallb (fun c => let d := deriv c r in
                             if is_none d then true else if f c then begins f n' d else false) all_ascii
  end.

Lemma begins_spec f n r m : begins f n r = true -> matches r m ->
  n <= String.length m /\ str_forall f (str_take n m) = true.
Proof.
  revert r m. induction n as [|n IH]; intros r m; cbn [begins]; [intros _ _; split; [lia|by destruct m]|].
  intros [Hn Hf]%andb_true_iff Hm. destruct m as [|c m].
  { apply nullable_spec in Hm. by rewrite Hm in Hn. }
  rewrite forallb_forall in Hf. specialize (Hf c (all_ascii_elem c)). apply deriv_spec in Hm.
  cbv zeta in Hf. destruct (is_none (deriv c r)) eqn:Hd.
  { destruct (deriv c r); try done. by apply matches_none in Hm. }
  destruct (f c) eqn:Hc; [rename Hf into Hb|done].
  destruct (IH _ _ Hb Hm) as [Hl Ht]. cbn [String.length str_take]. rewrite str_forall_cons, Hc. split; [lia|done].
Qed.

(** Decides [reflects] for the patterns of this module. *)
Ltac solve_reflects :=
  lazymatch goal with
  | |- reflects _ _ (PAlt _ _) => apply reflects_alt; solve_reflects
  | |- reflects _ _ (at_least ?n ?f) =>
      first [ eapply reflects_tracks; [reflexivity|reflexivity]
            | apply reflects_class; intros m; apply begins_spec; vm_compute; reflexivity ]
  | |- reflects _ _ (PSeq (PMany false any) _) =>
      eapply reflects_lazy; [reflexivity|reflexivity|vm_compute; reflexivity]
  | |- reflects _ _ (PSeq _ _) =>
      first [ eapply reflects_tracks; [reflexivity|reflexivity]
            | eapply reflects_seq; [reflexivity|reflexivity|]; solve_reflects ]
  | |- reflects _ _ _ => eapply reflects_tracks; [reflexivity|reflexivity]
  end.

Ltac solve_clean :=
  eapply sub_clean;
  [reflexivity|vm_compute; reflexivity|vm_compute; reflexivity|vm_compute; reflexivity
  |cbv delta [COT_TAG_REGEX SECRET_PATTERN TUI_SECRET_REGEX PATH_POSIX_REGEX assigned];
   cbn [alts seqs app]; solve_reflects|].

(** None of the patterns that redaction removes in full is found in a text. *)
Definition clean (t : string) : Prop :=
  found SECRET_PATTERN t = false /\ found TUI_SECRET_REGEX t = false /\
  found PATH_POSIX_REGEX t = false /\ found COT_TAG_REGEX t = false.

Lemma redact_ui_clean text : clean (redact_ui_text text).
Proof.
  destruct text as [t|]; [|split_and!; reflexivity]. unfold clean, redact_ui_text, redact_text, passes.
  cbn [fold_left fst snd]. split_and!.
  - do 3 (solve_clean; right). solve_clean. by left.
  - do 2 (solve_clean; right). solve_clean. by left.
  - solve_clean. by left.
  - do 4 (solve_clean; right). solve_clean. by left.
Qed.

(** C27: Redaction is complete: whatever the text, no part of the redacted text
    matches either secret pattern, the pattern of POSIX paths or the pattern of
    marked reasoning; not even a part made by joining what two replacements
    left, or one that reaches into a replacement. *)
Theorem redacted_clean text :
  let shown := redact_ui_text text in
  found SECRET_PATTERN shown = false /\ found TUI_SECRET_REGEX shown = false /\
  found PATH_POSIX_REGEX shown = false /\ found COT_TAG_REGEX shown = false.
Proof. exact (redact_ui_clean text). Qed.

(** Windows paths are the exception: two of them without a separator leave a
    short one that now continues into the replacement of the second. *)
Example windows_path_left :
  redact_text "D:\abC:\xyzw" = "D:\ab[REDACTED PATH]" /\
  contains_secrets_or_paths (redact_text "D:\abC:\xyzw") = true.
Proof. split; vm_compute; reflexivity. Qed.

(** Reasoning whose tag is not closed stays. *)
Example open_tag_left : redact_text "<think>first try" = "<think>first try".
Proof. vm_compute. reflexivity. Qed.
