(* ===== verification/GatewayConfig.v ===== *)
(** * Gateway configuration and upstream credentials

    [kin_gateway/config.py] and [kin_gateway/upstream/credentials.py].  A
    pydantic model is a record; building one runs its validators and yields a
    [result].  URL splitting and IP address parsing are library code: they are
    the operations of the classes [UrlLib] and [IpLib], and every theorem holds
    for every instance.

    The class [CredentialProvider] is the interface the proxy uses; its law
    says that a provider only ever supplies well-formed, non-reserved headers.
    The three providers of the code are instances. *)

From Stdlib Require Import Ascii String ZArith QArith Lia.
From stdpp Require Import base list strings.
From S2P Require Import Prelude Regex.

(** ** Library interfaces *)

(** The fields of [urllib.parse.SplitResult] the code reads; [u_port] is [Err]
    when reading [.port] raises [ValueError]. *)
Record url_parts := {
  u_scheme : string;
  u_netloc : string;
  u_hostname : option string;
  u_port : result unit (option Z);
  u_username : option string;
  u_password : option string;
  u_query : string;
  u_fragment : string
}.

(** [urlsplit], [None] when it raises [ValueError]. *)
Class UrlLib := urlsplit : string -> option url_parts.

(** [ipaddress.ip_address] and the classification of an address. *)
Class IpLib := {
  ip_addr : Type;
  ip_address : string -> option ip_addr;
  ip_text : ip_addr -> string;
  is_private : ip_addr -> bool;
  is_loopback : ip_addr -> bool;
  is_link_local : ip_addr -> bool;
  is_global : ip_addr -> bool
}.

(** ** Credential settings *)

Definition RESERVED_UPSTREAM_HEADERS : list string :=
  ["a2a-extensions"; "a2a-version"; "connection"; "content-length";
   "content-type"; "host"; "transfer-encoding"].

Inductive credential_mode := Private | Header.

#[export] Instance credential_mode_eq_dec : EqDecision credential_mode.
Proof. solve_decision. Defined.

Record UpstreamCredentialSettings := {
  mode : credential_mode;
  header_name : option string;
  secret_ref : option string;
  value_prefix : string
}.

(** The validation errors of the configuration models. *)
Inductive config_error :=
| HeaderNotToken
| HeaderReserved
| HeaderModeNeedsName
| HeaderModeNeedsSecret
| BindHostNotPrivateIp
| BindHostPublic
| TokenNeedsSecretRef
| MtlsForbidsToken
| OutOfRange
| UrlBadPort
| UrlBadScheme
| UrlNoHost
| UrlHostSpace
| UrlHasCredentials
| UrlHasQuery
| UrlEmpty
| HeaderValueInvalid
| SecretRefEmpty
| SecretProviderMissing
| ExplicitProviderConflict.

(** [[A-Za-z0-9-]+]. *)
Definition header_token : re := rplus (RChr (cc_or cc_alnum (cc_of "-"))).

Definition validate_header_name (value : option string) : result config_error (option string) :=
  match value with
  | None => Ok None
  | Some v =>
      if negb (re_fullmatch header_token v) then Err HeaderNotToken
      else if str_in (lower v) RESERVED_UPSTREAM_HEADERS then Err HeaderReserved
      else Ok (Some v)
  end.

Definition opt_truthy (o : option string) : bool :=
  match o with Some s => truthy s | None => false end.

Definition validate_mode_fields (s : UpstreamCredentialSettings)
  : result config_error UpstreamCredentialSettings :=
  if bool_decide (mode s = Header) && negb (opt_truthy (header_name s))
  then Err HeaderModeNeedsName
  else if bool_decide (mode s = Header) && negb (opt_truthy (secret_ref s))
  then Err HeaderModeNeedsSecret
  else Ok s.

(** Field validator, then model validator. *)
Definition make_credential_settings (m : credential_mode) (hn sr : option string) (vp : string)
  : result config_error UpstreamCredentialSettings :=
  let? hn' := validate_header_name hn in
  validate_mode_fields {| mode := m; header_name := hn'; secret_ref := sr; value_prefix := vp |}.

(** ** Agent Card, admin and gateway settings *)

Record AgentCardMirrorSettings := {
  approved_skill_ids : list string;
  trusted_private_hosts : list string;
  max_response_bytes : Z;
  max_redirects : nat;
  fetch_timeout_seconds : Q;
  cache_ttl_seconds : Q
}.

Definition Qin (lo x hi : Q) : bool := Qle_bool lo x && Qle_bool x hi.

Definition make_agent_card_settings (skills hosts : list string) (bytes_max redirects : Z)
    (timeout ttl : Q) : result config_error AgentCardMirrorSettings :=
  if ((1 <=? bytes_max) && (bytes_max <=? 4194304) && (0 <=? redirects) && (redirects <=? 10))%Z
     && Qin (1 # 1000) timeout 60 && Qin 0 ttl 3600
  then Ok {| approved_skill_ids := skills; trusted_private_hosts := hosts;
             max_response_bytes := bytes_max; max_redirects := Z.to_nat redirects;
             fetch_timeout_seconds := timeout; cache_ttl_seconds := ttl |}
  else Err OutOfRange.

Inductive admin_authentication := Token | Mtls.

#[export] Instance admin_authentication_eq_dec : EqDecision admin_authentication.
Proof. solve_decision. Defined.

Record AdminPlaneSettings := {
  admin_bind_host : string;
  admin_port : Z;
  authentication : admin_authentication;
  token_secret_ref : option string
}.

Definition port_ok (p : Z) : bool := ((1 <=? p) && (p <=? 65535))%Z.

Definition require_private_bind_host `{IpLib} (value : string) : result config_error string :=
  if String.eqb (lower value) "localhost" then Ok value
  else match ip_address value with
       | None => Err BindHostNotPrivateIp
       | Some address =>
           if negb (is_private address || is_loopback address || is_link_local address)
           then Err BindHostPublic
           else Ok value
       end.

Definition require_authentication_configuration (s : AdminPlaneSettings)
  : result config_error AdminPlaneSettings :=
  if bool_decide (authentication s = Token) && negb (opt_truthy (token_secret_ref s))
  then Err TokenNeedsSecretRef
  else if bool_decide (authentication s = Mtls) && bool_decide (token_secret_ref s <> None)
  then Err MtlsForbidsToken
  else Ok s.

Definition make_admin_settings `{IpLib} (host : string) (port : Z) (auth : admin_authentication)
    (token : option string) : result config_error AdminPlaneSettings :=
  let? host' := require_private_bind_host host in
  if negb (port_ok port) then Err OutOfRange
  else require_authentication_configuration
         {| admin_bind_host := host'; admin_port := port; authentication := auth;
            token_secret_ref := token |}.

Record GatewaySettings := {
  public_base_url : string;
  bind_host : string;
  port : Z;
  stream_read_timeout_seconds : Q;
  upstream_base_url : string;
  upstream_credential : UpstreamCredentialSettings;
  agent_card : AgentCardMirrorSettings
}.

Definition is_slash (c : ascii) : bool := Ascii.eqb c "/".

Definition normalize_base_url `{UrlLib} (value : string) : result config_error string :=
  let normalized := rstrip_by is_slash value in
  match urlsplit normalized with
  | None => Err UrlBadPort
  | Some parsed =>
      match u_port parsed with
      | Err _ => Err UrlBadPort
      | Ok _ =>
          if negb (str_in (u_scheme parsed) ["http"; "https"]) then Err UrlBadScheme
          else if negb (opt_truthy (u_hostname parsed)) then Err UrlNoHost
          else if str_exists is_space (default "" (u_hostname parsed)) then Err UrlHostSpace
          else if bool_decide (u_username parsed <> None) || bool_decide (u_password parsed <> None)
          then Err UrlHasCredentials
          else if truthy (u_query parsed) || truthy (u_fragment parsed) then Err UrlHasQuery
          else Ok normalized
      end
  end.

Definition make_gateway_settings `{UrlLib} (public upstream host : string) (p : Z) (timeout : Q)
    (cred : UpstreamCredentialSettings) (card : AgentCardMirrorSettings)
  : result config_error GatewaySettings :=
  let? _ := ensure (truthy public && truthy upstream) UrlEmpty in
  let? public' := normalize_base_url public in
  let? upstream' := normalize_base_url upstream in
  let? _ := ensure (port_ok p && Qin (1 # 1000) timeout 3600) OutOfRange in
  Ok {| public_base_url := public'; bind_host := host; port := p;
        stream_read_timeout_seconds := timeout; upstream_base_url := upstream';
        upstream_credential := cred; agent_card := card |}.

(** ** Credential providers *)

Record RequestContext := { ctx_method : string; ctx_url : string }.

Abbreviation header_map := (list (string * string)).

(** [SecretProvider.get_secret]: [None] when it raises. *)
Abbreviation SecretProvider := (string -> option string).

(** [MappingSecretProvider.get_secret]: the value of the mapping, or
    [ValueError] for a missing key. *)
Definition MappingSecretProvider (secrets : list (string * string)) : SecretProvider :=
  fun secret_ref => snd <$> find_first (fun kv => String.eqb kv.1 secret_ref) secrets.

(** Exceptions a provider call can end with: the declared
    [UpstreamCredentialError], or anything else. *)
Inductive provider_error := UpstreamCredentialError | ProviderCrash.

(** [_validate_header]. *)
Definition validate_header (name value : string) : result config_error unit :=
  let? _ := make_credential_settings Header (Some name) (Some "validation-only") "" in
  if negb (truthy value) || str_exists (Ascii.eqb "013") value || str_exists (Ascii.eqb "010") value
  then Err HeaderValueInvalid
  else Ok tt.

Record StaticHeaderCredentialProvider := {
  static_name : string;
  static_value : string
}.

Definition make_static_provider (name value : string)
  : result config_error StaticHeaderCredentialProvider :=
  let? _ := validate_header name value in
  Ok {| static_name := name; static_value := value |}.

Record SecretBackedCredentialProvider := {
  sb_header_name : string;
  sb_secret_ref : string;
  sb_value_prefix : string;
  sb_secret_provider : SecretProvider
}.

Definition make_secret_backed_provider (name ref prefix : string) (sp : SecretProvider)
  : result config_error SecretBackedCredentialProvider :=
  let? _ := validate_header name (if truthy prefix then prefix else "placeholder") in
  if negb (truthy ref) then Err SecretRefEmpty
  else Ok {| sb_header_name := name; sb_secret_ref := ref; sb_value_prefix := prefix;
             sb_secret_provider := sp |}.

Definition no_credential_headers_for (_ : RequestContext) : result provider_error header_map :=
  Ok [].

Definition static_headers_for (p : StaticHeaderCredentialProvider) (_ : RequestContext)
  : result provider_error header_map :=
  Ok [(static_name p, static_value p)].

Definition secret_backed_headers_for (p : SecretBackedCredentialProvider) (_ : RequestContext)
  : result provider_error header_map :=
  match sb_secret_provider p (sb_secret_ref p) with
  | None => Err UpstreamCredentialError
  | Some secret =>
      if negb (truthy secret) then Err UpstreamCredentialError
      else
        let value := sb_value_prefix p +:+ secret in
        match validate_header (sb_header_name p) value with
        | Err _ => Err UpstreamCredentialError
        | Ok _ => Ok [(sb_header_name p, value)]
        end
  end.

(** One of the supported providers, as [build_upstream_credential_provider]
    returns it. *)
Inductive upstream_provider :=
| NoCredentialProvider
| StaticProvider (p : StaticHeaderCredentialProvider)
| SecretBackedProvider (p : SecretBackedCredentialProvider).

Definition headers_for (p : upstream_provider) (ctx : RequestContext)
  : result provider_error header_map :=
  match p with
  | NoCredentialProvider => no_credential_headers_for ctx
  | StaticProvider p => static_headers_for p ctx
  | SecretBackedProvider p => secret_backed_headers_for p ctx
  end.

Definition build_upstream_credential_provider (s : UpstreamCredentialSettings)
    (sp : option SecretProvider) : result config_error upstream_provider :=
  match mode s with
  | Private => Ok NoCredentialProvider
  | Header =>
      match sp with
      | None => Err SecretProviderMissing
      | Some sp =>
          let? p := make_secret_backed_provider (default "" (header_name s))
                      (default "" (secret_ref s)) (value_prefix s) sp in
          Ok (SecretBackedProvider p)
      end
  end.

(** The choice of provider in [create_gateway_app]: an injected provider cannot
    be combined with credential settings. *)
Definition gateway_credential_provider (explicit : option upstream_provider)
    (s : UpstreamCredentialSettings) (sp : option SecretProvider)
  : result config_error upstream_provider :=
  match explicit with
  | Some p =>
      match sp, mode s with
      | None, Private => Ok p
      | _, _ => Err ExplicitProviderConflict
      end
  | None => build_upstream_credential_provider s sp
  end.

(** ** Header safety *)

(** What the seam promises about a header it supplies: an HTTP token that is
    not reserved by the gateway, and a non-empty value that cannot start a new
    header line. *)
Definition safe_header (h : string * string) : Prop :=
  h.1 <> "" /\ str_forall (cc_or cc_alnum (cc_of "-")) h.1 = true /\
  (lower h.1 ∉ RESERVED_UPSTREAM_HEADERS) /\
  h.2 <> "" /\
  str_exists (Ascii.eqb "013") h.2 = false /\ str_exists (Ascii.eqb "010") h.2 = false.

(** The interface of the proxy towards its credential source. *)
Class CredentialProvider (P : Type) := {
  provide : P -> RequestContext -> result provider_error header_map;
  provide_safe : forall p ctx hs, provide p ctx = Ok hs -> Forall safe_header hs
}.

Lemma validate_header_safe name value :
  validate_header name value = Ok tt -> safe_header (name, value).
Proof.
  unfold validate_header, make_credential_settings, validate_header_name. intros H.
  destruct (re_fullmatch header_token name) eqn:Etok; cbn in H; [|discriminate].
  destruct (str_in (lower name) RESERVED_UPSTREAM_HEADERS) eqn:Eres; cbn in H; [discriminate|].
  unfold validate_mode_fields in H. cbn in H.
  destruct (truthy name); cbn in H; [|discriminate].
  destruct (_ || _ || _) eqn:Ev in H; [discriminate|]. split_bools.
  apply re_fullmatch_spec, matches_plus_chr in Etok as [Hne Hcs].
  unfold safe_header; cbn. split_and!; try done.
  - intros Hin%str_in_spec. congruence.
  - intros ->. discriminate.
Qed.

Lemma make_static_safe name value p :
  make_static_provider name value = Ok p ->
  safe_header (static_name p, static_value p).
Proof.
  unfold make_static_provider. intros ([] & Hv & [= <-])%rbind_Ok. by apply validate_header_safe.
Qed.

Lemma secret_backed_safe p ctx hs :
  secret_backed_headers_for p ctx = Ok hs -> Forall safe_header hs.
Proof.
  unfold secret_backed_headers_for. intros H. split_match_in H. inv H.
  constructor; [|done]. apply validate_header_safe. by destruct a.
Qed.

(** A provider accepted by its constructor: the static one validates its
    header when it is built. *)
Definition provider_ok (p : upstream_provider) : Prop :=
  match p with
  | StaticProvider q => safe_header (static_name q, static_value q)
  | _ => True
  end.

Lemma headers_for_safe p ctx hs :
  provider_ok p -> headers_for p ctx = Ok hs -> Forall safe_header hs.
Proof.
  destruct p as [|q|q]; cbn; intros Hok H.
  - inv H. constructor.
  - inv H. by constructor.
  - by apply secret_backed_safe in H.
Qed.

#[export] Instance upstream_provider_credential :
  CredentialProvider {p : upstream_provider | provider_ok p} :=
  { provide p ctx := headers_for (proj1_sig p) ctx;
    provide_safe p ctx hs := headers_for_safe (proj1_sig p) ctx hs (proj2_sig p) }.

(** ** Properties *)

(** Whatever the secret store returns, every header the provider chosen at
    start-up supplies is an HTTP token not reserved by the gateway with a
    non-empty one-line value, so that a stored secret can neither replace a
    protocol header nor inject one. *)
Theorem provider_headers_safe explicit s sp p ctx hs :
  gateway_credential_provider explicit s sp = Ok p ->
  (forall q, explicit = Some q -> provider_ok q) ->
  headers_for p ctx = Ok hs ->
  Forall safe_header hs.
Proof.
  intros Hb Hok. apply headers_for_safe. unfold gateway_credential_provider in Hb.
  destruct explicit as [q|].
  - repeat case_match; simplify_eq. eauto.
  - unfold build_upstream_credential_provider in Hb.
    destruct (mode s); [by inv Hb|]. destruct sp; [|discriminate].
    apply rbind_Ok in Hb as (q & _ & [= <-]). done.
Qed.

Lemma provider_headers_safe_witness :
  exists p hs,
    gateway_credential_provider None
      {| mode := Header; header_name := Some "Authorization"; secret_ref := Some "k";
         value_prefix := "Bearer " |}
      (Some (MappingSecretProvider [("k", "s3cret")])) = Ok p /\
    headers_for p {| ctx_method := "POST"; ctx_url := "https://up/a2a/jsonrpc" |} = Ok hs /\
    hs = [("Authorization", "Bearer s3cret")] /\ Forall safe_header hs.
Proof.
  eexists _, _. split; [reflexivity|]. split; [reflexivity|]. split; [reflexivity|].
  eapply (provider_headers_safe None
    {| mode := Header; header_name := Some "Authorization"; secret_ref := Some "k";
       value_prefix := "Bearer " |}
    (Some (MappingSecretProvider [("k", "s3cret")]))
    _ {| ctx_method := "POST"; ctx_url := "https://up/a2a/jsonrpc" |}).
  - reflexivity.
  - discriminate.
  - reflexivity.
Defined.

(** A secret that contains a line break is never turned into a header: the
    provider answers with [UpstreamCredentialError]. *)
Theorem secret_with_newline_refused p ctx secret :
  sb_secret_provider p (sb_secret_ref p) = Some secret ->
  str_exists (Ascii.eqb "013") secret || str_exists (Ascii.eqb "010") secret = true ->
  headers_for (SecretBackedProvider p) ctx = Err UpstreamCredentialError.
Proof.
  intros Hs Hnl. cbn. unfold secret_backed_headers_for. rewrite Hs.
  destruct (truthy secret); [|done]. cbn.
  destruct (validate_header _ _) as [[]|] eqn:E; [exfalso|done].
  apply validate_header_safe in E as (_ & _ & _ & _ & H1 & H2). cbn in H1, H2.
  rewrite str_exists_app in H1, H2. split_bools.
  apply orb_true_iff in Hnl as []; congruence.
Qed.

Lemma secret_with_newline_refused_witness :
  headers_for (SecretBackedProvider
    {| sb_header_name := "X-Key"; sb_secret_ref := "k"; sb_value_prefix := "";
       sb_secret_provider := MappingSecretProvider [("k", String "a" (String "010" "b"))] |})
    {| ctx_method := "GET"; ctx_url := "u" |} = Err UpstreamCredentialError.
Proof.
  eapply secret_with_newline_refused; reflexivity.
Defined.

(** A base URL accepted by the settings has no trailing slash, an HTTP
    scheme, a host without white space, no user information, no query and no
    fragment, and normalising it again changes nothing. *)
Theorem normalized_base_url `{UrlLib} value url :
  normalize_base_url value = Ok url ->
  url = rstrip_by is_slash value /\
  normalize_base_url url = Ok url /\
  exists parsed host,
    urlsplit url = Some parsed /\ u_hostname parsed = Some host /\ host <> "" /\
    str_exists is_space host = false /\
    (u_scheme parsed = "http" \/ u_scheme parsed = "https") /\
    u_username parsed = None /\ u_password parsed = None /\
    u_query parsed = "" /\ u_fragment parsed = "".
Proof.
  assert (forall s, rstrip_by is_slash (rstrip_by is_slash s) = rstrip_by is_slash s) as Hidem.
  { intros s. induction s as [|c s IH]; [done|]. cbn.
    destruct (rstrip_by is_slash s) as [|c' t] eqn:E.
    - destruct (is_slash c) eqn:Ec; [done|]. cbn. by rewrite Ec.
    - cbn in IH |- *. by rewrite IH. }
  intros Hn. pose proof Hn as Hn'. unfold normalize_base_url in Hn'. cbn zeta in Hn'.
  destruct (urlsplit _) as [parsed|] eqn:Eu; [|discriminate].
  destruct (u_port parsed); [|discriminate].
  split_match_in Hn'. injection Hn' as <-.
  split; [done|]. split; [unfold normalize_base_url in *; by rewrite Hidem|].
  split_bools.
  match goal with Hs : str_in _ _ = true |- _ =>
    apply str_in_spec in Hs; rewrite !elem_of_cons, elem_of_nil in Hs end.
  exists parsed. destruct (u_hostname parsed) as [host|]; [|discriminate]. exists host.
  cbn in *. split_and!; try done.
  - by apply truthy_spec.
  - tauto.
  - destruct (u_username parsed); [|done]. exfalso; intuition discriminate.
  - destruct (u_password parsed); [|done]. exfalso; intuition discriminate.
  - destruct (u_query parsed); [done|discriminate].
  - destruct (u_fragment parsed); [done|discriminate].
Qed.

(** A splitter that knows one URL, for evaluation. *)
Definition demo_urlsplit : UrlLib := fun s =>
  if String.eqb s "https://gw.example"
  then Some {| u_scheme := "https"; u_netloc := "gw.example"; u_hostname := Some "gw.example";
               u_port := Ok None; u_username := None; u_password := None;
               u_query := ""; u_fragment := "" |}
  else None.

Lemma normalized_base_url_witness :
  @normalize_base_url demo_urlsplit "https://gw.example//" = Ok "https://gw.example" /\
  @normalize_base_url demo_urlsplit "https://gw.example" = Ok "https://gw.example".
Proof.
  split; [reflexivity|].
  apply (@normalized_base_url demo_urlsplit "https://gw.example//" "https://gw.example").
  reflexivity.
Defined.
