(* ===== verification/GatewaySessions.v ===== *)
(** * Observer-only session records of the gateway

    [kin_gateway/sessions.py]: the deterministic request hash, the best-effort
    task-id observation and the tracker that builds one completion record per
    proxy attempt.  The tracker is a mutable object shared by the handler and
    the streaming generator, so [complete] is a state transformer on it. *)

From Stdlib Require Import Ascii String ZArith Lia.
From stdpp Require Import base list strings.
From S2P Require Import Prelude Codec PyValue.

Record ExternalTaskSession := {
  session_id : string;
  a2a_task_id : option string;
  transport : string;
  request_method : string;
  request_hash : string;
  upstream : string;
  started_at : Z;
  ended_at : Z;
  outcome : string
}.

(** ** Request hash *)

(** [{name.lower(): value for name, value in headers.items()}]: of several
    headers with one name the last one stays. *)
Definition normalized_headers (headers : list (string * string)) : list (string * string) :=
  fold_left (fun d h => obj_set (lower h.1) h.2 d) headers [].

Definition HASHED_HEADERS : list string :=
  ["a2a-version"; "a2a-extensions"; "accept"; "content-type"; "last-event-id"].

(** The protocol headers that enter the hash, in the order of the tuple. *)
Definition protocol_headers (headers : list (string * string)) : list (string * json) :=
  omap (fun name => (fun v => (name, JStr v)) <$> obj_get name (normalized_headers headers))
    HASHED_HEADERS.

Definition request_envelope (transport request_method target : string)
    (headers : list (string * string)) (body : bytes) : json :=
  JObj [("body_sha256", JStr (sha256_hex body));
        ("headers", JObj (protocol_headers headers));
        ("request_method", JStr request_method);
        ("target", JStr target);
        ("transport", JStr transport)].

Definition deterministic_request_hash (transport request_method target : string)
    (headers : list (string * string)) (body : bytes) : string :=
  sha256_hex (utf8_encode (json_dumps dumps_canonical
    (request_envelope transport request_method target headers body))).

(** ** Task identifier observed in a buffered response *)

Section decoder.
(** [json.loads] on the response bytes; [None] for [ValueError]. *)
Context (json_loads : bytes -> option json).

Definition task_id_from_response (response_body : option bytes) : option string :=
  match response_body with
  | None => None
  | Some body =>
      if negb (truthy body) then None
      else match json_loads body with
           | Some (JObj document) =>
               match default (JObj document) (obj_get "result" document) with
               | JObj candidate =>
                   match default (JObj candidate) (obj_get "task" candidate) with
                   | JObj task =>
                       match obj_get "id" task with
                       | Some (JStr task_id) => if truthy task_id then Some task_id else None
                       | _ => None
                       end
                   | _ => None
                   end
               | _ => None
               end
           | _ => None
           end
  end.

(** ** Tracker *)

Record ExternalTaskSessionTracker := {
  t_session_id : string;
  t_transport : string;
  t_request_method : string;
  t_upstream : string;
  t_started_at : Z;
  t_request_hash : string;
  t_completed : bool
}.

Definition new_tracker (uuid : string) (now : Z) (transport request_method target upstream : string)
    (headers : list (string * string)) (body : bytes) : ExternalTaskSessionTracker :=
  {| t_session_id := uuid;
     t_transport := transport;
     t_request_method := request_method;
     t_upstream := upstream;
     t_started_at := now;
     t_request_hash := deterministic_request_hash transport request_method target headers body;
     t_completed := false |}.

Definition mark_completed (t : ExternalTaskSessionTracker) : ExternalTaskSessionTracker :=
  {| t_session_id := t_session_id t; t_transport := t_transport t;
     t_request_method := t_request_method t; t_upstream := t_upstream t;
     t_started_at := t_started_at t; t_request_hash := t_request_hash t;
     t_completed := true |}.

Definition completion_record (t : ExternalTaskSessionTracker) (ended : Z) (out : string)
    (response_body : option bytes) : ExternalTaskSession :=
  {| session_id := t_session_id t;
     a2a_task_id := task_id_from_response response_body;
     transport := t_transport t;
     request_method := t_request_method t;
     request_hash := t_request_hash t;
     upstream := t_upstream t;
     started_at := t_started_at t;
     ended_at := ended;
     outcome := out |}.

(** [complete]: the new tracker, and the record handed to the observer when
    there is one ([has_observer]); what the observer does with it, raising
    included, has no effect on the caller. *)
Definition tracker_complete (has_observer : bool) (t : ExternalTaskSessionTracker)
    (ended : Z) (out : string) (response_body : option bytes)
  : ExternalTaskSessionTracker * list ExternalTaskSession :=
  if t_completed t then (t, [])
  else
    let session := completion_record t ended out response_body in
    (mark_completed t, if has_observer then [session] else []).

(** ** Lemmas *)

Lemma tracker_complete_once obs t ended out body t' rs ended' out' body' :
  tracker_complete obs t ended out body = (t', rs) ->
  t_completed t' = true /\ tracker_complete obs t' ended' out' body' = (t', []).
Proof.
  unfold tracker_complete. destruct (t_completed t) eqn:E; intros [= <- <-]; cbn.
  - by rewrite E.
  - done.
Qed.

Lemma task_id_sound body id :
  task_id_from_response body = Some id ->
  id <> "" /\
  exists b document candidate task,
    body = Some b /\ json_loads b = Some (JObj document) /\
    default (JObj document) (obj_get "result" document) = JObj candidate /\
    default (JObj candidate) (obj_get "task" candidate) = JObj task /\
    obj_get "id" task = Some (JStr id).
Proof.
  unfold task_id_from_response. intros H. split_match_in H. injection H as <-.
  split; [by apply truthy_spec|]. eauto 10.
Qed.

End decoder.

(** ** What the hash depends on *)

Lemma normalized_lookup n (hs d : list (string * string)) :
  obj_get n (fold_left (fun d h => obj_set (lower h.1) h.2 d) hs d) =
  match find_first (fun h => String.eqb n (lower h.1)) (reverse hs) with
  | Some h => Some h.2
  | None => obj_get n d
  end.
Proof.
  revert d. induction hs as [|h hs IH]; intros d; [done|]. cbn [fold_left].
  rewrite IH, reverse_cons, find_first_app.
  destruct (find_first _ (reverse hs)); [done|]. cbn.
  destruct (String.eqb n (lower h.1)) eqn:E.
  - apply String.eqb_eq in E as ->. apply obj_get_set_eq.
  - apply String.eqb_neq in E. by apply obj_get_set_ne.
Qed.

(** The value of a hashed header: the last header whose lower-cased name it is. *)
Definition effective_header (n : string) (hs : list (string * string)) : option string :=
  snd <$> find_first (fun h => String.eqb n (lower h.1)) (reverse hs).

Lemma normalized_effective n hs : obj_get n (normalized_headers hs) = effective_header n hs.
Proof.
  unfold normalized_headers, effective_header. rewrite normalized_lookup.
  by destruct (find_first _ _).
Qed.

Lemma effective_filter (keep : string -> bool) n hs :
  keep n = true ->
  effective_header n (List.filter (fun h => keep (lower h.1)) hs) = effective_header n hs.
Proof.
  intros Hk. unfold effective_header. f_equal.
  induction hs as [|h hs IH]; [done|]. cbn [List.filter].
  rewrite reverse_cons, find_first_app, <- IH.
  destruct (keep (lower h.1)) eqn:E.
  - by rewrite reverse_cons, find_first_app.
  - cbn [find_first]. destruct (String.eqb n (lower h.1)) eqn:E'; [|by destruct (find_first _ _)].
    apply String.eqb_eq in E' as ->. congruence.
Qed.

Lemma protocol_headers_ext hs hs' :
  (forall n, n ∈ HASHED_HEADERS -> effective_header n hs = effective_header n hs') ->
  protocol_headers hs = protocol_headers hs'.
Proof.
  unfold protocol_headers. generalize HASHED_HEADERS. intros l H.
  induction l as [|n l IH]; [done|]. cbn.
  rewrite !normalized_effective, H by left.
  rewrite IH; [done|]. intros m Hm. apply H. by right.
Qed.

(** ** Properties *)

(** The request hash is a function of the transport, method, target, body
    digest and the five protocol headers only: dropping every other header
    (credentials, cookies, tracing) from a request leaves its hash unchanged. *)
Theorem request_hash_credential_free tr m target hs body :
  deterministic_request_hash tr m target
    (List.filter (fun h => str_in (lower h.1) HASHED_HEADERS) hs) body
  = deterministic_request_hash tr m target hs body.
Proof.
  unfold deterministic_request_hash, request_envelope. do 3 f_equal.
  rewrite (protocol_headers_ext _ hs); [done|].
  intros n Hn. apply (effective_filter (fun x => str_in x HASHED_HEADERS)).
  by apply str_in_spec.
Qed.

(** A tracker hands out at most one record over any sequence of [complete]
    calls, whatever outcomes they carry: the first call wins. *)
Theorem tracker_records_at_most_once loads obs t (steps : list (Z * string * option bytes)) :
  let run := fold_left (fun acc step =>
    let '(t, rs) := acc in
    let '(ended, out, body) := step in
    let '(t', rs') := tracker_complete loads obs t ended out body in (t', rs ++ rs'))
    steps (t, []) in
  run.2 = match steps with
          | (ended, out, body) :: _ =>
              if negb (t_completed t) && obs
              then [completion_record loads t ended out body] else []
          | [] => []
          end.
Proof.
  assert (forall steps t rs, t_completed t = true ->
    (fold_left (fun acc step =>
      let '(t, rs) := acc in
      let '(ended, out, body) := step in
      let '(t', rs') := tracker_complete loads obs t ended out body in (t', rs ++ rs'))
      steps (t, rs)).2 = rs) as Hdone.
  { clear. induction steps as [|[[ended out] body] steps IH]; intros t rs Ht; cbn; [done|].
    unfold tracker_complete. rewrite Ht. cbn. rewrite app_nil_r. by apply IH. }
  cbn zeta. destruct steps as [|[[ended out] body] steps]; [done|]. cbn [fold_left].
  destruct (tracker_complete loads obs t ended out body) as [t' rs'] eqn:E.
  destruct (tracker_complete_once _ _ _ _ _ _ _ _ ended out body E) as [Ht _].
  rewrite Hdone by done. unfold tracker_complete in E.
  destruct (t_completed t); cbn in *; [by simplify_eq|]. by destruct obs; simplify_eq.
Qed.
