(* ===== verification/GatewayApp.v ===== *)
(** * The gateway data plane

    [kin_gateway/app.py]: header selection, the REST operation tables, the
    version gate, and the two proxy handlers with their streaming path.

    A handler runs in [M gstate gexc]: the state holds the trace of external
    effects (credential look-ups, upstream calls, closings, records handed to
    the observer), the clock and the tracker object of the request.  The HTTP
    client, the version parser, [json.loads], the error payload builder, the
    URL joiner, the uuid source and the clock are library code: they are the
    variables of the section.  The credential source is any instance of
    [CredentialProvider]. *)

From Stdlib Require Import Ascii String ZArith QArith Lia.
From stdpp Require Import base list sets strings.
From S2P Require Import Prelude Regex Codec PyValue GatewayConfig GatewaySessions.

(** ** Headers *)

Definition FORWARDED_REQUEST_HEADERS : list string :=
  ["content-type"; "accept"; "a2a-version"; "a2a-extensions"; "last-event-id"].
Definition FORWARDED_RESPONSE_HEADERS : list string :=
  ["content-type"; "cache-control"; "a2a-version"; "etag"; "content-location";
   "retry-after"; "content-encoding"].

(** [{name: headers[name] for name in allowed if name in headers}], the mapping
    being given by its look-up function. *)
Definition selected_headers (headers : string -> option string) (allowed : list string)
  : header_map :=
  omap (fun name => (fun v => (name, v)) <$> headers name) allowed.

#[global] Arguments selected_headers : simpl never.

(** Look-up in the request headers: names are compared in lower case and the
    first header with the name is returned. *)
Definition request_header (hs : list (string * string)) (name : string) : option string :=
  snd <$> find_first (fun h => String.eqb (lower name) (lower h.1)) hs.

#[global] Arguments request_header : simpl never.

(** ** REST operations *)

Definition not_slash_plus : re := rplus (RChr (cc_not (cc_of "/"))).
Definition re_task : re := RSeq (rlit "tasks/") not_slash_plus.
Definition re_cancel : re := rseqs [rlit "tasks/"; not_slash_plus; rlit ":cancel"].
Definition re_subscribe : re := rseqs [rlit "tasks/"; not_slash_plus; rlit ":subscribe"].
Definition re_push : re :=
  rseqs [rlit "tasks/"; not_slash_plus; rlit "/pushNotificationConfigs";
         ropt (RSeq (rlit "/") not_slash_plus)].

Definition is_nonstreaming_rest_operation (method path : string) : bool :=
  (String.eqb method "POST" && String.eqb path "message:send")
  || (String.eqb method "GET" && String.eqb path "tasks")
  || (String.eqb method "GET" && re_fullmatch re_task path)
  || (String.eqb method "POST" && re_fullmatch re_cancel path).

Definition is_streaming_rest_operation (method path : string) : bool :=
  (String.eqb method "POST" && String.eqb path "message:stream")
  || (str_in method ["GET"; "POST"] && re_fullmatch re_subscribe path).

Inductive rest_error :=
| PushNotificationNotSupportedError
| UnsupportedOperationError
| VersionNotSupportedError.

Definition known_unsupported_rest_error (path : string) : option rest_error :=
  if re_fullmatch re_push path then Some PushNotificationNotSupportedError
  else if String.eqb path "extendedAgentCard" then Some UnsupportedOperationError
  else None.

(** ** Requests, upstream calls, responses *)

Record jsonrpc_request := {
  jr_headers : list (string * string);
  jr_body : bytes
}.

Record rest_request := {
  rq_method : string;
  rq_path : string;
  rq_raw_path : string;
  rq_query : string;
  rq_headers : list (string * string);
  rq_body : bytes
}.

(** One call on the HTTP client: the client carries the base URL and the
    credential headers, the call the method, URL, selected headers and body. *)
Record upstream_request := {
  q_base_url : string;
  q_client_headers : header_map;
  q_method : string;
  q_url : string;
  q_headers : header_map;
  q_content : bytes
}.

Record upstream_response := {
  r_status : Z;
  r_headers : string -> option string;
  r_content : bytes
}.

(** What the body iterator of a streamed response does next. *)
Inductive stream_step :=
| SChunk (chunk : bytes)
| SStop
| STimeout
| SCancelled
| SHttpError
| SOther.

Record stream_response := {
  s_status : Z;
  s_headers : string -> option string;
  s_steps : list stream_step;
  s_close_ok : bool;
  s_client_close_ok : bool
}.

Inductive client_error := HttpxError | ClientCrash.

Inductive response :=
| RJson (status : Z) (body : json)
| RBuffered (status : Z) (body : bytes) (headers : header_map)
| RStream (status : Z) (headers : header_map) (stream : stream_response).

(** Exceptions leaving a handler: an HTTP error for the caller, or an
    unhandled Python exception (an internal server error). *)
Inductive gexc :=
| HTTPException (status : Z) (detail : string)
| PyTypeError
| Unhandled.

Inductive effect :=
| ECredential (ctx : RequestContext)
| EUpstream (req : upstream_request)
| EClientClosed
| EStreamClosed
| ERecord (s : ExternalTaskSession).

Record gstate := {
  g_trace : list effect;
  g_clock : nat;
  g_tracker : ExternalTaskSessionTracker
}.

Definition emit (e : effect) (s : gstate) : gstate :=
  {| g_trace := g_trace s ++ [e]; g_clock := g_clock s; g_tracker := g_tracker s |}.

Section gateway.
Context (json_loads : bytes -> option json)
        (parse_version : string -> option (list Z))
        (build_rest_error_payload : rest_error -> json)
        (join_url : string -> string -> string -> string)
        (uuid4 : nat -> string) (utc_now : nat -> Z)
        (send : upstream_request -> result client_error upstream_response)
        (open_stream : upstream_request -> result client_error stream_response).
Context {P : Type} `{!CredentialProvider P} (credential_provider : P).
Context (settings : GatewaySettings) (has_observer : bool).

Abbreviation G := (M gstate gexc).

(** ** Version gate *)

(** [actual.release[:2] == (1, 0)]. *)
Definition supports_a2a_version (value : option string) : bool :=
  match value with
  | None => false
  | Some v =>
      if negb (truthy v) then false
      else match parse_version v with
           | None => false
           | Some release => bool_decide (take 2 release = [1%Z; 0%Z])
           end
  end.

Definition version_error (request_id : json) : response :=
  RJson 200 (JObj [("jsonrpc", JStr "2.0"); ("id", request_id);
                   ("error", JObj [("code", JInt (-32009));
                                   ("message", JStr "Version not supported")])]).

Definition rest_version_error : response :=
  RJson 400 (build_rest_error_payload VersionNotSupportedError).

(** ** Session tracking *)

Definition start_session (transport method target : string)
    (headers : list (string * string)) (body : bytes) : G unit :=
  fun s =>
    (Ok tt, {| g_trace := g_trace s; g_clock := S (g_clock s);
               g_tracker := new_tracker (uuid4 (g_clock s)) (utc_now (g_clock s)) transport
                              method target (upstream_base_url settings) headers body |}).

Definition complete (out : string) (body : option bytes) : G unit :=
  fun s =>
    match tracker_complete json_loads has_observer (g_tracker s) (utc_now (g_clock s)) out body with
    | (t', records) =>
        (Ok tt, {| g_trace := g_trace s ++ (ERecord <$> records);
                   g_clock := S (g_clock s); g_tracker := t' |})
    end.

(** ** Calling upstream *)

Definition upstream_unavailable {A} : G A :=
  complete "upstream_unavailable" None ;;;
  mraise (HTTPException 502 "Protected A2A upstream is unavailable").

(** [credential_provider.headers_for(...)] inside the guarded block. *)
Definition credential_headers (method url : string) (k : header_map -> G response)
  : G response :=
  let ctx := {| ctx_method := method; ctx_url := url |} in
  mmodify (emit (ECredential ctx)) ;;;
  match provide credential_provider ctx with
  | Ok hs => k hs
  | Err UpstreamCredentialError => upstream_unavailable
  | Err ProviderCrash => mraise Unhandled
  end.

Definition upstream_call (creds : header_map) (method url : string) (headers : header_map)
    (body : bytes) : upstream_request :=
  {| q_base_url := upstream_base_url settings; q_client_headers := creds;
     q_method := method; q_url := url; q_headers := headers; q_content := body |}.

(** The buffered call: [async with upstream_client(...)] closes the client on
    every exit. *)
Definition buffered_upstream_response (ctx_url method url : string) (headers : header_map)
    (body : bytes) : G response :=
  credential_headers method ctx_url (fun creds =>
    let call := upstream_call creds method url headers body in
    mmodify (emit (EUpstream call)) ;;;
    mmodify (emit EClientClosed) ;;;
    match send call with
    | Err HttpxError => upstream_unavailable
    | Err ClientCrash => mraise Unhandled
    | Ok resp =>
        complete "forwarded" (Some (r_content resp)) ;;;
        ret (RBuffered (r_status resp) (r_content resp)
               (selected_headers (r_headers resp) FORWARDED_RESPONSE_HEADERS))
    end).

(** The streamed call: the client stays open with the response. *)
Definition streaming_upstream_response (method url : string) (headers : header_map)
    (body : bytes) : G response :=
  credential_headers method url (fun creds =>
    let call := upstream_call creds method url headers body in
    mmodify (emit (EUpstream call)) ;;;
    match open_stream call with
    | Err HttpxError => mmodify (emit EClientClosed) ;;; upstream_unavailable
    | Err ClientCrash => mraise Unhandled
    | Ok resp =>
        ret (RStream (s_status resp)
               (selected_headers (s_headers resp) FORWARDED_RESPONSE_HEADERS) resp)
    end).

(** ** The streamed body *)

(** The loop of [forward_body]: the chunks yielded, the outcome recorded and
    the exception re-raised, if any; [None] while the stream has not ended. *)
Fixpoint forward_loop (steps : list stream_step) : option (list bytes * string * option gexc) :=
  match steps with
  | [] => None
  | SChunk b :: steps' =>
      match forward_loop steps' with
      | Some (chunks, out, e) => Some (b :: chunks, out, e)
      | None => None
      end
  | SStop :: _ => Some ([], "forwarded", None)
  | STimeout :: _ => Some ([], "upstream_timeout", Some Unhandled)
  | SCancelled :: _ => Some ([], "client_disconnected", Some Unhandled)
  | SHttpError :: _ => Some ([], "upstream_disconnected", Some Unhandled)
  | SOther :: _ => Some ([], "forwarded", Some Unhandled)
  end.

(** The [finally] block: close the response, then the client, and in any case
    complete the session. *)
Definition close_stream (st : stream_response) : G unit :=
  mmodify (emit EStreamClosed) ;;;
  if negb (s_close_ok st) then mraise Unhandled
  else mmodify (emit EClientClosed) ;;;
       if negb (s_client_close_ok st) then mraise Unhandled else ret tt.

Definition forward_body (st : stream_response) : option (G (list bytes)) :=
  match forward_loop (s_steps st) with
  | None => None
  | Some (chunks, out, e) =>
      Some (mfinally
              (match e with None => ret chunks | Some x => mraise x end)
              (mfinally (close_stream st) (complete out None)))
  end.

(** ** Handlers *)

Definition JSONRPC_PATH : string := "/a2a/jsonrpc".

Definition jsonrpc_streaming_methods : list string :=
  ["SendStreamingMessage"; "SubscribeToTask"].

(** [jsonrpc_request.get("method") in {...}] for a decoded object: membership
    in a Python set hashes the value, and hashing a list or a dict raises
    [TypeError]. *)
Definition method_is_streaming (doc : json) : result gexc bool :=
  match doc with
  | JObj kvs =>
      match default JNull (obj_get "method" kvs) with
      | JStr m => Ok (str_in m jsonrpc_streaming_methods)
      | JList _ | JObj _ => Err PyTypeError
      | _ => Ok false
      end
  | _ => Ok false
  end.

Definition jsonrpc_method (doc : json) : string :=
  match doc with
  | JObj kvs => default "POST" (get_str "method" kvs)
  | _ => "POST"
  end.

Definition jsonrpc_id (doc : json) : json :=
  match doc with
  | JObj kvs => default JNull (obj_get "id" kvs)
  | _ => JNull
  end.

Definition proxy_jsonrpc (rq : jsonrpc_request) : G response :=
  let body := jr_body rq in
  let doc := default (JObj []) (json_loads body) in
  let upstream_url := upstream_base_url settings +:+ JSONRPC_PATH in
  start_session "JSONRPC" (jsonrpc_method doc) JSONRPC_PATH (jr_headers rq) body ;;;
  if negb (supports_a2a_version (request_header (jr_headers rq) "a2a-version"))
  then complete "unsupported_version" None ;;; ret (version_error (jsonrpc_id doc))
  else
    let headers := selected_headers (request_header (jr_headers rq)) FORWARDED_REQUEST_HEADERS in
    let* streaming := mlift (method_is_streaming doc) in
    if streaming
    then streaming_upstream_response "POST" upstream_url headers body
    else buffered_upstream_response upstream_url "POST" JSONRPC_PATH headers body.

Definition proxy_rest (rq : rest_request) : G response :=
  let target := if truthy (rq_query rq)
                then rq_raw_path rq +:+ "?" +:+ rq_query rq else rq_raw_path rq in
  let upstream_url := join_url (upstream_base_url settings) (rq_raw_path rq) (rq_query rq) in
  let body := rq_body rq in
  start_session "HTTP+JSON" (rq_method rq) target (rq_headers rq) body ;;;
  let is_streaming := is_streaming_rest_operation (rq_method rq) (rq_path rq) in
  match known_unsupported_rest_error (rq_path rq) with
  | Some e =>
      complete "unsupported_operation" None ;;; ret (RJson 400 (build_rest_error_payload e))
  | None =>
      if negb (is_streaming || is_nonstreaming_rest_operation (rq_method rq) (rq_path rq))
      then complete "unsupported_operation" None ;;;
           mraise (HTTPException 404 "A2A operation is unsupported")
      else if negb (supports_a2a_version (request_header (rq_headers rq) "a2a-version"))
      then complete "unsupported_version" None ;;; ret rest_version_error
      else
        let headers := selected_headers (request_header (rq_headers rq)) FORWARDED_REQUEST_HEADERS in
        if is_streaming
        then streaming_upstream_response (rq_method rq) upstream_url headers body
        else buffered_upstream_response upstream_url (rq_method rq) upstream_url headers body
  end.

Inductive gateway_request :=
| JsonRpcRequest (rq : jsonrpc_request)
| RestRequest (rq : rest_request).

Definition handle (rq : gateway_request) : G response :=
  match rq with
  | JsonRpcRequest rq => proxy_jsonrpc rq
  | RestRequest rq => proxy_rest rq
  end.

(** ** Decision procedure of the proxy

    What a handler does is determined by a pure decision on the request,
    followed by at most one upstream exchange. *)

Inductive plan :=
| Reject (out : string) (answer : result gexc response)
| CrashBeforeCall (e : gexc)
| Call (streaming : bool) (method ctx_url url : string) (headers : header_map) (body : bytes).

Definition plan_of (rq : gateway_request) : plan :=
  match rq with
  | JsonRpcRequest rq =>
      let doc := default (JObj []) (json_loads (jr_body rq)) in
      let url := upstream_base_url settings +:+ JSONRPC_PATH in
      let headers := selected_headers (request_header (jr_headers rq)) FORWARDED_REQUEST_HEADERS in
      if negb (supports_a2a_version (request_header (jr_headers rq) "a2a-version"))
      then Reject "unsupported_version" (Ok (version_error (jsonrpc_id doc)))
      else match method_is_streaming doc with
           | Err e => CrashBeforeCall e
           | Ok true => Call true "POST" url url headers (jr_body rq)
           | Ok false => Call false "POST" url JSONRPC_PATH headers (jr_body rq)
           end
  | RestRequest rq =>
      let url := join_url (upstream_base_url settings) (rq_raw_path rq) (rq_query rq) in
      let headers := selected_headers (request_header (rq_headers rq)) FORWARDED_REQUEST_HEADERS in
      let streaming := is_streaming_rest_operation (rq_method rq) (rq_path rq) in
      match known_unsupported_rest_error (rq_path rq) with
      | Some e => Reject "unsupported_operation" (Ok (RJson 400 (build_rest_error_payload e)))
      | None =>
          if negb (streaming || is_nonstreaming_rest_operation (rq_method rq) (rq_path rq))
          then Reject "unsupported_operation"
                 (Err (HTTPException 404 "A2A operation is unsupported"))
          else if negb (supports_a2a_version (request_header (rq_headers rq) "a2a-version"))
          then Reject "unsupported_version" (Ok rest_version_error)
          else Call streaming (rq_method rq) url url headers (rq_body rq)
      end
  end.

(** The tracker a request starts with. *)
Definition session_of (rq : gateway_request) (n : nat) : ExternalTaskSessionTracker :=
  match rq with
  | JsonRpcRequest rq =>
      new_tracker (uuid4 n) (utc_now n) "JSONRPC"
        (jsonrpc_method (default (JObj []) (json_loads (jr_body rq)))) JSONRPC_PATH
        (upstream_base_url settings) (jr_headers rq) (jr_body rq)
  | RestRequest rq =>
      new_tracker (uuid4 n) (utc_now n) "HTTP+JSON" (rq_method rq)
        (if truthy (rq_query rq) then rq_raw_path rq +:+ "?" +:+ rq_query rq else rq_raw_path rq)
        (upstream_base_url settings) (rq_headers rq) (rq_body rq)
  end.

Definition started (rq : gateway_request) (s : gstate) : gstate :=
  {| g_trace := g_trace s; g_clock := S (g_clock s); g_tracker := session_of rq (g_clock s) |}.

Definition run_plan (p : plan) : G response :=
  match p with
  | Reject out answer => complete out None ;;; mlift answer
  | CrashBeforeCall e => mraise e
  | Call true method _ url headers body => streaming_upstream_response method url headers body
  | Call false method ctx_url url headers body =>
      buffered_upstream_response ctx_url method url headers body
  end.

Lemma handle_plan rq s : handle rq s = run_plan (plan_of rq) (started rq s).
Proof.
  destruct rq as [rq|rq]; cbn -[supports_a2a_version].
  - unfold proxy_jsonrpc, start_session, started, bind. cbn -[supports_a2a_version].
    destruct (supports_a2a_version _); cbn; [|done].
    destruct (method_is_streaming _) as [[]|]; done.
  - unfold proxy_rest, start_session, started, bind. cbn -[supports_a2a_version].
    destruct (known_unsupported_rest_error _); [done|].
    destruct (is_streaming_rest_operation _ _) eqn:Es; cbn -[supports_a2a_version].
    + by destruct (supports_a2a_version _).
    + destruct (is_nonstreaming_rest_operation _ _); cbn -[supports_a2a_version]; [|done].
      by destruct (supports_a2a_version _).
Qed.

(** ** Effects of a run *)

Definition is_record (e : effect) : bool := match e with ERecord _ => true | _ => false end.
Definition calls (tr : list effect) : list upstream_request :=
  omap (fun e => match e with EUpstream q => Some q | _ => None end) tr.
Definition records (tr : list effect) : list ExternalTaskSession :=
  omap (fun e => match e with ERecord r => Some r | _ => None end) tr.
Definition is_external (e : effect) : bool :=
  match e with ECredential _ | EUpstream _ => true | _ => false end.

Lemma calls_app t1 t2 : calls (t1 ++ t2) = calls t1 ++ calls t2.
Proof. apply omap_app. Qed.
Lemma records_app t1 t2 : records (t1 ++ t2) = records t1 ++ records t2.
Proof. apply omap_app. Qed.

(** The trace added by a run. *)
Definition run_trace {A} (m : G A) (s : gstate) : list effect :=
  drop (length (g_trace s)) (g_trace (m s).2).

(** The record a completed attempt hands to the observer. *)
Definition final_record (rq : gateway_request) (n : nat) (out : string) (body : option bytes)
  : list ExternalTaskSession :=
  if has_observer
  then [completion_record json_loads (session_of rq n) (utc_now (S n)) out body] else [].

Lemma session_of_fresh rq n : t_completed (session_of rq n) = false.
Proof. by destruct rq. Qed.

(** Result, and effects appended, of each plan from a freshly started state. *)
Definition plan_result (p : plan) : result gexc response :=
  match p with
  | Reject _ answer => answer
  | CrashBeforeCall e => Err e
  | Call streaming method ctx_url url headers body =>
      match provide credential_provider {| ctx_method := method; ctx_url := ctx_url |} with
      | Err UpstreamCredentialError =>
          Err (HTTPException 502 "Protected A2A upstream is unavailable")
      | Err ProviderCrash => Err Unhandled
      | Ok creds =>
          let q := upstream_call creds method url headers body in
          if streaming
          then match open_stream q with
               | Ok st => Ok (RStream (s_status st)
                                (selected_headers (s_headers st) FORWARDED_RESPONSE_HEADERS) st)
               | Err HttpxError =>
                   Err (HTTPException 502 "Protected A2A upstream is unavailable")
               | Err ClientCrash => Err Unhandled
               end
          else match send q with
               | Ok r => Ok (RBuffered (r_status r) (r_content r)
                               (selected_headers (r_headers r) FORWARDED_RESPONSE_HEADERS))
               | Err HttpxError =>
                   Err (HTTPException 502 "Protected A2A upstream is unavailable")
               | Err ClientCrash => Err Unhandled
               end
      end
  end.

(** The upstream requests a plan makes. *)
Definition plan_calls (p : plan) : list upstream_request :=
  match p with
  | Call streaming method ctx_url url headers body =>
      match provide credential_provider {| ctx_method := method; ctx_url := ctx_url |} with
      | Ok creds => [upstream_call creds method url headers body]
      | Err _ => []
      end
  | _ => []
  end.

(** The outcome and body recorded before the handler returns, if any. *)
Definition plan_completion (p : plan) : option (string * option bytes) :=
  match p with
  | Reject out _ => Some (out, None)
  | CrashBeforeCall _ => None
  | Call _ _ _ _ _ _ =>
      match plan_result p with
      | Ok (RBuffered _ content _) => Some ("forwarded", Some content)
      | Err (HTTPException _ _) => Some ("upstream_unavailable", None)
      | _ => None
      end
  end.

Definition plan_records (p : plan) (rq : gateway_request) (n : nat) : list ExternalTaskSession :=
  match plan_completion p with
  | Some (out, body) => final_record rq n out body
  | None => []
  end.

Ltac run_unfold :=
  unfold run_plan, streaming_upstream_response, buffered_upstream_response, credential_headers,
    upstream_unavailable, complete, tracker_complete, bind, mmodify, mraise, mlift, ret, emit;
  cbn.

(** A streaming call is made with one URL for the context and for the call. *)
Definition plan_wf (p : plan) : Prop :=
  match p with Call true _ ctx_url url _ _ => ctx_url = url | _ => True end.

Lemma plan_of_wf rq : plan_wf (plan_of rq).
Proof.
  unfold plan_wf, plan_of. repeat case_match; simplify_eq; done.
Qed.

Lemma run_plan_spec p rq s :
  plan_wf p ->
  (run_plan p (started rq s)).1 = plan_result p /\
  exists tr,
    g_trace (run_plan p (started rq s)).2 = g_trace s ++ tr /\
    calls tr = plan_calls p /\
    records tr = plan_records p rq (g_clock s) /\
    (plan_calls p = [] -> match p with Call _ _ _ _ _ _ => True
                          | _ => Forall (fun e => is_external e = false) tr end) /\
    g_tracker (run_plan p (started rq s)).2 =
      match plan_completion p with
      | Some _ => mark_completed (session_of rq (g_clock s))
      | None => session_of rq (g_clock s)
      end.
Proof.
  intros Hwf. unfold plan_records, plan_completion, plan_calls, final_record.
  pose proof (session_of_fresh rq (g_clock s)) as Hf.
  destruct p as [out answer|e|str method ctx_url url headers body].
  - run_unfold. rewrite Hf. cbn. destruct has_observer; cbn.
    + split; [done|]. eexists. split; [done|]. cbn. by repeat constructor.
    + split; [done|]. exists []. by repeat constructor.
  - run_unfold. split; [done|]. exists []. rewrite app_nil_r. by repeat constructor.
  - cbn in Hwf. destruct str; [subst ctx_url|]; run_unfold;
      destruct (provide _ _) as [creds|[]]; cbn; rewrite ?Hf; cbn;
      try (destruct (open_stream _) as [st|[]]); try (destruct (send _) as [r|[]]);
      cbn; rewrite ?Hf; cbn;
      (split; [done|]; eexists; rewrite <- ?app_assoc; cbn;
       split; [done|]; destruct has_observer; done).
Qed.

(** The same facts for a handler run. *)
Lemma handle_spec rq s :
  (handle rq s).1 = plan_result (plan_of rq) /\
  calls (run_trace (handle rq) s) = plan_calls (plan_of rq) /\
  records (run_trace (handle rq) s) = plan_records (plan_of rq) rq (g_clock s) /\
  match plan_of rq with
  | Call _ _ _ _ _ _ => True
  | _ => Forall (fun e => is_external e = false) (run_trace (handle rq) s)
  end /\
  t_completed (g_tracker (handle rq s).2) = bool_decide (is_Some (plan_completion (plan_of rq))).
Proof.
  unfold run_trace. rewrite handle_plan.
  destruct (run_plan_spec (plan_of rq) rq s (plan_of_wf rq))
    as (Hr & tr & Ht & Hc & Hrec & Hext & Htr).
  rewrite Ht, drop_app_length, Htr. split_and!; [done..| |].
  - destruct (plan_of rq) eqn:E; [apply Hext; done..|done].
  - destruct (plan_completion _); cbn; [done|]. apply session_of_fresh.
Qed.

(** ** Admission *)

Definition request_version (rq : gateway_request) : option string :=
  match rq with
  | JsonRpcRequest rq => request_header (jr_headers rq) "a2a-version"
  | RestRequest rq => request_header (rq_headers rq) "a2a-version"
  end.

(** A request may be forwarded: its version is supported and, over REST, its
    operation is one of the exposed ones. *)
Definition admitted (rq : gateway_request) : bool :=
  supports_a2a_version (request_version rq) &&
  match rq with
  | JsonRpcRequest _ => true
  | RestRequest rq =>
      bool_decide (known_unsupported_rest_error (rq_path rq) = None) &&
      (is_streaming_rest_operation (rq_method rq) (rq_path rq)
       || is_nonstreaming_rest_operation (rq_method rq) (rq_path rq))
  end.

Lemma plan_not_admitted rq :
  admitted rq = false -> exists out answer, plan_of rq = Reject out answer.
Proof.
  unfold admitted. intros H. destruct rq as [rq|rq]; cbn -[supports_a2a_version] in *.
  - rewrite andb_true_r in H. rewrite H. cbn. eauto.
  - destruct (known_unsupported_rest_error _); [eauto|].
    destruct (is_streaming_rest_operation _ _ || _); cbn -[supports_a2a_version] in *; [|eauto].
    rewrite andb_true_r in H. rewrite H. cbn. eauto.
Qed.

(** Requests that differ at most in headers outside the forwarded ones. *)
Definition agree_forwarded (h h' : list (string * string)) : Prop :=
  forall n, n ∈ FORWARDED_REQUEST_HEADERS -> request_header h n = request_header h' n.

Inductive same_protocol_request : gateway_request -> gateway_request -> Prop :=
| same_jsonrpc h h' b :
    agree_forwarded h h' ->
    same_protocol_request (JsonRpcRequest {| jr_headers := h; jr_body := b |})
                          (JsonRpcRequest {| jr_headers := h'; jr_body := b |})
| same_rest m p raw q h h' b :
    agree_forwarded h h' ->
    same_protocol_request
      (RestRequest {| rq_method := m; rq_path := p; rq_raw_path := raw; rq_query := q;
                      rq_headers := h; rq_body := b |})
      (RestRequest {| rq_method := m; rq_path := p; rq_raw_path := raw; rq_query := q;
                      rq_headers := h'; rq_body := b |}).

Lemma selected_agree h h' :
  agree_forwarded h h' ->
  selected_headers (request_header h) FORWARDED_REQUEST_HEADERS
  = selected_headers (request_header h') FORWARDED_REQUEST_HEADERS.
Proof.
  unfold agree_forwarded, selected_headers. generalize FORWARDED_REQUEST_HEADERS.
  intros l H. induction l as [|n l IH]; [done|]. cbn. rewrite H by left.
  rewrite IH; [done|]. intros m Hm. apply H. by right.
Qed.

Lemma plan_of_agree rq rq' : same_protocol_request rq rq' -> plan_of rq = plan_of rq'.
Proof.
  intros [h h' b Ha|m p raw q h h' b Ha]; cbn -[supports_a2a_version];
    rewrite (selected_agree h h' Ha), (Ha "a2a-version") by (apply str_in_spec; reflexivity); done.
Qed.

Lemma plan_selected rq streaming m cu u hs b :
  plan_of rq = Call streaming m cu u hs b -> hs.*1 ⊆ FORWARDED_REQUEST_HEADERS.
Proof.
  assert (forall f l, (selected_headers f l).*1 ⊆ l) as Hsel.
  { intros f l n. unfold selected_headers. rewrite list_elem_of_fmap.
    intros ([n' v] & -> & Hin). apply list_elem_of_omap in Hin as (x & Hx & E).
    destruct (f x); [|done]. by injection E as -> ->. }
  unfold plan_of. intros H. repeat case_match; simplify_eq; apply Hsel.
Qed.

(** ** Properties of the proxy *)

(** C33: Caller credentials never influence what reaches the customer's
    upstream.  Two requests that agree on method, path, query, body and on
    the five forwarded protocol headers (and differ arbitrarily in every
    other header, [Authorization] and cookies included) get the same answer
    and cause exactly the same upstream requests, from any gateway states. *)
Theorem caller_headers_noninterference rq rq' s s' :
  same_protocol_request rq rq' ->
  (handle rq s).1 = (handle rq' s').1 /\
  calls (run_trace (handle rq) s) = calls (run_trace (handle rq') s').
Proof.
  intros H%plan_of_agree.
  destruct (handle_spec rq s) as (-> & -> & _), (handle_spec rq' s') as (-> & -> & _).
  by rewrite H.
Qed.

(** A request that is not admitted (unsupported A2A version, operation
    outside the exposed REST profile, or a known unsupported feature) causes
    no credential look-up and no upstream call. *)
Theorem not_admitted_no_upstream rq s :
  admitted rq = false ->
  Forall (fun e => is_external e = false) (run_trace (handle rq) s).
Proof.
  intros (out & answer & E)%plan_not_admitted.
  destruct (handle_spec rq s) as (_ & _ & _ & H & _). by rewrite E in H.
Qed.

(** Every upstream request carries, as client headers, only headers the
    customer's provider supplied (non-reserved one-line tokens) and, as
    request headers, only forwarded protocol headers; the two sets can only
    share the names [accept] and [last-event-id]. *)
Theorem upstream_header_authority rq s q :
  q ∈ calls (run_trace (handle rq) s) ->
  Forall safe_header (q_client_headers q) /\
  (q_headers q).*1 ⊆ FORWARDED_REQUEST_HEADERS /\
  Forall (fun h => lower h.1 ∈ (q_headers q).*1 ->
                   lower h.1 = "accept" \/ lower h.1 = "last-event-id") (q_client_headers q).
Proof.
  destruct (handle_spec rq s) as (_ & -> & _).
  destruct (plan_of rq) as [| |str m cu u hs b] eqn:E; cbn; [set_unfold; tauto..|].
  destruct (provide _ _) as [creds|] eqn:Ep; [|set_unfold; tauto].
  intros ->%list_elem_of_singleton. cbn.
  pose proof (provide_safe _ _ _ Ep) as Hsafe.
  pose proof (plan_selected _ _ _ _ _ _ _ E) as Hsel.
  split_and!; [done..|].
  apply (Forall_impl _ _ _ Hsafe). intros h (_ & _ & Hres & _) Hin%Hsel.
  unfold FORWARDED_REQUEST_HEADERS, RESERVED_UPSTREAM_HEADERS in *.
  rewrite !elem_of_cons in Hin. rewrite !elem_of_cons in Hres. tauto.
Qed.

(** ** Exactly one completion record *)

Lemma plan_crash rq e : plan_of rq = CrashBeforeCall e -> e = PyTypeError.
Proof.
  assert (forall doc, method_is_streaming doc = Err e -> e = PyTypeError) as H.
  { intros doc. unfold method_is_streaming. repeat case_match; congruence. }
  unfold plan_of. intros E. repeat case_match; simplify_eq; eauto.
Qed.

Definition crashed (r : result gexc response) : bool :=
  match r with
  | Err PyTypeError | Err Unhandled => true
  | _ => false
  end.

Lemma forward_body_records st body s :
  t_completed (g_tracker s) = false ->
  forward_body st = Some body ->
  exists out e chunks, forward_loop (s_steps st) = Some (chunks, out, e) /\
    records (run_trace body s) =
      (if has_observer
       then [completion_record json_loads (g_tracker s) (utc_now (g_clock s)) out None] else []) /\
    calls (run_trace body s) = [] /\
    t_completed (g_tracker (body s).2) = true.
Proof.
  intros Hf. unfold forward_body.
  destruct (forward_loop (s_steps st)) as [[[chunks out] e]|] eqn:E; [|discriminate].
  intros [= <-]. exists out, e, chunks. split; [done|].
  unfold run_trace, mfinally, close_stream, complete, tracker_complete, bind, mmodify, mraise, ret, emit.
  destruct e, (s_close_ok st), (s_client_close_ok st); cbn; rewrite Hf; cbn;
    rewrite <- ?app_assoc, drop_app_length; by destruct has_observer.
Qed.

(** With an observer configured, every proxy attempt that does not end in
    an unhandled exception is recorded exactly once: a buffered, rejected or
    failed attempt before the handler returns; a streamed one not before the
    body runs, and exactly once when the body ends, however it ends. *)
Theorem exactly_one_completion_record rq s :
  has_observer = true ->
  crashed (handle rq s).1 = false ->
  match (handle rq s).1 with
  | Ok (RStream _ _ st) =>
      records (run_trace (handle rq) s) = [] /\
      forall body, forward_body st = Some body ->
        exists r, records (run_trace body (handle rq s).2) = [r]
  | _ => exists r, records (run_trace (handle rq) s) = [r]
  end.
Proof.
  intros Hobs. destruct (handle_spec rq s) as (-> & _ & -> & _ & Htr).
  unfold plan_records, final_record. rewrite Hobs.
  assert (plan_completion (plan_of rq) = None ->
          forall st body, forward_body st = Some body ->
          exists r, records (run_trace body (handle rq s).2) = [r]) as Hstream.
  { intros Hn st body Hb. rewrite Hn in Htr. cbn in Htr.
    destruct (forward_body_records st body _ Htr Hb) as (out & e & cs & _ & -> & _).
    rewrite Hobs. eauto. }
  revert Hstream. generalize (final_record rq (g_clock s)). intros _.
  destruct (plan_of rq) as [out answer|e|str m cu u hs b] eqn:E; intros Hstream Hc.
  - cbn. assert (forall c h st, answer <> Ok (RStream c h st)) as Hns.
    { intros c h st ->. destruct rq; cbn in E; repeat case_match; simplify_eq. }
    destruct answer as [[]|[]]; eauto. by destruct (Hns status headers stream).
  - apply plan_crash in E as ->. discriminate.
  - unfold plan_completion in *.
    destruct (plan_result (Call str m cu u hs b)) as [[]|[]] eqn:Er; eauto; try done.
    cbn in Er. repeat case_match; simplify_eq.
Qed.

(** ** Forwarding *)

(** An admitted buffered exchange is transparent: when the provider and
    the upstream answer, the caller receives the upstream's status and bytes
    unchanged and the allow-listed response headers, after exactly one
    upstream call that carries the caller's bytes. *)
Theorem buffered_exchange_transparent rq s m cu u hs b creds r :
  plan_of rq = Call false m cu u hs b ->
  provide credential_provider {| ctx_method := m; ctx_url := cu |} = Ok creds ->
  send (upstream_call creds m u hs b) = Ok r ->
  (handle rq s).1 =
    Ok (RBuffered (r_status r) (r_content r)
          (selected_headers (r_headers r) FORWARDED_RESPONSE_HEADERS)) /\
  calls (run_trace (handle rq) s) = [upstream_call creds m u hs b] /\
  b = match rq with JsonRpcRequest q => jr_body q | RestRequest q => rq_body q end.
Proof.
  intros E Hp Hs. destruct (handle_spec rq s) as (-> & -> & _). rewrite E. cbn.
  rewrite Hp, Hs. split_and!; [done..|].
  unfold plan_of in E. repeat case_match; simplify_eq; done.
Qed.

(** The outcome recorded, and the exception re-raised, for each way a stream
    can end. *)
Definition stream_end (t : stream_step) : option (string * option gexc) :=
  match t with
  | SChunk _ => None
  | SStop => Some ("forwarded", None)
  | STimeout => Some ("upstream_timeout", Some Unhandled)
  | SCancelled => Some ("client_disconnected", Some Unhandled)
  | SHttpError => Some ("upstream_disconnected", Some Unhandled)
  | SOther => Some ("forwarded", Some Unhandled)
  end.

Lemma forward_loop_chunks chunks t rest out e :
  stream_end t = Some (out, e) ->
  forward_loop ((SChunk <$> chunks) ++ t :: rest) = Some (chunks, out, e).
Proof.
  intros Ht. induction chunks as [|c cs IH]; cbn.
  - by destruct t; simplify_eq/=.
  - by rewrite IH.
Qed.

(** A streamed exchange forwards the upstream's chunks unchanged and in
    order until the stream ends; however it ends, the response is closed and
    the session is completed with the outcome that names the cause, and a
    clean end returns normally when both closings succeed. *)
Theorem stream_forwards_chunks st chunks t rest out e s :
  s_steps st = (SChunk <$> chunks) ++ t :: rest ->
  stream_end t = Some (out, e) ->
  t_completed (g_tracker s) = false ->
  exists body, forward_body st = Some body /\
    EStreamClosed ∈ run_trace body s /\
    (s_close_ok st = true -> EClientClosed ∈ run_trace body s) /\
    records (run_trace body s) =
      (if has_observer
       then [completion_record json_loads (g_tracker s) (utc_now (g_clock s)) out None] else []) /\
    (s_close_ok st = true -> s_client_close_ok st = true ->
     (body s).1 = match e with None => Ok chunks | Some x => Err x end).
Proof.
  intros Hst Ht Hf. unfold forward_body. rewrite Hst, (forward_loop_chunks _ _ _ _ _ Ht).
  eexists. split; [done|].
  unfold run_trace, mfinally, close_stream, complete, tracker_complete, bind, mmodify, mraise, ret, emit.
  destruct e, (s_close_ok st), (s_client_close_ok st); cbn; rewrite Hf; cbn;
    rewrite <- ?app_assoc, drop_app_length; destruct has_observer; cbn;
    split_and!; intros; try done; repeat constructor.
Qed.

(** A JSON-RPC body whose [method] is a list or an object makes the
    handler fail with an unhandled [TypeError] once the version is accepted:
    no answer is produced, nothing reaches upstream and the attempt leaves no
    completion record. *)
Theorem jsonrpc_unhashable_method_unrecorded rq doc kvs s :
  json_loads (jr_body rq) = Some doc -> doc = JObj kvs ->
  (exists l, obj_get "method" kvs = Some (JList l)) \/
  (exists o, obj_get "method" kvs = Some (JObj o)) ->
  supports_a2a_version (request_header (jr_headers rq) "a2a-version") = true ->
  (handle (JsonRpcRequest rq) s).1 = Err PyTypeError /\
  run_trace (handle (JsonRpcRequest rq)) s = [].
Proof.
  intros Hl -> Hm Hv. unfold run_trace. rewrite handle_plan.
  assert (plan_of (JsonRpcRequest rq) = CrashBeforeCall PyTypeError) as ->.
  { cbn -[supports_a2a_version]. rewrite Hv, Hl. cbn.
    destruct Hm as [[x ->]|[x ->]]; done. }
  cbn. split; [done|]. apply drop_all.
Qed.

End gateway.

(** The observer is passive: with and without one, a request gets the same
    answer and causes the same upstream requests. *)
Theorem observer_is_passive loads pv rest join uuid now snd opn {P} `{!CredentialProvider P}
    (cp : P) settings rq s :
  let run obs := handle loads pv rest join uuid now snd opn cp settings obs rq s in
  (run true).1 = (run false).1 /\
  calls (drop (length (g_trace s)) (g_trace (run true).2))
  = calls (drop (length (g_trace s)) (g_trace (run false).2)).
Proof.
  cbn zeta.
  pose proof (handle_spec loads pv rest join uuid now snd opn cp settings true rq s) as H1.
  pose proof (handle_spec loads pv rest join uuid now snd opn cp settings false rq s) as H2.
  unfold run_trace in *. destruct H1 as (-> & -> & _), H2 as (-> & -> & _). done.
Qed.

(** ** A concrete gateway, for evaluation *)

Module Demo.

Definition settings : GatewaySettings :=
  {| public_base_url := "https://gw"; bind_host := "0.0.0.0"; port := 8080;
     stream_read_timeout_seconds := 30%Q; upstream_base_url := "http://up";
     upstream_credential := {| mode := Private; header_name := None; secret_ref := None;
                               value_prefix := "" |};
     agent_card := {| approved_skill_ids := []; trusted_private_hosts := [];
                      max_response_bytes := 262144; max_redirects := 3;
                      fetch_timeout_seconds := 5%Q; cache_ttl_seconds := 60%Q |} |}.

Definition loads (b : bytes) : option json :=
  if String.eqb b "bad" then Some (JObj [("method", JList [])])
  else if String.eqb b "stream" then Some (JObj [("method", JStr "SubscribeToTask")])
  else if String.eqb b "send" then Some (JObj [("method", JStr "SendMessage")])
  else None.
Definition pv (v : string) : option (list Z) :=
  if String.eqb v "1.0" then Some [1%Z; 0%Z] else None.
Definition rest_payload (_ : rest_error) : json := JObj [].
Definition join (b p q : string) : string := b +:+ p.
Definition uuid (n : nat) : string := "id".
Definition now (n : nat) : Z := Z.of_nat n.
Definition resp : upstream_response :=
  {| r_status := 200; r_content := "ok";
     r_headers := fun n => if String.eqb n "content-type" then Some "application/json"
                           else if String.eqb n "set-cookie" then Some "secret" else None |}.
Definition snd (_ : upstream_request) : result client_error upstream_response := Ok resp.
Definition stream : stream_response :=
  {| s_status := 200; s_headers := fun _ => None; s_steps := [SChunk "a"; SChunk "b"; SStop];
     s_close_ok := true; s_client_close_ok := true |}.
Definition opn (_ : upstream_request) : result client_error stream_response := Ok stream.
Definition provider : {p : upstream_provider | provider_ok p} :=
  exist provider_ok NoCredentialProvider I.
Definition tracker0 : ExternalTaskSessionTracker := new_tracker "" 0 "" "" "" "" [] "".
Definition s0 : gstate := {| g_trace := []; g_clock := 0; g_tracker := tracker0 |}.

Definition run (rq : gateway_request) :=
  handle loads pv rest_payload join uuid now snd opn provider settings true rq s0.

Definition rpc (auth body : string) : gateway_request :=
  JsonRpcRequest {| jr_headers := [("authorization", auth); ("a2a-version", "1.0")];
                    jr_body := body |}.

Definition send_call : upstream_request :=
  {| q_base_url := "http://up"; q_client_headers := []; q_method := "POST";
     q_url := "/a2a/jsonrpc"; q_headers := [("a2a-version", "1.0")]; q_content := "send" |}.

End Demo.

Lemma caller_headers_noninterference_witness :
  (Demo.run (Demo.rpc "Bearer one" "send")).1 = (Demo.run (Demo.rpc "Bearer two" "send")).1.
Proof.
  apply (caller_headers_noninterference Demo.loads Demo.pv Demo.rest_payload Demo.join Demo.uuid
    Demo.now Demo.snd Demo.opn Demo.provider Demo.settings true
    (Demo.rpc "Bearer one" "send") (Demo.rpc "Bearer two" "send") Demo.s0 Demo.s0).
  apply same_jsonrpc. intros n Hn. unfold FORWARDED_REQUEST_HEADERS in Hn.
  repeat (apply elem_of_cons in Hn as [->|Hn]; [reflexivity|]). by apply elem_of_nil in Hn.
Defined.

Lemma not_admitted_no_upstream_witness :
  Forall (fun e => is_external e = false)
    (run_trace (handle Demo.loads Demo.pv Demo.rest_payload Demo.join Demo.uuid Demo.now Demo.snd
       Demo.opn Demo.provider Demo.settings true
       (JsonRpcRequest {| jr_headers := [("a2a-version", "0.3")]; jr_body := "send" |})) Demo.s0).
Proof.
  apply (not_admitted_no_upstream Demo.loads Demo.pv Demo.rest_payload Demo.join Demo.uuid
    Demo.now Demo.snd Demo.opn Demo.provider Demo.settings true
    (JsonRpcRequest {| jr_headers := [("a2a-version", "0.3")]; jr_body := "send" |}) Demo.s0).
  reflexivity.
Defined.

Lemma upstream_header_authority_witness :
  (q_headers Demo.send_call).*1 ⊆ FORWARDED_REQUEST_HEADERS.
Proof.
  apply (upstream_header_authority Demo.loads Demo.pv Demo.rest_payload Demo.join Demo.uuid
    Demo.now Demo.snd Demo.opn Demo.provider Demo.settings true (Demo.rpc "Bearer one" "send") Demo.s0).
  vm_compute. left.
Defined.

Lemma exactly_one_completion_record_witness :
  exists r, records (run_trace (handle Demo.loads Demo.pv Demo.rest_payload Demo.join Demo.uuid
    Demo.now Demo.snd Demo.opn Demo.provider Demo.settings true (Demo.rpc "x" "send")) Demo.s0) = [r].
Proof.
  exact (exactly_one_completion_record Demo.loads Demo.pv Demo.rest_payload Demo.join Demo.uuid
    Demo.now Demo.snd Demo.opn Demo.provider Demo.settings true (Demo.rpc "x" "send") Demo.s0
    eq_refl eq_refl).
Defined.

Lemma buffered_exchange_transparent_witness :
  (Demo.run (Demo.rpc "x" "send")).1
  = Ok (RBuffered 200 "ok" [("content-type", "application/json")]).
Proof.
  apply (buffered_exchange_transparent Demo.loads Demo.pv Demo.rest_payload Demo.join Demo.uuid
    Demo.now Demo.snd Demo.opn Demo.provider Demo.settings true (Demo.rpc "x" "send") Demo.s0
    "POST" "http://up/a2a/jsonrpc" "/a2a/jsonrpc" [("a2a-version", "1.0")] "send" [] Demo.resp);
    reflexivity.
Defined.

Lemma stream_forwards_chunks_witness :
  exists body, forward_body Demo.loads Demo.now true Demo.stream = Some body /\
    EStreamClosed ∈ run_trace body Demo.s0.
Proof.
  destruct (stream_forwards_chunks Demo.loads Demo.now true Demo.stream ["a"; "b"] SStop []
    "forwarded" None Demo.s0) as (body & Hb & Hc & _); [reflexivity..|].
  by exists body.
Defined.

Lemma jsonrpc_unhashable_method_unrecorded_witness :
  (Demo.run (Demo.rpc "x" "bad")).1 = Err PyTypeError.
Proof.
  apply (jsonrpc_unhashable_method_unrecorded Demo.loads Demo.pv Demo.rest_payload Demo.join
    Demo.uuid Demo.now Demo.snd Demo.opn Demo.provider Demo.settings true
    {| jr_headers := [("authorization", "x"); ("a2a-version", "1.0")]; jr_body := "bad" |}
    (JObj [("method", JList [])]) [("method", JList [])]); [reflexivity..| |reflexivity].
  left. by exists [].
Defined.
