(* ===== verification/AgentCardMirror.v ===== *)
(** * Agent Card mirror of the gateway

    [kin_gateway/agent_card.py] and the Agent Card route of
    [kin_gateway/app.py].  The mirror fetches the private card of the upstream,
    projects it on the public surface and caches the result.  HTTP answers,
    DNS answers, URL joining and the protobuf library are parameters; every
    outgoing request is recorded in the trace the computation threads, so that
    the theorems speak about what leaves the process.

    [Module Cache] models concurrent callers of [public_card]: one step per
    stretch of code between two awaits, in any interleaving. *)

From Stdlib Require Import Ascii String ZArith QArith Lqa Lia.
From stdpp Require Import base list strings.
From S2P Require Import Prelude Codec PyValue GatewayConfig.

#[local] Open Scope nat_scope.

Definition AGENT_CARD_PATH : string := "/.well-known/agent-card.json".
Definition JSONRPC_PATH : string := "/a2a/jsonrpc".
Definition REST_PATH : string := "/a2a/rest".

Definition PUBLIC_INTERFACE_PATHS : list (string * string) :=
  [("JSONRPC", JSONRPC_PATH); ("HTTP+JSON", REST_PATH)].

(** ** Data *)

(** The protobuf messages, with the fields the code names; the fields it only
    copies or drops as a whole are kept together in [*_other]. *)
Record agent_interface := {
  if_url : string;
  protocol_binding : string;
  protocol_version : string;
  if_other : json
}.

Record agent_skill := { skill_id : string; skill_other : json }.

Record AgentCard := {
  card_name : string;
  card_description : string;
  card_version : string;
  default_input_modes : list string;
  default_output_modes : list string;
  streaming : bool;
  supported_interfaces : list agent_interface;
  skills : list agent_skill;
  card_other : option json
}.

Record MirroredAgentCard := {
  document : json;
  source_sha256 : string;
  public_sha256 : string
}.

(** Reasons of [AgentCardMirrorError]; [OtherException] is any other
    exception, a timeout included. *)
Inductive mirror_error :=
| RedirectNoLocation
| RedirectLimit
| RedirectOrigin
| SizeLimit
| TargetInvalid
| TargetCredentials
| TargetNotHttps
| TargetUnresolved
| TargetPrivate
| CardInvalid
| NoImplementedProfile
| NoApprovedSkill
| PrivateReference
| OtherException.

#[export] Instance mirror_error_eq_dec : EqDecision mirror_error.
Proof. solve_decision. Defined.

Definition is_mirror_error (e : mirror_error) : bool :=
  negb (bool_decide (e = OtherException)).

(** One outgoing request: URL, headers and the [sni_hostname] extension. *)
Record fetch_request := {
  fr_url : string;
  fr_headers : list (string * string);
  fr_sni : option string
}.

(** An upstream answer; [fs_broken] is set when reading the body raises after
    the listed chunks. *)
Record fetch_response := {
  fs_status : Z;
  fs_location : option string;
  fs_content_length : option string;
  fs_chunks : list bytes;
  fs_broken : bool
}.

Definition is_redirect (r : fetch_response) : bool :=
  ((300 <=? fs_status r) && (fs_status r <? 400))%Z.
Definition is_success (r : fetch_response) : bool :=
  ((200 <=? fs_status r) && (fs_status r <? 300))%Z.

(** ** Python helpers *)

(** Digits of [int(text)]: single underscores are allowed between digits. *)
Fixpoint int_digits (s : string) (acc : Z) (after_digit : bool) : option Z :=
  match s with
  | "" => if after_digit then Some acc else None
  | String c s' =>
      if ((48 <=? code c) && (code c <=? 57))%Z
      then int_digits s' (acc * 10 + (code c - 48))%Z true
      else if Ascii.eqb c "_" && after_digit then int_digits s' acc false
      else None
  end.

Fixpoint digit_count (s : string) : Z :=
  match s with
  | "" => 0%Z
  | String c s' => ((if Ascii.eqb c "_" then 0 else 1) + digit_count s')%Z
  end.

(** [int(text)], [None] for [ValueError]; the interpreter refuses more than
    4300 digits. *)
Definition py_int (s : string) : option Z :=
  let unsigned t := if (4300 <? digit_count t)%Z then None else int_digits t 0%Z false in
  match strip s with
  | String "-" s' => Z.opp <$> unsigned s'
  | String "+" s' => unsigned s'
  | s' => unsigned s'
  end.

(** [str.casefold].  The micro sign folds to a letter outside the modelled
    range, which no modelled string contains, so it is kept. *)
Fixpoint casefold (s : string) : string :=
  match s with
  | "" => ""
  | String c s' =>
      if (code c =? 223)%Z then "ss" +:+ casefold s'
      else String (lower_ascii c) (casefold s')
  end.

(** The part after the first blank of [value.partition(" ")], when the blank
    is present and the part is not empty. *)
Fixpoint payload_after_space (s : string) : option string :=
  match s with
  | "" => None
  | String c s' =>
      if Ascii.eqb c " " then (if truthy s' then Some s' else None)
      else payload_after_space s'
  end.

(** [{**a, **b}]. *)
Definition dict_merge {A} (a b : list (string * A)) : list (string * A) :=
  fold_left (fun d h => obj_set h.1 h.2 d) b a.

(** ** The mirror *)

Section mirror.
Context `{UrlLib} `{!IpLib} {P : Type} `{!CredentialProvider P}.
(** [urllib.parse.urljoin], [httpx.URL.join], [httpx.URL.copy_with(host=)];
    [None] when they raise. *)
Context (urljoin httpx_join httpx_with_host : string -> string -> option string).
(** [getaddrinfo] and the upstream, answering the [n]-th request. *)
Context (getaddrinfo : nat -> string -> Z -> result bool (list string)).
Context (http_get : nat -> fetch_request -> option fetch_response).
Context (json_loads : bytes -> option json).
(** [ParseDict] with [validate_proto_required_fields], and [MessageToDict]. *)
Context (parse_card : json -> option AgentCard) (MessageToDict : AgentCard -> json).
Context (settings : GatewaySettings) (provider : P).

Abbreviation F := (M (list fetch_request) mirror_error).
Abbreviation card_settings := (agent_card settings).

(** [SystemTargetResolver.resolve]; [Err true] stands for [OSError] or
    [ValueError], [Err false] for anything else. *)
Definition resolve (n : nat) (host : string) (port : Z) : result bool (list ip_addr) :=
  let? answers := getaddrinfo n host port in
  let? unique := fold_left (fun acc answer =>
      let? u := acc in
      match ip_address answer with
      | None => Err true
      | Some address => Ok (obj_set (ip_text address) address u)
      end) answers (Ok []) in
  Ok (map snd unique).

Definition origin (url : string) : result mirror_error (string * string * Z) :=
  match urlsplit url with
  | None => Err OtherException
  | Some parsed =>
      if negb (str_in (u_scheme parsed) ["http"; "https"]) || negb (opt_truthy (u_hostname parsed))
      then Err TargetInvalid
      else if bool_decide (u_username parsed <> None) || bool_decide (u_password parsed <> None)
      then Err TargetCredentials
      else
        let default_port := if String.eqb (u_scheme parsed) "https" then 443%Z else 80%Z in
        match u_port parsed with
        | Err _ => Err OtherException
        | Ok p =>
            let port := match p with
                        | Some n => if (n =? 0)%Z then default_port else n
                        | None => default_port
                        end in
            Ok (u_scheme parsed, lower (default "" (u_hostname parsed)), port)
        end
  end.

Definition trusted_host (host : string) : bool :=
  str_in (lower host) (map lower (trusted_private_hosts card_settings)).

(** Every address the target stands for: the literal, or all DNS answers. *)
Definition target_addresses (n : nat) (host : string) (port : Z)
  : result mirror_error (list ip_addr) :=
  match ip_address host with
  | Some literal => Ok [literal]
  | None => match resolve n host port with
            | Ok l => Ok l
            | Err true => Err TargetUnresolved
            | Err false => Err OtherException
            end
  end.

Definition validated_target (n : nat) (logical_url : string)
  : result mirror_error (string * list (string * string) * option string) :=
  match urlsplit logical_url with
  | None => Err OtherException
  | Some parsed =>
      let host := or_str (u_hostname parsed) "" in
      if trusted_host host then Ok (logical_url, [], None)
      else if negb (String.eqb (u_scheme parsed) "https") then Err TargetNotHttps
      else match u_port parsed with
           | Err _ => Err OtherException
           | Ok p =>
               let port := match p with Some z => if (z =? 0)%Z then 443%Z else z | None => 443%Z end in
               let? addresses := target_addresses n host port in
               match addresses with
               | [] => Err TargetPrivate
               | first :: _ =>
                   if existsb (fun a => negb (is_global a)) addresses then Err TargetPrivate
                   else match httpx_with_host logical_url (ip_text first) with
                        | None => Err OtherException
                        | Some pinned =>
                            let authority := match p with
                                             | Some z => if (z =? 443)%Z then host
                                                         else host +:+ ":" +:+ print_int z
                                             | None => host
                                             end in
                            Ok (pinned, [("Host", authority)], Some host)
                        end
               end
           end
  end.

(** [_bounded_body]: the declared length first, then every chunk. *)
Fixpoint read_chunks (body : bytes) (chunks : list bytes) (broken : bool)
  : result mirror_error bytes :=
  match chunks with
  | [] => if broken then Err OtherException else Ok body
  | chunk :: rest =>
      let body' := body +:+ chunk in
      if (max_response_bytes card_settings <? Z.of_nat (String.length body'))%Z
      then Err SizeLimit
      else read_chunks body' rest broken
  end.

Definition bounded_body (r : fetch_response) : result mirror_error bytes :=
  match fs_content_length r with
  | Some text =>
      match py_int text with
      | None => Err OtherException
      | Some n => if (max_response_bytes card_settings <? n)%Z then Err SizeLimit
                  else read_chunks "" (fs_chunks r) (fs_broken r)
      end
  | None => read_chunks "" (fs_chunks r) (fs_broken r)
  end.

(** The values [credential_values] collects from one header map. *)
Definition credential_values_of (headers : list (string * string)) : list string :=
  concat (map (fun h => h.2 :: option_list (payload_after_space h.2)) headers).

(** One pass of the loop body up to the response. *)
Definition fetch_once (logical_url : string) (creds : list string)
  : F (fetch_response * list string) :=
  let* n := mgets length in
  let* target := mlift (validated_target n logical_url) in
  let* headers := mlift (match provide provider {| ctx_method := "GET"; ctx_url := logical_url |} with
                         | Ok hs => Ok hs
                         | Err _ => Err OtherException
                         end) in
  let request := {| fr_url := target.1.1;
                    fr_headers := dict_merge headers target.1.2;
                    fr_sni := target.2 |} in
  mmodify (fun trace => trace ++ [request]) ;;;
  match http_get n request with
  | None => mraise OtherException
  | Some r => ret (r, creds ++ credential_values_of headers)
  end.

(** The loop of [_fetch_document]; [fuel] is the number of iterations left
    of [range(max_redirects + 1)]. *)
Fixpoint fetch_loop (fuel : nat) (redirect_count : nat) (start : string * string * Z)
    (logical_url : string) (creds : list string) : F (json * list string) :=
  match fuel with
  | 0 => mraise RedirectLimit
  | S fuel' =>
      let* answer := fetch_once logical_url creds in
      let r := answer.1 in
      if is_redirect r then
        match fs_location r with
        | None | Some "" => mraise RedirectNoLocation
        | Some location =>
            if max_redirects card_settings <=? redirect_count then mraise RedirectLimit
            else match urljoin logical_url location with
                 | None => mraise OtherException
                 | Some redirected =>
                     let* o := mlift (origin redirected) in
                     if bool_decide (o = start)
                     then fetch_loop fuel' (S redirect_count) start redirected answer.2
                     else mraise RedirectOrigin
                 end
        end
      else if negb (is_success r) then mraise OtherException
      else
        let* body := mlift (bounded_body r) in
        match json_loads body with
        | None => mraise OtherException
        | Some v => ret (v, answer.2)
        end
  end.

Definition fetch_document (logical_url : string) : F (json * list string) :=
  let* start := mlift (origin logical_url) in
  fetch_loop (S (max_redirects card_settings)) 0 start logical_url [].

Definition document_hash (v : json) : string :=
  sha256_hex (utf8_encode (json_dumps dumps_canonical v)).

(** The values whose presence in the public document refuses it. *)
Definition forbidden_values (upstream : url_parts) (creds : list string) : list string :=
  upstream_base_url settings :: (u_scheme upstream +:+ "://" +:+ u_netloc upstream) :: creds.

Definition ensure_no_private_reference (public_document : json) (creds : list string)
  : result mirror_error unit :=
  let serialized := casefold (json_dumps dumps_unicode public_document) in
  match urlsplit (upstream_base_url settings) with
  | None => Err OtherException
  | Some u =>
      ensure (negb (existsb (fun v => truthy v && contains (casefold v) serialized)
                      (forbidden_values u creds)))
        PrivateReference
  end.

Definition public_interface (i : agent_interface) : option agent_interface :=
  match obj_get (protocol_binding i) PUBLIC_INTERFACE_PATHS with
  | Some path =>
      if String.eqb (protocol_version i) "1.0"
      then Some {| if_url := public_base_url settings +:+ path;
                   protocol_binding := protocol_binding i;
                   protocol_version := protocol_version i;
                   if_other := if_other i |}
      else None
  | None => None
  end.

Definition public_projection (card : AgentCard) : result mirror_error AgentCard :=
  let interfaces := omap public_interface (supported_interfaces card) in
  let? _ := ensure (negb (bool_decide (interfaces = []))) NoImplementedProfile in
  let approved := filter (fun s => skill_id s ∈ approved_skill_ids card_settings) (skills card) in
  let? _ := ensure (negb (bool_decide (approved = []))) NoApprovedSkill in
  Ok {| card_name := card_name card; card_description := card_description card;
        card_version := card_version card;
        default_input_modes := default_input_modes card;
        default_output_modes := default_output_modes card;
        streaming := streaming card;
        supported_interfaces := interfaces; skills := approved; card_other := None |}.

(** The [try] block of [_refresh]: every exception that is not a mirror
    error becomes [CardInvalid]. *)
Definition fetch_card : F (AgentCard * list string) :=
  mcatch
    (let* url := mlift (match httpx_join (upstream_base_url settings) AGENT_CARD_PATH with
                        | Some u => Ok u
                        | None => Err OtherException
                        end) in
     let* fetched := fetch_document url in
     match parse_card fetched.1 with
     | None => mraise OtherException
     | Some card => ret (card, fetched.2)
     end)
    (fun e => mraise (if is_mirror_error e then e else CardInvalid)).

Definition refresh : F MirroredAgentCard :=
  let* fetched := fetch_card in
  let* public := mlift (public_projection fetched.1) in
  mlift (ensure_no_private_reference (MessageToDict public) fetched.2) ;;;
  ret {| document := MessageToDict public;
         source_sha256 := document_hash (MessageToDict fetched.1);
         public_sha256 := document_hash (MessageToDict public) |}.

(** ** The route [GET /.well-known/agent-card.json] *)

Inductive card_response :=
| CardOk (doc : json) (etag upstream_sha cache_control : string)
| CardBadGateway.

(** [int(seconds)] of a non-negative float. *)
Definition Qfloor (q : Q) : Z := (Qnum q / Zpos (Qden q))%Z.

(** The route on the outcome of [public_card]; an exception that is not a
    mirror error stays unhandled. *)
Definition mirrored_agent_card (outcome : result mirror_error MirroredAgentCard)
  : result mirror_error card_response :=
  match outcome with
  | Ok snapshot =>
      Ok (CardOk (document snapshot) ((String "034" "") +:+ "sha256-" +:+ public_sha256 snapshot +:+ (String "034" ""))
            (source_sha256 snapshot)
            ("public, max-age=" +:+ print_int (Qfloor (cache_ttl_seconds card_settings))))
  | Err e => if is_mirror_error e then Ok CardBadGateway else Err e
  end.

(** ** What the fetch may contact *)

(** A request that stays inside the confinement: its logical URL has the
    origin [start], and either the host is one the operator trusts, or the
    connection is HTTPS to a globally routable address that was validated,
    while the [Host] header and the TLS name still carry the logical host. *)
Definition confined (start : string * string * Z) (q : fetch_request) : Prop :=
  exists l parsed,
    urlsplit l = Some parsed /\ origin l = Ok start /\
    let host := or_str (u_hostname parsed) "" in
    ((trusted_host host = true /\ fr_url q = l /\ fr_sni q = None) \/
     (u_scheme parsed = "https" /\ fr_sni q = Some host /\
      (exists a, is_global a = true /\ httpx_with_host l (ip_text a) = Some (fr_url q)) /\
      exists authority, obj_get "Host" (fr_headers q) = Some authority /\
        startswith host authority = true)).

Lemma validated_target_confined n l t hs start :
  validated_target n l = Ok t -> origin l = Ok start ->
  confined start {| fr_url := t.1.1; fr_headers := dict_merge hs t.1.2; fr_sni := t.2 |}.
Proof.
  unfold validated_target, confined. intros Hv Ho.
  destruct (urlsplit l) as [parsed|] eqn:El; [|discriminate]. exists l, parsed.
  split; [done|]. split; [done|]. cbn zeta in *.
  destruct (trusted_host _) eqn:Et; [inv Hv; by left|]. right.
  destruct (String.eqb (u_scheme parsed) "https") eqn:Es; [|discriminate]. cbn in Hv.
  destruct (u_port parsed) as [p|]; [|discriminate].
  apply rbind_Ok in Hv as (addrs & _ & Hv).
  destruct addrs as [|a addrs]; [discriminate|].
  destruct (existsb _ _) eqn:Ex; [discriminate|]. cbn in Ex. apply orb_false_iff in Ex as [Hg _].
  destruct (httpx_with_host _ _) as [pinned|] eqn:Ep; [|discriminate]. injection Hv as <-. cbn.
  split_bools. split; [done|]. split; [done|]. split; [by exists a|].
  eexists. split; [apply obj_get_set_eq|].
  destruct p as [z|]; [destruct (z =? 443)%Z|]; auto using startswith_refl, startswith_refl_app.
Qed.

Lemma fetch_once_trace l creds trace r trace' start :
  origin l = Ok start ->
  fetch_once l creds trace = (r, trace') ->
  exists new, trace' = trace ++ new /\ length new <= 1 /\ Forall (confined start) new.
Proof.
  intros Ho. unfold fetch_once, bind, mgets, mlift, mmodify, mraise, ret.
  destruct (validated_target _ l) as [t|] eqn:Et;
    [|intros [= <- <-]; exists []; rewrite app_nil_r; cbn; auto with lia].
  destruct (provide provider _) as [hs|];
    [|intros [= <- <-]; exists []; rewrite app_nil_r; cbn; auto with lia].
  intros Hr. eexists [_].
  assert (trace' = trace ++ [{| fr_url := t.1.1; fr_headers := dict_merge hs t.1.2;
                                fr_sni := t.2 |}]) as -> by (split_match_in Hr; by inv Hr).
  split; [reflexivity|]. split; [cbn; lia|]. constructor; [|done].
  by eapply validated_target_confined.
Qed.

Lemma fetch_loop_trace fuel count start l creds trace r trace' :
  origin l = Ok start ->
  fetch_loop fuel count start l creds trace = (r, trace') ->
  exists new, trace' = trace ++ new /\ length new <= fuel /\ Forall (confined start) new.
Proof.
  induction fuel as [|fuel IH] in count, l, creds, trace |- *; intros Ho Hr; cbn in Hr.
  - inv Hr. exists []. by rewrite app_nil_r.
  - unfold bind in Hr. destruct (fetch_once l creds trace) as [a t1] eqn:E1.
    destruct (fetch_once_trace _ _ _ _ _ _ Ho E1) as (n1 & -> & Hl1 & Hf1).
    assert (forall t2, t2 = trace ++ n1 ->
      exists new, t2 = trace ++ new /\ length new <= S fuel /\ Forall (confined start) new) as Hstop.
    { intros t2 ->. exists n1. split; [done|]. split; [lia|done]. }
    destruct a as [[resp cr]|e]; [|inv Hr; by apply Hstop]. cbn in Hr.
    destruct (is_redirect resp).
    + destruct (fs_location resp) as [loc|]; [|inv Hr; by apply Hstop].
      destruct loc as [|c loc]; [inv Hr; by apply Hstop|].
      destruct (_ <=? count); [inv Hr; by apply Hstop|].
      destruct (urljoin l _) as [l'|]; [|inv Hr; by apply Hstop].
      unfold mlift in Hr. destruct (origin l') as [o|] eqn:Eo; [|inv Hr; by apply Hstop].
      destruct (bool_decide (o = start)) eqn:Ed; [|inv Hr; by apply Hstop]. split_bools. subst o.
      destruct (IH _ _ _ _ Eo Hr) as (n2 & -> & Hl2 & Hf2).
      exists (n1 ++ n2). rewrite app_assoc, length_app. split; [done|]. split; [lia|].
      by apply Forall_app.
    + apply Hstop. unfold mlift, mraise, ret in Hr. split_match_in Hr; by inv Hr.
Qed.

(** Fetching the private card makes at most [max_redirects + 1] requests,
    and each of them, redirects included, keeps the origin of the configured
    upstream and goes either to a host the operator trusts or, over HTTPS,
    to a validated globally routable address with the logical host name kept
    in the [Host] header and in TLS. *)
Theorem fetch_requests_confined url trace r trace' :
  fetch_document url trace = (r, trace') ->
  exists new, trace' = trace ++ new /\ length new <= S (max_redirects card_settings) /\
    forall q, q ∈ new -> exists start, origin url = Ok start /\ confined start q.
Proof.
  unfold fetch_document, bind, mlift. destruct (origin url) as [start|e] eqn:Eo.
  - intros Hr. destruct (fetch_loop_trace _ _ _ _ _ _ _ _ Eo Hr) as (new & -> & Hl & Hf).
    exists new. split; [done|]. split; [done|]. intros q Hq. exists start. split; [done|].
    rewrite Forall_forall in Hf. by apply Hf.
  - intros [= <- <-]. exists []. rewrite app_nil_r. split; [done|]. split; [cbn; lia|].
    intros q Hq. by apply elem_of_nil in Hq.
Qed.

(** ** Size bound *)

Lemma read_chunks_spec body chunks broken :
  (Z.of_nat (String.length body) <= max_response_bytes card_settings)%Z ->
  read_chunks body chunks broken =
  if (max_response_bytes card_settings
      <? Z.of_nat (String.length (body +:+ String.concat "" chunks)))%Z
  then Err SizeLimit
  else if broken then Err OtherException else Ok (body +:+ String.concat "" chunks).
Proof.
  induction chunks as [|c chunks IH] in body |- *; intros Hb; cbn.
  - rewrite str_app_nil_r. destruct (_ <? _)%Z eqn:E; [lia|done].
  - assert (Hc : match chunks with [] => c | _ :: _ => c +:+ "" +:+ String.concat "" chunks end
                 = c +:+ String.concat "" chunks)
      by (destruct chunks; [cbn; by rewrite str_app_nil_r | done]).
    rewrite Hc, str_app_assoc. destruct (_ <? _)%Z eqn:E.
    + rewrite (proj2 (Z.ltb_lt _ _)); [done|]. apply Z.ltb_lt in E.
      rewrite !str_length_app in *. lia.
    + apply IH. lia.
Qed.

(** A card body is accepted exactly when the declared length, if any, is
    a number within the limit, the stream does not break, and the bytes
    really received are within the limit; the accepted body is then all of
    them. *)
Theorem bounded_body_accepts r b :
  (0 <= max_response_bytes card_settings)%Z ->
  bounded_body r = Ok b <->
  b = String.concat "" (fs_chunks r) /\ fs_broken r = false /\
  (Z.of_nat (String.length b) <= max_response_bytes card_settings)%Z /\
  (forall text, fs_content_length r = Some text ->
     exists n, py_int text = Some n /\ (n <= max_response_bytes card_settings)%Z).
Proof.
  intros Hm. unfold bounded_body.
  assert (Hread : read_chunks "" (fs_chunks r) (fs_broken r) = Ok b <->
    b = String.concat "" (fs_chunks r) /\ fs_broken r = false /\
    (Z.of_nat (String.length b) <= max_response_bytes card_settings)%Z).
  { rewrite read_chunks_spec by (cbn; lia). cbn [String.append].
    change ("" +:+ ?x) with x. destruct (_ <? _)%Z eqn:E, (fs_broken r); split; intros Hx;
      try discriminate; try (destruct Hx as (-> & ? & ?); first [done | lia]).
    inv Hx. split; [done|]. split; [done|]. lia. }
  destruct (fs_content_length r) as [text|] eqn:Ec.
  - destruct (py_int text) as [n|] eqn:En.
    + destruct (_ <? n)%Z eqn:E.
      * split; [discriminate|]. intros (_ & _ & _ & Ht).
        destruct (Ht _ eq_refl) as (n' & ? & ?). simplify_eq. lia.
      * rewrite Hread. split; [|by intros (? & ? & ? & _)]. intros (? & ? & ?). split_and!; try done.
        intros ? [= <-]. exists n. split; [done|lia].
    + split; [discriminate|]. intros (_ & _ & _ & Ht). destruct (Ht _ eq_refl) as (? & ? & _).
      congruence.
  - rewrite Hread. split; [|by intros (? & ? & ? & _)]. intros (? & ? & ?). by split_and!.
Qed.

(** ** The public document *)

Lemma fetch_card_error trace e trace' :
  fetch_card trace = (Err e, trace') -> is_mirror_error e = true.
Proof.
  unfold fetch_card, mcatch, mraise. destruct (bind _ _ _) as [[a|e'] t]; intros [= <- <-].
  destruct (is_mirror_error e') eqn:E; [done|]. reflexivity.
Qed.

Lemma public_projection_error card e : public_projection card = Err e -> is_mirror_error e = true.
Proof. unfold public_projection, ensure. by repeat case_match; intros [= <-]. Qed.


(** With settings accepted by their validators the Agent Card route never
    fails with an unhandled exception: whatever the upstream, the resolver,
    the credential source and the parsers do, it answers with the card or
    with 502. *)
Theorem card_route_total public upstream host p timeout cred card trace :
  make_gateway_settings public upstream host p timeout cred card = Ok settings ->
  exists resp, mirrored_agent_card (refresh trace).1 = Ok resp.
Proof.
  intros Hs. unfold make_gateway_settings in Hs.
  apply rbind_Ok in Hs as (? & _ & Hs). apply rbind_Ok in Hs as (? & _ & Hs).
  apply rbind_Ok in Hs as (u & Hu & Hs). apply rbind_Ok in Hs as (? & _ & [= Hset]).
  assert (upstream_base_url settings = u) as Hup by (by rewrite <- Hset).
  assert (exists parsed, urlsplit u = Some parsed) as (parsed & Eu).
  { unfold normalize_base_url in Hu. destruct (urlsplit _) as [parsed|] eqn:E; [|discriminate].
    exists parsed. destruct (u_port parsed); [|discriminate]. split_match_in Hu. }
  unfold refresh, bind, mlift, ret. destruct (fetch_card trace) as [[[c creds]|e] t1] eqn:Ef; cbn.
  - destruct (public_projection c) as [public'|e] eqn:Ep; cbn.
    + unfold ensure_no_private_reference, ensure. rewrite Hup, Eu.
      destruct (negb _); cbn; eauto.
    + rewrite (public_projection_error _ _ Ep). eauto.
  - rewrite (fetch_card_error _ _ _ Ef). eauto.
Qed.
End mirror.

(** ** Concurrent callers of [public_card] *)

Module Cache.

(** Where a caller is: before the first check, waiting for the lock, inside
    [_refresh] with the time it read under the lock, or returned. *)
Inductive caller :=
| Entering
| Waiting
| Refreshing (now : Q)
| Returned (r : result mirror_error MirroredAgentCard).

(** The mirror object and its callers.  [refreshes] (start time and snapshot of
    every successful refresh, newest first) and [hits] (time and snapshot of
    every answer from the cache) are history. *)
Record mirror := {
  clock : Q;
  cached : option MirroredAgentCard;
  cache_expires_at : Q;
  cache_lock : option nat;
  callers : list caller;
  requests : list fetch_request;
  refreshes : list (Q * MirroredAgentCard);
  hits : list (Q * MirroredAgentCard)
}.

Section cache.
Context (refresh : M (list fetch_request) mirror_error MirroredAgentCard) (ttl : Q).

Definition fresh (s : mirror) : option MirroredAgentCard :=
  match cached s with
  | Some snap => if Qle_bool (cache_expires_at s) (clock s) then None else Some snap
  | None => None
  end.

Definition set_caller (i : nat) (c : caller) (lock : option nat) (s : mirror) : mirror :=
  {| clock := clock s; cached := cached s; cache_expires_at := cache_expires_at s;
     cache_lock := lock; callers := <[i := c]> (callers s); requests := requests s;
     refreshes := refreshes s; hits := hits s |}.

(** [return self._cached]. *)
Definition hit (i : nat) (snap : MirroredAgentCard) (s : mirror) : mirror :=
  {| clock := clock s; cached := cached s; cache_expires_at := cache_expires_at s;
     cache_lock := cache_lock s; callers := <[i := Returned (Ok snap)]> (callers s);
     requests := requests s; refreshes := refreshes s; hits := (clock s, snap) :: hits s |}.

(** The stretch of [public_card] caller [i] runs next; [None] when it is
    blocked on the lock or has returned. *)
Definition public_card (i : nat) (s : mirror) : option mirror :=
  match callers s !! i with
  | Some Entering =>
      match fresh s with
      | Some snap => Some (hit i snap s)
      | None => Some (set_caller i Waiting (cache_lock s) s)
      end
  | Some Waiting =>
      match cache_lock s with
      | Some _ => None
      | None => match fresh s with
                | Some snap => Some (hit i snap s)
                | None => Some (set_caller i (Refreshing (clock s)) (Some i) s)
                end
      end
  | Some (Refreshing now) =>
      match refresh (requests s) with
      | (Ok snap, t) =>
          Some {| clock := clock s; cached := Some snap; cache_expires_at := now + ttl;
                  cache_lock := None; callers := <[i := Returned (Ok snap)]> (callers s);
                  requests := t; refreshes := (now, snap) :: refreshes s; hits := hits s |}
      | (Err e, t) =>
          Some {| clock := clock s; cached := cached s; cache_expires_at := cache_expires_at s;
                  cache_lock := None; callers := <[i := Returned (Err e)]> (callers s);
                  requests := t; refreshes := refreshes s; hits := hits s |}
      end
  | _ => None
  end.

(** The monotonic clock, a new caller, and a step of a caller. *)
Inductive step : mirror -> mirror -> Prop :=
| step_clock s t : (clock s <= t)%Q ->
    step s {| clock := t; cached := cached s; cache_expires_at := cache_expires_at s;
              cache_lock := cache_lock s; callers := callers s; requests := requests s;
              refreshes := refreshes s; hits := hits s |}
| step_call s :
    step s {| clock := clock s; cached := cached s; cache_expires_at := cache_expires_at s;
              cache_lock := cache_lock s; callers := callers s ++ [Entering];
              requests := requests s; refreshes := refreshes s; hits := hits s |}
| step_run i s s' : public_card i s = Some s' -> step s s'.

Definition init (t : Q) : mirror :=
  {| clock := t; cached := None; cache_expires_at := 0; cache_lock := None; callers := [];
     requests := []; refreshes := []; hits := [] |}.

Inductive reachable : mirror -> Prop :=
| reachable_init t : reachable (init t)
| reachable_step s s' : reachable s -> step s s' -> reachable s'.

(** Consecutive refreshes, newest first, start at least one TTL apart. *)
Fixpoint spaced (l : list (Q * MirroredAgentCard)) : Prop :=
  match l with
  | (n2, _) :: (((n1, _) :: _) as l') => (n1 + ttl <= n2)%Q /\ spaced l'
  | _ => True
  end.

Definition newest (s : mirror) : Prop :=
  match refreshes s with
  | [] => cached s = None
  | (n, snap) :: _ => cached s = Some snap /\ cache_expires_at s = (n + ttl)%Q /\ (n <= clock s)%Q
  end.

Record inv (s : mirror) : Prop := {
  inv_newest : newest s;
  inv_spaced : spaced (refreshes s);
  inv_hits : forall t snap, (t, snap) ∈ hits s ->
    exists n, (n, snap) ∈ refreshes s /\ (n <= t)%Q /\ (t < n + ttl)%Q;
  inv_lock : forall i, cache_lock s = Some i <-> exists now, callers s !! i = Some (Refreshing now);
  inv_now : forall i now, callers s !! i = Some (Refreshing now) ->
    (now <= clock s)%Q /\ match refreshes s with [] => True | (n, _) :: _ => (n + ttl <= now)%Q end
}.

Lemma fresh_Some s snap :
  inv s -> fresh s = Some snap ->
  exists n, (n, snap) ∈ refreshes s /\ (n <= clock s)%Q /\ (clock s < n + ttl)%Q.
Proof.
  intros I. pose proof (inv_newest s I) as Hn. unfold fresh, newest in *.
  destruct (refreshes s) as [|[n sn] l]; [by rewrite Hn|]. destruct Hn as (-> & -> & Hc).
  destruct (Qle_bool _ _) eqn:E; intros [= <-]. exists n. split; [left|]. split; [done|].
  apply Qnot_le_lt. intros Hle. apply Qle_bool_iff in Hle. congruence.
Qed.

Lemma fresh_None s :
  inv s -> fresh s = None ->
  match refreshes s with [] => True | (n, _) :: _ => (n + ttl <= clock s)%Q end.
Proof.
  intros I. pose proof (inv_newest s I) as Hn. unfold fresh, newest in *.
  destruct (refreshes s) as [|[n sn] l]; [done|]. destruct Hn as (-> & -> & Hc).
  destruct (Qle_bool _ _) eqn:E; [|discriminate]. intros _. by apply Qle_bool_iff.
Qed.

Lemma refreshing_insert (l : list caller) i c j now :
  <[i := c]> l !! j = Some (Refreshing now) ->
  (i = j /\ c = Refreshing now) \/ (i <> j /\ l !! j = Some (Refreshing now)).
Proof.
  rewrite list_lookup_insert. case_decide as Hd.
  - destruct Hd as [-> _]. intros [= ->]. by left.
  - intros Hj. right. split; [|done]. intros ->. apply Hd. split; [done|].
    by eapply lookup_lt_Some.
Qed.

(** Replacing a caller that is not refreshing by one that is not either. *)
Lemma lock_quiet s i c0 c :
  inv s -> callers s !! i = Some c0 ->
  (forall now, c0 <> Refreshing now) -> (forall now, c <> Refreshing now) ->
  forall j, cache_lock s = Some j <-> exists now, <[i := c]> (callers s) !! j = Some (Refreshing now).
Proof.
  intros I Hi H0 Hc j. rewrite (inv_lock s I). split.
  - intros [now Hj]. exists now. rewrite list_lookup_insert_ne; [done|]. intros ->.
    rewrite Hi in Hj. injection Hj as ->. by destruct (H0 now).
  - intros [now [[-> ->]|[_ Hj]]%refreshing_insert]; [by destruct (Hc now)|by exists now].
Qed.

Lemma inv_hit s i c0 snap :
  inv s -> callers s !! i = Some c0 -> (forall now, c0 <> Refreshing now) ->
  fresh s = Some snap -> inv (hit i snap s).
Proof.
  intros I Hi H0 Hf. destruct (fresh_Some _ _ I Hf) as (n & Hn & ? & ?).
  split; cbn; [apply I|apply I| | |].
  - intros t sn [[= -> ->]|Hin]%elem_of_cons; [by exists n | by apply (inv_hits s I)].
  - by eapply lock_quiet.
  - intros j now [[-> ?]|[_ Hj]]%refreshing_insert; [done | by apply (inv_now s I j)].
Qed.

Lemma inv_public_card i s s' : inv s -> public_card i s = Some s' -> inv s'.
Proof.
  intros I. unfold public_card. destruct (callers s !! i) as [c|] eqn:Hi; [|done].
  assert (Hlt : i < length (callers s)) by (by eapply lookup_lt_Some).
  destruct c as [| |now|r]; [| | |done].
  - destruct (fresh s) as [snap|] eqn:Hf; intros [= <-]; [by eapply inv_hit|].
    split; cbn; [apply I|apply I|apply I| |].
    + by eapply lock_quiet.
    + intros j n [[-> ?]|[_ Hj]]%refreshing_insert; [done | by apply (inv_now s I j)].
  - destruct (cache_lock s) as [k|] eqn:Hl; [done|].
    destruct (fresh s) as [snap|] eqn:Hf; intros [= <-]; [by eapply inv_hit|].
    split; cbn; [apply I|apply I|apply I| |].
    + intros j. split.
      * intros [= <-]. exists (clock s). by rewrite list_lookup_insert_eq.
      * intros [n [[-> _]|[_ Hj]]%refreshing_insert]; [done|].
        assert (cache_lock s = Some j) by (apply (inv_lock s I); by exists n). congruence.
    + intros j n [[-> [= <-]]|[_ Hj]]%refreshing_insert; [|by apply (inv_now s I j)].
      split; [apply Qle_refl | by apply fresh_None].
  - assert (Hl : cache_lock s = Some i) by (apply (inv_lock s I); by exists now).
    destruct (inv_now s I i now Hi) as [Hc Hsp].
    assert (Hquiet : forall r j, None = Some j <->
      exists n, <[i := Returned r]> (callers s) !! j = Some (Refreshing n)).
    { intros r j. split; [done|]. intros [n [[_ ?]|[Hne Hj]]%refreshing_insert]; [done|].
      assert (cache_lock s = Some j) by (apply (inv_lock s I); by exists n). congruence. }
    destruct (refresh (requests s)) as [[snap|e] t]; intros [= <-]; split; cbn; try apply I;
      try apply Hquiet.
    + done.
    + pose proof (inv_spaced s I). destruct (refreshes s) as [|[n sn] l]; [done|]. by split.
    + intros t0 sn Hin. destruct (inv_hits s I _ _ Hin) as (n & ? & ?). exists n.
      split; [by right|done].
    + intros j n [[-> ?]|[Hne Hj]]%refreshing_insert; [done|].
      assert (cache_lock s = Some j) by (apply (inv_lock s I); by exists n). congruence.
    + intros j n [[-> ?]|[_ Hj]]%refreshing_insert; [done | by apply (inv_now s I j)].
Qed.

Lemma inv_reachable s : reachable s -> inv s.
Proof.
  induction 1 as [t|s s' _ I Hst].
  - split; cbn; try done.
    + intros t0 sn Hin. by apply elem_of_nil in Hin.
    + intros i. split; [done|]. by intros [now ?].
  - destruct Hst as [s t Ht|s|i s s' Hr]; [| |by eapply inv_public_card].
    + split; cbn; try apply I.
      * pose proof (inv_newest s I) as Hn. unfold newest in *. cbn.
        destruct (refreshes s) as [|[n sn] l]; [done|]. destruct Hn as (? & ? & ?).
        split_and!; [done|done|lra].
      * intros i now Hi. destruct (inv_now s I i now Hi). split; [lra|done].
    + assert (Hsnoc : forall i now, (callers s ++ [Entering]) !! i = Some (Refreshing now) <->
        callers s !! i = Some (Refreshing now)).
      { intros i now. rewrite lookup_app. destruct (callers s !! i) eqn:E; [done|].
        split; [|done]. destruct (i - length (callers s)); by intros [=]. }
      split; cbn; try apply I.
      * intros i. rewrite (inv_lock s I). split; intros [now Hn]; exists now; by apply Hsnoc.
      * intros i now Hi. apply (inv_now s I i now). by apply Hsnoc.
Qed.


(** The cache lock cannot deadlock: as long as some caller has not
    returned, some caller can run, also after refreshes that failed. *)
Theorem cache_never_deadlocks s i c :
  reachable s -> callers s !! i = Some c -> (forall r, c <> Returned r) ->
  exists j s', public_card j s = Some s'.
Proof.
  intros I%inv_reachable Hi Hc. unfold public_card.
  destruct (cache_lock s) as [k|] eqn:Hl.
  - destruct (proj1 (inv_lock s I k) Hl) as [now Hk]. exists k. rewrite Hk.
    destruct (refresh (requests s)) as [[snap|e] t]; eauto.
  - exists i. rewrite Hi. destruct c as [| |now|r].
    + destruct (fresh s); eauto.
    + destruct (fresh s); eauto.
    + assert (cache_lock s = Some i) by (apply (inv_lock s I); by exists now). congruence.
    + by destruct (Hc r).
Qed.
End cache.
End Cache.

(** ** A concrete mirror *)

Module CardDemo.

(** Two URLs on [up.example] and one elsewhere. *)
#[local] Instance urls : UrlLib := fun s =>
  let mk h := Some {| u_scheme := "https"; u_netloc := h; u_hostname := Some h; u_port := Ok None;
                      u_username := None; u_password := None; u_query := ""; u_fragment := "" |} in
  if startswith "https://up.example" s then mk "up.example"
  else if startswith "https://pub.example" s then mk "pub.example" else None.

(** Addresses are numbers; 1 is private, 8 is global. *)
#[local] Instance ips : IpLib := {|
  ip_addr := Z;
  ip_address s := if String.eqb s "8.8.8.8" then Some 8%Z
                  else if String.eqb s "10.0.0.1" then Some 1%Z else None;
  ip_text z := if (z =? 8)%Z then "8.8.8.8" else "10.0.0.1";
  is_private z := (z =? 1)%Z;
  is_loopback _ := false;
  is_link_local _ := false;
  is_global z := (z =? 8)%Z
|}.

Definition card_settings : AgentCardMirrorSettings :=
  {| approved_skill_ids := ["chat"]; trusted_private_hosts := []; max_response_bytes := 100;
     max_redirects := 1; fetch_timeout_seconds := 5; cache_ttl_seconds := 60 |}.

Definition settings : GatewaySettings :=
  {| public_base_url := "https://pub.example"; bind_host := "0.0.0.0"; port := 8080;
     stream_read_timeout_seconds := 30; upstream_base_url := "https://up.example";
     upstream_credential := {| mode := Private; header_name := None; secret_ref := None;
                               value_prefix := "" |};
     agent_card := card_settings |}.

Definition provider : {p : upstream_provider | provider_ok p} := exist _ NoCredentialProvider I.

Definition getaddrinfo (_ : nat) (_ : string) (_ : Z) : result bool (list string) := Ok ["8.8.8.8"].

Definition page (status : Z) (location : option string) (body : string) : fetch_response :=
  {| fs_status := status; fs_location := location; fs_content_length := Some "2";
     fs_chunks := [body]; fs_broken := false |}.

(** A redirect inside the origin, then the card. *)
Definition http_get (n : nat) (_ : fetch_request) : option fetch_response :=
  Some (match n with 0%nat => page 302 (Some "/v2") "" | _ => page 200 None "{}" end).

Definition card : AgentCard :=
  {| card_name := "a"; card_description := "d"; card_version := "1";
     default_input_modes := []; default_output_modes := []; streaming := true;
     supported_interfaces :=
       [{| if_url := "https://up.example/rpc"; protocol_binding := "JSONRPC";
           protocol_version := "1.0"; if_other := JNull |}];
     skills := [{| skill_id := "chat"; skill_other := JNull |};
                {| skill_id := "internal"; skill_other := JNull |}];
     card_other := Some (JStr "https://up.example/private") |}.

Definition to_dict (c : AgentCard) : json :=
  JObj [("name", JStr (card_name c));
        ("skills", JList (map (fun s => JStr (skill_id s)) (skills c)));
        ("urls", JList (map (fun i => JStr (if_url i)) (supported_interfaces c)))].

Definition join (a b : string) : option string := Some (a +:+ b).
Definition with_host (_ h : string) : option string := Some ("https://" +:+ h).

Definition loads (b : bytes) : option json := if String.eqb b "{}" then Some (JObj []) else None.

Definition demo_fetch := fetch_document join with_host getaddrinfo http_get loads settings provider.
Definition demo_refresh :=
  refresh join join with_host getaddrinfo http_get loads (fun _ => Some card) to_dict settings provider.

Lemma fetch_requests_confined_witness :
  exists r trace', demo_fetch "https://up.example/card" [] = (r, trace') /\ length trace' = 2 /\
  exists new, trace' = [] ++ new /\ length new <= 2 /\
    forall q, q ∈ new -> exists start, origin "https://up.example/card" = Ok start /\
      confined with_host settings start q.
Proof.
  eexists _, _. split; [vm_compute; reflexivity|]. split; [reflexivity|].
  apply (fetch_requests_confined join with_host getaddrinfo http_get loads settings provider
    "https://up.example/card" [] (Ok (JObj [], []))).
  vm_compute. reflexivity.
Defined.

Lemma bounded_body_accepts_witness :
  bounded_body settings (page 200 None "{}") = Ok "{}".
Proof.
  apply (bounded_body_accepts settings (page 200 None "{}") "{}"); [vm_compute; discriminate|].
  split_and!; try reflexivity; [vm_compute; discriminate|].
  intros text [= <-]. exists 2%Z. split; [reflexivity | vm_compute; discriminate].
Defined.


Lemma card_route_total_witness :
  exists resp, mirrored_agent_card settings (demo_refresh []).1 = Ok resp.
Proof.
  apply (card_route_total join join with_host getaddrinfo http_get loads (fun _ => Some card)
    to_dict settings provider "https://pub.example/" "https://up.example" "0.0.0.0" 8080 30
    (upstream_credential settings) card_settings).
  vm_compute. reflexivity.
Defined.

Definition after (s : Cache.mirror) (i : nat) : Cache.mirror :=
  default s (Cache.public_card demo_refresh 60 i s).

Definition one_caller : Cache.mirror :=
  {| Cache.clock := 5; Cache.cached := None; Cache.cache_expires_at := 0; Cache.cache_lock := None;
     Cache.callers := [Cache.Entering]; Cache.requests := []; Cache.refreshes := []; Cache.hits := [] |}.

Lemma one_caller_reachable : Cache.reachable demo_refresh 60 one_caller.
Proof. eapply Cache.reachable_step; [apply (Cache.reachable_init _ _ 5) | apply Cache.step_call]. Defined.

Lemma after_reachable s i :
  Cache.reachable demo_refresh 60 s -> Cache.reachable demo_refresh 60 (after s i).
Proof.
  intros Hs. unfold after. destruct (Cache.public_card demo_refresh 60 i s) eqn:E; [|done].
  eapply Cache.reachable_step; [exact Hs | by eapply Cache.step_run].
Qed.

Definition refreshed : Cache.mirror := after (after (after one_caller 0) 0) 0.

Lemma refreshed_reachable : Cache.reachable demo_refresh 60 refreshed.
Proof. do 3 apply after_reachable. apply one_caller_reachable. Qed.


Lemma cache_never_deadlocks_witness :
  exists j s', Cache.public_card demo_refresh 60 j one_caller = Some s'.
Proof.
  apply (Cache.cache_never_deadlocks demo_refresh 60 one_caller 0 Cache.Entering one_caller_reachable);
    [reflexivity | discriminate].
Defined.

End CardDemo.
