(* ===== verification/GatewayAdmin.v ===== *)
(** * Private administration surface of the gateway

    [kin_gateway/admin.py]: the authentication middleware and the health
    route.  [secrets.compare_digest] raises on text outside ASCII, which the
    model keeps. *)

From Stdlib Require Import Ascii String ZArith Lia.
From stdpp Require Import base list strings.
From S2P Require Import Prelude Regex GatewayConfig.

(** What the middleware reads of a request; [peer_cert] is [None] without TLS,
    [Some None] when [getpeercert] raises and otherwise tells whether a
    certificate was presented. *)
Record admin_request := {
  admin_method : string;
  admin_path : string;
  authorization : option string;
  peer_cert : option (option bool)
}.

Inductive admin_response :=
| AdminHealth
| AdminUnauthorized (www_authenticate : option string)
| AdminMethodNotAllowed
| AdminNotFound.

Inductive admin_exc := CompareTypeError.

Definition is_ascii (s : string) : bool := str_forall (fun c => (code c <? 128)%Z) s.

Definition compare_digest (a b : string) : result admin_exc bool :=
  if is_ascii a && is_ascii b then Ok (String.eqb a b) else Err CompareTypeError.

Definition BEARER : string := "Bearer ".

Definition is_authorized (request : admin_request) (settings : AdminPlaneSettings)
    (secret_provider : option SecretProvider) : result admin_exc bool :=
  match authentication settings with
  | Mtls =>
      match peer_cert request with
      | None => Ok false
      | Some None => Ok false
      | Some (Some cert) => Ok cert
      end
  | Token =>
      let authorization := default "" (authorization request) in
      if negb (startswith BEARER authorization) then Ok false
      else match secret_provider with
           | None => Ok false
           | Some get_secret =>
               match get_secret (or_str (token_secret_ref settings) "") with
               | None => Ok false
               | Some expected =>
                   if truthy expected
                   then compare_digest (str_drop (String.length BEARER) authorization) expected
                   else Ok false
               end
           end
  end.

(** The application behind the middleware. *)
Definition admin_routes (request : admin_request) : admin_response :=
  if String.eqb (admin_path request) "/admin/health" then
    if String.eqb (admin_method request) "GET" then AdminHealth else AdminMethodNotAllowed
  else AdminNotFound.

Definition authenticate_admin (settings : AdminPlaneSettings)
    (secret_provider : option SecretProvider) (request : admin_request)
  : result admin_exc admin_response :=
  if startswith "/admin/" (admin_path request) then
    let? authorized := is_authorized request settings secret_provider in
    if authorized then Ok (admin_routes request)
    else Ok (AdminUnauthorized
               (if bool_decide (authentication settings = Token) then Some "Bearer" else None))
  else Ok (admin_routes request).

(** [create_admin_app]: the application, or the refusal to build it. *)
Definition create_admin_app (settings : AdminPlaneSettings)
    (secret_provider : option SecretProvider)
  : option (admin_request -> result admin_exc admin_response) :=
  if bool_decide (authentication settings = Token) && bool_decide (secret_provider = None)
  then None
  else Some (authenticate_admin settings secret_provider).

(** What the operator configured as proof of authority. *)
Definition presents_authority (settings : AdminPlaneSettings)
    (secret_provider : option SecretProvider) (request : admin_request) : Prop :=
  match authentication settings with
  | Mtls => peer_cert request = Some (Some true)
  | Token => exists get_secret expected,
      secret_provider = Some get_secret /\
      get_secret (or_str (token_secret_ref settings) "") = Some expected /\
      expected <> "" /\ is_ascii expected = true /\
      authorization request = Some (BEARER +:+ expected)
  end.

Lemma is_authorized_spec request settings sp :
  is_authorized request settings sp = Ok true <-> presents_authority settings sp request.
Proof.
  unfold is_authorized, presents_authority. destruct (authentication settings).
  - split.
    + intros Hx. destruct (startswith BEARER _) eqn:Es; [|discriminate]. cbn [negb] in Hx.
      destruct sp as [get|]; [|discriminate]. destruct (get _) as [e|] eqn:Eg; [|discriminate].
      destruct (truthy e) eqn:Et; [|discriminate]. unfold compare_digest in Hx.
      pose proof (startswith_drop _ _ Es) as Hd. remember (str_drop _ _) as d eqn:Ed in Hx, Hd.
      destruct (is_ascii _ && is_ascii e) eqn:Ea; [|discriminate]. injection Hx as Hx. split_bools.
      exists get, e. apply truthy_spec in Et. split_and!; try done.
      destruct (authorization request) as [a|]; [|discriminate]. cbn in Hd. by rewrite Hd, Hx.
    + intros (get & e & -> & Hg & Hne & Ha & Hau). rewrite Hau. cbn [default from_option id].
      rewrite startswith_refl_app. cbn [negb]. rewrite Hg, (proj2 (truthy_spec e) Hne). unfold compare_digest.
      by rewrite str_drop_app, Ha, String.eqb_refl.
  - destruct (peer_cert request) as [[[]|]|]; split; congruence.
Qed.

(** An administration route answers only to a caller that presents the
    configured authority: with token authentication the exact non-empty secret
    as bearer token, with mutual TLS a client certificate. *)
Theorem admin_requires_authority settings sp app request :
  create_admin_app settings sp = Some app ->
  startswith "/admin/" (admin_path request) = true ->
  app request = Ok (admin_routes request) <-> presents_authority settings sp request.
Proof.
  unfold create_admin_app. intros Hc Hp. destruct (_ && _); [discriminate|]. injection Hc as <-.
  rewrite <- is_authorized_spec. unfold authenticate_admin. rewrite Hp.
  destruct (is_authorized request settings sp) as [[]|e]; cbn.
  - done.
  - split; [|discriminate]. unfold admin_routes. intros [= Hx]. split_match_in Hx.
  - split; discriminate.
Qed.

Lemma admin_requires_authority_witness :
  let settings := {| admin_bind_host := "127.0.0.1"; admin_port := 9090; authentication := Token;
                     token_secret_ref := Some "admin" |} in
  let sp := Some (MappingSecretProvider [("admin", "tok")]) in
  let request := {| admin_method := "GET"; admin_path := "/admin/health";
                    authorization := Some "Bearer tok"; peer_cert := None |} in
  authenticate_admin settings sp request = Ok AdminHealth /\
  presents_authority settings sp request.
Proof.
  cbn zeta. split; [reflexivity|].
  eapply (admin_requires_authority
    {| admin_bind_host := "127.0.0.1"; admin_port := 9090; authentication := Token;
       token_secret_ref := Some "admin" |}
    (Some (MappingSecretProvider [("admin", "tok")]))); reflexivity.
Defined.

(** A bearer token with a character outside ASCII is not refused with 401: the
    comparison raises and the request fails. *)
Example admin_non_ascii_token_crashes :
  authenticate_admin
    {| admin_bind_host := "127.0.0.1"; admin_port := 9090; authentication := Token;
       token_secret_ref := Some "admin" |}
    (Some (MappingSecretProvider [("admin", "tok")]))
    {| admin_method := "GET"; admin_path := "/admin/health";
       authorization := Some ("Bearer " +:+ String "233" ""); peer_cert := None |}
  = Err CompareTypeError.
Proof. reflexivity. Qed.
