(* ===== verification/Transition.v ===== *)
(** * Session lifecycle matrix

    [kin/session/transition_matrix.py].  Statuses are the strings the code
    stores in its database and puts on the wire. *)

From Stdlib Require Import Ascii String ZArith Lia.
From stdpp Require Import base list strings.
From S2P Require Import Prelude PyValue.

Definition VALID_TRANSITIONS : list (string * list string) :=
  [("draft", ["sent"; "cancelled"; "expired"]);
   ("sent", ["queued"; "delivered"; "accepted"; "failed"; "expired"]);
   ("queued", ["delivered"; "accepted"; "failed"; "expired"]);
   ("delivered", ["peer_review"; "accepted"; "failed"; "expired"]);
   ("peer_review", ["accepted"; "declined"; "needs_clarification"; "cancelled"; "expired"]);
   ("needs_clarification", ["peer_review"; "cancelled"; "failed"; "expired"]);
   ("accepted", ["active"; "cancelled"; "expired"]);
   ("active", ["awaiting_owner_approval"; "awaiting_peer"; "paused"; "completed"; "failed";
               "cancelled"; "expired"]);
   ("awaiting_owner_approval", ["active"; "paused"; "failed"; "cancelled"; "expired"]);
   ("awaiting_peer", ["active"; "paused"; "failed"; "cancelled"; "expired"]);
   ("paused", ["active"; "cancelled"; "failed"; "expired"]);
   ("completed", []);
   ("failed", []);
   ("cancelled", []);
   ("expired", []);
   ("declined", [])].

Definition TERMINAL_STATES : list string :=
  ["completed"; "failed"; "cancelled"; "expired"; "declined"].
Definition RESUMABLE_STATES : list string :=
  ["awaiting_owner_approval"; "awaiting_peer"; "paused"].

Definition is_valid_transition (current_status next_status : string) : bool :=
  str_in next_status (default [] (obj_get current_status VALID_TRANSITIONS)).

Definition is_terminal_state (status : string) : bool := str_in status TERMINAL_STATES.

(** The statuses of the lifecycle: the keys of the matrix. *)
Definition statuses : list string := map fst VALID_TRANSITIONS.

(** Statuses in which the two parties work on the task. *)
Definition WORKING_STATES : list string :=
  ["accepted"; "active"; "awaiting_owner_approval"; "awaiting_peer"; "paused"; "completed"].

(** ** Facts checked on the whole table *)

Lemma obj_get_In {A} k (v : A) kvs : obj_get k kvs = Some v -> (k, v) ∈ kvs.
Proof.
  induction kvs as [|[k' v'] kvs IH]; cbn; [discriminate|].
  destruct (String.eqb k k') eqn:E; intros Hg; [|right; by apply IH].
  apply String.eqb_eq in E as ->. injection Hg as ->. left.
Qed.

(** A boolean check of every edge of the matrix holds of every valid
    transition. *)
Lemma edges_forall (f : string -> string -> bool) :
  forallb (fun row => forallb (f row.1) row.2) VALID_TRANSITIONS = true ->
  forall a b, is_valid_transition a b = true -> f a b = true.
Proof.
  intros Hall a b Hv. unfold is_valid_transition in Hv.
  destruct (obj_get a VALID_TRANSITIONS) as [row|] eqn:E; [|done].
  apply obj_get_In, list_elem_of_In in E. rewrite forallb_forall in Hall.
  specialize (Hall _ E). cbn in Hall. rewrite forallb_forall in Hall.
  apply Hall, list_elem_of_In. by apply str_in_spec.
Qed.

Lemma valid_transition_statuses a b :
  is_valid_transition a b = true -> a ∈ statuses /\ b ∈ statuses.
Proof.
  intros Hv. apply (edges_forall (fun a b => str_in a statuses && str_in b statuses)) in Hv;
    [|vm_compute; reflexivity]. split_bools. split; by apply str_in_spec.
Qed.

Lemma terminal_no_successor a b : is_terminal_state a = true -> is_valid_transition a b = false.
Proof.
  intros Ht. destruct (is_valid_transition a b) eqn:Hv; [|done].
  apply (edges_forall (fun a _ => negb (is_terminal_state a))) in Hv; [|vm_compute; reflexivity].
  split_bools. congruence.
Qed.

Lemma working_entry a b :
  is_valid_transition a b = true -> b ∈ WORKING_STATES -> b = "accepted" \/ a ∈ WORKING_STATES.
Proof.
  intros Hv Hb. apply str_in_spec in Hb.
  apply (edges_forall (fun a b => negb (str_in b WORKING_STATES) || String.eqb b "accepted"
                                  || str_in a WORKING_STATES)) in Hv; [|vm_compute; reflexivity].
  rewrite Hb in Hv. cbn in Hv. apply orb_true_iff in Hv as [Hv|Hv].
  - left. by apply String.eqb_eq.
  - right. by apply str_in_spec.
Qed.

(** A path through the matrix. *)
Fixpoint lifecycle_path (a : string) (l : list string) : bool :=
  match l with
  | [] => true
  | b :: l' => is_valid_transition a b && lifecycle_path b l'
  end.

Lemma no_work_without_acceptance a l b :
  a ∉ WORKING_STATES -> lifecycle_path a l = true -> last l = Some b -> b ∈ WORKING_STATES ->
  "accepted" ∈ l.
Proof.
  induction l as [|c l IH] in a |- *; cbn [lifecycle_path]; intros Ha Hp Hl Hb; [done|].
  split_bools. destruct (decide (c ∈ WORKING_STATES)) as [Hc|Hc].
  - destruct (working_entry _ _ H Hc) as [->|]; [left|done].
  - right. apply (IH c Hc); [done| |done]. destruct l as [|d l]; [|done].
    cbn in Hl. injection Hl as ->. done.
Qed.

(** The lifecycle matrix is well formed: a transition only ever connects
    two statuses of the table; exactly the declared terminal statuses have no
    successor; from every other status the session can still be expired; and a
    session that starts outside the working statuses reaches one of them only
    through [accepted]. *)
Theorem lifecycle_matrix_sound :
  (forall a b, is_valid_transition a b = true -> a ∈ statuses /\ b ∈ statuses) /\
  (forall a, a ∈ statuses ->
     is_terminal_state a = true <-> forall b, is_valid_transition a b = false) /\
  (forall a, a ∈ statuses -> is_terminal_state a = false -> is_valid_transition a "expired" = true) /\
  (forall a l b, a ∉ WORKING_STATES -> lifecycle_path a l = true -> last l = Some b ->
     b ∈ WORKING_STATES -> "accepted" ∈ l).
Proof.
  assert (Hexp : forall a, a ∈ statuses -> is_terminal_state a = false ->
    is_valid_transition a "expired" = true).
  { intros a Ha Ht. apply list_elem_of_In in Ha.
    assert (forallb (fun a => is_terminal_state a || is_valid_transition a "expired") statuses = true)
      as Hall by (vm_compute; reflexivity).
    rewrite forallb_forall in Hall. specialize (Hall _ Ha). by rewrite Ht in Hall. }
  split; [apply valid_transition_statuses|]. split; [|split; [done|apply no_work_without_acceptance]].
  intros a Ha. split; [intros Ht b; by apply terminal_no_successor|].
  intros Hn. destruct (is_terminal_state a) eqn:Ht; [done|].
  specialize (Hexp a Ha Ht). by rewrite Hn in Hexp.
Qed.
