(* ===== verification/Schemas.v ===== *)
(** * Wire schemas, canonical hashing and envelope verification

    [kin/schemas.py].  Enumerations are inductive types with the class
    [StrEnum] for their string values; pydantic models are records built by a
    validating function from a JSON document.  RFC 8785 serialisation and
    Ed25519 are libraries: the classes [Jcs] and [Ed25519] carry their
    operations and the documented laws. *)

From Stdlib Require Import Ascii String ZArith Lia.
From stdpp Require Import base sets list strings.
From S2P Require Import Prelude Regex Codec PyValue.

(** ** String enumerations *)

Class StrEnum (A : Type) := {
  enum_value : A -> string;
  members : list A;
  members_all : forall a, a ∈ members;
  enum_value_inj : Inj (=) (=) enum_value
}.

(** [Enum(text)], [None] for [ValueError]. *)
Definition enum_of {A} `{StrEnum A} (s : string) : option A :=
  find_first (fun a => String.eqb s (enum_value a)) members.

Lemma enum_of_Some {A} `{StrEnum A} s (a : A) : enum_of s = Some a <-> s = enum_value a.
Proof.
  split.
  - intros [_ He]%find_first_Some. by apply String.eqb_eq.
  - intros ->. unfold enum_of. destruct (find_first _ _) as [b|] eqn:E.
    + apply find_first_Some in E as [_ Hb]. apply String.eqb_eq, enum_value_inj in Hb. by subst.
    + rewrite find_first_None, Forall_forall in E. specialize (E a (members_all a)).
      by rewrite String.eqb_refl in E.
Qed.

(** Discharges the laws of an enumeration. *)
Ltac solve_enum :=
  first [ intros []; set_solver
        | intros [] []; cbn; intros; first [reflexivity | discriminate] ].

Inductive MessageKind :=
| TASK_REQUEST | ACCEPTANCE | DECLINE | CLARIFICATION | PLAN | PROPOSAL | COUNTERPROPOSAL
| FINDING | QUESTION | ANSWER | ARTIFACT_OFFER | ARTIFACT_ACCEPT | APPROVAL_REQUEST
| APPROVAL_DECISION | STATUS_EVENT | FINAL_RESULT | CANCEL | PARTICIPANT_CHANGED.

#[export] Instance MessageKind_eq_dec : EqDecision MessageKind.
Proof. solve_decision. Defined.

Definition MessageKind_value (k : MessageKind) : string :=
  match k with
  | TASK_REQUEST => "task_request" | ACCEPTANCE => "acceptance" | DECLINE => "decline"
  | CLARIFICATION => "clarification" | PLAN => "plan" | PROPOSAL => "proposal"
  | COUNTERPROPOSAL => "counterproposal" | FINDING => "finding" | QUESTION => "question"
  | ANSWER => "answer" | ARTIFACT_OFFER => "artifact_offer" | ARTIFACT_ACCEPT => "artifact_accept"
  | APPROVAL_REQUEST => "approval_request" | APPROVAL_DECISION => "approval_decision"
  | STATUS_EVENT => "status_event" | FINAL_RESULT => "final_result" | CANCEL => "cancel"
  | PARTICIPANT_CHANGED => "participant_changed"
  end.

#[export] Instance MessageKind_enum : StrEnum MessageKind.
Proof.
  refine {| enum_value := MessageKind_value;
            members := [TASK_REQUEST; ACCEPTANCE; DECLINE; CLARIFICATION; PLAN; PROPOSAL;
                        COUNTERPROPOSAL; FINDING; QUESTION; ANSWER; ARTIFACT_OFFER;
                        ARTIFACT_ACCEPT; APPROVAL_REQUEST; APPROVAL_DECISION; STATUS_EVENT;
                        FINAL_RESULT; CANCEL; PARTICIPANT_CHANGED] |}; solve_enum.
Defined.

Inductive ActionClass :=
| INFORMATIONAL_RELAY | SESSION_PARTICIPATION | ARTIFACT_RECEIPT | WORKSPACE_READ
| WORKSPACE_WRITE | SHELL_NETWORK_EXTERNAL.

#[export] Instance ActionClass_eq_dec : EqDecision ActionClass.
Proof. solve_decision. Defined.

Definition ActionClass_value (a : ActionClass) : string :=
  match a with
  | INFORMATIONAL_RELAY => "informational_relay"
  | SESSION_PARTICIPATION => "session_participation"
  | ARTIFACT_RECEIPT => "artifact_receipt"
  | WORKSPACE_READ => "workspace_read"
  | WORKSPACE_WRITE => "workspace_write"
  | SHELL_NETWORK_EXTERNAL => "shell_network_external"
  end.

#[export] Instance ActionClass_enum : StrEnum ActionClass.
Proof.
  refine {| enum_value := ActionClass_value;
            members := [INFORMATIONAL_RELAY; SESSION_PARTICIPATION; ARTIFACT_RECEIPT;
                        WORKSPACE_READ; WORKSPACE_WRITE; SHELL_NETWORK_EXTERNAL] |}; solve_enum.
Defined.

Inductive RiskLabel := LOW | MEDIUM | HIGH | CRITICAL.

#[export] Instance RiskLabel_eq_dec : EqDecision RiskLabel.
Proof. solve_decision. Defined.

#[export] Instance RiskLabel_enum : StrEnum RiskLabel.
Proof.
  refine {| enum_value r := match r with LOW => "low" | MEDIUM => "medium" | HIGH => "high"
                                       | CRITICAL => "critical" end;
            members := [LOW; MEDIUM; HIGH; CRITICAL] |}; solve_enum.
Defined.

Inductive DecisionKind := APPROVE_ONCE | DENY | EDIT_CONSTRAINTS | ALWAYS_ALLOW_BOUNDED.

#[export] Instance DecisionKind_eq_dec : EqDecision DecisionKind.
Proof. solve_decision. Defined.

#[export] Instance DecisionKind_enum : StrEnum DecisionKind.
Proof.
  refine {| enum_value d := match d with APPROVE_ONCE => "approve_once" | DENY => "deny"
                                       | EDIT_CONSTRAINTS => "edit_constraints"
                                       | ALWAYS_ALLOW_BOUNDED => "always_allow_bounded" end;
            members := [APPROVE_ONCE; DENY; EDIT_CONSTRAINTS; ALWAYS_ALLOW_BOUNDED] |}; solve_enum.
Defined.

Inductive AutonomyLevel := NEVER | ALWAYS_ASK | ALWAYS_ALLOW.

#[export] Instance AutonomyLevel_eq_dec : EqDecision AutonomyLevel.
Proof. solve_decision. Defined.

#[export] Instance AutonomyLevel_enum : StrEnum AutonomyLevel.
Proof.
  refine {| enum_value a := match a with NEVER => "never" | ALWAYS_ASK => "always_ask"
                                       | ALWAYS_ALLOW => "always_allow" end;
            members := [NEVER; ALWAYS_ASK; ALWAYS_ALLOW] |}; solve_enum.
Defined.

Inductive InternalEventKind :=
| MESSAGE | ENVELOPE_RECEIVED | PUBLIC_MSG | PRIVATE_NOTE | OUTBOUND_ENVELOPE_QUEUED | ACTIVITY
| ADAPTER_ERROR | CHECKPOINT | DECISION | OUTCOME | RERUN_CREATED.

#[export] Instance InternalEventKind_eq_dec : EqDecision InternalEventKind.
Proof. solve_decision. Defined.

#[export] Instance InternalEventKind_enum : StrEnum InternalEventKind.
Proof.
  refine {| enum_value k := match k with
              | MESSAGE => "message" | ENVELOPE_RECEIVED => "envelope_received"
              | PUBLIC_MSG => "public_msg" | PRIVATE_NOTE => "private_note"
              | OUTBOUND_ENVELOPE_QUEUED => "outbound_envelope_queued" | ACTIVITY => "activity"
              | ADAPTER_ERROR => "adapter_error" | CHECKPOINT => "checkpoint"
              | DECISION => "decision" | OUTCOME => "outcome" | RERUN_CREATED => "rerun_created"
              end;
            members := [MESSAGE; ENVELOPE_RECEIVED; PUBLIC_MSG; PRIVATE_NOTE;
                        OUTBOUND_ENVELOPE_QUEUED; ACTIVITY; ADAPTER_ERROR; CHECKPOINT; DECISION;
                        OUTCOME; RERUN_CREATED] |}; solve_enum.
Defined.

(** The kind of a session event: [MessageKind] is tried first. *)
Definition event_kind_of (s : string) : option (MessageKind + InternalEventKind) :=
  match enum_of s with
  | Some k => Some (inl k)
  | None => inr <$> enum_of s
  end.

(** ** Patterns *)

Definition re_digits (n : nat) : re := rcount n (RChr cc_digit).
Definition re_fraction : re := ropt (RSeq (rlit ".") (rplus (RChr cc_digit))).
Definition re_datetime : re :=
  rseqs [re_digits 4; rlit "-"; re_digits 2; rlit "-"; re_digits 2; rlit "T"; re_digits 2; rlit ":";
         re_digits 2; rlit ":"; re_digits 2; re_fraction].

(** [re.match] with [^..$]; [$] also matches before a final line feed. *)
Definition TIMESTAMP_REGEX (s : string) : bool := re_match_dollar (RSeq re_datetime (rlit "Z")) s.
Definition cc_id : ascii -> bool := cc_or cc_alnum (cc_of "_-").
Definition CONTENT_HASH_REGEX (s : string) : bool := re_match_dollar (rcount 43 (RChr cc_id)) s.
Definition SAFE_ID_REGEX (s : string) : bool := re_match_dollar (rrange 1 63 (RChr cc_id)) s.
Definition TAG_PATTERN (s : string) : bool :=
  re_match_dollar (rplus (RChr (cc_or cc_lower (cc_or cc_digit (cc_of "-"))))) s.
Definition cc_mime : ascii -> bool := cc_or cc_alnum (cc_of "!#$&-^_.+").
Definition re_mime_part : re := RSeq (RChr cc_alnum) (RStar (RChr cc_mime)).
Definition MIME_PATTERN (s : string) : bool :=
  re_match_dollar (rseqs [re_mime_part; rlit "/"; re_mime_part]) s.
Definition cc_ident_start : ascii -> bool := cc_or cc_alpha (cc_of "_").
Definition re_ident : re := RSeq (RChr cc_ident_start) (RStar (RChr (cc_or cc_alnum (cc_of "_")))).
Definition SDK_ENTRY_POINT_REGEX (s : string) : bool :=
  re_match_dollar (rseqs [re_ident; RStar (RSeq (rlit ".") re_ident); rlit ":"; re_ident]) s.

(** The second pattern of [SessionEvent.created_at]. *)
Definition CREATED_AT_REGEX (s : string) : bool :=
  re_match_dollar (RSeq re_datetime (RAlt (rlit "+00:00") (rlit "Z"))) s.

(** ** Reading model fields out of a document *)

Abbreviation document := (list (string * json)).

(** [extra="forbid"]. *)
Definition keys_within (allowed : list string) (d : document) : bool :=
  forallb (fun kv => str_in kv.1 allowed) d.

(** A required [str] field, a [Literal] field, an optional [str] field. *)
Definition field_str (k : string) (d : document) : option string := get_str k d.
Definition field_literal (k lit : string) (d : document) : option unit :=
  match get_str k d with
  | Some s => if String.eqb s lit then Some tt else None
  | None => None
  end.
Definition field_opt_str (k : string) (d : document) : option (option string) :=
  match obj_get k d with
  | None | Some JNull => Some None
  | Some (JStr s) => Some (Some s)
  | Some _ => None
  end.
Definition field_object (k : string) (d : document) : option document :=
  match obj_get k d with
  | Some (JObj o) => Some o
  | _ => None
  end.

(** [if not b: raise ValueError]. *)
Definition check (b : bool) : option unit := if b then Some tt else None.

Notation "x <- m ;; k" := (match m with Some x => k | None => None end)
  (at level 100, m at next level, right associativity) : kin_scope.
Lemma check_Some b : check b = Some tt <-> b = true.
Proof. destruct b; cbn; split; congruence. Qed.

(** ** The wire envelope *)

Record SessionEnvelope := {
  env_session_id : string;
  env_sequence : Z;
  env_actor_username : string;
  env_actor_agent_id : string;
  env_timestamp : string;
  env_kind : MessageKind;
  env_content_hash : string;
  env_payload : document;
  env_signature : option string
}.

Definition ENVELOPE_FIELDS : list string :=
  ["schema_version"; "protocol_version"; "session_id"; "sequence"; "actor_username";
   "actor_agent_id"; "timestamp"; "kind"; "content_hash"; "payload"; "signature"].

(** [validate_strict_int_sequence]; Booleans are a type of their own here. *)
Definition validate_strict_int_sequence (v : json) : option Z :=
  match v with
  | JInt z => if (z <? 1)%Z then None else Some z
  | _ => None
  end.

(** [validate_kind_enum] on a document value. *)
Definition validate_kind_enum (v : json) : option MessageKind :=
  match v with
  | JStr s => enum_of s
  | _ => None
  end.

(** [SessionEnvelope.model_validate]. *)
Definition SessionEnvelope_validate (raw : document) : option SessionEnvelope :=
  _ <- check (keys_within ENVELOPE_FIELDS raw) ;;
  _ <- field_literal "schema_version" "1.1" raw ;;
  _ <- field_literal "protocol_version" "1.1" raw ;;
  session_id <- field_str "session_id" raw ;;
  seq_value <- obj_get "sequence" raw ;;
  sequence <- validate_strict_int_sequence seq_value ;;
  actor_username <- field_str "actor_username" raw ;;
  actor_agent_id <- field_str "actor_agent_id" raw ;;
  timestamp <- field_str "timestamp" raw ;;
  _ <- check (TIMESTAMP_REGEX timestamp) ;;
  kind_value <- obj_get "kind" raw ;;
  kind <- validate_kind_enum kind_value ;;
  content_hash <- field_str "content_hash" raw ;;
  _ <- check (CONTENT_HASH_REGEX content_hash) ;;
  payload <- field_object "payload" raw ;;
  _ <- check (validate_json_primitives (py_of_json (JObj payload))) ;;
  signature <- field_opt_str "signature" raw ;;
  Some {| env_session_id := session_id; env_sequence := sequence;
          env_actor_username := actor_username; env_actor_agent_id := actor_agent_id;
          env_timestamp := timestamp; env_kind := kind; env_content_hash := content_hash;
          env_payload := payload; env_signature := signature |}.

(** ** Libraries: RFC 8785 and Ed25519 *)

(** [rfc8785.dumps], [None] when it raises. *)
Class Jcs := jcs : json -> option bytes.

Class Ed25519 := {
  private_key : Type;
  public_key : Type;
  ed_public : private_key -> public_key;
  ed_sign : private_key -> bytes -> bytes;
  ed_verify : public_key -> bytes -> bytes -> bool;
  (** Signatures are 64 bytes, and the key pair verifies its own. *)
  ed_sign_length : forall k m, String.length (ed_sign k m) = 64%nat;
  ed_sign_verify : forall k m, ed_verify (ed_public k) (ed_sign k m) m = true
}.

Section envelope.
Context `{Jcs} `{Ed25519}.

(** [compute_content_hash]; [None] when it raises. *)
Definition compute_content_hash (payload : document) : option string :=
  if validate_json_primitives (py_of_json (JObj payload))
  then (fun b => base64url_encode (sha256 b)) <$> jcs (JObj payload)
  else None.

Definition sign_envelope (envelope : document) (k : private_key) : option string :=
  (fun b => base64url_encode (ed_sign k b)) <$> jcs (JObj (obj_without "signature" envelope)).

Definition verify_envelope_signature (envelope : document) (pk : public_key) : bool :=
  match obj_get "signature" envelope with
  | Some (JStr sig_str) =>
      truthy sig_str &&
      match base64url_decode sig_str, jcs (JObj (obj_without "signature" envelope)) with
      | Some sig_bytes, Some jcs_bytes => ed_verify pk sig_bytes jcs_bytes
      | _, _ => false
      end
  | _ => false
  end.

Record VerifiedEnvelope := {
  ve_envelope : SessionEnvelope;
  ve_key : public_key;
  ve_verified_at : string
}.

(** [verify_and_build_envelope]; the error carries the [error_code]. *)
Definition verify_and_build_envelope (raw : document)
    (get_public_key_fn : string -> option public_key) (active_session_id : string)
    (participant_map : list (string * string)) : result string VerifiedEnvelope :=
  match SessionEnvelope_validate raw with
  | None => Err "STRUCTURAL_SCHEMA_INVALID"
  | Some envelope =>
      if negb (String.eqb (env_session_id envelope) active_session_id)
      then Err "SESSION_ID_MISMATCH"
      else match compute_content_hash (env_payload envelope) with
      | None => Err "PAYLOAD_CANONICALIZATION_FAILED"
      | Some expected_hash =>
          if negb (String.eqb (env_content_hash envelope) expected_hash)
          then Err "CONTENT_HASH_MISMATCH"
          else match obj_get (env_actor_username envelope) participant_map with
          | None => Err "UNAUTHORIZED_ACTOR"
          | Some expected_agent_id =>
              if negb (String.eqb (env_actor_agent_id envelope) expected_agent_id)
              then Err "UNAUTHORIZED_AGENT"
              else match get_public_key_fn (env_actor_username envelope) with
              | None => Err "PUBLIC_KEY_NOT_FOUND"
              | Some pub_key =>
                  if negb (match env_signature envelope with
                           | Some s => truthy s | None => false end)
                     || negb (verify_envelope_signature raw pub_key)
                  then Err "INVALID_SIGNATURE"
                  else Ok {| ve_envelope := envelope; ve_key := pub_key;
                             ve_verified_at := env_timestamp envelope |}
              end
          end
      end
  end.

(** The dictionary the senders build, before signing. *)
Definition envelope_dict (session_id : string) (sequence : Z) (username agent ts : string)
    (kind : MessageKind) (content_hash : string) (payload : document) : document :=
  [("schema_version", JStr "1.1"); ("protocol_version", JStr "1.1");
   ("session_id", JStr session_id); ("sequence", JInt sequence);
   ("actor_username", JStr username); ("actor_agent_id", JStr agent);
   ("timestamp", JStr ts); ("kind", JStr (MessageKind_value kind));
   ("content_hash", JStr content_hash); ("payload", JObj payload)].

(** Building and signing an envelope, as the transport and the orchestrator
    do it. *)
Definition build_signed_envelope (k : private_key) (session_id : string) (sequence : Z)
    (username agent ts : string) (kind : MessageKind) (payload : document) : option document :=
  content_hash <- compute_content_hash payload ;;
  signature <- sign_envelope (envelope_dict session_id sequence username agent ts kind
                                content_hash payload) k ;;
  Some (obj_set "signature" (JStr signature)
          (envelope_dict session_id sequence username agent ts kind content_hash payload)).

(** ** Properties *)

Lemma content_hash_wellformed payload h :
  compute_content_hash payload = Some h -> CONTENT_HASH_REGEX h = true.
Proof.
  unfold compute_content_hash. destruct (validate_json_primitives _); [|done].
  destruct (jcs _) as [b|]; [|done]. intros [= <-]. apply re_match_dollar_spec. left.
  apply matches_count_chr. split.
  - apply Nat2Z.inj. by rewrite base64url_encode_length, sha256_length.
  - assert (forall s, str_forall b64url_char s = true -> str_forall cc_id s = true) as Himp.
    { intros s. induction s as [|c s IH]; [done|]. rewrite !str_forall_cons. intros Hs.
      split_bools. rewrite IH by done. rewrite andb_true_r.
      revert H1. clear. destruct c as [[] [] [] [] [] [] [] []]; vm_compute; done. }
    apply Himp, base64url_encode_chars.
Qed.

Lemma verify_sign envelope k signature :
  sign_envelope envelope k = Some signature ->
  verify_envelope_signature (obj_set "signature" (JStr signature) envelope) (ed_public k) = true.
Proof.
  unfold sign_envelope, verify_envelope_signature. intros Hs.
  rewrite obj_get_set_eq, obj_without_set.
  destruct (jcs _) as [b|]; [|done]. injection Hs as <-.
  rewrite base64url_roundtrip, ed_sign_verify, andb_true_r. apply truthy_spec.
  intros He. pose proof (base64url_encode_length (ed_sign k b)) as Hl.
  rewrite He, ed_sign_length in Hl. done.
Qed.

(** C2: An envelope is accepted exactly when it passes all six stages of the
    pipeline: it is a well-formed envelope, for the active session, whose
    content hash is the hash of its payload, from a registered participant
    acting through its registered agent, with a resolvable key, and signed by
    that key over the canonical bytes of everything except the signature. *)
Theorem verified_iff_six_stages raw get_pk sid parts ve :
  verify_and_build_envelope raw get_pk sid parts = Ok ve <->
  let e := ve_envelope ve in
  SessionEnvelope_validate raw = Some e /\
  env_session_id e = sid /\
  compute_content_hash (env_payload e) = Some (env_content_hash e) /\
  obj_get (env_actor_username e) parts = Some (env_actor_agent_id e) /\
  get_pk (env_actor_username e) = Some (ve_key ve) /\
  (exists s sig body, env_signature e = Some s /\ s <> "" /\
     obj_get "signature" raw = Some (JStr s) /\ base64url_decode s = Some sig /\
     jcs (JObj (obj_without "signature" raw)) = Some body /\ ed_verify (ve_key ve) sig body = true) /\
  ve_verified_at ve = env_timestamp e.
Proof.
  unfold verify_and_build_envelope. cbn zeta. split.
  - intros Hv. destruct (SessionEnvelope_validate raw) as [e|] eqn:Ee; [|done].
    destruct (String.eqb _ sid) eqn:Es; [|done]. cbn in Hv.
    destruct (compute_content_hash _) as [h|] eqn:Eh; [|done].
    destruct (String.eqb _ h) eqn:Ec; [|done]. cbn in Hv.
    destruct (obj_get _ parts) as [a|] eqn:Ea; [|done].
    destruct (String.eqb _ a) eqn:Eg; [|done]. cbn in Hv.
    destruct (get_pk _) as [pk|] eqn:Ek; [|done].
    destruct (_ || _) eqn:Ev in Hv; [done|]. injection Hv as <-. cbn. split_bools.
    rewrite Ec, Eg, Ea. split_and!; try done.
    unfold verify_envelope_signature in *.
    destruct (obj_get "signature" raw) as [[| | | |s| |]|] eqn:Eo; try done. split_bools.
    destruct (base64url_decode s) as [sig|] eqn:Ed; [|done].
    destruct (jcs _) as [body|] eqn:Ej; [|done].
    exists s, sig, body. split_and!; try done; [|by apply truthy_spec].
    revert Ee. unfold SessionEnvelope_validate, field_opt_str. rewrite Eo.
    intros He. split_match_in He. by injection He as <-.
  - destruct ve as [e pk at']. cbn.
    intros (-> & -> & -> & -> & -> & (s & sig & body & Hsig & Hne & Ho & Hd & Hj & Hver) & ->).
    rewrite !String.eqb_refl. cbn. rewrite Hsig, (proj2 (truthy_spec s) Hne). cbn.
    unfold verify_envelope_signature. rewrite Ho, Hd, Hj, Hver.
    by rewrite (proj2 (truthy_spec s) Hne).
Qed.

Lemma validate_built sid seq user agent ts kind h payload signature :
  (1 <= seq)%Z -> TIMESTAMP_REGEX ts = true -> CONTENT_HASH_REGEX h = true ->
  finite_json (JObj payload) = true ->
  SessionEnvelope_validate
    (obj_set "signature" (JStr signature) (envelope_dict sid seq user agent ts kind h payload)) =
  Some {| env_session_id := sid; env_sequence := seq; env_actor_username := user;
          env_actor_agent_id := agent; env_timestamp := ts; env_kind := kind;
          env_content_hash := h; env_payload := payload; env_signature := Some signature |}.
Proof.
  intros Hseq Hts Hh Hfin.
  change (obj_set "signature" (JStr signature) (envelope_dict sid seq user agent ts kind h payload))
    with (envelope_dict sid seq user agent ts kind h payload ++ [("signature", JStr signature)]).
  unfold SessionEnvelope_validate, envelope_dict, field_literal, field_str, field_object,
    field_opt_str, get_str.
  cbn [app obj_get String.eqb Ascii.eqb Bool.eqb check keys_within forallb fst snd ENVELOPE_FIELDS].
  rewrite validate_of_json, Hfin, Hts, Hh. cbn [check].
  unfold validate_strict_int_sequence, validate_kind_enum.
  rewrite (proj2 (Z.ltb_ge seq 1) Hseq).
  change (MessageKind_value kind) with (enum_value kind).
  by rewrite (proj2 (enum_of_Some _ kind) eq_refl).
Qed.

End envelope.

(** ** Concrete instances *)

Module SchemaDemo.

(** Canonical JSON of documents without numbers that need rewriting. *)
Definition demo_jcs : Jcs := fun v => Some (utf8_encode (json_dumps dumps_canonical v)).

(** A keyed hash in place of Ed25519, with the same two laws. *)
Definition demo_sign (k m : bytes) : bytes := sha256 (k +:+ m) +:+ sha256 (m +:+ k).

Definition demo_ed : Ed25519.
Proof.
  refine {| private_key := bytes; public_key := bytes; ed_public k := k; ed_sign := demo_sign;
            ed_verify pk sig m := String.eqb sig (demo_sign pk m) |}.
  - intros k m. unfold demo_sign. by rewrite str_length_app, !sha256_length.
  - intros k m. apply String.eqb_refl.
Defined.

Definition demo_raw : option document :=
  @build_signed_envelope demo_jcs demo_ed "alice-key" "s1" 1 "alice" "a1"
    "2026-07-23T12:00:00Z" TASK_REQUEST [("goal", JStr "g")].

Definition demo_keys (u : string) : option bytes :=
  if String.eqb u "alice" then Some "alice-key" else None.


End SchemaDemo.
