(* ===== verification/Reducer.v ===== *)
(** * The session state machine

    [kin/session/reducer.py] (the three [process_*] functions) and
    [kin/session/compatibility.py].  A reducer call returns a [ReducerResult]
    or raises; the step relation [rstep] collects the three ways a session
    state changes, and the invariants are proved over its reachable states. *)

From Stdlib Require Import Ascii String ZArith Lia.
From stdpp Require Import base gmap sets list strings.
From S2P Require Import Prelude Codec PyValue Schemas Transition.

Record ParticipantInfo := { agent_id : string; role : string }.

Record SessionState := {
  st_session_id : string;
  initiator_username : string;
  receiver_username : string;
  status : string;
  current_turn : Z;
  max_turns : Z;
  actor_sequences : gmap string Z;
  participants : gmap string ParticipantInfo;
  last_resumable_status : option string;
  events : list json
}.

(** [owner_usernames]. *)
Definition owner_usernames (s : SessionState) : gset string :=
  {[ initiator_username s; receiver_username s ]} ∪
  dom (filter (fun up : string * ParticipantInfo => role up.2 = "owner") (participants s)).

Record ReducerResult := {
  success : bool;
  new_state : SessionState;
  error_code : option string
}.

(** The exceptions a reducer call can end with: reading the local variable that
    is bound only for sessions with participants, and a [ParticipantInfo] built
    from an agent id that is not text. *)
Inductive reducer_exc := UnboundLocalError | ParticipantValidationError.

Definition rejected (s : SessionState) (code : string) : result reducer_exc ReducerResult :=
  Ok {| success := false; new_state := s; error_code := Some code |}.
Definition accepted (s : SessionState) : result reducer_exc ReducerResult :=
  Ok {| success := true; new_state := s; error_code := None |}.

Definition PEER_KIND_TRANSITION_MAP (k : MessageKind) : option string :=
  match k with
  | TASK_REQUEST => Some "sent"
  | ACCEPTANCE => Some "accepted"
  | DECLINE => Some "declined"
  | CLARIFICATION => Some "needs_clarification"
  | PROPOSAL | COUNTERPROPOSAL | FINDING | QUESTION | ANSWER | ARTIFACT_OFFER
  | ARTIFACT_ACCEPT | PLAN => Some "active"
  | APPROVAL_REQUEST => Some "awaiting_owner_approval"
  | FINAL_RESULT => Some "completed"
  | CANCEL => Some "cancelled"
  | STATUS_EVENT | PARTICIPANT_CHANGED | APPROVAL_DECISION => None
  end.

Definition TURN_CONSUMING_KINDS : list MessageKind :=
  [TASK_REQUEST; PROPOSAL; COUNTERPROPOSAL; FINDING; QUESTION; ANSWER; ARTIFACT_OFFER;
   ARTIFACT_ACCEPT].

Definition OWNER_ONLY_KINDS : list MessageKind := [CANCEL; APPROVAL_DECISION].

(** [envelope.model_dump(mode="json")]. *)
Definition envelope_dump (e : SessionEnvelope) : json :=
  JObj (envelope_dict (env_session_id e) (env_sequence e) (env_actor_username e)
          (env_actor_agent_id e) (env_timestamp e) (env_kind e) (env_content_hash e) (env_payload e)
        ++ [("signature", match env_signature e with Some s => JStr s | None => JNull end)]).

(** The receiver may accept before the initiator's node reports delivery, and
    with an agent of its choice. *)
Definition unaccepted_receiver_accept (s : SessionState) (e : SessionEnvelope) : bool :=
  bool_decide (env_kind e = ACCEPTANCE)
  && String.eqb (env_actor_username e) (receiver_username s)
  && str_in (status s) ["draft"; "sent"; "queued"; "delivered"; "peer_review"].

(** Steps 3 and 4; [Ok] carries the local [is_unaccepted_receiver_accept],
    which stays unbound without participants. *)
Definition authorize_actor (s : SessionState) (e : SessionEnvelope) : result string (option bool) :=
  if bool_decide (participants s = ∅) then Ok None
  else match participants s !! env_actor_username e with
       | None => Err "UNAUTHORIZED_ACTOR"
       | Some info =>
           let early := unaccepted_receiver_accept s e in
           if negb (String.eqb (env_actor_agent_id e) (agent_id info)) && negb early
           then Err "UNAUTHORIZED_AGENT"
           else if bool_decide (env_kind e ∈ OWNER_ONLY_KINDS) && negb (String.eqb (role info) "owner")
           then Err "UNAUTHORIZED_ROLE_ACTION"
           else Ok (Some early)
       end.

(** [payload.get(k1) or payload.get(k2) or default], as a document value. *)
Definition accepting_agent (e : SessionEnvelope) : json :=
  let get k := default JNull (obj_get k (env_payload e)) in
  if json_truthy (get "accepting_agent_id") then get "accepting_agent_id"
  else if json_truthy (get "receiver_agent_id") then get "receiver_agent_id"
  else JStr (env_actor_agent_id e).

(** The participants after the envelope; [None] when [ParticipantInfo] raises. *)
Definition updated_participants (s : SessionState) (e : SessionEnvelope)
  : option (gmap string ParticipantInfo) :=
  if bool_decide (env_kind e = ACCEPTANCE) then
    match accepting_agent e with
    | JStr a =>
        Some (<[env_actor_username e :=
                {| agent_id := a;
                   role := if String.eqb (env_actor_username e) (receiver_username s)
                           then "receiver" else "owner" |}]> (participants s))
    | _ => None
    end
  else Some (participants s).

Definition target_of (s : SessionState) (e : SessionEnvelope) : string :=
  default (status s) (PEER_KIND_TRANSITION_MAP (env_kind e)).

Definition checkpoint (s : SessionState) (target : string) : option string :=
  if str_in target RESUMABLE_STATES
  then if str_in (status s) RESUMABLE_STATES then last_resumable_status s else Some (status s)
  else last_resumable_status s.

Definition process_peer_envelope (s : SessionState) (e : SessionEnvelope)
  : result reducer_exc ReducerResult :=
  if str_in (status s) TERMINAL_STATES then rejected s "TERMINAL_STATE_IMMUTABLE"
  else if negb (String.eqb (env_session_id e) (st_session_id s)) then rejected s "SESSION_ID_MISMATCH"
  else match authorize_actor s e with
  | Err code => rejected s code
  | Ok early =>
      let last_seq := default 0%Z (actor_sequences s !! env_actor_username e) in
      if (env_sequence e =? last_seq)%Z then rejected s "DUPLICATE_SEQUENCE"
      else if negb (env_sequence e =? last_seq + 1)%Z then rejected s "OUT_OF_ORDER_SEQUENCE"
      else
        let target := target_of s e in
        let continue_ :=
          let turn_kind := bool_decide (env_kind e ∈ TURN_CONSUMING_KINDS) in
          if turn_kind && (max_turns s <=? current_turn s)%Z && negb (str_in target TERMINAL_STATES)
          then rejected s "TURN_LIMIT_EXCEEDED"
          else match updated_participants s e with
               | None => Err ParticipantValidationError
               | Some new_participants =>
                   accepted
                     {| st_session_id := st_session_id s;
                        initiator_username := initiator_username s;
                        receiver_username := receiver_username s;
                        status := target;
                        current_turn := if turn_kind then (current_turn s + 1)%Z else current_turn s;
                        max_turns := max_turns s;
                        actor_sequences :=
                          <[env_actor_username e := env_sequence e]> (actor_sequences s);
                        participants := new_participants;
                        last_resumable_status := checkpoint s target;
                        events := events s ++ [envelope_dump e] |}
               end in
        if negb (String.eqb target (status s)) && negb (is_valid_transition (status s) target)
        then match early with
             | None => Err UnboundLocalError
             | Some true => continue_
             | Some false => rejected s "INVALID_STATE_TRANSITION"
             end
        else continue_
  end.

Definition NODE_COMMAND_MAP : list (string * string) :=
  [("mark_queued", "queued"); ("mark_delivered", "delivered"); ("mark_peer_review", "peer_review");
   ("mark_active", "active"); ("mark_expired", "expired"); ("mark_failed", "failed");
   ("mark_awaiting_peer", "awaiting_peer");
   ("mark_awaiting_owner_approval", "awaiting_owner_approval")].

Definition with_status (s : SessionState) (st : string) (resumable : option string) : SessionState :=
  {| st_session_id := st_session_id s; initiator_username := initiator_username s;
     receiver_username := receiver_username s; status := st; current_turn := current_turn s;
     max_turns := max_turns s; actor_sequences := actor_sequences s;
     participants := participants s; last_resumable_status := resumable; events := events s |}.

Definition process_node_command (s : SessionState) (command : string) : ReducerResult :=
  let reject code := {| success := false; new_state := s; error_code := Some code |} in
  if str_in (status s) TERMINAL_STATES then reject "TERMINAL_STATE_IMMUTABLE"
  else match obj_get command NODE_COMMAND_MAP with
       | None => reject "UNKNOWN_NODE_COMMAND"
       | Some target =>
           if negb (is_valid_transition (status s) target) then reject "INVALID_STATE_TRANSITION"
           else {| success := true; new_state := with_status s target (last_resumable_status s);
                   error_code := None |}
       end.

(** The target of an owner action; [payload] is [{}] when absent. *)
Definition owner_target (action : string) (payload : document) : result string string :=
  if String.eqb action "owner_pause" then Ok "paused"
  else if String.eqb action "owner_resume" then Ok "active"
  else if String.eqb action "owner_cancel" then Ok "cancelled"
  else if String.eqb action "owner_approval_decision" then
    match get_str "decision" payload with
    | Some d =>
        if str_in d ["approve_once"; "always_allow_bounded"; "edit_constraints"] then Ok "active"
        else if String.eqb d "deny" then Ok "paused" else Err "INVALID_APPROVAL_DECISION"
    | None => Err "INVALID_APPROVAL_DECISION"
    end
  else Err "UNKNOWN_OWNER_ACTION".

Definition process_owner_command (s : SessionState) (owner action : string) (payload : document)
  : ReducerResult :=
  let reject code := {| success := false; new_state := s; error_code := Some code |} in
  if negb (bool_decide (owner ∈ owner_usernames s)) then reject "UNAUTHORIZED_OWNER"
  else if str_in (status s) TERMINAL_STATES then reject "TERMINAL_STATE_IMMUTABLE"
  else match owner_target action payload with
       | Err code => reject code
       | Ok target =>
           if negb (String.eqb target (status s)) && negb (is_valid_transition (status s) target)
           then reject "INVALID_STATE_TRANSITION"
           else {| success := true;
                   new_state := with_status s target
                     (if str_in target RESUMABLE_STATES then Some (status s)
                      else last_resumable_status s);
                   error_code := None |}
       end.

(** ** What an accepted envelope does *)

(** The status change an envelope may cause: none, an edge of the matrix, or
    the receiver's early acceptance. *)
Definition status_step (s : SessionState) (e : SessionEnvelope) : Prop :=
  target_of s e = status s \/
  is_valid_transition (status s) (target_of s e) = true \/
  (env_kind e = ACCEPTANCE /\ env_actor_username e = receiver_username s /\
   status s ∈ ["draft"; "sent"; "queued"; "delivered"; "peer_review"]).

(** The actor is a participant acting through its registered agent (or the
    receiver accepting), with owner role for owner-only kinds. *)
Definition actor_authorized (s : SessionState) (e : SessionEnvelope) : Prop :=
  participants s = ∅ \/
  exists info, participants s !! env_actor_username e = Some info /\
    (env_actor_agent_id e = agent_id info \/ unaccepted_receiver_accept s e = true) /\
    (env_kind e ∈ OWNER_ONLY_KINDS -> role info = "owner").

Definition next_state (s : SessionState) (e : SessionEnvelope)
    (parts : gmap string ParticipantInfo) : SessionState :=
  {| st_session_id := st_session_id s; initiator_username := initiator_username s;
     receiver_username := receiver_username s; status := target_of s e;
     current_turn := if bool_decide (env_kind e ∈ TURN_CONSUMING_KINDS)
                     then (current_turn s + 1)%Z else current_turn s;
     max_turns := max_turns s;
     actor_sequences := <[env_actor_username e := env_sequence e]> (actor_sequences s);
     participants := parts; last_resumable_status := checkpoint s (target_of s e);
     events := events s ++ [envelope_dump e] |}.

Lemma unaccepted_receiver_accept_spec s e :
  unaccepted_receiver_accept s e = true <->
  env_kind e = ACCEPTANCE /\ env_actor_username e = receiver_username s /\
  status s ∈ ["draft"; "sent"; "queued"; "delivered"; "peer_review"].
Proof.
  unfold unaccepted_receiver_accept. rewrite !andb_true_iff, bool_decide_eq_true, String.eqb_eq,
    str_in_spec. tauto.
Qed.

Lemma authorize_actor_Ok s e early :
  authorize_actor s e = Ok early ->
  actor_authorized s e /\ (early = None /\ participants s = ∅ \/
                           early = Some (unaccepted_receiver_accept s e)).
Proof.
  unfold authorize_actor, actor_authorized. case_bool_decide as Hp; [intros [= <-]; auto|].
  destruct (participants s !! _) as [info|]; [|done]. intros H.
  destruct (negb _ && negb _) eqn:Eag in H; [done|].
  destruct (bool_decide _ && negb _) eqn:Ero in H; [done|]. injection H as <-.
  split; [right; exists info | by right]. split; [done|]. split.
  - apply andb_false_iff in Eag as [E|E]; split_bools; auto.
  - intros Hk. rewrite bool_decide_true in Ero by done. cbn [andb] in Ero. by split_bools.
Qed.

Lemma peer_accepted s e r :
  process_peer_envelope s e = Ok r -> success r = true ->
  (status s ∉ TERMINAL_STATES) /\ env_session_id e = st_session_id s /\ actor_authorized s e /\
  env_sequence e = (default 0 (actor_sequences s !! env_actor_username e) + 1)%Z /\
  status_step s e /\
  (env_kind e ∈ TURN_CONSUMING_KINDS -> target_of s e ∉ TERMINAL_STATES ->
     (current_turn s < max_turns s)%Z) /\
  exists parts, updated_participants s e = Some parts /\ new_state r = next_state s e parts.
Proof.
  unfold process_peer_envelope, rejected. intros H Hs.
  destruct (str_in (status s) TERMINAL_STATES) eqn:Et; [by inv H|].
  destruct (String.eqb (env_session_id e) _) eqn:Ei; cbn [negb] in H; [|by inv H].
  destruct (authorize_actor s e) as [early|code] eqn:Ea; [|by inv H].
  apply authorize_actor_Ok in Ea as [Hauth Hearly].
  destruct (_ =? _)%Z eqn:Ed in H; [by inv H|].
  destruct (env_sequence e =? _)%Z eqn:Eo in H; cbn [negb] in H; [|by inv H].
  split_bools. apply Z.eqb_eq in Eo.
  assert (Hcont : status_step s e /\
    (if bool_decide (env_kind e ∈ TURN_CONSUMING_KINDS) && (max_turns s <=? current_turn s)%Z
        && negb (str_in (target_of s e) TERMINAL_STATES)
     then Ok {| success := false; new_state := s; error_code := Some "TURN_LIMIT_EXCEEDED" |}
     else match updated_participants s e with
          | None => Err ParticipantValidationError
          | Some parts => accepted (next_state s e parts)
          end) = Ok r).
  { unfold status_step. destruct (String.eqb (target_of s e) (status s)) eqn:E1; cbn [negb andb] in H.
    - apply String.eqb_eq in E1. auto.
    - destruct (is_valid_transition _ _) eqn:E2; cbn [negb] in H; [auto|].
      destruct Hearly as [[-> _]| ->]; [done|].
      destruct (unaccepted_receiver_accept s e) eqn:E3; [|by inv H].
      apply unaccepted_receiver_accept_spec in E3. auto. }
  destruct Hcont as [Hst Hr].
  split_and!; try done.
  - intros Hin%str_in_spec. congruence.
  - intros Hk Ht. apply Z.nle_gt. intros Hle.
    rewrite bool_decide_true in Hr by done. rewrite (proj2 (Z.leb_le _ _) Hle) in Hr.
    destruct (str_in (target_of s e) TERMINAL_STATES) eqn:Eterm.
    + by apply str_in_spec in Eterm.
    + by inv Hr.
  - destruct (_ && _ && _) in Hr; [by inv Hr|].
    destruct (updated_participants s e) as [parts|]; [|done]. exists parts. by inv Hr.
Qed.

Lemma peer_rejected s e r :
  process_peer_envelope s e = Ok r -> success r = false -> new_state r = s.
Proof.
  unfold process_peer_envelope, rejected, accepted. intros H Hs.
  repeat (case_match; simplify_eq; try done).
Qed.

Lemma node_accepted s c r :
  process_node_command s c = r -> success r = true ->
  (status s ∉ TERMINAL_STATES) /\
  exists target, obj_get c NODE_COMMAND_MAP = Some target /\
    is_valid_transition (status s) target = true /\
    new_state r = with_status s target (last_resumable_status s).
Proof.
  unfold process_node_command. intros <- Hs.
  destruct (str_in _ _) eqn:Et; [done|]. split; [intros ?%str_in_spec; congruence|].
  destruct (obj_get c _) as [target|]; [|done]. exists target.
  by destruct (is_valid_transition _ _).
Qed.

Lemma owner_accepted s o a p r :
  process_owner_command s o a p = r -> success r = true ->
  o ∈ owner_usernames s /\ (status s ∉ TERMINAL_STATES) /\
  exists target, owner_target a p = Ok target /\
    (target = status s \/ is_valid_transition (status s) target = true) /\
    new_state r = with_status s target (if str_in target RESUMABLE_STATES then Some (status s)
                                        else last_resumable_status s).
Proof.
  unfold process_owner_command. intros <- Hs.
  case_bool_decide as Ho; [|done]. cbn [negb] in *. split; [done|].
  destruct (str_in (status s) TERMINAL_STATES) eqn:Et; [done|].
  split; [intros ?%str_in_spec; congruence|].
  destruct (owner_target a p) as [target|]; [|done]. exists target. split; [done|].
  destruct (String.eqb target (status s)) eqn:E1; cbn [negb andb] in *.
  - apply String.eqb_eq in E1. auto.
  - by destruct (is_valid_transition _ _) eqn:E2; cbn [negb] in *; [auto|].
Qed.

(** ** Sessions as a transition system *)

Inductive rinput :=
| PeerEnvelope (e : SessionEnvelope)
| NodeCommand (command : string)
| OwnerCommand (owner action : string) (payload : document).

(** One reducer call that succeeded. *)
Inductive rstep : SessionState -> rinput -> SessionState -> Prop :=
| rstep_peer s e r : process_peer_envelope s e = Ok r -> success r = true ->
    rstep s (PeerEnvelope e) (new_state r)
| rstep_node s c r : process_node_command s c = r -> success r = true ->
    rstep s (NodeCommand c) (new_state r)
| rstep_owner s o a p r : process_owner_command s o a p = r -> success r = true ->
    rstep s (OwnerCommand o a p) (new_state r).

Inductive rsteps : SessionState -> list rinput -> SessionState -> Prop :=
| rsteps_nil s : rsteps s [] s
| rsteps_cons s i s' l s'' : rstep s i s' -> rsteps s' l s'' -> rsteps s (i :: l) s''.

(** A session as the nodes create it: no history. *)
Definition fresh_session (s : SessionState) : Prop :=
  (status s ∈ statuses) /\ (status s ∉ WORKING_STATES) /\ current_turn s = 0%Z /\
  (1 <= max_turns s)%Z /\ actor_sequences s = ∅ /\ events s = [].

(** The sequence numbers recorded for an actor, in order. *)
Definition event_sequence (u : string) (ev : json) : option Z :=
  match ev with
  | JObj d => match get_str "actor_username" d, obj_get "sequence" d with
              | Some a, Some (JInt z) => if String.eqb a u then Some z else None
              | _, _ => None
              end
  | _ => None
  end.

Definition event_kind (ev : json) : option string :=
  match ev with JObj d => get_str "kind" d | _ => None end.

Definition is_acceptance (ev : json) : Prop := event_kind ev = Some "acceptance".

(** [1 .. n]. *)
Definition Zupto (n : nat) : list Z := (fun k => Z.of_nat (S k)) <$> seq 0 n.

Record session_inv (s : SessionState) : Prop := {
  inv_status : status s ∈ statuses;
  inv_turn : (0 <= current_turn s <= max_turns s)%Z;
  inv_sequences : forall u, omap (event_sequence u) (events s)
    = Zupto (Z.to_nat (default 0%Z (actor_sequences s !! u)));
  inv_nonneg : forall u n, actor_sequences s !! u = Some n -> (1 <= n)%Z;
  inv_acceptance : status s ∈ WORKING_STATES -> Exists is_acceptance (events s)
}.

Lemma event_sequence_dump u e :
  event_sequence u (envelope_dump e)
  = if String.eqb (env_actor_username e) u then Some (env_sequence e) else None.
Proof. reflexivity. Qed.

Lemma Zupto_S n : Zupto (S n) = Zupto n ++ [Z.of_nat (S n)].
Proof. unfold Zupto. rewrite seq_S, fmap_app. done. Qed.

Lemma fresh_inv s : fresh_session s -> session_inv s.
Proof.
  intros (Hst & Hw & Ht & Hm & Hs & He). split.
  - done.
  - lia.
  - intros u. by rewrite He, Hs, lookup_empty.
  - intros u n. by rewrite Hs, lookup_empty.
  - by intros ?.
Qed.

Lemma target_in_statuses s e : status s ∈ statuses -> target_of s e ∈ statuses.
Proof.
  intros Hs. unfold target_of. destruct (env_kind e); cbn; try done; apply str_in_spec; reflexivity.
Qed.

Lemma turn_kind_not_terminal s e :
  env_kind e ∈ TURN_CONSUMING_KINDS -> target_of s e ∉ TERMINAL_STATES.
Proof.
  unfold target_of. intros Hk Ht%str_in_spec. revert Ht.
  unfold TURN_CONSUMING_KINDS in Hk. rewrite !elem_of_cons, elem_of_nil in Hk.
  intros Ht. destruct_or! Hk; try done; rewrite Hk in Ht; vm_compute in Ht; discriminate.
Qed.

(** A status change to a working status needs an acceptance. *)
Lemma working_target s e :
  status_step s e -> target_of s e ∈ WORKING_STATES ->
  env_kind e = ACCEPTANCE \/ status s ∈ WORKING_STATES.
Proof.
  intros Hst Hw. destruct Hst as [He|[Hv|(? & _)]]; [|destruct (working_entry _ _ Hv Hw) as [He|]|];
    [rewrite He in Hw; by right | | by right | by left].
  revert He. unfold target_of. destruct (env_kind e); cbn; try (left; done); try discriminate;
    intros He; right; rewrite He; apply str_in_spec; reflexivity.
Qed.

Lemma inv_next s e parts :
  session_inv s ->
  env_sequence e = (default 0 (actor_sequences s !! env_actor_username e) + 1)%Z ->
  status_step s e ->
  (env_kind e ∈ TURN_CONSUMING_KINDS -> (current_turn s < max_turns s)%Z) ->
  session_inv (next_state s e parts).
Proof.
  intros I Hseq Hst Hturn.
  assert (Hnn : forall u, (0 <= default 0 (actor_sequences s !! u))%Z).
  { intros u. destruct (_ !! u) as [n|] eqn:E; cbn; [|lia]. apply (inv_nonneg s I) in E. lia. }
  split; cbn [status current_turn max_turns actor_sequences events next_state].
  - apply target_in_statuses, I.
  - pose proof (inv_turn s I). case_bool_decide as Hk; [specialize (Hturn Hk)|]; lia.
  - intros u. rewrite omap_app, (inv_sequences s I). cbn [omap list_omap].
    rewrite event_sequence_dump. destruct (String.eqb _ u) eqn:Eu; split_bools.
    + subst u. rewrite lookup_insert_eq. cbn [default from_option id]. rewrite Hseq.
      specialize (Hnn (env_actor_username e)).
      replace (Z.to_nat (_ + 1)) with (S (Z.to_nat (default 0%Z (actor_sequences s !! env_actor_username e)))) by lia.
      rewrite Zupto_S. do 2 f_equal. lia.
    + by rewrite lookup_insert_ne, app_nil_r.
  - intros u n. rewrite lookup_insert. case_decide; [|by apply I].
    intros [= <-]. specialize (Hnn (env_actor_username e)). lia.
  - intros Hw. apply Exists_app. destruct (working_target _ _ Hst Hw) as [Hk|Hs].
    + right. constructor. unfold is_acceptance, event_kind, envelope_dump. cbn. by rewrite Hk.
    + left. by apply (inv_acceptance s I).
Qed.

Lemma inv_with_status s st r :
  session_inv s -> st = status s \/ is_valid_transition (status s) st = true ->
  (st ∈ WORKING_STATES -> status s ∈ WORKING_STATES) -> session_inv (with_status s st r).
Proof.
  intros I Hst Hw. split; cbn; try apply I.
  - destruct Hst as [->|Hv]; [apply I|]. by apply valid_transition_statuses in Hv as [_ ?].
  - intros H. apply (inv_acceptance s I). auto.
Qed.

Lemma node_target_not_accepted c t : obj_get c NODE_COMMAND_MAP = Some t -> t <> "accepted".
Proof.
  intros Hg%obj_get_In%list_elem_of_In ->. cbn in Hg.
  repeat destruct Hg as [Hg|Hg]; try discriminate; done.
Qed.

Lemma owner_target_not_accepted a p t : owner_target a p = Ok t -> t <> "accepted".
Proof. unfold owner_target. intros H ->. repeat (case_match; simplify_eq). Qed.

Lemma rstep_inv s i s' : session_inv s -> rstep s i s' -> session_inv s'.
Proof.
  intros I Hst. destruct Hst as [s e r H Hs|s c r H Hs|s o a p r H Hs].
  - destruct (peer_accepted _ _ _ H Hs) as (_ & _ & _ & Hseq & Hst & Ht & parts & _ & ->).
    apply inv_next; auto. intros Hk. apply Ht; [done|]. by apply turn_kind_not_terminal.
  - destruct (node_accepted _ _ _ H Hs) as (_ & t & Hm & Hv & ->). apply inv_with_status; auto.
    intros Hw. apply node_target_not_accepted in Hm.
    by destruct (working_entry _ _ Hv Hw).
  - destruct (owner_accepted _ _ _ _ _ H Hs) as (_ & _ & t & Ho & Hv & ->).
    apply inv_with_status; auto. intros Hw. apply owner_target_not_accepted in Ho.
    destruct Hv as [->|Hv]; [done|]. by destruct (working_entry _ _ Hv Hw).
Qed.

Lemma rsteps_inv s l s' : session_inv s -> rsteps s l s' -> session_inv s'.
Proof. intros I Hst. induction Hst; [done|]. eauto using rstep_inv. Qed.

(** ** Histories *)

Lemma peer_sequence s e s' u :
  rstep s (PeerEnvelope e) s' ->
  actor_sequences s' !! u =
    if String.eqb u (env_actor_username e) then Some (env_sequence e) else actor_sequences s !! u.
Proof.
  intros H. inv H. destruct (peer_accepted s e r) as (_ & _ & _ & _ & _ & _ & p & _ & ->); [done..|].
  cbn. destruct (String.eqb u _) eqn:E; split_bools; [subst; by rewrite lookup_insert_eq|].
  by rewrite lookup_insert_ne.
Qed.

Lemma rstep_sequences_mono s i s' u :
  rstep s i s' ->
  (default 0 (actor_sequences s !! u) <= default 0 (actor_sequences s' !! u))%Z.
Proof.
  intros H. destruct i as [e|c|o a p].
  - pose proof (peer_sequence s e s' u H) as Hu. inv H.
    destruct (peer_accepted s e r) as (_ & _ & _ & Hseq & _); [done..|]. rewrite Hu.
    destruct (String.eqb u _) eqn:E; split_bools; [|lia]. subst u. cbn. lia.
  - inv H. destruct (node_accepted s c (process_node_command s c)) as (_ & t & _ & _ & ->); done.
  - inv H. destruct (owner_accepted s o a p (process_owner_command s o a p))
      as (_ & _ & t & _ & _ & ->); done.
Qed.

Lemma rsteps_sequences_mono s l s' u :
  rsteps s l s' ->
  (default 0 (actor_sequences s !! u) <= default 0 (actor_sequences s' !! u))%Z.
Proof.
  induction 1 as [s|s i s' l s'' H _ IH]; [lia|].
  pose proof (rstep_sequences_mono _ _ _ u H). lia.
Qed.

Lemma accepted_sequence_reached s l s' e :
  rsteps s l s' -> PeerEnvelope e ∈ l ->
  (env_sequence e <= default 0 (actor_sequences s' !! env_actor_username e))%Z.
Proof.
  induction 1 as [s|s i s' l s'' H Hl IH]; intros Hin; [by apply elem_of_nil in Hin|].
  apply elem_of_cons in Hin as [<-|Hin]; [|auto].
  pose proof (peer_sequence _ _ _ (env_actor_username e) H) as Hu.
  rewrite String.eqb_refl in Hu. pose proof (rsteps_sequences_mono _ _ _ (env_actor_username e) Hl) as Hm.
  rewrite Hu in Hm. exact Hm.
Qed.

Definition consumes_turn (i : rinput) : bool :=
  match i with
  | PeerEnvelope e => bool_decide (env_kind e ∈ TURN_CONSUMING_KINDS)
  | _ => false
  end.

Lemma rstep_turn s i s' :
  rstep s i s' ->
  current_turn s' = (current_turn s + if consumes_turn i then 1 else 0)%Z /\ max_turns s' = max_turns s.
Proof.
  intros H. destruct H as [s e r H Hs|s c r H Hs|s o a p r H Hs].
  - destruct (peer_accepted _ _ _ H Hs) as (_ & _ & _ & _ & _ & _ & p & _ & ->). cbn.
    case_bool_decide; split; try done; lia.
  - destruct (node_accepted _ _ _ H Hs) as (_ & t & _ & _ & ->). cbn. split; [lia|done].
  - destruct (owner_accepted _ _ _ _ _ H Hs) as (_ & _ & t & _ & _ & ->). cbn. split; [lia|done].
Qed.

Lemma rsteps_turn s l s' :
  rsteps s l s' ->
  current_turn s' = (current_turn s + Z.of_nat (length (List.filter consumes_turn l)))%Z /\
  max_turns s' = max_turns s.
Proof.
  induction 1 as [s|s i s' l s'' H _ [IH1 IH2]]; cbn; [split; [lia|done]|].
  apply rstep_turn in H as [Hc Hm]. split; [|congruence]. rewrite IH1, Hc.
  destruct (consumes_turn i); cbn; lia.
Qed.

(** ** Properties *)

(** C6: Every session reached from a fresh one by accepted envelopes, node
    commands and owner commands is consistent: its status is one of the
    lifecycle, the turn counter stays within [0 .. max_turns], the sequence
    numbers recorded for each actor are exactly 1, 2, 3, ... without gap or
    repetition, and the session is in a working status only if the history
    holds an acceptance. *)
Theorem session_reachable_inv s l s' :
  fresh_session s -> rsteps s l s' -> session_inv s'.
Proof. intros Hf. by apply rsteps_inv, fresh_inv. Qed.

(** An accepted envelope comes from an authorised participant with the next
    sequence number, follows an edge of the lifecycle matrix (or is the
    receiver's early acceptance), and changes exactly the status, the actor's
    sequence number, the turn counter of a turn-consuming kind and the log, to
    which the envelope is appended; a refused envelope leaves the state as it
    was. *)
Theorem peer_envelope_effect s e r :
  process_peer_envelope s e = Ok r ->
  if success r then
    actor_authorized s e /\ status_step s e /\
    env_sequence e = (default 0 (actor_sequences s !! env_actor_username e) + 1)%Z /\
    status (new_state r) = target_of s e /\
    actor_sequences (new_state r) = <[env_actor_username e := env_sequence e]> (actor_sequences s) /\
    events (new_state r) = events s ++ [envelope_dump e] /\
    (current_turn (new_state r) <= Z.max (current_turn s) (max_turns s))%Z /\
    (forall u, u <> env_actor_username e -> participants (new_state r) !! u = participants s !! u)
  else new_state r = s.
Proof.
  intros H. destruct (success r) eqn:Hs; [|by eapply peer_rejected].
  destruct (peer_accepted _ _ _ H Hs) as (_ & _ & Ha & Hseq & Hst & Ht & parts & Hp & ->).
  split_and!; try done; cbn.
  - case_bool_decide as Hk; [|lia]. specialize (Ht Hk (turn_kind_not_terminal s e Hk)). lia.
  - intros u Hu. unfold updated_participants in Hp. case_bool_decide; [|by inv Hp].
    destruct (accepting_agent e); inv Hp. by rewrite lookup_insert_ne.
Qed.

(** A terminal session never changes again: no envelope, node command or
    owner command succeeds on it. *)
Theorem terminal_state_immutable s i s' :
  status s ∈ TERMINAL_STATES -> rstep s i s' -> False.
Proof.
  intros Ht H. destruct H as [s e r H Hs|s c r H Hs|s o a p r H Hs].
  - by destruct (peer_accepted _ _ _ H Hs).
  - by destruct (node_accepted _ _ _ H Hs).
  - by destruct (owner_accepted _ _ _ _ _ H Hs) as (_ & ? & _).
Qed.

(** C7: Replays are refused: once an envelope was accepted, no envelope of the
    same actor with the same or a smaller sequence number is ever accepted
    again, whatever happened in between. *)
Theorem replay_refused s l s' e e' r :
  rsteps s l s' -> PeerEnvelope e ∈ l ->
  env_actor_username e' = env_actor_username e -> (env_sequence e' <= env_sequence e)%Z ->
  process_peer_envelope s' e' = Ok r -> success r = false.
Proof.
  intros Hl Hin Hu Hle H. destruct (success r) eqn:Hs; [|done].
  destruct (peer_accepted _ _ _ H Hs) as (_ & _ & _ & Hseq & _).
  pose proof (accepted_sequence_reached _ _ _ _ Hl Hin). rewrite Hu in Hseq. lia.
Qed.

(** C8: A session of [max_turns] turns carries at most that many turn-consuming
    envelopes, however long it lives. *)
Theorem turn_budget_bounds_exchange s l s' :
  fresh_session s -> rsteps s l s' ->
  (Z.of_nat (length (List.filter consumes_turn l)) <= max_turns s)%Z.
Proof.
  intros Hf Hl. pose proof (rsteps_inv _ _ _ (fresh_inv s Hf) Hl) as I.
  apply rsteps_turn in Hl as [Hc Hm]. pose proof (inv_turn s' I).
  destruct Hf as (_ & _ & H0 & _). lia.
Qed.

(** Owner commands need owner authority: the command succeeds exactly when
    it is issued by one of the session's human owners, the session is not
    terminal, the action is known, and the resulting status is unchanged or an
    edge of the matrix. *)
Theorem owner_command_authority s o a p :
  success (process_owner_command s o a p) = true <->
  o ∈ owner_usernames s /\ (status s ∉ TERMINAL_STATES) /\
  exists target, owner_target a p = Ok target /\
    (target = status s \/ is_valid_transition (status s) target = true).
Proof.
  split.
  - intros Hs. destruct (owner_accepted _ _ _ _ _ eq_refl Hs) as (? & ? & t & ? & ? & _). eauto.
  - intros (Ho & Ht & t & Ha & Hv). unfold process_owner_command.
    rewrite bool_decide_true by done. cbn [negb].
    destruct (str_in _ _) eqn:E; [by apply str_in_spec in E|]. rewrite Ha.
    destruct Hv as [->|Hv]; [by rewrite String.eqb_refl|]. rewrite Hv. by destruct (String.eqb t _).
Qed.

(** ** Concrete sessions *)

Module ReducerDemo.

Definition parts : gmap string ParticipantInfo :=
  {[ "alice" := {| agent_id := "a1"; role := "owner" |};
     "bob" := {| agent_id := "b1"; role := "owner" |} ]}.

Definition draft : SessionState :=
  {| st_session_id := "s1"; initiator_username := "alice"; receiver_username := "bob";
     status := "draft"; current_turn := 0; max_turns := 12; actor_sequences := ∅;
     participants := parts; last_resumable_status := None; events := [] |}.

Definition env (seq : Z) (user agent : string) (kind : MessageKind) : SessionEnvelope :=
  {| env_session_id := "s1"; env_sequence := seq; env_actor_username := user;
     env_actor_agent_id := agent; env_timestamp := "2026-07-23T12:00:00Z"; env_kind := kind;
     env_content_hash := ""; env_payload := []; env_signature := None |}.

Definition after (s : SessionState) (e : SessionEnvelope) : SessionState :=
  match process_peer_envelope s e with
  | Ok r => new_state r
  | Err _ => s
  end.

Definition request := env 1 "alice" "a1" TASK_REQUEST.
Definition sent : SessionState := after draft request.

Lemma draft_fresh : fresh_session draft.
Proof.
  split_and!; try done.
  - apply str_in_spec. reflexivity.
  - intros H%str_in_spec. discriminate.
Qed.

Lemma sent_steps : rsteps draft [PeerEnvelope request] sent.
Proof.
  eapply rsteps_cons; [|apply rsteps_nil].
  apply (rstep_peer draft request {| success := true; new_state := sent; error_code := None |});
    reflexivity.
Qed.

Lemma session_reachable_inv_witness : session_inv sent /\ status sent = "sent".
Proof.
  split; [|reflexivity]. apply (session_reachable_inv draft [PeerEnvelope request]).
  - exact draft_fresh.
  - exact sent_steps.
Defined.

Lemma peer_envelope_effect_witness : events sent = events draft ++ [envelope_dump request].
Proof.
  pose proof (peer_envelope_effect draft request
    {| success := true; new_state := sent; error_code := None |} eq_refl) as H.
  cbn [success new_state] in H. apply H.
Defined.

Definition closed_ : SessionState := with_status sent "expired" None.

Lemma terminal_state_immutable_witness :
  status closed_ ∈ TERMINAL_STATES /\ ~ rstep closed_ (NodeCommand "mark_active") sent.
Proof.
  assert (status closed_ ∈ TERMINAL_STATES) as Ht by (apply str_in_spec; reflexivity).
  split; [exact Ht|]. intros H. exact (terminal_state_immutable _ _ _ Ht H).
Defined.

Lemma replay_refused_witness :
  exists r, process_peer_envelope sent request = Ok r /\ success r = false.
Proof.
  eexists. split; [reflexivity|].
  apply (replay_refused draft [PeerEnvelope request] sent request request).
  - exact sent_steps.
  - left.
  - reflexivity.
  - reflexivity.
  - reflexivity.
Defined.

Lemma turn_budget_bounds_exchange_witness :
  (Z.of_nat (length (List.filter consumes_turn [PeerEnvelope request])) <= max_turns draft)%Z.
Proof.
  apply (turn_budget_bounds_exchange draft [PeerEnvelope request] sent).
  - exact draft_fresh.
  - exact sent_steps.
Defined.

(** The initiator alone can bring a session to [accepted]: the reducer takes an
    acceptance from any participant. *)
Definition self_accepted : SessionState := after sent (env 2 "alice" "a1" ACCEPTANCE).

Example initiator_self_acceptance :
  rsteps draft [PeerEnvelope request; PeerEnvelope (env 2 "alice" "a1" ACCEPTANCE)] self_accepted /\
  status self_accepted = "accepted".
Proof.
  split; [|reflexivity]. eapply rsteps_cons; [|eapply rsteps_cons; [|apply rsteps_nil]].
  - apply (rstep_peer draft request {| success := true; new_state := sent; error_code := None |});
      reflexivity.
  - apply (rstep_peer sent _ {| success := true; new_state := self_accepted; error_code := None |});
      reflexivity.
Qed.

(** Without participants an impossible transition is not refused but raises. *)
Example unbound_without_participants :
  process_peer_envelope
    {| st_session_id := "s1"; initiator_username := "alice"; receiver_username := "bob";
       status := "draft"; current_turn := 0; max_turns := 12; actor_sequences := ∅;
       participants := ∅; last_resumable_status := None; events := [] |}
    (env 1 "alice" "a1" FINDING) = Err UnboundLocalError.
Proof. reflexivity. Qed.

End ReducerDemo.
