(* ===== verification/Compatibility.v ===== *)
(** * Capability negotiation

    [kin/session/compatibility.py].  The advertisement is a document or the
    validated model; integer coercion of pydantic is the parameter
    [lax_int]. *)

From Stdlib Require Import Ascii String ZArith Lia.
From stdpp Require Import base sets list strings.
From S2P Require Import Prelude PyValue Schemas.

Record CapabilityAdvertisement := {
  ad_protocol_version : string;
  supported_features : list string;
  max_turn_limit : Z
}.

(** What the caller passed: a dict, the model, or anything else. *)
Inductive advertisement :=
| AdDict (d : document)
| AdModel (m : CapabilityAdvertisement)
| AdOther.

Record IncompatibilityResult := {
  compatible : bool;
  missing_flags : list string;
  fallback_mode : string
}.

Definition json_strings (v : json) : option (list string) :=
  match v with
  | JList l => mapM (fun x => match x with JStr s => Some s | _ => None end) l
  | _ => None
  end.

Section negotiation.
(** pydantic's conversion of a document value to [int]. *)
Context (lax_int : json -> option Z).

Definition CapabilityAdvertisement_validate (d : document) : option CapabilityAdvertisement :=
  _ <- check (keys_within ["protocol_version"; "supported_features"; "max_turn_limit"] d) ;;
  version <- field_str "protocol_version" d ;;
  raw_features <- obj_get "supported_features" d ;;
  features <- json_strings raw_features ;;
  raw_limit <- obj_get "max_turn_limit" d ;;
  limit <- lax_int raw_limit ;;
  _ <- check (1 <=? limit)%Z ;;
  Some {| ad_protocol_version := version; supported_features := features;
          max_turn_limit := limit |}.

Definition incompatible (missing : list string) : IncompatibilityResult :=
  {| compatible := false; missing_flags := missing; fallback_mode := "v1_ask" |}.

(** [sorted(list(required - supported))]. *)
Definition missing_features (required supported : list string) : list string :=
  map fst (sort_items (map (fun f => (f, tt))
    (remove_dups (filter (fun f => f ∉ supported) required)))).

Definition negotiate_capability (ad : advertisement) (required : list string)
  : IncompatibilityResult :=
  match (match ad with
         | AdDict d => CapabilityAdvertisement_validate d
         | AdModel m => Some m
         | AdOther => None
         end) with
  | None => incompatible []
  | Some peer_ad =>
      if negb (String.eqb (ad_protocol_version peer_ad) "1.1") then incompatible []
      else match missing_features required (supported_features peer_ad) with
           | [] => {| compatible := true; missing_flags := []; fallback_mode := "none" |}
           | missing => incompatible missing
           end
  end.

Lemma insert_key_In {A} k (v : A) l x : x ∈ insert_key k v l <-> x = (k, v) \/ x ∈ l.
Proof.
  induction l as [|[k' v'] l IH]; cbn [insert_key]; [set_solver|].
  case_match; set_solver.
Qed.

Lemma sort_items_In {A} (l : list (string * A)) x : x ∈ sort_items l <-> x ∈ l.
Proof.
  unfold sort_items. induction l as [|[k v] l IH]; cbn; [done|].
  rewrite insert_key_In, IH. set_solver.
Qed.

Lemma missing_features_spec required supported f :
  f ∈ missing_features required supported <-> f ∈ required /\ f ∉ supported.
Proof.
  unfold missing_features. rewrite list_elem_of_fmap. setoid_rewrite sort_items_In.
  setoid_rewrite list_elem_of_fmap. setoid_rewrite elem_of_remove_dups.
  setoid_rewrite list_elem_of_filter. split.
  - intros ([g []] & -> & (h & [= ->] & ?)). cbn. tauto.
  - intros [? ?]. exists (f, tt). split; [done|]. exists f. done.
Qed.

(** A peer is declared compatible exactly when its advertisement is valid,
    speaks protocol 1.1 and supports every required feature; otherwise the
    session falls back to [v1_ask] and the flags reported missing are exactly
    the required features the peer lacks. *)
Theorem negotiation_exact m required :
  let r := negotiate_capability (AdModel m) required in
  (compatible r = true <->
     ad_protocol_version m = "1.1" /\ forall f, f ∈ required -> f ∈ supported_features m) /\
  (fallback_mode r = "none" <-> compatible r = true) /\
  (ad_protocol_version m = "1.1" ->
     forall f, f ∈ missing_flags r <-> f ∈ required /\ f ∉ supported_features m).
Proof.
  cbn zeta. unfold negotiate_capability.
  destruct (String.eqb _ "1.1") eqn:Ev; cbn [negb]; split_bools.
  - pose proof (missing_features_spec required (supported_features m)) as Hm.
    destruct (missing_features _ _) as [|g l]; cbn.
    + split; [|split; [done|intros _ f; apply Hm]]. split; [|done]. intros _. split; [done|].
      intros f Hf. destruct (decide (f ∈ supported_features m)) as [|Hn]; [done|].
      exfalso. apply (not_elem_of_nil f), Hm. done.
    + split; [|split; [done|intros _ f; apply Hm]]. split; [done|]. intros [_ Hall].
      destruct (proj1 (Hm g)) as [Hr Hn]; [left|]. destruct Hn. auto.
  - cbn. split; [split; [done|by intros [? _]]|]. split; done.
Qed.
End negotiation.
