(* ===== verification/Cards.v ===== *)
(** * Agent cards

    The card models of [kin/schemas.py] with their validators, the public
    projection of [kin/agent_registry/registry.py] and the availability rule of
    [kin/agent_registry/availability.py].  pydantic's integer coercion, the
    keychain and the file system are parameters. *)

From Stdlib Require Import Ascii String ZArith Lia.
From stdpp Require Import base sets list strings.
From S2P Require Import Prelude Regex Codec PyValue Schemas.

(** ** Paths *)

(** [s.split(sep)] for a one-character separator. *)
Fixpoint str_split (sep : ascii) (s : string) : list string :=
  match s with
  | "" => [""]
  | String c s' =>
      if Ascii.eqb c sep then "" :: str_split sep s'
      else match str_split sep s' with
           | [] => [String c ""]
           | w :: ws => String c w :: ws
           end
  end.

Definition str_replace (a b : ascii) (s : string) : string :=
  str_map (fun c => if Ascii.eqb c a then b else c) s.

(** The root of a POSIX path: exactly two leading slashes are kept. *)
Definition path_root (s : string) : string :=
  if startswith "//" s && negb (startswith "///" s) then "//"
  else if startswith "/" s then "/" else "".

(** Segments that [pathlib] keeps: neither empty nor [.]. *)
Definition kept (w : string) : bool := negb (String.eqb w "") && negb (String.eqb w ".").
Definition path_segments (s : string) : list string := List.filter kept (str_split "/" s).

(** [Path(v).parts] and [Path(v).as_posix()]. *)
Definition path_parts (s : string) : list string :=
  (if truthy (path_root s) then [path_root s] else []) ++ path_segments s.
Definition path_as_posix (s : string) : string :=
  let t := path_root s +:+ String.concat "/" (path_segments s) in
  if truthy t then t else ".".

(** ** Adapters *)

Inductive AdapterConfig :=
| EmbeddedAdapterConfig (provider model : string)
| WebhookAdapterConfig (webhook_url credential_ref : string)
| LocalCommandAdapterConfig (command working_directory : string)
| SdkAdapterConfig (entry_point : string).

Definition cc_space : ascii -> bool := is_space.

(** [^https?://[^\s/$.?#].[^\s]*$] with [IGNORECASE]; [.] excludes the line
    feed. *)
Definition ci (s : string) : re :=
  foldr (fun c r => RSeq (RChr (fun x => Ascii.eqb (lower_ascii x) c)) r) REps (list_ascii_of_string s).
Definition URL_HTTP_HTTPS_REGEX (s : string) : bool :=
  re_match_dollar
    (rseqs [ci "http"; ropt (ci "s"); rlit "://";
            RChr (cc_not (cc_or cc_space (cc_of "/$.?#")));
            RChr (cc_not (Ascii.eqb "010"));
            RStar (RChr (cc_not cc_space))]) s.

Definition length_between (lo hi : Z) (s : string) : bool :=
  (lo <=? Z.of_nat (String.length s))%Z && (Z.of_nat (String.length s) <=? hi)%Z.

Definition validate_url (v : string) : option string :=
  _ <- check (length_between 1 2048 v) ;;
  _ <- check (URL_HTTP_HTTPS_REGEX v) ;;
  Some v.

Definition has_nul (v : string) : bool := str_exists (Ascii.eqb "000") v.

Definition validate_command (v : string) : option string :=
  _ <- check (length_between 1 4096 v) ;;
  _ <- check (negb (has_nul v)) ;;
  Some v.

(** [re.match(r"^[A-Za-z]:[/\\]", v)]. *)
Definition drive_prefix (v : string) : bool :=
  match v with
  | String a (String b (String c _)) =>
      cc_alpha a && Ascii.eqb b ":" && (Ascii.eqb c "/" || Ascii.eqb c "\")
  | _ => false
  end.

Definition validate_working_directory (v : string) : option string :=
  _ <- check (length_between 1 4096 v) ;;
  _ <- check (negb (has_nul v)) ;;
  _ <- check (startswith "/" v || startswith "\" v || drive_prefix v) ;;
  _ <- check (negb (str_in ".." (path_parts v)
                    || str_in ".." (str_split "/" (str_replace "\" "/" v)))) ;;
  Some (path_as_posix v).

Definition validate_entry_point (v : string) : option string :=
  _ <- check (SDK_ENTRY_POINT_REGEX v) ;;
  Some v.

(** The discriminated union over [type]. *)
Definition AdapterConfig_validate (d : document) : option AdapterConfig :=
  kind <- field_str "type" d ;;
  if String.eqb kind "embedded" then
    _ <- check (keys_within ["type"; "provider"; "model"] d) ;;
    provider <- field_str "provider" d ;;
    model <- field_str "model" d ;;
    Some (EmbeddedAdapterConfig provider model)
  else if String.eqb kind "webhook" then
    _ <- check (keys_within ["type"; "webhook_url"; "credential_ref"] d) ;;
    raw <- field_str "webhook_url" d ;;
    url <- validate_url raw ;;
    ref <- field_str "credential_ref" d ;;
    Some (WebhookAdapterConfig url ref)
  else if String.eqb kind "local_command" then
    _ <- check (keys_within ["type"; "command"; "working_directory"] d) ;;
    raw <- field_str "command" d ;;
    command <- validate_command raw ;;
    raw_dir <- field_str "working_directory" d ;;
    dir <- validate_working_directory raw_dir ;;
    Some (LocalCommandAdapterConfig command dir)
  else if String.eqb kind "sdk" then
    _ <- check (keys_within ["type"; "entry_point"] d) ;;
    raw <- field_str "entry_point" d ;;
    entry <- validate_entry_point raw ;;
    Some (SdkAdapterConfig entry)
  else None.

(** ** Capabilities, boundaries, autonomy *)

Record AgentCapabilities := {
  tags : list string;
  accepts : list string;
  produces : list string
}.

Definition item_ok (pattern : string -> bool) (item : string) : bool :=
  length_between 0 64 item && pattern item.

Definition json_string_list (v : json) : option (list string) :=
  match v with
  | JList l => mapM (fun x => match x with JStr s => Some s | _ => None end) l
  | _ => None
  end.

(** A [list[str]] field with default [[]] and [max_length=32]. *)
Definition field_items (k : string) (pattern : string -> bool) (d : document) : option (list string) :=
  match obj_get k d with
  | None => Some []
  | Some v =>
      l <- json_string_list v ;;
      _ <- check (Nat.leb (length l) 32 && forallb (item_ok pattern) l) ;;
      Some l
  end.

Definition AgentCapabilities_validate (d : document) : option AgentCapabilities :=
  _ <- check (keys_within ["tags"; "accepts"; "produces"] d) ;;
  t <- field_items "tags" TAG_PATTERN d ;;
  a <- field_items "accepts" MIME_PATTERN d ;;
  p <- field_items "produces" MIME_PATTERN d ;;
  Some {| tags := t; accepts := a; produces := p |}.

Record AgentBoundaries := {
  network_access : string;
  filesystem : string;
  shell : string;
  max_runtime_seconds : Z;
  max_artifact_bytes : Z
}.

(** A [Literal] field with a default. *)
Definition field_choice (k : string) (choices : list string) (dflt : string) (d : document)
  : option string :=
  match obj_get k d with
  | None => Some dflt
  | Some (JStr s) => if str_in s choices then Some s else None
  | Some _ => None
  end.

Record AgentAutonomy := {
  relay_information : AutonomyLevel;
  propose_actions : AutonomyLevel;
  execute_local_actions : AutonomyLevel
}.

Definition field_level (k : string) (d : document) : option AutonomyLevel :=
  match obj_get k d with
  | None => Some ALWAYS_ASK
  | Some (JStr s) => enum_of s
  | Some _ => None
  end.

Definition AgentAutonomy_validate (d : document) : option AgentAutonomy :=
  _ <- check (keys_within ["relay_information"; "propose_actions"; "execute_local_actions"] d) ;;
  r <- field_level "relay_information" d ;;
  p <- field_level "propose_actions" d ;;
  e <- field_level "execute_local_actions" d ;;
  Some {| relay_information := r; propose_actions := p; execute_local_actions := e |}.

Record AgentCard := {
  card_id : string;
  card_name : string;
  card_description : string;
  adapter : AdapterConfig;
  capabilities : AgentCapabilities;
  boundaries : AgentBoundaries;
  autonomy : AgentAutonomy;
  presentation : option document
}.

Section cards.
(** pydantic's conversion of a document value to [int]. *)
Context (lax_int : json -> option Z).

Definition field_int_within (k : string) (hi : Z) (d : document) : option Z :=
  raw <- obj_get k d ;;
  z <- lax_int raw ;;
  _ <- check ((0 <? z) && (z <=? hi))%Z ;;
  Some z.

Definition AgentBoundaries_validate (d : document) : option AgentBoundaries :=
  _ <- check (keys_within ["network_access"; "filesystem"; "shell"; "max_runtime_seconds";
                           "max_artifact_bytes"] d) ;;
  n <- field_choice "network_access" ["deny"; "allow"] "deny" d ;;
  f <- field_choice "filesystem" ["none"; "workspace_read"; "workspace_read_write_with_approval"]
         "none" d ;;
  s <- field_choice "shell" ["deny"; "approval_required"] "deny" d ;;
  r <- field_int_within "max_runtime_seconds" 3600 d ;;
  a <- field_int_within "max_artifact_bytes" 52428800 d ;;
  Some {| network_access := n; filesystem := f; shell := s; max_runtime_seconds := r;
          max_artifact_bytes := a |}.

(** [AgentCard.model_validate]. *)
Definition AgentCard_validate (d : document) : option AgentCard :=
  _ <- check (keys_within ["schema_version"; "id"; "name"; "description"; "adapter";
                           "capabilities"; "boundaries"; "autonomy"; "presentation"] d) ;;
  _ <- field_literal "schema_version" "1.1" d ;;
  id <- field_str "id" d ;;
  _ <- check (SAFE_ID_REGEX id) ;;
  name <- field_str "name" d ;;
  _ <- check (length_between 1 128 name) ;;
  description <- field_str "description" d ;;
  _ <- check (length_between 1 1024 description) ;;
  raw_adapter <- field_object "adapter" d ;;
  adapter <- AdapterConfig_validate raw_adapter ;;
  raw_capabilities <- field_object "capabilities" d ;;
  capabilities <- AgentCapabilities_validate raw_capabilities ;;
  raw_boundaries <- field_object "boundaries" d ;;
  boundaries <- AgentBoundaries_validate raw_boundaries ;;
  raw_autonomy <- field_object "autonomy" d ;;
  autonomy <- AgentAutonomy_validate raw_autonomy ;;
  presentation <- (match obj_get "presentation" d with
                   | None | Some JNull => Some None
                   | Some (JObj p) => Some (Some p)
                   | Some _ => None
                   end) ;;
  Some {| card_id := id; card_name := name; card_description := description; adapter := adapter;
          capabilities := capabilities; boundaries := boundaries; autonomy := autonomy;
          presentation := presentation |}.
End cards.

(** ** The published projection *)

Inductive AgentAvailability :=
| READY | BUSY | RESERVED | NEEDS_KEY | NEEDS_WORKSPACE | WAITING_FOR_APPROVAL | OFFLINE
| POLICY_BLOCKED.

#[export] Instance AgentAvailability_eq_dec : EqDecision AgentAvailability.
Proof. solve_decision. Defined.

#[export] Instance AgentAvailability_enum : StrEnum AgentAvailability.
Proof.
  refine {| enum_value a := match a with
              | READY => "ready" | BUSY => "busy" | RESERVED => "reserved"
              | NEEDS_KEY => "needs_key" | NEEDS_WORKSPACE => "needs_workspace"
              | WAITING_FOR_APPROVAL => "waiting_for_approval" | OFFLINE => "offline"
              | POLICY_BLOCKED => "policy_blocked" end;
            members := [READY; BUSY; RESERVED; NEEDS_KEY; NEEDS_WORKSPACE; WAITING_FOR_APPROVAL;
                        OFFLINE; POLICY_BLOCKED] |}; solve_enum.
Defined.

Record PublishedAgentCard := {
  pub_agent_id : string;
  pub_name : string;
  pub_description : string;
  pub_capabilities : AgentCapabilities;
  pub_availability : AgentAvailability;
  requires_owner_acceptance : bool
}.

Definition publish_card (card : AgentCard) : PublishedAgentCard :=
  {| pub_agent_id := card_id card; pub_name := card_name card;
     pub_description := card_description card; pub_capabilities := capabilities card;
     pub_availability := READY; requires_owner_acceptance := true |}.

Section availability.
(** [keyring.get_password(service, "webhook_secret")] for a profile and an
    agent, and [Path(d).is_dir()]. *)
Context (webhook_secret : string -> string -> option string) (is_dir : string -> bool).

Definition compute_availability (card : AgentCard) (profile : string)
    (stored : AgentAvailability) (enabled : bool) : AgentAvailability :=
  if negb enabled then POLICY_BLOCKED
  else match adapter card with
       | WebhookAdapterConfig _ _ =>
           match webhook_secret profile (card_id card) with
           | None => NEEDS_KEY
           | Some _ => stored
           end
       | LocalCommandAdapterConfig _ dir => if is_dir dir then stored else NEEDS_WORKSPACE
       | _ => stored
       end.

(** An agent is published as ready only when its owner enabled it and what
    its adapter needs is there: the stored webhook secret, or the working
    directory. *)
Theorem ready_requires_enabled_and_equipped card profile enabled :
  compute_availability card profile READY enabled = READY <->
  enabled = true /\
  match adapter card with
  | WebhookAdapterConfig _ _ => webhook_secret profile (card_id card) <> None
  | LocalCommandAdapterConfig _ dir => is_dir dir = true
  | _ => True
  end.
Proof.
  unfold compute_availability. destruct enabled; cbn; [|split; [done|by intros [? _]]].
  destruct (adapter card) as [? ?|? ?|? dir|?]; cbn; try (split; done).
  - destruct (webhook_secret _ _); split; try done. by intros [_ ?].
  - destruct (is_dir dir); split; try done. by intros [_ ?].
Qed.
End availability.

(** ** Normalised paths *)

Definition no_slash (w : string) : bool := negb (str_exists (Ascii.eqb "/") w).

Lemma str_split_ne sep s : str_split sep s <> [].
Proof. induction s as [|c s IH]; cbn; [done|]. destruct (Ascii.eqb c sep); [done|]. by case_match. Qed.

Lemma split_no_slash s : Forall (fun w => no_slash w = true) (str_split "/" s).
Proof.
  induction s as [|c s IH]; cbn [str_split]; [by constructor|].
  destruct (Ascii.eqb c "/") eqn:E; [by constructor|].
  destruct (str_split "/" s) as [|w ws] eqn:Es; [by destruct (str_split_ne "/" s)|].
  apply Forall_cons in IH as [Hw Hws]. constructor; [|done].
  unfold no_slash in *. cbn [str_exists]. rewrite Ascii.eqb_sym, E. done.
Qed.

Lemma split_app_slash w t :
  no_slash w = true -> str_split "/" (w +:+ String "/" t) = w :: str_split "/" t.
Proof.
  intros Hw. induction w as [|c w IH]; [done|]. rewrite str_app_cons. cbn [str_split].
  unfold no_slash in *. cbn [str_exists] in Hw. rewrite negb_orb in Hw. split_bools.
  rewrite Ascii.eqb_sym, H, IH; [done|]. by rewrite H0.
Qed.

Lemma split_word w : no_slash w = true -> str_split "/" w = [w].
Proof.
  intros Hw. induction w as [|c w IH]; [done|]. cbn [str_split].
  unfold no_slash in *. cbn [str_exists] in Hw. rewrite negb_orb in Hw. split_bools.
  rewrite Ascii.eqb_sym, H, IH; [done|]. by rewrite H0.
Qed.

Lemma split_concat ws :
  ws <> [] -> Forall (fun w => no_slash w = true) ws -> str_split "/" (String.concat "/" ws) = ws.
Proof.
  intros Hne Hws. induction Hws as [|w ws Hw Hws IH]; [done|]. destruct ws as [|w' ws].
  - by apply split_word.
  - change (String.concat "/" (w :: w' :: ws)) with (w +:+ String "/" (String.concat "/" (w' :: ws))).
    rewrite split_app_slash by done. by rewrite IH.
Qed.

Lemma segments_wf s : Forall (fun w => no_slash w = true /\ kept w = true) (path_segments s).
Proof.
  unfold path_segments. apply Forall_forall. intros w [Hin Hk]%list_elem_of_In%filter_In.
  split; [|done]. apply list_elem_of_In in Hin. pose proof (split_no_slash s) as Hs.
  rewrite Forall_forall in Hs. by apply Hs.
Qed.

Lemma filter_all {A} (f : A -> bool) l : Forall (fun x => f x = true) l -> List.filter f l = l.
Proof. induction 1 as [|x l Hx _ IH]; cbn; [done|]. by rewrite Hx, IH. Qed.

Lemma segments_concat ws :
  Forall (fun w => no_slash w = true /\ kept w = true) ws -> path_segments (String.concat "/" ws) = ws.
Proof.
  intros Hws. destruct ws as [|w ws]; [done|]. unfold path_segments.
  rewrite split_concat; [|done|by eapply Forall_impl; [exact Hws|intros ? []]].
  apply filter_all. eapply Forall_impl; [exact Hws|by intros ? []].
Qed.

Lemma segments_root r t :
  r = "" \/ r = "/" \/ r = "//" -> path_segments (r +:+ t) = path_segments t.
Proof. intros [->|[->| ->]]; reflexivity. Qed.

Lemma path_root_cases s : path_root s = "" \/ path_root s = "/" \/ path_root s = "//".
Proof. unfold path_root. repeat case_match; auto. Qed.

(** A word list that starts with a kept, slash-free word does not add a
    slash to the root. *)
Lemma root_concat s ws :
  Forall (fun w => no_slash w = true /\ kept w = true) ws ->
  path_root (path_root s +:+ String.concat "/" ws) = path_root s.
Proof.
  intros Hws. assert (startswith "/" (String.concat "/" ws) = false) as Hf.
  { destruct Hws as [|w ws [Hn Hk] _]; [done|]. destruct w as [|c w]; [done|].
    unfold no_slash in Hn. cbn [str_exists] in Hn. rewrite negb_orb in Hn. split_bools.
    cbn [String.concat]. destruct ws; rewrite ?str_app_cons; cbn [startswith]; rewrite H; done. }
  destruct (path_root_cases s) as [E|[E|E]]; rewrite E; unfold path_root;
    destruct (String.concat "/" ws) as [|c t]; try done; cbn [startswith] in *;
    rewrite ?str_app_cons; cbn [startswith String.append];
    change ("" +:+ String c t) with (String c t); cbn [startswith];
    rewrite ?andb_true_r in Hf; rewrite ?Hf; done.
Qed.

Lemma path_parts_normalised s : path_parts (path_as_posix s) = path_parts s.
Proof.
  unfold path_as_posix. pose proof (segments_wf s) as Hws.
  destruct (truthy (path_root s +:+ String.concat "/" (path_segments s))) eqn:Et.
  - unfold path_parts. rewrite root_concat by done. f_equal.
    rewrite segments_root by apply path_root_cases. by apply segments_concat.
  - unfold path_parts. unfold truthy in Et. apply negb_false_iff, String.eqb_eq in Et.
    destruct (path_root_cases s) as [E|[E|E]]; rewrite E in Et; try done. rewrite E. cbn.
    destruct Hws as [|w ws [_ Hk] _]; [done|]. exfalso. cbn in Et.
    change ("" +:+ ?x) with x in Et. destruct w; [done|]. by destruct ws.
Qed.

(** The working directory of a local command adapter cannot climb out: an
    accepted value is normalised to a path with the same segments, none of
    which is [..], also when it is read with backslashes as separators. *)
Theorem working_directory_no_traversal v p :
  validate_working_directory v = Some p ->
  path_parts p = path_parts v /\ (".." ∉ path_parts p) /\
  (".." ∉ str_split "/" (str_replace "\" "/" v)).
Proof.
  unfold validate_working_directory. intros H. split_match_in H. injection H as <-.
  destruct u, u0, u1, u2. apply check_Some in E2. split_bools.
  rewrite path_parts_normalised. split; [done|].
  split; intros Hin%str_in_spec; congruence.
Qed.

Lemma working_directory_no_traversal_witness :
  validate_working_directory "/srv//agents/./bot" = Some "/srv/agents/bot" /\
  (".." ∉ path_parts "/srv/agents/bot").
Proof.
  split; [reflexivity|].
  apply (working_directory_no_traversal "/srv//agents/./bot" "/srv/agents/bot"). reflexivity.
Defined.
