(* ===== verification/Policy.v ===== *)
(** * Policy evaluation of agent actions

    [kin/policy/evaluator.py]: a pure function of the card, the action class,
    the clock text and the prior owner decision.  Timestamps are compared as
    text, as the code does. *)

From Stdlib Require Import Ascii String ZArith Lia.
From stdpp Require Import base sets list strings.
From S2P Require Import Prelude Regex Codec PyValue Schemas Cards.

Inductive PolicyDecision := ALLOW | DENIED | REQUIRES_APPROVAL.

#[export] Instance PolicyDecision_eq_dec : EqDecision PolicyDecision.
Proof. solve_decision. Defined.

Record ApprovalRequest := {
  req_approval_id : string;
  req_session_id : string;
  req_agent_id : string;
  req_action_class : ActionClass;
  req_summary : string;
  req_reason : string;
  req_risk_label : RiskLabel;
  req_scope : document;
  req_expires_at : string
}.

Record ApprovalDecision := {
  dec_approval_id : string;
  dec_session_id : string;
  dec_decision : DecisionKind;
  dec_decided_by : string;
  dec_decided_at : string;
  dec_constraints : option document
}.

Record PolicyResult := {
  decision : PolicyDecision;
  approval_request : option ApprovalRequest
}.

Definition ACTION_CLASS_TO_AUTONOMY_FIELD (a : ActionClass) : option (AgentAutonomy -> AutonomyLevel) :=
  match a with
  | INFORMATIONAL_RELAY => Some relay_information
  | _ => None
  end.

Definition ACTION_CLASS_RISK_MAP (a : ActionClass) : RiskLabel :=
  match a with
  | INFORMATIONAL_RELAY => LOW
  | SESSION_PARTICIPATION => MEDIUM
  | ARTIFACT_RECEIPT => LOW
  | WORKSPACE_READ => MEDIUM
  | WORKSPACE_WRITE => HIGH
  | SHELL_NETWORK_EXTERNAL => CRITICAL
  end.

(** Step 1: the boundary denial that short-circuits. *)
Definition hard_boundary_denial (card : AgentCard) (action : ActionClass) : bool :=
  let b := boundaries card in
  match action with
  | SHELL_NETWORK_EXTERNAL => String.eqb (shell b) "deny" && String.eqb (network_access b) "deny"
  | WORKSPACE_WRITE => str_in (filesystem b) ["none"; "workspace_read"]
  | WORKSPACE_READ => String.eqb (filesystem b) "none"
  | _ => false
  end.

(** Step 2: what a prior decision settles, if anything. *)
Definition prior_verdict (now : string) (prior : option ApprovalDecision) (expires_at : option string)
  : option PolicyDecision :=
  match prior with
  | None => None
  | Some p =>
      match dec_decision p with
      | ALWAYS_ALLOW_BOUNDED | APPROVE_ONCE =>
          match expires_at with
          | None => Some ALLOW
          | Some t => if String.ltb now t then Some ALLOW else None
          end
      | DENY => Some DENIED
      | EDIT_CONSTRAINTS => None
      end
  end.

(** Step 3: the autonomy level of the card. *)
Definition autonomy_verdict (card : AgentCard) (action : ActionClass) : option PolicyDecision :=
  match ACTION_CLASS_TO_AUTONOMY_FIELD action with
  | None => None
  | Some field =>
      match field (autonomy card) with
      | ALWAYS_ALLOW => Some ALLOW
      | NEVER => Some DENIED
      | ALWAYS_ASK => None
      end
  end.

(** [session_context.get("session_id", "sess-unknown")]; [None] for a value
    that is not text, which [ApprovalRequest] refuses. *)
Definition context_session_id (ctx : document) : option string :=
  match obj_get "session_id" ctx with
  | None => Some "sess-unknown"
  | Some (JStr s) => Some s
  | Some _ => None
  end.

Definition build_approval_request (card : AgentCard) (action : ActionClass) (ctx : document)
    (session_id now : string) : ApprovalRequest :=
  let a := ActionClass_value action in
  {| req_approval_id := "req-" +:+ session_id +:+ "-" +:+ a;
     req_session_id := session_id;
     req_agent_id := card_id card;
     req_action_class := action;
     req_summary := "Approval request for action '" +:+ a +:+ "'";
     req_reason := "Action '" +:+ a +:+ "' requires owner approval.";
     req_risk_label := ACTION_CLASS_RISK_MAP action;
     req_scope := [("session_context", JObj ctx)];
     req_expires_at := if TIMESTAMP_REGEX now then now else "2026-07-23T12:00:00.000Z" |}.

(** [evaluate_action]; [Err] when the [ApprovalRequest] cannot be built. *)
Definition evaluate_action (card : AgentCard) (action : ActionClass) (ctx : document) (now : string)
    (prior : option ApprovalDecision) (expires_at : option string) : result unit PolicyResult :=
  if hard_boundary_denial card action
  then Ok {| decision := DENIED; approval_request := None |}
  else match prior_verdict now prior expires_at with
  | Some d => Ok {| decision := d; approval_request := None |}
  | None =>
      match autonomy_verdict card action with
      | Some d => Ok {| decision := d; approval_request := None |}
      | None =>
          match context_session_id ctx with
          | None => Err tt
          | Some session_id =>
              Ok {| decision := REQUIRES_APPROVAL;
                    approval_request := Some (build_approval_request card action ctx session_id now) |}
          end
      end
  end.

(** ** Properties *)

(** A hard boundary of the card cannot be overridden: whatever the owner
    decided before, whatever the clock and the context, an action the
    boundaries forbid is denied. *)
Theorem hard_boundary_not_overridable card action ctx now prior expires_at :
  hard_boundary_denial card action = true ->
  evaluate_action card action ctx now prior expires_at
  = Ok {| decision := DENIED; approval_request := None |}.
Proof. unfold evaluate_action. by intros ->. Qed.

(** A prior decision that still grants the action. *)
Definition grants (now : string) (prior : option ApprovalDecision) (expires_at : option string) : Prop :=
  exists p, prior = Some p /\
    (dec_decision p = ALWAYS_ALLOW_BOUNDED \/ dec_decision p = APPROVE_ONCE) /\
    (forall t, expires_at = Some t -> String.ltb now t = true).

Lemma prior_verdict_allow now prior expires_at :
  prior_verdict now prior expires_at = Some ALLOW <-> grants now prior expires_at.
Proof.
  unfold prior_verdict, grants. destruct prior as [p|]; [|split; [done|by intros (? & ? & _)]].
  split.
  - intros H. exists p. split; [done|].
    destruct (dec_decision p); try done; (split; [auto|]); intros t ->;
      by destruct (String.ltb now t).
  - intros (? & [= <-] & [->| ->] & Ht); (destruct expires_at as [t|]; [|done]);
      by rewrite (Ht t eq_refl).
Qed.

Lemma prior_verdict_deny now prior expires_at :
  prior_verdict now prior expires_at = Some DENIED <->
  exists p, prior = Some p /\ dec_decision p = DENY.
Proof.
  unfold prior_verdict. destruct prior as [p|]; [|split; [done|by intros (? & ? & _)]].
  split.
  - intros H. exists p. split; [done|]. destruct (dec_decision p); repeat case_match; done.
  - by intros (? & [= <-] & ->).
Qed.

(** C12: An action is allowed in exactly two ways, and never past a hard
    boundary: by an unexpired owner grant, or, for information relay only, by
    the card's standing autonomy when no owner decision denies it.  In
    particular workspace writes and shell or network use always need an owner
    grant. *)
Theorem allow_characterisation card action ctx now prior expires_at r :
  evaluate_action card action ctx now prior expires_at = Ok r ->
  decision r = ALLOW <->
  hard_boundary_denial card action = false /\
  (grants now prior expires_at \/
   (action = INFORMATIONAL_RELAY /\ relay_information (autonomy card) = ALWAYS_ALLOW /\
    forall p, prior = Some p -> dec_decision p <> DENY)).
Proof.
  rewrite <- prior_verdict_allow. pose proof (prior_verdict_deny now prior expires_at) as Hd.
  unfold evaluate_action. intros H.
  destruct (hard_boundary_denial card action); [injection H as <-; split; [done|by intros [? _]]|].
  destruct (prior_verdict now prior expires_at) as [v|] eqn:Ev.
  - injection H as <-. cbn. split.
    + intros ->. auto.
    + intros [_ [[= ->]|(_ & _ & Hn)]]; [done|]. unfold prior_verdict in Ev.
      destruct prior as [p|]; [|done]. specialize (Hn p eq_refl).
      destruct (dec_decision p); repeat case_match; by simplify_eq.
  - assert (Hn : forall p, prior = Some p -> dec_decision p <> DENY).
    { intros p -> Hp. by discriminate (proj2 Hd (ex_intro _ p (conj eq_refl Hp))). }
    destruct (autonomy_verdict card action) as [v|] eqn:Ea.
    + injection H as <-. cbn. revert Ea. unfold autonomy_verdict.
      destruct action; cbn; try done. destruct (relay_information (autonomy card)) eqn:Er;
        intros [= <-]; split; try done; [by intros [_ [?|(_ & ? & _)]]|]. auto.
    + destruct (context_session_id ctx); [|done]. injection H as <-. cbn. split; [done|].
      intros [_ [?|(-> & Hr & _)]]; [done|]. revert Ea. unfold autonomy_verdict. cbn. by rewrite Hr.
Qed.

(** When the owner must decide, the request presented to the owner is for
    this agent, action and session, and carries the fixed risk label of the
    action class, so an agent cannot understate the risk. *)
Theorem approval_request_faithful card action ctx now prior expires_at r :
  evaluate_action card action ctx now prior expires_at = Ok r ->
  decision r = REQUIRES_APPROVAL ->
  exists q, approval_request r = Some q /\
    req_agent_id q = card_id card /\ req_action_class q = action /\
    context_session_id ctx = Some (req_session_id q) /\
    req_risk_label q = ACTION_CLASS_RISK_MAP action /\
    TIMESTAMP_REGEX (req_expires_at q) = true.
Proof.
  unfold evaluate_action. intros H Hr.
  destruct (hard_boundary_denial card action); [by injection H as <-|].
  destruct (prior_verdict _ _ _) as [v|] eqn:Ev.
  { injection H as <-. cbn in Hr. subst v. unfold prior_verdict in Ev. repeat case_match; done. }
  destruct (autonomy_verdict _ _) as [v|] eqn:Ea.
  { injection H as <-. cbn in Hr. subst v. unfold autonomy_verdict in Ea. repeat case_match; done. }
  destruct (context_session_id ctx) as [sid|]; [|done]. injection H as <-.
  eexists. split; [reflexivity|]. cbn. split_and!; try done.
  by destruct (TIMESTAMP_REGEX now) eqn:Et.
Qed.

(** ** Concrete cards *)

Module PolicyDemo.

Definition card (fs shell_mode : string) (relay : AutonomyLevel) : AgentCard :=
  {| card_id := "b1"; card_name := "Bot"; card_description := "d";
     adapter := EmbeddedAdapterConfig "p" "m";
     capabilities := {| tags := []; accepts := []; produces := [] |};
     boundaries := {| network_access := "deny"; filesystem := fs; shell := shell_mode;
                      max_runtime_seconds := 60; max_artifact_bytes := 1000 |};
     autonomy := {| relay_information := relay; propose_actions := ALWAYS_ASK;
                    execute_local_actions := ALWAYS_ASK |};
     presentation := None |}.

Definition grant (d : DecisionKind) : ApprovalDecision :=
  {| dec_approval_id := "ap1"; dec_session_id := "s1"; dec_decision := d; dec_decided_by := "owner";
     dec_decided_at := "2026-07-23T12:00:00Z"; dec_constraints := None |}.

Definition ctx : document := [("session_id", JStr "s1")].

Lemma hard_boundary_not_overridable_witness :
  evaluate_action (card "none" "deny" ALWAYS_ALLOW) WORKSPACE_WRITE ctx "2026-07-23T12:00:00Z"
    (Some (grant ALWAYS_ALLOW_BOUNDED)) None = Ok {| decision := DENIED; approval_request := None |}.
Proof. apply hard_boundary_not_overridable. reflexivity. Defined.

Lemma allow_characterisation_witness :
  let c := card "workspace_read_write_with_approval" "deny" NEVER in
  hard_boundary_denial c WORKSPACE_WRITE = false /\
  grants "2026-07-23T12:00:00Z" (Some (grant APPROVE_ONCE)) (Some "2026-07-24T12:00:00Z").
Proof.
  cbn zeta.
  destruct (proj1 (allow_characterisation (card "workspace_read_write_with_approval" "deny" NEVER)
    WORKSPACE_WRITE ctx "2026-07-23T12:00:00Z" (Some (grant APPROVE_ONCE))
    (Some "2026-07-24T12:00:00Z") {| decision := ALLOW; approval_request := None |} eq_refl) eq_refl)
    as [Hh [Hg|(He & _)]]; [split; [exact Hh|exact Hg]|discriminate He].
Defined.

Lemma approval_request_faithful_witness :
  exists r q,
    evaluate_action (card "none" "approval_required" NEVER) SHELL_NETWORK_EXTERNAL ctx
      "2026-07-23T12:00:00Z" None None = Ok r /\
    approval_request r = Some q /\ req_risk_label q = CRITICAL.
Proof.
  eexists. edestruct (approval_request_faithful (card "none" "approval_required" NEVER)
    SHELL_NETWORK_EXTERNAL ctx "2026-07-23T12:00:00Z" None None) as (q & Hq & _ & _ & _ & Hr & _).
  - reflexivity.
  - reflexivity.
  - exists q. split; [reflexivity|]. split; [exact Hq | exact Hr].
Defined.

End PolicyDemo.
