(* ===== verification/Store.v ===== *)
(** * The node's database and encrypted fields

    The tables of [kin/storage/migrations.py] as lists of rows, the connection
    with its transaction, and [kin/storage/vault.py].  A connection holds the
    rows it sees ([db]) and the rows that survive it ([committed]); [commit]
    and [rollback] copy one to the other.  AES-GCM, the random source, the
    clock and the JSON decoder are operations of the class [NodeEnv]; random
    values and clock readings are indexed by the draws made so far. *)

From Stdlib Require Import Ascii String ZArith QArith Lia.
From stdpp Require Import base sets list strings.
From S2P Require Import Prelude Codec PyValue.

#[local] Open Scope nat_scope.

(** ** Library interface *)

Class NodeEnv := {
  aes_encrypt : bytes -> bytes -> bytes -> bytes;
  aes_decrypt : bytes -> bytes -> bytes -> option bytes;
  urandom12 : nat -> bytes;
  uuid4 : nat -> string;
  utcnow : nat -> string;
  json_loads : string -> option json;
  (** [model_dump_json] of a pydantic model with these fields. *)
  model_json : json -> string;
  (** AES-GCM decrypts what it encrypted under the same key and nonce. *)
  aes_roundtrip : forall k n p, aes_decrypt k n (aes_encrypt k n p) = Some p;
  (** [os.urandom(12)] returns twelve bytes. *)
  urandom_length : forall n, String.length (urandom12 n) = 12
}.

(** ** Rows *)

Record session_row := {
  s_id : string;
  s_type : string;
  s_initiator : string;
  s_receiver : string;
  s_status : string;
  s_objective : option string;
  s_sender_agent : option string;
  s_receiver_agent : option string;
  s_snapshot : option string;
  s_turn_limit : Z;
  s_created_at : string;
  s_updated_at : string;
  s_expires_at : option string;
  s_runtime_budget : json;
  s_artifact_budget : json;
  s_artifact_bytes : Z;
  s_cost_budget : json;
  s_cost : Q;
  s_terminal_result : option string
}.

Record event_row := {
  e_id : string;
  e_session : string;
  e_order : Z;
  e_sequence : option Z;
  e_actor : string;
  e_agent : option string;
  e_kind : string;
  e_visibility : string;
  e_payload : option string;
  e_signature : option string;
  e_created_at : string
}.

Record audit_row := {
  a_id : string;
  a_correlation : string;
  a_session : option string;
  a_category : string;
  a_actor : option string;
  a_summary : string;
  a_payload : option string;
  a_created_at : string
}.

Record approval_row := {
  ap_id : string;
  ap_session : string;
  ap_agent : option string;
  ap_action : string;
  ap_request : option string;
  ap_decision : option string;
  ap_decided_at : option string;
  ap_expires_at : string;
  ap_consumed_at : option string
}.

Record artifact_row := {
  ar_id : string;
  ar_session : string;
  ar_sha256 : string;
  ar_mime : string;
  ar_bytes : bytes;
  ar_metadata : option string;
  ar_offered_by : string;
  ar_created_at : string
}.

Record peer_card_row := {
  pc_peer : string;
  pc_agent : string;
  pc_card : string;
  pc_hash : string;
  pc_status : string;
  pc_first_seen : string;
  pc_last_seen : string
}.

Record queue_row := {
  q_id : string;
  q_session : string;
  q_sequence : Z;
  q_recipient : string;
  q_kind : string;
  q_envelope : string;
  q_state : string;
  q_attempts : Z;
  q_next_retry : string;
  q_last_error : option string;
  q_created_at : string;
  q_updated_at : string
}.

Record contact_row := {
  c_username : string;
  c_public_key : option string;
  c_x25519 : option string;
  c_endpoint : option string;
  c_autonomy : option string;
  c_verified_at : option string
}.

Record agent_row := {
  ag_id : string;
  ag_name : string;
  ag_adapter_type : string;
  ag_local_card : option string;
  ag_published_card : option string;
  ag_enabled : bool;
  ag_availability : string;
  ag_created_at : string;
  ag_updated_at : string;
  ag_version : Z
}.

Record identity_row := {
  i_username : string;
  i_public_key : option string;
  i_protocol_version : option string
}.

Record capability_row := {
  pk_peer : string;
  pk_json : string;
  pk_fetched_at : string
}.

Record pantry_row := {
  pr_id : string;
  pr_path : string;
  pr_size : Z;
  pr_expires_at : option string;
  pr_created_at : string
}.

Record pack_row := {
  cx_id : string;
  cx_name : string;
  cx_items : string;
  cx_created_at : string;
  cx_updated_at : string
}.

Record reservation_row := {
  rv_id : string;
  rv_agent : string;
  rv_owner : string;
  rv_starts_at : string;
  rv_ends_at : string;
  rv_status : string;
  rv_created_at : string
}.

Record playbook_row := {
  pb_id : string;
  pb_name : string;
  pb_source_session : option string;
  pb_template : string;
  pb_created_at : string;
  pb_updated_at : string
}.

(** A task of the first protocol and its messages. *)
Record task_row := {
  t_id : string;
  t_contact : string;
  t_goal : string;
  t_context : option string;
  t_status : option string;
  t_created_at : string;
  t_updated_at : string;
  t_result : option string;
  t_draft_content : option string;
  t_draft_type : option string;
  t_agent_name : option string;
  t_peer_agent_name : option string;
  t_peer_task_id : option string;
  t_origin_ref_id : option string
}.

Record message_row := {
  m_id : string;
  m_task : string;
  m_from : string;
  m_content : string;
  m_type : option string;
  m_created_at : string;
  m_signature : option string
}.

Record tables := {
  sessions : list session_row;
  session_events : list event_row;
  audit_events : list audit_row;
  approvals : list approval_row;
  artifacts : list artifact_row;
  peer_agent_cards : list peer_card_row;
  outbound_queue : list queue_row;
  contacts : list contact_row;
  agents : list agent_row;
  identity : list identity_row;
  peer_capabilities : list capability_row;
  pantry_refs : list pantry_row;
  context_packs : list pack_row;
  reservations : list reservation_row;
  playbooks : list playbook_row;
  tasks : list task_row;
  messages : list message_row;
  settings : list (string * string);
  (** [processed_relay_messages]. *)
  processed_relay : list Z
}.

Record node := {
  db : tables;
  committed : tables;
  tick : nat
}.

(** Exceptions by the name of their class. *)
Abbreviation N := (M node string).

Definition IntegrityError : string := "sqlite3.IntegrityError".

(** ** Field updates *)

Definition set_sessions (f : list session_row -> list session_row) (t : tables) : tables :=
  {| sessions := f (sessions t); session_events := session_events t; audit_events := audit_events t;
     approvals := approvals t; artifacts := artifacts t; peer_agent_cards := peer_agent_cards t;
     outbound_queue := outbound_queue t; contacts := contacts t; agents := agents t; identity :=
     identity t; peer_capabilities := peer_capabilities t; pantry_refs := pantry_refs t;
     context_packs := context_packs t; reservations := reservations t; playbooks := playbooks t;
     tasks := tasks t; messages := messages t; settings := settings t;
     processed_relay := processed_relay t |}.
Definition set_events (f : list event_row -> list event_row) (t : tables) : tables :=
  {| sessions := sessions t; session_events := f (session_events t); audit_events := audit_events t;
     approvals := approvals t; artifacts := artifacts t; peer_agent_cards := peer_agent_cards t;
     outbound_queue := outbound_queue t; contacts := contacts t; agents := agents t; identity :=
     identity t; peer_capabilities := peer_capabilities t; pantry_refs := pantry_refs t;
     context_packs := context_packs t; reservations := reservations t; playbooks := playbooks t;
     tasks := tasks t; messages := messages t; settings := settings t;
     processed_relay := processed_relay t |}.
Definition set_audit (f : list audit_row -> list audit_row) (t : tables) : tables :=
  {| sessions := sessions t; session_events := session_events t; audit_events := f (audit_events t);
     approvals := approvals t; artifacts := artifacts t; peer_agent_cards := peer_agent_cards t;
     outbound_queue := outbound_queue t; contacts := contacts t; agents := agents t; identity :=
     identity t; peer_capabilities := peer_capabilities t; pantry_refs := pantry_refs t;
     context_packs := context_packs t; reservations := reservations t; playbooks := playbooks t;
     tasks := tasks t; messages := messages t; settings := settings t;
     processed_relay := processed_relay t |}.
Definition set_approvals (f : list approval_row -> list approval_row) (t : tables) : tables :=
  {| sessions := sessions t; session_events := session_events t; audit_events := audit_events t;
     approvals := f (approvals t); artifacts := artifacts t; peer_agent_cards := peer_agent_cards t;
     outbound_queue := outbound_queue t; contacts := contacts t; agents := agents t; identity :=
     identity t; peer_capabilities := peer_capabilities t; pantry_refs := pantry_refs t;
     context_packs := context_packs t; reservations := reservations t; playbooks := playbooks t;
     tasks := tasks t; messages := messages t; settings := settings t;
     processed_relay := processed_relay t |}.
Definition set_artifacts (f : list artifact_row -> list artifact_row) (t : tables) : tables :=
  {| sessions := sessions t; session_events := session_events t; audit_events := audit_events t;
     approvals := approvals t; artifacts := f (artifacts t); peer_agent_cards := peer_agent_cards t;
     outbound_queue := outbound_queue t; contacts := contacts t; agents := agents t; identity :=
     identity t; peer_capabilities := peer_capabilities t; pantry_refs := pantry_refs t;
     context_packs := context_packs t; reservations := reservations t; playbooks := playbooks t;
     tasks := tasks t; messages := messages t; settings := settings t;
     processed_relay := processed_relay t |}.
Definition set_peer_cards (f : list peer_card_row -> list peer_card_row) (t : tables) : tables :=
  {| sessions := sessions t; session_events := session_events t; audit_events := audit_events t;
     approvals := approvals t; artifacts := artifacts t; peer_agent_cards := f (peer_agent_cards t);
     outbound_queue := outbound_queue t; contacts := contacts t; agents := agents t; identity :=
     identity t; peer_capabilities := peer_capabilities t; pantry_refs := pantry_refs t;
     context_packs := context_packs t; reservations := reservations t; playbooks := playbooks t;
     tasks := tasks t; messages := messages t; settings := settings t;
     processed_relay := processed_relay t |}.
Definition set_queue (f : list queue_row -> list queue_row) (t : tables) : tables :=
  {| sessions := sessions t; session_events := session_events t; audit_events := audit_events t;
     approvals := approvals t; artifacts := artifacts t; peer_agent_cards := peer_agent_cards t;
     outbound_queue := f (outbound_queue t); contacts := contacts t; agents := agents t; identity :=
     identity t; peer_capabilities := peer_capabilities t; pantry_refs := pantry_refs t;
     context_packs := context_packs t; reservations := reservations t; playbooks := playbooks t;
     tasks := tasks t; messages := messages t; settings := settings t;
     processed_relay := processed_relay t |}.
Definition set_agents (f : list agent_row -> list agent_row) (t : tables) : tables :=
  {| sessions := sessions t; session_events := session_events t; audit_events := audit_events t;
     approvals := approvals t; artifacts := artifacts t; peer_agent_cards := peer_agent_cards t;
     outbound_queue := outbound_queue t; contacts := contacts t; agents := f (agents t); identity :=
     identity t; peer_capabilities := peer_capabilities t; pantry_refs := pantry_refs t;
     context_packs := context_packs t; reservations := reservations t; playbooks := playbooks t;
     tasks := tasks t; messages := messages t; settings := settings t;
     processed_relay := processed_relay t |}.
Definition set_capabilities (f : list capability_row -> list capability_row) (t : tables) : tables :=
  {| sessions := sessions t; session_events := session_events t; audit_events := audit_events t;
     approvals := approvals t; artifacts := artifacts t; peer_agent_cards := peer_agent_cards t;
     outbound_queue := outbound_queue t; contacts := contacts t; agents := agents t; identity :=
     identity t; peer_capabilities := f (peer_capabilities t); pantry_refs := pantry_refs t;
     context_packs := context_packs t; reservations := reservations t; playbooks := playbooks t;
     tasks := tasks t; messages := messages t; settings := settings t;
     processed_relay := processed_relay t |}.
Definition set_pantry (f : list pantry_row -> list pantry_row) (t : tables) : tables :=
  {| sessions := sessions t; session_events := session_events t; audit_events := audit_events t;
     approvals := approvals t; artifacts := artifacts t; peer_agent_cards := peer_agent_cards t;
     outbound_queue := outbound_queue t; contacts := contacts t; agents := agents t; identity :=
     identity t; peer_capabilities := peer_capabilities t; pantry_refs := f (pantry_refs t);
     context_packs := context_packs t; reservations := reservations t; playbooks := playbooks t;
     tasks := tasks t; messages := messages t; settings := settings t;
     processed_relay := processed_relay t |}.
Definition set_packs (f : list pack_row -> list pack_row) (t : tables) : tables :=
  {| sessions := sessions t; session_events := session_events t; audit_events := audit_events t;
     approvals := approvals t; artifacts := artifacts t; peer_agent_cards := peer_agent_cards t;
     outbound_queue := outbound_queue t; contacts := contacts t; agents := agents t; identity :=
     identity t; peer_capabilities := peer_capabilities t; pantry_refs := pantry_refs t;
     context_packs := f (context_packs t); reservations := reservations t; playbooks := playbooks t;
     tasks := tasks t; messages := messages t; settings := settings t;
     processed_relay := processed_relay t |}.
Definition set_reservations (f : list reservation_row -> list reservation_row) (t : tables) : tables :=
  {| sessions := sessions t; session_events := session_events t; audit_events := audit_events t;
     approvals := approvals t; artifacts := artifacts t; peer_agent_cards := peer_agent_cards t;
     outbound_queue := outbound_queue t; contacts := contacts t; agents := agents t; identity :=
     identity t; peer_capabilities := peer_capabilities t; pantry_refs := pantry_refs t;
     context_packs := context_packs t; reservations := f (reservations t); playbooks := playbooks t;
     tasks := tasks t; messages := messages t; settings := settings t;
     processed_relay := processed_relay t |}.
Definition set_playbooks (f : list playbook_row -> list playbook_row) (t : tables) : tables :=
  {| sessions := sessions t; session_events := session_events t; audit_events := audit_events t;
     approvals := approvals t; artifacts := artifacts t; peer_agent_cards := peer_agent_cards t;
     outbound_queue := outbound_queue t; contacts := contacts t; agents := agents t; identity :=
     identity t; peer_capabilities := peer_capabilities t; pantry_refs := pantry_refs t;
     context_packs := context_packs t; reservations := reservations t; playbooks := f (playbooks t);
     tasks := tasks t; messages := messages t; settings := settings t;
     processed_relay := processed_relay t |}.
Definition set_tasks (f : list task_row -> list task_row) (t : tables) : tables :=
  {| sessions := sessions t; session_events := session_events t; audit_events := audit_events t;
     approvals := approvals t; artifacts := artifacts t; peer_agent_cards := peer_agent_cards t;
     outbound_queue := outbound_queue t; contacts := contacts t; agents := agents t; identity :=
     identity t; peer_capabilities := peer_capabilities t; pantry_refs := pantry_refs t;
     context_packs := context_packs t; reservations := reservations t; playbooks := playbooks t;
     tasks := f (tasks t); messages := messages t; settings := settings t;
     processed_relay := processed_relay t |}.
Definition set_messages (f : list message_row -> list message_row) (t : tables) : tables :=
  {| sessions := sessions t; session_events := session_events t; audit_events := audit_events t;
     approvals := approvals t; artifacts := artifacts t; peer_agent_cards := peer_agent_cards t;
     outbound_queue := outbound_queue t; contacts := contacts t; agents := agents t; identity :=
     identity t; peer_capabilities := peer_capabilities t; pantry_refs := pantry_refs t;
     context_packs := context_packs t; reservations := reservations t; playbooks := playbooks t;
     tasks := tasks t; messages := f (messages t); settings := settings t;
     processed_relay := processed_relay t |}.
Definition set_contacts (f : list contact_row -> list contact_row) (t : tables) : tables :=
  {| sessions := sessions t; session_events := session_events t; audit_events := audit_events t;
     approvals := approvals t; artifacts := artifacts t; peer_agent_cards := peer_agent_cards t;
     outbound_queue := outbound_queue t; contacts := f (contacts t); agents := agents t; identity :=
     identity t; peer_capabilities := peer_capabilities t; pantry_refs := pantry_refs t;
     context_packs := context_packs t; reservations := reservations t; playbooks := playbooks t;
     tasks := tasks t; messages := messages t; settings := settings t;
     processed_relay := processed_relay t |}.
Definition set_identity (f : list identity_row -> list identity_row) (t : tables) : tables :=
  {| sessions := sessions t; session_events := session_events t; audit_events := audit_events t;
     approvals := approvals t; artifacts := artifacts t; peer_agent_cards := peer_agent_cards t;
     outbound_queue := outbound_queue t; contacts := contacts t; agents := agents t; identity := f
     (identity t); peer_capabilities := peer_capabilities t; pantry_refs := pantry_refs t;
     context_packs := context_packs t; reservations := reservations t; playbooks := playbooks t;
     tasks := tasks t; messages := messages t; settings := settings t;
     processed_relay := processed_relay t |}.

Definition set_settings (f : list (string * string) -> list (string * string)) (t : tables) : tables :=
  {| sessions := sessions t; session_events := session_events t; audit_events := audit_events t;
     approvals := approvals t; artifacts := artifacts t; peer_agent_cards := peer_agent_cards t;
     outbound_queue := outbound_queue t; contacts := contacts t; agents := agents t; identity :=
     identity t; peer_capabilities := peer_capabilities t; pantry_refs := pantry_refs t;
     context_packs := context_packs t; reservations := reservations t; playbooks := playbooks t;
     tasks := tasks t; messages := messages t; settings := f (settings t);
     processed_relay := processed_relay t |}.
Definition set_processed (f : list Z -> list Z) (t : tables) : tables :=
  {| sessions := sessions t; session_events := session_events t; audit_events := audit_events t;
     approvals := approvals t; artifacts := artifacts t; peer_agent_cards := peer_agent_cards t;
     outbound_queue := outbound_queue t; contacts := contacts t; agents := agents t; identity :=
     identity t; peer_capabilities := peer_capabilities t; pantry_refs := pantry_refs t;
     context_packs := context_packs t; reservations := reservations t; playbooks := playbooks t;
     tasks := tasks t; messages := messages t; settings := settings t;
     processed_relay := f (processed_relay t) |}.

(** A database with no rows. *)
Definition no_tables : tables :=
  {| sessions := []; session_events := []; audit_events := []; approvals := []; artifacts := [];
     peer_agent_cards := []; outbound_queue := []; contacts := []; agents := []; identity := [];
     peer_capabilities := []; pantry_refs := []; context_packs := []; reservations := []; playbooks
     := []; tasks := []; messages := []; settings := []; processed_relay := [] |}.

Definition on_db (f : tables -> tables) (s : node) : node :=
  {| db := f (db s); committed := committed s; tick := tick s |}.

(** [UPDATE t SET .. WHERE p]. *)
Definition update_where {A} (p : A -> bool) (f : A -> A) (l : list A) : list A :=
  map (fun x => if p x then f x else x) l.

Lemma find_first_update {A} (key : A -> string) k p f l :
  (forall x, p x = true -> key (f x) = key x) ->
  find_first (fun x => String.eqb (key x) k) (update_where p f l)
  = (fun x => if p x then f x else x) <$> find_first (fun x => String.eqb (key x) k) l.
Proof.
  intros Hf. unfold update_where. induction l as [|x l IH]; [done|]. cbn.
  replace (key (if p x then f x else x)) with (key x)
    by (destruct (p x) eqn:E; [symmetry; by apply Hf|done]).
  by destruct (String.eqb (key x) k).
Qed.

Lemma update_keys {A B} (key : A -> B) p f l :
  (forall x, p x = true -> key (f x) = key x) -> map key (update_where p f l) = map key l.
Proof.
  intros Hf. unfold update_where. rewrite map_map. apply map_ext. intros x.
  destruct (p x) eqn:E; [by apply Hf|done].
Qed.

(** ** Connection operations *)

Definition select {A} (f : tables -> A) : N A := mgets (fun s => f (db s)).
Definition execute (f : tables -> tables) : N unit := mmodify (on_db f).

Definition commit : N unit :=
  mmodify (fun s => {| db := db s; committed := db s; tick := tick s |}).
Definition rollback : N unit :=
  mmodify (fun s => {| db := committed s; committed := committed s; tick := tick s |}).

(** An [INSERT] guarded by the constraints of its table. *)
Definition insert_checked (ok : tables -> bool) (f : tables -> tables) : N unit :=
  let* b := select ok in
  if b then execute f else mraise IntegrityError.

(** A draw from the random source or the clock. *)
Definition draw {A} (f : nat -> A) : N A :=
  fun s => (Ok (f (tick s)), {| db := db s; committed := committed s; tick := S (tick s) |}).

(** The session a foreign key refers to exists. *)
Definition has_session (sid : string) (t : tables) : bool :=
  existsb (fun r => String.eqb (s_id r) sid) (sessions t).

Definition find_session (sid : string) (t : tables) : option session_row :=
  find_first (fun r => String.eqb (s_id r) sid) (sessions t).

(** ** Frames of database programs *)

(** Only the audit log changed, and it grew. *)
Definition only_audit (s s' : node) : Prop :=
  exists new, db s' = set_audit (fun l => l ++ new) (db s).

#[export] Instance only_audit_preorder : PreOrder only_audit.
Proof.
  split.
  - intros s. exists []. destruct (db s). unfold set_audit. cbn. by rewrite app_nil_r.
  - intros s1 s2 s3 [n1 H1] [n2 H2]. exists (n1 ++ n2). rewrite H2, H1.
    unfold set_audit. cbn. by rewrite app_assoc.
Qed.

(** The two logs only grow. *)
Definition logs_grow (s s' : node) : Prop :=
  session_events (db s) `prefix_of` session_events (db s') /\
  audit_events (db s) `prefix_of` audit_events (db s').

#[export] Instance logs_grow_preorder : PreOrder logs_grow.
Proof.
  split; [by intros s|]. intros s1 s2 s3 [? ?] [? ?]. split; by etrans.
Qed.

Lemma only_audit_logs s s' : only_audit s s' -> logs_grow s s'.
Proof. intros [new Hd]. unfold logs_grow. rewrite Hd. split; [done|]. by exists new. Qed.

(** Nothing in the tables changed. *)
Definition same_db (s s' : node) : Prop := db s' = db s /\ committed s' = committed s.

#[export] Instance same_db_preorder : PreOrder same_db.
Proof. split; [by intros s|]. intros s1 s2 s3 [? ?] [? ?]. split; congruence. Qed.

Lemma same_db_only_audit s s' : same_db s s' -> only_audit s s'.
Proof. intros [E _]. exists []. rewrite E. destruct (db s). unfold set_audit. cbn. by rewrite app_nil_r. Qed.

Lemma keeps_weaken {A} (R R' : node -> node -> Prop) (m : N A) :
  (forall s s', R s s' -> R' s s') -> keeps R m -> keeps R' m.
Proof. intros HR Hm s. apply HR, Hm. Qed.

Lemma draw_same_db {A} (f : nat -> A) : keeps same_db (draw f).
Proof. by intros s. Qed.

Lemma select_same_db {A} (f : tables -> A) : keeps same_db (select f).
Proof. by intros s. Qed.

Lemma draw_only_audit {A} (f : nat -> A) : keeps only_audit (draw f).
Proof. eapply keeps_weaken; [apply same_db_only_audit | apply draw_same_db]. Qed.

Lemma select_only_audit {A} (f : tables -> A) : keeps only_audit (select f).
Proof. eapply keeps_weaken; [apply same_db_only_audit | apply select_same_db]. Qed.

Lemma commit_only_audit : keeps only_audit commit.
Proof. intros s. exists []. cbn. destruct (db s). unfold set_audit. cbn. by rewrite app_nil_r. Qed.

(** Only sessions and the two logs changed. *)
Definition outside_core (t : tables) :=
  (approvals t, artifacts t, peer_agent_cards t, outbound_queue t, contacts t, agents t, identity t,
   peer_capabilities t, pantry_refs t, context_packs t, reservations t, playbooks t, tasks t,
   messages t, settings t, processed_relay t).
Definition core_only (s s' : node) : Prop := outside_core (db s') = outside_core (db s).

#[export] Instance core_only_preorder : PreOrder core_only.
Proof. split; [by intros s|]. intros s1 s2 s3 E1 E2. unfold core_only in *. congruence. Qed.

Lemma only_audit_core s s' : only_audit s s' -> core_only s s'.
Proof. intros [new E]. unfold core_only. by rewrite E. Qed.

Lemma quiet_core {A} (m : N A) : keeps only_audit m -> keeps core_only m.
Proof. apply keeps_weaken, only_audit_core. Qed.

Lemma execute_core f : (forall t, outside_core (f t) = outside_core t) -> keeps core_only (execute f).
Proof. intros Hf s. apply Hf. Qed.

(** What a frame above [core_only] says of the other tables. *)
Lemma core_only_tables s s' :
  core_only s s' ->
  approvals (db s') = approvals (db s) /\ artifacts (db s') = artifacts (db s) /\
  peer_agent_cards (db s') = peer_agent_cards (db s) /\ outbound_queue (db s') = outbound_queue (db s) /\
  contacts (db s') = contacts (db s) /\ agents (db s') = agents (db s) /\
  tasks (db s') = tasks (db s) /\ messages (db s') = messages (db s).
Proof. unfold core_only, outside_core. intros [=]. by split_and!. Qed.

#[export] Hint Resolve draw_same_db select_same_db draw_only_audit select_only_audit commit_only_audit
  : keeps.

(** ** Encrypted fields *)

Definition VERSION_PREFIX : bytes := "v1:".

Section vault.
Context `{NodeEnv}.

Definition seal (key nonce data : bytes) : bytes :=
  VERSION_PREFIX +:+ nonce +:+ aes_encrypt key nonce data.

(** [decrypt_bytes] on a token that is not [None]. *)
Definition unseal (key token : bytes) : result string bytes :=
  if startswith VERSION_PREFIX token then
    let payload := str_drop (String.length VERSION_PREFIX) token in
    match aes_decrypt key (str_take 12 payload) (str_drop 12 payload) with
    | Some p => Ok p
    | None => Err "InvalidTag"
    end
  else Err "ValueError".

Definition encrypt_bytes (key data : bytes) : N bytes :=
  let* nonce := draw urandom12 in
  ret (seal key nonce data).

Definition decrypt_bytes (key token : bytes) : result string bytes := unseal key token.

Definition encrypt_field (key : bytes) (plaintext : option string) : N (option string) :=
  match plaintext with
  | None => ret None
  | Some p =>
      let* nonce := draw urandom12 in
      ret (Some (b64encode (seal key nonce (utf8_encode p))))
  end.

Definition decrypt_field (key : bytes) (token : option string) : result string (option string) :=
  match token with
  | None => Ok None
  | Some t =>
      match b64decode t with
      | None => Err "binascii.Error"
      | Some raw =>
          let? p := unseal key raw in
          match utf8_decode p with
          | Some s => Ok (Some s)
          | None => Err "UnicodeDecodeError"
          end
      end
  end.

(** [base64.b64decode(value, validate=True)]: characters outside the
    alphabet are an error, and padding is only allowed at the end. *)
Definition std_char (c : ascii) : bool :=
  bool_decide (dec6 c <> None) && negb (Ascii.eqb c "-" || Ascii.eqb c "_").
Definition strict_shape (s : string) : bool :=
  str_forall std_char (rstrip_by (Ascii.eqb "=") s)
  && Nat.leb (String.length s - String.length (rstrip_by (Ascii.eqb "=") s)) 2
  && Nat.eqb (String.length s mod 4) 0.

Definition decrypt_field_or_plaintext (key : bytes) (value : option string)
  : result string (option string) :=
  match value with
  | None => Ok None
  | Some v =>
      match (if strict_shape v then b64decode v else None) with
      | None => Ok (Some v)
      | Some raw => if startswith VERSION_PREFIX raw then decrypt_field key (Some v) else Ok (Some v)
      end
  end.

(** ** Round trips *)

Lemma str_take_app a b : str_take (String.length a) (a +:+ b) = a.
Proof. induction a as [|c a IH]; [by destruct b|]. rewrite str_app_cons. cbn. by rewrite IH. Qed.

Lemma unseal_seal key n data :
  unseal key (seal key (urandom12 n) data) = Ok data.
Proof.
  unfold unseal, seal. rewrite startswith_refl_app, str_drop_app.
  rewrite <- (urandom_length n) at 1. rewrite str_take_app.
  rewrite <- (urandom_length n) at 1. by rewrite str_drop_app, aes_roundtrip.
Qed.

Lemma encrypt_field_run key p s :
  encrypt_field key p s =
  match p with
  | None => (Ok None, s)
  | Some p => (Ok (Some (b64encode (seal key (urandom12 (tick s)) (utf8_encode p)))),
               {| db := db s; committed := committed s; tick := S (tick s) |})
  end.
Proof. by destruct p. Qed.

Lemma encrypt_field_same_db key p : keeps same_db (encrypt_field key p).
Proof. unfold encrypt_field. solve_keeps. Qed.

Lemma encrypt_field_only_audit key p : keeps only_audit (encrypt_field key p).
Proof. unfold encrypt_field. solve_keeps. Qed.

Lemma decrypt_encrypted key n p :
  decrypt_field key (Some (b64encode (seal key (urandom12 n) (utf8_encode p)))) = Ok (Some p).
Proof. unfold decrypt_field. rewrite b64_roundtrip, unseal_seal. cbn. by rewrite utf8_roundtrip. Qed.

(** Encryption at rest is lossless and invisible to the rows: under the
    same vault key every text field decrypts to exactly the text that was
    encrypted, whatever the nonce, [None] stays [None], and encrypting
    touches no table. *)
Theorem field_encryption_roundtrip key p s :
  exists token, (encrypt_field key p s).1 = Ok token /\
    decrypt_field key token = Ok p /\
    db (encrypt_field key p s).2 = db s /\ committed (encrypt_field key p s).2 = committed s.
Proof.
  rewrite encrypt_field_run. destruct p as [p|]; [|by exists None].
  eexists. split; [reflexivity|]. split; [|done].
  apply decrypt_encrypted.
Qed.
End vault.

#[export] Hint Resolve encrypt_field_same_db encrypt_field_only_audit : keeps.
