(* ===== verification/Migrations.v ===== *)
(** * Schema migrations

    [kin/storage/migrations.py], [create_schema] of [kin/storage/db.py],
    [open_profile_db] and the [migrate] command of [kin/cli.py].  A database is
    a map of tables with their columns and rows, the names of its indexes and
    triggers, and the table [schema_migrations].  A connection has what it
    sees, what is on disk, and whether a transaction is open; a statement that
    writes can fail at any point, which the oracle [fault] decides.  The
    scripts are kept as text for their checksums and as the statements SQLite
    reads in them; column types and constraints beyond names are in [Store]. *)

From Stdlib Require Import Ascii String ZArith Lia.
From stdpp Require Import base gmap sets list strings sorting.
From S2P Require Import Prelude Regex Codec PyValue.

#[local] Open Scope nat_scope.

(** ** Databases *)

Record table := {
  columns : list string;
  rows : list (list json)
}.

Record migration_row := {
  mr_version : Z;
  mr_name : string;
  mr_applied_at : string;
  mr_checksum : string
}.

(** [recorded] is [None] while the table [schema_migrations] does not exist. *)
Record database := {
  tables_of : gmap string table;
  objects : gset string;
  recorded : option (list migration_row)
}.

Definition empty_database : database := {| tables_of := ∅; objects := ∅; recorded := None |}.

Inductive statement :=
| CreateTable (name : string) (cols : list string)
| CreateIndex (name tbl : string) (cols : list string)
| CreateTrigger (name tbl : string)
| AddColumn (tbl col : string) (value : json)
| RenameColumn (tbl old new : string).

Definition set_table (name : string) (t : table) (d : database) : database :=
  {| tables_of := <[name := t]> (tables_of d); objects := objects d; recorded := recorded d |}.
Definition add_object (name : string) (d : database) : database :=
  {| tables_of := tables_of d; objects := {[name]} ∪ objects d; recorded := recorded d |}.

Definition OperationalError : string := "sqlite3.OperationalError".

(** What SQLite does with one statement. *)
Definition exec (st : statement) (d : database) : result string database :=
  match st with
  | CreateTable name cols =>
      match tables_of d !! name with
      | Some _ => Ok d
      | None => Ok (set_table name {| columns := cols; rows := [] |} d)
      end
  | CreateIndex name tbl cols =>
      if bool_decide (name ∈ objects d) then Ok d
      else match tables_of d !! tbl with
           | Some t => if forallb (fun c => str_in c (columns t)) cols then Ok (add_object name d) else Err OperationalError
           | None => Err OperationalError
           end
  | CreateTrigger name tbl =>
      if bool_decide (name ∈ objects d) then Ok d
      else match tables_of d !! tbl with Some _ => Ok (add_object name d) | None => Err OperationalError end
  | AddColumn tbl col value =>
      match tables_of d !! tbl with
      | Some t =>
          if str_in col (columns t) then Err OperationalError
          else Ok (set_table tbl {| columns := columns t ++ [col]; rows := map (fun r => r ++ [value]) (rows t) |} d)
      | None => Err OperationalError
      end
  | RenameColumn tbl old new =>
      match tables_of d !! tbl with
      | Some t =>
          if str_in old (columns t) && negb (str_in new (columns t))
          then Ok (set_table tbl {| columns := map (fun c => if String.eqb c old then new else c) (columns t);
                                    rows := rows t |} d)
          else Err OperationalError
      | None => Err OperationalError
      end
  end.

(** ** The scripts *)

Definition MIGRATION_0001_SQL : string := "CREATE TABLE IF NOT EXISTS identity (
    username            TEXT,
    public_key          TEXT,
    keychain_ref        TEXT,
    protocol_version    TEXT
);

CREATE TABLE IF NOT EXISTS contacts (
    username                TEXT PRIMARY KEY,
    display_name            TEXT,
    public_key              TEXT,
    x25519_public_key       TEXT,
    endpoint                TEXT,
    autonomy_level          TEXT,
    fingerprint_verified_at TIMESTAMP
);

CREATE TABLE IF NOT EXISTS tasks (
    task_id             TEXT PRIMARY KEY,
    contact_username    TEXT REFERENCES contacts(username),
    goal                TEXT,
    context_json        TEXT,
    status              TEXT,
    created_at          TIMESTAMP,
    updated_at          TIMESTAMP,
    result_json         TEXT,
    draft_content       TEXT,
    draft_message_type  TEXT,
    agent_name          TEXT,
    peer_agent_name     TEXT,
    peer_task_id        TEXT,
    origin_ref_id       TEXT
);

CREATE TABLE IF NOT EXISTS messages (
    message_id          TEXT PRIMARY KEY,
    task_id             TEXT REFERENCES tasks(task_id),
    from_username       TEXT,
    content             TEXT,
    message_type        TEXT,
    created_at          TIMESTAMP,
    signature           TEXT
);

CREATE TABLE IF NOT EXISTS settings (
    key                 TEXT PRIMARY KEY,
    value               TEXT NOT NULL
);

CREATE TABLE IF NOT EXISTS processed_relay_messages (
    message_id          INTEGER PRIMARY KEY,
    processed_at        TIMESTAMP NOT NULL
);
".

Definition up_0001 : list statement :=
  [CreateTable "identity" ["username"; "public_key"; "keychain_ref"; "protocol_version"];
   CreateTable "contacts" ["username"; "display_name"; "public_key"; "x25519_public_key"; "endpoint";
      "autonomy_level"; "fingerprint_verified_at"];
   CreateTable "tasks" ["task_id"; "contact_username"; "goal"; "context_json"; "status"; "created_at";
      "updated_at"; "result_json"; "draft_content"; "draft_message_type"; "agent_name"; "peer_agent_name";
      "peer_task_id"; "origin_ref_id"];
   CreateTable "messages" ["message_id"; "task_id"; "from_username"; "content"; "message_type"; "created_at";
      "signature"];
   CreateTable "settings" ["key"; "value"];
   CreateTable "processed_relay_messages" ["message_id"; "processed_at"]].

Definition MIGRATION_0002_SQL : string := "CREATE TABLE IF NOT EXISTS agents (
    agent_id             TEXT PRIMARY KEY,
    name                 TEXT NOT NULL,
    adapter_type         TEXT NOT NULL,
    local_card_json      TEXT,
    published_card_json  TEXT,
    enabled              INTEGER NOT NULL DEFAULT 1,
    availability         TEXT NOT NULL DEFAULT 'ready',
    created_at           TEXT NOT NULL,
    updated_at           TEXT NOT NULL
);

CREATE TABLE IF NOT EXISTS sessions (
    session_id                 TEXT PRIMARY KEY,
    type                       TEXT NOT NULL,
    owner_username             TEXT NOT NULL,
    peer_username              TEXT NOT NULL,
    status                     TEXT NOT NULL,
    objective                  TEXT,
    sender_agent_id            TEXT,
    receiver_agent_id          TEXT,
    participant_snapshot_json  TEXT,
    turn_limit                 INTEGER NOT NULL DEFAULT 12,
    created_at                 TEXT NOT NULL,
    updated_at                 TEXT NOT NULL,
    terminal_result_json       TEXT
);
CREATE INDEX IF NOT EXISTS idx_sessions_status_updated ON sessions(status, updated_at);

CREATE TABLE IF NOT EXISTS session_events (
    event_id       TEXT PRIMARY KEY,
    session_id     TEXT NOT NULL REFERENCES sessions(session_id),
    event_order    INTEGER NOT NULL,
    sequence       INTEGER,
    actor_username TEXT NOT NULL,
    actor_agent_id TEXT,
    kind           TEXT NOT NULL,
    visibility     TEXT NOT NULL DEFAULT 'peer_visible',
    payload_json   TEXT,
    signature      TEXT,
    created_at     TEXT NOT NULL,
    UNIQUE(session_id, event_order)
);
CREATE INDEX IF NOT EXISTS idx_session_events_session_order ON session_events(session_id, event_order);

CREATE TABLE IF NOT EXISTS artifacts (
    artifact_id     TEXT PRIMARY KEY,
    session_id      TEXT NOT NULL REFERENCES sessions(session_id),
    sha256          TEXT NOT NULL,
    mime_type       TEXT NOT NULL,
    bytes_encrypted BLOB,
    metadata_json   TEXT,
    offered_by      TEXT NOT NULL,
    created_at      TEXT NOT NULL
);
CREATE INDEX IF NOT EXISTS idx_artifacts_sha256 ON artifacts(sha256);

CREATE TABLE IF NOT EXISTS approvals (
    approval_id   TEXT PRIMARY KEY,
    session_id    TEXT NOT NULL REFERENCES sessions(session_id),
    agent_id      TEXT,
    action_class  TEXT NOT NULL,
    request_json  TEXT,
    decision      TEXT,
    decided_at    TEXT,
    expires_at    TEXT NOT NULL
);
CREATE INDEX IF NOT EXISTS idx_approvals_expires_at ON approvals(expires_at);

CREATE TABLE IF NOT EXISTS audit_events (
    audit_id        TEXT PRIMARY KEY,
    correlation_id  TEXT NOT NULL,
    session_id      TEXT,
    category        TEXT NOT NULL,
    actor_username  TEXT,
    summary         TEXT NOT NULL,
    payload_json    TEXT,
    created_at      TEXT NOT NULL
);
CREATE INDEX IF NOT EXISTS idx_audit_events_session ON audit_events(session_id);
CREATE INDEX IF NOT EXISTS idx_audit_events_created ON audit_events(created_at);

CREATE TRIGGER IF NOT EXISTS trg_session_events_no_update
BEFORE UPDATE ON session_events
BEGIN SELECT RAISE(ABORT, 'session_events is append-only: UPDATE is forbidden'); END;

CREATE TRIGGER IF NOT EXISTS trg_session_events_no_delete
BEFORE DELETE ON session_events
BEGIN SELECT RAISE(ABORT, 'session_events is append-only: DELETE is forbidden'); END;

CREATE TRIGGER IF NOT EXISTS trg_audit_events_no_update
BEFORE UPDATE ON audit_events
BEGIN SELECT RAISE(ABORT, 'audit_events is append-only: UPDATE is forbidden'); END;

CREATE TRIGGER IF NOT EXISTS trg_audit_events_no_delete
BEFORE DELETE ON audit_events
BEGIN SELECT RAISE(ABORT, 'audit_events is append-only: DELETE is forbidden'); END;
".

Definition up_0002 : list statement :=
  [CreateTable "agents" ["agent_id"; "name"; "adapter_type"; "local_card_json"; "published_card_json"; "enabled";
      "availability"; "created_at"; "updated_at"];
   CreateTable "sessions" ["session_id"; "type"; "owner_username"; "peer_username"; "status"; "objective";
      "sender_agent_id"; "receiver_agent_id"; "participant_snapshot_json"; "turn_limit"; "created_at";
      "updated_at"; "terminal_result_json"];
   CreateIndex "idx_sessions_status_updated" "sessions" ["status"; "updated_at"];
   CreateTable "session_events" ["event_id"; "session_id"; "event_order"; "sequence"; "actor_username";
      "actor_agent_id"; "kind"; "visibility"; "payload_json"; "signature"; "created_at"];
   CreateIndex "idx_session_events_session_order" "session_events" ["session_id"; "event_order"];
   CreateTable "artifacts" ["artifact_id"; "session_id"; "sha256"; "mime_type"; "bytes_encrypted"; "metadata_json";
      "offered_by"; "created_at"];
   CreateIndex "idx_artifacts_sha256" "artifacts" ["sha256"];
   CreateTable "approvals" ["approval_id"; "session_id"; "agent_id"; "action_class"; "request_json"; "decision";
      "decided_at"; "expires_at"];
   CreateIndex "idx_approvals_expires_at" "approvals" ["expires_at"];
   CreateTable "audit_events" ["audit_id"; "correlation_id"; "session_id"; "category"; "actor_username"; "summary";
      "payload_json"; "created_at"];
   CreateIndex "idx_audit_events_session" "audit_events" ["session_id"];
   CreateIndex "idx_audit_events_created" "audit_events" ["created_at"];
   CreateTrigger "trg_session_events_no_update" "session_events";
   CreateTrigger "trg_session_events_no_delete" "session_events";
   CreateTrigger "trg_audit_events_no_update" "audit_events";
   CreateTrigger "trg_audit_events_no_delete" "audit_events"].

Definition MIGRATION_0003_SQL : string := "ALTER TABLE agents ADD COLUMN card_version INTEGER NOT NULL DEFAULT 1;

CREATE TABLE IF NOT EXISTS peer_agent_cards (
    peer_username   TEXT NOT NULL,
    agent_id        TEXT NOT NULL,
    card_json       TEXT NOT NULL,
    content_hash    TEXT NOT NULL,
    status          TEXT NOT NULL DEFAULT 'fresh',
    first_seen_at   TEXT NOT NULL,
    last_seen_at    TEXT NOT NULL,
    PRIMARY KEY (peer_username, agent_id)
);
CREATE INDEX IF NOT EXISTS idx_peer_agent_cards_status ON peer_agent_cards(status);
".

Definition up_0003 : list statement :=
  [AddColumn "agents" "card_version" (JInt 1);
   CreateTable "peer_agent_cards" ["peer_username"; "agent_id"; "card_json"; "content_hash"; "status";
      "first_seen_at"; "last_seen_at"];
   CreateIndex "idx_peer_agent_cards_status" "peer_agent_cards" ["status"]].

Definition MIGRATION_0004_SQL : string := "CREATE TABLE IF NOT EXISTS outbound_envelope_queue (
    queue_id            TEXT PRIMARY KEY,
    session_id          TEXT NOT NULL REFERENCES sessions(session_id),
    sequence            INTEGER NOT NULL,
    recipient_username  TEXT NOT NULL,
    envelope_kind       TEXT NOT NULL,
    envelope_json_enc   TEXT NOT NULL,
    delivery_state      TEXT NOT NULL DEFAULT 'pending',
    attempt_count       INTEGER NOT NULL DEFAULT 0,
    next_retry_at       TEXT NOT NULL,
    last_error          TEXT,
    created_at          TEXT NOT NULL,
    updated_at          TEXT NOT NULL,
    UNIQUE(session_id, sequence, recipient_username)
);
CREATE INDEX IF NOT EXISTS idx_outbound_queue_pending ON outbound_envelope_queue(delivery_state, next_retry_at);

ALTER TABLE sessions ADD COLUMN expires_at TEXT;
".

Definition up_0004 : list statement :=
  [CreateTable "outbound_envelope_queue" ["queue_id"; "session_id"; "sequence"; "recipient_username";
      "envelope_kind"; "envelope_json_enc"; "delivery_state"; "attempt_count"; "next_retry_at"; "last_error";
      "created_at"; "updated_at"];
   CreateIndex "idx_outbound_queue_pending" "outbound_envelope_queue" ["delivery_state"; "next_retry_at"];
   AddColumn "sessions" "expires_at" JNull].

Definition MIGRATION_0005_SQL : string := "ALTER TABLE sessions RENAME COLUMN owner_username TO initiator_username;
ALTER TABLE sessions RENAME COLUMN peer_username TO receiver_username;

CREATE TABLE IF NOT EXISTS peer_capabilities (
    peer_username       TEXT PRIMARY KEY,
    capability_json     TEXT NOT NULL,
    fetched_at          TEXT NOT NULL
);
".

Definition up_0005 : list statement :=
  [RenameColumn "sessions" "owner_username" "initiator_username";
   RenameColumn "sessions" "peer_username" "receiver_username";
   CreateTable "peer_capabilities" ["peer_username"; "capability_json"; "fetched_at"]].

Definition MIGRATION_0006_SQL : string := "ALTER TABLE approvals ADD COLUMN consumed_at TEXT;
".

Definition up_0006 : list statement :=
  [AddColumn "approvals" "consumed_at" JNull].

Definition MIGRATION_0007_SQL : string := "ALTER TABLE sessions ADD COLUMN runtime_budget_seconds INTEGER NULL;
ALTER TABLE sessions ADD COLUMN artifact_bytes_budget INTEGER NULL;
ALTER TABLE sessions ADD COLUMN cumulative_artifact_bytes INTEGER NOT NULL DEFAULT 0;
ALTER TABLE sessions ADD COLUMN cost_budget_estimate REAL NULL;
ALTER TABLE sessions ADD COLUMN cumulative_cost_estimate REAL NOT NULL DEFAULT 0;
".

Definition up_0007 : list statement :=
  [AddColumn "sessions" "runtime_budget_seconds" JNull;
   AddColumn "sessions" "artifact_bytes_budget" JNull;
   AddColumn "sessions" "cumulative_artifact_bytes" (JInt 0);
   AddColumn "sessions" "cost_budget_estimate" JNull;
   AddColumn "sessions" "cumulative_cost_estimate" (JFloat (FFin "0.0"))].

Definition MIGRATION_0008_SQL : string := "CREATE TABLE IF NOT EXISTS context_pantry_refs (
    ref_id          TEXT PRIMARY KEY,
    encrypted_path  TEXT NOT NULL,
    size_bytes      INTEGER NOT NULL,
    expires_at      TEXT,
    created_at      TEXT NOT NULL
);
CREATE TABLE IF NOT EXISTS context_packs (
    pack_id         TEXT PRIMARY KEY,
    name            TEXT NOT NULL,
    items_json_enc  TEXT NOT NULL,
    created_at      TEXT NOT NULL,
    updated_at      TEXT NOT NULL
);
".

Definition up_0008 : list statement :=
  [CreateTable "context_pantry_refs" ["ref_id"; "encrypted_path"; "size_bytes"; "expires_at"; "created_at"];
   CreateTable "context_packs" ["pack_id"; "name"; "items_json_enc"; "created_at"; "updated_at"]].

Definition MIGRATION_0009_SQL : string := "CREATE TABLE IF NOT EXISTS agent_reservations (
    reservation_id  TEXT PRIMARY KEY,
    agent_id         TEXT NOT NULL REFERENCES agents(agent_id),
    owner_username   TEXT NOT NULL,
    starts_at        TEXT NOT NULL,
    ends_at          TEXT NOT NULL,
    status           TEXT NOT NULL DEFAULT 'active',
    created_at       TEXT NOT NULL
);
CREATE INDEX IF NOT EXISTS idx_agent_reservations_window
    ON agent_reservations(agent_id, starts_at, ends_at, status);

CREATE TABLE IF NOT EXISTS playbooks (
    playbook_id       TEXT PRIMARY KEY,
    name              TEXT NOT NULL,
    source_session_id TEXT,
    template_json_enc TEXT NOT NULL,
    created_at        TEXT NOT NULL,
    updated_at        TEXT NOT NULL
);
".

Definition up_0009 : list statement :=
  [CreateTable "agent_reservations" ["reservation_id"; "agent_id"; "owner_username"; "starts_at"; "ends_at";
      "status"; "created_at"];
   CreateIndex "idx_agent_reservations_window" "agent_reservations" ["agent_id"; "starts_at"; "ends_at"; "status"];
   CreateTable "playbooks" ["playbook_id"; "name"; "source_session_id"; "template_json_enc"; "created_at";
      "updated_at"]].

Record Migration := {
  version : Z;
  m_name : string;
  up_sql : string;
  up_fn : list statement
}.

Definition checksum (m : Migration) : string := sha256_hex (utf8_encode (strip (up_sql m))).

Definition migration_1 : Migration :=
  {| version := 1; m_name := "v1_baseline"; up_sql := MIGRATION_0001_SQL; up_fn := up_0001 |}.
Definition later_migrations : list Migration :=
  [{| version := 2; m_name := "v11_session_records"; up_sql := MIGRATION_0002_SQL; up_fn := up_0002 |};
   {| version := 3; m_name := "v11_agent_registry_extensions"; up_sql := MIGRATION_0003_SQL; up_fn := up_0003 |};
   {| version := 4; m_name := "v11_transport_and_queue"; up_sql := MIGRATION_0004_SQL; up_fn := up_0004 |};
   {| version := 5; m_name := "v11_session_column_renames"; up_sql := MIGRATION_0005_SQL; up_fn := up_0005 |};
   {| version := 6; m_name := "v11_approval_consumed_at"; up_sql := MIGRATION_0006_SQL; up_fn := up_0006 |};
   {| version := 7; m_name := "v11_session_budgets"; up_sql := MIGRATION_0007_SQL; up_fn := up_0007 |};
   {| version := 8; m_name := "v11_context_pantry_refs"; up_sql := MIGRATION_0008_SQL; up_fn := up_0008 |};
   {| version := 9; m_name := "v11_collaboration_depth"; up_sql := MIGRATION_0009_SQL; up_fn := up_0009 |}].
Definition ALL_MIGRATIONS : list Migration := migration_1 :: later_migrations.

(** ** The connection *)

Record connection := {
  current : database;
  disk : database;
  in_transaction : bool;
  clock : nat
}.

Abbreviation D := (M connection string).

Definition opened (d : database) (n : nat) : connection :=
  {| current := d; disk := d; in_transaction := false; clock := n |}.

Record MigrationReport := {
  applied : list Z;
  skipped : list Z;
  starting_version : Z;
  ending_version : Z;
  errors : list string
}.

Definition new_report : MigrationReport :=
  {| applied := []; skipped := []; starting_version := 0; ending_version := 0; errors := [] |}.
Definition with_error (e : string) (r : MigrationReport) : MigrationReport :=
  {| applied := applied r; skipped := skipped r; starting_version := starting_version r;
     ending_version := ending_version r; errors := errors r ++ [e] |}.
Definition with_applied (v : Z) (r : MigrationReport) : MigrationReport :=
  {| applied := applied r ++ [v]; skipped := skipped r; starting_version := starting_version r;
     ending_version := ending_version r; errors := errors r |}.
Definition with_skipped (v : Z) (r : MigrationReport) : MigrationReport :=
  {| applied := applied r; skipped := skipped r ++ [v]; starting_version := starting_version r;
     ending_version := ending_version r; errors := errors r |}.
Definition with_start (v : Z) (r : MigrationReport) : MigrationReport :=
  {| applied := applied r; skipped := skipped r; starting_version := v;
     ending_version := ending_version r; errors := errors r |}.
Definition with_end (v : Z) (r : MigrationReport) : MigrationReport :=
  {| applied := applied r; skipped := skipped r; starting_version := starting_version r;
     ending_version := v; errors := errors r |}.

Definition V1_TABLES : list string := ["identity"; "contacts"; "tasks"; "messages"; "settings"].
Definition ALLOWED_V1_TABLES : list string :=
  ["schema_migrations"; "identity"; "contacts"; "tasks"; "messages"; "settings"; "processed_relay_messages"].

Definition REQUIRED_COLUMNS : list (string * list string) :=
  [("identity", ["username"; "public_key"]);
   ("contacts", ["username"; "display_name"; "public_key"]);
   ("tasks", ["task_id"; "contact_username"; "goal"; "context_json"; "status";
              "created_at"; "updated_at"; "result_json"; "draft_content"; "draft_message_type"]);
   ("messages", ["message_id"; "task_id"; "from_username"; "content"; "message_type"; "created_at"; "signature"]);
   ("settings", ["key"; "value"]);
   ("processed_relay_messages", ["message_id"; "processed_at"])].

Definition OPTIONAL_TASK_COLUMNS : list string := ["agent_name"; "peer_agent_name"; "peer_task_id"; "origin_ref_id"].

Definition has_legacy_tables (d : database) : bool :=
  existsb (fun n => bool_decide (is_Some (tables_of d !! n))) V1_TABLES.

Definition is_legacy_unmigrated_profile (d : database) : bool :=
  match recorded d with Some _ => false | None => has_legacy_tables d end.

Definition sorted_join (l : list string) : string := String.concat ", " (order_by String.leb l).

(** The tables a legacy profile may not have. *)
Definition extra_tables (d : database) : list string :=
  List.filter (fun n => negb (startswith "sqlite_" n || str_in n ALLOWED_V1_TABLES)) (map fst (map_to_list (tables_of d))).

(** The first table without its required columns. *)
Fixpoint missing_columns (req : list (string * list string)) (d : database) : option (string * list string) :=
  match req with
  | [] => None
  | (tbl, required) :: rest =>
      match tables_of d !! tbl with
      | Some t =>
          match List.filter (fun c => negb (str_in c (columns t))) required with
          | [] => missing_columns rest d
          | missing => Some (tbl, missing)
          end
      | None => missing_columns rest d
      end
  end.

(** The checks on a legacy schema: [None] when it is supported. *)
Definition unsupported_legacy (d : database) : option string :=
  match extra_tables d with
  | _ :: _ as extra => Some ("Unsupported prior schema: unrecognized tables present (" +:+ sorted_join extra +:+ ")")
  | [] =>
      match missing_columns REQUIRED_COLUMNS d with
      | Some (tbl, missing) =>
          Some ("Unsupported prior schema: " +:+ tbl +:+ " table missing required columns (" +:+ sorted_join missing +:+ ")")
      | None => None
      end
  end.

(** The number as [{:04d}] prints it. *)
Definition four_digits (z : Z) : string :=
  let s := print_int z in str_take (4 - String.length s) "0000" +:+ s.

Definition label (m : Migration) : string := four_digits (version m) +:+ "_" +:+ m_name m.

Definition find_record (v : Z) (l : list migration_row) : option migration_row :=
  find_first (fun r => (mr_version r =? v)%Z) l.

(** [max(...)] and [MAX(version)], 0 for none. *)
Definition max_version (l : list migration_row) : Z :=
  match map mr_version l with [] => 0%Z | v :: rest => foldr Z.max v rest end.

(** The drift pass over what is recorded: the report, and whether it ends the run. *)
Fixpoint check_drift (ms : list Migration) (l : list migration_row) (r : MigrationReport) : MigrationReport + MigrationReport :=
  match ms with
  | [] => inr r
  | m :: rest =>
      match find_record (version m) l with
      | Some row =>
          if String.eqb (mr_checksum row) (checksum m) then
            check_drift rest l (if bool_decide (version m ∈ applied r) then r else with_skipped (version m) r)
          else
            inl (with_error ("Checksum drift detected for migration " +:+ label m +:+ ": stored="
                             +:+ str_take 12 (mr_checksum row) +:+ ", expected=" +:+ str_take 12 (checksum m)) r)
      | None => check_drift rest l r
      end
  end.

Section runner.
(** Whether the n-th write fails, the time it would be stamped with, and the
    text of an exception. *)
Context (fault : nat -> bool) (now : nat -> string) (error_text : string -> string).

Definition look {A} (f : database -> A) : D A := mgets (fun s => f (current s)).

(** One write: what the connection sees changes; outside of a transaction it
    is on disk at once. *)
Definition write (f : database -> result string database) : D unit :=
  fun s =>
    let s' := {| current := current s; disk := disk s; in_transaction := in_transaction s; clock := S (clock s) |} in
    if fault (clock s) then (Err OperationalError, s')
    else match f (current s) with
         | Ok d => (Ok tt, {| current := d; disk := if in_transaction s then disk s else d;
                              in_transaction := in_transaction s; clock := S (clock s) |})
         | Err e => (Err e, s')
         end.

Definition begin_immediate : D unit :=
  fun s => if in_transaction s then (Err OperationalError, s)
           else (Ok tt, {| current := current s; disk := disk s; in_transaction := true; clock := clock s |}).
Definition commit_changes : D unit :=
  mmodify (fun s => {| current := current s; disk := current s; in_transaction := false; clock := clock s |}).
Definition rollback_changes : D unit :=
  mmodify (fun s => {| current := disk s; disk := disk s; in_transaction := false; clock := clock s |}).

(** [conn.execute] of an INSERT opens a transaction when there is none. *)
Definition open_transaction : D unit :=
  mmodify (fun s => {| current := current s; disk := disk s; in_transaction := true; clock := clock s |}).

Fixpoint run_statements (l : list statement) : D unit :=
  match l with
  | [] => ret tt
  | st :: rest => write (exec st) ;;; run_statements rest
  end.

(** [executescript] commits what is pending before it starts. *)
Definition executescript (l : list statement) : D unit := commit_changes ;;; run_statements l.

Definition record_migration (m : Migration) (applied_at : string) (d : database) : result string database :=
  match recorded d with
  | None => Err OperationalError
  | Some l =>
      match find_record (version m) l with
      | Some _ => Err "sqlite3.IntegrityError"
      | None => Ok {| tables_of := tables_of d; objects := objects d;
                      recorded := Some (l ++ [{| mr_version := version m; mr_name := m_name m;
                                                 mr_applied_at := applied_at; mr_checksum := checksum m |}]) |}
      end
  end.

Definition insert_record (m : Migration) (mark : string) : D unit :=
  let* t := mgets (fun s => now (clock s)) in
  open_transaction ;;;
  write (record_migration m (t +:+ mark)) ;;;
  commit_changes.

Definition ensure_migrations_table : D unit :=
  write (fun d => Ok {| tables_of := tables_of d; objects := objects d;
                        recorded := Some (default [] (recorded d)) |}) ;;;
  commit_changes.

Fixpoint add_task_columns (cols have : list string) : D unit :=
  match cols with
  | [] => ret tt
  | c :: rest =>
      (if str_in c have then ret tt else write (exec (AddColumn "tasks" c JNull))) ;;;
      add_task_columns rest have
  end.

Definition validate_and_backfill_legacy_v1 (m1 : Migration) : D (option string) :=
  let* problem := look unsupported_legacy in
  match problem with
  | Some e => ret (Some e)
  | None =>
      let* tasks := look (fun d => tables_of d !! "tasks") in
      match tasks with
      | Some t => add_task_columns OPTIONAL_TASK_COLUMNS (columns t)
      | None => ret tt
      end ;;;
      executescript (up_fn m1) ;;;
      insert_record m1 " (backfilled)" ;;;
      ret None
  end.

(** One pending migration: [None] when it failed, with the reason in the report. *)
Definition apply_one (m : Migration) (r : MigrationReport) : D (MigrationReport * bool) :=
  mcatch (begin_immediate ;;; executescript (up_fn m) ;;; insert_record m "" ;;; ret (with_applied (version m) r, true))
    (fun e => rollback_changes ;;;
              ret (with_error ("Migration " +:+ label m +:+ " failed: " +:+ error_text e) r, false)).

Fixpoint apply_pending (ms : list Migration) (l : list migration_row) (r : MigrationReport) : D MigrationReport :=
  match ms with
  | [] => ret r
  | m :: rest =>
      match find_record (version m) l with
      | Some _ => apply_pending rest l r
      | None =>
          let* out := apply_one m r in
          if (out.2 : bool) then apply_pending rest l out.1 else ret out.1
      end
  end.

(** The first part: a database without records gets the table, and a legacy
    profile its first record.  [inl] ends the run. *)
Definition prepare : D (MigrationReport + MigrationReport) :=
  let* has := look recorded in
  match has with
  | Some _ => ret (inr new_report)
  | None =>
      let* legacy := look has_legacy_tables in
      ensure_migrations_table ;;;
      if (legacy : bool) then
        let* problem := validate_and_backfill_legacy_v1 migration_1 in
        match problem with
        | Some e => ret (inl (with_error e new_report))
        | None => ret (inr (with_applied 1 new_report))
        end
      else ret (inr new_report)
  end.

Definition records (d : database) : list migration_row := default [] (recorded d).

Definition run_migrations : D MigrationReport :=
  let* start := prepare in
  match start with
  | inl r => ret r
  | inr r =>
      let* l := look records in
      match check_drift ALL_MIGRATIONS l (with_start (max_version l) r) with
      | inl r => ret r
      | inr r =>
          let* r := apply_pending ALL_MIGRATIONS l r in
          let* l := look records in
          ret (with_end (max_version l) r)
      end
  end.

(** [create_schema] and [open_profile_db]. *)
Definition create_schema (allow_legacy_migration : bool) : D unit :=
  let* legacy := look is_legacy_unmigrated_profile in
  if negb allow_legacy_migration && legacy then mraise "LegacyProfileMigrationRequired"
  else
    let* report := run_migrations in
    match errors report with [] => ret tt | _ => mraise "RuntimeError" end.

Definition open_profile_db : D unit :=
  mcatch (create_schema false)
    (fun e => if String.eqb e "LegacyProfileMigrationRequired" then mraise "typer.Exit(1)" else mraise e).
End runner.

(** ** The [migrate] command *)

(** [SELECT username, public_key FROM identity LIMIT 1]. *)
Definition cell (t : table) (col : string) (row : list json) : option json :=
  find_first (fun p : string * json => String.eqb p.1 col) (zip (columns t) row) ≫= fun p => Some p.2.

Definition identity_facts (d : database) : result string (option (option json * option json)) :=
  match tables_of d !! "identity" with
  | None => Ok None
  | Some t =>
      if str_in "username" (columns t) && str_in "public_key" (columns t)
      then Ok (match rows t with [] => None | r :: _ => Some (cell t "username" r, cell t "public_key" r) end)
      else Err OperationalError
  end.

Definition row_count (name : string) (d : database) : option nat := length ∘ rows <$> tables_of d !! name.

Record facts := {
  f_identity : option (option (option json * option json));
  f_contacts : option nat;
  f_tasks : option nat
}.

(** What is read of the original before the copy; [None] for an absent table. *)
Definition preflight (d : database) : result string facts :=
  let? i := identity_facts d in
  Ok {| f_identity := match tables_of d !! "identity" with Some _ => Some i | None => None end;
        f_contacts := row_count "contacts" d; f_tasks := row_count "tasks" d |}.

(** The checks on the migrated copy. *)
Definition staged_ok (f : facts) (d : database) : result string unit :=
  let? _ := match f_identity f with
            | Some i => let? j := identity_facts d in
                        match tables_of d !! "identity" with
                        | None => Err OperationalError
                        | Some _ => ensure (bool_decide (j = i)) "RuntimeError"
                        end
            | None => Ok tt
            end in
  let? _ := match f_contacts f with
            | Some _ => ensure (bool_decide (row_count "contacts" d = f_contacts f)) "RuntimeError"
            | None => Ok tt
            end in
  let? _ := match f_tasks f with
            | Some _ => ensure (bool_decide (row_count "tasks" d = f_tasks f)) "RuntimeError"
            | None => Ok tt
            end in
  match records d with
  | [] => Err "RuntimeError"
  | l => ensure (max_version l =? foldr Z.max 0%Z (map version ALL_MIGRATIONS))%Z "RuntimeError"
  end.

Inductive migrate_outcome :=
| NothingToMigrate
| Migrated (report : MigrationReport)
| MigrationFailed (why : string).

Section migrate.
Context (fault : nat -> bool) (now : nat -> string) (error_text : string -> string).

(** Everything between the preflight and the replacement works on a copy.
    [copied], [vault_ready] and [replaced] are the outcomes of copying the
    profile, of the vault key and of [os.replace]. *)
Definition staged_migration (d : database) (n : nat) (copied vault_ready : result string unit)
  : result string (MigrationReport * database) :=
  let? f := preflight d in
  let? _ := copied in
  match run_migrations fault now error_text (opened d n) with
  | (Err e, _) => Err e
  | (Ok report, s) =>
      match errors report with
      | _ :: _ => Err "RuntimeError"
      | [] =>
          let? _ := staged_ok f (current s) in
          let? _ := vault_ready in
          Ok (report, disk s)
      end
  end.

Definition migrate (file : option database) (n : nat) (copied vault_ready replaced : result string unit)
  : migrate_outcome * option database :=
  match file with
  | None => (NothingToMigrate, None)
  | Some d =>
      match (let? out := staged_migration d n copied vault_ready in let? _ := replaced in Ok out) with
      | Ok (report, d') => (Migrated report, Some d')
      | Err e => (MigrationFailed e, Some d)
      end
  end.
End migrate.

#[local] Opaque checksum.

(** ** Rows are never lost *)

(** The columns that a migration renames. *)
Definition RENAMES : list (string * string) :=
  [("owner_username", "initiator_username"); ("peer_username", "receiver_username")].

Definition renamed : string -> string -> Prop := rtc (fun a b => (a, b) ∈ RENAMES).

(** A table later on: the same rows in the same order, each with cells added at
    its end, and the same columns up to renaming, with columns added. *)
Definition table_kept (t t' : table) : Prop :=
  Forall2 (fun r r' => exists x, r' = r ++ x) (rows t) (rows t') /\
  exists cols added, columns t' = cols ++ added /\ Forall2 renamed (columns t) cols.

Definition kept (d d' : database) : Prop :=
  (forall name t, tables_of d !! name = Some t -> exists t', tables_of d' !! name = Some t' /\ table_kept t t') /\
  records d `prefix_of` records d'.

Lemma renamed_refl l : Forall2 renamed l l.
Proof. apply Forall_Forall2_diag, Forall_forall. intros x _. apply rtc_refl. Qed.

Lemma table_kept_refl t : table_kept t t.
Proof.
  split; [apply Forall_Forall2_diag, Forall_forall; intros r _; exists []; by rewrite app_nil_r|].
  exists (columns t), []. rewrite app_nil_r. split; [done|apply renamed_refl].
Qed.

Lemma table_kept_trans t1 t2 t3 : table_kept t1 t2 -> table_kept t2 t3 -> table_kept t1 t3.
Proof.
  intros [R12 (c2 & a2 & E2 & C12)] [R23 (c3 & a3 & E3 & C23)]. split.
  - eapply Forall2_trans; [|exact R12|exact R23]. intros x y z [u ->] [v ->]. exists (u ++ v). by rewrite app_assoc.
  - rewrite E2 in C23. apply Forall2_app_inv_l in C23 as (c3' & a3' & H1 & _ & ->).
    exists c3', (a3' ++ a3). split; [by rewrite E3, app_assoc|].
    eapply Forall2_trans; [|exact C12|exact H1]. intros x y z Hxy Hyz. by etrans.
Qed.

#[export] Instance kept_preorder : PreOrder kept.
Proof.
  split.
  - intros d. split; [|done]. intros name t Ht. exists t. split; [done|]. apply table_kept_refl.
  - intros d1 d2 d3 [T12 P12] [T23 P23]. split; [|by etrans].
    intros name t1 H1. destruct (T12 _ _ H1) as (t2 & H2 & K12). destruct (T23 _ _ H2) as (t3 & H3 & K23).
    exists t3. split; [done|]. by eapply table_kept_trans.
Qed.

Lemma set_table_kept name t' d :
  (forall t, tables_of d !! name = Some t -> table_kept t t') -> kept d (set_table name t' d).
Proof.
  intros Ht. split; [|done]. intros n t Hn. cbn. destruct (decide (n = name)) as [->|Hne].
  - exists t'. rewrite lookup_insert_eq. auto.
  - exists t. rewrite lookup_insert_ne by done. split; [done|]. apply table_kept_refl.
Qed.

Lemma same_tables_kept d d' : tables_of d' = tables_of d -> records d' = records d -> kept d d'.
Proof. intros Ht Hr. unfold kept. rewrite Ht, Hr. apply kept_preorder. Qed.

Definition rename_listed (st : statement) : bool :=
  match st with RenameColumn _ old new => bool_decide ((old, new) ∈ RENAMES) | _ => true end.

Lemma exec_kept st d d' : rename_listed st = true -> exec st d = Ok d' -> kept d d'.
Proof.
  intros Hr. destruct st as [name cols|name tbl cols|name tbl|tbl col v|tbl old new]; cbn [exec].
  - destruct (tables_of d !! name) eqn:E; intros [= <-]; [done|]. apply set_table_kept. intros t Ht. congruence.
  - case_bool_decide; [by intros [= <-]|]. destruct (tables_of d !! tbl); [|done].
    destruct (forallb _ _); [|done]. intros [= <-]. by apply same_tables_kept.
  - case_bool_decide; [by intros [= <-]|]. destruct (tables_of d !! tbl); [|done]. intros [= <-]. by apply same_tables_kept.
  - destruct (tables_of d !! tbl) as [t|] eqn:E; [|done]. destruct (str_in _ _); [done|]. intros [= <-].
    apply set_table_kept. intros t0 Ht0. assert (t0 = t) as -> by congruence. split; cbn.
    + induction (rows t) as [|r l IH]; cbn; constructor; [by exists [v]|done].
    + exists (columns t), [col]. split; [done|apply renamed_refl].
  - destruct (tables_of d !! tbl) as [t|] eqn:E; [|done]. destruct (_ && _); [|done]. intros [= <-].
    apply set_table_kept. intros t0 Ht0. assert (t0 = t) as -> by congruence. split; [apply (table_kept_refl t)|]. cbn.
    eexists _, []. rewrite app_nil_r. split; [done|]. apply bool_decide_eq_true_1 in Hr.
    induction (columns t) as [|c l IH]; cbn; constructor; [|done].
    destruct (String.eqb_spec c old) as [->|]; [by apply rtc_once|apply rtc_refl].
Qed.

Lemma record_kept m at_ d d' : record_migration m at_ d = Ok d' -> kept d d'.
Proof.
  unfold record_migration. destruct (recorded d) as [l|] eqn:E; [|done]. destruct (find_record _ _); [done|].
  intros [= <-]. split; cbn.
  - intros name t Ht. exists t. split; [done|]. apply table_kept_refl.
  - unfold records. rewrite E. cbn. by exists [{| mr_version := version m; mr_name := m_name m;
      mr_applied_at := at_; mr_checksum := checksum m |}].
Qed.

(** Both what the connection sees and what is on disk keep the rows of [d0]. *)
Definition both_kept (d0 : database) (s : connection) : Prop := kept d0 (current s) /\ kept d0 (disk s).

Section kept.
Context (fault : nat -> bool) (now : nat -> string) (error_text : string -> string).

Definition keeps_rows {A} (m : D A) : Prop := forall d0, triple (both_kept d0) m (fun _ => both_kept d0) (both_kept d0).

Lemma keeps_rows_bind {A B} (m : D A) (k : A -> D B) : keeps_rows m -> (forall a, keeps_rows (k a)) -> keeps_rows (bind m k).
Proof. intros Hm Hk d0. eapply triple_bind; [apply Hm|]. intros a. apply Hk. Qed.
Lemma keeps_rows_ret {A} (a : A) : keeps_rows (ret a).
Proof. intros d0. by apply triple_ret. Qed.
Lemma keeps_rows_raise {A} e : keeps_rows (mraise e : D A).
Proof. intros d0. by apply triple_raise. Qed.
Lemma keeps_rows_gets {A} (f : connection -> A) : keeps_rows (mgets f).
Proof. by intros d0 s. Qed.
Lemma keeps_rows_catch {A} (m : D A) (h : string -> D A) : keeps_rows m -> (forall e, keeps_rows (h e)) -> keeps_rows (mcatch m h).
Proof. intros Hm Hh d0. eapply triple_catch; [apply Hm|]. intros e. apply Hh. Qed.

Lemma write_keeps_rows f : (forall d d', f d = Ok d' -> kept d d') -> keeps_rows (write fault f).
Proof.
  intros Hf d0 s [Hc Hd]. unfold write. destruct (fault (clock s)); [by split|].
  destruct (f (current s)) as [d|e] eqn:E; [|by split]. apply Hf in E.
  assert (kept d0 d) by (by transitivity (current s)). split; cbn; [done|]. by destruct (in_transaction s).
Qed.

Lemma commit_keeps_rows : keeps_rows commit_changes.
Proof. intros d0 s [Hc Hd]. by split. Qed.
Lemma rollback_keeps_rows : keeps_rows rollback_changes.
Proof. intros d0 s [Hc Hd]. by split. Qed.
Lemma begin_keeps_rows : keeps_rows begin_immediate.
Proof. intros d0 s [Hc Hd]. unfold begin_immediate. destruct (in_transaction s); by split. Qed.
Lemma open_keeps_rows : keeps_rows open_transaction.
Proof. intros d0 s [Hc Hd]. by split. Qed.

Hint Resolve keeps_rows_ret keeps_rows_raise keeps_rows_gets commit_keeps_rows rollback_keeps_rows begin_keeps_rows
  open_keeps_rows : rows.

Lemma run_statements_keep l : forallb rename_listed l = true -> keeps_rows (run_statements fault l).
Proof.
  induction l as [|st l IH]; cbn; intros Hl; [auto with rows|]. apply andb_true_iff in Hl as [Hst Hl].
  apply keeps_rows_bind; [|intros _; by apply IH]. apply write_keeps_rows. intros d d'. by apply exec_kept.
Qed.

Lemma executescript_keeps l : forallb rename_listed l = true -> keeps_rows (executescript fault l).
Proof. intros Hl. apply keeps_rows_bind; [apply commit_keeps_rows|]. intros _. by apply run_statements_keep. Qed.

Lemma insert_record_keeps m mark : keeps_rows (insert_record fault now m mark).
Proof.
  unfold insert_record. apply keeps_rows_bind; [auto with rows|]. intros t. apply keeps_rows_bind; [auto with rows|]. intros _.
  apply keeps_rows_bind; [|auto with rows]. apply write_keeps_rows. intros d d'. apply record_kept.
Qed.

Lemma scripts_listed : forallb (fun m => forallb rename_listed (up_fn m)) ALL_MIGRATIONS = true.
Proof. vm_compute. reflexivity. Qed.

Lemma ensure_table_keeps : keeps_rows (ensure_migrations_table fault).
Proof.
  apply keeps_rows_bind; [|auto with rows]. apply write_keeps_rows. intros d d' [= <-]. apply same_tables_kept; [done|].
  unfold records. cbn. by destruct (recorded d).
Qed.

Lemma add_columns_keep cols have : keeps_rows (add_task_columns fault cols have).
Proof.
  induction cols as [|c cols IH]; cbn; [auto with rows|]. apply keeps_rows_bind; [|intros _; apply IH].
  destruct (str_in c have); [auto with rows|]. apply write_keeps_rows. intros d d'. by apply exec_kept.
Qed.

Lemma prepare_keeps : keeps_rows (prepare fault now).
Proof.
  unfold prepare. apply keeps_rows_bind; [apply keeps_rows_gets|]. intros [l|]; [auto with rows|].
  apply keeps_rows_bind; [apply keeps_rows_gets|]. intros legacy. apply keeps_rows_bind; [apply ensure_table_keeps|].
  intros _. destruct legacy; [|auto with rows]. apply keeps_rows_bind; [|intros []; auto with rows].
  unfold validate_and_backfill_legacy_v1. apply keeps_rows_bind; [apply keeps_rows_gets|]. intros [e|]; [auto with rows|].
  apply keeps_rows_bind; [apply keeps_rows_gets|]. intros tasks.
  apply keeps_rows_bind; [destruct tasks; [apply add_columns_keep|auto with rows]|]. intros _.
  apply keeps_rows_bind; [by apply executescript_keeps|]. intros _.
  apply keeps_rows_bind; [apply insert_record_keeps|]. auto with rows.
Qed.

Lemma apply_pending_keeps ms l r : forallb (fun m => forallb rename_listed (up_fn m)) ms = true ->
  keeps_rows (apply_pending fault now error_text ms l r).
Proof.
  induction ms as [|m ms IH] in r |- *; cbn; intros Hms; [auto with rows|]. apply andb_true_iff in Hms as [Hm Hms].
  destruct (find_record _ _); [by apply IH|]. apply keeps_rows_bind; [|intros [r' []]; cbn; [by apply IH|auto with rows]].
  apply keeps_rows_catch; [|intros e; apply keeps_rows_bind; auto with rows].
  apply keeps_rows_bind; [auto with rows|]. intros _. apply keeps_rows_bind; [by apply executescript_keeps|]. intros _.
  apply keeps_rows_bind; [apply insert_record_keeps|]. auto with rows.
Qed.

Lemma run_keeps_rows : keeps_rows (run_migrations fault now error_text).
Proof.
  unfold run_migrations. apply keeps_rows_bind; [apply prepare_keeps|]. intros [r|r]; [auto with rows|].
  apply keeps_rows_bind; [apply keeps_rows_gets|]. intros l. destruct (check_drift _ _ _); [auto with rows|].
  apply keeps_rows_bind; [apply apply_pending_keeps, scripts_listed|]. intros r'.
  apply keeps_rows_bind; [apply keeps_rows_gets|]. auto with rows.
Qed.

Lemma run_both_kept d n : both_kept d (run_migrations fault now error_text (opened d n)).2.
Proof.
  pose proof (run_keeps_rows d (opened d n)) as Hrun. destruct (run_migrations _ _ _ _) as [[r|e] s2]; by apply Hrun.
Qed.

(** C25: Migrating never loses data: whatever fails on the way, and whether the
    run succeeds, stops at an error or is interrupted by an exception, every
    table is still there afterwards with the same rows in the same order, each
    row extended by new cells only, its columns the same up to the two
    documented renames, and every recorded migration is still recorded. *)
Theorem migration_keeps_rows d n :
  let s' := (run_migrations fault now error_text (opened d n)).2 in
  kept d (disk s') /\ kept d (current s').
Proof. intros s'. destruct (run_both_kept d n) as [Hc Hd]. by split. Qed.
End kept.

(** ** A finished run *)

Definition has_record (m : Migration) (d : database) : Prop :=
  exists row, find_record (version m) (records d) = Some row /\ mr_checksum row = checksum m.

Definition up_to_date (d : database) : Prop := Forall (fun m => has_record m d) ALL_MIGRATIONS.

(** Nothing is pending on the connection. *)
Definition settled (s : connection) : Prop := disk s = current s /\ in_transaction s = false.

Lemma settled_opened s : settled s -> s = opened (current s) (clock s).
Proof. destruct s as [c d t n]. unfold settled, opened. cbn. by intros [-> ->]. Qed.

Lemma has_record_kept m d d' : kept d d' -> has_record m d -> has_record m d'.
Proof.
  intros [_ [l Hl]] (row & Hf & Hc). exists row. split; [|done]. unfold find_record in *. rewrite Hl, find_first_app.
  by rewrite Hf.
Qed.

Section finished.
Context (fault : nat -> bool) (now : nat -> string) (error_text : string -> string).

Lemma run_statements_settled l s : settled s -> settled (run_statements fault l s).2.
Proof.
  induction l as [|st l IH] in s |- *; cbn; intros Hs; [done|]. unfold bind, write. destruct Hs as [Hd Ht].
  destruct (fault (clock s)); [by split|]. destruct (exec st (current s)) as [d|e]; [|by split].
  apply IH. rewrite Ht. by split.
Qed.

Lemma insert_record_spec m mark s :
  settled s ->
  match insert_record fault now m mark s with
  | (Ok _, s') => settled s' /\ has_record m (current s')
  | (Err _, s') => disk s' = disk s
  end.
Proof.
  intros [Hd Ht]. unfold insert_record, open_transaction, write, bind, mgets, mmodify. cbn.
  destruct (fault (clock s)); [done|]. unfold record_migration. destruct (recorded (current s)) as [l|] eqn:El; [|done].
  destruct (find_record (version m) l) eqn:Ef; [done|]. cbn. split; [done|].
  exists {| mr_version := version m; mr_name := m_name m; mr_applied_at := now (clock s) +:+ mark; mr_checksum := checksum m |}.
  split; [|done]. unfold records, find_record in *. cbn. rewrite find_first_app, Ef. cbn. by rewrite Z.eqb_refl.
Qed.

Lemma apply_one_spec m r s :
  settled s ->
  match apply_one fault now error_text m r s with
  | (Ok (r', true), s') => r' = with_applied (version m) r /\ settled s' /\ has_record m (current s')
  | (Ok (r', false), s') => errors r' <> [] /\ settled s'
  | (Err _, _) => False
  end.
Proof.
  intros Hs. unfold apply_one, mcatch. assert (forall s', settled (rollback_changes s').2) as Hroll by by split.
  assert (forall e s', match (rollback_changes ;;; ret (with_error e r, false)) s' with
    | (Ok (r', true), s'') => r' = with_applied (version m) r /\ settled s'' /\ has_record m (current s'')
    | (Ok (r', false), s'') => errors r' <> [] /\ settled s'' | (Err _, _) => False end) as Hfail.
  { intros e s'. cbn. split; [|by split]. by destruct (errors r). }
  destruct Hs as [Hd Ht]. unfold begin_immediate, bind at 1. rewrite Ht.
  unfold executescript, commit_changes, bind at 1, bind at 1, mmodify. cbn [current disk in_transaction clock].
  match goal with |- context [run_statements fault (up_fn m) ?s1] => pose proof (run_statements_settled (up_fn m) s1) as Hrun end.
  destruct (run_statements _ _ _) as [[u|e] s2]; [|apply Hfail].
  assert (settled s2) as Hs2 by by apply Hrun.
  pose proof (insert_record_spec m "" s2 Hs2) as Hins. unfold bind.
  destruct (insert_record _ _ _ _ _) as [[u'|e] s3]; [by destruct Hins|apply Hfail].
Qed.

Lemma errors_applied v r : errors (with_applied v r) = errors r.
Proof. done. Qed.

Lemma apply_pending_spec ms l r s :
  forallb (fun m => forallb rename_listed (up_fn m)) ms = true ->
  settled s -> (forall m, m ∈ ms -> find_record (version m) l <> None -> has_record m (current s)) ->
  match apply_pending fault now error_text ms l r s with
  | (Ok r', s') => settled s' /\ (errors r' = [] -> Forall (fun m => has_record m (current s')) ms)
  | (Err _, _) => False
  end.
Proof.
  induction ms as [|m ms IH] in r, s |- *; cbn; intros Hl Hs Hin; [by split|]. apply andb_true_iff in Hl as [Hm Hl].
  assert (forall r1 s1, settled s1 -> kept (current s) (current s1) -> has_record m (current s1) ->
    match apply_pending fault now error_text ms l r1 s1 with
    | (Ok r', s') => settled s' /\ (errors r' = [] -> Forall (fun m => has_record m (current s')) (m :: ms))
    | (Err _, _) => False end) as Hrest.
  { intros r1 s1 Hs1 Hk Hrec.
    assert (forall m', m' ∈ ms -> find_record (version m') l <> None -> has_record m' (current s1)) as Hin1.
    { intros m' Hm' Hf. eapply has_record_kept; [exact Hk|]. apply Hin; [by right|done]. }
    specialize (IH r1 s1 Hl Hs1 Hin1).
    pose proof (apply_pending_keeps fault now error_text ms l r1 Hl (current s1) s1) as Hkeep.
    destruct (apply_pending _ _ _ _ _ _ _) as [[r'|e] s2]; [|done]. destruct IH as [Hs2 IH]. split; [done|].
    intros He. constructor; [|by apply IH]. eapply has_record_kept; [|exact Hrec].
    apply Hkeep. split; [done|]. by destruct Hs1 as [-> _]. }
  destruct (find_record (version m) l) eqn:Ef; [apply Hrest; [done|done|apply Hin; [by left|by rewrite Ef]]|].
  unfold bind. pose proof (apply_one_spec m r s Hs) as Hone.
  assert (keeps_rows (apply_one fault now error_text m r)) as Hkeep.
  { apply keeps_rows_catch; [|intros e; apply keeps_rows_bind; [apply rollback_keeps_rows|intros _; apply keeps_rows_ret]].
    apply keeps_rows_bind; [apply begin_keeps_rows|]. intros _. apply keeps_rows_bind; [by apply executescript_keeps|].
    intros _. apply keeps_rows_bind; [apply insert_record_keeps|]. intros _. apply keeps_rows_ret. }
  specialize (Hkeep (current s) s). destruct (apply_one _ _ _ _ _ _) as [[[r' []]|e] s1]; cbn [fst snd]; [| |done].
  - destruct Hone as (-> & Hs1 & Hrec). apply Hrest; [done| |done]. apply Hkeep. split; [done|]. by destruct Hs as [-> _].
  - destruct Hone as [He Hs1]. by split.
Qed.
End finished.

Section final.
Context (fault : nat -> bool) (now : nat -> string) (error_text : string -> string).

(** A run that returns leaves the connection settled. *)
Definition settles {A} (m : D A) : Prop := triple settled m (fun _ => settled) (fun _ => True).

Lemma settles_bind {A B} (m : D A) (k : A -> D B) : settles m -> (forall a, settles (k a)) -> settles (bind m k).
Proof. intros Hm Hk. eapply triple_bind; [apply Hm|]. intros a. apply Hk. Qed.
Lemma settles_ret {A} (a : A) : settles (ret a).
Proof. by apply triple_ret. Qed.
Lemma settles_gets {A} (f : connection -> A) : settles (mgets f).
Proof. by intros s. Qed.
Lemma settles_write f : settles (write fault f).
Proof.
  intros s [Hd Ht]. unfold write. destruct (fault (clock s)); [done|]. destruct (f (current s)); [|done]. rewrite Ht. by split.
Qed.
Lemma settles_commit : settles commit_changes.
Proof. by intros s _. Qed.

Lemma add_columns_settle cols have : settles (add_task_columns fault cols have).
Proof.
  induction cols as [|c cols IH]; cbn; [apply settles_ret|]. apply settles_bind; [|intros _; apply IH].
  destruct (str_in c have); [apply settles_ret|apply settles_write].
Qed.

Lemma run_statements_settle l : settles (run_statements fault l).
Proof.
  induction l as [|st l IH]; [apply settles_ret|]. apply settles_bind; [apply settles_write|]. intros _. apply IH.
Qed.

Lemma insert_record_settles m mark : settles (insert_record fault now m mark).
Proof.
  intros s Hs. pose proof (insert_record_spec fault now m mark s Hs) as H.
  destruct (insert_record _ _ _ _ s) as [[u|e] s']; [by destruct H|done].
Qed.

Lemma prepare_settles : settles (prepare fault now).
Proof.
  unfold prepare. apply settles_bind; [apply settles_gets|]. intros [l|]; [apply settles_ret|].
  apply settles_bind; [apply settles_gets|]. intros legacy.
  apply settles_bind; [apply settles_bind; [apply settles_write|intros _; apply settles_commit]|]. intros _.
  destruct legacy; [|apply settles_ret]. apply settles_bind; [|intros []; apply settles_ret].
  unfold validate_and_backfill_legacy_v1. apply settles_bind; [apply settles_gets|]. intros [e|]; [apply settles_ret|].
  apply settles_bind; [apply settles_gets|]. intros tasks.
  apply settles_bind; [destruct tasks; [apply add_columns_settle|apply settles_ret]|]. intros _.
  apply settles_bind; [apply settles_bind; [apply settles_commit|intros _; apply run_statements_settle]|]. intros _.
  apply settles_bind; [apply insert_record_settles|]. intros _. apply settles_ret.
Qed.

Lemma prepare_inr s r s' : prepare fault now s = (Ok (inr r), s') -> errors r = [].
Proof.
  unfold prepare, bind, look, mgets. destruct (recorded (current s)); [by intros [= <- <-]|].
  destruct (ensure_migrations_table fault s) as [[u|e] s1]; [|done]. destruct (has_legacy_tables (current s)); [|by intros [= <- <-]].
  destruct (validate_and_backfill_legacy_v1 _ _ _ _) as [[[p|]|e] s2]; [done|by intros [= <- <-]|done].
Qed.

Lemma check_drift_inl ms l r r' : check_drift ms l r = inl r' -> errors r' <> [].
Proof.
  induction ms as [|m ms IH] in r |- *; [done|]. cbn. destruct (find_record _ _) as [row|]; [|apply IH].
  destruct (String.eqb _ _); [apply IH|]. intros [= <-]. cbn. by destruct (errors r).
Qed.

Lemma check_drift_inr ms l r r' :
  check_drift ms l r = inr r' ->
  errors r' = errors r /\
  forall m row, m ∈ ms -> find_record (version m) l = Some row -> mr_checksum row = checksum m.
Proof.
  induction ms as [|m ms IH] in r |- *; cbn; [intros [= ->]; split; [done|]; intros m row Hm; by apply not_elem_of_nil in Hm|].
  destruct (find_record (version m) l) as [row|] eqn:Ef.
  - destruct (String.eqb_spec (mr_checksum row) (checksum m)) as [Ec|]; [|done]. intros Hd. apply IH in Hd as [He Hc].
    split; [rewrite He; by case_bool_decide|]. intros m' row' [->|Hm]%elem_of_cons Hf; [congruence|by eapply Hc].
  - intros Hd. apply IH in Hd as [He Hc]. split; [done|]. intros m' row' [->|Hm]%elem_of_cons Hf; [congruence|by eapply Hc].
Qed.

Lemma check_drift_done ms l r :
  applied r = [] ->
  (forall m, m ∈ ms -> exists row, find_record (version m) l = Some row /\ mr_checksum row = checksum m) ->
  check_drift ms l r = inr (foldl (fun r m => with_skipped (version m) r) r ms).
Proof.
  induction ms as [|m ms IH] in r |- *; intros Ha Hm; [done|]. cbn. destruct (Hm m ltac:(by left)) as (row & -> & ->).
  rewrite String.eqb_refl, Ha. rewrite bool_decide_eq_false_2 by apply not_elem_of_nil.
  apply IH; [done|]. intros m' Hm'. apply Hm. by right.
Qed.

Lemma apply_pending_done ms l r s :
  (forall m, m ∈ ms -> find_record (version m) l <> None) -> apply_pending fault now error_text ms l r s = (Ok r, s).
Proof.
  induction ms as [|m ms IH]; intros Hm; [done|]. cbn. destruct (find_record _ _) eqn:Ef; [|exfalso; by apply (Hm m ltac:(by left))].
  apply IH. intros m' Hm'. apply Hm. by right.
Qed.

(** What a run over an up-to-date database reports. *)
Definition nothing_to_do (d : database) : MigrationReport :=
  {| applied := []; skipped := map version ALL_MIGRATIONS; starting_version := max_version (records d);
     ending_version := max_version (records d); errors := [] |}.

Lemma up_to_date_run d n :
  up_to_date d -> run_migrations fault now error_text (opened d n) = (Ok (nothing_to_do d), opened d n).
Proof.
  intros Hd. assert (forall m, m ∈ ALL_MIGRATIONS ->
    exists row, find_record (version m) (records d) = Some row /\ mr_checksum row = checksum m) as Hm.
  { intros m Hin. unfold up_to_date in Hd. rewrite Forall_forall in Hd. by apply Hd. }
  unfold run_migrations, prepare, bind, look, mgets. cbn [current opened].
  destruct (recorded d) as [l|] eqn:El.
  - cbn [ret current opened]. unfold ret. cbn [current opened]. rewrite check_drift_done by done.
    rewrite apply_pending_done; [done|]. intros m Hin. destruct (Hm m Hin) as (row & -> & _). done.
  - destruct (Hm migration_1 ltac:(by left)) as (row & Hf & _). unfold records in Hf. by rewrite El in Hf.
Qed.
End final.

Section rerun.
Context (fault fault' : nat -> bool) (now now' : nat -> string) (error_text error_text' : string -> string).

Lemma finished_run d n r s' :
  run_migrations fault now error_text (opened d n) = (Ok r, s') -> errors r = [] ->
  settled s' /\ up_to_date (current s').
Proof.
  intros Hrun He.
  revert Hrun. unfold run_migrations, bind.
  pose proof (prepare_settles fault now (opened d n) ltac:(by split)) as Hset.
  destruct (prepare fault now (opened d n)) as [[[r0|r0]|e] s1] eqn:Ep; [| |done].
  - intros [= <- <-]. exfalso. revert Ep. unfold prepare, bind, look, mgets.
    destruct (recorded _); [done|]. destruct (ensure_migrations_table _ _) as [[u|e] s2]; [|done].
    destruct (has_legacy_tables _); [|done]. destruct (validate_and_backfill_legacy_v1 _ _ _ _) as [[[p|]|e] s3]; [|done|done].
    intros [= <- _]. done.
  - apply prepare_inr in Ep. unfold look at 1, mgets. cbv beta iota. destruct (check_drift _ _ _) as [r1|r1] eqn:Ec.
    { intros [= <- <-]. by apply check_drift_inl in Ec. }
    apply check_drift_inr in Ec as [Er Hc].
    assert (forall m, m ∈ ALL_MIGRATIONS -> find_record (version m) (records (current s1)) <> None ->
      has_record m (current s1)) as Hin.
    { intros m Hm Hf. destruct (find_record (version m) (records (current s1))) as [row|] eqn:Ef; [|done].
      exists row. split; [done|]. by eapply Hc. }
    pose proof (apply_pending_spec fault now error_text ALL_MIGRATIONS _ r1 s1 scripts_listed Hset Hin) as Hap.
    destruct (apply_pending _ _ _ _ _ _ _) as [[r2|e] s2]; [|done]. destruct Hap as [Hs2 Hall].
    intros [= <- <-]. split; [done|]. apply Hall. exact He.
Qed.

(** A run that reports no error is final: every migration is recorded with
    the checksum of its script, everything is on disk, and any later run, even
    one whose every write would fail, applies nothing, changes nothing and
    reports no error. *)
Theorem finished_run_is_final d n r s' n' :
  run_migrations fault now error_text (opened d n) = (Ok r, s') -> errors r = [] ->
  disk s' = current s' /\ up_to_date (disk s') /\
  run_migrations fault' now' error_text' (opened (disk s') n') = (Ok (nothing_to_do (disk s')), opened (disk s') n').
Proof.
  intros Hrun He. destruct (finished_run d n r s' Hrun He) as [[Hd Ht] Hu]. split; [done|]. rewrite Hd. split; [done|].
  by apply up_to_date_run.
Qed.
End rerun.

(** ** Supported profiles migrate *)

Definition never (n : nat) : bool := false.

Fixpoint exec_all (l : list statement) (d : database) : result string database :=
  match l with
  | [] => Ok d
  | st :: rest => let? d' := exec st d in exec_all rest d'
  end.

Definition target (st : statement) : string :=
  match st with
  | CreateTable name _ => name
  | CreateIndex _ tbl _ | CreateTrigger _ tbl | AddColumn tbl _ _ | RenameColumn tbl _ _ => tbl
  end.

Definition later_script : list statement := concat (map up_fn later_migrations).

(** The tables the migrations after the first build. *)
Definition latest_tables : gmap string table :=
  match exec_all later_script empty_database with Ok d => tables_of d | Err _ => ∅ end.

(** A new profile, or a legacy one the checks let through. *)
Definition supported (d : database) : Prop := recorded d = None /\ unsupported_legacy d = None.

Lemma exec_all_app l1 l2 d : exec_all (l1 ++ l2) d = (let? d' := exec_all l1 d in exec_all l2 d').
Proof. induction l1 as [|st l1 IH] in d |- *; cbn; [done|]. destruct (exec st d); cbn; [apply IH|done]. Qed.

(** What a statement does to its table does not depend on the other tables. *)
Lemma exec_frame st d d' big (f : gmap string table) :
  exec st d = Ok d' -> f !! target st = None ->
  tables_of big = tables_of d ∪ f -> objects d ⊆ objects big ->
  exists big', exec st big = Ok big' /\ tables_of big' = tables_of d' ∪ f /\ objects d' ⊆ objects big'.
Proof.
  intros He Hf Ht Ho. assert (tables_of big !! target st = tables_of d !! target st) as Hl.
  { rewrite Ht. destruct (tables_of d !! target st) eqn:E; [by apply lookup_union_Some_l|].
    rewrite lookup_union_r by done. done. }
  destruct st as [name cols|name tbl cols|name tbl|tbl col v|tbl old new]; cbn [exec target] in *; rewrite Hl.
  - destruct (tables_of d !! name) eqn:E; injection He as <-; eexists; (split; [done|]); (split; [|done]); [done|].
    cbn. by rewrite Ht, insert_union_l.
  - case_bool_decide as Hd; [injection He as <-; rewrite bool_decide_eq_true_2 by set_solver; by eexists|].
    destruct (tables_of d !! tbl) as [t|]; [|done]. destruct (forallb _ _); [|done]. injection He as <-.
    case_bool_decide; eexists; (split; [done|]); (split; [done|]); cbn; set_solver.
  - case_bool_decide as Hd; [injection He as <-; rewrite bool_decide_eq_true_2 by set_solver; by eexists|].
    destruct (tables_of d !! tbl) as [t|]; [|done]. injection He as <-.
    case_bool_decide; eexists; (split; [done|]); (split; [done|]); cbn; set_solver.
  - destruct (tables_of d !! tbl) as [t|]; [|done]. destruct (str_in _ _); [done|]. injection He as <-.
    eexists. split; [done|]. split; [|done]. cbn. by rewrite Ht, insert_union_l.
  - destruct (tables_of d !! tbl) as [t|]; [|done]. destruct (_ && _); [|done]. injection He as <-.
    eexists. split; [done|]. split; [|done]. cbn. by rewrite Ht, insert_union_l.
Qed.

Lemma exec_all_frame l d d' big (f : gmap string table) :
  exec_all l d = Ok d' -> (forall st, st ∈ l -> f !! target st = None) ->
  tables_of big = tables_of d ∪ f -> objects d ⊆ objects big ->
  exists big', exec_all l big = Ok big' /\ tables_of big' = tables_of d' ∪ f.
Proof.
  induction l as [|st l IH] in d, big |- *; cbn; intros He Hf Ht Ho; [injection He as <-; by exists big|].
  destruct (exec st d) as [d1|] eqn:E1; [|done]. cbn in He.
  destruct (exec_frame _ _ _ big f E1 (Hf st ltac:(by left)) Ht Ho) as (big1 & -> & Ht1 & Ho1). cbn.
  apply (IH d1); [done| |done|done]. intros st' Hst. apply Hf. by right.
Qed.

Lemma exec_recorded st d d' x :
  exec st d = Ok d' ->
  exec st {| tables_of := tables_of d; objects := objects d; recorded := x |}
  = Ok {| tables_of := tables_of d'; objects := objects d'; recorded := x |} /\ recorded d' = recorded d.
Proof.
  destruct st as [name cols|name tbl cols|name tbl|tbl col v|tbl old new]; cbn [exec tables_of objects].
  - destruct (tables_of d !! name); by intros [= <-].
  - case_bool_decide; [by intros [= <-]|]. destruct (tables_of d !! tbl); [|done]. destruct (forallb _ _); [|done].
    by intros [= <-].
  - case_bool_decide; [by intros [= <-]|]. destruct (tables_of d !! tbl); [|done]. by intros [= <-].
  - destruct (tables_of d !! tbl); [|done]. destruct (str_in _ _); [done|]. by intros [= <-].
  - destruct (tables_of d !! tbl); [|done]. destruct (_ && _); [|done]. by intros [= <-].
Qed.

Lemma exec_all_recorded l d d' x :
  exec_all l d = Ok d' ->
  exec_all l {| tables_of := tables_of d; objects := objects d; recorded := x |}
  = Ok {| tables_of := tables_of d'; objects := objects d'; recorded := x |} /\ recorded d' = recorded d.
Proof.
  induction l as [|st l IH] in d |- *; cbn; [by intros [= <-]|]. destruct (exec st d) as [d1|] eqn:E1; [|done]. cbn.
  destruct (exec_recorded _ _ _ x E1) as [-> R1]. cbn. intros He. destruct (IH _ He) as [-> R2]. split; [done|congruence].
Qed.

Section success.
Context (now : nat -> string) (error_text : string -> string).

Lemma run_statements_run l d d' n : exec_all l d = Ok d' ->
  exists n', run_statements never l (opened d n) = (Ok tt, opened d' n').
Proof.
  induction l as [|st l IH] in d, n |- *; cbn; [intros [= <-]; by exists n|].
  destruct (exec st d) as [d1|] eqn:E1; [|done]. cbn. intros He. unfold bind, write. cbn. rewrite E1. by apply IH.
Qed.

Lemma insert_record_run m mark d n l : recorded d = Some l -> find_record (version m) l = None ->
  exists n' row, insert_record never now m mark (opened d n)
    = (Ok tt, opened {| tables_of := tables_of d; objects := objects d; recorded := Some (l ++ [row]) |} n') /\
    mr_version row = version m /\ mr_checksum row = checksum m.
Proof.
  intros Hr Hf. unfold insert_record, open_transaction, write, bind, mgets, mmodify, commit_changes. cbn.
  unfold record_migration. rewrite Hr, Hf. cbn. by eexists _, _.
Qed.

Lemma apply_one_run m r d d' n l : recorded d = Some l -> find_record (version m) l = None ->
  exec_all (up_fn m) d = Ok d' ->
  exists n' row, apply_one never now error_text m r (opened d n)
    = (Ok (with_applied (version m) r, true),
       opened {| tables_of := tables_of d'; objects := objects d'; recorded := Some (l ++ [row]) |} n') /\
    mr_version row = version m.
Proof.
  intros Hr Hf He. destruct (exec_all_recorded _ _ _ None He) as [_ Hr']. rewrite Hr in Hr'.
  destruct (run_statements_run (up_fn m) d d' n He) as [n1 Hrun].
  destruct (insert_record_run m "" d' n1 l Hr' Hf) as (n2 & row & Hins & Hv & _). exists n2, row. split; [|done].
  unfold apply_one, mcatch, begin_immediate, executescript, commit_changes, mmodify, bind.
  cbn [in_transaction opened current disk clock]. fold (opened d n).
  by rewrite Hrun, Hins.
Qed.

Lemma find_record_last v l row : mr_version row <> v -> find_record v l = None -> find_record v (l ++ [row]) = None.
Proof.
  intros Hv Hl. unfold find_record in *. rewrite find_first_app, Hl. cbn. by rewrite (proj2 (Z.eqb_neq _ _) Hv).
Qed.

Lemma apply_pending_run ms l0 r d d' n l :
  NoDup (map version ms) -> (forall m, m ∈ ms -> find_record (version m) l0 = None) ->
  recorded d = Some l -> (forall m, m ∈ ms -> find_record (version m) l = None) ->
  exec_all (concat (map up_fn ms)) d = Ok d' ->
  exists r' s', apply_pending never now error_text ms l0 r (opened d n) = (Ok r', s') /\
    settled s' /\ tables_of (current s') = tables_of d' /\
    errors r' = errors r /\ applied r' = applied r ++ map version ms.
Proof.
  induction ms as [|m ms IH] in r, d, d', n, l |- *; cbn [apply_pending map concat]; intros Hn H0 Hr Hl He.
  { injection He as <-. exists r, (opened d n). by rewrite app_nil_r. }
  rewrite (H0 m) by left. rewrite exec_all_app in He. destruct (exec_all (up_fn m) d) as [d1|] eqn:E1; [|done]. cbn in He.
  destruct (apply_one_run m r d d1 n l Hr (Hl m ltac:(by left)) E1) as (n1 & row & Hone & Hv).
  unfold bind. rewrite Hone. cbn [fst snd]. apply NoDup_cons in Hn as [Hm Hn].
  destruct (exec_all_recorded _ _ _ (Some (l ++ [row])) He) as [He' _].
  destruct (IH (with_applied (version m) r) {| tables_of := tables_of d1; objects := objects d1; recorded := Some (l ++ [row]) |}
    {| tables_of := tables_of d'; objects := objects d'; recorded := Some (l ++ [row]) |} n1 (l ++ [row]) Hn) as (r' & s' & Hrun & Hs & Ht & Hx & Ha); [| | |exact He'|].
  - intros m' Hm'. apply H0. by right.
  - done.
  - intros m' Hm'. apply find_record_last; [|apply Hl; by right]. rewrite Hv. intros Heq. destruct Hm. rewrite Heq.
    apply list_elem_of_fmap. by exists m'.
  - exists r', s'. split; [done|]. split; [done|]. split; [done|]. split; [done|]. rewrite Ha.
    cbn [with_applied applied]. by rewrite <- app_assoc.
Qed.

Lemma columns_exec_ok cols : forall t d n, tables_of d !! "tasks" = Some t -> NoDup cols ->
  exists d' n', add_task_columns never cols (columns t) (opened d n) = (Ok tt, opened d' n') /\
    recorded d' = recorded d /\ (forall name, name <> "tasks" -> tables_of d' !! name = tables_of d !! name) /\
    is_Some (tables_of d' !! "tasks").
Proof.
  intros t d n Ht Hn. assert (forall have t1 d1 n1, tables_of d1 !! "tasks" = Some t1 ->
    (forall c, c ∈ cols -> str_in c have = false -> str_in c (columns t1) = false) ->
    exists d' n', add_task_columns never cols have (opened d1 n1) = (Ok tt, opened d' n') /\
      recorded d' = recorded d1 /\ (forall name, name <> "tasks" -> tables_of d' !! name = tables_of d1 !! name) /\
      is_Some (tables_of d' !! "tasks")) as Hgen.
  { clear t d n Ht. induction cols as [|c cols IH]; intros have t1 d1 n1 H1 Hc; cbn [add_task_columns].
    - exists d1, n1. split; [done|]. split; [done|]. split; [done|]. by eexists.
    - apply NoDup_cons in Hn as [Hnc Hn]. destruct (str_in c have) eqn:Eh.
      + apply (IH Hn have t1 d1 n1 H1). intros c' Hc'. apply Hc. by right.
      + unfold bind at 1, write at 1. cbn [clock opened never current exec in_transaction]. rewrite H1, (Hc c) by (done || by left).
        cbn iota beta. edestruct (IH Hn have {| columns := columns t1 ++ [c]; rows := map (fun r => r ++ [JNull]) (rows t1) |}
          (set_table "tasks" {| columns := columns t1 ++ [c]; rows := map (fun r => r ++ [JNull]) (rows t1) |} d1) (S n1))
          as (d' & n' & Hrun & Hr & Ho & Hs).
        * cbn. by rewrite lookup_insert_eq.
        * intros c' Hc' Hh. cbn. unfold str_in. rewrite existsb_app. cbn. apply orb_false_iff. split.
          -- apply Hc; [by right|done].
          -- rewrite orb_false_r. apply String.eqb_neq. intros ->. done.
        * exists d', n'. split; [exact Hrun|]. split; [by rewrite Hr|]. split; [|done].
          intros name Hname. rewrite Ho by done. cbn. by rewrite lookup_insert_ne. }
  by apply (Hgen (columns t) t d n).
Qed.

(** The first script only creates what is missing. *)
Lemma create_only l d : (forall st, st ∈ l -> exists name cols, st = CreateTable name cols) ->
  exists d', exec_all l d = Ok d' /\ recorded d' = recorded d /\
    (forall name, name ∉ map target l -> tables_of d' !! name = tables_of d !! name) /\
    (forall name, name ∈ map target l -> is_Some (tables_of d' !! name)) /\
    (forall name, is_Some (tables_of d !! name) -> is_Some (tables_of d' !! name)).
Proof.
  induction l as [|st l IH] in d |- *; intros Hl.
  { exists d. split; [done|]. split; [done|]. split; [done|]. split; [|done]. intros name H. by apply not_elem_of_nil in H. }
  destruct (Hl st ltac:(by left)) as (name & cols & ->).
  assert (exists d1, exec (CreateTable name cols) d = Ok d1 /\ recorded d1 = recorded d /\
    (forall x, x <> name -> tables_of d1 !! x = tables_of d !! x) /\ is_Some (tables_of d1 !! name) /\
    (forall x, is_Some (tables_of d !! x) -> is_Some (tables_of d1 !! x))) as (d1 & E1 & R1 & O1 & S1 & K1).
  { cbn. destruct (tables_of d !! name) as [t|] eqn:E.
    - exists d. by split_and!; rewrite ?E.
    - eexists. split; [done|]. split; [done|]. split; [intros x Hx; cbn; by rewrite lookup_insert_ne|].
      split; [cbn; by rewrite lookup_insert_eq|]. intros x Hx. cbn. destruct (decide (x = name)) as [->|];
        [by rewrite lookup_insert_eq|by rewrite lookup_insert_ne]. }
  destruct (IH d1) as (d' & E' & R' & O' & S' & K'); [intros st Hst; apply Hl; by right|].
  exists d'. cbn [exec_all map target]. rewrite E1. cbn. split; [done|]. split; [congruence|]. split; [|split].
  - intros x Hx. apply not_elem_of_cons in Hx as [Hx1 Hx2]. rewrite O' by done. by apply O1.
  - intros x Hx. apply elem_of_cons in Hx as [->|Hx]; [by apply K'|by apply S'].
  - intros x Hx. by apply K', K1.
Qed.

Lemma later_script_ok : match exec_all later_script empty_database with Ok _ => true | Err _ => false end = true.
Proof. vm_compute. reflexivity. Qed.

Lemma later_script_runs : exists d, exec_all later_script empty_database = Ok d.
Proof. pose proof later_script_ok as H. destruct (exec_all _ _) as [d|]; [by exists d|discriminate]. Qed.

Definition new_name (name : string) : bool := negb (startswith "sqlite_" name || str_in name ALLOWED_V1_TABLES).

Lemma later_targets_new : forallb (fun st => new_name (target st)) later_script = true.
Proof. vm_compute. reflexivity. Qed.

Lemma baseline_creates : forallb (fun st => match st with CreateTable _ _ => true | _ => false end) up_0001 = true.
Proof. vm_compute. reflexivity. Qed.

Lemma baseline_known name : name ∈ map target up_0001 -> new_name name = false.
Proof. intros H. apply (list_elem_of_In) in H. cbn in H. intuition (subst; vm_compute; reflexivity). Qed.

(** The first script and the later ones on a database without new names. *)
Lemma scripts_run d :
  (forall name, new_name name = true -> tables_of d !! name = None) ->
  exists d1 d2, exec_all up_0001 d = Ok d1 /\ recorded d1 = recorded d /\ exec_all later_script d1 = Ok d2 /\
    (forall name t, latest_tables !! name = Some t -> tables_of d2 !! name = Some t) /\
    (forall name, name ∈ map target up_0001 -> is_Some (tables_of d2 !! name)).
Proof.
  intros Hnew. destruct (create_only up_0001 d) as (d1 & E1 & R1 & O1 & S1 & _).
  { pose proof baseline_creates as Hb. rewrite forallb_forall in Hb. intros st Hst.
    specialize (Hb st (proj1 (list_elem_of_In _ _) Hst)). destruct st; try done. by eexists _, _. }
  destruct later_script_runs as [dl El]. destruct (exec_all_frame later_script empty_database dl d1 (tables_of d1) El) as (d2 & E2 & T2).
  - intros st Hst. pose proof later_targets_new as Ht. rewrite forallb_forall in Ht.
    specialize (Ht st (proj1 (list_elem_of_In _ _) Hst)). rewrite O1; [by apply Hnew|]. intros Hin.
    apply baseline_known in Hin. congruence.
  - cbn. by rewrite (left_id_L ∅ (∪)).
  - apply empty_subseteq.
  - exists d1, d2. split; [done|]. split; [done|]. split; [done|]. unfold latest_tables. rewrite El, T2. split.
    + intros name t Ht. by apply lookup_union_Some_l.
    + intros name Hn. destruct (S1 name Hn) as [t Ht]. destruct (tables_of dl !! name) as [t'|] eqn:E.
      * exists t'. by apply lookup_union_Some_l.
      * exists t. by rewrite lookup_union_r.
Qed.

Lemma supported_names d name : unsupported_legacy d = None -> new_name name = true -> tables_of d !! name = None.
Proof.
  unfold unsupported_legacy. intros Hu Hn. destruct (tables_of d !! name) as [t|] eqn:E; [|done].
  destruct (extra_tables d) as [|x l] eqn:Ex; [|done]. exfalso.
  assert (In name (extra_tables d)) as Hin; [|by rewrite Ex in Hin].
  apply filter_In. split; [|done]. apply list_elem_of_In, list_elem_of_fmap. exists (name, t).
  split; [done|]. by apply elem_of_map_to_list.
Qed.

Lemma check_drift_unrecorded ms l r :
  (forall m, m ∈ ms -> find_record (version m) l = None) -> check_drift ms l r = inr r.
Proof.
  induction ms as [|m ms IH]; intros Hm; [done|]. cbn [check_drift]. rewrite (Hm m) by left. apply IH.
  intros m' Hm'. apply Hm. by right.
Qed.

Lemma all_versions : map version ALL_MIGRATIONS = [1; 2; 3; 4; 5; 6; 7; 8; 9]%Z.
Proof. reflexivity. Qed.

Lemma versions_distinct ms : ms = ALL_MIGRATIONS \/ ms = later_migrations -> NoDup (map version ms).
Proof. intros [->| ->]; vm_compute; repeat constructor; set_solver. Qed.

Lemma later_versions m : m ∈ later_migrations -> version m <> 1%Z.
Proof.
  intros Hm. assert (forallb (fun m => negb (version m =? 1)%Z) later_migrations = true) as Hf by (vm_compute; reflexivity).
  rewrite forallb_forall in Hf. apply list_elem_of_In in Hm. specialize (Hf m Hm). apply negb_true_iff in Hf.
  by apply Z.eqb_neq.
Qed.

(** What a finished migration must have made of the database. *)
Definition migrated (r : MigrationReport) (s : connection) : Prop :=
  errors r = [] /\ applied r = [1; 2; 3; 4; 5; 6; 7; 8; 9]%Z /\ disk s = current s /\
  (forall name t, latest_tables !! name = Some t -> tables_of (disk s) !! name = Some t) /\
  (forall name, name ∈ map target up_0001 -> is_Some (tables_of (disk s) !! name)).

Lemma fresh_migrates d n :
  recorded d = Some [] -> (forall name, new_name name = true -> tables_of d !! name = None) ->
  exists r s', apply_pending never now error_text ALL_MIGRATIONS [] (with_start 0 new_report) (opened d n) = (Ok r, s') /\
    migrated r s'.
Proof.
  intros Hr Hn. destruct (scripts_run d Hn) as (d1 & d2 & E1 & R1 & E2 & Hl & Hb).
  destruct (apply_pending_run ALL_MIGRATIONS [] (with_start 0 new_report) d d2 n []) as (r & s' & Hrun & [Hd _] & Ht & Hx & Ha);
    [apply versions_distinct; by left|done|done|done| |].
  - change (concat (map up_fn ALL_MIGRATIONS)) with (up_0001 ++ later_script). rewrite exec_all_app, E1. exact E2.
  - exists r, s'. split; [done|]. split; [done|]. split; [by rewrite Ha, all_versions|]. split; [done|]. by rewrite Hd, Ht.
Qed.

(** The preparation of a supported legacy profile. *)
Lemma legacy_prepared d n :
  recorded d = Some [] -> unsupported_legacy d = None ->
  exists d1 d2 row n', validate_and_backfill_legacy_v1 never now migration_1 (opened d n)
      = (Ok None, opened {| tables_of := tables_of d2; objects := objects d2; recorded := Some [row] |} n') /\
    mr_version row = 1%Z /\ mr_checksum row = checksum migration_1 /\
    (forall name, new_name name = true -> tables_of d1 !! name = None) /\
    exec_all up_0001 d1 = Ok d2.
Proof.
  intros Hr Hu. unfold validate_and_backfill_legacy_v1, look, bind, mgets.
  change (current (opened d n)) with d. rewrite Hu. change (current (opened d n)) with d.
  assert (exists d1 n1, match tables_of d !! "tasks" with
      | Some t => add_task_columns never OPTIONAL_TASK_COLUMNS (columns t)
      | None => ret tt end (opened d n) = (Ok tt, opened d1 n1) /\ recorded d1 = Some [] /\
      (forall name, new_name name = true -> tables_of d1 !! name = None)) as (d1 & n1 & Hcols & Hr1 & Hn1).
  { destruct (tables_of d !! "tasks") as [t|] eqn:Et.
    - destruct (columns_exec_ok OPTIONAL_TASK_COLUMNS t d n Et) as (d1 & n1 & Hrun & Hr1 & Ho & _);
        [vm_compute; repeat constructor; set_solver|]. exists d1, n1. split; [exact Hrun|]. split; [congruence|].
      intros name Hname. rewrite Ho; [by apply supported_names|]. intros ->. vm_compute in Hname. discriminate.
    - exists d, n. split; [done|]. split; [done|]. intros name. by apply supported_names. }
  rewrite Hcols. destruct (scripts_run d1 Hn1) as (d2 & _ & E2 & R2 & _).
  destruct (run_statements_run up_0001 d1 d2 n1 E2) as [n2 Hrun].
  unfold executescript, commit_changes, mmodify, bind. cbn [in_transaction opened current disk clock]. fold (opened d1 n1).
  change (up_fn migration_1) with up_0001. rewrite Hrun.
  destruct (insert_record_run migration_1 " (backfilled)" d2 n2 []) as (n3 & row & -> & Hv & Hc); [congruence|done|].
  exists d1, d2, row, n3. split; [reflexivity|]. split; [exact Hv|]. split; [exact Hc|]. split; [exact Hn1|exact E2].
Qed.

Lemma legacy_migrates d n :
  recorded d = Some [] -> unsupported_legacy d = None ->
  exists d3 n3 row r s', validate_and_backfill_legacy_v1 never now migration_1 (opened d n) = (Ok None, opened d3 n3) /\
    records d3 = [row] /\ mr_version row = 1%Z /\ mr_checksum row = checksum migration_1 /\
    apply_pending never now error_text ALL_MIGRATIONS [row] (with_start 1 (with_applied 1 new_report)) (opened d3 n3) = (Ok r, s') /\
    migrated r s'.
Proof.
  intros Hr Hu. destruct (legacy_prepared d n Hr Hu) as (d1 & d2 & row & n1 & Hrun & Hv & Hc & Hn & E2).
  destruct (scripts_run d1 Hn) as (d2' & d4 & E2' & _ & E4 & Hl & Hb). rewrite E2 in E2'. injection E2' as <-.
  destruct (exec_all_recorded _ _ _ (Some [row]) E4) as [E4' _].
  assert (forall m, m ∈ later_migrations -> find_record (version m) [row] = None) as Hlater.
  { intros m Hm. unfold find_record. cbn [find_first]. rewrite Hv.
    by rewrite (proj2 (Z.eqb_neq _ _) (not_eq_sym (later_versions m Hm))). }
  destruct (apply_pending_run later_migrations [row] (with_start 1 (with_applied 1 new_report))
    {| tables_of := tables_of d2; objects := objects d2; recorded := Some [row] |}
    {| tables_of := tables_of d4; objects := objects d4; recorded := Some [row] |} n1 [row])
    as (r & s' & Hap & [Hd _] & Ht & Hx & Ha); [apply versions_distinct; by right|done|done|done|exact E4'|].
  eexists _, n1, row, r, s'. split; [exact Hrun|]. split; [reflexivity|]. split; [exact Hv|]. split; [exact Hc|]. split.
  - change ALL_MIGRATIONS with (migration_1 :: later_migrations). cbn [apply_pending].
    assert (find_record (version migration_1) [row] = Some row) as ->; [|exact Hap].
    unfold find_record. cbn [find_first]. by rewrite Hv.
  - split; [exact Hx|]. split; [by rewrite Ha|]. split; [exact Hd|]. rewrite Hd, Ht. by split.
Qed.

Lemma migrated_end v r s : migrated r s -> migrated (with_end v r) s.
Proof. done. Qed.

(** The preparation, for a database without records. *)
Lemma prepare_run d n :
  recorded d = None ->
  prepare never now (opened d n) =
  (if has_legacy_tables d then
     let* problem := validate_and_backfill_legacy_v1 never now migration_1 in
     match problem with
     | Some e => ret (inl (with_error e new_report))
     | None => ret (inr (with_applied 1 new_report))
     end
   else ret (inr new_report))
    (opened {| tables_of := tables_of d; objects := objects d; recorded := Some [] |} (S n)).
Proof.
  intros Hr. unfold prepare, look, ensure_migrations_table, write, commit_changes, mmodify, mgets, bind.
  change (current (opened d n)) with d. rewrite Hr. cbv beta iota. change (current (opened d n)) with d.
  change (clock (opened d n)) with n. change (never n) with false. cbv beta iota. rewrite Hr.
  by destruct (has_legacy_tables d).
Qed.

Lemma supported_run d n :
  supported d -> exists r s', run_migrations never now error_text (opened d n) = (Ok r, s') /\ migrated r s'.
Proof.
  intros [Hr Hu]. unfold run_migrations. unfold bind at 1. rewrite prepare_run by done.
  set (d0 := {| tables_of := tables_of d; objects := objects d; recorded := Some [] |}).
  destruct (has_legacy_tables d).
  - destruct (legacy_migrates d0 (S n) eq_refl Hu) as (d3 & n3 & row & r & s' & Hval & Hrec & Hv & Hc & Hap & Hm).
    unfold bind at 1. rewrite Hval. unfold ret at 1, bind at 1, look at 1, mgets at 1. change (current (opened d3 n3)) with d3.
    rewrite Hrec. change (max_version [row]) with (mr_version row). rewrite Hv.
    assert (check_drift ALL_MIGRATIONS [row] (with_start 1 (with_applied 1 new_report))
      = inr (with_start 1 (with_applied 1 new_report))) as ->.
    { change ALL_MIGRATIONS with (migration_1 :: later_migrations). cbn [check_drift].
      assert (find_record (version migration_1) [row] = Some row) as -> by (unfold find_record; cbn [find_first]; by rewrite Hv).
      rewrite Hc, String.eqb_refl, bool_decide_eq_true_2 by (cbn; left). apply check_drift_unrecorded. intros m Hm'.
      unfold find_record. cbn [find_first]. rewrite Hv.
      by rewrite (proj2 (Z.eqb_neq _ _) (not_eq_sym (later_versions m Hm'))). }
    unfold bind. rewrite Hap. unfold look, mgets, ret. eexists _, s'. split; [reflexivity|by apply migrated_end].
  - unfold ret at 1, bind at 1, look at 1, mgets at 1. change (records (current (opened d0 (S n)))) with (@nil migration_row).
    change (max_version []) with 0%Z. rewrite check_drift_unrecorded by done.
    destruct (fresh_migrates d0 (S n) eq_refl) as (r & s' & Hap & Hm); [intros name; by apply supported_names|].
    unfold bind. rewrite Hap. unfold look, mgets, ret. eexists _, s'. split; [reflexivity|by apply migrated_end].
Qed.
(** Supported profiles migrate: a new profile, and every legacy profile the
    checks let through, whatever rows and optional columns it has, comes out
    of a run without storage faults with all nine migrations applied, no error
    reported, every table of the present schema with exactly its columns, every
    baseline table present, and everything on disk. *)
Theorem supported_profile_migrates d n :
  supported d ->
  exists r s', run_migrations never now error_text (opened d n) = (Ok r, s') /\ migrated r s'.
Proof. apply supported_run. Qed.
End success.

Section command.
Context (fault : nat -> bool) (now : nat -> string) (error_text : string -> string).

(** The owner's profile as the command leaves it. *)
Definition profile_migrated (d d' : database) : Prop :=
  kept d d' /\ up_to_date d' /\ max_version (records d') = 9%Z /\
  (is_Some (tables_of d !! "identity") -> identity_facts d' = identity_facts d) /\
  (forall name, name ∈ ["contacts"; "tasks"] -> is_Some (tables_of d !! name) -> row_count name d' = row_count name d).

Lemma ensure_true b (u : unit) : ensure b "RuntimeError" = Ok u -> b = true.
Proof. by destruct b. Qed.

Lemma staged_ok_facts d f d' u :
  preflight d = Ok f -> staged_ok f d' = Ok u ->
  max_version (records d') = 9%Z /\
  (is_Some (tables_of d !! "identity") -> identity_facts d' = identity_facts d) /\
  (forall name, name ∈ ["contacts"; "tasks"] -> is_Some (tables_of d !! name) -> row_count name d' = row_count name d).
Proof.
  unfold preflight, staged_ok. destruct (identity_facts d) as [i|] eqn:Ei; [|done]. intros [= <-]. cbn [rbind f_identity f_contacts f_tasks].
  rewrite rbind_Ok. intros (u1 & H1 & H2). apply rbind_Ok in H2 as (u2 & H2 & H3). apply rbind_Ok in H3 as (u3 & H3 & H4).
  split; [|split].
  - destruct (records d') as [|r l]; [done|]. apply ensure_true, Z.eqb_eq in H4. exact H4.
  - intros [t Ht]. rewrite Ht in H1. destruct (identity_facts d') as [j|] eqn:Ej; [|done]. cbn in H1.
    destruct (tables_of d' !! "identity"); [|done]. apply ensure_true, bool_decide_eq_true in H1. congruence.
  - intros name Hname [t Ht]. assert (row_count name d = Some (length (rows t))) as Hc by (unfold row_count; by rewrite Ht).
    apply elem_of_cons in Hname as [->|Hname]; [|apply list_elem_of_singleton in Hname as ->].
    + rewrite Hc in H2. apply ensure_true, bool_decide_eq_true in H2. congruence.
    + rewrite Hc in H3. apply ensure_true, bool_decide_eq_true in H3. congruence.
Qed.

(** C26: The [migrate] command is all or nothing: whatever fails, the database
    file is the one found; when it reports success, the file is fully
    migrated, with every row of the original, the same identity and as many
    contacts and tasks. *)
Theorem migrate_all_or_nothing file n copied vault_ready replaced :
  match migrate fault now error_text file n copied vault_ready replaced with
  | (NothingToMigrate, file') => file = None /\ file' = None
  | (MigrationFailed _, file') => file' = file
  | (Migrated report, file') =>
      exists d d', file = Some d /\ file' = Some d' /\ errors report = [] /\ profile_migrated d d'
  end.
Proof.
  unfold migrate. destruct file as [d|]; [|done]. destruct (staged_migration _ _ _ d n copied vault_ready) as [[r d']|e] eqn:Es; [|done].
  cbn [rbind]. destruct replaced as [u|e]; [|done]. cbn. exists d, d'. split; [done|]. split; [done|].
  unfold staged_migration in Es. destruct (preflight d) as [f|] eqn:Ef; [|done]. cbn [rbind] in Es. destruct copied; [|done].
  cbn [rbind] in Es. destruct (run_migrations _ _ _ _) as [[r1|e] s'] eqn:Er; [|done]. destruct (errors r1) as [|x l] eqn:Ee; [|done].
  destruct (staged_ok f (current s')) as [u1|] eqn:Eo; [|done]. cbn [rbind] in Es. destruct vault_ready; [|done].
  injection Es as <- <-. split; [done|]. destruct (finished_run fault now error_text _ _ _ _ Er Ee) as [[Hd _] Hu].
  rewrite Hd. split; [|split; [done|by eapply staged_ok_facts]].
  pose proof (run_both_kept fault now error_text d n) as [Hk _]. by rewrite Er in Hk.
Qed.
End command.

Module MigrationDemo.

Definition stamp (n : nat) : string := "2026-07-23T12:00:00+00:00".
Definition run_with (fault : nat -> bool) (d : database) : result string MigrationReport * connection :=
  run_migrations fault stamp id (opened d 0).

(** A legacy profile with one contact, from before the relay and the agents. *)
Definition v1_contacts : table :=
  {| columns := ["username"; "display_name"; "public_key"; "x25519_public_key"; "endpoint"; "autonomy_level";
                 "fingerprint_verified_at"];
     rows := [map JStr ["bob"; "Bob"; "aa"; "bb"; "http://bob"; "always_ask"; "2026"]] |}.
Definition v1_tasks : table :=
  {| columns := ["task_id"; "contact_username"; "goal"; "context_json"; "status"; "created_at"; "updated_at"; "result_json";
                 "draft_content"; "draft_message_type"];
     rows := [map JStr ["t1"; "bob"; "g"; "{}"; "working"; "2026"; "2026"; "r"; "d"; "answer"]] |}.
Definition legacy : database :=
  {| tables_of := {["contacts" := v1_contacts; "tasks" := v1_tasks]}; objects := ∅; recorded := None |}.

Example legacy_columns :
  let s := (run_with never legacy).2 in
  rows <$> tables_of (disk s) !! "tasks"
  = Some [map JStr ["t1"; "bob"; "g"; "{}"; "working"; "2026"; "2026"; "r"; "d"; "answer"] ++ [JNull; JNull; JNull; JNull]] /\
  option_map columns (tables_of (disk s) !! "sessions")
  = Some ["session_id"; "type"; "initiator_username"; "receiver_username"; "status"; "objective"; "sender_agent_id";
          "receiver_agent_id"; "participant_snapshot_json"; "turn_limit"; "created_at"; "updated_at"; "terminal_result_json";
          "expires_at"; "runtime_budget_seconds"; "artifact_bytes_budget"; "cumulative_artifact_bytes";
          "cost_budget_estimate"; "cumulative_cost_estimate"].
Proof. vm_compute. split; reflexivity. Qed.

Definition reported (out : result string MigrationReport * connection) : option (list Z * list string) :=
  match out.1 with Ok r => Some (applied r, errors r) | Err _ => None end.

(** The script of the fifth migration is interrupted between its two renames:
    the first is on disk and unrecorded, and every later run fails at it. *)
Definition interrupted : database := disk (run_with (fun n => Nat.eqb n 34) empty_database).2.

Example interrupted_rename_is_final :
  reported (run_with (fun n => Nat.eqb n 34) empty_database)
  = Some ([1; 2; 3; 4]%Z, ["Migration 0005_v11_session_column_renames failed: sqlite3.OperationalError"]) /\
  reported (run_with never interrupted)
  = Some ([], ["Migration 0005_v11_session_column_renames failed: sqlite3.OperationalError"]).
Proof. vm_compute. split; reflexivity. Qed.

(** A legacy contact table without the columns for delivery passes the checks
    and keeps them missing. *)
Definition bare_contacts : database :=
  {| tables_of := {["contacts" := {| columns := ["username"; "display_name"; "public_key"]; rows := [] |}]};
     objects := ∅; recorded := None |}.

Example contact_columns_missing :
  reported (run_with never bare_contacts) = Some ([1; 2; 3; 4; 5; 6; 7; 8; 9]%Z, []) /\
  option_map columns (tables_of (disk (run_with never bare_contacts).2) !! "contacts")
  = Some ["username"; "display_name"; "public_key"].
Proof. vm_compute. split; reflexivity. Qed.

Lemma legacy_supported : supported legacy.
Proof. split; vm_compute; reflexivity. Qed.

Lemma supported_profile_migrates_witness :
  exists r s', run_migrations never stamp id (opened legacy 0) = (Ok r, s') /\ migrated r s'.
Proof. exact (supported_profile_migrates stamp id legacy 0 legacy_supported). Defined.

Lemma legacy_run : exists r s', run_with never legacy = (Ok r, s') /\ errors r = [].
Proof.
  destruct (supported_run stamp id legacy 0 legacy_supported) as (r & s' & Hrun & He & _).
  exists r, s'. split; [exact Hrun|exact He].
Qed.

Lemma finished_run_is_final_witness :
  exists s', up_to_date (disk s') /\
    run_migrations (fun _ => true) stamp id (opened (disk s') 7) = (Ok (nothing_to_do (disk s')), opened (disk s') 7).
Proof.
  destruct legacy_run as (r & s' & Hrun & He). exists s'.
  exact (proj2 (finished_run_is_final never (fun _ => true) stamp stamp id id legacy 0 r s' 7 Hrun He)).
Defined.
End MigrationDemo.
