(* ===== verification/AuditLog.v ===== *)
(** * Audit log and session events

    [kin/audit/writer.py]: every audit record and every session event is
    written here.  Session events get the next [event_order] of their session,
    and a sequence number that is already stored is recognised as a duplicate
    or refused as a conflict. *)

From Stdlib Require Import Ascii String ZArith QArith Lia.
From stdpp Require Import base sets list strings.
From S2P Require Import Prelude Codec PyValue Schemas Store.

#[local] Open Scope nat_scope.

(** The text stored for a payload: a [str] as it is, anything else as sorted
    JSON. *)
Definition payload_text (payload : option json) : option string :=
  match payload with
  | None => None
  | Some (JStr s) => Some s
  | Some v => Some (json_dumps dumps_sorted v)
  end.

Definition hash_text (s : string) : string := sha256_hex (utf8_encode s).

Inductive append_result :=
| Appended (event_id : string) (event_order : Z)
| Duplicate (event_id : string)
| SequenceReuseMismatch.

Inductive sequence_check :=
| SeqNew
| SeqDuplicate (event_id : string)
| SeqConflict (event_id : string).

Section audit.
Context `{NodeEnv} (vault_key : bytes).

Definition canonical_payload_hash (payload : option json) : string :=
  match payload with
  | None => ""
  | Some (JStr s) =>
      match json_loads s with
      | Some v => hash_text (json_dumps dumps_sorted v)
      | None => hash_text s
      end
  | Some v => hash_text (json_dumps dumps_sorted v)
  end.

(** [audit_id PRIMARY KEY]. *)
Definition audit_id_free (id : string) (t : tables) : bool :=
  negb (existsb (fun r => String.eqb (a_id r) id) (audit_events t)).

Definition write_audit_event (category summary : string) (session_id actor : option string)
    (payload : option json) (correlation_id : option string) : N string :=
  let* audit_id := draw uuid4 in
  let* now_str := draw utcnow in
  let cid := or_str correlation_id (or_str session_id audit_id) in
  let* enc := encrypt_field vault_key (payload_text payload) in
  insert_checked (audit_id_free audit_id)
    (set_audit (fun l => l ++ [{| a_id := audit_id; a_correlation := cid; a_session := session_id;
                                  a_category := category; a_actor := actor; a_summary := summary;
                                  a_payload := enc; a_created_at := now_str |}])) ;;;
  commit ;;;
  ret audit_id.

Definition stored_event (session_id actor : string) (sequence : Z) (t : tables) : option event_row :=
  find_first (fun r => String.eqb (e_session r) session_id && String.eqb (e_actor r) actor
                       && bool_decide (e_sequence r = Some sequence)) (session_events t).

Definition conflict_payload (sequence : Z) (event_id : string) : json :=
  JObj [("sequence", JInt sequence); ("existing_event_id", JStr event_id)].

Definition check_sequence_conflict (session_id actor : string) (sequence : Z)
    (payload : option json) : N sequence_check :=
  let* row := select (stored_event session_id actor sequence) in
  match row with
  | None => ret SeqNew
  | Some r =>
      let* existing := mlift (decrypt_field vault_key (e_payload r)) in
      if String.eqb (canonical_payload_hash payload) (canonical_payload_hash (JStr <$> existing))
      then
        write_audit_event "duplicate_delivery"
          ("Duplicate envelope sequence " +:+ print_int sequence +:+ " received for session " +:+ session_id)
          (Some session_id) (Some actor) (Some (conflict_payload sequence (e_id r)))
          (Some session_id) ;;;
        ret (SeqDuplicate (e_id r))
      else
        write_audit_event "security_rejection"
          ("Sequence reuse mismatch: sequence " +:+ print_int sequence
           +:+ " received with different content for session " +:+ session_id)
          (Some session_id) (Some actor) (Some (conflict_payload sequence (e_id r)))
          (Some session_id) ;;;
        ret (SeqConflict (e_id r))
  end.

(** [COALESCE(MAX(event_order), -1) + 1]. *)
Definition next_order (session_id : string) (t : tables) : Z :=
  (foldr Z.max (-1) (map e_order (List.filter (fun r => String.eqb (e_session r) session_id)
                                    (session_events t))) + 1)%Z.

(** The dictionary [SessionEvent] validates as payload. *)
Definition event_payload_dict (payload : option json) : document :=
  match payload with
  | None => []
  | Some (JStr s) => match json_loads s with
                     | Some (JObj d) => d
                     | _ => [("content", JStr s)]
                     end
  | Some (JObj d) => d
  | Some v => [("content", JStr (json_dumps dumps_default v))]
  end.

(** [SessionEvent.model_validate] on the fields [append_session_event]
    passes. *)
Definition session_event_valid (order : Z) (sequence : option Z) (kind visibility created_at : string)
    (payload : document) : bool :=
  (0 <=? order)%Z
  && match sequence with Some z => (1 <=? z)%Z | None => true end
  && bool_decide (event_kind_of kind <> None)
  && str_in visibility ["peer_visible"; "local_only"]
  && validate_json_primitives (py_of_json (JObj payload))
  && (TIMESTAMP_REGEX created_at || CREATED_AT_REGEX created_at).

(** [event_id PRIMARY KEY], [UNIQUE(session_id, event_order)] and the foreign
    key. *)
Definition event_insertable (row : event_row) (t : tables) : bool :=
  has_session (e_session row) t
  && negb (existsb (fun r => String.eqb (e_id r) (e_id row)) (session_events t))
  && negb (existsb (fun r => String.eqb (e_session r) (e_session row)
                             && (e_order r =? e_order row)%Z) (session_events t)).

Definition insert_event (session_id actor : string) (agent : option string) (kind visibility : string)
    (payload : option json) (signature : option string) (sequence : option Z) : N append_result :=
  let* order := select (next_order session_id) in
  let* event_id := draw uuid4 in
  let* now_str := draw utcnow in
  (if session_event_valid order sequence kind visibility now_str (event_payload_dict payload)
   then ret tt else mraise "ValidationError") ;;;
  let* enc := encrypt_field vault_key (payload_text payload) in
  let row := {| e_id := event_id; e_session := session_id; e_order := order;
                e_sequence := sequence; e_actor := actor; e_agent := agent; e_kind := kind;
                e_visibility := visibility; e_payload := enc; e_signature := signature;
                e_created_at := now_str |} in
  insert_checked (event_insertable row) (set_events (fun l => l ++ [row])) ;;;
  write_audit_event ("session_event_" +:+ kind)
    ("Session event " +:+ kind +:+ " appended (order " +:+ print_int order +:+ ")")
    (Some session_id) (Some actor) payload (Some session_id) ;;;
  commit ;;;
  ret (Appended event_id order).

Definition append_session_event (session_id actor : string) (agent : option string)
    (kind visibility : string) (payload : option json) (signature : option string)
    (sequence : option Z) : N append_result :=
  let* seen := match sequence with
               | Some z => check_sequence_conflict session_id actor z payload
               | None => ret SeqNew
               end in
  match seen with
  | SeqDuplicate id => ret (Duplicate id)
  | SeqConflict _ => ret SequenceReuseMismatch
  | SeqNew => insert_event session_id actor agent kind visibility payload signature sequence
  end.

(** ** Frames *)

Lemma insert_audit_only ok new :
  keeps only_audit (insert_checked ok (set_audit (fun l => l ++ new))).
Proof.
  unfold insert_checked. solve_keeps. intros s. exists new. done.
Qed.

Lemma write_audit_only cat sum sid actor payload cid :
  keeps only_audit (write_audit_event cat sum sid actor payload cid).
Proof. unfold write_audit_event. solve_keeps. apply insert_audit_only. Qed.

Lemma check_conflict_only sid actor z payload :
  keeps only_audit (check_sequence_conflict sid actor z payload).
Proof. unfold check_sequence_conflict. solve_keeps; apply write_audit_only. Qed.

(** ** Running the writer *)

(** The whole effect of one audit record. *)
Lemma write_audit_run cat sum sid actor payload cid s :
  exists row t', a_id row = uuid4 (tick s) /\
  write_audit_event cat sum sid actor payload cid s =
  if audit_id_free (uuid4 (tick s)) (db s)
  then let d := set_audit (fun l => l ++ [row]) (db s) in
       (Ok (uuid4 (tick s)), {| db := d; committed := d; tick := t' |})
  else (Err IntegrityError, {| db := db s; committed := committed s; tick := t' |}).
Proof.
  cbv beta iota zeta delta [write_audit_event bind draw insert_checked select execute commit mgets mmodify
    ret mraise].
  rewrite encrypt_field_run. cbn [db tick committed].
  destruct (payload_text payload); cbn [db tick committed];
    (eexists {| a_id := _ |}, _; split; [cbn; reflexivity|]);
    destruct (audit_id_free _ _); cbn [db tick committed on_db]; reflexivity.
Qed.

Lemma write_audit_committed cat sum sid actor payload cid s id s' :
  write_audit_event cat sum sid actor payload cid s = (Ok id, s') -> committed s' = db s'.
Proof.
  destruct (write_audit_run cat sum sid actor payload cid s) as (row & t' & _ & ->).
  case_match; [|done]. by intros [= <- <-].
Qed.

Lemma write_audit_failed cat sum sid actor payload cid s e s' :
  write_audit_event cat sum sid actor payload cid s = (Err e, s') ->
  db s' = db s /\ committed s' = committed s.
Proof.
  destruct (write_audit_run cat sum sid actor payload cid s) as (row & t' & _ & ->).
  case_match; [done|]. by intros [= <- <-].
Qed.

Lemma write_audit_succeeds cat sum sid actor payload cid s :
  audit_id_free (uuid4 (tick s)) (db s) = true ->
  exists id s', write_audit_event cat sum sid actor payload cid s = (Ok id, s').
Proof.
  intros Hf. destruct (write_audit_run cat sum sid actor payload cid s) as (row & t' & _ & ->).
  rewrite Hf. eauto.
Qed.

Lemma check_conflict_failed sid actor z payload s e s' :
  check_sequence_conflict sid actor z payload s = (Err e, s') ->
  db s' = db s /\ committed s' = committed s.
Proof.
  unfold check_sequence_conflict, bind, select, mgets, mlift, ret.
  destruct (stored_event _ _ _ _) as [r|]; [|done].
  destruct (decrypt_field _ _) as [t|e']; [|by intros [= <- <-]].
  case_match; (destruct (write_audit_event _ _ _ _ _ _ _) as [[a|e'] s1] eqn:E; [done|]);
    intros [= <- <-]; by eapply write_audit_failed.
Qed.

Lemma check_conflict_new sid actor z payload s s' :
  check_sequence_conflict sid actor z payload s = (Ok SeqNew, s') ->
  s' = s /\ stored_event sid actor z (db s) = None.
Proof.
  unfold check_sequence_conflict, bind, select, mgets, mlift, ret.
  destruct (stored_event _ _ _ _) as [r|]; [|by intros [= <-]].
  destruct (decrypt_field _ _) as [t|e']; [|done].
  case_match; by destruct (write_audit_event _ _ _ _ _ _ _) as [[a|e'] s1].
Qed.

(** The row [insert_event] writes. *)
Definition event_written (sid actor : string) (agent : option string) (kind visibility : string)
    (payload : option json) (signature : option string) (sequence : option Z) (t : tables)
    (row : event_row) : Prop :=
  e_session row = sid /\ e_actor row = actor /\ e_agent row = agent /\ e_kind row = kind /\
  e_visibility row = visibility /\ e_signature row = signature /\ e_sequence row = sequence /\
  e_order row = next_order sid t /\ decrypt_field vault_key (e_payload row) = Ok (payload_text payload).

Lemma decrypt_encrypt p s :
  exists tok, encrypt_field vault_key p s
    = (Ok tok, {| db := db s; committed := committed s;
                  tick := match p with None => tick s | Some _ => S (tick s) end |}) /\
    decrypt_field vault_key tok = Ok p.
Proof.
  rewrite encrypt_field_run. destruct p as [p|].
  - eexists. split; [reflexivity|]. apply decrypt_encrypted.
  - exists None. by destruct s.
Qed.

Lemma insert_event_effect sid actor agent kind vis payload sig sequence s r s' :
  insert_event sid actor agent kind vis payload sig sequence s = (r, s') ->
  (exists e, r = Err e /\ committed s' = committed s /\ db s' = db s) \/
  (exists row, event_written sid actor agent kind vis payload sig sequence (db s) row /\
     event_insertable row (db s) = true /\
     (r = Ok (Appended (e_id row) (e_order row)) /\ committed s' = db s' /\
        (exists new, db s' = set_audit (fun l => l ++ new) (set_events (fun l => l ++ [row]) (db s))) \/
      exists e, r = Err e /\ committed s' = committed s /\
        db s' = set_events (fun l => l ++ [row]) (db s))).
Proof.
  cbv beta iota zeta delta [insert_event bind draw select mgets insert_checked execute mmodify ret mraise].
  cbn [db tick committed].
  destruct (session_event_valid _ _ _ _ _ _); [|intros [= <- <-]; left; eauto].
  match goal with |- context [encrypt_field vault_key ?p ?st] =>
    destruct (decrypt_encrypt p st) as (tok & -> & Hdec) end. cbn [db tick committed].
  match goal with |- context [event_insertable ?rw (db s)] =>
    set (row := rw); destruct (event_insertable row (db s)) eqn:Hins end;
    [|intros [= <- <-]; left; eauto].
  intros Hr. right. exists row. split; [by split_and!|]. split; [done|].
  match type of Hr with context [write_audit_event ?a ?b ?c ?d ?e ?f ?st] =>
    pose proof (write_audit_only a b c d e f st) as Ha;
    destruct (write_audit_event a b c d e f st) as [[id|e1] s3] eqn:Ew end; cbn [snd] in Ha.
  - left. inv Hr. cbn. split; [done|]. split; [done|]. exact Ha.
  - right. inv Hr. apply write_audit_failed in Ew as [-> ->]. eauto.
Qed.

(** What a call may leave: only audit records, or one new event row (which
    stays uncommitted when the audit record after it fails). *)
Definition append_outcome (sid actor : string) (agent : option string) (kind vis : string)
    (payload : option json) (sig : option string) (sequence : option Z)
    (s : node) (r : result string append_result) (s' : node) : Prop :=
  (only_audit s s' /\ match r with
                      | Ok (Appended _ _) => False
                      | Ok _ => True
                      | Err _ => committed s' = committed s
                      end) \/
  (exists row, event_written sid actor agent kind vis payload sig sequence (db s) row /\
     (forall z, sequence = Some z -> stored_event sid actor z (db s) = None) /\
     (r = Ok (Appended (e_id row) (e_order row)) /\ committed s' = db s' /\
        (exists new, db s' = set_audit (fun l => l ++ new) (set_events (fun l => l ++ [row]) (db s))) \/
      exists e, r = Err e /\ committed s' = committed s /\
        db s' = set_events (fun l => l ++ [row]) (db s))).

Lemma insert_outcome sid actor agent kind vis payload sig sequence s r s' :
  (forall z, sequence = Some z -> stored_event sid actor z (db s) = None) ->
  insert_event sid actor agent kind vis payload sig sequence s = (r, s') ->
  append_outcome sid actor agent kind vis payload sig sequence s r s'.
Proof.
  intros Hnone Hi. destruct (insert_event_effect _ _ _ _ _ _ _ _ _ _ _ Hi)
    as [(e & -> & Hc & Hd)|(row & Hw & _ & Hrow)].
  - left. split; [|done]. by apply same_db_only_audit.
  - right. exists row. exact (conj Hw (conj Hnone Hrow)).
Qed.

Lemma append_effect sid actor agent kind vis payload sig sequence s r s' :
  append_session_event sid actor agent kind vis payload sig sequence s = (r, s') ->
  append_outcome sid actor agent kind vis payload sig sequence s r s'.
Proof.
  unfold append_session_event. intros Hr. destruct sequence as [z|]; [|by apply insert_outcome].
  unfold bind in Hr. pose proof (check_conflict_only sid actor z payload s) as Ho.
  destruct (check_sequence_conflict sid actor z payload s) as [[[|id|id]|e] s1] eqn:Ec.
  - apply check_conflict_new in Ec as [-> Hnone]. apply insert_outcome; [|done]. by intros ? [= <-].
  - inv Hr. by left.
  - inv Hr. by left.
  - inv Hr. left. split; [done|]. by apply check_conflict_failed in Ec as [_ ?].
Qed.

Lemma append_core sid actor agent kind vis payload sig sequence :
  keeps core_only (append_session_event sid actor agent kind vis payload sig sequence).
Proof.
  intros s. destruct (append_session_event _ _ _ _ _ _ _ _ s) as [r s'] eqn:E. cbn [snd].
  destruct (append_effect _ _ _ _ _ _ _ _ _ _ _ E)
    as [[Ho _]|(row & _ & _ & [(_ & _ & new & Hd)|(e & _ & _ & Hd)])];
    [by apply only_audit_core|unfold core_only; by rewrite Hd..].
Qed.

(** ** Event order *)

Definition events_of (sid : string) (t : tables) : list event_row :=
  List.filter (fun r => String.eqb (e_session r) sid) (session_events t).

(** The events of every session are numbered 0, 1, 2, ... in log order. *)
Definition orders_dense (t : tables) : Prop :=
  forall sid, map e_order (events_of sid t) = Z.of_nat <$> seq 0 (length (events_of sid t)).

Lemma foldr_max_seq n a :
  (-1 <= a)%Z -> foldr Z.max a (Z.of_nat <$> seq 0 n) = Z.max a (Z.of_nat n - 1).
Proof.
  induction n as [|n IH] in a |- *; intros Ha; [cbn; lia|].
  rewrite seq_S, fmap_app, foldr_app. cbn. rewrite IH by lia. lia.
Qed.

Lemma next_order_dense sid t :
  orders_dense t -> next_order sid t = Z.of_nat (length (events_of sid t)).
Proof. intros Hd. unfold next_order. fold (events_of sid t). rewrite (Hd sid), foldr_max_seq by lia. lia. Qed.

Lemma dense_snoc t row :
  orders_dense t -> e_order row = next_order (e_session row) t ->
  orders_dense (set_events (fun l => l ++ [row]) t).
Proof.
  intros Hd Ho sid. rewrite (next_order_dense _ _ Hd) in Ho. unfold events_of at 1 2. cbn.
  rewrite List.filter_app. cbn. fold (events_of sid t). destruct (String.eqb (e_session row) sid) eqn:E.
  - apply String.eqb_eq in E. subst sid.
    rewrite map_app, length_app, (Hd (e_session row)). cbn. rewrite Ho, Nat.add_1_r, seq_S, fmap_app.
    done.
  - rewrite app_nil_r. apply Hd.
Qed.

(** C9: The session log is append-only and gap-free: writing an event adds at
    most one row at the end, never changes or removes a stored one, gives it
    as order the number of events the session already has, stores a payload
    that decrypts to what was passed, and keeps the numbering of every
    session 0, 1, 2, ...; if writing fails, nothing is committed. *)
Theorem event_log_append_only sid actor agent kind vis payload sig sequence s r s' :
  orders_dense (db s) ->
  append_session_event sid actor agent kind vis payload sig sequence s = (r, s') ->
  orders_dense (db s') /\ logs_grow s s' /\
  match r with
  | Ok (Appended id order) => exists row,
      session_events (db s') = session_events (db s) ++ [row] /\ e_id row = id /\
      e_order row = order /\ order = Z.of_nat (length (events_of sid (db s))) /\
      decrypt_field vault_key (e_payload row) = Ok (payload_text payload) /\
      committed s' = db s'
  | Ok _ => session_events (db s') = session_events (db s)
  | Err _ => committed s' = committed s
  end.
Proof.
  intros Hd Hr. destruct (append_effect _ _ _ _ _ _ _ _ _ _ _ Hr) as
    [[Ho Hm]|(row & Hw & _ & [(-> & Hc & new & Hdb)|(e & -> & Hc & Hdb)])].
  - pose proof (only_audit_logs _ _ Ho) as Hg. destruct Ho as [new Hdb].
    split; [by rewrite Hdb|]. split; [done|]. rewrite Hdb.
    destruct r as [[| |]|]; done.
  - destruct Hw as (Hs & _ & _ & _ & _ & _ & _ & Hord & Hdec).
    split; [rewrite Hdb; apply (dense_snoc (db s) row); [done|by rewrite Hs]|].
    split; [unfold logs_grow; rewrite Hdb; cbn; split; [by exists [row]|by exists new]|].
    exists row. rewrite Hc, Hdb. cbn. rewrite <- (next_order_dense sid (db s) Hd). by split_and!.
  - destruct Hw as (Hs & _ & _ & _ & _ & _ & _ & Hord & _).
    split; [rewrite Hdb; apply (dense_snoc (db s) row); [done|by rewrite Hs]|].
    split; [|done]. unfold logs_grow. rewrite Hdb. cbn. split; [by exists [row]|done].
Qed.

(** ** Redelivery *)

Lemma stored_event_snoc sid actor z t row :
  stored_event sid actor z t = None -> e_session row = sid -> e_actor row = actor ->
  e_sequence row = Some z ->
  stored_event sid actor z (set_events (fun l => l ++ [row]) t) = Some row.
Proof.
  unfold stored_event. cbn. intros Hn Hs Ha Hq. rewrite find_first_app, Hn. cbn.
  by rewrite Hs, Ha, !String.eqb_refl, bool_decide_true.
Qed.

Lemma stored_event_prefix sid actor z t t' row :
  session_events t `prefix_of` session_events t' ->
  stored_event sid actor z t = Some row -> stored_event sid actor z t' = Some row.
Proof.
  unfold stored_event. intros [l ->] Hs. by rewrite find_first_app, Hs.
Qed.

End audit.

(** ** A concrete environment *)

(** Steps that touch sessions and logs only. *)
Ltac core_step :=
  first [ apply append_core | apply execute_core; by intros ?
        | apply quiet_core; first [ apply write_audit_only | apply check_conflict_only
                                  | apply encrypt_field_only_audit | solve [eauto with keeps]] ].

Module AuditDemo.

(** Encryption that keeps the text, random values and identifiers that count
    the draws, and a decoder that knows one document. *)
Definition demo_env : NodeEnv.
Proof.
  refine {| aes_encrypt _ _ p := p; aes_decrypt _ _ p := Some p;
            urandom12 _ := "0123456789ab"; uuid4 n := "id-" +:+ print_int (Z.of_nat n);
            utcnow _ := "2026-07-23T12:00:00+00:00";
            json_loads s := if String.eqb s (json_dumps dumps_sorted (JObj [("goal", JStr "g")]))
                            then Some (JObj [("goal", JStr "g")]) else None;
            model_json := json_dumps dumps_canonical |}; done.
Defined.

Definition session (id status : string) : session_row :=
  {| s_id := id; s_type := "ask"; s_initiator := "alice"; s_receiver := "bob"; s_status := status;
     s_objective := None; s_sender_agent := Some "a1"; s_receiver_agent := Some "b1";
     s_snapshot := None;
     s_turn_limit := 12; s_created_at := "2026-07-23T12:00:00Z";
     s_updated_at := "2026-07-23T12:00:00Z"; s_expires_at := None; s_runtime_budget := JNull;
     s_artifact_budget := JNull; s_artifact_bytes := 0; s_cost_budget := JNull; s_cost := 0;
     s_terminal_result := None |}.

Definition demo_tables : tables :=
  set_identity (fun _ => [{| i_username := "bob"; i_public_key := None; i_protocol_version := Some "1.1" |}])
    (set_sessions (fun _ => [session "s1" "active"]) no_tables).

Definition demo_node : node := {| db := demo_tables; committed := demo_tables; tick := 0 |}.

Definition demo_append (s : node) : result string append_result * node :=
  @append_session_event demo_env "key" "s1" "alice" (Some "a1") "finding" "peer_visible"
    (Some (JObj [("goal", JStr "g")])) None (Some 1%Z) s.

Lemma event_log_append_only_witness :
  orders_dense (db (demo_append demo_node).2) /\
  length (session_events (db (demo_append demo_node).2)) = 1.
Proof.
  split; [|vm_compute; reflexivity].
  refine (proj1 (@event_log_append_only demo_env "key" "s1" "alice" (Some "a1") "finding"
    "peer_visible" (Some (JObj [("goal", JStr "g")])) None (Some 1%Z) demo_node
    (demo_append demo_node).1 (demo_append demo_node).2 _ _)).
  - intros sid. reflexivity.
  - apply surjective_pairing.
Defined.


End AuditDemo.
