(* ===== verification/SessionStore.v ===== *)
(** * Sessions over the database

    [reconstruct_session_state] of [kin/session/reducer.py] and the two command
    helpers of [kin/transport/v11.py]: they read a session back from its rows,
    run the reducer on it, store the new status and write the audit record. *)

From Stdlib Require Import Ascii String ZArith QArith Lia.
From stdpp Require Import base gmap sets list strings.
From S2P Require Import Prelude Codec PyValue Schemas Transition Reducer Store AuditLog.

#[local] Open Scope nat_scope.

(** ** Reading a session back *)

(** [if init_un: .. if rec_un: ..]. *)
Definition row_participants (r : session_row) : gmap string ParticipantInfo :=
  let add un agent (m : gmap string ParticipantInfo) :=
    if truthy un then <[un := {| agent_id := or_str agent un; role := "owner" |}]> m else m in
  add (s_receiver r) (s_receiver_agent r) (add (s_initiator r) (s_sender_agent r) ∅).

(** [SELECT actor_username, MAX(sequence) .. GROUP BY actor_username], without
    the actors whose name is empty. *)
Definition note_sequence (m : gmap string Z) (r : event_row) : gmap string Z :=
  match e_sequence r with
  | Some z => if truthy (e_actor r)
              then <[e_actor r := match m !! e_actor r with Some z' => Z.max z' z | None => z end]> m
              else m
  | None => m
  end.
Definition row_sequences (l : list event_row) : gmap string Z := fold_left note_sequence l ∅.

Definition is_turn_event (r : event_row) : bool :=
  str_in (e_kind r) (map MessageKind_value TURN_CONSUMING_KINDS).
Definition row_turns (l : list event_row) : Z := Z.of_nat (length (List.filter is_turn_event l)).

Section session_store.
Context `{NodeEnv} (vault_key : bytes).

(** The payload shown for a stored event: decrypted and parsed, or the raw
    token. *)
Definition stored_payload (r : event_row) : json :=
  match e_payload r with
  | None | Some "" => JObj []
  | Some enc =>
      match decrypt_field vault_key (Some enc) with
      | Ok (Some text) => match json_loads text with
                          | Some v => v
                          | None => JObj [("raw", JStr enc)]
                          end
      | _ => JObj [("raw", JStr enc)]
      end
  end.

Definition event_view (r : event_row) : json :=
  JObj [("event_id", JStr (e_id r));
        ("sequence", match e_sequence r with Some z => JInt z | None => JNull end);
        ("actor_username", JStr (e_actor r)); ("kind", JStr (e_kind r));
        ("visibility", JStr (e_visibility r)); ("payload", stored_payload r);
        ("created_at", JStr (e_created_at r))].

(** [ORDER BY event_order]: insertion of one row. *)
Fixpoint insert_by_order (r : event_row) (l : list event_row) : list event_row :=
  match l with
  | [] => [r]
  | x :: l' => if (e_order r <? e_order x)%Z then r :: l else x :: insert_by_order r l'
  end.
Definition by_order (l : list event_row) : list event_row :=
  fold_left (fun acc r => insert_by_order r acc) l [].

(** [reconstruct_session_state]; the exception is the validation error of
    [SessionState] for a negative turn limit. *)
Definition reconstruct_session_state (session_id : string) (t : tables)
  : result string (option SessionState) :=
  match find_session session_id t with
  | None => Ok None
  | Some r =>
      let evs := events_of session_id t in
      let limit := if (s_turn_limit r =? 0)%Z then 12%Z else s_turn_limit r in
      if (limit <? 1)%Z then Err "ValidationError"
      else Ok (Some
        {| st_session_id := s_id r; initiator_username := s_initiator r;
           receiver_username := s_receiver r; status := s_status r;
           current_turn := row_turns evs; max_turns := limit;
           actor_sequences := row_sequences evs; participants := row_participants r;
           last_resumable_status := None; events := map event_view (by_order evs) |})
  end.

(** ** Commands *)

Definition endswith (p s : string) : bool :=
  Nat.leb (String.length p) (String.length s)
  && String.eqb (str_drop (String.length s - String.length p) s) p.

(** [_iso_now] on the text [isoformat()] gives. *)
Definition iso_text (res : string) : string :=
  if endswith "+00:00" res then str_take (String.length res - 6) res +:+ "Z"
  else if endswith "Z" res then res else res +:+ "Z".

(** [text.split("+")[0]]. *)
Fixpoint before_plus (s : string) : string :=
  match s with
  | "" => ""
  | String c s' => if Ascii.eqb c "+" then "" else String c (before_plus s')
  end.

Definition iso_now (now : option string) : N string :=
  match now with
  | Some t => ret (iso_text t)
  | None => let* t := draw utcnow in ret (iso_text t)
  end.

Definition set_status (session_id st now_str : string) : tables -> tables :=
  set_sessions (update_where (fun r => String.eqb (s_id r) session_id)
    (fun r => {| s_id := s_id r; s_type := s_type r; s_initiator := s_initiator r;
                 s_receiver := s_receiver r; s_status := st; s_objective := s_objective r;
                 s_sender_agent := s_sender_agent r; s_receiver_agent := s_receiver_agent r;
                 s_snapshot := s_snapshot r;
                 s_turn_limit := s_turn_limit r; s_created_at := s_created_at r;
                 s_updated_at := now_str; s_expires_at := s_expires_at r;
                 s_runtime_budget := s_runtime_budget r; s_artifact_budget := s_artifact_budget r;
                 s_artifact_bytes := s_artifact_bytes r; s_cost_budget := s_cost_budget r;
                 s_cost := s_cost r; s_terminal_result := s_terminal_result r |})).

(** The part the two helpers share, after the reducer.  The text of the
    rejection record ends with the reducer's message, which is left out. *)
Definition persist_transition (session_id now_str : string) (state : SessionState)
    (res : ReducerResult) (rejected_summary updated_summary : string) (field name : string)
  : N (option SessionState) :=
  if success res then
    let new := new_state res in
    execute (set_status session_id (status new) now_str) ;;;
    write_audit_event vault_key "session_status_updated"
      ("Session status updated to '" +:+ status new +:+ updated_summary)
      (Some session_id) None
      (Some (JObj [("previous_status", JStr (status state)); ("new_status", JStr (status new));
                   (field, JStr name)]))
      (Some session_id) ;;;
    commit ;;;
    ret (Some new)
  else
    write_audit_event vault_key "session_status_rejected"
      (rejected_summary +:+ " rejected on state '" +:+ status state +:+ "'")
      (Some session_id) None None None ;;;
    ret None.

Definition apply_node_command_transition (session_id command : string) (now : option string)
  : N (option SessionState) :=
  let* now_str := iso_now now in
  let* st := select (reconstruct_session_state session_id) in
  match st with
  | Err e => mraise e
  | Ok None => ret None
  | Ok (Some state) =>
      persist_transition session_id now_str state (process_node_command state command)
        ("Node command transition '" +:+ command +:+ "'") ("' via command '" +:+ command +:+ "'")
        "command" command
  end.

Definition apply_owner_command_transition (session_id owner action : string) (payload : document)
    (now : option string) : N (option SessionState) :=
  let* now_str := iso_now now in
  let* st := select (reconstruct_session_state session_id) in
  match st with
  | Err e => mraise e
  | Ok None => ret None
  | Ok (Some state) =>
      persist_transition session_id now_str state (process_owner_command state owner action payload)
        ("Owner command transition '" +:+ action +:+ "'") ("' via owner action '" +:+ action +:+ "'")
        "action" action
  end.

(** ** Stored statuses follow the matrix *)

(** Either kind of command. *)
Inductive command :=
| NodeCmd (c : string)
| OwnerCmd (owner action : string) (payload : document).

Definition apply_command (session_id : string) (c : command) (now : option string)
  : N (option SessionState) :=
  match c with
  | NodeCmd c => apply_node_command_transition session_id c now
  | OwnerCmd o a p => apply_owner_command_transition session_id o a p now
  end.

Definition run_reducer (state : SessionState) (c : command) : ReducerResult :=
  match c with
  | NodeCmd c => process_node_command state c
  | OwnerCmd o a p => process_owner_command state o a p
  end.

(** The stored status of [session_id] moved along one edge of the matrix (an
    owner command may also repeat it), out of a status that was not terminal,
    and nothing else of the tables changed but the audit log. *)
Definition status_moved (session_id st : string) (t t' : tables) : Prop :=
  (exists row, find_session session_id t = Some row /\ (s_status row ∉ TERMINAL_STATES) /\
     (st = s_status row \/ is_valid_transition (s_status row) st = true)) /\
  exists now_str new, t' = set_audit (fun l => l ++ new) (set_status session_id st now_str t).

Lemma iso_now_run now s :
  exists now_str t, iso_now now s = (Ok now_str, {| db := db s; committed := committed s; tick := t |}).
Proof. destruct now as [n|]; [exists (iso_text n), (tick s); by destruct s|]. by do 2 eexists. Qed.

Lemma reconstruct_status session_id t state :
  reconstruct_session_state session_id t = Ok (Some state) ->
  exists row, find_session session_id t = Some row /\ status state = s_status row.
Proof.
  unfold reconstruct_session_state. destruct (find_session session_id t) as [row|]; [|done].
  case_match; [done|]. intros [= <-]. by exists row.
Qed.

Lemma run_reducer_success state c :
  success (run_reducer state c) = true ->
  (status state ∉ TERMINAL_STATES) /\
  (status (new_state (run_reducer state c)) = status state \/
   is_valid_transition (status state) (status (new_state (run_reducer state c))) = true).
Proof.
  destruct c as [c|o a p]; cbn; intros Hs.
  - destruct (node_accepted _ _ _ eq_refl Hs) as (? & t & _ & ? & ->). auto.
  - destruct (owner_accepted _ _ _ _ _ eq_refl Hs) as (_ & ? & t & _ & Hv & ->). auto.
Qed.

Lemma persist_effect session_id now_str state res rs us f n s r s' :
  persist_transition session_id now_str state res rs us f n s = (r, s') ->
  match r with
  | Ok (Some st) => success res = true /\ st = new_state res /\ committed s' = db s' /\
      exists new, db s' = set_audit (fun l => l ++ new)
                            (set_status session_id (status (new_state res)) now_str (db s))
  | Ok None => success res = false /\ only_audit s s'
  | Err _ => committed s' = committed s
  end.
Proof.
  unfold persist_transition. destruct (success res).
  - unfold bind at 1, execute, mmodify. unfold bind at 1.
    match goal with |- context [write_audit_event ?k ?a ?b ?c ?d ?e ?f ?st] =>
      pose proof (write_audit_only k a b c d e f st) as Ha;
      destruct (write_audit_event k a b c d e f st) as [[id|e1] s3] eqn:Ew end;
      cbn [snd] in Ha; intros [= <- <-].
    + split; [done|]. split; [done|]. split; [done|]. exact Ha.
    + apply write_audit_failed in Ew as [_ ->]. done.
  - unfold bind at 1.
    match goal with |- context [write_audit_event ?k ?a ?b ?c ?d ?e ?f ?st] =>
      pose proof (write_audit_only k a b c d e f st) as Ha;
      destruct (write_audit_event k a b c d e f st) as [[id|e1] s3] eqn:Ew end;
      cbn [snd] in Ha; intros [= <- <-]; [done|].
    by apply write_audit_failed in Ew as [_ ->].
Qed.

(** What a command leaves, when it ran from [s] to [s'] with result [r]. *)
Definition command_outcome (session_id : string) (s : node) (r : result string (option SessionState))
    (s' : node) : Prop :=
  match r with
  | Ok (Some st) => status_moved session_id (status st) (db s) (db s') /\ committed s' = db s'
  | Ok None => only_audit s s'
  | Err _ => committed s' = committed s
  end.

Lemma command_effect session_id c now s r s' :
  apply_command session_id c now s = (r, s') -> command_outcome session_id s r s'.
Proof.
  assert (Hgen : forall rs us f n,
    (let* now_str := iso_now now in
     let* st := select (reconstruct_session_state session_id) in
     match st with
     | Err e => mraise e
     | Ok None => ret None
     | Ok (Some state) => persist_transition session_id now_str state (run_reducer state c) rs us f n
     end) s = (r, s') -> command_outcome session_id s r s').
  { intros rs us f n. destruct (iso_now_run now s) as (now_str & t & Hi). unfold bind at 1. rewrite Hi.
    unfold bind at 1, select, mgets. cbn [db].
    destruct (reconstruct_session_state session_id (db s)) as [[state|]|e] eqn:Er.
    - intros Hp. apply persist_effect in Hp. unfold command_outcome.
      destruct r as [[st|]|e]; [|by destruct Hp|done].
      destruct Hp as (Hs & -> & Hc & new & Hd). split; [|done].
      destruct (run_reducer_success _ _ Hs) as [Ht Hv].
      destruct (reconstruct_status _ _ _ Er) as (row & Hf & Hst). rewrite Hst in Ht, Hv.
      split; [|exists now_str, new; exact Hd]. exists row. auto.
    - intros [= <- <-]. by apply same_db_only_audit.
    - by intros [= <- <-]. }
  destruct c as [c|o a p]; cbn [apply_command]; apply Hgen.
Qed.

Lemma command_core sid c now : keeps core_only (apply_node_command_transition sid c now).
Proof. unfold apply_node_command_transition, persist_transition, iso_now. solve_keeps; core_step. Qed.

End session_store.

Module SessionStoreDemo.
Import AuditDemo.

Definition expire (s : node) : result string (option SessionState) * node :=
  @apply_command demo_env "key" "s1" (NodeCmd "mark_expired") None s.


(** An expired session takes no further command. *)
Example expired_is_final : (expire (expire demo_node).2).1 = Ok None.
Proof. vm_compute. reflexivity. Qed.

End SessionStoreDemo.
