(* ===== verification/ApprovalStore.v ===== *)
(** * Owner approvals over the database

    [kin/policy/persistence.py]: pending requests, owner decisions and the
    evaluation of an action against the decisions stored for its session.  The
    row [ORDER BY decided_at DESC LIMIT 1] keeps among equal timestamps is an
    operation of the class [LatestRow]. *)

From Stdlib Require Import Ascii String ZArith QArith Lia.
From stdpp Require Import base gmap sets list strings.
From S2P Require Import Prelude Regex Codec PyValue Schemas Transition Reducer Cards Policy.
From S2P Require Import Store AuditLog SessionStore.

#[local] Open Scope nat_scope.

(** [decided_at] in SQLite's order: [NULL] first, then text. *)
Definition decided_le (r r' : approval_row) : bool :=
  match ap_decided_at r, ap_decided_at r' with
  | None, _ => true
  | Some _, None => false
  | Some a, Some b => String.leb a b
  end.

Class LatestRow := {
  latest : list approval_row -> option approval_row;
  (** The row returned is a row of the table that no other follows. *)
  latest_Some : forall l r, latest l = Some r ->
    r ∈ l /\ forall r', r' ∈ l -> decided_le r' r = true;
  (** Without a row, the table is empty. *)
  latest_None : forall l, latest l = None -> l = []
}.

(** Text of an optional value in an f-string. *)
Definition opt_text (o : option string) : string := default "None" o.
Definition opt_json (o : option string) : json :=
  match o with Some s => JStr s | None => JNull end.

Section approvals.
Context `{NodeEnv} `{LatestRow} (vault_key : bytes).

(** ** Evaluation against stored decisions *)

(** The [WHERE] clause; comparing a [NULL] decision gives [NULL]. *)
Definition candidate (session_id agent action now : string) (r : approval_row) : bool :=
  String.eqb (ap_session r) session_id && bool_decide (ap_agent r = Some agent)
  && String.eqb (ap_action r) action && String.ltb now (ap_expires_at r)
  && (match ap_decision r with
      | Some d => negb (String.eqb d "approve_once")
      | None => false
      end || bool_decide (ap_consumed_at r = None)).

Definition matching_approval (session_id agent action now : string) (t : tables)
  : option approval_row :=
  latest (List.filter (candidate session_id agent action now) (approvals t)).

(** The [ApprovalDecision] built from a row. *)
Definition prior_approval (r : approval_row) (now : string) : result string ApprovalDecision :=
  match ap_decision r with
  | None => Err "ValidationError"
  | Some d =>
      match enum_of d with
      | None => Err "ValidationError"
      | Some k =>
          let? _ := ensure (TIMESTAMP_REGEX (or_str (ap_decided_at r) now)) "ValidationError" in
          Ok {| dec_approval_id := ap_id r; dec_session_id := ap_session r; dec_decision := k;
                dec_decided_by := "owner"; dec_decided_at := or_str (ap_decided_at r) now;
                dec_constraints := None |}
      end
  end.

Definition consume (approval_id now : string) : tables -> tables :=
  set_approvals (update_where (fun r => String.eqb (ap_id r) approval_id)
    (fun r => {| ap_id := ap_id r; ap_session := ap_session r; ap_agent := ap_agent r;
                 ap_action := ap_action r; ap_request := ap_request r;
                 ap_decision := ap_decision r; ap_decided_at := ap_decided_at r;
                 ap_expires_at := ap_expires_at r; ap_consumed_at := Some now |})).

Definition policy_error (r : result unit PolicyResult) : result string PolicyResult :=
  match r with Ok x => Ok x | Err _ => Err "ValidationError" end.

Definition evaluate_action_for_session (card : AgentCard) (action : ActionClass)
    (session_context : document) (session_id now : string) : N PolicyResult :=
  let* row := select (matching_approval session_id (card_id card) (ActionClass_value action) now) in
  match row with
  | None => mlift (policy_error (evaluate_action card action session_context now None None))
  | Some r =>
      let* prior := mlift (prior_approval r now) in
      let* res := mlift (policy_error (evaluate_action card action session_context now (Some prior)
                                         (Some (ap_expires_at r)))) in
      mwhen (bool_decide (decision res = ALLOW) && bool_decide (dec_decision prior = APPROVE_ONCE))
        (execute (consume (ap_id r) now) ;;; commit) ;;;
      ret res
  end.

(** ** Recording *)

Definition has_approval (approval_id : string) (t : tables) : bool :=
  existsb (fun r => String.eqb (ap_id r) approval_id) (approvals t).

(** [approval_id PRIMARY KEY] and the foreign key. *)
Definition approval_insertable (r : approval_row) (t : tables) : bool :=
  has_session (ap_session r) t && negb (has_approval (ap_id r) t).

Definition set_decision (approval_id d decided_at : string) (request : option string)
  : tables -> tables :=
  set_approvals (update_where (fun r => String.eqb (ap_id r) approval_id)
    (fun r => {| ap_id := ap_id r; ap_session := ap_session r; ap_agent := ap_agent r;
                 ap_action := ap_action r;
                 ap_request := match request with Some q => Some q | None => ap_request r end;
                 ap_decision := Some d; ap_decided_at := Some decided_at;
                 ap_expires_at := ap_expires_at r; ap_consumed_at := ap_consumed_at r |})).

Definition record_approval_decision (d : ApprovalDecision) (agent_id : option string)
    (action : ActionClass) (expires_at : string) (request_json : option string) : N unit :=
  let decision_str := enum_value (dec_decision d) in
  let* exists_ := select (has_approval (dec_approval_id d)) in
  let* enc := encrypt_field vault_key request_json in
  (if exists_
   then execute (set_decision (dec_approval_id d) decision_str (dec_decided_at d) enc)
   else
     let row := {| ap_id := dec_approval_id d; ap_session := dec_session_id d; ap_agent := agent_id;
                   ap_action := ActionClass_value action; ap_request := enc;
                   ap_decision := Some decision_str; ap_decided_at := Some (dec_decided_at d);
                   ap_expires_at := expires_at; ap_consumed_at := None |} in
     insert_checked (approval_insertable row) (set_approvals (fun l => l ++ [row]))) ;;;
  write_audit_event vault_key "approval_decision"
    ("Approval decision '" +:+ decision_str +:+ "' recorded for agent '" +:+ opt_text agent_id
     +:+ "' action '" +:+ ActionClass_value action +:+ "'")
    (Some (dec_session_id d)) (Some (dec_decided_by d))
    (Some (JObj [("approval_id", JStr (dec_approval_id d)); ("agent_id", opt_json agent_id);
                 ("action_class", JStr (ActionClass_value action)); ("decision", JStr decision_str);
                 ("expires_at", JStr expires_at)]))
    (Some (dec_session_id d)) ;;;
  commit.

(** The fields of [ApprovalRequest] in declaration order. *)
Definition ApprovalRequest_dump (q : ApprovalRequest) : json :=
  JObj [("schema_version", JStr "1.1"); ("approval_id", JStr (req_approval_id q));
        ("session_id", JStr (req_session_id q)); ("agent_id", JStr (req_agent_id q));
        ("action_class", JStr (ActionClass_value (req_action_class q)));
        ("summary", JStr (req_summary q)); ("reason", JStr (req_reason q));
        ("risk_label", JStr (enum_value (req_risk_label q)));
        ("requested_scope", JObj (req_scope q)); ("expires_at", JStr (req_expires_at q))].

Definition create_pending_approval (q : ApprovalRequest) (agent_id : string) (action : ActionClass)
    (expires_at : string) : N string :=
  let* enc := encrypt_field vault_key (Some (model_json (ApprovalRequest_dump q))) in
  let row := {| ap_id := req_approval_id q; ap_session := req_session_id q;
                ap_agent := Some agent_id; ap_action := ActionClass_value action; ap_request := enc;
                ap_decision := None; ap_decided_at := None; ap_expires_at := expires_at;
                ap_consumed_at := None |} in
  insert_checked (approval_insertable row) (set_approvals (fun l => l ++ [row])) ;;;
  write_audit_event vault_key "approval_request"
    ("Pending approval request created for agent '" +:+ agent_id +:+ "' action '"
     +:+ ActionClass_value action +:+ "'")
    (Some (req_session_id q)) (Some agent_id)
    (Some (JObj [("approval_id", JStr (req_approval_id q)); ("agent_id", JStr agent_id);
                 ("action_class", JStr (ActionClass_value action)); ("expires_at", JStr expires_at)]))
    (Some (req_session_id q)) ;;;
  commit ;;;
  ret (req_approval_id q).

(** ** Deciding *)

Definition find_approval (approval_id : string) (t : tables) : option approval_row :=
  find_first (fun r => String.eqb (ap_id r) approval_id) (approvals t).

(** The constraints recorded with a decision. *)
Definition final_constraints (k : DecisionKind) (reason : option string)
    (constraints : option document) : result string (option document) :=
  match k with
  | DENY =>
      let text := strip (default "" reason) in
      if truthy text then Ok (Some [("reason", JStr text)]) else Err "InvalidDecisionValueError"
  | EDIT_CONSTRAINTS =>
      match constraints with
      | None | Some [] => Err "InvalidDecisionValueError"
      | Some c => Ok (Some c)
      end
  | _ => Ok constraints
  end.

Definition decide_approval (approval_id session_id decision owner now : string)
    (reason : option string) (constraints : option document) : N ApprovalDecision :=
  match enum_of decision with
  | None => mraise "ValueError"
  | Some d_kind =>
      let* row := select (find_approval approval_id) in
      match row with
      | None => mraise "ApprovalNotFoundError"
      | Some r =>
          if negb (String.eqb (ap_session r) session_id) then mraise "ApprovalNotFoundError"
          else if bool_decide (ap_decision r <> None) then mraise "ApprovalAlreadyDecidedError"
          else if negb (String.ltb now (ap_expires_at r)) then mraise "ApprovalExpiredError"
          else
            let* fc := mlift (final_constraints d_kind reason constraints) in
            let payload := [("decision", JStr (enum_value d_kind))] in
            let* st := select (reconstruct_session_state vault_key session_id) in
            match st with
            | Err e => mraise e
            | Ok None => mraise "ApprovalNotFoundError"
            | Ok (Some state) =>
                if negb (success (process_owner_command state owner "owner_approval_decision" payload))
                then mraise "RuntimeError"
                else if negb (TIMESTAMP_REGEX now) then mraise "ValidationError"
                else
                  let d := {| dec_approval_id := approval_id; dec_session_id := session_id;
                              dec_decision := d_kind; dec_decided_by := owner; dec_decided_at := now;
                              dec_constraints := fc |} in
                  let* trans := apply_owner_command_transition vault_key session_id owner
                                  "owner_approval_decision" payload None in
                  match trans with
                  | None => mraise "RuntimeError"
                  | Some _ =>
                      match enum_of (ap_action r) with
                      | None => mraise "ValueError"
                      | Some action =>
                          record_approval_decision d (ap_agent r) action (ap_expires_at r) None ;;;
                          ret d
                      end
                  end
            end
      end
  end.

(** ** The ledger of decisions *)

Definition approval_ids (t : tables) : list string := map ap_id (approvals t).

(** What a row is about; no operation changes it. *)
Definition approval_key (r : approval_row) :=
  (ap_id r, ap_session r, ap_agent r, ap_action r, ap_expires_at r).

(** Every row survives, with its decision and its consumption mark. *)
Definition rows_kept (t t' : tables) : Prop :=
  forall r, r ∈ approvals t -> exists r', r' ∈ approvals t' /\ approval_key r' = approval_key r /\
    (forall d, ap_decision r = Some d -> ap_decision r' = Some d) /\
    (ap_consumed_at r <> None -> ap_consumed_at r' <> None).

#[local] Instance rows_kept_preorder : PreOrder rows_kept.
Proof.
  split; [intros t r Hr; exists r; auto|].
  intros t1 t2 t3 H12 H23 r Hr. destruct (H12 r Hr) as (r2 & Hr2 & Hi & Hd & Hc).
  destruct (H23 r2 Hr2) as (r3 & Hr3 & Hi3 & Hd3 & Hc3). exists r3. split; [done|].
  split; [congruence|]. auto.
Qed.

(** Keys are unique and the open transaction only adds to what is committed. *)
Definition approvals_wf (s : node) : Prop :=
  NoDup (approval_ids (db s)) /\ NoDup (approval_ids (committed s)) /\
  rows_kept (committed s) (db s).

Definition ledger (s s' : node) : Prop :=
  approvals_wf s -> approvals_wf s' /\ rows_kept (committed s) (committed s').

#[local] Instance ledger_preorder : PreOrder ledger.
Proof.
  split; [by intros s Hs|]. intros s1 s2 s3 H12 H23 Hs.
  destruct (H12 Hs) as [Hs2 Hr]. destruct (H23 Hs2) as [Hs3 Hr']. split; [done|]. by etrans.
Qed.

Definition same_approvals (s s' : node) : Prop := approvals (db s') = approvals (db s).

#[local] Instance same_approvals_preorder : PreOrder same_approvals.
Proof. split; [by intros s|]. intros s1 s2 s3 ? ?. unfold same_approvals in *. congruence. Qed.

(** An update of the tables that is a step of the ledger. *)
Definition row_step (t t' : tables) : Prop :=
  NoDup (approval_ids t) -> NoDup (approval_ids t') /\ rows_kept t t'.

Lemma execute_ledger_at f s : row_step (db s) (f (db s)) -> ledger s (execute f s).2.
Proof.
  intros Hf (Hd & Hc & Hk). destruct (Hf Hd) as [Hd' Hk'].
  split; [|cbn; reflexivity]. split; [done|]. split; [done|]. cbn. by etrans.
Qed.

Lemma row_step_same t t' : approvals t' = approvals t -> row_step t t'.
Proof. unfold row_step, rows_kept, approval_ids. intros -> ?. split; [done|]. eauto. Qed.

Lemma execute_ledger f : (forall t, row_step t (f t)) -> keeps ledger (execute f).
Proof. intros Hf s. by apply execute_ledger_at. Qed.

Lemma execute_same f : (forall t, approvals (f t) = approvals t) -> keeps same_approvals (execute f).
Proof. intros Hf s. apply Hf. Qed.

Lemma same_db_ledger s s' : same_db s s' -> ledger s s'.
Proof. intros [Hd Hc] Hs. unfold approvals_wf. rewrite Hd, Hc. split; [done|reflexivity]. Qed.

Lemma same_db_approvals s s' : same_db s s' -> same_approvals s s'.
Proof. intros [Hd _]. unfold same_approvals. by rewrite Hd. Qed.

Lemma commit_ledger : keeps ledger commit.
Proof. intros s (Hd & Hc & Hk). cbn. split; [|done]. split; [done|]. split; [done|]. cbn. reflexivity. Qed.

Lemma rollback_ledger : keeps ledger rollback.
Proof. intros s (Hd & Hc & Hk). cbn. split; [|reflexivity]. split; [done|]. split; [done|]. cbn. reflexivity. Qed.

Lemma commit_same_approvals : keeps same_approvals commit.
Proof. by intros s. Qed.

Lemma from_same_db {A} (R : node -> node -> Prop) (m : N A) :
  (forall s s', same_db s s' -> R s s') -> keeps same_db m -> keeps R m.
Proof. apply keeps_weaken. Qed.

Lemma iso_now_same_db now : keeps same_db (iso_now now).
Proof. unfold iso_now. solve_keeps. Qed.

(** The operations that touch no approval row, for both frames. *)
Ltac quiet_step :=
  first [ apply commit_ledger | apply commit_same_approvals
        | apply execute_ledger; intros ?; apply row_step_same; reflexivity
        | apply execute_same; intros ?; reflexivity
        | apply from_same_db; [first [exact same_db_ledger|exact same_db_approvals]|];
          first [apply iso_now_same_db | apply encrypt_field_same_db | solve [eauto with keeps]] ].

Lemma write_audit_ledger cat sum sid actor payload cid :
  keeps ledger (write_audit_event vault_key cat sum sid actor payload cid).
Proof. unfold write_audit_event, insert_checked. solve_keeps; quiet_step. Qed.

Lemma write_audit_same cat sum sid actor payload cid :
  keeps same_approvals (write_audit_event vault_key cat sum sid actor payload cid).
Proof. unfold write_audit_event, insert_checked. solve_keeps; quiet_step. Qed.

Lemma apply_command_ledger sid c now : keeps ledger (apply_command vault_key sid c now).
Proof.
  destruct c; cbn; unfold apply_node_command_transition, apply_owner_command_transition,
    persist_transition; solve_keeps; first [apply write_audit_ledger | quiet_step].
Qed.

Lemma apply_command_same sid c now : keeps same_approvals (apply_command vault_key sid c now).
Proof.
  destruct c; cbn; unfold apply_node_command_transition, apply_owner_command_transition,
    persist_transition; solve_keeps; first [apply write_audit_same | quiet_step].
Qed.

(** A command commits nothing, or the approvals it found. *)
Definition commits_approvals (s s' : node) : Prop :=
  approvals (db s') = approvals (db s) /\
  (committed s' = committed s \/ approvals (committed s') = approvals (db s)).

#[local] Instance commits_approvals_preorder : PreOrder commits_approvals.
Proof.
  split; [by intros s; split; [|left]|]. intros s1 s2 s3 [H1 H1'] [H2 H2'].
  split; [congruence|]. destruct H2' as [->| ->]; [|right; congruence].
  destruct H1' as [->| ->]; auto.
Qed.

Lemma write_audit_commits cat sum sid actor payload cid :
  keeps commits_approvals (write_audit_event vault_key cat sum sid actor payload cid).
Proof.
  intros s. destruct (write_audit_run vault_key cat sum sid actor payload cid s) as (r & t & _ & ->).
  case_match; cbn; (split; [done|]); auto.
Qed.

Lemma apply_command_commits sid c now s :
  approvals (committed (apply_command vault_key sid c now s).2) = approvals (committed s) \/
  approvals (committed (apply_command vault_key sid c now s).2) = approvals (db s).
Proof.
  assert (keeps commits_approvals (apply_command vault_key sid c now)) as Hk.
  { assert (forall s s', same_db s s' -> commits_approvals s s') as Hq.
    { intros s1 s2 [Hd Hc]. unfold commits_approvals. rewrite Hd, Hc. by split; [|left]. }
    destruct c; cbn; unfold apply_node_command_transition, apply_owner_command_transition,
      persist_transition; solve_keeps;
      first [apply write_audit_commits
            |by intros s1; split; [|right]
            |by intros s1; split; [|left]
            |apply from_same_db; [exact Hq|first [apply iso_now_same_db|solve [eauto with keeps]]]]. }
  destruct (Hk s) as [_ [->| ->]]; auto.
Qed.

(** ** Ledger steps of the operations *)

Lemma update_row_step p f t :
  (forall r, approval_key (f r) = approval_key r) ->
  (forall r d, r ∈ approvals t -> p r = true -> ap_decision r = Some d -> ap_decision (f r) = Some d) ->
  (forall r, ap_consumed_at r <> None -> ap_consumed_at (f r) <> None) ->
  row_step t (set_approvals (update_where p f) t).
Proof.
  intros Hi Hd Hc Hn. split.
  - unfold approval_ids, update_where. cbn. rewrite map_map.
    erewrite map_ext; [exact Hn|]. intros r. cbn. destruct (p r); [|done].
    by injection (Hi r).
  - intros r Hr. exists (if p r then f r else r). split.
    + cbn. unfold update_where. apply list_elem_of_fmap. eauto.
    + destruct (p r) eqn:E; [|by auto]. split; [by rewrite Hi|]. split; [|by auto]. eauto.
Qed.

Lemma consume_row_step id now t : row_step t (consume id now t).
Proof. by apply update_row_step. Qed.

Lemma set_decision_row_step id d at_ q t :
  (forall r, r ∈ approvals t -> ap_id r = id -> ap_decision r = None) ->
  row_step t (set_decision id d at_ q t).
Proof.
  intros Hu. apply update_row_step; [done| |done].
  intros r d' Hr Hp%String.eqb_eq Hd. rewrite (Hu r Hr Hp) in Hd. done.
Qed.

Lemma insert_row_step r t :
  approval_insertable r t = true -> row_step t (set_approvals (fun l => l ++ [r]) t).
Proof.
  unfold approval_insertable, has_approval. intros [_ Hf]%andb_true_iff Hn. split.
  - unfold approval_ids in *. cbn. rewrite map_app. apply NoDup_app. split; [done|].
    split; [|apply NoDup_singleton]. intros x (r' & -> & Hr')%list_elem_of_fmap He%list_elem_of_singleton.
    apply negb_true_iff in Hf. rewrite <- not_true_iff_false, existsb_exists in Hf. apply Hf.
    exists r'. split; [by apply list_elem_of_In|]. rewrite He. apply String.eqb_refl.
  - intros r' Hr'. exists r'. cbn. split; [set_solver|auto].
Qed.

Lemma insert_approval_ledger r :
  keeps ledger (insert_checked (approval_insertable r) (set_approvals (fun l => l ++ [r]))).
Proof.
  intros s. unfold insert_checked, bind, select, mgets.
  destruct (approval_insertable r (db s)) eqn:E; [|reflexivity].
  by apply execute_ledger_at, insert_row_step.
Qed.

Lemma create_pending_ledger q agent action exp : keeps ledger (create_pending_approval q agent action exp).
Proof.
  unfold create_pending_approval. solve_keeps;
    first [apply insert_approval_ledger | apply write_audit_ledger | quiet_step].
Qed.

Lemma evaluate_for_session_ledger card action ctx sid now :
  keeps ledger (evaluate_action_for_session card action ctx sid now).
Proof.
  unfold evaluate_action_for_session. solve_keeps; try quiet_step.
  apply execute_ledger. apply consume_row_step.
Qed.

Lemma bind_at {A B} (R : node -> node -> Prop) `{!PreOrder R} (m : N A) (k : A -> N B) s a s1 :
  m s = (Ok a, s1) -> R s s1 -> R s1 (k a s1).2 -> R s (bind m k s).2.
Proof. intros Hm H1 H2. unfold bind. rewrite Hm. by etrans. Qed.

(** The only caller records a decision for a row that has none. *)
Definition undecided (id : string) (t : tables) : Prop :=
  forall r, r ∈ approvals t -> ap_id r = id -> ap_decision r = None.

Lemma record_ledger d agent action exp q s :
  undecided (dec_approval_id d) (db s) ->
  ledger s (record_approval_decision d agent action exp q s).2.
Proof.
  intros Hu. unfold record_approval_decision. eapply bind_at; [apply _|reflexivity|reflexivity|].
  destruct (decrypt_encrypt vault_key q s) as (tok & He & _).
  eapply bind_at; [apply _|exact He| |].
  { by apply same_db_ledger. }
  match goal with |- ledger ?s0 _ => set (s1 := s0) end.
  unfold bind at 1.
  match goal with |- context [(if ?b then ?m1 else ?m2) s1] =>
    assert (ledger s1 ((if b then m1 else m2) s1).2) as Hw; [|destruct ((if b then m1 else m2) s1) as [[u|e] s2]]
  end.
  - destruct (has_approval _ _); [|apply insert_approval_ledger].
    apply execute_ledger_at, set_decision_row_step. exact Hu.
  - etrans; [exact Hw|]. revert s2 Hw. intros s2 _. revert s2. apply keeps_bind; [apply _| |];
      [apply write_audit_ledger|intros _; apply commit_ledger].
  - exact Hw.
Qed.

Lemma NoDup_undecided id t r :
  NoDup (approval_ids t) -> find_approval id t = Some r -> ap_decision r = None -> undecided id t.
Proof.
  intros Hn [Hr He%String.eqb_eq]%find_first_Some Hd r' Hr' <-.
  by rewrite (NoDup_map_unique ap_id _ r' r Hn Hr' Hr (eq_sym He)).
Qed.

(** ** Runs of [decide_approval] *)

(** The guards before anything is written. *)
Definition decidable_now (id sid decision owner now : string) (t : tables) (row : approval_row)
    (k : DecisionKind) : Prop :=
  find_approval id t = Some row /\ ap_session row = sid /\ ap_decision row = None /\
  String.ltb now (ap_expires_at row) = true /\ enum_of decision = Some k /\
  exists state, reconstruct_session_state vault_key sid t = Ok (Some state) /\
    success (process_owner_command state owner "owner_approval_decision"
               [("decision", JStr (enum_value k))]) = true.

Definition owner_decision (owner : string) (k : DecisionKind) : command :=
  OwnerCmd owner "owner_approval_decision" [("decision", JStr (enum_value k))].

(** Either a guard raised, or the transition ran and, when it succeeded for a
    known action class, the decision was recorded after it. *)
Lemma decide_cases id sid decision owner now reason cons s r s' :
  decide_approval id sid decision owner now reason cons s = (r, s') ->
  (exists e, r = Err e /\ s' = s) \/
  exists row k trans s1, decidable_now id sid decision owner now (db s) row k /\
    apply_command vault_key sid (owner_decision owner k) None s = (trans, s1) /\
    ((exists e, r = Err e /\ s' = s1) \/
     exists d action rec st, trans = Ok (Some st) /\
       record_approval_decision d (ap_agent row) action (ap_expires_at row) None s1 = (rec, s') /\
       dec_approval_id d = id /\ dec_session_id d = sid /\ dec_decision d = k /\
       dec_decided_by d = owner /\ dec_decided_at d = now /\
       r = match rec with Ok _ => Ok d | Err e => Err e end).
Proof.
  unfold decide_approval, decidable_now. destruct (enum_of decision) as [k|]; [|intros [= <- <-]; eauto].
  unfold bind at 1, select at 1, mgets at 1.
  destruct (find_approval id (db s)) as [row|]; [|intros [= <- <-]; eauto].
  destruct (String.eqb (ap_session row) sid) eqn:Es; cbn [negb]; [|intros [= <- <-]; eauto].
  case_bool_decide as Hd; [intros [= <- <-]; eauto|].
  destruct (String.ltb now (ap_expires_at row)) eqn:Ex; cbn [negb]; [|intros [= <- <-]; eauto].
  unfold bind at 1, mlift at 1. destruct (final_constraints _ _ _) as [fc|e]; [|intros [= <- <-]; eauto].
  unfold bind at 1, select at 1, mgets at 1.
  destruct (reconstruct_session_state vault_key sid (db s)) as [[state|]|e] eqn:Er;
    [|intros [= <- <-]; eauto|intros [= <- <-]; eauto].
  destruct (success _) eqn:Esucc; cbn [negb]; [|intros [= <- <-]; eauto].
  destruct (TIMESTAMP_REGEX now); cbn [negb]; [|intros [= <- <-]; eauto].
  unfold bind at 1. intros Hr. right. exists row, k.
  destruct (apply_owner_command_transition vault_key sid owner "owner_approval_decision"
              [("decision", JStr (enum_value k))] None s) as [trans s1] eqn:Ea.
  exists trans, s1. split.
  { split_and!; [done|by apply String.eqb_eq| |done|done|eauto]. by destruct (ap_decision row); [destruct Hd|]. }
  split; [exact Ea|].
  destruct trans as [[st|]|e]; [|injection Hr as <- <-; eauto|injection Hr as <- <-; eauto].
  destruct (enum_of (ap_action row)) as [action|]; [|injection Hr as <- <-; eauto].
  right. unfold bind in Hr.
  match type of Hr with context [record_approval_decision ?d ?a ?b ?c None s1] =>
    destruct (record_approval_decision d a b c None s1) as [rec s2] eqn:Erec; exists d, b, rec, st end.
  split; [done|]. destruct rec as [u|e]; injection Hr as <- <-; (split; [exact Erec|done]).
Qed.

Lemma decide_ledger id sid decision owner now reason cons :
  keeps ledger (decide_approval id sid decision owner now reason cons).
Proof.
  intros s. destruct (decide_approval id sid decision owner now reason cons s) as [r s'] eqn:E. cbn [snd].
  destruct (decide_cases _ _ _ _ _ _ _ _ _ _ E)
    as [(e & _ & ->)|(row & k & trans & s1 & (Hf & _ & Hd & _) & Ha & Hrest)]; [reflexivity|].
  pose proof (apply_command_ledger sid (owner_decision owner k) None s) as Hl.
  pose proof (apply_command_same sid (owner_decision owner k) None s) as Hs. rewrite Ha in Hl, Hs.
  cbn [snd] in Hl, Hs.
  destruct Hrest as [(e & _ & ->)|(d & action & rec & st & _ & Hrec & <- & _)]; [done|].
  etrans; [exact Hl|]. pose proof (record_ledger d (ap_agent row) action (ap_expires_at row) None s1) as Hrl.
  rewrite Hrec in Hrl. cbn [snd] in Hrl. intros Hwf. apply Hrl; [|done].
  destruct Hwf as (Hn & _). unfold same_approvals in Hs. unfold approval_ids in Hn.
  apply (NoDup_undecided _ _ row); [done| |done].
  unfold find_approval in *. by rewrite Hs.
Qed.

(** ** Histories *)

(** One operation on the connection, or the rollback of an open transaction. *)
Inductive astep : node -> node -> Prop :=
| step_evaluate card action ctx sid now s :
    astep s (evaluate_action_for_session card action ctx sid now s).2
| step_create q agent action exp s : astep s (create_pending_approval q agent action exp s).2
| step_decide id sid decision owner now reason cons s :
    astep s (decide_approval id sid decision owner now reason cons s).2
| step_command sid c now s : astep s (apply_command vault_key sid c now s).2
| step_rollback s : astep s (rollback s).2.

Lemma astep_ledger s s' : astep s s' -> ledger s s'.
Proof.
  intros []; [apply evaluate_for_session_ledger|apply create_pending_ledger|apply decide_ledger
             |apply apply_command_ledger|apply rollback_ledger].
Qed.

Lemma asteps_ledger s s' : rtc astep s s' -> ledger s s'.
Proof. induction 1; [reflexivity|]. etrans; [by apply astep_ledger|done]. Qed.

(** What is committed about a row is found again in any later state. *)
Lemma committed_row_persists s s' r :
  approvals_wf s -> rtc astep s s' -> r ∈ approvals (committed s) ->
  exists r', r' ∈ approvals (db s') /\ approval_key r' = approval_key r /\
    (forall d, ap_decision r = Some d -> ap_decision r' = Some d) /\
    (ap_consumed_at r <> None -> ap_consumed_at r' <> None) /\
    (forall r2, r2 ∈ approvals (db s') -> ap_id r2 = ap_id r -> r2 = r').
Proof.
  intros Hwf Hst Hr. destruct (asteps_ledger _ _ Hst Hwf) as [(Hn & _ & Hk) Hc].
  assert (rows_kept (committed s) (db s')) as Hall by (etrans; eassumption).
  destruct (Hall r Hr) as (r' & Hr' & Hi & Hd & Hcs). exists r'. split_and!; try done.
  intros r2 Hr2 Hi2. apply (NoDup_map_unique ap_id _ _ _ Hn Hr2 Hr').
  rewrite Hi2. by injection Hi.
Qed.

(** ** Effects *)

Lemma evaluate_once_run card action ctx sid now s res s1 row :
  evaluate_action_for_session card action ctx sid now s = (Ok res, s1) ->
  decision res = ALLOW ->
  matching_approval sid (card_id card) (ActionClass_value action) now (db s) = Some row ->
  ap_decision row = Some "approve_once" ->
  s1 = (commit (execute (consume (ap_id row) now) s).2).2.
Proof.
  intros He Ha Hm Hd. revert He. unfold evaluate_action_for_session.
  unfold bind at 1, select, mgets. rewrite Hm. unfold bind at 1, mlift at 1, prior_approval.
  assert (Hk : enum_of "approve_once" = Some APPROVE_ONCE) by reflexivity. rewrite Hd, Hk.
  destruct (ensure _ _) as [u|e]; [|done]. unfold rbind. unfold bind at 1, mlift.
  destruct (policy_error (evaluate_action _ _ _ _ _ _)) as [r|e]; [|done].
  unfold bind, mwhen, ret. destruct (bool_decide (decision r = ALLOW)) eqn:Eb.
  - by intros [= _ <-].
  - intros [= -> _]. by apply bool_decide_eq_false in Eb.
Qed.

Lemma consumed_row row now t :
  row ∈ approvals t -> exists r', r' ∈ approvals (consume (ap_id row) now t) /\
    ap_id r' = ap_id row /\ ap_decision r' = ap_decision row /\ ap_consumed_at r' <> None.
Proof.
  intros Hr. eexists {| ap_id := ap_id row; ap_consumed_at := Some now |}. split; [|done].
  unfold consume, update_where. cbn. apply list_elem_of_fmap. exists row. by rewrite String.eqb_refl.
Qed.

Lemma record_effect d agent action exp s rec s' :
  has_approval (dec_approval_id d) (db s) = true ->
  record_approval_decision d agent action exp None s = (rec, s') ->
  match rec with
  | Ok _ => committed s' = db s' /\ sessions (db s') = sessions (db s) /\
      approvals (db s') = approvals (set_decision (dec_approval_id d) (enum_value (dec_decision d))
                                       (dec_decided_at d) None (db s))
  | Err _ => committed s' = committed s
  end.
Proof.
  intros Hh. unfold record_approval_decision. unfold bind at 1, select, mgets. rewrite Hh.
  unfold bind at 1. rewrite encrypt_field_run. unfold bind at 1, execute, mmodify. unfold bind at 1.
  match goal with |- context [write_audit_event ?k ?a ?b ?c ?d ?e ?f ?st] =>
    pose proof (write_audit_only k a b c d e f st) as Ha;
    destruct (write_audit_event k a b c d e f st) as [[id|e1] s3] eqn:Ew end; cbn [snd] in Ha;
    intros [= <- <-].
  - destruct Ha as [new Hd]. cbn. rewrite Hd. done.
  - by apply write_audit_failed in Ew as [_ ->].
Qed.

Lemma find_has_approval id t row : find_approval id t = Some row -> has_approval id t = true.
Proof.
  intros [Hr He]%find_first_Some. unfold has_approval. apply existsb_exists.
  exists row. split; [by apply list_elem_of_In|done].
Qed.

(** The decision that was recorded. *)
Lemma decide_recorded id sid decision owner now reason cons s d s' :
  decide_approval id sid decision owner now reason cons s = (Ok d, s') ->
  exists row, find_approval id (db s) = Some row /\ ap_session row = sid /\ committed s' = db s' /\
    approvals (db s') = approvals (set_decision id (enum_value (dec_decision d)) now None (db s)).
Proof.
  intros Hr. destruct (decide_cases _ _ _ _ _ _ _ _ _ _ Hr)
    as [(e & ? & _)|(row & k & trans & s1 & (Hf & Hs & _) & Ha & Hrest)]; [done|].
  pose proof (apply_command_same sid (owner_decision owner k) None s) as Hsame. rewrite Ha in Hsame.
  cbn [snd] in Hsame. unfold same_approvals in Hsame.
  destruct Hrest as [(e & ? & _)|(d' & action & rec & st & _ & Hrec & Hid & _ & Hdd & _ & <- & Heq)]; [done|].
  destruct rec as [u|]; [|done]. injection Heq as <-. subst k id.
  apply record_effect in Hrec.
  - destruct Hrec as (Hc & _ & He). exists row. split_and!; try done. rewrite He. cbn. by rewrite Hsame.
  - apply find_has_approval in Hf. unfold has_approval in *. by rewrite Hsame.
Qed.

(** An owner decision is recorded exactly when it is legitimate: on
    success the request existed for this session, was undecided and
    unexpired, the session moved along the lifecycle matrix out of a
    non-terminal status, and the row now holds the decision, all of it
    committed; when the call fails, no decision is committed. *)
Theorem decide_approval_outcome id sid decision owner now reason cons s r s' :
  decide_approval id sid decision owner now reason cons s = (r, s') ->
  match r with
  | Ok d =>
      (exists row, decidable_now id sid decision owner now (db s) row (dec_decision d)) /\
      committed s' = db s' /\
      approvals (db s') = approvals (set_decision id (enum_value (dec_decision d)) now None (db s)) /\
      exists row st now_str, find_session sid (db s) = Some row /\ (s_status row ∉ TERMINAL_STATES) /\
        (st = s_status row \/ is_valid_transition (s_status row) st = true) /\
        sessions (db s') = sessions (set_status sid st now_str (db s))
  | Err _ => approvals (committed s') = approvals (committed s) \/
             approvals (committed s') = approvals (db s)
  end.
Proof.
  intros Hr. destruct (decide_cases _ _ _ _ _ _ _ _ _ _ Hr)
    as [(e & -> & ->)|(row & k & trans & s1 & Hdn & Ha & Hrest)]; [by left|].
  pose proof (apply_command_same sid (owner_decision owner k) None s) as Hs.
  pose proof (command_effect vault_key _ _ _ _ _ _ Ha) as Hc. rewrite Ha in Hs. cbn [snd] in Hs.
  unfold same_approvals in Hs.
  assert (Hfail : approvals (committed s1) = approvals (committed s) \/
                  approvals (committed s1) = approvals (db s)).
  { pose proof (apply_command_commits sid (owner_decision owner k) None s) as Hcm.
    rewrite Ha in Hcm. exact Hcm. }
  destruct Hrest as [(e & -> & ->)|(d & action & rec & st & -> & Hrec & <- & <- & <- & <- & <- & ->)];
    [exact Hfail|].
  assert (Hh : has_approval (dec_approval_id d) (db s1) = true).
  { destruct Hdn as (Hf & _). apply find_has_approval in Hf. unfold has_approval in *. by rewrite Hs. }
  pose proof (record_effect _ _ _ _ _ _ _ Hh Hrec) as He.
  destruct rec as [u|e]; [|rewrite He; exact Hfail].
  destruct He as (He1 & He2 & He3). destruct Hc as [[(srow & Hsf & Ht & Hv) (ns & new & Hd)] Hcom].
  split; [by exists row|]. split; [done|]. split.
  - rewrite He3. cbn. by rewrite Hs.
  - exists srow, (status st), ns. rewrite He2, Hd. done.
Qed.

Lemma matching_candidate sid agent action now t r :
  matching_approval sid agent action now t = Some r ->
  r ∈ approvals t /\ candidate sid agent action now r = true.
Proof.
  intros [Hr _]%latest_Some. rewrite list_elem_of_In, List.filter_In, <- list_elem_of_In in Hr. exact Hr.
Qed.

Lemma consumed_not_candidate sid agent action now r :
  ap_decision r = Some "approve_once" -> ap_consumed_at r <> None ->
  candidate sid agent action now r = false.
Proof.
  intros Hd Hc. unfold candidate. rewrite Hd, (bool_decide_false _ Hc). cbn. apply andb_false_r.
Qed.

(** C11: A one-time approval is used once: after an action was allowed by an
    [approve_once] decision, no later evaluation, whatever operations and
    rollbacks happened in between, selects that approval again. *)
Theorem approve_once_single_use card action ctx sid now s res s1 row s2 sid' agent' action' now' row' :
  approvals_wf s ->
  evaluate_action_for_session card action ctx sid now s = (Ok res, s1) ->
  decision res = ALLOW ->
  matching_approval sid (card_id card) (ActionClass_value action) now (db s) = Some row ->
  ap_decision row = Some "approve_once" ->
  rtc astep s1 s2 ->
  matching_approval sid' agent' action' now' (db s2) = Some row' ->
  ap_id row' <> ap_id row.
Proof.
  intros Hwf He Ha Hm Hd Hst Hm' Hid.
  pose proof (evaluate_for_session_ledger card action ctx sid now s) as Hl. rewrite He in Hl.
  destruct (Hl Hwf) as [Hwf1 _]. cbn [snd] in Hwf1.
  pose proof (evaluate_once_run _ _ _ _ _ _ _ _ _ He Ha Hm Hd) as ->.
  apply matching_candidate in Hm as [Hr _]. destruct (consumed_row row now _ Hr) as (r & Hr1 & Hi & Hdr & Hc).
  destruct (committed_row_persists _ _ r Hwf1 Hst Hr1) as (r' & Hr' & _ & Hd' & Hc' & Hu).
  apply matching_candidate in Hm' as [Hin Hcand].
  rewrite (Hu row' Hin) in Hcand by congruence.
  rewrite consumed_not_candidate in Hcand; [done| |by apply Hc']. apply Hd'. by rewrite Hdr.
Qed.

Lemma decided_row id d at_ t row :
  find_approval id t = Some row ->
  exists r, r ∈ approvals (set_decision id d at_ None t) /\ ap_id r = id /\
    ap_session r = ap_session row /\ ap_decision r = Some d.
Proof.
  intros [Hr He%String.eqb_eq]%find_first_Some.
  eexists {| ap_id := ap_id row; ap_session := ap_session row; ap_decision := Some d |}.
  split; [|done]. unfold set_decision, update_where. cbn. apply list_elem_of_fmap.
  exists row. by rewrite He, String.eqb_refl, <- He.
Qed.

Lemma find_approval_unique id t r :
  r ∈ approvals t -> ap_id r = id -> (forall r2, r2 ∈ approvals t -> ap_id r2 = id -> r2 = r) ->
  find_approval id t = Some r.
Proof.
  intros Hr Hi Hu. unfold find_approval. destruct (find_first _ _) as [r2|] eqn:E.
  - apply find_first_Some in E as [Hr2 He%String.eqb_eq]. by rewrite (Hu r2 Hr2 He).
  - rewrite find_first_None, Forall_forall in E. specialize (E r Hr). cbn in E.
    by rewrite Hi, String.eqb_refl in E.
Qed.

(** An owner decision is final: once a request was decided, every later
    attempt to decide it, by anyone and whatever happened in between, is
    refused as already decided and changes nothing. *)
Theorem approval_decided_once id sid decision owner now reason cons s d s1 s2
    decision' owner' now' reason' cons' k :
  approvals_wf s ->
  decide_approval id sid decision owner now reason cons s = (Ok d, s1) ->
  rtc astep s1 s2 -> enum_of decision' = Some (k : DecisionKind) ->
  decide_approval id sid decision' owner' now' reason' cons' s2
    = (Err "ApprovalAlreadyDecidedError", s2) /\
  exists row, find_approval id (db s2) = Some row /\
    ap_decision row = Some (enum_value (dec_decision d)).
Proof.
  intros Hwf Hr Hst Hk.
  pose proof (decide_ledger id sid decision owner now reason cons s) as Hl. rewrite Hr in Hl.
  destruct (Hl Hwf) as [Hwf1 _]. cbn [snd] in Hwf1.
  destruct (decide_recorded _ _ _ _ _ _ _ _ _ _ Hr) as (row & Hf & Hs & Hc & Happ).
  destruct (decided_row id (enum_value (dec_decision d)) now _ _ Hf) as (r & Hr1 & Hi & Hsr & Hdr).
  rewrite <- Happ, <- Hc in Hr1.
  destruct (committed_row_persists _ _ r Hwf1 Hst Hr1) as (r' & Hr' & Hkey & Hd' & _ & Hu).
  injection Hkey as Hi' Hs' _ _ _. rewrite Hi in Hu.
  assert (find_approval id (db s2) = Some r') as Hf' by (apply find_approval_unique; [done|congruence|exact Hu]).
  specialize (Hd' _ Hdr). split; [|eauto].
  unfold decide_approval. rewrite Hk. unfold bind at 1, select at 1, mgets at 1. rewrite Hf'.
  rewrite Hs', Hsr, Hs, String.eqb_refl. cbn [negb].
  by rewrite bool_decide_true by (by rewrite Hd').
Qed.
End approvals.

(** ** Concrete histories *)

Module ApprovalDemo.
Import AuditDemo PolicyDemo.

(** The first of the latest rows. *)
Fixpoint first_latest (l : list approval_row) : option approval_row :=
  match l with
  | [] => None
  | r :: l' => match first_latest l' with
               | None => Some r
               | Some m => if decided_le m r then Some r else Some m
               end
  end.

Lemma string_leb_total a b : String.leb a b = false -> String.leb b a = true.
Proof.
  unfold String.leb. rewrite (String.compare_antisym b a). by destruct (String.compare a b).
Qed.

Lemma string_leb_trans a b c : String.leb a b = true -> String.leb b c = true -> String.leb a c = true.
Proof.
  revert b c. induction a as [|x a IH]; intros [|y b] [|z c]; cbn; try done.
  unfold String.leb in *. cbn. unfold Ascii.compare.
  destruct (N.compare_spec (N_of_ascii x) (N_of_ascii y)), (N.compare_spec (N_of_ascii y) (N_of_ascii z)),
    (N.compare_spec (N_of_ascii x) (N_of_ascii z)); try done; try lia.
  intros H1' H2'. by apply (IH b c).
Qed.

Lemma decided_le_trans r1 r2 r3 :
  decided_le r1 r2 = true -> decided_le r2 r3 = true -> decided_le r1 r3 = true.
Proof.
  unfold decided_le. destruct (ap_decided_at r1), (ap_decided_at r2), (ap_decided_at r3); try done.
  apply string_leb_trans.
Qed.

Lemma decided_le_total r1 r2 : decided_le r1 r2 = false -> decided_le r2 r1 = true.
Proof.
  unfold decided_le. destruct (ap_decided_at r1), (ap_decided_at r2); try done. apply string_leb_total.
Qed.

Lemma decided_le_refl r : decided_le r r = true.
Proof.
  destruct (decided_le r r) eqn:E; [done|]. pose proof (decided_le_total _ _ E). congruence.
Qed.

Lemma first_latest_spec l :
  match first_latest l with
  | Some r => r ∈ l /\ forall r', r' ∈ l -> decided_le r' r = true
  | None => l = []
  end.
Proof.
  induction l as [|x l IH]; [done|]. cbn. destruct (first_latest l) as [m|].
  - destruct IH as [Hm Hmax]. destruct (decided_le m x) eqn:E; (split; [set_solver|]);
      intros r' [->|Hr']%elem_of_cons.
    + apply decided_le_refl.
    + eapply decided_le_trans; [by apply Hmax|done].
    + by apply decided_le_total.
    + by apply Hmax.
  - subst l. split; [set_solver|]. intros r' ->%list_elem_of_singleton. apply decided_le_refl.
Qed.

Definition demo_latest : LatestRow.
Proof.
  refine {| latest := first_latest |}.
  - intros l r Hl. pose proof (first_latest_spec l) as Hs. by rewrite Hl in Hs.
  - intros l Hl. pose proof (first_latest_spec l) as Hs. by rewrite Hl in Hs.
Defined.
#[local] Existing Instances demo_env demo_latest.

(** A session waiting for its owner, with one stored row. *)
Definition approval (d : option string) : approval_row :=
  {| ap_id := "ap1"; ap_session := "s1"; ap_agent := Some "b1"; ap_action := "workspace_write";
     ap_request := None; ap_decision := d; ap_decided_at := None;
     ap_expires_at := "2026-07-24T12:00:00Z"; ap_consumed_at := None |}.
Definition with_row (st : string) (d : option string) : node :=
  let t := set_approvals (fun _ => [approval d])
             (set_sessions (fun _ => [AuditDemo.session "s1" st]) AuditDemo.demo_tables) in
  {| db := t; committed := t; tick := 0 |}.

Lemma with_row_wf st d : approvals_wf (with_row st d).
Proof.
  split; [apply NoDup_singleton|]. split; [apply NoDup_singleton|]. intros r Hr. exists r. auto.
Qed.

Definition writer_card : AgentCard := card "workspace_read_write_with_approval" "deny" NEVER.
Definition now0 : string := "2026-07-23T12:00:00Z".
Definition try_write (s : node) : result string PolicyResult * node :=
  evaluate_action_for_session writer_card WORKSPACE_WRITE ctx "s1" now0 s.
Definition once : node := with_row "active" (Some "approve_once").

Lemma approve_once_single_use_witness :
  (forall row', matching_approval "s1" "b1" "workspace_write" now0 (db (try_write once).2) = Some row' ->
     ap_id row' <> "ap1") /\
  (exists r, (try_write once).1 = Ok r /\ decision r = ALLOW) /\
  exists r, (try_write (try_write once).2).1 = Ok r /\ decision r = REQUIRES_APPROVAL.
Proof.
  split.
  - intros row' Hm.
    refine (approve_once_single_use "key" writer_card WORKSPACE_WRITE ctx "s1" now0 once
      {| decision := ALLOW; approval_request := None |} (try_write once).2 (approval (Some "approve_once"))
      (try_write once).2 "s1" "b1" "workspace_write" now0 row' (with_row_wf _ _) _ eq_refl _ eq_refl _ Hm).
    + vm_compute. reflexivity.
    + vm_compute. reflexivity.
    + apply rtc_refl.
  - split; eexists; (split; [vm_compute; reflexivity|reflexivity]).
Defined.

Definition waiting : node := with_row "awaiting_owner_approval" None.
Definition decide (k : string) (s : node) : result string ApprovalDecision * node :=
  decide_approval "key" "ap1" "s1" k "bob" now0 (Some "no") None s.

Lemma decide_approval_outcome_witness :
  committed (decide "deny" waiting).2 = db (decide "deny" waiting).2 /\
  map s_status (sessions (db (decide "deny" waiting).2)) = ["paused"].
Proof.
  split; [|vm_compute; reflexivity].
  pose proof (decide_approval_outcome "key" "ap1" "s1" "deny" "bob" now0 (Some "no") None waiting
    (decide "deny" waiting).1 (decide "deny" waiting).2 (surjective_pairing _)) as Ho.
  destruct (decide "deny" waiting).1 as [d|e] eqn:E; [exact (proj1 (proj2 Ho))|].
  vm_compute in E. discriminate.
Defined.

Lemma approval_decided_once_witness :
  decide "approve_once" (decide "deny" waiting).2
  = (Err "ApprovalAlreadyDecidedError", (decide "deny" waiting).2).
Proof.
  destruct (decide "deny" waiting).1 as [d|e] eqn:E; [|vm_compute in E; discriminate].
  refine (proj1 (approval_decided_once "key" "ap1" "s1" "deny" "bob" now0 (Some "no") None waiting
    d (decide "deny" waiting).2 (decide "deny" waiting).2 "approve_once" "bob" now0 (Some "no") None
    APPROVE_ONCE (with_row_wf _ _) _ _ eq_refl)).
  - rewrite <- E. apply surjective_pairing.
  - apply rtc_refl.
Defined.

(** While a request is pending its row is selected with no decision, and the
    evaluation of the same action raises. *)
Example pending_row_breaks_evaluation : (try_write (with_row "active" None)).1 = Err "ValidationError".
Proof. vm_compute. reflexivity. Qed.

End ApprovalDemo.
