(* ===== verification/ArtifactVault.v ===== *)
(** * The encrypted artifact vault

    [kin/artifacts/vault.py]: artifacts are stored encrypted under their
    SHA-256 digest, and loading checks the digest again. *)

From Stdlib Require Import Ascii String ZArith QArith Lia.
From stdpp Require Import base sets list strings.
From S2P Require Import Prelude Codec PyValue Schemas Transition Reducer Store AuditLog SessionStore.

#[local] Open Scope nat_scope.

(** Metadata fields read back from [metadata_json] keep whatever JSON value
    is stored. *)
Record ArtifactMetadata := {
  md_artifact_id : string;
  md_session_id : string;
  md_sha256 : string;
  md_mime_type : string;
  md_size_bytes : json;
  md_offered_by : string;
  md_preview_policy : json;
  md_created_at : string;
  md_source : json;
  md_relative_target_path : json
}.

Definition find_artifact (artifact_id : string) (t : tables) : option artifact_row :=
  find_first (fun r => String.eqb (ar_id r) artifact_id) (artifacts t).

(** [artifact_id PRIMARY KEY] and the foreign key. *)
Definition artifact_insertable (r : artifact_row) (t : tables) : bool :=
  has_session (ar_session r) t && bool_decide (find_artifact (ar_id r) t = None).

(** [uuid.uuid4().hex[:12]]. *)
Fixpoint remove_dashes (s : string) : string :=
  match s with
  | "" => ""
  | String c s' => if Ascii.eqb c "-" then remove_dashes s' else String c (remove_dashes s')
  end.
Definition hex12 (u : string) : string := str_take 12 (remove_dashes u).

Section artifact_vault.
Context `{NodeEnv} (vault_key : bytes).

(** The four values of a metadata document; a value that is not an object
    has no [get]. *)
Definition read_metadata (meta_json : option string) : result string (json * json * json * json) :=
  let defaults := (JInt 0, JStr "none", JStr "adapter_output", JNull) in
  match meta_json with
  | None | Some "" => Ok defaults
  | Some text =>
      match json_loads text with
      | None => Ok defaults
      | Some (JObj m) =>
          let get k d := default d (obj_get k m) in
          Ok (get "size_bytes" (get "size" (JInt 0)), get "preview_policy" (JStr "none"),
              get "source" (JStr "adapter_output"), get "relative_target_path" JNull)
      | Some _ => Err "AttributeError"
      end
  end.

Definition get_artifact_metadata (artifact_id : string) (t : tables)
  : result string ArtifactMetadata :=
  match find_artifact artifact_id t with
  | None => Err "ArtifactNotFoundError"
  | Some r =>
      let? vals := read_metadata (ar_metadata r) in
      let '(size, policy, source, path) := vals in
      Ok {| md_artifact_id := ar_id r; md_session_id := ar_session r; md_sha256 := ar_sha256 r;
            md_mime_type := ar_mime r; md_size_bytes := size; md_offered_by := ar_offered_by r;
            md_preview_policy := policy; md_created_at := ar_created_at r; md_source := source;
            md_relative_target_path := path |}
  end.

Definition load_artifact_bytes (artifact_id : string) (t : tables) : result string bytes :=
  match find_artifact artifact_id t with
  | None => Err "ArtifactNotFoundError"
  | Some r =>
      match decrypt_bytes vault_key (ar_bytes r) with
      | Err _ => Err "ArtifactCorruptedError"
      | Ok decrypted =>
          if String.eqb (sha256_hex decrypted) (ar_sha256 r) then Ok decrypted
          else Err "ArtifactCorruptedError"
      end
  end.

(** The insertion of a new artifact. *)
Definition insert_artifact (artifact_id session_id raw mime offered_by policy source : string)
    (relative_target_path : option string) (now : option string) : N ArtifactMetadata :=
  let size := JInt (Z.of_nat (String.length raw)) in
  let* now_str := iso_now now in
  let* enc := encrypt_bytes vault_key raw in
  let meta := JObj [("size_bytes", size); ("preview_policy", JStr policy); ("source", JStr source);
                    ("relative_target_path",
                     match relative_target_path with Some p => JStr p | None => JNull end)] in
  let row := {| ar_id := artifact_id; ar_session := session_id; ar_sha256 := sha256_hex raw;
                ar_mime := mime; ar_bytes := enc; ar_metadata := Some (json_dumps dumps_default meta);
                ar_offered_by := offered_by; ar_created_at := now_str |} in
  insert_checked (artifact_insertable row) (set_artifacts (fun l => l ++ [row])) ;;;
  commit ;;;
  ret {| md_artifact_id := artifact_id; md_session_id := session_id; md_sha256 := sha256_hex raw;
         md_mime_type := mime; md_size_bytes := size; md_offered_by := offered_by;
         md_preview_policy := JStr policy; md_created_at := now_str; md_source := JStr source;
         md_relative_target_path := JNull |}.

Definition store_artifact (session_id raw mime offered_by policy : string) (max_bytes : Z)
    (source : string) (now artifact_id relative_target_path : option string) : N ArtifactMetadata :=
  if (max_bytes <? Z.of_nat (String.length raw))%Z then mraise "ArtifactTooLargeError"
  else
    match artifact_id with
    | None =>
        let* u := draw uuid4 in
        insert_artifact ("art_" +:+ hex12 u) session_id raw mime offered_by policy source
          relative_target_path now
    | Some id =>
        let* row := select (find_artifact id) in
        match row with
        | Some r =>
            if String.eqb (ar_sha256 r) (sha256_hex raw)
            then let* m := select (get_artifact_metadata id) in mlift m
            else mraise "ArtifactIdConflictError"
        | None => insert_artifact id session_id raw mime offered_by policy source
                    relative_target_path now
        end
    end.

(** What is loaded has the recorded digest. *)
Lemma load_digest id t b :
  load_artifact_bytes id t = Ok b -> exists r, find_artifact id t = Some r /\ sha256_hex b = ar_sha256 r.
Proof.
  unfold load_artifact_bytes. destruct (find_artifact id t) as [r|]; [|done].
  destruct (decrypt_bytes _ _) as [x|e]; [|done]. destruct (String.eqb _ _) eqn:E; [|done].
  intros [= <-]. exists r. split; [done|]. by apply String.eqb_eq.
Qed.

(** ** Integrity of the vault *)

(** Every row decrypts to bytes with the digest it records. *)
Definition vault_sound (t : tables) : Prop :=
  Forall (fun r => exists b, decrypt_bytes vault_key (ar_bytes r) = Ok b /\
                             sha256_hex b = ar_sha256 r) (artifacts t).

Lemma load_sound id t r :
  vault_sound t -> find_artifact id t = Some r ->
  exists b, load_artifact_bytes id t = Ok b /\ sha256_hex b = ar_sha256 r.
Proof.
  intros Hs Hf. unfold load_artifact_bytes. rewrite Hf.
  apply find_first_Some in Hf as [Hr _]. unfold vault_sound in Hs. rewrite Forall_forall in Hs.
  destruct (Hs r Hr) as (b & -> & Hb).
  rewrite Hb, String.eqb_refl. eauto.
Qed.

(** The row an insertion adds. *)
Definition new_artifact (id raw : string) (r : artifact_row) : Prop :=
  ar_id r = id /\ ar_sha256 r = sha256_hex raw /\ decrypt_bytes vault_key (ar_bytes r) = Ok raw.

Lemma insert_artifact_effect id sid raw mime by_ policy source path now s r s' :
  insert_artifact id sid raw mime by_ policy source path now s = (r, s') ->
  match r with
  | Ok m => exists row, new_artifact id raw row /\ md_artifact_id m = id /\
      md_sha256 m = sha256_hex raw /\ find_artifact id (db s) = None /\
      db s' = set_artifacts (fun l => l ++ [row]) (db s) /\ committed s' = db s'
  | Err _ => same_db s s'
  end.
Proof.
  unfold insert_artifact. unfold bind at 1. destruct (iso_now_run now s) as (ns & t & ->).
  cbv beta iota zeta delta [bind draw insert_checked select execute commit mgets mmodify ret mraise
    encrypt_bytes]. cbn [db tick committed].
  match goal with |- context [artifact_insertable ?rw (db s)] =>
    set (row := rw); destruct (artifact_insertable row (db s)) eqn:Hins end;
    [|by intros [= <- <-]].
  intros [= <- <-]. exists row. apply andb_true_iff in Hins as [_ Hf%bool_decide_eq_true].
  split_and!; try done. split_and!; try done. cbn. apply unseal_seal.
Qed.

Lemma find_artifact_snoc id t r :
  find_artifact id t = None -> ar_id r = id ->
  find_artifact id (set_artifacts (fun l => l ++ [r]) t) = Some r.
Proof.
  unfold find_artifact. cbn. intros Hn Hi. rewrite find_first_app, Hn. cbn. by rewrite Hi, String.eqb_refl.
Qed.

(** What storing [raw] leaves, from [s] to [s'] with result [r]. *)
Definition store_outcome (raw : bytes) (max : Z) (s : node) (r : result string ArtifactMetadata)
    (s' : node) : Prop :=
  vault_sound (db s') /\
  match r with
  | Ok m => (Z.of_nat (String.length raw) <= max)%Z /\ md_sha256 m = sha256_hex raw /\
      artifacts (db s) `prefix_of` artifacts (db s') /\
      (exists b, load_artifact_bytes (md_artifact_id m) (db s') = Ok b /\
         sha256_hex b = sha256_hex raw) /\
      (find_artifact (md_artifact_id m) (db s) = None ->
         load_artifact_bytes (md_artifact_id m) (db s') = Ok raw /\ committed s' = db s')
  | Err _ => same_db s s'
  end.

Lemma insert_outcome_sound id sid raw mime by_ policy source path now max s s0 r s' :
  vault_sound (db s) -> (Z.of_nat (String.length raw) <= max)%Z -> same_db s s0 ->
  insert_artifact id sid raw mime by_ policy source path now s0 = (r, s') ->
  store_outcome raw max s r s'.
Proof.
  intros Hv Hmax H0 Hi. pose proof H0 as [Hd0 _]. apply insert_artifact_effect in Hi.
  destruct r as [m|e].
  - destruct Hi as (row & (Hid & Hsha & Hdec) & <- & Hm & Hn & Hd & Hc). rewrite Hd0 in Hn, Hd.
    assert (Hl : load_artifact_bytes (md_artifact_id m) (db s') = Ok raw).
    { unfold load_artifact_bytes. rewrite Hd, find_artifact_snoc, Hdec, Hsha, String.eqb_refl; done. }
    split; [rewrite Hd; unfold vault_sound; cbn; apply Forall_app_2; [exact Hv|];
            apply Forall_singleton; by exists raw|].
    split; [done|]. split; [done|]. split; [rewrite Hd; by exists [row]|]. eauto.
  - assert (same_db s s') as Hss by (etrans; eassumption). pose proof Hss as [E _].
    unfold store_outcome. by rewrite E.
Qed.

Lemma existing_outcome_sound id row raw max s :
  vault_sound (db s) -> (Z.of_nat (String.length raw) <= max)%Z ->
  find_artifact id (db s) = Some row -> ar_sha256 row = sha256_hex raw ->
  store_outcome raw max s (get_artifact_metadata id (db s)) s.
Proof.
  intros Hv Hmax Hf Hsha. split; [done|]. unfold get_artifact_metadata. rewrite Hf.
  destruct (read_metadata _) as [[[[size pol] src] pth]|e]; [|done].
  cbn [rbind md_artifact_id md_sha256].
  pose proof (find_first_Some _ _ _ Hf) as [_ Hid%String.eqb_eq]. rewrite Hid.
  split; [done|]. split; [done|]. split; [done|]. split; [|intros Hn; congruence].
  destruct (load_sound _ _ _ Hv Hf) as (b & Hb & Hsb). exists b. split; [done|congruence].
Qed.

(** The vault returns what was stored: a successful [store_artifact] on a
    sound vault is within the size limit, reports the true digest, changes no
    stored artifact and leaves a sound vault in which the artifact loads to
    bytes of that digest, to the very bytes passed when the artifact is new;
    a refused one changes nothing.  An artifact id is never rebound to other
    content. *)
Theorem artifact_store_roundtrip sid raw mime by_ policy max source now id path s r s' :
  vault_sound (db s) ->
  store_artifact sid raw mime by_ policy max source now id path s = (r, s') ->
  vault_sound (db s') /\
  match r with
  | Ok m => (Z.of_nat (String.length raw) <= max)%Z /\ md_sha256 m = sha256_hex raw /\
      artifacts (db s) `prefix_of` artifacts (db s') /\
      (exists b, load_artifact_bytes (md_artifact_id m) (db s') = Ok b /\
         sha256_hex b = sha256_hex raw) /\
      (find_artifact (md_artifact_id m) (db s) = None ->
         load_artifact_bytes (md_artifact_id m) (db s') = Ok raw /\ committed s' = db s')
  | Err _ => same_db s s'
  end.
Proof.
  intros Hv Hs. unfold store_artifact in Hs. change (store_outcome raw max s r s').
  destruct (max <? _)%Z eqn:Emax; [by inv Hs|]. apply Z.ltb_ge in Emax.
  destruct id as [aid|].
  - unfold bind at 1, select, mgets in Hs. destruct (find_artifact aid (db s)) as [row|] eqn:Ef.
    + destruct (String.eqb (ar_sha256 row) _) eqn:Esha; [|by inv Hs].
      apply String.eqb_eq in Esha. unfold bind, mlift in Hs. injection Hs as <- <-.
      by eapply existing_outcome_sound.
    + by eapply (insert_outcome_sound _ _ _ _ _ _ _ _ _ _ s s).
  - unfold bind at 1, draw in Hs. eapply insert_outcome_sound; [done|done| |exact Hs]. done.
Qed.

(** Loading verifies: bytes that are returned have the recorded digest,
    whatever happened to the stored row. *)
Theorem load_verified id t b :
  load_artifact_bytes id t = Ok b ->
  exists r, find_artifact id t = Some r /\ sha256_hex b = ar_sha256 r.
Proof.
  unfold load_artifact_bytes. destruct (find_artifact id t) as [r|]; [|done].
  destruct (decrypt_bytes _ _) as [d|]; [|done]. destruct (String.eqb _ _) eqn:E; [|done].
  intros [= <-]. apply String.eqb_eq in E. eauto.
Qed.
End artifact_vault.

Module VaultDemo.
Import AuditDemo.
#[local] Existing Instance demo_env.

Definition put (raw : string) (s : node) : result string ArtifactMetadata * node :=
  store_artifact "key" "s1" raw "text/plain" "alice" "none" 16 "adapter_output" None (Some "art-1") None s.

Lemma artifact_store_roundtrip_witness :
  load_artifact_bytes "key" "art-1" (db (put "hello" demo_node).2) = Ok "hello" /\
  (put "other" (put "hello" demo_node).2).1 = Err "ArtifactIdConflictError".
Proof.
  split; [|vm_compute; reflexivity].
  pose proof (artifact_store_roundtrip "key" "s1" "hello" "text/plain" "alice" "none" 16 "adapter_output"
    None (Some "art-1") None demo_node (put "hello" demo_node).1 (put "hello" demo_node).2
    (Forall_nil_2 _) (surjective_pairing _)) as [_ Hr].
  destruct (put "hello" demo_node).1 as [m|e] eqn:E; [|vm_compute in E; discriminate].
  assert (Hm : md_artifact_id m = "art-1") by (vm_compute in E; injection E as <-; reflexivity).
  destruct Hr as (_ & _ & _ & _ & Hnew). rewrite Hm in Hnew. exact (proj1 (Hnew eq_refl)).
Defined.

End VaultDemo.
