(* ===== verification/PeerCards.v ===== *)
(** * Cached peer agent cards

    [kin/agent_registry/peer_cards.py]: the cards peers published, with a mark
    for cards that changed since the owner last looked.  The specification is
    a finite map from (peer, agent) to the content hash and the mark. *)

From Stdlib Require Import Ascii String ZArith QArith Lia.
From stdpp Require Import base gmap sets list strings.
From S2P Require Import Prelude Regex Codec PyValue Schemas Cards Store.

#[local] Open Scope nat_scope.

(** [PublishedAgentCard.model_dump()]. *)
Definition PublishedAgentCard_dump (c : PublishedAgentCard) : document :=
  let strs l := JList (map JStr l) in
  [("schema_version", JStr "1.1"); ("agent_id", JStr (pub_agent_id c)); ("name", JStr (pub_name c));
   ("description", JStr (pub_description c));
   ("capabilities", JObj [("tags", strs (tags (pub_capabilities c)));
                          ("accepts", strs (accepts (pub_capabilities c)));
                          ("produces", strs (produces (pub_capabilities c)))]);
   ("availability", JStr (enum_value (pub_availability c)));
   ("requires_owner_acceptance", JBool (requires_owner_acceptance c));
   ("protocol_version", JStr "1.1")].

Definition is_card (peer agent : string) (r : peer_card_row) : bool :=
  String.eqb (pc_peer r) peer && String.eqb (pc_agent r) agent.

Definition find_card (peer agent : string) (t : tables) : option peer_card_row :=
  find_first (is_card peer agent) (peer_agent_cards t).

#[local] Arguments find_card : simpl never.
#[local] Arguments set_peer_cards : simpl never.

Section peer_cards.
Context `{NodeEnv} `{Jcs}.

Definition touch (peer agent now_str : string) : tables -> tables :=
  set_peer_cards (update_where (is_card peer agent)
    (fun r => {| pc_peer := pc_peer r; pc_agent := pc_agent r; pc_card := pc_card r;
                 pc_hash := pc_hash r; pc_status := pc_status r; pc_first_seen := pc_first_seen r;
                 pc_last_seen := now_str |})).

Definition replace_card (peer agent card_json h now_str : string) : tables -> tables :=
  set_peer_cards (update_where (is_card peer agent)
    (fun r => {| pc_peer := pc_peer r; pc_agent := pc_agent r; pc_card := card_json;
                 pc_hash := h; pc_status := "stale"; pc_first_seen := pc_first_seen r;
                 pc_last_seen := now_str |})).

Definition cache_peer_card (peer : string) (card : PublishedAgentCard) : N string :=
  let* now_str := draw utcnow in
  match compute_content_hash (PublishedAgentCard_dump card) with
  | None => mraise "ValueError"
  | Some h =>
      let agent := pub_agent_id card in
      let card_json := model_json (JObj (PublishedAgentCard_dump card)) in
      let* row := select (find_card peer agent) in
      match row with
      | None =>
          execute (set_peer_cards (fun l => l ++
            [{| pc_peer := peer; pc_agent := agent; pc_card := card_json; pc_hash := h;
                pc_status := "fresh"; pc_first_seen := now_str; pc_last_seen := now_str |}])) ;;;
          commit ;;;
          ret "fresh"
      | Some r =>
          if String.eqb (pc_hash r) h
          then execute (touch peer agent now_str) ;;; commit ;;; ret "unchanged"
          else execute (replace_card peer agent card_json h now_str) ;;; commit ;;; ret "stale"
      end
  end.

Definition mark_reviewed (peer agent : string) : N unit :=
  execute (set_peer_cards (update_where (is_card peer agent)
    (fun r => {| pc_peer := pc_peer r; pc_agent := pc_agent r; pc_card := pc_card r;
                 pc_hash := pc_hash r; pc_status := "fresh"; pc_first_seen := pc_first_seen r;
                 pc_last_seen := pc_last_seen r |}))) ;;;
  commit.

Definition is_stale (peer agent : string) : N bool :=
  let* row := select (find_card peer agent) in
  match row with
  | None => ret false
  | Some r => ret (String.eqb (pc_status r) "stale")
  end.

(** ** Specification *)

Abbreviation card_map := (gmap (string * string) (string * bool)).

(** The operations a node performs on the cache. *)
Inductive card_op :=
| Cache (peer : string) (card : PublishedAgentCard)
| Review (peer agent : string)
| AskStale (peer agent : string).

Inductive card_out := OutText (s : string) | OutUnit | OutBool (b : bool) | OutError.

(** [None] for a card that has no content hash. *)
Definition spec_cache (k : string * string) (h : string) (m : card_map) : card_out * card_map :=
  match m !! k with
  | None => (OutText "fresh", <[k := (h, false)]> m)
  | Some (h0, _) => if String.eqb h0 h then (OutText "unchanged", m)
                    else (OutText "stale", <[k := (h, true)]> m)
  end.

Definition spec_op (o : card_op) (m : card_map) : card_out * card_map :=
  match o with
  | Cache peer card =>
      match compute_content_hash (PublishedAgentCard_dump card) with
      | None => (OutError, m)
      | Some h => spec_cache (peer, pub_agent_id card) h m
      end
  | Review peer agent => (OutUnit, alter (fun v => (v.1, false)) (peer, agent) m)
  | AskStale peer agent => (OutBool (default false (snd <$> m !! (peer, agent))), m)
  end.

Definition out {A} (f : A -> card_out) (r : result string A * node) : card_out * node :=
  (match r.1 with Ok a => f a | Err _ => OutError end, r.2).

Definition run_op (o : card_op) (s : node) : card_out * node :=
  match o with
  | Cache peer card => out OutText (cache_peer_card peer card s)
  | Review peer agent => out (fun _ => OutUnit) (mark_reviewed peer agent s)
  | AskStale peer agent => out OutBool (is_stale peer agent s)
  end.

Fixpoint run_ops {S} (step : card_op -> S -> card_out * S) (l : list card_op) (s : S)
  : list card_out * S :=
  match l with
  | [] => ([], s)
  | o :: l' => let (x, s1) := step o s in let (xs, s2) := run_ops step l' s1 in (x :: xs, s2)
  end.

(** ** Refinement *)

Definition row_view (r : peer_card_row) : string * bool := (pc_hash r, String.eqb (pc_status r) "stale").

Definition cards_match (t : tables) (m : card_map) : Prop :=
  forall peer agent, row_view <$> find_card peer agent t = m !! (peer, agent).

Lemma is_card_same p a p' a' r : is_card p a r = true -> is_card p' a' r = true -> p = p' /\ a = a'.
Proof. unfold is_card. intros ? ?. split_bools. split; congruence. Qed.

(** An update of the row of one key, seen through [find_card]. *)
Lemma find_card_update p a f t p' a' :
  (forall r, pc_peer (f r) = pc_peer r /\ pc_agent (f r) = pc_agent r) ->
  find_card p' a' (set_peer_cards (update_where (is_card p a) f) t) =
  if bool_decide ((p, a) = (p', a')) then f <$> find_card p' a' t else find_card p' a' t.
Proof.
  intros Hf. unfold find_card, update_where, set_peer_cards. cbn. induction (peer_agent_cards t) as [|r l IH]; [by case_bool_decide|].
  cbn. assert (Hk : is_card p' a' (if is_card p a r then f r else r) = is_card p' a' r).
  { destruct (is_card p a r); [|done]. unfold is_card. by destruct (Hf r) as [-> ->]. }
  rewrite Hk, IH. destruct (is_card p' a' r) eqn:E'; [|by case_bool_decide].
  destruct (is_card p a r) eqn:E.
  - destruct (is_card_same _ _ _ _ _ E E') as [-> ->]. by rewrite bool_decide_true.
  - case_bool_decide as Hpa; [|done]. injection Hpa as -> ->. congruence.
Qed.

Lemma find_card_snoc p a t r :
  find_card p a (set_peer_cards (fun l => l ++ [r]) t) =
  match find_card p a t with
  | Some x => Some x
  | None => if is_card p a r then Some r else None
  end.
Proof. unfold find_card, set_peer_cards. cbn. by rewrite find_first_app. Qed.

Lemma cache_refines peer card s m :
  cards_match (db s) m ->
  (run_op (Cache peer card) s).1 = (spec_op (Cache peer card) m).1 /\
  cards_match (db (run_op (Cache peer card) s).2) (spec_op (Cache peer card) m).2.
Proof.
  intros Hm. pose proof (Hm peer (pub_agent_id card)) as Hk. cbn [run_op spec_op].
  cbv beta iota zeta delta [cache_peer_card bind draw select mgets execute mmodify commit ret mraise out].
  destruct (compute_content_hash _) as [h|]; [|done]. cbn [db]. unfold spec_cache.
  destruct (find_card peer (pub_agent_id card) (db s)) as [r|] eqn:Ef; cbn in Hk; rewrite <- Hk.
  - unfold row_view. destruct (String.eqb (pc_hash r) h) eqn:Eh; (split; [done|]); intros p a; cbn.
    + unfold touch. rewrite find_card_update by done. case_bool_decide as E; [|apply Hm].
      rewrite <- Hm. by destruct (find_card p a (db s)).
    + unfold replace_card. rewrite find_card_update by done. case_bool_decide as E.
      * injection E as <- <-. by rewrite Ef, lookup_insert_eq.
      * rewrite lookup_insert_ne by done. apply Hm.
  - split; [done|]. intros p a. cbn. rewrite find_card_snoc. unfold is_card. cbn.
    destruct (decide ((peer, pub_agent_id card) = (p, a))) as [E|E].
    + injection E as <- <-. by rewrite Ef, !String.eqb_refl, lookup_insert_eq.
    + rewrite lookup_insert_ne by done. rewrite <- Hm. destruct (find_card p a (db s)); [done|].
      destruct (String.eqb peer p) eqn:E1, (String.eqb (pub_agent_id card) a) eqn:E2; try done.
      apply String.eqb_eq in E1, E2. destruct E. congruence.
Qed.

Lemma review_refines peer agent s m :
  cards_match (db s) m ->
  cards_match (db (run_op (Review peer agent) s).2) (spec_op (Review peer agent) m).2.
Proof.
  intros Hm p a. cbn. rewrite find_card_update by done. case_bool_decide as E.
  - injection E as <- <-. rewrite lookup_alter_eq, <- Hm. by destruct (find_card peer agent (db s)).
  - rewrite lookup_alter_ne by done. apply Hm.
Qed.

Lemma op_refines o s m :
  cards_match (db s) m ->
  (run_op o s).1 = (spec_op o m).1 /\ cards_match (db (run_op o s).2) (spec_op o m).2.
Proof.
  intros Hm. destruct o as [peer card|peer agent|peer agent].
  - by apply cache_refines.
  - split; [done|]. by apply review_refines.
  - cbn. unfold is_stale, bind, select, mgets. rewrite <- Hm.
    by destruct (find_card peer agent (db s)).
Qed.

(** The card cache refines its specification: on every history of
    caching, reviewing and asking, the database returns the same answers as
    the map from (peer, agent) to content hash and mark, in which a changed
    card stays marked until the owner reviews it. *)
Theorem peer_cards_refine l s m :
  cards_match (db s) m ->
  (run_ops run_op l s).1 = (run_ops spec_op l m).1 /\
  cards_match (db (run_ops run_op l s).2) (run_ops spec_op l m).2.
Proof.
  induction l as [|o l IH] in s, m |- *; intros Hm; [done|]. cbn.
  destruct (op_refines o s m Hm) as [Ho Hm1].
  destruct (run_op o s) as [x s1], (spec_op o m) as [y m1]. cbn in Ho, Hm1. subst y.
  specialize (IH s1 m1 Hm1). destruct (run_ops run_op l s1), (run_ops spec_op l m1).
  cbn in IH |- *. destruct IH as [-> IH]. done.
Qed.

(** In the specification the mark of a key survives everything but a review
    of that key. *)
Lemma spec_mark_sticky k l m h :
  m !! k = Some (h, true) -> Forall (fun o => forall p a, o = Review p a -> (p, a) <> k) l ->
  exists h', (run_ops spec_op l m).2 !! k = Some (h', true).
Proof.
  intros Hm Hl. induction Hl as [|o l Ho _ IH] in m, h, Hm |- *; [eauto|]. cbn.
  assert (exists h1, (spec_op o m).2 !! k = Some (h1, true)) as [h1 H1].
  { destruct o as [peer card|peer agent|peer agent]; cbn;
      [|exists h; by rewrite lookup_alter_ne by (by apply Ho)|by eauto].
    destruct (compute_content_hash _) as [h2|]; [|eauto]. unfold spec_cache.
    destruct (decide ((peer, pub_agent_id card) = k)) as [<-|E].
    - rewrite Hm. destruct (String.eqb h h2); cbn; [eauto|]. rewrite lookup_insert_eq. eauto.
    - destruct (m !! (peer, pub_agent_id card)) as [[h0 st]|]; [destruct (String.eqb h0 h2)|]; cbn;
        exists h; first [done | by rewrite lookup_insert_ne]. }
  destruct (spec_op o m) as [x m1]. cbn in H1. destruct (IH _ _ H1) as [h2 H2].
  exists h2. by destruct (run_ops spec_op l m1).
Qed.
End peer_cards.

Module PeerCardsDemo.

(** Encryption and identifiers play no part here. *)
Definition demo_env : NodeEnv.
Proof.
  refine {| aes_encrypt _ _ p := p; aes_decrypt _ _ p := Some p; urandom12 _ := "0123456789ab";
            uuid4 _ := ""; utcnow _ := "2026-07-23T12:00:00+00:00"; json_loads _ := None;
            model_json := json_dumps dumps_canonical |}; done.
Defined.
Definition demo_jcs : Jcs := fun v => Some (json_dumps dumps_canonical v).
#[local] Existing Instances demo_env demo_jcs.

Definition empty_node : node :=
  {| db := no_tables; committed := no_tables; tick := 0 |}.

Definition card (name : string) : PublishedAgentCard :=
  {| pub_agent_id := "a1"; pub_name := name; pub_description := "d";
     pub_capabilities := {| tags := []; accepts := []; produces := [] |};
     pub_availability := READY; requires_owner_acceptance := true |}.

Definition history : list card_op :=
  [Cache "alice" (card "one"); Cache "alice" (card "two"); AskStale "alice" "a1";
   Review "alice" "a1"; AskStale "alice" "a1"].

Lemma peer_cards_refine_witness :
  (run_ops run_op history empty_node).1 = (run_ops spec_op history ∅).1 /\
  (run_ops run_op history empty_node).1
  = [OutText "fresh"; OutText "stale"; OutBool true; OutUnit; OutBool false].
Proof.
  split; [|vm_compute; reflexivity].
  refine (proj1 (peer_cards_refine history empty_node ∅ _)). intros p a. by rewrite lookup_empty.
Defined.

End PeerCardsDemo.
