(* ===== verification/Registry.v ===== *)
(** * The agent registry

    [kin/agent_registry/registry.py] over the database: registering, listing,
    reading and enabling agent cards.  The keychain and the file system enter
    through [compute_availability]. *)

From Stdlib Require Import Ascii String ZArith QArith Lia.
From stdpp Require Import base sets list strings sorting.
From S2P Require Import Prelude Regex Codec PyValue Schemas Cards Transition Reducer Store AuditLog PeerCards.

#[local] Open Scope nat_scope.

(** ** Card documents *)

Definition strings_json (l : list string) : json := JList (map JStr l).

Definition AdapterConfig_dump (a : AdapterConfig) : document :=
  match a with
  | EmbeddedAdapterConfig p m => [("type", JStr "embedded"); ("provider", JStr p); ("model", JStr m)]
  | WebhookAdapterConfig u c =>
      [("type", JStr "webhook"); ("webhook_url", JStr u); ("credential_ref", JStr c)]
  | LocalCommandAdapterConfig c d =>
      [("type", JStr "local_command"); ("command", JStr c); ("working_directory", JStr d)]
  | SdkAdapterConfig e => [("type", JStr "sdk"); ("entry_point", JStr e)]
  end.

(** [card.adapter.type]. *)
Definition adapter_type (a : AdapterConfig) : string :=
  match a with
  | EmbeddedAdapterConfig _ _ => "embedded"
  | WebhookAdapterConfig _ _ => "webhook"
  | LocalCommandAdapterConfig _ _ => "local_command"
  | SdkAdapterConfig _ => "sdk"
  end.

Definition AgentBoundaries_dump (b : AgentBoundaries) : document :=
  [("network_access", JStr (network_access b)); ("filesystem", JStr (filesystem b));
   ("shell", JStr (shell b)); ("max_runtime_seconds", JInt (max_runtime_seconds b));
   ("max_artifact_bytes", JInt (max_artifact_bytes b))].

Definition AgentAutonomy_dump (a : AgentAutonomy) : document :=
  [("relay_information", JStr (enum_value (relay_information a)));
   ("propose_actions", JStr (enum_value (propose_actions a)));
   ("execute_local_actions", JStr (enum_value (execute_local_actions a)))].

(** [AgentCard.model_dump()]. *)
Definition AgentCard_dump (c : AgentCard) : document :=
  [("schema_version", JStr "1.1"); ("id", JStr (card_id c)); ("name", JStr (card_name c));
   ("description", JStr (card_description c)); ("adapter", JObj (AdapterConfig_dump (adapter c)));
   ("capabilities", JObj [("tags", strings_json (tags (capabilities c)));
                          ("accepts", strings_json (accepts (capabilities c)));
                          ("produces", strings_json (produces (capabilities c)))]);
   ("boundaries", JObj (AgentBoundaries_dump (boundaries c)));
   ("autonomy", JObj (AgentAutonomy_dump (autonomy c)));
   ("presentation", match presentation c with Some p => JObj p | None => JNull end)].

(** ** Rows *)

Definition find_agent (agent_id : string) (t : tables) : option agent_row :=
  find_first (fun r => String.eqb (ag_id r) agent_id) (agents t).

Section registry.
Context `{NodeEnv} (lax_int : json -> option Z).
Context (webhook_secret : string -> string -> option string) (is_dir : string -> bool).

Definition with_availability (a : AgentAvailability) (p : PublishedAgentCard) : PublishedAgentCard :=
  {| pub_agent_id := pub_agent_id p; pub_name := pub_name p; pub_description := pub_description p;
     pub_capabilities := pub_capabilities p; pub_availability := a;
     requires_owner_acceptance := requires_owner_acceptance p |}.

(** The row [register_card] writes over the one it found. *)
Definition agent_row_of (card : AgentCard) (found : option agent_row) (local_card : option string)
    (enabled : option bool) (profile_name : option string) (now_str : string) : agent_row :=
  let target := match found, enabled with
                | Some r, None => ag_enabled r
                | _, Some b => b
                | None, None => true
                end in
  let pub := match profile_name with
             | Some p => with_availability (compute_availability webhook_secret is_dir card p READY target)
                           (publish_card card)
             | None => publish_card card
             end in
  {| ag_id := card_id card; ag_name := card_name card; ag_adapter_type := adapter_type (adapter card);
     ag_local_card := local_card;
     ag_published_card := Some (model_json (JObj (PublishedAgentCard_dump pub)));
     ag_enabled := target; ag_availability := enum_value (pub_availability pub);
     ag_created_at := match found with Some r => ag_created_at r | None => now_str end;
     ag_updated_at := now_str;
     ag_version := match found with Some r => (ag_version r + 1)%Z | None => 1 end |}.

Definition register_card (vault_key : bytes) (card : AgentCard) (enabled : option bool)
    (profile_name : option string) : N unit :=
  let* now_str := draw utcnow in
  let* local_card := encrypt_field vault_key (Some (model_json (JObj (AgentCard_dump card)))) in
  let* found := select (find_agent (card_id card)) in
  let row := agent_row_of card found local_card enabled profile_name now_str in
  match found with
  | Some _ => execute (set_agents (update_where (fun r => String.eqb (ag_id r) (card_id card))
                                    (fun _ => row)))
  | None => execute (set_agents (fun l => l ++ [row]))
  end ;;;
  commit.

(** An entry of [list_cards]; the published card is the decoded document, or
    the text when it does not decode. *)
Record card_entry := {
  ce_row : agent_row;
  ce_published : json
}.

Definition parsed_published (o : option string) : json :=
  match o with
  | None | Some "" => JNull
  | Some text => default (JStr text) (json_loads text)
  end.

Definition list_cards (include_disabled : bool) (t : tables) : list card_entry :=
  map (fun r => {| ce_row := r; ce_published := parsed_published (ag_published_card r) |})
    (order_by (fun a b => String.leb (ag_id a) (ag_id b))
       (List.filter (fun r => include_disabled || ag_enabled r) (agents t))).

Definition get_card (agent_id : string) (t : tables) : option agent_row := find_agent agent_id t.

(** [AgentCard.model_validate_json]. *)
Definition AgentCard_validate_json (text : string) : option AgentCard :=
  match json_loads text with
  | Some (JObj d) => AgentCard_validate lax_int d
  | _ => None
  end.

Definition enabled_availability (profile : string) (vault_key : bytes) (token : string)
  : result string string :=
  let? text := decrypt_field vault_key (Some token) in
  match text with
  | Some (String _ _ as t) =>
      match AgentCard_validate_json t with
      | Some card => Ok (enum_value (compute_availability webhook_secret is_dir card profile READY true))
      | None => Err "ValidationError"
      end
  | _ => Ok (enum_value READY)
  end.

Definition with_enabled (enabled : bool) (avail now_str : string) (x : agent_row) : agent_row :=
  {| ag_id := ag_id x; ag_name := ag_name x; ag_adapter_type := ag_adapter_type x;
     ag_local_card := ag_local_card x; ag_published_card := ag_published_card x;
     ag_enabled := enabled; ag_availability := avail; ag_created_at := ag_created_at x;
     ag_updated_at := now_str; ag_version := ag_version x |}.

Definition set_enabled (agent_id : string) (enabled : bool) (profile_name : option string)
    (vault_key : option bytes) : N unit :=
  let* now_str := draw utcnow in
  let* row := select (find_agent agent_id) in
  match row with
  | None => mraise "ValueError"
  | Some r =>
      let* avail := mlift
        (if enabled then
           match profile_name, vault_key, ag_local_card r with
           | Some p, Some k, Some token => enabled_availability p k token
           | _, _, _ => Ok (enum_value READY)
           end
         else Ok (enum_value POLICY_BLOCKED)) in
      execute (set_agents (update_where (fun x => String.eqb (ag_id x) agent_id)
        (with_enabled enabled avail now_str))) ;;;
      commit
  end.

(** ** Stored cards read back *)

(** What the models enforce of a card; the working directory must be stable
    under its own normalisation. *)
Definition adapter_wf (a : AdapterConfig) : bool :=
  match a with
  | EmbeddedAdapterConfig _ _ => true
  | WebhookAdapterConfig u _ => bool_decide (validate_url u = Some u)
  | LocalCommandAdapterConfig c d =>
      bool_decide (validate_command c = Some c) && bool_decide (validate_working_directory d = Some d)
  | SdkAdapterConfig e => bool_decide (validate_entry_point e = Some e)
  end.

Definition items_wf (pattern : string -> bool) (l : list string) : bool :=
  bool_decide (field_items "k" pattern [("k", strings_json l)] = Some l).

Definition card_wf (c : AgentCard) : bool :=
  let b := boundaries c in
  SAFE_ID_REGEX (card_id c) && length_between 1 128 (card_name c)
  && length_between 1 1024 (card_description c) && adapter_wf (adapter c)
  && items_wf TAG_PATTERN (tags (capabilities c)) && items_wf MIME_PATTERN (accepts (capabilities c))
  && items_wf MIME_PATTERN (produces (capabilities c))
  && str_in (network_access b) ["deny"; "allow"]
  && str_in (filesystem b) ["none"; "workspace_read"; "workspace_read_write_with_approval"]
  && str_in (shell b) ["deny"; "approval_required"]
  && ((0 <? max_runtime_seconds b) && (max_runtime_seconds b <=? 3600))%Z
  && ((0 <? max_artifact_bytes b) && (max_artifact_bytes b <=? 52428800))%Z.

Lemma adapter_roundtrip a : adapter_wf a = true -> AdapterConfig_validate (AdapterConfig_dump a) = Some a.
Proof.
  destruct a as [p m|u c|c d|e]; cbn; intros Hw; split_bools; try done.
  - by rewrite Hw.
  - by rewrite H0, H1.
  - by rewrite Hw.
Qed.

Lemma items_roundtrip k pattern l d :
  items_wf pattern l = true -> obj_get k d = Some (strings_json l) -> field_items k pattern d = Some l.
Proof.
  unfold items_wf, field_items. intros Hw Hk. split_bools. rewrite Hk. exact Hw.
Qed.

Lemma capabilities_roundtrip (c : AgentCapabilities) :
  items_wf TAG_PATTERN (tags c) = true -> items_wf MIME_PATTERN (accepts c) = true ->
  items_wf MIME_PATTERN (produces c) = true ->
  AgentCapabilities_validate [("tags", strings_json (tags c)); ("accepts", strings_json (accepts c));
                              ("produces", strings_json (produces c))] = Some c.
Proof.
  intros Ht Ha Hp. unfold AgentCapabilities_validate.
  rewrite (items_roundtrip "tags" _ (tags c)), (items_roundtrip "accepts" _ (accepts c)),
    (items_roundtrip "produces" _ (produces c)) by done. by destruct c.
Qed.

Lemma level_roundtrip k (a : AutonomyLevel) d :
  obj_get k d = Some (JStr (enum_value a)) -> field_level k d = Some a.
Proof. unfold field_level. intros ->. by destruct a. Qed.

Lemma autonomy_roundtrip a : AgentAutonomy_validate (AgentAutonomy_dump a) = Some a.
Proof.
  unfold AgentAutonomy_validate.
  rewrite (level_roundtrip _ (relay_information a)), (level_roundtrip _ (propose_actions a)),
    (level_roundtrip _ (execute_local_actions a)) by done. by destruct a.
Qed.

(** pydantic keeps integers. *)
Hypothesis lax_int_keeps : forall z, lax_int (JInt z) = Some z.

Lemma choice_roundtrip k choices dflt s d :
  str_in s choices = true -> obj_get k d = Some (JStr s) -> field_choice k choices dflt d = Some s.
Proof. unfold field_choice. by intros Hs ->; rewrite Hs. Qed.

Lemma int_roundtrip k hi z d :
  ((0 <? z) && (z <=? hi))%Z = true -> obj_get k d = Some (JInt z) -> field_int_within lax_int k hi d = Some z.
Proof. unfold field_int_within. intros Hz ->. by rewrite lax_int_keeps, Hz. Qed.

Lemma boundaries_roundtrip b :
  str_in (network_access b) ["deny"; "allow"] = true ->
  str_in (filesystem b) ["none"; "workspace_read"; "workspace_read_write_with_approval"] = true ->
  str_in (shell b) ["deny"; "approval_required"] = true ->
  ((0 <? max_runtime_seconds b) && (max_runtime_seconds b <=? 3600))%Z = true ->
  ((0 <? max_artifact_bytes b) && (max_artifact_bytes b <=? 52428800))%Z = true ->
  AgentBoundaries_validate lax_int (AgentBoundaries_dump b) = Some b.
Proof.
  intros Hn Hf Hs Hr Ha. unfold AgentBoundaries_validate.
  rewrite (choice_roundtrip _ _ _ (network_access b)), (choice_roundtrip _ _ _ (filesystem b)),
    (choice_roundtrip _ _ _ (shell b)) by done.
  rewrite (int_roundtrip _ _ (max_runtime_seconds b)), (int_roundtrip _ _ (max_artifact_bytes b)) by done.
  by destruct b.
Qed.

Lemma card_roundtrip c : card_wf c = true -> AgentCard_validate lax_int (AgentCard_dump c) = Some c.
Proof.
  intros Hw. unfold card_wf in Hw. repeat rewrite andb_true_iff in Hw.
  destruct Hw as (((((((((((Hid & Hn) & Hd) & Had) & Ht) & Ha) & Hp) & Hna) & Hf) & Hs) & Hr) & Hm).
  unfold AgentCard_validate, AgentCard_dump. cbn [keys_within forallb].
  unfold field_literal, field_str, field_object, get_str. cbn -[AdapterConfig_validate AgentCapabilities_validate
    AgentBoundaries_validate AgentAutonomy_validate SAFE_ID_REGEX length_between].
  rewrite Hid, Hn, Hd. cbn [check]. rewrite adapter_roundtrip, capabilities_roundtrip,
    boundaries_roundtrip, autonomy_roundtrip by (rewrite ?andb_true_iff; done).
  destruct c as [id name desc ad cap bo au [p|]]; reflexivity.
Qed.

(** ** What registration leaves *)

Definition agents_unique (t : tables) : Prop := NoDup (map ag_id (agents t)).

Lemma find_agent_None id t : find_agent id t = None -> id ∉ map ag_id (agents t).
Proof.
  unfold find_agent. intros Hn%find_first_None Hin.
  apply list_elem_of_fmap in Hin as (r & -> & Hr). rewrite Forall_forall in Hn.
  specialize (Hn r Hr). by rewrite String.eqb_refl in Hn.
Qed.

Lemma find_agent_id id t r : find_agent id t = Some r -> ag_id r = id.
Proof. intros [_ E]%find_first_Some. by apply String.eqb_eq. Qed.

(** The upsert of a row under its own key. *)
Definition upsert (row : agent_row) (found : option agent_row) : tables -> tables :=
  match found with
  | Some _ => set_agents (update_where (fun r => String.eqb (ag_id r) (ag_id row)) (fun _ => row))
  | None => set_agents (fun l => l ++ [row])
  end.

Lemma upsert_lookup row t id :
  find_agent id (upsert row (find_agent (ag_id row) t) t)
  = if String.eqb (ag_id row) id then Some row else find_agent id t.
Proof.
  destruct (find_agent (ag_id row) t) as [r|] eqn:Ef; unfold upsert, find_agent in *; cbn.
  - rewrite find_first_update by (intros x Hx; symmetry; by apply String.eqb_eq).
    destruct (String.eqb (ag_id row) id) eqn:E.
    + apply String.eqb_eq in E as <-. rewrite Ef. cbn.
      apply find_first_Some in Ef as [_ ->]. done.
    + destruct (find_first (fun r => String.eqb (ag_id r) id) (agents t)) as [x|] eqn:Ex; [|done]. cbn.
      apply find_first_Some in Ex as [_ Hx%String.eqb_eq].
      destruct (String.eqb (ag_id x) (ag_id row)) eqn:E2; [|done].
      apply String.eqb_eq in E2. apply String.eqb_neq in E. congruence.
  - rewrite find_first_app. cbn. destruct (String.eqb (ag_id row) id) eqn:E.
    + apply String.eqb_eq in E as <-. by rewrite Ef.
    + by destruct (find_first (fun r => String.eqb (ag_id r) id) (agents t)).
Qed.

Lemma upsert_unique row t :
  agents_unique t -> agents_unique (upsert row (find_agent (ag_id row) t) t).
Proof.
  unfold agents_unique. intros Hu. destruct (find_agent (ag_id row) t) as [r|] eqn:Ef; cbn.
  - rewrite update_keys; [done|]. intros x Hx. symmetry. by apply String.eqb_eq.
  - apply find_agent_None in Ef. rewrite map_app. apply NoDup_app. split; [done|]. split.
    + intros x Hx Hin. cbn in Hin. apply list_elem_of_singleton in Hin as ->. done.
    + apply NoDup_singleton.
Qed.

(** The row under which a card is registered. *)
Definition registered (vault_key : bytes) (card : AgentCard) (enabled : option bool)
    (profile_name : option string) (s : node) : agent_row :=
  agent_row_of card (find_agent (card_id card) (db s))
    (Some (b64encode (seal vault_key (urandom12 (S (tick s)))
             (utf8_encode (model_json (JObj (AgentCard_dump card)))))))
    enabled profile_name (utcnow (tick s)).

Lemma register_run vault_key card enabled profile_name s :
  exists t, register_card vault_key card enabled profile_name s =
    let row := registered vault_key card enabled profile_name s in
    let d := upsert row (find_agent (ag_id row) (db s)) (db s) in
    (Ok tt, {| db := d; committed := d; tick := t |}).
Proof.
  exists (S (S (tick s))). unfold register_card. cbv zeta.
  change (ag_id (registered _ _ _ _ _)) with (card_id card). unfold registered.
  cbv beta iota zeta delta [bind draw encrypt_field select mgets ret]. cbn [db tick committed].
  by destruct (find_agent (card_id card) (db s)).
Qed.

(** Registering an agent card always succeeds and is lossless: the
    registry keeps one row per agent, the row of the card decrypts and
    validates to exactly the card registered, its version is one more than
    before, its published column is the public projection alone, a new agent
    is enabled unless the caller says otherwise, and no other agent changes. *)
Theorem register_card_roundtrip vault_key card enabled profile_name s :
  agents_unique (db s) -> card_wf card = true ->
  json_loads (model_json (JObj (AgentCard_dump card))) = Some (JObj (AgentCard_dump card)) ->
  exists s' row text, register_card vault_key card enabled profile_name s = (Ok tt, s') /\
    agents_unique (db s') /\ committed s' = db s' /\ get_card (card_id card) (db s') = Some row /\
    decrypt_field vault_key (ag_local_card row) = Ok (Some text) /\
    AgentCard_validate_json text = Some card /\
    ag_version row = match get_card (card_id card) (db s) with
                     | Some r => (ag_version r + 1)%Z
                     | None => 1%Z
                     end /\
    (exists a, ag_published_card row
       = Some (model_json (JObj (PublishedAgentCard_dump (with_availability a (publish_card card))))) /\
       ag_availability row = enum_value a /\ (profile_name <> None -> ag_enabled row = false -> a = POLICY_BLOCKED)) /\
    ag_enabled row = match enabled, get_card (card_id card) (db s) with
                     | Some b, _ => b
                     | None, Some r => ag_enabled r
                     | None, None => true
                     end /\
    (forall id, id <> card_id card -> get_card id (db s') = get_card id (db s)).
Proof.
  intros Hu Hw Hj. destruct (register_run vault_key card enabled profile_name s) as [t Hr].
  set (row := registered vault_key card enabled profile_name s) in *.
  assert (Hid : ag_id row = card_id card) by done. cbv zeta in Hr.
  do 2 eexists. exists (model_json (JObj (AgentCard_dump card))).
  split; [exact Hr|]. cbn [db committed]. split; [by apply upsert_unique|]. split; [done|].
  unfold get_card. rewrite <- Hid. split; [by rewrite upsert_lookup, String.eqb_refl|].
  split; [apply decrypt_encrypted|]. split; [unfold AgentCard_validate_json; rewrite Hj; by apply card_roundtrip|].
  rewrite Hid. split; [by cbn; destruct (find_agent _ _)|]. split.
  - exists (pub_availability (match profile_name with
      | Some p => with_availability (compute_availability webhook_secret is_dir card p READY (ag_enabled row)) (publish_card card)
      | None => publish_card card end)).
    destruct profile_name as [p|]; [|done]. split; [done|]. split; [done|].
    intros _ Hen. cbn [pub_availability with_availability]. by rewrite Hen.
  - split; [by cbn; destruct (find_agent _ _), enabled|]. intros id Hne. rewrite upsert_lookup, Hid.
    apply not_eq_sym, String.eqb_neq in Hne. by rewrite Hne.
Qed.

(** ** Listing and enabling *)

Lemma list_cards_elem all t e :
  e ∈ list_cards all t <->
  exists r, r ∈ agents t /\ (all = true \/ ag_enabled r = true) /\
    e = {| ce_row := r; ce_published := parsed_published (ag_published_card r) |}.
Proof.
  unfold list_cards. rewrite list_elem_of_fmap. setoid_rewrite order_by_elem.
  setoid_rewrite list_elem_of_In. setoid_rewrite filter_In. setoid_rewrite orb_true_iff.
  split; [intros (r & -> & Hr & Ho)|intros (r & Hr & Ho & ->)]; exists r; tauto.
Qed.

Lemma list_cards_sorted all t :
  Sorted (fun a b => String.leb a b = true) (map (fun e => ag_id (ce_row e)) (list_cards all t)).
Proof.
  unfold list_cards. rewrite map_map. cbn [ce_row].
  assert (Hs := order_by_sorted (fun a b => String.leb (ag_id a) (ag_id b))
    (List.filter (fun r => all || ag_enabled r) (agents t)) (fun a b => str_leb_total _ _)).
  induction Hs as [|x l Hs IH Hd]; cbn; constructor; [done|]. destruct Hd; by constructor.
Qed.

(** Disabling takes an agent out of what peers are shown: after a successful
    [set_enabled] the agent's flag is the one asked for, a disabled agent is
    [policy_blocked] and in no listing without disabled agents, other agents
    are untouched, and an unknown agent is an error that changes no row. *)
Theorem set_enabled_effect id b profile_name vault_key s r s' :
  set_enabled id b profile_name vault_key s = (r, s') ->
  match r with
  | Ok _ => exists row row', get_card id (db s) = Some row /\ get_card id (db s') = Some row' /\
      ag_enabled row' = b /\ ag_published_card row' = ag_published_card row /\
      (b = false -> ag_availability row' = enum_value POLICY_BLOCKED /\
         (agents_unique (db s) -> forall e, e ∈ list_cards false (db s') -> ag_id (ce_row e) <> id)) /\
      (forall k, k <> id -> get_card k (db s') = get_card k (db s)) /\ committed s' = db s'
  | Err _ => same_db s s'
  end.
Proof.
  unfold set_enabled, get_card. unfold bind at 1, draw. unfold bind at 1, select at 1, mgets at 1.
  cbn [db]. destruct (find_agent id (db s)) as [row|] eqn:Ef; [|by intros [= <- <-]].
  unfold bind at 1, mlift. match goal with |- context [match ?x with Ok _ => _ | Err _ => _ end] =>
    destruct x as [av|e] eqn:Ea end; [|by intros [= <- <-]].
  unfold bind, execute, commit, mmodify, on_db. cbn [db tick]. intros [= <- <-]. cbn [db committed].
  set (f := with_enabled b av (utcnow (tick s))).
  set (p := fun x : agent_row => String.eqb (ag_id x) id).
  assert (Hl : forall k, find_agent k (set_agents (update_where p f) (db s))
               = (fun x => if p x then f x else x) <$> find_agent k (db s))
    by (intros k; unfold find_agent; cbn; by rewrite find_first_update).
  exists row, (f row). split; [done|]. pose proof (find_agent_id _ _ _ Ef) as Hid.
  assert (Hp : p row = true) by (unfold p; by rewrite Hid, String.eqb_refl).
  split; [rewrite Hl, Ef; cbn; by rewrite Hp|]. split; [done|]. split; [done|]. split.
  - intros ->. injection Ea as <-. split; [done|]. intros _ e (x & Hx & [?|Hen] & ->)%list_cards_elem; [done|].
    cbn [ce_row]. cbn in Hx. unfold update_where in Hx. apply list_elem_of_fmap in Hx as (y & -> & _).
    destruct (p y) eqn:Ey; [done|]. unfold p in Ey. by apply String.eqb_neq.
  - split; [|done]. intros k Hk. rewrite Hl. destruct (find_agent k (db s)) as [x|] eqn:Ex; [|done].
    cbn. unfold p. rewrite (find_agent_id _ _ _ Ex). apply String.eqb_neq in Hk. by rewrite Hk.
Qed.
End registry.

Module RegistryDemo.
Import AuditDemo.

Definition demo_card : AgentCard :=
  {| card_id := "bot"; card_name := "Bot"; card_description := "A helper";
     adapter := LocalCommandAdapterConfig "run --fast" "/srv/bot";
     capabilities := {| tags := ["review"]; accepts := ["text/plain"]; produces := [] |};
     boundaries := {| network_access := "deny"; filesystem := "workspace_read"; shell := "deny";
                      max_runtime_seconds := 60; max_artifact_bytes := 1024 |};
     autonomy := {| relay_information := ALWAYS_ALLOW; propose_actions := ALWAYS_ASK;
                    execute_local_actions := NEVER |};
     presentation := None |}.

(** A decoder that knows this card. *)
Definition card_env : NodeEnv.
Proof.
  refine {| aes_encrypt _ _ p := p; aes_decrypt _ _ p := Some p;
            urandom12 _ := "0123456789ab"; uuid4 n := "id-" +:+ print_int (Z.of_nat n);
            utcnow _ := "2026-07-23T12:00:00+00:00";
            json_loads s := if String.eqb s (json_dumps dumps_canonical (JObj (AgentCard_dump demo_card)))
                            then Some (JObj (AgentCard_dump demo_card)) else None;
            model_json := json_dumps dumps_canonical |}; done.
Defined.

Definition ints (v : json) : option Z := match v with JInt z => Some z | _ => None end.

Lemma register_card_roundtrip_witness :
  exists s' row, @register_card card_env (fun _ _ => None) (fun _ => true) "key" demo_card None (Some "p")
                   demo_node = (Ok tt, s') /\
    get_card "bot" (db s') = Some row /\ ag_version row = 1%Z /\ ag_enabled row = true.
Proof.
  destruct (@register_card_roundtrip card_env ints (fun _ _ => None) (fun _ => true) (fun z => eq_refl)
    "key" demo_card None (Some "p") demo_node) as (s' & row & text & Hr & _ & _ & Hg & _ & _ & Hv & _ & He & _).
  - apply NoDup_nil_2.
  - vm_compute. reflexivity.
  - vm_compute. reflexivity.
  - exists s', row. split; [exact Hr|]. split; [exact Hg|]. split; [exact Hv|exact He].
Defined.

Lemma set_enabled_effect_witness :
  (@set_enabled card_env ints (fun _ _ => None) (fun _ => true) "ghost" true None None demo_node).1
    = Err "ValueError" /\
  same_db demo_node (@set_enabled card_env ints (fun _ _ => None) (fun _ => true) "ghost" true None None demo_node).2.
Proof.
  split; [reflexivity|].
  exact (@set_enabled_effect card_env ints (fun _ _ => None) (fun _ => true) "ghost" true None None demo_node
    (Err "ValueError") _ eq_refl).
Defined.
End RegistryDemo.
