(* ===== verification/Relay.v ===== *)
(** * The relay service

    [kin-relay/kin_relay/routes.py]: the username directory and the mailboxes
    of encrypted messages.  Every request works on its own connection, so a
    handler is a function from the committed database to its response and the
    database it commits; an uncommitted change is lost when the connection is
    closed.  Signature verification and the two [datetime] conversions are
    operations of the class [RelayEnv]. *)

From Stdlib Require Import Ascii String ZArith Lia.
From stdpp Require Import base gmap sets list strings.
From S2P Require Import Prelude PyValue Codec.

#[local] Open Scope Z_scope.

Class RelayEnv := {
  (** [Ed25519PublicKey.from_public_bytes(key).verify(sig, msg)] returned. *)
  ed25519_verify : bytes -> bytes -> bytes -> bool;
  (** [datetime.isoformat()] of a UTC time in microseconds. *)
  isoformat : Z -> string;
  (** [datetime.fromisoformat], naive times read as UTC. *)
  fromisoformat : string -> option Z
}.

Record directory_entry := {
  d_username : string;
  d_public_key : string;
  d_x25519 : string;
  d_endpoint : string
}.

Record mail := {
  message_id : Z;
  m_username : string;
  m_sender : string;
  m_blob : string;
  m_received_at : string;
  m_expires_at : string
}.

Record relay := {
  directory : list directory_entry;
  mailbox : list mail;
  next_message_id : Z
}.

(** Responses with their status code; errors are [HTTPException]s. *)
Inductive response :=
| Registered
| Lookup (public_key x25519 endpoint : string)
| Queued
| Inbox (messages : list (Z * string * string))
| Acknowledged (count : Z)
| HttpError (status : Z).

Record credentials := {
  x_username : option string;
  x_signature : option string;
  x_timestamp : option string
}.

Definition find_entry (username : string) (s : relay) : option directory_entry :=
  find_first (fun d => String.eqb (d_username d) username) (directory s).

Section relay.
Context `{RelayEnv}.

(** ** Directory *)

Definition register_endpoint (username public_key x25519 endpoint : string) (s : relay)
  : response * relay :=
  match find_entry username s with
  | Some d =>
      if negb (String.eqb (d_public_key d) public_key) then (HttpError 409, s)
      else (Registered,
            {| directory := map (fun e => if String.eqb (d_username e) username
                                          then {| d_username := d_username e;
                                                  d_public_key := d_public_key e;
                                                  d_x25519 := x25519; d_endpoint := endpoint |}
                                          else e) (directory s);
               mailbox := mailbox s; next_message_id := next_message_id s |})
  | None =>
      (Registered,
       {| directory := directory s ++ [{| d_username := username; d_public_key := public_key;
                                          d_x25519 := x25519; d_endpoint := endpoint |}];
          mailbox := mailbox s; next_message_id := next_message_id s |})
  end.

Definition lookup_endpoint (username : string) (s : relay) : response * relay :=
  match find_entry username s with
  | None => (HttpError 404, s)
  | Some d => (Lookup (d_public_key d) (d_x25519 d) (d_endpoint d), s)
  end.

(** ** Mailboxes *)

Definition WEEK : Z := 7 * 24 * 3600 * 1000000.

Definition deliver_to_mailbox (username sender blob : string) (now : Z) (s : relay)
  : response * relay :=
  match find_entry username s with
  | None => (HttpError 404, s)
  | Some _ =>
      (Queued,
       {| directory := directory s;
          mailbox := mailbox s ++ [{| message_id := next_message_id s; m_username := username;
                                      m_sender := sender; m_blob := blob;
                                      m_received_at := isoformat now;
                                      m_expires_at := isoformat (now + WEEK) |}];
          next_message_id := next_message_id s + 1 |})
  end.

Definition REPLAY_WINDOW_MINUTES : Z := 5.

(** The username, or the status of the [HTTPException]. *)
Definition authenticate_inbox_request (c : credentials) (now : Z) (signed_message : option string)
    (s : relay) : result Z string :=
  match x_username c with
  | None => Err 400
  | Some user =>
      match x_signature c with
      | None => Err 400
      | Some sig =>
          match x_timestamp c with
          | None => Err 400
          | Some ts =>
              match fromisoformat ts with
              | None => Err 400
              | Some t =>
                  if REPLAY_WINDOW_MINUTES * 60 * 1000000 <? Z.abs (now - t) then Err 401
                  else match find_entry user s with
                       | None => Err 401
                       | Some d =>
                           match fromhex (d_public_key d), fromhex sig with
                           | Some pk, Some sg =>
                               if ed25519_verify pk sg
                                    (utf8_encode (or_str signed_message (user +:+ ":" +:+ ts)))
                               then Ok user else Err 401
                           | _, _ => Err 401
                           end
                       end
              end
          end
      end
  end.

(** [ORDER BY received_at ASC], rows of the same time in insertion order. *)
Fixpoint insert_mail (m : mail) (l : list mail) : list mail :=
  match l with
  | [] => [m]
  | x :: l' => if String.leb (m_received_at x) (m_received_at m) then x :: insert_mail m l' else m :: l
  end.
Definition by_received (l : list mail) : list mail := foldl (fun acc m => insert_mail m acc) [] l.

Definition is_expired (now_str : string) (m : mail) : bool := String.ltb (m_expires_at m) now_str.

Definition owned (user : string) (m : mail) : bool := String.eqb (m_username m) user.

(** The two readings of the clock are [now] and [now2]. *)
Definition fetch_inbox (c : credentials) (now now2 : Z) (s : relay) : response * relay :=
  match authenticate_inbox_request c now None s with
  | Err code => (HttpError code, s)
  | Ok user =>
      let now_str := isoformat now2 in
      let kept := List.filter (fun m => negb (owned user m && is_expired now_str m)) (mailbox s) in
      match by_received (List.filter (fun m => owned user m && negb (is_expired now_str m)) kept) with
      | [] => (Inbox [], s)
      | rows => (Inbox (map (fun m => (message_id m, m_sender m, m_blob m)) rows),
                 {| directory := directory s; mailbox := kept; next_message_id := next_message_id s |})
      end
  end.

(** [json.dumps({"message_ids": ids}, separators=(",", ":"))]. *)
Definition ack_payload (ids : list Z) : string :=
  json_dumps dumps_canonical (JObj [("message_ids", JList (map JInt ids))]).

Definition opt_text (o : option string) : string := default "None" o.

Definition ack_message (c : credentials) (ids : list Z) : string :=
  opt_text (x_username c) +:+ ":" +:+ opt_text (x_timestamp c) +:+ ":" +:+ ack_payload ids.

(** SQLite refuses to bind a larger integer, and the handler fails. *)
Definition int64 (z : Z) : bool := (- 2 ^ 63 <=? z) && (z <? 2 ^ 63).

Definition acknowledge_inbox (ids : list Z) (c : credentials) (now : Z) (s : relay)
  : response * relay :=
  match authenticate_inbox_request c now (Some (ack_message c ids)) s with
  | Err code => (HttpError code, s)
  | Ok user =>
      match ids with
      | [] => (Acknowledged 0, s)
      | _ =>
          if negb (forallb int64 ids) then (HttpError 500, s) else
          let hit m := owned user m && bool_decide (message_id m ∈ ids) in
          (Acknowledged (Z.of_nat (length (List.filter hit (mailbox s)))),
           {| directory := directory s;
              mailbox := List.filter (fun m => negb (hit m)) (mailbox s);
              next_message_id := next_message_id s |})
      end
  end.

(** ** The service *)

Inductive request :=
| Register (username public_key x25519 endpoint : string)
| LookupUser (username : string)
| Deliver (username sender blob : string) (now : Z)
| Fetch (c : credentials) (now now2 : Z)
| Ack (ids : list Z) (c : credentials) (now : Z).

Definition serve (r : request) (s : relay) : response * relay :=
  match r with
  | Register u k x e => register_endpoint u k x e s
  | LookupUser u => lookup_endpoint u s
  | Deliver u sender blob now => deliver_to_mailbox u sender blob now s
  | Fetch c now now2 => fetch_inbox c now now2 s
  | Ack ids c now => acknowledge_inbox ids c now s
  end.

Inductive served : relay -> list request -> relay -> Prop :=
| served_nil s : served s [] s
| served_cons s r l s' : served (serve r s).2 l s' -> served s (r :: l) s'.

(** ** Authentication *)

(** The request carries a signature of [msg] by the key registered for
    [user], made within the replay window. *)
Definition authentic (c : credentials) (now : Z) (msg : string -> string -> string) (s : relay)
    (user : string) : Prop :=
  exists sig ts t d pk sg,
    x_username c = Some user /\ x_signature c = Some sig /\ x_timestamp c = Some ts /\
    fromisoformat ts = Some t /\ Z.abs (now - t) <= 300000000 /\
    find_entry user s = Some d /\ fromhex (d_public_key d) = Some pk /\ fromhex sig = Some sg /\
    ed25519_verify pk sg (utf8_encode (msg user ts)) = true.

Definition fetch_text (user ts : string) : string := user +:+ ":" +:+ ts.
Definition ack_text (ids : list Z) (user ts : string) : string :=
  user +:+ ":" +:+ ts +:+ ":" +:+ ack_payload ids.

Lemma authenticate_spec c now signed msg s user :
  (forall u ts, x_username c = Some u -> x_timestamp c = Some ts ->
     or_str signed (u +:+ ":" +:+ ts) = msg u ts) ->
  authenticate_inbox_request c now signed s = Ok user -> authentic c now msg s user.
Proof.
  unfold authenticate_inbox_request, authentic. intros Hmsg.
  destruct (x_username c) as [u|]; [|done]. destruct (x_signature c) as [sig|]; [|done].
  destruct (x_timestamp c) as [ts|]; [|done]. destruct (fromisoformat ts) as [t|] eqn:Et; [|done].
  destruct (_ <? _) eqn:Ew; [done|]. apply Z.ltb_ge in Ew.
  destruct (find_entry u s) as [d|] eqn:Ef; [|done].
  destruct (fromhex (d_public_key d)) as [pk|] eqn:Ek; [|done].
  destruct (fromhex sig) as [sg|] eqn:Es; [|done].
  rewrite (Hmsg u ts eq_refl eq_refl). destruct (ed25519_verify _ _ _) eqn:Ev; [|done].
  intros [= <-]. exists sig, ts, t, d, pk, sg. by split_and!.
Qed.

Lemma authenticate_fetch c now s user :
  authenticate_inbox_request c now None s = Ok user -> authentic c now fetch_text s user.
Proof. by apply authenticate_spec. Qed.

Lemma authenticate_ack c now ids s user :
  authenticate_inbox_request c now (Some (ack_message c ids)) s = Ok user ->
  authentic c now (ack_text ids) s user.
Proof.
  apply authenticate_spec. intros u ts Hu Ht. unfold ack_message, ack_text, or_str.
  rewrite Hu, Ht. cbn. by destruct u.
Qed.

(** ** Mailbox lists *)

Lemma insert_mail_perm m l : insert_mail m l ≡ₚ m :: l.
Proof.
  induction l as [|x l IH]; cbn; [done|]. destruct (String.leb _ _); [|done].
  rewrite IH. apply perm_swap.
Qed.

Lemma by_received_perm l : by_received l ≡ₚ l.
Proof.
  unfold by_received. assert (forall acc, foldl (fun acc m => insert_mail m acc) acc l ≡ₚ acc ++ l) as Hg.
  { induction l as [|x l IH]; intros acc; cbn; [by rewrite app_nil_r|].
    rewrite IH, insert_mail_perm. apply Permutation_middle. }
  apply (Hg []).
Qed.

(** What a request of [user] may remove. *)
Definition removable (r : request) (s : relay) (m : mail) : Prop :=
  match r with
  | Ack ids c now => authentic c now (ack_text ids) s (m_username m) /\ message_id m ∈ ids
  | Fetch c now now2 => authentic c now fetch_text s (m_username m) /\
                        is_expired (isoformat now2) m = true
  | _ => False
  end.

Lemma filter_keeps {A} (f : A -> bool) (l : list A) x : x ∈ l -> f x = true -> x ∈ List.filter f l.
Proof. rewrite !list_elem_of_In, List.filter_In. done. Qed.

Lemma serve_keeps_mail r s m :
  m ∈ mailbox s -> m ∈ mailbox (serve r s).2 \/ removable r s m.
Proof.
  intros Hm. destruct r as [u k x e|u|u snd b now|c now now2|ids c now]; cbn [serve].
  - left. unfold register_endpoint. destruct (find_entry u s); [case_match|]; done.
  - left. unfold lookup_endpoint. by destruct (find_entry u s).
  - left. unfold deliver_to_mailbox. destruct (find_entry u s); [|done]. cbn. set_solver.
  - unfold fetch_inbox. destruct (authenticate_inbox_request _ _ _ _) as [user|] eqn:Ea; [|by left].
    apply authenticate_fetch in Ea.
    destruct (owned user m && is_expired (isoformat now2) m) eqn:Eo.
    + right. apply andb_true_iff in Eo as [Ho%String.eqb_eq He]. split; [by rewrite Ho|done].
    + left. destruct (by_received _); [done|]. cbn. apply filter_keeps; [done|]. by rewrite Eo.
  - unfold acknowledge_inbox. destruct (authenticate_inbox_request _ _ _ _) as [user|] eqn:Ea; [|by left].
    apply authenticate_ack in Ea. destruct ids as [|i ids]; [by left|].
    destruct (forallb int64 (i :: ids)); [|by left].
    destruct (owned user m && bool_decide (message_id m ∈ i :: ids)) eqn:Eo.
    + right. apply andb_true_iff in Eo as [Ho%String.eqb_eq He%bool_decide_eq_true].
      split; [by rewrite Ho|done].
    + left. cbn. apply filter_keeps; [done|]. by rewrite Eo.
Qed.

(** C36: The relay loses no mail: a queued message is still in the mailbox
    after any requests unless one of them, in the state it met, was an
    acknowledgement naming it that its owner signed, or an inbox request its
    owner signed when the message had expired. *)
Theorem no_message_lost s l s' m :
  served s l s' -> m ∈ mailbox s ->
  m ∈ mailbox s' \/
  exists l1 r l2 s1, l = l1 ++ r :: l2 /\ served s l1 s1 /\ removable r s1 m.
Proof.
  intros Hs. induction Hs as [s|s r l s' Hs IH]; intros Hm; [by left|].
  destruct (serve_keeps_mail r s m Hm) as [Hm1|Hr].
  - destruct (IH Hm1) as [?|(l1 & r1 & l2 & s1 & -> & Hs1 & Hr1)]; [by left|].
    right. exists (r :: l1), r1, l2, s1. split; [done|]. split; [by constructor|done].
  - right. exists [], r, l, s. split; [done|]. split; [constructor|done].
Qed.

(** Mail of other users. *)
Definition others (user : string) (s : relay) : list mail :=
  List.filter (fun m => negb (owned user m)) (mailbox s).

Lemma filter_absorb {A} (f g : A -> bool) (l : list A) :
  (forall x, f x = true -> g x = true) -> List.filter f (List.filter g l) = List.filter f l.
Proof.
  intros Hfg. induction l as [|x l IH]; [done|]. cbn. destruct (g x) eqn:Eg; cbn; [by rewrite IH|].
  destruct (f x) eqn:Ef; [|done]. rewrite (Hfg x Ef) in Eg. done.
Qed.

(** Mailboxes are private: an inbox request that is answered was signed
    by the key registered for the user within the replay window, and the
    answer is exactly that user's unexpired mail; an acknowledgement that is
    answered was signed over the very ids it names; neither touches the mail
    of another user, and a refused request changes nothing. *)
Theorem mailbox_isolation r s resp s' :
  serve r s = (resp, s') ->
  match r, resp with
  | Fetch c now now2, Inbox msgs => exists user, authentic c now fetch_text s user /\
      msgs ≡ₚ map (fun m => (message_id m, m_sender m, m_blob m))
                  (List.filter (fun m => owned user m && negb (is_expired (isoformat now2) m)) (mailbox s)) /\
      others user s' = others user s
  | Ack ids c now, Acknowledged n => exists user, authentic c now (ack_text ids) s user /\
      others user s' = others user s
  | _, HttpError _ => s' = s
  | _, _ => True
  end.
Proof.
  destruct r as [u k x e|u|u snd b now|c now now2|ids c now]; cbn [serve].
  - unfold register_endpoint. destruct (find_entry u s) as [d|]; [destruct (negb _)|]; by intros [= <- <-].
  - unfold lookup_endpoint. destruct (find_entry u s); by intros [= <- <-].
  - unfold deliver_to_mailbox. destruct (find_entry u s); by intros [= <- <-].
  - unfold fetch_inbox. destruct (authenticate_inbox_request _ _ _ _) as [user|] eqn:Ea; [|by intros [= <- <-]].
    apply authenticate_fetch in Ea. rewrite filter_absorb by (intros y; by destruct (owned user y), (is_expired _ y)).
    set (own := List.filter _ (mailbox s)). pose proof (by_received_perm own) as Hp.
    destruct (by_received own) as [|x rows] eqn:Er; intros [= <- <-]; exists user.
    + split; [done|]. split; [exact (Permutation_map _ Hp)|done].
    + split; [done|]. split; [exact (Permutation_map _ Hp)|]. apply filter_absorb. intros y.
      by destruct (owned user y).
  - unfold acknowledge_inbox. destruct (authenticate_inbox_request _ _ _ _) as [user|] eqn:Ea; [|by intros [= <- <-]].
    apply authenticate_ack in Ea. destruct ids as [|i ids]; [intros [= <- <-]; eauto|].
    destruct (forallb int64 (i :: ids)); [|by intros [= <- <-]]. intros [= <- <-]. exists user. split; [done|].
    apply filter_absorb. intros y. by destruct (owned user y).
Qed.

(** ** The directory *)

Definition keys_kept (s s' : relay) : Prop :=
  forall u d, find_entry u s = Some d ->
    exists d', find_entry u s' = Some d' /\ d_public_key d' = d_public_key d.

#[local] Instance keys_kept_preorder : PreOrder keys_kept.
Proof.
  split; [intros s u d; eauto|]. intros s1 s2 s3 H12 H23 u d Hd.
  destruct (H12 u d Hd) as (d2 & Hd2 & E2). destruct (H23 u d2 Hd2) as (d3 & Hd3 & E3).
  exists d3. split; [done|congruence].
Qed.

Lemma same_directory_keys s s' : directory s' = directory s -> keys_kept s s'.
Proof. intros E u d. unfold find_entry. rewrite E. eauto. Qed.

Lemma update_directory_keys f s s' :
  (forall e, d_username (f e) = d_username e /\ d_public_key (f e) = d_public_key e) ->
  directory s' = map f (directory s) -> keys_kept s s'.
Proof.
  intros Hf E u d. unfold find_entry. rewrite E. clear E.
  induction (directory s) as [|x l IH]; cbn; [done|].
  destruct (Hf x) as [-> Hk]. destruct (String.eqb (d_username x) u); [|exact IH].
  intros [= <-]. eauto.
Qed.

Lemma serve_keys r s : keys_kept s (serve r s).2.
Proof.
  destruct r as [u k x e|u|u snd b now|c now now2|ids c now]; cbn [serve].
  - unfold register_endpoint. destruct (find_entry u s) as [d|] eqn:Ef.
    + destruct (String.eqb (d_public_key d) k); [|reflexivity]. cbn.
      eapply update_directory_keys; [|reflexivity]. intros y. cbn.
      by destruct (String.eqb (d_username y) u).
    + intros v d Hd. exists d. split; [|done]. unfold find_entry in *. cbn. by rewrite find_first_app, Hd.
  - unfold lookup_endpoint. destruct (find_entry u s); reflexivity.
  - unfold deliver_to_mailbox. destruct (find_entry u s); [|reflexivity]. by apply same_directory_keys.
  - unfold fetch_inbox. destruct (authenticate_inbox_request _ _ _ _); [|reflexivity].
    destruct (by_received _); [reflexivity|]. by apply same_directory_keys.
  - unfold acknowledge_inbox. destruct (authenticate_inbox_request _ _ _ _); [|reflexivity].
    destruct ids as [|i ids]; [reflexivity|]. destruct (forallb _ _); [|reflexivity].
    by apply same_directory_keys.
Qed.

(** A username belongs to one key forever: once registered, no sequence
    of requests changes or removes its public key, and registering it with
    another key is refused without effect. *)
Theorem username_permanent s l s' u d :
  served s l s' -> find_entry u s = Some d ->
  exists d', find_entry u s' = Some d' /\ d_public_key d' = d_public_key d /\
    forall k x e, k <> d_public_key d -> register_endpoint u k x e s' = (HttpError 409, s').
Proof.
  intros Hs Hd. assert (keys_kept s s') as Hk.
  { clear Hd. induction Hs as [|s r l s' _ IH]; [reflexivity|]. etrans; [apply serve_keys|done]. }
  destruct (Hk u d Hd) as (d' & Hf & E). exists d'. split_and!; [done..|].
  intros k x e Hne. unfold register_endpoint. rewrite Hf, E.
  destruct (String.eqb_spec (d_public_key d) k); [congruence|done].
Qed.
End relay.

Module RelayDemo.

(** Times are printed as integers, and a signature is valid when it equals
    the first byte of the message. *)
Definition demo_env : RelayEnv :=
  {| ed25519_verify _ sg msg := String.eqb sg (str_take 1 msg); isoformat := print_int;
     fromisoformat t := if String.eqb t "100" then Some 100 else None |}.
#[local] Existing Instance demo_env.

Definition empty : relay := {| directory := []; mailbox := []; next_message_id := 1 |}.

(** ["61"] is the hex form of ["a"], the first byte of alice's messages. *)
Definition alice : credentials :=
  {| x_username := Some "alice"; x_signature := Some "61"; x_timestamp := Some "100" |}.

Definition traffic : list request :=
  [Register "alice" "00" "x" "e"; Deliver "alice" "bob" "blob" 100].
Definition ready : relay := (serve (Deliver "alice" "bob" "blob" 100)
                               (serve (Register "alice" "00" "x" "e") empty).2).2.
Definition waiting : mail :=
  {| message_id := 1; m_username := "alice"; m_sender := "bob"; m_blob := "blob";
     m_received_at := "100"; m_expires_at := "604800000100" |}.

Lemma no_message_lost_witness :
  (serve (Fetch alice 100 100) ready).1 = Inbox [(1, "bob", "blob")] /\
  (waiting ∈ mailbox (serve (Fetch alice 100 100) ready).2 \/
   exists l1 r l2 s1, [Fetch alice 100 100] = l1 ++ r :: l2 /\ served ready l1 s1 /\ removable r s1 waiting).
Proof.
  split; [vm_compute; reflexivity|].
  refine (no_message_lost ready [Fetch alice 100 100] _ waiting _ _).
  - constructor. constructor.
  - vm_compute. left.
Defined.

Lemma mailbox_isolation_witness :
  exists user, authentic alice 100 (ack_text [1]) ready user /\
    others user (serve (Ack [1] alice 100) ready).2 = others user ready.
Proof.
  pose proof (mailbox_isolation (Ack [1] alice 100) ready (serve (Ack [1] alice 100) ready).1
    (serve (Ack [1] alice 100) ready).2 (surjective_pairing _)) as Hi.
  assert (E : (serve (Ack [1] alice 100) ready).1 = Acknowledged 1) by (vm_compute; reflexivity).
  rewrite E in Hi. exact Hi.
Defined.

Lemma username_permanent_witness :
  exists d', find_entry "alice" (serve (Register "alice" "ff" "x" "e") ready).2 = Some d' /\
    d_public_key d' = "00" /\
    forall k x e, k <> "00" ->
      register_endpoint "alice" k x e (serve (Register "alice" "ff" "x" "e") ready).2
      = (HttpError 409, (serve (Register "alice" "ff" "x" "e") ready).2).
Proof.
  refine (username_permanent ready [Register "alice" "ff" "x" "e"] _ "alice"
    {| d_username := "alice"; d_public_key := "00"; d_x25519 := "x"; d_endpoint := "e" |} _ _).
  - constructor. constructor.
  - vm_compute. reflexivity.
Defined.

(** Expired mail stays in the table when the owner has no other mail. *)
Example expired_delete_rolled_back :
  mailbox (serve (Fetch alice 100 700000000000) ready).2 = mailbox ready /\
  is_expired (isoformat 700000000000) waiting = true.
Proof. vm_compute. auto. Qed.

End RelayDemo.
