(* ===== verification/History.v ===== *)
(** * Session history

    [kin/session/history.py]: checkpoints, decisions and outcome cards in the
    session log, the replay of the reviewed evidence and its digest, and
    reruns.  pydantic's lax integer conversion is the parameter [lax_int]. *)

From Stdlib Require Import Ascii String ZArith QArith Lia.
From stdpp Require Import base gmap sets list strings.
From S2P Require Import Prelude Codec PyValue Schemas Transition Reducer Store AuditLog SessionStore.
From S2P Require Import ArtifactVault.

#[local] Open Scope nat_scope.

Record CheckpointRecord := {
  cp_id : string;
  cp_session_id : string;
  cp_event_order : Z;
  cp_created_by : string;
  cp_label : string;
  cp_snapshot : document;
  cp_created_at : string
}.

Record DecisionRecord := {
  dr_id : string;
  dr_session_id : string;
  dr_event_order : Z;
  dr_decided_by : string;
  dr_summary : string;
  dr_rationale : string;
  dr_checkpoint_id : option string;
  dr_created_at : string
}.

Record OutcomeCard := {
  oc_id : string;
  oc_session_id : string;
  oc_event_order : Z;
  oc_status : string;
  oc_summary : string;
  oc_evidence_event_count : Z;
  oc_replay_digest : string;
  oc_created_at : string
}.

Record ReplaySnapshot := {
  rs_session_id : string;
  rs_through : option Z;
  rs_event_count : Z;
  rs_events : list json;
  rs_digest : string
}.

Record FreshAuthorityRerun := {
  fr_source : string;
  fr_rerun : string;
  fr_created_by : string;
  fr_created_at : string
}.

(** Rows of a result list, the first failure winning. *)
Fixpoint rmap {E A B} (f : A -> result E B) (l : list A) : result E (list B) :=
  match l with
  | [] => Ok []
  | x :: l' => let? y := f x in let? ys := rmap f l' in Ok (y :: ys)
  end.

(** [payload[k]]. *)
Definition get_item (k : string) (v : json) : result string json :=
  match v with
  | JObj m => match obj_get k m with Some x => Ok x | None => Err "KeyError" end
  | _ => Err "TypeError"
  end.

(** A required [str] of a model. *)
Definition as_str (v : json) : result string string :=
  match v with JStr s => Ok s | _ => Err "ValidationError" end.

(** [payload.get(k) or d]. *)
Definition get_or (k : string) (d : json) (v : json) : result string json :=
  match v with
  | JObj m => match obj_get k m with
              | Some x => Ok (if json_truthy x then x else d)
              | None => Ok d
              end
  | _ => Err "AttributeError"
  end.

Section history.
Context `{NodeEnv} (vault_key : bytes) (lax_int : json -> option Z).

Definition require_session (session_id : string) : N unit :=
  let* b := select (has_session session_id) in
  if b then ret tt else mraise "ValueError".

(** [json.loads(decrypt_field(vault_key, token) or "{}")]. *)
Definition stored_json (token : option string) : result string json :=
  let? text := decrypt_field vault_key token in
  match json_loads (or_str text "{}") with
  | Some v => Ok v
  | None => Err "JSONDecodeError"
  end.

Definition find_event (event_id : string) (t : tables) : option event_row :=
  find_first (fun r => String.eqb (e_id r) event_id) (session_events t).

Definition load_event (event_id : string) (t : tables) : result string (Z * json * string) :=
  match find_event event_id t with
  | None => Err "RuntimeError"
  | Some r => let? payload := stored_json (e_payload r) in Ok (e_order r, payload, e_created_at r)
  end.

(** [result["event_id"]] of an append without sequence number. *)
Definition appended_id (r : append_result) : result string string :=
  match r with
  | Appended id _ | Duplicate id => Ok id
  | SequenceReuseMismatch => Err "KeyError"
  end.

(** ** Checkpoints and decisions *)

Definition create_checkpoint (session_id created_by label : string) (snapshot : option document)
  : N CheckpointRecord :=
  require_session session_id ;;;
  if negb (truthy (strip label)) then mraise "ValueError"
  else
    let* r := append_session_event vault_key session_id created_by None "checkpoint" "local_only"
      (Some (JObj [("content", JStr (strip label)); ("label", JStr (strip label));
                   ("snapshot", JObj (default [] snapshot))])) None None in
    let* id := mlift (appended_id r) in
    let* ev := select (load_event id) in
    mlift (
      let? ev := ev in
      let '(order, payload, created_at) := ev in
      let? l := get_item "label" payload in
      let? l := as_str l in
      let? snap := get_or "snapshot" (JObj []) payload in
      match snap with
      | JObj snap => Ok {| cp_id := id; cp_session_id := session_id; cp_event_order := order;
                           cp_created_by := created_by; cp_label := l; cp_snapshot := snap;
                           cp_created_at := created_at |}
      | _ => Err "ValidationError"
      end).

Definition is_checkpoint (checkpoint_id session_id : string) (t : tables) : bool :=
  existsb (fun r => String.eqb (e_id r) checkpoint_id && String.eqb (e_session r) session_id
                    && String.eqb (e_kind r) "checkpoint") (session_events t).

Definition create_decision (session_id decided_by summary rationale : string)
    (checkpoint_id : option string) : N DecisionRecord :=
  require_session session_id ;;;
  if negb (truthy (strip summary)) then mraise "ValueError"
  else
    let* ok := match checkpoint_id with
               | None => ret true
               | Some c => select (is_checkpoint c session_id)
               end in
    if negb ok then mraise "ValueError"
    else
      let* r := append_session_event vault_key session_id decided_by None "decision" "local_only"
        (Some (JObj [("content", JStr (strip summary)); ("summary", JStr (strip summary));
                     ("rationale", JStr (strip rationale));
                     ("checkpoint_id", match checkpoint_id with Some c => JStr c | None => JNull end)]))
        None None in
      let* id := mlift (appended_id r) in
      let* ev := select (load_event id) in
      mlift (
        let? ev := ev in
        let '(order, payload, created_at) := ev in
        let? s := get_item "summary" payload in
        let? s := as_str s in
        let? ra := get_or "rationale" (JStr "") payload in
        let? ra := as_str ra in
        let? cp := match payload with JObj m => Ok (obj_get "checkpoint_id" m) | _ => Err "AttributeError" end in
        let? cp := match cp with
                   | None | Some JNull => Ok None
                   | Some (JStr c) => Ok (Some c)
                   | Some _ => Err "ValidationError"
                   end in
        Ok {| dr_id := id; dr_session_id := session_id; dr_event_order := order;
              dr_decided_by := decided_by; dr_summary := s; dr_rationale := ra;
              dr_checkpoint_id := cp; dr_created_at := created_at |}).

(** ** Replay *)

(** The [WHERE] clause without the session. *)
Definition replayable (through : option Z) (r : event_row) : bool :=
  match through with Some n => (e_order r <=? n)%Z | None => true end
  && negb (String.eqb (e_kind r) "private_note")
  && (negb (String.eqb (e_visibility r) "local_only")
      || str_in (e_kind r) ["checkpoint"; "decision"; "outcome"]).

Definition opt_str (o : option string) : json := match o with Some s => JStr s | None => JNull end.

Definition replay_event (r : event_row) : result string json :=
  let? payload := match e_payload r with
                  | None | Some "" => Ok (JObj [])
                  | Some p => stored_json (Some p)
                  end in
  Ok (JObj [("event_order", JInt (e_order r));
            ("sequence", match e_sequence r with Some z => JInt z | None => JNull end);
            ("actor_username", JStr (e_actor r)); ("actor_agent_id", opt_str (e_agent r));
            ("kind", JStr (e_kind r)); ("visibility", JStr (e_visibility r)); ("payload", payload);
            ("signature", opt_str (e_signature r)); ("created_at", JStr (e_created_at r))]).

Definition replay_rows (session_id : string) (through : option Z) (t : tables) : list event_row :=
  by_order (List.filter (replayable through) (events_of session_id t)).

Definition replay_session (session_id : string) (through : option Z) (t : tables)
  : result string ReplaySnapshot :=
  if negb (has_session session_id t) then Err "ValueError"
  else
    let? evs := rmap replay_event (replay_rows session_id through t) in
    Ok {| rs_session_id := session_id; rs_through := through;
          rs_event_count := Z.of_nat (length evs); rs_events := evs;
          rs_digest := hash_text (json_dumps dumps_canonical (JList evs)) |}.

(** ** Outcome cards *)

Definition outcome_of (session_id id : string) (order : Z) (payload : json) (created_at : string)
  : result string OutcomeCard :=
  let? st := get_item "status" payload in
  let? su := get_item "summary" payload in
  let? n := get_item "evidence_event_count" payload in
  let? d := get_item "replay_digest" payload in
  let? st := as_str st in
  let? su := as_str su in
  let? d := as_str d in
  match lax_int n with
  | Some n => if (0 <=? n)%Z && (0 <=? order)%Z
              then Ok {| oc_id := id; oc_session_id := session_id; oc_event_order := order;
                         oc_status := st; oc_summary := su; oc_evidence_event_count := n;
                         oc_replay_digest := d; oc_created_at := created_at |}
              else Err "ValidationError"
  | None => Err "ValidationError"
  end.

(** The outcome event with the highest order. *)
Definition last_outcome (session_id : string) (t : tables) : option event_row :=
  last (by_order (List.filter (fun r => String.eqb (e_kind r) "outcome") (events_of session_id t))).

Definition get_outcome_card (session_id : string) (t : tables) : result string (option OutcomeCard) :=
  match last_outcome session_id t with
  | None => Ok None
  | Some r =>
      let? payload := stored_json (e_payload r) in
      let? c := outcome_of session_id (e_id r) (e_order r) payload (e_created_at r) in
      Ok (Some c)
  end.

Definition outcome_payload (summary st : string) (replay : ReplaySnapshot) : json :=
  let text := if truthy (strip summary) then strip summary
              else "Session ended with status " +:+ st +:+ "." in
  JObj [("content", JStr text); ("summary", JStr text); ("status", JStr st);
        ("evidence_event_count", JInt (rs_event_count replay));
        ("replay_digest", JStr (rs_digest replay))].

Definition create_outcome_card (session_id summary : string) : N OutcomeCard :=
  let* existing := select (get_outcome_card session_id) in
  let* existing := mlift existing in
  match existing with
  | Some c => ret c
  | None =>
      require_session session_id ;;;
      let* row := select (find_session session_id) in
      match row with
      | None => mraise "TypeError"
      | Some row =>
          if negb (str_in (s_status row) TERMINAL_STATES) then mraise "ValueError"
          else
            let* replay := select (replay_session session_id None) in
            let* replay := mlift replay in
            let* r := append_session_event vault_key session_id "system" None "outcome" "local_only"
                        (Some (outcome_payload summary (s_status row) replay)) None None in
            let* id := mlift (appended_id r) in
            let* ev := select (load_event id) in
            mlift (let? ev := ev in
                   let '(order, payload, created_at) := ev in
                   outcome_of session_id id order payload created_at)
      end
  end.

(** ** Reruns *)

(** [uuid.uuid4().hex[:16]]. *)
Definition hex16 (u : string) : string := str_take 16 (remove_dashes u).

Definition rerun_row (id now_str : string) (objective : option string) (r : session_row)
  : session_row :=
  {| s_id := id; s_type := s_type r; s_initiator := s_initiator r; s_receiver := s_receiver r;
     s_status := "draft"; s_objective := objective; s_sender_agent := s_sender_agent r;
     s_receiver_agent := s_receiver_agent r; s_snapshot := s_snapshot r;
     s_turn_limit := s_turn_limit r; s_created_at := now_str; s_updated_at := now_str;
     s_expires_at := None; s_runtime_budget := s_runtime_budget r;
     s_artifact_budget := s_artifact_budget r; s_artifact_bytes := 0;
     s_cost_budget := s_cost_budget r; s_cost := 0; s_terminal_result := None |}.

Definition create_fresh_authority_rerun (source_session_id created_by : string)
    (rerun_session_id now : option string) : N FreshAuthorityRerun :=
  let* row := select (find_session source_session_id) in
  match row with
  | None => mraise "ValueError"
  | Some row =>
      let* new_id := match rerun_session_id with
                     | Some (String _ _ as id) => ret id
                     | _ => let* u := draw uuid4 in ret ("sess_rerun_" +:+ hex16 u)
                     end in
      let* created_at := iso_now now in
      let* plain := mlift (decrypt_field_or_plaintext vault_key (s_objective row)) in
      let* enc := encrypt_field vault_key plain in
      insert_checked (fun t => negb (has_session new_id t))
        (set_sessions (fun l => l ++ [rerun_row new_id created_at enc row])) ;;;
      commit ;;;
      append_session_event vault_key new_id created_by None "rerun_created" "local_only"
        (Some (JObj [("source_session_id", JStr source_session_id); ("fresh_authority", JBool true)]))
        None None ;;;
      write_audit_event vault_key "fresh_authority_rerun"
        ("Fresh-authority rerun draft created from " +:+ source_session_id) (Some new_id)
        (Some created_by)
        (Some (JObj [("source_session_id", JStr source_session_id);
                     ("carried_approval_count", JInt 0)]))
        (Some new_id) ;;;
      ret {| fr_source := source_session_id; fr_rerun := new_id; fr_created_by := created_by;
             fr_created_at := created_at |}
  end.

(** ** Replay is stable *)

Lemma by_order_cons_app (l : list event_row) acc x :
  fold_left (fun acc r => insert_by_order r acc) (l ++ [x]) acc
  = insert_by_order x (fold_left (fun acc r => insert_by_order r acc) l acc).
Proof. by rewrite fold_left_app. Qed.

Lemma filter_nil_tail {A} (f : A -> bool) (l l' : list A) :
  Forall (fun x => f x = false) l' -> List.filter f (l ++ l') = List.filter f l.
Proof.
  intros Hl. rewrite List.filter_app. induction Hl as [|x l' Hx _ IH]; cbn; [by rewrite app_nil_r|].
  by rewrite Hx.
Qed.

Lemma events_of_prefix sid t t' :
  session_events t `prefix_of` session_events t' ->
  exists extra, events_of sid t' = events_of sid t ++ extra.
Proof. intros [l E]. unfold events_of. rewrite E, List.filter_app. eauto. Qed.

(** In a densely numbered log, what follows the first [k] events has order at
    least [k]. *)
Lemma dense_tail_orders sid t l extra :
  orders_dense t -> events_of sid t = l ++ extra ->
  Forall (fun r => (Z.of_nat (length l) <= e_order r)%Z) extra.
Proof.
  intros Hd E. specialize (Hd sid). rewrite E, map_app, length_app, seq_app, fmap_app in Hd.
  apply app_inj_1 in Hd as [_ Hd]; [|by rewrite length_map, length_fmap, length_seq].
  apply Forall_forall. intros r Hr.
  assert (e_order r ∈ map e_order extra) as Hin by (apply list_elem_of_fmap; eauto).
  rewrite Hd in Hin. apply list_elem_of_fmap in Hin as (k & -> & Hk). apply elem_of_seq in Hk. lia.
Qed.

(** Replayed evidence is stable: the replay of a session through an event
    it already has, with its digest, is the same in every later state of the
    append-only log. *)
Theorem replay_immutable sid n t t' :
  orders_dense t' -> session_events t `prefix_of` session_events t' ->
  has_session sid t' = has_session sid t ->
  (n < Z.of_nat (length (events_of sid t)))%Z ->
  replay_session sid (Some n) t' = replay_session sid (Some n) t.
Proof.
  intros Hd Hp Hh Hn. unfold replay_session, replay_rows. rewrite Hh.
  destruct (events_of_prefix sid t t' Hp) as [extra E]. rewrite E, filter_nil_tail; [done|].
  pose proof (dense_tail_orders sid t' _ _ Hd E) as Ho. eapply Forall_impl; [exact Ho|].
  intros r Hr. cbn in Hr. unfold replayable. rewrite (proj2 (Z.leb_gt _ _)) by lia. done.
Qed.

Lemma insert_by_order_elem r l x : x ∈ insert_by_order r l <-> x = r \/ x ∈ l.
Proof. induction l as [|y l IH]; cbn; [set_solver|]. case_match; set_solver. Qed.

Lemma by_order_elem l x : x ∈ by_order l <-> x ∈ l.
Proof.
  unfold by_order. induction l as [|y l IH] using rev_ind; [done|].
  rewrite by_order_cons_app, insert_by_order_elem, IH. set_solver.
Qed.

(** Private notes and unreviewed local events never reach the evidence. *)
Lemma replay_rows_public sid through t r :
  r ∈ replay_rows sid through t ->
  e_session r = sid /\ e_kind r <> "private_note" /\
  (e_visibility r <> "local_only" \/ e_kind r ∈ ["checkpoint"; "decision"; "outcome"]).
Proof.
  unfold replay_rows, events_of, replayable.
  rewrite by_order_elem, !list_elem_of_In, !List.filter_In, <- list_elem_of_In.
  intros [[_ Hs%String.eqb_eq] Hp]. split_bools. split; [done|]. split; [done|].
  apply orb_true_iff in H1 as [Hv|Hk]; [left; by split_bools|right; by apply list_elem_of_In, str_in_spec].
Qed.

(** ** One outcome per session *)

Definition outcomes (sid : string) (t : tables) : list event_row :=
  List.filter (fun r => String.eqb (e_kind r) "outcome") (events_of sid t).

Lemma get_outcome_same sid t t' :
  outcomes sid t' = outcomes sid t -> get_outcome_card sid t' = get_outcome_card sid t.
Proof. unfold get_outcome_card, last_outcome. fold (outcomes sid t') (outcomes sid t). by intros ->. Qed.

Lemma create_outcome_existing sid summary s c :
  get_outcome_card sid (db s) = Ok (Some c) -> create_outcome_card sid summary s = (Ok c, s).
Proof. intros E. unfold create_outcome_card, bind, select, mgets, mlift. by rewrite E. Qed.

Lemma last_outcome_None sid t : last_outcome sid t = None -> outcomes sid t = [].
Proof.
  unfold last_outcome. fold (outcomes sid t). rewrite last_None. intros E.
  destruct (outcomes sid t) as [|r l] eqn:Eo; [done|]. exfalso.
  assert (r ∈ by_order (r :: l)) as Hr by (apply by_order_elem; left). rewrite E in Hr. set_solver.
Qed.

Lemma find_event_snoc row t :
  event_insertable row t = true ->
  find_event (e_id row) (set_events (fun l => l ++ [row]) t) = Some row.
Proof.
  unfold event_insertable, find_event. intros Hi. split_bools. cbn. rewrite find_first_app.
  destruct (find_first _ (session_events t)) as [x|] eqn:E; [|cbn; by rewrite String.eqb_refl].
  apply find_first_Some in E as [Hx He]. exfalso. rewrite <- not_true_iff_false in H2. apply H2.
  apply existsb_exists. exists x. split; [by apply list_elem_of_In|done].
Qed.

Lemma outcomes_snoc sid t row :
  e_session row = sid -> e_kind row = "outcome" ->
  outcomes sid (set_events (fun l => l ++ [row]) t) = outcomes sid t ++ [row].
Proof.
  intros Hs Hk. unfold outcomes, events_of. cbn. rewrite !List.filter_app. cbn.
  rewrite Hs, String.eqb_refl. cbn. by rewrite Hk.
Qed.

(** The outcome event just written is the one read back. *)
Lemma outcome_written_get sid summary s c s' :
  get_outcome_card sid (db s) = Ok None -> create_outcome_card sid summary s = (Ok c, s') ->
  get_outcome_card sid (db s') = Ok (Some c).
Proof.
  intros Hg. unfold create_outcome_card. unfold bind at 1, select at 1, mgets at 1.
  unfold bind at 1, mlift at 1. rewrite Hg. unfold bind at 1, require_session, bind at 1, select at 1, mgets at 1.
  destruct (has_session sid (db s)); [|done]. unfold ret at 1. unfold bind at 1, select at 1, mgets at 1.
  destruct (find_session sid (db s)) as [row|]; [|done].
  destruct (str_in (s_status row) TERMINAL_STATES); [|done]. cbn [negb].
  unfold bind at 1, select at 1, mgets at 1. unfold bind at 1, mlift at 1.
  destruct (replay_session sid None (db s)) as [replay|]; [|done].
  unfold append_session_event. unfold bind at 1 2. unfold ret at 1.
  match goal with |- context [insert_event ?k ?a ?b ?c0 ?d ?e ?f ?g ?h s] =>
    destruct (insert_event k a b c0 d e f g h s) as [r s1] eqn:Ei end.
  apply insert_event_effect in Ei as [(e & -> & _)|(erow & Hw & Hins & Hr)]; [done|].
  destruct Hr as [(-> & _ & new & Hd)|(e & -> & _)]; [|done].
  unfold bind, mlift, appended_id, select, mgets. unfold load_event at 1.
  assert (Hf : find_event (e_id erow) (db s1) = Some erow).
  { rewrite Hd. apply find_event_snoc in Hins. exact Hins. }
  rewrite Hf. destruct Hw as (Hs & _ & _ & Hk & _).
  destruct (stored_json (e_payload erow)) as [payload|] eqn:Ep; [|done]. cbn [rbind].
  intros [= Ho <-]. unfold get_outcome_card, last_outcome. fold (outcomes sid (db s1)).
  assert (outcomes sid (db s1) = [erow]) as ->.
  { rewrite Hd. change (outcomes sid (set_events (fun l => l ++ [erow]) (db s)) = [erow]).
    rewrite outcomes_snoc by done. unfold get_outcome_card in Hg.
    destruct (last_outcome sid (db s)) as [x|] eqn:El; [|by rewrite last_outcome_None].
    exfalso. revert Hg. destruct (stored_json (e_payload x)) as [p|]; [|done]. cbn [rbind].
    destruct (outcome_of sid (e_id x) (e_order x) p (e_created_at x)); cbn; discriminate. }
  cbn [by_order fold_left insert_by_order last]. rewrite Ep. cbn [rbind]. by rewrite Ho.
Qed.

(** A session has one outcome card: once one was created, asking again
    with any summary, in any later state with no other outcome event,
    returns the same card and changes nothing. *)
Theorem outcome_card_idempotent sid summary s c s1 s2 summary' :
  create_outcome_card sid summary s = (Ok c, s1) ->
  outcomes sid (db s2) = outcomes sid (db s1) ->
  create_outcome_card sid summary' s2 = (Ok c, s2).
Proof.
  intros Hc Ho. apply create_outcome_existing. rewrite (get_outcome_same _ _ _ Ho).
  destruct (get_outcome_card sid (db s)) as [[c0|]|e] eqn:Eg.
  - rewrite (create_outcome_existing _ _ _ _ Eg) in Hc. injection Hc as <- <-. done.
  - by eapply outcome_written_get.
  - unfold create_outcome_card, bind, select, mgets, mlift in Hc. rewrite Eg in Hc. done.
Qed.

(** ** Reruns carry no authority *)

Lemma append_tables sid actor agent kind vis payload sig s r s' :
  append_session_event vault_key sid actor agent kind vis payload sig None s = (Ok r, s') ->
  sessions (db s') = sessions (db s) /\ approvals (db s') = approvals (db s) /\
  session_events (db s) `prefix_of` session_events (db s').
Proof.
  intros Ha. destruct (append_effect _ _ _ _ _ _ _ _ _ _ _ _ Ha)
    as [[[new ->] _]|(row & _ & _ & [(_ & _ & new & ->)|(e & ? & _)])]; [done| |done].
  split; [done|]. split; [done|]. by exists [row].
Qed.

Lemma write_audit_tables cat sum sid actor payload cid s id s' :
  write_audit_event vault_key cat sum sid actor payload cid s = (Ok id, s') ->
  sessions (db s') = sessions (db s) /\ approvals (db s') = approvals (db s) /\
  session_events (db s') = session_events (db s).
Proof.
  intros Hw. pose proof (write_audit_only vault_key cat sum sid actor payload cid s) as [new Hd].
  rewrite Hw in Hd. cbn in Hd. by rewrite Hd.
Qed.

(** A rerun starts without authority: it adds one new draft session with
    the parties, agents and limits of the source and none of its spending,
    whose objective decrypts to the source's objective; no approval is
    copied or changed, and the source and its log stay as they were. *)
Theorem rerun_carries_no_authority source by_ rerun now s f s' :
  create_fresh_authority_rerun source by_ rerun now s = (Ok f, s') ->
  approvals (db s') = approvals (db s) /\
  session_events (db s) `prefix_of` session_events (db s') /\
  exists src row plain, find_session source (db s) = Some src /\
    sessions (db s') = sessions (db s) ++ [row] /\ has_session (fr_rerun f) (db s) = false /\
    s_id row = fr_rerun f /\ s_status row = "draft" /\ s_artifact_bytes row = 0%Z /\ s_cost row = 0%Q /\
    (s_initiator row, s_receiver row, s_turn_limit row) = (s_initiator src, s_receiver src, s_turn_limit src) /\
    decrypt_field_or_plaintext vault_key (s_objective src) = Ok plain /\
    decrypt_field vault_key (s_objective row) = Ok plain.
Proof.
  unfold create_fresh_authority_rerun. unfold bind at 1, select at 1, mgets at 1.
  destruct (find_session source (db s)) as [src|]; [|done].
  match goal with |- context [bind ?m _ s] =>
    assert (exists id t, m s = (Ok id, {| db := db s; committed := committed s; tick := t |})) as (id & t & Hid) end.
  { destruct rerun as [[|c r]|]; [|exists (String c r), (tick s); by destruct s|]; by do 2 eexists. }
  unfold bind at 1. rewrite Hid. unfold bind at 1.
  match goal with |- context [iso_now now ?st] => destruct (iso_now_run now st) as (ns & t1 & ->) end.
  cbn [db committed]. unfold bind at 1, mlift at 1.
  destruct (decrypt_field_or_plaintext vault_key (s_objective src)) as [plain|] eqn:Epl; [|done].
  unfold bind at 1. match goal with |- context [encrypt_field vault_key plain ?st] =>
    destruct (decrypt_encrypt vault_key plain st) as (tok & -> & Hdec) end. cbn [db committed tick].
  unfold bind at 1, insert_checked, bind at 1, select at 1, mgets at 1. cbn [db].
  destruct (has_session id (db s)) eqn:Eh; [done|]. cbn [negb]. unfold execute, mmodify at 1.
  unfold bind at 1, commit at 1, mmodify at 1. unfold bind at 1. cbn [on_db db committed tick].
  match goal with |- context [append_session_event ?k ?a ?b ?c ?d ?e ?g ?h None ?st] =>
    destruct (append_session_event k a b c d e g h None st) as [[r|e0] s1] eqn:Ea end; [|done].
  apply append_tables in Ea as (Es & Eap & Eev). cbn in Es, Eap, Eev. unfold bind.
  match goal with |- context [write_audit_event ?k ?a ?b ?c ?d ?e ?g s1] =>
    destruct (write_audit_event k a b c d e g s1) as [[r1|e0] s2] eqn:Ew end; [|done].
  apply write_audit_tables in Ew as (Es2 & Eap2 & Eev2). intros [= <- <-]. cbn.
  rewrite Eap2, Eap, Eev2, Es2, Es. split; [done|]. split; [done|].
  exists src, (rerun_row id ns tok src), plain. by split_and!.
Qed.
End history.

Module HistoryDemo.

(** A decoder that knows the payload of one outcome event. *)
Definition outcome_text : string :=
  json_dumps dumps_sorted (outcome_payload "done" "completed"
    {| rs_session_id := "s1"; rs_through := None; rs_event_count := 0; rs_events := [];
       rs_digest := hash_text "[]" |}).

Definition demo_env : NodeEnv.
Proof.
  refine {| aes_encrypt _ _ p := p; aes_decrypt _ _ p := Some p;
            urandom12 _ := "0123456789ab"; uuid4 n := "id-" +:+ print_int (Z.of_nat n);
            utcnow _ := "2026-07-23T12:00:00+00:00";
            json_loads s := if String.eqb s outcome_text then
              Some (outcome_payload "done" "completed"
                {| rs_session_id := "s1"; rs_through := None; rs_event_count := 0; rs_events := [];
                   rs_digest := hash_text "[]" |}) else Some (JObj []);
            model_json := json_dumps dumps_canonical |}; done.
Defined.
#[local] Existing Instance demo_env.

Definition strict_int (v : json) : option Z := match v with JInt z => Some z | _ => None end.

Definition done_node : node :=
  let t := set_sessions (fun _ => [AuditDemo.session "s1" "completed"]) AuditDemo.demo_tables in
  {| db := t; committed := t; tick := 0 |}.

Definition close (summary : string) (s : node) : result string OutcomeCard * node :=
  create_outcome_card "key" strict_int "s1" summary s.

Lemma outcome_card_idempotent_witness :
  exists c, close "done" done_node = (Ok c, (close "done" done_node).2) /\
    close "again" (close "done" done_node).2 = (Ok c, (close "done" done_node).2).
Proof.
  destruct (close "done" done_node).1 as [c|e] eqn:E; [|vm_compute in E; discriminate].
  assert (Hc : close "done" done_node = (Ok c, (close "done" done_node).2)).
  { rewrite <- E. apply surjective_pairing. }
  exists c. split; [exact Hc|].
  exact (outcome_card_idempotent "key" strict_int "s1" "done" done_node c (close "done" done_node).2
    (close "done" done_node).2 "again" Hc eq_refl).
Defined.

Definition one_event : tables := db (AuditDemo.demo_append AuditDemo.demo_node).2.
Definition two_events : tables :=
  db (@append_session_event AuditDemo.demo_env "key" "s1" "bob" None "private_note" "local_only"
        (Some (JStr "mine")) None None (AuditDemo.demo_append AuditDemo.demo_node).2).2.

Lemma replay_immutable_witness :
  replay_session "key" "s1" (Some 0%Z) two_events = replay_session "key" "s1" (Some 0%Z) one_event /\
  length (events_of "s1" two_events) = 2.
Proof.
  split; [|vm_compute; reflexivity]. apply (replay_immutable "key" "s1" 0 one_event two_events).
  - intros sid. destruct (String.eqb "s1" sid) eqn:Es.
    + apply String.eqb_eq in Es as <-. vm_compute. reflexivity.
    + unfold events_of. replace (List.filter _ _) with (@nil event_row); [reflexivity|].
      vm_compute in Es |- *. rewrite Es. reflexivity.
  - vm_compute. eexists. reflexivity.
  - vm_compute. reflexivity.
  - vm_compute. reflexivity.
Defined.

Lemma rerun_carries_no_authority_witness :
  exists f, (create_fresh_authority_rerun "key" "s1" "alice" (Some "s2") None done_node).1 = Ok f /\
    approvals (db (create_fresh_authority_rerun "key" "s1" "alice" (Some "s2") None done_node).2) = [].
Proof.
  destruct (create_fresh_authority_rerun "key" "s1" "alice" (Some "s2") None done_node).1 as [f|e] eqn:E;
    [|vm_compute in E; discriminate].
  exists f. split; [reflexivity|].
  refine (proj1 (rerun_carries_no_authority "key" "s1" "alice" (Some "s2") None done_node f _ _)).
  rewrite <- E. apply surjective_pairing.
Defined.

End HistoryDemo.
