(* ===== verification/Keychain.v ===== *)
(** * Secrets and profile boundaries

    [kin/identity/storage.py] over a keychain, a map from (service, user) to
    text as the [keyring] library offers it, [kin/identity/resolver.py] and
    the confirmation of [kin/identity/setup.py].  The backend in use, random
    bytes and [Path.resolve] are parameters. *)

From Stdlib Require Import Ascii String ZArith Lia.
From stdpp Require Import base gmap sets list strings.
From S2P Require Import Prelude Regex Codec PyValue Schemas Cards.

#[local] Open Scope nat_scope.

(** ** The keychain *)

Record keychain := {
  kc_store : gmap (string * string) string;
  kc_tick : nat
}.

Abbreviation K := (M keychain string).

(** The backend [keyring.get_keyring()] returns. *)
Record backend := {
  kb_test : bool;
  kb_class : string
}.

Definition SECURE_BACKENDS : list string :=
  ["keyring.backends.Windows.WinVaultKeyring"; "keyring.backends.macOS.Keychain";
   "keyring.backends.SecretService.Keyring"; "keyring.backends.kwallet.DBusKeyring"].

Definition get_password (service user : string) : K (option string) :=
  mgets (fun k => kc_store k !! (service, user)).
Definition set_password (service user value : string) : K unit :=
  mmodify (fun k => {| kc_store := <[(service, user) := value]> (kc_store k); kc_tick := kc_tick k |}).

Definition get_private_key_service (profile : string) : string := "kin-" +:+ profile +:+ "-private-key".
Definition get_x25519_private_key_service (profile : string) : string :=
  "kin-" +:+ profile +:+ "-x25519-private-key".
Definition get_vault_key_service (profile : string) : string := "kin-" +:+ profile +:+ "-vault-key".
Definition get_llm_api_key_service (profile provider : string) : string :=
  "kin-" +:+ profile +:+ "-llm-" +:+ lower provider.
Definition get_agent_credential_service (profile agent_id purpose : string) : string :=
  "kin-" +:+ profile +:+ "-agent-" +:+ agent_id +:+ "-" +:+ purpose.

Section secrets.
Context (kr : backend) (urandom32 : nat -> bytes).

Definition assert_secure_backend : K unit :=
  if kb_test kr || str_in (kb_class kr) SECURE_BACKENDS then ret tt else mraise "InsecureBackendError".

Definition get_or_create_vault_key (profile : string) : K bytes :=
  assert_secure_backend ;;;
  let service := get_vault_key_service profile in
  let* hex_key := get_password service "vault_key" in
  match hex_key with
  | None =>
      fun k =>
        let key := urandom32 (kc_tick k) in
        (set_password service "vault_key" (hexlify key) ;;; ret key)
          {| kc_store := kc_store k; kc_tick := S (kc_tick k) |}
  | Some h => match fromhex h with
              | Some b => ret b
              | None => mraise "SecretNotFoundError"
              end
  end.

(** The body the hex-encoded secrets share. *)
Definition save_hex (service user : string) (secret : bytes) : K unit :=
  assert_secure_backend ;;; set_password service user (hexlify secret).
Definition load_hex (service user : string) : K bytes :=
  let* hex_key := get_password service user in
  match hex_key with
  | None => mraise "SecretNotFoundError"
  | Some h => match fromhex h with
              | Some b => ret b
              | None => mraise "SecretNotFoundError"
              end
  end.

Definition save_private_key (profile : string) (key : bytes) : K unit :=
  save_hex (get_private_key_service profile) "private_key" key.
Definition load_private_key (profile : string) : K bytes :=
  load_hex (get_private_key_service profile) "private_key".
Definition save_x25519_private_key (profile : string) (key : bytes) : K unit :=
  save_hex (get_x25519_private_key_service profile) "x25519_private_key" key.
Definition load_x25519_private_key (profile : string) : K bytes :=
  load_hex (get_x25519_private_key_service profile) "x25519_private_key".

Definition save_llm_api_key (profile provider api_key : string) : K unit :=
  assert_secure_backend ;;; set_password (get_llm_api_key_service profile provider) "api_key" api_key.
Definition load_llm_api_key (profile provider : string) : K string :=
  let* k := get_password (get_llm_api_key_service profile provider) "api_key" in
  match k with Some v => ret v | None => mraise "SecretNotFoundError" end.

(** ** Slots *)

Lemma service_inj pre suf a b : pre +:+ a +:+ suf = pre +:+ b +:+ suf -> a = b.
Proof. intros He. apply str_app_inj_l in He. by apply str_app_inj_r in He. Qed.

Inductive slot :=
| OwnerKey (profile : string)
| X25519Key (profile : string)
| VaultKey (profile : string).

Definition slot_key (s : slot) : string * string :=
  match s with
  | OwnerKey p => (get_private_key_service p, "private_key")
  | X25519Key p => (get_x25519_private_key_service p, "x25519_private_key")
  | VaultKey p => (get_vault_key_service p, "vault_key")
  end.

(** No two slots share an entry, although a profile named [a-x25519] has the
    service name of another profile's exchange key. *)
Lemma slot_key_inj s1 s2 : slot_key s1 = slot_key s2 -> s1 = s2.
Proof.
  destruct s1 as [a|a|a], s2 as [b|b|b]; intros He; try discriminate He;
    apply (f_equal fst) in He; cbn [fst slot_key] in He; f_equal; eapply (service_inj "kin-"); exact He.
Qed.

(** Storing a key of 32 bytes or any other length in its slot. *)
Definition save_slot (s : slot) (secret : bytes) : K unit :=
  match s with
  | OwnerKey p => save_private_key p secret
  | X25519Key p => save_x25519_private_key p secret
  | VaultKey p => save_hex (get_vault_key_service p) "vault_key" secret
  end.
Definition load_slot (s : slot) : K bytes :=
  match s with
  | OwnerKey p => load_private_key p
  | X25519Key p => load_x25519_private_key p
  | VaultKey p => get_or_create_vault_key p
  end.

Definition secure : Prop := kb_test kr || str_in (kb_class kr) SECURE_BACKENDS = true.

Lemma save_slot_run sl secret k :
  save_slot sl secret k =
  if kb_test kr || str_in (kb_class kr) SECURE_BACKENDS
  then (Ok tt, {| kc_store := <[slot_key sl := hexlify secret]> (kc_store k); kc_tick := kc_tick k |})
  else (Err "InsecureBackendError", k).
Proof.
  destruct sl; cbn [save_slot slot_key]; unfold save_private_key, save_x25519_private_key, save_hex,
    assert_secure_backend; by destruct (_ || _).
Qed.

Lemma load_slot_run sl k :
  secure -> (load_slot sl k).1 =
  match kc_store k !! slot_key sl with
  | Some h => match fromhex h with Some b => Ok b | None => Err "SecretNotFoundError" end
  | None => match sl with
            | VaultKey _ => Ok (urandom32 (kc_tick k))
            | _ => Err "SecretNotFoundError"
            end
  end.
Proof.
  unfold secure. intros Hs. destruct sl as [p|p|p]; cbn [load_slot slot_key];
    unfold load_private_key, load_x25519_private_key, load_hex, get_or_create_vault_key,
      assert_secure_backend; try rewrite Hs;
    cbv beta iota zeta delta [bind ret get_password mgets mraise set_password mmodify];
    (destruct (kc_store k !! _) as [h|]; [by destruct (fromhex h)|done]).
Qed.

(** Secrets survive storage and stay apart: on a secure backend a key
    saved in a slot is the key loaded from it, whatever was there before, and
    no other slot of any profile changes, although the service names of two
    profiles can coincide; the vault key, once it exists, is never replaced;
    on an insecure backend nothing is stored. *)
Theorem keychain_roundtrip sl secret k :
  (secure ->
     exists k', save_slot sl secret k = (Ok tt, k') /\ (load_slot sl k').1 = Ok secret /\
       (forall sl', sl' <> sl -> (load_slot sl' k').1 = (load_slot sl' k).1) /\
       (forall p, (load_slot (VaultKey p) (load_slot (VaultKey p) k).2).1 = (load_slot (VaultKey p) k).1)) /\
  (~ secure -> save_slot sl secret k = (Err "InsecureBackendError", k)).
Proof.
  rewrite save_slot_run. unfold secure at 2. split.
  - intros Hs. rewrite Hs. eexists. split; [reflexivity|].
    rewrite load_slot_run by done. cbn [kc_store kc_tick]. rewrite lookup_insert_eq, fromhex_hexlify.
    split; [done|]. split.
    + intros sl' Hne. rewrite !load_slot_run by done. cbn [kc_store kc_tick]. rewrite lookup_insert_ne; [done|].
      intros He. by apply slot_key_inj in He.
    + intros p. rewrite !load_slot_run by done. cbn [load_slot]. unfold get_or_create_vault_key, assert_secure_backend.
      rewrite Hs. cbv beta iota zeta delta [bind ret get_password mgets mraise set_password mmodify].
      change (get_vault_key_service p, "vault_key") with (slot_key (VaultKey p)).
      destruct (kc_store k !! slot_key (VaultKey p)) as [h|] eqn:Eh.
      * destruct (fromhex h) eqn:Ef; cbn [snd]; by rewrite Eh, Ef.
      * cbn [snd kc_store kc_tick]. by rewrite lookup_insert_eq, fromhex_hexlify.
  - intros Hn. by destruct (_ || _).
Qed.
End secrets.

(** The LLM key of a profile and a provider is stored under a name that
    another profile and provider can have. *)
Example llm_services_collide :
  get_llm_api_key_service "a" "b-llm-c" = get_llm_api_key_service "a-llm-b" "c".
Proof. reflexivity. Qed.

(** ** Profile boundaries *)

Section resolver.
(** [Path.resolve] of a path given as text: its segments below the root. *)
Context (resolve : string -> list string).

Definition PROFILE_NAME_REGEX (s : string) : bool := re_match_dollar (rplus (RChr cc_id)) s.

Record ProfileContextResolver := {
  active_profile : string;
  root_dir : list string;
  profile_dir : list string
}.

(** A path as text, and [base / relative]. *)
Definition path_text (segments : list string) : string := "/" +:+ String.concat "/" segments.
Definition path_join (base : list string) (relative : string) : string :=
  if startswith "/" relative then relative else path_text base +:+ "/" +:+ relative.

Definition new_resolver (profile root : string) : result string ProfileContextResolver :=
  if PROFILE_NAME_REGEX profile then
    let r := resolve root in
    Ok {| active_profile := profile; root_dir := r;
          profile_dir := resolve (path_join r ("profiles/" +:+ profile)) |}
  else Err "ValueError".

(** [p.is_relative_to(base)]. *)
Definition is_relative_to (p base : list string) : bool := bool_decide (take (length base) p = base).

Definition resolve_profile_path (r : ProfileContextResolver) (target relative : string)
  : result string (list string) :=
  if negb (PROFILE_NAME_REGEX target) then Err "ValueError"
  else if negb (String.eqb target (active_profile r)) then Err "AccessBoundaryViolation"
  else let p := resolve (path_join (profile_dir r) relative) in
       if is_relative_to p (profile_dir r) then Ok p else Err "AccessBoundaryViolation".

Definition resolve_keychain_service (r : ProfileContextResolver) (target service_type : string)
    (provider : option string) : result string string :=
  if negb (PROFILE_NAME_REGEX target) then Err "ValueError"
  else if negb (String.eqb target (active_profile r)) then Err "AccessBoundaryViolation"
  else if String.eqb service_type "private_key" then Ok (get_private_key_service (active_profile r))
  else if String.eqb service_type "x25519_private_key"
  then Ok (get_x25519_private_key_service (active_profile r))
  else match provider with
       | Some (String _ _ as p) =>
           if String.eqb service_type "llm_api_key" then Ok (get_llm_api_key_service (active_profile r) p)
           else Err "ValueError"
       | _ => Err "ValueError"
       end.

Lemma is_relative_to_spec p base : is_relative_to p base = true <-> base `prefix_of` p.
Proof.
  unfold is_relative_to. rewrite bool_decide_eq_true. split.
  - intros <-. exists (drop (length base) p). by rewrite take_drop.
  - intros [k ->]. by rewrite take_app_length.
Qed.

(** A profile cannot leave its directory: a path is handed out only for the
    active profile and lies below the directory of that profile, whatever the
    relative path and the links of the file system are; every other request
    is refused. *)
Theorem profile_paths_confined r target relative :
  match resolve_profile_path r target relative with
  | Ok p => target = active_profile r /\ profile_dir r `prefix_of` p /\
            p = resolve (path_join (profile_dir r) relative)
  | Err e => e = "ValueError" /\ PROFILE_NAME_REGEX target = false \/
             e = "AccessBoundaryViolation" /\
             (target <> active_profile r \/
              ~ profile_dir r `prefix_of` resolve (path_join (profile_dir r) relative))
  end.
Proof.
  unfold resolve_profile_path. destruct (PROFILE_NAME_REGEX target); cbn [negb]; [|by left].
  destruct (String.eqb target (active_profile r)) eqn:Et; cbn [negb].
  - apply String.eqb_eq in Et. destruct (is_relative_to _ _) eqn:Er.
    + by apply is_relative_to_spec in Er.
    + right. split; [done|]. right. rewrite <- is_relative_to_spec. by rewrite Er.
  - apply String.eqb_neq in Et. right. split; [done|]. by left.
Qed.
End resolver.

(** ** Confirmation of the recovery phrase *)

(** [s.split()]. *)
Fixpoint split_words (s : string) : list string :=
  match s with
  | "" => []
  | String c s' =>
      if is_space c then split_words s'
      else match s' with
           | "" => [String c ""]
           | String d _ =>
               if is_space d then String c "" :: split_words s'
               else match split_words s' with
                    | [] => [String c ""]
                    | w :: ws => String c w :: ws
                    end
           end
  end.

Definition same_word (a b : string) : bool := String.eqb (strip (lower a)) (strip (lower b)).

Definition verify_phrase_confirmation (phrase : string) (word_indices : list Z)
    (user_input : list string) : bool :=
  let words := split_words (strip phrase) in
  Nat.eqb (length word_indices) (length user_input)
  && forallb (fun iw : Z * string =>
       (0 <=? iw.1)%Z
       && match nth_error words (Z.to_nat iw.1) with Some w => same_word w iw.2 | None => false end)
     (zip word_indices user_input).

Lemma confirmation_exact phrase indices input :
  verify_phrase_confirmation phrase indices input = true <->
  Forall2 (fun i w => (0 <= i)%Z /\ exists x,
    nth_error (split_words (strip phrase)) (Z.to_nat i) = Some x /\ same_word x w = true) indices input.
Proof.
  unfold verify_phrase_confirmation. rewrite andb_true_iff, Nat.eqb_eq, forallb_forall. split.
  - intros [Hl Hf]. induction indices as [|i indices IH] in input, Hl, Hf |- *; destruct input as [|w input];
      try done. constructor; [|apply IH; [by injection Hl|intros x Hx; apply Hf; by right]].
    specialize (Hf (i, w) (or_introl eq_refl)). cbn in Hf. apply andb_true_iff in Hf as [Hi%Z.leb_le Hn].
    split; [done|]. destruct (nth_error _ _) as [x|]; [by exists x|done].
  - induction 1 as [|i w indices input (Hi & x & Hx & Hw) _ [IH1 IH2]]; [done|]. split; [cbn; by rewrite IH1|].
    intros [i' w'] [[= <- <-]|Hin]; [|by apply IH2]. cbn. rewrite Hx, Hw. by apply Z.leb_le in Hi as ->.
Qed.

Module KeychainDemo.

Definition os_backend : backend := {| kb_test := false; kb_class := "keyring.backends.macOS.Keychain" |}.
Definition plain_backend : backend := {| kb_test := false; kb_class := "keyring.backends.fail.Keyring" |}.
Definition fresh : keychain := {| kc_store := ∅; kc_tick := 0 |}.

Lemma keychain_roundtrip_witness :
  (load_slot os_backend (fun _ => "seed") (OwnerKey "ann")
     (save_slot os_backend (OwnerKey "ann") "key" fresh).2).1 = Ok "key".
Proof.
  destruct (proj1 (keychain_roundtrip os_backend (fun _ => "seed") (OwnerKey "ann") "key" fresh) eq_refl)
    as (k' & Hs & Hl & _).
  rewrite Hs. exact Hl.
Defined.

Example plain_refused : (save_slot plain_backend (OwnerKey "ann") "key" fresh).1 = Err "InsecureBackendError".
Proof. vm_compute. reflexivity. Qed.

Example confirmed : verify_phrase_confirmation " apple  Banana cherry" [1%Z; 2%Z] ["banana "; "CHERRY"] = true.
Proof. vm_compute. reflexivity. Qed.

End KeychainDemo.
