(* ===== verification/CardFiles.v ===== *)
(** * Agent card files

    [kin/agent_registry/loader.py], the directory scan and the import of
    [kin/agent_registry/registry.py], and the [agent] commands of [kin/cli.py]
    on top of them.  A directory is a map from file names to texts; the YAML
    parser is a parameter that gives a document or fails. *)

From Stdlib Require Import Ascii String ZArith Lia.
From stdpp Require Import base gmap sets list strings.
From S2P Require Import Prelude Regex Codec PyValue Schemas Cards Store AuditLog SessionStore Keychain Registry.

#[local] Open Scope nat_scope.

Definition CardLoadError : string := "CardLoadError".

(** [path.stem]: the name up to its last dot, when that is neither the first
    nor the last character. *)
Fixpoint cut_last_dot (s : string) : option string :=
  match s with
  | "" => None
  | String c s' =>
      match cut_last_dot s' with
      | Some p => Some (String c p)
      | None => if Ascii.eqb c "." then Some "" else None
      end
  end.
Definition stem (file : string) : string :=
  match cut_last_dot file with
  | Some (String _ _ as p) => if String.eqb (p +:+ ".") file then file else p
  | _ => file
  end.

Abbreviation has_suffix := endswith (only parsing).

(** The files of a directory, [None] when it does not exist. *)
Abbreviation directory := (option (gmap string string)).

Definition webhook_reference (card : AgentCard) : option string :=
  match adapter card with WebhookAdapterConfig _ credential_ref => Some credential_ref | _ => None end.

Section card_files.
Context `{NodeEnv} (lax_int : json -> option Z).
Context (webhook_secret : string -> string -> option string) (is_dir : string -> bool).
(** [yaml.safe_load] of a text; [None] when it raises. *)
Context (safe_load : string -> option json).

(** ** Loading a file *)

Definition is_v11_card_file (raw : option json) : bool :=
  match raw with
  | Some (JObj d) => bool_decide (obj_get "schema_version" d = Some (JStr "1.1"))
  | _ => false
  end.

Definition reference_fits (profile : string) (card : AgentCard) : bool :=
  match webhook_reference card with
  | Some ref => String.eqb ref (get_agent_credential_service profile (card_id card) "webhook_secret")
  | None => true
  end.

(** [content] is [None] when there is no such file. *)
Definition load_card_file (content : option string) (expected_agent_id profile_name : option string)
  : result string AgentCard :=
  match content with
  | None => Err CardLoadError
  | Some text =>
      match safe_load text with
      | Some (JObj raw) =>
          if negb (is_v11_card_file (Some (JObj raw))) then Err CardLoadError
          else match AgentCard_validate lax_int raw with
               | None => Err CardLoadError
               | Some card =>
                   let? _ := match expected_agent_id with
                             | Some i => ensure (String.eqb (card_id card) i) CardLoadError
                             | None => Ok tt
                             end in
                   let? _ := match profile_name with
                             | Some p => ensure (reference_fits p card) CardLoadError
                             | None => Ok tt
                             end in
                   Ok card
               end
      | _ => Err CardLoadError
      end
  end.

(** ** Scanning a directory *)

Record scan_result := {
  valid_cards : list AgentCard;
  per_file_errors : list string;
  legacy_skipped : list string
}.

Definition yaml_files (dir : gmap string string) : list string :=
  let names := map fst (map_to_list dir) in
  order_by String.leb (List.filter (has_suffix ".yaml") names ++ List.filter (has_suffix ".yml") names).

(** The loop: an entry for every file, in order. *)
Fixpoint scan_files (dir : gmap string string) (profile_name : option string) (names : list string)
    (acc : scan_result) : scan_result :=
  match names with
  | [] => acc
  | f :: rest =>
      scan_files dir profile_name rest
        (if negb (is_v11_card_file (text ← dir !! f; safe_load text)) then
           {| valid_cards := valid_cards acc; per_file_errors := per_file_errors acc;
              legacy_skipped := legacy_skipped acc ++ [f] |}
         else
           match (let? card := load_card_file (dir !! f) (Some (stem f)) profile_name in
                  if str_in (card_id card) (map card_id (valid_cards acc)) then Err CardLoadError
                  else Ok card) with
           | Ok card => {| valid_cards := valid_cards acc ++ [card];
                           per_file_errors := per_file_errors acc; legacy_skipped := legacy_skipped acc |}
           | Err _ => {| valid_cards := valid_cards acc;
                         per_file_errors := per_file_errors acc ++ [f]; legacy_skipped := legacy_skipped acc |}
           end)
  end.

Definition empty_scan : scan_result := {| valid_cards := []; per_file_errors := []; legacy_skipped := [] |}.

Definition scan_local_cards (agents_dir : directory) (profile_name : option string) : scan_result :=
  match agents_dir with
  | None => empty_scan
  | Some dir => scan_files dir profile_name (yaml_files dir) empty_scan
  end.

(** ** Importing *)

(** The profile: its database and its agents directory. *)
Record shelf := { sh_node : node; sh_agents : directory }.

Abbreviation F := (M shelf string).

Definition on_shelf {A} (m : N A) : F A :=
  fun s => let '(r, n) := m (sh_node s) in (r, {| sh_node := n; sh_agents := sh_agents s |}).

Definition put_file (name text : string) (s : shelf) : shelf :=
  {| sh_node := sh_node s; sh_agents := Some (<[name := text]> (default ∅ (sh_agents s))) |}.

(** The file to import: one of the agents directory, or one outside of it. *)
Inductive source_file :=
| Inside (name : string)
| Outside (content : option string).

Definition source_content (src : source_file) (agents_dir : directory) : option string :=
  match src with
  | Inside f => d ← agents_dir; d !! f
  | Outside c => c
  end.

Definition is_destination (src : source_file) (dest : string) : bool :=
  match src with Inside f => String.eqb f dest | Outside _ => false end.

(** [agents_dir.mkdir(parents=True, exist_ok=True)]. *)
Definition make_agents_dir : F unit :=
  mmodify (fun s => {| sh_node := sh_node s; sh_agents := Some (default ∅ (sh_agents s)) |}).

Definition import_card (vault_key : bytes) (profile : string) (src : source_file) : F AgentCard :=
  make_agents_dir ;;;
  let* dir := mgets sh_agents in
  let* card := mlift (load_card_file (source_content src dir) None (Some profile)) in
  let dest := card_id card +:+ ".yaml" in
  let exists_ := bool_decide (is_Some (default ∅ dir !! dest)) in
  if exists_ && negb (is_destination src dest) then mraise CardLoadError
  else if str_in (card_id card) (map card_id (valid_cards (scan_local_cards dir (Some profile)))) && negb exists_
  then mraise CardLoadError
  else
    (if is_destination src dest then ret tt
     else mmodify (put_file dest (default "" (source_content src dir)))) ;;;
    on_shelf (register_card webhook_secret is_dir vault_key card None (Some profile)) ;;;
    ret card.

(** ** The commands *)

Fixpoint register_all (vault_key : bytes) (profile : string) (cards : list AgentCard) : N unit :=
  match cards with
  | [] => ret tt
  | c :: rest => register_card webhook_secret is_dir vault_key c None (Some profile) ;;;
                 register_all vault_key profile rest
  end.

(** [agent list]: scan, register what is valid, list every row. *)
Definition agent_list (vault_key : bytes) (profile : string) : F (list card_entry * scan_result) :=
  let* dir := mgets sh_agents in
  let scan := scan_local_cards dir (Some profile) in
  on_shelf (register_all vault_key profile (valid_cards scan)) ;;;
  let* cards := on_shelf (select (list_cards true)) in
  if forallb (fun e => match enum_of (A := AgentAvailability) (ag_availability (ce_row e)) with
                       | Some _ => true
                       | None => false
                       end) cards
  then ret (cards, scan)
  else mraise "ValueError".

Definition Exit1 : string := "typer.Exit(1)".

(** The stored card of an agent, decrypted. *)
Definition stored_card (vault_key : bytes) (r : agent_row) : result string AgentCard :=
  let? text := decrypt_field vault_key (ag_local_card r) in
  match text with
  | None => Err Exit1
  | Some t => match AgentCard_validate_json lax_int t with Some c => Ok c | None => Err "ValidationError" end
  end.

(** [agent inspect]: the card with the availability computed now. *)
Definition agent_inspect (vault_key : bytes) (profile agent_id : string) (t : tables)
  : result string (AgentCard * AgentAvailability) :=
  match get_card agent_id t with
  | None => Err Exit1
  | Some r =>
      let? card := stored_card vault_key r in
      Ok (card, compute_availability webhook_secret is_dir card profile READY (ag_enabled r))
  end.

(** [agent publish]: the projection of an enabled card; nothing is sent. *)
Definition agent_publish (vault_key : bytes) (profile agent_id : string) (t : tables)
  : result string PublishedAgentCard :=
  match get_card agent_id t with
  | None => Err Exit1
  | Some r =>
      if negb (ag_enabled r) then Err Exit1
      else
        let? card := stored_card vault_key r in
        Ok (with_availability (compute_availability webhook_secret is_dir card profile READY (ag_enabled r))
              (publish_card card))
  end.

(** [agent validate]: the id of a card file that would load. *)
Definition agent_validate (content : option string) (profile : string) : result string string :=
  match load_card_file content None (Some profile) with
  | Ok card => Ok (card_id card)
  | Err _ => Err Exit1
  end.

(** [agent enable] and [agent disable]. *)
Definition agent_switch (vault_key : bytes) (profile agent_id : string) (enabled : bool) : N unit :=
  mcatch (set_enabled lax_int webhook_secret is_dir agent_id enabled (Some profile) (Some vault_key))
    (fun _ => rollback ;;; mraise Exit1).
End card_files.

Section scan_props.
Context `{NodeEnv} (lax_int : json -> option Z).
Context (webhook_secret : string -> string -> option string) (is_dir : string -> bool).
Context (safe_load : string -> option json).

Abbreviation load := (load_card_file lax_int safe_load).
Abbreviation scan_loop := (scan_files lax_int safe_load).
Abbreviation scan := (scan_local_cards lax_int safe_load).
Abbreviation ids := (map card_id).

(** Loading is validating the document and two checks on the card. *)
Lemma load_card_spec content i p c :
  load content i p = Ok c <->
  exists text raw, content = Some text /\ safe_load text = Some (JObj raw) /\
    obj_get "schema_version" raw = Some (JStr "1.1") /\ AgentCard_validate lax_int raw = Some c /\
    (forall x, i = Some x -> card_id c = x) /\ (forall x, p = Some x -> reference_fits x c = true).
Proof.
  unfold load_card_file. split.
  - destruct content as [text|]; [|done]. destruct (safe_load text) as [[| | | | | |raw]|] eqn:Es; try done.
    cbn [is_v11_card_file]. destruct (bool_decide_reflect (obj_get "schema_version" raw = Some (JStr "1.1"))); [|done].
    cbn [negb]. destruct (AgentCard_validate lax_int raw) as [card|] eqn:Ev; [|done].
    destruct i as [x|], p as [y|]; cbn [rbind]; unfold ensure;
      repeat match goal with |- context [if ?b then Ok tt else _] => destruct b eqn:?; [|done]; cbn [rbind] end;
      intros [= <-]; exists text, raw; split_and!; try done; intros ? [= <-];
      first [by apply String.eqb_eq|done].
  - intros (text & raw & -> & -> & Hv & -> & Hi & Hp). cbn [is_v11_card_file].
    rewrite bool_decide_eq_true_2 by done. cbn [negb].
    destruct i as [x|]; cbn [rbind]; unfold ensure.
    + rewrite (Hi x eq_refl), String.eqb_refl. cbn [rbind]. destruct p as [y|]; [|done]. by rewrite (Hp y eq_refl).
    + destruct p as [y|]; [|done]. by rewrite (Hp y eq_refl).
Qed.

Lemma load_card_v11 content i p c :
  load content i p = Ok c -> is_v11_card_file (text ← content; safe_load text) = true.
Proof.
  intros (text & raw & -> & Hs & Hv & _)%load_card_spec. cbn. rewrite Hs. cbn. by apply bool_decide_eq_true.
Qed.

(** The file was loaded and its card kept, whatever came before. *)
Definition loads (dir : gmap string string) (p : option string) (f : string) (c : AgentCard) : Prop :=
  load (dir !! f) (Some (stem f)) p = Ok c.

Definition scan_step (dir : gmap string string) (p : option string) (f : string) (acc acc' : scan_result) : Prop :=
  (valid_cards acc' = valid_cards acc /\ forall c, loads dir p f c -> card_id c ∈ ids (valid_cards acc)) \/
  (exists c, valid_cards acc' = valid_cards acc ++ [c] /\ loads dir p f c /\ card_id c ∉ ids (valid_cards acc)).

Lemma scan_loop_cons dir p f names acc :
  exists acc', scan_loop dir p (f :: names) acc = scan_loop dir p names acc' /\ scan_step dir p f acc acc'.
Proof.
  cbn [scan_files]. eexists. split; [reflexivity|]. unfold scan_step, loads.
  destruct (is_v11_card_file (text ← dir !! f; safe_load text)) eqn:Ev; cbn [negb].
  - destruct (load (dir !! f) (Some (stem f)) p) as [c|e]; cbn [rbind]; [|left; split; [done|discriminate]].
    destruct (str_in (card_id c) (ids (valid_cards acc))) eqn:Ei.
    + left. split; [done|]. intros c' [= <-]. by apply str_in_spec.
    + right. exists c. split; [done|]. split; [done|]. intros Hin%str_in_spec. congruence.
  - left. split; [done|]. intros c Hc. apply load_card_v11 in Hc. congruence.
Qed.

Lemma scan_loop_valid dir p names acc c :
  c ∈ valid_cards (scan_loop dir p names acc) ->
  c ∈ valid_cards acc \/ exists f, f ∈ names /\ loads dir p f c.
Proof.
  revert acc. induction names as [|f names IH]; intros acc; [by left|].
  destruct (scan_loop_cons dir p f names acc) as (acc' & -> & Hs). intros Hc.
  apply IH in Hc as [Hc|(g & Hg & Hl)]; [|right; exists g; split; [by right|done]].
  destruct Hs as [[E _]|(x & E & Hl & _)]; rewrite E in Hc; [by left|].
  apply elem_of_app in Hc as [?|Hc]; [by left|]. apply list_elem_of_singleton in Hc as ->.
  right. exists f. split; [by left|done].
Qed.

Lemma scan_loop_grows dir p names acc i :
  i ∈ ids (valid_cards acc) -> i ∈ ids (valid_cards (scan_loop dir p names acc)).
Proof.
  revert acc. induction names as [|f names IH]; intros acc Hi; [done|].
  destruct (scan_loop_cons dir p f names acc) as (acc' & -> & Hs). apply IH.
  destruct Hs as [[-> _]|(x & -> & _)]; [done|]. rewrite map_app. set_solver.
Qed.

Lemma scan_loop_found dir p names acc f c :
  f ∈ names -> loads dir p f c -> card_id c ∈ ids (valid_cards (scan_loop dir p names acc)).
Proof.
  revert acc. induction names as [|g names IH]; intros acc Hf Hl; [by apply not_elem_of_nil in Hf|].
  destruct (scan_loop_cons dir p g names acc) as (acc' & -> & Hs).
  apply elem_of_cons in Hf as [->|Hf]; [|by apply IH]. apply scan_loop_grows.
  destruct Hs as [[-> Hs]|(x & -> & Hx & _)]; [by apply Hs|].
  unfold loads in *. rewrite Hl in Hx. injection Hx as ->. rewrite map_app. set_solver.
Qed.

Lemma scan_loop_nodup dir p names acc :
  NoDup (ids (valid_cards acc)) -> NoDup (ids (valid_cards (scan_loop dir p names acc))).
Proof.
  revert acc. induction names as [|f names IH]; intros acc Hn; [done|].
  destruct (scan_loop_cons dir p f names acc) as (acc' & -> & Hs). apply IH.
  destruct Hs as [[-> _]|(x & -> & _ & Hx)]; [done|]. rewrite map_app. apply NoDup_app.
  split; [done|]. split; [|apply NoDup_singleton]. intros y Hy Hy'. cbn in Hy'.
  apply list_elem_of_singleton in Hy' as ->. done.
Qed.

Lemma yaml_files_elem dir f :
  f ∈ yaml_files dir <-> is_Some (dir !! f) /\ (has_suffix ".yaml" f = true \/ has_suffix ".yml" f = true).
Proof.
  unfold yaml_files. rewrite order_by_elem, elem_of_app, !list_elem_of_In, !List.filter_In, <- !list_elem_of_In.
  assert (f ∈ map fst (map_to_list dir) <-> is_Some (dir !! f)) as E.
  { rewrite list_elem_of_fmap. split.
    - intros ([g x] & -> & Hg). apply elem_of_map_to_list in Hg. by exists x.
    - intros [x Hx]. exists (f, x). split; [done|]. by apply elem_of_map_to_list. }
  rewrite E. tauto.
Qed.

(** A scan is well formed: no two of its cards have the same id, and every
    one is what loading a file of the directory named after its id gives, with
    the webhook credential, if any, that belongs to this profile and agent. *)
Theorem scan_wellformed dir profile :
  let cards := valid_cards (scan (Some dir) (Some profile)) in
  NoDup (ids cards) /\
  forall c, c ∈ cards -> exists f, is_Some (dir !! f) /\ stem f = card_id c /\
    loads dir (Some profile) f c /\ reference_fits profile c = true.
Proof.
  cbn. split; [apply scan_loop_nodup; constructor|]. intros c Hc.
  apply scan_loop_valid in Hc as [Hc|(f & Hf & Hl)]; [by apply not_elem_of_nil in Hc|].
  apply yaml_files_elem in Hf as [Hf _]. exists f. split; [done|].
  pose proof Hl as (_ & _ & _ & _ & _ & _ & Hi & Hp)%load_card_spec. split; [symmetry; by apply Hi|]. split; [done|by apply Hp].
Qed.

Lemma cut_yaml p : cut_last_dot (p +:+ ".yaml") = Some p.
Proof. induction p as [|c p IH]; [done|]. rewrite str_app_cons. cbn. by rewrite IH. Qed.

Lemma stem_yaml i : i <> "" -> stem (i +:+ ".yaml") = i.
Proof.
  intros Hi. unfold stem. rewrite cut_yaml. destruct i as [|c i]; [done|].
  destruct (String.eqb _ _) eqn:E; [|done]. apply String.eqb_eq, (f_equal String.length) in E.
  rewrite !str_length_app in E. cbn in E. lia.
Qed.

Lemma suffix_yaml i : has_suffix ".yaml" (i +:+ ".yaml") = true.
Proof.
  unfold endswith. rewrite str_length_app. apply andb_true_iff. split; [apply Nat.leb_le; lia|].
  replace (_ - _) with (String.length i) by lia. rewrite str_drop_app. apply String.eqb_refl.
Qed.

Lemma valid_card_id raw c : AgentCard_validate lax_int raw = Some c -> card_id c <> "".
Proof.
  unfold AgentCard_validate. intros Hc. repeat (apply bind_Some in Hc as (? & ? & Hc)).
  injection Hc as <-. cbn. intros ->.
  match goal with Hid : check (SAFE_ID_REGEX "") = Some _ |- _ => discriminate Hid end.
Qed.

(** What a successful import of a file from outside did. *)
Lemma import_run vault_key profile content s c s' :
  import_card lax_int webhook_secret is_dir safe_load vault_key profile (Outside content) s = (Ok c, s') ->
  exists text, let dir := default ∅ (sh_agents s) in let dest := card_id c +:+ ".yaml" in
    content = Some text /\ load (Some text) None (Some profile) = Ok c /\ dir !! dest = None /\
    card_id c ∉ ids (valid_cards (scan (Some dir) (Some profile))) /\
    sh_agents s' = Some (<[dest := text]> dir) /\
    sh_node s' = (register_card webhook_secret is_dir vault_key c None (Some profile) (sh_node s)).2.
Proof.
  unfold import_card. cbv beta iota zeta delta [bind make_agents_dir mmodify mgets mlift mraise ret on_shelf].
  cbn [sh_agents sh_node source_content is_destination].
  destruct (load content None (Some profile)) as [card|e] eqn:El; [|done].
  pose proof El as (text & _ & -> & _)%load_card_spec. cbn [negb]. rewrite andb_true_r.
  set (dir := default ∅ (sh_agents s)). change (default ∅ (Some dir)) with dir.
  destruct (bool_decide_reflect (is_Some (dir !! (card_id card +:+ ".yaml")))) as [|Hd]; [done|].
  cbn [negb]. rewrite andb_true_r.
  destruct (str_in (card_id card) _) eqn:Ei; [done|]. unfold put_file. cbn [sh_agents sh_node default].
  destruct (register_run webhook_secret is_dir vault_key card None (Some profile) (sh_node s)) as [t Hr].
  unfold put_file. cbn [sh_agents sh_node].
  match goal with |- context [register_card ?a ?b ?k ?d ?e ?f ?g] =>
    destruct (register_card a b k d e f g) as [r n] eqn:Er end.
  cbv zeta in Hr. injection Hr as Hr _. subst r. intros [= <- <-]. exists text. cbn zeta.
  split; [done|]. split; [done|]. split; [by apply eq_None_not_Some|].
  split; [intros Hin%str_in_spec; congruence|]. split; [done|]. by rewrite Er.
Qed.

(** An imported card is found again: after importing a card from a file
    outside of the agents directory, the next scan returns exactly this card
    under its id, an id no card had before; every agent found before is still
    found; and the registry has a row for the card, enabled unless an earlier row
    of that agent was disabled. *)
Theorem import_then_scan vault_key profile content s c s' :
  import_card lax_int webhook_secret is_dir safe_load vault_key profile (Outside content) s = (Ok c, s') ->
  let before := valid_cards (scan (sh_agents s) (Some profile)) in
  let after := valid_cards (scan (sh_agents s') (Some profile)) in
  c ∈ after /\ card_id c ∉ ids before /\ (forall i, i ∈ ids before -> i ∈ ids after) /\
  exists row, get_card (card_id c) (db (sh_node s')) = Some row /\
    ag_enabled row = match get_card (card_id c) (db (sh_node s)) with Some r => ag_enabled r | None => true end.
Proof.
  intros Hi. apply import_run in Hi as (text & -> & Hl & Hd & Hn & Ha & Hs). cbn zeta in *.
  set (dir := default ∅ (sh_agents s)) in *. set (dest := card_id c +:+ ".yaml") in *.
  assert (scan (sh_agents s) (Some profile) = scan (Some dir) (Some profile)) as ->.
  { unfold dir. destruct (sh_agents s); [done|]. cbn. unfold yaml_files. by rewrite map_to_list_empty. }
  rewrite Ha. cbn zeta. set (dir' := <[dest := text]> dir).
  apply load_card_spec in Hl as (text' & raw & [= <-] & Hy & Hv & Hc & _ & Hp).
  assert (Hnew : loads dir' (Some profile) dest c).
  { unfold loads, dir', dest. rewrite lookup_insert_eq, stem_yaml by by eapply valid_card_id.
    apply load_card_spec. exists text, raw. split_and!; try done. by intros x [= <-]. }
  assert (Hmem : dest ∈ yaml_files dir').
  { apply yaml_files_elem. unfold dir'. rewrite lookup_insert_eq. split; [by eexists|left; apply suffix_yaml]. }
  assert (Hold : forall f x, f ∈ yaml_files dir' -> loads dir' (Some profile) f x -> f <> dest ->
                 f ∈ yaml_files dir /\ loads dir (Some profile) f x).
  { intros f x Hf Hx Hne. unfold loads, dir' in *. rewrite yaml_files_elem in Hf |- *.
    rewrite lookup_insert_ne in Hf by done. rewrite lookup_insert_ne in Hx by done. done. }
  split; [|split; [exact Hn|split]].
  - pose proof (scan_loop_found dir' (Some profile) _ empty_scan _ _ Hmem Hnew) as Hin.
    apply list_elem_of_fmap in Hin as (x & Hx & Hin). apply scan_loop_valid in Hin as Hin'.
    destruct Hin' as [Hin'|(f & Hf & Hlx)]; [by apply not_elem_of_nil in Hin'|].
    destruct (decide (f = dest)) as [->|Hne].
    + unfold loads in *. rewrite Hnew in Hlx. by injection Hlx as <-.
    + destruct (Hold f x Hf Hlx Hne) as [Hf' Hlx']. destruct Hn.
      rewrite Hx. by eapply scan_loop_found.
  - intros i (x & -> & Hx)%list_elem_of_fmap.
    apply scan_loop_valid in Hx as [Hx|(f & Hf & Hlx)]; [by apply not_elem_of_nil in Hx|].
    assert (f <> dest) as Hne.
    { intros ->. apply yaml_files_elem in Hf as [[y Hy'] _]. congruence. }
    apply scan_loop_found with f.
    + rewrite yaml_files_elem in Hf |- *. unfold dir'. by rewrite lookup_insert_ne.
    + unfold loads, dir' in *. by rewrite lookup_insert_ne.
  - rewrite Hs. destruct (register_run webhook_secret is_dir vault_key c None (Some profile) (sh_node s)) as [t Hr].
    cbv zeta in Hr. rewrite Hr. cbn [snd db]. eexists. unfold get_card. rewrite upsert_lookup.
    change (ag_id (registered _ _ _ c _ _ _)) with (card_id c). rewrite String.eqb_refl. split; [reflexivity|].
    unfold registered. cbn. by destruct (find_agent (card_id c) _).
Qed.
End scan_props.

Module CardFilesDemo.
Import AuditDemo RegistryDemo.
#[local] Existing Instance card_env.

(** A parser that knows the text of one card and of one old file. *)
Definition yaml (text : string) : option json :=
  if String.eqb text "card" then Some (JObj (AgentCard_dump demo_card))
  else if String.eqb text "old" then Some (JObj [("name", JStr "scout")])
  else None.

Definition profile_shelf : shelf :=
  {| sh_node := demo_node; sh_agents := Some {["scout.yml" := "old"; "broken.yaml" := "???"]} |}.

Definition import_demo (src : source_file) : M shelf string AgentCard :=
  import_card ints (fun _ _ => None) (fun _ => true) yaml "key" "p" src.

Definition imported : shelf := (import_demo (Outside (Some "card")) profile_shelf).2.

Lemma import_then_scan_witness :
  import_demo (Outside (Some "card")) profile_shelf = (Ok demo_card, imported) /\
  demo_card ∈ valid_cards (scan_local_cards ints yaml (sh_agents imported) (Some "p")).
Proof.
  assert (import_demo (Outside (Some "card")) profile_shelf = (Ok demo_card, imported)) as Hi
    by (vm_compute; reflexivity).
  split; [exact Hi|].
  exact (proj1 (import_then_scan ints (fun _ _ => None) (fun _ => true) yaml "key" "p" (Some "card")
    profile_shelf demo_card imported Hi)).
Defined.

(** Files of the first protocol and files that are no YAML are both skipped as
    legacy. *)
Example broken_counts_as_legacy :
  legacy_skipped (scan_local_cards ints yaml (sh_agents profile_shelf) (Some "p")) = ["broken.yaml"; "scout.yml"].
Proof. vm_compute. reflexivity. Qed.

Example import_refuses_taken_file :
  (import_demo (Outside (Some "card")) imported).1 = Err CardLoadError.
Proof. vm_compute. reflexivity. Qed.

(** Listing registers every card again, so its version counts the listings. *)
Example listing_bumps_version :
  let list := agent_list ints (fun _ _ => None) (fun _ => true) yaml "key" "p" in
  (ag_version <$> find_agent "bot" (db (sh_node imported)),
   ag_version <$> find_agent "bot" (db (sh_node (list imported).2)),
   ag_version <$> find_agent "bot" (db (sh_node (list (list imported).2).2))) = (Some 1%Z, Some 2%Z, Some 3%Z).
Proof. vm_compute. reflexivity. Qed.

(** A file name decides the id: the same text under another name is refused. *)
Example stem_must_match :
  per_file_errors (scan_local_cards ints yaml (Some {["helper.yaml" := "card"]}) (Some "p")) = ["helper.yaml"].
Proof. vm_compute. reflexivity. Qed.
End CardFilesDemo.
