(* ===== verification/Identity.v ===== *)
(** * Identity keys and signed requests

    [kin/identity/keys.py] (messages between two X25519 keys),
    [kin/identity/auth.py] (signed request headers),
    [kin/identity/fingerprint.py], and the relay credentials of
    [kin/transport/v11.py], checked against the relay's own authentication. *)

From Stdlib Require Import Ascii String ZArith QArith Lia.
From stdpp Require Import base sets list strings.
From S2P Require Import Prelude Codec PyValue Schemas Transition Reducer Store AuditLog SessionStore Relay.

#[local] Open Scope nat_scope.

(** X25519 with HKDF-SHA256, ChaCha20-Poly1305. *)
Class X25519 := {
  x_public : bytes -> bytes;
  (** The derived key; [None] when a key has the wrong length or the exchange
      fails. *)
  derived_key : bytes -> bytes -> option bytes;
  chacha_encrypt : bytes -> bytes -> bytes -> bytes;
  chacha_decrypt : bytes -> bytes -> bytes -> option bytes;
  (** Both sides derive the same key. *)
  derived_symmetric : forall a b, derived_key a (x_public b) = derived_key b (x_public a);
  chacha_roundtrip : forall k n p, chacha_decrypt k n (chacha_encrypt k n p) = Some p
}.

(** ** Sealed messages *)

Section sealed.
Context `{NodeEnv} `{X25519}.

Definition encrypt_for_recipient (sender_priv recipient_pub plaintext : bytes) : N bytes :=
  match derived_key sender_priv recipient_pub with
  | None => mraise "ValueError"
  | Some k =>
      let* nonce := draw urandom12 in
      ret (nonce +:+ chacha_encrypt k nonce plaintext)
  end.

Definition decrypt_from_sender (recipient_priv sender_pub ciphertext : bytes) : result string bytes :=
  if Nat.ltb (String.length ciphertext) 12 then Err "ValueError"
  else match derived_key recipient_priv sender_pub with
       | None => Err "ValueError"
       | Some k => match chacha_decrypt k (str_take 12 ciphertext) (str_drop 12 ciphertext) with
                   | Some p => Ok p
                   | None => Err "InvalidTag"
                   end
       end.

(** What one peer seals for another, the other opens: every message
    encrypted with one's private key for the other's public key decrypts,
    under the mirrored keys, to exactly the message. *)
Theorem sealed_message_roundtrip a b m s c s' :
  encrypt_for_recipient a (x_public b) m s = (Ok c, s') ->
  decrypt_from_sender b (x_public a) c = Ok m /\ same_db s s'.
Proof.
  unfold encrypt_for_recipient, decrypt_from_sender.
  destruct (derived_key a (x_public b)) as [k|] eqn:Ek; [|done].
  unfold bind, draw, ret. intros [= <- <-]. split; [|done].
  rewrite derived_symmetric in Ek. rewrite Ek.
  pose proof (urandom_length (tick s)) as Hl.
  rewrite str_length_app, Hl. replace (Nat.ltb _ 12) with false by (symmetry; apply Nat.ltb_ge; lia).
  rewrite <- Hl, str_take_app, str_drop_app. by rewrite chacha_roundtrip.
Qed.
End sealed.

(** ** Signed request headers *)

Section auth.
Context `{Ed25519} (parse_utc : string -> option Z).

(** The header text of a UTC time given by its [isoformat()]. *)
Definition header_time (isoformat : string) : string :=
  if endswith "Z" isoformat then isoformat else before_plus isoformat +:+ "Z".

Definition create_signed_auth_headers (username : string) (k : private_key) (isoformat : string)
  : list (string * string) :=
  let ts := header_time isoformat in
  [("X-Username", username); ("X-Timestamp", ts);
   ("X-Signature", base64url_encode (ed_sign k (utf8_encode (username +:+ ":" +:+ ts))))].

(** [{k.lower(): v for k, v in headers.items()}]: the last value wins. *)
Definition header_map (headers : list (string * string)) : list (string * string) :=
  fold_left (fun m kv => obj_set (lower kv.1) kv.2 m) headers [].

Definition nonempty (o : option string) : option string :=
  match o with Some s => if truthy s then Some s else None | None => None end.

(** The username, or the reason of the refusal. *)
Definition verify_signed_auth_headers (headers : list (string * string))
    (get_public_key_fn : string -> option public_key) (now : Z) (max_age_seconds : Z)
  : result string string :=
  let m := header_map headers in
  match nonempty (obj_get "x-username" m), nonempty (obj_get "x-timestamp" m),
        nonempty (obj_get "x-signature" m) with
  | Some username, Some timestamp, Some signature =>
      match parse_utc (rstrip_by (Ascii.eqb "Z") timestamp) with
      | None => Err "Invalid ISO 8601 timestamp format in X-Timestamp header"
      | Some ts =>
          if (max_age_seconds * 1000000 <? Z.abs (now - ts))%Z
          then Err "Authentication timestamp expired or out of window"
          else match get_public_key_fn username with
               | None => Err "Public key not found or contact untrusted"
               | Some pk =>
                   match base64url_decode signature with
                   | Some sig =>
                       if ed_verify pk sig (utf8_encode (username +:+ ":" +:+ timestamp))
                       then Ok username else Err "Invalid signature verification"
                   | None => Err "Invalid signature verification"
                   end
               end
      end
  | _, _, _ => Err "Missing required authentication headers"
  end.

(** A request is accepted for a user only with that user's key over the very
    user and timestamp, within the window. *)
Lemma accepted_headers_signed headers get now age u :
  verify_signed_auth_headers headers get now age = Ok u ->
  exists ts t sig pk, obj_get "x-username" (header_map headers) = Some u /\
    obj_get "x-timestamp" (header_map headers) = Some ts /\
    parse_utc (rstrip_by (Ascii.eqb "Z") ts) = Some t /\ (Z.abs (now - t) <= age * 1000000)%Z /\
    get u = Some pk /\ ed_verify pk sig (utf8_encode (u +:+ ":" +:+ ts)) = true.
Proof.
  unfold verify_signed_auth_headers, nonempty.
  destruct (obj_get "x-username" _) as [user|]; [|done]. destruct (truthy user); [|done].
  destruct (obj_get "x-timestamp" _) as [ts|]; [|done]. destruct (truthy ts); [|done].
  destruct (obj_get "x-signature" _) as [sg|]; [|done]. destruct (truthy sg); [|done].
  destruct (parse_utc _) as [t|] eqn:Et; [|done]. destruct (_ <? _)%Z eqn:Ew; [done|].
  apply Z.ltb_ge in Ew. destruct (get user) as [pk|] eqn:Eg; [|done].
  destruct (base64url_decode sg) as [sig|]; [|done]. destruct (ed_verify _ _ _) eqn:Ev; [|done].
  intros [= <-]. exists ts, t, sig, pk. by split_and!.
Qed.
End auth.

(** ** Relay credentials *)

Section relay_client.
Context `{Ed25519} `{RelayEnv}.

Definition relay_auth_headers (username : string) (k : private_key) (timestamp : string)
    (acknowledgement_body : option string) : credentials :=
  let canonical := username +:+ ":" +:+ timestamp in
  let canonical := match acknowledgement_body with
                   | Some b => canonical +:+ ":" +:+ b
                   | None => canonical
                   end in
  {| x_username := Some username; x_timestamp := Some timestamp;
     x_signature := Some (hexlify (ed_sign k (utf8_encode canonical))) |}.

(** Node and relay agree on authentication: the credentials a node builds
    with its identity key, for reading its inbox and for acknowledging given
    messages, are accepted by the relay at which it registered the hex form
    of that key, while the timestamp is within the replay window. *)
Theorem relay_accepts_node_credentials user k pk ts t now s d ids :
  find_entry user s = Some d -> d_public_key d = hexlify pk ->
  (forall m, ed25519_verify pk (ed_sign k m) m = true) ->
  fromisoformat ts = Some t -> (Z.abs (now - t) <= 300000000)%Z ->
  authenticate_inbox_request (relay_auth_headers user k ts None) now None s = Ok user /\
  let c := relay_auth_headers user k ts (Some (ack_payload ids)) in
  authenticate_inbox_request c now (Some (ack_message c ids)) s = Ok user.
Proof.
  intros Hd Hk Hv Ht Hw. unfold authenticate_inbox_request, relay_auth_headers, REPLAY_WINDOW_MINUTES.
  cbn zeta. cbn [x_username x_signature x_timestamp].
  rewrite Ht, Hd, Hk, !fromhex_hexlify.
  replace (_ <? _)%Z with false by (symmetry; apply Z.ltb_ge; lia).
  cbn [or_str]. rewrite Hv. split; [done|].
  unfold ack_message, opt_text. cbn [x_username x_timestamp default]. unfold or_str.
  replace (truthy _) with true.
  - rewrite <- !str_app_assoc. by rewrite Hv.
  - symmetry. apply truthy_spec. by destruct user.
Qed.
End relay_client.

(** ** Fingerprints *)

Section fingerprint.
Context (wordlist : list string).

(** [sorted([a, b])] of two byte strings. *)
Definition sorted_pair (a b : bytes) : bytes * bytes := if String.leb a b then (a, b) else (b, a).

(** The words of the first [2 n] bytes; [IndexError] for a short list. *)
Fixpoint fingerprint_words (n : nat) (l : list Z) : result string (list string) :=
  match n, l with
  | 0, _ => Ok []
  | S n', hi :: lo :: l' =>
      match nth_error wordlist (Z.to_nat ((hi * 256 + lo) mod 2048)) with
      | None => Err "IndexError"
      | Some w => let? ws := fingerprint_words n' l' in Ok (w :: ws)
      end
  | _, _ => Err "IndexError"
  end.

Definition compute_fingerprint (a b : bytes) : result string string :=
  let (x, y) := sorted_pair a b in
  let? ws := fingerprint_words 4 (codes (sha256 (x +:+ y))) in
  Ok (String.concat "-" ws).

Lemma sorted_pair_sym a b : sorted_pair a b = sorted_pair b a.
Proof.
  unfold sorted_pair, String.leb. rewrite (String.compare_antisym a b).
  destruct (String.compare b a) eqn:E; cbn; [|done..].
  apply String.compare_eq_iff in E. by subst.
Qed.

Lemma words_total n l :
  length wordlist = 2048 -> 2 * n <= length l -> exists ws, fingerprint_words n l = Ok ws /\ length ws = n.
Proof.
  intros Hw. induction n as [|n IH] in l |- *; intros Hl; [by exists []|].
  destruct l as [|hi [|lo l]]; cbn in Hl; try lia. cbn [fingerprint_words].
  destruct (nth_error wordlist _) as [w|] eqn:En.
  - destruct (IH l) as (ws & -> & Hn); [lia|]. exists (w :: ws). cbn. by rewrite Hn.
  - apply nth_error_None in En. pose proof (Z.mod_pos_bound (hi * 256 + lo) 2048). lia.
Qed.

(** The pairing fingerprint is symmetric and total: both sides compute
    the same words whatever the order of the keys, and with the 2048-word
    list the computation always succeeds, with four words. *)
Theorem fingerprint_symmetric a b :
  length wordlist = 2048 ->
  compute_fingerprint a b = compute_fingerprint b a /\
  exists ws, compute_fingerprint a b = Ok (String.concat "-" ws) /\ length ws = 4.
Proof.
  intros Hw. unfold compute_fingerprint. rewrite (sorted_pair_sym b a). split; [done|].
  destruct (sorted_pair a b) as [x y].
  destruct (words_total 4 (codes (sha256 (x +:+ y))) Hw) as (ws & -> & Hn).
  - rewrite codes_length, sha256_length. lia.
  - by exists ws.
Qed.
End fingerprint.

Module IdentityDemo.
Import AuditDemo SchemaDemo RelayDemo.
#[local] Existing Instances AuditDemo.demo_env demo_ed.

(** A commutative stand-in for the key exchange. *)
Definition demo_x : X25519.
Proof.
  refine {| x_public k := k; derived_key a b := Some (if String.leb a b then a +:+ b else b +:+ a);
            chacha_encrypt _ _ p := p; chacha_decrypt _ _ p := Some p |}; [|done].
  intros a b. f_equal. pose proof (sorted_pair_sym a b) as Hs. unfold sorted_pair in Hs.
  destruct (String.leb a b), (String.leb b a); congruence.
Defined.
#[local] Existing Instance demo_x.

Lemma sealed_message_roundtrip_witness :
  exists c, (encrypt_for_recipient "alice" (x_public "bob") "hi" demo_node).1 = Ok c /\
    decrypt_from_sender "bob" (x_public "alice") c = Ok "hi".
Proof.
  eexists. split; [reflexivity|].
  exact (proj1 (sealed_message_roundtrip "alice" "bob" "hi" demo_node _
    (encrypt_for_recipient "alice" (x_public "bob") "hi" demo_node).2 eq_refl)).
Defined.

(** Times that print as numbers, with the keyed hash for signatures. *)
Definition relay_env : RelayEnv :=
  {| ed25519_verify pk sg m := String.eqb sg (demo_sign pk m); isoformat := print_int;
     fromisoformat t := if String.eqb t "100" then Some 100%Z else None |}.
#[local] Existing Instance relay_env.

Definition directory_node : relay :=
  (serve (Register "alice" (hexlify "alice-key") "x" "e") empty).2.

Lemma relay_accepts_node_credentials_witness :
  authenticate_inbox_request (relay_auth_headers (H := demo_ed) "alice" "alice-key" "100" None) 100 None
    directory_node = Ok "alice".
Proof.
  refine (proj1 (@relay_accepts_node_credentials demo_ed relay_env "alice" "alice-key" "alice-key" "100"
    100 100 directory_node
    {| d_username := "alice"; d_public_key := hexlify "alice-key"; d_x25519 := "x"; d_endpoint := "e" |}
    [1%Z] eq_refl eq_refl _ eq_refl _)).
  - intros m. apply String.eqb_refl.
  - vm_compute. discriminate.
Defined.

Definition words : list string := replicate 2048 "word".

Lemma fingerprint_symmetric_witness :
  compute_fingerprint words "key-a" "key-b" = compute_fingerprint words "key-b" "key-a".
Proof. refine (proj1 (fingerprint_symmetric words "key-a" "key-b" _)). vm_compute. reflexivity. Defined.

End IdentityDemo.
