(* ===== verification/Ingest.v ===== *)
(** * Envelope ingestion

    [ingest_envelope] of [kin/transport/v11.py] up to the stored status and
    the outcome card: admission of the session, the verification pipeline,
    duplicate detection, the reducer, the event log and the session row.
    Times are microseconds; their text form and its parser are operations of
    the class [Clock].  pydantic's lax integer conversion is the parameter
    [lax_int], the resolution of public keys the caller's [get_public_key_fn]. *)

From Stdlib Require Import Ascii String ZArith QArith Lia.
From stdpp Require Import base gmap sets list strings.
From S2P Require Import Prelude Regex Codec PyValue Schemas Transition Reducer Store AuditLog.
From S2P Require Import SessionStore ArtifactVault History.

#[local] Open Scope nat_scope.

Class Clock := {
  (** [datetime.isoformat()]. *)
  iso : Z -> string;
  (** [datetime.fromisoformat(text).replace(tzinfo=utc)]. *)
  parse_utc : string -> option Z
}.

(** ** Values from the wire *)

(** [str(value)] and [repr] of a document value. *)
Definition repr_char (q c : ascii) : string :=
  let n := code c in
  if Ascii.eqb c q || Ascii.eqb c "\" then String "\" (String c "")
  else if (n =? 10)%Z then "\n" else if (n =? 13)%Z then "\r" else if (n =? 9)%Z then "\t"
  else if (n <? 32)%Z || (127 <=? n)%Z && (n <=? 160)%Z || (n =? 173)%Z then "\x" +:+ hex2 n
  else String c "".
Fixpoint repr_body (q : ascii) (s : string) : string :=
  match s with "" => "" | String c s' => repr_char q c +:+ repr_body q s' end.
Definition repr_str (s : string) : string :=
  let dq := chr 34 in
  let q := if str_exists (Ascii.eqb "'") s && negb (str_exists (Ascii.eqb dq) s)
           then dq else "'"%char in
  String q (repr_body q s +:+ String q "").
Fixpoint repr_json (v : json) : string :=
  match v with
  | JNull => "None"
  | JBool b => if b then "True" else "False"
  | JInt z => print_int z
  | JFloat FNan => "nan"
  | JFloat (FInf neg) => if neg then "-inf" else "inf"
  | JFloat (FFin r) => r
  | JStr s => repr_str s
  | JList l => "[" +:+ String.concat ", " (map repr_json l) +:+ "]"
  | JObj kvs => "{" +:+ String.concat ", "
                  (map (fun kv => repr_str kv.1 +:+ ": " +:+ repr_json kv.2) kvs) +:+ "}"
  end.
Definition py_str (v : json) : string := match v with JStr s => s | _ => repr_json v end.

(** A value bound to a text column; containers and large integers cannot be
    bound. *)
Definition bind_text (v : json) : result string (option string) :=
  match v with
  | JNull => Ok None
  | JStr s => Ok (Some s)
  | JBool b => Ok (Some (if b then "1" else "0"))
  | JInt z => if ((- 2 ^ 63 <=? z) && (z <? 2 ^ 63))%Z then Ok (Some (print_int z))
              else Err "OverflowError"
  | JFloat f => Ok (Some (print_float f))
  | _ => Err "sqlite3.ProgrammingError"
  end.

(** A value bound to a numeric column. *)
Definition bindable (v : json) : result string unit := let? _ := bind_text v in Ok tt.

(** [isinstance(v, int) and 1 <= v <= 12], with [True] an integer. *)
Definition turn_limit_of (v : json) : Z :=
  match v with
  | JInt z => if ((1 <=? z) && (z <=? 12))%Z then z else 12
  | JBool true => 1
  | _ => 12
  end.

(** ** Acknowledgements *)

Record TransportAcknowledgement := {
  ack_session_id : string;
  ack_sequence : Z;
  ack_status : string;
  ack_received_at : string;
  ack_hash : string;
  ack_error : option string
}.

Inductive SessionType := ASK | RESEARCH | DEBATE | BUILD_PIPELINE | REVIEW | DELEGATE_SUBTASK.

#[export] Instance SessionType_eq_dec : EqDecision SessionType.
Proof. solve_decision. Defined.

#[export] Instance SessionType_enum : StrEnum SessionType.
Proof.
  refine {| enum_value t := match t with ASK => "ask" | RESEARCH => "research" | DEBATE => "debate"
                                       | BUILD_PIPELINE => "build_pipeline" | REVIEW => "review"
                                       | DELEGATE_SUBTASK => "delegate_subtask" end;
            members := [ASK; RESEARCH; DEBATE; BUILD_PIPELINE; REVIEW; DELEGATE_SUBTASK] |}; solve_enum.
Defined.

Definition DEFAULT_EXPIRY_TTL_SECONDS : Z := 604800.
Definition DEFAULT_BUILD_RUNTIME_BUDGET : json := JInt 86400.
Definition DEFAULT_BUILD_ARTIFACT_BYTES_BUDGET : json := JInt 50000000.

Section ingest.
Context `{NodeEnv} `{Jcs} `{Ed25519} `{Clock} (vault_key : bytes) (lax_int : json -> option Z).
Context (get_public_key_fn : json -> option public_key).

(** The model refuses other types, sequences below 1 and times without
    ["Z"]. *)
Definition acknowledge (session_id sequence : json) (st received_at : string) (hash : json)
    (error : option string) : N TransportAcknowledgement :=
  match session_id, lax_int sequence, hash with
  | JStr sid, Some z, JStr h =>
      if (1 <=? z)%Z && TIMESTAMP_REGEX received_at
      then ret {| ack_session_id := sid; ack_sequence := z; ack_status := st;
                  ack_received_at := received_at; ack_hash := h; ack_error := error |}
      else mraise "ValidationError"
  | _, _, _ => mraise "ValidationError"
  end.

(** ** Admission *)

(** What the raw body must pass before the pipeline runs. *)
Inductive admission :=
| Refuse (code : string)
| Admit (row : option session_row) (participant_map : list (string * string)).

(** [d[actor] = agent]; only text keys reach the pipeline, containers are not
    hashable. *)
Definition add_actor (actor agent : json) (d : list (string * string))
  : result string (list (string * string)) :=
  match actor with
  | JList _ | JObj _ => Err "TypeError"
  | JStr a => match obj_get a d with
              | Some _ => Ok d
              | None => Ok (match agent with JStr g => obj_set a g d | _ => d end)
              end
  | _ => Ok d
  end.

Definition row_participant_map (r : session_row) (kind actor : json) : list (string * string) :=
  let d0 := match s_sender_agent r with
            | Some g => if truthy g then [(s_initiator r, g)] else []
            | None => []
            end in
  match s_receiver_agent r with
  | Some g => if truthy g && (negb (bool_decide (kind = JStr "acceptance"))
                              || bool_decide (actor = JStr (s_initiator r)))
              then obj_set (s_receiver r) g d0 else d0
  | None => d0
  end.

(** The lazy expiry of a session whose time has passed. *)
Definition expire_if_due (session_id : string) (r : session_row) (now : Z) : N unit :=
  match s_expires_at r with
  | None | Some "" => ret tt
  | Some e =>
      match parse_utc (rstrip_by (Ascii.eqb "Z") e) with
      | None => mraise "ValueError"
      | Some exp =>
          mwhen ((exp <=? now)%Z && negb (str_in (s_status r) TERMINAL_STATES))
            (apply_node_command_transition vault_key session_id "mark_expired" (Some (iso now)) ;;; ret tt)
      end
  end.

Definition raw_get (k : string) (d : json) (raw : document) : json := default d (obj_get k raw).

Definition open_session (raw : document) (now : Z) : N admission :=
  let actor := raw_get "actor_username" (JStr "") raw in
  let agent := raw_get "actor_agent_id" (JStr "") raw in
  let kind := raw_get "kind" (JStr "") raw in
  let* key := mlift (bind_text (raw_get "session_id" (JStr "") raw)) in
  let* row := select (fun t => match key with Some k => find_session k t | None => None end) in
  match row with
  | None =>
      if negb (bool_decide (kind = JStr "task_request")) then ret (Refuse "SESSION_NOT_FOUND")
      else match get_public_key_fn actor with
           | None => ret (Refuse "UNPAIRED_SENDER")
           | Some _ => let* d := mlift (add_actor actor agent []) in ret (Admit None d)
           end
  | Some r =>
      expire_if_due (s_id r) r now ;;;
      let* d := mlift (add_actor actor agent (row_participant_map r kind actor)) in
      ret (Admit (Some r) d)
  end.

(** ** State of the session *)

Definition opt_column (v : json) : result string (option string) :=
  if json_truthy v then bind_text v else Ok None.

Definition budgets (st : SessionType) (payload : document) : json * json * json :=
  let get k d := default d (obj_get k payload) in
  if bool_decide (st = BUILD_PIPELINE \/ st = DELEGATE_SUBTASK)
  then (get "runtime_budget_seconds" DEFAULT_BUILD_RUNTIME_BUDGET,
        get "artifact_bytes_budget" DEFAULT_BUILD_ARTIFACT_BYTES_BUDGET,
        get "cost_budget_estimate" (JFloat (FFin "100.0")))
  else (get "runtime_budget_seconds" JNull, get "artifact_bytes_budget" JNull,
        get "cost_budget_estimate" JNull).

(** [SELECT username FROM identity LIMIT 1]. *)
Definition my_identity (t : tables) : string := match identity t with u :: _ => i_username u | [] => "" end.

(** [encrypt_field(vault_key, payload.get("goal", ""))]. *)
Definition encrypt_goal (goal : json) : N (option string) :=
  match goal with
  | JStr g => encrypt_field vault_key (Some g)
  | JNull => ret None
  | _ => mraise "AttributeError"
  end.

Definition expiry_text (now : Z) : string :=
  let exp := iso (now + DEFAULT_EXPIRY_TTL_SECONDS * 1000000) in
  if endswith "Z" exp then exp else before_plus exp +:+ "Z".

(** The row and the state of a session opened by a TASK_REQUEST; [None] for a
    mode that is no [SessionType]. *)
Definition bootstrap_session (env : SessionEnvelope) (now : Z) : N (option SessionState) :=
  let payload := env_payload env in
  let get k d := default d (obj_get k payload) in
  match (match get "collaboration_mode" (JStr "ask") with JStr m => enum_of m | _ => None end) with
  | None => ret None
  | Some st =>
      let now_str := iso_text (iso now) in
      let* me := select my_identity in
      let receiver := if String.eqb (env_actor_username env) me
                      then get "peer_username" (JStr "") else JStr me in
      let limit := turn_limit_of (get "max_turns" (JInt 12)) in
      let '(runtime, artifact, cost) := budgets st payload in
      let* goal := encrypt_goal (get "goal" (JStr "")) in
      let* receiver_column := mlift (bind_text receiver) in
      let* receiver_agent := mlift (opt_column (get "requested_agent_id" (JStr ""))) in
      mlift (bindable runtime) ;;; mlift (bindable artifact) ;;; mlift (bindable cost) ;;;
      match receiver_column with
      | None => mraise IntegrityError
      | Some rec_text =>
          insert_checked (fun t => negb (has_session (env_session_id env) t))
            (set_sessions (fun l => l ++
              [{| s_id := env_session_id env; s_type := enum_value st;
                  s_initiator := env_actor_username env; s_receiver := rec_text;
                  s_status := "draft"; s_objective := goal;
                  s_sender_agent := Some (env_actor_agent_id env);
                  s_receiver_agent := receiver_agent; s_snapshot := None; s_turn_limit := limit;
                  s_created_at := now_str; s_updated_at := now_str;
                  s_expires_at := Some (expiry_text now); s_runtime_budget := runtime;
                  s_artifact_budget := artifact; s_artifact_bytes := 0; s_cost_budget := cost;
                  s_cost := 0; s_terminal_result := None |}])) ;;;
          commit ;;;
          match receiver with
          | JStr rec =>
              ret (Some {| st_session_id := env_session_id env;
                           initiator_username := env_actor_username env; receiver_username := rec;
                           status := "draft"; current_turn := 0; max_turns := limit;
                           actor_sequences := ∅;
                           participants := {[env_actor_username env :=
                             {| agent_id := env_actor_agent_id env; role := "owner" |}]};
                           last_resumable_status := None; events := [] |})
          | _ => mraise "ValidationError"
          end
      end
  end.

(** A node command that is kept when it succeeds. *)
Definition advance (s : SessionState) (command : string) : SessionState :=
  let r := process_node_command s command in if success r then new_state r else s.

Definition promote (s : SessionState) (k : MessageKind) : SessionState :=
  if str_in (status s) ["queued"; "delivered"]
     && bool_decide (k ∈ [ACCEPTANCE; DECLINE; CLARIFICATION])
  then advance (if String.eqb (status s) "queued" then advance s "mark_delivered" else s)
         "mark_peer_review"
  else s.

(** The follow-up of a peer's request or acceptance. *)
Definition follow_up (s : SessionState) (k : MessageKind) (from_peer : bool) : SessionState :=
  let s1 :=
    if String.eqb (status s) "sent" && from_peer then
      let r := process_node_command s "mark_delivered" in
      if success r then
        if bool_decide (k = TASK_REQUEST) then advance (new_state r) "mark_peer_review"
        else new_state r
      else s
    else s in
  if String.eqb (status s1) "accepted" && from_peer then advance s1 "mark_active" else s1.

Definition set_receiver_agent (session_id : string) (agent : option string) : tables -> tables :=
  set_sessions (update_where (fun r => String.eqb (s_id r) session_id)
    (fun r => {| s_id := s_id r; s_type := s_type r; s_initiator := s_initiator r;
                 s_receiver := s_receiver r; s_status := s_status r; s_objective := s_objective r;
                 s_sender_agent := s_sender_agent r; s_receiver_agent := agent;
                 s_snapshot := s_snapshot r; s_turn_limit := s_turn_limit r;
                 s_created_at := s_created_at r; s_updated_at := s_updated_at r;
                 s_expires_at := s_expires_at r; s_runtime_budget := s_runtime_budget r;
                 s_artifact_budget := s_artifact_budget r; s_artifact_bytes := s_artifact_bytes r;
                 s_cost_budget := s_cost_budget r; s_cost := s_cost r;
                 s_terminal_result := s_terminal_result r |})).

Definition reducer_exc_name (e : reducer_exc) : string :=
  match e with
  | UnboundLocalError => "UnboundLocalError"
  | ParticipantValidationError => "ValidationError"
  end.

(** ** The outcome card of a final result *)

Definition outcome_summary (payload : document) : string :=
  let get k := default JNull (obj_get k payload) in
  if json_truthy (get "outcome") then py_str (get "outcome")
  else if json_truthy (get "message") then py_str (get "message")
  else if json_truthy (get "content") then py_str (get "content")
  else "Session completed with a signed final result.".

Definition record_outcome (session_id : string) (payload : document) : N unit :=
  mcatch (create_outcome_card vault_key lax_int session_id (outcome_summary payload) ;;; ret tt)
    (fun exc => write_audit_event vault_key "outcome_card_error"
       ("Failed to derive local outcome card: " +:+ exc) (Some session_id) None None
       (Some session_id) ;;; ret tt).

(** ** Ingestion *)

(** Either the acknowledgement returned early, or the envelope that was
    stored, the session row found at the start and the local username. *)
Inductive ingested :=
| Stopped (a : TransportAcknowledgement)
| Stored (env : SessionEnvelope) (row : option session_row) (me : string).

(** The follow-up, the stored status and the outcome card. *)
Definition conclude (env : SessionEnvelope) (row : option session_row) (new : SessionState)
    (now_str : string) : N ingested :=
  let session_id := env_session_id env in
  let* me := select my_identity in
  let final := follow_up new (env_kind env) (negb (String.eqb (env_actor_username env) me)) in
  execute (set_status session_id (status final) now_str) ;;;
  commit ;;;
  mwhen (bool_decide (env_kind env = FINAL_RESULT)) (record_outcome session_id (env_payload env)) ;;;
  ret (Stored env row me).

(** Reducer, event log and session row. *)
Definition reduce_and_store (env : SessionEnvelope) (state : SessionState) (row : option session_row)
    (sequence : json) (now_str : string) : N ingested :=
  let session_id := env_session_id env in
  let stop st error :=
    let* a := acknowledge (JStr session_id) sequence st now_str (JStr (env_content_hash env)) error in
    ret (Stopped a) in
  match process_peer_envelope (promote state (env_kind env)) env with
  | Err e => mraise (reducer_exc_name e)
  | Ok red =>
      if negb (success red) then stop "rejected" (error_code red)
      else
        mwhen (bool_decide (env_kind env = ACCEPTANCE) && json_truthy (accepting_agent env))
          (let* agent := mlift (bind_text (accepting_agent env)) in
           execute (set_receiver_agent session_id agent) ;;; commit) ;;;
        let* app := append_session_event vault_key session_id (env_actor_username env)
                      (Some (env_actor_agent_id env)) (MessageKind_value (env_kind env))
                      "peer_visible" (Some (JObj (env_payload env))) (env_signature env)
                      (Some (env_sequence env)) in
        match app with
        | SequenceReuseMismatch => stop "rejected" (Some "SEQUENCE_REUSE_MISMATCH")
        | _ => conclude env row (new_state red) now_str
        end
  end.

Definition ingest_stages (raw : document) (now : Z) : N ingested :=
  let now_str := iso_text (iso now) in
  let session_id := raw_get "session_id" (JStr "") raw in
  let sequence := raw_get "sequence" (JInt 0) raw in
  let stop seq st hash error :=
    let* a := acknowledge session_id seq st now_str hash error in ret (Stopped a) in
  let raw_hash := raw_get "content_hash" (JStr "") raw in
  let* adm := open_session raw now in
  match adm with
  | Refuse code => stop sequence "rejected" raw_hash (Some code)
  | Admit row parts =>
      match verify_and_build_envelope raw (fun u => get_public_key_fn (JStr u))
              (match session_id with JStr sid => sid | _ => "" end) parts with
      | Err code => stop sequence "rejected" raw_hash (Some code)
      | Ok ve =>
          let env := ve_envelope ve in
          let hash := JStr (env_content_hash env) in
          let* seen := check_sequence_conflict vault_key (env_session_id env) (env_actor_username env)
                         (env_sequence env) (Some (JObj (env_payload env))) in
          match seen with
          | SeqDuplicate _ => stop (JInt (env_sequence env)) "delivered" hash None
          | SeqConflict _ => stop (JInt (env_sequence env)) "rejected" hash
                               (Some "SEQUENCE_REUSE_MISMATCH")
          | SeqNew =>
              match row with
              | None =>
                  let* st := bootstrap_session env now in
                  match st with
                  | None => stop (JInt (env_sequence env)) "rejected" hash
                              (Some "INVALID_SESSION_TYPE")
                  | Some state => reduce_and_store env state row sequence now_str
                  end
              | Some _ =>
                  let* st := select (reconstruct_session_state vault_key (env_session_id env)) in
                  match st with
                  | Err e => mraise e
                  | Ok None => stop sequence "rejected" hash (Some "SESSION_STATE_LOAD_FAILED")
                  | Ok (Some state) => reduce_and_store env state row sequence now_str
                  end
              end
          end
      end
  end.

(** ** What enters the log *)

(** The log grew by rows satisfying [P]. *)
Definition log_by (P : event_row -> Prop) (s s' : node) : Prop :=
  exists new, session_events (db s') = session_events (db s) ++ new /\ Forall P new.

#[local] Instance log_by_preorder P : PreOrder (log_by P).
Proof.
  split.
  - intros s. exists []. by rewrite app_nil_r.
  - intros s1 s2 s3 (n1 & E1 & F1) (n2 & E2 & F2). exists (n1 ++ n2).
    rewrite E2, E1, app_assoc. split; [done|]. by apply Forall_app_2.
Qed.

Lemma log_quiet P s s' : session_events (db s') = session_events (db s) -> log_by P s s'.
Proof. intros E. exists []. by rewrite app_nil_r. Qed.

Lemma execute_log P f :
  (forall t, session_events (f t) = session_events t) -> keeps (log_by P) (execute f).
Proof. intros Hf s. apply log_quiet, Hf. Qed.

Lemma same_db_log P s s' : same_db s s' -> log_by P s s'.
Proof. intros [E _]. apply log_quiet. by rewrite E. Qed.

Lemma only_audit_log P s s' : only_audit s s' -> log_by P s s'.
Proof. intros [new E]. apply log_quiet. by rewrite E. Qed.

Lemma commit_log P : keeps (log_by P) commit.
Proof. intros s. by apply log_quiet. Qed.

Lemma audit_log P cat sum sid actor payload cid :
  keeps (log_by P) (write_audit_event vault_key cat sum sid actor payload cid).
Proof. eapply keeps_weaken; [apply only_audit_log|apply write_audit_only]. Qed.

Lemma conflict_log P sid actor z payload :
  keeps (log_by P) (check_sequence_conflict vault_key sid actor z payload).
Proof. eapply keeps_weaken; [apply only_audit_log|apply check_conflict_only]. Qed.

Lemma iso_now_log P now : keeps (log_by P) (iso_now now).
Proof. eapply keeps_weaken; [apply same_db_log|]. unfold iso_now. solve_keeps. Qed.

Lemma quiet_log {A} P (m : N A) : keeps same_db m -> keeps (log_by P) m.
Proof. apply keeps_weaken, same_db_log. Qed.

(** Steps that write no event. *)
Ltac log_step :=
  first [ apply commit_log | apply audit_log | apply conflict_log | apply iso_now_log
        | apply execute_log; intros ?; reflexivity
        | apply quiet_log; first [apply encrypt_field_same_db | solve [eauto with keeps]] ].

Lemma append_log (P : event_row -> Prop) sid actor agent kind vis payload sig sequence :
  (forall t row, event_written vault_key sid actor agent kind vis payload sig sequence t row -> P row) ->
  keeps (log_by P) (append_session_event vault_key sid actor agent kind vis payload sig sequence).
Proof.
  intros HP s. destruct (append_session_event _ _ _ _ _ _ _ _ _ s) as [r s'] eqn:E. cbn [snd].
  destruct (append_effect _ _ _ _ _ _ _ _ _ _ _ _ E)
    as [[Ho _]|(row & Hw & _ & [(_ & _ & new & Hd)|(e & _ & _ & Hd)])];
    [by apply only_audit_log| |]; unfold log_by; rewrite Hd.
  - exists [row]. split; [done|]. apply Forall_singleton. by eapply HP.
  - exists [row]. split; [done|]. apply Forall_singleton. by eapply HP.
Qed.

(** The local outcome event. *)
Definition system_outcome (sid : string) (row : event_row) : Prop :=
  e_session row = sid /\ e_actor row = "system" /\ e_kind row = "outcome" /\
  e_visibility row = "local_only".

(** The row holds exactly the fields of the envelope. *)
Definition row_of_envelope (env : SessionEnvelope) (row : event_row) : Prop :=
  e_session row = env_session_id env /\ e_actor row = env_actor_username env /\
  e_agent row = Some (env_actor_agent_id env) /\ e_kind row = MessageKind_value (env_kind env) /\
  e_visibility row = "peer_visible" /\ e_sequence row = Some (env_sequence env) /\
  e_signature row = env_signature env /\
  decrypt_field vault_key (e_payload row) = Ok (payload_text (Some (JObj (env_payload env)))).

(** The row comes from an envelope the pipeline verified, or is the outcome
    of its session. *)
Definition from_verified (raw : document) (row : event_row) : Prop :=
  exists sid parts ve,
    verify_and_build_envelope raw (fun u => get_public_key_fn (JStr u)) sid parts = Ok ve /\
    (row_of_envelope (ve_envelope ve) row \/ system_outcome (env_session_id (ve_envelope ve)) row).

Lemma command_log P sid c now : keeps (log_by P) (apply_node_command_transition vault_key sid c now).
Proof. unfold apply_node_command_transition, persist_transition. solve_keeps; log_step. Qed.

Lemma admit_log P raw now : keeps (log_by P) (open_session raw now).
Proof.
  unfold open_session, expire_if_due. solve_keeps; first [apply command_log | log_step].
Qed.

Lemma bootstrap_log P env now : keeps (log_by P) (bootstrap_session env now).
Proof. unfold bootstrap_session, encrypt_goal, insert_checked. solve_keeps; log_step. Qed.

Lemma create_outcome_log (P : event_row -> Prop) sid summary :
  (forall row, system_outcome sid row -> P row) ->
  keeps (log_by P) (create_outcome_card vault_key lax_int sid summary).
Proof.
  intros HP. unfold create_outcome_card, require_session. solve_keeps; try log_step.
  apply append_log. intros t row (? & ? & _ & ? & ? & _). by apply HP.
Qed.

Lemma acknowledge_log P sid z st at_ h e : keeps (log_by P) (acknowledge sid z st at_ h e).
Proof. unfold acknowledge. solve_keeps. Qed.

Lemma reduce_log (P : event_row -> Prop) env state row z now_str :
  (forall r, row_of_envelope env r \/ system_outcome (env_session_id env) r -> P r) ->
  keeps (log_by P) (reduce_and_store env state row z now_str).
Proof.
  intros HP. unfold reduce_and_store, conclude, record_outcome. solve_keeps; try log_step;
    try apply acknowledge_log.
  - apply append_log. intros t r (? & ? & ? & ? & ? & ? & ? & _ & ?). apply HP. left. by split_and!.
  - apply create_outcome_log. auto.
  - apply create_outcome_log. auto.
Qed.

Lemma ingest_log raw now : keeps (log_by (from_verified raw)) (ingest_stages raw now).
Proof.
  unfold ingest_stages. apply keeps_bind; [apply _|apply admit_log|]. intros [code|row parts].
  { solve_keeps. apply acknowledge_log. }
  destruct (verify_and_build_envelope _ _ _ _) as [ve|code] eqn:Ev.
  - assert (HP : forall r, row_of_envelope (ve_envelope ve) r \/
                   system_outcome (env_session_id (ve_envelope ve)) r -> from_verified raw r)
      by (intros r Hr; do 2 eexists; exists ve; by split).
    solve_keeps; first [log_step | apply acknowledge_log | by apply reduce_log | apply bootstrap_log].
  - solve_keeps. apply acknowledge_log.
Qed.

(** Nothing unauthenticated enters a session log: whatever the body of a
    delivery and whatever ingestion answers, every event it adds either
    carries exactly the fields of an envelope that passed the six-stage
    verification with the actor's own public key, or is the local outcome
    record of that envelope's session; stored events stay in place. *)
Theorem ingest_logs_only_verified raw now s :
  session_events (db s) `prefix_of` session_events (db (ingest_stages raw now s).2) /\
  forall row, row ∈ session_events (db (ingest_stages raw now s).2) ->
    row ∈ session_events (db s) \/ from_verified raw row.
Proof.
  destruct (ingest_log raw now s) as (new & E & Hnew). rewrite E. split; [by exists new|].
  intros row [Hr|Hr]%elem_of_app; [by left|right]. rewrite Forall_forall in Hnew. auto.
Qed.

(** ** What ingestion leaves alone *)

Lemma acknowledge_core sid z st at_ h e : keeps core_only (acknowledge sid z st at_ h e).
Proof. unfold acknowledge. solve_keeps. Qed.

Lemma outcome_core sid payload : keeps core_only (record_outcome sid payload).
Proof. unfold record_outcome, create_outcome_card, require_session. solve_keeps; core_step. Qed.

Lemma reduce_core env state row z now_str : keeps core_only (reduce_and_store env state row z now_str).
Proof.
  unfold reduce_and_store, conclude. solve_keeps;
    first [apply acknowledge_core | apply outcome_core | core_step].
Qed.

Lemma stages_core raw now : keeps core_only (ingest_stages raw now).
Proof.
  unfold ingest_stages, open_session, expire_if_due, bootstrap_session, encrypt_goal, insert_checked.
  solve_keeps; first [ apply acknowledge_core | apply command_core | apply reduce_core | core_step ].
Qed.

(** ** Terminal sessions stay terminal in the database *)

Definition stored_status (sid : string) (t : tables) : option string := s_status <$> find_session sid t.

Definition statuses_kept (s s' : node) : Prop :=
  forall sid st, stored_status sid (db s) = Some st -> stored_status sid (db s') = Some st.

Definition terminal_kept (s s' : node) : Prop :=
  forall sid st, stored_status sid (db s) = Some st -> st ∈ TERMINAL_STATES ->
    stored_status sid (db s') = Some st.

#[local] Instance statuses_kept_preorder : PreOrder statuses_kept.
Proof. split; [by intros s sid st|]. intros s1 s2 s3 H12 H23 sid st Hs. auto. Qed.

#[local] Instance terminal_kept_preorder : PreOrder terminal_kept.
Proof. split; [by intros s sid st|]. intros s1 s2 s3 H12 H23 sid st Hs Ht. auto. Qed.

Lemma statuses_terminal s s' : statuses_kept s s' -> terminal_kept s s'.
Proof. intros Hk sid st Hs _. auto. Qed.

Lemma same_sessions_kept s s' : sessions (db s') = sessions (db s) -> statuses_kept s s'.
Proof. intros E sid st. unfold stored_status, find_session. by rewrite E. Qed.

Lemma find_session_update p f t sid :
  (forall r, s_id (f r) = s_id r) ->
  find_session sid (set_sessions (update_where p f) t)
  = (fun r => if p r then f r else r) <$> find_session sid t.
Proof.
  intros Hf. unfold find_session, set_sessions, update_where. cbn.
  induction (sessions t) as [|r l IH]; [done|]. cbn.
  replace (s_id (if p r then f r else r)) with (s_id r) by (destruct (p r); congruence).
  by destruct (String.eqb (s_id r) sid).
Qed.

Lemma receiver_agent_kept sid a : keeps statuses_kept (execute (set_receiver_agent sid a)).
Proof.
  intros s sid' st. unfold stored_status. cbn [execute mmodify snd on_db db].
  unfold set_receiver_agent. rewrite find_session_update by done.
  destruct (find_session sid' (db s)) as [r|]; [|done]. cbn. by destruct (String.eqb (s_id r) sid).
Qed.

Lemma new_session_kept r : keeps statuses_kept (execute (set_sessions (fun l => l ++ [r]))).
Proof.
  intros s sid st. unfold stored_status, find_session. cbn. rewrite find_first_app.
  by destruct (find_first _ (sessions (db s))).
Qed.

(** The only write of a status, on a session that is not terminal. *)
Lemma set_status_kept sid st now_str s :
  (forall st0, stored_status sid (db s) = Some st0 -> st0 ∉ TERMINAL_STATES) ->
  terminal_kept s (execute (set_status sid st now_str) s).2.
Proof.
  intros Hn sid' st' Hs Ht. unfold stored_status in *. cbn [execute mmodify snd on_db db].
  unfold set_status. rewrite find_session_update by done.
  destruct (find_session sid' (db s)) as [r|] eqn:Ef; [|done]. cbn in *. injection Hs as <-.
  destruct (String.eqb (s_id r) sid) eqn:E; [|done]. apply String.eqb_eq in E. exfalso.
  pose proof (find_first_Some _ _ _ Ef) as [_ Hid%String.eqb_eq]. cbn in Hid.
  apply (Hn (s_status r)); [|done]. by rewrite <- E, Hid, Ef.
Qed.

Lemma only_audit_kept s s' : only_audit s s' -> statuses_kept s s'.
Proof. intros [new E]. apply same_sessions_kept. by rewrite E. Qed.

Lemma same_db_kept s s' : same_db s s' -> statuses_kept s s'.
Proof. intros [E _]. apply same_sessions_kept. by rewrite E. Qed.

Lemma commit_kept : keeps statuses_kept commit.
Proof. intros s. by apply same_sessions_kept. Qed.

Lemma audit_kept cat sum sid actor payload cid :
  keeps statuses_kept (write_audit_event vault_key cat sum sid actor payload cid).
Proof. eapply keeps_weaken; [apply only_audit_kept|apply write_audit_only]. Qed.

Lemma conflict_kept sid actor z payload :
  keeps statuses_kept (check_sequence_conflict vault_key sid actor z payload).
Proof. eapply keeps_weaken; [apply only_audit_kept|apply check_conflict_only]. Qed.

Lemma append_kept sid actor agent kind vis payload sig sequence :
  keeps statuses_kept (append_session_event vault_key sid actor agent kind vis payload sig sequence).
Proof.
  intros s. destruct (append_session_event _ _ _ _ _ _ _ _ _ s) as [r s'] eqn:E. cbn [snd].
  destruct (append_effect _ _ _ _ _ _ _ _ _ _ _ _ E)
    as [[Ho _]|(row & Hw & _ & [(_ & _ & new & Hd)|(e & _ & _ & Hd)])];
    [by apply only_audit_kept| |]; apply same_sessions_kept; by rewrite Hd.
Qed.

(** Steps that write no status. *)
Ltac status_step :=
  first [ apply commit_kept | apply audit_kept | apply conflict_kept | apply append_kept
        | apply receiver_agent_kept | apply new_session_kept
        | eapply keeps_weaken; [exact same_db_kept|];
          first [apply encrypt_field_same_db | solve [eauto with keeps]] ].

Lemma acknowledge_kept sid z st at_ h e : keeps statuses_kept (acknowledge sid z st at_ h e).
Proof. unfold acknowledge. solve_keeps. Qed.

Lemma bootstrap_kept env now : keeps statuses_kept (bootstrap_session env now).
Proof. unfold bootstrap_session, encrypt_goal, insert_checked. solve_keeps; status_step. Qed.

Lemma record_outcome_kept sid payload : keeps statuses_kept (record_outcome sid payload).
Proof. unfold record_outcome, create_outcome_card, require_session. solve_keeps; status_step. Qed.

Lemma command_kept sid c now : keeps terminal_kept (apply_node_command_transition vault_key sid c now).
Proof.
  intros s. unfold apply_node_command_transition. apply keeps_bind_at; [apply _| |].
  { destruct (iso_now_run now s) as (ns & t & ->). by apply statuses_terminal, same_db_kept. }
  intros ns s1 Hi. destruct (iso_now_run now s) as (ns' & t & Hi'). rewrite Hi' in Hi.
  apply keeps_bind_at; [apply _|by apply statuses_terminal, same_db_kept|].
  intros st s2 [= <- <-]. cbn [db]. clear Hi.
  destruct (reconstruct_session_state vault_key sid (db s1)) as [[state|]|e] eqn:Er; [|reflexivity..].
  unfold persist_transition. destruct (success (process_node_command state c)) eqn:Es.
  - apply keeps_bind_at; [apply _| |].
    + apply set_status_kept. intros st0 Hst0.
      destruct (reconstruct_status _ _ _ _ Er) as (row & Hf & Hst). unfold stored_status in Hst0.
      rewrite Hf in Hst0. injection Hst0 as <-. rewrite <- Hst.
      by destruct (node_accepted _ _ _ eq_refl Es).
    + intros u s2 _. apply statuses_terminal, keeps_bind; [apply _|status_step|].
      intros ?. solve_keeps. status_step.
  - apply statuses_terminal, keeps_bind; [apply _|status_step|]. intros ?. solve_keeps.
Qed.

Lemma admit_kept raw now : keeps terminal_kept (open_session raw now).
Proof.
  unfold open_session, expire_if_due. solve_keeps; try apply command_kept;
    (eapply keeps_weaken; [exact statuses_terminal|status_step]).
Qed.

Lemma promote_nonterminal s k : (status (promote s k) ∉ TERMINAL_STATES) -> status s ∉ TERMINAL_STATES.
Proof.
  unfold promote. destruct (str_in (status s) ["queued"; "delivered"]) eqn:E; [|done].
  intros _ Ht. apply str_in_spec in Ht. unfold str_in in E. cbn in E.
  repeat (apply orb_true_iff in E as [E%String.eqb_eq|E]; [by rewrite E in Ht|]). done.
Qed.

Lemma conclude_kept env row new now_str s :
  (forall st0, stored_status (env_session_id env) (db s) = Some st0 -> st0 ∉ TERMINAL_STATES) ->
  terminal_kept s (conclude env row new now_str s).2.
Proof.
  intros Hn. unfold conclude. apply keeps_bind_at; [apply _|reflexivity|]. intros me s1 [= _ <-].
  apply keeps_bind_at; [apply _|by apply set_status_kept|]. intros u s2 _.
  apply statuses_terminal, keeps_bind; [apply _|apply commit_kept|]. intros ?.
  solve_keeps. apply record_outcome_kept.
Qed.

Lemma accepting_kept env :
  keeps statuses_kept
    (mwhen (bool_decide (env_kind env = ACCEPTANCE) && json_truthy (accepting_agent env))
       (let* agent := mlift (bind_text (accepting_agent env)) in
        execute (set_receiver_agent (env_session_id env) agent) ;;; commit)).
Proof. solve_keeps; status_step. Qed.

Lemma stop_kept {A} sid z st at_ h e (f : TransportAcknowledgement -> A) :
  keeps terminal_kept (let* a := acknowledge sid z st at_ h e in ret (f a)).
Proof.
  eapply keeps_weaken; [exact statuses_terminal|].
  apply keeps_bind; [apply _|apply acknowledge_kept|]. intros ?. solve_keeps.
Qed.

Lemma reduce_kept env state row z now_str s :
  stored_status (env_session_id env) (db s) = Some (status state) ->
  terminal_kept s (reduce_and_store env state row z now_str s).2.
Proof.
  intros Hst. unfold reduce_and_store.
  destruct (process_peer_envelope _ env) as [red|e] eqn:Ep; [|reflexivity].
  destruct (success red) eqn:Es; cbn [negb]; [|apply stop_kept].
  destruct (peer_accepted _ _ _ Ep Es) as (Hn & _). apply promote_nonterminal in Hn.
  apply keeps_bind_at; [apply _|apply statuses_terminal, accepting_kept|].
  intros u s1 E1. assert (K1 : statuses_kept s s1) by (eapply keeps_run; [apply accepting_kept|exact E1]).
  apply keeps_bind_at; [apply _|apply statuses_terminal, append_kept|].
  intros app s2 E2. assert (K2 : statuses_kept s1 s2) by (eapply keeps_run; [apply append_kept|exact E2]).
  assert (Hst2 : stored_status (env_session_id env) (db s2) = Some (status state)) by auto.
  destruct app; [| |apply stop_kept]; apply conclude_kept; intros st0 E0; rewrite Hst2 in E0;
    by injection E0 as <-.
Qed.

Lemma bootstrap_status env now s state s1 :
  bootstrap_session env now s = (Ok (Some state), s1) ->
  status state = "draft" /\ stored_status (env_session_id env) (db s1) = Some "draft".
Proof.
  unfold bootstrap_session. destruct (match _ with JStr m => enum_of m | _ => None end) as [st|]; [|done].
  destruct (budgets st (env_payload env)) as [[runtime artifact] cost].
  unfold bind at 1, select, mgets. unfold bind at 1.
  destruct (encrypt_goal _ s) as [[goal|e] s0]; [|done].
  unfold bind, mlift. destruct (bind_text _) as [[rec|]|e]; [| |done].
  2: { repeat case_match; done. }
  destruct (opt_column _) as [ra|]; [|done].
  destruct (bindable runtime), (bindable artifact), (bindable cost); try done.
  unfold insert_checked, bind, select, mgets, execute, commit, mmodify, ret, mraise.
  destruct (has_session (env_session_id env) (db s0)) eqn:Eh; [done|]. cbn [negb].
  destruct (if String.eqb _ _ then _ else _); try done. intros [= <- <-]. split; [done|].
  unfold stored_status, find_session. cbn. rewrite find_first_app.
  destruct (find_first _ (sessions (db s0))) as [x|] eqn:Ef.
  - exfalso. apply find_first_Some in Ef as [Hx He]. unfold has_session in Eh.
    rewrite <- not_true_iff_false, existsb_exists in Eh. apply Eh. exists x.
    split; [by apply list_elem_of_In|done].
  - cbn. by rewrite String.eqb_refl.
Qed.

Lemma reconstruct_stored sid t state :
  reconstruct_session_state vault_key sid t = Ok (Some state) ->
  stored_status sid t = Some (status state).
Proof.
  intros Hr. destruct (reconstruct_status _ _ _ _ Hr) as (row & Hf & ->).
  unfold stored_status. by rewrite Hf.
Qed.

Lemma ingest_kept raw now : keeps terminal_kept (ingest_stages raw now).
Proof.
  unfold ingest_stages. apply keeps_bind; [apply _|apply admit_kept|]. intros [code|row parts];
    [apply stop_kept|].
  destruct (verify_and_build_envelope _ _ _ _) as [ve|code]; [|apply stop_kept].
  apply keeps_bind; [apply _|eapply keeps_weaken; [exact statuses_terminal|apply conflict_kept]|].
  intros [|id|id]; [|apply stop_kept..]. intros s.
  destruct row as [row|]; apply keeps_bind_at; try apply _.
  - reflexivity.
  - intros st s1 [= <- <-].
    destruct (reconstruct_session_state _ _ (db s)) as [[state|]|e] eqn:Er;
      [by apply reduce_kept, reconstruct_stored|apply stop_kept|reflexivity].
  - apply statuses_terminal, bootstrap_kept.
  - intros [state|] s1 Eb; [|apply stop_kept].
    apply bootstrap_status in Eb as [E1 E2]. apply reduce_kept. by rewrite E1.
Qed.

(** A finished session stays finished in the database: no delivery,
    whatever its content and whatever ingestion answers or raises, changes
    the stored status of any session whose status is terminal. *)
Theorem ingest_keeps_terminal raw now s sid st :
  stored_status sid (db s) = Some st -> st ∈ TERMINAL_STATES ->
  stored_status sid (db (ingest_stages raw now s).2) = Some st.
Proof. apply ingest_kept. Qed.

(** ** Only the parties of a session speak in it *)

Definition parties (sid : string) (t : tables) : option (string * string) :=
  (fun r => (s_initiator r, s_receiver r)) <$> find_session sid t.

Definition parties_kept (s s' : node) : Prop :=
  forall sid p, parties sid (db s) = Some p -> parties sid (db s') = Some p.

#[local] Instance parties_kept_preorder : PreOrder parties_kept.
Proof. split; [by intros s sid st|]. intros s1 s2 s3 H12 H23 sid st Hs. auto. Qed.

Lemma same_sessions_parties s s' : sessions (db s') = sessions (db s) -> parties_kept s s'.
Proof. intros E sid p. unfold parties, find_session. by rewrite E. Qed.

Lemma update_parties p f :
  (forall r, s_id (f r) = s_id r /\ s_initiator (f r) = s_initiator r /\ s_receiver (f r) = s_receiver r) ->
  keeps parties_kept (execute (set_sessions (update_where p f))).
Proof.
  intros Hf s sid q. unfold parties. cbn [execute mmodify snd on_db db].
  rewrite find_session_update by (intros r; by destruct (Hf r)).
  destruct (find_session sid (db s)) as [r|]; [|done]. cbn. destruct (p r); [|done].
  by destruct (Hf r) as (_ & -> & ->).
Qed.

Lemma quiet_parties {A} (m : N A) : keeps only_audit m -> keeps parties_kept m.
Proof.
  apply keeps_weaken. intros s s' [new E]. apply same_sessions_parties. by rewrite E.
Qed.

Lemma admit_parties raw now : keeps parties_kept (open_session raw now).
Proof.
  unfold open_session, expire_if_due, apply_node_command_transition, persist_transition, iso_now.
  solve_keeps;
    first [ by apply update_parties
          | apply quiet_parties; first [apply write_audit_only | solve [eauto with keeps]] ].
Qed.

Lemma conflict_parties sid actor z payload :
  keeps parties_kept (check_sequence_conflict vault_key sid actor z payload).
Proof. apply quiet_parties, check_conflict_only. Qed.

Lemma promote_participants s k : participants (promote s k) = participants s.
Proof.
  assert (Ha : forall s c, participants (advance s c) = participants s).
  { intros s0 c. unfold advance. destruct (success _) eqn:E; [|done].
    by destruct (node_accepted _ _ _ eq_refl E) as (_ & t & _ & _ & ->). }
  unfold promote. destruct (_ && _); [|done]. rewrite Ha. destruct (String.eqb _ _); [apply Ha|done].
Qed.

(** Only the last branch of [reduce_and_store] stores. *)
Lemma reduce_Stored env state row z now_str s e0 r0 me s' :
  reduce_and_store env state row z now_str s = (Ok (Stored e0 r0 me), s') ->
  e0 = env /\ r0 = row /\
  exists red, process_peer_envelope (promote state (env_kind env)) env = Ok red /\ success red = true.
Proof.
  unfold reduce_and_store. destruct (process_peer_envelope _ env) as [red|e] eqn:Ep; [|done].
  destruct (success red) eqn:Es; cbn [negb].
  2: { unfold bind. destruct (acknowledge _ _ _ _ _ _ s) as [[a|e] s1]; done. }
  unfold bind at 1. destruct (mwhen _ _ s) as [[u|e] s1]; [|done].
  unfold bind at 1. destruct (append_session_event _ _ _ _ _ _ _ _ _ s1) as [[app|e] s2]; [|done].
  assert (Hc : conclude env row (new_state red) now_str s2 = (Ok (Stored e0 r0 me), s') -> e0 = env /\ r0 = row).
  { unfold conclude. unfold bind, select, mgets, execute, commit, mmodify, ret.
    destruct (mwhen _ _ _) as [[u1|e] s3]; [|done]. by intros [= <- <- _ _]. }
  destruct app; intros Hr; [| |revert Hr; unfold bind; destruct (acknowledge _ _ _ _ _ _ s2) as [[a|e] s3]; done];
    destruct (Hc Hr) as [-> ->]; eauto.
Qed.

Lemma row_participants_keys r u info :
  row_participants r !! u = Some info -> u = s_initiator r \/ u = s_receiver r.
Proof.
  unfold row_participants. destruct (truthy (s_receiver r)).
  - destruct (decide (s_receiver r = u)) as [<-|E]; [by right|]. rewrite lookup_insert_ne by done.
    destruct (truthy (s_initiator r)); [|done].
    destruct (decide (s_initiator r = u)) as [<-|E']; [by left|]. by rewrite lookup_insert_ne.
  - destruct (truthy (s_initiator r)); [|done].
    destruct (decide (s_initiator r = u)) as [<-|E']; [by left|]. by rewrite lookup_insert_ne.
Qed.

Lemma row_participants_nonempty r : s_initiator r <> "" -> row_participants r <> ∅.
Proof.
  intros Hi He. assert (Hl : row_participants r !! s_initiator r = None) by (by rewrite He).
  revert Hl. unfold row_participants. rewrite (proj2 (truthy_spec _) Hi).
  destruct (truthy (s_receiver r)); [|by rewrite lookup_insert_eq].
  destruct (decide (s_receiver r = s_initiator r)) as [->|E]; [by rewrite lookup_insert_eq|].
  by rewrite lookup_insert_ne, lookup_insert_eq.
Qed.

Lemma reconstruct_row sid t state :
  reconstruct_session_state vault_key sid t = Ok (Some state) ->
  exists row, find_session sid t = Some row /\ participants state = row_participants row.
Proof.
  unfold reconstruct_session_state. destruct (find_session sid t) as [row|]; [|done].
  destruct (_ <? 1)%Z; [done|]. intros [= <-]. by exists row.
Qed.

Lemma verify_session raw get sid parts ve :
  verify_and_build_envelope raw get sid parts = Ok ve ->
  env_session_id (ve_envelope ve) = sid /\
  obj_get "session_id" raw = Some (JStr (env_session_id (ve_envelope ve))).
Proof.
  unfold verify_and_build_envelope. destruct (SessionEnvelope_validate raw) as [e|] eqn:Ev; [|done].
  intros Hv. assert (He : ve_envelope ve = e /\ env_session_id e = sid).
  { destruct (String.eqb (env_session_id e) sid) eqn:E; [|done]. apply String.eqb_eq in E.
    repeat (case_match; try done). by simplify_eq. }
  destruct He as [-> Hsid]. split; [done|]. clear Hv Hsid.
  unfold SessionEnvelope_validate, field_str, get_str in Ev.
  destruct (obj_get "session_id" raw) as [[| | | |x| |]|] eqn:Eo; split_match_in Ev.
  by injection Ev as <-.
Qed.

(** The row admission found, by the text of the session id. *)
Lemma admit_row raw now s row parts s1 :
  open_session raw now s = (Ok (Admit (Some row) parts), s1) ->
  exists k, (match obj_get "session_id" raw with
             | Some (JStr x) => Some x = Some k
             | _ => True
             end) /\ find_session k (db s) = Some row.
Proof.
  unfold open_session. unfold bind at 1, mlift at 1, raw_get.
  destruct (bind_text _) as [[k|]|e] eqn:Eb; [| |done]; unfold bind at 1, select at 1, mgets at 1.
  - destruct (find_session k (db s)) as [r|] eqn:Ef.
    + unfold bind. destruct (expire_if_due _ _ _ s) as [[u|e] s2]; [|done].
      destruct (mlift _ s2) as [[d|e] s3]; [|done]. intros [= <- _ _]. exists k. split; [|done].
      destruct (obj_get "session_id" raw) as [[| | | |x| |]|]; try done. cbn in Eb. by injection Eb as <-.
    + destruct (negb _); [done|]. destruct (get_public_key_fn _); [|done].
      unfold bind. by destruct (mlift _ s) as [[d|e] s3].
  - destruct (negb _); [done|]. destruct (get_public_key_fn _); [|done].
    unfold bind. by destruct (mlift _ s) as [[d|e] s3].
Qed.

Lemma reduce_from_party env state row z now_str s e0 r0 me s' srow :
  reduce_and_store env state row z now_str s = (Ok (Stored e0 r0 me), s') ->
  participants state = row_participants srow -> s_initiator srow <> "" ->
  e0 = env /\ r0 = row /\
  (env_actor_username env = s_initiator srow \/ env_actor_username env = s_receiver srow).
Proof.
  intros Hr Hp Hi. destruct (reduce_Stored _ _ _ _ _ _ _ _ _ _ Hr) as (-> & -> & red & Hred & Hs).
  split; [done|]. split; [done|].
  destruct (peer_accepted _ _ _ Hred Hs) as (_ & _ & [He|(info & Hl & _)] & _);
    rewrite promote_participants, Hp in *.
  - by destruct (row_participants_nonempty _ Hi).
  - by eapply row_participants_keys.
Qed.

(** Only the two parties speak in a session: when ingestion stores an
    envelope in an existing session, its actor, whose signature was verified,
    is the initiator or the receiver recorded in the session row, although
    any sender passes the participant table built for the pipeline. *)
Theorem stored_envelope_from_party raw now s env r me s' :
  ingest_stages raw now s = (Ok (Stored env (Some r) me), s') ->
  s_initiator r <> "" ->
  (exists sid parts ve,
     verify_and_build_envelope raw (fun u => get_public_key_fn (JStr u)) sid parts = Ok ve /\
     ve_envelope ve = env) /\
  find_session (env_session_id env) (db s) = Some r /\
  (env_actor_username env = s_initiator r \/ env_actor_username env = s_receiver r).
Proof.
  unfold ingest_stages. intros Hr Hi. unfold bind at 1 in Hr.
  destruct (open_session raw now s) as [[adm|e] s1] eqn:Ea; [|done].
  pose proof (keeps_run _ _ _ _ _ (admit_parties raw now) Ea) as K1.
  destruct adm as [code|row parts].
  { unfold bind in Hr. destruct (acknowledge _ _ _ _ _ _ s1) as [[a|e] s2]; done. }
  destruct (verify_and_build_envelope _ _ _ _) as [ve|code] eqn:Ev.
  2: { unfold bind in Hr. destruct (acknowledge _ _ _ _ _ _ s1) as [[a|e] s2]; done. }
  destruct (verify_session _ _ _ _ _ Ev) as [_ Hget].
  unfold bind at 1 in Hr. destruct (check_sequence_conflict _ _ _ _ _ s1) as [[seen|e] s2] eqn:Ec; [|done].
  pose proof (keeps_run _ _ _ _ _ (conflict_parties _ _ _ _) Ec) as K2.
  destruct seen as [|id|id];
    [|unfold bind in Hr; destruct (acknowledge _ _ _ _ _ _ s2) as [[a|e] s3]; done..].
  destruct row as [row|].
  - unfold bind at 1, select at 1, mgets at 1 in Hr.
    destruct (reconstruct_session_state _ _ (db s2)) as [[state|]|e] eqn:Er;
      [|unfold bind in Hr; destruct (acknowledge _ _ _ _ _ _ s2) as [[a|e] s3]; done|done].
    destruct (reconstruct_row _ _ _ Er) as (srow & Hf & Hp).
    pose proof (admit_row _ _ _ _ _ _ Ea) as (k & Hk & Hfs). rewrite Hget in Hk.
    injection Hk as <-.
    assert (Hpar : parties (env_session_id (ve_envelope ve)) (db s) = Some (s_initiator row, s_receiver row))
      by (unfold parties; by rewrite Hfs).
    apply K1, K2 in Hpar. unfold parties in Hpar. rewrite Hf in Hpar. injection Hpar as Hi1 Hi2.
    destruct (reduce_Stored _ _ _ _ _ _ _ _ _ _ Hr) as (-> & [= ->] & _).
    destruct (reduce_from_party _ _ _ _ _ _ _ _ _ _ srow Hr Hp) as (_ & _ & Hact); [by rewrite Hi1|].
    rewrite Hi1, Hi2 in Hact. eauto 8.
  - exfalso. unfold bind at 1 in Hr.
    destruct (bootstrap_session _ now s2) as [[[state|]|e] s3];
      [|unfold bind in Hr; destruct (acknowledge _ _ _ _ _ _ s3) as [[a|e] s4]; done|done].
    by destruct (reduce_Stored _ _ _ _ _ _ _ _ _ _ Hr) as (_ & ? & _).
Qed.
End ingest.

Module IngestDemo.
Import AuditDemo SchemaDemo HistoryDemo.
#[local] Existing Instances AuditDemo.demo_env demo_jcs demo_ed.

(** One fixed wall-clock text. *)
Definition demo_clock : Clock :=
  {| iso _ := "2026-07-23T12:00:00+00:00"; parse_utc _ := Some 1000%Z |}.
#[local] Existing Instance demo_clock.

Definition keys (u : json) : option bytes :=
  if bool_decide (u = JStr "alice") then Some "alice-key" else None.

(** Alice's signed message with the given kind and number in session s1. *)
Definition message (kind : MessageKind) (seq : Z) : document :=
  default [] (build_signed_envelope (H := demo_jcs) (H0 := demo_ed) "alice-key" "s1" seq "alice" "a1"
                "2026-07-23T12:00:00Z" kind [("goal", JStr "g")]).

Definition deliver (raw : document) (s : node) : result string ingested * node :=
  ingest_stages "key" strict_int keys raw 500 s.

Definition finished : node :=
  let t := set_sessions (fun _ => [AuditDemo.session "s1" "completed"]) demo_tables in
  {| db := t; committed := t; tick := 0 |}.

(** Bob's node stores the message; all of it is evaluated. *)
Lemma finding_stored :
  match (deliver (message FINDING 1) demo_node).1 with
  | Ok (Stored _ row _) => row = Some (AuditDemo.session "s1" "active")
  | _ => False
  end.
Proof. vm_compute. reflexivity. Qed.

Lemma stored_envelope_from_party_witness :
  exists env me, deliver (message FINDING 1) demo_node
                 = (Ok (Stored env (Some (AuditDemo.session "s1" "active")) me),
                    (deliver (message FINDING 1) demo_node).2) /\
    (env_actor_username env = "alice" \/ env_actor_username env = "bob").
Proof.
  pose proof finding_stored as Hf.
  destruct (deliver (message FINDING 1) demo_node) as [[[a|env row me]|e] s'] eqn:E;
    [exact (False_ind _ Hf)| |exact (False_ind _ Hf)].
  cbv beta iota delta [fst] in Hf. subst row. exists env, me. split; [reflexivity|].
  unfold deliver in E.
  refine (proj2 (proj2 (@stored_envelope_from_party AuditDemo.demo_env demo_jcs demo_ed demo_clock
    "key" strict_int keys (message FINDING 1) 500 demo_node env (AuditDemo.session "s1" "active") me s' E _))). discriminate.
Defined.

Lemma ingest_keeps_terminal_witness :
  stored_status "s1" (db (deliver (message FINDING 1) finished).2) = Some "completed".
Proof.
  apply (@ingest_keeps_terminal AuditDemo.demo_env demo_jcs demo_ed demo_clock "key" strict_int keys
    (message FINDING 1) 500 finished "s1" "completed").
  - vm_compute. reflexivity.
  - left.
Defined.

Definition no_sessions : node :=
  let t := set_sessions (fun _ => []) demo_tables in {| db := t; committed := t; tick := 0 |}.

Definition answer (r : result string ingested) : option string :=
  match r with
  | Ok (Stopped a) => ack_error a
  | _ => None
  end.

(** The first message of a peer opens the session and waits for review. *)
Example request_opens_session :
  map s_status (sessions (db (deliver (message TASK_REQUEST 1) no_sessions).2)) = ["peer_review"].
Proof. vm_compute. reflexivity. Qed.

(** A first request numbered 2 is rejected, yet its draft row is committed. *)
Example rejected_request_leaves_draft :
  answer (deliver (message TASK_REQUEST 2) no_sessions).1 = Some "OUT_OF_ORDER_SEQUENCE" /\
  map s_status (sessions (committed (deliver (message TASK_REQUEST 2) no_sessions).2)) = ["draft"].
Proof. split; vm_compute; reflexivity. Qed.

End IngestDemo.
