(* ===== verification/RetryQueue.v ===== *)
(** * The outbound retry queue

    [retry_outbound_queue] and [_resolve_peer_contact_info] of
    [kin/transport/v11.py].  What the network answers is a function of the
    draw, the URL and the body; a sweep returns, with its counters, the queue
    ids it posted and where. *)

From Stdlib Require Import Ascii String ZArith QArith Lia.
From stdpp Require Import base gmap sets list strings.
From S2P Require Import Prelude Codec PyValue Schemas Transition Reducer Store AuditLog SessionStore.
From S2P Require Import ArtifactVault History Ingest Relay Identity.

#[local] Open Scope nat_scope.

Inductive http_result :=
| Responded (status_code : Z) (text : string)
| RequestError (message : string).

(** ** Contacts *)

Definition find_contact (username : string) (t : tables) : option contact_row :=
  find_first (fun c => String.eqb (c_username c) username) (contacts t).

Definition hex_key (o : option string) (ok : bytes -> bool) : result string (option bytes) :=
  match o with
  | Some (String _ _ as h) =>
      match fromhex h with
      | Some b => if ok b then Ok (Some b) else Err "ValueError"
      | None => Err "ValueError"
      end
  | _ => Ok None
  end.

(** Endpoint, X25519 key and Ed25519 key bytes of a verified contact. *)
Definition resolve_peer_contact_info (username : string) (t : tables)
  : result string (option string * option bytes * option bytes) :=
  match find_contact username t with
  | Some c =>
      if truthy (default "" (c_verified_at c)) then
        let? x := hex_key (c_x25519 c) (fun _ => true) in
        let? e := hex_key (c_public_key c) (fun b => Nat.eqb (String.length b) 32) in
        Ok (c_endpoint c, x, e)
      else Ok (None, None, None)
  | None => Ok (None, None, None)
  end.

(** ** Queue updates *)

Definition update_queue (queue_id : string) (f : queue_row -> queue_row) : tables -> tables :=
  set_queue (update_where (fun r => String.eqb (q_id r) queue_id) f).

Definition with_state (st now_str : string) (r : queue_row) : queue_row :=
  {| q_id := q_id r; q_session := q_session r; q_sequence := q_sequence r;
     q_recipient := q_recipient r; q_kind := q_kind r; q_envelope := q_envelope r; q_state := st;
     q_attempts := q_attempts r; q_next_retry := q_next_retry r; q_last_error := q_last_error r;
     q_created_at := q_created_at r; q_updated_at := now_str |}.

Definition with_error (e now_str : string) (r : queue_row) : queue_row :=
  {| q_id := q_id r; q_session := q_session r; q_sequence := q_sequence r;
     q_recipient := q_recipient r; q_kind := q_kind r; q_envelope := q_envelope r;
     q_state := q_state r; q_attempts := q_attempts r; q_next_retry := q_next_retry r;
     q_last_error := Some e; q_created_at := q_created_at r; q_updated_at := now_str |}.

Definition with_retry (attempts : Z) (next now_str : string) (r : queue_row) : queue_row :=
  {| q_id := q_id r; q_session := q_session r; q_sequence := q_sequence r;
     q_recipient := q_recipient r; q_kind := q_kind r; q_envelope := q_envelope r;
     q_state := q_state r; q_attempts := attempts; q_next_retry := next;
     q_last_error := q_last_error r; q_created_at := q_created_at r; q_updated_at := now_str |}.

(** [min(3600, 10 * (2 ** (new_attempts - 1)))]. *)
Definition backoff_sec (new_attempts : Z) : Z := Z.min 3600 (10 * 2 ^ (new_attempts - 1)).

Section retry.
Context `{NodeEnv} `{Clock} `{X25519} (vault_key : bytes).
Context (http_post : nat -> string -> json -> http_result).

(** The arguments of a sweep. *)
Record sweep := {
  sw_now : option Z;
  sw_owner : option string;
  sw_x25519 : option bytes;
  sw_relay : option string
}.

Definition post (url : string) (body : json) : N http_result := draw (fun n => http_post n url body).

Definition set_row_state (queue_id st now_str : string) : N unit :=
  execute (update_queue queue_id (with_state st now_str)).
Definition set_row_error (queue_id e now_str : string) : N unit :=
  execute (update_queue queue_id (with_error e now_str)).

(** Result of one row: counted as delivered, counted as failed, and the URLs
    posted to. *)
Abbreviation row_result := (Z * Z * list (string * string))%type.

Definition strip_slash (s : string) : string := rstrip_by (Ascii.eqb "/") s.

(** The direct attempt: [inl] when the row is settled as failed, otherwise
    whether it was delivered. *)
Definition try_endpoint (w : sweep) (r : queue_row) (env : json) (endpoint : option string)
    (now_str : string) : N ((unit + bool) * list (string * string)) :=
  match endpoint with
  | Some (String _ _ as ep) =>
      let url := strip_slash ep +:+ "/v1.1/sessions" in
      let* resp := post url env in
      match resp with
      | Responded code text =>
          if (code =? 200)%Z then
            set_row_state (q_id r) "delivered" now_str ;;;
            apply_node_command_transition vault_key (q_session r) "mark_delivered" (iso <$> sw_now w) ;;;
            ret (inr true, [(q_id r, url)])
          else if ((400 <=? code) && (code <? 500))%Z then
            execute (update_queue (q_id r) (fun x => with_error text now_str (with_state "failed" now_str x))) ;;;
            apply_node_command_transition vault_key (q_session r) "mark_failed" (iso <$> sw_now w) ;;;
            ret (inl tt, [(q_id r, url)])
          else ret (inr false, [(q_id r, url)])
      | RequestError e => set_row_error (q_id r) e now_str ;;; ret (inr false, [(q_id r, url)])
      end
  | _ => ret (inr false, [])
  end.

Definition queue_relay_body (sender : string) (payload : bytes) : json :=
  JObj [("sender_username", JStr sender); ("encrypted_blob", JStr (hexlify payload))].

(** The relay attempt, when all it needs is configured. *)
Definition try_relay (w : sweep) (r : queue_row) (env : json) (recip_x : option bytes)
    (now_str : string) : N (bool * list (string * string)) :=
  match sw_relay w, sw_owner w, sw_x25519 w, recip_x with
  | Some (String _ _ as relay_url), Some (String _ _ as owner), Some (String _ _ as priv),
    Some (String _ _ as pub) =>
      let url := strip_slash relay_url +:+ "/relay/mailbox/" +:+ q_recipient r in
      let* payload := encrypt_for_recipient priv pub (utf8_encode (json_dumps dumps_sorted env)) in
      let* resp := post url (queue_relay_body owner payload) in
      match resp with
      | Responded code _ =>
          if (code =? 200)%Z then
            set_row_state (q_id r) "relayed" now_str ;;; commit ;;; ret (true, [(q_id r, url)])
          else ret (false, [(q_id r, url)])
      | RequestError e => set_row_error (q_id r) e now_str ;;; ret (false, [(q_id r, url)])
      end
  | _, _, _, _ => ret (false, [])
  end.

Definition schedule_retry (r : queue_row) (now_dt : Z) (now_str : string) : N unit :=
  let new_attempts := (q_attempts r + 1)%Z in
  let next := header_time (iso (now_dt + backoff_sec new_attempts * 1000000)) in
  execute (update_queue (q_id r) (with_retry new_attempts next now_str)) ;;;
  commit.

Definition parse_stored (e : string) : result string Z :=
  match parse_utc (rstrip_by (Ascii.eqb "Z") e) with Some z => Ok z | None => Err "ValueError" end.

(** Whether the expiry of the session has passed. *)
Definition session_expired (exp : option string) (now_dt : Z) : result string bool :=
  match exp with
  | Some (String _ _ as e) => let? z := parse_stored e in Ok (z <=? now_dt)%Z
  | _ => Ok false
  end.

Definition retry_row (w : sweep) (now_str : string) (now_dt : Z) (r : queue_row)
    (exp : option string) : N row_result :=
  let* st := select (fun t => s_status <$> find_session (q_session r) t) in
  if match st with Some x => str_in x TERMINAL_STATES | None => false end then
    set_row_state (q_id r) "abandoned" now_str ;;; commit ;;; ret (0%Z, 0%Z, [])
  else
    let* expired := mlift (session_expired exp now_dt) in
    if (expired : bool) then
      set_row_state (q_id r) "expired" now_str ;;;
      apply_node_command_transition vault_key (q_session r) "mark_expired" (iso <$> sw_now w) ;;;
      ret (0%Z, 0%Z, [])
    else
      let* env := mlift (let? text := decrypt_field vault_key (Some (q_envelope r)) in
                         match text with
                         | Some t => match json_loads t with
                                     | Some v => Ok v
                                     | None => Err "JSONDecodeError"
                                     end
                         | None => Err "TypeError"
                         end) in
      let* info := select (resolve_peer_contact_info (q_recipient r)) in
      let* info := mlift info in
      let '(endpoint, recip_x, _) := info in
      let* direct := try_endpoint w r env endpoint now_str in
      match direct with
      | (inl _, posts) => ret (0%Z, 1%Z, posts)
      | (inr true, posts) => ret (1%Z, 0%Z, posts)
      | (inr false, posts) =>
          let* relayed := try_relay w r env recip_x now_str in
          let (ok, posts') := relayed in
          if (ok : bool) then ret (1%Z, 0%Z, posts ++ posts')
          else schedule_retry r now_dt now_str ;;; ret (0%Z, 0%Z, posts ++ posts')
      end.

Fixpoint retry_rows (w : sweep) (now_str : string) (now_dt : Z) (l : list (queue_row * option string))
  : N row_result :=
  match l with
  | [] => ret (0%Z, 0%Z, [])
  | (r, exp) :: l' =>
      let* a := retry_row w now_str now_dt r exp in
      let* b := retry_rows w now_str now_dt l' in
      let '(d1, f1, p1) := a in
      let '(d2, f2, p2) := b in
      ret ((d1 + d2)%Z, (f1 + f2)%Z, p1 ++ p2)
  end.

(** Pending rows that are due, with the expiry of their session. *)
Definition due_rows (now_str : string) (t : tables) : list (queue_row * option string) :=
  omap (fun r => if String.eqb (q_state r) "pending" && String.leb (q_next_retry r) now_str
                 then (fun s => (r, s_expires_at s)) <$> find_session (q_session r) t
                 else None) (outbound_queue t).

Definition retry_outbound_queue (w : sweep) : N row_result :=
  let* now_str := iso_now (iso <$> sw_now w) in
  let* now_dt := mlift (parse_stored now_str) in
  let* rows := select (due_rows now_str) in
  retry_rows w now_str now_dt rows.

(** ** Settled rows stay settled *)

Definition SETTLED : list string := ["delivered"; "relayed"; "failed"; "expired"; "abandoned"].

(** What no update changes. *)
Definition queue_key (r : queue_row) :=
  (q_id r, q_session r, q_sequence r, q_recipient r, q_kind r, q_envelope r, q_created_at r).

Definition row_step (r r' : queue_row) : Prop :=
  queue_key r' = queue_key r /\ (q_state r ∈ SETTLED -> q_state r' ∈ SETTLED) /\
  (q_state r ∈ "pending" :: SETTLED -> q_state r' ∈ "pending" :: SETTLED).

#[local] Instance row_step_preorder : PreOrder row_step.
Proof.
  split; [done|]. intros r1 r2 r3 (K1 & F1 & V1) (K2 & F2 & V2). split; [congruence|]. auto.
Qed.

Definition queue_frame (s s' : node) : Prop :=
  Forall2 row_step (outbound_queue (db s)) (outbound_queue (db s')).

#[local] Instance queue_frame_preorder : PreOrder queue_frame.
Proof.
  unfold queue_frame. split; [intros s; reflexivity|]. intros s1 s2 s3 F1 F2. by etrans.
Qed.

Lemma same_queue s s' : outbound_queue (db s') = outbound_queue (db s) -> queue_frame s s'.
Proof. intros E. unfold queue_frame. by rewrite E. Qed.

Lemma update_queue_frame id f :
  (forall r, row_step r (f r)) -> keeps queue_frame (execute (update_queue id f)).
Proof.
  intros Hf s. unfold queue_frame, update_queue, update_where. cbn.
  induction (outbound_queue (db s)) as [|r l IH]; cbn; [constructor|]. constructor; [|exact IH].
  destruct (String.eqb (q_id r) id); [apply Hf|reflexivity].
Qed.

Lemma with_state_step st now_str r : st ∈ SETTLED -> row_step r (with_state st now_str r).
Proof. intros Hs. split; [done|]. split; [done|]. intros _. by right. Qed.

Lemma set_row_state_frame id st now_str :
  str_in st SETTLED = true -> keeps queue_frame (set_row_state id st now_str).
Proof. intros Hs%str_in_spec. apply update_queue_frame. intros r. by apply with_state_step. Qed.

Lemma set_row_error_frame id e now_str : keeps queue_frame (set_row_error id e now_str).
Proof. apply update_queue_frame. by intros r. Qed.

Lemma failed_frame id text now_str :
  keeps queue_frame (execute (update_queue id (fun x => with_error text now_str (with_state "failed" now_str x)))).
Proof.
  apply update_queue_frame. intros r. apply (with_state_step "failed" now_str r), str_in_spec. reflexivity.
Qed.

Lemma quiet_queue {A} (m : N A) : keeps only_audit m -> keeps queue_frame m.
Proof. apply keeps_weaken. intros s s' [new E]. apply same_queue. by rewrite E. Qed.

Lemma command_queue sid c now : keeps queue_frame (apply_node_command_transition vault_key sid c now).
Proof.
  eapply keeps_weaken; [|apply command_core]. intros s s' (_ & _ & _ & E & _)%core_only_tables. by apply same_queue.
Qed.

Ltac queue_step :=
  first [ apply command_queue | apply set_row_error_frame | apply failed_frame
        | apply set_row_state_frame; reflexivity
        | apply quiet_queue; solve [eauto with keeps] ].

Lemma try_endpoint_frame w r env ep now_str : keeps queue_frame (try_endpoint w r env ep now_str).
Proof. unfold try_endpoint, post. solve_keeps; queue_step. Qed.

Lemma try_relay_frame w r env x now_str : keeps queue_frame (try_relay w r env x now_str).
Proof. unfold try_relay, post, encrypt_for_recipient. solve_keeps; queue_step. Qed.

Lemma schedule_frame r now_dt now_str : keeps queue_frame (schedule_retry r now_dt now_str).
Proof.
  unfold schedule_retry. solve_keeps; [|queue_step]. apply update_queue_frame. by intros x.
Qed.

Lemma retry_row_frame w now_str now_dt r exp : keeps queue_frame (retry_row w now_str now_dt r exp).
Proof.
  unfold retry_row. solve_keeps;
    first [apply try_endpoint_frame | apply try_relay_frame | apply schedule_frame | queue_step].
Qed.

Lemma retry_rows_frame w now_str now_dt l : keeps queue_frame (retry_rows w now_str now_dt l).
Proof.
  induction l as [|[r exp] l IH]; cbn [retry_rows]; [solve_keeps|].
  apply keeps_bind; [apply _|apply retry_row_frame|]. intros [[d f] ps].
  apply keeps_bind; [apply _|exact IH|]. intros [[d' f'] ps']. solve_keeps.
Qed.

Lemma retry_frame w : keeps queue_frame (retry_outbound_queue w).
Proof.
  unfold retry_outbound_queue, iso_now. solve_keeps; first [apply retry_rows_frame | queue_step].
Qed.

(** ** What is posted *)

Lemma try_endpoint_posts w r env ep now_str s x posts s' :
  try_endpoint w r env ep now_str s = (Ok (x, posts), s') -> Forall (fun p => p.1 = q_id r) posts.
Proof.
  unfold try_endpoint. destruct ep as [[|c ep]|]; [intros [= _ <- _]; constructor| |intros [= _ <- _]; constructor].
  unfold post. unfold bind at 1, draw. destruct (http_post _ _ _) as [code text|e].
  - destruct (code =? 200)%Z; [|destruct (_ && _)].
    + unfold bind. destruct (set_row_state _ _ _ _) as [[u|e] s1]; [|done].
      destruct (apply_node_command_transition _ _ _ _ s1) as [[u1|e] s2]; [|done].
      intros [= _ <- _]. by repeat constructor.
    + unfold bind. destruct (execute _ _) as [[u|e] s1]; [|done].
      destruct (apply_node_command_transition _ _ _ _ s1) as [[u1|e] s2]; [|done].
      intros [= _ <- _]. by repeat constructor.
    + intros [= _ <- _]. by repeat constructor.
  - unfold bind. destruct (set_row_error _ _ _ _) as [[u|e1] s1]; [|done].
    intros [= _ <- _]. by repeat constructor.
Qed.

Lemma try_relay_posts w r env x now_str s ok posts s' :
  try_relay w r env x now_str s = (Ok (ok, posts), s') -> Forall (fun p => p.1 = q_id r) posts.
Proof.
  unfold try_relay. destruct (sw_relay w) as [[|c1 u1]|], (sw_owner w) as [[|c2 u2]|],
    (sw_x25519 w) as [[|c3 u3]|], x as [[|c4 u4]|]; try (by intros [= _ <- _]).
  unfold bind at 1. destruct (encrypt_for_recipient _ _ _ _) as [[pl|e] s1]; [|done].
  unfold post. unfold bind at 1, draw. destruct (http_post _ _ _) as [code text|e].
  - destruct (code =? 200)%Z; [|intros [= _ <- _]; by repeat constructor].
    unfold bind, commit, mmodify. destruct (set_row_state _ _ _ _) as [[u|e] s2]; [|done].
    intros [= _ <- _]. by repeat constructor.
  - unfold bind. destruct (set_row_error _ _ _ _) as [[u|e1] s2]; [|done].
    intros [= _ <- _]. by repeat constructor.
Qed.

(** Anything is posted only for a live session, and only under the row's id. *)
Definition live (r : queue_row) (exp : option string) (now_dt : Z) (t : tables) : Prop :=
  (forall st, s_status <$> find_session (q_session r) t = Some st -> st ∉ TERMINAL_STATES) /\
  (forall e z, exp = Some e -> e <> "" -> parse_stored e = Ok z -> (now_dt < z)%Z).

Lemma retry_row_posts w now_str now_dt r exp s d f posts s' :
  retry_row w now_str now_dt r exp s = (Ok (d, f, posts), s') ->
  Forall (fun p => p.1 = q_id r) posts /\ (posts <> [] -> live r exp now_dt (db s)).
Proof.
  unfold retry_row. unfold bind at 1, select at 1, mgets at 1. unfold live.
  destruct (match s_status <$> _ with Some x => str_in x TERMINAL_STATES | None => false end) eqn:Et.
  { unfold bind, commit, mmodify. destruct (set_row_state _ _ _ s) as [[u|e] s1]; [|done].
    by intros [= _ _ <- _]. }
  assert (Hlive : forall st, s_status <$> find_session (q_session r) (db s) = Some st -> st ∉ TERMINAL_STATES).
  { intros st E Hin. rewrite E in Et. apply str_in_spec in Hin. congruence. }
  unfold bind at 1, mlift at 1.
  assert (Hexp : session_expired exp now_dt = Ok false ->
    forall e z, exp = Some e -> e <> "" -> parse_stored e = Ok z -> (now_dt < z)%Z).
  { unfold session_expired. intros Hx e z -> Hne Hp. destruct e as [|c e]; [done|].
    rewrite Hp in Hx. cbn in Hx. injection Hx as Hx%Z.leb_gt. lia. }
  destruct (session_expired exp now_dt) as [[|]|e]; [| |done]; [|specialize (Hexp eq_refl)].
  { unfold bind. destruct (set_row_state _ _ _ s) as [[u|e] s2]; [|done].
    destruct (apply_node_command_transition _ _ _ _ s2) as [[u1|e] s3]; [|done]. by intros [= _ _ <- _]. }
  unfold bind at 1, mlift at 1. destruct (rbind _ _) as [env|e]; [|done].
  unfold bind at 1, select at 1, mgets at 1. unfold bind at 1, mlift at 1.
  destruct (resolve_peer_contact_info _ _) as [[[ep x] ed]|e]; [|done].
  unfold bind at 1. destruct (try_endpoint w r env ep now_str s) as [[[dir ps]|e] s2] eqn:Ee; [|done].
  apply try_endpoint_posts in Ee.
  destruct dir as [u|[|]]; [intros [= _ _ <- _]; by split|intros [= _ _ <- _]; by split|].
  unfold bind at 1. destruct (try_relay w r env x now_str s2) as [[[ok ps']|e] s3] eqn:Er; [|done].
  apply try_relay_posts in Er. destruct ok; [intros [= _ _ <- _]; split; [by apply Forall_app_2|done]|].
  unfold bind. destruct (schedule_retry _ _ _ s3) as [[u|e] s4]; [|done].
  intros [= _ _ <- _]. split; [by apply Forall_app_2|done].
Qed.

Lemma retry_rows_posts w now_str now_dt l s d f posts s' :
  retry_rows w now_str now_dt l s = (Ok (d, f, posts), s') ->
  Forall (fun p => p.1 ∈ map (fun x => q_id x.1) l) posts.
Proof.
  induction l as [|[r exp] l IH] in s, d, f, posts, s' |- *; cbn [retry_rows]; [by intros [= _ _ <- _]|].
  unfold bind at 1. destruct (retry_row w now_str now_dt r exp s) as [[[[d1 f1] p1]|e] s1] eqn:E1; [|done].
  unfold bind at 1. destruct (retry_rows w now_str now_dt l s1) as [[[[d2 f2] p2]|e] s2] eqn:E2; [|done].
  intros [= _ _ <- _]. apply IH in E2. apply retry_row_posts in E1 as [E1 _]. apply Forall_app_2.
  - eapply Forall_impl; [exact E1|]. intros p ->. cbn. left.
  - eapply Forall_impl; [exact E2|]. intros p Hp. cbn. by right.
Qed.

Lemma due_pending now_str t r exp :
  (r, exp) ∈ due_rows now_str t -> r ∈ outbound_queue t /\ q_state r = "pending" /\
    String.leb (q_next_retry r) now_str = true.
Proof.
  unfold due_rows. intros (x & Hx & E)%list_elem_of_omap.
  destruct (String.eqb (q_state x) "pending") eqn:Es; [|done]. apply String.eqb_eq in Es.
  destruct (String.leb (q_next_retry x) now_str) eqn:El; [|done]. cbn in E.
  destruct (find_session _ _); [|done]. by injection E as <- _.
Qed.

(** Every posted id is a due pending row of the table the sweep found. *)
Lemma retry_posts_pending w s d f posts s' id :
  retry_outbound_queue w s = (Ok (d, f, posts), s') -> id ∈ posts.*1 ->
  exists r, r ∈ outbound_queue (db s) /\ q_id r = id /\ q_state r = "pending".
Proof.
  unfold retry_outbound_queue. unfold bind at 1.
  destruct (iso_now_run (iso <$> sw_now w) s) as (ns & t & ->).
  unfold bind at 1, mlift at 1. destruct (parse_stored ns) as [z|]; [|done].
  unfold bind at 1, select at 1, mgets at 1. cbn [db]. intros Hr Hid.
  apply retry_rows_posts in Hr. rewrite Forall_forall in Hr.
  apply list_elem_of_fmap in Hid as (p & -> & Hp). specialize (Hr p Hp).
  apply list_elem_of_fmap in Hr as ([r exp] & E & Hin). apply due_pending in Hin as (? & ? & _).
  exists r. by split_and!.
Qed.

(** ** Sweeps *)

Inductive qstep : node -> node -> Prop :=
| q_sweep w s : qstep s (retry_outbound_queue w s).2
| q_command sid c now s : qstep s (apply_node_command_transition vault_key sid c now s).2.

Lemma qsteps_frame s s' : rtc qstep s s' -> queue_frame s s'.
Proof.
  induction 1 as [|s1 s2 s3 Hq _ IH]; [reflexivity|]. etrans; [|exact IH].
  destruct Hq; [apply retry_frame|apply command_queue].
Qed.

Definition queue_ids (t : tables) : list string := map q_id (outbound_queue t).

Lemma frame_ids s s' : queue_frame s s' -> queue_ids (db s') = queue_ids (db s).
Proof.
  unfold queue_frame, queue_ids. induction 1 as [|r r' l l' (Hk & _) _ IH]; [done|]. cbn.
  rewrite IH. f_equal. by injection Hk.
Qed.

(** A settled envelope is never sent again: once a queued envelope was
    delivered, relayed, rejected, expired or abandoned, it stays settled
    through any number of sweeps and node commands, no sweep posts it again,
    and its content and addressee never change. *)
Theorem settled_never_resent s r s2 w d f posts s3 :
  NoDup (queue_ids (db s)) -> r ∈ outbound_queue (db s) -> q_state r ∈ SETTLED ->
  rtc qstep s s2 -> retry_outbound_queue w s2 = (Ok (d, f, posts), s3) ->
  q_id r ∉ posts.*1 /\
  exists r', r' ∈ outbound_queue (db s2) /\ queue_key r' = queue_key r /\ q_state r' ∈ SETTLED.
Proof.
  intros Hn Hr Hset Hst Hre. pose proof (qsteps_frame _ _ Hst) as Hf.
  assert (exists r', r' ∈ outbound_queue (db s2) /\ row_step r r') as (r' & Hr' & (Hk & Hs & _)).
  { apply list_elem_of_lookup in Hr as [i Hi].
    destruct (Forall2_lookup_l _ _ _ _ _ Hf Hi) as (r' & Hi' & Hrs). exists r'.
    split; [by eapply list_elem_of_lookup_2|done]. }
  split; [|exists r'; auto]. intros Hin.
  destruct (retry_posts_pending _ _ _ _ _ _ _ Hre Hin) as (r2 & Hr2 & Hid & Hp).
  assert (r2 = r') as ->.
  { rewrite <- (frame_ids _ _ Hf) in Hn. apply (NoDup_map_unique q_id _ _ _ Hn Hr2 Hr').
    rewrite Hid. by injection Hk. }
  specialize (Hs Hset). rewrite Hp in Hs. apply str_in_spec in Hs. done.
Qed.

(** Retries back off within bounds and respect the session: the delay is
    ten seconds after the first failure, doubles up to one hour and never
    leaves that range, and a row is posted only while its session is neither
    terminal nor past its expiry. *)
Theorem retry_disciplined n w now_str now_dt r exp s d f posts s' :
  (1 <= n)%Z ->
  retry_row w now_str now_dt r exp s = (Ok (d, f, posts), s') ->
  (backoff_sec 1 = 10 /\ 10 <= backoff_sec n <= 3600 /\
   backoff_sec (n + 1) = Z.min 3600 (2 * backoff_sec n))%Z /\
  (posts <> [] -> live r exp now_dt (db s)).
Proof.
  intros Hn Hr. apply retry_row_posts in Hr as [_ Hl]. split; [|exact Hl].
  unfold backoff_sec. replace (n + 1 - 1)%Z with (Z.succ (n - 1))%Z by lia.
  rewrite Z.pow_succ_r by lia. pose proof (Z.pow_pos_nonneg 2 (n - 1)). split; [done|]. lia.
Qed.
End retry.

Module RetryDemo.
Import AuditDemo IngestDemo IdentityDemo.
#[local] Existing Instances AuditDemo.demo_env demo_clock demo_x.

(** A peer that answers 503 to everything. *)
Definition busy (n : nat) (url : string) (body : json) : http_result := Responded 503 "busy".

Definition envelope_token : string :=
  b64encode (seal "key" "0123456789ab" (utf8_encode (json_dumps dumps_sorted (JObj [("goal", JStr "g")])))).

Definition queued (id st : string) : queue_row :=
  {| q_id := id; q_session := "s1"; q_sequence := 1; q_recipient := "alice"; q_kind := "finding";
     q_envelope := envelope_token; q_state := st; q_attempts := 0;
     q_next_retry := "2026-07-23T12:00:00Z"; q_last_error := None;
     q_created_at := "2026-07-23T12:00:00Z"; q_updated_at := "2026-07-23T12:00:00Z" |}.

Definition peer : contact_row :=
  {| c_username := "alice"; c_public_key := None; c_x25519 := None; c_autonomy := None;
     c_endpoint := Some "https://alice.example/"; c_verified_at := Some "2026-07-01T00:00:00Z" |}.

Definition queue_node : node :=
  let t := set_contacts (fun _ => [peer])
             (set_queue (fun _ => [queued "q1" "delivered"; queued "q2" "pending"]) AuditDemo.demo_tables) in
  {| db := t; committed := t; tick := 0 |}.

Definition no_relay : sweep :=
  {| sw_now := Some 0%Z; sw_owner := None; sw_x25519 := None; sw_relay := None |}.

Definition posts_of (s : node) : result string (Z * Z * list (string * string)) :=
  (retry_outbound_queue "key" busy no_relay s).1.

(** Only the pending row is posted. *)
Lemma sweep_posts :
  posts_of queue_node = Ok (0%Z, 0%Z, [("q2", "https://alice.example/v1.1/sessions")]).
Proof. vm_compute. reflexivity. Qed.

Lemma settled_never_resent_witness :
  "q1" ∉ [("q2", "https://alice.example/v1.1/sessions")].*1.
Proof.
  refine (proj1 (settled_never_resent "key" busy queue_node (queued "q1" "delivered") queue_node no_relay
    0 0 [("q2", "https://alice.example/v1.1/sessions")]
    (retry_outbound_queue "key" busy no_relay queue_node).2 _ _ _ (rtc_refl _ _) _)).
  - apply NoDup_cons. split; [|apply NoDup_singleton]. intros Hin%list_elem_of_singleton. discriminate.
  - left.
  - left.
  - rewrite <- sweep_posts. apply surjective_pairing.
Defined.

Definition row_try : result string (Z * Z * list (string * string)) * node :=
  retry_row "key" busy no_relay "2026-07-23T12:00:00Z" 1000 (queued "q2" "pending") None queue_node.

Lemma retry_disciplined_witness :
  live (queued "q2" "pending") None 1000 (db queue_node) /\ backoff_sec 5 = 160%Z.
Proof.
  split; [|reflexivity].
  refine (proj2 (retry_disciplined "key" busy 5 no_relay "2026-07-23T12:00:00Z" 1000
    (queued "q2" "pending") None queue_node 0 0 [("q2", "https://alice.example/v1.1/sessions")]
    row_try.2 _ _) _).
  - lia.
  - vm_compute. reflexivity.
  - discriminate.
Defined.

End RetryDemo.
