(* ===== verification/Offers.v ===== *)
(** * Envelope ingestion, complete

    The rest of [ingest_envelope] of [kin/transport/v11.py]: receiving the
    artifact of an ARTIFACT_OFFER and answering it with a signed
    ARTIFACT_ACCEPT, which the function ingests by calling itself.  The depth
    of that recursion is explicit.  Keys in the keychain, the conversion of
    raw keys and the network are parameters. *)

From Stdlib Require Import Ascii String ZArith QArith Lia.
From stdpp Require Import base gmap sets list strings.
From S2P Require Import Prelude Regex Codec PyValue Schemas Cards Transition Reducer Store AuditLog.
From S2P Require Import SessionStore ArtifactVault PeerCards Registry Keychain History Relay Identity.
From S2P Require Import Ingest RetryQueue.

#[local] Open Scope nat_scope.

(** ** Offers *)

Record ArtifactOffer := {
  of_artifact_id : string;
  of_session_id : string;
  of_sha256 : string;
  of_mime_type : string;
  of_size_bytes : Z;
  of_offered_by : string;
  of_preview_policy : string
}.

(** [meta_subset] and its validation. *)
Definition offer_of_payload (lax_int : json -> option Z) (payload : document) : option ArtifactOffer :=
  _ <- check (bool_decide (default (JStr "1.1") (obj_get "schema_version" payload) = JStr "1.1")) ;;
  artifact_id <- field_str "artifact_id" payload ;;
  session_id <- field_str "session_id" payload ;;
  sha <- field_str "sha256" payload ;;
  mime <- field_str "mime_type" payload ;;
  raw_size <- obj_get "size_bytes" payload ;;
  size <- lax_int raw_size ;;
  _ <- check (0 <=? size)%Z ;;
  offered_by <- field_str "offered_by" payload ;;
  policy <- field_str "preview_policy" payload ;;
  Some {| of_artifact_id := artifact_id; of_session_id := session_id; of_sha256 := sha;
          of_mime_type := mime; of_size_bytes := size; of_offered_by := offered_by;
          of_preview_policy := policy |}.

Definition DEFAULT_RECEIVER_BYTES : Z := 1048576.

(** [COALESCE(MAX(sequence), 0) + 1] over the events of an actor. *)
Definition next_sequence (session_id actor : string) (t : tables) : Z :=
  let seqs := omap (fun r => if String.eqb (e_session r) session_id && String.eqb (e_actor r) actor
                             then e_sequence r else None) (session_events t) in
  (match seqs with [] => 0 | z :: l => foldr Z.max z l end + 1)%Z.

Definition bytes_counted (byte_count : Z) (r : session_row) : session_row :=
  {| s_id := s_id r; s_type := s_type r; s_initiator := s_initiator r; s_receiver := s_receiver r;
     s_status := s_status r; s_objective := s_objective r; s_sender_agent := s_sender_agent r;
     s_receiver_agent := s_receiver_agent r; s_snapshot := s_snapshot r; s_turn_limit := s_turn_limit r;
     s_created_at := s_created_at r; s_updated_at := s_updated_at r; s_expires_at := s_expires_at r;
     s_runtime_budget := s_runtime_budget r; s_artifact_budget := s_artifact_budget r;
     s_artifact_bytes := (s_artifact_bytes r + byte_count)%Z; s_cost_budget := s_cost_budget r;
     s_cost := s_cost r; s_terminal_result := s_terminal_result r |}.

Definition increment_session_artifact_bytes (session_id : string) (byte_count : Z) : N unit :=
  if (byte_count <=? 0)%Z then ret tt
  else execute (set_sessions (update_where (fun r => String.eqb (s_id r) session_id)
                                (bytes_counted byte_count))) ;;;
       commit.

Section offers.
Context `{NodeEnv} `{Jcs} `{Ed25519} `{Clock} `{X25519} (vault_key : bytes) (lax_int : json -> option Z).
(** [Ed25519PublicKey.from_public_bytes], [Ed25519PrivateKey.from_private_bytes]. *)
Context (public_of_bytes : bytes -> option public_key) (private_of_bytes : bytes -> option private_key).
Context (kc : keychain) (http_post : nat -> string -> json -> http_result).

Definition dict_post (url : string) (body : document) : N http_result :=
  draw (fun n => http_post n url (JObj body)).

(** ** The receiver's limit *)

Definition receiver_max_bytes (agent : option string) (t : tables) : Z :=
  match agent with
  | Some (String _ _ as id) =>
      match get_card id t with
      | Some r =>
          let text := match ag_local_card r with
                      | Some (String _ _ as token) =>
                          match decrypt_field vault_key (Some token) with Ok x => x | Err _ => None end
                      | _ => match ag_published_card r with Some (String _ _ as p) => Some p | _ => None end
                      end in
          match text with
          | Some c => match AgentCard_validate_json lax_int c with
                      | Some card => max_artifact_bytes (boundaries card)
                      | None => DEFAULT_RECEIVER_BYTES
                      end
          | None => DEFAULT_RECEIVER_BYTES
          end
      | None => DEFAULT_RECEIVER_BYTES
      end
  | _ => DEFAULT_RECEIVER_BYTES
  end.

(** ** Receiving the bytes *)

(** What a call of [ingest_envelope] is given besides the body. *)
Record ingest_args := {
  ia_keys : json -> option public_key;
  ia_x25519 : option bytes;
  ia_owner : option private_key;
  ia_relay : option string
}.

Definition nonempty_bytes (o : option bytes) : option bytes :=
  match o with Some (String _ _ as b) => Some b | _ => None end.

Definition recipient_key (args : ingest_args) (t : tables) : option bytes :=
  match nonempty_bytes (ia_x25519 args) with
  | Some k => Some k
  | None => match my_identity t with
            | "" => None
            | u => match (load_x25519_private_key u kc).1 with
                   | Ok b => nonempty_bytes (Some b)
                   | Err _ => None
                   end
            end
  end.

(** Base64 text, keys of both sides, decryption. *)
Definition open_wire (enc : json) (actor : string) (recip : option bytes) (t : tables)
  : result string bytes :=
  let? wire := match enc with
               | JStr e => match b64decode e with Some b => Ok b | None => Err "binascii.Error" end
               | _ => Err "TypeError"
               end in
  let? info := resolve_peer_contact_info actor t in
  let '(_, sender_x, _) := info in
  match nonempty_bytes sender_x, recip with
  | Some pub, Some priv => decrypt_from_sender priv pub wire
  | _, _ => Err "ValueError"
  end.

(** The bytes that pass every check, or the reason that is recorded. *)
Definition check_offer (env : SessionEnvelope) (offer : ArtifactOffer) (max_bytes : Z)
    (recip : option bytes) (t : tables) : result string bytes :=
  let enc := default JNull (obj_get "encrypted_bytes_b64" (env_payload env)) in
  if (max_bytes <? of_size_bytes offer)%Z
  then Err ("Offered artifact size " +:+ print_int (of_size_bytes offer)
            +:+ " bytes exceeds receiving card max_artifact_bytes (" +:+ print_int max_bytes +:+ ").")
  else if negb (json_truthy enc) then Err "ARTIFACT_OFFER payload missing encrypted_bytes_b64 field."
  else match open_wire enc (env_actor_username env) recip t with
       | Err exc => Err ("ARTIFACT_OFFER wire decryption failed: " +:+ exc)
       | Ok b =>
           if negb (String.eqb (sha256_hex b) (of_sha256 offer))
           then Err ("Claimed sha256 '" +:+ of_sha256 offer +:+ "' does not match computed payload hash '"
                     +:+ sha256_hex b +:+ "'.")
           else if (max_bytes <? Z.of_nat (String.length b))%Z
           then Err ("Decrypted artifact size " +:+ print_int (Z.of_nat (String.length b))
                     +:+ " bytes exceeds receiving card max_artifact_bytes (" +:+ print_int max_bytes +:+ ").")
           else Ok b
       end.

Definition reject_offer (env : SessionEnvelope) (summary : string) : N unit :=
  write_audit_event vault_key "security_rejection" summary (Some (env_session_id env))
    (Some (env_actor_username env)) None None ;;;
  ret tt.

(** Storing the bytes: whether they were kept. *)
Definition keep_offer (env : SessionEnvelope) (offer : ArtifactOffer) (max_bytes : Z) (b : bytes)
    (now : Z) : N bool :=
  mcatch
    (store_artifact vault_key (env_session_id env) b (of_mime_type offer) (of_offered_by offer)
       (of_preview_policy offer) max_bytes "peer_received" (Some (iso now)) (Some (of_artifact_id offer)) None ;;;
     increment_session_artifact_bytes (env_session_id env) (Z.of_nat (String.length b)) ;;;
     ret true)
    (fun err => if str_in err ["ArtifactTooLargeError"; "ArtifactIdConflictError"]
                then reject_offer env ("Vault storage of offered artifact rejected: " +:+ err) ;;; ret false
                else mraise err).

(** ** The answer *)

Definition accept_payload (offer : ArtifactOffer) (session_id : string) : document :=
  [("schema_version", JStr "1.1"); ("artifact_id", JStr (of_artifact_id offer));
   ("session_id", JStr session_id); ("status", JStr "accepted")].

Definition owner_key (args : ingest_args) (me : string) : option private_key :=
  match ia_owner args with
  | Some k => Some k
  | None => match (load_private_key me kc).1 with
            | Ok b => private_of_bytes b
            | Err _ => None
            end
  end.

(** The owner's key, or the key of a verified contact; only the owner's own
    name is asked for here. *)
Definition accept_keys (me : string) (k : private_key) (t : tables) (u : json) : option public_key :=
  if bool_decide (u = JStr me) then Some (ed_public k)
  else match u with
       | JStr n => match resolve_peer_contact_info n t with
                   | Ok (_, _, Some b) => public_of_bytes b
                   | _ => None
                   end
       | _ => None
       end.

(** Direct delivery, then the relay; failures are ignored. *)
Definition send_accept (args : ingest_args) (env : SessionEnvelope) (me : string)
    (recip : option bytes) (accept : document) : N unit :=
  let* info := select (resolve_peer_contact_info (env_actor_username env)) in
  let* info := mlift info in
  let '(endpoint, sender_x, _) := info in
  let* delivered :=
    match endpoint with
    | Some (String _ _ as ep) =>
        let* resp := dict_post (strip_slash ep +:+ "/v1.1/sessions") accept in
        ret (match resp with Responded code _ => (code =? 200)%Z | RequestError _ => false end)
    | _ => ret false
    end in
  match ia_relay args, nonempty_bytes sender_x, recip with
  | Some (String _ _ as relay_url), Some pub, Some priv =>
      if (delivered : bool) then ret tt
      else mcatch
        (let* payload := encrypt_for_recipient priv pub
                           (utf8_encode (json_dumps dumps_sorted (JObj accept))) in
         draw (fun n => http_post n (strip_slash relay_url +:+ "/relay/mailbox/" +:+ env_actor_username env)
                          (queue_relay_body me payload)) ;;;
         ret tt)
        (fun _ => ret tt)
  | _, _, _ => ret tt
  end.

(** Signing, ingesting through [self], and sending the acceptance. *)
Definition answer_offer (self : ingest_args -> document -> N TransportAcknowledgement)
    (args : ingest_args) (env : SessionEnvelope) (me agent : string) (offer : ArtifactOffer)
    (recip : option bytes) (now_str : string) : N unit :=
  let* seq := select (next_sequence (env_session_id env) me) in
  match owner_key args me with
  | None =>
      (* the content hash is computed before the key is looked up *)
      match compute_content_hash (accept_payload offer (env_session_id env)) with
      | Some _ => ret tt
      | None => mraise "ValueError"
      end
  | Some k =>
      match build_signed_envelope k (env_session_id env) seq me agent now_str ARTIFACT_ACCEPT
              (accept_payload offer (env_session_id env)) with
      | None => mraise "ValueError"
      | Some accept =>
          let* t := select (fun t => t) in
          self {| ia_keys := accept_keys me k t; ia_x25519 := recip; ia_owner := Some k; ia_relay := None |}
            accept ;;;
          send_accept args env me recip accept
      end
  end.

(** The agent that receives: the column of the local party as read at the
    start. *)
Definition receiver_agent (row : option session_row) (me : string) : option string :=
  match row with
  | Some r => if String.eqb me (s_receiver r) then s_receiver_agent r else s_sender_agent r
  | None => None
  end.

(** The branch for an ARTIFACT_OFFER of the peer.  Malformed metadata ends in
    the [TypeError] of the audit call. *)
Definition receive_offer (self : ingest_args -> document -> N TransportAcknowledgement)
    (args : ingest_args) (env : SessionEnvelope) (row : option session_row) (me : string)
    (now : Z) : N unit :=
  match offer_of_payload lax_int (env_payload env) with
  | None => mraise "TypeError"
  | Some offer =>
      let agent := receiver_agent row me in
      let* max_bytes := select (receiver_max_bytes agent) in
      let* recip := select (recipient_key args) in
      let* checked := select (check_offer env offer max_bytes recip) in
      match checked with
      | Err summary => reject_offer env summary
      | Ok b =>
          let* kept := keep_offer env offer max_bytes b now in
          if (kept : bool)
          then answer_offer self args env me (or_str agent me) offer recip (iso_text (iso now))
          else ret tt
      end
  end.

(** [ingest_envelope]; [depth] bounds the recursion. *)
Fixpoint ingest_envelope (depth : nat) (args : ingest_args) (raw : document) (now : Z)
  : N TransportAcknowledgement :=
  match depth with
  | 0 => mraise "RecursionError"
  | S depth' =>
      let* r := ingest_stages vault_key lax_int (ia_keys args) raw now in
      match r with
      | Stopped a => ret a
      | Stored env row me =>
          mwhen (bool_decide (env_kind env = ARTIFACT_OFFER)
                 && negb (String.eqb (env_actor_username env) me))
            (receive_offer (fun args' raw' => ingest_envelope depth' args' raw' now) args env row me now) ;;;
          acknowledge lax_int (raw_get "session_id" (JStr "") raw) (raw_get "sequence" (JInt 0) raw)
            "delivered" (iso_text (iso now)) (JStr (env_content_hash env)) None
      end
  end.
End offers.

(** ** Depth of the recursion *)

Section depth.
Context `{NodeEnv} `{Jcs} `{Ed25519} `{Clock} `{X25519} (vault_key : bytes) (lax_int : json -> option Z).
Context (public_of_bytes : bytes -> option public_key) (private_of_bytes : bytes -> option private_key).
Context (kc : keychain) (http_post : nat -> string -> json -> http_result).

Abbreviation ingest := (ingest_envelope vault_key lax_int public_of_bytes private_of_bytes kc http_post).
Abbreviation receive := (receive_offer vault_key lax_int public_of_bytes private_of_bytes kc http_post).

Lemma verified_kind raw get sid parts ve :
  verify_and_build_envelope raw get sid parts = Ok ve ->
  obj_get "kind" raw = Some (JStr (MessageKind_value (env_kind (ve_envelope ve)))).
Proof.
  unfold verify_and_build_envelope. destruct (SessionEnvelope_validate raw) as [e|] eqn:Ev; [|done].
  intros Hv. assert (ve_envelope ve = e) as ->.
  { destruct (negb _); [done|]. repeat (case_match; try done). by simplify_eq. }
  clear Hv. unfold SessionEnvelope_validate in Ev.
  destruct (obj_get "kind" raw) as [kv|]; [|split_match_in Ev]. split_match_in Ev. injection Ev as <-.
  cbn [env_kind]. unfold validate_kind_enum in *. destruct kv; try done. idtac.
  match goal with E : enum_of _ = Some ?k |- _ => apply enum_of_Some in E end. subst. done.
Qed.

(** What is stored was verified. *)
Lemma stored_verified get raw now s env row me s' :
  ingest_stages vault_key lax_int get raw now s = (Ok (Stored env row me), s') ->
  exists sid parts ve, verify_and_build_envelope raw (fun u => get (JStr u)) sid parts = Ok ve /\
    ve_envelope ve = env.
Proof.
  unfold ingest_stages. intros Hr. unfold bind at 1 in Hr.
  destruct (open_session _ _ _ _ s) as [[[code|r parts]|e] s1]; [|..|done].
  { unfold bind in Hr. destruct (acknowledge _ _ _ _ _ _ _ s1) as [[a|e] s2]; done. }
  destruct (verify_and_build_envelope _ _ _ _) as [ve|code] eqn:Ev.
  2: { unfold bind in Hr. destruct (acknowledge _ _ _ _ _ _ _ s1) as [[a|e] s2]; done. }
  do 2 eexists. exists ve. split; [exact Ev|].
  unfold bind at 1 in Hr. destruct (check_sequence_conflict _ _ _ _ _ s1) as [[seen|e] s2]; [|done].
  destruct seen as [|id|id];
    [|unfold bind in Hr; destruct (acknowledge _ _ _ _ _ _ _ s2) as [[a|e] s3]; done..].
  destruct r as [r|].
  - unfold bind at 1, select at 1, mgets at 1 in Hr.
    destruct (reconstruct_session_state _ _ (db s2)) as [[state|]|e];
      [|unfold bind in Hr; destruct (acknowledge _ _ _ _ _ _ _ s2) as [[a|e] s3]; done|done].
    by destruct (reduce_Stored _ _ _ _ _ _ _ _ _ _ _ _ Hr).
  - unfold bind at 1 in Hr.
    destruct (bootstrap_session _ _ now s2) as [[[state|]|e] s3];
      [|unfold bind in Hr; destruct (acknowledge _ _ _ _ _ _ _ s3) as [[a|e] s4]; done|done].
    by destruct (reduce_Stored _ _ _ _ _ _ _ _ _ _ _ _ Hr).
Qed.

Lemma built_kind k sid z user agent ts kind payload d :
  build_signed_envelope k sid z user agent ts kind payload = Some d ->
  obj_get "kind" d = Some (JStr (MessageKind_value kind)).
Proof.
  unfold build_signed_envelope. destruct (compute_content_hash payload); [|done].
  destruct (sign_envelope _ _); [|done]. intros [= <-]. reflexivity.
Qed.

(** An answer is itself no offer, so its ingestion goes one level deep. *)
Lemma answer_level d args raw now s :
  obj_get "kind" raw = Some (JStr "artifact_accept") ->
  ingest (S d) args raw now s = ingest 1 args raw now s.
Proof.
  intros Hk. cbn [ingest_envelope]. unfold bind at 1 3.
  destruct (ingest_stages _ _ _ raw now s) as [[[a|env row me]|e] s1] eqn:Ei; [done| |done].
  apply stored_verified in Ei as (sid & parts & ve & Hv & <-).
  apply verified_kind in Hv. rewrite Hk in Hv. injection Hv as Hv.
  by destruct (env_kind (ve_envelope ve)).
Qed.

Lemma receive_ext self1 self2 args env row me now s :
  (forall a raw s', obj_get "kind" raw = Some (JStr "artifact_accept") -> self1 a raw s' = self2 a raw s') ->
  receive self1 args env row me now s = receive self2 args env row me now s.
Proof.
  intros Hs. unfold receive_offer. destruct (offer_of_payload _ _) as [offer|]; [|done].
  do 3 (apply bind_ext; intros ? ?). case_match; [|done]. apply bind_ext. intros [|] s3; [|done].
  unfold answer_offer. apply bind_ext. intros seq s4. destruct (owner_key _ _ _ _); [|done].
  destruct (build_signed_envelope _ _ _ _ _ _ _ _) as [accept|] eqn:Eb; [|done].
  apply bind_ext. intros t s5. apply built_kind in Eb. unfold bind. by rewrite Hs.
Qed.

(** C38: Ingestion terminates: an offer is answered by at most one nested
    ingestion, of an envelope that triggers none, so two levels of recursion
    give the result of every larger depth, for every body and every state;
    the recursion limit of Python is never met. *)
Theorem ingestion_terminates depth args raw now s :
  ingest (S (S depth)) args raw now s = ingest 2 args raw now s.
Proof.
  change (ingest (S (S depth)) args raw now) with
    (let* r := ingest_stages vault_key lax_int (ia_keys args) raw now in
     match r with
     | Stopped a => ret a
     | Stored env row me =>
         mwhen (bool_decide (env_kind env = ARTIFACT_OFFER) && negb (String.eqb (env_actor_username env) me))
           (receive (fun a' r' => ingest (S depth) a' r' now) args env row me now) ;;;
         acknowledge lax_int (raw_get "session_id" (JStr "") raw) (raw_get "sequence" (JInt 0) raw)
           "delivered" (iso_text (iso now)) (JStr (env_content_hash env)) None
     end).
  unfold ingest_envelope at 2. apply bind_ext. intros [a|env row me] s1; [done|].
  unfold bind. unfold mwhen. destruct (_ && _); [|done].
  rewrite (receive_ext _ (fun a' r' => ingest 1 a' r' now)); [done|].
  intros a r s2 Hk. by apply answer_level.
Qed.

(** ** What receiving an offer changes *)

(** Both logs of records grow or stay, sessions change only in their artifact
    counter. *)
Definition counted (r r' : session_row) : Prop := exists n, (0 <= n)%Z /\ r' = bytes_counted n r.

#[local] Instance counted_preorder : PreOrder counted.
Proof.
  split.
  - intros r. exists 0%Z. split; [done|]. destruct r. unfold bytes_counted. cbn. by rewrite Z.add_0_r.
  - intros r1 r2 r3 (n & Hn & ->) (m & Hm & ->). exists (n + m)%Z. split; [lia|].
    unfold bytes_counted. cbn. by rewrite Z.add_assoc.
Qed.

Definition offer_frame (s s' : node) : Prop :=
  session_events (db s') = session_events (db s) /\
  Forall2 counted (sessions (db s)) (sessions (db s')) /\
  approvals (db s') = approvals (db s) /\ outbound_queue (db s') = outbound_queue (db s) /\
  agents (db s') = agents (db s) /\ contacts (db s') = contacts (db s).

#[local] Instance offer_frame_preorder : PreOrder offer_frame.
Proof.
  split; [intros s; split_and!; done|].
  intros s1 s2 s3 (A1 & A2 & A3 & A4 & A5 & A6) (B1 & B2 & B3 & B4 & B5 & B6).
  split_and!; try congruence. by etrans.
Qed.

Lemma same_db_offer s s' : same_db s s' -> offer_frame s s'.
Proof. intros [E _]. unfold offer_frame. rewrite E. by split_and!. Qed.

Lemma only_audit_offer s s' : only_audit s s' -> offer_frame s s'.
Proof. intros [new E]. unfold offer_frame. rewrite E. by split_and!. Qed.

Lemma quiet_offer {A} (m : N A) : keeps only_audit m -> keeps offer_frame m.
Proof. apply keeps_weaken, only_audit_offer. Qed.

(** The whole effect of the vault on a store. *)
Lemma store_effect sid raw mime by_ policy max source now id path s r s' :
  store_artifact vault_key sid raw mime by_ policy max source now (Some id) path s = (r, s') ->
  (same_db s s' /\ (forall m, r = Ok m -> exists x, find_artifact id (db s) = Some x)) \/
  exists row, new_artifact vault_key id raw row /\ ar_session row = sid /\ ar_offered_by row = by_ /\
    (Z.of_nat (String.length raw) <= max)%Z /\ find_artifact id (db s) = None /\
    db s' = set_artifacts (fun l => l ++ [row]) (db s).
Proof.
  unfold store_artifact. destruct (max <? _)%Z eqn:Em; [intros [= <- <-]; by left|].
  apply Z.ltb_ge in Em. unfold bind at 1, select at 1, mgets at 1.
  destruct (find_artifact id (db s)) as [x|] eqn:Ef.
  { destruct (String.eqb _ _); [|intros [= <- <-]; by left].
    unfold bind, select, mgets, mlift. intros [= <- <-]. left. split; [done|]. intros m _. by exists x. }
  unfold insert_artifact. unfold bind at 1. destruct (iso_now_run now s) as (ns & t & ->).
  cbv beta iota zeta delta [bind draw insert_checked select execute commit mgets mmodify ret mraise
    encrypt_bytes]. cbn [db tick committed].
  match goal with |- context [artifact_insertable ?rw (db s)] =>
    set (row := rw); destruct (artifact_insertable row (db s)) end; [|intros [= <- <-]; by left].
  intros [= <- <-]. right. exists row. split_and!; try done. split_and!; try done. cbn. apply unseal_seal.
Qed.

Lemma store_offer_frame sid raw mime by_ policy max source now id path :
  keeps offer_frame (store_artifact vault_key sid raw mime by_ policy max source now (Some id) path).
Proof.
  intros s. destruct (store_artifact _ _ _ _ _ _ _ _ _ _ _ s) as [r s'] eqn:E. cbn [snd].
  apply store_effect in E as [[Hs _]|(row & _ & _ & _ & _ & _ & Hd)]; [by apply same_db_offer|].
  unfold offer_frame. rewrite Hd. by split_and!.
Qed.

Lemma increment_frame sid n : keeps offer_frame (increment_session_artifact_bytes sid n).
Proof.
  unfold increment_session_artifact_bytes. destruct (n <=? 0)%Z eqn:En; [solve_keeps|]. apply Z.leb_gt in En.
  apply keeps_bind; [apply _| |intros ?; apply quiet_offer; solve_keeps].
  intros s. unfold offer_frame. cbn. split_and!; try done. unfold update_where.
  induction (sessions (db s)) as [|r l IH]; cbn; constructor; [|done].
  destruct (String.eqb _ _); [|reflexivity]. exists n. split; [lia|done].
Qed.

Lemma reject_frame env summary : keeps offer_frame (reject_offer vault_key env summary).
Proof. unfold reject_offer. apply quiet_offer. solve_keeps. apply write_audit_only. Qed.

Lemma keep_offer_frame env offer max b now : keeps offer_frame (keep_offer vault_key env offer max b now).
Proof.
  unfold keep_offer. solve_keeps;
    first [apply store_offer_frame | apply increment_frame | apply reject_frame].
Qed.

Lemma send_accept_frame args env me recip accept :
  keeps offer_frame (send_accept http_post args env me recip accept).
Proof.
  apply quiet_offer. unfold send_accept, dict_post, encrypt_for_recipient. solve_keeps.
Qed.

(** A frame above [offer_frame] that the nested ingestion keeps is kept. *)
Lemma receive_keeps (R : node -> node -> Prop) `{!PreOrder R} self args env row me now :
  (forall s s', offer_frame s s' -> R s s') ->
  (forall k z agent t offer recip accept,
     owner_key private_of_bytes kc args me = Some k ->
     build_signed_envelope k (env_session_id env) z me agent (iso_text (iso now)) ARTIFACT_ACCEPT
       (accept_payload offer (env_session_id env)) = Some accept ->
     keeps R (self {| ia_keys := accept_keys public_of_bytes me k t; ia_x25519 := recip;
                      ia_owner := Some k; ia_relay := None |} accept)) ->
  keeps R (receive self args env row me now).
Proof.
  intros HR Hself. assert (Hw : forall A (m : N A), keeps offer_frame m -> keeps R m)
    by (intros A m; by apply keeps_weaken).
  assert (Hq : forall A (m : N A), keeps only_audit m -> keeps R m) by (intros A m Hm; by apply Hw, quiet_offer).
  unfold receive_offer. destruct (offer_of_payload _ _) as [offer|]; [|solve_keeps].
  apply keeps_bind; [done|apply Hq; solve_keeps|]. intros max. apply keeps_bind; [done|apply Hq; solve_keeps|].
  intros recip. apply keeps_bind; [done|apply Hq; solve_keeps|]. intros [b|e]; [|apply Hw, reject_frame].
  apply keeps_bind; [done|apply Hw, keep_offer_frame|]. intros [|]; [|solve_keeps].
  unfold answer_offer. apply keeps_bind; [done|apply Hq; solve_keeps|]. intros z.
  destruct (owner_key _ _ _ _) as [k|] eqn:Ek; [|destruct (compute_content_hash _); solve_keeps].
  destruct (build_signed_envelope _ _ _ _ _ _ _ _) as [accept|] eqn:Eb; [|solve_keeps].
  apply keeps_bind; [done|apply Hq; solve_keeps|]. intros t. apply keeps_bind; [done|by eapply Hself|].
  intros ack. apply Hw, send_accept_frame.
Qed.

(** ** Invariants of the whole function *)

Lemma find_counted sid l l' :
  Forall2 counted l l' ->
  match find_first (fun r => String.eqb (s_id r) sid) l with
  | Some r => exists r', find_first (fun r => String.eqb (s_id r) sid) l' = Some r' /\ counted r r'
  | None => find_first (fun r => String.eqb (s_id r) sid) l' = None
  end.
Proof.
  induction 1 as [|r r' l l' Hr Hl IH]; [done|]. cbn. pose proof Hr as (n & _ & ->). cbn.
  destruct (String.eqb (s_id r) sid); [by eexists|exact IH].
Qed.

Lemma offer_terminal s s' : offer_frame s s' -> terminal_kept s s'.
Proof.
  intros (_ & Hs & _) sid st Hst _. unfold stored_status, find_session in *.
  pose proof (find_counted sid _ _ Hs) as Hf. destruct (find_first _ (sessions (db s))) as [r|]; [|done].
  destruct Hf as (r' & -> & n & _ & ->). exact Hst.
Qed.

#[local] Instance offer_terminal_preorder : PreOrder terminal_kept.
Proof. split; [by intros s sid st|]. intros s1 s2 s3 H12 H23 sid st Hs Ht. auto. Qed.

Lemma envelope_terminal depth args raw now : keeps terminal_kept (ingest depth args raw now).
Proof.
  induction depth as [|d IH] in args, raw |- *; cbn [ingest_envelope]; [solve_keeps|].
  apply keeps_bind; [apply _|apply ingest_kept|]. intros [a|env row me]; [solve_keeps|].
  apply keeps_bind; [apply _| |].
  - apply keeps_when; [apply _|]. apply receive_keeps; [apply _|apply offer_terminal|]. intros. apply IH.
  - intros ?. eapply keeps_weaken; [exact statuses_terminal|apply acknowledge_kept].
Qed.

(** C4: A finished session stays finished: nothing a peer delivers, artifact
    offers and the nested answer included, changes the stored status of a
    session whose status is terminal, whatever ingestion returns or raises. *)
Theorem envelope_keeps_terminal depth args raw now s sid st :
  stored_status sid (db s) = Some st -> st ∈ TERMINAL_STATES ->
  stored_status sid (db (ingest depth args raw now s).2) = Some st.
Proof. apply envelope_terminal. Qed.

(** The acceptance the node writes for itself, signed with the key of the
    owner that the call or the keychain has. *)
Definition own_acceptance (args : ingest_args) (now : Z) (row : event_row) : Prop :=
  exists user k sid z me agent t offer accept,
    owner_key private_of_bytes kc args user = Some k /\
    build_signed_envelope k sid z me agent (iso_text (iso now)) ARTIFACT_ACCEPT (accept_payload offer sid)
      = Some accept /\
    from_verified vault_key (accept_keys public_of_bytes me k t) accept row.

Lemma log_weaken (P Q : event_row -> Prop) s s' :
  (forall r, P r -> Q r) -> log_by P s s' -> log_by Q s s'.
Proof. intros HPQ (new & E & Hn). exists new. split; [done|]. by eapply Forall_impl. Qed.

#[local] Instance offer_log_preorder P : PreOrder (log_by P).
Proof.
  split.
  - intros s. exists []. by rewrite app_nil_r.
  - intros s1 s2 s3 (n1 & E1 & F1) (n2 & E2 & F2). exists (n1 ++ n2).
    rewrite E2, E1, app_assoc. split; [done|]. by apply Forall_app_2.
Qed.

Lemma envelope_log depth args raw now :
  keeps (log_by (fun r => from_verified vault_key (ia_keys args) raw r \/ own_acceptance args now r))
    (ingest depth args raw now).
Proof.
  induction depth as [|d IH] in args, raw |- *; cbn [ingest_envelope]; [solve_keeps|].
  apply keeps_bind; [apply _| |].
  { intros s. eapply log_weaken; [|apply ingest_log]. auto. }
  intros [a|env row me]; [solve_keeps|]. apply keeps_bind; [apply _| |].
  - apply keeps_when; [apply _|]. apply receive_keeps; [apply _| |].
    + intros s s' (E & _). by apply log_quiet.
    + intros k z agent t offer recip accept Hk Hb s. eapply log_weaken; [|apply IH].
      intros r [Hv|(u & k' & Ho)]; right; [|].
      * exists me, k. do 6 eexists. exists accept. by split_and!.
      * destruct Ho as (sid & z' & me' & a' & t' & o' & acc & Hk' & Hb' & Hv). cbn in Hk'. injection Hk' as ->.
        exists me, k', sid, z', me', a', t', o', acc. by split_and!.
  - intros ?. apply acknowledge_log.
Qed.

(** Nothing unauthenticated enters a session log: whatever a peer
    delivers, every event ingestion adds carries the fields of an envelope
    that passed the six-stage verification, either the delivered one under
    the actor's key or the node's own acceptance of an offer, signed with the
    owner's key, or is the local outcome record of such an envelope; stored
    events stay in place. *)
Theorem envelope_logs_only_verified depth args raw now s :
  session_events (db s) `prefix_of` session_events (db (ingest depth args raw now s).2) /\
  forall row, row ∈ session_events (db (ingest depth args raw now s).2) ->
    row ∈ session_events (db s) \/ from_verified vault_key (ia_keys args) raw row \/ own_acceptance args now row.
Proof.
  destruct (envelope_log depth args raw now s) as (new & E & Hnew). rewrite E. split; [by exists new|].
  intros row [Hr|Hr]%elem_of_app; [by left|right]. rewrite Forall_forall in Hnew. auto.
Qed.

(** ** What enters the artifact vault *)

(** Artifacts and agents as before. *)
Definition same_vault (s s' : node) : Prop :=
  artifacts (db s') = artifacts (db s) /\ agents (db s') = agents (db s).

#[local] Instance same_vault_preorder : PreOrder same_vault.
Proof. split; [done|]. intros s1 s2 s3 [? ?] [? ?]. split; congruence. Qed.

Lemma quiet_vault {A} (m : N A) : keeps only_audit m -> keeps same_vault m.
Proof. apply keeps_weaken. intros s s' [new E]. unfold same_vault. by rewrite E. Qed.

Lemma execute_vault f :
  (forall t, artifacts (f t) = artifacts t /\ agents (f t) = agents t) -> keeps same_vault (execute f).
Proof. intros Hf s. apply Hf. Qed.

Lemma core_vault s s' : core_only s s' -> same_vault s s'.
Proof. intros (_ & Ha & _ & _ & _ & Hg & _)%core_only_tables. by split. Qed.

Ltac vault_step :=
  first [ eapply keeps_weaken; [exact core_vault|core_step] | apply execute_vault; by intros ? ].

Lemma acknowledge_vault sid z st at_ h e : keeps same_vault (acknowledge lax_int sid z st at_ h e).
Proof. unfold acknowledge. solve_keeps. Qed.

Lemma stages_vault get raw now : keeps same_vault (ingest_stages vault_key lax_int get raw now).
Proof. eapply keeps_weaken; [exact core_vault|apply stages_core]. Qed.

Lemma answer_vault d args raw now :
  obj_get "kind" raw = Some (JStr "artifact_accept") -> keeps same_vault (ingest d args raw now).
Proof.
  intros Hk s. destruct d as [|d]; [reflexivity|]. rewrite answer_level by done. cbn [ingest_envelope].
  apply keeps_bind_at; [apply _|apply stages_vault|]. intros [a|env row me] s1 Ei; [reflexivity|].
  apply stored_verified in Ei as (sid & parts & ve & Hv & <-). apply verified_kind in Hv.
  rewrite Hk in Hv. injection Hv as Hv.
  replace (bool_decide (env_kind (ve_envelope ve) = ARTIFACT_OFFER)) with false
    by (by destruct (env_kind (ve_envelope ve))). cbn [andb mwhen].
  apply keeps_bind; [apply _|solve_keeps|]. intros ?. apply acknowledge_vault.
Qed.

(** An artifact row that an offer accounts for: the verified envelope, its
    metadata, and the bytes with the digest and the size checked. *)
Definition offered_artifact (args : ingest_args) (raw : document) (s : node) (row : artifact_row) : Prop :=
  exists sid parts ve offer b srow me,
    verify_and_build_envelope raw (fun u => ia_keys args (JStr u)) sid parts = Ok ve /\
    env_kind (ve_envelope ve) = ARTIFACT_OFFER /\
    offer_of_payload lax_int (env_payload (ve_envelope ve)) = Some offer /\
    ar_id row = of_artifact_id offer /\ ar_session row = env_session_id (ve_envelope ve) /\
    decrypt_bytes vault_key (ar_bytes row) = Ok b /\ sha256_hex b = of_sha256 offer /\
    ar_sha256 row = of_sha256 offer /\
    let limit := receiver_max_bytes vault_key lax_int (receiver_agent srow me) (db s) in
    (of_size_bytes offer <= limit)%Z /\ (Z.of_nat (String.length b) <= limit)%Z /\
    find_artifact (of_artifact_id offer) (db s) = None.

Definition artifacts_by (P : artifact_row -> Prop) (s s' : node) : Prop :=
  exists new, artifacts (db s') = artifacts (db s) ++ new /\ Forall P new.

#[local] Instance artifacts_by_preorder P : PreOrder (artifacts_by P).
Proof.
  split.
  - intros s. exists []. by rewrite app_nil_r.
  - intros s1 s2 s3 (n1 & E1 & F1) (n2 & E2 & F2). exists (n1 ++ n2).
    rewrite E2, E1, app_assoc. split; [done|]. by apply Forall_app_2.
Qed.

Lemma vault_artifacts P s s' : same_vault s s' -> artifacts_by P s s'.
Proof. intros [E _]. exists []. by rewrite app_nil_r. Qed.

Lemma check_offer_Ok env offer max recip t b :
  check_offer env offer max recip t = Ok b ->
  (of_size_bytes offer <= max)%Z /\ sha256_hex b = of_sha256 offer /\ (Z.of_nat (String.length b) <= max)%Z.
Proof.
  unfold check_offer. destruct (max <? of_size_bytes offer)%Z eqn:E1; [done|]. destruct (negb _); [done|].
  destruct (open_wire _ _ _ _) as [x|e]; [|done]. destruct (String.eqb _ _) eqn:E2; [|done]. cbn.
  destruct (max <? Z.of_nat (String.length x))%Z eqn:E3; [done|]. intros [= <-].
  apply String.eqb_eq in E2. apply Z.ltb_ge in E1, E3. done.
Qed.

Lemma keep_offer_artifacts env offer max b now s :
  artifacts_by (fun row => new_artifact vault_key (of_artifact_id offer) b row /\
                  ar_session row = env_session_id env /\ find_artifact (of_artifact_id offer) (db s) = None)
    s (keep_offer vault_key env offer max b now s).2.
Proof.
  unfold keep_offer, mcatch. set (m := bind _ _). set (P := fun row : artifact_row => _).
  assert (Hm : artifacts_by P s (m s).2).
  { refine (keeps_bind_at (artifacts_by P) _ _ s _ _).
    - destruct (store_artifact _ _ _ _ _ _ _ _ _ _ _ s) as [r s'] eqn:E. cbn [snd].
      apply store_effect in E as [[[Hs _] _]|(row & Hn & Hsid & _ & _ & Hf & Hd)].
      + exists []. by rewrite Hs, app_nil_r.
      + exists [row]. rewrite Hd. split; [done|]. by apply Forall_singleton.
    - intros a s1 _. apply vault_artifacts. apply keeps_bind; [apply _| |intros ?; solve_keeps].
      unfold increment_session_artifact_bytes. solve_keeps; vault_step. }
  destruct (m s) as [[a|e] s1]; [exact Hm|]. etrans; [exact Hm|]. apply vault_artifacts.
  unfold reject_offer. destruct (str_in _ _); [|reflexivity].
  refine (keeps_bind same_vault _ _ _ _ s1); [|intros ?; solve_keeps].
  apply keeps_bind; [apply _|vault_step|intros ?; solve_keeps].
Qed.

Lemma receive_artifacts self args env row me now s :
  (forall k z agent t offer recip accept,
     build_signed_envelope k (env_session_id env) z me agent (iso_text (iso now)) ARTIFACT_ACCEPT
       (accept_payload offer (env_session_id env)) = Some accept ->
     keeps same_vault (self {| ia_keys := accept_keys public_of_bytes me k t; ia_x25519 := recip;
                      ia_owner := Some k; ia_relay := None |} accept)) ->
  artifacts_by (fun r => exists offer b, offer_of_payload lax_int (env_payload env) = Some offer /\
      ar_id r = of_artifact_id offer /\ ar_session r = env_session_id env /\
      decrypt_bytes vault_key (ar_bytes r) = Ok b /\ sha256_hex b = of_sha256 offer /\
      ar_sha256 r = of_sha256 offer /\
      let limit := receiver_max_bytes vault_key lax_int (receiver_agent row me) (db s) in
      (of_size_bytes offer <= limit)%Z /\ (Z.of_nat (String.length b) <= limit)%Z /\
      find_artifact (of_artifact_id offer) (db s) = None) s (receive self args env row me now s).2.
Proof.
  intros Hself. set (P := fun r : artifact_row => _). unfold receive_offer.
  destruct (offer_of_payload _ _) as [offer|] eqn:Eo; [|reflexivity].
  do 3 (refine (keeps_bind_at (artifacts_by P) _ _ s _ _); [reflexivity|]; intros ? ? [= <- <-]).
  destruct (check_offer _ _ _ _ _) as [b|e] eqn:Ec.
  2: { apply vault_artifacts. unfold reject_offer.
       refine (keeps_bind same_vault _ _ _ _ s); [vault_step|intros ?; solve_keeps]. }
  apply check_offer_Ok in Ec as (Hsize & Hsha & Hlen). refine (keeps_bind_at (artifacts_by P) _ _ s _ _).
  - destruct (keep_offer_artifacts env offer (receiver_max_bytes vault_key lax_int (receiver_agent row me) (db s))
      b now s) as (new & E & Hn). exists new. split; [exact E|]. eapply Forall_impl; [exact Hn|].
    intros r ((Hid & Hs2 & Hd) & Hsid & Hf). exists offer, b. split_and!; try done. congruence.
  - intros [|] s1 _; [|reflexivity]. apply vault_artifacts. unfold answer_offer.
    apply keeps_bind_at; [apply _|reflexivity|]. intros z s2 _.
    destruct (owner_key _ _ _ _) as [k|]; [|by destruct (compute_content_hash _)].
    destruct (build_signed_envelope _ _ _ _ _ _ _ _) as [accept|] eqn:Eb; [|reflexivity].
    apply keeps_bind_at; [apply _|reflexivity|]. intros t s3 _.
    refine (keeps_bind same_vault _ _ _ _ s3); [by eapply Hself|]. intros ack.
    apply quiet_vault. unfold send_accept, dict_post, encrypt_for_recipient. solve_keeps.
Qed.

(** Only checked artifacts enter the vault: every artifact a delivery adds
    belongs to a verified ARTIFACT_OFFER, is stored under the offered id in
    the envelope's session, decrypts to bytes with exactly the digest the
    signed offer claims, and these bytes and the claimed size are within the
    limit of the receiving agent's card; an artifact already stored is never
    replaced. *)
Theorem offered_artifacts_checked depth args raw now s :
  artifacts (db s) `prefix_of` artifacts (db (ingest depth args raw now s).2) /\
  forall row, row ∈ artifacts (db (ingest depth args raw now s).2) ->
    row ∈ artifacts (db s) \/ offered_artifact args raw s row.
Proof.
  assert (Hby : artifacts_by (offered_artifact args raw s) s (ingest depth args raw now s).2).
  { set (P := offered_artifact args raw s). destruct depth as [|d]; [reflexivity|]. cbn [ingest_envelope].
    refine (keeps_bind_at (artifacts_by P) _ _ s _ _).
    - apply vault_artifacts, stages_vault.
    - intros [a|env row me] s1 Ei; [reflexivity|].
      pose proof (keeps_run _ _ _ _ _ (stages_vault _ _ _) Ei) as [Ea Eg].
      apply stored_verified in Ei as (sid & parts & ve & Hv & <-).
      refine (keeps_bind_at (artifacts_by P) _ _ s1 _ _);
        [|intros ? ? _; apply vault_artifacts, acknowledge_vault].
      destruct (bool_decide _) eqn:Ek; [|reflexivity]. apply bool_decide_eq_true in Ek. cbn [andb].
      destruct (negb _); [|reflexivity]. cbn [mwhen].
      destruct (receive_artifacts (fun a' r' => ingest d a' r' now) args (ve_envelope ve) row me now s1)
        as (new & E & Hn).
      { intros k z agent t offer recip accept Hb. apply answer_vault.
        exact (built_kind _ _ _ _ _ _ ARTIFACT_ACCEPT _ _ Hb). }
      exists new. split; [exact E|]. eapply Forall_impl; [exact Hn|].
      intros r (offer & b & Ho & Hid & Hsid & Hd & Hs & Hs2 & Hl1 & Hl2 & Hf).
      exists sid, parts, ve, offer, b, row, me. unfold receiver_max_bytes, get_card, find_agent, find_artifact in *.
      rewrite Ea in Hf. rewrite Eg in Hl1, Hl2. by split_and!. }
  destruct Hby as (new & E & Hnew). rewrite E. split; [by exists new|].
  intros row [Hr|Hr]%elem_of_app; [by left|right]. rewrite Forall_forall in Hnew. auto.
Qed.
End depth.

(** ** An acknowledged delivery is durable *)

Section durable.
Context `{NodeEnv} `{Jcs} `{Ed25519} `{Clock} `{X25519} (vault_key : bytes) (lax_int : json -> option Z).
Context (public_of_bytes : bytes -> option public_key) (private_of_bytes : bytes -> option private_key).
Context (kc : keychain) (http_post : nat -> string -> json -> http_result).

Abbreviation ingest := (ingest_envelope vault_key lax_int public_of_bytes private_of_bytes kc http_post).

(** The visible log extends the committed one, and neither shrinks. *)
Definition durable_log (s s' : node) : Prop :=
  session_events (committed s) `prefix_of` session_events (db s) ->
  session_events (committed s) `prefix_of` session_events (committed s') /\
  session_events (committed s') `prefix_of` session_events (db s').

#[export] Instance durable_log_preorder : PreOrder durable_log.
Proof.
  split; [by intros s ?|]. intros s1 s2 s3 H12 H23 Hp.
  destruct (H12 Hp) as [A1 A2]. destruct (H23 A2) as [B1 B2]. split; [by etrans|done].
Qed.

Lemma commit_durable : keeps durable_log commit.
Proof. by intros s Hp. Qed.

Lemma execute_durable f :
  (forall t, session_events t `prefix_of` session_events (f t)) -> keeps durable_log (execute f).
Proof. intros Hf s Hp. split; [done|]. cbn. by etrans. Qed.

Lemma same_durable {A} (m : N A) : keeps same_db m -> keeps durable_log m.
Proof. apply keeps_weaken. intros s s' [E1 E2] Hp. by rewrite E1, E2. Qed.

Ltac durable_step :=
  first [ apply commit_durable
        | apply execute_durable; intros ?; first [reflexivity | by eexists]
        | apply same_durable; first [apply encrypt_field_same_db | solve [eauto with keeps]] ].

Lemma audit_durable cat sum sid actor payload cid :
  keeps durable_log (write_audit_event vault_key cat sum sid actor payload cid).
Proof. unfold write_audit_event, insert_checked. solve_keeps; durable_step. Qed.

Lemma conflict_durable sid actor z payload :
  keeps durable_log (check_sequence_conflict vault_key sid actor z payload).
Proof. unfold check_sequence_conflict. solve_keeps; first [apply audit_durable | durable_step]. Qed.

Lemma append_durable sid actor agent kind vis payload sig sequence :
  keeps durable_log (append_session_event vault_key sid actor agent kind vis payload sig sequence).
Proof.
  unfold append_session_event, insert_event, insert_checked.
  solve_keeps; first [apply conflict_durable | apply audit_durable | durable_step].
Qed.

Lemma outcome_durable sid payload : keeps durable_log (record_outcome vault_key lax_int sid payload).
Proof.
  unfold record_outcome, create_outcome_card, require_session.
  solve_keeps; first [apply append_durable | apply audit_durable | durable_step].
Qed.

(** The log holds the event of the envelope in its committed part. *)
Definition in_committed_log (env : SessionEnvelope) (s : node) : Prop :=
  session_events (committed s) `prefix_of` session_events (db s) /\
  exists row, row ∈ session_events (committed s) /\ e_session row = env_session_id env /\
    e_actor row = env_actor_username env /\ e_sequence row = Some (env_sequence env) /\
    exists text, decrypt_field vault_key (e_payload row) = Ok text /\
      (text = payload_text (Some (JObj (env_payload env))) \/
       canonical_payload_hash (Some (JObj (env_payload env))) = canonical_payload_hash (JStr <$> text)).

Lemma in_log_kept env s s' : durable_log s s' -> in_committed_log env s -> in_committed_log env s'.
Proof.
  intros Hd [Hp (row & Hin & Hrest)]. destruct (Hd Hp) as [A1 A2]. split; [done|]. exists row.
  split; [|done]. by eapply elem_of_prefix.
Qed.

Lemma stored_in_log sid actor z s row :
  stored_event sid actor z (db s) = Some row ->
  row ∈ session_events (db s) /\ e_session row = sid /\ e_actor row = actor /\ e_sequence row = Some z.
Proof.
  intros [Hin Hb]%find_first_Some. apply andb_true_iff in Hb as [Hb Hz%bool_decide_eq_true].
  apply andb_true_iff in Hb as [->%String.eqb_eq ->%String.eqb_eq]. done.
Qed.

(** A reported duplicate is stored, and the report was committed. *)
Lemma duplicate_in_log env s id s' :
  check_sequence_conflict vault_key (env_session_id env) (env_actor_username env) (env_sequence env)
    (Some (JObj (env_payload env))) s = (Ok (SeqDuplicate id), s') ->
  in_committed_log env s'.
Proof.
  unfold check_sequence_conflict, bind, select, mgets, mlift, ret.
  destruct (stored_event _ _ _ _) as [r|] eqn:Es; [|done].
  destruct (decrypt_field _ _) as [text|e] eqn:Ed; [|done]. destruct (String.eqb _ _) eqn:Eh.
  2: { by destruct (write_audit_event _ _ _ _ _ _ _) as [[a|e] s1]. }
  match goal with |- context [write_audit_event ?k ?a ?b ?c ?d ?e ?f ?st] =>
    pose proof (write_audit_only k a b c d e f st) as [new Ho];
    destruct (write_audit_event k a b c d e f st) as [[x|e1] s1] eqn:Ew end; [|done]. intros [= _ <-].
  apply write_audit_committed in Ew. apply stored_in_log in Es as (Hin & ? & ? & ?). cbn [snd] in Ho.
  split; [by rewrite Ew|]. exists r. rewrite Ew, Ho. split_and!; try done.
  exists text. split; [done|right; by apply String.eqb_eq].
Qed.

Lemma acknowledge_run sid z st at_ h e s :
  (exists a, acknowledge lax_int sid z st at_ h e s = (Ok a, s) /\ ack_status a = st) \/
  exists err, acknowledge lax_int sid z st at_ h e s = (Err err, s).
Proof.
  unfold acknowledge. destruct sid; try by right; eexists. destruct (lax_int z); [|by right; eexists].
  destruct h; try by right; eexists. destruct (_ && _); [left|right]; eexists; by split.
Qed.

(** What an early answer says, and the event behind an answer. *)
Definition answered (env : SessionEnvelope) (run : result string ingested * node) : Prop :=
  match run.1 with
  | Ok (Stopped a) => ack_status a = "delivered" -> in_committed_log env run.2
  | Ok (Stored e _ _) => e = env /\ in_committed_log env run.2
  | Err _ => True
  end.

Lemma stop_answered env sid z h e at_ s st :
  (st = "delivered" -> in_committed_log env s) ->
  answered env ((let* a := acknowledge lax_int sid z st at_ h e in ret (Stopped a)) s).
Proof.
  intros Hd. unfold bind. destruct (acknowledge_run sid z st at_ h e s) as [(a & -> & Ha)|(err & ->)]; [|exact I].
  cbn. intros E. apply Hd. congruence.
Qed.

Lemma conclude_answered env row new now_str s :
  (exists r, r ∈ session_events (db s) /\ e_session r = env_session_id env /\
    e_actor r = env_actor_username env /\ e_sequence r = Some (env_sequence env) /\
    exists text, decrypt_field vault_key (e_payload r) = Ok text /\
      (text = payload_text (Some (JObj (env_payload env))) \/
       canonical_payload_hash (Some (JObj (env_payload env))) = canonical_payload_hash (JStr <$> text))) ->
  answered env (conclude vault_key lax_int env row new now_str s).
Proof.
  intros Hrow. unfold conclude. unfold bind at 1, select at 1, mgets at 1. set (final := follow_up _ _ _).
  unfold bind at 1, execute at 1, mmodify at 1. unfold bind at 1, commit at 1, mmodify at 1. cbn [db committed tick on_db].
  set (s1 := Build_node _ _ _).
  assert (Hin : in_committed_log env s1) by (split; [done|exact Hrow]).
  pose proof (keeps_when durable_log (bool_decide (env_kind env = FINAL_RESULT)) _
    (outcome_durable (env_session_id env) (env_payload env)) s1) as Hw.
  unfold bind. destruct (mwhen _ _ s1) as [[u|e] s2]; [|done]. split; [done|]. by eapply in_log_kept.
Qed.

Lemma reduce_answered env state row z now_str s :
  answered env (reduce_and_store vault_key lax_int env state row z now_str s).
Proof.
  unfold reduce_and_store. destruct (process_peer_envelope _ env) as [red|e]; [|done].
  destruct (negb (success red)); [by apply stop_answered|].
  unfold bind at 1. destruct (mwhen _ _ s) as [[u|e] s1]; [|done].
  unfold bind at 1. destruct (append_session_event _ _ _ _ _ _ _ _ _ s1) as [[app|e] s2] eqn:Ea; [|done].
  destruct app as [id ord|id|]; [| |by apply stop_answered]; apply conclude_answered.
  - apply append_effect in Ea as [[_ Hf]|(r & Hw & _ & [(_ & _ & new & Hd)|(e & ? & _)])]; [done| |done].
    destruct Hw as (? & ? & _ & _ & _ & _ & ? & _ & Hdec). exists r. rewrite Hd.
    split_and!; [apply elem_of_app; right; by apply list_elem_of_singleton|done..|]. eexists. split; [exact Hdec|by left].
  - unfold append_session_event in Ea. unfold bind in Ea.
    destruct (check_sequence_conflict _ _ _ _ _ s1) as [[[|i|i]|e] s3] eqn:Ec; try done.
    + by destruct (insert_event_effect _ _ _ _ _ _ _ _ _ _ _ _ Ea)
        as [(e & ? & _)|(r & _ & _ & [(? & _)|(e & ? & _)])].
    + injection Ea as -> <-. apply duplicate_in_log in Ec as [Hp (r & Hin & Hrest)]. exists r.
      split; [by eapply elem_of_prefix|done].
Qed.

(** The same for a raw body, whose envelope the pipeline verified. *)
Definition from_body (get : json -> option public_key) (raw : document) (env : SessionEnvelope) : Prop :=
  exists sid parts ve, verify_and_build_envelope raw (fun u => get (JStr u)) sid parts = Ok ve /\
    ve_envelope ve = env.

Definition body_answered (get : json -> option public_key) (raw : document)
    (run : result string ingested * node) : Prop :=
  match run.1 with
  | Ok (Stopped a) => ack_status a = "delivered" ->
      exists env, from_body get raw env /\ in_committed_log env run.2
  | Ok (Stored env _ _) => from_body get raw env /\ in_committed_log env run.2
  | Err _ => True
  end.

Lemma answered_body get raw env run : from_body get raw env -> answered env run -> body_answered get raw run.
Proof.
  destruct run as [[[a|e0 r me]|e] s']; cbn; [intros Hb Ha Hd; exists env; auto| |done].
  by intros Hb [-> Ha].
Qed.

Lemma rejected_answered get raw sid z h e at_ s :
  body_answered get raw ((let* a := acknowledge lax_int sid z "rejected" at_ h e in ret (Stopped a)) s).
Proof.
  unfold bind. destruct (acknowledge_run sid z "rejected" at_ h e s) as [(a & -> & Ha)|(err & ->)]; [|done].
  unfold body_answered. cbn. by rewrite Ha.
Qed.

Lemma stages_answered get raw now s : body_answered get raw (ingest_stages vault_key lax_int get raw now s).
Proof.
  unfold ingest_stages. unfold bind at 1. destruct (open_session _ _ _ _ s) as [[adm|e] s1]; [|done].
  destruct adm as [code|row parts]; [apply rejected_answered|].
  destruct (verify_and_build_envelope _ _ _ _) as [ve|code] eqn:Ev; [|apply rejected_answered].
  assert (Hb : from_body get raw (ve_envelope ve)) by (do 2 eexists; by exists ve).
  unfold bind at 1. destruct (check_sequence_conflict _ _ _ _ _ s1) as [[seen|e] s2] eqn:Ec; [|done].
  destruct seen as [|id|id]; [| |apply rejected_answered].
  2: { apply (answered_body _ _ _ _ Hb), stop_answered. intros _. by eapply duplicate_in_log. }
  destruct row as [row|].
  - unfold bind at 1, select at 1, mgets at 1.
    destruct (reconstruct_session_state _ _ (db s2)) as [[state|]|e]; [|apply rejected_answered|done].
    apply (answered_body _ _ _ _ Hb), reduce_answered.
  - unfold bind at 1. destruct (bootstrap_session _ _ _ s2) as [[[state|]|e] s3]; [|apply rejected_answered|done].
    apply (answered_body _ _ _ _ Hb), reduce_answered.
Qed.

Ltac log_durable_step := first [apply append_durable | apply audit_durable | apply conflict_durable | durable_step].

Lemma command_durable sid c now : keeps durable_log (apply_node_command_transition vault_key sid c now).
Proof. unfold apply_node_command_transition, persist_transition, iso_now. solve_keeps; log_durable_step. Qed.

Lemma acknowledge_durable sid z st at_ h e : keeps durable_log (acknowledge lax_int sid z st at_ h e).
Proof. unfold acknowledge. solve_keeps. Qed.

Lemma reduce_durable env state row z now_str :
  keeps durable_log (reduce_and_store vault_key lax_int env state row z now_str).
Proof.
  unfold reduce_and_store, conclude.
  solve_keeps; first [apply acknowledge_durable | apply outcome_durable | log_durable_step].
Qed.

Lemma stages_durable get raw now : keeps durable_log (ingest_stages vault_key lax_int get raw now).
Proof.
  unfold ingest_stages, open_session, expire_if_due, bootstrap_session, encrypt_goal, insert_checked.
  solve_keeps; first [apply acknowledge_durable | apply command_durable | apply reduce_durable | log_durable_step].
Qed.

Lemma reject_durable env summary : keeps durable_log (reject_offer vault_key env summary).
Proof. unfold reject_offer. solve_keeps. apply audit_durable. Qed.

Lemma keep_offer_durable env offer max b now : keeps durable_log (keep_offer vault_key env offer max b now).
Proof.
  unfold keep_offer, store_artifact, insert_artifact, increment_session_artifact_bytes, iso_now, encrypt_bytes,
    insert_checked.
  solve_keeps; first [apply reject_durable | durable_step].
Qed.

Lemma receive_durable self args env row me now :
  (forall args' raw', keeps durable_log (self args' raw')) ->
  keeps durable_log
    (receive_offer vault_key lax_int public_of_bytes private_of_bytes kc http_post self args env row me now).
Proof.
  intros Hself. unfold receive_offer, answer_offer, send_accept, dict_post, encrypt_for_recipient.
  solve_keeps; first [apply Hself | apply reject_durable | apply keep_offer_durable | durable_step].
Qed.

Lemma ingest_durable depth args raw now : keeps durable_log (ingest depth args raw now).
Proof.
  induction depth as [|d IH] in args, raw |- *; cbn [ingest_envelope]; [solve_keeps|].
  apply keeps_bind; [apply _|apply stages_durable|]. intros [a|env row me]; [solve_keeps|].
  apply keeps_bind; [apply _| |intros ?; apply acknowledge_durable].
  apply keeps_when; [apply _|]. apply receive_durable. intros. apply IH.
Qed.

(** Ingestion answers [delivered] or [rejected]. *)
Lemma acknowledge_status sid z st at_ h e :
  returns (fun a => ack_status a = st) (acknowledge lax_int sid z st at_ h e).
Proof.
  intros s a s'. destruct (acknowledge_run sid z st at_ h e s) as [(b & -> & Ha)|(err & ->)]; [|done].
  by intros [= <- _].
Qed.

Definition two_answers (st : string) : Prop := st = "delivered" \/ st = "rejected".

Lemma stop_status sid z st at_ h e :
  two_answers st ->
  returns (fun i => match i with Stopped a => two_answers (ack_status a) | Stored _ _ _ => True end)
    (let* a := acknowledge lax_int sid z st at_ h e in ret (Stopped a)).
Proof.
  intros Hst. eapply returns_bind; [apply acknowledge_status|]. intros a Ha.
  apply returns_ret. by rewrite Ha.
Qed.

Lemma conclude_status env row new now_str :
  returns (fun i => match i with Stopped a => two_answers (ack_status a) | Stored _ _ _ => True end)
    (conclude vault_key lax_int env row new now_str).
Proof. unfold conclude. do 4 (apply returns_after; intros ?). by apply returns_ret. Qed.

Lemma reduce_status env state row z now_str :
  returns (fun i => match i with Stopped a => two_answers (ack_status a) | Stored _ _ _ => True end)
    (reduce_and_store vault_key lax_int env state row z now_str).
Proof.
  unfold reduce_and_store. destruct (process_peer_envelope _ env) as [red|e]; [|apply returns_raise].
  destruct (negb (success red)); [apply stop_status; by right|]. apply returns_after. intros _.
  apply returns_after. intros [| |]; [apply conclude_status..|apply stop_status; by right].
Qed.

Lemma stages_status get raw now :
  returns (fun i => match i with Stopped a => two_answers (ack_status a) | Stored _ _ _ => True end)
    (ingest_stages vault_key lax_int get raw now).
Proof.
  unfold ingest_stages. apply returns_after. intros [code|row parts]; [apply stop_status; by right|].
  destruct (verify_and_build_envelope _ _ _ _) as [ve|code]; [|apply stop_status; by right].
  apply returns_after. intros [|id|id]; [|apply stop_status; by left|apply stop_status; by right].
  destruct row as [row|]; apply returns_after.
  - intros [[state|]|e]; [apply reduce_status|apply stop_status; by right|apply returns_raise].
  - intros [state|]; [apply reduce_status|apply stop_status; by right].
Qed.

Lemma ingest_status depth args raw now : returns (fun a => two_answers (ack_status a)) (ingest depth args raw now).
Proof.
  destruct depth as [|d]; [apply returns_raise|]. cbn [ingest_envelope].
  eapply returns_bind; [apply stages_status|]. intros [a|env row me] Ha; [by apply returns_ret|].
  apply returns_after. intros _. intros s a s' Hk. left. by eapply acknowledge_status.
Qed.

(** [delivered] means committed. *)
Lemma delivered_durable depth args raw now s a s' :
  ingest depth args raw now s = (Ok a, s') -> ack_status a = "delivered" ->
  exists env, from_body (ia_keys args) raw env /\ in_committed_log env s'.
Proof.
  destruct depth as [|d]; [done|]. cbn [ingest_envelope]. unfold bind at 1.
  pose proof (stages_answered (ia_keys args) raw now s) as Ha.
  destruct (ingest_stages _ _ _ raw now s) as [[[a0|env row me]|e] s1]; [|..|done]; cbn in Ha.
  - intros [= -> ->] Hd. auto.
  - destruct Ha as [Hb Hin]. set (m := mwhen _ _). unfold bind at 1.
    assert (Hm : keeps durable_log m)
      by (apply keeps_when; [apply _|apply receive_durable; intros; apply ingest_durable]).
    destruct (m s1) as [[u|e] s2] eqn:Em; [|done]. intros Hk _. exists env. split; [done|].
    pose proof (keeps_run _ _ _ _ _ (acknowledge_durable _ _ _ _ _ _) Hk) as D2.
    eapply in_log_kept; [|exact Hin]. etrans; [by eapply keeps_run|exact D2].
Qed.

(** C3: An acknowledgement can be relied on: when ingestion answers
    [delivered], the body passed the verification and the event of its
    session, actor and sequence number is in the committed log, with the
    payload of the envelope (or, for a redelivery, one of the same canonical
    hash); no crash after the answer loses it. *)
Theorem delivered_is_durable depth args raw now s a s' :
  ingest depth args raw now s = (Ok a, s') -> ack_status a = "delivered" ->
  exists env, from_body (ia_keys args) raw env /\ in_committed_log env s'.
Proof. apply delivered_durable. Qed.
End durable.

Module OfferDemo.
Import AuditDemo SchemaDemo HistoryDemo IngestDemo IdentityDemo.
#[local] Existing Instances AuditDemo.demo_env demo_jcs demo_ed demo_clock demo_x.

Definition alice : contact_row :=
  {| c_username := "alice"; c_public_key := None; c_x25519 := Some (hexlify "alice-x");
     c_endpoint := None; c_autonomy := None; c_verified_at := Some "2026-07-01T00:00:00Z" |}.

Definition bob_node : node :=
  let t := set_contacts (fun _ => [alice]) demo_tables in {| db := t; committed := t; tick := 0 |}.

(** Alice offers five bytes, claiming the given digest. *)
Definition offer (sha : string) (seq : Z) : document :=
  default [] (build_signed_envelope (H := demo_jcs) (H0 := demo_ed) "alice-key" "s1" seq "alice" "a1"
    "2026-07-23T12:00:00Z" ARTIFACT_OFFER
    [("artifact_id", JStr "art-7"); ("session_id", JStr "s1"); ("sha256", JStr sha);
     ("mime_type", JStr "text/plain"); ("size_bytes", JInt 5); ("offered_by", JStr "mallory");
     ("preview_policy", JStr "auto"); ("encrypted_bytes_b64", JStr (b64encode ("0123456789ab" +:+ "hello")))]).

Definition bob : ingest_args :=
  {| ia_keys := keys; ia_x25519 := Some "bob-x"; ia_owner := Some "bob-key"; ia_relay := None |}.

Definition deliver (raw : document) (s : node) : result string TransportAcknowledgement * node :=
  ingest_envelope "key" strict_int Some Some KeychainDemo.fresh (fun _ _ _ => RequestError "down") 2 bob raw 500 s.

Definition stored (s : node) : list (string * string * string) :=
  map (fun r => (ar_id r, ar_session r, ar_offered_by r)) (artifacts (db s)).

(** The bytes are kept and answered; the name in [offered_by] is not
    compared with the sender's. *)
Example offer_kept_and_answered :
  let s := (deliver (offer (sha256_hex "hello") 1) bob_node).2 in
  stored s = [("art-7", "s1", "mallory")] /\
  map (fun e => (e_actor e, e_kind e)) (session_events (db s)) =
    [("alice", "artifact_offer"); ("bob", "artifact_accept")] /\
  map s_artifact_bytes (sessions (db s)) = [5%Z].
Proof. vm_compute. split_and!; reflexivity. Qed.

Example wrong_digest_not_kept :
  let s := (deliver (offer (sha256_hex "other") 1) bob_node).2 in
  stored s = [] /\ map a_category (audit_events (db s)) = ["session_event_artifact_offer"; "security_rejection"].
Proof. vm_compute. split_and!; reflexivity. Qed.

(** The same artifact offered again under a new number is counted again. *)
Example reoffered_artifact_counted_twice :
  let s := (deliver (offer (sha256_hex "hello") 2) (deliver (offer (sha256_hex "hello") 1) bob_node).2).2 in
  length (stored s) = 1 /\ map s_artifact_bytes (sessions (db s)) = [10%Z].
Proof. vm_compute. split_and!; reflexivity. Qed.

Lemma envelope_keeps_terminal_witness :
  stored_status "s1" (db (deliver (offer (sha256_hex "hello") 1) finished).2) = Some "completed".
Proof.
  apply (@envelope_keeps_terminal AuditDemo.demo_env demo_jcs demo_ed demo_clock demo_x "key" strict_int
    Some Some KeychainDemo.fresh (fun _ _ _ => RequestError "down") 2 bob (offer (sha256_hex "hello") 1)
    500 finished "s1" "completed").
  - vm_compute. reflexivity.
  - left.
Defined.

Lemma offer_delivered :
  match (deliver (offer (sha256_hex "hello") 1) bob_node).1 with
  | Ok a => ack_status a = "delivered"
  | Err _ => False
  end.
Proof. vm_compute. reflexivity. Qed.

Lemma delivered_is_durable_witness :
  exists env, from_body keys (offer (sha256_hex "hello") 1) env /\
    in_committed_log "key" env (deliver (offer (sha256_hex "hello") 1) bob_node).2.
Proof.
  pose proof offer_delivered as Hd.
  destruct (deliver (offer (sha256_hex "hello") 1) bob_node) as [[a|e] s'] eqn:E; [|exact (False_ind _ Hd)].
  unfold deliver in E.
  exact (@delivered_is_durable AuditDemo.demo_env demo_jcs demo_ed demo_clock demo_x "key" strict_int
    Some Some KeychainDemo.fresh (fun _ _ _ => RequestError "down") 2 bob (offer (sha256_hex "hello") 1)
    500 bob_node a s' E Hd).
Defined.
End OfferDemo.
