(* ===== verification/Senders.v ===== *)
(** * Sending

    The senders of [kin/transport/v11.py]: opening a session, messages,
    responses, cancelling, pausing and resuming, artifact offers, the relay
    poll, and the exchange of capabilities and cards.  Every call is given its
    time ([now]); the answers of the network are functions of the draw, the
    URL and what is sent. *)

From Stdlib Require Import Ascii String ZArith QArith Lia.
From stdpp Require Import base gmap sets list strings.
From S2P Require Import Prelude Regex Codec PyValue Schemas Cards Transition Reducer Compatibility.
From S2P Require Import Store AuditLog SessionStore ArtifactVault PeerCards Registry Keychain History.
From S2P Require Import Relay Identity Ingest RetryQueue Offers.

#[local] Open Scope nat_scope.

(** ** Acknowledgements and cards from the wire *)

(** [TransportAcknowledgement.model_validate], reduced to its status. *)
Definition ack_validate (lax_int : json -> option Z) (d : document) : option string :=
  _ <- check (keys_within ["schema_version"; "envelope_session_id"; "envelope_sequence"; "status";
                           "received_at"; "verified_hash"; "error_code"; "error_message"] d) ;;
  _ <- field_literal "schema_version" "1.1" d ;;
  _ <- field_str "envelope_session_id" d ;;
  raw_seq <- obj_get "envelope_sequence" d ;;
  z <- lax_int raw_seq ;;
  _ <- check (1 <=? z)%Z ;;
  st <- field_str "status" d ;;
  _ <- check (str_in st ["delivered"; "queued"; "rejected"]) ;;
  at_ <- field_str "received_at" d ;;
  _ <- check (TIMESTAMP_REGEX at_) ;;
  _ <- field_str "verified_hash" d ;;
  _ <- field_opt_str "error_code" d ;;
  _ <- field_opt_str "error_message" d ;;
  Some st.

(** [PublishedAgentCard.model_validate]. *)
Definition PublishedAgentCard_validate (lax_bool : json -> option bool) (d : document)
  : option PublishedAgentCard :=
  _ <- check (keys_within ["schema_version"; "agent_id"; "name"; "description"; "capabilities";
                           "availability"; "requires_owner_acceptance"; "protocol_version"] d) ;;
  _ <- field_literal "schema_version" "1.1" d ;;
  id <- field_str "agent_id" d ;;
  name <- field_str "name" d ;;
  description <- field_str "description" d ;;
  raw_caps <- field_object "capabilities" d ;;
  caps <- AgentCapabilities_validate raw_caps ;;
  raw_avail <- field_str "availability" d ;;
  avail <- enum_of raw_avail ;;
  raw_accept <- obj_get "requires_owner_acceptance" d ;;
  accept <- lax_bool raw_accept ;;
  _ <- field_literal "protocol_version" "1.1" d ;;
  Some {| pub_agent_id := id; pub_name := name; pub_description := description;
          pub_capabilities := caps; pub_availability := avail; requires_owner_acceptance := accept |}.

Definition CapabilityAdvertisement_dump (a : CapabilityAdvertisement) : document :=
  [("protocol_version", JStr (ad_protocol_version a));
   ("supported_features", JList (map JStr (supported_features a)));
   ("max_turn_limit", JInt (max_turn_limit a))].

Definition REQUIRED_FEATURES : list string := ["session_v1"; "jcs_signatures"].

Definition find_capability (peer : string) (t : tables) : option capability_row :=
  find_first (fun r => String.eqb (pk_peer r) peer) (peer_capabilities t).

(** [f"sess_{uuid.uuid4().hex[:16]}"]. *)
Definition session_name (u : string) : string := "sess_" +:+ str_take 16 (remove_dashes u).

(** The other party, as the senders compute it. *)
Definition other_party (owner : string) (r : session_row) : string :=
  if String.eqb owner (s_initiator r) then s_receiver r else s_initiator r.

Section senders.
Context `{NodeEnv} `{Jcs} `{Ed25519} `{Clock} `{X25519} (vault_key : bytes).
Context (lax_int : json -> option Z) (lax_bool : json -> option bool).
Context (public_of_bytes : bytes -> option public_key) (private_of_bytes : bytes -> option private_key).
Context (kc : keychain) (http_post : nat -> string -> json -> http_result).
Context (http_get : nat -> string -> list (string * string) -> http_result).
(** [client.post(url, content=.., headers=..)]. *)
Context (post_content : nat -> string -> string -> list (string * string) -> http_result).

Abbreviation ingest := (ingest_envelope vault_key lax_int public_of_bytes private_of_bytes kc http_post 2).

Definition get (url : string) (headers : list (string * string)) : N http_result :=
  draw (fun n => http_get n url headers).

(** [resp.json()] as an object. *)
Definition json_body (text : string) : result string document :=
  match json_loads text with
  | Some (JObj d) => Ok d
  | Some _ => Err "ValidationError"
  | None => Err "JSONDecodeError"
  end.

(** ** Peer capabilities *)

Definition cache_peer_capabilities (peer : string) (ad : CapabilityAdvertisement) (now : Z) : N unit :=
  let text := model_json (JObj (CapabilityAdvertisement_dump ad)) in
  let now_str := iso_text (iso now) in
  let* found := select (find_capability peer) in
  let row := {| pk_peer := peer; pk_json := text; pk_fetched_at := now_str |} in
  match found with
  | None => execute (set_capabilities (fun l => l ++ [row]))
  | Some _ => execute (set_capabilities (update_where (fun r => String.eqb (pk_peer r) peer) (fun _ => row)))
  end ;;;
  commit.

(** [None] when absent, older than [max_age_hours], or unreadable. *)
Definition get_cached_peer_capabilities (peer : string) (max_age_hours now : Z) (t : tables)
  : result string (option CapabilityAdvertisement) :=
  match find_capability peer t with
  | None => Ok None
  | Some r =>
      let? fetched := parse_stored (pk_fetched_at r) in
      if (max_age_hours * 3600 * 1000000 <? now - fetched)%Z then Ok None
      else match json_loads (pk_json r) with
           | Some (JObj d) => Ok (CapabilityAdvertisement_validate lax_int d)
           | _ => Ok None
           end
  end.

(** Step 1 of [dispatch_session]. *)
Definition negotiate_with (peer endpoint : string) (now : Z) : N unit :=
  let* resp := get (strip_slash endpoint +:+ "/v1.1/capabilities") [] in
  match resp with
  | Responded code text =>
      if (code =? 200)%Z then
        let* d := mlift (json_body text) in
        match CapabilityAdvertisement_validate lax_int d with
        | None => mraise "ValidationError"
        | Some ad =>
            if compatible (negotiate_capability lax_int (AdModel ad) REQUIRED_FEATURES)
            then cache_peer_capabilities peer ad now
            else mraise "CapabilityMismatchError"
        end
      else mraise "CapabilityMismatchError"
  | RequestError _ =>
      let* cached := select (get_cached_peer_capabilities peer 72 now) in
      let* cached := mlift cached in
      match cached with
      | Some ad =>
          if compatible (negotiate_capability lax_int (AdModel ad) REQUIRED_FEATURES) then ret tt
          else mraise "CapabilityMismatchError"
      | None => mraise "CapabilityMismatchError"
      end
  end.

(** ** Building, self-ingesting, delivering *)

(** The owner of a sending call. *)
Record sender := {
  sd_username : string;
  sd_key : private_key;
  sd_x25519 : bytes;
  sd_endpoint : option string;
  sd_relay : option string;
  sd_recipient : option bytes
}.

Definition signed (sd : sender) (sid : string) (seq : Z) (agent : string) (now : Z)
    (kind : MessageKind) (payload : document) : N document :=
  match build_signed_envelope (sd_key sd) sid seq (sd_username sd) agent (iso_text (iso now)) kind payload with
  | Some d => ret d
  | None => mraise "ValueError"
  end.

(** [get_pubkey]: the owner's own key, and for any other name the key of the
    peer. *)
Definition own_keys (sd : sender) (peer_ed : option bytes) (u : json) : option public_key :=
  if bool_decide (u = JStr (sd_username sd)) then Some (ed_public (sd_key sd))
  else match peer_ed with Some b => public_of_bytes b | None => None end.

Definition self_args (sd : sender) (peer_ed : option bytes) : ingest_args :=
  {| ia_keys := own_keys sd peer_ed; ia_x25519 := None; ia_owner := None; ia_relay := None |}.

(** A rejected self-ingestion ends the call. *)
Definition self_ingest (args : ingest_args) (env : document) (now : Z) : N unit :=
  let* ack := ingest args env now in
  if String.eqb (ack_status ack) "rejected" then mraise "TransportError" else ret tt.

Definition or_text (a b : option string) : option string :=
  match a with Some (String _ _) => a | _ => b end.

Definition sessions_url (endpoint : string) : string := strip_slash endpoint +:+ "/v1.1/sessions".

(** Whether the relay took the envelope. *)
Definition relay_send (sd : sender) (peer : string) (recip_x : option bytes) (env : document) : N bool :=
  match sd_relay sd, nonempty_bytes recip_x with
  | Some (String _ _ as relay_url), Some pub =>
      let* payload := encrypt_for_recipient (sd_x25519 sd) pub
                        (utf8_encode (json_dumps dumps_sorted (JObj env))) in
      let* resp := draw (fun n => http_post n (strip_slash relay_url +:+ "/relay/mailbox/" +:+ peer)
                                    (queue_relay_body (sd_username sd) payload)) in
      ret (match resp with Responded code _ => (code =? 200)%Z | RequestError _ => false end)
  | _, _ => ret false
  end.

Definition pending_row (queue_id sid : string) (seq : Z) (peer : string) (kind : MessageKind)
    (enc now_str : string) : queue_row :=
  {| q_id := queue_id; q_session := sid; q_sequence := seq; q_recipient := peer;
     q_kind := MessageKind_value kind; q_envelope := enc; q_state := "pending"; q_attempts := 0;
     q_next_retry := now_str; q_last_error := None; q_created_at := now_str; q_updated_at := now_str |}.

Definition same_slot (sid : string) (seq : Z) (peer : string) (r : queue_row) : bool :=
  String.eqb (q_session r) sid && (q_sequence r =? seq)%Z && String.eqb (q_recipient r) peer.

(** [queue_id PRIMARY KEY] and the foreign key. *)
Definition queue_insertable (r : queue_row) (t : tables) : bool :=
  has_session (q_session r) t && negb (existsb (fun x => String.eqb (q_id x) (q_id r)) (outbound_queue t)).

(** The insertion into the outbound queue; [ignore_conflict] says whether
    the statement ends in [ON CONFLICT .. DO NOTHING] on its unique key. *)
Definition enqueue (ignore_conflict : bool) (queue_id sid : string) (seq : Z) (peer : string)
    (kind : MessageKind) (enc now_str : string) : N unit :=
  let row := pending_row queue_id sid seq peer kind enc now_str in
  let* taken := select (fun t => existsb (same_slot sid seq peer) (outbound_queue t)) in
  if (taken : bool)
  then if ignore_conflict then ret tt else mraise IntegrityError
  else insert_checked (queue_insertable row) (set_queue (fun l => l ++ [row])).

Definition queue_locally (ignore_conflict : bool) (sid : string) (seq : Z) (peer : string)
    (kind : MessageKind) (env : document) (now : Z) : N unit :=
  let* queue_id := draw uuid4 in
  let* enc := encrypt_field vault_key (Some (json_dumps dumps_sorted (JObj env))) in
  match enc with
  | Some e => enqueue ignore_conflict queue_id sid seq peer kind e (iso_text (iso now)) ;;; commit
  | None => mraise IntegrityError
  end.

(** A peer's answer to a posted envelope. *)
Inductive posted := Delivered | NotDelivered | Refused.

(** ** Opening a session *)

Record session_request := {
  rq_peer : string;
  rq_sender_agent : string;
  rq_receiver_agent : string;
  rq_mode : string;
  rq_goal : string;
  rq_max_turns : option Z;
  rq_runtime_budget : json;
  rq_artifact_budget : json;
  rq_cost_budget : json;
  rq_context_pack : list json
}.

Definition or_json (v d : json) : json := match v with JNull => d | _ => v end.

Definition request_payload (rq : session_request) (st : SessionType) (turns : Z) : document :=
  let build := bool_decide (st = BUILD_PIPELINE \/ st = DELEGATE_SUBTASK) in
  let budget v d := if build then or_json v d else v in
  [("collaboration_mode", JStr (enum_value st)); ("goal", JStr (rq_goal rq));
   ("requested_agent_id", JStr (rq_receiver_agent rq)); ("peer_username", JStr (rq_peer rq));
   ("max_turns", JInt turns);
   ("runtime_budget_seconds", budget (rq_runtime_budget rq) DEFAULT_BUILD_RUNTIME_BUDGET);
   ("artifact_bytes_budget", budget (rq_artifact_budget rq) DEFAULT_BUILD_ARTIFACT_BYTES_BUDGET);
   ("cost_budget_estimate", budget (rq_cost_budget rq) (JFloat (FFin "100.0")));
   ("context_pack", JList (rq_context_pack rq))].

(** What [dispatch_session] and [send_artifact_offer] make of the answer: only
    an acknowledgement with status [delivered] counts. *)
Definition read_ack (resp : http_result) : result string posted :=
  match resp with
  | Responded code text =>
      if (code =? 200)%Z then
        let? d := json_body text in
        match ack_validate lax_int d with
        | Some st => Ok (if String.eqb st "delivered" then Delivered else NotDelivered)
        | None => Err "ValidationError"
        end
      else if ((400 <=? code) && (code <? 500))%Z then Ok Refused
      else Ok NotDelivered
  | RequestError _ => Ok NotDelivered
  end.

Definition post_env (endpoint : option string) (env : document) : N (option http_result) :=
  match endpoint with
  | Some (String _ _ as ep) => let* r := dict_post http_post (sessions_url ep) env in ret (Some r)
  | _ => ret None
  end.

(** Steps 4 to 6 of [dispatch_session]: the signed request, its ingestion, its
    delivery. *)
Definition open_and_deliver (sd : sender) (rq : session_request) (st : SessionType) (turns : Z)
    (endpoint : option string) (recip_x resolved_ed : option bytes) (now : Z) : N (string * string) :=
  let peer := rq_peer rq in
  let* u := draw uuid4 in
  let sid := session_name u in
  let* env := signed sd sid 1 (rq_sender_agent rq) now TASK_REQUEST (request_payload rq st turns) in
  self_ingest (self_args sd resolved_ed) env now ;;;
  let* resp := post_env endpoint env in
  let* answer := mlift (match resp with Some r => read_ack r | None => Ok NotDelivered end) in
  let command c := apply_node_command_transition vault_key sid c (Some (iso now)) in
  match answer with
  | Refused => command "mark_failed" ;;; ret (sid, "failed")
  | Delivered => command "mark_delivered" ;;; ret (sid, "delivered")
  | NotDelivered =>
      let* relayed := relay_send sd peer recip_x env in
      if (relayed : bool) then command "mark_queued" ;;; ret (sid, "queued")
      else queue_locally false sid 1 peer TASK_REQUEST env now ;;; ret (sid, "sent")
  end.

Definition dispatch_session (sd : sender) (rq : session_request) (now : Z) : N (string * string) :=
  match enum_of (rq_mode rq) with
  | None => mraise "ValueError"
  | Some st =>
      let turns := default 12%Z (rq_max_turns rq) in
      if ((turns <? 1) || (12 <? turns))%Z then mraise "ValueError"
      else
        let peer := rq_peer rq in
        let* info := select (resolve_peer_contact_info peer) in
        let* info := mlift info in
        let '(resolved_ep, resolved_x, resolved_ed) := info in
        let endpoint := or_text (sd_endpoint sd) resolved_ep in
        let recip_x := or_text (sd_recipient sd) resolved_x in
        match endpoint with
        | Some (String _ _ as ep) => negotiate_with peer ep now
        | _ => ret tt
        end ;;;
        let* stale := is_stale peer (rq_receiver_agent rq) in
        if (stale : bool) then mraise "StalePeerCardError"
        else open_and_deliver sd rq st turns endpoint recip_x resolved_ed now
  end.

(** ** Messages *)

(** [send_session_message]: the status it returns. *)
Definition send_session_message (sd : sender) (sid : string) (kind : MessageKind) (payload : document)
    (agent : option string) (now : Z) : N string :=
  let* row := select (find_session sid) in
  match row with
  | None => mraise "TransportError"
  | Some r =>
      let peer := other_party (sd_username sd) r in
      let* seq := select (next_sequence sid (sd_username sd)) in
      let* env := signed sd sid seq (or_str agent (sd_username sd)) now kind payload in
      let* info := select (resolve_peer_contact_info peer) in
      let* info := mlift info in
      let '(resolved_ep, resolved_x, resolved_ed) := info in
      self_ingest (self_args sd resolved_ed) env now ;;;
      let* resp := post_env (or_text (sd_endpoint sd) resolved_ep) env in
      let delivered := match resp with Some (Responded code _) => (code =? 200)%Z | _ => false end in
      if delivered then ret "delivered"
      else
        let* relayed := relay_send sd peer (or_text (sd_recipient sd) resolved_x) env in
        if (relayed : bool) then ret "queued"
        else queue_locally true sid seq peer kind env now ;;; ret "sent"
  end.

Definition respond_to_session (sd : sender) (sid decision : string) (accepting_agent text : option string)
    (now : Z) : N (string * MessageKind) :=
  let run kind payload :=
    let* st := send_session_message sd sid kind payload (Some (or_str accepting_agent (sd_username sd))) now in
    ret (if String.eqb st "queued" then "queued" else "processed", kind) in
  if String.eqb decision "accept" then
    match accepting_agent with
    | None | Some "" => mraise "ValueError"
    | Some agent =>
        let* card := select (get_card agent) in
        match card with
        | Some c =>
            if negb (ag_enabled c) || String.eqb (ag_availability c) (enum_value POLICY_BLOCKED)
            then mraise "ValueError"
            else run ACCEPTANCE [("accepting_agent_id", JStr agent);
                                 ("reason", JStr (or_str text "Accepted"))]
        | None => mraise "ValueError"
        end
    end
  else if String.eqb decision "decline" then run DECLINE [("reason", JStr (or_str text "Declined"))]
  else if String.eqb decision "clarify"
  then run CLARIFICATION [("question", JStr (or_str text "Clarification requested"))]
  else mraise "ValueError".

Definition cancel_session (sd : sender) (sid reason : string) (now : Z) : N unit :=
  let* row := select (find_session sid) in
  match row with
  | None => mraise "TransportError"
  | Some r =>
      let peer := other_party (sd_username sd) r in
      let* seq := select (next_sequence sid (sd_username sd)) in
      let* env := signed sd sid seq (or_str (s_sender_agent r) (sd_username sd)) now CANCEL
                    [("reason", JStr reason)] in
      let* info := select (resolve_peer_contact_info peer) in
      let* info := mlift info in
      self_ingest (self_args sd info.2) env now
  end.

(** ** Pausing and resuming *)

(** The agent recorded for the owner, or the owner's name. *)
Definition own_agent (sd : sender) (state : SessionState) : string :=
  match participants state !! sd_username sd with
  | Some p => agent_id p
  | None => sd_username sd
  end.

(** The first half of [pause_session] and [resume_session]: the owner command,
    the stored status and the audit record, committed. *)
Definition owner_transition (owner sid command st : string) (now : Z) : N SessionState :=
  let* found := select (reconstruct_session_state vault_key sid) in
  let* found := mlift found in
  match found with
  | None => mraise "TransportError"
  | Some state =>
      if negb (success (process_owner_command state owner command [])) then mraise "TransportError"
      else
        execute (set_status sid st (iso_text (iso now))) ;;;
        write_audit_event vault_key "session_status_updated"
          ("Session status updated to '" +:+ st +:+ "' via " +:+ command +:+ " command") (Some sid) None
          (Some (JObj [("previous_status", JStr (status state)); ("new_status", JStr st);
                       ("command", JStr command)])) (Some sid) ;;;
        commit ;;;
        ret state
  end.

(** The second half: the STATUS_EVENT.  The answer to the self-ingestion is
    not looked at. *)
Definition announce_switch (sd : sender) (sid event reason : string) (state : SessionState) (now : Z) : N unit :=
  let* seq := select (next_sequence sid (sd_username sd)) in
  let* env := signed sd sid seq (own_agent sd state) now STATUS_EVENT
                [("status_event", JStr event); ("reason", JStr reason)] in
  let peer := if String.eqb (sd_username sd) (initiator_username state)
              then receiver_username state else initiator_username state in
  let* info := select (resolve_peer_contact_info peer) in
  let* info := mlift info in
  ingest (self_args sd info.2) env now ;;; ret tt.

Definition owner_switch (sd : sender) (sid command st event reason : string) (now : Z) : N unit :=
  let* state := owner_transition (sd_username sd) sid command st now in
  announce_switch sd sid event reason state now.

Definition pause_session (sd : sender) (sid reason : string) (now : Z) : N unit :=
  owner_switch sd sid "owner_pause" "paused" "owner_paused" reason now.
Definition resume_session (sd : sender) (sid reason : string) (now : Z) : N unit :=
  owner_switch sd sid "owner_resume" "active" "owner_resumed" reason now.

(** ** Offering an artifact *)

(** The delivery reported: [direct], [relay] or [local-only]. *)
Definition send_artifact_offer (sd : sender) (sid artifact_id : string) (now : Z) : N string :=
  let* found := select (reconstruct_session_state vault_key sid) in
  let* found := mlift found in
  match found with
  | None => mraise "TransportError"
  | Some state =>
      let peer := if String.eqb (sd_username sd) (initiator_username state)
                  then receiver_username state else initiator_username state in
      let* meta := select (get_artifact_metadata artifact_id) in
      let* meta := mlift meta in
      if negb (String.eqb (md_session_id meta) sid) then mraise "ValueError"
      else
        let* raw := select (load_artifact_bytes vault_key artifact_id) in
        let* raw := mlift raw in
        let* info := select (resolve_peer_contact_info peer) in
        let* info := mlift info in
        let '(resolved_ep, resolved_x, resolved_ed) := info in
        match nonempty_bytes (or_text (sd_recipient sd) resolved_x) with
        | None => mraise "TransportError"
        | Some recip_x =>
            let* wire := encrypt_for_recipient (sd_x25519 sd) recip_x raw in
            let* seq := select (next_sequence sid (sd_username sd)) in
            let* env := signed sd sid seq (own_agent sd state) now ARTIFACT_OFFER
              [("schema_version", JStr "1.1"); ("artifact_id", JStr (md_artifact_id meta));
               ("session_id", JStr sid); ("sha256", JStr (md_sha256 meta));
               ("mime_type", JStr (md_mime_type meta)); ("size_bytes", md_size_bytes meta);
               ("offered_by", JStr (sd_username sd)); ("preview_policy", md_preview_policy meta);
               ("encrypted_bytes_b64", JStr (b64encode wire))] in
            self_ingest {| ia_keys := own_keys sd resolved_ed; ia_x25519 := Some (sd_x25519 sd);
                           ia_owner := Some (sd_key sd); ia_relay := sd_relay sd |} env now ;;;
            let* resp := post_env (or_text (sd_endpoint sd) resolved_ep) env in
            let* answer := mlift (match resp with Some r => read_ack r | None => Ok NotDelivered end) in
            match answer with
            | Delivered => ret "direct"
            | _ => let* relayed := relay_send sd peer (Some recip_x) env in
                   ret (if (relayed : bool) then "relay" else "local-only")
            end
        end
  end.

(** ** The relay poll *)

Definition relay_headers (sd : sender) (now : Z) (body : option string) : list (string * string) :=
  let c := relay_auth_headers (sd_username sd) (sd_key sd) (iso_text (iso now)) body in
  [("X-Username", default "" (x_username c)); ("X-Timestamp", default "" (x_timestamp c));
   ("X-Signature", default "" (x_signature c))].

(** The body of the acknowledgement of one message. *)
Definition ack_body (msg_id : json) : string :=
  json_dumps dumps_compact (JObj [("message_ids", JList [msg_id])]).

(** [conn.execute(.. username = ?)] with a value from the wire. *)
Definition contact_of (sender : json) (t : tables)
  : result string (option string * option bytes * option bytes) :=
  let? u := bind_text sender in
  match u with
  | Some u => resolve_peer_contact_info u t
  | None => Ok (None, None, None)
  end.

(** The envelope inside a relay message; [None] when the sender has no key. *)
Definition open_message (sd : sender) (msg : document) (t : tables) : result string (option document) :=
  let? cipher := match default (JStr "") (obj_get "encrypted_blob" msg) with
                 | JStr h => match fromhex h with Some b => Ok b | None => Err "ValueError" end
                 | _ => Err "TypeError"
                 end in
  let? info := contact_of (default JNull (obj_get "sender_username" msg)) t in
  match nonempty_bytes info.1.2 with
  | None => Ok None
  | Some x =>
      let? plain := decrypt_from_sender (sd_x25519 sd) x cipher in
      match utf8_decode plain with
      | None => Err "UnicodeDecodeError"
      | Some text => match json_loads text with
                     | Some (JObj d) => Ok (Some d)
                     | Some _ => Err "AttributeError"
                     | None => Err "JSONDecodeError"
                     end
      end
  end.

(** The outcome of one message. *)
Inductive relay_outcome :=
| Skipped
| Kept (ack : TransportAcknowledgement)
| Acknowledged (env : document) (ack : TransportAcknowledgement) (confirmed : bool)
| Failed.

Definition process_message (sd : sender) (relay_url : string) (keys : json -> option public_key)
    (now : Z) (msg : document) : N relay_outcome :=
  let msg_id := default JNull (obj_get "message_id" msg) in
  mcatch
    (let* opened := select (open_message sd msg) in
     let* opened := mlift opened in
     match opened with
     | None => ret Skipped
     | Some env =>
         let* ack := ingest {| ia_keys := keys; ia_x25519 := None; ia_owner := None; ia_relay := None |} env now in
         if str_in (ack_status ack) ["delivered"; "queued"] then
           let* resp := draw (fun n => post_content n (strip_slash relay_url +:+ "/relay/inbox/ack")
                                         (ack_body msg_id)
                                         (("Content-Type", "application/json")
                                            :: relay_headers sd now (Some (ack_body msg_id)))) in
           match resp with
           | Responded code _ => ret (Acknowledged env ack (code =? 200)%Z)
           | RequestError _ => mraise "RequestError"
           end
         else ret (Kept ack)
     end)
    (fun e => write_audit_event vault_key "relay_poll_error"
                ("Failed to process relay message " +:+ py_str msg_id +:+ ": " +:+ e) None None None None ;;;
              ret Failed).

(** The messages in order, each with its outcome; an entry that is no object
    ends the poll. *)
Fixpoint process_messages (sd : sender) (relay_url : string) (keys : json -> option public_key)
    (now : Z) (msgs : list json) : N (list (document * relay_outcome)) :=
  match msgs with
  | [] => ret []
  | JObj m :: rest =>
      let* o := process_message sd relay_url keys now m in
      let* os := process_messages sd relay_url keys now rest in
      ret ((m, o) :: os)
  | _ => mraise "AttributeError"
  end.

Definition confirmed (o : relay_outcome) : bool :=
  match o with Acknowledged _ _ b => b | _ => false end.

(** [poll_relay_and_process]: the count, with the outcomes it counted. *)
Definition poll_relay_and_process (sd : sender) (relay_url : string) (keys : json -> option public_key)
    (now : Z) : N (Z * list (document * relay_outcome)) :=
  let* resp := get (strip_slash relay_url +:+ "/relay/inbox") (relay_headers sd now None) in
  match resp with
  | RequestError _ => mraise "RequestError"
  | Responded code text =>
      if negb (code =? 200)%Z then ret (0%Z, [])
      else
        let* body := mlift (match json_loads text with
                            | Some (JObj d) => Ok d
                            | Some _ => Err "AttributeError"
                            | None => Err "JSONDecodeError"
                            end) in
        match default (JList []) (obj_get "messages" body) with
        | JList msgs =>
            let* os := process_messages sd relay_url keys now msgs in
            ret (Z.of_nat (length (List.filter (fun mo => confirmed mo.2) os)), os)
        | _ => mraise "TypeError"
        end
  end.

(** ** Peer cards *)

(** [cache_peer_card] for every card of the answer; a value that is no object
    has no [model_dump]. *)
Fixpoint cache_cards (peer : string) (cards : list json) : N unit :=
  match cards with
  | [] => ret tt
  | JObj d :: rest =>
      match PublishedAgentCard_validate lax_bool d with
      | Some c => cache_peer_card peer c ;;; cache_cards peer rest
      | None => mraise "ValidationError"
      end
  | _ => mraise "AttributeError"
  end.

Definition cached_cards (peer : string) (t : tables) : result string (list json) :=
  foldr (fun r acc => let? l := acc in
                      match json_loads (pc_card r) with
                      | Some v => Ok (v :: l)
                      | None => Err "JSONDecodeError"
                      end) (Ok []) (List.filter (fun r => String.eqb (pc_peer r) peer) (peer_agent_cards t)).

Definition sync_peer_cards (sd : sender) (peer endpoint : string) (now : Z) : N (string * list json) :=
  let fallback :=
    let* cards := select (cached_cards peer) in
    let* cards := mlift cards in
    ret ("cache_fallback", cards) in
  let* resp := get (strip_slash endpoint +:+ "/v1.1/agents/cards")
                 (create_signed_auth_headers (sd_username sd) (sd_key sd) (iso now)) in
  match resp with
  | Responded code text =>
      if (code =? 200)%Z then
        let* body := mlift (match json_loads text with
                            | Some (JObj d) => Ok d
                            | Some _ => Err "AttributeError"
                            | None => Err "JSONDecodeError"
                            end) in
        match default (JList []) (obj_get "cards" body) with
        | JList cards => cache_cards peer cards ;;; ret ("network", cards)
        | _ => mraise "TypeError"
        end
      else fallback
  | RequestError _ => fallback
  end.
End senders.

(** ** A frame: the outbound queue *)

Definition same_queue (s s' : node) : Prop := outbound_queue (db s') = outbound_queue (db s).

#[export] Instance same_queue_preorder : PreOrder same_queue.
Proof. split; [done|]. intros s1 s2 s3 E1 E2. unfold same_queue in *. congruence. Qed.

Section queue_frame.
Context `{NodeEnv} `{Jcs} `{Ed25519} `{Clock} `{X25519} (vault_key : bytes) (lax_int : json -> option Z).
Context (public_of_bytes : bytes -> option public_key) (private_of_bytes : bytes -> option private_key).
Context (kc : keychain) (http_post : nat -> string -> json -> http_result).

Lemma quiet_same_queue {A} (m : N A) : keeps only_audit m -> keeps same_queue m.
Proof. apply keeps_weaken. intros s s' [new E]. unfold same_queue. by rewrite E. Qed.

Lemma core_same_queue s s' : core_only s s' -> same_queue s s'.
Proof. by intros (_ & _ & _ & E & _)%core_only_tables. Qed.

Lemma ingest_same_queue depth args raw now :
  keeps same_queue
    (ingest_envelope vault_key lax_int public_of_bytes private_of_bytes kc http_post depth args raw now).
Proof.
  induction depth as [|d IH] in args, raw |- *; cbn [ingest_envelope]; [solve_keeps|].
  apply keeps_bind; [apply _|eapply keeps_weaken; [exact core_same_queue|apply stages_core]|].
  intros [a|env row me]; [solve_keeps|].
  apply keeps_bind; [apply _| |intros ?; eapply keeps_weaken; [exact core_same_queue|apply acknowledge_core]].
  apply keeps_when; [apply _|]. apply receive_keeps; [apply _| |intros; apply IH].
  intros s s' (_ & _ & _ & E & _). exact E.
Qed.
End queue_frame.

(** ** No message is dropped *)

Section delivery.
Context `{NodeEnv} `{Jcs} `{Ed25519} `{Clock} `{X25519} (vault_key : bytes).
Context (lax_int : json -> option Z) (lax_bool : json -> option bool).
Context (public_of_bytes : bytes -> option public_key) (private_of_bytes : bytes -> option private_key).
Context (kc : keychain) (http_post : nat -> string -> json -> http_result).
Context (http_get : nat -> string -> list (string * string) -> http_result).

Abbreviation ingest := (ingest_envelope vault_key lax_int public_of_bytes private_of_bytes kc http_post 2).
Abbreviation self_in := (self_ingest vault_key lax_int public_of_bytes private_of_bytes kc http_post).

(** The peer's own endpoint took the envelope. *)
Definition peer_took (env : document) : Prop :=
  exists n endpoint text, http_post n (sessions_url endpoint) (JObj env) = Responded 200 text.

(** The relay took the envelope, sealed, into the mailbox of the peer. *)
Definition relay_took (sd : sender) (peer : string) (env : document) : Prop :=
  exists n relay pub sealed text s1 s2,
    sd_relay sd = Some relay /\
    encrypt_for_recipient (sd_x25519 sd) pub (utf8_encode (json_dumps dumps_sorted (JObj env))) s1
      = (Ok sealed, s2) /\
    http_post n (strip_slash relay +:+ "/relay/mailbox/" +:+ peer)
      (queue_relay_body (sd_username sd) sealed) = Responded 200 text.

(** A committed row of the outbound queue holds the slot of the envelope:
    the row of [before], or a pending row that decrypts to it. *)
Definition held (before after : tables) (sid : string) (seq : Z) (peer : string) (env : document) : Prop :=
  exists row, row ∈ outbound_queue after /\ same_slot sid seq peer row = true /\
    (row ∈ outbound_queue before \/
     q_state row = "pending" /\ q_attempts row = 0%Z /\
     decrypt_field vault_key (Some (q_envelope row)) = Ok (Some (json_dumps dumps_sorted (JObj env)))).

Lemma held_before b b' after sid seq peer env :
  outbound_queue b' = outbound_queue b -> held b' after sid seq peer env -> held b after sid seq peer env.
Proof. intros E (row & Hin & Hs & Hor). exists row. by rewrite <- E. Qed.

Lemma relay_send_true sd peer x env s s' :
  relay_send http_post sd peer x env s = (Ok true, s') -> relay_took sd peer env.
Proof.
  unfold relay_send. destruct (sd_relay sd) as [[|c u]|] eqn:Er; try done.
  destruct (nonempty_bytes x) as [pub|]; [|done].
  unfold bind at 1. destruct (encrypt_for_recipient _ _ _ s) as [[p|e] s1] eqn:Ee; [|done].
  unfold bind, draw, ret. destruct (http_post _ _ _) as [code text|e] eqn:Eh; [|done].
  destruct (code =? 200)%Z eqn:Ec; [|done]. apply Z.eqb_eq in Ec as ->. intros _.
  by exists (tick s1), (String c u), pub, p, text, s, s1.
Qed.

Lemma relay_send_queue sd peer x env : keeps same_queue (relay_send http_post sd peer x env).
Proof.
  apply quiet_same_queue. unfold relay_send, encrypt_for_recipient. solve_keeps.
Qed.

Lemma post_env_run endpoint env s :
  exists r t, post_env http_post endpoint env s = (Ok r, {| db := db s; committed := committed s; tick := t |}) /\
    forall code text, r = Some (Responded code text) ->
      exists n ep, http_post n (sessions_url ep) (JObj env) = Responded code text.
Proof.
  unfold post_env. destruct endpoint as [[|c ep]|]; [exists None, (tick s); by destruct s| |exists None, (tick s); by destruct s].
  unfold dict_post, bind, draw, ret. do 2 eexists. split; [reflexivity|].
  intros code text [= E]. by exists (tick s), (String c ep).
Qed.

Lemma queue_locally_holds ignore sid seq peer kind env now s u s' :
  queue_locally vault_key ignore sid seq peer kind env now s = (Ok u, s') ->
  held (db s) (committed s') sid seq peer env.
Proof.
  unfold queue_locally. unfold bind at 1, draw. unfold bind at 1. rewrite encrypt_field_run. cbn [db committed tick].
  set (text := json_dumps _ _). set (token := b64encode _).
  unfold enqueue. unfold bind at 1. unfold bind at 1, select at 1, mgets at 1. cbn [db].
  destruct (existsb _ (outbound_queue (db s))) eqn:Ee.
  - destruct ignore; [|done]. intros [= _ <-]. cbn.
    apply existsb_exists in Ee as (row & Hin%list_elem_of_In & Hs). exists row. split_and!; [done|done|by left].
  - unfold insert_checked, bind, select, mgets, execute, mmodify, commit. cbn [db].
    destruct (queue_insertable _ _); [|done]. intros [= _ <-]. cbn.
    eexists. split; [apply elem_of_app; right; apply list_elem_of_singleton; reflexivity|].
    split; [unfold same_slot; cbn; by rewrite !String.eqb_refl, Z.eqb_refl|]. right. split_and!; [done..|].
    apply decrypt_encrypted.
Qed.

(** What the caller of a sender is told about its envelope is so. *)
Definition handed_over (sd : sender) (before after : tables) (sid : string) (seq : Z) (peer : string)
    (env : document) (st : string) : Prop :=
  (st = "delivered" /\ peer_took env) \/ (st = "queued" /\ relay_took sd peer env) \/
  (st = "sent" /\ held before after sid seq peer env).

End delivery.

Section dispatch.
Context `{NodeEnv} `{Jcs} `{Ed25519} `{Clock} `{X25519} (vault_key : bytes).
Context (lax_int : json -> option Z) (lax_bool : json -> option bool).
Context (public_of_bytes : bytes -> option public_key) (private_of_bytes : bytes -> option private_key).
Context (kc : keychain) (http_post : nat -> string -> json -> http_result).
Context (http_get : nat -> string -> list (string * string) -> http_result).

Abbreviation dispatch :=
  (dispatch_session vault_key lax_int public_of_bytes private_of_bytes kc http_post http_get).

(** ** What opens a session *)

(** Sessions, logs, queue and card cache as before. *)
Definition gate_frame (s s' : node) : Prop :=
  sessions (db s') = sessions (db s) /\ session_events (db s') = session_events (db s) /\
  outbound_queue (db s') = outbound_queue (db s) /\ peer_agent_cards (db s') = peer_agent_cards (db s).

#[local] Instance gate_frame_preorder : PreOrder gate_frame.
Proof.
  split; [by intros s|]. intros s1 s2 s3 (A1 & A2 & A3 & A4) (B1 & B2 & B3 & B4).
  split_and!; congruence.
Qed.

Lemma quiet_gate {A} (m : N A) : keeps only_audit m -> keeps gate_frame m.
Proof. apply keeps_weaken. intros s s' [new E]. unfold gate_frame. by rewrite E. Qed.

Lemma cache_gate peer ad now : keeps gate_frame (cache_peer_capabilities peer ad now).
Proof.
  unfold cache_peer_capabilities. solve_keeps; first [by intros ? | apply quiet_gate; solve [eauto with keeps]].
Qed.

Definition fits (ad : CapabilityAdvertisement) : Prop :=
  compatible (negotiate_capability lax_int (AdModel ad) REQUIRED_FEATURES) = true.

(** The endpoint advertised the required features, or could not be reached
    and a fresh cached advertisement has them. *)
Definition negotiated (peer endpoint : string) (now : Z) (t : tables) : Prop :=
  let url := strip_slash endpoint +:+ "/v1.1/capabilities" in
  (exists n text d ad, http_get n url [] = Responded 200 text /\ json_loads text = Some (JObj d) /\
     CapabilityAdvertisement_validate lax_int d = Some ad /\ fits ad) \/
  (exists n e ad, http_get n url [] = RequestError e /\
     get_cached_peer_capabilities lax_int peer 72 now t = Ok (Some ad) /\ fits ad).

Abbreviation negotiate := (negotiate_with lax_int http_get).

Lemma negotiate_frame peer ep now : keeps gate_frame (negotiate peer ep now).
Proof.
  unfold negotiate_with, get. solve_keeps;
    first [apply cache_gate | apply quiet_gate; solve [eauto with keeps]].
Qed.

Lemma negotiate_Ok peer ep now s u s' :
  negotiate peer ep now s = (Ok u, s') -> negotiated peer ep now (db s).
Proof.
  unfold negotiate_with, get. unfold bind at 1, draw. destruct (http_get _ _ _) as [code text|e] eqn:Eg.
  - destruct (code =? 200)%Z eqn:Ec; [|done]. apply Z.eqb_eq in Ec as ->. unfold bind at 1, mlift.
    unfold json_body. destruct (json_loads text) as [[| | | | | |d]|] eqn:Ej; try done.
    destruct (CapabilityAdvertisement_validate lax_int d) as [ad|] eqn:Ea; [|done].
    destruct (compatible _) eqn:Ef; [|done]. intros _. left. by exists (tick s), text, d, ad.
  - unfold bind at 1, select at 1, mgets at 1. cbn [db]. unfold bind, mlift.
    destruct (get_cached_peer_capabilities _ _ _ _ _) as [[ad|]|e1] eqn:Ec; [|done..].
    destruct (compatible _) eqn:Ef; [|done]. intros _. right. by exists (tick s), e, ad.
Qed.

(** What [dispatch_session] checked before it changed anything. *)
Definition may_open (sd : sender) (rq : session_request) (now : Z) (t : tables) : Prop :=
  (exists mode, enum_of (A := SessionType) (rq_mode rq) = Some mode) /\
  (1 <= default 12 (rq_max_turns rq) <= 12)%Z /\
  (exists info, resolve_peer_contact_info (rq_peer rq) t = Ok info /\
     forall ep, or_text (sd_endpoint sd) info.1.1 = Some ep -> ep <> "" ->
       negotiated (rq_peer rq) ep now t) /\
  (forall r, find_card (rq_peer rq) (rq_receiver_agent rq) t = Some r -> pc_status r <> "stale").

Lemma is_stale_run peer agent s :
  exists b, is_stale peer agent s = (Ok b, s) /\
    (b = false -> forall r, find_card peer agent (db s) = Some r -> pc_status r <> "stale").
Proof.
  unfold is_stale, bind, select, mgets. destruct (find_card _ _ _) as [r|]; eexists; split; try reflexivity; [|done].
  intros Hb r0 [= <-]. by apply String.eqb_neq.
Qed.

(** Either the gate raised, or everything was checked and the rest ran. *)
Lemma dispatch_run sd rq now s r s' :
  dispatch sd rq now s = (r, s') ->
  (gate_frame s s' /\ exists e, r = Err e) \/
  (may_open sd rq now (db s) /\ exists s1 mode ep x ed, gate_frame s s1 /\
     open_and_deliver vault_key lax_int public_of_bytes private_of_bytes kc http_post
       sd rq mode (default 12%Z (rq_max_turns rq)) ep x ed now s1 = (r, s')).
Proof.
  unfold dispatch_session, may_open.
  destruct (enum_of (rq_mode rq)) as [mode|]; [|intros [= <- <-]; left; split; [done|by eexists]].
  destruct (_ || _) eqn:Et; [intros [= <- <-]; left; split; [done|by eexists]|].
  apply orb_false_iff in Et as [Et1%Z.ltb_ge Et2%Z.ltb_ge].
  unfold bind at 1, select at 1, mgets at 1. unfold bind at 1, mlift at 1.
  destruct (resolve_peer_contact_info _ _) as [[[ep x] ed]|e];
    [|intros [= <- <-]; left; split; [done|by eexists]].
  set (endpoint := or_text (sd_endpoint sd) ep). unfold bind at 1.
  set (gate := match endpoint with Some (String _ _ as e0) => _ | _ => _ end).
  assert (Hframe : keeps gate_frame gate)
    by (unfold gate; destruct endpoint as [[|c e0]|]; [solve_keeps|apply negotiate_frame|solve_keeps]).
  assert (Hok : forall u s1, gate s = (Ok u, s1) ->
    forall e0, endpoint = Some e0 -> e0 <> "" -> negotiated (rq_peer rq) e0 now (db s)).
  { intros u s1 Hg e0 He Hne. unfold gate in Hg. rewrite He in Hg. destruct e0 as [|c e0]; [done|].
    by eapply negotiate_Ok. }
  destruct (gate s) as [[u|e] s1] eqn:Eg; pose proof (keeps_run _ _ _ _ _ Hframe Eg) as Hf;
    [|intros [= <- <-]; left; split; [done|by eexists]].
  specialize (Hok _ _ eq_refl). pose proof Hf as (_ & _ & _ & Hc).
  unfold bind at 1. destruct (is_stale_run (rq_peer rq) (rq_receiver_agent rq) s1) as (stale & -> & Hs).
  destruct stale; [intros [= <- <-]; left; split; [done|by eexists]|]. intros Hr. right.
  split; [|by exists s1, mode, endpoint, (or_text (sd_recipient sd) x), ed].
  split_and!; [by eexists|lia|lia|by exists (ep, x, ed)|].
  intros row Hrow. apply Hs; [done|]. unfold find_card in *. by rewrite Hc.
Qed.

(** No session is opened without the checks: unless the mode is known,
    the turn limit is between 1 and 12, the peer's endpoint negotiated the
    required features (live, or cached while it is unreachable) and the card
    of the requested agent is not stale, [dispatch_session] raises and leaves
    sessions, session logs, outbound queue and card cache as they were. *)
Theorem dispatch_gated sd rq now s :
  gate_frame s (dispatch sd rq now s).2 /\ (exists e, (dispatch sd rq now s).1 = Err e) \/
  may_open sd rq now (db s).
Proof.
  destruct (dispatch sd rq now s) as [r s'] eqn:E. apply dispatch_run in E as [Hl|[Hr _]]; [by left|by right].
Qed.

Lemma read_ack_answer resp a :
  read_ack lax_int resp = Ok a ->
  match a with
  | Delivered => exists text, resp = Responded 200 text
  | Refused => exists code text, (400 <= code < 500)%Z /\ resp = Responded code text
  | NotDelivered => True
  end.
Proof.
  unfold read_ack. destruct resp as [code text|e]; [|by intros [= <-]].
  destruct (code =? 200)%Z eqn:Ec.
  - apply Z.eqb_eq in Ec as ->. destruct (json_body text) as [d|]; [|done]. cbn.
    destruct (ack_validate lax_int d) as [st|]; [|done]. destruct (String.eqb _ _); intros [= <-]; [by exists text|done].
  - destruct (_ && _) eqn:E4; intros [= <-]; [|done]. apply andb_true_iff in E4 as [E1%Z.leb_le E2%Z.ltb_lt].
    by exists code, text.
Qed.

Lemma deliver_status sd rq mode turns endpoint x ed now s sid st s' :
  open_and_deliver vault_key lax_int public_of_bytes private_of_bytes kc http_post
    sd rq mode turns endpoint x ed now s = (Ok (sid, st), s') ->
  exists env,
    build_signed_envelope (sd_key sd) sid 1 (sd_username sd) (rq_sender_agent rq) (iso_text (iso now))
      TASK_REQUEST (request_payload rq mode turns) = Some env /\
    ((st = "failed" /\ exists n ep code text, (400 <= code < 500)%Z /\
        http_post n (sessions_url ep) (JObj env) = Responded code text) \/
     handed_over vault_key http_post sd (db s) (committed s') sid 1 (rq_peer rq) env st).
Proof.
  unfold open_and_deliver. unfold bind at 1, draw at 1. set (id := session_name _). unfold signed, bind at 1.
  destruct (build_signed_envelope _ _ _ _ _ _ _ _) as [env|] eqn:Eb; [|done]. unfold ret at 1.
  set (s1 := Build_node _ _ _). unfold bind at 1, self_ingest. unfold bind at 1.
  match goal with |- context [ingest_envelope ?a1 ?a2 ?a3 ?a4 ?a5 ?a6 ?a7 ?a env now s1] =>
    pose proof (ingest_same_queue a1 a2 a3 a4 a5 a6 a7 a env now s1) as Hq;
    destruct (ingest_envelope a1 a2 a3 a4 a5 a6 a7 a env now s1) as [[ack|e] s2] end; [|done]. cbn [snd] in Hq.
  destruct (String.eqb (ack_status ack) _); [done|]. unfold ret at 1. unfold bind at 1.
  destruct (post_env_run http_post endpoint env s2) as (resp & t & -> & Hp). unfold bind at 1, mlift.
  assert (Ha : forall a, match resp with Some r => read_ack lax_int r | None => Ok NotDelivered end = Ok a ->
    match a with
    | Delivered => peer_took http_post env
    | Refused => exists n ep code text, (400 <= code < 500)%Z /\
        http_post n (sessions_url ep) (JObj env) = Responded code text
    | NotDelivered => True
    end).
  { intros a. destruct resp as [r0|]; [|by intros [= <-]]. intros Hr%read_ack_answer. destruct a; [|done|].
    - destruct Hr as (text & ->). destruct (Hp _ _ eq_refl) as (n & ep & E). by exists n, ep, text.
    - destruct Hr as (code & text & Hc & ->). destruct (Hp _ _ eq_refl) as (n & ep & E). by exists n, ep, code, text. }
  destruct (match resp with Some r => read_ack lax_int r | None => Ok NotDelivered end) as [a|e]; [|done].
  specialize (Ha _ eq_refl). destruct a.
  - unfold bind. destruct (apply_node_command_transition _ _ _ _ _) as [[u|e] s3]; [|done].
    intros [= <- <- <-]. exists env. split; [done|]. right. by left.
  - unfold bind at 1.
    match goal with |- context [relay_send ?h ?a ?b ?c ?d ?s0] =>
      pose proof (relay_send_queue http_post a b c d s0) as Hq2;
      destruct (relay_send h a b c d s0) as [[[|]|e] s3] eqn:Erel end; [| |done].
    + unfold bind. destruct (apply_node_command_transition _ _ _ _ _) as [[u|e] s4]; [|done].
      intros [= <- <- <-]. exists env. split; [done|]. do 2 right. left. split; [done|]. by eapply relay_send_true.
    + unfold bind at 1. destruct (queue_locally _ _ _ _ _ _ _ _ s3) as [[u|e] s4] eqn:Eq; [|done].
      intros [= <- <- <-]. exists env. split; [done|]. do 3 right. split; [done|].
      apply queue_locally_holds in Eq. eapply held_before; [|exact Eq].
      unfold same_queue in *. cbn [snd db] in *. by rewrite Hq2, Hq.
  - unfold bind. destruct (apply_node_command_transition _ _ _ _ _) as [[u|e] s3]; [|done].
    intros [= <- <- <-]. exists env. split; [done|]. by left.
Qed.

(** A session request is never dropped silently: the status
    [dispatch_session] returns is true of the signed request numbered 1: the
    peer's endpoint acknowledged it (200) or refused it (4xx), or the relay took
    it sealed for the peer, or a committed row of the outbound queue holds it
    for the retry sweep. *)
Theorem request_never_dropped sd rq now s sid st s' :
  dispatch sd rq now s = (Ok (sid, st), s') ->
  exists env mode,
    build_signed_envelope (sd_key sd) sid 1 (sd_username sd) (rq_sender_agent rq) (iso_text (iso now))
      TASK_REQUEST (request_payload rq mode (default 12%Z (rq_max_turns rq))) = Some env /\
    ((st = "failed" /\ exists n ep code text, (400 <= code < 500)%Z /\
        http_post n (sessions_url ep) (JObj env) = Responded code text) \/
     handed_over vault_key http_post sd (db s) (committed s') sid 1 (rq_peer rq) env st).
Proof.
  intros [[_ (e & ?)]|(_ & s1 & mode & ep & x & ed & (_ & _ & Hq & _) & Hr)]%dispatch_run; [done|].
  apply deliver_status in Hr as (env & Hb & Hor). exists env, mode. split; [done|].
  destruct Hor as [Hl|[?|[?|[-> Hh]]]]; [by left|right..]; [by left|by right; left|].
  do 2 right. split; [done|]. by eapply held_before.
Qed.
End dispatch.

(** ** What the poll acknowledges *)

Section poll.
Context `{NodeEnv} `{Jcs} `{Ed25519} `{Clock} `{X25519} (vault_key : bytes).
Context (lax_int : json -> option Z).
Context (public_of_bytes : bytes -> option public_key) (private_of_bytes : bytes -> option private_key).
Context (kc : keychain) (http_post : nat -> string -> json -> http_result).
Context (http_get : nat -> string -> list (string * string) -> http_result).
Context (post_content : nat -> string -> string -> list (string * string) -> http_result).

Abbreviation ingest := (ingest_envelope vault_key lax_int public_of_bytes private_of_bytes kc http_post 2).
Abbreviation process :=
  (process_message vault_key lax_int public_of_bytes private_of_bytes kc http_post post_content).
Abbreviation process_all :=
  (process_messages vault_key lax_int public_of_bytes private_of_bytes kc http_post post_content).
Abbreviation poll :=
  (poll_relay_and_process vault_key lax_int public_of_bytes private_of_bytes kc http_post http_get post_content).

Definition poll_args (keys : json -> option public_key) : ingest_args :=
  {| ia_keys := keys; ia_x25519 := None; ia_owner := None; ia_relay := None |}.

(** An acknowledged message was opened with the sender's key, ingested and
    answered [delivered], and its event is in the committed log of [after]; a
    counted one was taken by the relay under its own id. *)
Definition acked_after_processing (sd : sender) (url : string) (keys : json -> option public_key)
    (after : node) (mo : document * relay_outcome) : Prop :=
  match mo.2 with
  | Acknowledged env ack ok =>
      ack_status ack = "delivered" /\
      (exists s1, open_message sd mo.1 (db s1) = Ok (Some env)) /\
      (exists e, from_body keys env e /\ in_committed_log vault_key e after) /\
      (ok = true -> exists n headers text,
         post_content n (strip_slash url +:+ "/relay/inbox/ack")
           (ack_body (default JNull (obj_get "message_id" mo.1))) headers = Responded 200 text)
  | Kept ack => ack_status ack = "rejected"
  | Skipped | Failed => True
  end.

Lemma acked_kept sd url keys s s' mo :
  durable_log s s' -> acked_after_processing sd url keys s mo -> acked_after_processing sd url keys s' mo.
Proof.
  intros Hd. unfold acked_after_processing. destruct mo.2; try done.
  intros (? & ? & (e & Hb & Hin) & ?). split_and!; try done. exists e. split; [done|]. by eapply in_log_kept.
Qed.

Lemma process_message_acked sd url keys now m s o s' :
  process sd url keys now m s = (Ok o, s') -> acked_after_processing sd url keys s' (m, o).
Proof.
  unfold process_message, mcatch. unfold bind at 1, select at 1, mgets at 1. unfold bind at 1, mlift at 1.
  assert (Hfail : forall e s1, (write_audit_event vault_key "relay_poll_error" e
      None None None None ;;; ret Failed) s1 = (Ok o, s') -> acked_after_processing sd url keys s' (m, o)).
  { intros e s1. unfold bind. destruct (write_audit_event _ _ _ _ _ _ _ s1) as [[x|e1] s2]; [|done].
    by intros [= <- _]. }
  destruct (open_message sd m (db s)) as [[env|]|e] eqn:Eo; [|by intros [= <- _]|apply Hfail].
  unfold bind at 1. fold (poll_args keys). destruct (ingest (poll_args keys) env now s) as [[ack|e] s1] eqn:Ei;
    [|apply Hfail].
  destruct (ingest_status _ _ _ _ _ _ _ _ _ _ _ _ _ Ei) as [Hst|Hst]; rewrite Hst.
  - change (str_in "delivered" ["delivered"; "queued"]) with true. cbv iota. unfold bind at 1, draw.
    destruct (post_content _ _ _ _) as [code text|e] eqn:Eh; [|apply Hfail]. intros [= <- <-].
    destruct (delivered_durable _ _ _ _ _ _ _ _ _ _ _ _ _ Ei Hst) as (e & Hb & Hin).
    unfold acked_after_processing. cbn. split_and!; [done|by exists s| |].
    + exists e. split; [exact Hb|]. eapply in_log_kept; [|exact Hin]. by intros Hp.
    + intros ->%Z.eqb_eq. by do 2 eexists; exists text.
  - change (str_in "rejected" ["delivered"; "queued"]) with false. by intros [= <- _].
Qed.

Lemma process_durable sd url keys now m : keeps durable_log (process sd url keys now m).
Proof.
  unfold process_message. solve_keeps; first [apply ingest_durable | apply audit_durable | apply same_durable; solve [eauto with keeps]].
Qed.

Lemma process_all_acked sd url keys now msgs s os s' :
  process_all sd url keys now msgs s = (Ok os, s') ->
  durable_log s s' /\ Forall (acked_after_processing sd url keys s') os.
Proof.
  induction msgs as [|m msgs IH] in s, os |- *; cbn [process_messages]; [intros [= <- <-]; by split; [|constructor]|].
  destruct m as [| | | | | |m]; try done. unfold bind at 1.
  destruct (process sd url keys now m s) as [[o|e] s1] eqn:E1; [|done]. unfold bind at 1.
  destruct (process_all sd url keys now msgs s1) as [[os1|e] s2] eqn:E2; [|done]. intros [= <- <-].
  apply IH in E2 as [D2 F2]. pose proof (keeps_run _ _ _ _ _ (process_durable _ _ _ _ _) E1) as D1.
  split; [by etrans|]. constructor; [|done]. eapply acked_kept; [exact D2|]. by eapply process_message_acked.
Qed.

(** C18: The poll acknowledges to the relay only what is safe: when it returns,
    every message it acknowledged decrypted under the sender's key to an
    envelope that ingestion answered [delivered] and whose event is in the
    committed log, a rejected, unreadable or failed message was not
    acknowledged and stays in the mailbox, and the number it returns counts
    the acknowledgements the relay took. *)
Theorem poll_acknowledges_processed sd url keys now s n os s' :
  poll sd url keys now s = (Ok (n, os), s') ->
  Forall (acked_after_processing sd url keys s') os /\
  n = Z.of_nat (length (List.filter (fun mo => confirmed mo.2) os)).
Proof.
  unfold poll_relay_and_process, get. unfold bind at 1, draw. destruct (http_get _ _ _) as [code text|e]; [|done].
  destruct (negb _); [intros [= <- <- _]; by split|]. unfold bind at 1, mlift.
  destruct (json_loads text) as [[| | | | | |d]|]; try done.
  destruct (default (JList []) _) as [| | | | |msgs|]; try done. unfold bind at 1.
  destruct (process_all _ _ _ _ _ _) as [[os1|e] s1] eqn:Ep; [|done]. intros [= <- <- <-].
  by apply process_all_acked in Ep as [_ Hf].
Qed.
End poll.

Module SenderDemo.
Import AuditDemo SchemaDemo HistoryDemo IngestDemo IdentityDemo.

(** Alice's message as it lies in the relay's mailbox of bob. *)
Definition letter : document := message FINDING 1.
Definition letter_text : string := json_dumps dumps_sorted (JObj letter).
Definition mail : json :=
  JObj [("message_id", JStr "m1"); ("sender_username", JStr "alice");
        ("encrypted_blob", JStr (hexlify ("0123456789ab" +:+ utf8_encode letter_text)))].

(** The demo environment, with a decoder for the texts of this module. *)
Definition env : NodeEnv.
Proof.
  refine {| aes_encrypt _ _ p := p; aes_decrypt _ _ p := Some p;
            urandom12 _ := "0123456789ab"; uuid4 n := "id-" +:+ print_int (Z.of_nat n);
            utcnow _ := "2026-07-23T12:00:00+00:00";
            json_loads s := if String.eqb s letter_text then Some (JObj letter)
                            else if String.eqb s "inbox" then Some (JObj [("messages", JList [mail])])
                            else if String.eqb s "caps" then Some (JObj (CapabilityAdvertisement_dump
                              {| ad_protocol_version := "1.1";
                                 supported_features := ["session_v1"; "jcs_signatures"]; max_turn_limit := 12 |}))
                            else None;
            model_json := json_dumps dumps_canonical |}; done.
Defined.
#[local] Existing Instances env demo_jcs demo_ed demo_clock demo_x.

Definition alice : contact_row :=
  {| c_username := "alice"; c_public_key := None; c_x25519 := Some (hexlify "alice-x");
     c_endpoint := None; c_autonomy := None; c_verified_at := Some "2026-07-01T00:00:00Z" |}.

Definition bob_node : node :=
  let t := set_contacts (fun _ => [alice]) demo_tables in {| db := t; committed := t; tick := 0 |}.

Definition bob (endpoint : option string) : sender :=
  {| sd_username := "bob"; sd_key := "bob-key"; sd_x25519 := "bob-x"; sd_endpoint := endpoint;
     sd_relay := None; sd_recipient := None |}.

Definition down (n : nat) (url : string) (body : json) : http_result := RequestError "down".

(** The relay: one message, and it takes every acknowledgement. *)
Definition inbox (n : nat) (url : string) (h : list (string * string)) : http_result := Responded 200 "inbox".
Definition takes (n : nat) (url : string) (body : json) : http_result := Responded 200 "ok".
Definition takes_ack (n : nat) (url text : string) (h : list (string * string)) : http_result := Responded 200 "ok".

Definition say (endpoint : option string) (post : nat -> string -> json -> http_result) (s : node)
  : result string string * node :=
  send_session_message "key" strict_int Some Some KeychainDemo.fresh post (bob endpoint) "s1" FINDING
    [("goal", JStr "h")] (Some "b1") 500 s.

(** With the peer unreachable and no relay the message waits in the queue. *)
Lemma unreachable_peer :
  (say (Some "https://a.example") down bob_node).1 = Ok "sent" /\
  map q_state (outbound_queue (committed (say (Some "https://a.example") down bob_node).2)) = ["pending"].
Proof. vm_compute. split; reflexivity. Qed.


Definition request : session_request :=
  {| rq_peer := "alice"; rq_sender_agent := "b1"; rq_receiver_agent := "a1"; rq_mode := "ask"; rq_goal := "g";
     rq_max_turns := None; rq_runtime_budget := JNull; rq_artifact_budget := JNull; rq_cost_budget := JNull;
     rq_context_pack := [] |}.

Definition ask (endpoint : option string) (post : nat -> string -> json -> http_result)
    (get : nat -> string -> list (string * string) -> http_result) (s : node)
  : result string (string * string) * node :=
  dispatch_session "key" strict_int Some Some KeychainDemo.fresh post get (bob endpoint) request 500 s.

Lemma offline_request : (ask None down inbox bob_node).1 = Ok ("sess_id0", "sent").
Proof. vm_compute. reflexivity. Qed.

Lemma request_never_dropped_witness :
  exists e mode,
    build_signed_envelope (H := demo_jcs) (H0 := demo_ed) "bob-key" "sess_id0" 1 "bob" "b1"
      "2026-07-23T12:00:00Z" TASK_REQUEST (request_payload request mode 12) = Some e.
Proof.
  pose proof offline_request as Hs. unfold ask in Hs.
  destruct (@request_never_dropped env demo_jcs demo_ed demo_clock demo_x "key" strict_int Some Some
    KeychainDemo.fresh down inbox (bob None) request 500 bob_node "sess_id0" "sent" (ask None down inbox bob_node).2)
    as (e & mode & Hb & _).
  - rewrite <- Hs. apply surjective_pairing.
  - exists e, mode. exact Hb.
Defined.

(** A peer that answers 200 with something else than an acknowledgement: the
    call raises after the session was opened, and nothing is queued. *)
Definition advertises (n : nat) (url : string) (h : list (string * string)) : http_result := Responded 200 "caps".

Example unreadable_answer_loses_request :
  let run := ask (Some "https://a.example") takes advertises bob_node in
  run.1 = Err "JSONDecodeError" /\ map s_status (sessions (committed run.2)) = ["active"; "sent"] /\
  outbound_queue (committed run.2) = [].
Proof. vm_compute. split_and!; reflexivity. Qed.

(** A peer that cannot be asked and was never asked before. *)
Example unknown_peer_refused :
  let run := ask (Some "https://a.example") takes (fun _ _ _ => RequestError "down") bob_node in
  run.1 = Err "CapabilityMismatchError" /\ map s_status (sessions (db run.2)) = ["active"].
Proof. vm_compute. split_and!; reflexivity. Qed.

Definition polled : result string (Z * list (document * relay_outcome)) * node :=
  poll_relay_and_process "key" strict_int Some Some KeychainDemo.fresh takes inbox takes_ack (bob None) "https://relay" keys 500 bob_node.

Lemma poll_counts :
  match polled.1 with Ok (n, os) => n = 1%Z /\ map (fun mo => confirmed mo.2) os = [true] | Err _ => False end.
Proof. vm_compute. split; reflexivity. Qed.

Lemma poll_acknowledges_processed_witness :
  exists n os, polled = (Ok (n, os), polled.2) /\
    Forall (acked_after_processing "key" takes_ack (bob None) "https://relay" keys polled.2) os /\ n = 1%Z.
Proof.
  pose proof poll_counts as Hc. destruct polled as [[[n os]|e] s'] eqn:E; [|exact (False_ind _ Hc)].
  exists n, os. split; [reflexivity|]. unfold polled in E.
  destruct (@poll_acknowledges_processed env demo_jcs demo_ed demo_clock demo_x "key" strict_int Some Some
    KeychainDemo.fresh takes inbox takes_ack (bob None) "https://relay" keys 500 bob_node n os s' E) as [Hf _].
  split; [exact Hf|exact (proj1 Hc)].
Defined.
End SenderDemo.
