(* ===== verification/Patch.v ===== *)
(** * Unified patches

    [apply_unified_patch] of [kin/artifacts/workspace.py]: the hunks of a patch
    text and their application to the lines of a file, compared with a
    specification by edit scripts.  The text of the displayed diff
    ([difflib.unified_diff]) is a parameter. *)

From Stdlib Require Import Ascii String ZArith Lia.
From stdpp Require Import base list strings.
From S2P Require Import Prelude.

#[local] Open Scope nat_scope.

(** ** Lines *)

Definition newline : string := String "010" "".

(** The line boundaries of [str.splitlines]. *)
Definition line_break (c : ascii) : bool :=
  let n := code c in
  (((10 <=? n) && (n <=? 13)) || ((28 <=? n) && (n <=? 30)) || (n =? 133))%Z.

(** [s.splitlines()]; a carriage return and a line feed are one boundary. *)
Fixpoint splitlines (s : string) : list string :=
  match s with
  | "" => []
  | String c s' =>
      if line_break c then
        "" :: match s' with
              | String d s'' => if Ascii.eqb c "013" && Ascii.eqb d "010" then splitlines s''
                                else splitlines s'
              | "" => []
              end
      else match splitlines s' with
           | [] => [String c ""]
           | w :: ws => String c w :: ws
           end
  end.

(** ** Hunk headers *)

Definition is_digit (c : ascii) : bool := ((48 <=? code c) && (code c <=? 57))%Z.

(** The longest prefix of characters in [f], and the rest. *)
Fixpoint span (f : ascii -> bool) (s : string) : string * string :=
  match s with
  | "" => ("", "")
  | String c s' => if f c then let '(a, b) := span f s' in (String c a, b) else ("", s)
  end.

Definition span1 (f : ascii -> bool) (s : string) : option (string * string) :=
  match span f s with
  | ("", _) => None
  | r => Some r
  end.

Definition literal (p s : string) : option string :=
  if startswith p s then Some (str_drop (String.length p) s) else None.

(** [(?:,(\d+))?]. *)
Definition opt_length (s : string) : string :=
  match s with
  | String "," s' => match span1 is_digit s' with Some (_, r) => r | None => s end
  | _ => s
  end.

(** [hunk_header_re.match(line)]: the digits of [o_start]. *)
Definition hunk_header (line : string) : option string :=
  s ← literal "@@" line ;
  '(_, s) ← span1 is_space s ;
  s ← literal "-" s ;
  '(o_start, s) ← span1 is_digit s ;
  '(_, s) ← span1 is_space (opt_length s) ;
  s ← literal "+" s ;
  '(_, s) ← span1 is_digit s ;
  '(_, s) ← span1 is_space (opt_length s) ;
  _ ← literal "@@" s ;
  Some o_start.

(** [int(s)] on digits; longer texts exceed the conversion limit. *)
Fixpoint digits_value (acc : Z) (s : string) : Z :=
  match s with
  | "" => acc
  | String c s' => digits_value (10 * acc + (code c - 48))%Z s'
  end.
Definition int_of_digits (s : string) : result string Z :=
  if (4300 <? Z.of_nat (String.length s))%Z then Err "ValueError" else Ok (digits_value 0 s).

(** ** Hunks *)

Definition no_newline_marker (line : string) : bool := startswith "\ No newline" line.

Definition hunk_line (line : string) : bool :=
  startswith "-" line || startswith "+" line || startswith " " line || no_newline_marker line.

Abbreviation hunk := (string * list string)%type.

(** The loop over the lines of the patch, with the open header and its
    lines. *)
Fixpoint collect_hunks (lines : list string) (header : option string) (current : list string)
  : list hunk :=
  match lines with
  | [] => match header, current with
          | Some h, _ :: _ => [(h, current)]
          | _, _ => []
          end
  | line :: rest =>
      match hunk_header line with
      | Some h' => match header, current with
                   | Some h, _ :: _ => (h, current) :: collect_hunks rest (Some h') []
                   | _, _ => collect_hunks rest (Some h') current
                   end
      | None => match header with
                | Some _ => collect_hunks rest header (if hunk_line line then current ++ [line] else current)
                | None => collect_hunks rest header current
                end
      end
  end.

Definition parse_hunks (patch_text : string) : list hunk := collect_hunks (splitlines patch_text) None [].

(** ** Application *)

Definition InvalidPatch {A} : result string A := Err "InvalidPatchArtifactError".

(** [max(0, o_start - 1) if o_start > 0 else 0]. *)
Definition target_index (o_start : Z) : Z := if (0 <? o_start)%Z then Z.max 0 (o_start - 1) else 0%Z.

(** The copying loop before a hunk. *)
Definition copy_until (orig : list string) (target : Z) (idx : nat) (out : list string)
  : nat * list string :=
  let stop := Z.to_nat (Z.min target (Z.of_nat (length orig))) in
  (Nat.max idx stop, out ++ take (stop - idx) (drop idx orig)).

Fixpoint apply_hunk_lines (orig lines : list string) (idx : nat) (out : list string)
  : result string (nat * list string) :=
  match lines with
  | [] => Ok (idx, out)
  | hline :: rest =>
      if no_newline_marker hline then apply_hunk_lines orig rest idx out
      else
        match hline with
        | "" => Err "IndexError"
        | String prefix content =>
            let matches := match orig !! idx with Some l => String.eqb l content | None => false end in
            if Ascii.eqb prefix " " then
              if matches then apply_hunk_lines orig rest (S idx) (out ++ [content]) else InvalidPatch
            else if Ascii.eqb prefix "-" then
              if matches then apply_hunk_lines orig rest (S idx) out else InvalidPatch
            else if Ascii.eqb prefix "+" then apply_hunk_lines orig rest idx (out ++ [content])
            else apply_hunk_lines orig rest idx out
        end
  end.

Fixpoint apply_hunks (orig : list string) (hunks : list hunk) (idx : nat) (out : list string)
  : result string (list string) :=
  match hunks with
  | [] => Ok (out ++ drop idx orig)
  | (header, lines) :: rest =>
      let? o_start := int_of_digits header in
      let '(idx1, out1) := copy_until orig (target_index o_start) idx out in
      let? r := apply_hunk_lines orig lines idx1 out1 in
      apply_hunks orig rest r.1 r.2
  end.

Definition ends_with_newline (s : string) : bool := match last (list_ascii_of_string s) with
                                                    | Some c => Ascii.eqb c "010"
                                                    | None => false
                                                    end.

(** The text joined again, with the final newline of the original. *)
Definition join_patched (original_text : string) (out : list string) : string :=
  let patched := String.concat newline out in
  if ends_with_newline original_text && negb (ends_with_newline patched)
  then patched +:+ newline else patched.

(** [apply_unified_patch]: text, diff and number of hunks. *)
Definition apply_unified_patch (unified_diff : list string -> list string -> string)
    (original_text patch_text : string) : result string (string * string * nat) :=
  if negb (truthy (strip patch_text)) then InvalidPatch
  else
    match parse_hunks patch_text with
    | [] => InvalidPatch
    | hunks =>
        let orig := splitlines original_text in
        let? out := apply_hunks orig hunks 0 [] in
        Ok (join_patched original_text out, unified_diff orig out, length hunks)
    end.

(** ** Specification: edit scripts *)

Inductive edit := Keep (l : string) | Del (l : string) | Ins (l : string).

Definition old_line (e : edit) : option string := match e with Keep l | Del l => Some l | Ins _ => None end.
Definition new_line (e : edit) : option string := match e with Keep l | Ins l => Some l | Del _ => None end.
Definition olds (script : list edit) : list string := omap old_line script.
Definition news (script : list edit) : list string := omap new_line script.

(** A line of a hunk as an edit. *)
Definition edit_of (line : string) : option edit :=
  match line with
  | String " " l => Some (Keep l)
  | String "-" l => Some (Del l)
  | String "+" l => Some (Ins l)
  | _ => None
  end.
Definition script_of (lines : list string) : list edit := omap edit_of lines.

(** [script] turns the lines of [orig] from [idx] on into the patched ones:
    each hunk starts at its line, or where the previous one ended if that is
    later, its old lines are there, and everything between is kept. *)
Inductive patches (orig : list string) : nat -> list hunk -> list edit -> Prop :=
| patches_end idx : patches orig idx [] (map Keep (drop idx orig))
| patches_hunk idx header lines rest o_start start script :
    int_of_digits header = Ok o_start ->
    start = Nat.max idx (Z.to_nat (Z.min (target_index o_start) (Z.of_nat (length orig)))) ->
    olds (script_of lines) `prefix_of` drop start orig ->
    patches orig (start + length (olds (script_of lines))) rest script ->
    patches orig idx ((header, lines) :: rest)
      (map Keep (take (start - idx) (drop idx orig)) ++ script_of lines ++ script).

Lemma olds_app a b : olds (a ++ b) = olds a ++ olds b.
Proof. apply omap_app. Qed.
Lemma news_app a b : news (a ++ b) = news a ++ news b.
Proof. apply omap_app. Qed.
Lemma olds_keep l : olds (map Keep l) = l.
Proof. induction l as [|x l IH]; [done|]. cbn. f_equal. exact IH. Qed.
Lemma news_keep l : news (map Keep l) = l.
Proof. induction l as [|x l IH]; [done|]. cbn. f_equal. exact IH. Qed.

(** A script reads the file from [idx] to the end, once. *)
Lemma patches_olds orig idx hunks script : patches orig idx hunks script -> olds script = drop idx orig.
Proof.
  induction 1 as [idx|idx header lines rest o_start start script _ Hs [tail Ht] _ IH]; [apply olds_keep|].
  rewrite !olds_app, olds_keep, IH. rewrite <- (take_drop (start - idx) (drop idx orig)) at 2.
  rewrite drop_drop. replace (idx + (start - idx)) with start by lia. f_equal.
  rewrite <- drop_drop, Ht, drop_app_length. done.
Qed.

(** ** The loop meets the specification *)

Lemma lookup_drop_cons {A} (l : list A) i x : l !! i = Some x -> drop i l = x :: drop (S i) l.
Proof. intros Hl. by apply drop_S. Qed.

Lemma prefix_at {A} (l : list A) i x p : x :: p `prefix_of` drop i l <-> l !! i = Some x /\ p `prefix_of` drop (S i) l.
Proof.
  destruct (l !! i) as [y|] eqn:E.
  - rewrite (lookup_drop_cons _ _ _ E). split.
    + intros Hp. apply prefix_cons_inv_1 in Hp as Hx. apply prefix_cons_inv_2 in Hp. by subst.
    + intros [[= ->] Hp]. by apply prefix_cons.
  - rewrite drop_ge by (by apply lookup_ge_None). split; [|by intros [? _]]. intros Hp. by apply prefix_nil_inv in Hp.
Qed.

Lemma no_marker_edit line : hunk_line line = true -> no_newline_marker line = true -> edit_of line = None.
Proof.
  unfold no_newline_marker. destruct line as [|c s]; [done|]. cbn [startswith]. intros _ Hm.
  apply andb_true_iff in Hm as [Hc%Ascii.eqb_eq _]. by subst c.
Qed.

Lemma apply_hunk_lines_spec orig lines idx out idx' out' :
  Forall (fun l => hunk_line l = true) lines ->
  apply_hunk_lines orig lines idx out = Ok (idx', out') <->
  olds (script_of lines) `prefix_of` drop idx orig /\
  idx' = idx + length (olds (script_of lines)) /\ out' = out ++ news (script_of lines).
Proof.
  intros Hw. induction Hw as [|line lines Hl _ IH] in idx, out |- *.
  { cbn. rewrite Nat.add_0_r, app_nil_r. split; [intros [= <- <-]; split_and!; [apply prefix_nil|done..]|].
    by intros (_ & -> & ->). }
  cbn [apply_hunk_lines]. unfold script_of. destruct (no_newline_marker line) eqn:Em.
  { rewrite IH. unfold script_of. cbn [omap list_omap]. by rewrite (no_marker_edit _ Hl Em). }
  destruct line as [|c l]; [done|]. cbn [omap list_omap].
  assert (Hc : c = " "%char \/ c = "-"%char \/ c = "+"%char).
  { unfold hunk_line in Hl. rewrite Em, orb_false_r in Hl. cbn [startswith] in Hl.
    rewrite !andb_true_r, !orb_true_iff, !Ascii.eqb_eq in Hl. destruct Hl as [[<-|<-]|<-]; auto. }
  destruct Hc as [-> | [-> | ->]]; cbn [edit_of Ascii.eqb Bool.eqb andb olds omap list_omap old_line news new_line];
    fold (script_of lines).
  - cbn [length]. setoid_rewrite prefix_at. destruct (orig !! idx) as [x|]; [|by split; [|intros [[? _] _]]].
    destruct (String.eqb x l) eqn:E.
    + apply String.eqb_eq in E as ->. rewrite IH, <- app_assoc. cbn.
      split; [intros (? & -> & ->); split_and!; [done..|unfold olds; lia|done]
             |intros ((_ & ?) & -> & ->); split_and!; [done|unfold olds; lia|done]].
    + split; [done|]. intros [[[= ->] _] _]. by rewrite String.eqb_refl in E.
  - cbn [length]. setoid_rewrite prefix_at. destruct (orig !! idx) as [x|]; [|by split; [|intros [[? _] _]]].
    destruct (String.eqb x l) eqn:E.
    + apply String.eqb_eq in E as ->. rewrite IH.
      split; [intros (? & -> & ->); split_and!; [done..|unfold olds; lia|done]
             |intros ((_ & ?) & -> & ->); split_and!; [done|unfold olds; lia|done]].
    + split; [done|]. intros [[[= ->] _] _]. by rewrite String.eqb_refl in E.
  - rewrite IH, <- app_assoc. done.
Qed.

Definition well_formed (h : hunk) : Prop := Forall (fun l => hunk_line l = true) h.2.

Lemma collect_well_formed lines header current :
  Forall (fun l => hunk_line l = true) current -> Forall well_formed (collect_hunks lines header current).
Proof.
  induction lines as [|line rest IH] in header, current |- *; intros Hc; cbn.
  { destruct header as [h|]; [|constructor]. destruct current; [constructor|]. by apply Forall_singleton. }
  destruct (hunk_header line) as [h'|].
  - destruct header as [h|]; [|by apply IH]. destruct current as [|c cs]; [by apply IH|].
    constructor; [exact Hc|apply IH; constructor].
  - destruct header as [h|]; [|by apply IH]. apply IH. destruct (hunk_line line) eqn:E; [|done].
    apply Forall_app_2; [done|by repeat constructor].
Qed.

(** Hunks with lines that the loop accepts are applied exactly by the
    scripts of the specification. *)
Lemma apply_hunks_spec orig hunks idx out out' :
  Forall well_formed hunks ->
  apply_hunks orig hunks idx out = Ok out' <->
  exists script, patches orig idx hunks script /\ out' = out ++ news script.
Proof.
  intros Hw. induction Hw as [|[header lines] rest Hl _ IH] in idx, out, out' |- *; cbn [apply_hunks].
  { split.
    - intros [= <-]. eexists. split; [apply patches_end|]. by rewrite news_keep.
    - intros (script & Hp & ->). inv Hp. by rewrite news_keep. }
  rewrite rbind_Ok. unfold copy_until. set (stop := fun z => Z.to_nat (Z.min (target_index z) (Z.of_nat (length orig)))).
  split.
  - intros (z & Hz & Hr). apply rbind_Ok in Hr as ([idx2 out2] & Ha & Hr). cbn [fst snd] in Hr.
    apply (apply_hunk_lines_spec _ _ _ _ _ _ Hl) in Ha as (Hp & -> & ->).
    apply IH in Hr as (script & Hs & ->). eexists. split.
    + eapply patches_hunk; [exact Hz|reflexivity|exact Hp|exact Hs].
    + rewrite !news_app, news_keep, <- !app_assoc. fold (stop z). by replace (Nat.max idx (stop z) - idx) with (stop z - idx) by lia.
  - intros (script & Hp & ->). inversion Hp as [|? ? ? ? z start script' Hz Hs Hpre Hrest]; subst. exists z. split; [done|].
    apply rbind_Ok. eexists (_, _). split; [apply apply_hunk_lines_spec; [exact Hl|]; split_and!; [exact Hpre|reflexivity..]|].
    cbn [fst snd]. apply IH. exists script'. split; [exact Hrest|].
    rewrite !news_app, news_keep, <- !app_assoc. fold (stop z). by replace (Nat.max idx (stop z) - idx) with (stop z - idx) by lia.
Qed.

(** ** Changes *)

Definition is_change (e : edit) : bool := match e with Keep _ => false | _ => true end.

(** The added and removed lines of the hunks, in order. *)
Definition hunk_changes (hunks : list hunk) : list edit :=
  flat_map (fun h => List.filter is_change (script_of h.2)) hunks.

Lemma patches_changes orig idx hunks script :
  patches orig idx hunks script -> List.filter is_change script = hunk_changes hunks.
Proof.
  assert (Hk : forall l, List.filter is_change (map Keep l) = []) by (intros l; by induction l).
  induction 1 as [idx|idx header lines rest o_start start script _ _ _ _ IH]; [apply Hk|].
  by rewrite !List.filter_app, Hk, IH.
Qed.

(** C32: A patch is applied exactly or not at all: [apply_unified_patch] returns
    a text if and only if some edit script reads the whole file once, places
    every hunk at its line (or directly after the previous hunk) on lines that
    agree with its context and its removed lines, and keeps everything else;
    the text is then the new lines of that script, whose only changes are the
    added and removed lines of the patch. *)
Theorem patch_applied_exactly diff original patch_text patched shown n :
  apply_unified_patch diff original patch_text = Ok (patched, shown, n) <->
  strip patch_text <> "" /\ parse_hunks patch_text <> [] /\
  exists script,
    patches (splitlines original) 0 (parse_hunks patch_text) script /\
    olds script = splitlines original /\
    List.filter is_change script = hunk_changes (parse_hunks patch_text) /\
    patched = join_patched original (news script) /\
    shown = diff (splitlines original) (news script) /\ n = length (parse_hunks patch_text).
Proof.
  unfold apply_unified_patch. destruct (truthy (strip patch_text)) eqn:Et.
  2: { split; [done|]. intros (Hs & _). apply truthy_spec in Hs. congruence. }
  apply truthy_spec in Et. cbn [negb].
  pose proof (collect_well_formed (splitlines patch_text) None [] (Forall_nil_2 _)) as Hw.
  fold (parse_hunks patch_text) in Hw. destruct (parse_hunks patch_text) as [|h hs]; [by split; [|intros (_ & ? & _)]|].
  set (hunks := h :: hs) in *. split.
  - intros Hr. split; [done|]. split; [done|]. apply rbind_Ok in Hr as (out & Ho & [= <- <- <-]).
    apply apply_hunks_spec in Ho as (script & Hp & ->); [|done]. exists script.
    split_and!; [done|by eapply (patches_olds _ 0)|by eapply patches_changes|done..].
  - intros (_ & _ & script & Hp & _ & _ & -> & -> & ->). apply rbind_Ok. exists (news script).
    split; [|done]. apply apply_hunks_spec; [done|]. by exists script.
Qed.

Module PatchDemo.
Definition no_diff (a b : list string) : string := "".
Definition text (l : list string) : string := String.concat newline l +:+ newline.

Definition two_hunks : string :=
  text ["--- a/f"; "+++ b/f"; "@@ -1,2 +1,2 @@"; " one"; "-two"; "+2"; "@@ -4 +4,2 @@"; " four"; "+five"].

Example applied :
  apply_unified_patch no_diff (text ["one"; "two"; "three"; "four"]) two_hunks
  = Ok (text ["one"; "2"; "three"; "four"; "five"], "", 2).
Proof. vm_compute. reflexivity. Qed.

Example context_mismatch :
  apply_unified_patch no_diff (text ["one"; "TWO"; "three"; "four"]) two_hunks = InvalidPatch.
Proof. vm_compute. reflexivity. Qed.

(** A hunk that starts before the previous one ended is applied where that
    one ended. *)
Example late_hunk_applied_in_place :
  apply_unified_patch no_diff (text ["a"; "x"; "b"; "x"])
    (text ["@@ -3 +3 @@"; "-b"; "+B"; "@@ -2 +2 @@"; "-x"; "+y"])
  = Ok (text ["a"; "x"; "B"; "y"], "", 2).
Proof. vm_compute. reflexivity. Qed.

(** A form feed is a line boundary of [splitlines]: a line the patch does not
    name is split in two. *)
Example untouched_line_rewritten :
  apply_unified_patch no_diff (text ["a"; "b" +:+ String "012" "c"]) (text ["@@ -1 +1 @@"; "-a"; "+A"])
  = Ok (text ["A"; "b"; "c"], "", 1).
Proof. vm_compute. reflexivity. Qed.
End PatchDemo.
