(* ===== verification/Workspace.v ===== *)
(** * Writing artifacts into a workspace

    The file operations of [kin/artifacts/workspace.py]: path checks, the
    preview of a patch, and the two operations that write under a policy
    decision.  A disk is a map from absolute paths to bytes with its
    directories; any operation on it can fail, and a failing write leaves a
    prefix.  Symbolic links are resolved by the parameter [realpath]. *)

From Stdlib Require Import Ascii String ZArith QArith Lia.
From stdpp Require Import base gmap sets list strings.
From S2P Require Import Prelude Codec PyValue Schemas Cards Policy Store AuditLog SessionStore.
From S2P Require Import ApprovalStore ArtifactVault Patch.

#[local] Open Scope nat_scope.

(** ** The disk *)

(** An absolute path by its segments. *)
Abbreviation path := (list string).

Record disk := {
  files : gmap path bytes;
  dirs : gset path;
  disk_ops : nat
}.

(** The node and the disk. *)
Record world := { w_node : node; w_disk : disk }.

Abbreviation W := (M world string).

(** A database operation. *)
Definition on_node {A} (m : N A) : W A :=
  fun w => let '(r, s) := m (w_node w) in (r, {| w_node := s; w_disk := w_disk w |}).

Definition parent (p : path) : path := removelast p.
Definition name (p : path) : string := default "" (last p).

(** [Path(p).as_posix()] and [Path(text)] as segments below the root or the
    current directory. *)
Definition absolute (cwd : path) (text : string) : path :=
  if truthy (path_root text) then path_segments text else cwd ++ path_segments text.

Section workspace.
Context `{NodeEnv} `{LatestRow} (vault_key : bytes).
(** [os.path.realpath] of an absolute path that may contain parent segments. *)
Context (realpath : path -> path) (cwd : path).
(** Whether the n-th operation fails, and how much a failing write wrote. *)
Context (fault : nat -> option nat) (pid : string).
Context (unified_diff : list string -> list string -> string).

(** One operation: [ok] on success, [broken] when it fails. *)
Definition disk_step {A} (ok : disk -> result string A * disk) (broken : nat -> disk -> disk) : W A :=
  fun w =>
    let d := w_disk w in
    let d1 := {| files := files d; dirs := dirs d; disk_ops := S (disk_ops d) |} in
    let '(r, d2) := match fault (disk_ops d) with
                    | None => ok d1
                    | Some n => (Err "OSError", broken n d1)
                    end in
    (r, {| w_node := w_node w; w_disk := d2 |}).

Definition set_files (f : gmap path bytes -> gmap path bytes) (d : disk) : disk :=
  {| files := f (files d); dirs := dirs d; disk_ops := disk_ops d |}.

(** All prefixes of a path. *)
Fixpoint prefixes (p : path) : list path :=
  match p with
  | [] => [[]]
  | x :: p' => [] :: map (cons x) (prefixes p')
  end.

(** [p.mkdir(parents=True, exist_ok=True)]. *)
Definition mkdir_parents (p : path) : W unit :=
  disk_step
    (fun d => if existsb (fun q => bool_decide (is_Some (files d !! q))) (prefixes p)
              then (Err "FileExistsError", d)
              else (Ok tt, {| files := files d; dirs := list_to_set (prefixes p) ∪ dirs d;
                              disk_ops := disk_ops d |}))
    (fun _ d => d).

(** [p.write_bytes(content)]. *)
Definition write_bytes (p : path) (content : bytes) : W unit :=
  disk_step
    (fun d => if bool_decide (p ∈ dirs d) then (Err "IsADirectoryError", d)
              else (Ok tt, set_files <[p := content]> d))
    (fun n d => if bool_decide (p ∈ dirs d) then d else set_files <[p := str_take n content]> d).

(** [source.replace(target)]. *)
Definition replace_file (source target : path) : W unit :=
  disk_step
    (fun d => if bool_decide (target ∈ dirs d) then (Err "IsADirectoryError", d)
              else match files d !! source with
                   | None => (Err "FileNotFoundError", d)
                   | Some b => (Ok tt, set_files (fun m => <[target := b]> (delete source m)) d)
                   end)
    (fun _ d => d).

(** [if p.exists(): try: p.unlink() except OSError: pass]. *)
Definition unlink_if_exists (p : path) : W unit :=
  let* d := mgets w_disk in
  if bool_decide (is_Some (files d !! p))
  then mcatch (disk_step (fun d => (Ok tt, set_files (delete p) d)) (fun _ d => d)) (fun _ => ret tt)
  else ret tt.

(** ** Paths *)

Definition UnsafePath : string := "UnsafeWorkspacePathError".

Definition resolve_safe_workspace_path (workspace_root : path) (relative_path : string)
  : result string path :=
  let raw := strip relative_path in
  if negb (truthy raw) then Err UnsafePath
  else if has_nul relative_path then Err UnsafePath
  else if startswith "/" raw || startswith "\" raw || drive_prefix raw then Err UnsafePath
  else
    let root := realpath workspace_root in
    let candidate := realpath (root ++ path_segments (str_replace "\" "/" raw)) in
    if bool_decide (root `prefix_of` candidate) then Ok candidate else Err UnsafePath.

Definition validate_card_workspace (card : AgentCard) (workspace_root : option string)
  : result string path :=
  match adapter card with
  | LocalCommandAdapterConfig _ working_directory =>
      let root := match workspace_root with Some (String _ _ as r) => r | _ => working_directory end in
      if truthy root then Ok (realpath (absolute cwd root)) else Err "WorkspaceNotConfiguredError"
  | _ => Err "WorkspaceNotConfiguredError"
  end.

(** ** Previewing a patch *)

(** [io.open(..)] in text mode: every line ending becomes a line feed. *)
Fixpoint universal_newlines (s : string) : string :=
  match s with
  | "" => ""
  | String c s' =>
      if Ascii.eqb c "013" then
        String "010" (match s' with
                      | String d s'' => if Ascii.eqb d "010" then universal_newlines s''
                                        else universal_newlines s'
                      | "" => ""
                      end)
      else String c (universal_newlines s')
  end.

Definition read_text (p : path) (d : disk) : result string string :=
  match files d !! p with
  | None => Ok ""
  | Some b => match utf8_decode b with
              | Some s => Ok (universal_newlines s)
              | None => Err "UnicodeDecodeError"
              end
  end.

(** [_is_diff_content]. *)
Definition is_diff_content (text : string) : bool :=
  let lines := take 10 (splitlines (lstrip_by is_space text)) in
  let has p := existsb (startswith p) lines in
  (has "--- " && has "+++ ") || has "@@ ".

Definition patch_mime (mime : string) : bool := str_in (lower (strip mime)) ["text/x-diff"; "text/x-patch"].

Record WorkspacePatchPreview := {
  wp_artifact_id : string;
  wp_relative_target_path : string;
  wp_target_exists : bool;
  wp_original_content : string;
  wp_patched_content : string;
  wp_unified_diff : string;
  wp_hunks_count : nat
}.

Definition InvalidPatchArtifact : string := "InvalidPatchArtifactError".

Definition preview_patch_apply (artifact_id : string) (root : path) (relative_target_path : string) (w : world)
  : result string WorkspacePatchPreview :=
  let? target := resolve_safe_workspace_path root relative_target_path in
  let t := db (w_node w) in
  let? meta := get_artifact_metadata artifact_id t in
  let? raw := load_artifact_bytes vault_key artifact_id t in
  match utf8_decode raw with
  | None => Err InvalidPatchArtifact
  | Some patch_text =>
      if negb (patch_mime (md_mime_type meta)) && negb (is_diff_content patch_text)
      then Err InvalidPatchArtifact
      else
        let exists_ := bool_decide (is_Some (files (w_disk w) !! target)) in
        let? original := read_text target (w_disk w) in
        let? res := apply_unified_patch unified_diff original patch_text in
        Ok {| wp_artifact_id := artifact_id; wp_relative_target_path := relative_target_path;
              wp_target_exists := exists_; wp_original_content := original;
              wp_patched_content := res.1.1; wp_unified_diff := res.1.2; wp_hunks_count := res.2 |}
  end.

(** ** Writing *)

Definition temp_path (target : path) : path := parent target ++ [".tmp_" +:+ name target +:+ "_" +:+ pid].

(** [_atomic_write_file]. *)
Definition atomic_write_file (target : path) (content : bytes) : W unit :=
  mkdir_parents (parent target) ;;;
  if negb (truthy (name target)) then mraise "ValueError"
  else
    let temp := temp_path target in
    mcatch (write_bytes temp content ;;; replace_file temp target)
      (fun e => unlink_if_exists temp ;;; mraise e).

Definition write_context (session_id relative_target_path : string) : document :=
  [("session_id", JStr session_id); ("relative_target_path", JStr relative_target_path)].

(** The policy gate of both operations. *)
Definition require_workspace_write (card : AgentCard) (session_id relative_target_path now : string) : W unit :=
  let* res := on_node (evaluate_action_for_session card WORKSPACE_WRITE
                         (write_context session_id relative_target_path) session_id now) in
  if bool_decide (decision res = ALLOW) then ret tt else mraise "WorkspaceWritePermissionDeniedError".

Definition import_artifact_to_workspace (card : AgentCard) (session_id artifact_id : string)
    (workspace_root : option string) (relative_target_path now : string) : W path :=
  let* root := mlift (validate_card_workspace card workspace_root) in
  let* target := mlift (resolve_safe_workspace_path root relative_target_path) in
  require_workspace_write card session_id relative_target_path now ;;;
  let* t := mgets (fun w => db (w_node w)) in
  let* raw := mlift (load_artifact_bytes vault_key artifact_id t) in
  atomic_write_file target raw ;;;
  ret target.

Definition apply_patch_to_workspace (card : AgentCard) (session_id artifact_id : string)
    (workspace_root : option string) (relative_target_path now : string) : W path :=
  let* root := mlift (validate_card_workspace card workspace_root) in
  let* preview := mgets (preview_patch_apply artifact_id root relative_target_path) in
  let* preview := mlift preview in
  require_workspace_write card session_id relative_target_path now ;;;
  let* target := mlift (resolve_safe_workspace_path root relative_target_path) in
  atomic_write_file target (utf8_encode (wp_patched_content preview)) ;;;
  ret target.

(** ** Atomic writes *)

Lemma temp_differs target : temp_path target <> target.
Proof.
  intros E. assert (El : last (temp_path target) = last target) by (by rewrite E).
  unfold temp_path in El. rewrite last_snoc in El. unfold name in El.
  destruct (last target) as [x|]; [|done]. injection El as El. cbn in El.
  assert (Hl : String.length (".tmp_" +:+ x +:+ "_" +:+ pid) = String.length x) by (cbn; by rewrite El).
  rewrite !str_length_app in Hl. cbn in Hl. lia.
Qed.

(** Files other than those in [ps] are the same. *)
Definition only_files (ps : list path) (w w' : world) : Prop :=
  w_node w' = w_node w /\ forall q, q ∉ ps -> files (w_disk w') !! q = files (w_disk w) !! q.

Lemma only_files_trans ps w1 w2 w3 : only_files ps w1 w2 -> only_files ps w2 w3 -> only_files ps w1 w3.
Proof. intros [A1 A2] [B1 B2]. split; [congruence|]. intros q Hq. by rewrite B2, A2. Qed.

Lemma disk_step_run {A} (ok : disk -> result string A * disk) broken (w : world) r w' :
  disk_step ok broken w = (r, w') ->
  exists d1, files d1 = files (w_disk w) /\ dirs d1 = dirs (w_disk w) /\ w_node w' = w_node w /\
    ((r, w_disk w') = ok d1 \/ exists n, r = Err "OSError" /\ w_disk w' = broken n d1).
Proof.
  unfold disk_step. set (d1 := Build_disk _ _ _). destruct (fault _) as [n|].
  - intros [= <- <-]. exists d1. split_and!; [done..|]. right. by exists n.
  - destruct (ok d1) as [r2 d2] eqn:E. intros [= <- <-]. exists d1. split_and!; [done..|]. left. by rewrite E.
Qed.

Lemma mkdir_files p w r w' : mkdir_parents p w = (r, w') -> only_files [] w w'.
Proof.
  intros (d1 & Hf & _ & Hn & Hor)%disk_step_run. split; [done|]. intros q _.
  destruct Hor as [E|(n & _ & ->)]; [|by rewrite Hf].
  destruct (existsb _ _); injection E as _ ->; cbn; by rewrite Hf.
Qed.

Lemma write_files p b w r w' :
  write_bytes p b w = (r, w') ->
  only_files [p] w w' /\ (r = Ok tt -> files (w_disk w') = <[p := b]> (files (w_disk w))).
Proof.
  intros (d1 & Hf & _ & Hn & Hor)%disk_step_run. destruct Hor as [E|(n & -> & E)].
  - destruct (bool_decide _); injection E as -> E; rewrite E; [split; [|done]; split; [done|by rewrite E, Hf]|].
    cbn. rewrite Hf. split; [|done]. split; [done|]. intros q Hq. rewrite E. cbn. rewrite Hf.
    apply lookup_insert_ne. intros ->. apply Hq. left.
  - split; [|done]. split; [done|]. intros q Hq. rewrite E. destruct (bool_decide _); cbn; rewrite Hf; [done|].
    apply lookup_insert_ne. intros ->. apply Hq. left.
Qed.

Lemma replace_files src tgt b w r w' :
  files (w_disk w) !! src = Some b -> src <> tgt -> replace_file src tgt w = (r, w') ->
  only_files [src; tgt] w w' /\
  match r with
  | Ok _ => files (w_disk w') = <[tgt := b]> (delete src (files (w_disk w)))
  | Err _ => files (w_disk w') = files (w_disk w)
  end.
Proof.
  intros Hb Hne (d1 & Hf & _ & Hn & Hor)%disk_step_run. destruct Hor as [E|(n & -> & E)].
  2: { rewrite E, Hf. split; [|done]. split; [done|]. intros q _. by rewrite E, Hf. }
  destruct (bool_decide _); [|rewrite Hf, Hb in E]; injection E as -> E; rewrite E.
  - rewrite Hf. split; [|done]. split; [done|]. intros q _. by rewrite E, Hf.
  - cbn. rewrite Hf. split; [|done]. split; [done|]. intros q Hq. rewrite E. cbn. rewrite Hf.
    rewrite lookup_insert_ne by (intros ->; apply Hq; right; left).
    apply lookup_delete_ne. intros ->. apply Hq. left.
Qed.

Lemma unlink_files p w r w' : unlink_if_exists p w = (r, w') -> r = Ok tt /\ only_files [p] w w'.
Proof.
  unfold unlink_if_exists. unfold bind at 1, mgets at 1. destruct (bool_decide _); [|by intros [= <- <-]; split].
  unfold mcatch. destruct (disk_step _ _ w) as [r1 w1] eqn:E. apply disk_step_run in E as (d1 & Hf & _ & Hn & Hor).
  assert (Ho : only_files [p] w w1).
  { split; [done|]. intros q Hq. destruct Hor as [E|(n & _ & ->)]; [|by rewrite Hf].
    injection E as _ ->. cbn. rewrite Hf. apply lookup_delete_ne. intros ->. apply Hq. left. }
  destruct r1 as [[]|e]; by intros [= <- <-].
Qed.

(** The target holds its old or its whole new content, whatever fails. *)
Lemma atomic_write_effect target content w r w' :
  atomic_write_file target content w = (r, w') ->
  only_files [temp_path target; target] w w' /\
  match r with
  | Ok _ => files (w_disk w') !! target = Some content /\ files (w_disk w') !! temp_path target = None
  | Err _ => files (w_disk w') !! target = files (w_disk w) !! target
  end.
Proof.
  pose proof (temp_differs target) as Hne. unfold atomic_write_file. unfold bind at 1.
  destruct (mkdir_parents (parent target) w) as [[[]|e] w1] eqn:Em; apply mkdir_files in Em as [Hn1 Hf1].
  2: { intros [= <- <-]. split; [split; [done|by intros q _; apply Hf1; inversion 1]|apply Hf1; by inversion 1]. }
  assert (Hf1' : forall q, files (w_disk w1) !! q = files (w_disk w) !! q) by (intros q; apply Hf1; by inversion 1).
  destruct (negb _).
  { intros [= <- <-]. split; [split; [done|by intros q _]|done]. }
  unfold mcatch at 1. unfold bind at 1.
  assert (Hfail : forall e w2, only_files [temp_path target] w1 w2 ->
    (unlink_if_exists (temp_path target) ;;; mraise e) w2 = (r, w') ->
    only_files [temp_path target; target] w w' /\
    match r with Ok _ => files (w_disk w') !! target = Some content /\ files (w_disk w') !! temp_path target = None
               | Err _ => files (w_disk w') !! target = files (w_disk w) !! target end).
  { intros e w2 [Hn2 Hf2]. unfold bind. destruct (unlink_if_exists _ w2) as [r3 w3] eqn:Eu.
    apply unlink_files in Eu as [-> [Hn3 Hf3]]. intros [= <- <-]. split.
    - split; [congruence|]. intros q Hq. rewrite Hf3, Hf2; [done|..]; intros ->%list_elem_of_singleton; apply Hq; left.
    - rewrite Hf3, Hf2; [done|..]; intros Hx%list_elem_of_singleton; by apply Hne. }
  destruct (write_bytes (temp_path target) content w1) as [[[]|e] w2] eqn:Ew; apply write_files in Ew as [Ho2 Hw2];
    [|by apply Hfail]. specialize (Hw2 eq_refl).
  destruct (replace_file (temp_path target) target w2) as [[[]|e] w3] eqn:Er;
    (eapply replace_files in Er as [Ho3 Hw3]; [|by rewrite Hw2, lookup_insert_eq|done]).
  - intros [= <- <-]. rewrite Hw3, Hw2. split.
    + destruct Ho3 as [Hn3 Hf3], Ho2 as [Hn2 Hf2]. split; [congruence|]. intros q Hq.
      rewrite Hf3 by done. rewrite Hf2; [done|]. intros ->%list_elem_of_singleton. apply Hq. left.
    + rewrite lookup_insert_eq. split; [done|]. rewrite lookup_insert_ne by done. apply lookup_delete_eq.
  - apply Hfail. eapply only_files_trans; [exact Ho2|]. split; [by destruct Ho3|]. intros q _. by rewrite Hw3.
Qed.

(** ** What the two operations change *)

(** The policy allowed the write, in the state the call found. *)
Definition write_allowed (card : AgentCard) (session_id rel now : string) (w w' : world) : Prop :=
  exists res, evaluate_action_for_session card WORKSPACE_WRITE (write_context session_id rel) session_id now
                (w_node w) = (Ok res, w_node w') /\ decision res = ALLOW.

Lemma require_run card sid rel now w r w' :
  require_workspace_write card sid rel now w = (r, w') ->
  w_disk w' = w_disk w /\ (r = Ok tt -> write_allowed card sid rel now w w').
Proof.
  unfold require_workspace_write, on_node, write_allowed. unfold bind.
  destruct (evaluate_action_for_session _ _ _ _ _ _) as [[res|e] s1]; [|by intros [= <- <-]].
  destruct (bool_decide _) eqn:Ed; intros [= <- <-]; (split; [done|]); [|done].
  intros _. exists res. split; [done|]. by apply bool_decide_eq_true in Ed.
Qed.

(** What a gated write leaves: on success the bytes in [content] at a path
    under the workspace; otherwise nothing but possibly the temporary
    file. *)
Definition gated_write (card : AgentCard) (root : option string) (session_id rel now : string)
    (content : world -> path -> bytes -> Prop) (w : world) (r : result string path) (w' : world) : Prop :=
  match r with
  | Ok p => exists workspace b,
      validate_card_workspace card root = Ok workspace /\ realpath workspace `prefix_of` p /\
      write_allowed card session_id rel now w w' /\
      content w' p b /\ files (w_disk w') !! p = Some b /\
      forall q, q <> p -> q <> temp_path p -> files (w_disk w') !! q = files (w_disk w) !! q
  | Err _ => forall q,
      (forall workspace p, validate_card_workspace card root = Ok workspace ->
         resolve_safe_workspace_path workspace rel = Ok p -> q <> temp_path p) ->
      files (w_disk w') !! q = files (w_disk w) !! q
  end.

Lemma resolve_confined workspace rel p :
  resolve_safe_workspace_path workspace rel = Ok p -> realpath workspace `prefix_of` p.
Proof.
  unfold resolve_safe_workspace_path. repeat (destruct (negb _) || destruct (has_nul _) || destruct (_ || _)); try done.
  destruct (bool_decide _) eqn:E; [|done]. intros [= <-]. by apply bool_decide_eq_true in E.
Qed.

(** The end both operations share. *)
Lemma write_end card root sid rel now (content : world -> path -> bytes -> Prop) w workspace p b w1 r w' :
  validate_card_workspace card root = Ok workspace ->
  resolve_safe_workspace_path workspace rel = Ok p ->
  write_allowed card sid rel now w w1 -> w_disk w1 = w_disk w ->
  (forall w2, w_node w2 = w_node w1 -> content w2 p b) ->
  (atomic_write_file p b ;;; ret p) w1 = (r, w') ->
  gated_write card root sid rel now content w r w'.
Proof.
  intros Hv Hr (res & He & Hd) Hdisk Hc. unfold bind. destruct (atomic_write_file p b w1) as [[[]|e] w2] eqn:Ea;
    apply atomic_write_effect in Ea as [[Hn Hf] Ht]; rewrite Hdisk in *; intros [= <- <-].
  - exists workspace, b. split; [done|]. split; [by eapply resolve_confined|].
    split; [exists res; by rewrite Hn|]. split; [by apply Hc|]. split; [by destruct Ht|].
    intros q Hq1 Hq2. apply Hf. intros [->|[->|[]%elem_of_nil]%elem_of_cons]%elem_of_cons; done.
  - intros q Hq. destruct (decide (q = p)) as [->|Hqp]; [done|]. apply Hf.
    intros [->|[->|[]%elem_of_nil]%elem_of_cons]%elem_of_cons; [|done]. by eapply Hq.
Qed.

Lemma same_disk_gated card root sid rel now content w e w' :
  w_disk w' = w_disk w -> gated_write card root sid rel now content w (Err e) w'.
Proof. intros E q _. by rewrite E. Qed.

(** An artifact reaches the workspace only by permission and only where it
    should: [import_artifact_to_workspace] writes a path under the agent's
    workspace only after the policy answered ALLOW to WORKSPACE_WRITE for the
    session; the file then holds exactly the bytes the vault returned (whose
    digest it checked) and every other file is as before; when anything fails,
    disk errors included, every file but the temporary one is as before. *)
Theorem import_gated card sid artifact_id root rel now w r w' :
  import_artifact_to_workspace card sid artifact_id root rel now w = (r, w') ->
  gated_write card root sid rel now
    (fun w1 p b => load_artifact_bytes vault_key artifact_id (db (w_node w1)) = Ok b) w r w'.
Proof.
  unfold import_artifact_to_workspace. unfold bind at 1, mlift at 1.
  destruct (validate_card_workspace card root) as [workspace|e] eqn:Ev; [|by intros [= <- <-]; apply same_disk_gated].
  unfold bind at 1, mlift at 1.
  destruct (resolve_safe_workspace_path workspace rel) as [p|e] eqn:Er; [|by intros [= <- <-]; apply same_disk_gated].
  unfold bind at 1. destruct (require_workspace_write card sid rel now w) as [[[]|e] w1] eqn:Eq;
    apply require_run in Eq as [Hd Ha]; [|by intros [= <- <-]; apply same_disk_gated].
  unfold bind at 1, mgets. unfold bind at 1, mlift at 1.
  destruct (load_artifact_bytes _ _ _) as [b|e] eqn:El; [|by intros [= <- <-]; apply same_disk_gated].
  apply (write_end _ _ _ _ _ _ _ workspace); [done..|by apply Ha|done|]. intros w2 E. by rewrite E.
Qed.

(** The same for patches: [apply_patch_to_workspace] writes only under the
    workspace and only after ALLOW; the file then holds the UTF-8 text that
    applying the stored patch to the file's text gave, and nothing else
    changed; on any failure the file is as before. *)
Theorem patch_gated card sid artifact_id root rel now w r w' :
  apply_patch_to_workspace card sid artifact_id root rel now w = (r, w') ->
  gated_write card root sid rel now
    (fun _ p b => exists original raw patch_text patched shown n,
       read_text p (w_disk w) = Ok original /\
       load_artifact_bytes vault_key artifact_id (db (w_node w)) = Ok raw /\
       utf8_decode raw = Some patch_text /\
       apply_unified_patch unified_diff original patch_text = Ok (patched, shown, n) /\
       b = utf8_encode patched) w r w'.
Proof.
  unfold apply_patch_to_workspace. unfold bind at 1, mlift at 1.
  destruct (validate_card_workspace card root) as [workspace|e] eqn:Ev; [|by intros [= <- <-]; apply same_disk_gated].
  unfold bind at 1, mgets at 1. unfold bind at 1, mlift at 1.
  destruct (preview_patch_apply artifact_id workspace rel w) as [pre|e] eqn:Ep;
    [|by intros [= <- <-]; apply same_disk_gated].
  unfold bind at 1. destruct (require_workspace_write card sid rel now w) as [[[]|e] w1] eqn:Eq;
    apply require_run in Eq as [Hd Ha]; [|by intros [= <- <-]; apply same_disk_gated].
  unfold bind at 1, mlift at 1.
  destruct (resolve_safe_workspace_path workspace rel) as [p|e] eqn:Er; [|by intros [= <- <-]; apply same_disk_gated].
  apply (write_end _ _ _ _ _ _ _ workspace); [done..|by apply Ha|done|]. intros w2 _.
  unfold preview_patch_apply in Ep. rewrite Er in Ep. cbn [rbind] in Ep.
  destruct (get_artifact_metadata _ _) as [meta|e]; [|done]. cbn [rbind] in Ep.
  destruct (load_artifact_bytes _ _ _) as [raw|e] eqn:El; [|done]. cbn [rbind] in Ep.
  destruct (utf8_decode raw) as [text|] eqn:Eu; [|done]. destruct (_ && _); [done|].
  apply rbind_Ok in Ep as (original & Ho & Ep). apply rbind_Ok in Ep as ([[patched shown] n] & Hp & [= <-]).
  exists original, raw, text, patched, shown, n. by split_and!.
Qed.
End workspace.

Module WorkspaceDemo.
Import AuditDemo PolicyDemo ApprovalDemo.
#[local] Existing Instances demo_env demo_latest.

(** A disk without links: parent segments are removed. *)
Definition normal (p : path) : path :=
  fold_left (fun acc s => if String.eqb s ".." then removelast acc else acc ++ [s]) p [].

Definition worker : AgentCard :=
  {| card_id := "b1"; card_name := "Bot"; card_description := "d";
     adapter := LocalCommandAdapterConfig "run" "/work";
     capabilities := capabilities writer_card; boundaries := boundaries writer_card;
     autonomy := autonomy writer_card; presentation := None |}.

Definition patch : string := PatchDemo.text ["@@ -1 +1 @@"; "-one"; "+ONE"].
Definition stored : artifact_row :=
  {| ar_id := "art-1"; ar_session := "s1"; ar_sha256 := sha256_hex patch; ar_mime := "text/x-diff";
     ar_bytes := seal "key" "0123456789ab" patch; ar_metadata := None; ar_offered_by := "alice";
     ar_created_at := now0 |}.

Definition node_with (d : option string) : node :=
  let t := set_artifacts (fun _ => [stored]) (db (with_row "active" d)) in
  {| db := t; committed := t; tick := 0 |}.

Definition file : path := ["work"; "f"].
Definition start (d : option string) (content : string) : world :=
  {| w_node := node_with d;
     w_disk := {| files := {[ file := content ]}; dirs := {[ []; ["work"] ]}; disk_ops := 0 |} |}.

Definition healthy (n : nat) : option nat := None.
(** The third operation fails. *)
Definition failing (k : nat) (n : nat) : option nat := if Nat.eqb n k then Some 1 else None.

Definition apply_patch (fault : nat -> option nat) (rel : string) (w : world) : result string path * world :=
  apply_patch_to_workspace "key" normal [] fault "7" PatchDemo.no_diff worker "s1" "art-1" None rel now0 w.
Definition import (fault : nat -> option nat) (rel : string) (w : world) : result string path * world :=
  import_artifact_to_workspace "key" normal [] fault "7" worker "s1" "art-1" None rel now0 w.

Definition approved : world := start (Some "approve_once") (PatchDemo.text ["one"; "two"]).

Lemma patch_written :
  (apply_patch healthy "f" approved).1 = Ok file /\
  files (w_disk (apply_patch healthy "f" approved).2) !! file = Some (PatchDemo.text ["ONE"; "two"]).
Proof. vm_compute. split; reflexivity. Qed.

Lemma patch_gated_witness :
  exists b, files (w_disk (apply_patch healthy "f" approved).2) !! file = Some b /\
    write_allowed worker "s1" "f" now0 approved (apply_patch healthy "f" approved).2.
Proof.
  pose proof (@patch_gated demo_env demo_latest "key" normal [] healthy "7" PatchDemo.no_diff worker "s1" "art-1"
    None "f" now0 approved (Ok file) (apply_patch healthy "f" approved).2) as H.
  destruct H as (ws & b & _ & _ & Ha & _ & Hb & _).
  - transitivity (apply_patch healthy "f" approved); [reflexivity|].
    rewrite <- (proj1 patch_written). apply surjective_pairing.
  - exists b. split; [exact Hb|exact Ha].
Defined.

Lemma import_written : (import healthy "sub/g" approved).1 = Ok ["work"; "sub"; "g"].
Proof. vm_compute. reflexivity. Qed.

Lemma import_gated_witness :
  exists b, files (w_disk (import healthy "sub/g" approved).2) !! ["work"; "sub"; "g"] = Some b /\
    sha256_hex b = sha256_hex patch.
Proof.
  pose proof (@import_gated demo_env demo_latest "key" normal [] healthy "7" worker "s1" "art-1"
    None "sub/g" now0 approved (Ok ["work"; "sub"; "g"]) (import healthy "sub/g" approved).2) as H.
  destruct H as (ws & b & _ & _ & _ & Hl & Hb & _).
  - transitivity (import healthy "sub/g" approved); [reflexivity|].
    rewrite <- import_written. apply surjective_pairing.
  - exists b. split; [exact Hb|]. apply load_digest in Hl as (r & Hf & ->).
    vm_compute in Hf. injection Hf as <-. reflexivity.
Defined.

(** A failing write leaves the file, and the temporary file is removed. *)
Example failing_write_harmless :
  let w := (apply_patch (failing 1) "f" approved).2 in
  (apply_patch (failing 1) "f" approved).1 = Err "OSError" /\ files (w_disk w) = files (w_disk approved).
Proof. vm_compute. split; reflexivity. Qed.

(** Without a decision nothing is written. *)
Example unapproved_denied :
  (apply_patch healthy "f" (start (Some "deny") (PatchDemo.text ["one"]))).1
  = Err "WorkspaceWritePermissionDeniedError".
Proof. vm_compute. reflexivity. Qed.

Example traversal_refused :
  map (fun rel => (import healthy rel approved).1) ["../x"; "a/../../x"; "/etc/passwd"; "C:\x"; "\\srv"; " "]
  = repeat (Err UnsafePath) 6.
Proof. vm_compute. reflexivity. Qed.

(** The path [.] is accepted: the temporary file is written next to the
    workspace, and stays there when it cannot be removed. *)
Example dot_writes_outside :
  let w := (import (failing 3) "." approved).2 in
  (import (failing 3) "." approved).1 = Err "IsADirectoryError" /\
  files (w_disk w) !! [".tmp_work_7"] = Some patch.
Proof. vm_compute. split; reflexivity. Qed.

(** Every carriage return of the file is lost, not only those of the patched
    lines. *)
Example carriage_returns_lost :
  let crlf := String "013" (String "010" "") in
  files (w_disk (apply_patch healthy "f" (start (Some "approve_once") ("one" +:+ crlf +:+ "two" +:+ crlf))).2) !! file
  = Some (PatchDemo.text ["ONE"; "two"]).
Proof. vm_compute. reflexivity. Qed.
End WorkspaceDemo.
