(* ===== verification/Preview.v ===== *)
(** * Artifact previews

    [kin/artifacts/preview.py]: what an owner is shown of an artifact before
    deciding on it.  The reader and writer of [csv] (default dialect) and
    [json.dumps(.., indent=2)] are defined here. *)

From Stdlib Require Import Ascii String ZArith QArith Lia.
From stdpp Require Import base sets list strings.
From S2P Require Import Prelude Codec PyValue Store SessionStore ArtifactVault Patch Workspace.

#[local] Open Scope nat_scope.

(** ** [json.dumps(v, indent=2)] *)

Fixpoint spaces (n : nat) : string := match n with 0 => "" | S n' => String " " (spaces n') end.

(** A bracketed block of items, one per line. *)
Definition block (open_ close_ : string) (level : nat) (items : list string) : string :=
  match items with
  | [] => open_ +:+ close_
  | _ => open_ +:+ newline +:+ spaces (2 * S level)
         +:+ String.concat ("," +:+ newline +:+ spaces (2 * S level)) items
         +:+ newline +:+ spaces (2 * level) +:+ close_
  end.

Fixpoint json_dumps_indent (level : nat) (v : json) : string :=
  match v with
  | JList l => block "[" "]" level (map (json_dumps_indent (S level)) l)
  | JObj kvs => block "{" "}" level
      (map (fun kv => quote dumps_default kv.1 +:+ ": " +:+ json_dumps_indent (S level) kv.2) kvs)
  | _ => json_dumps dumps_default v
  end.

(** ** [csv.reader] *)

Inductive csv_state := START_RECORD | START_FIELD | IN_FIELD | IN_QUOTED_FIELD | QUOTE_IN_QUOTED_FIELD | EAT_CRNL.

(** The fields read so far and the open one. *)
Record csv_reader := { cr_state : csv_state; cr_fields : list string; cr_field : string }.

Definition csv_start : csv_reader := {| cr_state := START_RECORD; cr_fields := []; cr_field := "" |}.

Definition at_state (r : csv_reader) (st : csv_state) : csv_reader :=
  {| cr_state := st; cr_fields := cr_fields r; cr_field := cr_field r |}.
Definition save_field (r : csv_reader) (st : csv_state) : csv_reader :=
  {| cr_state := st; cr_fields := cr_fields r ++ [cr_field r]; cr_field := "" |}.
(** [field larger than field limit (131072)]. *)
Definition add_char (c : ascii) (r : csv_reader) (st : csv_state) : option csv_reader :=
  if (131072 <=? Z.of_nat (String.length (cr_field r)))%Z then None
  else Some {| cr_state := st; cr_fields := cr_fields r; cr_field := cr_field r +:+ String c "" |}.

Definition is_newline (c : ascii) : bool := Ascii.eqb c "010" || Ascii.eqb c "013".

(** One character; [None] is the end of the line.  The result is [None] where
    the reader raises. *)
Definition csv_char (c : option ascii) (r : csv_reader) : option csv_reader :=
  let start_field :=
    match c with
    | None => Some (save_field r START_RECORD)
    | Some c =>
        if is_newline c then Some (save_field r EAT_CRNL)
        else if Ascii.eqb c "034" then Some (at_state r IN_QUOTED_FIELD)
        else if Ascii.eqb c "," then Some (save_field r START_FIELD)
        else add_char c r IN_FIELD
    end in
  match cr_state r with
  | START_RECORD =>
      match c with
      | None => Some r
      | Some c' => if is_newline c' then Some (at_state r EAT_CRNL) else start_field
      end
  | START_FIELD => start_field
  | IN_FIELD =>
      match c with
      | None => Some (save_field r START_RECORD)
      | Some c =>
          if is_newline c then Some (save_field r EAT_CRNL)
          else if Ascii.eqb c "," then Some (save_field r START_FIELD)
          else add_char c r IN_FIELD
      end
  | IN_QUOTED_FIELD =>
      match c with
      | None => Some r
      | Some c => if Ascii.eqb c "034" then Some (at_state r QUOTE_IN_QUOTED_FIELD)
                  else add_char c r IN_QUOTED_FIELD
      end
  | QUOTE_IN_QUOTED_FIELD =>
      match c with
      | None => Some (save_field r START_RECORD)
      | Some c =>
          if Ascii.eqb c "034" then add_char c r IN_QUOTED_FIELD
          else if Ascii.eqb c "," then Some (save_field r START_FIELD)
          else if is_newline c then Some (save_field r EAT_CRNL)
          else add_char c r IN_FIELD
      end
  | EAT_CRNL =>
      match c with
      | None => Some (at_state r START_RECORD)
      | Some c => if is_newline c then Some r else None
      end
  end.

Fixpoint csv_line (line : string) (r : csv_reader) : option csv_reader :=
  match line with
  | "" => csv_char None r
  | String c rest => match csv_char (Some c) r with Some r' => csv_line rest r' | None => None end
  end.

(** The lines of [io.StringIO(text)], with their line feeds. *)
Fixpoint text_lines (s : string) : list string :=
  match s with
  | "" => []
  | String c s' =>
      if Ascii.eqb c "010" then String c "" :: text_lines s'
      else match text_lines s' with
           | [] => [String c ""]
           | w :: ws => String c w :: ws
           end
  end.

(** All records; at the end of the text an open record is returned when its
    last field is not empty or is quoted. *)
Fixpoint csv_records (lines : list string) (r : csv_reader) : option (list (list string)) :=
  match lines with
  | [] => match cr_state r with
          | START_RECORD => Some []
          | IN_QUOTED_FIELD => Some [cr_fields r ++ [cr_field r]]
          | _ => if truthy (cr_field r) then Some [cr_fields r ++ [cr_field r]] else Some []
          end
  | line :: rest =>
      match csv_line line r with
      | None => None
      | Some r' => match cr_state r' with
                   | START_RECORD => match csv_records rest csv_start with
                                     | Some recs => Some (cr_fields r' :: recs)
                                     | None => None
                                     end
                   | _ => csv_records rest r'
                   end
      end
  end.

Definition csv_read (text : string) : option (list (list string)) := csv_records (text_lines text) csv_start.

(** ** [csv.writer] *)

Definition needs_quotes (f : string) : bool :=
  str_exists (fun c => Ascii.eqb c "," || Ascii.eqb c "034" || is_newline c) f.

Fixpoint double_quotes (f : string) : string :=
  match f with
  | "" => ""
  | String c f' => if Ascii.eqb c "034" then String c (String c (double_quotes f')) else String c (double_quotes f')
  end.

Definition quoted_field (f : string) : string := String "034" (double_quotes f +:+ String "034" "").
Definition csv_field (f : string) : string := if needs_quotes f then quoted_field f else f.

Definition crlf : string := String "013" newline.

(** A row with one empty field is written quoted. *)
Definition csv_row (row : list string) : string :=
  match row with
  | [""] => quoted_field "" +:+ crlf
  | _ => String.concat "," (map csv_field row) +:+ crlf
  end.

Definition csv_write (rows : list (list string)) : string := String.concat "" (map csv_row rows).

(** ** Previews *)

Inductive preview_kind := PText | PMarkdown | PJson | PCsv | PDiff | PMetadataOnly.

Record ArtifactPreview := {
  pv_kind : preview_kind;
  pv_content : option string;
  pv_truncated : bool;
  pv_total_size_bytes : Z;
  pv_rows_shown : option Z;
  pv_total_rows_estimate : option Z
}.

Definition DEFAULT_MAX_PREVIEW_CHARS : Z := 8000.
Definition DEFAULT_MAX_CSV_ROWS : Z := 50.

Definition ARCHIVE_MIME_TYPES : list string :=
  ["application/zip"; "application/x-zip-compressed"; "application/x-tar"; "application/tar";
   "application/gzip"; "application/x-gzip"; "application/x-7z-compressed";
   "application/x-rar-compressed"; "application/rar"; "application/x-bzip2"; "application/x-compress"].

(** [text[:n]]. *)
Definition first_chars (n : Z) (s : string) : string :=
  if (n <? 0)%Z then str_take (Z.to_nat (Z.of_nat (String.length s) + n)) s else str_take (Z.to_nat n) s.

Section preview.
Context `{NodeEnv} (vault_key : bytes).

Definition no_content (size : Z) : ArtifactPreview :=
  {| pv_kind := PMetadataOnly; pv_content := None; pv_truncated := false; pv_total_size_bytes := size;
     pv_rows_shown := None; pv_total_rows_estimate := None |}.

(** A text cut at the limit. *)
Definition bounded (kind : preview_kind) (max_chars size : Z) (text : string) : ArtifactPreview :=
  {| pv_kind := kind; pv_content := Some (first_chars max_chars text);
     pv_truncated := (max_chars <? Z.of_nat (String.length text))%Z; pv_total_size_bytes := size;
     pv_rows_shown := None; pv_total_rows_estimate := None |}.

(** The first [max_rows] records, written again. *)
Definition csv_preview (max_chars max_rows size : Z) (text : string) : option ArtifactPreview :=
  match csv_read text with
  | None => None
  | Some records =>
      let rows := take (Z.to_nat max_rows) records in
      let formatted := csv_write rows in
      let count := Z.of_nat (length records) in
      Some {| pv_kind := PCsv; pv_content := Some (first_chars max_chars formatted);
              pv_truncated := (max_rows <? count)%Z || (max_chars <? Z.of_nat (String.length formatted))%Z;
              pv_total_size_bytes := size; pv_rows_shown := Some (Z.of_nat (length rows));
              pv_total_rows_estimate := Some count |}
  end.

(** The kinds below the diff check, in the order of the code. *)
Definition text_preview (mime text : string) (max_chars max_rows size : Z) : ArtifactPreview :=
  let markdown_or_text :=
    if str_in mime ["text/markdown"; "text/x-markdown"] || endswith "+markdown" mime
    then bounded PMarkdown max_chars size text else bounded PText max_chars size text in
  let csv_or_less :=
    if str_in mime ["text/csv"; "application/csv"] || endswith "+csv" mime
    then match csv_preview max_chars max_rows size text with Some p => p | None => markdown_or_text end
    else markdown_or_text in
  if contains "json" mime
  then match json_loads text with
       | Some v => bounded PJson max_chars size (json_dumps_indent 0 v)
       | None => csv_or_less
       end
  else csv_or_less.

(** [(metadata.preview_policy or "").strip().lower()]; a stored policy that
    is no text has no [strip]. *)
Definition policy_text (policy : json) : result string string :=
  if json_truthy policy
  then match policy with JStr s => Ok (lower (strip s)) | _ => Err "AttributeError" end
  else Ok "".

Definition generate_preview (meta : ArtifactMetadata) (raw : bytes) (max_chars max_rows : Z)
  : result string ArtifactPreview :=
  let size := Z.of_nat (String.length raw) in
  let? policy := policy_text (md_preview_policy meta) in
  if String.eqb policy "deny" then Ok (no_content size)
  else
    let mime := lower (strip (md_mime_type meta)) in
    if str_in mime ARCHIVE_MIME_TYPES then Ok (no_content size)
    else
      match utf8_decode raw with
      | None => Ok (no_content size)
      | Some text =>
          Ok (if patch_mime (md_mime_type meta) || is_diff_content text
              then bounded PDiff max_chars size text
              else text_preview mime text max_chars max_rows size)
      end.

Definition get_artifact_preview (artifact_id : string) (max_chars max_rows : Z) (t : tables)
  : result string ArtifactPreview :=
  let? meta := get_artifact_metadata artifact_id t in
  let? raw := load_artifact_bytes vault_key artifact_id t in
  generate_preview meta raw max_chars max_rows.
End preview.

(** ** What a preview discloses *)

Lemma first_chars_length n s : (0 <= n)%Z -> (Z.of_nat (String.length (first_chars n s)) <= n)%Z.
Proof.
  intros Hn. unfold first_chars. replace (n <? 0)%Z with false by (symmetry; by apply Z.ltb_ge).
  assert (Hl : forall k x, String.length (str_take k x) <= k).
  { intros k. induction k as [|k IH]; intros x; [by destruct x|]. destruct x; cbn; [lia|]. specialize (IH x). lia. }
  specialize (Hl (Z.to_nat n) s). lia.
Qed.

Lemma first_chars_all n s : (Z.of_nat (String.length s) <= n)%Z -> first_chars n s = s.
Proof.
  intros Hn. unfold first_chars. replace (n <? 0)%Z with false by (symmetry; apply Z.ltb_ge; lia).
  assert (Hl : forall k x, String.length x <= k -> str_take k x = x).
  { intros k. induction k as [|k IH]; intros [|c x]; cbn; [done|lia|done|]. intros Hx. rewrite IH; [done|lia]. }
  apply Hl. lia.
Qed.

(** The artifact must not be shown: its policy denies it, it is an archive,
    or it is no text. *)
Definition not_shown (meta : ArtifactMetadata) (raw : bytes) : Prop :=
  policy_text (md_preview_policy meta) = Ok "deny" \/
  lower (strip (md_mime_type meta)) ∈ ARCHIVE_MIME_TYPES \/ utf8_decode raw = None.

Definition within (max_chars max_rows size : Z) (p : ArtifactPreview) : Prop :=
  (exists c, pv_content p = Some c /\ (Z.of_nat (String.length c) <= max_chars)%Z) /\
  pv_total_size_bytes p = size /\
  (forall n, pv_rows_shown p = Some n -> (n <= max_rows)%Z).

Definition shows_all (text : string) (p : ArtifactPreview) : Prop :=
  match pv_kind p with
  | PJson | PCsv => True
  | _ => pv_truncated p = false -> pv_content p = Some text
  end.

Lemma bounded_within kind max_chars max_rows size text :
  (0 <= max_chars)%Z -> within max_chars max_rows size (bounded kind max_chars size text).
Proof. intros Hm. split; [|by split]. eexists. split; [done|]. by apply first_chars_length. Qed.

Lemma bounded_shows kind max_chars size text : shows_all text (bounded kind max_chars size text).
Proof.
  unfold shows_all, bounded. cbn. destruct kind; try done; intros Ht%Z.ltb_ge; by rewrite first_chars_all.
Qed.

Section preview_props.
Context `{NodeEnv}.

Lemma csv_preview_within max_chars max_rows size text p :
  (0 <= max_chars)%Z -> (0 <= max_rows)%Z -> csv_preview max_chars max_rows size text = Some p ->
  within max_chars max_rows size p /\ shows_all text p.
Proof.
  intros Hc Hr. unfold csv_preview. destruct (csv_read text) as [recs|]; [|done]. intros [= <-].
  split; [|done]. split; [|split; [done|]].
  - eexists. split; [done|]. by apply first_chars_length.
  - intros n [= <-]. rewrite length_take. lia.
Qed.

Lemma text_preview_within mime text max_chars max_rows size :
  (0 <= max_chars)%Z -> (0 <= max_rows)%Z ->
  let p := text_preview mime text max_chars max_rows size in
  within max_chars max_rows size p /\ shows_all text p.
Proof.
  intros Hc Hr. unfold text_preview.
  assert (Hb : forall k x, within max_chars max_rows size (bounded k max_chars size x))
    by (intros; by apply bounded_within).
  assert (Hm : forall b : bool, let p := if b then bounded PMarkdown max_chars size text else bounded PText max_chars size text in
    within max_chars max_rows size p /\ shows_all text p)
    by (intros [|]; (split; [apply Hb|apply bounded_shows])).
  assert (Hcsv : forall b m : bool,
    let p := if b then match csv_preview max_chars max_rows size text with Some p => p | None =>
                if m then bounded PMarkdown max_chars size text else bounded PText max_chars size text end
             else if m then bounded PMarkdown max_chars size text else bounded PText max_chars size text in
    within max_chars max_rows size p /\ shows_all text p).
  { intros [|] m; [|apply Hm]. destruct (csv_preview _ _ _ _) as [p|] eqn:E; [|apply Hm].
    by apply csv_preview_within in E. }
  destruct (contains _ _); [|apply Hcsv]. destruct (json_loads text) as [v|]; [|apply Hcsv].
  split; [apply Hb|done].
Qed.

(** A preview discloses no more than it may: it has content exactly when
    the artifact's policy does not deny it, it is no archive and it is UTF-8
    text; the content never exceeds the character limit and a table never the
    row limit; and a text, patch or markdown preview that is not marked
    truncated is the whole text. *)
Theorem preview_disclosure meta raw max_chars max_rows p :
  (0 <= max_chars)%Z -> (0 <= max_rows)%Z ->
  generate_preview meta raw max_chars max_rows = Ok p ->
  (pv_content p = None <-> not_shown meta raw) /\
  (forall c, pv_content p = Some c -> (Z.of_nat (String.length c) <= max_chars)%Z) /\
  pv_total_size_bytes p = Z.of_nat (String.length raw) /\
  (forall n, pv_rows_shown p = Some n -> (n <= max_rows)%Z) /\
  (forall text, utf8_decode raw = Some text -> pv_content p <> None -> shows_all text p).
Proof.
  intros Hc Hr. unfold generate_preview, not_shown.
  destruct (policy_text (md_preview_policy meta)) as [policy|e] eqn:Ep; [|done]. cbn [rbind].
  destruct (String.eqb policy "deny") eqn:Ed.
  { apply String.eqb_eq in Ed as ->. intros [= <-]. split_and!; try done. split; [by left|done]. }
  assert (Hd : Ok (E := string) policy <> Ok "deny") by (intros [= ->]; by rewrite String.eqb_refl in Ed).
  destruct (str_in _ ARCHIVE_MIME_TYPES) eqn:Ea.
  { apply str_in_spec in Ea. intros [= <-]. split_and!; try done. split; [by right; left|done]. }
  assert (Ha : lower (strip (md_mime_type meta)) ∉ ARCHIVE_MIME_TYPES).
  { intros Hin%str_in_spec. by rewrite Hin in Ea. }
  destruct (utf8_decode raw) as [text|] eqn:Eu.
  2: { intros [= <-]. split_and!; try done. split; [by right; right|done]. }
  intros [= <-].
  set (q := if _ || _ then _ else _).
  assert (Hq : within max_chars max_rows (Z.of_nat (String.length raw)) q /\ shows_all text q).
  { unfold q. destruct (_ || _); [|by apply text_preview_within]. split; [by apply bounded_within|apply bounded_shows]. }
  destruct Hq as [((c & Hcc & Hl) & Hs & Hn) Ht]. rewrite Hcc. split_and!; try done.
  - split; [done|]. by intros [?|[?|?]].
  - by intros c' [= <-].
  - by intros text' [= <-] _.
Qed.
End preview_props.

(** ** Tables read back *)

(** The state after a line, before the next ones. *)
Definition after_line (o : option csv_reader) (rest : list string) : option (list (list string)) :=
  match o with
  | None => None
  | Some r => match cr_state r with
              | START_RECORD => match csv_records rest csv_start with
                                | Some recs => Some (cr_fields r :: recs)
                                | None => None
                                end
              | _ => csv_records rest r
              end
  end.

(** Reading on in the middle of a line. *)
Definition read_on (s : string) (r : csv_reader) : option (list (list string)) :=
  match text_lines s with
  | [] => after_line (csv_char None r) []
  | w :: ws => after_line (csv_line w r) ws
  end.

Lemma text_lines_cons c s : exists w ws, text_lines (String c s) = w :: ws.
Proof. cbn. destruct (Ascii.eqb c _); [by eexists _, _|]. destruct (text_lines s); by eexists _, _. Qed.

Lemma records_read_on c s r : csv_records (text_lines (String c s)) r = read_on (String c s) r.
Proof. unfold read_on. destruct (text_lines_cons c s) as (w & ws & ->). reflexivity. Qed.

Lemma read_on_char c s r r' :
  Ascii.eqb c "010" = false -> csv_char (Some c) r = Some r' -> read_on (String c s) r = read_on s r'.
Proof.
  intros Hc Hr. unfold read_on. cbn [text_lines]. rewrite Hc.
  destruct (text_lines s) as [|w ws]; cbn [csv_line]; by rewrite Hr.
Qed.

Lemma read_on_feed s r r' :
  csv_char (Some "010"%char) r = Some r' ->
  read_on (String "010" s) r = after_line (csv_char None r') (text_lines s).
Proof. intros Hr. unfold read_on. cbn [text_lines Ascii.eqb Bool.eqb csv_line]. by rewrite Hr. Qed.

Definition with_field (st : csv_state) (fields : list string) (f : string) : csv_reader :=
  {| cr_state := st; cr_fields := fields; cr_field := f |}.

Definition fits (f : string) : Prop := (Z.of_nat (String.length f) <= 131072)%Z.

Lemma add_char_fits c st fields acc f :
  fits (acc +:+ String c f) -> add_char c (with_field st fields acc) st = Some (with_field st fields (acc +:+ String c "")).
Proof.
  unfold fits, add_char. rewrite str_length_app. cbn. intros Hl.
  by replace (131072 <=? Z.of_nat (String.length acc))%Z with false by (symmetry; apply Z.leb_gt; lia).
Qed.

Lemma app_char acc c f : (acc +:+ String c "") +:+ f = acc +:+ String c f.
Proof. by rewrite <- str_app_assoc. Qed.

(** Inside quotes every character belongs to the field. *)
Lemma read_quoted f t fields acc c0 :
  fits (acc +:+ f) ->
  read_on (double_quotes f +:+ String "034" (String c0 t)) (with_field IN_QUOTED_FIELD fields acc)
  = read_on (String c0 t) (with_field QUOTE_IN_QUOTED_FIELD fields (acc +:+ f)).
Proof.
  induction f as [|c f IH] in acc |- *; intros Hf.
  { cbn [double_quotes]. rewrite str_app_nil. rewrite str_app_nil_r. by apply read_on_char. }
  pose proof (add_char_fits c IN_QUOTED_FIELD fields acc f Hf) as Ha.
  assert (Hf' : fits ((acc +:+ String c "") +:+ f)) by (by rewrite app_char).
  specialize (IH _ Hf'). rewrite app_char in IH. cbn [double_quotes]. destruct (Ascii.eqb c "034") eqn:Eq.
  - apply Ascii.eqb_eq in Eq as ->. rewrite !str_app_cons.
    rewrite (read_on_char _ _ _ (with_field QUOTE_IN_QUOTED_FIELD fields acc)) by done.
    rewrite (read_on_char _ _ _ (with_field IN_QUOTED_FIELD fields (acc +:+ String "034" ""))); [exact IH|done|].
    cbn. exact Ha.
  - rewrite str_app_cons.
    assert (Hs : csv_char (Some c) (with_field IN_QUOTED_FIELD fields acc) = Some (with_field IN_QUOTED_FIELD fields (acc +:+ String c "")))
      by (cbn [csv_char with_field cr_state]; rewrite Eq; exact Ha).
    destruct (Ascii.eqb c "010") eqn:En; [|by rewrite (read_on_char _ _ _ _ En Hs)].
    apply Ascii.eqb_eq in En as ->. rewrite (read_on_feed _ _ _ Hs). cbn [csv_char with_field cr_state after_line].
    rewrite <- IH. destruct (double_quotes f) as [|d g]; [rewrite str_app_nil|rewrite str_app_cons]; apply records_read_on.
Qed.

(** Characters of a field that needs no quotes. *)
Lemma read_plain f t fields acc :
  needs_quotes f = false -> fits (acc +:+ f) ->
  read_on (f +:+ t) (with_field IN_FIELD fields acc) = read_on t (with_field IN_FIELD fields (acc +:+ f)).
Proof.
  induction f as [|c f IH] in acc |- *; intros Hq Hf; [by rewrite str_app_nil, str_app_nil_r|].
  unfold needs_quotes in Hq. cbn [str_exists] in Hq. apply orb_false_iff in Hq as [Hc Hq].
  apply orb_false_iff in Hc as [Hc Hn]. apply orb_false_iff in Hc as [H1 H2].
  pose proof (add_char_fits c IN_FIELD fields acc f Hf) as Ha. rewrite str_app_cons.
  rewrite (read_on_char c _ _ (with_field IN_FIELD fields (acc +:+ String c ""))).
  - rewrite IH; [by rewrite app_char|done|by rewrite app_char].
  - by apply orb_false_iff in Hn as [? _].
  - cbn [csv_char with_field cr_state]. by rewrite Hn, H1.
Qed.

(** The two states a written field ends in. *)
Definition ended (fields : list string) (f : string) (r : csv_reader) : Prop :=
  r = with_field IN_FIELD fields f \/ r = with_field QUOTE_IN_QUOTED_FIELD fields f \/
  r = with_field START_FIELD fields f.

Definition opening (fields : list string) (r : csv_reader) : Prop :=
  r = with_field START_FIELD fields "" \/ (r = csv_start /\ fields = []).

Lemma opening_char fields r c :
  opening fields r -> is_newline c = false ->
  csv_char (Some c) r =
  if Ascii.eqb c "034" then Some (with_field IN_QUOTED_FIELD fields "")
  else if Ascii.eqb c "," then Some (with_field START_FIELD (fields ++ [""]) "")
  else Some (with_field IN_FIELD fields (String c "")).
Proof. intros [-> | [-> ->]] Hn; cbn [csv_char with_field csv_start cr_state]; by rewrite Hn. Qed.

Lemma read_field f c0 t fields r :
  opening fields r -> fits f -> (f <> "" \/ r = with_field START_FIELD fields "") ->
  exists r', ended fields f r' /\
    read_on (csv_field f +:+ String c0 t) r = read_on (String c0 t) r'.
Proof.
  intros Ho Hf Hne. unfold csv_field, quoted_field. destruct (needs_quotes f) eqn:Eq.
  - exists (with_field QUOTE_IN_QUOTED_FIELD fields f). split; [by right; left|]. rewrite str_app_cons.
    rewrite (read_on_char _ _ _ (with_field IN_QUOTED_FIELD fields "")) by (done || by rewrite (opening_char _ _ _ Ho)).
    rewrite <- str_app_assoc, str_app_cons, str_app_nil. by rewrite (read_quoted f t fields "" c0).
  - destruct f as [|c f].
    { destruct Hne as [? | ->]; [done|]. eexists. split; [right; right; reflexivity|done]. }
    exists (with_field IN_FIELD fields (String c f)). split; [by left|]. pose proof Eq as Eq0.
    unfold needs_quotes in Eq. cbn [str_exists] in Eq. apply orb_false_iff in Eq as [Hc Hq].
    apply orb_false_iff in Hc as [Hc Hn]. apply orb_false_iff in Hc as [H1 H2]. rewrite str_app_cons.
    rewrite (read_on_char c _ _ (with_field IN_FIELD fields (String c ""))).
    + rewrite (read_plain f _ fields (String c "")); [done|done|exact Hf].
    + by apply orb_false_iff in Hn as [? _].
    + by rewrite (opening_char _ _ _ Ho Hn), H2, H1.
Qed.

Lemma ended_comma fields f r t :
  ended fields f r -> read_on (String "," t) r = read_on t (with_field START_FIELD (fields ++ [f]) "").
Proof. intros [->|[->| ->]]; by apply read_on_char. Qed.

Lemma ended_crlf fields f r t :
  ended fields f r ->
  read_on (crlf +:+ t) r = match csv_records (text_lines t) csv_start with
                           | Some recs => Some ((fields ++ [f]) :: recs)
                           | None => None
                           end.
Proof.
  intros Hr. unfold crlf. rewrite str_app_cons.
  rewrite (read_on_char _ _ _ (with_field EAT_CRNL (fields ++ [f]) "")) by (done || by destruct Hr as [->|[->| ->]]).
  unfold newline. rewrite str_app_cons, str_app_nil.
  rewrite (read_on_feed _ _ (with_field EAT_CRNL (fields ++ [f]) "")) by done. reflexivity.
Qed.

Lemma read_fields row f t fields r :
  opening fields r -> Forall fits (f :: row) -> (f <> "" \/ r = with_field START_FIELD fields "" \/ row <> []) ->
  read_on (String.concat "," (map csv_field (f :: row)) +:+ crlf +:+ t) r
  = match csv_records (text_lines t) csv_start with
    | Some recs => Some ((fields ++ f :: row) :: recs)
    | None => None
    end.
Proof.
  induction row as [|g row IH] in f, fields, r |- *; intros Ho Hf Hne.
  - apply Forall_cons in Hf as [Hf _]. cbn [map String.concat]. unfold crlf at 1. rewrite str_app_cons.
    destruct (read_field f "013" (newline +:+ t) fields r Ho Hf) as (r' & He & ->).
    { destruct Hne as [?|[?|?]]; [by left|by right|done]. }
    apply (ended_crlf _ _ _ t He).
  - apply Forall_cons in Hf as [Hf Hrow].
    change (String.concat "," (map csv_field (f :: g :: row)))
      with (csv_field f +:+ "," +:+ String.concat "," (map csv_field (g :: row))).
    rewrite <- !str_app_assoc. set (rest := String.concat "," (map csv_field (g :: row)) +:+ crlf +:+ t).
    change ("," +:+ rest) with (String "," rest).
    assert (Hstep : read_on (csv_field f +:+ String "," rest) r
      = read_on rest (with_field START_FIELD (fields ++ [f]) "")).
    { destruct (decide (f = "")) as [->|Hn].
      - destruct Ho as [->|[-> ->]]; by apply read_on_char.
      - destruct (read_field f "," rest fields r Ho Hf (or_introl Hn)) as (r' & He & ->). exact (ended_comma fields f r' rest He). }
    rewrite Hstep. unfold rest. rewrite (IH g (fields ++ [f])); [|by left|done|by right; left].
    by rewrite <- app_assoc.
Qed.

(** What the writer prints for any rows, whatever quotes, commas and line
    breaks their fields hold, reads back as exactly these rows. *)
Theorem csv_roundtrip rows :
  Forall (Forall fits) rows -> csv_read (csv_write rows) = Some rows.
Proof.
  unfold csv_read, csv_write. induction 1 as [|row rows Hrow _ IH]; [done|].
  assert (Hcat : forall a l, String.concat "" (a :: l) = a +:+ String.concat "" l).
  { intros a l. destruct l; cbn; [by rewrite str_app_nil_r|done]. }
  cbn [map]. rewrite Hcat. set (t := String.concat "" (map csv_row rows)) in *. unfold csv_row.
  destruct row as [|f row].
  { unfold crlf. cbn [String.concat map]. rewrite str_app_nil, str_app_cons, records_read_on.
    rewrite (read_on_char _ _ _ (with_field EAT_CRNL [] "")) by done. unfold newline.
    rewrite str_app_cons, str_app_nil, (read_on_feed _ _ (with_field EAT_CRNL [] "")) by done.
    cbn [csv_char with_field cr_state after_line at_state cr_fields]. by rewrite IH. }
  destruct (decide (f = "" /\ row = [])) as [[-> ->]|Hne]; [|clear Hcat].
  { unfold quoted_field. cbn [double_quotes]. rewrite str_app_nil, <- str_app_assoc, !str_app_cons, records_read_on.
    rewrite (read_on_char _ _ _ (with_field IN_QUOTED_FIELD [] "")) by done.
    rewrite (read_on_char _ _ _ (with_field QUOTE_IN_QUOTED_FIELD [] "")) by done. rewrite str_app_nil.
    rewrite (ended_crlf [] "" _ t) by (by right; left). by rewrite IH. }
  assert (Hrowtext : match f, row with "", [] => quoted_field "" +:+ crlf
                     | _, _ => String.concat "," (map csv_field (f :: row)) +:+ crlf end
          = String.concat "," (map csv_field (f :: row)) +:+ crlf).
  { destruct f; [|done]. destruct row; [by destruct Hne|done]. }
  replace (match f with "" => _ | _ => _ end) with (String.concat "," (map csv_field (f :: row)) +:+ crlf)
    by (destruct f; [destruct row; [by destruct Hne|done]|done]).
  rewrite <- str_app_assoc. pose proof (read_fields row f t [] csv_start (or_intror (conj eq_refl eq_refl)) Hrow) as Hr.
  rewrite IH in Hr. cbn [app] in Hr. rewrite <- Hr by (destruct f; [|by left]; do 2 right; intros ->; by apply Hne).
  destruct (String.concat "," (map csv_field (f :: row))) as [|c s]; [|rewrite str_app_cons; apply records_read_on].
  rewrite str_app_nil. unfold crlf. rewrite str_app_cons. apply records_read_on.
Qed.

(** Every field the reader returns is within its limit. *)
Definition reader_fits (r : csv_reader) : Prop := Forall fits (cr_fields r) /\ fits (cr_field r).

Lemma start_fits : reader_fits csv_start.
Proof. split; [constructor|done]. Qed.

Lemma save_fits r st : reader_fits r -> reader_fits (save_field r st).
Proof. intros [Hf Hr]. split; [|done]. apply Forall_app_2; [done|by apply Forall_singleton]. Qed.

Lemma add_fits c r st r' : reader_fits r -> add_char c r st = Some r' -> reader_fits r'.
Proof.
  intros [Hf Hr]. unfold add_char. destruct (_ <=? _)%Z eqn:E; [done|]. apply Z.leb_gt in E. intros [= <-].
  split; [done|]. unfold fits. cbn. rewrite str_length_app. cbn. lia.
Qed.

Lemma char_fits c r r' : reader_fits r -> csv_char c r = Some r' -> reader_fits r'.
Proof.
  intros Hr. unfold csv_char. intros Hc.
  repeat (case_match; try done); simplify_eq; first [exact Hr | by apply save_fits | by eapply add_fits].
Qed.

Lemma line_fits line r r' : reader_fits r -> csv_line line r = Some r' -> reader_fits r'.
Proof.
  induction line as [|c line IH] in r |- *; cbn; intros Hr; [by apply char_fits|].
  destruct (csv_char (Some c) r) as [r1|] eqn:E; [|done]. apply IH. by eapply char_fits.
Qed.

Lemma records_fit lines r recs :
  reader_fits r -> csv_records lines r = Some recs -> Forall (Forall fits) recs.
Proof.
  induction lines as [|line lines IH] in r, recs |- *; cbn; intros Hr.
  - assert (Hs : Forall (Forall fits) [cr_fields r ++ [cr_field r]]).
    { apply Forall_singleton, Forall_app_2; [apply Hr|apply Forall_singleton, Hr]. }
    destruct (cr_state r); try (by intros [= <-]); destruct (truthy (cr_field r)); by intros [= <-].
  - destruct (csv_line line r) as [r1|] eqn:E; [|done]. pose proof (line_fits _ _ _ Hr E) as H1.
    destruct (cr_state r1); try by apply IH.
    destruct (csv_records lines csv_start) as [l|] eqn:El; [|done]. intros [= <-].
    constructor; [apply H1|]. eapply IH; [apply start_fits|exact El].
Qed.

(** The table shown is the table stored: when the preview of a CSV
    artifact is not marked truncated, its content reads back, quotes, commas
    and line breaks inside fields included, as exactly the records of the
    artifact, and the row counts are theirs. *)
Theorem csv_preview_faithful max_chars max_rows size text p :
  csv_preview max_chars max_rows size text = Some p -> pv_truncated p = false ->
  exists records content,
    csv_read text = Some records /\ pv_content p = Some content /\ csv_read content = Some records /\
    pv_rows_shown p = Some (Z.of_nat (length records)) /\
    pv_total_rows_estimate p = Some (Z.of_nat (length records)).
Proof.
  unfold csv_preview. destruct (csv_read text) as [records|] eqn:Er; [|done]. intros [= <-]. cbn.
  intros [Hr%Z.ltb_ge Hc%Z.ltb_ge]%orb_false_iff. rewrite take_ge in * by lia.
  exists records, (csv_write records). rewrite first_chars_all by done. split_and!; try done.
  apply csv_roundtrip. eapply records_fit; [apply start_fits|exact Er].
Qed.

Module PreviewDemo.
Import AuditLog.AuditDemo.
#[local] Existing Instance demo_env.

Definition q : string := String "034" "".
(** A quoted field with a comma, a quote and a line break. *)
Definition table : string := "a," +:+ q +:+ "b," +:+ q +:+ q +:+ newline +:+ "c" +:+ q +:+ newline +:+ "d,e" +:+ newline.

Definition about (mime policy : string) : ArtifactMetadata :=
  {| md_artifact_id := "art-1"; md_session_id := "s1"; md_sha256 := ""; md_mime_type := mime;
     md_size_bytes := JInt 0; md_offered_by := "alice"; md_preview_policy := JStr policy;
     md_created_at := ""; md_source := JNull; md_relative_target_path := JNull |}.

Definition show (mime policy raw : string) (n : Z) : result string ArtifactPreview :=
  generate_preview (about mime policy) raw n 50.

Example denied : show "text/plain" " DENY " "secret" 8000 = Ok (no_content 6).
Proof. vm_compute. reflexivity. Qed.

Example cut : show "text/plain" "auto" "long text" 4 = Ok (bounded PText 4 9 "long text").
Proof. vm_compute. reflexivity. Qed.

Lemma preview_disclosure_witness :
  forall c, pv_content (bounded PText 4 9 "long text") = Some c -> (Z.of_nat (String.length c) <= 4)%Z.
Proof.
  refine (proj1 (proj2 (preview_disclosure (about "text/plain" "auto") "long text" 4 50 _ _ _ _))).
  - lia.
  - lia.
  - exact cut.
Defined.

Lemma table_shown :
  match csv_preview 8000 50 20 table with
  | Some p => pv_truncated p = false /\ pv_rows_shown p = Some 2%Z
  | None => False
  end.
Proof. vm_compute. split; reflexivity. Qed.

Lemma csv_preview_faithful_witness :
  exists p records, csv_preview 8000 50 20 table = Some p /\ csv_read table = Some records.
Proof.
  pose proof table_shown as Ht. destruct (csv_preview 8000 50 20 table) as [p|] eqn:E; [|exact (False_ind _ Ht)].
  destruct (csv_preview_faithful 8000 50 20 table p E (proj1 Ht)) as (records & c & Hr & _).
  exists p, records. split; [reflexivity|exact Hr].
Defined.
End PreviewDemo.
