(* ===== verification/Pantry.v ===== *)
(** * The context pantry

    [kin/context_pantry.py]: packs of context an owner keeps, and the reviewed
    pack that is put into a signed request.  Files are read through the
    parameter [read_file]; [datetime.fromisoformat] gives local microseconds
    and the offset, if the text has one. *)

From Stdlib Require Import Ascii String ZArith QArith Lia.
From stdpp Require Import base sets list strings.
From S2P Require Import Prelude Codec PyValue Schemas Cards Store AuditLog ArtifactVault History Ingest Workspace.

#[local] Open Scope nat_scope.

Definition MAX_CONTEXT_ITEM_BYTES : Z := 5 * 1024 * 1024.

Record PantryItemSpec := {
  it_kind : string;
  it_size_bytes : Z;
  it_classification : string;
  it_expiry : option string;
  it_item_id : string;
  it_content : option string;
  it_local_ref_id : option string;
  it_reviewed : bool
}.

Record StoredContextPack := {
  pack_id : string;
  pack_name : string;
  pack_items : list PantryItemSpec
}.

Definition PantryValidationError : string := "PantryValidationError".

(** [s.replace(a, b)]; [skip] counts the characters of a match still to be
    dropped. *)
Fixpoint replace_from (skip : nat) (a b s : string) : string :=
  match s with
  | "" => ""
  | String c s' =>
      match skip with
      | S k => replace_from k a b s'
      | 0 => if startswith a s then b +:+ replace_from (String.length a - 1) a b s'
             else String c (replace_from 0 a b s')
      end
  end.
Definition replace_text (a b s : string) : string := replace_from 0 a b s.

(** [uuid.uuid4().hex]. *)
Definition uuid_hex (u : string) : string := remove_dashes u.

Definition opt_json_str (o : option string) : json := match o with Some s => JStr s | None => JNull end.

Definition PantryItemSpec_dump (i : PantryItemSpec) : json :=
  JObj [("kind", JStr (it_kind i)); ("size_bytes", JInt (it_size_bytes i));
        ("classification", JStr (it_classification i)); ("expiry", opt_json_str (it_expiry i));
        ("item_id", JStr (it_item_id i)); ("content", opt_json_str (it_content i));
        ("local_ref_id", opt_json_str (it_local_ref_id i)); ("reviewed", JBool (it_reviewed i))].

Definition StoredContextPack_dump (p : StoredContextPack) : json :=
  JObj [("pack_id", JStr (pack_id p)); ("name", JStr (pack_name p));
        ("items", JList (map PantryItemSpec_dump (pack_items p)))].

(** A field that may be absent or null. *)
Definition default_opt_str (k : string) (d : document) : option (option string) :=
  match obj_get k d with
  | None => Some None
  | Some _ => field_opt_str k d
  end.

Section pantry.
Context `{NodeEnv} `{Clock} (vault_key : bytes).
Context (lax_int : json -> option Z) (lax_bool : json -> option bool).
Context (from_iso : string -> option (Z * option Z)).
Context (read_file : string -> option bytes).

Definition PantryItemSpec_validate (v : json) : option PantryItemSpec :=
  match v with
  | JObj d =>
      _ <- check (keys_within ["kind"; "size_bytes"; "classification"; "expiry"; "item_id"; "content";
                               "local_ref_id"; "reviewed"] d) ;;
      kind <- field_str "kind" d ;;
      raw_size <- obj_get "size_bytes" d ;;
      size <- lax_int raw_size ;;
      _ <- check (0 <=? size)%Z ;;
      classification <- field_str "classification" d ;;
      expiry <- default_opt_str "expiry" d ;;
      item_id <- field_str "item_id" d ;;
      content <- default_opt_str "content" d ;;
      ref <- default_opt_str "local_ref_id" d ;;
      reviewed <- lax_bool (default (JBool false) (obj_get "reviewed" d)) ;;
      Some {| it_kind := kind; it_size_bytes := size; it_classification := classification;
              it_expiry := expiry; it_item_id := item_id; it_content := content;
              it_local_ref_id := ref; it_reviewed := reviewed |}
  | _ => None
  end.

Fixpoint items_validate (l : list json) : option (list PantryItemSpec) :=
  match l with
  | [] => Some []
  | v :: l' => i <- PantryItemSpec_validate v ;; is_ <- items_validate l' ;; Some (i :: is_)
  end.

Definition StoredContextPack_validate (v : json) : option StoredContextPack :=
  match v with
  | JObj d =>
      _ <- check (keys_within ["pack_id"; "name"; "items"] d) ;;
      id <- field_str "pack_id" d ;;
      name <- field_str "name" d ;;
      raw <- obj_get "items" d ;;
      items <- match raw with JList l => items_validate l | _ => None end ;;
      Some {| pack_id := id; pack_name := name; pack_items := items |}
  | _ => None
  end.

(** [_parse_utc]. *)
Definition parse_expiry (value : string) : result string Z :=
  match from_iso (replace_text "Z" "+00:00" value) with
  | None => Err "ValueError"
  | Some (_, None) => Err PantryValidationError
  | Some (local, Some offset) => Ok (local - offset)%Z
  end.

Definition utc_text : N string :=
  let* t := draw utcnow in ret (replace_text "+00:00" "Z" t).

(** [register_local_reference]; [resolved] is the outcome of
    [path.expanduser().resolve(strict=True)], with the size of a file. *)
Definition register_local_reference (resolved : option (string * option Z)) (expires_at : option string)
  : N string :=
  match resolved with
  | None | Some (_, None) => mraise PantryValidationError
  | Some (path_text, Some size) =>
      let* u := draw uuid4 in
      let ref_id := "ctxref_" +:+ uuid_hex u in
      let* now := utc_text in
      let* enc := encrypt_field vault_key (Some path_text) in
      insert_checked (fun t => negb (existsb (fun r => String.eqb (pr_id r) ref_id) (pantry_refs t)))
        (set_pantry (fun l => l ++ [{| pr_id := ref_id; pr_path := default "" enc; pr_size := size;
                                       pr_expires_at := expires_at; pr_created_at := now |}])) ;;;
      commit ;;;
      ret ref_id
  end.

(** Every stored item is marked as not reviewed. *)
Definition unreviewed (i : PantryItemSpec) : PantryItemSpec :=
  {| it_kind := it_kind i; it_size_bytes := it_size_bytes i; it_classification := it_classification i;
     it_expiry := it_expiry i; it_item_id := it_item_id i; it_content := it_content i;
     it_local_ref_id := it_local_ref_id i; it_reviewed := false |}.

(** The specs of [create_context_pack]; an item without id draws one. *)
Fixpoint pack_specs (items : list PantryItemSpec) : N (list PantryItemSpec) :=
  match items with
  | [] => ret []
  | i :: rest =>
      let* id := if truthy (it_item_id i) then ret (it_item_id i)
                 else let* u := draw uuid4 in ret ("ctx_" +:+ uuid_hex u) in
      let* specs := pack_specs rest in
      ret ({| it_kind := it_kind i; it_size_bytes := it_size_bytes i;
              it_classification := it_classification i; it_expiry := it_expiry i; it_item_id := id;
              it_content := it_content i; it_local_ref_id := it_local_ref_id i;
              it_reviewed := false |} :: specs)
  end.

Definition create_context_pack (name : string) (items : list PantryItemSpec) : N StoredContextPack :=
  if existsb (fun i => (it_size_bytes i <? 0)%Z) items then mraise "ValidationError"
  else
    let* specs := pack_specs items in
    let* u := draw uuid4 in
    let pack := {| pack_id := "ctxpack_" +:+ uuid_hex u;
                   pack_name := (if truthy (strip name) then strip name else "Context pack");
                   pack_items := specs |} in
    let* now := utc_text in
    let* enc := encrypt_field vault_key (Some (model_json (StoredContextPack_dump pack))) in
    insert_checked (fun t => negb (existsb (fun r => String.eqb (cx_id r) (pack_id pack)) (context_packs t)))
      (set_packs (fun l => l ++ [{| cx_id := pack_id pack; cx_name := pack_name pack; cx_items := default "" enc;
                                    cx_created_at := now; cx_updated_at := now |}])) ;;;
    commit ;;;
    ret pack.

Definition find_pack (id : string) (t : tables) : option pack_row :=
  find_first (fun r => String.eqb (cx_id r) id) (context_packs t).

Definition attach_context_pack (id : string) (t : tables) : result string (list PantryItemSpec) :=
  match find_pack id t with
  | None => Err PantryValidationError
  | Some r =>
      let? text := decrypt_field vault_key (Some (cx_items r)) in
      let text := match text with Some (String _ _ as s) => s | _ => "{}" end in
      match json_loads text with
      | Some v => match StoredContextPack_validate v with
                  | Some p => Ok (map unreviewed (pack_items p))
                  | None => Err "ValidationError"
                  end
      | None => Err "ValidationError"
      end
  end.

(** ** The pack that leaves the node *)

Record ReviewedContextItem := {
  rc_item_id : string;
  rc_kind : string;
  rc_content : string;
  rc_size_bytes : Z;
  rc_expires_at : option string
}.

Definition ReviewedContextItem_dump (i : ReviewedContextItem) : json :=
  JObj [("schema_version", JStr "1.1"); ("item_id", JStr (rc_item_id i)); ("kind", JStr (rc_kind i));
        ("classification", JStr "share_with_peer"); ("content", JStr (rc_content i));
        ("size_bytes", JInt (rc_size_bytes i)); ("expires_at", opt_json_str (rc_expires_at i))].

Definition find_ref (ref_id : string) (t : tables) : option pantry_row :=
  find_first (fun r => String.eqb (pr_id r) ref_id) (pantry_refs t).

(** Whether an expiry that is given has passed. *)
Definition expired (expiry : option string) (current : Z) : result string bool :=
  match expiry with
  | Some (String _ _ as e) => let? z := parse_expiry e in Ok (z <=? current)%Z
  | _ => Ok false
  end.

(** The text of a registered file. *)
Definition reference_text (r : pantry_row) : option string :=
  match decrypt_field vault_key (Some (pr_path r)) with
  | Ok p => b <- read_file (default "" p) ;; s <- utf8_decode b ;; Some (universal_newlines s)
  | Err _ => None
  end.

(** Content and expiry of one item. *)
Definition item_content (i : PantryItemSpec) (current : Z) (t : tables)
  : result string (option string * option string) :=
  if String.eqb (it_kind i) "local_reference" then
    match it_local_ref_id i with
    | Some (String _ _ as ref_id) =>
        match find_ref ref_id t with
        | None => Err PantryValidationError
        | Some r =>
            let effective := match it_expiry i with Some (String _ _ as e) => Some e | _ => pr_expires_at r end in
            let? late := expired effective current in
            if (late : bool) then Err PantryValidationError
            else match reference_text r with
                 | Some c => Ok (Some c, effective)
                 | None => Err PantryValidationError
                 end
        end
    | _ => Err PantryValidationError
    end
  else Ok (it_content i, it_expiry i).

(** One item: [None] when it stays local. *)
Definition review_item (index : nat) (i : PantryItemSpec) (current : Z) (t : tables)
  : result string (option ReviewedContextItem) :=
  if str_in (it_classification i) ["local_only"; "private"] then Ok None
  else if negb (String.eqb (it_classification i) "share_with_peer") then Err PantryValidationError
  else if negb (it_reviewed i) then Err PantryValidationError
  else
    let? late := expired (it_expiry i) current in
    if (late : bool) then Err PantryValidationError
    else
      let? ce := item_content i current t in
      match ce.1 with
      | Some (String _ _ as content) =>
          let size := Z.of_nat (String.length (utf8_encode content)) in
          if (MAX_CONTEXT_ITEM_BYTES <? size)%Z then Err PantryValidationError
          else Ok (Some {| rc_item_id := (if truthy (it_item_id i) then it_item_id i
                                          else "ctx_" +:+ print_int (Z.of_nat index + 1));
                           rc_kind := it_kind i; rc_content := content; rc_size_bytes := size;
                           rc_expires_at := ce.2 |})
      | _ => Err PantryValidationError
      end.

Fixpoint review_items (index : nat) (items : list PantryItemSpec) (current : Z) (t : tables)
  : result string (list ReviewedContextItem) :=
  match items with
  | [] => Ok []
  | i :: rest =>
      let? o := review_item index i current t in
      let? l := review_items (S index) rest current t in
      Ok (match o with Some r => r :: l | None => l end)
  end.

(** [build_reviewed_context_pack]; its last round through JSON text gives the
    same values. *)
Definition build_reviewed_context_pack (items : list PantryItemSpec) (current : Z) (t : tables)
  : result string (list json) :=
  let? l := review_items 0 items current t in
  Ok (map ReviewedContextItem_dump l).

(** ** What leaves *)

Definition shared (i : PantryItemSpec) : bool := String.eqb (it_classification i) "share_with_peer".

Definition unexpired (expiry : option string) (current : Z) : Prop :=
  forall e, expiry = Some e -> e <> "" -> exists z, parse_expiry e = Ok z /\ (current < z)%Z.

(** What is sent of an item: its own text, or the text of the file it
    refers to. *)
Definition sent_content (i : PantryItemSpec) (t : tables) (c : string) (expiry : option string)
    (current : Z) : Prop :=
  (it_kind i <> "local_reference" /\ it_content i = Some c /\ expiry = it_expiry i) \/
  (it_kind i = "local_reference" /\ exists ref_id r, it_local_ref_id i = Some ref_id /\
     find_ref ref_id t = Some r /\ reference_text r = Some c /\ unexpired expiry current).

Definition may_leave (current : Z) (t : tables) (i : PantryItemSpec) (w : json) : Prop :=
  it_reviewed i = true /\ unexpired (it_expiry i) current /\
  exists r, w = ReviewedContextItem_dump r /\ rc_kind r = it_kind i /\
    (rc_size_bytes r <= MAX_CONTEXT_ITEM_BYTES)%Z /\
    rc_size_bytes r = Z.of_nat (String.length (utf8_encode (rc_content r))) /\
    sent_content i t (rc_content r) (rc_expires_at r) current.

Lemma expired_false e current : expired e current = Ok false -> unexpired e current.
Proof.
  unfold expired, unexpired. intros He x -> Hne. destruct x as [|c x]; [done|].
  destruct (parse_expiry _) as [z|]; [|done]. cbn in He. injection He as He%Z.leb_gt. by exists z.
Qed.

Lemma item_content_Ok i current t c e :
  item_content i current t = Ok (Some c, e) -> sent_content i t c e current.
Proof.
  unfold item_content, sent_content. destruct (String.eqb (it_kind i) _) eqn:Ek.
  - apply String.eqb_eq in Ek. intros Hc. right. split; [done|].
    destruct (it_local_ref_id i) as [[|a s]|]; [done| |done]. destruct (find_ref _ t) as [r|] eqn:Er; [|done].
    apply rbind_Ok in Hc as ([|] & He & Hc); [done|]. destruct (reference_text r) as [x|] eqn:Ex; [|done].
    injection Hc as <- <-. exists (String a s), r. split_and!; try done. by apply expired_false.
  - apply String.eqb_neq in Ek. intros [= <- <-]. by left.
Qed.

Lemma review_item_Ok index i current t o :
  review_item index i current t = Ok o ->
  match o with
  | Some r => shared i = true /\ may_leave current t i (ReviewedContextItem_dump r)
  | None => shared i = false
  end.
Proof.
  unfold review_item, shared, may_leave. destruct (str_in _ _) eqn:El.
  { intros [= <-]. apply str_in_spec in El. apply String.eqb_neq. intros E. rewrite E in El.
    by apply elem_of_cons in El as [?|[?|[]%elem_of_nil]%elem_of_cons]. }
  destruct (String.eqb _ _) eqn:Es; [|done]. cbn [negb].
  destruct (it_reviewed i); [|done]. cbn [negb]. intros Hr. apply rbind_Ok in Hr as ([|] & He & Hr); [done|].
  apply rbind_Ok in Hr as ([c e] & Hc & Hr). cbn [fst snd] in Hr. destruct c as [[|a s]|]; [done| |done].
  destruct (_ <? _)%Z eqn:Em; [done|]. apply Z.ltb_ge in Em. injection Hr as <-. split; [done|]. split; [done|].
  split; [by apply expired_false|]. eexists. split; [reflexivity|]. cbn. split_and!; try done.
  by apply item_content_Ok.
Qed.

Lemma pack_reviewed items current t pack :
  build_reviewed_context_pack items current t = Ok pack ->
  Forall2 (may_leave current t) (List.filter shared items) pack.
Proof.
  unfold build_reviewed_context_pack. intros (l & Hl & [= <-])%rbind_Ok. revert l Hl. generalize 0.
  induction items as [|i items IH]; intros n l Hl; cbn in Hl; [injection Hl as <-; constructor|].
  apply rbind_Ok in Hl as (o & Ho & Hl). apply rbind_Ok in Hl as (l' & Hl' & [= <-]).
  apply review_item_Ok in Ho. apply IH in Hl'. cbn. destruct o as [r|].
  - destruct Ho as [-> Ho]. cbn. by constructor.
  - by rewrite Ho.
Qed.

(** Only reviewed context leaves the node: the pack put into a request
    consists, in order, of exactly the items marked [share_with_peer]; each
    was reviewed by the owner, has not expired (nor has the file reference
    behind it), is at most 5 MiB, and is sent as its own text or as the text
    of the registered file, in a form that has no field for a path or a
    reference; a single item that fails a check blocks the whole pack. *)
Theorem only_reviewed_context_leaves items current t pack :
  build_reviewed_context_pack items current t = Ok pack ->
  Forall2 (may_leave current t) (List.filter shared items) pack.
Proof. apply pack_reviewed. Qed.

(** A stored pack cannot be resent by accident: whatever was reviewed
    before, the items of a pack that is attached again are all unreviewed, so
    building a request from them is refused as soon as one of them is to be
    shared. *)
Theorem attached_pack_needs_review id t items current t' :
  attach_context_pack id t = Ok items -> existsb shared items = true ->
  exists e, build_reviewed_context_pack items current t' = Err e.
Proof.
  unfold attach_context_pack. destruct (find_pack id t) as [r|]; [|done]. intros Ha Hs.
  assert (Hun : Forall (fun i => it_reviewed i = false) items).
  { apply rbind_Ok in Ha as (text & _ & Ha). destruct (json_loads _) as [v|]; [|done].
    destruct (StoredContextPack_validate v) as [p|]; [|done]. injection Ha as <-.
    apply Forall_forall. intros i Hi. by apply list_elem_of_fmap in Hi as (x & -> & _). }
  destruct (build_reviewed_context_pack items current t') as [pack|e] eqn:Eb; [|by exists e]. exfalso.
  apply pack_reviewed in Eb. apply existsb_exists in Hs as (i & Hi & Hsh).
  assert (Hin : i ∈ List.filter shared items) by (apply list_elem_of_In, List.filter_In; by split).
  apply list_elem_of_lookup in Hin as [k Hk]. destruct (Forall2_lookup_l _ _ _ _ _ Eb Hk) as (w & _ & Hrev & _).
  rewrite Forall_forall in Hun. apply list_elem_of_In in Hi. specialize (Hun i Hi). congruence.
Qed.
End pantry.

Module PantryDemo.
Import AuditDemo HistoryDemo IngestDemo.
#[local] Existing Instances AuditDemo.demo_env demo_clock.

Definition strict_bool (v : json) : option bool := match v with JBool b => Some b | _ => None end.

(** Two texts of dates, at 1000 and at 3000. *)
Definition dates (s : string) : option (Z * option Z) :=
  if String.eqb s "2026-01-01T00:00:00+00:00" then Some (1000%Z, Some 0%Z)
  else if String.eqb s "2027-01-01T00:00:00+00:00" then Some (3000%Z, Some 0%Z)
  else if String.eqb s "2027-01-01" then Some (3000%Z, None) else None.

Definition disk_file (p : string) : option bytes := if String.eqb p "/home/bob/notes" then Some "notes" else None.

Definition item (kind classification : string) (expiry content ref : option string) (reviewed : bool) : PantryItemSpec :=
  {| it_kind := kind; it_size_bytes := 0; it_classification := classification; it_expiry := expiry;
     it_item_id := "i"; it_content := content; it_local_ref_id := ref; it_reviewed := reviewed |}.

Definition with_ref : tables :=
  set_pantry (fun _ => [{| pr_id := "ref"; pr_path := b64encode (seal "key" "0123456789ab" "/home/bob/notes");
                           pr_size := 5; pr_expires_at := None; pr_created_at := "" |}]) no_tables.

Definition build (items : list PantryItemSpec) : result string (list json) :=
  build_reviewed_context_pack "key" dates disk_file items 2000 with_ref.

Definition mine : list PantryItemSpec :=
  [item "text" "private" None (Some "diary") None true;
   item "text" "share_with_peer" (Some "2027-01-01T00:00:00Z") (Some "goal") None true;
   item "local_reference" "share_with_peer" None None (Some "ref") true].

(** The path of the file is not in what is sent. *)
Lemma two_shared :
  match build mine with
  | Ok l => length l = 2 /\ contains "/home/bob" (json_dumps dumps_default (JList l)) = false
  | Err _ => False
  end.
Proof. vm_compute. split; reflexivity. Qed.

Lemma only_reviewed_context_leaves_witness :
  exists pack, build mine = Ok pack /\
    Forall2 (may_leave "key" dates disk_file 2000 with_ref) (List.filter shared mine) pack.
Proof.
  pose proof two_shared as Ht. destruct (build mine) as [pack|e] eqn:E; [|exact (False_ind _ Ht)].
  exists pack. split; [reflexivity|].
  exact (@only_reviewed_context_leaves AuditDemo.demo_env "key" dates disk_file mine 2000 with_ref pack E).
Defined.

Example blocked_packs :
  map build [[item "text" "share_with_peer" None (Some "x") None false];
             [item "text" "share_with_peer" (Some "2026-01-01T00:00:00Z") (Some "x") None true];
             [item "text" "share_with_peer" (Some "2027-01-01") (Some "x") None true];
             [item "text" "public" None (Some "x") None true];
             [item "local_reference" "share_with_peer" None (Some "x") (Some "other") true]]
  = repeat (Err PantryValidationError) 5.
Proof. vm_compute. reflexivity. Qed.

(** An expiry that is no date ends in the parser's own exception. *)
Example malformed_expiry :
  build [item "text" "share_with_peer" (Some "soon") (Some "x") None true] = Err "ValueError".
Proof. vm_compute. reflexivity. Qed.

Definition packs_env : NodeEnv.
Proof.
  refine {| aes_encrypt _ _ p := p; aes_decrypt _ _ p := Some p;
            urandom12 _ := "0123456789ab"; uuid4 n := "id-" +:+ print_int (Z.of_nat n);
            utcnow _ := "2026-07-23T12:00:00+00:00";
            json_loads s := Some (StoredContextPack_dump {| pack_id := "p"; pack_name := "n"; pack_items := mine |});
            model_json := json_dumps dumps_canonical |}; done.
Defined.

Definition with_pack : tables :=
  set_packs (fun _ => [{| cx_id := "p"; cx_name := "n"; cx_items := b64encode (seal "key" "0123456789ab" "{}");
                          cx_created_at := ""; cx_updated_at := "" |}]) no_tables.

Definition attached : result string (list PantryItemSpec) :=
  @attach_context_pack packs_env "key" strict_int strict_bool "p" with_pack.

Lemma attached_items : attached = Ok (map unreviewed mine).
Proof. vm_compute. reflexivity. Qed.

Lemma attached_pack_needs_review_witness :
  exists e, @build_reviewed_context_pack packs_env "key" dates disk_file (map unreviewed mine) 2000 with_ref = Err e.
Proof.
  exact (@attached_pack_needs_review packs_env "key" strict_int strict_bool dates disk_file "p" with_pack
    (map unreviewed mine) 2000 with_ref attached_items eq_refl).
Defined.
End PantryDemo.
