(* ===== verification/Depth.v ===== *)
(** * Readiness, reservations, playbooks and budget gauges

    [kin/collaboration_depth.py].  Times are microseconds; the texts that are
    stored come from [Clock], and [from_iso] reads them back.  Fractions and
    durations are rationals. *)

From Stdlib Require Import Ascii String ZArith QArith Lia.
From stdpp Require Import base gmap sets list strings sorting.
From S2P Require Import Prelude Regex Codec PyValue Schemas Cards Store AuditLog ArtifactVault PeerCards.
From S2P Require Import Registry Ingest Pantry Senders.

#[local] Open Scope nat_scope.

(** ** Numbers of the database *)

Definition digit_value (c : ascii) : option Z :=
  if ((48 <=? code c) && (code c <=? 57))%Z then Some (code c - 48)%Z else None.

(** Digits of a decimal text: value and number of fraction digits. *)
Fixpoint decimal (s : string) (acc : Z) (frac : option nat) : option Q :=
  match s with
  | "" => Some (acc # Pos.of_nat (Nat.pow 10 (default 0 frac)))
  | String c s' =>
      if Ascii.eqb c "." then match frac with None => decimal s' acc (Some 0) | Some _ => None end
      else d <- digit_value c ;; decimal s' (10 * acc + d)%Z (S <$> frac)
  end.

(** The value of a float text without exponent. *)
Definition float_value (r : string) : option Q :=
  match r with
  | String "-" s => q <- decimal s 0 None ;; Some (- q)%Q
  | _ => decimal r 0 None
  end.

Definition number (v : json) : option Q :=
  match v with
  | JInt z => Some (inject_Z z)
  | JFloat (FFin r) => float_value r
  | _ => None
  end.

(** ** Reservations *)

Record AgentReservation := {
  re_id : string;
  re_agent_id : string;
  re_owner : string;
  re_starts_at : string;
  re_ends_at : string
}.

Section depth.
Context `{NodeEnv} `{Clock} (vault_key : bytes).
Context (lax_int : json -> option Z) (lax_bool : json -> option bool).
Context (from_iso : string -> option (Z * option Z)).

(** [_utc] of a text: without offset it is taken as UTC. *)
Definition utc (value : string) : result string Z :=
  match from_iso (replace_text "Z" "+00:00" value) with
  | None => Err "ValueError"
  | Some (local, offset) => Ok (local - default 0 offset)%Z
  end.

(** [_iso]. *)
Definition zulu (t : Z) : string := replace_text "+00:00" "Z" (iso t).

Definition overlaps (agent_id start_text end_text : string) (r : reservation_row) : bool :=
  String.eqb (rv_agent r) agent_id && String.eqb (rv_status r) "active"
  && String.ltb (rv_starts_at r) end_text && String.ltb start_text (rv_ends_at r).

Definition reserve_agent (agent_id owner starts_at ends_at : string) (now : Z) : N AgentReservation :=
  let* start := mlift (utc starts_at) in
  let* stop := mlift (utc ends_at) in
  if (stop <=? start)%Z then mraise "ValueError"
  else
    let* known := select (fun t => existsb (fun r => String.eqb (ag_id r) agent_id) (agents t)) in
    if negb known then mraise "ValueError"
    else
      let* taken := select (fun t => existsb (overlaps agent_id (zulu start) (zulu stop)) (reservations t)) in
      if (taken : bool) then mraise "ValueError"
      else
        let* u := draw uuid4 in
        let id := "res_" +:+ uuid_hex u in
        insert_checked (fun t => negb (existsb (fun r => String.eqb (rv_id r) id) (reservations t)))
          (set_reservations (fun l => l ++
            [{| rv_id := id; rv_agent := agent_id; rv_owner := owner; rv_starts_at := zulu start;
                rv_ends_at := zulu stop; rv_status := "active"; rv_created_at := zulu now |}])) ;;;
        commit ;;;
        ret {| re_id := id; re_agent_id := agent_id; re_owner := owner; re_starts_at := zulu start;
               re_ends_at := zulu stop |}.

(** ** Readiness *)

Definition AVAILABILITY_EXPLANATIONS (a : AgentAvailability) : string :=
  match a with
  | READY => "Ready to accept work."
  | BUSY => "Currently working on another session."
  | RESERVED => "Reserved for a planned collaboration."
  | NEEDS_KEY => "A required credential is not yet stored in the keychain."
  | NEEDS_WORKSPACE => "The configured working directory is not available."
  | WAITING_FOR_APPROVAL => "Waiting on an owner approval decision."
  | OFFLINE => "This agent's backend is not reachable."
  | POLICY_BLOCKED => "Local policy blocks this task."
  end.

Record ReadinessRecommendation := {
  rr_agent_id : string;
  rr_name : string;
  rr_availability : AgentAvailability;
  rr_recommended : bool;
  rr_explanation : string
}.

(** An active reservation covers the moment. *)
Definition covers (agent_id moment : string) (r : reservation_row) : bool :=
  String.eqb (rv_agent r) agent_id && String.eqb (rv_status r) "active"
  && String.leb (rv_starts_at r) moment && String.ltb moment (rv_ends_at r).

Definition current_availability (moment : string) (t : tables) (r : agent_row) : AgentAvailability :=
  if negb (ag_enabled r) then POLICY_BLOCKED
  else if existsb (covers (ag_id r) moment) (reservations t) then RESERVED
  else match enum_of (ag_availability r) with Some a => a | None => OFFLINE end.

Definition recommendation (moment : string) (t : tables) (r : agent_row) : ReadinessRecommendation :=
  let a := current_availability moment t r in
  {| rr_agent_id := ag_id r; rr_name := ag_name r; rr_availability := a;
     rr_recommended := bool_decide (a = READY); rr_explanation := AVAILABILITY_EXPLANATIONS a |}.

(** Lexicographic order of two texts. *)
Definition name_le (n1 i1 n2 i2 : string) : bool :=
  if String.eqb n1 n2 then String.leb i1 i2 else String.leb n1 n2.

(** The key [(not recommended, name, agent_id)]. *)
Definition recommendation_le (a b : ReadinessRecommendation) : bool :=
  match rr_recommended a, rr_recommended b with
  | true, false => true
  | false, true => false
  | _, _ => name_le (rr_name a) (rr_agent_id a) (rr_name b) (rr_agent_id b)
  end.

Definition readiness_recommendations (at_ : Z) (t : tables) : list ReadinessRecommendation :=
  order_by recommendation_le
    (map (recommendation (zulu at_) t)
       (order_by (fun a b => name_le (ag_name a) (ag_id a) (ag_name b) (ag_id b)) (agents t))).

(** ** Local quality *)

Record LocalQualitySignal := {
  lq_agent_id : string;
  lq_completed : Z;
  lq_total : Z;
  lq_rate : Q;
  lq_average_seconds : option Q
}.

Definition of_agent (agent_id : string) (r : session_row) : bool :=
  bool_decide (s_sender_agent r = Some agent_id) || bool_decide (s_receiver_agent r = Some agent_id).

(** [max(0.0, (updated - created).total_seconds())]. *)
Definition duration (r : session_row) : result string Q :=
  let? a := utc (s_updated_at r) in
  let? b := utc (s_created_at r) in
  Ok (Z.max 0 (a - b) # 1000000).

Fixpoint durations (l : list session_row) : result string (list Q) :=
  match l with
  | [] => Ok []
  | r :: l' => let? d := duration r in let? ds := durations l' in Ok (d :: ds)
  end.

Definition local_quality_signal (agent_id : string) (t : tables) : result string LocalQualitySignal :=
  let rows := List.filter (of_agent agent_id) (sessions t) in
  let completed := List.filter (fun r => String.eqb (s_status r) "completed") rows in
  let? ds := durations completed in
  let n := Z.of_nat (length completed) in
  let total := Z.of_nat (length rows) in
  Ok {| lq_agent_id := agent_id; lq_completed := n; lq_total := total;
        lq_rate := (match rows with [] => 0 | _ => inject_Z n / inject_Z total end)%Q;
        lq_average_seconds := match ds with
                              | [] => None
                              | _ => Some (foldr Qplus 0 ds / inject_Z (Z.of_nat (length ds)))%Q
                              end |}.

(** ** Playbooks *)

Record Playbook := {
  py_id : string;
  py_name : string;
  py_source_session : option string;
  py_session_type : string;
  py_objective : string;
  py_required_capabilities : list string;
  py_turn_limit : Z;
  py_runtime_budget : json;
  py_artifact_budget : json;
  py_cost_budget : json
}.

Definition Playbook_dump (p : Playbook) : json :=
  JObj [("schema_version", JStr "1.1"); ("playbook_id", JStr (py_id p)); ("name", JStr (py_name p));
        ("source_session_id", opt_json_str (py_source_session p)); ("session_type", JStr (py_session_type p));
        ("objective_template", JStr (py_objective p));
        ("required_peer_capabilities", JList (map JStr (py_required_capabilities p)));
        ("turn_limit", JInt (py_turn_limit p)); ("runtime_budget_seconds", py_runtime_budget p);
        ("artifact_bytes_budget", py_artifact_budget p); ("cost_budget_estimate", py_cost_budget p);
        ("approval_defaults", JObj [("consequential_actions", JStr "always_ask")])].

(** [int | None] and [float | None] columns. *)
Definition opt_int (v : json) : option json :=
  match v with JNull => Some JNull | _ => z <- lax_int v ;; Some (JInt z) end.
Definition opt_float (v : json) : option json :=
  match v with JNull => Some JNull | JInt _ | JFloat _ => Some v | _ => None end.

Definition Playbook_validate (v : json) : option Playbook :=
  match v with
  | JObj d =>
      _ <- check (keys_within ["schema_version"; "playbook_id"; "name"; "source_session_id"; "session_type";
                               "objective_template"; "required_peer_capabilities"; "turn_limit";
                               "runtime_budget_seconds"; "artifact_bytes_budget"; "cost_budget_estimate";
                               "approval_defaults"] d) ;;
      id <- field_str "playbook_id" d ;;
      name <- field_str "name" d ;;
      source <- default_opt_str "source_session_id" d ;;
      kind <- field_str "session_type" d ;;
      objective <- field_str "objective_template" d ;;
      caps <- json_string_list (default (JList []) (obj_get "required_peer_capabilities" d)) ;;
      raw_turns <- obj_get "turn_limit" d ;;
      turns <- lax_int raw_turns ;;
      runtime <- opt_int (default JNull (obj_get "runtime_budget_seconds" d)) ;;
      artifact <- opt_int (default JNull (obj_get "artifact_bytes_budget" d)) ;;
      cost <- opt_float (default JNull (obj_get "cost_budget_estimate" d)) ;;
      Some {| py_id := id; py_name := name; py_source_session := source; py_session_type := kind;
              py_objective := objective; py_required_capabilities := caps; py_turn_limit := turns;
              py_runtime_budget := runtime; py_artifact_budget := artifact; py_cost_budget := cost |}
  | _ => None
  end.

(** [PublishedAgentCard.model_validate_json]. *)
Definition published_of_text (text : string) : result string PublishedAgentCard :=
  match json_loads text with
  | Some (JObj d) => match PublishedAgentCard_validate lax_bool d with
                     | Some c => Ok c
                     | None => Err "ValidationError"
                     end
  | _ => Err "ValidationError"
  end.

Definition plain_or_decrypted (value : option string) : result string string :=
  let? p := decrypt_field_or_plaintext vault_key value in Ok (default "" p).

Definition has_outcome (session_id : string) (t : tables) : bool :=
  existsb (fun e => String.eqb (e_session e) session_id && String.eqb (e_kind e) "outcome") (session_events t).

Definition peer_capabilities_of (r : session_row) (t : tables) : result string (list string) :=
  match s_receiver_agent r with
  | None => Ok []
  | Some agent => match find_card (s_receiver r) agent t with
                  | None => Ok []
                  | Some c => let? p := published_of_text (pc_card c) in Ok (tags (pub_capabilities p))
                  end
  end.

Definition create_playbook_from_session (session_id name : string) (now : Z) : N Playbook :=
  let* row := select (find_session session_id) in
  match row with
  | None => mraise "ValueError"
  | Some r =>
      if negb (String.eqb (s_status r) "completed") then mraise "ValueError"
      else
        let* outcome := select (has_outcome session_id) in
        if negb outcome then mraise "ValueError"
        else
          let* caps := select (peer_capabilities_of r) in
          let* caps := mlift caps in
          let* u := draw uuid4 in
          let* objective := mlift (plain_or_decrypted (s_objective r)) in
          match opt_int (s_runtime_budget r), opt_int (s_artifact_budget r), opt_float (s_cost_budget r) with
          | Some runtime, Some artifact, Some cost =>
              let p := {| py_id := "pb_" +:+ uuid_hex u;
                          py_name := (if truthy (strip name) then strip name else "Session playbook");
                          py_source_session := Some session_id; py_session_type := s_type r;
                          py_objective := objective; py_required_capabilities := caps;
                          py_turn_limit := s_turn_limit r; py_runtime_budget := runtime;
                          py_artifact_budget := artifact; py_cost_budget := cost |} in
              let* enc := encrypt_field vault_key (Some (model_json (Playbook_dump p))) in
              insert_checked (fun t => negb (existsb (fun x => String.eqb (pb_id x) (py_id p)) (playbooks t)))
                (set_playbooks (fun l => l ++
                  [{| pb_id := py_id p; pb_name := py_name p; pb_source_session := Some session_id;
                      pb_template := default "" enc; pb_created_at := zulu now; pb_updated_at := zulu now |}])) ;;;
              commit ;;;
              ret p
          | _, _, _ => mraise "ValidationError"
          end
  end.

Record PlaybookDraft := {
  pd_playbook_id : string;
  pd_session_type : string;
  pd_objective : string;
  pd_sender_agent_id : string;
  pd_peer_username : string;
  pd_receiver_agent_id : string;
  pd_turn_limit : Z;
  pd_runtime_budget : json;
  pd_artifact_budget : json;
  pd_cost_budget : json;
  pd_status : string;
  pd_carried_approval_count : Z
}.

Definition find_playbook (id : string) (t : tables) : option playbook_row :=
  find_first (fun r => String.eqb (pb_id r) id) (playbooks t).

(** The sender's agent can take work. *)
Definition agent_usable (agent_id : string) (t : tables) : bool :=
  match find_agent agent_id t with
  | Some r => ag_enabled r && negb (str_in (ag_availability r) ["policy_blocked"; "offline"; "needs_key"; "needs_workspace"])
  | None => false
  end.

Definition stored_playbook (id : string) (t : tables) : result string Playbook :=
  match find_playbook id t with
  | None => Err "ValueError"
  | Some r =>
      let? text := decrypt_field vault_key (Some (pb_template r)) in
      match json_loads (match text with Some (String _ _ as s) => s | _ => "{}" end) with
      | Some v => match Playbook_validate v with Some p => Ok p | None => Err "ValidationError" end
      | None => Err "ValidationError"
      end
  end.

Definition open_playbook_draft (id sender_agent peer receiver_agent : string) (t : tables)
  : result string PlaybookDraft :=
  let? p := stored_playbook id t in
  if negb (agent_usable sender_agent t) then Err "ValueError"
  else
    match find_card peer receiver_agent t with
    | None => Err "ValueError"
    | Some c =>
        if String.eqb (pc_status c) "stale" then Err "ValueError"
        else
          let? card := published_of_text (pc_card c) in
          if forallb (fun k => str_in k (tags (pub_capabilities card))) (py_required_capabilities p)
          then Ok {| pd_playbook_id := id; pd_session_type := py_session_type p; pd_objective := py_objective p;
                     pd_sender_agent_id := sender_agent; pd_peer_username := peer;
                     pd_receiver_agent_id := receiver_agent; pd_turn_limit := py_turn_limit p;
                     pd_runtime_budget := py_runtime_budget p; pd_artifact_budget := py_artifact_budget p;
                     pd_cost_budget := py_cost_budget p; pd_status := "draft";
                     pd_carried_approval_count := 0 |}
          else Err "ValueError"
    end.

(** ** Budget gauges *)

Record BudgetGaugeSnapshot := {
  bg_session_id : string;
  bg_elapsed : Q;
  bg_runtime_limit : json;
  bg_runtime_fraction : option Q;
  bg_artifact_bytes : Z;
  bg_artifact_limit : json;
  bg_artifact_fraction : option Q;
  bg_local_cost : option Q;
  bg_cost_limit : json;
  bg_cost_fraction : option Q;
  bg_peer_cost_summary : option string
}.

(** [x / limit if limit else None]. *)
Definition fraction (x : Q) (limit : json) : result string (option Q) :=
  if json_truthy limit
  then match number limit with Some q => Ok (Some (x / q)%Q) | None => Err "TypeError" end
  else Ok None.

(** The summary of one final result; unreadable events and other values are
    passed over. *)
Definition cost_summary_of (e : event_row) : result string (option string) :=
  match decrypt_field vault_key (e_payload e) with
  | Err _ => Ok None
  | Ok text =>
      match json_loads (match text with Some (String _ _ as s) => s | _ => "{}" end) with
      | None => Ok None
      | Some (JObj d) => match obj_get "peer_cost_summary" d with
                         | Some (JStr s) => Ok (if truthy (strip s) then Some (strip s) else None)
                         | _ => Ok None
                         end
      | Some _ => Err "AttributeError"
      end
  end.

Fixpoint first_summary (l : list event_row) : result string (option string) :=
  match l with
  | [] => Ok None
  | e :: l' => let? s := cost_summary_of e in
               match s with Some x => Ok (Some x) | None => first_summary l' end
  end.

Definition final_results (session_id : string) (t : tables) : list event_row :=
  order_by (fun a b => (e_order b <=? e_order a)%Z)
    (List.filter (fun e => String.eqb (e_session e) session_id && String.eqb (e_kind e) "final_result")
       (session_events t)).

Definition budget_gauges (session_id : string) (at_ : Z) (t : tables) : result string BudgetGaugeSnapshot :=
  match find_session session_id t with
  | None => Err "ValueError"
  | Some r =>
      let? stop := if str_in (s_status r) ["completed"; "failed"; "cancelled"; "expired"; "declined"]
                   then utc (s_updated_at r) else Ok at_ in
      let? start := utc (s_created_at r) in
      let elapsed := (Z.max 0 (stop - start) # 1000000) in
      let? runtime := fraction elapsed (s_runtime_budget r) in
      let? artifact := fraction (inject_Z (s_artifact_bytes r)) (s_artifact_budget r) in
      let local_cost := if negb (Qle_bool (s_cost r) 0) then Some (s_cost r) else None in
      let? cost := match local_cost with Some c => fraction c (s_cost_budget r) | None => Ok None end in
      let? summary := first_summary (final_results session_id t) in
      Ok {| bg_session_id := session_id; bg_elapsed := elapsed; bg_runtime_limit := s_runtime_budget r;
            bg_runtime_fraction := runtime; bg_artifact_bytes := s_artifact_bytes r;
            bg_artifact_limit := s_artifact_budget r; bg_artifact_fraction := artifact;
            bg_local_cost := local_cost; bg_cost_limit := s_cost_budget r; bg_cost_fraction := cost;
            bg_peer_cost_summary := summary |}
  end.
End depth.

(** ** Reservations do not overlap *)

Section reservation_props.
Context `{NodeEnv} `{Clock}.
Context (from_iso : string -> option (Z * option Z)).

(** A request to reserve. *)
Record reserve_call := {
  rc_agent : string;
  rc_owner : string;
  rc_starts_at : string;
  rc_ends_at : string;
  rc_now : Z
}.

Definition reserve (c : reserve_call) : N AgentReservation :=
  reserve_agent from_iso (rc_agent c) (rc_owner c) (rc_starts_at c) (rc_ends_at c) (rc_now c).

(** Requests one after the other, whatever each answers. *)
Fixpoint reserve_all (l : list reserve_call) (s : node) : node :=
  match l with
  | [] => s
  | c :: l' => reserve_all l' (reserve c s).2
  end.

(** The row was made for a window of times in [T]. *)
Definition window (T : Z -> Prop) (r : reservation_row) (start stop : Z) : Prop :=
  rv_starts_at r = zulu start /\ rv_ends_at r = zulu stop /\ (start < stop)%Z /\ T start /\ T stop.

Definition in_times (T : Z -> Prop) (c : reserve_call) : Prop :=
  (forall z, utc from_iso (rc_starts_at c) = Ok z -> T z) /\ (forall z, utc from_iso (rc_ends_at c) = Ok z -> T z).

(** Windows of one agent lie apart. *)
Definition apart (T : Z -> Prop) (r1 r2 : reservation_row) : Prop :=
  rv_agent r1 = rv_agent r2 ->
  exists s1 e1 s2 e2, window T r1 s1 e1 /\ window T r2 s2 e2 /\ (e1 <= s2 \/ e2 <= s1)%Z.

Definition calendar (T : Z -> Prop) (l : list reservation_row) : Prop :=
  (forall r, r ∈ l -> rv_status r = "active" /\ exists s e, window T r s e) /\
  forall i j r1 r2, l !! i = Some r1 -> l !! j = Some r2 -> i <> j -> apart T r1 r2.

(** An answered run either leaves the reservations or adds one free window. *)
Lemma reserve_effect c s r s' :
  reserve c s = (r, s') ->
  reservations (db s') = reservations (db s) \/
  exists start stop row, utc from_iso (rc_starts_at c) = Ok start /\ utc from_iso (rc_ends_at c) = Ok stop /\
    (start < stop)%Z /\ reservations (db s') = reservations (db s) ++ [row] /\
    rv_agent row = rc_agent c /\ rv_status row = "active" /\ rv_starts_at row = zulu start /\
    rv_ends_at row = zulu stop /\
    existsb (overlaps (rc_agent c) (zulu start) (zulu stop)) (reservations (db s)) = false.
Proof.
  unfold reserve, reserve_agent. unfold bind at 1, mlift at 1.
  destruct (utc _ (rc_starts_at c)) as [start|e]; [|intros [= <- <-]; by left]. unfold bind at 1, mlift at 1.
  destruct (utc _ (rc_ends_at c)) as [stop|e]; [|intros [= <- <-]; by left].
  destruct (stop <=? start)%Z eqn:El; [intros [= <- <-]; by left|]. apply Z.leb_gt in El.
  unfold bind at 1, select at 1, mgets at 1. destruct (negb _); [intros [= <- <-]; by left|].
  unfold bind at 1, select at 1, mgets at 1.
  destruct (existsb (overlaps _ _ _) _) eqn:Eo; [intros [= <- <-]; by left|].
  cbv beta iota zeta delta [bind draw insert_checked select execute commit mgets mmodify ret mraise].
  cbn [db tick committed]. destruct (negb _); intros [= <- <-]; [right|by left].
  exists start, stop. eexists. split_and!; [done..|cbn; reflexivity|done|done|done|done|done].
Qed.

Lemma calendar_step (T : Z -> Prop) c s :
  (forall x y, T x -> T y -> String.ltb (zulu x) (zulu y) = (x <? y)%Z) ->
  in_times T c -> calendar T (reservations (db s)) -> calendar T (reservations (db (reserve c s).2)).
Proof.
  intros Hord [Hts Hte] [Hw Ha].
  destruct (reserve c s) as [r s'] eqn:Er; cbn [snd].
  destruct (reserve_effect c s r s' Er) as [->|(start & stop & row & Es & Ee & Hlt & -> & Hag & Hact & Hst & Hen & Hfree)]; [done|].
  assert (Hrow : window T row start stop) by (split_and!; auto).
  assert (Hnew : forall r0, r0 ∈ reservations (db s) -> apart T r0 row).
  { intros r0 Hr Hagr. destruct (Hw r0 Hr) as (Hactr & s1 & e1 & Hr1). exists s1, e1, start, stop.
    split_and!; [done|done|]. destruct Hr1 as (H1 & H2 & Hl1 & Hs1 & He1), Hrow as (_ & _ & _ & Hts2 & Hte2).
    destruct (existsb_exists (overlaps (rc_agent c) (zulu start) (zulu stop)) (reservations (db s))) as [_ Hex].
    destruct (overlaps (rc_agent c) (zulu start) (zulu stop) r0) eqn:Eo.
    { rewrite Hex in Hfree; [done|]. exists r0. split; [by apply list_elem_of_In|done]. }
    unfold overlaps in Eo. rewrite Hagr, Hag, String.eqb_refl, Hactr, H1, H2, !Hord in Eo by auto. cbn in Eo.
    apply andb_false_iff in Eo as [E%Z.ltb_ge|E%Z.ltb_ge]; lia. }
  split.
  - intros r0 [Hr|Hr]%elem_of_app; [by apply Hw|].
    apply list_elem_of_singleton in Hr as ->. split; [done|by exists start, stop].
  - intros i j r1 r2 H1 H2 Hij.
    assert (Hsym : forall a b, apart T a b -> apart T b a).
    { intros a b Hab E. destruct (Hab (eq_sym E)) as (s1 & e1 & s2 & e2 & W1 & W2 & Hor).
      exists s2, e2, s1, e1. split_and!; [done|done|]. lia. }
    apply lookup_app_Some in H1 as [H1|[Hi H1]], H2 as [H2|[Hj H2]].
    + by eapply Ha.
    + apply list_lookup_singleton_Some in H2 as [_ <-]. apply Hnew. by eapply list_elem_of_lookup_2.
    + apply list_lookup_singleton_Some in H1 as [_ <-]. apply Hsym, Hnew. by eapply list_elem_of_lookup_2.
    + apply list_lookup_singleton_Some in H1 as [? _], H2 as [? _]. lia.
Qed.

(** An agent is never reserved twice for the same time: after any sequence
    of reservation requests the active windows of one agent are pairwise
    disjoint in time, provided the requested times are among those whose
    stored texts sort like the times themselves (whole seconds do, fractions
    do not). *)
Theorem reservations_disjoint (T : Z -> Prop) l s :
  (forall x y, T x -> T y -> String.ltb (zulu x) (zulu y) = (x <? y)%Z) ->
  Forall (in_times T) l -> reservations (db s) = [] ->
  calendar T (reservations (db (reserve_all l s))).
Proof.
  intros Hord Hl Hs. assert (Hc : calendar T (reservations (db s))).
  { rewrite Hs. split; [by intros r []%elem_of_nil|]. intros i j r1 r2 H1. by rewrite lookup_nil in H1. }
  clear Hs. induction Hl as [|c l Hc' _ IH] in s, Hc |- *; [done|]. cbn. apply IH. by apply calendar_step.
Qed.
End reservation_props.

(** ** Recommendations *)

Section readiness_props.
Context `{NodeEnv} `{Clock}.

Lemma name_le_total n1 i1 n2 i2 : name_le n1 i1 n2 i2 = false -> name_le n2 i2 n1 i1 = true.
Proof.
  unfold name_le. rewrite (String.eqb_sym n2 n1). destruct (String.eqb n1 n2) eqn:E; apply str_leb_total.
Qed.

Lemma recommendation_le_total a b : recommendation_le a b = false -> recommendation_le b a = true.
Proof.
  unfold recommendation_le. destruct (rr_recommended a), (rr_recommended b); try done; apply name_le_total.
Qed.

(** Recommendations are current: the list has one entry per agent, sorted
    with the recommended ones first and then by name, and an agent is
    recommended exactly when it is enabled, its stored availability is ready
    and no active reservation covers the moment. *)
Theorem recommended_agents_ready at_ t :
  map rr_agent_id (readiness_recommendations at_ t) ≡ₚ map ag_id (agents t) /\
  Sorted (fun a b => recommendation_le a b = true) (readiness_recommendations at_ t) /\
  forall r, r ∈ readiness_recommendations at_ t ->
    exists a, a ∈ agents t /\ rr_agent_id r = ag_id a /\
      (rr_recommended r = true <->
       ag_enabled a = true /\ enum_of (ag_availability a) = Some READY /\
       forall v, v ∈ reservations t -> covers (ag_id a) (zulu at_) v = false).
Proof.
  split; [|split].
  - unfold readiness_recommendations. rewrite order_by_perm.
    set (l := order_by _ (agents t)). transitivity (map ag_id l); [|apply Permutation_map, order_by_perm].
    by rewrite map_map.
  - apply order_by_sorted. intros a b. apply recommendation_le_total.
  - intros r Hr. unfold readiness_recommendations in Hr. apply order_by_elem in Hr.
    apply list_elem_of_fmap in Hr as (a & -> & Ha). apply order_by_elem in Ha. exists a. split; [done|]. split; [done|].
    cbn [recommendation rr_recommended]. rewrite bool_decide_eq_true. unfold current_availability.
    destruct (ag_enabled a); cbn [negb]; [|split; [done|by intros [? _]]].
    destruct (existsb (covers (ag_id a) (zulu at_)) (reservations t)) eqn:Ec.
    + split; [done|]. intros (_ & _ & Hn). apply existsb_exists in Ec as (v & Hv%list_elem_of_In & Hcv).
      rewrite (Hn v Hv) in Hcv. done.
    + assert (Hn : forall v, v ∈ reservations t -> covers (ag_id a) (zulu at_) v = false).
      { intros v Hv%list_elem_of_In. destruct (covers _ _ v) eqn:E; [|done].
        assert (Hx : existsb (covers (ag_id a) (zulu at_)) (reservations t) = true) by (apply existsb_exists; eauto).
        congruence. }
      destruct (enum_of (ag_availability a)) as [[]|]; (split; [try done|by intros (_ & [=] & _)]); by intros _.
Qed.
End readiness_props.

(** ** Playbooks carry no authority *)

Section playbook_props.
Context `{NodeEnv} (vault_key : bytes).
Context (lax_int : json -> option Z) (lax_bool : json -> option bool).

(** A playbook only prepares: a draft opened from one is in status draft
    with no approval carried over, repeats the stored template, and exists only
    for a local agent that is enabled and usable and for a peer agent whose
    card is cached, is not stale and offers every required capability. *)
Theorem playbook_draft_checked id sender_agent peer receiver_agent t d :
  open_playbook_draft vault_key lax_int lax_bool id sender_agent peer receiver_agent t = Ok d ->
  pd_status d = "draft" /\ pd_carried_approval_count d = 0%Z /\
  (exists a, find_agent sender_agent t = Some a /\ ag_enabled a = true /\
     ag_availability a ∉ ["policy_blocked"; "offline"; "needs_key"; "needs_workspace"]) /\
  (exists c card, find_card peer receiver_agent t = Some c /\ pc_status c <> "stale" /\
     published_of_text lax_bool (pc_card c) = Ok card /\
     exists p, stored_playbook vault_key lax_int id t = Ok p /\
       (forall k, k ∈ py_required_capabilities p -> k ∈ tags (pub_capabilities card)) /\
       pd_session_type d = py_session_type p /\ pd_objective d = py_objective p /\
       pd_turn_limit d = py_turn_limit p /\ pd_runtime_budget d = py_runtime_budget p /\
       pd_artifact_budget d = py_artifact_budget p /\ pd_cost_budget d = py_cost_budget p).
Proof.
  unfold open_playbook_draft. intros Hd. apply rbind_Ok in Hd as (p & Hp & Hd).
  destruct (agent_usable sender_agent t) eqn:Eu; [|done]. cbn [negb] in Hd.
  destruct (find_card peer receiver_agent t) as [c|] eqn:Ec; [|done].
  destruct (String.eqb (pc_status c) "stale") eqn:Es; [done|]. apply rbind_Ok in Hd as (card & Hcard & Hd).
  destruct (forallb _ _) eqn:Ef; [|done]. injection Hd as <-. cbn. split; [done|]. split; [done|]. split.
  - unfold agent_usable in Eu. destruct (find_agent sender_agent t) as [a|]; [|done].
    apply andb_true_iff in Eu as [He Ha]. exists a. split_and!; [done..|]. intros Hin%str_in_spec. by rewrite Hin in Ha.
  - exists c, card. split_and!; [done|by apply String.eqb_neq|done|]. exists p. split_and!; try done.
    intros k Hk. rewrite forallb_forall in Ef. by apply str_in_spec, Ef, list_elem_of_In.
Qed.
End playbook_props.

(** ** A calendar, and a playbook from a finished session *)

Module DepthDemo.
Import AuditDemo PantryDemo.

(** One minute of a day: [isoformat] writes the fraction only when there is one. *)
Definition digit (z : Z) : string := print_int (z mod 10).
Definition minute : Clock :=
  {| iso z := "2026-07-23T12:00:0" +:+ digit (z / 1000000)
              +:+ (if (z mod 1000000 =? 0)%Z then "" else "." +:+ digit (z / 100000) +:+ "00000") +:+ "+00:00";
     parse_utc _ := None |}.
#[local] Existing Instances AuditDemo.demo_env minute.

(** The times written here, and their texts. *)
Definition half : list Z := map (fun k => k * 500000)%Z [0; 1; 2; 3; 4; 5; 6; 7; 8; 9]%Z.
Definition reads (s : string) : option (Z * option Z) :=
  z ← find_first (fun z => String.eqb (iso z) s) half; Some (z, Some 0%Z).

Definition helper (id : string) (enabled : bool) (availability : string) : agent_row :=
  {| ag_id := id; ag_name := id; ag_adapter_type := "local_command"; ag_local_card := None;
     ag_published_card := None; ag_enabled := enabled; ag_availability := availability;
     ag_created_at := ""; ag_updated_at := ""; ag_version := 1 |}.

Definition team : tables :=
  set_agents (fun _ => [helper "b1" true "ready"; helper "a0" true "busy"; helper "c2" false "ready";
                        helper "b0" true "ready"]) demo_tables.
Definition office : node := {| db := team; committed := team; tick := 0 |}.

Definition ask (agent : string) (start stop : Z) : reserve_call :=
  {| rc_agent := agent; rc_owner := "bob"; rc_starts_at := zulu start; rc_ends_at := zulu stop; rc_now := 0 |}.

Definition whole (z : Z) : Prop := z ∈ [0; 1000000; 2000000; 3000000; 4000000]%Z.

Definition requests : list reserve_call :=
  [ask "b1" 1000000 3000000; ask "b1" 2000000 4000000; ask "b1" 3000000 4000000; ask "b0" 0 4000000;
   ask "nobody" 0 1000000; ask "b1" 1000000 0].

Definition booked (s : node) : list (string * string * string) :=
  map (fun r => (rv_agent r, rv_starts_at r, rv_ends_at r)) (reservations (db s)).

Example three_booked :
  booked (reserve_all reads requests office) =
  [("b1", "2026-07-23T12:00:01Z", "2026-07-23T12:00:03Z"); ("b1", "2026-07-23T12:00:03Z", "2026-07-23T12:00:04Z");
   ("b0", "2026-07-23T12:00:00Z", "2026-07-23T12:00:04Z")].
Proof. vm_compute. reflexivity. Qed.

Lemma whole_sorted x y : whole x -> whole y -> String.ltb (zulu x) (zulu y) = (x <? y)%Z.
Proof.
  unfold whole. intros Hx Hy. rewrite !elem_of_cons, elem_of_nil in Hx, Hy.
  destruct Hx as [->|[->|[->|[->|[->|[]]]]]], Hy as [->|[->|[->|[->|[->|[]]]]]]; vm_compute; reflexivity.
Qed.

Lemma whole_requests : Forall (in_times reads whole) requests.
Proof.
  unfold requests. rewrite !Forall_cons, Forall_nil. unfold in_times, whole.
  split_and!; try exact I; intros z Hz; vm_compute in Hz; injection Hz as <-; rewrite !elem_of_cons; auto 10.
Qed.

Lemma reservations_disjoint_witness :
  length (reservations (db (reserve_all reads requests office))) = 3 /\
  calendar whole (reservations (db (reserve_all reads requests office))).
Proof.
  split; [vm_compute; reflexivity|].
  exact (@reservations_disjoint AuditDemo.demo_env minute reads whole requests office
    whole_sorted whole_requests eq_refl).
Defined.

(** With fractions of a second the texts no longer sort like the times, and
    the second reservation overlaps the first. *)
Example fraction_overlaps :
  booked (reserve_all reads [ask "b1" 0 1500000; ask "b1" 1000000 3000000] office) =
  [("b1", "2026-07-23T12:00:00Z", "2026-07-23T12:00:01.500000Z"); ("b1", "2026-07-23T12:00:01Z", "2026-07-23T12:00:03Z")].
Proof. vm_compute. reflexivity. Qed.

Example ready_first :
  map (fun r => (rr_agent_id r, rr_availability r, rr_recommended r))
    (readiness_recommendations 1000000 (db (reserve_all reads requests office))) =
  [("a0", BUSY, false); ("b0", RESERVED, false); ("b1", RESERVED, false); ("c2", POLICY_BLOCKED, false)] /\
  map rr_agent_id (readiness_recommendations 1000000 team) = ["b0"; "b1"; "a0"; "c2"].
Proof. vm_compute. split; reflexivity. Qed.

(** *** A playbook *)

Definition card : PublishedAgentCard :=
  {| pub_agent_id := "a1"; pub_name := "A"; pub_description := "d";
     pub_capabilities := {| tags := ["review"; "plan"]; accepts := []; produces := [] |};
     pub_availability := READY; requires_owner_acceptance := true |}.

Definition book : Playbook :=
  {| py_id := "pb_id1"; py_name := "Review"; py_source_session := Some "s1"; py_session_type := "ask";
     py_objective := "check it"; py_required_capabilities := ["review"]; py_turn_limit := 12;
     py_runtime_budget := JInt 60; py_artifact_budget := JNull; py_cost_budget := JNull |}.

Definition book_env : NodeEnv.
Proof.
  refine {| aes_encrypt _ _ p := p; aes_decrypt _ _ p := Some p;
            urandom12 _ := "0123456789ab"; uuid4 n := "id-" +:+ print_int (Z.of_nat n);
            utcnow _ := "2026-07-23T12:00:00+00:00";
            json_loads s := if String.eqb s "card" then Some (JObj (PublishedAgentCard_dump card))
                            else if String.eqb s (json_dumps dumps_canonical (Playbook_dump book))
                            then Some (Playbook_dump book) else None;
            model_json := json_dumps dumps_canonical |}; done.
Defined.

Definition shelf : tables :=
  set_peer_cards (fun _ => [{| pc_peer := "alice"; pc_agent := "a1"; pc_card := "card"; pc_hash := "";
                               pc_status := "fresh"; pc_first_seen := ""; pc_last_seen := "" |}])
    (set_playbooks (fun _ => [{| pb_id := "pb_id1"; pb_name := "Review"; pb_source_session := Some "s1";
       pb_template := b64encode (seal "key" "0123456789ab" (json_dumps dumps_canonical (Playbook_dump book)));
       pb_created_at := ""; pb_updated_at := "" |}]) team).

Definition whole_int (v : json) : option Z := match v with JInt z => Some z | _ => None end.

Definition draft (sender : string) : result string PlaybookDraft :=
  @open_playbook_draft book_env "key" whole_int strict_bool "pb_id1" sender "alice" "a1" shelf.

Lemma draft_opens :
  match draft "b1" with Ok d => pd_objective d = "check it" /\ pd_turn_limit d = 12%Z | Err _ => False end.
Proof. vm_compute. split; reflexivity. Qed.

Lemma playbook_draft_checked_witness :
  exists d, draft "b1" = Ok d /\ pd_status d = "draft" /\ pd_carried_approval_count d = 0%Z.
Proof.
  pose proof draft_opens as Hd. destruct (draft "b1") as [d|e] eqn:E; [|exact (False_ind _ Hd)].
  exists d. split; [reflexivity|].
  destruct (@playbook_draft_checked book_env "key" whole_int strict_bool "pb_id1" "b1" "alice" "a1" shelf d E)
    as (H1 & H2 & _).
  exact (conj H1 H2).
Defined.

Example unusable_agents : map draft ["c2"; "nobody"] = [Err "ValueError"; Err "ValueError"].
Proof. vm_compute. reflexivity. Qed.
End DepthDemo.
