(* ===== verification/Orchestrator.v ===== *)
(** * The session orchestrator

    [kin/session/orchestrator.py]: one turn of the local agent, the status
    nudge and the tag-in of another agent.  The agent is a parameter: any
    function from the card and the request to a response, so that what is
    proved of a turn holds for every behaviour of the agent ([Adapters] models
    the four that exist).  Errors of the orchestrator are named by their code. *)

From Stdlib Require Import Ascii String ZArith QArith Lia.
From stdpp Require Import base gmap sets list strings sorting.
From S2P Require Import Prelude Regex Codec PyValue Transition Schemas Reducer Compatibility Cards Policy.
From S2P Require Import Store AuditLog SessionStore ApprovalStore ArtifactVault PeerCards Registry History Keychain.
From S2P Require Import Identity Ingest RetryQueue Offers Senders Preview Pantry Depth Adapters.

#[local] Open Scope nat_scope.

(** ** The start of a turn *)

Record turn := {
  tn_state : SessionState;
  tn_row : session_row;
  tn_agent : string;
  tn_card : AgentCard;
  tn_objective : string
}.

(** [UPDATE sessions SET cumulative_cost_estimate = cumulative_cost_estimate + 1.0]. *)
Definition cost_counted (r : session_row) : session_row :=
  {| s_id := s_id r; s_type := s_type r; s_initiator := s_initiator r; s_receiver := s_receiver r;
     s_status := s_status r; s_objective := s_objective r; s_sender_agent := s_sender_agent r;
     s_receiver_agent := s_receiver_agent r; s_snapshot := s_snapshot r; s_turn_limit := s_turn_limit r;
     s_created_at := s_created_at r; s_updated_at := s_updated_at r; s_expires_at := s_expires_at r;
     s_runtime_budget := s_runtime_budget r; s_artifact_budget := s_artifact_budget r;
     s_artifact_bytes := s_artifact_bytes r; s_cost_budget := s_cost_budget r;
     s_cost := (s_cost r + 1)%Q; s_terminal_result := s_terminal_result r |}.

(** [UPDATE sessions SET sender_agent_id = ?]. *)
Definition set_sender_agent (session_id agent : string) : tables -> tables :=
  set_sessions (update_where (fun r => String.eqb (s_id r) session_id)
    (fun r => {| s_id := s_id r; s_type := s_type r; s_initiator := s_initiator r;
                 s_receiver := s_receiver r; s_status := s_status r; s_objective := s_objective r;
                 s_sender_agent := Some agent; s_receiver_agent := s_receiver_agent r;
                 s_snapshot := s_snapshot r; s_turn_limit := s_turn_limit r;
                 s_created_at := s_created_at r; s_updated_at := s_updated_at r;
                 s_expires_at := s_expires_at r; s_runtime_budget := s_runtime_budget r;
                 s_artifact_budget := s_artifact_budget r; s_artifact_bytes := s_artifact_bytes r;
                 s_cost_budget := s_cost_budget r; s_cost := s_cost r;
                 s_terminal_result := s_terminal_result r |})).

(** What a turn answers. *)
Inductive turn_result :=
| TurnPaused (reason dimension : string)
| RetryableError (e : AdapterErrorInfo)
| TurnFailed (reason : string)
| AwaitingApproval (approval_id : string)
| Emitted (ack_status : string) (sequence : Z) (kind : MessageKind)
| Advanced.

Definition TRANSIENT_CODES : list string := ["ADAPTER_TIMEOUT"; "RATE_LIMITED"; "PROCESS_TIMEOUT_KILLED"].

Definition DAY : Z := 86400 * 1000000.

(** A text field of an event document, with its default. *)
Definition text_field (k dflt : string) (ev : json) : string :=
  match ev with
  | JObj d => match obj_get k d with Some (JStr s) => s | _ => dflt end
  | _ => dflt
  end.
Definition payload_field (ev : json) : json :=
  match ev with JObj d => default (JObj []) (obj_get "payload" d) | _ => JObj [] end.

Section orchestrator.
Context `{NodeEnv} `{Jcs} `{Ed25519} `{Clock} `{X25519} `{LatestRow} (vault_key : bytes).
Context (lax_int : json -> option Z).
Context (public_of_bytes : bytes -> option public_key) (private_of_bytes : bytes -> option private_key).
Context (kc : keychain) (http_post : nat -> string -> json -> http_result).
(** [get_adapter(card).invoke(request)]. *)
Context (agent : nat -> AgentCard -> AdapterRequest -> result string AdapterResponse).
(** [datetime.fromisoformat]. *)
Context (from_iso : string -> option (Z * option Z)).

Abbreviation ingest := (ingest_envelope vault_key lax_int public_of_bytes private_of_bytes kc http_post 2).
Abbreviation node_command sid c now := (apply_node_command_transition vault_key sid c (Some (iso now)) ;;; ret tt).

(** The card of a registry row: the local one, else whatever is published. *)
Definition card_of_row (r : agent_row) : result string AgentCard :=
  let parse text := match AgentCard_validate_json lax_int text with Some c => Ok c | None => Err "ValidationError" end in
  match ag_local_card r with
  | Some (String _ _ as token) =>
      let? text := decrypt_field vault_key (Some token) in parse (default "" text)
  | _ => match ag_published_card r with
         | Some (String _ _ as text) => parse text
         | _ => Err "ValidationError"
         end
  end.

(** Steps 1 to 3. *)
Definition start_turn (owner sid : string) (t : tables) : result string turn :=
  let? found := reconstruct_session_state vault_key sid t in
  match found with
  | None => Err "SESSION_NOT_FOUND"
  | Some state =>
      if str_in (status state) TERMINAL_STATES then Err "TERMINAL_STATE"
      else if String.eqb (status state) "awaiting_owner_approval" then Err "AWAITING_OWNER_APPROVAL"
      else if String.eqb (status state) "paused" then Err "SESSION_PAUSED"
      else match participants state !! owner with
      | None => Err "UNAUTHORIZED_PARTICIPANT"
      | Some p =>
          match get_card (agent_id p) t with
          | None => Err "AGENT_CARD_NOT_FOUND"
          | Some ar =>
              let? card := card_of_row ar in
              match find_session sid t with
              | None => Err "SESSION_NOT_FOUND"
              | Some r =>
                  let? objective := plain_or_decrypted vault_key (s_objective r) in
                  Ok {| tn_state := state; tn_row := r; tn_agent := agent_id p; tn_card := card;
                        tn_objective := objective |}
              end
          end
      end
  end.

(** [budget is not None and x >= budget]. *)
Definition at_least (x : Q) (budget : json) : result string bool :=
  match budget with
  | JNull => Ok false
  | _ => match number budget with Some q => Ok (Qle_bool q x) | None => Err "TypeError" end
  end.

Definition elapsed_seconds (r : session_row) (now : Z) : result string (option Q) :=
  match s_created_at r with
  | "" => Ok None
  | text => match parse_utc (rstrip_by (Ascii.eqb "Z") text) with
            | Some created => Ok (Some ((now - created) # 1000000))
            | None => Err "ValueError"
            end
  end.

(** The dimension of the budget that is used up, with its reason (3.5). *)
Definition exhausted (state : SessionState) (r : session_row) (now : Z) : result string (option (string * string)) :=
  let? elapsed := elapsed_seconds r now in
  let reached dim text := Ok (Some (dim, "Session budget exhausted: " +:+ dim +:+ " (" +:+ text +:+ ") reached.")) in
  if (s_turn_limit r <=? current_turn state)%Z then reached "turn_limit" (print_int (s_turn_limit r))
  else
    let? runtime := match elapsed with Some e => at_least e (s_runtime_budget r) | None => Ok false end in
    if (runtime : bool) then reached "runtime_budget_seconds" (py_str (s_runtime_budget r) +:+ "s")
    else
      let? bytes_ := at_least (inject_Z (s_artifact_bytes r)) (s_artifact_budget r) in
      if (bytes_ : bool) then reached "artifact_bytes_budget" (py_str (s_artifact_budget r) +:+ " bytes")
      else
        let? cost := at_least (s_cost r) (s_cost_budget r) in
        if (cost : bool) then reached "cost_budget_estimate" (py_str (s_cost_budget r))
        else Ok None.

(** ** The request to the agent *)

Definition history_item (ev : json) : HistoryItem :=
  {| hi_kind := text_field "kind" "message" ev; hi_actor := text_field "actor_username" "" ev;
     hi_content := py_str (payload_field ev) |}.

(** [_safe_decode_artifact_text]. *)
Definition safe_decode_artifact_text (raw : bytes) (mime_type : string) : option string :=
  if str_in (lower (strip mime_type)) ARCHIVE_MIME_TYPES then None
  else match utf8_decode raw with
       | Some text => if str_exists (Ascii.eqb "000") text then None else Some text
       | None => None
       end.

Definition input_item (t : tables) (r : artifact_row) : InputItem :=
  {| in_kind := "artifact"; in_ref := Some (ar_id r);
     in_content := match load_artifact_bytes vault_key (ar_id r) t with
                   | Ok raw => safe_decode_artifact_text raw (ar_mime r)
                   | Err _ => None
                   end |}.

Definition session_artifacts (sid : string) (t : tables) : list artifact_row :=
  order_by (fun a b => String.leb (ar_created_at a) (ar_created_at b))
    (List.filter (fun r => String.eqb (ar_session r) sid) (artifacts t)).

Definition peer_of (owner : string) (r : session_row) : string := other_party owner r.

Definition build_request (owner sid : string) (tn : turn) (t : tables) : AdapterRequest :=
  let peer := peer_of owner (tn_row tn) in
  let card := tn_card tn in
  {| aq_session := [("id", JStr sid);
                    ("type", JStr (if truthy (s_type (tn_row tn)) then s_type (tn_row tn) else "ask"));
                    ("turn", JInt (current_turn (tn_state tn)))];
     aq_self := [("agent_id", JStr (tn_agent tn)); ("card_snapshot", JObj (AgentCard_dump card))];
     aq_peer := [("person", JStr peer);
                 ("agent_id", JStr (match participants (tn_state tn) !! peer with
                                    | Some p => agent_id p | None => "" end));
                 ("card_snapshot", JObj [])];
     aq_objective := tn_objective tn; aq_inputs := map (input_item t) (session_artifacts sid t);
     aq_history := map history_item (events (tn_state tn));
     aq_local_policy := [("filesystem", filesystem (boundaries card)); ("network", network_access (boundaries card));
                         ("shell", shell (boundaries card))] |}.

(** ** The answer of the agent *)

Definition security_rejection (owner sid summary : string) (payload : json) : N unit :=
  write_audit_event vault_key "security_rejection" summary (Some sid) (Some owner) (Some payload) None ;;; ret tt.

Definition handle_error (owner sid : string) (e : AdapterErrorInfo) (now : Z) : N turn_result :=
  write_audit_event vault_key "adapter_error"
    ("Adapter error code " +:+ ae_code e +:+ ": " +:+ ae_message e) (Some sid) (Some owner)
    (Some (JObj [("code", JStr (ae_code e)); ("message", JStr (ae_message e))])) None ;;;
  if str_in (ae_code e) TRANSIENT_CODES then ret (RetryableError e)
  else node_command sid "mark_failed" now ;;; ret (TurnFailed (ae_code e)).

(** Step 6. *)
Fixpoint activity_events (owner agent_id sid : string) (l : list AdapterEvent) : N unit :=
  match l with
  | [] => ret tt
  | AdapterActivityEvent label :: l' =>
      append_session_event vault_key sid owner (Some agent_id) "activity" "local_only"
        (Some (JObj [("label", JStr label)])) None None ;;;
      activity_events owner agent_id sid l'
  | _ :: l' => activity_events owner agent_id sid l'
  end.

Definition await_owner (agent_id sid : string) (q : ApprovalRequest) (expires_at : string) (now : Z) : N turn_result :=
  create_pending_approval vault_key q agent_id (req_action_class q) expires_at ;;;
  node_command sid "mark_awaiting_owner_approval" now ;;;
  ret (AwaitingApproval (req_approval_id q)).

(** Step 7, the agent's own requests: the first that needs the owner ends the
    turn. *)
Fixpoint approval_events (owner agent_id sid : string) (card : AgentCard) (now : Z) (l : list AdapterEvent)
  : N (option turn_result) :=
  match l with
  | [] => ret None
  | AdapterApprovalEvent q :: l' =>
      let* res := evaluate_action_for_session card (req_action_class q) [("session_id", JStr sid)] sid
                    (iso_text (iso now)) in
      match decision res with
      | ALLOW => approval_events owner agent_id sid card now l'
      | DENIED =>
          let a := ActionClass_value (req_action_class q) in
          security_rejection owner sid ("Action '" +:+ a +:+ "' denied by local policy.")
            (JObj [("action_class", JStr a)]) ;;;
          approval_events owner agent_id sid card now l'
      | REQUIRES_APPROVAL =>
          let* r := await_owner agent_id sid q
                      (if truthy (req_expires_at q) then req_expires_at q else iso_text (iso (now + DAY))) now in
          ret (Some r)
      end
  | _ :: l' => approval_events owner agent_id sid card now l'
  end.

(** Step 7, the outbound message. *)
Definition message_gate (owner agent_id sid : string) (card : AgentCard) (m : AdapterMessage) (now : Z)
  : N (option turn_result) :=
  let k := MessageKind_value (am_kind m) in
  let* res := evaluate_action_for_session card INFORMATIONAL_RELAY [("session_id", JStr sid); ("kind", JStr k)] sid
                (iso_text (iso now)) in
  match decision res with
  | ALLOW => ret None
  | DENIED =>
      security_rejection owner sid ("Outbound message '" +:+ k +:+ "' denied by policy.") (JObj [("kind", JStr k)]) ;;;
      node_command sid "mark_failed" now ;;;
      ret (Some (TurnFailed "Outbound message policy denial"))
  | REQUIRES_APPROVAL =>
      let* u := draw uuid4 in
      let exp_at := iso_text (iso (now + DAY)) in
      if negb (TIMESTAMP_REGEX exp_at) then mraise "ValidationError"
      else
        let* r := await_owner agent_id sid
          {| req_approval_id := "app_" +:+ hex12 u; req_session_id := sid; req_agent_id := agent_id;
             req_action_class := INFORMATIONAL_RELAY; req_summary := "Approve outbound message " +:+ k;
             req_reason := "Outbound message requires owner approval"; req_risk_label := MEDIUM;
             req_scope := [("content", JStr (str_take 100 (am_content m)))]; req_expires_at := exp_at |} exp_at now in
        ret (Some r)
  end.

(** Step 8. *)
Definition keep_artifact (owner sid : string) (card : AgentCard) (now : Z) (a : AdapterArtifactItem) : N unit :=
  let raw := match ai_content a with inr b => b | inl s => utf8_encode s end in
  let size := Z.of_nat (String.length raw) in
  let max := max_artifact card in
  mcatch
    (store_artifact vault_key sid raw (ai_mime_type a) owner "auto" max "adapter_output" (Some (iso now)) None None ;;;
     increment_session_artifact_bytes sid size)
    (fun e =>
       if String.eqb e "ArtifactTooLargeError" then
         security_rejection owner sid
           ("Artifact size " +:+ print_int size +:+ " bytes exceeds card max_artifact_bytes (" +:+ print_int max +:+ ").")
           (JObj [("artifact_size", JInt size); ("max_bytes", JInt max)]) ;;;
         node_command sid "mark_failed" now ;;;
         mraise "ARTIFACT_TOO_LARGE"
       else mraise e).

Fixpoint keep_artifacts (owner sid : string) (card : AgentCard) (now : Z) (l : list AdapterArtifactItem) : N unit :=
  match l with
  | [] => ret tt
  | a :: l' => keep_artifact owner sid card now a ;;; keep_artifacts owner sid card now l'
  end.

(** The owner's keys serve for every name unless a lookup is given. *)
Definition default_keys (sd : sender) (keys : option (json -> option public_key)) (u : json) : option public_key :=
  match keys with Some f => f u | None => Some (ed_public (sd_key sd)) end.

Definition plain_args (keys : json -> option public_key) : ingest_args :=
  {| ia_keys := keys; ia_x25519 := None; ia_owner := None; ia_relay := None |}.

(** Step 9. *)
Definition emit_message (sd : sender) (keys : option (json -> option public_key)) (agent_id sid peer : string)
    (m : AdapterMessage) (now : Z) : N turn_result :=
  let* seq := select (next_sequence sid (sd_username sd)) in
  let* env := signed sd sid seq agent_id now (am_kind m) [("content", JStr (am_content m))] in
  let* ack := ingest (plain_args (default_keys sd keys)) env now in
  let* enc := encrypt_field vault_key (Some (json_dumps dumps_default (JObj env))) in
  let* u := draw uuid4 in
  enqueue false ("q_" +:+ hex12 u) sid seq peer (am_kind m) (default "" enc) (iso_text (iso now)) ;;;
  commit ;;;
  ret (Emitted (ack_status ack) seq (am_kind m)).

(** The answer once it passed validation: steps 6 to 9. *)
Definition carry_out (sd : sender) (keys : option (json -> option public_key)) (sid : string) (tn : turn)
    (response : AdapterResponse) (now : Z) : N turn_result :=
  let owner := sd_username sd in
  activity_events owner (tn_agent tn) sid (rs_events response) ;;;
  let* stop := approval_events owner (tn_agent tn) sid (tn_card tn) now (rs_events response) in
  match stop with
  | Some r => ret r
  | None =>
      let* stop := match rs_message response with
                   | Some m => message_gate owner (tn_agent tn) sid (tn_card tn) m now
                   | None => ret None
                   end in
      match stop with
      | Some r => ret r
      | None =>
          keep_artifacts owner sid (tn_card tn) now (rs_artifacts response) ;;;
          match rs_message response with
          | Some m => emit_message sd keys (tn_agent tn) sid (peer_of owner (tn_row tn)) m now
          | None => ret Advanced
          end
      end
  end.

(** The agent is called; its cost is counted before. *)
Definition run_agent (sd : sender) (keys : option (json -> option public_key)) (sid : string) (tn : turn) (now : Z)
  : N turn_result :=
  let owner := sd_username sd in
  let* request := select (build_request owner sid tn) in
  execute (set_sessions (update_where (fun r => String.eqb (s_id r) sid) cost_counted)) ;;;
  commit ;;;
  let* response := draw (fun n => agent n (tn_card tn) request) in
  let* response := mlift response in
  match rs_error response with
  | Some e => handle_error owner sid e now
  | None =>
      let* rejected := validate_adapter_output vault_key response (tn_card tn) sid in
      match rejected with
      | Some _ => node_command sid "mark_failed" now ;;; mraise "SECURITY_REJECTION"
      | None => carry_out sd keys sid tn response now
      end
  end.

Definition advance_session_turn (sd : sender) (keys : option (json -> option public_key)) (sid : string) (now : Z)
  : N turn_result :=
  let owner := sd_username sd in
  let* tn := select (start_turn owner sid) in
  let* tn := mlift tn in
  let* ex := mlift (exhausted (tn_state tn) (tn_row tn) now) in
  match ex with
  | Some (dim, reason) =>
      pause_session vault_key lax_int public_of_bytes private_of_bytes kc http_post
        {| sd_username := owner; sd_key := sd_key sd; sd_x25519 := ""; sd_endpoint := None; sd_relay := None;
           sd_recipient := None |} sid reason now ;;;
      write_audit_event vault_key "budget_exhausted" reason (Some sid) (Some owner)
        (Some (JObj [("exhausted_dimension", JStr dim)])) None ;;;
      ret (TurnPaused reason dim)
  | None => run_agent sd keys sid tn now
  end.

(** [_execute_node_command]. *)
Definition execute_node_command (state : SessionState) (command : string) : N ReducerResult :=
  let res := process_node_command state command in
  if success res then
    let* now_str := iso_now None in
    execute (set_status (st_session_id state) (status (new_state res)) now_str) ;;; commit ;;; ret res
  else ret res.

(** ** The nudge *)

(** [MAX(created_at)] of the owner's status events. *)
Definition last_nudge (owner sid : string) (t : tables) : option string :=
  foldr (fun r acc => match acc with
                      | Some x => Some (if String.leb x (e_created_at r) then e_created_at r else x)
                      | None => Some (e_created_at r)
                      end) None
    (List.filter (fun r => String.eqb (e_session r) sid && String.eqb (e_actor r) owner
                           && String.eqb (e_kind r) "status_event") (session_events t)).

(** The last nudge is less than the limit ago; a time that cannot be read or
    has no zone does not count. *)
Definition nudge_limited (owner sid : string) (now rate_limit_seconds : Z) (t : tables) : bool :=
  match last_nudge owner sid t with
  | Some (String _ _ as text) =>
      match from_iso (replace_text "Z" "+00:00" text) with
      | Some (local, Some offset) => (now - (local - offset) <? rate_limit_seconds * 1000000)%Z
      | _ => false
      end
  | _ => false
  end.

Definition send_status_nudge (owner sid message_text : string) (now rate_limit_seconds : Z) : N append_result :=
  let* limited := select (nudge_limited owner sid now rate_limit_seconds) in
  if (limited : bool) then mraise "RATE_LIMIT_EXCEEDED"
  else append_session_event vault_key sid owner (Some "") "status_event" "peer_visible"
         (Some (JObj [("nudge_message", JStr message_text)])) None None.

(** ** Tag-in *)

(** [l[-n:]]. *)
Definition last_n {A} (n : nat) (l : list A) : list A := drop (length l - n) l.

Definition peer_visible (ev : json) : bool := String.eqb (text_field "visibility" "" ev) "peer_visible".
Definition told (ev : json) : bool :=
  peer_visible ev && negb (str_in (text_field "kind" "" ev) ["activity"; "status_event"]).

(** [payload.get("content")], or the text of a payload that is no object. *)
Definition content_of (ev : json) : json :=
  match payload_field ev with
  | JObj d => default JNull (obj_get "content" d)
  | v => JStr (py_str v)
  end.

Definition transcript_entry (ev : json) : json :=
  JObj [("actor", JStr (text_field "actor_username" "" ev)); ("kind", JStr (text_field "kind" "" ev));
        ("content", if json_truthy (content_of ev) then content_of ev else JStr "")].

Definition of_kind (k : MessageKind) (ev : json) : bool :=
  String.eqb (text_field "kind" "" ev) (MessageKind_value k).

Definition handoff_package (objective : option string) (replacement : string) (evs : list json) : document :=
  let told_events := List.filter told evs in
  let payloads k := map payload_field (List.filter (of_kind k) told_events) in
  [("objective", opt_json_str objective);
   ("open_questions", JList (List.filter json_truthy
      (last_n 20 (map content_of (List.filter (of_kind QUESTION) told_events)))));
   ("replacement_agent_id", JStr replacement);
   ("verified_transcript", JList (last_n 50 (map transcript_entry told_events)));
   ("accepted_artifacts", JList (last_n 20 (payloads ARTIFACT_ACCEPT)));
   ("decisions", JList (last_n 20 (payloads APPROVAL_DECISION)))].

(** The agent column of the owner's side. *)
Definition side_agent (owner : string) (r : session_row) : option string :=
  if String.eqb owner (s_initiator r) then s_sender_agent r else s_receiver_agent r.
Definition set_side_agent (owner sid replacement : string) (r : session_row) : tables -> tables :=
  if String.eqb owner (s_initiator r) then set_sender_agent sid replacement
  else set_receiver_agent sid (Some replacement).

(** The envelope built in place, when no X25519 key is at hand; without a
    current agent it has [null] for an agent and is rejected. *)
Definition announce_locally (sd : sender) (keys : option (json -> option public_key)) (sid : string)
    (current : option string) (package : document) (now : Z) : N (string * Z) :=
  let* seq := select (next_sequence sid (sd_username sd)) in
  let* hash := mlift (match compute_content_hash package with Some h => Ok h | None => Err "ValueError" end) in
  let base := obj_set "actor_agent_id" (opt_json_str current)
                (envelope_dict sid seq (sd_username sd) (default "" current) (iso_text (iso now))
                   PARTICIPANT_CHANGED hash package) in
  let* signature := mlift (match sign_envelope base (sd_key sd) with Some x => Ok x | None => Err "ValueError" end) in
  let* ack := ingest (plain_args (default_keys sd keys)) (obj_set "signature" (JStr signature) base) now in
  ret (ack_status ack, seq).

(** [SELECT MAX(sequence)]. *)
Definition last_sequence (sid actor : string) (t : tables) : Z := (next_sequence sid actor t - 1)%Z.

(** The status and the sequence number; [with_x] says whether the owner's
    X25519 key was given.  The column is updated whatever the status. *)
Definition tag_in_handoff (sd : sender) (keys : option (json -> option public_key)) (sid replacement : string)
    (with_x : bool) (now : Z) : N (string * Z) :=
  let owner := sd_username sd in
  let* found := select (get_card replacement) in
  if negb (match found with Some r => ag_enabled r | None => false end) then mraise "INVALID_REPLACEMENT_AGENT"
  else
    let* state := select (reconstruct_session_state vault_key sid) in
    let* state := mlift state in
    let* row := select (find_session sid) in
    match state, row with
    | Some state, Some r =>
        let* objective := mlift (decrypt_field_or_plaintext vault_key (s_objective r)) in
        let package := handoff_package objective replacement (events state) in
        let current := side_agent owner r in
        if bool_decide (current = Some replacement) then mraise "SAME_AGENT"
        else
          let* answer :=
            (if with_x
             then let* st := send_session_message vault_key lax_int public_of_bytes private_of_bytes kc http_post
                               sd sid PARTICIPANT_CHANGED package current now in
                  let* seq := select (last_sequence sid owner) in
                  ret (st, seq)
             else announce_locally sd keys sid current package now) in
          execute (set_side_agent owner sid replacement r) ;;;
          commit ;;;
          ret answer
    | _, _ => mraise "SESSION_NOT_FOUND"
    end.
End orchestrator.

(** ** What a turn sends *)

Section turn_props.
Context `{NodeEnv} `{Jcs} `{Ed25519} `{Clock} `{X25519} `{LatestRow} (vault_key : bytes).
Context (lax_int : json -> option Z).
Context (public_of_bytes : bytes -> option public_key) (private_of_bytes : bytes -> option private_key).
Context (kc : keychain) (http_post : nat -> string -> json -> http_result).

Abbreviation ingest := (ingest_envelope vault_key lax_int public_of_bytes private_of_bytes kc http_post 2).

Lemma execute_queue f : (forall t, outbound_queue (f t) = outbound_queue t) -> keeps same_queue (execute f).
Proof. intros Hf s. apply Hf. Qed.

Lemma insert_queue ok f : (forall t, outbound_queue (f t) = outbound_queue t) -> keeps same_queue (insert_checked ok f).
Proof.
  intros Hf. unfold insert_checked. solve_keeps; first [by apply execute_queue | by apply quiet_same_queue, select_only_audit].
Qed.

Lemma core_queue {A} (m : N A) : keeps core_only m -> keeps same_queue m.
Proof. apply keeps_weaken, core_same_queue. Qed.
End turn_props.

(** Steps that leave the outbound queue alone. *)
Ltac queue_step :=
  first [ apply execute_queue; by intros ? | apply insert_queue; by intros ?
        | apply core_queue; first [ apply command_core | core_step ]
        | apply quiet_same_queue; first [ apply validate_audit | apply write_audit_only | solve [eauto with keeps] ]
        | apply ingest_same_queue ].

Section turn_frames.
Context `{NodeEnv} `{Jcs} `{Ed25519} `{Clock} `{X25519} `{LatestRow} (vault_key : bytes).
Context (lax_int : json -> option Z).
Context (public_of_bytes : bytes -> option public_key) (private_of_bytes : bytes -> option private_key).
Context (kc : keychain) (http_post : nat -> string -> json -> http_result).

Lemma evaluate_queue card action ctx sid now :
  keeps same_queue (evaluate_action_for_session card action ctx sid now).
Proof. unfold evaluate_action_for_session. solve_keeps; queue_step. Qed.

Lemma await_queue agent_id sid q exp now : keeps same_queue (await_owner vault_key agent_id sid q exp now).
Proof. unfold await_owner, create_pending_approval. solve_keeps; queue_step. Qed.

Lemma security_queue owner sid summary payload : keeps same_queue (security_rejection vault_key owner sid summary payload).
Proof. unfold security_rejection. solve_keeps; queue_step. Qed.

Lemma handle_error_queue owner sid e now : keeps same_queue (handle_error vault_key owner sid e now).
Proof. unfold handle_error. solve_keeps; queue_step. Qed.

Lemma activity_queue owner agent_id sid l : keeps same_queue (activity_events vault_key owner agent_id sid l).
Proof. induction l as [|[] l IH]; cbn [activity_events]; solve_keeps; try queue_step; apply IH. Qed.

Lemma approvals_queue owner agent_id sid card now l :
  keeps same_queue (approval_events vault_key owner agent_id sid card now l).
Proof.
  induction l as [|[] l IH]; cbn [approval_events]; solve_keeps; try apply IH;
    first [apply evaluate_queue | apply security_queue | apply await_queue].
Qed.

Lemma message_gate_queue owner agent_id sid card m now :
  keeps same_queue (message_gate vault_key owner agent_id sid card m now).
Proof.
  unfold message_gate. solve_keeps;
    first [apply evaluate_queue | apply security_queue | apply await_queue | queue_step].
Qed.

Lemma keep_artifact_queue owner sid card now a : keeps same_queue (keep_artifact vault_key owner sid card now a).
Proof.
  unfold keep_artifact, store_artifact, insert_artifact, encrypt_bytes, iso_now, increment_session_artifact_bytes.
  solve_keeps; first [apply security_queue | queue_step].
Qed.

Lemma keep_artifacts_queue owner sid card now l : keeps same_queue (keep_artifacts vault_key owner sid card now l).
Proof. induction l as [|a l IH]; cbn [keep_artifacts]; solve_keeps; first [apply keep_artifact_queue|apply IH]. Qed.

Lemma owner_switch_queue sd sid c st ev reason now :
  keeps same_queue
    (owner_switch vault_key lax_int public_of_bytes private_of_bytes kc http_post sd sid c st ev reason now).
Proof. unfold owner_switch, owner_transition, announce_switch, signed. solve_keeps; queue_step. Qed.
End turn_frames.

Section turn_theorem.
Context `{NodeEnv} `{Jcs} `{Ed25519} `{Clock} `{X25519} `{LatestRow} (vault_key : bytes).
Context (lax_int : json -> option Z).
Context (public_of_bytes : bytes -> option public_key) (private_of_bytes : bytes -> option private_key).
Context (kc : keychain) (http_post : nat -> string -> json -> http_result).
Context (agent : nat -> AgentCard -> AdapterRequest -> result string AdapterResponse).

Abbreviation advance := (advance_session_turn vault_key lax_int public_of_bytes private_of_bytes kc http_post agent).

(** The queue holds one more row: the signed envelope with the message. *)
Definition emitted (sd : sender) (sid agent_id peer : string) (m : AdapterMessage) (now : Z) (s s' : node) : Prop :=
  exists row seq env,
    outbound_queue (db s') = outbound_queue (db s) ++ [row] /\
    q_session row = sid /\ q_recipient row = peer /\ q_sequence row = seq /\ q_state row = "pending" /\
    build_signed_envelope (sd_key sd) sid seq (sd_username sd) agent_id (iso_text (iso now)) (am_kind m)
      [("content", JStr (am_content m))] = Some env /\
    decrypt_field vault_key (Some (q_envelope row)) = Ok (Some (json_dumps dumps_default (JObj env))).

(** The node after the agent was called. *)
Definition called (sid : string) (s : node) : node :=
  let t := set_sessions (update_where (fun r => String.eqb (s_id r) sid) cost_counted) (db s) in
  {| db := t; committed := t; tick := S (tick s) |}.

(** The policy let the message through: none of the agent's own requests
    stopped the turn, and the relay of the message was then allowed. *)
Definition relay_allowed (owner sid : string) (tn : turn) (evs : list AdapterEvent) (m : AdapterMessage) (now : Z)
    (s : node) : Prop :=
  exists s1 s2 s3 res,
    activity_events vault_key owner (tn_agent tn) sid evs s = (Ok tt, s1) /\
    approval_events vault_key owner (tn_agent tn) sid (tn_card tn) now evs s1 = (Ok None, s2) /\
    evaluate_action_for_session (tn_card tn) INFORMATIONAL_RELAY
      [("session_id", JStr sid); ("kind", JStr (MessageKind_value (am_kind m)))] sid (iso_text (iso now)) s2 = (Ok res, s3) /\
    decision res = ALLOW.

Lemma message_gate_passes owner agent_id sid card m now s s' :
  message_gate vault_key owner agent_id sid card m now s = (Ok None, s') ->
  exists res s1, evaluate_action_for_session card INFORMATIONAL_RELAY
    [("session_id", JStr sid); ("kind", JStr (MessageKind_value (am_kind m)))] sid (iso_text (iso now)) s = (Ok res, s1) /\
    decision res = ALLOW.
Proof.
  unfold message_gate. unfold bind at 1.
  destruct (evaluate_action_for_session _ _ _ _ _ s) as [[res|e] s1] eqn:Ev; [|done].
  destruct (decision res) eqn:Ed; [intros _; by exists res, s1| |].
  - unfold bind. destruct (security_rejection _ _ _ _ _ s1) as [[u|e] s2]; [|done].
    destruct (apply_node_command_transition _ _ _ _ s2) as [[v|e] s3]; done.
  - unfold bind, draw. destruct (negb _); [done|]. by destruct (await_owner _ _ _ _ _ _ _) as [[v|e] s3].
Qed.

Lemma enqueue_run ignore qid sid seq peer kind enc now_str s r s' :
  enqueue ignore qid sid seq peer kind enc now_str s = (r, s') ->
  outbound_queue (db s') = outbound_queue (db s) \/
  outbound_queue (db s') = outbound_queue (db s) ++ [pending_row qid sid seq peer kind enc now_str].
Proof.
  unfold enqueue, insert_checked, bind, select, mgets, execute, mmodify, ret, mraise. cbn [db].
  destruct (existsb _ _); [destruct ignore; intros [= _ <-]; by left|].
  destruct (queue_insertable _ _); intros [= _ <-]; [by right|by left].
Qed.

Lemma emit_run sd keys agent_id sid peer m now s r s' :
  emit_message vault_key lax_int public_of_bytes private_of_bytes kc http_post sd keys agent_id sid peer m now s
    = (r, s') ->
  same_queue s s' \/ emitted sd sid agent_id peer m now s s'.
Proof.
  unfold emit_message. unfold bind at 1, select at 1, mgets at 1. unfold bind at 1, signed.
  destruct (build_signed_envelope _ _ _ _ _ _ _ _) as [env|] eqn:Eb; [|intros [= _ <-]; by left].
  unfold ret at 1. unfold bind at 1.
  match goal with |- context [ingest_envelope _ _ _ _ _ _ 2 ?a env now s] =>
    pose proof (ingest_same_queue vault_key lax_int public_of_bytes private_of_bytes kc http_post 2 a env now s) as Hq;
    destruct (ingest_envelope vault_key lax_int public_of_bytes private_of_bytes kc http_post 2 a env now s)
      as [[ack|e] s1] end; cbn [snd] in Hq; [|intros [= _ <-]; by left].
  unfold bind at 1. rewrite encrypt_field_run. unfold bind at 1, draw. unfold bind at 1. cbn [db committed tick default].
  destruct (enqueue _ _ _ _ _ _ _ _ _) as [r2 s2] eqn:Eq. apply enqueue_run in Eq. cbn [db] in Eq.
  intros Hr. assert (Hd : db s' = db s2).
  { destruct r2; cbv delta [bind commit ret mmodify] beta iota in Hr; by injection Hr as _ <-. }
  unfold same_queue in *. destruct Eq as [Eq|Eq]; [left; by rewrite Hd, Eq|right]. eexists _, _, env.
  rewrite Hd, Eq, Hq. split; [reflexivity|]. split_and!; [done|done|done|done|exact Eb|].
  cbn [q_envelope pending_row default]. apply decrypt_encrypted.
Qed.

Lemma bind_run {A B} (m1 : N A) (k : A -> N B) s a s1 : m1 s = (Ok a, s1) -> bind m1 k s = k a s1.
Proof. intros E. unfold bind. by rewrite E. Qed.

Lemma emitted_after sd sid agent_id peer m now s s1 s' :
  same_queue s s1 -> emitted sd sid agent_id peer m now s1 s' -> emitted sd sid agent_id peer m now s s'.
Proof. unfold same_queue. intros E (row & seq & env & Hrow & Hrest). exists row, seq, env. rewrite <- E. by split. Qed.

(** What carrying out an accepted answer sends. *)
Lemma carry_out_run sd keys sid tn response now s r s' :
  carry_out vault_key lax_int public_of_bytes private_of_bytes kc http_post sd keys sid tn response now s = (r, s') ->
  same_queue s s' \/
  exists m, rs_message response = Some m /\
    relay_allowed (sd_username sd) sid tn (rs_events response) m now s /\
    emitted sd sid (tn_agent tn) (peer_of (sd_username sd) (tn_row tn)) m now s s'.
Proof.
  unfold carry_out. unfold bind at 1.
  pose proof (activity_queue vault_key (sd_username sd) (tn_agent tn) sid (rs_events response) s) as Q1.
  destruct (activity_events _ _ _ _ _ s) as [[[]|e] s1] eqn:E1; cbn [snd] in Q1; [|intros [= _ <-]; by left].
  unfold bind at 1.
  pose proof (approvals_queue vault_key (sd_username sd) (tn_agent tn) sid (tn_card tn) now (rs_events response) s1) as Q2.
  destruct (approval_events _ _ _ _ _ _ _ s1) as [[[x|]|e] s2] eqn:E2; cbn [snd] in Q2;
    try (intros [= _ <-]; left; by etrans).
  unfold bind at 1. destruct (rs_message response) as [m|] eqn:Em.
  - pose proof (message_gate_queue vault_key (sd_username sd) (tn_agent tn) sid (tn_card tn) m now s2) as Q3.
    destruct (message_gate _ _ _ _ _ m now s2) as [[[x|]|e] s3] eqn:Eg; cbn [snd] in Q3;
      try (intros [= _ <-]; left; do 2 (etrans; [done|]); done).
    apply message_gate_passes in Eg as (res & s3' & Ev & Ed). unfold bind at 1.
    pose proof (keep_artifacts_queue vault_key (sd_username sd) sid (tn_card tn) now (rs_artifacts response) s3) as Q4.
    assert (Q : forall s0, same_queue s3 s0 -> same_queue s s0) by (intros s0 Q; do 3 (etrans; [done|]); done).
    destruct (keep_artifacts _ _ _ _ _ _ s3) as [[v|e] s4]; cbn [snd] in Q4; [|intros [= _ <-]; left; auto].
    intros [Hq|He]%emit_run; [left; apply Q; by etrans|]. right. exists m. split; [done|].
    split; [by exists s1, s2, s3', res|]. eapply emitted_after; [by apply Q|exact He].
  - unfold ret at 1. unfold bind at 1.
    pose proof (keep_artifacts_queue vault_key (sd_username sd) sid (tn_card tn) now (rs_artifacts response) s2) as Q3.
    destruct (keep_artifacts _ _ _ _ _ _ s2) as [[v|e] s4]; cbn [snd] in Q3;
      intros [= _ <-]; left; do 2 (etrans; [done|]); done.
Qed.

(** C15: Nothing an agent says leaves the node unchecked, however the agent
    behaves: a turn either leaves the outbound queue as it was, or adds exactly
    one row, and then the session was open for the owner (not finished, paused
    or waiting for approval), no budget was used up, the agent answered without
    error and acceptably, the policy allowed the relay of this very message,
    and the row is the owner's signed envelope with the agent's text. *)
Theorem turn_emits_gated sd keys sid now s r s' :
  advance sd keys sid now s = (r, s') ->
  outbound_queue (db s') = outbound_queue (db s) \/
  exists tn n response m,
    start_turn vault_key lax_int (sd_username sd) sid (db s) = Ok tn /\
    exhausted (tn_state tn) (tn_row tn) now = Ok None /\
    agent n (tn_card tn) (build_request vault_key (sd_username sd) sid tn (db s)) = Ok response /\
    rs_error response = None /\ acceptable response (tn_card tn) /\ rs_message response = Some m /\
    relay_allowed (sd_username sd) sid tn (rs_events response) m now (called sid s) /\
    emitted sd sid (tn_agent tn) (peer_of (sd_username sd) (tn_row tn)) m now s s'.
Proof.
  unfold advance_session_turn. unfold bind at 1, select at 1, mgets at 1. unfold bind at 1, mlift at 1.
  destruct (start_turn _ _ _ _ _) as [tn|e] eqn:Et; [|intros [= _ <-]; by left]. unfold bind at 1, mlift at 1.
  destruct (exhausted _ _ _) as [[[dim reason]|]|e] eqn:Ex; [| |intros [= _ <-]; by left].
  - match goal with |- ?m s = _ -> _ => assert (Hk : keeps same_queue m) end.
    { unfold pause_session. solve_keeps; first [apply owner_switch_queue | queue_step]. }
    intros Hr. left. exact (keeps_run _ _ _ _ _ Hk Hr).
  - unfold run_agent. unfold bind at 1, select at 1, mgets at 1. erewrite bind_run; [|reflexivity].
    erewrite bind_run; [|reflexivity]. erewrite bind_run; [|reflexivity]. cbn [db tick committed on_db].
    match goal with |- bind _ _ ?x = _ -> _ => change x with (called sid s) end. set (s1 := called sid s).
    assert (Q1 : same_queue s s1) by done. unfold bind at 1, mlift at 1.
    destruct (agent _ _ _) as [response|e] eqn:Ea; [|intros [= _ <-]; by left].
    destruct (rs_error response) as [err|] eqn:Ee.
    { intros Hr. left. exact (keeps_run _ _ _ _ _ (handle_error_queue _ _ _ _ _) Hr). }
    unfold bind at 1. destruct (validate_adapter_output _ _ _ _ s1) as [[[why|]|e] s2] eqn:Ev.
    + pose proof (keeps_run _ _ _ _ _ (quiet_same_queue _ (validate_audit _ _ _ _)) Ev) as Q2.
      match goal with |- ?m s2 = _ -> _ => assert (Hk : keeps same_queue m) by (solve_keeps; queue_step) end.
      intros Hr. left. pose proof (keeps_run _ _ _ _ _ Hk Hr) as Q3. unfold same_queue in *. congruence.
    + apply validate_accepts in Ev as [Hacc ->]. intros Hr.
      apply carry_out_run in Hr as [Hq|(m & Hm & Hallow & He)]; [left; by rewrite Hq|right].
      exists tn, (tick s), response, m. split_and!; [done..|by eapply emitted_after].
    + pose proof (keeps_run _ _ _ _ _ (quiet_same_queue _ (validate_audit _ _ _ _)) Ev) as Q2.
      intros [= _ <-]. by left.
Qed.
End turn_theorem.

(** ** When no agent is called *)

Section idle_turns.
Context `{NodeEnv} `{Jcs} `{Ed25519} `{Clock} `{X25519} `{LatestRow} (vault_key : bytes).
Context (lax_int : json -> option Z).
Context (public_of_bytes : bytes -> option public_key) (private_of_bytes : bytes -> option private_key).
Context (kc : keychain) (http_post : nat -> string -> json -> http_result).

Abbreviation advance agent := (advance_session_turn vault_key lax_int public_of_bytes private_of_bytes kc http_post agent).

Definition used_up (x : Q) (budget : json) : Prop := exists q, number budget = Some q /\ (q <= x)%Q.

(** A budget of the session is reached. *)
Definition over_budget (r : session_row) (turns now : Z) : Prop :=
  (s_turn_limit r <= turns)%Z \/
  (exists e, elapsed_seconds r now = Ok (Some e) /\ used_up e (s_runtime_budget r)) \/
  used_up (inject_Z (s_artifact_bytes r)) (s_artifact_budget r) \/ used_up (s_cost r) (s_cost_budget r).

Lemma at_least_false x b : at_least x b = Ok false -> ~ used_up x b.
Proof.
  unfold at_least, used_up. intros Ha (q & Hq & Hle). destruct b; try done; rewrite Hq in Ha; injection Ha as Ha;
    (apply Qle_bool_iff in Hle; congruence).
Qed.

Lemma exhausted_None state r now : exhausted state r now = Ok None -> ~ over_budget r (current_turn state) now.
Proof.
  unfold exhausted, over_budget. intros He.
  apply rbind_Ok in He as (elapsed & Hel & He). destruct (s_turn_limit r <=? _)%Z eqn:Et; [done|].
  apply Z.leb_gt in Et. apply rbind_Ok in He as ([|] & Hr & He); [done|].
  apply rbind_Ok in He as ([|] & Hb & He); [done|]. apply rbind_Ok in He as ([|] & Hc & He); [done|].
  apply at_least_false in Hb, Hc. intros [Hx|[(e & Hx & Hu)|[Hx|Hx]]]; [lia| |done|done].
  rewrite Hel in Hx. injection Hx as ->. by apply at_least_false in Hr.
Qed.

(** The session may not be advanced. *)
Definition closed (st : string) : Prop := st ∈ TERMINAL_STATES \/ st = "awaiting_owner_approval" \/ st = "paused".

Lemma start_turn_Ok owner sid t tn :
  start_turn vault_key lax_int owner sid t = Ok tn ->
  exists row, find_session sid t = Some row /\ tn_row tn = row /\ ~ closed (s_status row) /\
    current_turn (tn_state tn) = row_turns (events_of sid t).
Proof.
  unfold start_turn. intros Hr. apply rbind_Ok in Hr as ([state|] & Hs & Hr); [|done].
  unfold reconstruct_session_state in Hs. destruct (find_session sid t) as [row|] eqn:Ef; [|done].
  destruct (_ <? 1)%Z; [done|]. injection Hs as <-. cbn [status participants current_turn] in Hr.
  destruct (str_in _ TERMINAL_STATES) eqn:Et; [done|]. destruct (String.eqb _ "awaiting_owner_approval") eqn:Ea; [done|].
  destruct (String.eqb _ "paused") eqn:Ep; [done|]. destruct (row_participants row !! owner) as [p|]; [|done].
  destruct (get_card _ _) as [ar|]; [|done]. apply rbind_Ok in Hr as (card & _ & Hr).
  apply rbind_Ok in Hr as (obj & _ & [= <-]). exists row. split_and!; [done|done| |done].
  apply String.eqb_neq in Ea, Ep. unfold closed. intros [Hc%str_in_spec|[Hc|Hc]]; congruence.
Qed.

(** The agent is not called behind the owner's back: when the session is
    finished, paused or waiting for an approval, or its turn limit, run time,
    artifact or cost budget is reached, the outcome of a turn, on every table,
    does not depend on the agent at all. *)
Theorem agent_not_called agent1 agent2 sd keys sid now s row :
  find_session sid (db s) = Some row ->
  closed (s_status row) \/ over_budget row (row_turns (events_of sid (db s))) now ->
  advance agent1 sd keys sid now s = advance agent2 sd keys sid now s.
Proof.
  intros Hf Hc. unfold advance_session_turn. unfold bind, select, mgets, mlift.
  destruct (start_turn _ _ _ _ _) as [tn|e] eqn:Et; [|done].
  apply start_turn_Ok in Et as (row' & Hf' & Htn & Hopen & Hturns). rewrite Hf in Hf'. injection Hf' as <-.
  destruct (exhausted _ _ _) as [[[dim reason]|]|e] eqn:Ex; [done| |done].
  apply exhausted_None in Ex. rewrite Htn, Hturns in Ex. by destruct Hc.
Qed.
End idle_turns.

(** ** What a tag-in tells the peer *)

Section handoff_props.
Context `{NodeEnv} (vault_key : bytes).

Definition visible (r : event_row) : bool := String.eqb (e_visibility r) "peer_visible".

Lemma told_visible r : told (event_view vault_key r) = true -> visible r = true.
Proof. unfold told, peer_visible. cbn. by intros [Hv _]%andb_true_iff. Qed.

Lemma told_filter rows :
  List.filter told (map (event_view vault_key) (List.filter visible rows))
  = List.filter told (map (event_view vault_key) rows).
Proof.
  induction rows as [|r rows IH]; [done|]. cbn [List.filter map].
  destruct (visible r) eqn:Ev; cbn [map List.filter]; [by rewrite IH|]. rewrite IH.
  destruct (told (event_view vault_key r)) eqn:Et; [|done]. apply told_visible in Et. congruence.
Qed.

Lemma last_n_length {A} n (l : list A) : length (last_n n l) <= n.
Proof. unfold last_n. rewrite length_drop. lia. Qed.

Definition bounded_list (n : nat) (v : option json) : Prop := exists l, v = Some (JList l) /\ length l <= n.

(** A tag-in package is bounded and never contains local notes: it is the
    same whatever local-only events the log of the session holds, and carries
    at most 50 transcript entries and at most 20 open questions, accepted
    artifacts and decisions. *)
Theorem handoff_disclosure objective replacement rows :
  let package := handoff_package objective replacement (map (event_view vault_key) rows) in
  package = handoff_package objective replacement (map (event_view vault_key) (List.filter visible rows)) /\
  bounded_list 50 (obj_get "verified_transcript" package) /\ bounded_list 20 (obj_get "open_questions" package) /\
  bounded_list 20 (obj_get "accepted_artifacts" package) /\ bounded_list 20 (obj_get "decisions" package).
Proof.
  cbv zeta. split; [unfold handoff_package; by rewrite told_filter|].
  split_and!; (eexists; split; [reflexivity|]); try apply last_n_length.
  etrans; [apply filter_length_le|apply last_n_length].
Qed.
End handoff_props.

(** ** Turns of a demo node *)

Module OrchestratorDemo.
Import AuditDemo SchemaDemo HistoryDemo IngestDemo IdentityDemo ApprovalDemo AdapterDemo.

Definition helper (relay : AutonomyLevel) : AgentCard :=
  {| card_id := "b1"; card_name := "B"; card_description := "a helper";
     adapter := EmbeddedAdapterConfig "openai" "gpt";
     capabilities := {| tags := []; accepts := []; produces := [] |};
     boundaries := {| network_access := "deny"; filesystem := "none"; shell := "deny"; max_runtime_seconds := 60;
                      max_artifact_bytes := 10 |};
     autonomy := {| relay_information := relay; propose_actions := ALWAYS_ASK; execute_local_actions := NEVER |};
     presentation := None |}.
Definition card_text (relay : AutonomyLevel) : string := json_dumps dumps_canonical (JObj (AgentCard_dump (helper relay))).

Definition env : NodeEnv.
Proof.
  refine {| aes_encrypt _ _ p := p; aes_decrypt _ _ p := Some p;
            urandom12 _ := "0123456789ab"; uuid4 n := "id-" +:+ print_int (Z.of_nat n);
            utcnow _ := "2026-07-23T12:00:00+00:00";
            json_loads s := if String.eqb s (card_text ALWAYS_ALLOW) then Some (JObj (AgentCard_dump (helper ALWAYS_ALLOW)))
                            else if String.eqb s (card_text ALWAYS_ASK) then Some (JObj (AgentCard_dump (helper ALWAYS_ASK)))
                            else None;
            model_json := json_dumps dumps_canonical |}; done.
Defined.
#[local] Existing Instances env demo_jcs demo_ed demo_clock demo_x demo_latest.

Definition registered (relay : AutonomyLevel) : agent_row :=
  {| ag_id := "b1"; ag_name := "B"; ag_adapter_type := "embedded";
     ag_local_card := Some (b64encode (seal "key" "0123456789ab" (card_text relay)));
     ag_published_card := None; ag_enabled := true; ag_availability := "ready"; ag_created_at := "";
     ag_updated_at := ""; ag_version := 1 |}.

Definition node_of (relay : AutonomyLevel) (r : session_row) : node :=
  let t := set_agents (fun _ => [registered relay]) (set_sessions (fun _ => [r]) demo_tables) in
  {| db := t; committed := t; tick := 0 |}.

Definition owner : sender :=
  {| sd_username := "bob"; sd_key := "bob-key"; sd_x25519 := "bob-x"; sd_endpoint := None; sd_relay := None;
     sd_recipient := None |}.

Definition turn_of (response : AdapterResponse) (s : node) : result string turn_result * node :=
  advance_session_turn "key" strict_int Some Some KeychainDemo.fresh (fun _ _ _ => RequestError "down")
    (fun _ _ _ => Ok response) owner None "s1" 500 s.

Definition ready : node := node_of ALWAYS_ALLOW (AuditDemo.session "s1" "active").

(** The agent's text is stored, signed and queued. *)
Lemma finding_emitted :
  (turn_of (says FINDING "found it") ready).1 = Ok (Emitted "delivered" 1 FINDING) /\
  map q_kind (outbound_queue (committed (turn_of (says FINDING "found it") ready).2)) = ["finding"].
Proof. vm_compute. split; reflexivity. Qed.

Lemma queue_grew :
  Nat.eqb (length (outbound_queue (db (turn_of (says FINDING "found it") ready).2))) (length (outbound_queue (db ready))) = false.
Proof. vm_compute. reflexivity. Qed.

Lemma turn_emits_gated_witness :
  exists tn response m, response = says FINDING "found it" /\ acceptable response (tn_card tn) /\
    rs_message response = Some m /\ am_content m = "found it".
Proof.
  destruct (@turn_emits_gated env demo_jcs demo_ed demo_clock demo_x demo_latest "key" strict_int Some Some
    KeychainDemo.fresh (fun _ _ _ => RequestError "down") (fun _ _ _ => Ok (says FINDING "found it")) owner None "s1" 500
    ready _ _ (surjective_pairing (turn_of (says FINDING "found it") ready)))
    as [Hq|(tn & n & response & m & _ & _ & Ha & _ & Hacc & Hm & _)].
  - exfalso. pose proof queue_grew as H. rewrite Hq, Nat.eqb_refl in H. inversion H.
  - injection Ha as <-. exists tn, (says FINDING "found it"), m. split; [reflexivity|]. split; [exact Hacc|].
    split; [exact Hm|]. injection Hm as <-. reflexivity.
Defined.

(** A message that needs the owner makes the turn wait; nothing is queued. *)
Example question_waits :
  let run := turn_of (says QUESTION "may I?") (node_of ALWAYS_ASK (AuditDemo.session "s1" "active")) in
  run.1 = Ok (AwaitingApproval "app_id1") /\ outbound_queue (db run.2) = [] /\
  map s_status (sessions (db run.2)) = ["awaiting_owner_approval"].
Proof. vm_compute. split_and!; reflexivity. Qed.

(** An agent that names another session in its request gets the pending row
    recorded there, while its own session waits. *)
Definition elsewhere : AdapterResponse :=
  {| rs_events := [AdapterApprovalEvent {| req_approval_id := "p"; req_session_id := "s2"; req_agent_id := "b1";
       req_action_class := SESSION_PARTICIPATION; req_summary := ""; req_reason := ""; req_risk_label := LOW; req_scope := [];
       req_expires_at := "2027-01-01T00:00:00Z" |}];
     rs_message := None; rs_artifacts := []; rs_terminal := false; rs_error := None |}.

Definition two_sessions : node :=
  let t := set_sessions (fun l => l ++ [AuditDemo.session "s2" "active"]) (db ready) in
  {| db := t; committed := t; tick := 0 |}.

Example request_filed_elsewhere :
  let run := turn_of elsewhere two_sessions in
  run.1 = Ok (AwaitingApproval "p") /\ map ap_session (approvals (db run.2)) = ["s2"] /\
  map s_status (sessions (db run.2)) = ["awaiting_owner_approval"; "active"].
Proof. vm_compute. split_and!; reflexivity. Qed.

(** An artifact above the limit of the card fails the session. *)
Example artifact_too_large :
  let run := turn_of {| rs_events := []; rs_message := None; rs_terminal := false; rs_error := None;
                        rs_artifacts := [{| ai_content := inl "0123456789a"; ai_mime_type := "text/plain" |}] |} ready in
  run.1 = Err "ARTIFACT_TOO_LARGE" /\ map s_status (sessions (db run.2)) = ["failed"] /\ artifacts (db run.2) = [].
Proof. vm_compute. split_and!; reflexivity. Qed.

(** A session whose one turn of cost is spent. *)
Definition spent : node :=
  let r := AuditDemo.session "s1" "active" in
  node_of ALWAYS_ALLOW
    {| s_id := s_id r; s_type := s_type r; s_initiator := s_initiator r; s_receiver := s_receiver r;
       s_status := s_status r; s_objective := s_objective r; s_sender_agent := s_sender_agent r;
       s_receiver_agent := s_receiver_agent r; s_snapshot := s_snapshot r; s_turn_limit := s_turn_limit r;
       s_created_at := s_created_at r; s_updated_at := s_updated_at r; s_expires_at := s_expires_at r;
       s_runtime_budget := s_runtime_budget r; s_artifact_budget := s_artifact_budget r;
       s_artifact_bytes := s_artifact_bytes r; s_cost_budget := JInt 1; s_cost := 1;
       s_terminal_result := s_terminal_result r |}.

Lemma agent_not_called_witness :
  turn_of (says FINDING "one") spent = turn_of (says CANCEL "two") spent /\
  map s_status (sessions (db (turn_of (says FINDING "one") spent).2)) = ["paused"].
Proof.
  split; [|vm_compute; reflexivity].
  apply (@agent_not_called env demo_jcs demo_ed demo_clock demo_x demo_latest "key" strict_int Some Some
    KeychainDemo.fresh (fun _ _ _ => RequestError "down") (fun _ _ _ => Ok (says FINDING "one"))
    (fun _ _ _ => Ok (says CANCEL "two")) owner None "s1" 500 spent _ eq_refl).
  right. right. right. right. exists 1%Q. split; [reflexivity|]. vm_compute. discriminate.
Defined.

Definition nudge (s : node) : result string append_result * node :=
  send_status_nudge "key" (fun _ => None) "bob" "s1" "hello?" 500 60 s.

(** The nudge is recorded as peer-visible in a finished session too, unsigned
    and never sent; with a time that does not parse the limit is off. *)
Example nudge_unlimited :
  let s := node_of ALWAYS_ALLOW (AuditDemo.session "s1" "completed") in
  map (fun r => (e_visibility r, e_signature r)) (session_events (db (nudge (nudge s).2).2))
  = [("peer_visible", None); ("peer_visible", None)] /\
  outbound_queue (db (nudge s).2) = [].
Proof. vm_compute. split; reflexivity. Qed.

(** A tag-in whose announcement was rejected (here: in a paused session with no
    agent of the owner) changes the agent all the same. *)
Definition agentless : node :=
  let r := AuditDemo.session "s1" "active" in
  node_of ALWAYS_ALLOW
    {| s_id := s_id r; s_type := s_type r; s_initiator := s_initiator r; s_receiver := s_receiver r;
       s_status := s_status r; s_objective := s_objective r; s_sender_agent := s_sender_agent r;
       s_receiver_agent := None; s_snapshot := s_snapshot r; s_turn_limit := s_turn_limit r;
       s_created_at := s_created_at r; s_updated_at := s_updated_at r; s_expires_at := s_expires_at r;
       s_runtime_budget := s_runtime_budget r; s_artifact_budget := s_artifact_budget r;
       s_artifact_bytes := s_artifact_bytes r; s_cost_budget := s_cost_budget r; s_cost := s_cost r;
       s_terminal_result := s_terminal_result r |}.

Example rejected_tag_in_takes_effect :
  let run := tag_in_handoff "key" strict_int Some Some KeychainDemo.fresh (fun _ _ _ => RequestError "down")
               owner None "s1" "b1" false 500 agentless in
  run.1 = Ok ("rejected", 1%Z) /\ map s_receiver_agent (sessions (db run.2)) = [Some "b1"] /\
  session_events (db run.2) = [].
Proof. vm_compute. split_and!; reflexivity. Qed.
End OrchestratorDemo.
