(* ===== verification/Tasks.v ===== *)
(** * Tasks of the first protocol

    The task routes of [kin/node/routes.py] with the request models of
    [kin/node/models.py]: [process_create_task], [process_send_message],
    [auto_relay_information_response], [get_task_status] and the two POST
    routes.  The reply of an agent backend ([Backend]), the network and the
    keychain are parameters; a handler returns its status code with its body,
    an exception it does not handle is an error. *)

From Stdlib Require Import Ascii String ZArith Lia.
From stdpp Require Import base gmap sets list strings.
From S2P Require Import Prelude Regex Codec PyValue Schemas Cards Store AuditLog History Ingest Keychain.
From S2P Require Import Identity RetryQueue Backend.

#[local] Open Scope nat_scope.

Definition MAX_TASK_MESSAGES : nat := 10.

(** ** Request models *)

Record CreateTaskRequest := {
  goal : string;
  task_context : document;
  requester_username : string
}.

Definition CreateTaskRequest_validate (v : json) : option CreateTaskRequest :=
  match v with
  | JObj d => g <- field_str "goal" d ;; c <- field_object "context" d ;; u <- field_str "requester_username" d ;;
              Some {| goal := g; task_context := c; requester_username := u |}
  | _ => None
  end.

Definition MESSAGE_TYPES : list string :=
  ["proposal"; "counter_proposal"; "question"; "answer"; "confirmation"; "finalize_proposal"; "finalize_accept"].

Record SendMessageRequest := {
  from_username : string;
  content : string;
  sm_type : string;
  origin_ref_id : option string
}.

Definition SendMessageRequest_validate (v : json) : option SendMessageRequest :=
  match v with
  | JObj d => f <- field_str "from_username" d ;; c <- field_str "content" d ;; t <- field_str "message_type" d ;;
              _ <- check (str_in t MESSAGE_TYPES) ;; o <- field_opt_str "origin_ref_id" d ;;
              Some {| from_username := f; content := c; sm_type := t; origin_ref_id := o |}
  | _ => None
  end.

(** ** Rows *)

(** Status, result, draft, agent name and peer id of a task replaced. *)
Definition task_with (st result_ draft_content draft_type agent peer_id : option string) (now : string) (r : task_row)
  : task_row :=
  {| t_id := t_id r; t_contact := t_contact r; t_goal := t_goal r; t_context := t_context r; t_status := st;
     t_created_at := t_created_at r; t_updated_at := now; t_result := result_; t_draft_content := draft_content;
     t_draft_type := draft_type; t_agent_name := agent; t_peer_agent_name := t_peer_agent_name r;
     t_peer_task_id := peer_id; t_origin_ref_id := t_origin_ref_id r |}.

Definition with_status (st : option string) (now : string) (r : task_row) : task_row :=
  task_with st (t_result r) (t_draft_content r) (t_draft_type r) (t_agent_name r) (t_peer_task_id r) now r.
Definition with_draft (draft_content draft_type : option string) (st : option string) (now : string) (r : task_row) : task_row :=
  task_with st (t_result r) draft_content draft_type (t_agent_name r) (t_peer_task_id r) now r.
Definition with_result (result_ : string) (st : string) (now : string) (r : task_row) : task_row :=
  task_with (Some st) (Some result_) (t_draft_content r) (t_draft_type r) (t_agent_name r) (t_peer_task_id r) now r.
Definition finalized (result_ : string) (now : string) (r : task_row) : task_row :=
  task_with (Some "completed") (Some result_) None None (t_agent_name r) (t_peer_task_id r) now r.
Definition with_peer_id (peer_id : string) (r : task_row) : task_row :=
  task_with (t_status r) (t_result r) (t_draft_content r) (t_draft_type r) (t_agent_name r) (Some peer_id)
    (t_updated_at r) r.

Definition update_task (task_id : string) (f : task_row -> task_row) : tables -> tables :=
  set_tasks (update_where (fun r => String.eqb (t_id r) task_id) f).

Definition task_by_id (task_id : string) (t : tables) : option task_row :=
  find_first (fun r => String.eqb (t_id r) task_id) (tasks t).
(** [WHERE task_id = ? OR peer_task_id = ?]. *)
Definition task_by_either (id : string) (t : tables) : option task_row :=
  find_first (fun r => String.eqb (t_id r) id || bool_decide (t_peer_task_id r = Some id)) (tasks t).

Definition messages_of (task_id : string) (t : tables) : list message_row :=
  List.filter (fun m => String.eqb (m_task m) task_id) (messages t).

(** The two [INSERT]s with the keys of their tables. *)
Definition insert_task (r : task_row) : N unit :=
  insert_checked (fun t => match task_by_id (t_id r) t, find_contact (t_contact r) t with
                           | None, Some _ => true
                           | _, _ => false
                           end)
    (set_tasks (fun l => l ++ [r])).
Definition insert_message (m : message_row) : N unit :=
  insert_checked (fun t => negb (existsb (fun x => String.eqb (m_id x) (m_id m)) (messages t))
                           && match task_by_id (m_task m) t with Some _ => true | None => false end)
    (set_messages (fun l => l ++ [m])).

Definition CLOSED : list string := ["completed"; "failed"].
Definition is_closed (st : option string) : bool := match st with Some s => str_in s CLOSED | None => false end.

Definition detail (text : string) : document := [("detail", JStr text)].

(** The class of an exception without its module. *)
Definition class_name (e : string) : string := if startswith "sqlite3." e then str_drop 8 e else e.

Section tasks.
Context `{NodeEnv} `{Ed25519} `{X25519}.
Context (public_of_bytes : bytes -> option public_key) (private_of_bytes : bytes -> option private_key).
Context (kc : keychain) (profile : string).
(** [client.post(url, content=.., headers=..)] and [client.post(url, json=..)]. *)
Context (post_content : nat -> string -> bytes -> list (string * string) -> http_result).
Context (http_post : nat -> string -> json -> http_result).
(** [KIN_RELAY_URL], the roster of the profile, the reply of the backend of an
    agent. *)
Context (relay_env : option string) (the_roster : result string (list (string * AgentConfig))).
Context (reply_to : nat -> option string -> AgentBackendRequest -> result failure AgentBackendResponse).
(** The text of an exception, whether its class belongs to the OpenAI client,
    and how SQLite stores a number in a text column. *)
Context (err_text : string -> string) (is_openai : string -> bool) (number_text : json -> string).

(** ** Keys and values *)

(** [verify_signature] of [kin/identity/keys.py]. *)
Definition verify_signature (public_key message signature : bytes) : bool :=
  match public_of_bytes public_key with
  | Some k => ed_verify k signature message
  | None => false
  end.

(** [sign_message(load_private_key(profile), message)]. *)
Definition sign_with_profile (message : bytes) : result string bytes :=
  match (load_private_key profile kc).1 with
  | Err e => Err e
  | Ok b => match private_of_bytes b with Some k => Ok (ed_sign k message) | None => Err "ValueError" end
  end.

(** [bytes.fromhex(contact_pubkey_hex)]. *)
Definition contact_key (c : contact_row) : result string bytes :=
  match c_public_key c with
  | None => Err "TypeError"
  | Some h => match fromhex h with Some b => Ok b | None => Err "ValueError" end
  end.

(** A value bound to a text column. *)
Definition bind_text (v : json) : result string (option string) :=
  match v with
  | JNull => Ok None
  | JStr s => Ok (Some s)
  | JList _ | JObj _ => Err "sqlite3.ProgrammingError"
  | JInt z => if ((z <? - 2 ^ 63) || (2 ^ 63 <=? z))%Z then Err "OverflowError" else Ok (Some (number_text v))
  | _ => Ok (Some (number_text v))
  end.

Definition success (code : Z) : bool := ((200 <=? code) && (code <? 300))%Z.

Definition relay_base : string := strip_slash (default "http://localhost:8000" relay_env).

(** ** Answering without review *)

(** [response.json()["status"]]: [None] for the exceptions the caller turns
    into a refusal. *)
Definition status_of_body (text : string) : result string (option json) :=
  match json_loads text with
  | None => Ok None
  | Some (JObj d) => Ok (obj_get "status" d)
  | Some _ => Err "TypeError"
  end.

Definition relay_envelope (target : string) (payload : bytes) (signature : string) : document :=
  [("type", JStr "send_message"); ("task_id", JStr target); ("payload_bytes", JStr (hexlify payload));
   ("signature", JStr signature)].

(** The fallback over the relay: whether the relay took the message. *)
Definition relay_answer (own contact target : string) (contact_x : option string) (payload : bytes)
    (signature : string) : N bool :=
  match contact_x with
  | Some (String _ _ as hex) =>
      match (load_x25519_private_key profile kc).1, fromhex hex with
      | Ok priv, Some pub =>
          let text := json_dumps dumps_compact (JObj (relay_envelope target payload signature)) in
          let* sealed := mcatch (let* c := encrypt_for_recipient priv pub (utf8_encode text) in ret (Some c))
                           (fun _ => ret None) in
          match sealed with
          | None => ret false
          | Some c =>
              let* resp := draw (fun n => http_post n (relay_base +:+ "/relay/mailbox/" +:+ contact)
                                            (queue_relay_body own c)) in
              match resp with
              | Responded code _ => ret (success code)
              | RequestError _ => ret false
              end
          end
      | _, _ => ret false
      end
  | _ => ret false
  end.

(** The answer to a message posted with its signature: the status to record,
    if the peer or the relay took it. *)
Definition post_answer (own contact target : string) (endpoint contact_x : option string) (payload : bytes)
    (signature : string) : N (option json) :=
  match endpoint with
  | None => mraise "AttributeError"
  | Some ep =>
      let url := strip_slash ep +:+ "/tasks/" +:+ target +:+ "/messages" in
      let* resp := draw (fun n => post_content n url payload
                                    [("Content-Type", "application/json"); ("X-Signature", signature)]) in
      match resp with
      | Responded code text => if success code then mlift (status_of_body text) else ret None
      | RequestError _ =>
          let* taken := relay_answer own contact target contact_x payload signature in
          ret (if taken then Some (JStr "queued-relay") else None)
      end
  end.

(** [auto_relay_information_response]. *)
Definition auto_relay_information_response (task_id contact : string) (endpoint contact_x : option string)
    (text : string) : N (option json) :=
  let* own_row := select (fun t => head (identity t)) in
  let* task := select (task_by_id task_id) in
  match own_row, task with
  | Some i, Some r =>
      let own := i_username i in
      let target := or_str (t_peer_task_id r) task_id in
      let payload := utf8_encode (json_dumps dumps_compact (JObj (
        [("from_username", JStr own); ("content", JStr text); ("message_type", JStr "answer")]
        ++ match t_origin_ref_id r with Some (String _ _ as o) => [("origin_ref_id", JStr o)] | _ => [] end))) in
      match sign_with_profile payload with
      | Err _ => ret None
      | Ok sig =>
          let* now := draw utcnow in
          let* st := post_answer own contact target endpoint contact_x payload (hexlify sig) in
          match st with
          | None => ret None
          | Some st =>
              let* id := draw uuid4 in
              insert_message {| m_id := id; m_task := task_id; m_from := own; m_content := text;
                                m_type := Some "answer"; m_created_at := now; m_signature := Some (hexlify sig) |} ;;;
              let* st_text := mlift (bind_text st) in
              execute (update_task task_id (with_draft None None st_text now)) ;;;
              commit ;;;
              ret (match st with JNull => None | _ => Some st end)
          end
      end
  | _, _ => ret None
  end.

(** ** Drafting a reply *)

Definition BACKEND_ERRORS : list string := ["SecretNotFoundError"; "JSONDecodeError"; "ValidationError"].

Definition failure_result (f : failure) : string :=
  let kind := if str_in f.1 BACKEND_ERRORS || is_openai f.1 then "backend error"
              else "unhandled exception: " +:+ class_name f.1 in
  json_dumps dumps_default (JObj [("error", JStr kind); ("detail", JStr f.2)]).

Definition record_failure (task_id now : string) (f : failure) : N json :=
  execute (update_task task_id (with_result (failure_result f) "failed" now)) ;;;
  commit ;;;
  ret (JStr "failed").

(** The draft of the backend, stored for review, then [auto]: the final
    status. *)
Definition draft_reply (task_id now : string) (agent : option string) (q : AgentBackendRequest)
    (auto : AgentBackendResponse -> N (option json)) : N json :=
  let* r := draw (fun n => reply_to n agent q) in
  match r with
  | Err f => record_failure task_id now f
  | Ok a =>
      mcatch
        (execute (update_task task_id (with_draft (Some (reply a)) (Some (message_type a)) (Some "input-required") now)) ;;;
         commit ;;;
         let* st := auto a in
         ret (default (JStr "input-required") st))
        (fun e => record_failure task_id now (e, err_text e))
  end.

(** Whether a draft may leave without review: an answer to a question, for a
    contact with this policy. *)
Definition may_auto_relay (policy : option string) (asked : json) (a : AgentBackendResponse) : bool :=
  bool_decide (policy = Some "auto_relay_info") && bool_decide (asked = JStr "question")
  && String.eqb (message_type a) "answer".

(** ** Creating a task *)

(** The two inserts of [process_create_task] and their commit: the type of
    the first message. *)
Definition store_task (body : CreateTaskRequest) (signature : string) (agent local_ref_id : option string)
    (task_id now : string) : N json :=
  let ctx := task_context body in
  let* peer_name := mlift (bind_text (default JNull (obj_get "peer_agent_name" ctx))) in
  insert_task {| t_id := task_id; t_contact := requester_username body; t_goal := goal body;
                 t_context := Some (json_dumps dumps_default (JObj ctx)); t_status := Some "submitted";
                 t_created_at := now; t_updated_at := now; t_result := None; t_draft_content := None;
                 t_draft_type := None; t_agent_name := agent; t_peer_agent_name := peer_name;
                 t_peer_task_id := None; t_origin_ref_id := local_ref_id |} ;;;
  let kind := default (JStr "question") (obj_get "message_type" ctx) in
  let* id := draw uuid4 in
  let* kind_text := mlift (bind_text kind) in
  insert_message {| m_id := id; m_task := task_id; m_from := requester_username body; m_content := goal body;
                    m_type := kind_text; m_created_at := now; m_signature := Some signature |} ;;;
  commit ;;;
  ret kind.

(** A signature header that decodes, from a contact that was verified, over
    the raw body with the key of that contact. *)
Definition authenticate (username : string) (raw_body : bytes) (x_signature : option string) (who : string) (t : tables)
  : result string (Z * document + contact_row) :=
  match x_signature with
  | Some (String _ _ as sg) =>
      match fromhex sg with
      | None => Ok (inl (401%Z, detail "Invalid signature hex format"))
      | Some sig =>
          let refused := Ok (inl (403%Z, detail (who +:+ " '" +:+ username +:+ "' is not a verified contact."))) in
          match find_contact username t with
          | None => refused
          | Some c =>
              match c_verified_at c with
              | None => refused
              | Some _ =>
                  let? pk := contact_key c in
                  if verify_signature pk raw_body sig then Ok (inr c)
                  else Ok (inl (401%Z, detail "Invalid signature"))
              end
          end
      end
  | _ => Ok (inl (401%Z, detail "Missing X-Signature header"))
  end.

Definition process_create_task (body : CreateTaskRequest) (raw_body : bytes) (x_signature local_ref_id : option string)
  : N (Z * document) :=
  let* found := select (authenticate (requester_username body) raw_body x_signature "Requester") in
  let* auth := mlift found in
  match auth with
  | inl refused => ret refused
  | inr c =>
      let* task_id := draw uuid4 in
      let* now := draw utcnow in
      let agent := match the_roster with Ok r => first_agent r | Err _ => None end in
      let* kind := store_task body (default "" x_signature) agent local_ref_id task_id now in
      let* final := draft_reply task_id now agent
        {| task_goal := goal body; context := task_context body;
           conversation_history := [requester_username body +:+ " (" +:+ py_str kind +:+ "): " +:+ goal body] |}
        (fun a => if may_auto_relay (c_autonomy c) kind a
                  then auto_relay_information_response task_id (requester_username body) (c_endpoint c) (c_x25519 c)
                         (reply a)
                  else ret None) in
      ret (200%Z, [("task_id", JStr task_id); ("status", final)])
  end.

(** ** A message within a task *)

(** The row a message is for: under its own or its peer id, else, reconciled
    and committed, under the local reference in the body. *)
Definition find_task (task_id : string) (body : SendMessageRequest) : N (option task_row) :=
  let* row := select (task_by_either task_id) in
  match row, origin_ref_id body with
  | None, Some (String _ _ as ref) =>
      let* row := select (task_by_id ref) in
      match row with
      | Some _ => execute (update_task ref (with_peer_id task_id)) ;;; commit ;;; ret row
      | None => ret None
      end
  | _, _ => ret row
  end.

Definition history_line (m : message_row) : string :=
  m_from m +:+ " (" +:+ default "None" (m_type m) +:+ "): " +:+ m_content m.

(** The context stored with a task, as the request model takes it. *)
Definition stored_context (r : task_row) : result string document :=
  match t_context r with
  | Some (String _ _ as text) =>
      match json_loads text with
      | Some (JObj d) => Ok d
      | Some _ => Err "ValidationError"
      | None => Err "JSONDecodeError"
      end
  | _ => Ok []
  end.

Definition round_limit_result (count : nat) : string :=
  json_dumps dumps_default (JObj [("reason", JStr "round_limit_reached"); ("round_count", JInt (Z.of_nat count))]).
Definition outcome_result (outcome by_ : string) : string :=
  json_dumps dumps_default (JObj [("outcome", JStr outcome); ("finalized_by", JStr by_)]).

(** An authenticated message within the limit. *)
Definition accept_message (r : task_row) (body : SendMessageRequest) (signature now : string) : N (Z * document) :=
  let task_id := t_id r in
  let answer (st : json) : Z * document := (200%Z, [("status", st)]) in
  let* id := draw uuid4 in
  insert_message {| m_id := id; m_task := task_id; m_from := from_username body; m_content := content body;
                    m_type := Some (sm_type body); m_created_at := now; m_signature := Some signature |} ;;;
  if String.eqb (sm_type body) "finalize_accept" then
    execute (update_task task_id (finalized (outcome_result (content body) (from_username body)) now)) ;;;
    commit ;;; ret (answer (JStr "completed"))
  else if String.eqb (sm_type body) "finalize_proposal" then
    execute (update_task task_id (with_draft (Some (content body)) (Some "finalize_proposal") (Some "input-required") now)) ;;;
    commit ;;; ret (answer (JStr "input-required"))
  else
    execute (update_task task_id (with_status (Some "working") now)) ;;;
    commit ;;;
    let* rows := select (messages_of task_id) in
    let* ctx := mlift (stored_context r) in
    let* final := draft_reply task_id now (t_agent_name r)
      {| task_goal := t_goal r; context := ctx;
         conversation_history := map history_line (order_by (fun a b => String.leb (m_created_at a) (m_created_at b)) rows) |}
      (fun a =>
         let* policy := select (find_contact (t_contact r)) in
         match policy with
         | Some p => if may_auto_relay (c_autonomy p) (JStr (sm_type body)) a
                     then auto_relay_information_response task_id (t_contact r) (c_endpoint p) (c_x25519 p) (reply a)
                     else ret None
         | None => ret None
         end) in
    ret (answer final).

Definition process_send_message (task_id : string) (body : SendMessageRequest) (raw_body : bytes)
    (x_signature : option string) : N (Z * document) :=
  let* row := find_task task_id body in
  match row with
  | None => ret (404%Z, detail ("Task with ID '" +:+ task_id +:+ "' not found."))
  | Some r =>
      if is_closed (t_status r)
      then ret (409%Z, detail ("Task with ID '" +:+ t_id r +:+ "' is closed (status: "
                                +:+ default "" (t_status r) +:+ ")."))
      else
        let* found := select (authenticate (from_username body) raw_body x_signature "Sender") in
        let* auth := mlift found in
        match auth with
        | inl refused => ret refused
        | inr _ =>
            let* now := draw utcnow in
            let* rows := select (messages_of (t_id r)) in
            let count := length rows in
            if Nat.leb MAX_TASK_MESSAGES count then
              execute (update_task (t_id r) (with_result (round_limit_result count) "failed" now)) ;;;
              commit ;;; ret (200%Z, [("status", JStr "failed")])
            else accept_message r body (default "" x_signature) now
        end
  end.

(** ** Reading a task *)

Definition history_entry (m : message_row) : json :=
  JObj [("from_username", JStr (m_from m)); ("content", JStr (m_content m));
        ("message_type", match m_type m with Some k => JStr k | None => JNull end);
        ("created_at", JStr (m_created_at m))].

Definition draft_document (r : task_row) : json :=
  match t_draft_content r, t_draft_type r with
  | Some (String _ _ as c), Some (String _ _ as k) => JObj [("content", JStr c); ("message_type", JStr k)]
  | _, _ => JNull
  end.

Definition get_task_status (task_id : string) (t : tables) : result string (Z * document) :=
  match task_by_either task_id t with
  | None => Ok (404%Z, detail ("Task with ID '" +:+ task_id +:+ "' not found."))
  | Some r =>
      let? result_ := match t_result r with
                      | Some (String _ _ as text) =>
                          match json_loads text with Some v => Ok v | None => Err "JSONDecodeError" end
                      | _ => Ok JNull
                      end in
      let rows := order_by (fun a b => String.leb (m_created_at a) (m_created_at b)) (messages_of (t_id r) t) in
      Ok (200%Z, [("status", match t_status r with Some s => JStr s | None => JNull end);
                  ("history", JList (map history_entry rows)); ("result", result_); ("draft", draft_document r)])
  end.

(** ** Requests *)

(** A request has a connection of its own, closed at its end: what was not
    committed is gone. *)
Definition request {A} (m : N A) : N A := mfinally m rollback.

(** The framework's answer to a body it cannot parse. *)
Context (unprocessable : Z * document).

Definition parse_body {T} (validate : json -> option T) (raw_body : bytes) : option T :=
  text <- utf8_decode raw_body ;; v <- json_loads text ;; validate v.

Definition create_task (raw_body : bytes) (x_signature : option string) : N (Z * document) :=
  match parse_body CreateTaskRequest_validate raw_body with
  | None => ret unprocessable
  | Some body => request (process_create_task body raw_body x_signature None)
  end.

Definition send_message (task_id : string) (raw_body : bytes) (x_signature : option string) : N (Z * document) :=
  match parse_body SendMessageRequest_validate raw_body with
  | None => ret unprocessable
  | Some body => request (process_send_message task_id body raw_body x_signature)
  end.
End tasks.

(** ** A task that is closed *)

(** What is recorded of the exchange of a task. *)
Definition exchange (id : string) (t : tables) :=
  (map (fun r => (t_status r, t_result r, t_draft_content r, t_draft_type r))
     (List.filter (fun r => String.eqb (t_id r) id) (tasks t)),
   messages_of id t).

(** A view of the tables stays, and what is committed stays in step. *)
Definition view_kept {B} (v : tables -> B) (s s' : node) : Prop :=
  v (db s') = v (db s) /\ (v (committed s) = v (db s) -> v (committed s') = v (db s')).

#[export] Instance view_kept_preorder {B} (v : tables -> B) : PreOrder (view_kept v).
Proof.
  split; [by intros s|]. intros s1 s2 s3 [E1 C1] [E2 C2]. split; [congruence|]. auto.
Qed.

Abbreviation exchange_kept id := (view_kept (exchange id)).

Lemma exchange_same_tables id t t' :
  tasks t' = tasks t -> messages t' = messages t -> exchange id t' = exchange id t.
Proof. intros Ht Hm. unfold exchange, messages_of. by rewrite Ht, Hm. Qed.

Lemma execute_view {B} (v : tables -> B) f : (forall t, v (f t) = v t) -> keeps (view_kept v) (execute f).
Proof. intros Hf s. split; cbn; [apply Hf|]. intros Hc. by rewrite Hf. Qed.

Lemma commit_view {B} (v : tables -> B) : keeps (view_kept v) commit.
Proof. by intros s. Qed.

Lemma select_view {A B} (v : tables -> B) (f : tables -> A) : keeps (view_kept v) (select f).
Proof. by intros s. Qed.
Lemma draw_view {A B} (v : tables -> B) (f : nat -> A) : keeps (view_kept v) (draw f).
Proof. by intros s. Qed.

Lemma insert_view {B} (v : tables -> B) ok f :
  (forall t, ok t = true -> v (f t) = v t) -> keeps (view_kept v) (insert_checked ok f).
Proof.
  intros Hf s. unfold insert_checked, select, bind, mgets. cbn. destruct (ok (db s)) eqn:Eo; [|done].
  split; cbn; [by apply Hf|]. intros Hc. by rewrite Hf.
Qed.

Lemma quiet_view {A B} (v : tables -> B) (m : N A) : keeps same_db m -> keeps (view_kept v) m.
Proof. apply keeps_weaken. intros s s' [E C]. unfold view_kept. by rewrite E, C. Qed.

Lemma filter_update {A} (key : A -> string) id k f l :
  k <> id -> (forall x, key (f x) = key x) ->
  List.filter (fun x => String.eqb (key x) id) (update_where (fun x => String.eqb (key x) k) f l)
  = List.filter (fun x => String.eqb (key x) id) l.
Proof.
  intros Hk Hf. unfold update_where. induction l as [|x l IH]; [done|]. cbn.
  destruct (String.eqb_spec (key x) k) as [E|E]; rewrite ?Hf, IH; [|by destruct (String.eqb _ _)].
  destruct (String.eqb_spec (key x) id); [congruence|done].
Qed.

Lemma update_task_exchange id k f t :
  k <> id -> (forall r, t_id (f r) = t_id r) -> exchange id (update_task k f t) = exchange id t.
Proof. intros Hk Hf. unfold exchange. cbn. by rewrite (filter_update t_id) by done. Qed.

Lemma update_exchange id k f :
  k <> id -> (forall r, t_id (f r) = t_id r) -> keeps (exchange_kept id) (execute (update_task k f)).
Proof. intros Hk Hf. apply execute_view. intros t. by apply update_task_exchange. Qed.

Lemma filter_last_other {A} (p : A -> bool) l x : p x = false -> List.filter p (l ++ [x]) = List.filter p l.
Proof. intros Hp. rewrite List.filter_app. cbn. by rewrite Hp, app_nil_r. Qed.

Lemma insert_message_exchange id m : m_task m <> id -> keeps (exchange_kept id) (insert_message m).
Proof.
  intros Hm. apply insert_view. intros t _. unfold exchange, messages_of. cbn. f_equal.
  apply filter_last_other. by apply String.eqb_neq.
Qed.

Lemma insert_task_exchange id r : t_id r <> id -> keeps (exchange_kept id) (insert_task r).
Proof.
  intros Hm. apply insert_view. intros t _. unfold exchange, messages_of. cbn. do 2 f_equal.
  apply filter_last_other. by apply String.eqb_neq.
Qed.

#[export] Hint Resolve commit_view select_view draw_view : keeps.

Section closed_tasks.
Context `{NodeEnv} `{Ed25519} `{X25519}.
Context (public_of_bytes : bytes -> option public_key) (private_of_bytes : bytes -> option private_key).
Context (kc : keychain) (profile : string).
Context (post_content : nat -> string -> bytes -> list (string * string) -> http_result).
Context (http_post : nat -> string -> json -> http_result).
Context (relay_env : option string) (the_roster : result string (list (string * AgentConfig))).
Context (reply_to : nat -> option string -> AgentBackendRequest -> result failure AgentBackendResponse).
Context (err_text : string -> string) (is_openai : string -> bool) (number_text : json -> string).

Abbreviation auto_relay :=
  (auto_relay_information_response private_of_bytes kc profile post_content http_post relay_env number_text).
Abbreviation draft := (draft_reply reply_to err_text is_openai).
Abbreviation create := (process_create_task public_of_bytes private_of_bytes kc profile post_content http_post relay_env
                          the_roster reply_to err_text is_openai number_text).
Abbreviation send := (process_send_message public_of_bytes private_of_bytes kc profile post_content http_post relay_env
                        reply_to err_text is_openai number_text).

Section other_task.
Variables (id k : string) (Hk : k <> id).

Ltac task_step := first [ by apply update_exchange | by apply insert_message_exchange ].

Lemma relay_answer_quiet own contact target cx payload sg :
  keeps same_db (relay_answer kc profile http_post relay_env own contact target cx payload sg).
Proof.
  unfold relay_answer, encrypt_for_recipient. solve_keeps.
Qed.

Lemma post_answer_quiet own contact target ep cx payload sg :
  keeps same_db (post_answer kc profile post_content http_post relay_env own contact target ep cx payload sg).
Proof.
  unfold post_answer. pose proof relay_answer_quiet. solve_keeps.
Qed.

Lemma auto_relay_exchange contact ep cx text : keeps (exchange_kept id) (auto_relay k contact ep cx text).
Proof.
  unfold auto_relay_information_response. solve_keeps; first [task_step | apply quiet_view, post_answer_quiet].
Qed.

Lemma record_failure_exchange now f : keeps (exchange_kept id) (record_failure is_openai k now f).
Proof. unfold record_failure. solve_keeps. task_step. Qed.

Lemma draft_exchange now agent q auto :
  (forall a, keeps (exchange_kept id) (auto a)) -> keeps (exchange_kept id) (draft k now agent q auto).
Proof.
  intros Ha. unfold draft_reply. solve_keeps; first [apply Ha | apply record_failure_exchange | task_step].
Qed.

Lemma store_task_exchange body sg agent ref now : keeps (exchange_kept id) (store_task number_text body sg agent ref k now).
Proof. unfold store_task. solve_keeps; first [task_step | by apply insert_task_exchange]. Qed.
End other_task.

Lemma accept_exchange id r body sg now :
  t_id r <> id ->
  keeps (exchange_kept id) (accept_message private_of_bytes kc profile post_content http_post relay_env reply_to
                              err_text is_openai number_text r body sg now).
Proof.
  intros Hk. unfold accept_message. solve_keeps;
    first [ by apply update_exchange | by apply insert_message_exchange
          | apply draft_exchange; [done|]; intros ?; solve_keeps; by apply auto_relay_exchange ].
Qed.

(** The rows of the task are there and closed. *)
Definition closed (id : string) (t : tables) : Prop :=
  let l := List.filter (fun r => String.eqb (t_id r) id) (tasks t) in
  l <> [] /\ Forall (fun r => is_closed (t_status r) = true) l.

Lemma closed_exchange id t t' : exchange id t' = exchange id t -> closed id t -> closed id t'.
Proof.
  unfold exchange, closed. intros [= He _] [Hn Hf]. cbv zeta in *. split.
  - intros E. rewrite E in He. by destruct (List.filter _ (tasks t)).
  - apply (List.Forall_map (fun r => (t_status r, t_result r, t_draft_content r, t_draft_type r))
             (fun x => is_closed x.1.1.1 = true)). rewrite He. by apply List.Forall_map.
Qed.

Lemma closed_row id r t : closed id t -> r ∈ tasks t -> is_closed (t_status r) = false -> t_id r <> id.
Proof.
  intros [_ Hf] Hr Hc E. rewrite Forall_forall in Hf. specialize (Hf r).
  rewrite Hf in Hc; [done|]. apply list_elem_of_In, filter_In. split; [by apply list_elem_of_In|].
  by apply String.eqb_eq.
Qed.

Lemma update_view_exchange id k f t :
  (forall r, t_id (f r) = t_id r /\ t_status (f r) = t_status r /\ t_result (f r) = t_result r /\
     t_draft_content (f r) = t_draft_content r /\ t_draft_type (f r) = t_draft_type r) ->
  exchange id (update_task k f t) = exchange id t.
Proof.
  intros Hf. unfold exchange, messages_of, update_task, update_where. cbn [set_tasks tasks messages]. f_equal.
  induction (tasks t) as [|r l IH]; [done|]. cbn. destruct (Hf r) as (Hi & Hs & Hr & Hc & Hd).
  destruct (String.eqb (t_id r) k); rewrite ?Hi; destruct (String.eqb (t_id r) id); cbn;
    rewrite ?IH, ?Hs, ?Hr, ?Hc, ?Hd; done.
Qed.

Lemma find_task_exchange id tid body : keeps (exchange_kept id) (find_task tid body).
Proof. unfold find_task. solve_keeps. apply execute_view. intros ?. by apply update_view_exchange. Qed.

Lemma find_task_row tid body s r s' : find_task tid body s = (Ok (Some r), s') -> r ∈ tasks (db s).
Proof.
  unfold find_task, select, execute, commit, bind, mgets, mmodify, ret.
  destruct (task_by_either tid (db s)) as [r0|] eqn:E.
  - intros [= <- <-]. by apply find_first_Some in E as [? _].
  - destruct (origin_ref_id body) as [[|c o]|]; [done| |done].
    destruct (task_by_id (String c o) (db s)) as [r1|] eqn:E1; [|done]. intros [= <- <-].
    by apply find_first_Some in E1 as [? _].
Qed.

Lemma send_closed id tid body raw sg s : closed id (db s) -> exchange_kept id s (send tid body raw sg s).2.
Proof.
  intros Hc. unfold process_send_message. apply keeps_bind_at; [apply _|apply find_task_exchange|].
  intros [r|] s1 Hf; [|done]. apply find_task_row in Hf. destruct (is_closed (t_status r)) eqn:Er; [done|].
  pose proof (closed_row _ _ _ Hc Hf Er) as Hk.
  match goal with |- exchange_kept _ _ (?m _).2 => enough (keeps (exchange_kept id) m) as Hm by apply Hm end.
  solve_keeps; first [ by apply update_exchange | by apply accept_exchange ].
Qed.

Lemma create_closed id body raw sg ref s : closed id (db s) -> exchange_kept id s (create body raw sg ref s).2.
Proof.
  intros Hc. unfold process_create_task. apply keeps_bind_at; [apply _|apply select_view|].
  intros found s1 [= <- <-]. destruct (authenticate _ _ _ _ _ _) as [[refused|c]|e]; [done| |done].
  unfold bind at 1, mlift at 1. unfold bind at 1, draw at 1. unfold bind at 1, draw at 1.
  match goal with |- exchange_kept _ _ (_ ?s3).2 => etrans; [by assert (exchange_kept id s s3)|] end.
  destruct (String.eqb_spec (uuid4 (tick s)) id) as [E|E].
  - unfold bind at 1. unfold store_task, bind at 1, mlift at 1. destruct (bind_text _ _) as [pn|e]; [|done].
    unfold bind at 1, insert_task, insert_checked, select, bind, mgets. cbn [db].
    assert (exists r, task_by_id (uuid4 (tick s)) (db s) = Some r) as [r Hr].
    { destruct Hc as [Hn _]. unfold task_by_id. rewrite E.
      destruct (find_first _ (tasks (db s))) as [r|] eqn:Ef; [by exists r|]. exfalso. apply Hn.
      apply find_first_None in Ef. clear -Ef.
      induction Ef as [|r l Hr _ IH]; [done|]. cbn. by rewrite Hr. }
    cbn [t_id]. rewrite Hr. done.
  - match goal with |- exchange_kept _ _ (?m _).2 => enough (keeps (exchange_kept id) m) as Hm by apply Hm end.
    solve_keeps. all: first [by apply store_task_exchange | apply draft_exchange; [done|]; intros ?; solve_keeps; by apply auto_relay_exchange].
Qed.
End closed_tasks.

(** ** Requests against the task routes *)

Section requests.
Context `{NodeEnv} `{Ed25519} `{X25519}.
Context (public_of_bytes : bytes -> option public_key) (private_of_bytes : bytes -> option private_key).
Context (kc : keychain) (profile : string).
Context (post_content : nat -> string -> bytes -> list (string * string) -> http_result).
Context (http_post : nat -> string -> json -> http_result).
Context (relay_env : option string) (the_roster : result string (list (string * AgentConfig))).
Context (reply_to : nat -> option string -> AgentBackendRequest -> result failure AgentBackendResponse).
Context (err_text : string -> string) (is_openai : string -> bool) (number_text : json -> string).
Context (unprocessable : Z * document).

Abbreviation create_req := (create_task public_of_bytes private_of_bytes kc profile post_content http_post relay_env
                              the_roster reply_to err_text is_openai number_text unprocessable).
Abbreviation send_req := (send_message public_of_bytes private_of_bytes kc profile post_content http_post relay_env
                            reply_to err_text is_openai number_text unprocessable).

(** One request to one of the two routes. *)
Inductive task_request : node -> node -> Prop :=
| CreateRequest raw sg s : task_request s (create_req raw sg s).2
| SendRequest tid raw sg s : task_request s (send_req tid raw sg s).2.

Lemma request_view {A B} (v : tables -> B) (m : N A) s :
  db s = committed s -> view_kept v s (m s).2 ->
  v (db (request m s).2) = v (db s) /\ db (request m s).2 = committed (request m s).2.
Proof.
  intros Hd [He Hc]. unfold request, mfinally, rollback, mmodify. destruct (m s) as [r s'].
  cbn in *. split; [|done]. rewrite Hd in Hc. rewrite <- He. apply Hc. done.
Qed.

(** A task that is completed or failed stays as it is: whatever create and
    message requests arrive afterwards, signed or not, its status, result,
    draft and messages never change. *)
Theorem closed_task_final id s s' :
  db s = committed s -> closed id (db s) -> rtc task_request s s' ->
  exchange id (db s') = exchange id (db s).
Proof.
  intros Hd Hc Hs. cut (exchange id (db s') = exchange id (db s) /\ db s' = committed s'); [by intros [? _]|].
  revert Hd Hc. induction Hs as [s|s s1 s2 Hst _ IH]; intros Hd Hc; [done|].
  assert (exchange id (db s1) = exchange id (db s) /\ db s1 = committed s1) as [E1 D1].
  { destruct Hst as [raw sg s|tid raw sg s]; unfold create_task, send_message;
      (destruct (parse_body _ _) as [body|]; [|done]); apply request_view; try done;
      [by apply create_closed | by apply send_closed]. }
  destruct (IH D1 (closed_exchange _ _ _ E1 Hc)) as [E2 D2]. split; [congruence|done].
Qed.

(** ** Who can write *)

(** Messages and tasks, up to the peer id of a task. *)
Definition written (t : tables) := (messages t, map (with_peer_id "") (tasks t)).

(** The owner of the key has signed the raw body. *)
Definition signed_by (username : string) (raw : bytes) (sg : option string) (t : tables) : Prop :=
  exists c pk sig, find_contact username t = Some c /\ c_verified_at c <> None /\
    contact_key c = Ok pk /\ fromhex (default "" sg) = Some sig /\
    verify_signature public_of_bytes pk raw sig = true.

Lemma authenticate_signed username raw sg who t c :
  authenticate public_of_bytes username raw sg who t = Ok (inr c) ->
  find_contact username t = Some c /\ signed_by username raw sg t.
Proof.
  unfold authenticate. destruct sg as [[|x sg]|]; [done| |done].
  destruct (fromhex _) as [sig|] eqn:Es; [|done].
  destruct (find_contact username t) as [c0|] eqn:Ec; [|done].
  destruct (c_verified_at c0) eqn:Ev; [|done]. destruct (contact_key c0) as [pk|] eqn:Ek; [|done]. cbn.
  destruct (verify_signature _ _ _ _) eqn:Hv; [|done]. intros [= <-]. split; [done|].
  exists c0, pk, sig. by rewrite Ev.
Qed.

Lemma find_task_written tid body : keeps (view_kept written) (find_task tid body).
Proof.
  unfold find_task. solve_keeps. apply execute_view. intros ?. unfold written. cbn. f_equal.
  unfold update_where. rewrite map_map. apply map_ext. intros q. by destruct (String.eqb _ _).
Qed.

Lemma find_task_contacts tid body s : contacts (db (find_task tid body s).2) = contacts (db s).
Proof.
  unfold find_task, select, execute, commit, bind, mgets, mmodify, ret.
  destruct (task_by_either tid (db s)); [done|]. destruct (origin_ref_id body) as [[|x o]|]; [done| |done].
  by destruct (task_by_id _ (db s)).
Qed.

Lemma signed_contacts username raw sg t t' :
  contacts t' = contacts t -> signed_by username raw sg t' -> signed_by username raw sg t.
Proof. unfold signed_by, find_contact. by intros ->. Qed.

(** C21: Nothing is written without a signature: a create or message request
    changes tasks or messages (beyond the peer id of a task) only when the
    user it names is a contact whose fingerprint was verified and whose key
    verifies the signature over the very body. *)
Theorem writes_are_signed tid raw sg s s' :
  (s' = (create_req raw sg s).2 /\ (forall b, parse_body CreateTaskRequest_validate raw = Some b ->
     ~ signed_by (requester_username b) raw sg (db s))) \/
  (s' = (send_req tid raw sg s).2 /\ (forall b, parse_body SendMessageRequest_validate raw = Some b ->
     ~ signed_by (from_username b) raw sg (db s))) ->
  db s = committed s -> written (db s') = written (db s).
Proof.
  intros Hs Hd. destruct Hs as [[-> Hb]|[-> Hb]]; unfold create_task, send_message;
    (destruct (parse_body _ _) as [body|]; [|done]; specialize (Hb body eq_refl); apply request_view; [done|]).
  - unfold process_create_task. apply keeps_bind_at; [apply _|apply select_view|]. intros found s1 [= <- <-].
    destruct (authenticate _ _ _ _ _ _) as [[refused|c]|e] eqn:Ea; [done| |done].
    apply authenticate_signed in Ea as [_ Hsig]. by destruct Hb.
  - unfold process_send_message. apply keeps_bind_at; [apply _|apply find_task_written|].
    intros [r|] s1 Hf; [|done]. destruct (is_closed _); [done|].
    apply keeps_bind_at; [apply _|apply select_view|]. intros found s2 [= <- <-].
    destruct (authenticate _ _ _ _ _ _) as [[refused|c]|e] eqn:Ea; [done| |done].
    apply authenticate_signed in Ea as [_ Hsig]. destruct Hb. eapply signed_contacts; [|exact Hsig].
    pose proof (find_task_contacts tid body s) as Hc. by rewrite Hf in Hc.
Qed.
End requests.

(** ** No answer leaves without the policy *)

Section two_networks.
Context `{NodeEnv} `{Ed25519} `{X25519}.
Context (public_of_bytes : bytes -> option public_key) (private_of_bytes : bytes -> option private_key).
Context (kc : keychain) (profile : string).
Context (post1 post2 : nat -> string -> bytes -> list (string * string) -> http_result).
Context (json1 json2 : nat -> string -> json -> http_result).
Context (relay_env : option string) (the_roster : result string (list (string * AgentConfig))).
Context (reply_to : nat -> option string -> AgentBackendRequest -> result failure AgentBackendResponse).
Context (err_text : string -> string) (is_openai : string -> bool) (number_text : json -> string).

Abbreviation create_on post js := (process_create_task public_of_bytes private_of_bytes kc profile post js relay_env
                                     the_roster reply_to err_text is_openai number_text).
Abbreviation send_on post js := (process_send_message public_of_bytes private_of_bytes kc profile post js relay_env
                                   reply_to err_text is_openai number_text).

Lemma store_task_kind body sg agent ref tid now :
  returns (fun k => k = default (JStr "question") (obj_get "message_type" (task_context body)))
    (store_task number_text body sg agent ref tid now).
Proof. unfold store_task. repeat (apply returns_after; intros ?). by apply returns_ret. Qed.

(** Two continuations that agree where the contacts are as they were draft
    alike. *)
Lemma draft_ext task_id now agent q auto1 auto2 s :
  (forall a s', contacts (db s') = contacts (db s) -> auto1 a s' = auto2 a s') ->
  draft_reply reply_to err_text is_openai task_id now agent q auto1 s
  = draft_reply reply_to err_text is_openai task_id now agent q auto2 s.
Proof.
  intros Ha. unfold draft_reply. apply bind_ext_at; [done|]. intros [a|f] s1 [= _ <-]; [|done].
  unfold mcatch. erewrite bind_ext_at; [reflexivity|done|]. intros u s2 [= <- <-].
  apply bind_ext_at; [done|]. intros u' s3 [= <- <-]. apply bind_ext_at; [|done]. by apply Ha.
Qed.

Lemma may_auto_relay_true policy asked a :
  may_auto_relay policy asked a = true -> policy = Some "auto_relay_info" /\ asked = JStr "question".
Proof. unfold may_auto_relay. rewrite !andb_true_iff, !bool_decide_eq_true. tauto. Qed.

End two_networks.

(** ** Bob's node *)

Module TaskDemo.
Import AuditDemo SchemaDemo IdentityDemo.

Definition question : json :=
  JObj [("from_username", JStr "alice"); ("content", JStr "when?"); ("message_type", JStr "question")].
(** Mallory, another verified contact, accepts for Alice's task. *)
Definition takeover : json :=
  JObj [("from_username", JStr "mallory"); ("content", JStr "mine"); ("message_type", JStr "finalize_accept")].
(** Nobody's message that names a queued task. *)
Definition claim : json :=
  JObj [("from_username", JStr "eve"); ("content", JStr ""); ("message_type", JStr "answer"); ("origin_ref_id", JStr "t1")].

Definition env : NodeEnv.
Proof.
  refine {| aes_encrypt _ _ p := p; aes_decrypt _ _ p := Some p;
            urandom12 _ := "0123456789ab"; uuid4 n := "id-" +:+ print_int (Z.of_nat n);
            utcnow _ := "2026-07-23T12:00:00+00:00";
            json_loads s := find_first (fun d => String.eqb (json_dumps dumps_compact d) s)
                              [question; takeover; claim; JObj []; JObj [("status", JStr "input-required")]];
            model_json := json_dumps dumps_canonical |}; done.
Defined.
#[local] Existing Instances env demo_ed demo_x.

Definition body (d : json) : bytes := utf8_encode (json_dumps dumps_compact d).

Definition contact (name : string) (policy : string) : contact_row :=
  {| c_username := name; c_public_key := Some (hexlify name); c_x25519 := None; c_endpoint := Some "http://" ;
     c_autonomy := Some policy; c_verified_at := Some "2026" |}.

Definition task (id st : string) : task_row :=
  {| t_id := id; t_contact := "alice"; t_goal := "plan"; t_context := Some "{}"; t_status := Some st; t_created_at := "";
     t_updated_at := ""; t_result := None; t_draft_content := None; t_draft_type := None; t_agent_name := None;
     t_peer_agent_name := None; t_peer_task_id := None; t_origin_ref_id := None |}.

Definition node_with (policy : string) : node :=
  let t := set_tasks (fun _ => [task "t1" "input-required"; task "t2" "completed"])
             (set_contacts (fun _ => [contact "alice" policy; contact "mallory" "always_ask"]) demo_tables) in
  {| db := t; committed := t; tick := 0 |}.
Definition bob : node := node_with "always_ask".

Definition keys (b : bytes) : option public_key := Some b.
Definition signature (name : string) (d : json) : string := hexlify (ed_sign name (body d)).

Definition answers (n : nat) (agent : option string) (q : AgentBackendRequest) : result failure AgentBackendResponse :=
  Ok {| reply := "noon"; message_type := "answer" |}.
Definition accepts (n : nat) (url : string) (b : bytes) (h : list (string * string)) : http_result :=
  Responded 200 (json_dumps dumps_compact (JObj [("status", JStr "input-required")])).

Definition own_key : keychain := {| kc_store := {[ ("kin-bob-private-key", "private_key") := hexlify "bob" ]}; kc_tick := 0 |}.

Definition send (s : node) (tid : string) (d : json) (sg : string) : result string (Z * document) * node :=
  send_message keys keys own_key "bob" accepts (fun _ _ _ => RequestError "down") None answers
    id (fun _ => false) py_str (422%Z, []) tid (body d) (Some sg) s.

(** The question is stored with a draft for review; under the policy the
    answer goes out, is stored as a message and the draft is cleared. *)
Example question_drafted :
  let run := send bob "t1" question (signature "alice" question) in
  run.1 = Ok (200%Z, [("status", JStr "input-required")]) /\
  map m_from (messages (committed run.2)) = ["alice"] /\
  map t_draft_content (tasks (committed run.2)) = [Some "noon"; None].
Proof. vm_compute. split_and!; reflexivity. Qed.

Example question_answered :
  let run := send (node_with "auto_relay_info") "t1" question (signature "alice" question) in
  run.1 = Ok (200%Z, [("status", JStr "input-required")]) /\
  map m_from (messages (committed run.2)) = ["alice"; "bob"] /\
  map t_draft_content (tasks (committed run.2)) = [None; None].
Proof. vm_compute. split_and!; reflexivity. Qed.

(** The sender of a message need not be the contact of the task. *)
Example other_contact_finalizes :
  let run := send bob "t1" takeover (signature "mallory" takeover) in
  run.1 = Ok (200%Z, [("status", JStr "completed")]) /\
  map t_status (tasks (committed run.2)) = [Some "completed"; Some "completed"].
Proof. vm_compute. split; reflexivity. Qed.

(** The peer id of a task is recorded before the signature is looked at. *)
Example unsigned_reconciliation :
  let run := send bob "anything" claim "" in
  run.1 = Ok (401%Z, detail "Missing X-Signature header") /\
  map t_peer_task_id (tasks (committed run.2)) = [Some "anything"; None].
Proof. vm_compute. split; reflexivity. Qed.

Lemma t2_closed : closed "t2" (db bob).
Proof. vm_compute. split; [congruence|repeat constructor]. Qed.

Lemma closed_task_final_witness :
  closed "t2" (db bob) /\
  exchange "t2" (db (send bob "t2" takeover (signature "mallory" takeover)).2) = exchange "t2" (db bob).
Proof.
  split; [exact t2_closed|].
  apply (@closed_task_final env demo_ed demo_x keys keys own_key "bob" accepts (fun _ _ _ => RequestError "down") None
    (Ok []) answers id (fun _ => false) py_str (422%Z, []) "t2" bob); [reflexivity|exact t2_closed|].
  apply rtc_once, SendRequest.
Defined.

Lemma forged : forall b, parse_body SendMessageRequest_validate (body takeover) = Some b ->
  ~ signed_by keys (from_username b) (body takeover) (Some (signature "alice" takeover)) (db bob).
Proof.
  intros b Hb. assert (b = {| from_username := "mallory"; content := "mine"; sm_type := "finalize_accept";
    origin_ref_id := None |}) as -> by (vm_compute in Hb; congruence).
  intros (c & pk & sig & Hc & _ & Hk & Hs & Hv). vm_compute in Hc. injection Hc as <-.
  vm_compute in Hk. injection Hk as <-. vm_compute in Hs. injection Hs as <-. vm_compute in Hv. discriminate.
Qed.

Lemma writes_are_signed_witness :
  written (db (send bob "t1" takeover (signature "alice" takeover)).2) = written (db bob).
Proof.
  apply (@writes_are_signed env demo_ed demo_x keys keys own_key "bob" accepts (fun _ _ _ => RequestError "down") None
    (Ok []) answers id (fun _ => false) py_str (422%Z, []) "t1" (body takeover) (Some (signature "alice" takeover)) bob);
    [|reflexivity].
  right. split; [reflexivity|exact forged].
Defined.
End TaskDemo.
