(* ===== verification/TaskClient.v ===== *)
(** * Tasks from the owner's side

    The commands [ask], [respond] and [fetch] of [kin/cli.py] with the helpers
    they use.  A command returns or raises: [typer.Exit] with its code and
    [typer.BadParameter] are exceptions like the others; what is printed is
    left out.  What the prompts return is a parameter of the command. *)

From Stdlib Require Import Ascii String ZArith Lia.
From stdpp Require Import base gmap sets list strings.
From S2P Require Import Prelude Regex Codec PyValue Schemas Cards Store AuditLog History Ingest Keychain.
From S2P Require Import Relay Identity RetryQueue Backend Tasks.

#[local] Open Scope nat_scope.

Definition Exit1 : string := "typer.Exit(1)".
Definition Exit0 : string := "typer.Exit(0)".
Definition BadParameter : string := "typer.BadParameter".
Definition HTTPError : string := "httpx.HTTPError".

(** ** Choosing an agent *)

Section picking.
(** [int(text)]. *)
Context (py_int : string -> option Z).

(** The picker reads choices until one is a number in range; at the end of
    the input the prompt aborts. *)
Fixpoint pick_agent (names choices : list string) : result string string :=
  match choices with
  | [] => Err "click.Abort"
  | c :: rest =>
      match py_int (strip c) with
      | Some z =>
          if ((1 <=? z) && (z <=? Z.of_nat (length names)))%Z
          then match nth_error names (Z.to_nat (z - 1)) with Some n => Ok n | None => Err "IndexError" end
          else pick_agent names rest
      | None => pick_agent names rest
      end
  end.

Definition select_agent (roster : result string (list (string * AgentConfig))) (agent_option : option string)
    (choices : list string) : result string (option string) :=
  match roster with
  | Err _ => Err Exit1
  | Ok [] => match agent_option with Some _ => Err Exit1 | None => Ok None end
  | Ok r =>
      match agent_option with
      | Some a => match obj_get a r with Some _ => Ok (Some a) | None => Err Exit1 end
      | None =>
          match r with
          | [(n, _)] => Ok (Some n)
          | _ => let? n := pick_agent (order_by String.leb (map fst r)) choices in Ok (Some n)
          end
      end
  end.
End picking.

(** ** Rows *)

Definition new_task (id contact question : string) (st agent : option string) (now : string) : task_row :=
  {| t_id := id; t_contact := contact; t_goal := question; t_context := Some "{}"; t_status := st;
     t_created_at := now; t_updated_at := now; t_result := None; t_draft_content := None; t_draft_type := None;
     t_agent_name := agent; t_peer_agent_name := None; t_peer_task_id := None; t_origin_ref_id := None |}.

(** [INSERT OR REPLACE]: the row with the key, if any, goes first. *)
Definition replace_task (r : task_row) : N unit :=
  insert_checked (fun t => match find_contact (t_contact r) t with Some _ => true | None => false end)
    (set_tasks (fun l => List.filter (fun x => negb (String.eqb (t_id x) (t_id r))) l ++ [r])).

(** What [respond] records of a sent draft. *)
Definition sent (st : option string) (agent : option string) (now : string) (r : task_row) : task_row :=
  task_with st (t_result r) None None agent (t_peer_task_id r) now r.
Definition sent_final (result_ : string) (agent : option string) (now : string) (r : task_row) : task_row :=
  task_with (Some "completed") (Some result_) None None agent (t_peer_task_id r) now r.

Section commands.
Context `{NodeEnv} `{Ed25519} `{X25519}.
Context (public_of_bytes : bytes -> option public_key) (private_of_bytes : bytes -> option private_key).
Context (kc : keychain) (profile : string).
Context (post_content : nat -> string -> bytes -> list (string * string) -> http_result).
Context (http_post : nat -> string -> json -> http_result).
Context (http_get : nat -> string -> list (string * string) -> http_result).
Context (relay_env : option string) (the_roster : result string (list (string * AgentConfig))).
Context (reply_to : nat -> option string -> AgentBackendRequest -> result failure AgentBackendResponse).
Context (err_text : string -> string) (is_openai : string -> bool) (number_text : json -> string).
Context (py_int : string -> option Z).
(** [DEFAULT_RELAY_URL] and [KIN_REFRESH_DIRECTORY]; how SQLite reads a value
    as a row id. *)
Context (default_relay : string) (refresh_env : option string) (rowid_of : json -> result string Z).

Abbreviation bind_column := (bind_text number_text).
Abbreviation get url headers := (draw (fun n => http_get n url headers)).
Abbreviation post_signed url payload sg :=
  (draw (fun n => post_content n url payload [("Content-Type", "application/json"); ("X-Signature", sg)])).

Definition get_relay_url : string := strip_slash (default default_relay relay_env).

Definition mark_relay_message_processed (message_id : option Z) : N unit :=
  match message_id with
  | None => ret tt
  | Some z =>
      draw utcnow ;;;
      execute (set_processed (fun l => if bool_decide (z ∈ l) then l else l ++ [z])) ;;;
      commit
  end.

(** [dict[key]] on a decoded document. *)
Definition subscript (v : json) (k : string) : result string json :=
  match v with
  | JObj d => match obj_get k d with Some x => Ok x | None => Err "KeyError" end
  | _ => Err "TypeError"
  end.

(** [response.json()] and [raise_for_status]. *)
Definition json_of (text : string) : result string json :=
  match json_loads text with Some v => Ok v | None => Err "JSONDecodeError" end.
Definition body_of (resp : http_result) : result string string :=
  match resp with
  | Responded code text => if success code then Ok text else Err HTTPError
  | RequestError _ => Err HTTPError
  end.

(** ** Contacts *)

(** [refresh_contact_endpoint]: the endpoint and keys of a verified contact,
    its reachability read from the directory, its keys pinned. *)
Definition refresh_contact_endpoint (username : string) : N (string * option string * option string) :=
  let* local := select (find_contact username) in
  match local with
  | Some c =>
      match c_verified_at c with
      | None => mraise BadParameter
      | Some _ =>
          let* resp := get (get_relay_url +:+ "/directory/lookup/" +:+ username) [] in
          match resp with
          | Responded 404 _ => mraise BadParameter
          | _ =>
              let* text := mlift (body_of resp) in
              let* remote := mlift (json_of text) in
              let opt o := match o with Some s => JStr s | None => JNull end in
              let* pk := mlift (subscript remote "public_key") in
              let* x := if bool_decide (pk = opt (c_public_key c)) then mlift (subscript remote "x25519_public_key")
                        else ret pk in
              if bool_decide (pk = opt (c_public_key c)) && bool_decide (x = opt (c_x25519 c)) then
                let* ep := mlift (subscript remote "endpoint") in
                match ep with
                | JStr e =>
                    let endpoint := strip_slash e in
                    execute (set_contacts (update_where (fun r => String.eqb (c_username r) username)
                      (fun r => {| c_username := c_username r; c_public_key := c_public_key r; c_x25519 := c_x25519 r;
                                   c_endpoint := Some endpoint; c_autonomy := c_autonomy r;
                                   c_verified_at := c_verified_at r |}))) ;;;
                    commit ;;;
                    ret (endpoint, c_public_key c, c_x25519 c)
                | _ => mraise "AttributeError"
                end
              else mraise BadParameter
          end
      end
  | None => mraise BadParameter
  end.

Definition own_name : N string :=
  let* own := select (fun t => head (identity t)) in
  match own with Some i => ret (i_username i) | None => mraise Exit1 end.

(** Any exception of an expression ends the command. *)
Definition or_exit {A} (r : result string A) : N A :=
  match r with Ok a => ret a | Err _ => mraise Exit1 end.

(** Sealing an envelope for a contact and leaving it at the relay. *)
Definition leave_at_relay (own contact : string) (contact_x : option string) (relay_url : string) (envelope : document)
  : N unit :=
  let* priv := or_exit (load_x25519_private_key profile kc).1 in
  match contact_x with
  | Some (String _ _ as hex) =>
      match fromhex hex with
      | None => mraise "ValueError"
      | Some pub =>
          let* sealed := mcatch (encrypt_for_recipient priv pub
                                   (utf8_encode (json_dumps dumps_compact (JObj envelope))))
                           (fun _ => mraise Exit1) in
          let* resp := draw (fun n => http_post n (relay_url +:+ "/relay/mailbox/" +:+ contact) (queue_relay_body own sealed)) in
          or_exit (body_of resp) ;;; ret tt
      end
  | _ => mraise Exit1
  end.

(** ** [ask] *)

Definition task_payload (question own : string) : bytes :=
  utf8_encode (json_dumps dumps_compact
    (JObj [("goal", JStr question); ("context", JObj []); ("requester_username", JStr own)])).

(** The address and key a question goes to. *)
Definition current_address (contact : string) (c : contact_row) (endpoint : string) : N (string * option string) :=
  if contains ".trycloudflare.com" endpoint || bool_decide (refresh_env = Some "1") then
    mcatch (let* r := refresh_contact_endpoint contact in ret (r.1.1, r.2))
      (fun e => if String.eqb e HTTPError || String.eqb e BadParameter then ret (endpoint, c_x25519 c) else mraise e)
  else ret (endpoint, c_x25519 c).

(** The peer took the question: the task is stored under the id it chose. *)
Definition record_question (contact question : string) (agent : option string) (text : string) : N unit :=
  let* res := mlift (json_of text) in
  let* id := mlift (subscript res "task_id") in
  let* st := mlift (subscript res "status") in
  let* now := draw utcnow in
  let* id := mlift (bind_column id) in
  let* st := mlift (bind_column st) in
  match id with
  | Some id => replace_task (new_task id contact question st agent now)
  | None => ret tt
  end ;;;
  commit.

Definition ask_task (contact question : string) (agent_option : option string) (choices : list string) : N unit :=
  let* own := own_name in
  let* agent := mlift (select_agent py_int the_roster agent_option choices) in
  let* found := select (find_contact contact) in
  match found with
  | Some c =>
      match c_verified_at c, c_endpoint c with
      | None, _ => mraise Exit1
      | Some _, None => mraise "TypeError"
      | Some _, Some endpoint =>
          let* addr := current_address contact c endpoint in
          let payload := task_payload question own in
          let* sig := or_exit (sign_with_profile private_of_bytes kc profile payload) in
          let sg := hexlify sig in
          let* u := draw uuid4 in
          let local_task_id := "local-queued-" +:+ u in
          let* resp := post_signed (strip_slash addr.1 +:+ "/tasks") payload sg in
          match resp with
          | Responded code text => if success code then record_question contact question agent text else mraise Exit1
          | RequestError _ =>
              leave_at_relay own contact addr.2 get_relay_url
                [("type", JStr "create_task"); ("payload_bytes", JStr (hexlify payload)); ("signature", JStr sg);
                 ("local_ref_id", JStr local_task_id)] ;;;
              let* now := draw utcnow in
              mcatch (insert_task (new_task local_task_id contact question (Some "queued-relay") agent now) ;;; commit)
                (fun _ => mraise Exit1)
          end
      end
  | None => mraise Exit1
  end.
Definition ask contact question agent_option choices : N unit :=
  request (ask_task contact question agent_option choices).

(** ** [respond] *)

(** What the prompts of the command return: the action, lower-cased and
    stripped by the command, and the text it then asks for. *)
Definition outgoing (draft_type draft_content : string) (action text : string) : result string (string * string) :=
  let act := strip (lower action) in
  let typed := if truthy (strip text) then Ok text else Err Exit1 in
  if String.eqb draft_type "finalize_proposal" then
    if String.eqb act "a" then Ok ("finalize_accept", draft_content)
    else if String.eqb act "r" then let? t := typed in Ok ("counter_proposal", t)
    else Err Exit1
  else if String.eqb act "c" then Err Exit0
  else if String.eqb act "y" then Ok (draft_type, draft_content)
  else if String.eqb act "e" then let? t := typed in Ok (draft_type, t)
  else if String.eqb act "f" then Ok ("finalize_proposal", draft_content)
  else Err Exit1.

Definition message_payload (own text kind : string) (ref : option string) : bytes :=
  utf8_encode (json_dumps dumps_compact (JObj (
    [("from_username", JStr own); ("content", JStr text); ("message_type", JStr kind)]
    ++ match ref with Some (String _ _ as o) => [("origin_ref_id", JStr o)] | _ => [] end))).

(** The message as sent, and the row of its task. *)
Definition record_sent (task_id own text kind sg : string) (f : string -> task_row -> task_row) : N unit :=
  let* now := draw utcnow in
  let* id := draw uuid4 in
  insert_message {| m_id := id; m_task := task_id; m_from := own; m_content := text; m_type := Some kind;
                    m_created_at := now; m_signature := Some sg |} ;;;
  execute (update_task task_id (f now)) ;;;
  commit.

(** Delivery of a reply that is chosen and signed. *)
Definition deliver_reply (r : task_row) (c : contact_row) (own kind text sg : string) (payload : bytes)
    (agent : option string) : N unit :=
  let target := or_str (t_peer_task_id r) (t_id r) in
  match c_endpoint c with
  | None => mraise "AttributeError"
  | Some ep =>
      let* resp := post_signed (strip_slash ep +:+ "/tasks/" +:+ target +:+ "/messages") payload sg in
      match resp with
      | Responded code body_text =>
          if success code then
            let* res := mlift (json_of body_text) in
            let* st := mlift (subscript res "status") in
            if String.eqb kind "finalize_accept"
            then record_sent (t_id r) own text kind sg (sent_final (outcome_result text own) agent)
            else
              let* now := draw utcnow in
              let* id := draw uuid4 in
              insert_message {| m_id := id; m_task := t_id r; m_from := own; m_content := text; m_type := Some kind;
                                m_created_at := now; m_signature := Some sg |} ;;;
              let* st := mlift (bind_column st) in
              execute (update_task (t_id r) (sent st agent now)) ;;;
              commit
          else mraise Exit1
      | RequestError _ =>
          leave_at_relay own (t_contact r) (c_x25519 c) (relay_base relay_env) (relay_envelope target payload sg) ;;;
          mcatch (record_sent (t_id r) own text kind sg (sent (Some "queued-relay") agent)) (fun _ => mraise Exit1)
      end
  end.

Definition respond_task (task_id : string) (agent_option : option string) (choices : list string) (action text : string)
  : N unit :=
  let* found := select (task_by_id task_id) in
  match found with
  | None => mraise Exit1
  | Some r =>
      let* agent := mlift (select_agent py_int the_roster agent_option choices) in
      match t_draft_content r with
      | Some draft_content =>
          if bool_decide (t_status r = Some "input-required") then
            let* contact := select (find_contact (t_contact r)) in
            match contact with
            | None => mraise Exit1
            | Some c =>
                let* own := own_name in
                let* _ := or_exit (load_private_key profile kc).1 in
                let* out := mlift (outgoing (default "None" (t_draft_type r)) draft_content action text) in
                let payload := message_payload own out.2 out.1 (t_origin_ref_id r) in
                let* sig := or_exit (sign_with_profile private_of_bytes kc profile payload) in
                deliver_reply r c own out.1 out.2 (hexlify sig) payload agent
            end
          else mraise Exit1
      | None => mraise Exit1
      end
  end.
Definition respond task_id agent_option choices action text : N unit :=
  request (respond_task task_id agent_option choices action text).

(** ** [fetch] *)

Abbreviation create := (process_create_task public_of_bytes private_of_bytes kc profile post_content http_post relay_env
                          the_roster reply_to err_text is_openai number_text).
Abbreviation send := (process_send_message public_of_bytes private_of_bytes kc profile post_content http_post relay_env
                        reply_to err_text is_openai number_text).

(** A value of an envelope, absent or null alike. *)
Definition env_get (k : string) (d : document) : json := default JNull (obj_get k d).

(** A handler called under [except Exception]: whether it answered 200. *)
Definition handled (m : N (Z * document)) : N bool :=
  mcatch (let* r := m in ret (Z.eqb r.1 200)) (fun _ => ret false).

(** One decrypted envelope: whether its message is done with. *)
Definition process_envelope (envelope : document) : N bool :=
  let kind := env_get "type" envelope in
  let payload_hex := env_get "payload_bytes" envelope in
  let signature := env_get "signature" envelope in
  if negb (json_truthy kind && json_truthy signature && json_truthy payload_hex) then ret true
  else
    match payload_hex with
    | JStr h =>
        match (raw <- fromhex h ;; text <- utf8_decode raw ;; v <- json_loads text ;; Some (raw, v)) with
        | None => ret true
        | Some (raw, payload) =>
            if bool_decide (kind = JStr "create_task") then
              match CreateTaskRequest_validate payload, signature, bind_column (env_get "local_ref_id" envelope) with
              | Some body, JStr sg, Ok ref => handled (create body raw (Some sg) ref)
              | _, _, _ => ret false
              end
            else if bool_decide (kind = JStr "send_message") then
              let tid := env_get "task_id" envelope in
              if json_truthy tid then
                match SendMessageRequest_validate payload, signature, bind_column tid with
                | Some body, JStr sg, Ok (Some id) => handled (send id body raw (Some sg))
                | _, _, _ => ret false
                end
              else ret false
            else ret true
        end
    | _ => ret true
    end.

(** The id of an item of the inbox. *)
Definition item_id (item : json) : result string (option json) :=
  match item with
  | JObj d => match obj_get "message_id" d with
              | None | Some JNull => Ok None
              | Some (JList _) | Some (JObj _) => Err "sqlite3.ProgrammingError"
              | Some v => Ok (Some v)
              end
  | _ => Err "AttributeError"
  end.

Definition already_processed (id : option json) (t : tables) : bool :=
  match id with
  | Some v => match rowid_of v with Ok z => bool_decide (z ∈ processed_relay t) | Err _ => false end
  | None => false
  end.

Definition mark_item (id : option json) : N unit :=
  match id with
  | None => ret tt
  | Some v => match rowid_of v with
              | Ok z => mark_relay_message_processed (Some z)
              | Err e => draw utcnow ;;; mraise e
              end
  end.

(** The sender of an item, as the query compares it. *)
Definition sender_contact (sender : json) (t : tables) : result string (option contact_row) :=
  let? name := bind_column sender in
  Ok (match name with Some n => find_contact n t | None => None end).

(** What a sealed item opens to; [None] for every exception on the way. *)
Definition open_item (own_x : bytes) (pub : bytes) (blob : json) : option json :=
  match blob with
  | JStr h => c <- fromhex h ;;
              match decrypt_from_sender own_x pub c with
              | Ok p => text <- utf8_decode p ;; json_loads text
              | Err _ => None
              end
  | _ => None
  end.

(** One item of the inbox. *)
Definition process_item (own_x : bytes) (item : json) : N unit :=
  let* id := mlift (item_id item) in
  let* done_ := select (already_processed id) in
  if (done_ : bool) then ret tt
  else
    let* sender := mlift (subscript item "sender_username") in
    let* blob := mlift (subscript item "encrypted_blob") in
    let* found := select (sender_contact sender) in
    let* found := mlift found in
    match found with
    | None => mark_item id
    | Some c =>
        match c_verified_at c, c_x25519 c with
        | Some _, Some (String _ _ as hex) =>
            match fromhex hex with
            | None => mraise "ValueError"
            | Some pub =>
                match open_item own_x pub blob with
                | None => mark_item id
                | Some (JObj envelope) =>
                    let* finished := process_envelope envelope in
                    if (finished : bool) then mark_item id else ret tt
                | Some _ => mraise "AttributeError"
                end
            end
        | _, _ => mark_item id
        end
    end.

Fixpoint process_items (own_x : bytes) (items : list json) : N unit :=
  match items with
  | [] => ret tt
  | item :: rest => process_item own_x item ;;; process_items own_x rest
  end.

(** The ids to acknowledge: marked, and received in this inbox. *)
(** Python's equality of a number with the id of an item. *)
Definition same_id (z : Z) (item : json) : bool :=
  match item with
  | JObj d => match obj_get "message_id" d with
              | Some (JInt y) => (y =? z)%Z
              | Some (JBool b) => (z =? if b then 1 else 0)%Z
              | Some (JFloat (FFin r)) => String.eqb r (print_int z +:+ ".0")
              | _ => false
              end
  | _ => false
  end.
Definition acknowledged (items : list json) (t : tables) : list Z :=
  List.filter (fun z => existsb (same_id z) items) (order_by Z.leb (processed_relay t)).

Definition inbox_headers (own now : string) (sig : bytes) : list (string * string) :=
  [("X-Username", own); ("X-Timestamp", now); ("X-Signature", hexlify sig)].

Definition ack_text (ids : list Z) : string :=
  json_dumps dumps_compact (JObj [("message_ids", JList (map JInt ids))]).

(** The ids that were posted to the relay for acknowledgement. *)
Definition acknowledge (own : string) (items : list json) : N (list Z) :=
  let* ids := select (acknowledged items) in
  match ids with
  | [] => ret []
  | _ =>
      let* now := draw utcnow in
      let* sig := mlift (sign_with_profile private_of_bytes kc profile
                           (utf8_encode (own +:+ ":" +:+ now +:+ ":" +:+ ack_text ids))) in
      draw (fun n => post_content n (relay_base relay_env +:+ "/relay/inbox/ack") (utf8_encode (ack_text ids))
                       (("Content-Type", "application/json") :: inbox_headers own now sig)) ;;;
      ret ids
  end.

Definition fetch_inbox_items : N (list Z) :=
  let* own := own_name in
  let* _ := or_exit (load_private_key profile kc).1 in
  let* own_x := or_exit (load_x25519_private_key profile kc).1 in
  let* now := draw utcnow in
  let* sig := mlift (sign_with_profile private_of_bytes kc profile (utf8_encode (own +:+ ":" +:+ now))) in
  let* resp := get (relay_base relay_env +:+ "/relay/inbox") (inbox_headers own now sig) in
  let* text := or_exit (body_of resp) in
  let* res := mlift (json_of text) in
  match res with
  | JObj d =>
      match default (JList []) (obj_get "messages" d) with
      | JList [] | JNull => ret []
      | JList items => process_items own_x items ;;; acknowledge own items
      | JStr _ as v | JObj _ as v => if json_truthy v then mraise "AttributeError" else ret []
      | v => if json_truthy v then mraise "TypeError" else ret []
      end
  | _ => mraise "AttributeError"
  end.
Definition fetch : N (list Z) := request fetch_inbox_items.
End commands.
