(* ===== verification/TaskBounds.v ===== *)
(** * How long a task exchange can get

    Every operation on the tasks of the first protocol, the two routes and the
    three commands, keeps the number of messages of a task at most one above
    [MAX_TASK_MESSAGES]: an incoming message is refused at the limit, but an
    answer that leaves without review or a reviewed reply may still follow the
    last message within it.  The file proves this as an invariant with triples
    for the monad of the store. *)

From Stdlib Require Import Ascii String ZArith Lia.
From stdpp Require Import base gmap sets list strings.
From S2P Require Import Prelude Regex Codec PyValue Schemas Cards Store AuditLog History Ingest Keychain.
From S2P Require Import Relay Identity RetryQueue Backend Tasks TaskClient.

#[local] Open Scope nat_scope.

(** ** Triples *)

(** A program that leaves the tables alone keeps every property of them. *)
Lemma triple_quiet {A} (P : node -> Prop) (m : N A) :
  (forall s s', same_db s s' -> P s -> P s') -> keeps same_db m -> triple P m (fun _ => P) P.
Proof. intros HP Hm s Hs. pose proof (Hm s) as H. destruct (m s) as [[a|e] s']; eapply HP; eauto. Qed.

Lemma triple_select {A} (P : node -> Prop) (f : tables -> A) (Q : A -> node -> Prop) X :
  (forall s, P s -> Q (f (db s)) s) -> triple P (select f) Q X.
Proof. intros HQ s. apply HQ. Qed.

Lemma triple_execute (P : node -> Prop) f (Q : unit -> node -> Prop) X :
  (forall s, P s -> Q tt (on_db f s)) -> triple P (execute f) Q X.
Proof. intros HQ s. apply HQ. Qed.

Lemma triple_insert (P : node -> Prop) ok f (Q : unit -> node -> Prop) (X : node -> Prop) :
  (forall s, P s -> ok (db s) = true -> Q tt (on_db f s)) -> (forall s, P s -> X s) ->
  triple P (insert_checked ok f) Q X.
Proof.
  intros HQ HX s Hs. unfold insert_checked, select, bind, mgets. cbn. destruct (ok (db s)) eqn:E; [|by apply HX].
  by apply HQ.
Qed.

(** ** The invariant *)

Definition count (id : string) (t : tables) : nat := length (messages_of id t).

(** Within the limit, or one above it with nothing left to send. *)
Definition within (r : task_row) (t : tables) : Prop :=
  count (t_id r) t <= 10 \/
  count (t_id r) t <= 11 /\ (t_draft_content r = None \/ is_closed (t_status r) = true).

(** The keys of the two tables. *)
Definition keyed (t : tables) : Prop :=
  NoDup (map t_id (tasks t)) /\ forall m, m ∈ messages t -> m_task m ∈ map t_id (tasks t).

Definition bounded (t : tables) : Prop := keyed t /\ forall r, r ∈ tasks t -> within r t.

(** Bounded but for one task, which has at most [n] messages. *)
Definition upto (k : string) (n : nat) (t : tables) : Prop :=
  keyed t /\ count k t <= n /\ forall r, r ∈ tasks t -> t_id r <> k -> within r t.

Lemma upto_bounded k n t : n <= 10 -> upto k n t -> bounded t.
Proof.
  intros Hn (Hk & Hc & Hr). split; [done|]. intros r Hin. destruct (decide (t_id r = k)) as [E|E]; [|by apply Hr].
  left. rewrite E. lia.
Qed.

Lemma bounded_upto k n t : bounded t -> count k t <= n -> upto k n t.
Proof. intros [Hk Hr] Hc. split_and!; auto. Qed.

Lemma upto_le k n n' t : n <= n' -> upto k n t -> upto k n' t.
Proof. intros Hn (Hk & Hc & Hr). split_and!; [done|lia|done]. Qed.

Lemma update_task_ids k f t : (forall r, t_id (f r) = t_id r) -> map t_id (tasks (update_task k f t)) = map t_id (tasks t).
Proof. intros Hf. unfold update_task. cbn [set_tasks tasks]. apply (update_keys t_id). intros x _. apply Hf. Qed.

Lemma update_task_keyed k f t : (forall r, t_id (f r) = t_id r) -> keyed t -> keyed (update_task k f t).
Proof. intros Hf [Hn Hm]. unfold keyed. by rewrite update_task_ids. Qed.

Lemma update_task_rows k f t r :
  r ∈ tasks (update_task k f t) -> (forall r0, t_id (f r0) = t_id r0) ->
  exists r0, r0 ∈ tasks t /\ t_id r = t_id r0 /\ (t_id r0 <> k -> r = r0) /\ (t_id r0 = k -> r = f r0).
Proof.
  intros Hr Hf. unfold update_task, update_where in Hr. cbn [set_tasks tasks] in Hr.
  apply list_elem_of_fmap in Hr as (r0 & -> & Hr). exists r0. split; [done|].
  destruct (String.eqb_spec (t_id r0) k); split_and!; done || apply Hf.
Qed.

Lemma upto_update k n f t : (forall r, t_id (f r) = t_id r) -> upto k n t -> upto k n (update_task k f t).
Proof.
  intros Hf (Hk & Hc & Hr). split_and!; [by apply update_task_keyed|done|]. intros r Hin Hne.
  destruct (update_task_rows _ _ _ _ Hin Hf) as (r0 & H0 & Ei & Heq & _). rewrite Ei in Hne. rewrite (Heq Hne).
  by apply Hr.
Qed.

(** An update that closes the task or clears its draft restores the bound. *)
Lemma upto_settle k f t :
  (forall r, t_id (f r) = t_id r) ->
  (forall r, t_draft_content (f r) = None \/ is_closed (t_status (f r)) = true) ->
  upto k 11 t -> bounded (update_task k f t).
Proof.
  intros Hf Hs (Hk & Hc & Hr). split; [by apply update_task_keyed|]. intros r Hin.
  destruct (update_task_rows _ _ _ _ Hin Hf) as (r0 & H0 & Ei & Heq & Hupd).
  destruct (decide (t_id r0 = k)) as [E|E].
  - rewrite (Hupd E). right. rewrite Hf, E. split; [done|apply Hs].
  - rewrite (Heq E). by apply Hr.
Qed.

Lemma count_insert id m t :
  count id (set_messages (fun l => l ++ [m]) t) = count id t + (if String.eqb (m_task m) id then 1 else 0).
Proof.
  unfold count, messages_of. cbn [set_messages messages]. rewrite List.filter_app, length_app. cbn.
  by destruct (String.eqb (m_task m) id).
Qed.

Lemma upto_insert n m t :
  upto (m_task m) n t -> task_by_id (m_task m) t <> None -> upto (m_task m) (S n) (set_messages (fun l => l ++ [m]) t).
Proof.
  intros ([Hn Hm] & Hc & Hr) Ht. split_and!.
  - split; [done|]. intros x Hx. cbn [set_messages messages] in Hx. apply elem_of_app in Hx as [Hx|Hx]; [by apply Hm|].
    apply list_elem_of_singleton in Hx. subst x. destruct (task_by_id (m_task m) t) as [r|] eqn:E; [|done].
    apply find_first_Some in E as [Hin He]. apply String.eqb_eq in He. rewrite <- He. cbn [set_messages tasks].
    by apply list_elem_of_fmap_2.
  - rewrite count_insert, String.eqb_refl. lia.
  - intros r Hin Hne. destruct (Hr r Hin Hne) as [Hw|[Hw ?]]; unfold within; rewrite count_insert;
      (replace (String.eqb _ _) with false by (symmetry; apply String.eqb_neq; congruence)); [left|right]; split_and?; try done; lia.
Qed.

(** A task that is new has no messages. *)
Lemma upto_new r t :
  bounded t -> task_by_id (t_id r) t = None -> upto (t_id r) 0 (set_tasks (fun l => l ++ [r]) t).
Proof.
  intros [[Hn Hm] Hr] Ht. unfold task_by_id in Ht. apply find_first_None in Ht.
  assert (t_id r ∉ map t_id (tasks t)) as Hnew.
  { intros Hin. apply list_elem_of_fmap in Hin as (r0 & E & Hin). rewrite Forall_forall in Ht. specialize (Ht r0 Hin).
    rewrite <- E, String.eqb_refl in Ht. done. }
  split_and!.
  - split; cbn [set_tasks tasks messages].
    + rewrite map_app. apply NoDup_app. split; [done|]. split; [|apply NoDup_singleton].
      intros x Hx Hin. apply list_elem_of_singleton in Hin. by subst x.
    + intros m Hin. rewrite map_app, elem_of_app. left. by apply Hm.
  - unfold count, messages_of. cbn [set_tasks messages].
    replace (List.filter _ (messages t)) with (@nil message_row); [done|]. symmetry.
    assert (forall l, (forall m, m ∈ l -> m_task m <> t_id r) -> List.filter (fun m => String.eqb (m_task m) (t_id r)) l = []) as Hl.
    { induction l as [|m l IH]; intros Hl; [done|]. cbn. destruct (String.eqb_spec (m_task m) (t_id r)) as [E|E].
      - exfalso. apply (Hl m); [left|done].
      - apply IH. intros x Hx. apply Hl. by right. }
    apply Hl. intros m Hin E. apply Hnew. rewrite <- E. by apply Hm.
  - intros r0 Hin Hne. cbn [set_tasks tasks] in Hin. apply elem_of_app in Hin as [Hin|Hin]; [by apply Hr|].
    apply list_elem_of_singleton in Hin. by subst r0.
Qed.

(** ** The invariant on nodes *)

Definition good (s : node) : Prop := bounded (db s) /\ bounded (committed s).
Definition near (k : string) (n : nat) (s : node) : Prop := upto k n (db s) /\ bounded (committed s).

(** Properties of the tables alone. *)
Definition stable (P : node -> Prop) : Prop := forall s s', same_db s s' -> P s -> P s'.
Lemma good_stable : stable good.
Proof. intros s s' [Ed Ec] [Hd Hc]. unfold good. by rewrite Ed, Ec. Qed.
Lemma near_stable k n : stable (near k n).
Proof. intros s s' [Ed Ec] [Hd Hc]. unfold near. by rewrite Ed, Ec. Qed.
#[export] Hint Resolve good_stable near_stable : keeps.

Lemma near_good k n s : n <= 10 -> near k n s -> good s.
Proof. intros Hn [Hd Hc]. split; [by eapply upto_bounded|done]. Qed.
Lemma near_le k n n' s : n <= n' -> near k n s -> near k n' s.
Proof. intros Hn [Hd Hc]. split; [by eapply upto_le|done]. Qed.
Lemma good_near k n s : good s -> count k (db s) <= n -> near k n s.
Proof. intros [Hd Hc] Hn. split; [by apply bounded_upto|done]. Qed.

Lemma triple_then {A B} (P X : node -> Prop) (m : N A) (k : A -> N B) Q :
  stable P -> keeps same_db m -> (forall s, P s -> X s) -> (forall a, triple P (k a) Q X) -> triple P (bind m k) Q X.
Proof.
  intros HP Hm HX Hk. apply (triple_bind P m (fun _ => P)); [|done].
  eapply triple_weaken; [by apply triple_quiet| | |]; auto.
Qed.

Lemma triple_commit_near k n X : n <= 10 -> triple (near k n) commit (fun _ => near k n) X.
Proof. intros Hn s [Hd Hc]. split; [done|by eapply upto_bounded]. Qed.
Lemma triple_commit_good X : triple good commit (fun _ => good) X.
Proof. intros s [Hd Hc]. by split. Qed.

Lemma triple_update k n f X :
  (forall r, t_id (f r) = t_id r) -> triple (near k n) (execute (update_task k f)) (fun _ => near k n) X.
Proof. intros Hf. apply triple_execute. intros s [Hd Hc]. split; [by apply upto_update|done]. Qed.

Lemma triple_settle k f X :
  (forall r, t_id (f r) = t_id r) ->
  (forall r, t_draft_content (f r) = None \/ is_closed (t_status (f r)) = true) ->
  triple (near k 11) (execute (update_task k f)) (fun _ => good) X.
Proof. intros Hf Hs. apply triple_execute. intros s [Hd Hc]. split; [by apply upto_settle|done]. Qed.

Lemma triple_message n m :
  triple (near (m_task m) n) (insert_message m) (fun _ => near (m_task m) (S n)) (near (m_task m) n).
Proof.
  apply triple_insert; [|done]. intros s [Hd Hc] Hok. split; [|done]. cbn [on_db db]. apply upto_insert; [done|].
  apply andb_true_iff in Hok as [_ Hok]. by destruct (task_by_id _ _).
Qed.

Lemma triple_task r : triple good (insert_task r) (fun _ => near (t_id r) 0) good.
Proof.
  apply triple_insert; [|done]. intros s [Hd Hc] Hok. split; [|done]. cbn [on_db db]. apply upto_new; [done|].
  by destruct (task_by_id _ _).
Qed.

Section handlers.
Context `{NodeEnv} `{Ed25519} `{X25519}.
Context (public_of_bytes : bytes -> option public_key) (private_of_bytes : bytes -> option private_key).
Context (kc : keychain) (profile : string).
Context (post_content : nat -> string -> bytes -> list (string * string) -> http_result).
Context (http_post : nat -> string -> json -> http_result).
Context (relay_env : option string) (the_roster : result string (list (string * AgentConfig))).
Context (reply_to : nat -> option string -> AgentBackendRequest -> result failure AgentBackendResponse).
Context (err_text : string -> string) (is_openai : string -> bool) (number_text : json -> string).

Abbreviation auto_relay :=
  (auto_relay_information_response private_of_bytes kc profile post_content http_post relay_env number_text).
Abbreviation draft := (draft_reply reply_to err_text is_openai).
Abbreviation create := (process_create_task public_of_bytes private_of_bytes kc profile post_content http_post relay_env
                          the_roster reply_to err_text is_openai number_text).
Abbreviation send := (process_send_message public_of_bytes private_of_bytes kc profile post_content http_post relay_env
                        reply_to err_text is_openai number_text).

Lemma near_10_11 k s : near k 10 s -> near k 11 s.
Proof. apply near_le. lia. Qed.
Lemma near_10_good k s : near k 10 s -> good s.
Proof. by apply near_good. Qed.
#[local] Hint Resolve near_10_11 near_10_good draw_same_db select_same_db : bound.

Ltac quiet := apply triple_then; [eauto with keeps|first [apply draw_same_db|apply select_same_db]|eauto with bound|intros ?].

(** The answer that may leave takes the task from within the limit to at most
    one above it, with its draft cleared. *)
Lemma auto_relay_bounded k contact ep cx text :
  triple (near k 10) (auto_relay k contact ep cx text) (fun _ => good) (near k 11).
Proof.
  unfold auto_relay_information_response. quiet. quiet. destruct a as [i|]; [|apply triple_ret; eauto with bound].
  destruct a0 as [r|]; [|apply triple_ret; eauto with bound].
  destruct (sign_with_profile _ _ _ _) as [sg|e]; [|apply triple_ret; eauto with bound].
  quiet. apply triple_then; [eauto with keeps|apply post_answer_quiet|eauto with bound|].
  intros [st|]; [|apply triple_ret; eauto with bound]. quiet.
  apply (triple_bind _ _ (fun _ => near k 11)).
  - eapply triple_weaken; [exact (triple_message 10 {| m_task := k |})| | |]; eauto with bound.
  - intros _. apply (triple_bind _ _ (fun _ => near k 11)); [by apply triple_lift|]. intros st_text.
    apply (triple_bind _ _ (fun _ => good)).
    + apply triple_settle; [done|]. by left.
    + intros _. apply (triple_bind _ _ (fun _ => good)); [apply triple_commit_good|]. intros _.
      by apply triple_ret.
Qed.

Lemma record_failure_bounded k now f X : triple (near k 11) (record_failure is_openai k now f) (fun _ => good) X.
Proof.
  unfold record_failure. apply (triple_bind _ _ (fun _ => good)).
  - apply triple_settle; [done|]. by right.
  - intros _. apply (triple_bind _ _ (fun _ => good)); [apply triple_commit_good|]. intros _. by apply triple_ret.
Qed.

Lemma draft_bounded k now agent q auto :
  (forall a, triple (near k 10) (auto a) (fun _ => good) (near k 11)) ->
  triple (near k 10) (draft k now agent q auto) (fun _ => good) good.
Proof.
  intros Ha. unfold draft_reply. quiet. destruct a as [a|f].
  - apply (triple_catch _ _ _ _ (near k 11)).
    + apply (triple_bind _ _ (fun _ => near k 10)); [by apply triple_update|]. intros _.
      apply (triple_bind _ _ (fun _ => near k 10)); [by apply triple_commit_near|]. intros _.
      apply (triple_bind _ _ (fun _ => good)); [apply Ha|]. intros st. by apply triple_ret.
    + intros e. apply record_failure_bounded.
  - eapply triple_weaken; [apply record_failure_bounded| | |]; eauto with bound.
Qed.

Lemma good_triple {A} (m : N A) : triple good m (fun _ => good) good <-> forall s, good s -> good (m s).2.
Proof.
  split; intros Hm s Hs; specialize (Hm s Hs); destruct (m s) as [[a|e] s']; done.
Qed.

Lemma accept_bounded r body sg now :
  triple (near (t_id r) 9)
    (accept_message private_of_bytes kc profile post_content http_post relay_env reply_to err_text is_openai number_text
       r body sg now) (fun _ => good) good.
Proof.
  assert (forall s, near (t_id r) 9 s -> good s) as H9 by (intros s; apply near_good; lia).
  unfold accept_message. apply triple_then; [eauto with keeps|apply draw_same_db|done|]. intros id.
  apply (triple_bind _ _ (fun _ => near (t_id r) 10)).
  { eapply triple_weaken; [exact (triple_message 9 {| m_task := t_id r |})| | |]; eauto. }
  intros _. destruct (String.eqb _ "finalize_accept"); [|destruct (String.eqb _ "finalize_proposal")].
  1,2: apply (triple_bind _ _ (fun _ => near (t_id r) 10)); [by apply triple_update|]; intros _;
    apply (triple_bind _ _ (fun _ => near (t_id r) 10)); [by apply triple_commit_near|]; intros _;
    apply triple_ret; eauto with bound.
  apply (triple_bind _ _ (fun _ => near (t_id r) 10)); [by apply triple_update|]. intros _.
  apply (triple_bind _ _ (fun _ => near (t_id r) 10)); [by apply triple_commit_near|]. intros _.
  quiet. apply (triple_bind _ _ (fun _ => near (t_id r) 10)); [apply triple_lift; eauto with bound|]. intros ctx.
  apply (triple_bind _ _ (fun _ => good)); [|intros st; by apply triple_ret].
  apply draft_bounded. intros x. quiet. destruct a0 as [p|]; [|apply triple_ret; eauto with bound].
  destruct (may_auto_relay _ _ _); [apply auto_relay_bounded|apply triple_ret; eauto with bound].
Qed.

Lemma exchange_good s s' :
  tasks (db s') = tasks (db s) -> messages (db s') = messages (db s) -> bounded (db s) -> bounded (db s').
Proof.
  intros Ht Hm [[Hn Hk] Hr]. unfold bounded, keyed, within, count, messages_of. rewrite Ht, Hm. done.
Qed.

(** Updates that change neither ids, drafts nor statuses. *)
Lemma bounded_view k f t :
  (forall r, t_id (f r) = t_id r /\ t_draft_content (f r) = t_draft_content r /\ t_status (f r) = t_status r) ->
  bounded t -> bounded (update_task k f t).
Proof.
  intros Hf [Hk Hr]. assert (forall r, t_id (f r) = t_id r) as Hi by (intros r; apply Hf).
  split; [by apply update_task_keyed|]. intros r Hin.
  destruct (update_task_rows _ _ _ _ Hin Hi) as (r0 & Hin0 & Ei & Heq & Hupd).
  destruct (decide (t_id r0 = k)) as [E|E]; [|rewrite (Heq E); by apply Hr].
  rewrite (Hupd E). destruct (Hf r0) as (Ei' & Ed & Es). unfold within. rewrite Ei', Ed, Es. by apply Hr.
Qed.

Lemma find_task_bounded tid body : triple good (find_task tid body) (fun _ => good) good.
Proof.
  unfold find_task. quiet. assert (forall o : option task_row, triple good (ret o : N _) (fun _ => good) good) as Hret
    by (intros o; by apply triple_ret).
  destruct a; [apply Hret|]. destruct (origin_ref_id body) as [[|c o]|]; [apply Hret| |apply Hret].
  quiet. destruct a; [|apply Hret]. apply (triple_bind _ _ (fun _ => good)).
  - apply triple_execute. intros s [Hd Hc]. split; [by apply bounded_view|done].
  - intros _. apply (triple_bind _ _ (fun _ => good)); [apply triple_commit_good|]. intros _. apply Hret.
Qed.

Lemma send_bounded tid body raw sg : triple good (send tid body raw sg) (fun _ => good) good.
Proof.
  unfold process_send_message. apply (triple_bind _ _ (fun _ => good)); [apply find_task_bounded|].
  intros [r|]; [|by apply triple_ret]. destruct (is_closed _); [by apply triple_ret|]. quiet.
  apply (triple_bind _ _ (fun _ => good)); [by apply triple_lift|]. intros [refused|c]; [by apply triple_ret|].
  quiet. apply (triple_bind _ _ (fun rows s => good s /\ rows = messages_of (t_id r) (db s))).
  { by apply triple_select. }
  intros rows. destruct (Nat.leb MAX_TASK_MESSAGES (length rows)) eqn:El.
  - apply (triple_bind _ _ (fun _ => good)).
    + apply triple_execute. intros s [[Hd Hc] ->]. split; [|done]. apply upto_settle; [done|by right|].
      apply bounded_upto; [done|]. unfold bounded, within in Hd. destruct Hd as [[Hn Hm] Hw].
      destruct (decide (t_id r ∈ map t_id (tasks (db s)))) as [Hin|Hin].
      * apply list_elem_of_fmap in Hin as (r0 & E & Hin). rewrite E. destruct (Hw r0 Hin) as [?|[? _]]; lia.
      * apply Nat.leb_le in El. unfold count. destruct (messages_of (t_id r) (db s)) as [|m l] eqn:Em; [cbn; lia|].
        exfalso. apply Hin. assert (m ∈ messages_of (t_id r) (db s)) as Hm0 by (rewrite Em; left).
        apply list_elem_of_In, filter_In in Hm0 as [Hm1 Hm2]. apply String.eqb_eq in Hm2. rewrite <- Hm2.
        apply Hm. by apply list_elem_of_In.
    + intros _. apply (triple_bind _ _ (fun _ => good)); [apply triple_commit_good|]. intros _. by apply triple_ret.
  - eapply triple_weaken; [apply accept_bounded| |done|done]. intros s [Hg ->].
    apply good_near; [done|]. apply Nat.leb_gt in El. unfold count, MAX_TASK_MESSAGES in *. lia.
Qed.

Lemma create_bounded body raw sg ref : triple good (create body raw sg ref) (fun _ => good) good.
Proof.
  unfold process_create_task. quiet. apply (triple_bind _ _ (fun _ => good)); [by apply triple_lift|].
  intros [refused|c]; [by apply triple_ret|]. quiet. quiet.
  apply (triple_bind _ _ (fun _ => near a0 1)).
  - assert (forall s, near a0 0 s -> good s) as Hg by (intros s; apply near_good; lia).
    unfold store_task. apply (triple_bind _ _ (fun _ => good)); [by apply triple_lift|]. intros pn.
    apply (triple_bind _ _ (fun _ => near a0 0)); [exact (triple_task {| t_id := a0 |})|]. intros _.
    apply triple_then; [eauto with keeps|apply draw_same_db|done|]. intros id.
    apply (triple_bind _ _ (fun _ => near a0 0)); [by apply triple_lift|]. intros kind.
    apply (triple_bind _ _ (fun _ => near a0 1)).
    { eapply triple_weaken; [exact (triple_message 0 {| m_task := a0 |})| | |]; auto. }
    intros _. apply (triple_bind _ _ (fun _ => near a0 1)); [apply triple_commit_near; lia|]. intros _.
    by apply triple_ret.
  - intros kind. apply (triple_bind _ _ (fun _ => good)); [|intros st; by apply triple_ret].
    eapply triple_weaken; [apply draft_bounded| |done|done].
    + intros x. destruct (may_auto_relay _ _ _); [apply auto_relay_bounded|apply triple_ret; eauto with bound].
    + intros s. apply near_le. lia.
Qed.
End handlers.

(** ** Commands *)

Definition good_kept (s s' : node) : Prop := good s -> good s'.
#[export] Instance good_kept_preorder : PreOrder good_kept.
Proof. split; [by intros s Hs|]. unfold good_kept. intros s1 s2 s3. auto. Qed.

Lemma kept_of_triple {A} (m : N A) : triple good m (fun _ => good) good -> keeps good_kept m.
Proof. intros Hm s Hs. specialize (Hm s Hs). destruct (m s) as [[a|e] s']; done. Qed.
Lemma triple_of_kept {A} (m : N A) : keeps good_kept m -> triple good m (fun _ => good) good.
Proof. intros Hm s Hs. specialize (Hm s Hs). destruct (m s) as [[a|e] s']; done. Qed.
Lemma quiet_good {A} (m : N A) : keeps same_db m -> keeps good_kept m.
Proof. apply keeps_weaken. intros s s' Hd Hs. exact (good_stable s s' Hd Hs). Qed.

Lemma same_rows t t' : tasks t' = tasks t -> messages t' = messages t -> bounded t -> bounded t'.
Proof. intros Ht Hm. unfold bounded, keyed, within, count, messages_of. by rewrite Ht, Hm. Qed.

Lemma execute_good f :
  (forall t, tasks (f t) = tasks t /\ messages (f t) = messages t) -> keeps good_kept (execute f).
Proof.
  intros Hf s [Hd Hc]. split; [|done]. cbn [execute mmodify on_db db snd]. destruct (Hf (db s)).
  by eapply same_rows.
Qed.
Lemma commit_good : keeps good_kept commit.
Proof. intros s [Hd Hc]. by split. Qed.
Lemma draw_good {A} (f : nat -> A) : keeps good_kept (draw f).
Proof. by intros s Hs. Qed.
Lemma select_good {A} (f : tables -> A) : keeps good_kept (select f).
Proof. by intros s Hs. Qed.
#[export] Hint Resolve commit_good draw_good select_good : keeps.

(** What is left when the connection is closed. *)
Definition safe (s : node) : Prop := bounded (committed s).

Lemma request_good {A} (m : N A) : triple good m (fun _ => safe) safe -> keeps good_kept (request m).
Proof.
  intros Hm s Hs. specialize (Hm s Hs). unfold request, mfinally, rollback, mmodify.
  destruct (m s) as [[a|e] s']; by split.
Qed.

Lemma good_safe s : good s -> safe s.
Proof. by intros [_ ?]. Qed.
Lemma near_safe k n s : near k n s -> safe s.
Proof. by intros [_ ?]. Qed.
#[export] Hint Resolve good_safe near_safe : bound.

Lemma request_kept {A} (m : N A) : keeps good_kept m -> keeps good_kept (request m).
Proof.
  intros Hm. apply request_good. eapply triple_weaken; [by apply triple_of_kept| | |]; eauto with bound.
Qed.

(** A row with a draft to send has room for it. *)
Lemma draft_room r t : bounded t -> r ∈ tasks t -> t_draft_content r <> None -> is_closed (t_status r) = false ->
  count (t_id r) t <= 10.
Proof. intros [_ Hw] Hr Hd Hc. destruct (Hw r Hr) as [?|[_ [?|?]]]; [done|congruence|congruence]. Qed.

Lemma replace_bounded r t :
  t_draft_content r = None -> bounded t ->
  bounded (set_tasks (fun l => List.filter (fun x => negb (String.eqb (t_id x) (t_id r))) l ++ [r]) t).
Proof.
  intros Hd [[Hn Hm] Hw]. set (l := List.filter (fun x => negb (String.eqb (t_id x) (t_id r))) (tasks t)).
  assert (forall x, x ∈ l <-> x ∈ tasks t /\ t_id x <> t_id r) as Hl.
  { intros x. unfold l. rewrite list_elem_of_In, filter_In, <- list_elem_of_In, negb_true_iff, String.eqb_neq. done. }
  assert (forall r0, r0 ∈ l \/ r0 = r -> within r0 (set_tasks (fun _ => l ++ [r]) t)) as Hwr.
  { intros r0 [H0| ->].
    - apply Hl in H0 as [H0 _]. by apply Hw.
    - right. split; [|by left]. change (count (t_id r) t <= 11).
      destruct (find_first (fun x => String.eqb (t_id x) (t_id r)) (tasks t)) as [r1|] eqn:E.
      + apply find_first_Some in E as [Hin E]. apply String.eqb_eq in E. rewrite <- E.
        destruct (Hw r1 Hin) as [?|[? _]]; lia.
      + apply find_first_None in E. unfold count. destruct (messages_of (t_id r) t) as [|m ms] eqn:Em; [cbn; lia|].
        exfalso. assert (m ∈ messages_of (t_id r) t) as Hin by (rewrite Em; left).
        apply list_elem_of_In, filter_In in Hin as [Hin Eid]. apply String.eqb_eq in Eid.
        apply list_elem_of_In, Hm, list_elem_of_fmap in Hin as (r1 & E1 & Hin). rewrite Forall_forall in E.
        specialize (E r1 Hin). apply String.eqb_neq in E. congruence. }
  split.
  - split; cbn [set_tasks tasks messages].
    + fold l. rewrite map_app. apply NoDup_app. split_and!; [|intros x Hx Hin|apply NoDup_singleton].
      * unfold l. clear -Hn. induction (tasks t) as [|x ts IH]; [constructor|]. cbn in Hn |- *.
        apply NoDup_cons in Hn as [Hx Hn]. destruct (negb _); cbn; [|by apply IH]. apply NoDup_cons. split; [|by apply IH].
        intros Hin. apply Hx. apply list_elem_of_fmap in Hin as (y & E & Hy). rewrite E.
        apply list_elem_of_fmap_2. apply list_elem_of_In, filter_In in Hy as [Hy _]. by apply list_elem_of_In.
      * apply list_elem_of_singleton in Hin. subst x. apply list_elem_of_fmap in Hx as (y & E & Hy).
        apply Hl in Hy as [_ Hy]. congruence.
    + intros m Hin. fold l. rewrite map_app, elem_of_app. destruct (decide (m_task m = t_id r)) as [E|E].
      * right. rewrite E. left.
      * left. apply Hm, list_elem_of_fmap in Hin as (y & Ey & Hy). rewrite Ey. apply list_elem_of_fmap_2, Hl.
        split; [done|congruence].
  - intros r0 Hin. cbn [set_tasks tasks] in Hin. fold l in Hin. apply elem_of_app in Hin as [Hin|Hin].
    + apply Hwr. by left.
    + apply list_elem_of_singleton in Hin. apply Hwr. by right.
Qed.

Section command_bounds.
Context `{NodeEnv} `{Ed25519} `{X25519}.
Context (public_of_bytes : bytes -> option public_key) (private_of_bytes : bytes -> option private_key).
Context (kc : keychain) (profile : string).
Context (post_content : nat -> string -> bytes -> list (string * string) -> http_result).
Context (http_post : nat -> string -> json -> http_result).
Context (http_get : nat -> string -> list (string * string) -> http_result).
Context (relay_env : option string) (the_roster : result string (list (string * AgentConfig))).
Context (reply_to : nat -> option string -> AgentBackendRequest -> result failure AgentBackendResponse).
Context (err_text : string -> string) (is_openai : string -> bool) (number_text : json -> string).
Context (py_int : string -> option Z).
Context (default_relay : string) (refresh_env : option string) (rowid_of : json -> result string Z).
Context (unprocessable : Z * document).

Abbreviation create_req := (create_task public_of_bytes private_of_bytes kc profile post_content http_post relay_env
                              the_roster reply_to err_text is_openai number_text unprocessable).
Abbreviation send_req := (send_message public_of_bytes private_of_bytes kc profile post_content http_post relay_env
                            reply_to err_text is_openai number_text unprocessable).
Abbreviation ask_cmd := (ask private_of_bytes kc profile post_content http_post http_get relay_env the_roster number_text
                           py_int default_relay refresh_env).
Abbreviation respond_cmd := (respond private_of_bytes kc profile post_content http_post relay_env the_roster number_text py_int).
Abbreviation fetch_cmd := (fetch public_of_bytes private_of_bytes kc profile post_content http_post http_get relay_env
                             the_roster reply_to err_text is_openai number_text rowid_of).

Lemma leave_quiet own contact cx url env : keeps same_db (leave_at_relay kc profile http_post own contact cx url env).
Proof. unfold leave_at_relay, or_exit, encrypt_for_recipient. solve_keeps. Qed.

Lemma own_name_quiet : keeps same_db own_name.
Proof. unfold own_name. solve_keeps. Qed.

Lemma or_exit_quiet {A} (r : result string A) : keeps same_db (or_exit r).
Proof. unfold or_exit. solve_keeps. Qed.

Lemma refresh_good username : keeps good_kept (refresh_contact_endpoint http_get relay_env default_relay username).
Proof. unfold refresh_contact_endpoint. solve_keeps; by apply execute_good. Qed.

Lemma address_good contact c ep :
  keeps good_kept (current_address http_get relay_env default_relay refresh_env contact c ep).
Proof. unfold current_address. pose proof refresh_good. solve_keeps. Qed.

Lemma replace_good r : t_draft_content r = None -> keeps good_kept (replace_task r).
Proof.
  intros Hd s [Hs Hc]. unfold replace_task, insert_checked, select, bind, mgets. cbn.
  destruct (find_contact _ _); [|by split]. split; [by apply replace_bounded|done].
Qed.

Lemma insert_task_good r : keeps good_kept (insert_task r).
Proof.
  apply kept_of_triple. eapply triple_weaken; [apply triple_task|done| |done]. intros ? s. apply near_good. lia.
Qed.

Lemma record_question_good contact q agent text : keeps good_kept (record_question number_text contact q agent text).
Proof. unfold record_question. solve_keeps. by apply replace_good. Qed.

Lemma ask_good contact q agent choices : keeps good_kept (ask_cmd contact q agent choices).
Proof.
  apply request_kept. unfold ask_task.
  pose proof (@quiet_good). pose proof (fun A r => quiet_good _ (@or_exit_quiet A r)).
  pose proof (quiet_good _ own_name_quiet). pose proof insert_task_good. pose proof record_question_good.
  pose proof address_good. solve_keeps. apply quiet_good, leave_quiet.
Qed.

Lemma triple_near_then {A} k n (m : N A) (kk : A -> N unit) :
  keeps same_db m -> (forall a, triple (near k n) (kk a) (fun _ => safe) safe) ->
  triple (near k n) (bind m kk) (fun _ => safe) safe.
Proof. intros Hm Hk. apply triple_then; eauto using near_stable, near_safe. Qed.

Lemma sent_safe k own text kind sg f :
  (forall now r, t_id (f now r) = t_id r /\ t_draft_content (f now r) = None) ->
  triple (near k 10) (record_sent k own text kind sg f) (fun _ => safe) safe.
Proof.
  intros Hf. unfold record_sent. apply triple_near_then; [apply draw_same_db|]. intros now.
  apply triple_near_then; [apply draw_same_db|]. intros id. apply (triple_bind _ _ (fun _ => near k 11)).
  { eapply triple_weaken; [exact (triple_message 10 {| m_task := k |})| | |]; eauto using near_safe. }
  intros _. apply (triple_bind _ _ (fun _ => good)).
  { apply triple_settle; intros r; [apply Hf|left; apply Hf]. }
  intros _. eapply triple_weaken; [apply triple_commit_good|done|..]; intros; by apply good_safe.
Qed.

Lemma deliver_safe r c own kind text sg payload agent :
  triple (near (t_id r) 10)
    (deliver_reply kc profile post_content http_post relay_env number_text r c own kind text sg payload agent)
    (fun _ => safe) safe.
Proof.
  unfold deliver_reply. destruct (c_endpoint c) as [ep|]; [|apply triple_raise; by apply near_safe].
  apply triple_near_then; [apply draw_same_db|]. intros [code_ text_|e].
  - destruct (success code_); [|apply triple_raise; by apply near_safe].
    apply triple_near_then; [by intros s|]. intros res. apply triple_near_then; [by intros s|]. intros st.
    destruct (String.eqb kind "finalize_accept"); [by apply sent_safe|].
    apply triple_near_then; [apply draw_same_db|]. intros now. apply triple_near_then; [apply draw_same_db|]. intros id.
    apply (triple_bind _ _ (fun _ => near (t_id r) 11)).
    { eapply triple_weaken; [exact (triple_message 10 {| m_task := t_id r |})| | |]; eauto using near_safe. }
    intros _. apply triple_near_then; [by intros s|]. intros st'. apply (triple_bind _ _ (fun _ => good)).
    { apply triple_settle; [done|by left]. }
    intros _. eapply triple_weaken; [apply triple_commit_good|done|..]; intros; by apply good_safe.
  - apply triple_near_then; [apply leave_quiet|]. intros _. apply (triple_catch _ _ _ _ safe); [by apply sent_safe|].
    intros e'. apply triple_raise. auto.
Qed.

Lemma respond_good tid agent choices action text : keeps good_kept (respond_cmd tid agent choices action text).
Proof.
  apply request_good. unfold respond_task.
  assert (forall A e, triple good (mraise e : N A) (fun _ => safe) safe) as Hraise.
  { intros A e. apply triple_raise. apply good_safe. }
  apply (triple_bind _ _ (fun o s => good s /\ o = task_by_id tid (db s))); [by apply triple_select|].
  intros [r|]; [|by intros s [? _]; apply good_safe].
  apply (triple_bind _ _ (fun _ s => good s /\ r ∈ tasks (db s))).
  { apply triple_lift; [|by intros s [? _]; apply good_safe]. intros a s _ [Hg Hr]. split; [done|].
    symmetry in Hr. by apply find_first_Some in Hr as [? _]. }
  intros ag. destruct (t_draft_content r) as [d|] eqn:Ed; [|by intros s [? _]; apply good_safe].
  destruct (bool_decide_reflect (t_status r = Some "input-required")) as [Est|_];
    [|intros s [Hg _]; exact (good_safe s Hg)].
  apply (triple_weaken (near (t_id r) 10) _ _ (fun _ => safe) (fun _ => safe) safe safe); [| |done|done].
  - apply triple_near_then; [apply select_same_db|]. intros [c|]; [|apply triple_raise; apply near_safe].
    apply triple_near_then; [apply own_name_quiet|]. intros own. apply triple_near_then; [apply or_exit_quiet|].
    intros _. apply triple_near_then; [by intros s|]. intros out. apply triple_near_then; [apply or_exit_quiet|].
    intros sig. apply deliver_safe.
  - intros s [Hg Hr]. apply good_near; [done|]. apply draft_room; [apply Hg|done|congruence|by rewrite Est].
Qed.

Lemma handled_good m : triple good m (fun _ => good) good -> keeps good_kept (handled m).
Proof. intros Hm. pose proof (kept_of_triple _ Hm). unfold handled. solve_keeps. Qed.

Lemma mark_good id : keeps good_kept (mark_item rowid_of id).
Proof. unfold mark_item, mark_relay_message_processed. solve_keeps. by apply execute_good. Qed.

Lemma envelope_good env :
  keeps good_kept (process_envelope public_of_bytes private_of_bytes kc profile post_content http_post relay_env the_roster
                     reply_to err_text is_openai number_text env).
Proof.
  unfold process_envelope. cbv zeta. solve_keeps; apply handled_good; [apply create_bounded|apply send_bounded].
Qed.

Lemma fetch_good : keeps good_kept fetch_cmd.
Proof.
  apply request_kept. unfold fetch_inbox_items.
  pose proof (fun A r => quiet_good _ (@or_exit_quiet A r)). pose proof (quiet_good _ own_name_quiet).
  assert (forall x items, keeps good_kept
            (process_items public_of_bytes private_of_bytes kc profile post_content http_post relay_env the_roster reply_to
               err_text is_openai number_text rowid_of x items)) as Hitems.
  { intros x items. pose proof mark_good. pose proof envelope_good.
    induction items as [|item items IH]; cbn [process_items]; [by solve_keeps|].
    unfold process_item. solve_keeps. }
  assert (forall own items, keeps good_kept (acknowledge private_of_bytes kc profile post_content relay_env own items)) as Hack.
  { intros own items. unfold acknowledge. solve_keeps. }
  solve_keeps.
Qed.

(** One operation on tasks: a request to a route or a command of the owner. *)
Inductive task_operation : node -> node -> Prop :=
| RouteCreate raw sg s : task_operation s (create_req raw sg s).2
| RouteSend tid raw sg s : task_operation s (send_req tid raw sg s).2
| CommandAsk contact q agent choices s : task_operation s (ask_cmd contact q agent choices s).2
| CommandRespond tid agent choices action text s : task_operation s (respond_cmd tid agent choices action text s).2
| CommandFetch s : task_operation s (fetch_cmd s).2.

Lemma operation_good s s' : task_operation s s' -> good s -> good s'.
Proof.
  intros [raw sg s0|tid raw sg s0|contact q agent choices s0|tid agent choices action text s0|s0].
  - unfold create_task. destruct (parse_body _ _); [|done]. apply request_kept, kept_of_triple, create_bounded.
  - unfold send_message. destruct (parse_body _ _); [|done]. apply request_kept, kept_of_triple, send_bounded.
  - apply ask_good.
  - apply respond_good.
  - apply fetch_good.
Qed.

(** C22: An exchange is bounded: however requests arrive, the owner asks,
    answers and fetches, and whatever peers, relay and backends reply, a task
    never has more than one message above [MAX_TASK_MESSAGES]; and when it has
    that many, no draft is left that could still be sent. *)
Theorem task_exchange_bounded s s' r :
  bounded (db s) -> bounded (committed s) -> rtc task_operation s s' -> r ∈ tasks (db s') ->
  length (messages_of (t_id r) (db s')) <= S MAX_TASK_MESSAGES /\
  (length (messages_of (t_id r) (db s')) = S MAX_TASK_MESSAGES ->
   t_draft_content r = None \/ t_status r <> Some "input-required").
Proof.
  intros Hd Hc Hs Hr. assert (good s') as [[_ Hw] _].
  { assert (good s) as Hg by done. clear Hd Hc Hr. induction Hs as [|s s1 s2 Hst _ IH]; [done|].
    apply IH. by eapply operation_good. }
  unfold MAX_TASK_MESSAGES. destruct (Hw r Hr) as [Hn|[Hn Hx]]; unfold count in Hn; split; try lia.
  intros _. destruct Hx as [Hx|Hx]; [by left|right]. intros E. by rewrite E in Hx.
Qed.
End command_bounds.

(** ** Bob's node again *)

Module TaskBoundsDemo.
Import AuditDemo SchemaDemo IdentityDemo TaskDemo.

Definition note (n : nat) : message_row :=
  {| m_id := "m" +:+ print_int (Z.of_nat n); m_task := "t1"; m_from := "alice"; m_content := ""; m_type := Some "question";
     m_created_at := ""; m_signature := None |}.

Definition busy (n : nat) : node :=
  let t := set_messages (fun _ => map note (seq 0 n)) (db (node_with "auto_relay_info")) in
  {| db := t; committed := t; tick := 0 |}.

Lemma busy_bounded n : n <= 10 -> bounded (db (busy n)).
Proof.
  intros Hn. split.
  - split; [vm_compute; repeat constructor; set_solver|]. intros m Hm. unfold busy in Hm. cbn in Hm.
    apply list_elem_of_fmap in Hm as (i & -> & _). cbn. left.
  - intros r _. left. unfold count, messages_of. etrans; [apply filter_length_le|]. unfold busy. cbn.
    rewrite length_map, length_seq. exact Hn.
Qed.

Definition asked (s : node) : result string (Z * document) * node := send s "t1" question (signature "alice" question).

(** The tenth message is a question whose answer leaves without review. *)
Example eleven_messages : length (messages (committed (asked (busy 9)).2)) = 11.
Proof. vm_compute. reflexivity. Qed.

Example limit_refused :
  (asked (busy 10)).1 = Ok (200%Z, [("status", JStr "failed")]) /\ length (messages (db (asked (busy 10)).2)) = 10.
Proof. vm_compute. split; reflexivity. Qed.

Lemma t1_asked : exists r, find_first (fun r => String.eqb (t_id r) "t1") (tasks (db (asked (busy 9)).2)) = Some r.
Proof. vm_compute. eexists. reflexivity. Qed.

Lemma task_exchange_bounded_witness :
  exists r, r ∈ tasks (db (asked (busy 9)).2) /\ length (messages_of (t_id r) (db (asked (busy 9)).2)) <= 11.
Proof.
  destruct t1_asked as [r Hr]. apply find_first_Some in Hr as [Hr _]. exists r. split; [exact Hr|].
  refine (proj1 (@task_exchange_bounded env demo_ed demo_x keys keys own_key "bob" accepts (fun _ _ _ => RequestError "down")
    (fun _ _ _ => RequestError "down") None (Ok []) answers id (fun _ => false) py_str (fun _ => None) "http://relay" None
    (fun _ => Err "") (422%Z, []) (busy 9) _ r _ _ _ Hr)).
  - apply busy_bounded. lia.
  - apply (busy_bounded 9). lia.
  - apply rtc_once, RouteSend.
Defined.

(** The peer of a question chooses the id of the task, and an answer that
    names a task of another exchange replaces it. *)
Definition names_t2 : string := json_dumps dumps_compact (JObj [("task_id", JStr "t2"); ("status", JStr "submitted")]).
Definition peer_env : NodeEnv.
Proof.
  refine {| aes_encrypt _ _ p := p; aes_decrypt _ _ p := Some p;
            urandom12 _ := "0123456789ab"; uuid4 n := "id-" +:+ print_int (Z.of_nat n);
            utcnow _ := "2026-07-23T12:00:00+00:00";
            json_loads s := if String.eqb s names_t2 then Some (JObj [("task_id", JStr "t2"); ("status", JStr "submitted")])
                            else None;
            model_json := json_dumps dumps_canonical |}; done.
Defined.

Example answer_replaces_task :
  let run := @ask peer_env demo_ed demo_x keys own_key "bob" (fun _ _ _ _ => Responded 200 names_t2)
               (fun _ _ _ => RequestError "down") (fun _ _ _ => RequestError "down") None (Ok []) py_str (fun _ => None)
               "http://relay" None "mallory" "hello?" None [] bob in
  run.1 = Ok tt /\ map (fun r => (t_id r, t_contact r, t_status r)) (tasks (committed run.2))
  = [("t1", "alice", Some "input-required"); ("t2", "mallory", Some "submitted")].
Proof. vm_compute. split; reflexivity. Qed.
End TaskBoundsDemo.
