(* ===== verification/Pairing.v ===== *)
(** * Identity set-up and pairing

    The commands [pair], [init], [restore], [contact-policy] and [configure] of
    [kin/cli.py], [register_identity_endpoint], [setup_new_identity] of
    [kin/identity/setup.py] and the key derivations of [kin/identity/keys.py].
    A command works on the profile database and on the keychain; what the
    prompts return are its arguments.  The mnemonic library, the key
    derivation function and the relay directory are parameters.  The
    [keychain_ref] column of the identity is a constant text and left out. *)

From Stdlib Require Import Ascii String ZArith Lia.
From stdpp Require Import base gmap sets list strings.
From S2P Require Import Prelude Regex Codec PyValue Schemas Cards Store AuditLog History Ingest Keychain.
From S2P Require Import Relay Identity RetryQueue Backend Tasks TaskClient.

#[local] Open Scope nat_scope.

(** ** Database and keychain *)

Record profile_state := {
  p_node : node;
  p_keys : keychain
}.

Abbreviation P := (M profile_state string).

Definition in_node {A} (m : N A) : P A :=
  fun s => let '(r, n) := m (p_node s) in (r, {| p_node := n; p_keys := p_keys s |}).
Definition in_keychain {A} (m : K A) : P A :=
  fun s => let '(r, k) := m (p_keys s) in (r, {| p_node := p_node s; p_keys := k |}).

(** [open_profile_db .. conn.close()]. *)
Definition with_connection {A} (m : P A) : P A := mfinally m (in_node rollback).

(** [set_setting] and [get_setting] of [kin/storage/db.py]. *)
Definition set_setting (key value : string) : N unit :=
  execute (set_settings (fun l => obj_set key value l)) ;;; commit.
Definition get_setting (key : string) (t : tables) : option string := obj_get key (settings t).

Definition insert_identity (username public_key : string) : N unit :=
  execute (set_identity (fun l => l ++ [{| i_username := username; i_public_key := Some public_key;
                                           i_protocol_version := Some "1.1" |}])).

(** [INSERT OR REPLACE INTO contacts]. *)
Definition put_contact (c : contact_row) : tables -> tables :=
  set_contacts (fun l => List.filter (fun x => negb (String.eqb (c_username x) (c_username c))) l ++ [c]).

Definition set_policy (username policy : string) : tables -> tables :=
  set_contacts (update_where (fun c => String.eqb (c_username c) username)
    (fun c => {| c_username := c_username c; c_public_key := c_public_key c; c_x25519 := c_x25519 c;
                 c_endpoint := c_endpoint c; c_autonomy := Some policy; c_verified_at := c_verified_at c |})).

Definition CONTACT_POLICIES : list string := ["always_ask"; "auto_relay_info"].

Section pairing.
Context `{NodeEnv} `{X25519}.
(** [Mnemonic("english")]: check, seed with the empty passphrase, and the
    phrase it generates; HKDF-SHA256 of a seed for an info text; the raw public
    key of a raw Ed25519 private key. *)
Context (mnemonic_check : string -> bool) (to_seed : string -> bytes) (generate : nat -> string).
Context (hkdf : string -> bytes -> bytes) (ed_raw_public : bytes -> bytes).
Context (wordlist : list string) (kr : backend) (profile : string).
Context (http_get : nat -> string -> list (string * string) -> http_result).
Context (http_post : nat -> string -> json -> http_result).
Context (number_text : json -> string) (relay_url : string) (public_endpoint : option string).

Definition DEFAULT_ENDPOINT : string := "http://127.0.0.1:8321".
Definition own_endpoint : string := strip_slash (default DEFAULT_ENDPOINT public_endpoint).

Abbreviation get url := (in_node (draw (fun n => http_get n url []))).
Abbreviation post url body := (in_node (draw (fun n => http_post n url body))).
Abbreviation lookup_url username := (relay_url +:+ "/directory/lookup/" +:+ username).

(** Any exception of an expression ends the command with code 1. *)
Definition or_exit {A} (r : result string A) : P A :=
  match r with Ok a => ret a | Err _ => mraise Exit1 end.

(** ** Keys *)

Definition derive_key_pair (phrase : string) : result string (bytes * bytes) :=
  if mnemonic_check phrase then
    let private_key := hkdf "kin-ed25519-key-derivation" (to_seed phrase) in
    Ok (private_key, ed_raw_public private_key)
  else Err "ValueError".
Definition derive_x25519_key_pair (phrase : string) : result string (bytes * bytes) :=
  if mnemonic_check phrase then
    let private_key := hkdf "kin-x25519-key-derivation" (to_seed phrase) in
    Ok (private_key, x_public private_key)
  else Err "ValueError".

Definition setup_new_identity : P string :=
  let* phrase := in_node (draw generate) in
  let* keys := mlift (derive_key_pair phrase) in
  in_keychain (save_private_key kr profile keys.1) ;;;
  ret phrase.

(** ** Pairing with a contact *)

(** The answer of the directory to a lookup. *)
Definition directory_text (resp : http_result) : result string string :=
  match resp with
  | Responded 404 _ => Err Exit1
  | _ => body_of resp
  end.

(** [data[key]] for the keys of the directory answer. *)
Definition directory_entry (text : string) : result string (json * json * json) :=
  let? data := json_of text in
  let? pk := subscript data "public_key" in
  let? x := subscript data "x25519_public_key" in
  let? ep := subscript data "endpoint" in
  Ok (pk, x, ep).

Definition hex_bytes (v : json) : result string bytes :=
  match v with
  | JStr h => match fromhex h with Some b => Ok b | None => Err "ValueError" end
  | _ => Err "TypeError"
  end.

Definition hex_text (v : json) : string := match v with JStr h => h | _ => "" end.

(** Whether the owner vouches for a fingerprint: the text given on the command
    line, or the answer to the question. *)
Definition vouched (supplied : option string) (confirm : string -> bool) (fingerprint : string) : result string unit :=
  match supplied with
  | Some f => if String.eqb (strip f) fingerprint then Ok tt else Err BadParameter
  | None => if confirm fingerprint then Ok tt else Err Exit0
  end.

Definition is_verified (username : string) (t : tables) : bool :=
  match find_contact username t with
  | Some c => match c_verified_at c with Some _ => true | None => false end
  | None => false
  end.

(** The second connection: fingerprint, confirmation and the contact row. *)
Definition confirm_contact (username : string) (entry : json * json * json) (supplied : option string)
    (confirm : string -> bool) : P unit :=
  let '(pk, x, ep) := entry in
  let* own := in_node (select (fun t => head (identity t))) in
  match own with
  | None => mraise Exit1
  | Some i =>
      let* ours := mlift (hex_bytes (match i_public_key i with Some h => JStr h | None => JNull end)) in
      let* theirs := mlift (hex_bytes pk) in
      let* fingerprint := mlift (compute_fingerprint wordlist ours theirs) in
      mlift (vouched supplied confirm fingerprint) ;;;
      let* now := in_node (draw utcnow) in
      let* x_text := mlift (bind_text number_text x) in
      let* ep_text := mlift (bind_text number_text ep) in
      in_node (execute (put_contact {| c_username := username; c_public_key := Some (hex_text pk); c_x25519 := x_text;
                                       c_endpoint := ep_text; c_autonomy := Some "always_ask";
                                       c_verified_at := Some now |})) ;;;
      in_node commit
  end.

Definition pair_contact (username : string) (supplied : option string) (confirm : string -> bool) : P unit :=
  let* known := with_connection (in_node (select (is_verified username))) in
  if (known : bool) then ret tt
  else
    let* resp := get (lookup_url username) in
    let* text := or_exit (directory_text resp) in
    let* entry := mlift (directory_entry text) in
    with_connection (confirm_contact username entry supplied confirm).

(** ** The own identity *)

(** [Ed25519PrivateKey.from_private_bytes(key)] and its X25519 counterpart
    take 32 bytes. *)
Definition key_bytes (key : bytes) : result string bytes :=
  if Nat.eqb (String.length key) 32 then Ok key else Err "ValueError".

Definition register_body (username public_key x25519_public_key endpoint : string) : json :=
  JObj [("username", JStr username); ("public_key", JStr public_key);
        ("x25519_public_key", JStr x25519_public_key); ("endpoint", JStr endpoint)].

(** Whether the directory has the name: an answer other than 200 and 404 must
    still be a success. *)
Definition name_taken (resp : http_result) : result string bool :=
  match resp with
  | Responded 200 _ => Ok true
  | Responded 404 _ => Ok false
  | _ => let? _ := body_of resp in Ok false
  end.

(** The set-up of a profile without identity.  [choose] are the two positions
    drawn, [type_words] what the owner types for them. *)
Definition pair_fresh (username : string) (choose : nat -> list Z) (type_words : string -> list Z -> list string) : P unit :=
  let* resp := get (lookup_url username) in
  let* taken := or_exit (name_taken resp) in
  if (taken : bool) then mraise Exit1
  else
    let* phrase := setup_new_identity in
    let* word_indices := in_node (draw choose) in
    if verify_phrase_confirmation phrase word_indices (type_words phrase word_indices) then
      let* private_key := mcatch (in_keychain (load_private_key profile)) (fun _ => mraise Exit1) in
      let* private_key := mlift (key_bytes private_key) in
      let public_key := ed_raw_public private_key in
      let* x := mcatch (let* x := mlift (derive_x25519_key_pair phrase) in
                        in_keychain (save_x25519_private_key kr profile x.1) ;;; ret x)
                  (fun _ => mraise Exit1) in
      let* r := post (relay_url +:+ "/directory/register")
                  (register_body username (hexlify public_key) (hexlify x.2) own_endpoint) in
      or_exit (body_of r) ;;;
      in_node (insert_identity username (hexlify public_key)) ;;;
      in_node commit ;;;
      in_node (set_setting "public_endpoint" own_endpoint)
    else mraise Exit1.

(** [kin pair] without a contact. *)
Definition pair_self (username : string) (choose : nat -> list Z) (type_words : string -> list Z -> list string) : P unit :=
  with_connection (
    let* existing := in_node (select (fun t => head (identity t))) in
    match existing with
    | Some _ => ret tt
    | None => pair_fresh username choose type_words
    end).

(** What a command sees as the value of a flag: what the parser read, or, in a
    direct call from Python, the declaration of the option, which is true. *)
Inductive option_value := Parsed (b : bool) | Declaration.
Definition flag (v : option_value) : bool := match v with Parsed b => b | Declaration => true end.

(** The terminal: the name typed, the answer to the fingerprint question, and
    the recovery words typed back. *)
Record terminal := {
  typed_name : string;
  confirm_answer : string -> bool;
  chosen_words : nat -> list Z;
  typed_words : string -> list Z -> list string
}.

Definition pair (code supplied : option string) (json_output plain : option_value) (tty : terminal) : P unit :=
  if flag json_output && flag plain then mraise BadParameter
  else
    match code with
    | None =>
        if flag json_output then mraise BadParameter
        else pair_self (typed_name tty) (chosen_words tty) (typed_words tty)
    | Some username =>
        if flag json_output && bool_decide (supplied = None) then mraise BadParameter
        else pair_contact username supplied (confirm_answer tty)
    end.

(** Both key pairs of a phrase. *)
Definition key_pairs (phrase : string) : result string ((bytes * bytes) * (bytes * bytes)) :=
  let? keys := derive_key_pair phrase in
  let? x := derive_x25519_key_pair phrase in
  Ok (keys, x).

Definition or_bad {A} (r : result string A) : P A :=
  match r with Ok a => ret a | Err _ => mraise BadParameter end.

Definition save_keys (private_key x_private : bytes) : P unit :=
  in_keychain (save_private_key kr profile private_key) ;;;
  in_keychain (save_x25519_private_key kr profile x_private).

(** The registration of the name and the keys, then the profile. *)
Definition initialize_fresh (username : string) (keys : (bytes * bytes) * (bytes * bytes)) : P unit :=
  let* lookup := get (lookup_url username) in
  let* taken := or_bad (name_taken lookup) in
  if (taken : bool) then mraise BadParameter
  else
    let* r := post (relay_url +:+ "/directory/register")
                (register_body username (hexlify keys.1.2) (hexlify keys.2.2) own_endpoint) in
    or_bad (body_of r) ;;;
    save_keys keys.1.1 keys.2.1 ;;;
    in_node (insert_identity username (hexlify keys.1.2)) ;;;
    in_node (set_setting "public_endpoint" own_endpoint) ;;;
    in_node commit.

(** [kin init].  Without any option it calls [pair] directly. *)
Definition initialize (username : option string) (recovery_phrase_file : option (result string string))
    (json_output plain : bool) (tty : terminal) : P unit :=
  match username, recovery_phrase_file, json_output, plain with
  | None, None, false, false => pair None None Declaration Declaration tty
  | Some (String _ _ as username), Some file, _, _ =>
      if json_output && plain then mraise BadParameter
      else
        let* text := or_bad file in
        let phrase := strip text in
        if negb (Nat.eqb (length (split_words phrase)) 12) then mraise BadParameter
        else
          let* keys := or_bad (key_pairs phrase) in
          with_connection (
            let* existing := in_node (select (fun t => head (identity t))) in
            match existing with
            | Some _ => mraise BadParameter
            | None => initialize_fresh username keys
            end)
  | _, _, _, _ => mraise BadParameter
  end.

(** The value bound to a column that takes no null. *)
Definition bind_required (v : json) : result string string :=
  let? t := bind_text number_text v in
  match t with Some s => Ok s | None => Err IntegrityError end.

(** The phrase of [kin restore]: the argument, the file or the prompt. *)
Definition restore_phrase (phrase : option string) (file : option (result string string)) (prompt : string)
  : result string string :=
  match phrase, file with
  | Some _, Some _ => Err BadParameter
  | _, Some (Ok text) => Ok (strip text)
  | _, Some (Err _) => Err BadParameter
  | Some p, None => Ok p
  | None, None => Ok prompt
  end.

Definition restore_fresh (username : string) (keys : (bytes * bytes) * (bytes * bytes)) (remote : json) : P unit :=
  save_keys keys.1.1 keys.2.1 ;;;
  in_node (insert_identity username (hexlify keys.1.2)) ;;;
  in_node commit ;;;
  let* ep := mlift (subscript remote "endpoint") in
  let* ep := mlift (bind_required ep) in
  in_node (set_setting "public_endpoint" ep).

Definition restore (phrase username : option string) (file : option (result string string)) (json_output plain : bool)
    (prompt : string) (tty : terminal) : P unit :=
  if json_output && plain then mraise BadParameter
  else
    let* phrase := mlift (restore_phrase phrase file prompt) in
    let* keys := or_bad (key_pairs phrase) in
    if negb (Nat.eqb (length (split_words (strip phrase))) 12) then mraise BadParameter
    else
      let username := default (typed_name tty) username in
      let* lookup := get (lookup_url username) in
      let* text := or_bad (body_of lookup) in
      let* remote := mlift (json_of text) in
      let* pk := mlift (subscript remote "public_key") in
      let* x := if bool_decide (pk = JStr (hexlify keys.1.2)) then mlift (subscript remote "x25519_public_key")
                else ret pk in
      if bool_decide (pk = JStr (hexlify keys.1.2)) && bool_decide (x = JStr (hexlify keys.2.2)) then
        with_connection (
          let* existing := in_node (select (fun t => head (identity t))) in
          match existing with
          | Some _ => mraise BadParameter
          | None => restore_fresh username keys remote
          end)
      else mraise BadParameter.

(** ** Settings of the profile *)

Definition contact_policy (username policy : string) (json_output plain : bool) : P unit :=
  if negb (str_in policy CONTACT_POLICIES) then mraise BadParameter
  else if json_output && plain then mraise BadParameter
  else
    with_connection (
      let* found := in_node (select (find_contact username)) in
      in_node (execute (set_policy username policy)) ;;;
      match found with
      | None => mraise BadParameter
      | Some _ => in_node commit
      end).

Definition configure (provider model : string) (api_key_file : option (result string string)) (json_output plain : bool)
    (prompt : string) : P unit :=
  if json_output && plain then mraise BadParameter
  else if json_output && bool_decide (api_key_file = None) then mraise BadParameter
  else
    let* api_key := or_bad (match api_key_file with
                            | Some file => let? text := file in Ok (strip text)
                            | None => Ok prompt
                            end) in
    if negb (truthy (strip api_key)) then mraise BadParameter
    else
      in_keychain (save_llm_api_key kr profile provider (strip api_key)) ;;;
      with_connection (
        in_node (set_setting "llm_provider" provider) ;;;
        in_node (set_setting "llm_model" model)).

(** Publishing the active endpoint never changes the keys. *)
Definition register_identity_endpoint (endpoint : string) : P unit :=
  let* own := in_node (select (fun t => head (identity t))) in
  match own with
  | None => mraise BadParameter
  | Some i =>
      let* key := in_keychain (load_x25519_private_key profile) in
      let* key := mlift (key_bytes key) in
      let* r := post (relay_url +:+ "/directory/register")
                  (JObj [("username", JStr (i_username i));
                         ("public_key", match i_public_key i with Some k => JStr k | None => JNull end);
                         ("x25519_public_key", JStr (hexlify (x_public key))); ("endpoint", JStr endpoint)]) in
      mlift (body_of r) ;;;
      in_node (set_setting "public_endpoint" (strip_slash endpoint))
  end.
End pairing.

(** ** Who is trusted *)

(** A view of the tables stays. *)
Definition node_kept {B} (v : tables -> B) (s s' : profile_state) : Prop := view_kept v (p_node s) (p_node s').

#[export] Instance node_kept_preorder {B} (v : tables -> B) : PreOrder (node_kept v).
Proof.
  split; unfold node_kept; [by intros s|]. intros s1 s2 s3 H12 H23. by etrans.
Qed.

Lemma in_node_kept {A B} (v : tables -> B) (m : N A) : keeps (view_kept v) m -> keeps (node_kept v) (in_node m).
Proof. intros Hm s. unfold node_kept, in_node. specialize (Hm (p_node s)). by destruct (m (p_node s)). Qed.

Lemma in_keychain_kept {A B} (v : tables -> B) (m : K A) : keeps (node_kept v) (in_keychain m).
Proof. intros s. unfold node_kept, in_keychain. by destruct (m (p_keys s)). Qed.

Lemma set_setting_kept {B} (v : tables -> B) key value :
  (forall f t, v (set_settings f t) = v t) -> keeps (view_kept v) (set_setting key value).
Proof.
  intros Hv. unfold set_setting. apply (keeps_bind _); [|intros _; apply commit_view]. apply execute_view. intros t. apply Hv.
Qed.

Lemma connection_kept {A B} (v : tables -> B) (m : P A) s :
  keeps (node_kept v) m -> db (p_node s) = committed (p_node s) ->
  db (p_node (with_connection m s).2) = committed (p_node (with_connection m s).2) /\
  v (committed (p_node (with_connection m s).2)) = v (committed (p_node s)).
Proof.
  intros Hm Hd. specialize (Hm s). unfold with_connection, mfinally. destruct (m s) as [r s']. destruct Hm as [Hv Hc].
  cbn in *. split; [done|]. rewrite <- Hd, <- Hv. apply Hc. by rewrite Hd.
Qed.

#[export] Hint Resolve in_node_kept in_keychain_kept select_view draw_view commit_view : keeps.

Section trust.
Context `{NodeEnv} `{X25519}.
Context (mnemonic_check : string -> bool) (to_seed : string -> bytes) (generate : nat -> string).
Context (hkdf : string -> bytes -> bytes) (ed_raw_public : bytes -> bytes).
Context (wordlist : list string) (kr : backend) (profile : string).
Context (http_get : nat -> string -> list (string * string) -> http_result).
Context (http_post : nat -> string -> json -> http_result).
Context (number_text : json -> string) (relay_url : string) (public_endpoint : option string).

Abbreviation pair_cmd := (pair mnemonic_check to_seed generate hkdf ed_raw_public wordlist kr profile http_get http_post
                            number_text relay_url public_endpoint).

(** The owner stands behind the fingerprint [f]. *)
Definition owner_vouches (supplied : option string) (tty : terminal) (f : string) : Prop :=
  match supplied with
  | Some g => strip g = f
  | None => confirm_answer tty f = true
  end.

(** A new contact whose key, with the own one, gives a fingerprint the owner
    stands behind. *)
Definition trusted (username : string) (supplied : option string) (tty : terminal) (t : tables) (c : contact_row) : Prop :=
  c_username c = username /\ c_autonomy c = Some "always_ask" /\
  exists i mine theirs ours other f,
    head (identity t) = Some i /\ i_public_key i = Some mine /\ fromhex mine = Some ours /\
    c_public_key c = Some theirs /\ fromhex theirs = Some other /\
    compute_fingerprint wordlist ours other = Ok f /\ owner_vouches supplied tty f.

Lemma hex_bytes_Ok v b : hex_bytes v = Ok b -> exists h, v = JStr h /\ fromhex h = Some b.
Proof. destruct v; cbn; try discriminate. destruct (fromhex s) eqn:E; [|discriminate]. intros [= <-]. eauto. Qed.

Lemma vouched_Ok supplied tty f u : vouched supplied (confirm_answer tty) f = Ok u -> owner_vouches supplied tty f.
Proof.
  unfold vouched, owner_vouches. destruct supplied as [g|].
  - by destruct (String.eqb_spec (strip g) f).
  - by destruct (confirm_answer tty f).
Qed.

(** What one attempt does to the contacts. *)
Definition pairs_as (username : string) (supplied : option string) (tty : terminal) (s s' : profile_state) : Prop :=
  db (p_node s') = committed (p_node s') /\
  (contacts (committed (p_node s')) = contacts (committed (p_node s)) \/
   exists c, trusted username supplied tty (committed (p_node s)) c /\
     contacts (committed (p_node s')) = contacts (put_contact c (committed (p_node s)))).

Lemma confirm_contact_pairs username entry supplied tty s :
  db (p_node s) = committed (p_node s) ->
  pairs_as username supplied tty s
    (with_connection (confirm_contact wordlist number_text username entry supplied (confirm_answer tty)) s).2.
Proof.
  destruct entry as [[pk x] ep]. intros Hd. unfold with_connection, confirm_contact, mfinally, bind, in_node, select, mgets, mlift.
  cbn. rewrite Hd. destruct (head (identity (committed (p_node s)))) as [i|] eqn:Ei; [|split; [done|by left]].
  destruct (hex_bytes _) as [ours|] eqn:Eo; [|split; [done|by left]].
  destruct (hex_bytes pk) as [theirs|] eqn:Et; [|split; [done|by left]].
  destruct (compute_fingerprint wordlist ours theirs) as [f|] eqn:Ef; [|split; [done|by left]].
  destruct (vouched supplied (confirm_answer tty) f) as [[]|] eqn:Ev; [|split; [done|by left]]. cbn.
  destruct (bind_text number_text x) as [x'|]; [|split; [done|by left]].
  destruct (bind_text number_text ep) as [ep'|]; [|split; [done|by left]].
  split; [done|]. right. cbn. apply hex_bytes_Ok in Eo as (mine & Em & Eo), Et as (their & -> & Et).
  destruct (i_public_key i) as [h|] eqn:Eh; [|discriminate]. injection Em as ->.
  rewrite Hd. match goal with |- exists c, _ /\ _ ++ [?c0] = _ => exists c0 end. split; [|done].
  split; [done|]. split; [done|]. exists i, mine, their, ours, theirs, f. split_and!; try done. by eapply vouched_Ok.
Qed.

Lemma pair_self_contacts username choose type_words :
  keeps (node_kept contacts)
    (let* existing := in_node (select (fun t => head (identity t))) in
     match existing with Some _ => ret tt | None => pair_fresh mnemonic_check to_seed generate hkdf ed_raw_public kr profile
       http_get http_post relay_url public_endpoint username choose type_words end).
Proof.
  unfold pair_fresh, setup_new_identity, or_exit, insert_identity. solve_keeps; apply in_node_kept.
  - by apply execute_view.
  - by apply set_setting_kept.
Qed.

(** C23: Pairing adds a contact only on the word of the owner: at most one row
    changes, it bears the name asked for and the policy that asks before every
    answer, the name had no verified contact before, and the fingerprint of
    its key and the own key is the one the owner supplied or confirmed. *)
Theorem pairing_needs_owner code supplied js pl tty s :
  db (p_node s) = committed (p_node s) ->
  let s' := (pair_cmd code supplied js pl tty s).2 in
  contacts (committed (p_node s')) = contacts (committed (p_node s)) \/
  exists username c, code = Some username /\ is_verified username (committed (p_node s)) = false /\
    trusted username supplied tty (committed (p_node s)) c /\
    contacts (committed (p_node s')) = contacts (put_contact c (committed (p_node s))).
Proof.
  intros Hd s'. unfold s', pair. destruct (flag js && flag pl); [by left|]. destruct code as [username|].
  - destruct (_ && _); [by left|]. unfold pair_contact, bind at 1, with_connection at 1, mfinally, in_node at 1. cbn.
    rewrite Hd. destruct (is_verified username (committed (p_node s))) eqn:Ev; [by left|].
    unfold bind at 1, in_node at 1, draw at 1. cbn.
    match goal with |- context [http_get ?n ?u ?h] => generalize (http_get n u h) end. intros resp.
    match goal with |- context [{| p_node := ?n; p_keys := ?k |}] => set (s1 := {| p_node := n; p_keys := k |}) end.
    destruct (directory_text resp) as [text|]; [|by left]. cbn. unfold bind, mlift.
    destruct (directory_entry text) as [entry|]; [|by left].
    destruct (confirm_contact_pairs username entry supplied tty s1) as [_ [Hp|(c & Hc & Hp)]]; [done|by left|].
    right. by exists username, c.
  - destruct (flag js); [by left|]. left. apply connection_kept; [apply pair_self_contacts|done].
Qed.
End trust.

(** ** The own identity *)

Section own.
Context `{NodeEnv} `{X25519}.
Context (mnemonic_check : string -> bool) (to_seed : string -> bytes) (generate : nat -> string).
Context (hkdf : string -> bytes -> bytes) (ed_raw_public : bytes -> bytes).
Context (wordlist : list string) (kr : backend) (profile : string).
Context (http_get : nat -> string -> list (string * string) -> http_result).
Context (http_post : nat -> string -> json -> http_result).
Context (number_text : json -> string) (relay_url : string) (public_endpoint : option string).

(** A command of the profile, with what the terminal answers. *)
Inductive command :=
| Pair (code supplied : option string) (json_output plain : option_value) (tty : terminal)
| Init (username : option string) (recovery_phrase_file : option (result string string)) (json_output plain : bool)
    (tty : terminal)
| RestorePhrase (phrase username : option string) (file : option (result string string)) (json_output plain : bool)
    (prompt : string) (tty : terminal)
| ContactPolicy (username policy : string) (json_output plain : bool)
| Configure (provider model : string) (api_key_file : option (result string string)) (json_output plain : bool)
    (prompt : string)
| PublishEndpoint (endpoint : string).

Definition run (c : command) : P unit :=
  match c with
  | Pair code supplied js pl tty =>
      pair mnemonic_check to_seed generate hkdf ed_raw_public wordlist kr profile http_get http_post number_text relay_url
        public_endpoint code supplied js pl tty
  | Init u file js pl tty =>
      initialize mnemonic_check to_seed generate hkdf ed_raw_public wordlist kr profile http_get http_post number_text
        relay_url public_endpoint u file js pl tty
  | RestorePhrase ph u file js pl prompt tty =>
      restore mnemonic_check to_seed hkdf ed_raw_public kr profile http_get number_text relay_url ph u file js pl prompt tty
  | ContactPolicy u p js pl => contact_policy u p js pl
  | Configure pr mo file js pl prompt => configure kr profile pr mo file js pl prompt
  | PublishEndpoint ep => with_connection (register_identity_endpoint profile http_post relay_url ep)
  end.

(** The two private keys of the profile as the keychain holds them. *)
Definition own_slots (k : keychain) : option string * option string :=
  (kc_store k !! (get_private_key_service profile, "private_key"),
   kc_store k !! (get_x25519_private_key_service profile, "x25519_private_key")).

(** The keychain has the private key of the identity and a decryption key. *)
Definition usable (k : keychain) (i : identity_row) : Prop :=
  exists key x, (load_private_key profile k).1 = Ok key /\ i_public_key i = Some (hexlify (ed_raw_public key)) /\
    (load_x25519_private_key profile k).1 = Ok x.

(** The identity table, on disk as well, and a property of the keychain. *)
Definition at_ (ids : list identity_row) (G : keychain -> Prop) (s : profile_state) : Prop :=
  identity (db (p_node s)) = ids /\ identity (committed (p_node s)) = ids /\ G (p_keys s).

Lemma at_node {A} ids G (m : N A) :
  keeps (view_kept identity) m -> triple (at_ ids G) (in_node m) (fun _ => at_ ids G) (at_ ids G).
Proof.
  intros Hm s (Hd & Hc & HG). unfold in_node. specialize (Hm (p_node s)). destruct (m (p_node s)) as [r n].
  destruct Hm as [Hv Hs]. cbn in Hv, Hs. assert (at_ ids G {| p_node := n; p_keys := p_keys s |}) as Hat.
  { unfold at_. cbn. split_and!; [congruence| |done]. rewrite Hs; congruence. }
  by destruct r.
Qed.

Lemma at_keys {A} ids (G X : keychain -> Prop) (Q : A -> keychain -> Prop) (m : K A) :
  triple G m Q X -> triple (at_ ids G) (in_keychain m) (fun a => at_ ids (Q a)) (at_ ids X).
Proof.
  intros Hm s (Hd & Hc & HG). unfold in_keychain. specialize (Hm _ HG). destruct (m (p_keys s)) as [r k].
  by destruct r.
Qed.

(** What a command may leave: an identity that exists and its keys stay; a
    profile without identity may get one, with its keys. *)
Definition kept_or_made (ids : list identity_row) (o : option string * option string) (s : profile_state) : Prop :=
  match ids with
  | [] => at_ [] (fun _ => True) s \/ exists i, at_ [i] (fun k => usable k i) s
  | _ => at_ ids (fun k => own_slots k = o) s
  end.

Abbreviation before ids o := (at_ ids (fun k => own_slots k = o)).

Lemma before_kept ids o s : before ids o s -> kept_or_made ids o s.
Proof. intros Hs. destruct ids; [left|done]. destruct Hs as (? & ? & _). by split. Qed.

Lemma in_connection ids o {A} (Φ : profile_state -> Prop) (m : P A) :
  triple Φ m (fun _ => kept_or_made ids o) (kept_or_made ids o) ->
  triple Φ (with_connection m) (fun _ => kept_or_made ids o) (kept_or_made ids o).
Proof.
  intros Hm s Hs. specialize (Hm s Hs). unfold with_connection, mfinally. destruct (m s) as [r s'].
  assert (kept_or_made ids o s') as Hk by (by destruct r). cbn.
  assert (forall l G, at_ l G s' -> at_ l G {| p_node := (rollback (p_node s')).2; p_keys := p_keys s' |}) as Hr.
  { intros l G (_ & Hc & HG). by repeat split. }
  assert (kept_or_made ids o {| p_node := (rollback (p_node s')).2; p_keys := p_keys s' |}).
  { unfold kept_or_made in *. destruct ids; [|by apply Hr]. destruct Hk as [Hk|[i Hk]]; [left|right; exists i]; by apply Hr. }
  by destruct r.
Qed.

(** A program that keeps every identity and keychain property it meets. *)
Definition steady {A} (m : P A) : Prop :=
  forall ids o, triple (before ids o) m (fun _ => before ids o) (before ids o).

Lemma steady_bind {A B} (m : P A) (k : A -> P B) : steady m -> (forall a, steady (k a)) -> steady (bind m k).
Proof. intros Hm Hk ids o. apply (triple_bind _ _ (fun _ => before ids o)); [apply Hm|]. intros a. apply Hk. Qed.

Lemma steady_ret {A} (a : A) : steady (ret a).
Proof. intros ids o. by apply triple_ret. Qed.
Lemma steady_raise {A} e : steady (mraise e : P A).
Proof. intros ids o. by apply triple_raise. Qed.
Lemma steady_lift {A} (r : result string A) : steady (mlift r : P A).
Proof. intros ids o. by apply triple_lift. Qed.
Lemma steady_node {A} (m : N A) : keeps (view_kept identity) m -> steady (in_node m).
Proof. intros Hm ids o. by apply at_node. Qed.
Lemma steady_load {A} (m : K A) : (forall k, (m k).2 = k) -> steady (in_keychain m).
Proof.
  intros Hm ids o s (Hd & Hc & Ho). unfold in_keychain. specialize (Hm (p_keys s)). destruct (m (p_keys s)) as [r k].
  cbn in Hm. subst k. by destruct r.
Qed.
Lemma steady_connection {A} (m : P A) : steady m -> steady (with_connection m).
Proof.
  intros Hm ids o s Hs. specialize (Hm ids o s Hs). unfold with_connection, mfinally. destruct (m s) as [r s'].
  assert (before ids o s') as (_ & Hc & Ho) by (by destruct r). cbn. by destruct r; repeat split.
Qed.

Lemma load_kept service user k : (load_hex service user k).2 = k.
Proof.
  unfold load_hex, get_password, bind, mgets. cbn. destruct (kc_store k !! _) as [h|]; [|done]. by destruct (fromhex h).
Qed.

Lemma identity_kept f : (forall t, identity (f t) = identity t) -> keeps (view_kept identity) (execute f).
Proof. apply execute_view. Qed.

Lemma steady_or_exit {A} (r : result string A) : steady (or_exit r).
Proof. destruct r; [apply steady_ret|apply steady_raise]. Qed.
Lemma steady_or_bad {A} (r : result string A) : steady (or_bad r).
Proof. destruct r; [apply steady_ret|apply steady_raise]. Qed.
Lemma steady_setting key value : steady (in_node (set_setting key value)).
Proof. apply steady_node. by apply set_setting_kept. Qed.

Hint Resolve steady_ret steady_raise steady_lift steady_or_exit steady_or_bad steady_setting : steady.

Ltac steady_step :=
  lazymatch goal with
  | |- steady (bind _ _) => apply steady_bind; [|intros ?]
  | |- steady (with_connection _) => apply steady_connection
  | |- steady (in_node (draw _)) => apply steady_node, draw_view
  | |- steady (in_node (select _)) => apply steady_node, select_view
  | |- steady (in_node commit) => apply steady_node, commit_view
  | |- steady (in_node (execute _)) => apply steady_node, execute_view; [done..]
  | |- steady (match ?x with _ => _ end) => destruct x
  | |- steady _ => solve [eauto 2 with steady]
  end.
Ltac solve_steady := cbv beta zeta; repeat (steady_step; cbv beta zeta).

Lemma pair_contact_steady username supplied confirm :
  steady (pair_contact wordlist http_get number_text relay_url username supplied confirm).
Proof. unfold pair_contact, confirm_contact. solve_steady. Qed.

Lemma contact_policy_steady username policy js pl : steady (contact_policy username policy js pl).
Proof. unfold contact_policy. solve_steady. Qed.

Lemma configure_steady provider model file js pl prompt : steady (configure kr profile provider model file js pl prompt).
Proof.
  unfold configure. solve_steady. intros ids o. apply at_keys. intros k Hk. unfold save_llm_api_key, assert_secure_backend.
  destruct (_ || _); [|done]. cbn. unfold own_slots in *. cbn. by rewrite !lookup_insert_ne by done.
Qed.

Lemma publish_steady endpoint : steady (with_connection (register_identity_endpoint profile http_post relay_url endpoint)).
Proof. unfold register_identity_endpoint. solve_steady. apply steady_load, load_kept. Qed.

(** ** A new identity *)

Definition holds (key : bytes) (k : keychain) : Prop := (load_private_key profile k).1 = Ok key.
Definition ready (key : bytes) (k : keychain) : Prop :=
  holds key k /\ exists x, (load_x25519_private_key profile k).1 = Ok x.
Abbreviation anything := (fun _ : keychain => True).
Definition made (i : identity_row) (s : profile_state) : Prop :=
  identity (db (p_node s)) = [i] /\ usable (p_keys s) i.

Lemma load_hex_insert service user secret k :
  (load_hex service user {| kc_store := <[(service, user) := hexlify secret]> (kc_store k); kc_tick := kc_tick k |}).1 = Ok secret.
Proof. unfold load_hex, get_password, bind, mgets. cbn. rewrite lookup_insert_eq, fromhex_hexlify. done. Qed.

Lemma save_private_triple key : triple anything (save_private_key kr profile key) (fun _ => holds key) anything.
Proof.
  intros k _. unfold save_private_key, save_hex, assert_secure_backend. destruct (_ || _); [|done]. apply load_hex_insert.
Qed.

Lemma save_x25519_triple key x :
  triple (holds key) (save_x25519_private_key kr profile x) (fun _ => ready key) (holds key).
Proof.
  intros k Hk. unfold save_x25519_private_key, save_hex, assert_secure_backend. destruct (_ || _); [|done]. cbn.
  split; [|exists x; apply load_hex_insert]. unfold holds, load_private_key, load_hex, get_password, bind, mgets in *. cbn in *.
  rewrite lookup_insert_ne by (by intros [=]). destruct (kc_store k !! _) as [h|]; [|done]. by destruct (fromhex h).
Qed.

Lemma load_private_triple : triple anything (load_private_key profile) (fun b => holds b) anything.
Proof.
  intros k _. destruct (load_private_key profile k) as [[b|e] k'] eqn:E; [|done]. unfold holds.
  pose proof (load_kept (get_private_key_service profile) "private_key" k) as Hk.
  change (load_hex _ _ k) with (load_private_key profile k) in Hk. rewrite E in Hk. cbn in Hk. subst k'. by rewrite E.
Qed.

Lemma made_insert key username X :
  triple (at_ [] (ready key)) (in_node (insert_identity username (hexlify (ed_raw_public key))))
    (fun _ s => exists i, made i s) X.
Proof.
  intros s (Hd & _ & Hk & x & Hx). cbn. eexists. split; [cbn; by rewrite Hd|]. exists key, x. by split_and!.
Qed.

Lemma made_commit X :
  triple (fun s => exists i, made i s) (in_node commit) (fun _ s => exists i, at_ [i] (fun k => usable k i) s) X.
Proof. intros s (i & Hd & Hu). exists i. by repeat split. Qed.

Lemma made_setting key value X :
  triple (fun s => exists i, made i s) (in_node (set_setting key value)) (fun _ s => exists i, at_ [i] (fun k => usable k i) s) X.
Proof. intros s (i & Hd & Hu). exists i. by repeat split. Qed.

(** The invariant of a profile being set up, before its identity row exists. *)
Abbreviation fresh_ G := (at_ [] G).
Abbreviation settled o := (kept_or_made [] o).

Lemma fresh_settled G o s : fresh_ G s -> settled o s.
Proof. intros (Hd & Hc & _). left. by split. Qed.
Lemma made_settled o s : (exists i, at_ [i] (fun k => usable k i) s) -> settled o s.
Proof. by right. Qed.

Lemma triple_post {A} (Φ : profile_state -> Prop) (m : P A) (Q Q' : A -> profile_state -> Prop) (X X' : profile_state -> Prop) :
  triple Φ m Q X -> (forall a s, Q a s -> Q' a s) -> (forall s, X s -> X' s) -> triple Φ m Q' X'.
Proof. intros Hm HQ HX. by eapply triple_weaken. Qed.

Lemma settled_node {A} G o (m : N A) :
  keeps (view_kept identity) m -> triple (fresh_ G) (in_node m) (fun _ => fresh_ G) (settled o).
Proof. intros Hm. eapply triple_post; [by apply at_node|done|]. apply fresh_settled. Qed.

Lemma settled_keys {A} (G X : keychain -> Prop) (Q : A -> keychain -> Prop) o (m : K A) :
  triple G m Q X -> triple (fresh_ G) (in_keychain m) (fun a => fresh_ (Q a)) (settled o).
Proof. intros Hm. eapply triple_post; [by apply at_keys|done|]. apply fresh_settled. Qed.

Lemma settled_lift {A} G o (r : result string A) :
  triple (fresh_ G) (mlift r) (fun a s => r = Ok a /\ fresh_ G s) (settled o).
Proof. apply triple_lift; [done|]. apply fresh_settled. Qed.

Lemma settled_exit {A} G o (r : result string A) :
  triple (fresh_ G) (or_exit r) (fun _ => fresh_ G) (settled o).
Proof. destruct r; [by apply triple_ret|]. apply triple_raise, fresh_settled. Qed.
Lemma settled_bad {A} G o (r : result string A) :
  triple (fresh_ G) (or_bad r) (fun _ => fresh_ G) (settled o).
Proof. destruct r; [by apply triple_ret|]. apply triple_raise, fresh_settled. Qed.

Lemma save_keys_settled key x o :
  triple (fresh_ anything) (save_keys kr profile key x) (fun _ => fresh_ (ready key)) (settled o).
Proof.
  unfold save_keys. eapply triple_bind; [eapply settled_keys, save_private_triple|]. intros []. cbv beta.
  apply settled_keys with (Q := fun _ => ready key) (X := holds key), save_x25519_triple.
Qed.

Lemma initialize_fresh_settled username key x o :
  triple (fresh_ anything)
    (initialize_fresh kr profile http_get http_post relay_url public_endpoint username ((key, ed_raw_public key), x))
    (fun _ => settled o) (settled o).
Proof.
  unfold initialize_fresh. eapply triple_bind; [apply settled_node, draw_view|]. intros lookup. cbv beta.
  eapply triple_bind; [apply settled_bad|]. intros [|]; [apply triple_raise, fresh_settled|].
  eapply triple_bind; [apply settled_node, draw_view|]. intros r. cbv beta.
  eapply triple_bind; [apply settled_bad|]. intros ?. cbv beta. cbn [fst snd].
  eapply triple_bind; [apply save_keys_settled|]. intros []. cbv beta.
  eapply triple_bind; [apply made_insert|]. intros []. cbv beta.
  eapply triple_bind; [apply made_setting|]. intros []. cbv beta.
  apply triple_post with (Q := fun _ s => exists i, at_ [i] (fun k => usable k i) s) (X := settled o);
    [|intros _; apply made_settled|done].
  intros s (i & Hd & Hc & Hu). exists i. by repeat split.
Qed.

Lemma restore_fresh_settled username key x remote o :
  triple (fresh_ anything) (restore_fresh kr profile number_text username ((key, ed_raw_public key), x) remote)
    (fun _ => settled o) (settled o).
Proof.
  unfold restore_fresh. cbn [fst snd].
  eapply triple_bind; [apply save_keys_settled|]. intros []. cbv beta.
  eapply triple_bind; [apply made_insert|]. intros []. cbv beta.
  eapply triple_bind; [apply made_commit|]. intros []. cbv beta.
  eapply triple_bind; [apply triple_lift with (Q := fun _ s => exists i, at_ [i] (fun k => usable k i) s);
    [done|apply made_settled]|]. intros ep. cbv beta.
  eapply triple_bind; [apply triple_lift with (Q := fun _ s => exists i, at_ [i] (fun k => usable k i) s);
    [done|apply made_settled]|]. intros t. cbv beta.
  intros s (i & Hd & Hc & Hu). right. exists i. by repeat split.
Qed.

Lemma pair_fresh_settled username choose type_words o :
  triple (fresh_ anything)
    (pair_fresh mnemonic_check to_seed generate hkdf ed_raw_public kr profile http_get http_post relay_url public_endpoint
       username choose type_words) (fun _ => settled o) (settled o).
Proof.
  unfold pair_fresh, setup_new_identity.
  eapply triple_bind; [apply settled_node, draw_view|]. intros lookup. cbv beta.
  eapply triple_bind; [apply settled_exit|]. intros [|]; [apply triple_raise, fresh_settled|].
  eapply triple_bind with (Q := fun _ => fresh_ anything).
  { eapply triple_bind; [apply settled_node, draw_view|]. intros phrase. cbv beta.
    eapply triple_bind; [apply settled_lift|]. intros keys. cbv beta. 
    eapply triple_bind with (Q := fun _ => fresh_ anything); [|intros _; by apply triple_ret].
    apply triple_weaken with (P := fresh_ anything) (Q := fun _ => fresh_ (holds keys.1)) (X := settled o);
      [eapply settled_keys, save_private_triple|by intros s [_ Hs]|intros _ s (? & ? & _); by split|done]. }
  intros phrase. eapply triple_bind; [apply settled_node, draw_view|]. intros indices. cbv beta.
  destruct (verify_phrase_confirmation _ _ _); [|apply triple_raise, fresh_settled].
  eapply triple_bind; [eapply triple_catch; [eapply at_keys, load_private_triple|]; intros e; apply triple_raise, fresh_settled|].
  intros key. cbv beta. eapply triple_bind with (Q := fun b s => b = key /\ fresh_ (holds key) s).
  { apply triple_lift; [|apply fresh_settled]. unfold key_bytes. intros b s. by destruct (Nat.eqb _ _); [intros [= <-]|]. }
  intros b. apply triple_weaken with (P := fun s => fresh_ (holds b) s) (Q := fun _ => settled o) (X := settled o);
    [|by intros s [-> Hs]|done..].
  eapply triple_bind with (Q := fun _ => fresh_ (ready b)).
  { eapply triple_catch with (Y := fresh_ (holds b)); [|intros e; apply triple_raise, fresh_settled].
    eapply triple_bind with (Q := fun _ => fresh_ (holds b)); [by apply triple_lift|]. intros x.
    eapply triple_bind; [eapply at_keys, save_x25519_triple|]. intros []. cbv beta. by apply triple_ret. }
  intros x. eapply triple_bind; [apply settled_node, draw_view|]. intros r. cbv beta.
  eapply triple_bind; [apply settled_exit|]. intros ?. cbv beta.
  eapply triple_bind; [apply made_insert|]. intros []. cbv beta.
  eapply triple_bind; [apply made_commit|]. intros []. cbv beta.
  intros s (i & Hd & Hc & Hu). right. exists i. by repeat split.
Qed.

Lemma steady_kept {A} (m : P A) ids o :
  steady m -> triple (before ids o) m (fun _ => kept_or_made ids o) (kept_or_made ids o).
Proof. intros Hm. eapply triple_post; [apply Hm|..]; intros; by apply before_kept. Qed.

(** The check every creating command starts with. *)
Lemma creating_kept (stop fresh : P unit) ids o :
  steady stop -> triple (fresh_ anything) fresh (fun _ => settled o) (settled o) ->
  triple (before ids o)
    (with_connection (let* existing := in_node (select (fun t => head (identity t))) in
                      match existing with Some _ => stop | None => fresh end))
    (fun _ => kept_or_made ids o) (kept_or_made ids o).
Proof.
  intros Hstop Hfresh. apply in_connection. intros s Hs. destruct Hs as (Hd & Hc & Ho). unfold bind, in_node, select, mgets.
  cbn. rewrite Hd. destruct ids as [|i ids].
  - apply Hfresh. by split_and!.
  - apply (steady_kept _ _ _ Hstop). by split_and!.
Qed.

Lemma key_pairs_Ok phrase p : key_pairs mnemonic_check to_seed hkdf ed_raw_public phrase = Ok p ->
  exists key x, p = ((key, ed_raw_public key), x).
Proof.
  unfold key_pairs, derive_key_pair, derive_x25519_key_pair. destruct (mnemonic_check phrase); [|done]. cbn.
  intros [= <-]. by eexists _, _.
Qed.

(** Passing what stops the command before the database is opened. *)
Lemma kept_bad {A B} (r : result string A) (k : A -> P B) ids o :
  (forall a, r = Ok a -> triple (before ids o) (k a) (fun _ => kept_or_made ids o) (kept_or_made ids o)) ->
  triple (before ids o) (bind (or_bad r) k) (fun _ => kept_or_made ids o) (kept_or_made ids o).
Proof. intros Hk s Hs. destruct r as [a|e]; [by apply Hk|by apply before_kept]. Qed.

Lemma kept_step {A B} (m : P A) (k : A -> P B) ids o :
  steady m -> (forall a, triple (before ids o) (k a) (fun _ => kept_or_made ids o) (kept_or_made ids o)) ->
  triple (before ids o) (bind m k) (fun _ => kept_or_made ids o) (kept_or_made ids o).
Proof.
  intros Hm Hk. eapply triple_bind; [|apply Hk]. eapply triple_post; [apply Hm|done|]. intros s. apply before_kept.
Qed.

Lemma pair_self_kept username choose type_words ids o :
  triple (before ids o)
    (pair_self mnemonic_check to_seed generate hkdf ed_raw_public kr profile http_get http_post relay_url public_endpoint
       username choose type_words) (fun _ => kept_or_made ids o) (kept_or_made ids o).
Proof. apply creating_kept; [apply steady_ret|apply pair_fresh_settled]. Qed.

Lemma initialize_kept username file js pl tty ids o :
  triple (before ids o) (run (Init username file js pl tty)) (fun _ => kept_or_made ids o) (kept_or_made ids o).
Proof.
  assert (steady (mraise BadParameter : P unit)) as Hbad by apply steady_raise.
  cbn [run]. unfold initialize. destruct username as [[|c u]|]; [by apply steady_kept| |].
  - destruct file as [text|]; [|by apply steady_kept]. destruct (js && pl); [by apply steady_kept|].
    apply kept_bad. intros file ->. cbv zeta. destruct (negb _); [by apply steady_kept|].
    apply kept_bad. intros keys (key & x & ->)%key_pairs_Ok. apply creating_kept; [done|]. apply initialize_fresh_settled.
  - destruct file; [by apply steady_kept|]. destruct js; [by apply steady_kept|]. destruct pl; by apply steady_kept.
Qed.

Lemma restore_kept phrase username file js pl prompt tty ids o :
  triple (before ids o) (run (RestorePhrase phrase username file js pl prompt tty))
    (fun _ => kept_or_made ids o) (kept_or_made ids o).
Proof.
  assert (steady (mraise BadParameter : P unit)) as Hbad by apply steady_raise.
  cbn [run]. unfold restore. destruct (js && pl); [by apply steady_kept|].
  apply kept_step; [apply steady_lift|]. intros ph. apply kept_bad. intros keys (key & x & ->)%key_pairs_Ok.
  destruct (negb _); [by apply steady_kept|]. cbv zeta.
  apply kept_step; [apply steady_node, draw_view|]. intros lookup. apply kept_step; [apply steady_or_bad|]. intros text.
  apply kept_step; [apply steady_lift|]. intros remote. apply kept_step; [apply steady_lift|]. intros pk.
  apply kept_step; [destruct (bool_decide _); auto with steady|]. intros xk.
  destruct (_ && _); [|by apply steady_kept]. apply creating_kept; [done|]. apply restore_fresh_settled.
Qed.

Lemma run_kept c ids o : triple (before ids o) (run c) (fun _ => kept_or_made ids o) (kept_or_made ids o).
Proof.
  destruct c as [code supplied js pl tty|u file js pl tty|ph u file js pl prompt tty|u p js pl|p m file js pl prompt|ep].
  - cbn [run]. unfold pair. destruct (_ && _); [apply steady_kept, steady_raise|]. destruct code as [name|].
    + apply steady_kept. destruct (_ && _); [apply steady_raise|apply pair_contact_steady].
    + destruct (flag js); [apply steady_kept, steady_raise|apply pair_self_kept].
  - apply initialize_kept.
  - apply restore_kept.
  - apply steady_kept, contact_policy_steady.
  - apply steady_kept, configure_steady.
  - apply steady_kept, publish_steady.
Qed.

(** The identity row and the keychain agree. *)
Definition profile_ok (s : profile_state) : Prop :=
  identity (db (p_node s)) = identity (committed (p_node s)) /\
  forall i, i ∈ identity (committed (p_node s)) -> usable (p_keys s) i.

Lemma usable_slots k k' i : own_slots k' = own_slots k -> usable k i -> usable k' i.
Proof.
  intros [= Hp Hx] (key & x & Hk & Hi & Hl). exists key, x.
  unfold load_private_key, load_x25519_private_key, load_hex, get_password, bind, mgets in *. cbn in *.
  rewrite Hp, Hx. split_and!; [|done|].
  - destruct (kc_store k !! (get_private_key_service profile, _)) as [h|]; [|done]. by destruct (fromhex h).
  - destruct (kc_store k !! (get_x25519_private_key_service profile, _)) as [h|]; [|done]. by destruct (fromhex h).
Qed.

(** C24: The identity of a profile is made once and stays usable: along any
    sequence of pairing, set-up, restore, policy, configuration and
    publication commands, whatever the directory answers and wherever a
    command stops, the public key of every identity row is that of the private
    key in the keychain, and once there is an identity neither its row nor
    the two private keys of the profile ever change. *)
Theorem identity_made_once s s' :
  profile_ok s -> rtc (fun s s' => exists c, s' = (run c s).2) s s' ->
  profile_ok s' /\
  (identity (committed (p_node s)) <> [] ->
   identity (committed (p_node s')) = identity (committed (p_node s)) /\ own_slots (p_keys s') = own_slots (p_keys s)).
Proof.
  intros Hok Hs. induction Hs as [s|s s1 s2 [c ->] _ IH]; [done|]. destruct Hok as [Hd Hu].
  set (ids := identity (committed (p_node s))) in *. set (o := own_slots (p_keys s)).
  assert (kept_or_made ids o (run c s).2) as Hk.
  { pose proof (run_kept c ids o s) as Hr. destruct (run c s) as [[a|e] s']; apply Hr; by split_and!. }
  assert (profile_ok (run c s).2) as Hok1.
  { unfold kept_or_made in Hk. destruct ids as [|i0 rest].
    - destruct Hk as [(E1 & E2 & _)|(i & E1 & E2 & Hi)]; split; rewrite ?E1, ?E2; try done; [by intros i ?%not_elem_of_nil|].
      by intros j ->%list_elem_of_singleton.
    - destruct Hk as (E1 & E2 & Ho). split; rewrite ?E1, ?E2; [done|]. intros i Hi. by eapply usable_slots, Hu. }
  destruct (IH Hok1) as [Hok2 Hst]. split; [done|]. intros Hne. unfold kept_or_made in Hk.
  destruct ids as [|i0 rest]; [done|]. destruct Hk as (E1 & E2 & Ho). rewrite E2 in Hst. destruct (Hst ltac:(done)) as [F1 F2].
  split; [congruence|]. by rewrite F2.
Qed.
End own.

Module PairingDemo.
Import AuditDemo SchemaDemo IdentityDemo.

Definition entry (x25519 : string) : json :=
  JObj [("public_key", JStr (hexlify "bob")); ("x25519_public_key", JStr x25519); ("endpoint", JStr "http://bob")].

Definition env : NodeEnv.
Proof.
  refine {| aes_encrypt _ _ p := p; aes_decrypt _ _ p := Some p;
            urandom12 _ := "0123456789ab"; uuid4 n := "id-" +:+ print_int (Z.of_nat n);
            utcnow _ := "2026-07-23T12:00:00+00:00";
            json_loads s := find_first (fun d => String.eqb (json_dumps dumps_compact d) s) [entry "aa"; entry "bb"];
            model_json := json_dumps dumps_canonical |}; done.
Defined.
#[local] Existing Instances env demo_x.

Definition phrase : string := "one two three four five six seven eight nine ten eleven twelve".
Definition check (p : string) : bool := Nat.eqb (length (split_words p)) 12.
Definition hkdf (info : string) (seed : bytes) : bytes := str_take 32 (info +:+ seed).

(** A directory that knows nobody, and one that knows Bob. *)
Definition nobody (n : nat) (url : string) (h : list (string * string)) : http_result := Responded 404 "".
Definition knows_bob (x25519 : string) (n : nat) (url : string) (h : list (string * string)) : http_result :=
  Responded 200 (json_dumps dumps_compact (entry x25519)).
Definition accepts (n : nat) (url : string) (body : json) : http_result := Responded 201 "".

Definition start : profile_state :=
  {| p_node := {| db := no_tables; committed := no_tables; tick := 0 |}; p_keys := KeychainDemo.fresh |}.

(** The terminal of an owner who types the first and the last word. *)
Definition owner (answer : bool) : terminal :=
  {| typed_name := "alice"; confirm_answer _ := answer; chosen_words _ := [0; 11]%Z;
     typed_words _ _ := ["one"; "twelve "] |}.

Definition step (directory : nat -> string -> list (string * string) -> http_result) (c : command) (s : profile_state)
  : profile_state :=
  (run check id (fun _ => phrase) hkdf id words KeychainDemo.os_backend "alice" directory accepts py_str "http://relay" None c s).2.

Definition alice : profile_state := step nobody (Pair None None (Parsed false) (Parsed false) (owner true)) start.

Example alice_set_up :
  map i_username (identity (committed (p_node alice))) = ["alice"] /\
  (load_private_key "alice" (p_keys alice)).1 = Ok (hkdf "kin-ed25519-key-derivation" phrase).
Proof. vm_compute. split; reflexivity. Qed.

(** [kin init] without options ends in a usage error: the flags [pair] gets are
    declarations, and declarations are true. *)
Example init_interactive_refused mnemonic seed gen kdf pub wl kr profile get post text relay endpoint tty s :
  run mnemonic seed gen kdf pub wl kr profile get post text relay endpoint (Init None None false false tty) s
  = (Err BadParameter, s).
Proof. reflexivity. Qed.

Definition with_bob (x25519 : string) : profile_state :=
  step (knows_bob x25519) (Pair (Some "bob") (Some "word-word-word-word") (Parsed false) (Parsed false) (owner true)) alice.

(** The fingerprint covers the signing keys alone: whichever encryption key the
    directory names is stored under the same fingerprint. *)
Example exchange_key_not_covered :
  map c_x25519 (contacts (committed (p_node (with_bob "aa")))) = [Some "aa"] /\
  map c_x25519 (contacts (committed (p_node (with_bob "bb")))) = [Some "bb"].
Proof. vm_compute. split; reflexivity. Qed.

Example refused_by_owner :
  contacts (committed (p_node (step (knows_bob "aa") (Pair (Some "bob") None (Parsed false) (Parsed false) (owner false)) alice)))
  = [].
Proof. vm_compute. reflexivity. Qed.

Lemma pairing_needs_owner_witness :
  exists username c, Some "bob" = Some username /\ is_verified username (committed (p_node alice)) = false /\
    trusted words username (Some "word-word-word-word") (owner true) (committed (p_node alice)) c /\
    contacts (committed (p_node (with_bob "aa"))) = contacts (put_contact c (committed (p_node alice))).
Proof.
  destruct (pairing_needs_owner check id (fun _ => phrase) hkdf id words KeychainDemo.os_backend "alice" (knows_bob "aa")
    accepts py_str "http://relay" None (Some "bob") (Some "word-word-word-word") (Parsed false) (Parsed false) (owner true)
    alice) as [He|Hex]; [vm_compute; reflexivity| |exact Hex].
  exfalso. revert He. vm_compute. discriminate.
Defined.

Lemma start_ok : profile_ok id "alice" start.
Proof. split; [reflexivity|]. intros i Hi. vm_compute in Hi. by apply not_elem_of_nil in Hi. Qed.

Lemma identity_made_once_witness : profile_ok id "alice" alice.
Proof.
  refine (proj1 (identity_made_once check id (fun _ => phrase) hkdf id words KeychainDemo.os_backend "alice" nobody accepts
    py_str "http://relay" None start alice start_ok _)).
  apply rtc_once. by exists (Pair None None (Parsed false) (Parsed false) (owner true)).
Defined.
End PairingDemo.
