(* ===== verification/AuditExport.v ===== *)
(** * Exported transcripts

    [kin/audit/export.py] and [kin/audit/legacy.py]: the transcript of a
    session in JSON and Markdown, and the projection of the tasks of the first
    protocol onto event records.  Both only read. *)

From Stdlib Require Import Ascii String ZArith Lia.
From stdpp Require Import base gmap sets list strings sorting.
From S2P Require Import Prelude Regex Codec PyValue Schemas Store AuditLog SessionStore History Ingest.

#[local] Open Scope nat_scope.

(** ** [json.dumps(v, indent=2)] *)

Definition LF : string := String "010" "".
Fixpoint spaces (n : nat) : string := match n with 0 => "" | S n' => "  " +:+ spaces n' end.

(** A non-empty list or object puts every item on a line of its own. *)
Definition block (open close : string) (level : nat) (items : list string) : string :=
  match items with
  | [] => open +:+ close
  | _ => open +:+ LF +:+ spaces (S level) +:+ String.concat ("," +:+ LF +:+ spaces (S level)) items
         +:+ LF +:+ spaces level +:+ close
  end.

Fixpoint dumps_indent (level : nat) (v : json) : string :=
  match v with
  | JList l => block "[" "]" level (map (dumps_indent (S level)) l)
  | JObj kvs => block "{" "}" level (map (fun kv => quote dumps_compact kv.1 +:+ ": " +:+ dumps_indent (S level) kv.2) kvs)
  | _ => json_dumps dumps_compact v
  end.

Section export.
Context `{NodeEnv} `{Jcs}.
Context (vault_key : bytes).

(** A stored field read back: [None] for a missing or empty one, the text
    itself when it is no JSON. *)
Definition parsed_field (text : option string) : json :=
  match text with
  | None | Some "" => JNull
  | Some t => default (JStr t) (json_loads t)
  end.

Definition parsed_payload (text : option string) : json :=
  match text with None => JNull | Some t => default (JStr t) (json_loads t) end.

Definition session_meta (r : session_row) (objective : option string) (snapshot terminal : json) : json :=
  JObj [("session_id", JStr (s_id r)); ("type", JStr (s_type r)); ("initiator_username", JStr (s_initiator r));
        ("receiver_username", JStr (s_receiver r)); ("status", JStr (s_status r)); ("objective", opt_str objective);
        ("sender_agent_id", opt_str (s_sender_agent r)); ("receiver_agent_id", opt_str (s_receiver_agent r));
        ("participant_snapshot", snapshot); ("turn_limit", JInt (s_turn_limit r)); ("created_at", JStr (s_created_at r));
        ("updated_at", JStr (s_updated_at r)); ("terminal_result", terminal)].

Record exported_event := {
  x_row : event_row;
  x_payload : json;
  x_hash : string
}.

Definition content_hash (v : json) : result string string :=
  let hash d := match compute_content_hash d with Some h => Ok h | None => Err "ValueError" end in
  match v with
  | JObj d => hash d
  | JNull => Ok ""
  | _ => hash [("value", JStr (py_str v))]
  end.

(** The payload itself marks a private note. *)
Definition marked_private (v : json) : bool :=
  match v with JObj d => bool_decide (obj_get "visibility" d = Some (JStr "local_only")) | _ => false end.

(** One row: [None] when it is left out. *)
Definition export_event (include_private_notes : bool) (r : event_row) : result string (option exported_event) :=
  if String.eqb (e_visibility r) "local_only" && negb include_private_notes then Ok None
  else
    let? text := decrypt_field vault_key (e_payload r) in
    let payload := parsed_payload text in
    if marked_private payload && negb include_private_notes then Ok None
    else let? h := content_hash payload in Ok (Some {| x_row := r; x_payload := payload; x_hash := h |}).

Fixpoint export_events (include_private_notes : bool) (rows : list event_row) : result string (list exported_event) :=
  match rows with
  | [] => Ok []
  | r :: rest =>
      let? x := export_event include_private_notes r in
      let? xs := export_events include_private_notes rest in
      Ok (match x with Some e => e :: xs | None => xs end)
  end.

Definition event_json (x : exported_event) : json :=
  let r := x_row x in
  JObj [("event_id", JStr (e_id r)); ("event_order", JInt (e_order r));
        ("sequence", match e_sequence r with Some z => JInt z | None => JNull end);
        ("actor_username", JStr (e_actor r)); ("actor_agent_id", opt_str (e_agent r)); ("kind", JStr (e_kind r));
        ("visibility", JStr (e_visibility r)); ("payload", x_payload x); ("content_hash", JStr (x_hash x));
        ("signature", opt_str (e_signature r)); ("created_at", JStr (e_created_at r))].

Definition event_lines (x : exported_event) : list string :=
  let r := x_row x in
  ["### Event #" +:+ print_int (e_order r) +:+ " - " +:+ e_kind r;
   "- **Event ID**: " +:+ e_id r;
   "- **Actor**: " +:+ e_actor r +:+ " (" +:+ or_str (e_agent r) "system" +:+ ")";
   "- **Sequence**: " +:+ match e_sequence r with Some z => print_int z | None => "N/A" end;
   "- **Visibility**: " +:+ e_visibility r;
   "- **Content Hash**: " +:+ x_hash x;
   "- **Signature**: " +:+ or_str (e_signature r) "N/A";
   "- **Timestamp**: " +:+ e_created_at r;
   "```json";
   match x_payload x with JObj _ | JList _ => dumps_indent 0 (x_payload x) | v => py_str v end;
   "```";
   ""].

Definition markdown (session_id : string) (r : session_row) (objective : option string) (events : list exported_event) : string :=
  String.concat LF
    (["# Session Transcript: " +:+ session_id; "- **Type**: " +:+ s_type r; "- **Initiator**: " +:+ s_initiator r;
      "- **Receiver**: " +:+ s_receiver r; "- **Status**: " +:+ s_status r; "- **Objective**: " +:+ or_str objective "N/A";
      "- **Created At**: " +:+ s_created_at r; ""; "## Events Sequence"; ""]
     ++ match events with [] => ["*(No events recorded)*"] | _ => concat (map event_lines events) end).

Definition export_session (session_id format : string) (include_private_notes : bool) (t : tables) : result string string :=
  match find_session session_id t with
  | None => Err "ValueError"
  | Some r =>
      let? objective := decrypt_field_or_plaintext vault_key (s_objective r) in
      let? snapshot := decrypt_field_or_plaintext vault_key (s_snapshot r) in
      let? terminal := decrypt_field_or_plaintext vault_key (s_terminal_result r) in
      let? events := export_events include_private_notes (by_order (events_of session_id t)) in
      if String.eqb format "json" then
        Ok (dumps_indent 0 (JObj [("session", session_meta r objective (parsed_field snapshot) (parsed_field terminal));
                                  ("events", JList (map event_json events))]))
      else if String.eqb format "markdown" then Ok (markdown session_id r objective events)
      else Err "ValueError"
  end.

(** ** Tasks of the first protocol as events *)

Definition task_summary (r : task_row) : json :=
  JObj [("source", JStr "legacy_v1"); ("type", JStr "task_summary"); ("task_id", JStr (t_id r)); ("message_id", JNull);
        ("contact_username", JStr (t_contact r)); ("goal", JStr (t_goal r)); ("context_json", opt_str (t_context r));
        ("status", opt_str (t_status r)); ("created_at", JStr (t_created_at r)); ("updated_at", JStr (t_updated_at r));
        ("result_json", opt_str (t_result r)); ("signature", JNull); ("sequence", JNull); ("session_id", JNull)].

Definition message_event (task_id : string) (m : message_row) : json :=
  JObj [("source", JStr "legacy_v1"); ("type", JStr "message"); ("task_id", JStr task_id); ("message_id", JStr (m_id m));
        ("from_username", JStr (m_from m)); ("content", JStr (m_content m)); ("message_type", opt_str (m_type m));
        ("created_at", JStr (m_created_at m)); ("signature", opt_str (m_signature m)); ("sequence", JNull);
        ("session_id", JNull)].

Definition legacy_events_from_tasks (task_id_or_contact : string) (t : tables) : list json :=
  let matching := List.filter (fun r => String.eqb (t_id r) task_id_or_contact || String.eqb (t_contact r) task_id_or_contact)
                    (tasks t) in
  concat (map (fun r =>
      task_summary r
      :: map (message_event (t_id r))
           (order_by (fun a b => String.leb (m_created_at a) (m_created_at b))
              (List.filter (fun m => String.eqb (m_task m) (t_id r)) (messages t))))
    (order_by (fun a b => String.leb (t_created_at a) (t_created_at b)) matching)).
End export.

Section proofs.
Context `{NodeEnv} `{Jcs}.
Context (key : bytes).

(** ** Ordering and filtering *)

Definition le_order (a b : event_row) : Prop := (e_order a <= e_order b)%Z.

Lemma insert_by_order_sorted r l :
  StronglySorted le_order l -> StronglySorted le_order (insert_by_order r l).
Proof.
  induction 1 as [|x l Hl IH Hx]; [repeat constructor|]. cbn [insert_by_order].
  rewrite Forall_forall in Hx. unfold le_order in *.
  destruct (e_order r <? e_order x)%Z eqn:E.
  - constructor; [by constructor; [|apply Forall_forall]|]. apply Forall_forall.
    intros y [->|Hy]%elem_of_cons; [lia|]. specialize (Hx y Hy). lia.
  - constructor; [done|]. apply Forall_forall. intros y [->|Hy]%insert_by_order_elem; [lia|by apply Hx].
Qed.

(** Rows can be dropped before or after they are put in order. *)
Lemma insert_by_order_filter p r l :
  StronglySorted le_order l ->
  List.filter p (insert_by_order r l)
  = if p r then insert_by_order r (List.filter p l) else List.filter p l.
Proof.
  induction 1 as [|x l Hl IH Hx]; [cbn; by destruct (p r)|]. cbn [insert_by_order].
  destruct (e_order r <? e_order x)%Z eqn:E.
  - cbn [List.filter]. destruct (p r) eqn:Er; [|done]. destruct (p x) eqn:Ex; cbn [insert_by_order].
    + by rewrite E.
    + destruct (List.filter p l) as [|y l'] eqn:Ef; [done|]. cbn [insert_by_order].
      assert (y ∈ l) as Hy.
      { assert (In y (List.filter p l)) as Hi by (rewrite Ef; by left).
        apply List.filter_In in Hi as [Hi _]. by apply list_elem_of_In. }
      rewrite Forall_forall in Hx. specialize (Hx y Hy). unfold le_order in Hx.
      by replace (e_order r <? e_order y)%Z with true by lia.
  - cbn [List.filter]. rewrite IH. destruct (p x); [|done].
    destruct (p r); [|done]. cbn [insert_by_order]. by rewrite E.
Qed.

Lemma by_order_filter_acc p l acc :
  StronglySorted le_order acc ->
  List.filter p (fold_left (fun acc r => insert_by_order r acc) l acc)
  = fold_left (fun acc r => insert_by_order r acc) (List.filter p l) (List.filter p acc).
Proof.
  revert acc. induction l as [|r l IH]; intros acc Ha; [done|]. cbn [fold_left List.filter].
  rewrite IH by by apply insert_by_order_sorted. rewrite insert_by_order_filter by done.
  by destruct (p r).
Qed.

Lemma by_order_filter p l : List.filter p (by_order l) = by_order (List.filter p l).
Proof. apply (by_order_filter_acc p l []). constructor. Qed.

Lemma list_filter_comm {A} (p q : A -> bool) l :
  List.filter p (List.filter q l) = List.filter q (List.filter p l).
Proof.
  induction l as [|x l IH]; [done|]. cbn [List.filter].
  destruct (q x) eqn:Eq, (p x) eqn:Ep; cbn [List.filter]; rewrite ?Eq, ?Ep, IH; done.
Qed.

(** ** Private notes *)

(** A row that is only for this node: stored so, or marked so by its payload. *)
Definition private_row (r : event_row) : bool :=
  String.eqb (e_visibility r) "local_only"
  || match decrypt_field key (e_payload r) with Ok text => marked_private (parsed_payload text) | Err _ => false end.

Definition without_private (t : tables) : tables :=
  set_events (List.filter (fun r => negb (private_row r))) t.

Lemma export_event_hides r :
  export_event key false r = if private_row r then Ok None else export_event key true r.
Proof.
  unfold export_event, private_row. rewrite !andb_false_r.
  destruct (String.eqb (e_visibility r) "local_only"); [done|]. cbn [andb orb negb].
  destruct (decrypt_field key (e_payload r)) as [text|e]; [|done]. cbn [rbind].
  rewrite andb_true_r, andb_false_r. by destruct (marked_private (parsed_payload text)).
Qed.

Lemma export_events_hides rows :
  export_events key false rows = export_events key true (List.filter (fun r => negb (private_row r)) rows).
Proof.
  induction rows as [|r rows IH]; [done|]. cbn [export_events List.filter]. rewrite export_event_hides, IH.
  destruct (private_row r); cbn [negb rbind]; [by destruct (export_events key true _)|done].
Qed.

(** the transcript exported without the private notes, in either format
    and errors included, is exactly the full transcript of the profile from
    which every private row was deleted: no row stored or marked as
    local_only has any influence on it. *)
Theorem export_hides_notes sid fmt t :
  export_session key sid fmt false t = export_session key sid fmt true (without_private t).
Proof.
  unfold export_session. change (find_session sid (without_private t)) with (find_session sid t).
  destruct (find_session sid t) as [r|]; [|done].
  rewrite export_events_hides, by_order_filter.
  replace (events_of sid (without_private t)) with (List.filter (fun r => negb (private_row r)) (events_of sid t)); [done|].
  unfold events_of, without_private. cbn. apply list_filter_comm.
Qed.
End proofs.

Module ExportDemo.
#[local] Existing Instances AuditDemo.demo_env SchemaDemo.demo_jcs.

Definition transcript (fmt : string) (notes : bool) (t : tables) : result string string :=
  export_session "key" "s1" fmt notes t.

(** The note written after the first event leaves no trace in the transcript. *)
Example note_hidden :
  transcript "markdown" false HistoryDemo.two_events = transcript "markdown" true HistoryDemo.one_event.
Proof. vm_compute. reflexivity. Qed.

Example note_shown :
  String.eqb (default "" (match transcript "json" true HistoryDemo.two_events with Ok s => Some s | Err _ => None end))
             (default "" (match transcript "json" false HistoryDemo.two_events with Ok s => Some s | Err _ => None end))
  = false.
Proof. vm_compute. reflexivity. Qed.

Example no_such_format : transcript "html" true HistoryDemo.one_event = Err "ValueError".
Proof. vm_compute. reflexivity. Qed.
End ExportDemo.
