(* ===== verification/OwnerCommands.v ===== *)
(** * What the owner does

    The commands of [kin/tui/local_state.py] that change something, which the
    terminal interface and the [session], [approval] and [dispatch] commands of
    [kin/cli.py] share: decisions, private notes, pausing, resuming and
    cancelling, messages, dispatch, hand-off, history records and the writing of
    artifacts.  A command answers or refuses with a [RecoverableError]; an
    exception that it does not convert escapes.  The time of a call is its
    argument, the texts of exceptions are parameters. *)

From Stdlib Require Import Ascii String ZArith QArith Lia.
From stdpp Require Import base gmap sets list strings.
From S2P Require Import Prelude Regex Codec PyValue Redaction Schemas Cards Transition Reducer.
From S2P Require Import Store AuditLog SessionStore ApprovalStore ArtifactVault PeerCards Registry History.
From S2P Require Import Keychain CardFiles Relay Identity Ingest RetryQueue Offers Senders.
From S2P Require Import Patch Workspace Pantry Depth Orchestrator Backend Tasks TaskClient Pairing AuditExport.

#[local] Open Scope nat_scope.

(** ** Refusals *)

Record RecoverableError := {
  what_happened : string;
  impact : string;
  preserved : string;
  next_action : string;
  technical_detail : option string
}.

Definition card (what imp keep next : string) : RecoverableError :=
  {| what_happened := what; impact := imp; preserved := keep; next_action := next; technical_detail := None |}.
Definition card_with (detail what imp keep next : string) : RecoverableError :=
  {| what_happened := what; impact := imp; preserved := keep; next_action := next;
     technical_detail := Some detail |}.

(** [(True, x, None)] or [(False, None, error)]. *)
Abbreviation answer := (result RecoverableError).

(** The subclasses of [ValueError] among the exceptions of the program. *)
Definition VALUE_ERRORS : list string :=
  ["ValueError"; "ValidationError"; "JSONDecodeError"; "UnicodeDecodeError"; "binascii.Error"].

Definition FINISHED : list string := ["completed"; "cancelled"; "failed"; "rejected"].

Definition quoted (s : string) : string := "'" +:+ s +:+ "'".

Section commands.
Context `{NodeEnv} `{Jcs} `{Ed25519} `{Clock} `{X25519} `{LatestRow}.
Context (lax_int : json -> option Z) (lax_bool : json -> option bool).
Context (from_iso : string -> option (Z * option Z)) (read_file : string -> option bytes).
Context (public_of_bytes : bytes -> option public_key) (private_of_bytes : bytes -> option private_key).
Context (http_post : nat -> string -> json -> http_result).
Context (http_get : nat -> string -> list (string * string) -> http_result).
Context (webhook_secret : string -> string -> option string) (is_dir : string -> bool).
Context (wordlist : list string) (kr : backend) (urandom32 : nat -> bytes) (profile : string).
(** Whether [kin.db] exists; [str(exc)]; the relay of the environment. *)
Context (db_exists : bool) (err_text : string -> string) (relay_url : string).

(** [try: m except Exception as exc: return False, handler(exc)]. *)
Definition guarded {A} (m : P (answer A)) (handler : string -> RecoverableError) : P (answer A) :=
  mcatch m (fun e => ret (Err (handler e))).

Definition vault : P bytes := in_keychain (get_or_create_vault_key kr urandom32 profile).

Definition when_db {A} (missing : RecoverableError) (m : P (answer A)) : P (answer A) :=
  if db_exists then m else ret (Err missing).

(** [(has_identity, username, public_key)]. *)
Definition get_local_identity_info : P (bool * option string * option string) :=
  if negb db_exists then ret (false, None, None)
  else with_connection (
    let* row := in_node (select (fun t => head (identity t))) in
    match row with
    | None => ret (false, None, None)
    | Some r =>
        mcatch (in_keychain (load_private_key profile) ;;; ret (true, Some (i_username r), i_public_key r))
          (fun _ => ret (false, Some (i_username r), i_public_key r))
    end).

(** ** Decisions *)

Definition decision_refusal (approval_id e : string) : RecoverableError :=
  if String.eqb e "ApprovalNotFoundError" then
    card ("Approval request " +:+ quoted approval_id +:+ " not found.") "Decision not applied."
      "Database intact." "Refresh Inbox screen queue."
  else if String.eqb e "ApprovalAlreadyDecidedError" then
    card ("Approval " +:+ quoted approval_id +:+ " has already been decided.") "Duplicate decision rejected."
      "Existing decision retained." "Review decided approvals list."
  else if String.eqb e "ApprovalExpiredError" then
    card ("Approval " +:+ quoted approval_id +:+ " has expired.") "Expired approval cannot be approved."
      "Audit trail updated." "Re-initiate action request if required."
  else if String.eqb e "InvalidDecisionValueError" then
    card ("Invalid decision parameters: " +:+ err_text e) "Decision rejected by policy engine."
      "No database changes made." "Provide mandatory non-empty reason/constraints."
  else
    card ("Failed to record decision: " +:+ err_text e) "Approval state unchanged."
      "Local database safe." "Check policy configuration.".

Definition decide_pending_approval (approval_id session_id decision : string) (reason : option string)
    (constraints : option document) (now : Z) : P (answer unit) :=
  when_db (card "Database file not found." "Cannot record approval decision." "Local state unchanged."
             "Initialize profile first.") (
    let* info := get_local_identity_info in
    let owner := or_str info.1.2 "default_user" in
    let* vault_key := vault in
    with_connection (guarded
      (in_node (decide_approval vault_key approval_id session_id decision owner (zulu now) reason constraints) ;;;
       ret (Ok tt))
      (decision_refusal approval_id))).

(** ** Private notes *)

Definition create_private_note (session_id actor note_text : string) : P (answer unit) :=
  if negb (truthy (strip note_text)) then
    ret (Err (card "Private note text cannot be empty." "No private note was created."
                "Session history remains unchanged." "Enter note text and save again."))
  else if negb (truthy (strip actor)) then
    ret (Err (card "Private note author is unavailable." "No private note was created."
                "Session history remains unchanged." "Initialize the local profile identity first."))
  else
    when_db (card "Database file not found." "Cannot save private note." "No local state changed."
               "Initialize profile first.") (
      let* key := mcatch (let* k := vault in ret (Ok k))
        (fun e => ret (Err (card ("Failed to access private-note encryption key: " +:+ err_text e)
                              "Private note was not recorded." "Existing session history remains intact."
                              "Unlock the profile keychain and retry."))) in
      match key with
      | Err e => ret (Err e)
      | Ok vault_key =>
          with_connection (guarded
            (let* known := in_node (select (has_session session_id)) in
             if negb known then
               ret (Err (card ("Session " +:+ quoted session_id +:+ " not found.") "Private note was not saved."
                           "Local database remains unchanged." "Select a valid session."))
             else
               let* r := in_node (append_session_event vault_key session_id (strip actor) None
                           (enum_value PRIVATE_NOTE) "local_only" (Some (JObj [("content", JStr (strip note_text))]))
                           None None) in
               match r with
               | Appended _ _ => ret (Ok tt)
               | _ => mraise "RuntimeError"
               end)
            (fun e => card ("Failed to save private note: " +:+ err_text e) "Private note was not recorded."
                        "Existing session history remains intact." "Retry saving the note."))
      end).

(** ** Pausing, resuming, cancelling *)

(** The three commands differ in their verb. *)
Record control := {
  ct_verb : string;
  ct_lower : string;
  ct_default_reason : string
}.

Definition pause_control : control :=
  {| ct_verb := "Pause"; ct_lower := "pause"; ct_default_reason := "Paused by owner via TUI Arena" |}.
Definition resume_control : control :=
  {| ct_verb := "Resume"; ct_lower := "resume"; ct_default_reason := "Resumed by owner via TUI Arena" |}.
Definition cancel_control : control :=
  {| ct_verb := "Cancel"; ct_lower := "cancel"; ct_default_reason := "Cancelled by owner via TUI Arena" |}.

(** The call of [kin.transport.v11.pause_session], [resume_session] or
    [cancel_session].  The commands pass a [sender_x25519_privkey], the parameter
    is called [owner_x25519_privkey]: the call ends before any line of the
    operation runs. *)
Definition transport_call (vault_key : bytes) (owner session_id reason : string) (now : Z) : N unit :=
  mraise "TypeError".

Definition run_control (c : control) (session_id : string) (reason : option string) (now : Z) : P (answer unit) :=
  when_db (card "Database file not found." ("Cannot " +:+ ct_lower c +:+ " session.") "Local state unchanged."
             "Initialize profile first.") (
    let* info := get_local_identity_info in
    let owner := or_str info.1.2 "owner" in
    let* vault_key := vault in
    with_connection (guarded
      (let* row := in_node (select (find_session session_id)) in
       match row with
       | None => ret (Err (card ("Session " +:+ quoted session_id +:+ " not found.")
                             (ct_verb c +:+ " action rejected.") "Database intact." "Verify session ID."))
       | Some r =>
           if str_in (s_status r) FINISHED then
             ret (Err (card ("Session " +:+ quoted session_id +:+ " is already in terminal state "
                             +:+ quoted (s_status r) +:+ ".") (ct_verb c +:+ " action rejected.")
                         "Terminal session state retained." "No further state changes possible."))
           else
             in_node (transport_call vault_key owner session_id (or_str reason (ct_default_reason c)) now) ;;;
             ret (Ok tt)
       end)
      (fun e => card ("Failed to " +:+ ct_lower c +:+ " session: " +:+ err_text e)
                  "Session state transition failed." "Local database intact."
                  ("Retry " +:+ ct_lower c +:+ " operation.")))).

Definition pause_session := run_control pause_control.
Definition resume_session := run_control resume_control.
Definition cancel_session_command := run_control cancel_control.

Definition Exit1 : string := "typer.Exit(1)".

(** [_session_control] of the command line: code 1 unless the command succeeded. *)
Definition session_control (c : control) (session_id : string) (reason : option string) (now : Z) : P unit :=
  let* r := run_control c session_id reason now in
  match r with Ok _ => ret tt | Err _ => mraise Exit1 end.

(** ** Sending *)

(** [Ed25519PrivateKey.from_private_bytes(load_private_key(profile))]. *)
Definition load_owner_key : P private_key :=
  let* raw := in_keychain (load_private_key profile) in
  match private_of_bytes raw with Some k => ret k | None => mraise "ValueError" end.

Definition owner_sender (username : string) (k : private_key) (x : bytes) (relay : option string) : sender :=
  {| sd_username := username; sd_key := k; sd_x25519 := x; sd_endpoint := None; sd_relay := relay;
     sd_recipient := None |}.

(** The owner who may sign: the name, when the identity and its key are there. *)
Definition signing_owner (info : bool * option string * option string) : option string :=
  match info.1 with (true, Some (String _ _ as u)) => Some u | _ => None end.

(** The keys of a sending command, the vault key first. *)
Definition sending_keys : P (bytes * private_key * bytes) :=
  let* v := vault in
  let* k := load_owner_key in
  let* x := in_keychain (load_x25519_private_key profile) in
  ret (v, k, x).

Definition with_sending_keys {A} (imp keep : string) (use : bytes -> private_key -> bytes -> P (answer A))
  : P (answer A) :=
  let* keys := mcatch (let* ks := sending_keys in ret (Ok ks))
    (fun e => ret (Err (card_with (err_text e) "Failed to load private identity keys." imp keep
                          "Check profile permissions and vault key."))) in
  match keys with
  | Err e => ret (Err e)
  | Ok (v, k, x) => with_connection (use v k x)
  end.

(** A sending operation reads the keychain the profile has then. *)
Definition send_with {A} (m : keychain -> N A) : P A := fun s => in_node (m (p_keys s)) s.

Definition tag_in_session_agent (session_id replacement : string) (now : Z) : P (answer (string * Z)) :=
  let* info := get_local_identity_info in
  match signing_owner info with
  | None => ret (Err (card "Local identity key not initialized." "Cannot sign the participant change."
                        "The current session participant remains unchanged."
                        "Complete First Flight identity setup, then retry."))
  | Some owner =>
      let* keys := mcatch (let* k := load_owner_key in
                           let* x := in_keychain (load_x25519_private_key profile) in
                           let* v := vault in
                           ret (Ok (k, x, v)))
        (fun e => ret (Err (card_with (err_text e) "Failed to load private identity keys."
                              "Cannot sign or encrypt the participant change."
                              "The current session participant remains unchanged."
                              "Check profile permissions and keychain access."))) in
      match keys with
      | Err e => ret (Err e)
      | Ok (k, x, v) =>
          with_connection (guarded
            (let* r := send_with (fun kc => tag_in_handoff v lax_int public_of_bytes private_of_bytes kc http_post
                         (owner_sender owner k x (Some relay_url)) None session_id replacement true now) in
             ret (Ok r))
            (fun e => card_with (err_text e) ("Failed to hand the session to " +:+ quoted replacement +:+ ".")
                        "The participant change was not completed."
                        "Existing session history and current participant are retained."
                        "Review the replacement agent and connectivity, then retry."))
      end
  end.

Record ContactSummary := {
  cs_contact : contact_row;
  cs_autonomy : string;
  cs_fingerprint : option string
}.

Definition contact_summary (own : bytes) (c : contact_row) : ContactSummary :=
  {| cs_contact := c; cs_autonomy := or_str (c_autonomy c) "always_ask";
     cs_fingerprint :=
       match own, c_public_key c with
       | String _ _, Some (String _ _ as h) =>
           match (b ← fromhex h; Some (compute_fingerprint wordlist own b)) with
           | Some (Ok f) => Some f
           | _ => None
           end
       | _, _ => None
       end |}.

(** [get_local_contacts_summaries] on an open database. *)
Definition contacts_summaries (t : tables) : result string (list ContactSummary) :=
  let? own := match head (identity t) with
              | Some r => match i_public_key r with
                          | Some (String _ _ as h) => match fromhex h with Some b => Ok b | None => Err "ValueError" end
                          | _ => Ok ""
                          end
              | None => Ok ""
              end in
  Ok (map (contact_summary own) (order_by (fun a b => String.leb (c_username a) (c_username b)) (contacts t))).

Definition get_local_contacts_summaries : P (list ContactSummary) :=
  if negb db_exists then ret []
  else with_connection (let* r := in_node (select contacts_summaries) in mlift r).

Definition dispatch_refusal (peer receiver_agent e : string) : RecoverableError :=
  let kept := "Draft session state preserved." in
  if String.eqb e "CapabilityMismatchError" then
    card_with (err_text e) ("Capability mismatch with agent " +:+ quoted receiver_agent +:+ ".")
      "Session dispatch declined by agent capability rules." kept
      "Select a compatible agent or review agent capabilities."
  else if String.eqb e "StalePeerCardError" then
    card_with (err_text e) ("Peer card for " +:+ quoted peer +:+ " is stale.")
      "Session dispatch blocked until peer card is reviewed." kept
      "Review the peer card in Network before retrying."
  else if String.eqb e PantryValidationError then
    card (err_text e) "Session was not dispatched with unreviewed or expired context."
      "The draft and local references remain local."
      "Review each shared context item, remove expired items, and retry."
  else if str_in e VALUE_ERRORS then
    card_with (err_text e) ("Invalid session parameter: " +:+ err_text e) "Session request failed validation." kept
      "Check collaboration type and turn limit parameters."
  else
    card_with (err_text e) "Unexpected error during session dispatch." "Outbound dispatch failed." kept
      "Check connection and try again.".

Definition dispatch_new_session (peer sender_agent receiver_agent session_type goal : string)
    (max_turns : option Z) (pantry_items : list PantryItemSpec) (now : Z) : P (answer (string * string)) :=
  let* contacts := get_local_contacts_summaries in
  if negb (str_in peer (map (fun c => c_username (cs_contact c)) contacts)) then
    ret (Err (card ("Peer " +:+ quoted peer +:+ " is not a verified contact.")
                "Cannot dispatch session to an unverified contact." "Draft session state preserved."
                "Verify peer identity via Network tab or kin pair first."))
  else
    let* info := get_local_identity_info in
    match signing_owner info with
    | None => ret (Err (card "Local identity key not initialized." "Cannot sign outbound session request."
                          "Draft session state preserved." "Run First Flight setup to generate identity key."))
    | Some owner =>
        with_sending_keys "Cannot encrypt or sign dispatch payload." "Draft session state preserved."
          (fun v k x => guarded
            (let* pack := in_node (select (build_reviewed_context_pack v from_iso read_file pantry_items now)) in
             let* pack := mlift pack in
             let* r := send_with (fun kc => dispatch_session v lax_int public_of_bytes private_of_bytes
                         kc http_post http_get (owner_sender owner k x None)
                         {| rq_peer := peer; rq_sender_agent := sender_agent; rq_receiver_agent := receiver_agent;
                            rq_mode := session_type; rq_goal := goal; rq_max_turns := max_turns;
                            rq_runtime_budget := JNull; rq_artifact_budget := JNull; rq_cost_budget := JNull;
                            rq_context_pack := pack |} now) in
             ret (Ok r))
            (dispatch_refusal peer receiver_agent))
    end.

Definition send_human_message_to_session_action (session_id message_text : string) (now : Z) : P (answer string) :=
  if negb (truthy (strip message_text)) then
    ret (Err (card "Message text cannot be empty." "Compose action cancelled." "No changes made."
                "Enter message content before sending."))
  else
    let* info := get_local_identity_info in
    match signing_owner info with
    | None => ret (Err (card "Local identity key not initialized." "Cannot sign outbound session message."
                          "Draft content preserved in modal." "Run First Flight setup to generate identity key."))
    | Some owner =>
        with_sending_keys "Cannot encrypt or sign outbound message." "Draft content preserved in modal."
          (fun v k x => guarded
            (let* row := in_node (select (find_session session_id)) in
             match row with
             | None => ret (Err (card ("Session " +:+ quoted session_id +:+ " not found.")
                                   "Cannot send message to non-existent session." "No changes made."
                                   "Select a valid active session."))
             | Some r =>
                 let sd := owner_sender owner k x (Some relay_url) in
                 let text := strip message_text in
                 let* st :=
                   if str_in (s_status r) ["peer_review"; "needs_clarification"] then
                     let* res := send_with (fun kc => respond_to_session v lax_int public_of_bytes private_of_bytes kc
                                   http_post sd session_id "clarify" None (Some text) now) in
                     ret res.1
                   else
                     send_with (fun kc => send_session_message v lax_int public_of_bytes private_of_bytes kc
                       http_post sd session_id QUESTION [("message", JStr text); ("question", JStr text)] None now) in
                 if String.eqb st "failed" then
                   ret (Err (card "Failed to deliver message to peer."
                               "Outbound message delivery failed (peer endpoint unreachable & relay queue failed)."
                               "Message saved locally in draft state."
                               "Check network connectivity and peer endpoint."))
                 else ret (Ok st)
             end)
            (fun e => card_with (err_text e) "Error sending session message." "Outbound message failed."
                        "Draft content preserved." "Check logs and try again."))
    end.

(** The private note a row holds; [None] when it has no text to promote. *)
Definition is_note (note_event_id session_id : string) (r : event_row) : bool :=
  String.eqb (e_id r) note_event_id && String.eqb (e_session r) session_id
  && String.eqb (e_kind r) (enum_value PRIVATE_NOTE) && String.eqb (e_visibility r) "local_only".

Definition note_payload (vault_key : bytes) (r : event_row) : result string json :=
  let? text := decrypt_field vault_key (e_payload r) in
  match text with
  | None | Some "" => Ok (JObj [])
  | Some t => match json_loads t with Some v => Ok v | None => Err "JSONDecodeError" end
  end.

Definition note_content (payload : json) : option string :=
  match payload with
  | JObj d => match obj_get "content" d with Some (JStr s) => Some s | _ => None end
  | _ => None
  end.

Definition promote_private_note_to_peer_visible (session_id note_event_id : string) (now : Z) : P (answer unit) :=
  when_db (card "Database file not found." "Cannot promote private note." "The note remains local-only."
             "Initialize profile first.") (
    let* key := mcatch (let* k := vault in ret (Ok k))
      (fun e => ret (Err (card ("Failed to access private-note encryption key: " +:+ err_text e)
                            "Nothing was sent to the peer." "The original note remains local-only."
                            "Unlock the profile keychain and retry promotion."))) in
    match key with
    | Err e => ret (Err e)
    | Ok vault_key =>
        let* text := with_connection (guarded
          (let* row := in_node (select (fun t => find_first (is_note note_event_id session_id) (session_events t))) in
           match row with
           | None => ret (Err (card ("Private note " +:+ quoted note_event_id +:+ " not found.")
                                 "Nothing was sent to the peer." "Local session history remains unchanged."
                                 "Refresh the Notes lane and select an existing note."))
           | Some r =>
               let* payload := mlift (note_payload vault_key r) in
               match note_content payload with
               | Some s => if truthy (strip s) then ret (Ok s)
                           else ret (Err (card ("Private note " +:+ quoted note_event_id +:+ " has no promotable text.")
                                            "Nothing was sent to the peer." "The note remains local-only."
                                            "Create a new non-empty private note."))
               | None => ret (Err (card ("Private note " +:+ quoted note_event_id +:+ " has no promotable text.")
                                     "Nothing was sent to the peer." "The note remains local-only."
                                     "Create a new non-empty private note."))
               end
           end)
          (fun e => card ("Failed to read private note: " +:+ err_text e) "Nothing was sent to the peer."
                      "The note remains local-only." "Refresh the Notes lane and retry.")) in
        match text with
        | Err e => ret (Err e)
        | Ok s =>
            let* sent := send_human_message_to_session_action session_id (strip s) now in
            match sent with Ok _ => ret (Ok tt) | Err e => ret (Err e) end
        end
    end).

(** ** Records of the history *)

(** The commands that open the database and run one operation. *)
Definition recorded {A B} (missing : RecoverableError) (handler : string -> RecoverableError)
    (run : bytes -> N A) (out : A -> B) : P (answer B) :=
  when_db missing (with_connection (guarded
    (let* v := vault in
     let* a := in_node (run v) in
     ret (Ok (out a))) handler)).

Definition create_session_checkpoint (session_id created_by label : string) : P (answer unit) :=
  recorded (card "Database file not found." "Checkpoint was not created." "Session history remains unchanged."
              "Initialize the profile first.")
    (fun e => card ("Failed to create checkpoint: " +:+ err_text e) "No checkpoint was added."
                "Existing session evidence remains intact." "Refresh the Arena and retry.")
    (fun v => create_checkpoint v session_id created_by label None) (fun _ => tt).

Definition create_session_decision (session_id decided_by summary : string) : P (answer unit) :=
  recorded (card "Database file not found." "Decision was not recorded." "Session history remains unchanged."
              "Initialize the profile first.")
    (fun e => card ("Failed to record decision: " +:+ err_text e) "No decision was added."
                "Existing session evidence remains intact." "Refresh the Arena and retry.")
    (fun v => create_decision v session_id decided_by summary "" None) (fun _ => tt).

Definition create_fresh_session_rerun (source_session_id created_by : string) : P (answer string) :=
  recorded (card "Database file not found." "Rerun draft was not created." "Source session remains unchanged."
              "Initialize the profile first.")
    (fun e => card ("Failed to create fresh-authority rerun: " +:+ err_text e) "No rerun draft was created."
                "Source session and approvals remain unchanged." "Refresh the Arena and retry.")
    (fun v => create_fresh_authority_rerun v source_session_id created_by None None) fr_rerun.

Definition create_session_playbook (session_id name : string) (now : Z) : P (answer string) :=
  recorded (card "Database file not found." "Playbook was not created." "Session outcome remains unchanged."
              "Initialize the profile first.")
    (fun e => card ("Playbook creation failed: " +:+ err_text e) "No reusable template was created."
                "Session history and authority remain unchanged."
                "Create a playbook only after a completed outcome is available.")
    (fun v => create_playbook_from_session v lax_int lax_bool session_id name now) py_id.

(** ** Agents and peer cards *)

Definition toggle_local_agent_enabled (agent_id : string) (enabled : bool) : P (answer unit) :=
  recorded (card ("Database for profile " +:+ quoted profile +:+ " not found.") "Cannot toggle agent status."
              "Local files intact." "Run First Flight setup first.")
    (fun e => card ("Failed to toggle agent " +:+ quoted agent_id +:+ ": " +:+ err_text e)
                "Agent availability state unchanged." "Agent card definition safe."
                "Check keyring status or vault key access.")
    (fun v => set_enabled lax_int webhook_secret is_dir agent_id enabled (Some profile) (Some v)) (fun _ => tt).

Definition review_peer_card_staleness (peer agent_id : string) : P bool :=
  if db_exists then with_connection (in_node (mark_reviewed peer agent_id) ;;; ret true) else ret false.
End commands.

(** ** Artifacts *)

(** The profile and the disk. *)
Record owner_state := { os_profile : profile_state; os_disk : disk }.

Abbreviation O := (M owner_state string).

Definition on_profile {A} (m : P A) : O A :=
  fun s => let '(r, p) := m (os_profile s) in (r, {| os_profile := p; os_disk := os_disk s |}).
Definition on_world {A} (m : W A) : O A :=
  fun s => let '(r, w) := m {| w_node := p_node (os_profile s); w_disk := os_disk s |} in
           (r, {| os_profile := {| p_node := w_node w; p_keys := p_keys (os_profile s) |}; os_disk := w_disk w |}).

(** The two actions on an artifact and the words of their refusals. *)
Record artifact_action := {
  aa_rejected : string;
  aa_path : string;
  aa_config : string;
  aa_permission : string;
  aa_invalid : string;
  aa_invalid_next : string
}.

Definition import_action : artifact_action :=
  {| aa_rejected := "Import rejected for session boundary security.";
     aa_path := "Import halted to prevent path traversal.";
     aa_config := "Import halted because agent adapter has no workspace working directory.";
     aa_permission := "Import action requires prior owner approval.";
     aa_invalid := "Artifact file format invalid."; aa_invalid_next := "Verify artifact content." |}.
Definition patch_action : artifact_action :=
  {| aa_rejected := "Patch apply rejected for session boundary security.";
     aa_path := "Patch application halted to prevent path traversal.";
     aa_config := "Patch application halted because agent adapter has no workspace working directory.";
     aa_permission := "Patch application action requires prior owner approval.";
     aa_invalid := "Target file content does not match patch context or deletion lines.";
     aa_invalid_next := "Ensure target file is not stale or drifted." |}.

Section artifacts.
Context `{NodeEnv} `{Clock} `{LatestRow}.
Context (lax_int : json -> option Z) (safe_load : string -> option json).
Context (realpath : path -> path) (cwd : path) (fault : nat -> option nat) (pid : string).
Context (unified_diff : list string -> list string -> string).
Context (kr : backend) (urandom32 : nat -> bytes) (profile : string).
(** The agents directory and [profile_dir / "workspace"]; [str(exc)] and the
    traceback. *)
Context (db_exists : bool) (agents_dir : CardFiles.directory) (profile_workspace : string).
Context (err_text : string -> string) (traceback : string -> string).

Definition get_agent_card_by_id (agent_id : string) : option AgentCard :=
  find_first (fun c => String.eqb (card_id c) agent_id)
    (valid_cards (scan_local_cards lax_int safe_load agents_dir (Some profile))).

(** [convert_exception_to_recoverable_error] of [kin/tui/errors.py]. *)
Definition convert_exception (e : string) : RecoverableError :=
  {| what_happened := redact_text ("Unexpected " +:+ e +:+ ": "
       +:+ or_str (Some (err_text e)) "An unexpected runtime error occurred.");
     impact := "The current operation was safely interrupted.";
     preserved := "All previous session state and storage items remain intact.";
     next_action := "Press 'r' to retry operation or check diagnostics.log for technical details.";
     technical_detail := Some (redact_text (traceback e)) |}.

Definition artifact_refusal (a : artifact_action) (e : string) : RecoverableError :=
  let intact := "Target workspace remains intact." in
  if String.eqb e UnsafePath then
    card ("Unsafe Workspace Path Error: " +:+ err_text e) (aa_path a) intact
      "Provide a valid relative target path inside the workspace root."
  else if String.eqb e "WorkspaceNotConfiguredError" then
    card ("Workspace Not Configured Error: " +:+ err_text e) (aa_config a) intact
      "Configure local_command adapter working_directory."
  else if String.eqb e "WorkspaceWritePermissionDeniedError" then
    card ("Workspace Write Permission Denied: " +:+ err_text e) (aa_permission a) intact
      "Submit an approval decision in the Needs-You queue first."
  else if String.eqb e InvalidPatchArtifact then
    card ("Invalid Patch Artifact Error: " +:+ err_text e) (aa_invalid a) intact (aa_invalid_next a)
  else convert_exception e.

(** The body both actions share: the artifact belongs to the session, the
    agent that offered it has a card here, and then the writing operation. *)
Definition artifact_command (a : artifact_action) (write : bytes -> AgentCard -> option string -> string -> W path)
    (session_id artifact_id : string) (workspace_root : option string) (now : Z) : O (answer unit) :=
  if negb db_exists then
    ret (Err (card "Database not found" "Cannot verify artifact session ownership."
                "No workspace files modified." "Ensure profile database exists."))
  else
    mfinally (mcatch
      (let* row := on_profile (in_node (select (find_artifact artifact_id))) in
       match row with
       | Some r =>
           if negb (String.eqb (ar_session r) session_id) then
             ret (Err (card ("Artifact ownership mismatch: " +:+ quoted artifact_id +:+ " does not belong to session "
                             +:+ quoted session_id +:+ ".") (aa_rejected a) "No workspace files modified."
                         "Select an artifact belonging to the active session."))
           else
             let agent := or_str (Some (ar_offered_by r)) "unknown_agent" in
             match get_agent_card_by_id agent with
             | None => ret (Err (card ("Agent card not found for offering agent " +:+ quoted agent +:+ ".")
                                   "Cannot confirm this action is authorized." "No workspace files modified."
                                   ("Ensure the offering agent's card for " +:+ quoted agent
                                    +:+ " is registered in profile agents directory.")))
             | Some c =>
                 let* v := on_profile (in_keychain (get_or_create_vault_key kr urandom32 profile)) in
                 on_world (write v c (Some (or_str workspace_root profile_workspace)) (zulu now)) ;;;
                 ret (Ok tt)
             end
       | None =>
           ret (Err (card ("Artifact ownership mismatch: " +:+ quoted artifact_id +:+ " does not belong to session "
                           +:+ quoted session_id +:+ ".") (aa_rejected a) "No workspace files modified."
                       "Select an artifact belonging to the active session."))
       end)
      (fun e => ret (Err (artifact_refusal a e))))
      (on_profile (in_node rollback)).

Definition import_artifact_action (session_id artifact_id relative_target_path : string)
    (workspace_root : option string) (now : Z) : O (answer unit) :=
  artifact_command import_action
    (fun v c root now_iso => import_artifact_to_workspace v realpath cwd fault pid c session_id artifact_id root
                               relative_target_path now_iso)
    session_id artifact_id workspace_root now.

Definition apply_patch_action (session_id artifact_id relative_target_path : string)
    (workspace_root : option string) (now : Z) : O (answer unit) :=
  artifact_command patch_action
    (fun v c root now_iso => apply_patch_to_workspace v realpath cwd fault pid unified_diff c session_id
                               artifact_id root relative_target_path now_iso)
    session_id artifact_id workspace_root now.

(** Read only. *)
Definition preview_patch_action (artifact_id relative_target_path : string) (workspace_root : option string)
  : O (answer WorkspacePatchPreview) :=
  if negb db_exists then
    ret (Err (card "Database not found" "Cannot load artifact." "No workspace files modified."
                "Ensure profile DB exists."))
  else
    mfinally (mcatch
      (let* v := on_profile (in_keychain (get_or_create_vault_key kr urandom32 profile)) in
       let root := absolute cwd (or_str workspace_root profile_workspace) in
       let* w := mgets (fun s => {| w_node := p_node (os_profile s); w_disk := os_disk s |}) in
       let* p := mlift (preview_patch_apply v realpath unified_diff artifact_id root relative_target_path w) in
       ret (Ok p))
      (fun e => ret (Err (card ("Patch preview error: " +:+ err_text e) "Cannot generate patch preview."
                            "No workspace files modified." "Check patch artifact format."))))
      (on_profile (in_node rollback)).
End artifacts.

(** ** Commands without a key *)

Lemma returns_finally {S E A} (Q : A -> Prop) (m : M S E A) f : returns Q m -> returns Q (mfinally m f).
Proof.
  intros Hm s a s'. unfold mfinally. specialize (Hm s). destruct (m s) as [[b|e] s1].
  - specialize (Hm b s1 eq_refl). destruct (f s1) as [[]  s2]; [by intros [= <- <-]|done].
  - by destruct (f s1) as [[] s2].
Qed.

Lemma returns_in_node {A} (Q : A -> Prop) (m : N A) : returns Q m -> returns Q (in_node m).
Proof.
  intros Hm s a s'. unfold in_node. specialize (Hm (p_node s)). destruct (m (p_node s)) as [r n].
  intros [= -> _]. by eapply Hm.
Qed.

Lemma triple_finally {S E A} (P : S -> Prop) (m : M S E A) (f : M S E unit) Q X Y :
  triple P m Q X -> (forall a, triple (Q a) f (fun _ => Y) Y) -> triple X f (fun _ => Y) Y ->
  triple P (mfinally m f) (fun _ => Y) Y.
Proof.
  intros Hm Hq Hx s Hs. specialize (Hm s Hs). unfold mfinally. destruct (m s) as [[a|e] s1].
  - specialize (Hq a s1 Hm). by destruct (f s1) as [[] s2].
  - specialize (Hx s1 Hm). by destruct (f s1) as [[] s2].
Qed.

(** No connection is open: the database of the profile is [t]. *)
Definition closed (t : tables) (s : profile_state) : Prop :=
  db (p_node s) = t /\ committed (p_node s) = t.

Definition stays (t : tables) {A} (m : P A) : Prop := triple (closed t) m (fun _ => closed t) (closed t).

Lemma stays_bind t {A B} (m : P A) (k : A -> P B) : stays t m -> (forall a, stays t (k a)) -> stays t (bind m k).
Proof. intros Hm Hk. eapply triple_bind; [exact Hm|exact Hk]. Qed.
Lemma stays_ret t {A} (a : A) : stays t (ret a).
Proof. by apply triple_ret. Qed.
Lemma stays_raise t {A} e : stays t (mraise e : P A).
Proof. by apply triple_raise. Qed.
Lemma stays_catch t {A} (m : P A) h : stays t m -> (forall e, stays t (h e)) -> stays t (mcatch m h).
Proof. intros Hm Hh. eapply triple_catch; [exact Hm|exact Hh]. Qed.
Lemma stays_keychain t {A} (m : K A) : stays t (in_keychain m).
Proof. intros s Hs. unfold in_keychain. by destruct (m (p_keys s)) as [[] k]. Qed.
Lemma stays_select t {A} (f : tables -> A) : stays t (in_node (select f)).
Proof. by intros s Hs. Qed.
Lemma stays_node_raise t {A} e : stays t (in_node (mraise e : N A)).
Proof. by intros s Hs. Qed.
Lemma stays_rollback t : stays t (in_node rollback).
Proof. intros s [Hd Hc]. by split. Qed.
Lemma stays_connection t {A} (m : P A) : stays t m -> stays t (with_connection m).
Proof.
  intros Hm. eapply triple_finally; [exact Hm|intros a; apply stays_rollback|apply stays_rollback].
Qed.

Create HintDb stays discriminated.
#[export] Hint Resolve stays_ret stays_raise stays_keychain stays_select stays_node_raise stays_rollback : stays.
Ltac solve_stays :=
  repeat match goal with
  | |- stays _ (bind _ _) => apply stays_bind; [|intros ?]
  | |- stays _ (mcatch _ _) => apply stays_catch; [|intros ?]
  | |- stays _ (with_connection _) => apply stays_connection
  | |- stays _ (match ?x with _ => _ end) => destruct x
  | |- stays _ (let _ := _ in _) => cbv zeta
  | |- stays _ _ => solve [auto 2 with stays]
  end.

Section control_props.
Context `{NodeEnv} `{Jcs} `{Clock}.
Context (kr : backend) (urandom32 : nat -> bytes) (profile : string) (db_exists : bool) (err_text : string -> string).

Lemma identity_info_stays t b : stays t (get_local_identity_info profile b).
Proof. unfold get_local_identity_info. solve_stays. Qed.

#[local] Hint Resolve identity_info_stays : stays.

Lemma control_fails c sid reason now :
  returns (fun r => r <> Ok tt) (run_control kr urandom32 profile db_exists err_text c sid reason now).
Proof.
  unfold run_control, when_db. destruct db_exists; [|by apply returns_ret].
  apply returns_after. intros info. apply returns_after. intros v. apply returns_finally.
  apply returns_catch; [|by intros e; apply returns_ret].
  apply returns_after. intros [r|]; [|by apply returns_ret].
  destruct (str_in (s_status r) FINISHED); [by apply returns_ret|].
  apply (returns_bind (fun _ => False)); [|done]. apply returns_in_node, returns_raise.
Qed.

Lemma control_stays t c sid reason now :
  stays t (run_control kr urandom32 profile db_exists err_text c sid reason now).
Proof. unfold run_control, when_db, guarded, vault, transport_call. solve_stays. Qed.

End control_props.

(** ** Notes *)

Section note_props.
Context `{NodeEnv} `{Jcs} `{Clock}.
Context (kr : backend) (urandom32 : nat -> bytes) (profile : string) (db_exists : bool) (err_text : string -> string).

Lemma export_ignores_note key sid fmt new row t :
  e_visibility row = "local_only" ->
  export_session key sid fmt false (set_audit (fun l => l ++ new) (set_events (fun l => l ++ [row]) t))
  = export_session key sid fmt false t.
Proof.
  intros Hv. unfold export_session. set (t' := set_audit _ _).
  change (find_session sid t') with (find_session sid t). destruct (find_session sid t); [|done].
  rewrite !export_events_hides, !by_order_filter.
  replace (List.filter _ (events_of sid t')) with (List.filter (fun r => negb (private_row key r)) (events_of sid t)); [done|].
  unfold events_of, t'. cbn. rewrite !List.filter_app. cbn [List.filter].
  destruct (String.eqb (e_session row) sid); cbn [List.filter]; [|by rewrite app_nil_r].
  unfold private_row at 3. rewrite Hv. cbn. by rewrite app_nil_r.
Qed.

(** [t'] is [t] with one note of the session and audit records. *)
Definition note_added (key : bytes) (sid actor note_text : string) (t t' : tables) : Prop :=
  exists row new, t' = set_audit (fun l => l ++ new) (set_events (fun l => l ++ [row]) t) /\
    is_note (e_id row) sid row = true /\ e_actor row = strip actor /\
    decrypt_field key (e_payload row) = Ok (payload_text (Some (JObj [("content", JStr (strip note_text))]))).

Definition uncommitted (t : tables) (s : profile_state) : Prop := committed (p_node s) = t.

Lemma append_note_effect key sid actor note_text t :
  triple (closed t)
    (in_node (append_session_event key sid (strip actor) None (enum_value PRIVATE_NOTE) "local_only"
       (Some (JObj [("content", JStr (strip note_text))])) None None))
    (fun r s => committed (p_node s) = db (p_node s) /\
       exists id o, r = Appended id o /\ note_added key sid actor note_text t (db (p_node s)))
    (uncommitted t).
Proof.
  intros s [Hd Hc]. unfold in_node. destruct (append_session_event _ _ _ _ _ _ _ _ _ (p_node s)) as [r n] eqn:Ea.
  change (append_session_event _ _ _ _ _ _ _ _ _ (p_node s)) with
    (insert_event key sid (strip actor) None (enum_value PRIVATE_NOTE) "local_only"
       (Some (JObj [("content", JStr (strip note_text))])) None None (p_node s)) in Ea.
  apply insert_event_effect in Ea as [(e & -> & Hc' & _)|(row & Hw & _ & [(-> & Hc' & new & Hd')|(e & -> & Hc' & _)])];
    unfold uncommitted; cbn; [congruence| |congruence].
  split; [done|]. eexists _, _. split; [reflexivity|]. exists row, new. rewrite Hd', Hd.
  destruct Hw as (Hs & Hact & _ & Hk & Hv & _ & _ & _ & Hp). split_and!; try done.
  unfold is_note. by rewrite Hs, Hk, Hv, !String.eqb_refl.
Qed.

Lemma closed_uncommitted t s : closed t s -> uncommitted t s.
Proof. by intros []. Qed.

(** What is left when the connection of a note command is closed. *)
Definition noted (sid actor note_text : string) (t : tables) (r : answer unit) (s : profile_state) : Prop :=
  match r with
  | Ok _ => committed (p_node s) = db (p_node s) /\ exists key, note_added key sid actor note_text t (db (p_node s))
  | Err _ => closed t s
  end.

Lemma guarded_note (m : P (answer unit)) handler sid actor note_text t :
  triple (closed t) m (fun r s => match r with Ok _ => noted sid actor note_text t r s | Err _ => uncommitted t s end)
    (uncommitted t) ->
  triple (closed t) (with_connection (guarded m handler)) (noted sid actor note_text t) (closed t).
Proof.
  intros Hm s Hs. specialize (Hm s Hs). unfold with_connection, mfinally, guarded, mcatch.
  destruct (m s) as [[[a|e]|e] s1]; unfold noted, closed, uncommitted in *; cbn in *.
  - destruct Hm as [Hc Hn]. by rewrite Hc.
  - done.
  - done.
Qed.

Lemma vault_stays t : stays t (vault kr urandom32 profile).
Proof. apply stays_keychain. Qed.

Lemma note_triple sid actor note_text t :
  triple (closed t) (create_private_note kr urandom32 profile db_exists err_text sid actor note_text)
    (noted sid actor note_text t) (closed t).
Proof.
  unfold create_private_note, when_db.
  destruct (negb (truthy (strip note_text))); [by apply triple_ret|].
  destruct (negb (truthy (strip actor))); [by apply triple_ret|].
  destruct db_exists; [|by apply triple_ret].
  apply (triple_bind _ _ (fun _ => closed t)).
  { apply (triple_catch _ _ _ _ (closed t)); [|intros e; by apply triple_ret].
    apply (stays_bind t); [apply vault_stays|intros k; apply stays_ret]. }
  intros [key|e]; [|by apply triple_ret]. apply guarded_note.
  apply (triple_bind _ _ (fun _ => closed t)).
  { intros s1 Hs1. exact Hs1. }
  intros known. destruct (negb known); [by apply triple_ret; apply closed_uncommitted|].
  eapply triple_bind; [apply append_note_effect|]. intros r s [Hc (id & o & -> & Hn)]. cbn. eauto.
Qed.

End note_props.

(** ** Artifacts *)

Section artifact_props.
Context `{NodeEnv} `{Clock} `{LatestRow}.
Context (lax_int : json -> option Z) (safe_load : string -> option json).
Context (realpath : path -> path) (cwd : path) (fault : nat -> option nat) (pid : string).
Context (unified_diff : list string -> list string -> string).
Context (kr : backend) (urandom32 : nat -> bytes) (profile : string).
Context (db_exists : bool) (agents_dir : CardFiles.directory) (profile_workspace : string).
Context (err_text : string -> string) (traceback : string -> string).

(** An artifact command works on an artifact of the session it names and for
    an agent that has a valid card in the profile under the name in
    [offered_by]; it then runs the writing operation once, on the disk it
    found, and answers as that ended.  In every other case the disk is as it
    was and the command refuses: it never raises. *)
Theorem artifact_command_gated a write sid aid root now s :
  let '(r, s') := artifact_command lax_int safe_load kr urandom32 profile db_exists agents_dir profile_workspace
                    err_text traceback a write sid aid root now s in
  (os_disk s' = os_disk s /\ exists e, r = Ok (Err e)) \/
  exists row c key out w,
    find_artifact aid (db (p_node (os_profile s))) = Some row /\ ar_session row = sid /\
    get_agent_card_by_id lax_int safe_load profile agents_dir (or_str (Some (ar_offered_by row)) "unknown_agent") = Some c /\
    write key c (Some (or_str root profile_workspace)) (zulu now)
      {| w_node := p_node (os_profile s); w_disk := os_disk s |} = (out, w) /\
    os_disk s' = w_disk w /\
    r = Ok (match out with Ok _ => Ok tt | Err e => Err (artifact_refusal err_text traceback a e) end).
Proof.
  unfold artifact_command. destruct db_exists; [|unfold ret; cbn; apply or_introl; eauto].
  unfold mfinally, mcatch. unfold bind at 1, on_profile at 1, in_node at 1, select at 1, mgets at 1.
  cbn [os_profile p_keys p_node os_disk negb].
  destruct (find_artifact aid _) as [row|] eqn:Ef; [|unfold ret; cbn; apply or_introl; eauto].
  destruct (String.eqb (ar_session row) sid) eqn:Es; cbn [negb]; [|unfold ret; cbn; apply or_introl; eauto]. apply String.eqb_eq in Es.
  cbv zeta. destruct (get_agent_card_by_id _ _ _ _ _) as [c|] eqn:Ec; [|unfold ret; cbn; apply or_introl; eauto].
  unfold bind at 1, on_profile at 1, in_keychain at 1. cbn [os_profile p_keys p_node os_disk].
  destruct (get_or_create_vault_key _ _ _ _) as [[v|e] k]; [|unfold ret; cbn; apply or_introl; eauto].
  unfold bind at 1, on_world at 1. cbn [os_profile p_keys p_node os_disk].
  destruct (write _ _ _ _ _) as [out w] eqn:Ew.
  destruct out; cbn; right; exists row, c, v. all: eexists _, w; split_and!; try done; exact Ew.
Qed.
End artifact_props.

Module OwnerDemo.
Import AuditDemo SchemaDemo.
#[local] Existing Instances demo_env demo_jcs demo_ed IngestDemo.demo_clock ApprovalDemo.demo_latest.

(** The profile of Bob, who received the session s1 from Alice. *)
Definition start : profile_state := {| p_node := demo_node; p_keys := KeychainDemo.fresh |}.

Definition control_of (c : control) (s : profile_state) : result string (answer unit) * profile_state :=
  run_control KeychainDemo.os_backend (fun _ => "vault") "bob" true id c "s1" None 0 s.

(** The session is running and can not be paused. *)
Example pause_refused :
  match (control_of pause_control start).1 with
  | Ok (Err r) => impact r = "Session state transition failed."
  | _ => False
  end.
Proof. vm_compute. reflexivity. Qed.


Definition note (text : string) : result string (answer unit) * profile_state :=
  create_private_note KeychainDemo.os_backend (fun _ => "vault") "bob" true id "s1" " bob " text start.

Example note_stored :
  (note " remember ").1 = Ok (Ok tt) /\
  map (fun r => (e_actor r, e_visibility r)) (session_events (committed (p_node (note " remember ").2))) = [("bob", "local_only")] /\
  match (note "  ").1 with Ok (Err _) => True | _ => False end.
Proof. vm_compute. split_and!; reflexivity. Qed.


(** A contact that was never verified passes the check of [dispatch_new_session]:
    the refusal is about the missing identity key. *)
Definition unverified : contact_row :=
  {| c_username := "mallory"; c_public_key := None; c_x25519 := None; c_endpoint := None; c_autonomy := None;
     c_verified_at := None |}.
Definition with_contacts (l : list contact_row) : profile_state :=
  let t := set_contacts (fun _ => l) demo_tables in
  {| p_node := {| db := t; committed := t; tick := 0 |}; p_keys := KeychainDemo.fresh |}.

Definition dispatch_to_mallory (l : list contact_row) : option string :=
  match (@dispatch_new_session demo_env demo_jcs demo_ed IngestDemo.demo_clock IdentityDemo.demo_x
           (fun _ => None) (fun _ => None) (fun _ => None) Some Some (fun _ _ _ => Responded 200 "")
           (fun _ _ _ => Responded 200 "") [] KeychainDemo.os_backend (fun _ => "vault") "bob" true id
           "mallory" "b1" "m1" "ask" "goal" None [] 0 (with_contacts l)).1 with
  | Ok (Err r) => Some (what_happened r)
  | _ => None
  end.

Example unverified_passes :
  dispatch_to_mallory [] = Some "Peer 'mallory' is not a verified contact." /\
  dispatch_to_mallory [unverified] = Some "Local identity key not initialized.".
Proof. vm_compute. split; reflexivity. Qed.

(** What a peer offered cannot be imported, whatever was approved: [offered_by]
    is the name of the peer and the card is looked up by the id of an agent. *)
Definition import_offered (s : profile_state) : option string :=
  match (import_artifact_action (fun _ => None) (fun _ => None) WorkspaceDemo.normal [] WorkspaceDemo.healthy "7"
           KeychainDemo.os_backend (fun _ => "vault") "bob" true None "/work" id id "s1" "art-1" "f" None 0
           {| os_profile := s; os_disk := w_disk WorkspaceDemo.approved |}).1 with
  | Ok (Err r) => Some (what_happened r)
  | _ => None
  end.

Example offered_not_importable :
  import_offered {| p_node := w_node WorkspaceDemo.approved; p_keys := KeychainDemo.fresh |}
  = Some "Agent card not found for offering agent 'alice'.".
Proof. vm_compute. reflexivity. Qed.
End OwnerDemo.
