(* ===== verification/FirstFlight.v ===== *)
(** * First Flight

    [kin/tui/first_flight.py]: the guided set-up of a profile.  Its controller
    works on the database, the keychain and the agents directory of the profile;
    every step answers with [None] or a [RecoverableError], and keeps what the
    step before it did.  The mnemonic library, the key derivation, the directory
    of the relay and the YAML parser are parameters, as in [Pairing] and
    [CardFiles]. *)

From Stdlib Require Import Ascii String ZArith Lia.
From stdpp Require Import base gmap sets list strings.
From S2P Require Import Prelude Regex Codec PyValue Schemas Cards Store AuditLog History Ingest Keychain.
From S2P Require Import Relay Identity RetryQueue Backend Tasks TaskClient Pairing CardFiles OwnerCommands.

#[local] Open Scope nat_scope.

Record flight := {
  ff_profile : profile_state;
  ff_agents : CardFiles.directory
}.

Abbreviation FF := (M flight string).

Definition on_profile {A} (m : P A) : FF A :=
  fun s => let '(r, p) := m (ff_profile s) in (r, {| ff_profile := p; ff_agents := ff_agents s |}).

Record durable_state := {
  has_identity : bool;
  durable_username : option string;
  agent_count : nat;
  contact_count : nat
}.

Definition STEP_SEQUENCE : list string :=
  ["identity"; "agent"; "relay"; "pairing"; "demo"; "guided_dispatch"; "complete"].

(** What the directory says of a contact. *)
Record prepared_contact := {
  pr_username : string;
  pr_public_key : string;
  pr_x25519 : json;
  pr_endpoint : json
}.

(** [" ".join(value.strip().lower().split())]. *)
Definition normalize (value : string) : string := String.concat " " (split_words (lower (strip value))).

Section first_flight.
Context `{NodeEnv} `{X25519}.
Context (mnemonic_check : string -> bool) (to_seed : string -> bytes) (generate : nat -> string).
Context (hkdf : string -> bytes -> bytes) (ed_raw_public : bytes -> bytes).
Context (wordlist : list string) (kr : backend) (profile : string).
Context (http_get : nat -> string -> list (string * string) -> http_result).
Context (number_text : json -> string) (relay_url : string) (err_text : string -> string).
Context (lax_int : json -> option Z) (safe_load : string -> option json).
(** [random.sample(range(12), 2)], sorted. *)
Context (sample : nat -> list Z).

(** ** Where to start *)

Definition check_durable_state : FF durable_state :=
  let* found := on_profile (with_connection (
    let* row := in_node (select (fun t => head (identity t))) in
    let* keyed := match row with
                  | Some _ => mcatch (in_keychain (load_private_key profile) ;;; ret true) (fun _ => ret false)
                  | None => ret false
                  end in
    let* verified := in_node (select (fun t => length (List.filter (fun c => bool_decide (c_verified_at c <> None)) (contacts t)))) in
    let* registered := in_node (select (fun t => length (agents t))) in
    ret (i_username <$> row, keyed, verified, registered))) in
  let '(username, keyed, verified, registered) := found in
  let* dir := mgets ff_agents in
  ret {| has_identity := keyed; durable_username := username;
         agent_count := registered + length (valid_cards (scan_local_cards lax_int safe_load dir None));
         contact_count := verified |}.

(** [progress.get(key, False)] as a condition. *)
Definition flag (progress : document) (key : string) : bool :=
  match obj_get key progress with Some v => json_truthy v | None => false end.

Definition start_step (d : durable_state) (progress : document) : string :=
  if negb (has_identity d) then "identity"
  else if Nat.eqb (agent_count d) 0 then "agent"
  else if negb (flag progress "relay_checked") then "relay"
  else if Nat.eqb (contact_count d) 0 && negb (flag progress "pairing_skipped") then "pairing"
  else if negb (flag progress "demo_completed") && negb (flag progress "demo_skipped") then "demo"
  else if negb (flag progress "guided_dispatch_shown") then "guided_dispatch"
  else "complete".

Definition determine_start_step (progress : document) : FF string :=
  let* d := check_durable_state in ret (start_step d progress).

(** ** The identity *)

Definition prepare_identity_creation : P (string * list Z) :=
  let* phrase := in_node (draw generate) in
  let* word_indices := in_node (draw sample) in
  ret (phrase, word_indices).

(** Both key pairs saved, then [INSERT OR REPLACE INTO identity]: the table has
    no key, so a row is added. *)
Definition commit_identity (username phrase : string) : P unit :=
  let* keys := mlift (key_pairs mnemonic_check to_seed hkdf ed_raw_public phrase) in
  save_keys kr profile keys.1.1 keys.2.1 ;;;
  with_connection (in_node (insert_identity username (hexlify keys.1.2)) ;;; in_node commit).

Definition attempt (m : P unit) (handler : string -> RecoverableError) : P (option RecoverableError) :=
  mcatch (m ;;; ret None) (fun e => ret (Some (handler e))).

Definition confirm_identity_creation (username phrase : string) (word_indices : list Z) (user_words : list string)
  : P (option RecoverableError) :=
  if negb (verify_phrase_confirmation phrase word_indices user_words) then
    ret (Some (card "Recovery phrase confirmation failed." "Identity creation was safely interrupted."
                 "No key material was stored in keychain."
                 "Re-enter the correct words or press [Retry] to generate a new phrase."))
  else
    attempt (commit_identity username phrase)
      (fun e => card ("Keychain error storing identity keys: " +:+ err_text e)
                  "Identity keys could not be persisted safely." "Profile directory remains unchanged."
                  "Verify keyring service availability and press [Retry].").

Definition restore_identity_from_mnemonic (username phrase : string) : P (option RecoverableError) :=
  if negb (Nat.eqb (length (split_words (strip phrase))) 12) then
    ret (Some (card "Invalid mnemonic format: phrase must be exactly 12 words." "Restoration aborted."
                 "Existing key storage untouched." "Re-enter a valid 12-word recovery phrase."))
  else
    attempt (commit_identity username phrase)
      (fun e => card ("Identity restoration failed: " +:+ err_text e) "Identity could not be restored."
                  "Key storage remains unchanged." "Verify mnemonic accuracy and press [Retry].").

(** ** The first agent *)

(** The file at [card_path]: its name, and where it is. *)
Definition connect_agent_card (card_path name : string) (src : source_file) : FF (option RecoverableError) :=
  let* dir := mgets ff_agents in
  match source_content src dir with
  | None => ret (Some (card ("Agent card file not found at " +:+ quoted card_path +:+ ".") "Agent connection aborted."
                         "Agent registry remains intact." "Verify file path and press [Retry]."))
  | Some text =>
      let after := <[name := text]> (default ∅ dir) in
      mmodify (fun s => {| ff_profile := ff_profile s;
                           ff_agents := Some (match src with Inside _ => default ∅ dir | Outside _ => after end) |}) ;;;
      let* dir' := mgets ff_agents in
      match load_card_file lax_int safe_load (d ← dir'; d !! name) None (Some profile) with
      | Ok _ => ret None
      | Err e => ret (Some (card ("Invalid agent card: " +:+ err_text e)
                              "Agent card could not be imported into registry."
                              "Existing registered cards are untouched."
                              "Fix YAML schema errors in agent card and press [Retry]."))
      end
  end.

(** ** The relay and the first contact *)

Definition check_relay_reachability_status : P (answer unit) :=
  let* resp := in_node (draw (fun n => http_get n (relay_url +:+ "/directory/lookup/__health_probe__") [])) in
  ret (match resp with
       | Responded code _ =>
           if ((code =? 200) || (code =? 204) || (code =? 404))%Z then Ok tt
           else Err (card ("Relay daemon error (HTTP status " +:+ print_int code +:+ ").")
                       "Peer discovery and relay routing unavailable."
                       "Local identity and agent registry remain functional."
                       "Check relay daemon logs or press [Skip] to work offline.")
       | RequestError m => Err (card ("Relay unreachable at " +:+ quoted relay_url +:+ ": " +:+ m)
                                  "Peer messaging operating in offline mode." "Local storage unaffected."
                                  "Start local relay or press [Skip] to proceed.")
       end).

(** The directory entry: the key, the encryption key and the endpoint. *)
Definition looked_up (text : string) : result string (json * json * json) :=
  let? data := json_of text in
  let? pk := subscript data "public_key" in
  let? x := subscript data "x25519_public_key" in
  let ep := match data with
            | JObj d => default (JStr "http://127.0.0.1:8321") (obj_get "endpoint" d)
            | _ => JNull
            end in
  Ok (pk, x, ep).

(** The fingerprint of the own key and the key of the directory. *)
Definition fingerprint_with (own : option string) (pk : json) : result string string :=
  let? ours := hex_bytes (match own with Some h => JStr h | None => JNull end) in
  let? theirs := hex_bytes pk in
  compute_fingerprint wordlist ours theirs.

Definition prepare_contact_pairing (contact_username : string) : P (answer (prepared_contact * string)) :=
  let* resp := in_node (draw (fun n => http_get n (relay_url +:+ "/directory/lookup/" +:+ contact_username) [])) in
  let unreachable e := card ("Error connecting to relay directory: " +:+ err_text e)
                         "Could not retrieve contact public key." "Contacts database untouched."
                         "Check relay connection and press [Retry]." in
  match resp with
  | Responded 404 _ =>
      ret (Err (card ("Contact " +:+ quoted contact_username +:+ " not found in relay directory.") "Pairing aborted."
                  "Contacts database untouched." "Verify username spelling and press [Retry]."))
  | _ =>
      match (let? text := body_of resp in looked_up text) with
      | Err e => ret (Err (unreachable e))
      | Ok (pk, x, ep) =>
          with_connection (
            let* row := in_node (select (fun t => head (identity t))) in
            match row with
            | None => ret (Err (card "No local identity initialized."
                                  "Cannot pair trusted contact without local identity."
                                  "Contacts database untouched." "Complete Identity step first."))
            | Some i =>
                match fingerprint_with (i_public_key i) pk with
                | Ok fp => ret (Ok ({| pr_username := contact_username; pr_public_key := hex_text pk;
                                       pr_x25519 := x; pr_endpoint := ep |}, fp))
                | Err e => ret (Err (card ("Failed pairing contact " +:+ quoted contact_username +:+ ": " +:+ err_text e)
                                       "Contact was not added to trusted database."
                                       "Existing contacts remain untouched."
                                       "Verify key format and press [Retry]."))
                end
            end)
      end
  end.

Definition confirm_contact_pairing (prepared : prepared_contact) (expected verified : string)
  : P (option RecoverableError) :=
  if negb (String.eqb (normalize verified) (normalize expected)) then
    ret (Some (card "Fingerprint verification did not match." "The contact was not trusted or added."
                 "Existing identity and contacts remain unchanged."
                 "Compare the complete fingerprint again over a separate trusted channel."))
  else
    attempt (with_connection (
        let* now := in_node (draw utcnow) in
        let* x := mlift (bind_text number_text (pr_x25519 prepared)) in
        let* ep := mlift (bind_text number_text (pr_endpoint prepared)) in
        in_node (execute (put_contact {| c_username := pr_username prepared;
                                         c_public_key := Some (pr_public_key prepared); c_x25519 := x;
                                         c_endpoint := ep; c_autonomy := Some "always_ask";
                                         c_verified_at := Some now |})) ;;;
        in_node commit))
      (fun e => card ("Failed pairing contact " +:+ quoted (pr_username prepared) +:+ ": " +:+ err_text e)
                  "The contact was not added to the trusted database." "Existing contacts remain untouched."
                  "Retry fingerprint verification.").

Definition pair_trusted_contact (contact_username verified_fingerprint : string)
  : P (option string * option RecoverableError) :=
  let* r := prepare_contact_pairing contact_username in
  match r with
  | Err e => ret (None, Some e)
  | Ok (prepared, fp) =>
      let* error := confirm_contact_pairing prepared fp verified_fingerprint in
      ret (Some fp, error)
  end.
End first_flight.

(** ** Trust *)

Section trust.
Context `{NodeEnv} `{X25519}.
Context (mnemonic_check : string -> bool) (to_seed : string -> bytes).
Context (hkdf : string -> bytes -> bytes) (ed_raw_public : bytes -> bytes).
Context (wordlist : list string) (kr : backend) (profile : string).
Context (http_get : nat -> string -> list (string * string) -> http_result).
Context (number_text : json -> string) (relay_url : string) (err_text : string -> string).

(** The contact whose key gives the fingerprint the owner compared. *)
Definition vouched_contact (name given fp : string) (t : tables) (c : contact_row) : Prop :=
  c_username c = name /\ c_autonomy c = Some "always_ask" /\ normalize given = normalize fp /\
  exists i h, head (identity t) = Some i /\ c_public_key c = Some h /\
    fingerprint_with wordlist (i_public_key i) (JStr h) = Ok fp.

Definition same_db (s s' : profile_state) : Prop :=
  db (p_node s') = db (p_node s) /\ committed (p_node s') = committed (p_node s).

Lemma fingerprint_text own pk fp : fingerprint_with wordlist own pk = Ok fp -> pk = JStr (hex_text pk).
Proof.
  unfold fingerprint_with. destruct (hex_bytes _); [|done]. cbn [rbind]. by destruct pk.
Qed.

(** What the directory answers is either refused, or belongs to a fingerprint
    with the own key; nothing is written. *)
Lemma prepare_pairing_run name s :
  db (p_node s) = committed (p_node s) ->
  let '(r, s') := prepare_contact_pairing wordlist http_get relay_url err_text name s in
  same_db s s' /\
  match r with
  | Ok (Ok (p, fp)) => pr_username p = name /\ exists i, head (identity (db (p_node s))) = Some i /\
      fingerprint_with wordlist (i_public_key i) (JStr (pr_public_key p)) = Ok fp
  | Ok (Err _) => True
  | Err _ => False
  end.
Proof.
  intros Hs. unfold prepare_contact_pairing, with_connection, mfinally, in_node, draw, select, mgets, rollback,
    mmodify, bind, ret, same_db. destruct s as [[d c n] k]. cbn in *. subst c.
  destruct (http_get _ _ _) as [code text|m]; [|done]. destruct (decide (code = 404)%Z) as [->|Hn]; [done|].
  assert (forall (A : Type) (a b : A), match code with 404%Z => a | _ => b end = b) as Hm.
  { intros A a b. destruct code as [|p|p]; [done| |done]. do 9 (try destruct p as [p|p|]); done. }
  rewrite !Hm. destruct (rbind _ _) as [[[pk x] ep]|e]; [|done].
  cbn. destruct (head (identity d)) as [i|]; cbn; [|done].
  destruct (fingerprint_with wordlist (i_public_key i) pk) as [fp|e] eqn:Ef; [|done]. cbn. split_and!; try done.
  exists i. split; [done|]. by rewrite <- (fingerprint_text _ _ _ Ef).
Qed.

(** C31: First Flight records trust only for the key whose fingerprint the
    owner compared: the pairing step either leaves the whole database as it was
    and names an error, or succeeds and stores exactly one contact (with the
    policy always_ask, in place of an earlier row of that name), whose signing
    key together with the own key of the profile gives the fingerprint that the
    owner's text equals up to case and blanks. *)
Theorem first_contact_needs_fingerprint name given s :
  db (p_node s) = committed (p_node s) ->
  let '(r, s') := pair_trusted_contact wordlist http_get number_text relay_url err_text name given s in
  (same_db s s' /\ exists fp e, r = Ok (fp, Some e)) \/
  (exists fp c, r = Ok (Some fp, None) /\ vouched_contact name given fp (db (p_node s)) c /\
     db (p_node s') = put_contact c (db (p_node s)) /\ committed (p_node s') = db (p_node s')).
Proof.
  intros Hs. unfold pair_trusted_contact. unfold bind at 1. pose proof (prepare_pairing_run name s Hs) as Hp.
  destruct (prepare_contact_pairing _ _ _ _ _ s) as [[[[p fp]|e]|e] s1]; destruct Hp as [[Hd Hc] Hp]; [| |done];
    [|left; cbn; split; [done|eauto]].
  destruct Hp as (Hn & i & Hi & Hf). unfold confirm_contact_pairing.
  destruct (String.eqb (normalize given) (normalize fp)) eqn:Ee; cbn [negb]; [|left; cbn; split; [done|eauto]].
  apply String.eqb_eq in Ee.
  unfold attempt, with_connection, mfinally, mcatch, in_node, draw, execute, commit, rollback, mgets, mmodify, bind, ret.
  destruct s1 as [[d1 c1 n1] k1]. cbn in *. unfold mlift.
  destruct (bind_text number_text (pr_x25519 p)) as [x|e]; [|left; cbn; unfold same_db; cbn; split_and!; [congruence|done|eauto]].
  destruct (bind_text number_text (pr_endpoint p)) as [ep|e]; [|left; cbn; unfold same_db; cbn; split_and!; [congruence|done|eauto]].
  right. cbn. eexists fp, _. split; [done|]. split; [|split; [by rewrite Hd|done]].
  unfold vouched_contact. cbn. split_and!; try done. eauto.
Qed.

(** ** A second identity *)

Definition saved_keys (keys : (bytes * bytes) * (bytes * bytes)) (k : keychain) : Prop :=
  (load_private_key profile k).1 = Ok keys.1.1 /\ (load_x25519_private_key profile k).1 = Ok keys.2.1.

Lemma save_keys_saved keys s :
  secure kr ->
  exists k, save_keys kr profile keys.1.1 keys.2.1 s = (Ok tt, {| p_node := p_node s; p_keys := k |}) /\ saved_keys keys k.
Proof.
  unfold secure. intros Hk. unfold save_keys, in_keychain, save_private_key, save_x25519_private_key, save_hex, assert_secure_backend, bind.
  rewrite Hk. cbn. eexists. split; [reflexivity|]. unfold saved_keys, load_private_key, load_x25519_private_key.
  split; unfold load_hex, get_password, bind, mgets; cbn.
  - rewrite lookup_insert_ne by (by intros [=]). by rewrite lookup_insert_eq, fromhex_hexlify.
  - by rewrite lookup_insert_eq, fromhex_hexlify.
Qed.

(** Restoring a profile with First Flight over an identity leaves it in two
    parts: the step reports success and both keys of the new phrase replace the
    old ones in the keychain, yet the identity the program reads afterwards (the
    first row) is still the old one with the old public key, since the table has
    no key to replace by and the new row only comes behind it. *)
Theorem restore_splits_identity username phrase keys i rest s :
  secure kr -> key_pairs mnemonic_check to_seed hkdf ed_raw_public phrase = Ok keys ->
  length (split_words (strip phrase)) = 12 ->
  identity (committed (p_node s)) = i :: rest -> db (p_node s) = committed (p_node s) ->
  let '(r, s') := restore_identity_from_mnemonic mnemonic_check to_seed hkdf ed_raw_public kr profile err_text
                    username phrase s in
  r = Ok None /\ saved_keys keys (p_keys s') /\
  head (identity (committed (p_node s'))) = Some i /\
  exists j, identity (committed (p_node s')) = (i :: rest) ++ [j] /\ i_username j = username /\
    i_public_key j = Some (hexlify (keys.1.2)).
Proof.
  intros Hk Hkeys Hw Hi Hs. unfold restore_identity_from_mnemonic. rewrite Hw. cbn [Nat.eqb negb].
  unfold attempt, commit_identity, mcatch. rewrite Hkeys. unfold bind at 2 3. cbn [mlift].
  unfold bind. cbn [mlift]. destruct (save_keys_saved keys s Hk) as (k & -> & Hsave). cbn. rewrite Hs, Hi.
  split_and!; try done. eexists. split_and!; reflexivity.
Qed.
End trust.

Module FirstFlightDemo.
Import AuditDemo SchemaDemo IdentityDemo PairingDemo.
#[local] Existing Instances env demo_x.

Definition pair_bob (given : string) : result string (option string * option RecoverableError) * profile_state :=
  pair_trusted_contact words (knows_bob "aa") py_str "http://relay" id "bob" given alice.

Definition shown : string := default "" (match (pair_bob "").1 with Ok (fp, _) => fp | Err _ => None end).

Example wrong_words_refused :
  match (pair_bob "").1 with Ok (Some _, Some _) => True | _ => False end /\
  contacts (committed (p_node (pair_bob "").2)) = [].
Proof. vm_compute. split; [exact I|reflexivity]. Qed.

Lemma alice_closed : db (p_node alice) = committed (p_node alice).
Proof. vm_compute. reflexivity. Qed.

Lemma first_contact_needs_fingerprint_witness :
  exists fp c, vouched_contact words "bob" (" " +:+ shown) fp (db (p_node alice)) c /\
    db (p_node (pair_bob (" " +:+ shown)).2) = put_contact c (db (p_node alice)).
Proof.
  pose proof (first_contact_needs_fingerprint words (knows_bob "aa") py_str "http://relay" id "bob" (" " +:+ shown)
    alice alice_closed) as Hp.
  change (pair_trusted_contact _ _ _ _ _ _ _ _) with (pair_bob (" " +:+ shown)) in Hp.
  rewrite (surjective_pairing (pair_bob (" " +:+ shown))) in Hp.
  destruct Hp as [[_ (fp & e & He)]|(fp & c & _ & Hv & Hd & _)]; [|exists fp, c; split; [exact Hv|exact Hd]].
  exfalso. revert He. vm_compute. discriminate.
Defined.

(** The phrase of somebody else on Alice's profile. *)
Definition other : string := "a b c d e f g h i j k l".
Definition restored : profile_state :=
  (restore_identity_from_mnemonic check id hkdf id KeychainDemo.os_backend "alice" id "carol" other alice).2.

Lemma restore_splits_identity_witness :
  (i_username <$> head (identity (committed (p_node restored)))) = Some "alice" /\
  (load_private_key "alice" (p_keys restored)).1 = Ok (hkdf "kin-ed25519-key-derivation" other).
Proof.
  destruct (identity (committed (p_node alice))) as [|i rest] eqn:Ei; [vm_compute in Ei; discriminate|].
  pose proof (restore_splits_identity check id hkdf id KeychainDemo.os_backend "alice" id "carol" other
    ((hkdf "kin-ed25519-key-derivation" other, hkdf "kin-ed25519-key-derivation" other),
     (hkdf "kin-x25519-key-derivation" other, hkdf "kin-x25519-key-derivation" other)) i rest alice) as Hr.
  rewrite (surjective_pairing (restore_identity_from_mnemonic _ _ _ _ _ _ _ _ _ _)) in Hr.
  destruct Hr as (_ & [Hp _] & Hh & _); [reflexivity|reflexivity|reflexivity|exact Ei|exact alice_closed|].
  split; [|exact Hp]. unfold restored. rewrite Hh. vm_compute in Ei. injection Ei as <- <-. reflexivity.
Defined.

(** A card that does not load has replaced the one of the same name before it
    is read. *)
Definition shelf_of (text : string) : flight :=
  {| ff_profile := alice; ff_agents := Some {["a1.yaml" := text]} |}.
Example broken_card_replaces :
  let '(r, s') := connect_agent_card "alice" id (fun _ => None) (fun _ => None) "/tmp/a1.yaml" "a1.yaml"
                    (Outside (Some "broken")) (shelf_of "good") in
  match r with Ok (Some e) => preserved e = "Existing registered cards are untouched." | _ => False end /\
  ff_agents s' = Some {["a1.yaml" := "broken"]}.
Proof. vm_compute. split; reflexivity. Qed.

Example steps_in_order :
  map (fun p => start_step {| has_identity := true; durable_username := Some "alice"; agent_count := 1; contact_count := 0 |} p)
    [[]; [("relay_checked", JBool true)]; [("relay_checked", JBool true); ("pairing_skipped", JBool true)]]
  = ["relay"; "pairing"; "demo"].
Proof. reflexivity. Qed.
End FirstFlightDemo.
