(* ===== verification/TermShell.v ===== *)
(** * The shell of the terminal interface

    The parts of [kin/tui] that keep state or decide something without a screen:
    the workspace tabs of [workspace.py], the command palette and its colon
    commands ([palette.py]), the dispatch wizard ([dispatch.py]), the terminal
    tiers of [layout.py] and the preferences of [persistence.py].  Widgets and
    drawing are not modelled. *)

From Stdlib Require Import Ascii String ZArith Lia.
From stdpp Require Import base gmap sets list strings.
From S2P Require Import Prelude Regex Codec PyValue Redaction.
From S2P Require Keychain.

#[local] Open Scope nat_scope.

(** ** Workspace tabs *)

Module Tabs.

Record WorkspaceTab := {
  tab_id : string;
  title : string;
  kind : string;
  singleton : bool;
  closeable : bool;
  dirty : bool;
  badge : option string;
  glyph : string
}.

Record WorkspaceTabManager := {
  tabs : list WorkspaceTab;
  active_tab_id : string;
  closed_tabs_stack : list WorkspaceTab
}.

(** The glyphs of the home tab and of a new tab are not ASCII. *)
Section tabs.
Context (home_glyph : string).

Definition home_tab : WorkspaceTab :=
  {| tab_id := "home"; title := "Home"; kind := "home"; singleton := true; closeable := false; dirty := false;
     badge := None; glyph := home_glyph |}.

Definition fresh_manager : WorkspaceTabManager :=
  {| tabs := [home_tab]; active_tab_id := "home"; closed_tabs_stack := [] |}.

Definition has_id (i : string) (t : WorkspaceTab) : bool := String.eqb (tab_id t) i.
Definition get_tab (i : string) (m : WorkspaceTabManager) : option WorkspaceTab := find_first (has_id i) (tabs m).

(** [self.home_tab] is the object at the head of the list. *)
Definition get_active_tab (m : WorkspaceTabManager) : WorkspaceTab :=
  match get_tab (active_tab_id m) m with
  | Some t => t
  | None => default home_tab (head (tabs m))
  end.

Fixpoint index_of (i : string) (l : list WorkspaceTab) : option nat :=
  match l with
  | [] => None
  | t :: l' => if has_id i t then Some 0 else S <$> index_of i l'
  end.

Definition active_index (m : WorkspaceTabManager) : nat := default 0 (index_of (active_tab_id m) (tabs m)).

Definition focus (i : string) (m : WorkspaceTabManager) : WorkspaceTabManager :=
  {| tabs := tabs m; active_tab_id := i; closed_tabs_stack := closed_tabs_stack m |}.

Definition add_tab (t : WorkspaceTab) (m : WorkspaceTabManager) : WorkspaceTabManager :=
  {| tabs := tabs m ++ [t]; active_tab_id := tab_id t; closed_tabs_stack := closed_tabs_stack m |}.

(** The answer: success and a message. *)
Abbreviation outcome := (bool * option string)%type.

Definition new_tab (i name k : string) (single close : bool) (b : option string) (g : string) : WorkspaceTab :=
  {| tab_id := i; title := name; kind := k; singleton := single; closeable := close; dirty := false; badge := b; glyph := g |}.

Definition open_tab (i name k : string) (single close : bool) (b : option string) (g : string)
    (m : WorkspaceTabManager) : outcome * WorkspaceTabManager :=
  let create := (true, None, add_tab (new_tab i name k single close b g) m) in
  match get_tab i m with
  | Some t => (true, Some ("Focused existing singleton " +:+ title t +:+ " tab."), focus (tab_id t) m)
  | None =>
      let same_kind := find_first (fun t => String.eqb (kind t) k) (tabs m) in
      match (if single || str_in k ["agents"; "network"; "inbox"] then same_kind else None) with
      | Some t => (true, Some ("Focused existing singleton " +:+ title t +:+ " tab."), focus (tab_id t) m)
      | None =>
          match (if String.eqb k "dispatch" then same_kind else None) with
          | Some t =>
              if dirty t then (false, Some "Unsaved changes in active Dispatch draft!", m)
              else (true, Some "Focused existing Dispatch draft tab.", focus (tab_id t) m)
          | None => create
          end
      end
  end.

Fixpoint remove_first (i : string) (l : list WorkspaceTab) : list WorkspaceTab :=
  match l with
  | [] => []
  | t :: l' => if has_id i t then l' else t :: remove_first i l'
  end.

Definition close_tab (which : option string) (force : bool) (m : WorkspaceTabManager) : outcome * WorkspaceTabManager :=
  let target_id := or_str which (active_tab_id m) in
  match get_tab target_id m with
  | None => (false, Some "Tab not found.", m)
  | Some t =>
      if negb (closeable t) || String.eqb (kind t) "home" then (false, Some "Home tab cannot be closed.", m)
      else if dirty t && negb force then
        (false, Some ("Cannot close tab '" +:+ title t +:+ "': unsaved draft changes!"), m)
      else
        let idx := default 0 (index_of target_id (tabs m)) in
        let rest := remove_first target_id (tabs m) in
        let active := if String.eqb (active_tab_id m) target_id
                      then match rest !! (idx - 1) with Some n => tab_id n | None => active_tab_id m end
                      else active_tab_id m in
        (true, Some ("Closed tab '" +:+ title t +:+ "'."),
         {| tabs := rest; active_tab_id := active; closed_tabs_stack := t :: closed_tabs_stack m |})
  end.

Definition reopen_last_tab (m : WorkspaceTabManager) : outcome * WorkspaceTabManager :=
  match closed_tabs_stack m with
  | [] => (false, Some "No closed tabs to reopen.", m)
  | t :: rest =>
      (true, Some ("Reopened tab '" +:+ title t +:+ "'."),
       {| tabs := tabs m ++ [t]; active_tab_id := tab_id t; closed_tabs_stack := rest |})
  end.

Definition cycle_tab (direction : Z) (m : WorkspaceTabManager) : WorkspaceTabManager :=
  if length (tabs m) <=? 1 then m
  else
    let next := Z.to_nat ((Z.of_nat (active_index m) + direction) mod Z.of_nat (length (tabs m))) in
    match tabs m !! next with Some t => focus (tab_id t) m | None => m end.

Definition jump_to_tab_index (index : Z) (m : WorkspaceTabManager) : bool * WorkspaceTabManager :=
  if ((1 <=? index) && (index <=? Z.of_nat (length (tabs m))))%Z then
    match tabs m !! Z.to_nat (index - 1) with Some t => (true, focus (tab_id t) m) | None => (true, m) end
  else (false, m).

Definition with_badge (b : option string) (t : WorkspaceTab) : WorkspaceTab :=
  {| tab_id := tab_id t; title := title t; kind := kind t; singleton := singleton t; closeable := closeable t;
     dirty := dirty t; badge := b; glyph := glyph t |}.

Fixpoint update_first (i : string) (f : WorkspaceTab -> WorkspaceTab) (l : list WorkspaceTab) : list WorkspaceTab :=
  match l with
  | [] => []
  | t :: l' => if has_id i t then f t :: l' else t :: update_first i f l'
  end.

Definition update_tab_badge (i : string) (b : option string) (m : WorkspaceTabManager) : bool * WorkspaceTabManager :=
  match get_tab i m with
  | None => (false, m)
  | Some _ => (true, {| tabs := update_first i (with_badge b) (tabs m); active_tab_id := active_tab_id m;
                        closed_tabs_stack := closed_tabs_stack m |})
  end.

(** One command on the manager; an editor may also mark a tab as changed or
    saved. *)
Definition with_dirty (d : bool) (t : WorkspaceTab) : WorkspaceTab :=
  {| tab_id := tab_id t; title := title t; kind := kind t; singleton := singleton t; closeable := closeable t;
     dirty := d; badge := badge t; glyph := glyph t |}.
Definition mark (i : string) (d : bool) (m : WorkspaceTabManager) : WorkspaceTabManager :=
  {| tabs := update_first i (with_dirty d) (tabs m); active_tab_id := active_tab_id m;
     closed_tabs_stack := closed_tabs_stack m |}.

Inductive command :=
| Open (i name k : string) (single close : bool) (b : option string) (g : string)
| Close (which : option string) (force : bool)
| Reopen
| Cycle (direction : Z)
| Jump (index : Z)
| Badge (i : string) (b : option string)
| Mark (i : string) (d : bool).

Definition run (c : command) (m : WorkspaceTabManager) : WorkspaceTabManager :=
  match c with
  | Open i name k single close b g => (open_tab i name k single close b g m).2
  | Close which force => (close_tab which force m).2
  | Reopen => (reopen_last_tab m).2
  | Cycle d => cycle_tab d m
  | Jump i => (jump_to_tab_index i m).2
  | Badge i b => (update_tab_badge i b m).2
  | Mark i d => mark i d m
  end.
End tabs.
End Tabs.

Module TabProps.
Import Tabs.

Lemma has_id_true i t : has_id i t = true <-> tab_id t = i.
Proof. apply String.eqb_eq. Qed.

(** Home comes first, and the active tab is one of the tabs. *)
Definition shell_ok (m : WorkspaceTabManager) : Prop :=
  (exists h rest, tabs m = h :: rest /\ tab_id h = "home" /\ kind h = "home" /\ closeable h = false) /\
  exists t, t ∈ tabs m /\ tab_id t = active_tab_id m.


Lemma focus_ok t m : shell_ok m -> t ∈ tabs m -> shell_ok (focus (tab_id t) m).
Proof. intros [Hh _] Ht. split; [exact Hh|]. by exists t. Qed.

Lemma append_ok t m stack : shell_ok m ->
  shell_ok {| tabs := tabs m ++ [t]; active_tab_id := tab_id t; closed_tabs_stack := stack |}.
Proof.
  intros [(h & rest & Ht & Hh) _]. split; cbn.
  - rewrite Ht. exists h, (rest ++ [t]). by rewrite <- app_comm_cons.
  - exists t. split; [|done]. apply elem_of_app. right. by apply list_elem_of_singleton.
Qed.

Lemma open_ok i name k single close b g m : shell_ok m -> shell_ok (open_tab i name k single close b g m).2.
Proof.
  intros Hm. unfold open_tab. destruct (get_tab i m) as [t|] eqn:Eg.
  { apply find_first_Some in Eg as [Ht _]. by apply focus_ok. }
  destruct (find_first _ (tabs m)) as [t|] eqn:Ef.
  - apply find_first_Some in Ef as [Ht _].
    repeat case_match; simplify_eq; cbn [snd]; first [by apply focus_ok|by apply append_ok|done].
  - repeat case_match; simplify_eq; cbn [snd]; by apply append_ok.
Qed.

Lemma remove_first_elem i l t : tab_id t <> i -> t ∈ l -> t ∈ remove_first i l.
Proof.
  intros Hi. induction l as [|x l IH]; [done|]. cbn. destruct (has_id i x) eqn:E.
  - apply has_id_true in E. intros [->|Ht]%elem_of_cons; [done|exact Ht].
  - intros [->|Ht]%elem_of_cons; [by left|right; by apply IH].
Qed.

(** Home is neither found by another id nor removed with it. *)
Lemma close_head i l t h rest :
  l = h :: rest -> find_first (has_id i) l = Some t -> closeable h = false -> closeable t = true ->
  has_id i h = false.
Proof. intros -> Hf Hh Ht. cbn in Hf. destruct (has_id i h); [congruence|done]. Qed.

Lemma index_length i l : default 0 (index_of i l) - 1 < length l \/ l = [].
Proof.
  destruct l as [|t l]; [by right|left]. cbn. destruct (has_id i t); cbn; [lia|].
  destruct (index_of i l) as [n|] eqn:E; cbn; [|lia]. enough (n < length l) by lia.
  revert n E. induction l as [|x l IH]; intros n; cbn; [done|]. destruct (has_id i x); [intros [= <-]; lia|].
  destruct (index_of i l) as [k|] eqn:Ek; cbn; [|done]. intros [= <-]. specialize (IH k eq_refl). lia.
Qed.

Lemma remove_length i l t : find_first (has_id i) l = Some t -> length l = S (length (remove_first i l)).
Proof. induction l as [|x l IH]; cbn; [done|]. destruct (has_id i x); cbn; [done|]. intros Hf. by rewrite (IH Hf). Qed.

Lemma index_found i l t : find_first (has_id i) l = Some t -> exists n, index_of i l = Some n /\ n < length l.
Proof.
  induction l as [|x l IH]; cbn; [done|]. destruct (has_id i x); [by exists 0; split; [|lia]|].
  intros (n & -> & Hn)%IH. exists (S n). split; [done|lia].
Qed.

Lemma close_ok which force m : shell_ok m -> shell_ok (close_tab which force m).2.
Proof.
  intros [(h & rest & Hl & Hi & Hk & Hc) (a & Ha & Hai)].
  assert (shell_ok m) as Hm by (split; [by exists h, rest|by exists a]).
  unfold close_tab. set (i := or_str which (active_tab_id m)).
  destruct (get_tab i m) as [t|] eqn:Eg; [|done]. unfold get_tab in Eg.
  destruct (negb (closeable t) || _) eqn:Ec; [done|]. apply orb_false_iff in Ec as [Ec _]. apply negb_false_iff in Ec.
  destruct (dirty t && negb force); [done|]. cbn [snd].
  pose proof (close_head _ _ _ _ _ Hl Eg Hc Ec) as Hhead.
  assert (remove_first i (tabs m) = h :: remove_first i rest) as Hr by (rewrite Hl; cbn; by rewrite Hhead).
  split; cbn [tabs active_tab_id]; [rewrite Hr; by exists h, (remove_first i rest)|].
  destruct (String.eqb (active_tab_id m) i) eqn:Ea; cycle 1.
  - exists a. split; [|done]. apply remove_first_elem; [|done]. rewrite Hai. by apply String.eqb_neq.
  - destruct (index_found _ _ _ Eg) as (n & Hn & Hlt). rewrite Hn. cbn [default from_option id].
    pose proof (remove_length _ _ _ Eg) as Hlen.
    destruct (remove_first i (tabs m) !! (n - 1)) as [x|] eqn:Ex.
    + exists x. split; [by apply list_elem_of_lookup_2 in Ex|done].
    + apply lookup_ge_None in Ex. rewrite Hr in Ex, Hlen. cbn in Ex, Hlen. lia.
Qed.

Lemma update_ids i f l : (forall t, tab_id (f t) = tab_id t) -> map tab_id (update_first i f l) = map tab_id l.
Proof. intros Hf. induction l as [|t l IH]; [done|]. cbn. destruct (has_id i t); cbn; by rewrite ?Hf, ?IH. Qed.

Lemma update_ok i f m stack :
  (forall t, tab_id (f t) = tab_id t /\ kind (f t) = kind t /\ closeable (f t) = closeable t) -> shell_ok m ->
  shell_ok {| tabs := update_first i f (tabs m); active_tab_id := active_tab_id m; closed_tabs_stack := stack |}.
Proof.
  intros Hf [(h & rest & Hl & Hi & Hk & Hc) (a & Ha & Hai)]. split; cbn.
  - rewrite Hl. cbn. destruct (Hf h) as (H1 & H2 & H3). destruct (has_id i h); eexists _, _; split_and!; try reflexivity; congruence.
  - assert (active_tab_id m ∈ map tab_id (update_first i f (tabs m))) as Hin.
    { rewrite update_ids by apply Hf. rewrite <- Hai. by apply list_elem_of_fmap_2. }
    apply list_elem_of_fmap in Hin as (t & -> & Ht). by exists t.
Qed.

Lemma lookup_ok m n t : shell_ok m -> tabs m !! n = Some t -> shell_ok (focus (tab_id t) m).
Proof. intros Hm Ht. apply focus_ok; [done|]. by apply list_elem_of_lookup_2 in Ht. Qed.

Lemma run_ok c m : shell_ok m -> shell_ok (run c m).
Proof.
  intros Hm. destruct c as [i name k single close b g|which force| |d|i|i b|i d]; cbn [run].
  - by apply open_ok.
  - by apply close_ok.
  - unfold reopen_last_tab. destruct (closed_tabs_stack m) as [|t rest]; [done|]. by apply append_ok.
  - unfold cycle_tab. destruct (_ <=? _); [done|]. destruct (tabs m !! _) as [t|] eqn:Et; [|done]. by eapply lookup_ok.
  - unfold jump_to_tab_index. destruct (_ && _); [|done]. destruct (tabs m !! _) as [t|] eqn:Et; [|done]. by eapply lookup_ok.
  - unfold update_tab_badge. destruct (get_tab i m); [|done]. by apply update_ok.
  - by apply update_ok.
Qed.

Lemma runs_ok cs m : shell_ok m -> shell_ok (fold_left (fun m c => run c m) cs m).
Proof. revert m. induction cs as [|c cs IH]; intros m Hm; cbn; [done|]. by apply IH, run_ok. Qed.

Lemma find_first_some {A} (p : A -> bool) l x : x ∈ l -> p x = true -> exists y, find_first p l = Some y.
Proof.
  intros Hx Hp. induction l as [|y l IH]; [by apply not_elem_of_nil in Hx|]. cbn. destruct (p y) eqn:E; [eauto|].
  apply elem_of_cons in Hx as [->|Hx]; [congruence|by apply IH].
Qed.

(** Whatever the owner does with the tabs (opening, closing by force or
    not, reopening, cycling in any direction, jumping, badges, unsaved changes,
    in any order), the home tab stays the first tab, closing it does nothing,
    and the active tab is always one of the open tabs, so that the interface
    never falls back to a tab that is not there. *)
Theorem home_never_closes home_glyph cs force :
  let m := fold_left (fun m c => run c m) cs (fresh_manager home_glyph) in
  (exists h rest, tabs m = h :: rest /\ tab_id h = "home" /\ kind h = "home") /\
  (close_tab (Some "home") force m).2 = m /\
  get_tab (active_tab_id m) m = Some (get_active_tab home_glyph m) /\ active_index m < length (tabs m).
Proof.
  intros m. assert (shell_ok m) as [(h & rest & Hl & Hi & Hk & Hc) (a & Ha & Hai)].
  { apply runs_ok. split; [by exists (home_tab home_glyph), []|]. exists (home_tab home_glyph). split; [by left|done]. }
  destruct (find_first_some (has_id (active_tab_id m)) (tabs m) a Ha) as [t Ht]; [by apply has_id_true|].
  split_and!; [by exists h, rest| | |].
  - unfold close_tab, get_tab. cbn [or_str truthy]. rewrite Hl. cbn. unfold has_id at 1. rewrite Hi. cbn. by rewrite Hc.
  - unfold get_active_tab, get_tab. by rewrite Ht.
  - unfold active_index. destruct (index_found _ _ _ Ht) as (n & -> & Hn). exact Hn.
Qed.

(** The rules for single tabs hold when a tab is opened, not when one is
    reopened. *)
Definition open_agents : command := Open "agents" "Agents" "agents" true true None "o".
Example reopened_twice :
  map tab_id (tabs (fold_left (fun m c => run c m) [open_agents; Close None false; open_agents; Reopen] (fresh_manager "*")))
  = ["home"; "agents"; "agents"].
Proof. reflexivity. Qed.
End TabProps.

(** ** The command palette *)

Module Palette.

Record CommandItem := {
  command_id : string;
  title : string;
  category : string;
  shortcut : string;
  recent : bool;
  contextual : bool;
  consequential : bool;
  handler_name : string
}.

(** [(not x.recent, not x.contextual, x.title)]. *)
Definition default_leb (a b : CommandItem) : bool :=
  if Bool.eqb (recent a) (recent b) then
    if Bool.eqb (contextual a) (contextual b) then String.leb (title a) (title b) else contextual a
  else recent a.

Definition exact_match (q : string) (x : CommandItem) : bool :=
  String.eqb q (lower (title x)) || String.eqb q (lower (command_id x)).
Definition partial_match (q : string) (x : CommandItem) : bool :=
  contains q (lower (title x)) || contains q (lower (command_id x)).

(** The tier of a matching item, from 1 to 4. *)
Definition tier (q : string) (x : CommandItem) : option nat :=
  if exact_match q x then Some 1
  else if partial_match q x then Some (if recent x then 2 else if contextual x then 3 else 4)
  else None.

Definition in_tier (q : string) (n : nat) (x : CommandItem) : bool := bool_decide (tier q x = Some n).

Definition rank_command_palette (query : string) (items : list CommandItem) : list CommandItem :=
  let clean_q := lower (strip query) in
  if negb (truthy clean_q) then order_by default_leb items
  else concat (map (fun n => List.filter (in_tier clean_q n) items) [1; 2; 3; 4]).

Definition ALLOWED_COLON_COMMANDS : list string := ["theme"; "open"; "quit"; "help"; "clear"; "guide"].

Definition SHELL_INJECTION_PATTERN : pat :=
  alts (seqs [PChr (fun c => Ascii.eqb c ":" || is_space c); lit "!"])
    [lit_i "exec("; lit_i "eval("; seqs [lit_i "import"; PChr is_space]; lit_i "system("; lit_i "passthru("; lit_i "popen("].

(** [s.split(maxsplit=1)] of a stripped text. *)
Fixpoint split_once (s : string) : string * string :=
  match s with
  | "" => ("", "")
  | String c s' => if is_space c then ("", s') else let '(a, b) := split_once s' in (String c a, b)
  end.

(** Validity, command, argument and message. *)
Definition parse_colon_command (raw_input : string) : bool * option (string * string) * string :=
  let clean := strip raw_input in
  match clean with
  | String ":" body =>
      if found SHELL_INJECTION_PATTERN clean || contains "!" clean then
        (false, None, "Security Error: Arbitrary shell execution is strictly prohibited.")
      else
        match strip body with
        | "" => (false, None, "Empty colon command.")
        | text =>
            let '(word, rest) := split_once text in
            let cmd_name := lower word in
            if str_in cmd_name ALLOWED_COLON_COMMANDS then
              (true, Some (cmd_name, strip rest), "Parsed colon command :" +:+ cmd_name)
            else
              (false, None, "Security Error: Unrecognized colon command ':" +:+ cmd_name +:+ "'. Allowed: "
                            +:+ String.concat ", " (order_by String.leb ALLOWED_COLON_COMMANDS) +:+ ".")
        end
  | _ => (false, None, "Not a colon command.")
  end.

Example colon_demo :
  map parse_colon_command [":theme  Kin-Graphite "; ":OPEN x y"; ":sh ls"; ":open os.SYSTEM(x)"; ": "; "theme"]
  = [(true, Some ("theme", "Kin-Graphite"), "Parsed colon command :theme");
     (true, Some ("open", "x y"), "Parsed colon command :open");
     (false, None, "Security Error: Unrecognized colon command ':sh'. Allowed: clear, guide, help, open, quit, theme.");
     (false, None, "Security Error: Arbitrary shell execution is strictly prohibited.");
     (false, None, "Empty colon command."); (false, None, "Not a colon command.")].
Proof. vm_compute. reflexivity. Qed.

(** An item is found in one tier, or in none. *)
Lemma tiers_perm q items :
  concat (map (fun n => List.filter (in_tier q n) items) [1; 2; 3; 4])
  ≡ₚ List.filter (fun x => exact_match q x || partial_match q x) items.
Proof.
  induction items as [|x items IH]; [done|]. cbn [map concat List.filter] in *. unfold in_tier, tier in *.
  destruct (exact_match q x); [|destruct (partial_match q x); [destruct (recent x); [|destruct (contextual x)]|]];
    repeat case_bool_decide; simplify_eq; cbn [orb app]; rewrite <- ?IH; solve_Permutation.
Qed.

Lemma tier_sorted q n items : Forall (fun x => tier q x = Some n) (List.filter (in_tier q n) items).
Proof.
  apply Forall_forall. intros x Hx%list_elem_of_In%List.filter_In. destruct Hx as [_ Hx]. by apply bool_decide_eq_true in Hx.
Qed.

(** The palette ranks and never invents or loses a command: the result is a
    rearrangement of the commands that match the query (all of them for a blank
    one), with exact matches before recent ones, those before contextual ones
    and the rest last. *)
Theorem palette_complete query items :
  let q := lower (strip query) in
  rank_command_palette query items
    ≡ₚ (if truthy q then List.filter (fun x => exact_match q x || partial_match q x) items else items) /\
  (truthy q = true -> exists l1 l2 l3 l4, rank_command_palette query items = l1 ++ l2 ++ l3 ++ l4 /\
     Forall (fun x => tier q x = Some 1) l1 /\ Forall (fun x => tier q x = Some 2) l2 /\
     Forall (fun x => tier q x = Some 3) l3 /\ Forall (fun x => tier q x = Some 4) l4).
Proof.
  intros q. unfold rank_command_palette. fold q. destruct (truthy q); cbn [negb].
  - split; [apply tiers_perm|]. intros _. eexists _, _, _, _. cbn. rewrite app_nil_r.
    split; [reflexivity|]. split_and!; apply tier_sorted.
  - split; [apply order_by_perm|done].
Qed.
End Palette.

(** ** The dispatch wizard *)

Module Wizard.

Record ContextPantryItem := {
  ci_kind : string;
  ci_size_bytes : Z;
  ci_classification : string;
  ci_expiry : option string;
  ci_item_id : string;
  ci_content : option string;
  ci_local_ref_id : option string;
  ci_reviewed : bool
}.

Record DispatchDraft := {
  session_type : string;
  peer_username : string;
  sender_agent_id : string;
  receiver_agent_id : string;
  goal : string;
  pantry_items : list ContextPantryItem;
  max_turns : option Z;
  draft_step : nat;
  draft_dirty : bool
}.

Definition STEP_NAMES : list string :=
  ["Select Peer Contact"; "Select Your Agent"; "Select Their Agent"; "Collaboration Mode"; "Define Goal";
   "Context Pantry"; "Review & Dispatch"].

Definition VALID_SESSION_TYPES : list string :=
  ["ask"; "research"; "debate"; "build_pipeline"; "review"; "delegate_subtask"].

(** The controller: the draft and the step, from 0 to 6. *)
Record controller := { draft : DispatchDraft; current_step : nat }.

Definition item_settled (i : ContextPantryItem) : bool :=
  str_in (ci_classification i) ["local_only"; "private"] || ci_reviewed i.

Definition validate_current_step (c : controller) : bool :=
  let d := draft c in
  match current_step c with
  | 0 => truthy (peer_username d)
  | 1 => truthy (sender_agent_id d)
  | 2 => truthy (receiver_agent_id d)
  | 3 => str_in (session_type d) VALID_SESSION_TYPES
  | 4 => truthy (goal d) && truthy (strip (goal d))
  | 5 => forallb item_settled (pantry_items d)
  | 6 => truthy (peer_username d) && truthy (sender_agent_id d) && truthy (receiver_agent_id d) && truthy (goal d)
  | _ => true
  end.

Definition on_draft (f : DispatchDraft -> DispatchDraft) (c : controller) : controller :=
  {| draft := f (draft c); current_step := current_step c |}.

Definition edit (peer sender receiver mode g : option string) (items : option (list ContextPantryItem))
    (d : DispatchDraft) : DispatchDraft :=
  {| session_type := default (session_type d) mode; peer_username := default (peer_username d) peer;
     sender_agent_id := default (sender_agent_id d) sender; receiver_agent_id := default (receiver_agent_id d) receiver;
     goal := default (goal d) g; pantry_items := default (pantry_items d) items; max_turns := max_turns d;
     draft_step := draft_step d; draft_dirty := true |}.

Definition at_step (n : nat) (c : controller) : controller :=
  {| draft := {| session_type := session_type (draft c); peer_username := peer_username (draft c);
                 sender_agent_id := sender_agent_id (draft c); receiver_agent_id := receiver_agent_id (draft c);
                 goal := goal (draft c); pantry_items := pantry_items (draft c); max_turns := max_turns (draft c);
                 draft_step := n; draft_dirty := true |};
     current_step := n |}.

(** [set_step]: [None] when there is no step of that number. *)
Definition set_step (step : Z) (c : controller) : option (bool * controller) :=
  if negb ((0 <=? step) && (step <? Z.of_nat (length STEP_NAMES)))%Z then None
  else
    let n := Z.to_nat step in
    if (current_step c <? n) && negb (validate_current_step c) then Some (false, c)
    else Some (true, at_step n c).

Definition moved (r : option (bool * controller)) (c : controller) : bool * controller := default (false, c) r.

Definition next_step (c : controller) : bool * controller :=
  if current_step c <? length STEP_NAMES - 1 then moved (set_step (Z.of_nat (current_step c) + 1) c) c else (false, c).
Definition prev_step (c : controller) : bool * controller :=
  if 0 <? current_step c then moved (set_step (Z.of_nat (current_step c) - 1) c) c else (false, c).

Definition select_peer (u : string) := on_draft (edit (Some u) None None None None None).
Definition select_sender_agent (a : string) := on_draft (edit None (Some a) None None None None).
Definition select_receiver_agent (a : string) := on_draft (edit None None (Some a) None None None).
Definition set_session_type (t : string) (c : controller) : controller :=
  if str_in t VALID_SESSION_TYPES then on_draft (edit None None None (Some t) None None) c else c.
Definition set_goal (g : string) := on_draft (edit None None None None (Some g) None).
Definition set_items (l : list ContextPantryItem) := on_draft (edit None None None None None (Some l)).
Definition add_pantry_item (i : ContextPantryItem) (c : controller) : controller :=
  set_items (pantry_items (draft c) ++ [i]) c.

Definition reviewed (i : ContextPantryItem) : ContextPantryItem :=
  {| ci_kind := ci_kind i; ci_size_bytes := ci_size_bytes i; ci_classification := ci_classification i;
     ci_expiry := ci_expiry i; ci_item_id := ci_item_id i; ci_content := ci_content i;
     ci_local_ref_id := ci_local_ref_id i; ci_reviewed := true |}.

Definition item_at (index : Z) (c : controller) : option nat :=
  if ((0 <=? index) && (index <? Z.of_nat (length (pantry_items (draft c)))))%Z then Some (Z.to_nat index) else None.

Definition remove_pantry_item (index : Z) (c : controller) : bool * controller :=
  match item_at index c with
  | Some n => (true, set_items (delete n (pantry_items (draft c))) c)
  | None => (false, c)
  end.
Definition review_pantry_item (index : Z) (c : controller) : bool * controller :=
  match item_at index c with
  | Some n => (true, set_items (alter reviewed n (pantry_items (draft c))) c)
  | None => (false, c)
  end.

Definition empty_draft : DispatchDraft :=
  {| session_type := "ask"; peer_username := ""; sender_agent_id := ""; receiver_agent_id := ""; goal := "";
     pantry_items := []; max_turns := None; draft_step := 0; draft_dirty := false |}.
Definition start : controller := {| draft := empty_draft; current_step := 0 |}.

(** Only the step that is left is looked at: the review can be reached with
    nothing but a peer. *)
Example steps_can_be_skipped :
  match set_step 6 (select_peer "bob" start) with
  | Some (true, c) => current_step c = 6 /\ sender_agent_id (draft c) = "" /\ validate_current_step c = false
  | _ => False
  end.
Proof. vm_compute. split_and!; reflexivity. Qed.

(** A goal of blanks is refused where it is entered and accepted in the review. *)
Definition blank_goal : DispatchDraft :=
  {| session_type := "ask"; peer_username := "bob"; sender_agent_id := "a1"; receiver_agent_id := "b1"; goal := "  ";
     pantry_items := []; max_turns := None; draft_step := 0; draft_dirty := false |}.
Example blank_goal_reviewed :
  validate_current_step {| draft := blank_goal; current_step := 4 |} = false /\
  validate_current_step {| draft := blank_goal; current_step := 6 |} = true.
Proof. vm_compute. split; reflexivity. Qed.

Lemma next_step_run c :
  current_step c < 6 ->
  next_step c = if validate_current_step c then (true, at_step (S (current_step c)) c) else (false, c).
Proof.
  intros Hc. unfold next_step, moved, set_step. change (length STEP_NAMES) with 7.
  replace (current_step c <? 7 - 1) with true by (symmetry; apply Nat.ltb_lt; lia).
  replace (Z.to_nat (Z.of_nat (current_step c) + 1)) with (S (current_step c)) by lia.
  replace (negb _) with false by
    (symmetry; apply negb_false_iff, andb_true_iff; split; [apply Z.leb_le|apply Z.ltb_lt]; lia).
  replace (current_step c <? S (current_step c)) with true by (symmetry; apply Nat.ltb_lt; lia).
  by destruct (validate_current_step c).
Qed.

Definition step_done (d : DispatchDraft) (n : nat) : bool := validate_current_step {| draft := d; current_step := n |}.

Lemma step_done_run c : validate_current_step c = step_done (draft c) (current_step c).
Proof. done. Qed.

Lemma step_done_at n k c : step_done (draft (at_step n c)) k = step_done (draft c) k.
Proof. done. Qed.

Definition go_on (c : controller) : controller := (next_step c).2.

Lemma stuck n c : go_on c = c -> Nat.iter n go_on c = c.
Proof. intros Hc. induction n as [|n IH]; [done|]. rewrite Nat.iter_succ. by rewrite IH. Qed.

Lemma walk n c : current_step c + n = 6 ->
  (current_step (Nat.iter n go_on c) = 6 <-> forallb (step_done (draft c)) (seq (current_step c) n) = true).
Proof.
  revert c. induction n as [|n IH]; intros c Hn; [cbn; split; [done|intros _; lia]|].
  rewrite Nat.iter_succ_r. cbn [seq forallb].
  assert (go_on c = if step_done (draft c) (current_step c) then at_step (S (current_step c)) c else c) as Hgo.
  { unfold go_on. rewrite next_step_run by lia. rewrite step_done_run. by destruct (step_done _ _). }
  destruct (step_done (draft c) (current_step c)); cbn [andb].
  - rewrite Hgo, IH by (cbn; lia). done.
  - rewrite Hgo, stuck by done. split; [lia|done].
Qed.

(** Going on step by step reaches the review exactly when every step before it
    is complete: from the first step, six presses of the next button lead there
    if and only if the peer, both agents, the mode, the goal and the reviewed
    context of the draft pass their checks. *)
Theorem review_step_by_step d :
  current_step (Nat.iter 6 go_on {| draft := d; current_step := 0 |}) = 6 <-> forallb (step_done d) (seq 0 6) = true.
Proof. by apply (walk 6). Qed.
End Wizard.

(** ** Terminal tiers *)

Module Layout.

Definition SIDEBAR_MIN_WIDTH : Z := 24.
Definition SIDEBAR_DEFAULT_WIDTH : Z := 32.
Definition SIDEBAR_MAX_WIDTH : Z := 42.
Definition INSPECTOR_MIN_WIDTH : Z := 30.
Definition INSPECTOR_DEFAULT_WIDTH : Z := 38.
Definition INSPECTOR_MAX_WIDTH : Z := 52.

Definition classify_breakpoint (cols rows : Z) : string :=
  if (cols <? 90)%Z || (rows <? 28)%Z then "minimal"
  else if (160 <=? cols)%Z && (44 <=? rows)%Z then "wide"
  else if (120 <=? cols)%Z && (36 <=? rows)%Z then "standard"
  else if (90 <=? cols)%Z && (28 <=? rows)%Z then "compact"
  else "minimal".

Definition clamp_sidebar_width (w : Z) : Z := Z.max SIDEBAR_MIN_WIDTH (Z.min w SIDEBAR_MAX_WIDTH).
Definition clamp_inspector_width (w : Z) : Z := Z.max INSPECTOR_MIN_WIDTH (Z.min w INSPECTOR_MAX_WIDTH).
Definition is_minimal_breakpoint (cols rows : Z) : bool := String.eqb (classify_breakpoint cols rows) "minimal".

(** The rules of the documentation of [classify_breakpoint]. *)
Definition documented (cols rows : Z) (tier : string) : Prop :=
  (tier = "wide" /\ 160 <= cols /\ 44 <= rows)%Z \/
  (tier = "standard" /\ (120 <= cols <= 159 /\ 36 <= rows \/ 160 <= cols /\ 36 <= rows < 44))%Z \/
  (tier = "compact" /\ (90 <= cols <= 119 /\ 28 <= rows \/ 90 <= cols /\ 28 <= rows < 36))%Z \/
  (tier = "minimal" /\ (cols < 90 \/ rows < 28))%Z.

(** The documented rules cover every terminal and no two of them overlap: the
    function answers exactly the tier they give. *)
Theorem breakpoint_documented cols rows tier : classify_breakpoint cols rows = tier <-> documented cols rows tier.
Proof.
  unfold classify_breakpoint, documented.
  destruct (Z.ltb_spec cols 90), (Z.ltb_spec rows 28), (Z.leb_spec 160 cols), (Z.leb_spec 44 rows),
    (Z.leb_spec 120 cols), (Z.leb_spec 36 rows), (Z.leb_spec 90 cols), (Z.leb_spec 28 rows);
    cbn [orb andb]; try lia;
    (split; [intros <-; first [left; split; [done|lia] | right; left; split; [done|lia] | right; right; left; split; [done|lia]
       | right; right; right; split; [done|lia]]
    |intros [[-> ?]|[[-> ?]|[[-> ?]|[-> ?]]]]; first [done|exfalso; lia]]).
Qed.
End Layout.
