(* ===== verification/Preferences.v ===== *)
(** * Preferences of the terminal interface

    [kin/tui/persistence.py]: the file [ui-state.json] of a profile, read with
    defaults, clamped and validated, and written back through a temporary file.
    The state is the content of the file; pydantic's conversions, the value of a
    finite float and the JSON codec are parameters. *)

From Stdlib Require Import Ascii String ZArith Lia.
From stdpp Require Import base gmap sets list strings.
From S2P Require Import Prelude Codec PyValue Schemas Store Ingest TermShell.
Import Layout.

#[local] Open Scope nat_scope.

Record UiStatePreferences := {
  theme : string;
  sidebar_width : Z;
  inspector_width : Z;
  sidebar_collapsed : bool;
  sidebar_section_collapse : list (string * bool);
  inspector_visible : bool;
  focus_mode_default : bool;
  workspace_tabs : list string;
  active_tab : string;
  first_flight_progress : document;
  quiet_hours_enabled : bool;
  quiet_hours_start : string;
  quiet_hours_end : string;
  snoozed_items : list (string * string);
  reduced_motion : bool;
  ascii_fallback : bool;
  color_depth : string
}.

Definition default_preferences : UiStatePreferences :=
  {| theme := "kin-graphite"; sidebar_width := SIDEBAR_DEFAULT_WIDTH; inspector_width := INSPECTOR_DEFAULT_WIDTH;
     sidebar_collapsed := false; sidebar_section_collapse := []; inspector_visible := true;
     focus_mode_default := false; workspace_tabs := ["home"]; active_tab := "home"; first_flight_progress := [];
     quiet_hours_enabled := false; quiet_hours_start := "22:00"; quiet_hours_end := "08:00"; snoozed_items := [];
     reduced_motion := false; ascii_fallback := false; color_depth := "auto" |}.

Definition FIELDS : list string :=
  ["schema_version"; "theme"; "sidebar_width"; "inspector_width"; "sidebar_collapsed"; "sidebar_section_collapse";
   "inspector_visible"; "focus_mode_default"; "workspace_tabs"; "active_tab"; "first_flight_progress";
   "quiet_hours_enabled"; "quiet_hours_start"; "quiet_hours_end"; "snoozed_items"; "reduced_motion";
   "ascii_fallback"; "color_depth"].

(** [mapM] over the values of an object. *)
Fixpoint values {A} (f : json -> option A) (kvs : document) : option (list (string * A)) :=
  match kvs with
  | [] => Some []
  | (k, v) :: rest => a ← f v; l ← values f rest; Some ((k, a) :: l)
  end.

Definition as_str (v : json) : option string := match v with JStr s => Some s | _ => None end.
Definition as_strings (v : json) : option (list string) := match v with JList l => mapM as_str l | _ => None end.
Definition as_dict {A} (f : json -> option A) (v : json) : option (list (string * A)) :=
  match v with JObj kvs => values f kvs | _ => None end.

Section preferences.
Context `{NodeEnv}.
Context (lax_int : json -> option Z) (lax_bool : json -> option bool).
(** [int] of a finite float; whether [True] passes for [Literal[1]];
    [model_dump_json(indent=2)] of a document. *)
Context (trunc : string -> Z) (true_is_one : bool) (dump : json -> string).

Definition ranged (lo hi : Z) (v : json) : option Z :=
  z ← lax_int v; if (lo <=? z)%Z && (z <=? hi)%Z then Some z else None.

(** A field, with its default when it is missing. *)
Definition field {A} (d : document) (key : string) (f : json -> option A) (dflt : A) : option A :=
  match obj_get key d with Some v => f v | None => Some dflt end.

Definition version_one (v : json) : bool :=
  match v with JInt z => (z =? 1)%Z | JBool true => true_is_one | _ => false end.

Definition model_validate (d : document) : option UiStatePreferences :=
  let p := default_preferences in
  if negb (forallb (fun kv => str_in kv.1 FIELDS) d) then None
  else
    if negb (match obj_get "schema_version" d with Some v => version_one v | None => true end) then None
    else
      th ← field d "theme" as_str (theme p);
      sw ← field d "sidebar_width" (ranged SIDEBAR_MIN_WIDTH SIDEBAR_MAX_WIDTH) (sidebar_width p);
      iw ← field d "inspector_width" (ranged INSPECTOR_MIN_WIDTH INSPECTOR_MAX_WIDTH) (inspector_width p);
      sc ← field d "sidebar_collapsed" lax_bool (sidebar_collapsed p);
      ss ← field d "sidebar_section_collapse" (as_dict lax_bool) (sidebar_section_collapse p);
      iv ← field d "inspector_visible" lax_bool (inspector_visible p);
      fm ← field d "focus_mode_default" lax_bool (focus_mode_default p);
      wt ← field d "workspace_tabs" as_strings (workspace_tabs p);
      at_ ← field d "active_tab" as_str (active_tab p);
      ff ← field d "first_flight_progress" (as_dict Some) (first_flight_progress p);
      qe ← field d "quiet_hours_enabled" lax_bool (quiet_hours_enabled p);
      qs ← field d "quiet_hours_start" as_str (quiet_hours_start p);
      qn ← field d "quiet_hours_end" as_str (quiet_hours_end p);
      si ← field d "snoozed_items" (as_dict as_str) (snoozed_items p);
      rm ← field d "reduced_motion" lax_bool (reduced_motion p);
      af ← field d "ascii_fallback" lax_bool (ascii_fallback p);
      cd ← field d "color_depth" as_str (color_depth p);
      Some {| theme := th; sidebar_width := sw; inspector_width := iw; sidebar_collapsed := sc;
              sidebar_section_collapse := ss; inspector_visible := iv; focus_mode_default := fm;
              workspace_tabs := wt; active_tab := at_; first_flight_progress := ff; quiet_hours_enabled := qe;
              quiet_hours_start := qs; quiet_hours_end := qn; snoozed_items := si; reduced_motion := rm;
              ascii_fallback := af; color_depth := cd |}.

(** [int(v)] for the numbers; [None] for a value that is no number. *)
Definition as_number (v : json) : option (result string Z) :=
  match v with
  | JInt z => Some (Ok z)
  | JBool b => Some (Ok (if b then 1%Z else 0%Z))
  | JFloat (FFin r) => Some (Ok (trunc r))
  | JFloat FNan => Some (Err "ValueError")
  | JFloat (FInf _) => Some (Err "OverflowError")
  | _ => None
  end.

Definition clamp_field (key : string) (clamp : Z -> Z) (d : document) : result string document :=
  match obj_get key d with
  | Some v => match as_number v with
              | Some r => let? z := r in Ok (obj_set key (JInt (clamp z)) d)
              | None => Ok d
              end
  | None => Ok d
  end.

(** The version must be an integer equal to 1, which [True] is. *)
Definition version_supported (d : document) : bool :=
  match obj_get "schema_version" d with
  | Some (JInt z) => (z =? 1)%Z
  | Some (JBool b) => b
  | _ => false
  end.

Definition MALFORMED : string := "Loaded default UI preferences due to malformed ui-state.json.".
Definition INVALID : string := "Loaded default UI preferences due to invalid settings in ui-state.json.".
Definition UNSUPPORTED (d : document) : string :=
  "Loaded default UI preferences due to unsupported schema version ('"
  +:+ py_str (default JNull (obj_get "schema_version" d)) +:+ "').".

Definition to_json (p : UiStatePreferences) : json :=
  JObj [("schema_version", JInt 1); ("theme", JStr (theme p)); ("sidebar_width", JInt (sidebar_width p));
        ("inspector_width", JInt (inspector_width p)); ("sidebar_collapsed", JBool (sidebar_collapsed p));
        ("sidebar_section_collapse", JObj (map (fun kv => (kv.1, JBool kv.2)) (sidebar_section_collapse p)));
        ("inspector_visible", JBool (inspector_visible p)); ("focus_mode_default", JBool (focus_mode_default p));
        ("workspace_tabs", JList (map JStr (workspace_tabs p))); ("active_tab", JStr (active_tab p));
        ("first_flight_progress", JObj (first_flight_progress p));
        ("quiet_hours_enabled", JBool (quiet_hours_enabled p)); ("quiet_hours_start", JStr (quiet_hours_start p));
        ("quiet_hours_end", JStr (quiet_hours_end p));
        ("snoozed_items", JObj (map (fun kv => (kv.1, JStr kv.2)) (snoozed_items p)));
        ("reduced_motion", JBool (reduced_motion p)); ("ascii_fallback", JBool (ascii_fallback p));
        ("color_depth", JStr (color_depth p))].

(** The file of the profile. *)
Abbreviation U := (M (option string) string).

Definition save_ui_preferences (p : UiStatePreferences) : U unit := mmodify (fun _ => Some (dump (to_json p))).

(** The settings of an object that was read. *)
Definition accept_settings (d : document) : result string (UiStatePreferences * option string) :=
  if negb (version_supported d) then Ok (default_preferences, Some (UNSUPPORTED d))
  else
    let? d := clamp_field "sidebar_width" clamp_sidebar_width d in
    let? d := clamp_field "inspector_width" clamp_inspector_width d in
    Ok (match model_validate d with
        | Some p => (p, None)
        | None => (default_preferences, Some INVALID)
        end).

Definition load_ui_preferences : U (UiStatePreferences * option string) :=
  let* content := mgets id in
  match content with
  | None => save_ui_preferences default_preferences ;;; ret (default_preferences, None)
  | Some text =>
      match json_loads text with
      | Some (JObj d) => mlift (accept_settings d)
      | _ => ret (default_preferences, Some MALFORMED)
      end
  end.

(** [FirstFlightController.mark_progress]. *)
Definition mark_progress (key : string) (value : json) : U UiStatePreferences :=
  let* loaded := load_ui_preferences in
  let p := loaded.1 in
  let p' := {| theme := theme p; sidebar_width := sidebar_width p; inspector_width := inspector_width p;
               sidebar_collapsed := sidebar_collapsed p; sidebar_section_collapse := sidebar_section_collapse p;
               inspector_visible := inspector_visible p; focus_mode_default := focus_mode_default p;
               workspace_tabs := workspace_tabs p; active_tab := active_tab p;
               first_flight_progress := obj_set key value (first_flight_progress p);
               quiet_hours_enabled := quiet_hours_enabled p; quiet_hours_start := quiet_hours_start p;
               quiet_hours_end := quiet_hours_end p; snoozed_items := snoozed_items p;
               reduced_motion := reduced_motion p; ascii_fallback := ascii_fallback p; color_depth := color_depth p |} in
  save_ui_preferences p' ;;; ret p'.

(** ** What is loaded *)

Definition in_range (p : UiStatePreferences) : Prop :=
  (SIDEBAR_MIN_WIDTH <= sidebar_width p <= SIDEBAR_MAX_WIDTH)%Z /\
  (INSPECTOR_MIN_WIDTH <= inspector_width p <= INSPECTOR_MAX_WIDTH)%Z.

Lemma bind_Some_inv {A B} (m : option A) (f : A -> option B) b : m ≫= f = Some b -> exists a, m = Some a /\ f a = Some b.
Proof. destruct m as [a|]; [|done]. by exists a. Qed.

Lemma ranged_range lo hi d key dflt z :
  (lo <= dflt <= hi)%Z -> field d key (ranged lo hi) dflt = Some z -> (lo <= z <= hi)%Z.
Proof.
  intros Hd. unfold field. destruct (obj_get key d) as [v|]; [|by intros [= <-]].
  unfold ranged. intros (x & _ & Hx)%bind_Some_inv. destruct (lo <=? x)%Z eqn:E1, (x <=? hi)%Z eqn:E2; try done.
  injection Hx as <-. lia.
Qed.

Lemma validated_range d p : model_validate d = Some p -> in_range p.
Proof.
  unfold model_validate. do 2 (destruct (negb _); [done|]). intros (th & _ & Hp)%bind_Some_inv.
  apply bind_Some_inv in Hp as (sw & Hsw & Hp). apply bind_Some_inv in Hp as (iw & Hiw & Hp).
  do 14 (apply bind_Some_inv in Hp as (? & _ & Hp)). injection Hp as <-.
  split; cbn; [refine (ranged_range _ _ _ _ _ _ _ Hsw)|refine (ranged_range _ _ _ _ _ _ _ Hiw)]; split; vm_compute; discriminate.
Qed.
End preferences.

Section loading.
Context `{NodeEnv}.
Context (lax_int : json -> option Z) (lax_bool : json -> option bool).
Context (trunc : string -> Z) (true_is_one : bool) (dump : json -> string).

Lemma default_in_range : in_range default_preferences.
Proof. split; split; vm_compute; discriminate. Qed.

Lemma accepted_range d p msg : accept_settings lax_int lax_bool trunc true_is_one d = Ok (p, msg) -> in_range p.
Proof.
  unfold accept_settings. destruct (negb _); [intros [= <- _]; apply default_in_range|].
  destruct (clamp_field _ _ _ d) as [d1|]; [cbn [rbind]|done].
  destruct (clamp_field _ _ _ d1) as [d2|]; [cbn [rbind]|done].
  destruct (model_validate lax_int lax_bool true_is_one d2) as [q|] eqn:Ev; intros [= <- _]; [|apply default_in_range].
  by eapply validated_range.
Qed.

Lemma values_map {A} (f : json -> option A) (g : A -> json) l :
  (forall a, f (g a) = Some a) -> values f (map (fun kv => (kv.1, g kv.2)) l) = Some l.
Proof. intros Hf. induction l as [|[k a] l IH]; [done|]. cbn. by rewrite Hf, IH. Qed.

Lemma values_some l : values (A := json) Some l = Some l.
Proof. induction l as [|[k a] l IH]; [done|]. cbn. by rewrite IH. Qed.

Lemma mapM_map {A B} (f : B -> option A) (g : A -> B) l : (forall a, f (g a) = Some a) -> mapM f (map g l) = Some l.
Proof. intros Hf. induction l as [|a l IH]; [done|]. cbn. by rewrite Hf, IH. Qed.

Lemma clamp_id lo hi z : (lo <= z <= hi)%Z -> Z.max lo (Z.min z hi) = z.
Proof. lia. Qed.

(** pydantic keeps booleans and integers. *)
Definition lax_exact : Prop := (forall b, lax_bool (JBool b) = Some b) /\ (forall z, lax_int (JInt z) = Some z).

Lemma saved_accepted p :
  lax_exact -> in_range p ->
  match to_json p with
  | JObj d => accept_settings lax_int lax_bool trunc true_is_one d = Ok (p, None)
  | _ => False
  end.
Proof.
  intros [Hb Hi] [Hs Hn]. destruct p. cbn in Hs, Hn. unfold to_json, accept_settings, clamp_field, model_validate, field, ranged.
  cbn -[Z.leb clamp_sidebar_width clamp_inspector_width].
  unfold clamp_sidebar_width, clamp_inspector_width, SIDEBAR_MIN_WIDTH, SIDEBAR_MAX_WIDTH, INSPECTOR_MIN_WIDTH,
    INSPECTOR_MAX_WIDTH in *. rewrite !clamp_id, !Hi, !Hb by done. cbn -[Z.leb].
  rewrite !(proj2 (Z.leb_le _ _)) by lia. cbn.
  rewrite ?Hb, (values_map lax_bool JBool), (values_map as_str JStr), (mapM_map as_str JStr), values_some by done. cbn.
  by rewrite ?Hb.
Qed.

(** The interface can rely on its preferences: whatever the file holds (no
    file, text that is no JSON, an object of another version, missing, unknown
    or wrong fields, widths out of range), loading yields widths inside their
    bounds whenever it returns, an absent file is replaced by the defaults; and
    preferences with valid widths that are saved are what the next load gives,
    without a message. *)
Theorem preferences_roundtrip p content :
  lax_exact -> json_loads (dump (to_json p)) = Some (to_json p) -> in_range p ->
  (load_ui_preferences lax_int lax_bool trunc true_is_one dump
     (save_ui_preferences dump p content).2).1 = Ok (p, None) /\
  (forall q msg, (load_ui_preferences lax_int lax_bool trunc true_is_one dump content).1 = Ok (q, msg) -> in_range q) /\
  (load_ui_preferences lax_int lax_bool trunc true_is_one dump None).2 = Some (dump (to_json default_preferences)).
Proof.
  intros Hl Hp Hr. split_and!; [| |done].
  - pose proof (saved_accepted p Hl Hr) as Ha. unfold load_ui_preferences, save_ui_preferences, mgets, mmodify, bind, mlift.
    cbn -[to_json]. rewrite Hp. destruct (to_json p) as [| | | | | |d]; done.
  - intros q msg. unfold load_ui_preferences, save_ui_preferences, mgets, mmodify, bind, mlift. destruct content as [text|]; cbn -[to_json].
    + destruct (json_loads text) as [v|]; [|by intros [= <- _]; apply default_in_range].
      destruct v as [| | | | | |d]; try (by intros [= <- _]; apply default_in_range).
      destruct (accept_settings _ _ _ _ d) as [[q' m']|] eqn:Ea; [|done]. intros [= -> ->]. by eapply accepted_range.
    + intros [= <- _]. apply default_in_range.
Qed.
End loading.

Module PreferencesDemo.

Definition strict_int (v : json) : option Z := match v with JInt z => Some z | _ => None end.
Definition strict_bool (v : json) : option bool := match v with JBool b => Some b | _ => None end.

Definition read (d : document) : result string (UiStatePreferences * option string) :=
  accept_settings strict_int strict_bool (fun _ => 0%Z) true d.

Definition wide : UiStatePreferences := match read [("schema_version", JInt 1); ("sidebar_width", JInt 99)] with
                                        | Ok (p, _) => p
                                        | Err _ => default_preferences
                                        end.

Example width_clamped : sidebar_width wide = 42%Z /\ theme wide = "kin-graphite".
Proof. vm_compute. split; reflexivity. Qed.

(** An infinite width is a float, and [int] of it is an error outside of every
    handler. *)
Example infinite_width_escapes :
  read [("schema_version", JInt 1); ("sidebar_width", JFloat (FInf false))] = Err "OverflowError".
Proof. reflexivity. Qed.

Example unknown_field_resets :
  read [("schema_version", JInt 1); ("extra", JNull)] = Ok (default_preferences, Some INVALID).
Proof. vm_compute. reflexivity. Qed.

Definition demo_env : NodeEnv.
Proof.
  refine {| aes_encrypt _ _ p := p; aes_decrypt _ _ p := Some p; urandom12 _ := "0123456789ab"; uuid4 _ := "id";
            utcnow _ := "2026-07-23T12:00:00+00:00";
            json_loads s := if String.eqb s "saved" then Some (to_json wide) else None;
            model_json := fun _ => "saved" |}; done.
Defined.

Lemma preferences_roundtrip_witness :
  (@load_ui_preferences demo_env strict_int strict_bool (fun _ => 0%Z) true (fun _ => "saved")
     (save_ui_preferences (fun _ => "saved") wide None).2).1 = Ok (wide, None).
Proof.
  refine (proj1 (@preferences_roundtrip demo_env strict_int strict_bool (fun _ => 0%Z) true (fun _ => "saved") wide None _ _ _)).
  - split; reflexivity.
  - reflexivity.
  - split; split; vm_compute; discriminate.
Defined.
End PreferencesDemo.
