(* ===== verification/Keymap.v ===== *)
(** * Key bindings

    [kin/tui/keymap.py]: the registry of the key bindings, its check for
    collisions, the bindings handed to the terminal library, and the table of
    [help.py] made from the registry. *)

From Stdlib Require Import Ascii String ZArith Lia.
From stdpp Require Import base sets list strings.
From S2P Require Import Prelude Codec PyValue.

#[local] Open Scope nat_scope.

Record KeyBindingSpec := {
  kb_key : string;
  kb_action : string;
  kb_label : string;
  kb_priority : bool;
  kb_suppressed : bool;
  kb_section : string;
  kb_scope : string;
  kb_consequential : bool;
  kb_justification : string;
  kb_explicit_action : option string
}.

(** The action that the terminal library looks up with [action_] in front. *)
Definition target_action (b : KeyBindingSpec) : string :=
  match kb_explicit_action b with
  | Some (String _ _ as ea) => if startswith "action_" ea then str_drop 7 ea else ea
  | _ => kb_action b
  end.

Definition spec (section scope key action label : string) (priority suppressed consequential : bool)
    (justification : string) (explicit : option string) : KeyBindingSpec :=
  {| kb_key := key; kb_action := action; kb_label := label; kb_priority := priority; kb_suppressed := suppressed;
     kb_section := section; kb_scope := scope; kb_consequential := consequential;
     kb_justification := justification; kb_explicit_action := explicit |}.

(** ** The registry *)

Definition GLOBAL_BINDINGS : list KeyBindingSpec :=
  let binding := spec "global" "app" in
  [binding "ctrl+c" "quit" "Quit Application" true false false
     "Global system interrupt signal." (Some "quit");
   binding "ctrl+k" "command_palette" "Command Palette" true false false
     "Global system shortcut; Ctrl modifier safely bypasses text fields." None;
   binding "ctrl+p" "quick_switcher" "Quick Switcher" true false false
     "Global navigation shortcut; Ctrl modifier safely bypasses text fields." None;
   binding "f2" "open_settings" "Open Settings" true false false
     "Function key exposes accessibility settings from every workspace." None;
   binding "d" "open_dispatch" "Open Dispatch" false true false
     "Printable letter 'd'; must yield to text input fields when focused." None;
   binding "a" "open_agents" "Open Agents" false true false
     "Printable letter 'a'; must yield to text input fields when focused." None;
   binding "n" "open_network" "Open Network" false true false
     "Printable letter 'n'; must yield to text input fields when focused." None;
   binding "i" "open_inbox" "Open Inbox" false true false
     "Printable letter 'i'; must yield to text input fields when focused." None;
   binding "p" "open_approvals" "Open Approvals" false true false
     "Printable letter 'p'; must yield to text input fields when focused." None;
   binding "question_mark" "toggle_help" "Contextual Help Overlay" true false false
     "Printable symbol '?'; must yield to text input fields when focused." None;
   binding "slash" "focus_filter" "Filter Collection" false true false
     "Printable symbol '/'; must yield to text input fields when focused." None;
   binding "escape" "handle_escape" "Clear / Close / Unfocus" true false false
     "Global escape key; priority required to trigger Esc priority chain." None;
   binding "tab" "focus_next" "Next Widget" false false false
     "Standard focus navigation key." None;
   binding "shift+tab" "focus_prev" "Previous Widget" false false false
     "Standard focus navigation key." None;
   binding "ctrl+tab" "next_tab" "Next Tab" true false false
     "Global tab cycle shortcut." None;
   binding "ctrl+shift+tab" "prev_tab" "Previous Tab" true false false
     "Global tab cycle shortcut." None;
   binding "ctrl+w" "close_tab" "Close Tab" true false false
     "Global workspace tab close shortcut." None;
   binding "ctrl+shift+t" "reopen_tab" "Reopen Closed Tab" true false false
     "Global tab reopen shortcut." None;
   binding "ctrl+s" "save_draft" "Save Local Draft" true false false
     "Global draft save shortcut." None;
   binding "ctrl+e" "export_view" "Export Current View" true false false
     "Keyboard-only semantic export, including minimal terminals." None;
   binding "q" "smart_quit" "Smart Quit / Return Home" false true false
     "Printable letter 'q'; must yield to text input fields when focused." None].

Definition GEOMETRY_BINDINGS : list KeyBindingSpec :=
  let binding := spec "global" "app" in
  [binding "alt+left_square_bracket" "decrease_sidebar_width" "Decrease Sidebar Width" true false false
     "Alt+[ modifier shortcut for sidebar resize." (Some "decrease_sidebar_width");
   binding "alt+right_square_bracket" "increase_sidebar_width" "Increase Sidebar Width" true false false
     "Alt+] modifier shortcut for sidebar resize." (Some "increase_sidebar_width");
   binding "alt+shift+left_square_bracket" "decrease_inspector_width" "Decrease Inspector Width" true false false
     "Alt+{ modifier shortcut for inspector resize." (Some "decrease_inspector_width");
   binding "alt+shift+right_square_bracket" "increase_inspector_width" "Increase Inspector Width" true false false
     "Alt+} modifier shortcut for inspector resize." (Some "increase_inspector_width");
   binding "left_square_bracket" "toggle_sidebar" "Toggle Sidebar" false true false
     "Printable symbol '['; must yield to text input fields when focused." (Some "toggle_sidebar");
   binding "right_square_bracket" "toggle_inspector" "Toggle Inspector" false true false
     "Printable symbol ']'; must yield to text input fields when focused." (Some "toggle_inspector")].

(** [alt+1] to [alt+9]. *)
Definition JUMP_BINDINGS : list KeyBindingSpec :=
  map (fun n => let idx := print_int (Z.of_nat n) in
         spec "global" "app" ("alt+" +:+ idx) ("jump_tab_" +:+ idx) ("Jump to Tab " +:+ idx) true false false
           ("Alt+" +:+ idx +:+ " tab jump shortcut.") None) (seq 1 9).

Definition COLLECTION_BINDINGS : list KeyBindingSpec :=
  let binding := spec "collection" "app" in
  [binding "j" "cursor_down" "Move Selection Down" false true false
     "Vim-style navigation key; yields to text input fields." None;
   binding "k" "cursor_up" "Move Selection Up" false true false
     "Vim-style navigation key; yields to text input fields." None;
   binding "g" "cursor_top" "Move Selection to Top" false true false
     "Vim-style navigation key; yields to text input fields." None;
   binding "G" "cursor_bottom" "Move Selection to Bottom" false true false
     "Vim-style navigation key; yields to text input fields." None;
   binding "enter" "activate_selection" "Activate / Open Selection" false false false
     "Standard activation key." None;
   binding "space" "preview_selection" "Preview Selection in Inspector" false true false
     "Printable space character; yields to text input fields." None;
   binding "o" "open_in_new_tab" "Open in New Tab" false true false
     "Printable letter 'o'; yields to text input fields." None;
   binding "r" "replay_item" "Replay Session" false true false
     "Printable letter 'r'; yields to text input fields." None;
   binding "f" "fork_item" "Fork Session" false true false
     "Printable letter 'f'; yields to text input fields." None;
   binding "full_stop" "open_actions" "Item Actions Menu" false true false
     "Printable dot '.'; yields to text input fields." None;
   binding "x" "consequential_action" "Cancel / Archive Action" false true true
     "Printable letter 'x'; yields to text input fields. Requires confirmation gate." None].

Definition ARENA_BINDINGS : list KeyBindingSpec :=
  let binding := spec "arena" "arena" in
  [binding "z" "lane_focus" "Focus / Cockpit Mode" false true false
     "Printable letter 'z'; yields to text input fields." None;
   binding "t" "lane_transcript" "Transcript Lane" false true false
     "Printable letter 't'; yields to text input fields." None;
   binding "e" "lane_activity" "Activity Lane" false true false
     "Printable letter 'e'; yields to text input fields." None;
   binding "o" "lane_outputs" "Outputs Lane" false true false
     "Printable letter 'o'; yields to text input fields." None;
   binding "c" "lane_decisions" "Decisions Lane" false true false
     "Printable letter 'c'; yields to text input fields." None;
   binding "u" "lane_needs_you" "Needs-you Lane" false true false
     "Printable letter 'u'; yields to text input fields." None;
   binding "i" "toggle_inspector_arena" "Toggle Arena Inspector" false true false
     "Printable letter 'i'; yields to text input fields." (Some "action_toggle_inspector_arena");
   binding "l" "lane_notes" "Private Notes Lane" false true false
     "Printable letter 'l' opens the owner-only notes lane and yields to text input fields." None;
   binding "p" "promote_private_note" "Promote Selected Private Note" false true true
     "Private-note promotion crosses the peer boundary and requires confirmation." None;
   binding "r" "replay_item" "Replay Scrubber" false true false
     "Printable letter 'r'; yields to text input fields." None;
   binding "w" "record_checkpoint" "Record Checkpoint" false true false
     "Printable letter 'w' records a reviewed checkpoint and yields to text input fields." None;
   binding "y" "record_decision" "Record Owner Decision" false true false
     "Printable letter 'y' records an owner decision and yields to text input fields." None;
   binding "h" "create_playbook" "Create Playbook from Outcome" false true false
     "Printable letter 'h' creates a local reviewable template from a completed outcome." None;
   binding "m" "compose_message" "Compose Message" false true false
     "Printable letter 'm'; yields to text input fields." None;
   binding "s" "session_state_menu" "Session State Menu" false true false
     "Printable letter 's'; yields to text input fields." None;
   binding "a" "approve_item" "Approve Item (Needs-you)" false true false
     "Printable letter 'a' in Needs-you lane; yields to text input fields." None;
   binding "d" "deny_item" "Deny Item (Needs-you)" false true false
     "Printable letter 'd' in Needs-you lane; yields to text input fields." None;
   binding "b" "bounded_approval" "Bounded Approval (Needs-you)" false true false
     "Printable letter 'b' in Needs-you lane; yields to text input fields." None;
   binding "v" "import_artifact" "Import Artifact (Outputs)" false true false
     "Printable letter 'v' in Outputs lane; yields to text input fields." None].

Definition DEFAULT_KEYMAP : list KeyBindingSpec :=
  GLOBAL_BINDINGS ++ GEOMETRY_BINDINGS ++ JUMP_BINDINGS ++ COLLECTION_BINDINGS ++ ARENA_BINDINGS.

(** ** Operations *)

Definition key_tuple (b : KeyBindingSpec) : string * string := (kb_key b, kb_scope b).

Definition collision (b prev : KeyBindingSpec) : string :=
  "Keybinding collision detected on key '" +:+ kb_key b +:+ "' (scope '" +:+ kb_scope b +:+ "'): action '"
  +:+ kb_action b +:+ "' collides with action '" +:+ kb_action prev +:+ "'.".

(** [Err] carries the text of the [KeymapCollisionError]. *)
Fixpoint validate_from (seen bs : list KeyBindingSpec) : result string unit :=
  match bs with
  | [] => Ok tt
  | b :: rest =>
      match find_first (fun p => bool_decide (key_tuple p = key_tuple b)) seen with
      | Some prev => Err (collision b prev)
      | None => validate_from (seen ++ [b]) rest
      end
  end.

Definition validate_keymap_registry (bs : list KeyBindingSpec) : result string unit := validate_from [] bs.

Record Binding := {
  bd_key : string;
  bd_action : string;
  bd_description : string;
  bd_show : bool;
  bd_priority : bool
}.

Definition to_binding (b : KeyBindingSpec) : Binding :=
  {| bd_key := kb_key b; bd_action := target_action b; bd_description := kb_label b; bd_show := false;
     bd_priority := kb_priority b |}.

Definition build_textual_bindings (bs : list KeyBindingSpec) (scope : string) : list Binding :=
  map to_binding (List.filter (fun b => String.eqb (kb_scope b) scope) bs).
Definition build_arena_bindings (bs : list KeyBindingSpec) : list Binding := build_textual_bindings bs "arena".

Definition SECTIONS : list (string * string) :=
  [("global", "Global Commands"); ("collection", "Collection & Navigation"); ("arena", "Session Arena")].

Definition help_row (b : KeyBindingSpec) : string :=
  "| `" +:+ kb_key b +:+ "` | " +:+ kb_label b +:+ " | " +:+ (if kb_priority b then "Yes" else "No") +:+ " | "
  +:+ (if kb_suppressed b then "Yields" else "Active") +:+ " |".

Definition help_section (bs : list KeyBindingSpec) (sec : string * string) : list string :=
  match List.filter (fun b => String.eqb (kb_section b) sec.1) bs with
  | [] => []
  | l => ["## " +:+ sec.2; ""; "| Key | Action / Description | Priority | Text-Yield |"; "|---|---|---|---|"]
         ++ map help_row l ++ [""]
  end.

(** The heading holds a dash that is not ASCII. *)
Definition generate_help_lines (heading : string) (bs : list KeyBindingSpec) : list string :=
  [heading; ""] ++ concat (map (help_section bs) SECTIONS).
Definition generate_help_markdown (heading : string) (bs : list KeyBindingSpec) : string :=
  String.concat (String "010" "") (generate_help_lines heading bs).

(** ** Collisions *)

Lemma validate_from_spec seen bs :
  NoDup (map key_tuple seen) ->
  (validate_from seen bs = Ok tt <-> NoDup (map key_tuple (seen ++ bs))).
Proof.
  revert seen. induction bs as [|b bs IH]; intros seen Hs; cbn [validate_from].
  - by rewrite app_nil_r.
  - destruct (find_first _ seen) as [prev|] eqn:Ef.
    + split; [done|]. rewrite map_app. intros Hn. exfalso.
      assert (exists p, p ∈ seen /\ key_tuple p = key_tuple b) as (p & Hp & Hk).
      { clear -Ef. induction seen as [|x seen IH]; [done|]. cbn in Ef. destruct (bool_decide _) eqn:E.
        - exists x. split; [by left|by apply bool_decide_eq_true in E].
        - destruct (IH Ef) as (p & Hp & Hk). exists p. split; [by right|done]. }
      apply NoDup_app in Hn as (_ & Hn & _). apply (Hn (key_tuple p)); [by apply list_elem_of_fmap_2|].
      rewrite Hk. cbn. by left.
    + rewrite IH.
      * by rewrite <- app_assoc.
      * rewrite map_app. apply NoDup_app. split_and!; [done| |apply NoDup_singleton].
        intros k (p & -> & Hp)%list_elem_of_fmap Hk%list_elem_of_singleton.
        rewrite find_first_None, Forall_forall in Ef. specialize (Ef p Hp). by apply bool_decide_eq_false in Ef.
Qed.

Lemma scope_keys bs scope :
  map bd_key (build_textual_bindings bs scope) = map kb_key (List.filter (fun b => String.eqb (kb_scope b) scope) bs).
Proof. unfold build_textual_bindings. by rewrite map_map. Qed.

Lemma scope_keys_distinct bs scope :
  NoDup (map key_tuple bs) -> NoDup (map kb_key (List.filter (fun b => String.eqb (kb_scope b) scope) bs)).
Proof.
  induction bs as [|b bs IH]; cbn; [constructor|]. intros [Hb Hn]%NoDup_cons.
  destruct (String.eqb (kb_scope b) scope) eqn:E; [|by apply IH]. apply String.eqb_eq in E. cbn. constructor; [|by apply IH].
  intros (x & Hx & Hin)%list_elem_of_fmap. apply Hb. apply list_elem_of_In, List.filter_In in Hin as [Hin Es].
  apply String.eqb_eq in Es. apply list_elem_of_fmap. exists x. split; [|by apply list_elem_of_In].
  unfold key_tuple. congruence.
Qed.

(** The start-up check is exact: it accepts a registry if and only if no key
    is bound twice in the same scope; then neither the application nor the
    arena gets two bindings for one key, and every binding of the registry is in
    the list of its scope with the action it names. *)
Theorem keymap_check_exact bs :
  (validate_keymap_registry bs = Ok tt <-> NoDup (map key_tuple bs)) /\
  (validate_keymap_registry bs = Ok tt -> forall scope, NoDup (map bd_key (build_textual_bindings bs scope))) /\
  (forall b, b ∈ bs -> to_binding b ∈ build_textual_bindings bs (kb_scope b)).
Proof.
  assert (validate_keymap_registry bs = Ok tt <-> NoDup (map key_tuple bs)) as Hv.
  { apply (validate_from_spec [] bs). constructor. }
  split_and!; [exact Hv| |].
  - intros Hok scope. rewrite scope_keys. by apply scope_keys_distinct, Hv.
  - intros b Hb. apply list_elem_of_fmap_2. apply list_elem_of_In, List.filter_In. split; [by apply list_elem_of_In|].
    apply String.eqb_refl.
Qed.

Module KeymapDemo.

Lemma default_accepted : validate_keymap_registry DEFAULT_KEYMAP = Ok tt.
Proof. vm_compute. reflexivity. Qed.

Lemma keymap_check_exact_witness :
  NoDup (map bd_key (build_textual_bindings DEFAULT_KEYMAP "app")) /\ length DEFAULT_KEYMAP = 66.
Proof.
  split; [|vm_compute; reflexivity].
  exact (proj1 (proj2 (keymap_check_exact DEFAULT_KEYMAP)) default_accepted "app").
Defined.

Example collision_found :
  validate_keymap_registry
    [spec "global" "app" "d" "open" "Open" false true false "" None; spec "arena" "arena" "d" "deny" "Deny" false true false "" None;
     spec "collection" "app" "d" "drop" "Drop" false true false "" None]
  = Err "Keybinding collision detected on key 'd' (scope 'app'): action 'drop' collides with action 'open'.".
Proof. vm_compute. reflexivity. Qed.

(** Every letter gives way to a text field. *)
Example letters_yield :
  forallb (fun b => implb (Nat.eqb (String.length (kb_key b)) 1) (kb_suppressed b && negb (kb_priority b))) DEFAULT_KEYMAP = true.
Proof. vm_compute. reflexivity. Qed.

(** The question mark does not, although its justification says it must. *)
Example question_mark_does_not_yield :
  map (fun b => (kb_suppressed b, kb_priority b, kb_justification b))
    (List.filter (fun b => String.eqb (kb_key b) "question_mark") DEFAULT_KEYMAP)
  = [(false, true, "Printable symbol '?'; must yield to text input fields when focused.")].
Proof. vm_compute. reflexivity. Qed.
End KeymapDemo.
