(* ===== verification/Projections.v ===== *)
(** * What the owner sees

    The read side of [kin/tui/local_state.py] with the view models of
    [kin/tui/state.py]: the class a stored event is shown in, the session
    lists, the timeline with its pages and the older pages the arena loads
    ([widgets/session_arena.py]), the private notes, and the queue of what needs
    the owner.  All of it only reads; a view is a function of the tables, the
    keys and the time.  Rows of equal time keep the order they are stored in. *)

From Stdlib Require Import Ascii String ZArith Lia.
From stdpp Require Import base gmap sets list strings sorting.
From S2P Require Import Prelude Regex Codec PyValue Redaction Schemas Policy Store AuditLog SessionStore ApprovalStore.
From S2P Require Import History Ingest RetryQueue Adapters AuditExport.

#[local] Open Scope nat_scope.

(** ** Presentation classes *)

Definition EVENT_KIND_MAPPING (k : MessageKind + InternalEventKind) : string :=
  match k with
  | inl TASK_REQUEST => "message" | inl ACCEPTANCE => "state_transition" | inl DECLINE => "state_transition"
  | inl CLARIFICATION => "message" | inl PLAN => "activity" | inl PROPOSAL => "message"
  | inl COUNTERPROPOSAL => "message" | inl FINDING => "activity" | inl QUESTION => "message"
  | inl ANSWER => "message" | inl ARTIFACT_OFFER => "artifact" | inl ARTIFACT_ACCEPT => "artifact"
  | inl APPROVAL_REQUEST => "approval" | inl APPROVAL_DECISION => "approval" | inl STATUS_EVENT => "activity"
  | inl FINAL_RESULT => "state_transition" | inl CANCEL => "state_transition"
  | inl PARTICIPANT_CHANGED => "state_transition"
  | inr MESSAGE => "message" | inr ENVELOPE_RECEIVED => "activity" | inr PUBLIC_MSG => "message"
  | inr PRIVATE_NOTE => "activity" | inr OUTBOUND_ENVELOPE_QUEUED => "activity" | inr ACTIVITY => "activity"
  | inr ADAPTER_ERROR => "security" | inr CHECKPOINT => "checkpoint" | inr DECISION => "checkpoint"
  | inr OUTCOME => "state_transition" | inr RERUN_CREATED => "activity"
  end.

Definition AUDIT_CATEGORY_MAPPING : list (string * string) :=
  [("security_rejection", "security"); ("session_status_rejected", "security"); ("adapter_error", "security");
   ("duplicate_delivery", "activity"); ("session_status_updated", "state_transition");
   ("budget_exhausted", "state_transition"); ("approval_request", "approval"); ("approval_decision", "approval");
   ("relay_poll_error", "activity"); ("state_transition", "state_transition"); ("ColonCommand", "activity");
   ("fresh_authority_rerun", "state_transition"); ("outcome_card_error", "security")].

(** A text: the categories of the audit log come first. *)
Definition map_event_kind_to_presentation_class (kind : string) : result string string :=
  match obj_get kind AUDIT_CATEGORY_MAPPING with
  | Some c => Ok c
  | None => match event_kind_of kind with Some k => Ok (EVENT_KIND_MAPPING k) | None => Err "ValueError" end
  end.

Definition map_audit_category_to_presentation_class (category : string) : result string string :=
  match obj_get category AUDIT_CATEGORY_MAPPING with
  | Some c => Ok c
  | None =>
      if startswith "session_event_" category
      then map_event_kind_to_presentation_class (str_drop 14 category)
      else Err "ValueError"
  end.

(** The fallback of every reader. *)
Definition class_or_security (r : result string string) : string := match r with Ok c => c | Err _ => "security" end.

Record UiEvent := {
  ui_event_id : string;
  ui_session_id : string;
  ui_kind : string;
  ui_created_at : string;
  ui_actor : option string;
  ui_class : string;
  ui_order : option Z;
  ui_content : option string
}.

(** [a or b or ...] over the values of the keys: the first that is true, else
    the last. *)
Fixpoint first_true (keys : list string) (d : document) : json :=
  match keys with
  | [] => JNull
  | [k] => default JNull (obj_get k d)
  | k :: rest => match obj_get k d with
                 | Some v => if json_truthy v then v else first_true rest d
                 | None => first_true rest d
                 end
  end.

Section projections.
Context `{NodeEnv} `{Clock}.
(** The vault key of the profile, [None] when the keychain refuses it. *)
Context (vault_key : option bytes).

Definition TEXT_KEYS : list string := ["message"; "question"; "reason"; "content"; "goal"; "outcome"].

(** The stored text, decrypted when that works. *)
Definition raw_payload (value : string) : string :=
  match vault_key with
  | Some (String _ _ as key) =>
      match decrypt_field key (Some value) with
      | Ok (Some (String _ _ as text)) => text
      | _ => value
      end
  | _ => value
  end.

Definition payload_words (data : json) : option string :=
  match (match data with JObj d => first_true TEXT_KEYS d | JStr s => JStr s | _ => JNull end) with
  | JStr (String _ _ as s) => Some (redact_ui_text (Some s))
  | _ => None
  end.

Definition parse_payload_content (value : option string) : option string :=
  match value with
  | None | Some "" => None
  | Some v => match json_loads (raw_payload v) with Some data => payload_words data | None => None end
  end.

(** ** The timeline *)

Definition shown_event (r : event_row) : bool := negb (String.eqb (e_visibility r) "local_only").

Definition ui_of_event (r : event_row) : UiEvent :=
  {| ui_event_id := e_id r; ui_session_id := e_session r; ui_kind := e_kind r; ui_created_at := e_created_at r;
     ui_actor := Some (e_actor r);
     ui_class := class_or_security (map_event_kind_to_presentation_class (e_kind r));
     ui_order := Some (e_order r); ui_content := parse_payload_content (e_payload r) |}.

Definition ui_of_audit (session_id : string) (a : audit_row) : UiEvent :=
  {| ui_event_id := a_id a; ui_session_id := or_str (a_session a) session_id; ui_kind := a_category a;
     ui_created_at := a_created_at a; ui_actor := a_actor a;
     ui_class := class_or_security (map_audit_category_to_presentation_class (a_category a));
     ui_order := None; ui_content := None |}.

Definition unseen (seen : list string) (i : string) : bool := negb (str_in i seen).

(** The rows of [session_events] that are not local, in their order. *)
Definition visible (session_id : string) (t : tables) : list event_row :=
  by_order (List.filter shown_event (events_of session_id t)).

Definition get_session_events (session_id : string) (seen : list string) (after_event_order : option Z)
    (after_created_at : option string) (t : tables) : list UiEvent :=
  let rows := List.filter (fun r => match after_event_order with Some o => (o <? e_order r)%Z | None => true end)
                (visible session_id t) in
  let audits := List.filter (fun a => bool_decide (a_session a = Some session_id)
                              && match after_created_at with Some c => String.leb c (a_created_at a) | None => true end)
                  (audit_events t) in
  order_by (fun a b => String.leb (ui_created_at a) (ui_created_at b))
    (map ui_of_event (List.filter (fun r => unseen seen (e_id r)) rows)
     ++ map (ui_of_audit session_id)
          (List.filter (fun a => negb (startswith "session_event_" (a_category a)) && unseen seen (a_id a)) audits)).

(** One page, newest first in the query and oldest first in the answer, and
    whether an older one exists. *)
Definition get_session_events_page (session_id : string) (page_size : Z) (before_event_order : option Z) (t : tables)
  : result string (list UiEvent * bool) :=
  if negb ((1 <=? page_size) && (page_size <=? 2000))%Z then Err "ValueError"
  else
    let n := Z.to_nat page_size in
    let rows := take (S n) (reverse
                  (List.filter (fun r => match before_event_order with Some o => (e_order r <? o)%Z | None => true end)
                     (visible session_id t))) in
    Ok (map ui_of_event (reverse (take n rows)), n <? length rows).

(** ** Notes and records of the owner *)

Record PrivateNoteView := {
  pn_event_id : string;
  pn_session_id : string;
  pn_actor : string;
  pn_text : string;
  pn_created_at : string;
  pn_order : Z
}.

Definition local_rows (session_id : string) (kinds : list string) (t : tables) : list event_row :=
  by_order (List.filter (fun r => str_in (e_kind r) kinds && String.eqb (e_visibility r) "local_only")
              (events_of session_id t)).

(** [json.loads(decrypt_field(key, value) or "{}")]; [None] when it raises. *)
Definition local_payload (key : bytes) (value : option string) : option json :=
  match decrypt_field key value with
  | Ok (None | Some "") => Some (JObj [])
  | Ok (Some text) => json_loads text
  | Err _ => None
  end.

Definition note_view (key : bytes) (r : event_row) : option PrivateNoteView :=
  match local_payload key (e_payload r) with
  | Some (JObj d) =>
      match obj_get "content" d with
      | Some (JStr s) => Some {| pn_event_id := e_id r; pn_session_id := e_session r; pn_actor := e_actor r;
                                 pn_text := s; pn_created_at := e_created_at r; pn_order := e_order r |}
      | _ => None
      end
  | _ => None
  end.

Definition get_private_notes (session_id : string) (t : tables) : list PrivateNoteView :=
  match vault_key with
  | None => []
  | Some key => omap (note_view key) (local_rows session_id ["private_note"] t)
  end.

(** A payload that is no object has no [get]. *)
Definition history_event (key : bytes) (session_id : string) (r : event_row)
  : result string (option (UiEvent * json)) :=
  match local_payload key (e_payload r) with
  | None => Ok None
  | Some (JObj d) =>
      let content := match first_true ["content"; "summary"; "label"] d with
                     | v => if json_truthy v then v else JStr ""
                     end in
      let? c := map_event_kind_to_presentation_class (e_kind r) in
      Ok (Some ({| ui_event_id := e_id r; ui_session_id := session_id; ui_kind := e_kind r;
                   ui_created_at := e_created_at r; ui_actor := Some (e_actor r); ui_class := c;
                   ui_order := Some (e_order r);
                   ui_content := match content with JStr s => Some s | _ => None end |}, content))
  | Some _ => Err "AttributeError"
  end.

Fixpoint history_events (key : bytes) (session_id : string) (rows : list event_row)
  : result string (list (UiEvent * json)) :=
  match rows with
  | [] => Ok []
  | r :: rest =>
      let? x := history_event key session_id r in
      let? xs := history_events key session_id rest in
      Ok (match x with Some e => e :: xs | None => xs end)
  end.

(** The content may be any value; it is kept beside the event. *)
Definition get_session_history_events (session_id : string) (t : tables) : result string (list (UiEvent * json)) :=
  match vault_key with
  | None => Ok []
  | Some key => history_events key session_id (local_rows session_id ["checkpoint"; "decision"; "outcome"] t)
  end.

(** *** The arena *)

Record arena := { ar_events : list UiEvent; ar_has_older : bool }.

(** The key [(event_order is None, event_order or 0, created_at, event_id)]. *)
Definition arena_leb (a b : UiEvent) : bool :=
  let rank e := match ui_order e with None => (1%Z, 0%Z) | Some o => (0%Z, o) end in
  let '(n1, o1) := rank a in
  let '(n2, o2) := rank b in
  if negb (n1 =? n2)%Z then (n1 <? n2)%Z
  else if negb (o1 =? o2)%Z then (o1 <? o2)%Z
  else if negb (String.eqb (ui_created_at a) (ui_created_at b)) then String.leb (ui_created_at a) (ui_created_at b)
  else String.leb (ui_event_id a) (ui_event_id b).

(** The newest page together with every record of the owner. *)
Definition open_arena (session_id : string) (page_size : Z) (t : tables) : result string arena :=
  let? page := get_session_events_page session_id page_size None t in
  let? history := get_session_history_events session_id t in
  Ok {| ar_events := order_by arena_leb (page.1 ++ map fst history); ar_has_older := page.2 |}.

(** [min(orders)] is taken over all events shown. *)
Definition load_older_events (session_id : string) (page_size : Z) (t : tables) (a : arena) : result string arena :=
  match omap ui_order (ar_events a) with
  | o :: orders =>
      if negb (ar_has_older a) then Ok a
      else
        let? page := get_session_events_page session_id page_size (Some (foldr Z.min o orders)) t in
        let existing := map ui_event_id (ar_events a) in
        Ok {| ar_events := List.filter (fun e => unseen existing (ui_event_id e)) page.1 ++ ar_events a;
              ar_has_older := page.2 |}
  | [] => Ok a
  end.

(** The owner keeps asking for older events. *)
Fixpoint load_all (fuel : nat) (session_id : string) (page_size : Z) (t : tables) (a : arena) : result string arena :=
  match fuel with
  | 0 => Ok a
  | S f => let? a' := load_older_events session_id page_size t a in load_all f session_id page_size t a'
  end.

(** ** Sessions *)

Record SessionSummary := {
  sm_session_id : string;
  sm_status : string;
  sm_type : string;
  sm_initiator : string;
  sm_receiver : string;
  sm_objective : string;
  sm_turn_limit : Z;
  sm_created_at : string;
  sm_updated_at : string;
  sm_display_names : list string;
  sm_max_turns : Z;
  sm_last_activity_at : string
}.

(** [SessionSummary] with its [__post_init__]. *)
Definition session_summary (key : bytes) (r : session_row) : result string SessionSummary :=
  let? objective := decrypt_field_or_plaintext key (s_objective r) in
  let turns := if (s_turn_limit r =? 0)%Z then 12%Z else s_turn_limit r in
  Ok {| sm_session_id := s_id r; sm_status := s_status r; sm_type := s_type r; sm_initiator := s_initiator r;
        sm_receiver := s_receiver r; sm_objective := or_str objective ""; sm_turn_limit := turns;
        sm_created_at := s_created_at r; sm_updated_at := s_updated_at r;
        sm_display_names := List.filter truthy [s_initiator r; s_receiver r];
        sm_max_turns := if (turns =? 12)%Z then 12%Z else turns; sm_last_activity_at := s_updated_at r |}.

Fixpoint all_ok {A B} (f : A -> result string B) (l : list A) : result string (list B) :=
  match l with
  | [] => Ok []
  | x :: rest => let? y := f x in let? ys := all_ok f rest in Ok (y :: ys)
  end.

Definition newest_first {A} (time : A -> string) (l : list A) : list A :=
  order_by (fun a b => String.leb (time b) (time a)) l.

Definition get_session_list (key : bytes) (t : tables) : result string (list SessionSummary) :=
  all_ok (session_summary key) (newest_first s_updated_at (sessions t)).

Definition get_session_detail (key : bytes) (session_id : string) (t : tables) : result string (option SessionSummary) :=
  match find_session session_id t with
  | None => Ok None
  | Some r => let? s := session_summary key r in Ok (Some s)
  end.

(** ** What needs the owner *)

Record NeedsYouItem := {
  ny_item_id : string;
  ny_session_id : string;
  ny_kind : string;
  ny_reason : string;
  ny_urgency : string;
  ny_created_at : string
}.

Definition needs_item (r : session_row) (kind reason urgency : string) : NeedsYouItem :=
  {| ny_item_id := "ny-" +:+ str_take 8 (s_id r); ny_session_id := s_id r; ny_kind := kind; ny_reason := reason;
     ny_urgency := urgency; ny_created_at := s_created_at r |}.

Definition session_item (own : option string) (r : session_row) : option NeedsYouItem :=
  let own_is u := bool_decide (own = Some u) in
  if String.eqb (s_status r) "peer_review" && own_is (s_receiver r) then
    Some (needs_item r "session_acceptance" ("Waiting for you to accept " +:+ s_initiator r +:+ "'s session request") "medium")
  else if String.eqb (s_status r) "needs_clarification" && own_is (s_initiator r) then
    Some (needs_item r "clarification" (s_receiver r +:+ " requested clarification on session parameters") "medium")
  else if String.eqb (s_status r) "awaiting_owner_approval"
          && (own_is (s_initiator r) || own_is (s_receiver r) || negb (truthy (default "" own))) then
    Some (needs_item r "approval" ("Policy gate paused session " +:+ str_take 8 (s_id r) +:+ " pending owner decision") "high")
  else None.

Definition security_item (r : event_row) : option NeedsYouItem :=
  if String.eqb (class_or_security (map_event_kind_to_presentation_class (e_kind r))) "security" then
    Some {| ny_item_id := "sec-" +:+ str_take 8 (e_id r); ny_session_id := e_session r; ny_kind := "security";
            ny_reason := "SECURITY ALERT [" +:+ e_kind r +:+ "]: Security violation recorded for actor @"
                         +:+ or_str (Some (e_actor r)) "unknown";
            ny_urgency := "high"; ny_created_at := e_created_at r |}
  else None.

Definition get_needs_you_items (own : option string) (t : tables) : list NeedsYouItem :=
  omap (session_item own) (newest_first s_created_at (sessions t))
  ++ omap security_item (newest_first e_created_at (session_events t)).

(** *** Pending approvals *)

Section approvals.
(** [parse_iso_utc]. *)
Context (parse_iso_utc : string -> option Z).

Definition undecided (now : Z) (r : approval_row) : bool :=
  match ap_decision r with
  | Some _ => false
  | None => match parse_iso_utc (ap_expires_at r) with
            | Some e => (now <? e)%Z || (e <=? now)%Z
            | None => negb (String.leb (ap_expires_at r) (iso now)) || String.leb (ap_expires_at r) (iso now)
            end
  end.

Definition stored_request (key : bytes) (r : approval_row) : option ApprovalRequest :=
  match ap_request r with
  | None | Some "" => None
  | Some _ => match decrypt_field_or_plaintext key (ap_request r) with
              | Ok (Some text) => v ← json_loads text; ApprovalRequest_validate v
              | _ => None
              end
  end.

(** The request rebuilt from the row. *)
Definition rebuilt_request (now : Z) (r : approval_row) : option ApprovalRequest :=
  let words := JStr ("Approval request " +:+ str_take 8 (ap_id r)) in
  ApprovalRequest_validate
    (JObj [("schema_version", JStr "1.1"); ("approval_id", JStr (ap_id r)); ("session_id", JStr (ap_session r));
           ("agent_id", opt_str (ap_agent r));
           ("action_class", JStr (or_str (Some (ap_action r)) "informational_relay"));
           ("summary", words); ("reason", words); ("risk_label", JStr "medium"); ("requested_scope", JObj []);
           ("expires_at", JStr (or_str (Some (ap_expires_at r)) (iso now)))]).

Definition approval_view (key : bytes) (now : Z) (r : approval_row) : option (ApprovalRequest * option string) :=
  match stored_request key r with
  | Some q => Some (q, ap_decision r)
  | None => q ← rebuilt_request now r; Some (q, ap_decision r)
  end.

Definition get_pending_approvals (key : bytes) (now : Z) (t : tables) : list (ApprovalRequest * option string) :=
  omap (approval_view key now)
    (List.filter (undecided now) (order_by (fun a b => String.leb (ap_id b) (ap_id a)) (approvals t))).
End approvals.

(** ** Peers and health *)

Definition get_peer_capabilities_recency (peer : string) (t : tables) : option string :=
  match find_first (fun r => String.eqb (pk_peer r) peer) (peer_capabilities t) with
  | Some r => if truthy (pk_fetched_at r) then Some (pk_fetched_at r) else None
  | None => None
  end.

Definition get_stale_peer_card_count (peer : string) (t : tables) : nat :=
  length (List.filter (fun r => String.eqb (pc_peer r) peer && String.eqb (pc_status r) "stale") (peer_agent_cards t)).

Record HealthSnapshot := {
  hs_keychain_ok : bool;
  hs_identity_ok : bool;
  hs_relay_reachable : bool;
  hs_node_reachable : bool;
  hs_pending_inbox_count : nat;
  hs_degraded_reason : option string
}.

(** The separator of the first text is not ASCII. *)
Definition health_snapshot (bullet profile_name : string) (has_identity relay_ok : bool) (username : option string)
    (needs_you pending : nat) : HealthSnapshot :=
  {| hs_keychain_ok := has_identity; hs_identity_ok := has_identity; hs_relay_reachable := relay_ok;
     hs_node_reachable := true; hs_pending_inbox_count := needs_you + pending;
     hs_degraded_reason :=
       if negb has_identity then Some ("No local identity initialized " +:+ bullet +:+ " Run First Flight setup")
       else if negb relay_ok then
         Some ("Profile '" +:+ or_str username profile_name +:+ "' local only " +:+ bullet +:+ " Relay offline")
       else None |}.
End projections.

Section timeline.
Context `{NodeEnv} `{Clock}.
Context (vault_key : option bytes).

(** ** Classes *)

Definition CLASSES : list string :=
  ["message"; "activity"; "checkpoint"; "artifact"; "approval"; "state_transition"; "security"].

Lemma stored_class kind k :
  event_kind_of kind = Some k ->
  map_event_kind_to_presentation_class kind = Ok (EVENT_KIND_MAPPING k).
Proof.
  intros Hk. assert (kind = match k with inl m => enum_value m | inr i => enum_value i end) as ->.
  { unfold event_kind_of in Hk. destruct (enum_of kind) as [m|] eqn:Em; [injection Hk as <-; by apply enum_of_Some|].
    destruct (enum_of kind) as [i|] eqn:Ei in Hk; [|done]. injection Hk as <-. by apply enum_of_Some. }
  destruct k as [m|i]; [destruct m|destruct i]; reflexivity.
Qed.

(** Among the kinds the log accepts, one alone is shown as a security event. *)
Lemma security_class kind :
  event_kind_of kind <> None ->
  class_or_security (map_event_kind_to_presentation_class kind) = "security" <-> kind = "adapter_error".
Proof.
  intros Hk. destruct (event_kind_of kind) as [k|] eqn:E; [|done]. rewrite (stored_class _ _ E). cbn.
  split; [|intros ->; vm_compute in E; injection E as <-; reflexivity].
  unfold event_kind_of in E. destruct (enum_of kind) as [m|] eqn:Em; [injection E as <-; by destruct m|].
  destruct (enum_of kind) as [i|] eqn:Ei in E; [|done]. injection E as <-. apply enum_of_Some in Ei as ->. by destruct i.
Qed.

(** ** Local rows *)

Definition without_local (t : tables) : tables := set_events (List.filter shown_event) t.

Lemma events_without_local sid t : events_of sid (without_local t) = List.filter shown_event (events_of sid t).
Proof. unfold events_of, without_local. cbn. apply list_filter_comm. Qed.

Lemma filter_idem {A} (p : A -> bool) l : List.filter p (List.filter p l) = List.filter p l.
Proof. induction l as [|x l IH]; [done|]. cbn. destruct (p x) eqn:E; cbn; rewrite ?E, ?IH; done. Qed.

Lemma visible_without_local sid t : visible sid (without_local t) = visible sid t.
Proof. unfold visible. by rewrite events_without_local, filter_idem. Qed.


(** ** Pages *)

Definition strictly (a b : event_row) : Prop := (e_order a < e_order b)%Z.

Lemma by_order_sorted l : StronglySorted le_order (by_order l).
Proof.
  unfold by_order. assert (StronglySorted le_order []) as Ha by constructor. revert Ha. generalize (@nil event_row).
  induction l as [|r l IH]; intros acc Ha; [done|]. cbn. by apply IH, insert_by_order_sorted.
Qed.

Lemma insert_by_order_perm r l : insert_by_order r l ≡ₚ r :: l.
Proof.
  induction l as [|x l IH]; cbn; [done|]. case_match; [done|]. rewrite IH. apply Permutation_swap.
Qed.

Lemma by_order_perm l : by_order l ≡ₚ l.
Proof.
  unfold by_order. enough (forall acc, fold_left (fun acc r => insert_by_order r acc) l acc ≡ₚ l ++ acc) as Hp
    by (rewrite Hp; by rewrite app_nil_r).
  induction l as [|r l IH]; intros acc; [done|]. cbn. rewrite IH, insert_by_order_perm. by rewrite Permutation_middle.
Qed.

(** The constraint [UNIQUE(session_id, event_order)] and the primary key. *)
Definition keyed (sid : string) (t : tables) : Prop :=
  NoDup (map e_order (events_of sid t)) /\ NoDup (map e_id (events_of sid t)).

Lemma NoDup_map_filter {A B} (f : A -> B) p l : NoDup (map f l) -> NoDup (map f (List.filter p l)).
Proof.
  induction l as [|x l IH]; cbn; [done|]. intros [Hx Hl]%NoDup_cons. destruct (p x); [|by apply IH].
  cbn. constructor; [|by apply IH]. intros (y & E & Hy)%list_elem_of_fmap. apply Hx. rewrite E.
  apply list_elem_of_fmap_2. apply list_elem_of_In, List.filter_In in Hy as [Hy _]. by apply list_elem_of_In.
Qed.

Lemma visible_keyed sid t : keyed sid t -> NoDup (map e_order (visible sid t)) /\ NoDup (map e_id (visible sid t)).
Proof.
  intros [Ho Hi]. unfold visible. split; rewrite (Permutation_map _ (by_order_perm _)); by apply NoDup_map_filter.
Qed.

Lemma visible_strict sid t : keyed sid t -> StronglySorted strictly (visible sid t).
Proof.
  intros [Ho _]%visible_keyed. pose proof (by_order_sorted (List.filter shown_event (events_of sid t))) as Hs.
  fold (visible sid t) in Hs. revert Ho. induction Hs as [|x l Hl IH Hx]; [constructor|]. cbn. intros [Hn Ho]%NoDup_cons.
  constructor; [by apply IH|]. rewrite Forall_forall in Hx |- *. intros y Hy. specialize (Hx y Hy).
  unfold le_order, strictly in *. assert (e_order x <> e_order y); [|lia]. intros E. apply Hn. rewrite E.
  by apply list_elem_of_fmap_2.
Qed.

Lemma filter_keeps_all {A} (p : A -> bool) l : Forall (fun x => p x = true) l -> List.filter p l = l.
Proof. induction 1 as [|x l Hx _ IH]; [done|]. cbn. by rewrite Hx, IH. Qed.
Lemma filter_none {A} (p : A -> bool) l : Forall (fun x => p x = false) l -> List.filter p l = [].
Proof. induction 1 as [|x l Hx _ IH]; [done|]. cbn. by rewrite Hx. Qed.

(** The rows before the first row of a tail are the rows in front of it. *)
Lemma rows_before P x S :
  StronglySorted strictly (P ++ x :: S) -> List.filter (fun r => (e_order r <? e_order x)%Z) (P ++ x :: S) = P.
Proof.
  intros Hs. rewrite List.filter_app, filter_keeps_all, filter_none; [by rewrite app_nil_r| |].
  - apply StronglySorted_app_1_r in Hs. inversion Hs as [|y l Hl Hx]; subst. constructor; [lia|].
    eapply Forall_impl; [exact Hx|]. cbn. intros y Hy. unfold strictly in Hy. lia.
  - apply Forall_forall. intros y Hy.
    pose proof (StronglySorted_app_1_elem_of _ _ _ y x Hs Hy ltac:(by left)) as Hyx. unfold strictly in Hyx. lia.
Qed.

Lemma reverse_take_reverse {A} n (l : list A) : reverse (take n (reverse l)) = drop (length l - n) l.
Proof. by rewrite take_reverse, reverse_involutive. Qed.

(** A page is the end of what precedes the asked position. *)
Lemma page_run sid size before P t :
  (1 <= size <= 2000)%Z ->
  List.filter (fun r => match before with Some o => (e_order r <? o)%Z | None => true end) (visible sid t) = P ->
  get_session_events_page vault_key sid size before t
  = Ok (map (ui_of_event vault_key) (drop (length P - Z.to_nat size) P), Z.to_nat size <? length P).
Proof.
  intros Hs HP. unfold get_session_events_page. replace ((1 <=? size) && (size <=? 2000))%Z with true by lia. cbn [negb].
  rewrite HP, take_take, Nat.min_l by lia. rewrite reverse_take_reverse. rewrite length_take, length_reverse.
  do 2 f_equal. destruct (Nat.ltb_spec (Z.to_nat size) (length P)); [apply Nat.ltb_lt|apply Nat.ltb_ge]; lia.
Qed.

(** The arena shows a tail of the history and knows whether it is all of it. *)
Definition arena_at (sid : string) (t : tables) (P S : list event_row) (a : arena) : Prop :=
  visible sid t = P ++ S /\ ar_events a = map (ui_of_event vault_key) S /\
  ar_has_older a = (0 <? length P) /\ (P <> [] -> S <> []).

Lemma orders_of S : omap ui_order (map (ui_of_event vault_key) S) = map e_order S.
Proof. induction S as [|r S IH]; [done|]. cbn. by f_equal. Qed.

Lemma ids_of S : map ui_event_id (map (ui_of_event vault_key) S) = map e_id S.
Proof. by rewrite map_map. Qed.

Lemma least_first x S : StronglySorted strictly (x :: S) -> foldr Z.min (e_order x) (map e_order S) = e_order x.
Proof.
  intros Hs. inversion Hs as [|y l Hl Hx]; subst. clear Hs Hl. induction Hx as [|y S Hy _ IH]; [done|]. cbn.
  unfold strictly in Hy. rewrite IH. lia.
Qed.

Lemma unseen_all ids l : (forall r, r ∈ l -> e_id r ∉ ids) ->
  List.filter (fun e => unseen ids (ui_event_id e)) (map (ui_of_event vault_key) l) = map (ui_of_event vault_key) l.
Proof.
  intros Hl. apply filter_keeps_all, Forall_forall. intros e (r & -> & Hr)%list_elem_of_fmap. cbn. unfold unseen.
  apply negb_true_iff. destruct (str_in (e_id r) ids) eqn:E; [|done]. apply str_in_spec in E. by apply Hl in Hr.
Qed.

(** The owner recorded nothing in the session. *)
Definition no_records (sid : string) (t : tables) : Prop := local_rows sid ["checkpoint"; "decision"; "outcome"] t = [].

Lemma no_records_history sid t : no_records sid t -> get_session_history_events vault_key sid t = Ok [].
Proof. intros Hr. unfold get_session_history_events. destruct vault_key; [|done]. by rewrite Hr. Qed.

Lemma arena_leb_strict a b : strictly a b -> arena_leb (ui_of_event vault_key a) (ui_of_event vault_key b) = true.
Proof.
  unfold strictly, arena_leb. intros Hab. cbn. replace (e_order a =? e_order b)%Z with false by lia. cbn. lia.
Qed.

Lemma order_shown S : StronglySorted strictly S ->
  order_by arena_leb (map (ui_of_event vault_key) S) = map (ui_of_event vault_key) S.
Proof.
  induction 1 as [|x S HS IH Hx]; [done|]. unfold order_by in *. cbn [map foldr]. rewrite IH.
  destruct S as [|y S]; [done|]. cbn [map insert_by]. rewrite arena_leb_strict; [done|]. by inversion Hx.
Qed.

Lemma open_at sid size t : (1 <= size <= 2000)%Z -> keyed sid t -> no_records sid t ->
  exists a P S, open_arena vault_key sid size t = Ok a /\ arena_at sid t P S a /\ length P = length (visible sid t) - Z.to_nat size.
Proof.
  intros Hs Hk Hr. unfold open_arena. rewrite (page_run _ _ None (visible sid t)); [|done|by apply filter_keeps_all, Forall_forall].
  rewrite no_records_history by done. cbn [rbind map fst snd]. rewrite app_nil_r.
  pose proof (visible_strict sid t Hk) as Hst. set (V := visible sid t) in *. set (n := Z.to_nat size).
  rewrite order_shown by (rewrite <- (take_drop (length V - n) V) in Hst; by eapply StronglySorted_app_1_r).
  eexists _, (take (length V - n) V), (drop (length V - n) V).
  split; [reflexivity|]. unfold arena_at. cbn [ar_events ar_has_older fst snd]. rewrite length_take.
  split_and!; [by rewrite take_drop|done| | |lia].
  - destruct (Nat.ltb_spec n (length V)), (Nat.ltb_spec 0 ((length V - n) `min` length V)); first [done|exfalso; lia].
  - intros HP E%(f_equal length). rewrite length_drop in E. cbn in E. apply HP, length_zero_iff_nil. rewrite length_take. lia.
Qed.

Lemma older_at sid size t P S a :
  (1 <= size <= 2000)%Z -> keyed sid t -> arena_at sid t P S a ->
  exists a' P' S', load_older_events vault_key sid size t a = Ok a' /\ arena_at sid t P' S' a' /\
    length P' = length P - Z.to_nat size.
Proof.
  intros Hs Hk (HV & He & Ho & HS). unfold load_older_events. rewrite He, orders_of.
  destruct S as [|x S].
  { destruct P as [|p P]; [|by destruct HS]. eexists a, [], []. split; [done|]. by unfold arena_at. }
  cbn [map]. rewrite Ho. destruct P as [|p P]; [exists a, [], (x :: S); split; [done|by unfold arena_at]|].
  pose proof (visible_strict sid t Hk) as Hst. rewrite HV in Hst.
  rewrite least_first by (by eapply StronglySorted_app_1_r). cbn [length Nat.ltb Nat.leb negb].
  set (Q := p :: P) in *. rewrite (page_run _ _ _ Q); [|done|by rewrite HV; apply rows_before].
  cbn [rbind fst snd]. set (n := Z.to_nat size). eexists _, (take (length Q - n) Q), (drop (length Q - n) Q ++ x :: S).
  split; [reflexivity|]. unfold arena_at. cbn [ar_events ar_has_older]. rewrite length_take. split_and!.
  - by rewrite app_assoc, take_drop.
  - change (ui_of_event vault_key x :: map (ui_of_event vault_key) S) with (map (ui_of_event vault_key) (x :: S)).
    rewrite ids_of, unseen_all, map_app; [done|]. intros r Hr Hin.
    pose proof (proj2 (visible_keyed sid t Hk)) as Hn. rewrite HV, map_app in Hn. apply NoDup_app in Hn as (_ & Hn & _).
    apply (Hn (e_id r)); [|exact Hin]. apply list_elem_of_fmap_2. rewrite <- (take_drop (length Q - n) Q).
    apply elem_of_app. by right.
  - destruct (Nat.ltb_spec n (length Q)), (Nat.ltb_spec 0 ((length Q - n) `min` length Q)); first [done|exfalso; lia].
  - intros _ [_ E]%app_eq_nil. done.
  - unfold n, Q. cbn [length]. lia.
Qed.

Lemma load_all_at fuel sid size t P S a :
  (1 <= size <= 2000)%Z -> keyed sid t -> arena_at sid t P S a -> length P <= fuel * Z.to_nat size ->
  load_all vault_key fuel sid size t a
  = Ok {| ar_events := map (ui_of_event vault_key) (visible sid t); ar_has_older := false |}.
Proof.
  intros Hs Hk. revert P S a. induction fuel as [|fuel IH]; intros P S a Ha Hf; cbn [load_all].
  - destruct P as [|p P]; [|cbn in Hf; lia]. destruct Ha as (HV & He & Ho & _). rewrite HV. cbn in *. destruct a. cbn in *.
    by subst.
  - destruct (older_at sid size t P S a Hs Hk Ha) as (a' & P' & S' & -> & Ha' & Hl). cbn [rbind].
    eapply IH; [exact Ha'|]. lia.
Qed.

(** Reading page by page reads the whole history of a session in which the
    owner recorded nothing: with any page size from 1 to 2000, opening the arena
    and asking for older events (as often as the history has pages, or more
    often) ends with every event of the session that is not local, each once and
    in the order of the log, and with the arena knowing that nothing older is
    left. *)
Theorem arena_reads_everything sid size fuel t :
  (1 <= size <= 2000)%Z -> keyed sid t -> no_records sid t -> length (visible sid t) <= S fuel * Z.to_nat size ->
  (let? a := open_arena vault_key sid size t in load_all vault_key fuel sid size t a)
  = Ok {| ar_events := map (ui_of_event vault_key) (visible sid t); ar_has_older := false |}.
Proof.
  intros Hs Hk Hr Hf. destruct (open_at sid size t Hs Hk Hr) as (a & P & S & -> & Ha & Hl). cbn [rbind].
  eapply load_all_at; [done|done|exact Ha|]. lia.
Qed.

(** ** The queue *)

(** Among the events the log accepts, the failures of an adapter are the only
    security alerts of the queue: each has its entry, and what the audit log
    records as a security rejection has none. *)
Theorem alerts_are_adapter_errors own t :
  Forall (fun r => event_kind_of (e_kind r) <> None) (session_events t) ->
  (forall r, r ∈ session_events t -> e_kind r = "adapter_error" ->
     exists i, i ∈ get_needs_you_items own t /\ ny_kind i = "security" /\ ny_session_id i = e_session r) /\
  (forall i, i ∈ get_needs_you_items own t -> ny_kind i = "security" ->
     exists r, r ∈ session_events t /\ e_kind r = "adapter_error" /\ ny_session_id i = e_session r).
Proof.
  rewrite Forall_forall. intros Hk. unfold get_needs_you_items. split.
  - intros r Hr E. assert (exists i, security_item r = Some i /\ ny_kind i = "security" /\ ny_session_id i = e_session r)
      as (i & Hi & H1 & H2).
    { unfold security_item. rewrite (proj2 (security_class (e_kind r) (Hk r Hr)) E), String.eqb_refl. eauto. }
    exists i. split; [|done]. apply elem_of_app. right. apply list_elem_of_omap. exists r. split; [|exact Hi].
    by apply order_by_elem.
  - intros i [Hi|Hi]%elem_of_app Es; apply list_elem_of_omap in Hi as (r & Hr & Hi); apply order_by_elem in Hr.
    + unfold session_item, needs_item in Hi. repeat case_match; simplify_eq.
    + unfold security_item in Hi. destruct (String.eqb _ _) eqn:E; [|done]. injection Hi as <-.
      apply String.eqb_eq, security_class in E; [|by apply Hk]. by exists r.
Qed.
End timeline.

Module ProjectionDemo.
Import AuditDemo SchemaDemo IngestDemo.
#[local] Existing Instances demo_env demo_clock.

(** The log of s1: an event of a peer, then a private note. *)
Definition t2 : tables := HistoryDemo.two_events.

Example note_not_shown :
  map ui_kind (get_session_events (Some "key") "s1" [] None None t2) = ["finding"] /\
  map ui_content (get_session_events (Some "key") "s1" [] None None t2) = [Some "g"] /\
  match get_session_events_page (Some "key") "s1" 1 None t2 with Ok (l, older) => (length l, older) = (1, false) | _ => False end.
Proof. vm_compute. split_and!; reflexivity. Qed.


(** Three events, one per page. *)
Definition add (actor kind vis : string) (seq : option Z) (s : node) : node :=
  (@append_session_event demo_env "key" "s1" actor None kind vis None None seq s).2.
Definition logged : tables :=
  db (add "alice" "question" "peer_visible" (Some 3%Z) (add "alice" "question" "peer_visible" (Some 2%Z)
        (add "alice" "question" "peer_visible" (Some 1%Z) demo_node))).

Lemma arena_reads_everything_witness :
  (let? a := open_arena (Some "key") "s1" 1 logged in load_all (Some "key") 2 "s1" 1 logged a)
  = Ok {| ar_events := map (ui_of_event (Some "key")) (visible "s1" logged); ar_has_older := false |} /\
  length (visible "s1" logged) = 3.
Proof.
  split; [|vm_compute; reflexivity]. apply (arena_reads_everything (Some "key") "s1" 1 2 logged).
  - lia.
  - split; vm_compute; repeat constructor; set_solver.
  - vm_compute. reflexivity.
  - vm_compute. lia.
Defined.

(** A checkpoint before the page moves the position the next page is read from:
    the event between the two is never shown, and the arena believes it has
    reached the beginning. *)
Definition with_checkpoint : tables :=
  db (add "alice" "question" "peer_visible" (Some 2%Z) (add "alice" "question" "peer_visible" (Some 1%Z)
        (add "bob" "checkpoint" "local_only" None demo_node))).

Example checkpoint_hides_events :
  map e_order (visible "s1" with_checkpoint) = [1; 2]%Z /\
  match (let? a := open_arena (Some "key") "s1" 1 with_checkpoint in load_all (Some "key") 9 "s1" 1 with_checkpoint a) with
  | Ok a => (map ui_order (ar_events a), ar_has_older a) = ([Some 0; Some 2]%Z, false)
  | Err _ => False
  end.
Proof. vm_compute. split; reflexivity. Qed.

(** All identifiers of the program begin with the same five characters, so that
    the items of two sessions can have one id. *)
Example item_ids_collide :
  map ny_item_id (get_needs_you_items (Some "bob")
    (set_sessions (fun _ => [session "sess_abc123" "peer_review"; session "sess_abc987" "peer_review"]) no_tables))
  = ["ny-sess_abc"; "ny-sess_abc"].
Proof. vm_compute. reflexivity. Qed.

(** A rejected signature is in the audit log alone. *)
Example rejection_not_in_queue :
  let t := db (@write_audit_event demo_env "key" "security_rejection" "bad signature" (Some "s1") (Some "eve") None
                 (Some "s1") demo_node).2 in
  length (audit_events t) = 1 /\ get_needs_you_items (Some "bob") t = [].
Proof. vm_compute. split; reflexivity. Qed.
End ProjectionDemo.
