(* ===== verification/NodeApi.v ===== *)
(** * The routes of the node

    The routes of [kin/node/routes.py] beside the tasks ([Tasks]): the agent
    card, the capabilities, the published cards and the session envelopes, and
    the synchronization pass of [kin/node/app.py].  A handler answers with a
    status code and a body, an exception it does not handle is an error; the
    framework gives it the parsed body or the failure to parse it.  The key
    functions of the routes raise on a stored key that is no key: where the
    called function takes a total key function, the handler repeats the one
    place at which it asks. *)

From Stdlib Require Import Ascii String ZArith QArith Lia.
From stdpp Require Import base gmap sets list strings.
From S2P Require Import Prelude Regex Codec PyValue Schemas Cards Transition Reducer Compatibility.
From S2P Require Import Store AuditLog SessionStore ArtifactVault PeerCards Registry Keychain History.
From S2P Require Import Relay Identity Ingest RetryQueue Offers Senders Backend Tasks Pairing.

#[local] Open Scope nat_scope.

(** ** Discovery *)

Definition opt_text (o : option string) : json := match o with Some s => JStr s | None => JNull end.

(** [get_agent_card]. *)
Definition get_agent_card (t : tables) : Z * document :=
  match head (identity t) with
  | None => (404%Z, detail "KIN identity is not initialized.")
  | Some r =>
      (200%Z,
       [("name", JStr (i_username r)); ("username", JStr (i_username r)); ("public_key", opt_text (i_public_key r));
        ("endpoint", JStr (default "http://127.0.0.1:8321" (get_setting "public_endpoint" t)));
        ("capabilities", JList [JStr "info_request"; JStr "negotiation"]);
        ("protocol_version", JStr (or_str (i_protocol_version r) "1.1"))])
  end.

Definition node_capabilities : CapabilityAdvertisement :=
  {| ad_protocol_version := "1.1";
     supported_features := ["session_v1"; "jcs_signatures"; "vault_gcm"; "direct_transport"; "relay_fallback"];
     max_turn_limit := 12 |}.

(** [get_v11_capabilities]. *)
Definition get_v11_capabilities : Z * document := (200%Z, CapabilityAdvertisement_dump node_capabilities).

Section api.
Context `{NodeEnv} `{Jcs} `{Ed25519} `{Clock} `{X25519}.
Context (lax_int : json -> option Z).
Context (public_of_bytes : bytes -> option public_key) (private_of_bytes : bytes -> option private_key).
Context (http_post : nat -> string -> json -> http_result).
Context (http_get : nat -> string -> list (string * string) -> http_result).
Context (post_content : nat -> string -> string -> list (string * string) -> http_result).
Context (kr : backend) (urandom32 : nat -> bytes) (profile : string).

(** ** Keys *)

(** [Ed25519PublicKey.from_public_bytes(bytes.fromhex(text))]. *)
Definition key_of_hex (text : string) : result string public_key :=
  match fromhex text with
  | Some b => match public_of_bytes b with Some k => Ok k | None => Err "ValueError" end
  | None => Err "ValueError"
  end.

(** The key of a contact whose fingerprint was verified. *)
Definition contact_key (username : string) (t : tables) : result string (option public_key) :=
  match find_contact username t with
  | Some c =>
      match c_public_key c with
      | Some (String _ _ as text) =>
          if truthy (default "" (c_verified_at c)) then let? k := key_of_hex text in Ok (Some k) else Ok None
      | _ => Ok None
      end
  | None => Ok None
  end.

(** The key function of the session route: the identity of the node first. *)
Definition session_key (username : string) (t : tables) : result string (option public_key) :=
  match find_first (fun r => String.eqb (i_username r) username) (identity t) with
  | Some r =>
      match i_public_key r with
      | Some (String _ _ as text) => let? k := key_of_hex text in Ok (Some k)
      | _ => contact_key username t
      end
  | None => contact_key username t
  end.

(** A name as the body has it, bound to the parameter of the query. *)
Definition session_key_of (name : json) (t : tables) : result string (option public_key) :=
  let? bound := Ingest.bind_text name in
  match bound with Some u => session_key u t | None => Ok None end.

Definition known {A} (r : result string (option A)) : option A :=
  match r with Ok o => o | Err _ => None end.

(** ** Published cards *)

(** The loop over [list_cards]. *)
Definition published_documents (l : list card_entry) : result string (list json) :=
  foldr (fun (c : card_entry) (acc : result string (list json)) =>
           match ag_published_card (ce_row c) with
           | Some (String _ _ as text) =>
               let? rest := acc in
               match json_loads text with Some v => Ok (v :: rest) | None => Err "JSONDecodeError" end
           | _ => acc
           end) (Ok []) l.

(** [get_published_agent_cards]: it only reads. *)
Definition get_published_agent_cards (headers : list (string * string)) (now : Z) (t : tables)
  : result string (Z * document) :=
  match verify_signed_auth_headers parse_utc headers (fun u => known (contact_key u t)) now 300 with
  | Err message =>
      (* the key is asked for once the timestamp was accepted *)
      let? _ := if String.eqb message "Public key not found or contact untrusted"
                then contact_key (default "" (obj_get "x-username" (header_map headers))) t
                else Ok None in
      Ok (403%Z, detail message)
  | Ok _ =>
      let owner := match head (identity t) with Some r => i_username r | None => "unknown" end in
      let? cards := published_documents (list_cards false t) in
      Ok (200%Z, [("schema_version", JStr "1.1"); ("owner_username", JStr owner); ("cards", JList cards)])
  end.

(** ** Session envelopes *)

Definition FORBIDDEN : list string :=
  ["UNPAIRED_SENDER"; "UNAUTHORIZED_ACTOR"; "UNAUTHORIZED_AGENT"; "UNAUTHORIZED_ROLE_ACTION"].
Definition CONFLICTS : list string :=
  ["DUPLICATE_SEQUENCE"; "OUT_OF_ORDER_SEQUENCE"; "INVALID_STATE_TRANSITION"; "TERMINAL_STATE_IMMUTABLE"].

Definition status_code (ack : TransportAcknowledgement) : Z :=
  if String.eqb (ack_status ack) "rejected" then
    match ack_error ack with
    | Some code =>
        if str_in code ["INVALID_SIGNATURE"; "PUBLIC_KEY_NOT_FOUND"] then 401
        else if str_in code FORBIDDEN then 403
        else if str_in code CONFLICTS then 409 else 400
    | None => 400
    end
  else 200.

(** [b"0" * 32]. *)
Definition FALLBACK_KEY : bytes := "00000000000000000000000000000000".

(** [try: get_or_create_vault_key .. except Exception: b"0" * 32]. *)
Definition route_vault_key : P bytes :=
  mcatch (in_keychain (get_or_create_vault_key kr urandom32 profile)) (fun _ => ret FALLBACK_KEY).

(** A first envelope of a session asks for the key of its sender before the
    pipeline does. *)
Definition first_request (raw : document) (t : tables) : result string unit :=
  let? key := Ingest.bind_text (raw_get "session_id" (JStr "") raw) in
  match (match key with Some k => find_session k t | None => None end) with
  | Some _ => Ok tt
  | None =>
      if bool_decide (raw_get "kind" (JStr "") raw = JStr "task_request")
      then let? _ := session_key_of (raw_get "actor_username" (JStr "") raw) t in Ok tt
      else Ok tt
  end.

(** [ingest_envelope] under the route's key function, of a keychain and a
    database. *)
Definition ingest_for_route (vault_key : bytes) (raw : document) (now : Z) (kc : keychain)
  : N TransportAcknowledgement :=
  let* keys := select (fun t name => known (session_key_of name t)) in
  ingest_envelope vault_key lax_int public_of_bytes private_of_bytes kc http_post 2
    {| ia_keys := keys; ia_x25519 := None; ia_owner := None; ia_relay := None |} raw now.

(** [process_v11_session_envelope]; the body of the answer is the
    acknowledgement. *)
Definition process_v11_session_envelope (body : result string json) (now : Z) : P (Z * TransportAcknowledgement) :=
  with_connection (
    let* raw_body := mlift body in
    let* vault_key := route_vault_key in
    match raw_body with
    | JObj raw =>
        let* first := in_node (select (first_request raw)) in
        let* _ := mlift first in
        let* key := in_node (select (session_key_of (raw_get "actor_username" (JStr "") raw))) in
        let* ack := fun s => in_node (ingest_for_route vault_key raw now (p_keys s)) s in
        match ack_error ack, key with
        | Some "PUBLIC_KEY_NOT_FOUND", Err e => mraise e
        | _, _ => ret (status_code ack, ack)
        end
    | _ => mraise "AttributeError"
    end).

(** ** The synchronization pass *)

(** The key function of the pass: a contact counts as verified when the column
    is not null, an empty text included.  A stored key that is no key makes
    the processing of the message fail, with a record in the audit log; here
    the message is rejected.  In both cases it stays in the mailbox. *)
Definition pass_key (me : string) (key : private_key) (t : tables) (name : json) : option public_key :=
  if bool_decide (name = JStr me) then Some (ed_public key)
  else match Ingest.bind_text name with
       | Ok (Some u) =>
           match find_contact u t with
           | Some c =>
               match c_verified_at c, c_public_key c with
               | Some _, Some (String _ _ as text) => known (let? k := key_of_hex text in Ok (Some k))
               | _, _ => None
               end
           | None => None
           end
       | _ => None
       end.

(** [_synchronize_once].  [opened] is the outcome of opening the database and
    [relay_env] the variable [KIN_RELAY_URL]; an exception of the pass is
    logged and forgotten. *)
Definition synchronize_body (relay_env : option string) (now : Z) : P unit :=
  let* me := in_node (select (fun t => head (identity t))) in
  match me with
  | None => ret tt
  | Some r =>
      let* seed := in_keychain (load_private_key profile) in
      let* key := mlift (match private_of_bytes seed with Some k => Ok k | None => Err "ValueError" end) in
      let* x := in_keychain (load_x25519_private_key profile) in
      let* vault_key := in_keychain (get_or_create_vault_key kr urandom32 profile) in
      let relay_url := strip_slash (default "http://localhost:8000" relay_env) in
      in_node (retry_outbound_queue vault_key http_post
                 {| sw_now := None; sw_owner := Some (i_username r); sw_x25519 := Some x; sw_relay := Some relay_url |}) ;;;
      let sd := {| sd_username := i_username r; sd_key := key; sd_x25519 := x; sd_endpoint := None;
                   sd_relay := None; sd_recipient := None |} in
      let* keys := in_node (select (pass_key (i_username r) key)) in
      (fun s => in_node (poll_relay_and_process vault_key lax_int public_of_bytes private_of_bytes (p_keys s)
                           http_post http_get post_content sd relay_url keys now) s) ;;;
      ret tt
  end.

Definition synchronize_once (profile_name : option string) (has_db : bool) (opened : result string unit)
    (relay_env : option string) (now : Z) : P unit :=
  match profile_name, has_db with
  | Some (String _ _), true =>
      mlift opened ;;;
      with_connection (mcatch (synchronize_body relay_env now) (fun _ => ret tt))
  | _, _ => ret tt
  end.
End api.

(** ** Frames over the profile *)

Definition on_node (R : node -> node -> Prop) (s s' : profile_state) : Prop := R (p_node s) (p_node s').

#[export] Instance on_node_preorder R `{!PreOrder R} : PreOrder (on_node R).
Proof. split; [intros s; unfold on_node; reflexivity|]. intros s1 s2 s3 E1 E2. unfold on_node in *. by etrans. Qed.

Lemma in_node_keeps R {A} (m : N A) : keeps R m -> keeps (on_node R) (in_node m).
Proof. intros Hm s. specialize (Hm (p_node s)). unfold on_node, in_node. by destruct (m (p_node s)) as [r n]. Qed.

Lemma in_keychain_keeps R `{!PreOrder R} {A} (m : K A) : keeps (on_node R) (in_keychain m).
Proof. intros s. unfold on_node, in_keychain. destruct (m (p_keys s)). cbn. reflexivity. Qed.

(** A connection that starts from the committed tables ends on them. *)
Lemma connection_closes {A} (m : P A) s r s' :
  with_connection m s = (r, s') ->
  exists s1, m s = (r, s1) /\ db (p_node s') = committed (p_node s1) /\ committed (p_node s') = committed (p_node s1).
Proof.
  unfold with_connection, mfinally. destruct (m s) as [r1 s1]. unfold in_node, rollback, mmodify.
  intros [= <- <-]. by exists s1.
Qed.

(** ** Session envelopes *)

Section session_route.
Context `{NodeEnv} `{Jcs} `{Ed25519} `{Clock} `{X25519}.
Context (lax_int : json -> option Z).
Context (public_of_bytes : bytes -> option public_key) (private_of_bytes : bytes -> option private_key).
Context (http_post : nat -> string -> json -> http_result).
Context (kr : backend) (urandom32 : nat -> bytes) (profile : string).

Abbreviation route := (process_v11_session_envelope lax_int public_of_bytes private_of_bytes http_post kr urandom32 profile).
Abbreviation session_keys t := (fun name => known (session_key_of public_of_bytes name t)).

(** Whose envelopes the route takes: the identity of the node, and contacts
    with a verified fingerprint. *)
Definition known_sender (t : tables) (u : string) (k : public_key) : Prop :=
  (exists r text, r ∈ identity t /\ i_username r = u /\ i_public_key r = Some text /\
     key_of_hex public_of_bytes text = Ok k) \/
  (exists c text v, c ∈ contacts t /\ c_username c = u /\ c_verified_at c = Some v /\ v <> "" /\
     c_public_key c = Some text /\ key_of_hex public_of_bytes text = Ok k).

Lemma contact_key_Some u t k :
  contact_key public_of_bytes u t = Ok (Some k) ->
  exists c text v, c ∈ contacts t /\ c_username c = u /\ c_verified_at c = Some v /\ v <> "" /\
     c_public_key c = Some text /\ key_of_hex public_of_bytes text = Ok k.
Proof.
  unfold contact_key. destruct (find_contact u t) as [c|] eqn:Ef; [|done].
  apply find_first_Some in Ef as [Hin Hu%String.eqb_eq].
  destruct (c_public_key c) as [[|a text]|] eqn:Ep; try done.
  destruct (c_verified_at c) as [[|b v]|] eqn:Ev; try done. cbn [truthy default].
  cbn. destruct (key_of_hex _ _) as [k'|] eqn:Ek; [|done]. intros [= <-].
  exists c, (String a text), (String b v). by split_and!.
Qed.

Lemma session_keys_known t u k : session_keys t (JStr u) = Some k -> known_sender t u k.
Proof.
  unfold session_key_of. cbn. unfold session_key.
  destruct (find_first _ (identity t)) as [r|] eqn:Ef.
  - apply find_first_Some in Ef as [Hin Hu%String.eqb_eq]. destruct (i_public_key r) as [[|a text]|] eqn:Ep.
    2: { cbn. destruct (key_of_hex _ _) as [k'|] eqn:Ek; [|done]. intros [= <-]. left. by exists r, (String a text). }
    all: destruct (contact_key _ u t) as [[k'|]|] eqn:Ec; try done; intros [= <-]; right; by apply contact_key_Some.
  - destruct (contact_key _ u t) as [[k'|]|] eqn:Ec; try done; intros [= <-]; right; by apply contact_key_Some.
Qed.

(** What a verified envelope was checked against. *)
Lemma verified_signed raw get sid parts ve :
  verify_and_build_envelope raw get sid parts = Ok ve ->
  get (env_actor_username (ve_envelope ve)) = Some (ve_key ve) /\ verify_envelope_signature raw (ve_key ve) = true.
Proof.
  unfold verify_and_build_envelope. destruct (SessionEnvelope_validate raw) as [env|]; [|done].
  destruct (negb _); [done|]. destruct (compute_content_hash _); [|done]. destruct (negb _); [done|].
  destruct (obj_get _ parts); [|done]. destruct (negb _); [done|].
  destruct (get (env_actor_username env)) as [k|] eqn:Eg; [|done].
  destruct (_ || _) eqn:Eo; [done|]. apply orb_false_iff in Eo as [_ Hs%negb_false_iff]. by intros [= <-].
Qed.

(** A row that holds an envelope signed by a known sender, or the outcome of
    its session. *)
Definition from_known (vault_key : bytes) (t : tables) (raw : document) (row : event_row) : Prop :=
  exists env k, known_sender t (env_actor_username env) k /\ verify_envelope_signature raw k = true /\
    SessionEnvelope_validate raw = Some env /\
    (row_of_envelope vault_key env row \/ system_outcome (env_session_id env) row).

Lemma verified_envelope raw get sid parts ve :
  verify_and_build_envelope raw get sid parts = Ok ve -> SessionEnvelope_validate raw = Some (ve_envelope ve).
Proof.
  unfold verify_and_build_envelope. destruct (SessionEnvelope_validate raw) as [env|]; [|done].
  destruct (negb _); [done|]. destruct (compute_content_hash _); [|done]. destruct (negb _); [done|].
  destruct (obj_get _ parts); [|done]. destruct (negb _); [done|].
  destruct (get _) as [k|]; [|done]. destruct (_ || _); [done|]. by intros [= <-].
Qed.

Lemma from_verified_known vault_key t raw row :
  from_verified vault_key (session_keys t) raw row -> from_known vault_key t raw row.
Proof.
  intros (sid & parts & ve & Hv & Hr). exists (ve_envelope ve), (ve_key ve).
  pose proof (verified_signed _ _ _ _ _ Hv) as [Hg Hs]. pose proof (verified_envelope _ _ _ _ _ Hv).
  split_and!; [by apply session_keys_known|done..].
Qed.

(** The vault key of the profile, or the fallback. *)
Lemma route_vault_run s :
  exists k kc, route_vault_key kr urandom32 profile s = (Ok k, {| p_node := p_node s; p_keys := kc |}) /\
    (get_or_create_vault_key kr urandom32 profile (p_keys s) = (Ok k, kc) \/
     (exists e, get_or_create_vault_key kr urandom32 profile (p_keys s) = (Err e, kc)) /\ k = FALLBACK_KEY).
Proof.
  unfold route_vault_key, mcatch, in_keychain. destruct (get_or_create_vault_key _ _ _ _) as [[k|e] kc].
  - exists k, kc. split; [done|by left].
  - exists FALLBACK_KEY, kc. split; [done|]. right. split; [by exists e|done].
Qed.

(** The vault key a request uses, and the keychain it leaves. *)
Definition route_key_is (s : profile_state) (k : bytes) (kc : keychain) : Prop :=
  get_or_create_vault_key kr urandom32 profile (p_keys s) = (Ok k, kc) \/
  (exists e, get_or_create_vault_key kr urandom32 profile (p_keys s) = (Err e, kc)) /\ k = FALLBACK_KEY.

Definition route_args (t : tables) : ingest_args :=
  {| ia_keys := session_keys t; ia_x25519 := None; ia_owner := None; ia_relay := None |}.

Abbreviation envelope_route := (ingest_for_route lax_int public_of_bytes private_of_bytes http_post).

Lemma ingest_for_route_run vault_key raw now kc n :
  envelope_route vault_key raw now kc n =
  ingest_envelope vault_key lax_int public_of_bytes private_of_bytes kc http_post 2
    (route_args (db n)) raw now n.
Proof. done. Qed.

(** The run of the handler: it stops before the ingestion with the database
    as it was, or ends as the ingestion did. *)
Lemma session_handler_run body now s r s' :
  route body now s = (r, s') ->
  exists n1, db (p_node s') = committed n1 /\ committed (p_node s') = committed n1 /\
  (((exists e, r = Err e) /\ n1 = p_node s) \/
   exists raw k kc x, body = Ok (JObj raw) /\ route_key_is s k kc /\
     envelope_route k raw now kc (p_node s) = (x, n1) /\
     forall c ack, r = Ok (c, ack) -> x = Ok ack /\ c = status_code ack).
Proof.
  intros (s1 & Hm & Hdb & Hc)%connection_closes. exists (p_node s1). split_and!; [done..|]. clear Hdb Hc s'.
  unfold bind at 1, mlift at 1 in Hm. destruct body as [raw_body|e]; [|injection Hm as <- <-; eauto].
  unfold bind at 1 in Hm. destruct (route_vault_run s) as (k & kc & Hk & Hkey).
  rewrite Hk in Hm. destruct raw_body as [| | | | | |raw]; try (injection Hm as <- <-; left; split; [eauto|done]).
  unfold bind, in_node, select, mgets, mlift, mraise, ret in Hm. cbn [p_node p_keys] in Hm.
  destruct (first_request _ raw (db (p_node s))) as [u|e]; [|injection Hm as <- <-; left; split; [eauto|done]].
  destruct (envelope_route k raw now kc (p_node s)) as [x n1] eqn:Ei.
  assert (p_node s1 = n1) as ->.
  { destruct x as [ack|e]; [|by injection Hm as _ <-]. repeat case_match; by injection Hm as _ <-. }
  right. exists raw, k, kc, x. split_and!; [done..|].
  intros c ack ->. destruct x as [ack'|e]; [|done].
  repeat case_match; inversion Hm; by subst.
Qed.

(** C1: The session route lets only the owner and contacts with a verified
    fingerprint write.  Whatever the body, the time and the keychain are, the
    stored log is kept and everything the request adds to it is committed; a
    new event holds the fields of an envelope whose signature verifies under
    the stored key of the identity or of such a contact, or is the outcome of
    its session, or the node's own signed acceptance of an offer.  Status 200
    is answered only when the event of a verified envelope of a known sender
    is in the committed log.  Events are encrypted under the vault key of the
    profile, and under a constant when the keychain fails. *)
Theorem session_route_sound body now s r s' :
  committed (p_node s) = db (p_node s) -> route body now s = (r, s') ->
  let t := db (p_node s) in
  committed (p_node s') = db (p_node s') /\
  session_events t `prefix_of` session_events (db (p_node s')) /\
  (forall row, row ∈ session_events (db (p_node s')) ->
     row ∈ session_events t \/
     exists raw k kc, body = Ok (JObj raw) /\ route_key_is s k kc /\
       (from_known k t raw row \/ own_acceptance k public_of_bytes private_of_bytes kc (route_args t) now row)) /\
  (forall ack, r = Ok (200%Z, ack) ->
     exists raw env k kc pk, body = Ok (JObj raw) /\ SessionEnvelope_validate raw = Some env /\
       known_sender t (env_actor_username env) pk /\ verify_envelope_signature raw pk = true /\
       route_key_is s k kc /\ in_committed_log k env (p_node s')).
Proof.
  intros Hs (n1 & Hdb & Hc & Hrun)%session_handler_run t. split; [congruence|]. rewrite Hdb.
  destruct Hrun as [[[e ->] ->]|(raw & k & kc & x & -> & Hk & Hi & Hr)].
  { rewrite Hs. split_and!; [done|auto|done]. }
  rewrite ingest_for_route_run in Hi.
  pose proof (keeps_run _ _ _ _ _ (envelope_log _ _ _ _ _ _ _ _ _ _) Hi) as (new & El & Hnew).
  destruct (keeps_run _ _ _ _ _ (ingest_durable _ _ _ _ _ _ _ _ _ _) Hi) as [D1 D2]; [by rewrite Hs|].
  rewrite Hs in D1. split_and!; [done| |].
  - intros row Hrow. apply (elem_of_prefix _ _ _ Hrow) in D2. rewrite El in D2.
    apply elem_of_app in D2 as [Hold|Hadd]; [by left|right]. rewrite Forall_forall in Hnew.
    exists raw, k, kc. split_and!; [done..|]. destruct (Hnew _ Hadd) as [Hv|Ho]; [left|by right].
    by apply from_verified_known.
  - intros ack ->. destruct (Hr _ _ eq_refl) as [-> Hcode].
    destruct (ingest_status _ _ _ _ _ _ _ _ _ _ _ _ _ Hi) as [Hst|Hst].
    2: { unfold status_code in Hcode. rewrite Hst in Hcode. cbn in Hcode. by repeat case_match. }
    destruct (delivered_durable _ _ _ _ _ _ _ _ _ _ _ _ _ Hi Hst) as (env & (sid & parts & ve & Hv & <-) & Hin).
    pose proof (verified_signed _ _ _ _ _ Hv) as [Hg Hsig]. exists raw, (ve_envelope ve), k, kc, (ve_key ve).
    split_and!; [done|by eapply verified_envelope|by apply session_keys_known|done..|].
    destruct Hin as [Hp Hin]. split; [by rewrite Hdb, Hc|by rewrite Hc].
Qed.
End session_route.

(** ** Published cards *)

Section cards_route.
Context `{NodeEnv} `{Ed25519} `{Clock} (public_of_bytes : bytes -> option public_key).

Abbreviation cards_route := (get_published_agent_cards public_of_bytes).

(** What the route reads of an agent. *)
Definition public_columns (r : agent_row) : string * bool * option string :=
  (ag_id r, ag_enabled r, ag_published_card r).

Definition same_public (r r' : agent_row) : Prop := public_columns r = public_columns r'.

Lemma insert_public x x' l l' :
  same_public x x' -> Forall2 same_public l l' ->
  Forall2 same_public (insert_by (fun a b => String.leb (ag_id a) (ag_id b)) x l)
                      (insert_by (fun a b => String.leb (ag_id a) (ag_id b)) x' l').
Proof.
  intros Hx. induction 1 as [|y y' l l' Hy Hl IH]; cbn [insert_by]; [by repeat constructor|].
  assert (ag_id x = ag_id x' /\ ag_id y = ag_id y') as [-> ->] by (injection Hx; injection Hy; done).
  destruct (String.leb _ _); by repeat constructor.
Qed.

Lemma listed_public t t' :
  map public_columns (agents t) = map public_columns (agents t') ->
  published_documents (list_cards false t) = published_documents (list_cards false t').
Proof.
  intros Ha. assert (Hf : Forall2 same_public (agents t) (agents t')).
  { revert Ha. generalize (agents t) (agents t'). intros l. induction l as [|r l IH]; intros [|r' l'] E; try done.
    cbn in E. injection E as ? ? ? E. constructor; [unfold same_public, public_columns; congruence|auto]. }
  assert (Hs : Forall2 same_public
    (order_by (fun a b => String.leb (ag_id a) (ag_id b)) (List.filter (fun r => false || ag_enabled r) (agents t)))
    (order_by (fun a b => String.leb (ag_id a) (ag_id b)) (List.filter (fun r => false || ag_enabled r) (agents t')))).
  { clear Ha. induction Hf as [|r r' l l' Hr Hl IH]; cbn; [constructor|].
    assert (ag_enabled r = ag_enabled r') as -> by (injection Hr; done). destruct (ag_enabled r'); [|done].
    by apply insert_public. }
  unfold list_cards, published_documents. clear Hf Ha. induction Hs as [|r r' l l' Hr Hl IH]; cbn; [done|].
  assert (ag_published_card r = ag_published_card r') as -> by (injection Hr; done).
  cbn in IH. by rewrite IH.
Qed.

Lemma published_elem l vs :
  published_documents l = Ok vs ->
  forall v, v ∈ vs <-> exists c text, c ∈ l /\ ag_published_card (ce_row c) = Some text /\ text <> "" /\
                         json_loads text = Some v.
Proof.
  induction l as [|c l IH] in vs |- *; cbn.
  - intros [= <-] v. split; [by intros ?%elem_of_nil|by intros (? & ? & ?%elem_of_nil & _)].
  - unfold published_documents in IH. destruct (ag_published_card (ce_row c)) as [[|a text]|] eqn:Ep.
    2: { intros (rest & Hr & Hk)%rbind_Ok v. destruct (json_loads _) as [w|] eqn:Ew; [|done]. injection Hk as <-.
         rewrite elem_of_cons, (IH _ Hr). split.
         - intros [->|(c' & text' & Hc & Hrest)]; [exists c, (String a text); by split_and!; [left|..]|].
           exists c', text'. split; [by right|done].
         - intros (c' & text' & [->|Hc]%elem_of_cons & Hp & Hn & Hj); [left; congruence|].
           right. by exists c', text'. }
    all: intros Hr v; rewrite (IH _ Hr); split; intros (c' & text' & Hc & Hp & Hn & Hj); exists c', text';
      [split; [by right|done]|]; apply elem_of_cons in Hc as [->|Hc]; [congruence|done].
Qed.

(** C5: Agent cards are shown to verified contacts only.  A request is
    answered with cards only when its headers name a contact whose
    fingerprint was verified, and carry a signature with that contact's stored
    key over the name and a time within five minutes of the node's clock.  The
    answer holds exactly the published cards of the enabled agents, and
    nothing else of the agents' rows influences it: with the same contacts and
    identity, databases that agree on id, flag and published card give the
    same answer to every request. *)
Theorem cards_only_for_contacts headers now t :
  (forall t', contacts t' = contacts t -> identity t' = identity t ->
     map public_columns (agents t') = map public_columns (agents t) ->
     cards_route headers now t' = cards_route headers now t) /\
  (forall body, cards_route headers now t = Ok (200%Z, body) ->
     (exists u ts z sig c text v k,
        obj_get "x-username" (header_map headers) = Some u /\ obj_get "x-timestamp" (header_map headers) = Some ts /\
        parse_utc (rstrip_by (Ascii.eqb "Z") ts) = Some z /\ (Z.abs (now - z) <= 300 * 1000000)%Z /\
        c ∈ contacts t /\ c_username c = u /\ c_verified_at c = Some v /\ v <> "" /\ c_public_key c = Some text /\
        key_of_hex public_of_bytes text = Ok k /\ ed_verify k sig (utf8_encode (u +:+ ":" +:+ ts)) = true) /\
     exists cards, obj_get "cards" body = Some (JList cards) /\
       forall v, v ∈ cards <->
         exists r text, r ∈ agents t /\ ag_enabled r = true /\ ag_published_card r = Some text /\ text <> "" /\
           json_loads text = Some v).
Proof.
  split.
  - intros t' Hc Hi Ha. unfold get_published_agent_cards, contact_key, find_contact.
    by rewrite Hc, Hi, (listed_public t' t Ha).
  - intros body. unfold get_published_agent_cards.
    destruct (verify_signed_auth_headers _ _ _ _ _) as [u|m] eqn:Ev.
    2: { intros (? & _ & Hb)%rbind_Ok. done. }
    intros (cards & Hcards & Hb)%rbind_Ok. injection Hb as <-. split.
    + apply accepted_headers_signed in Ev as (ts & z & sig & k & Hu & Ht & Hz & Hw & Hk & Hs).
      destruct (contact_key _ u t) as [[k'|]|] eqn:Ec; try done. injection Hk as ->.
      apply contact_key_Some in Ec as (c & text & v & Hc). exists u, ts, z, sig, c, text, v, k.
      destruct Hc as (? & ? & ? & ? & ? & ?). by split_and!.
    + exists cards. split; [done|]. intros v. rewrite (published_elem _ _ Hcards). split.
      * intros (c & text & (r & Hr & [?|He] & ->)%list_cards_elem & Hp & Hn & Hj); [done|]. by exists r, text.
      * intros (r & text & Hr & He & Hp & Hn & Hj). eexists _, text. split; [apply list_cards_elem; eauto|done].
Qed.
End cards_route.

(** ** What a pass retains *)

(** A preorder on tables that everything visible and everything committed
    follows, from any point of reference. *)
Section held.
Context (F : tables -> tables -> Prop) `{!PreOrder F}.

Definition held (s s' : node) : Prop :=
  forall t, F t (db s) -> F t (committed s) -> F t (db s') /\ F t (committed s').

#[export] Instance held_preorder : PreOrder held.
Proof. split; [by intros s t|]. intros s1 s2 s3 H12 H23 t Hd Hc. destruct (H12 t Hd Hc). auto. Qed.

Lemma execute_held f : (forall t, F t (f t)) -> keeps held (execute f).
Proof. intros Hf s t Hd Hc. split; [|done]. cbn. etrans; [exact Hd|apply Hf]. Qed.

Lemma commit_held : keeps held commit.
Proof. by intros s t Hd Hc. Qed.

Lemma rollback_held : keeps held rollback.
Proof. by intros s t Hd Hc. Qed.

Lemma same_held {A} (m : N A) : keeps same_db m -> keeps held m.
Proof. apply keeps_weaken. intros s s' [E1 E2] t. by rewrite E1, E2. Qed.
End held.

(** Logs and artifacts only grow, sessions stay, a queue row keeps its message
    and stays settled once it is, and what the owner set up is untouched. *)
Definition retained (t t' : tables) : Prop :=
  session_events t `prefix_of` session_events t' /\ audit_events t `prefix_of` audit_events t' /\
  artifacts t `prefix_of` artifacts t' /\ map s_id (sessions t) `prefix_of` map s_id (sessions t') /\
  Forall2 row_step (outbound_queue t) (outbound_queue t') /\
  contacts t' = contacts t /\ identity t' = identity t /\ agents t' = agents t /\
  approvals t' = approvals t /\ tasks t' = tasks t /\ messages t' = messages t.

#[local] Existing Instance RetryQueue.row_step_preorder.

#[export] Instance retained_preorder : PreOrder retained.
Proof.
  split; [intros t; split_and!; reflexivity|].
  intros t1 t2 t3 (A1 & A2 & A3 & A4 & A5 & A6 & A7 & A8 & A9 & A10 & A11)
    (B1 & B2 & B3 & B4 & B5 & B6 & B7 & B8 & B9 & B10 & B11).
  split_and!; [etrans; [exact A1|exact B1]|etrans; [exact A2|exact B2]|etrans; [exact A3|exact B3]|etrans; [exact A4|exact B4]|etrans; [exact A5|exact B5]|congruence..].
Qed.

Lemma grown {A} (l l' : list A) : l `prefix_of` l ++ l'.
Proof. by eexists. Qed.

Lemma queue_retained id f t : (forall r, row_step r (f r)) -> retained t (update_queue id f t).
Proof.
  intros Hf. split_and!; try reflexivity. cbn. unfold update_where.
  induction (outbound_queue t) as [|r l IH]; cbn; [constructor|]. constructor; [|exact IH].
  destruct (String.eqb _ _); [apply Hf|reflexivity].
Qed.

Lemma sessions_retained p f t : (forall r, s_id (f r) = s_id r) -> retained t (set_sessions (update_where p f) t).
Proof.
  intros Hf. split_and!; try reflexivity. cbn. unfold update_where. rewrite map_map.
  erewrite map_ext; [done|]. intros r. cbn. by destruct (p r).
Qed.

Section retention.
Context `{NodeEnv} `{Jcs} `{Ed25519} `{Clock} `{X25519} (vault_key : bytes) (lax_int : json -> option Z).
Context (public_of_bytes : bytes -> option public_key) (private_of_bytes : bytes -> option private_key).
Context (kc : keychain) (http_post : nat -> string -> json -> http_result).
Context (http_get : nat -> string -> list (string * string) -> http_result).
Context (post_content : nat -> string -> string -> list (string * string) -> http_result).

Abbreviation keeps_all m := (keeps (held retained) m).

(** One write of the tables, or none. *)
Ltac held_step :=
  first [ apply (commit_held retained)
        | apply (execute_held retained); intros ?;
          first [ apply sessions_retained; by intros ?
                | split_and!; try reflexivity; cbn; first [apply grown | rewrite map_app; apply grown] ]
        | apply same_held; first [apply encrypt_field_same_db | solve [eauto with keeps]] ].

Lemma audit_held cat sum sid actor payload cid :
  keeps_all (write_audit_event vault_key cat sum sid actor payload cid).
Proof. unfold write_audit_event, insert_checked. solve_keeps; held_step. Qed.

Lemma conflict_held sid actor z payload : keeps_all (check_sequence_conflict vault_key sid actor z payload).
Proof. unfold check_sequence_conflict. solve_keeps; first [apply audit_held | held_step]. Qed.

Lemma append_held sid actor agent kind vis payload sig sequence :
  keeps_all (append_session_event vault_key sid actor agent kind vis payload sig sequence).
Proof.
  unfold append_session_event, insert_event, insert_checked.
  solve_keeps; first [apply conflict_held | apply audit_held | held_step].
Qed.

Ltac log_held_step := first [apply append_held | apply audit_held | apply conflict_held | held_step].

Lemma outcome_held sid payload : keeps_all (record_outcome vault_key lax_int sid payload).
Proof. unfold record_outcome, create_outcome_card, require_session. solve_keeps; log_held_step. Qed.

Lemma command_held sid c now : keeps_all (apply_node_command_transition vault_key sid c now).
Proof. unfold apply_node_command_transition, persist_transition, iso_now. solve_keeps; log_held_step. Qed.

Lemma acknowledge_held sid z st at_ h e : keeps_all (acknowledge lax_int sid z st at_ h e).
Proof. unfold acknowledge. solve_keeps. Qed.

Lemma reduce_held env state row z now_str : keeps_all (reduce_and_store vault_key lax_int env state row z now_str).
Proof.
  unfold reduce_and_store, conclude. solve_keeps; first [apply acknowledge_held | apply outcome_held | log_held_step].
Qed.

Lemma stages_held get raw now : keeps_all (ingest_stages vault_key lax_int get raw now).
Proof.
  unfold ingest_stages, open_session, expire_if_due, bootstrap_session, encrypt_goal, insert_checked.
  solve_keeps; first [apply acknowledge_held | apply command_held | apply reduce_held | log_held_step].
Qed.

Lemma reject_held env summary : keeps_all (reject_offer vault_key env summary).
Proof. unfold reject_offer. solve_keeps. apply audit_held. Qed.

Lemma keep_offer_held env offer max b now : keeps_all (keep_offer vault_key env offer max b now).
Proof.
  unfold keep_offer, store_artifact, insert_artifact, increment_session_artifact_bytes, iso_now, encrypt_bytes,
    insert_checked.
  solve_keeps; first [apply reject_held | held_step].
Qed.

Lemma ingest_held depth args raw now :
  keeps_all (ingest_envelope vault_key lax_int public_of_bytes private_of_bytes kc http_post depth args raw now).
Proof.
  induction depth as [|d IH] in args, raw |- *; cbn [ingest_envelope]; [solve_keeps|].
  apply keeps_bind; [apply _|apply stages_held|]. intros [a|env row me]; [solve_keeps|].
  apply keeps_bind; [apply _| |intros ?; apply acknowledge_held]. apply keeps_when; [apply _|].
  unfold receive_offer, answer_offer, send_accept, dict_post, encrypt_for_recipient.
  solve_keeps; first [apply IH | apply reject_held | apply keep_offer_held | held_step].
Qed.

Lemma row_write id f : (forall r, row_step r (f r)) -> keeps_all (execute (update_queue id f)).
Proof. intros Hf. apply (execute_held retained). intros t. by apply queue_retained. Qed.

Lemma state_held id st now_str : st ∈ SETTLED -> keeps_all (set_row_state id st now_str).
Proof. intros Hs. apply row_write. intros r. by apply with_state_step. Qed.

Lemma failed_step text now_str r : row_step r (with_error text now_str (with_state "failed" now_str r)).
Proof. apply (with_state_step "failed" now_str r), str_in_spec. reflexivity. Qed.

Ltac retry_step :=
  first [ apply command_held | apply state_held, str_in_spec; reflexivity
        | apply row_write; intros ?; first [apply failed_step | done]
        | log_held_step ].

Lemma retry_row_held w now_str now_dt r exp : keeps_all (retry_row vault_key http_post w now_str now_dt r exp).
Proof.
  unfold retry_row, try_endpoint, try_relay, schedule_retry, set_row_error, post, encrypt_for_recipient.
  solve_keeps; retry_step.
Qed.

Lemma retry_held w : keeps_all (retry_outbound_queue vault_key http_post w).
Proof.
  unfold retry_outbound_queue, iso_now. solve_keeps; try log_held_step.
  match goal with |- keeps _ (retry_rows _ _ _ ?a ?b ?l) => generalize l end. intros l.
  induction l as [|[r exp] l IH]; cbn [retry_rows]; [solve_keeps|].
  apply keeps_bind; [apply _|apply retry_row_held|]. intros [[d f] ps].
  apply keeps_bind; [apply _|exact IH|]. intros [[d' f'] ps']. solve_keeps.
Qed.

Lemma messages_held sd url keys now msgs :
  keeps_all (process_messages vault_key lax_int public_of_bytes private_of_bytes kc http_post post_content sd url
               keys now msgs).
Proof.
  induction msgs as [|m msgs IH]; cbn [process_messages]; [solve_keeps|]. destruct m; try solve [solve_keeps].
  unfold process_message. solve_keeps; first [apply ingest_held | log_held_step].
Qed.

Lemma poll_held sd url keys now :
  keeps_all (poll_relay_and_process vault_key lax_int public_of_bytes private_of_bytes kc http_post http_get
               post_content sd url keys now).
Proof. unfold poll_relay_and_process, get. solve_keeps; first [apply messages_held | log_held_step]. Qed.
End retention.

Section pass.
Context `{NodeEnv} `{Jcs} `{Ed25519} `{Clock} `{X25519}.
Context (lax_int : json -> option Z).
Context (public_of_bytes : bytes -> option public_key) (private_of_bytes : bytes -> option private_key).
Context (http_post : nat -> string -> json -> http_result).
Context (http_get : nat -> string -> list (string * string) -> http_result).
Context (post_content : nat -> string -> string -> list (string * string) -> http_result).
Context (kr : backend) (urandom32 : nat -> bytes) (profile : string).

Abbreviation pass := (synchronize_once lax_int public_of_bytes private_of_bytes http_post http_get post_content
                        kr urandom32 profile).

Lemma pass_body_held relay_env now :
  keeps (on_node (held retained))
    (synchronize_body lax_int public_of_bytes private_of_bytes http_post http_get post_content kr urandom32 profile
       relay_env now).
Proof.
  assert (Hs : forall A (f : tables -> A), keeps (on_node (held retained)) (in_node (select f))).
  { intros A f. apply in_node_keeps, same_held, select_same_db. }
  unfold synchronize_body. solve_keeps;
    first [ apply Hs | apply in_keychain_keeps; apply _ | apply in_node_keeps, retry_held
          | intros ?; apply in_node_keeps, poll_held ].
Qed.

(** C19: A synchronization pass loses nothing, whatever fails in it.  Whatever
    the network, the relay, the keychain and the stored rows do, after a pass
    the database is closed on committed tables in which the session log, the
    audit log and the artifacts begin with what was there, every session and
    every row of the outbound queue is still there with its message, a settled
    row is settled, and contacts, identity, agents, approvals, tasks and their
    messages are the same; the pass never raises, except when the database
    cannot be opened, and then nothing happened. *)
Theorem synchronization_retains profile_name has_db opened relay_env now s r s' :
  committed (p_node s) = db (p_node s) ->
  pass profile_name has_db opened relay_env now s = (r, s') ->
  retained (db (p_node s)) (db (p_node s')) /\ committed (p_node s') = db (p_node s') /\
  (r = Ok tt \/ exists e, opened = Err e /\ r = Err e /\ s' = s).
Proof.
  intros Hs. assert (Hnone : (Ok tt, s) = (r, s') ->
    retained (db (p_node s)) (db (p_node s')) /\ committed (p_node s') = db (p_node s') /\
    (r = Ok tt \/ exists e, opened = Err e /\ r = Err e /\ s' = s)).
  { intros [= <- <-]. split_and!; [reflexivity|done|by left]. }
  unfold synchronize_once. destruct profile_name as [[|a p]|]; [apply Hnone| |apply Hnone].
  destruct has_db; [|apply Hnone]. unfold bind at 1, mlift at 1. destruct opened as [u|e].
  2: { intros [= <- <-]. split_and!; [reflexivity|done|right; by exists e]. }
  intros (s1 & Hm & Hdb & Hc)%connection_closes. unfold mcatch in Hm.
  pose proof (pass_body_held relay_env now s) as Hh.
  destruct (synchronize_body _ _ _ _ _ _ _ _ _ _ _ s) as [[[]|e] s2]; injection Hm as <- <-;
    (destruct (Hh (db (p_node s))) as [_ Hk]; [reflexivity|by rewrite Hs|]; cbn in Hk;
     rewrite Hdb, Hc; split_and!; [exact Hk|done|by left]).
Qed.
End pass.

Module NodeApiDemo.
Import AuditDemo SchemaDemo HistoryDemo IngestDemo IdentityDemo.

(** Encryption that only its own key undoes; a decoder of two texts. *)
Definition keyed : NodeEnv.
Proof.
  refine {| aes_encrypt k _ p := k +:+ p;
            aes_decrypt k _ c := if startswith k c then Some (str_drop (String.length k) c) else None;
            urandom12 _ := "0123456789ab"; uuid4 n := "id-" +:+ print_int (Z.of_nat n);
            utcnow _ := "2026-07-23T12:00:00+00:00";
            json_loads s := if String.eqb s (json_dumps dumps_sorted (JObj [("goal", JStr "g")]))
                            then Some (JObj [("goal", JStr "g")])
                            else if String.eqb s "card" then Some (JStr "the card") else None;
            model_json := json_dumps dumps_canonical |}; [|done].
  intros k _ p. cbn beta. by rewrite startswith_refl_app, str_drop_app.
Defined.
#[local] Existing Instances keyed demo_jcs demo_ed demo_clock demo_x.

Definition alice (verified : option string) (key : string) : contact_row :=
  {| c_username := "alice"; c_public_key := Some key; c_x25519 := None; c_autonomy := None;
     c_endpoint := Some "https://alice.example/"; c_verified_at := verified |}.

Definition bot (id : string) (enabled : bool) : agent_row :=
  {| ag_id := id; ag_name := id; ag_adapter_type := "sdk"; ag_local_card := Some "secret"; ag_published_card := Some "card";
     ag_version := 1; ag_enabled := enabled; ag_availability := "ready"; ag_created_at := ""; ag_updated_at := "" |}.

Definition profile_of (t : tables) : profile_state :=
  {| p_node := {| db := t; committed := t; tick := 0 |}; p_keys := KeychainDemo.fresh |}.

Definition with_alice (c : contact_row) : tables :=
  set_agents (fun _ => [bot "writer" true; bot "archive" false]) (set_contacts (fun _ => [c]) demo_tables).

Definition down (n : nat) (url : string) (body : json) : http_result := RequestError "down".
Definition takes (n : nat) (url : string) (body : json) : http_result := Responded 200 "".

Definition post (kr : backend) (t : tables) (body : result string json)
  : result string (Z * TransportAcknowledgement) * profile_state :=
  process_v11_session_envelope strict_int Some Some down kr (fun _ => "vault") "bob" body 500 (profile_of t).

Definition code_of (r : result string (Z * TransportAcknowledgement)) : result string Z := let? x := r in Ok x.1.

Definition verified : tables := with_alice (alice (Some "2026-07-01T00:00:00Z") (hexlify "alice-key")).
Definition unverified : tables := with_alice (alice None (hexlify "alice-key")).
Definition broken : tables := with_alice (alice (Some "2026-07-01T00:00:00Z") "no key").

Definition envelope : result string json := Ok (JObj (message FINDING 1)).

Example codes :
  code_of (post KeychainDemo.os_backend verified envelope).1 = Ok 200%Z /\
  code_of (post KeychainDemo.os_backend unverified envelope).1 = Ok 401%Z /\
  code_of (post KeychainDemo.os_backend broken envelope).1 = Err "ValueError" /\
  code_of (post KeychainDemo.os_backend verified (Ok (JList []))).1 = Err "AttributeError".
Proof. vm_compute. split_and!; reflexivity. Qed.

(** With a keychain that refuses, the event is stored under the constant and
    the key of the profile cannot read it. *)
Example fallback_key_used :
  let '(r, s) := post KeychainDemo.plain_backend verified envelope in
  code_of r = Ok 200%Z /\
  map (fun e => (decrypt_field "vault" (e_payload e), decrypt_field FALLBACK_KEY (e_payload e)))
    (session_events (db (p_node s))) =
    [(Err "InvalidTag", Ok (Some (json_dumps dumps_sorted (JObj [("goal", JStr "g")]))))].
Proof. vm_compute. split; reflexivity. Qed.

Lemma session_route_sound_witness :
  exists raw env k kc pk, envelope = Ok (JObj raw) /\ SessionEnvelope_validate raw = Some env /\
    known_sender Some verified (env_actor_username env) pk /\ verify_envelope_signature raw pk = true /\
    route_key_is KeychainDemo.os_backend (fun _ => "vault") "bob" (profile_of verified) k kc /\
    in_committed_log k env (p_node (post KeychainDemo.os_backend verified envelope).2).
Proof.
  assert (Hc : match (post KeychainDemo.os_backend verified envelope).1 with
               | Ok (c, _) => c = 200%Z
               | Err _ => False
               end) by (vm_compute; reflexivity).
  destruct (post KeychainDemo.os_backend verified envelope) as [[[c ack]|e] s'] eqn:E; [|exact (False_ind _ Hc)].
  cbv beta iota delta [fst] in Hc. subst c. unfold post in E.
  destruct (@session_route_sound keyed demo_jcs demo_ed demo_clock demo_x strict_int Some Some down
    KeychainDemo.os_backend (fun _ => "vault") "bob" envelope 500 (profile_of verified) _ s' eq_refl E) as (_ & _ & _ & Hd).
  exact (Hd ack eq_refl).
Defined.

(** Alice's request for the cards. *)
Definition headers_of (k : bytes) : list (string * string) :=
  create_signed_auth_headers (H := demo_ed) "alice" k (iso 500).

Definition cards_for (t : tables) (k : bytes) : result string (Z * document) :=
  get_published_agent_cards Some (headers_of k) 1000 t.

Example cards_shown :
  cards_for verified "alice-key" =
    Ok (200%Z, [("schema_version", JStr "1.1"); ("owner_username", JStr "bob"); ("cards", JList [JStr "the card"])]) /\
  (let? r := cards_for verified "mallory" in Ok r.1) = Ok 403%Z /\
  (let? r := cards_for unverified "alice-key" in Ok r.1) = Ok 403%Z /\
  cards_for broken "alice-key" = Err "ValueError".
Proof. vm_compute. split_and!; reflexivity. Qed.

Lemma cards_only_for_contacts_witness :
  exists cards, cards = [JStr "the card"] /\
    forall v, v ∈ cards <-> exists r text, r ∈ agents verified /\ ag_enabled r = true /\
      ag_published_card r = Some text /\ text <> "" /\ json_loads text = Some v.
Proof.
  destruct (proj2 (@cards_only_for_contacts keyed demo_ed demo_clock Some
    (headers_of "alice-key") 1000 verified) _ (proj1 cards_shown))
    as [_ (cards & Hb & Hc)].
  exists cards. split; [|exact Hc]. cbn in Hb. injection Hb as <-. reflexivity.
Defined.

(** Two nodes of this version can negotiate. *)
Example own_capabilities_fit : compatible (negotiate_capability strict_int (AdModel node_capabilities) REQUIRED_FEATURES) = true.
Proof. reflexivity. Qed.

(** The identity of Bob with his keys in the keychain, and his queue. *)
Definition keys_of_bob : keychain :=
  (save_slot KeychainDemo.os_backend (X25519Key "bob") "bob-x"
     (save_slot KeychainDemo.os_backend (OwnerKey "bob") "bob-key" KeychainDemo.fresh).2).2.

Definition queued (id token : string) : queue_row :=
  {| q_id := id; q_session := "s1"; q_sequence := 1; q_recipient := "alice"; q_kind := "finding";
     q_envelope := token; q_state := "pending"; q_attempts := 0; q_next_retry := "2026-07-23T12:00:00Z";
     q_last_error := None; q_created_at := "2026-07-23T12:00:00Z"; q_updated_at := "2026-07-23T12:00:00Z" |}.

Definition readable : string :=
  b64encode (seal "vault" "0123456789ab" (utf8_encode (json_dumps dumps_sorted (JObj [("goal", JStr "g")])))).
Definition unreadable : string := b64encode (seal "other" "0123456789ab" "text").

Definition reachable : tables := with_alice (alice (Some "2026-07-01T00:00:00Z") "").

Definition pass (rows : list queue_row) : result string unit * profile_state :=
  synchronize_once strict_int Some Some takes (fun _ _ _ => Responded 503 "") (fun _ _ _ _ => Responded 200 "")
    KeychainDemo.os_backend (fun _ => "vault") "bob" (Some "bob") true (Ok tt) None 500
    {| p_node := p_node (profile_of (set_queue (fun _ => rows) reachable)); p_keys := keys_of_bob |}.

Definition states (run : result string unit * profile_state) : list string :=
  map q_state (outbound_queue (db (p_node run.2))).

(** A row that cannot be decrypted ends every pass before the rows after it
    and before the mailbox is read. *)
Example unreadable_row_blocks_queue :
  states (pass [queued "q2" readable]) = ["delivered"] /\
  states (pass [queued "q1" unreadable; queued "q2" readable]) = ["pending"; "pending"] /\
  (pass [queued "q1" unreadable; queued "q2" readable]).1 = Ok tt.
Proof. vm_compute. split_and!; reflexivity. Qed.

Lemma synchronization_retains_witness :
  retained (set_queue (fun _ => [queued "q2" readable]) reachable) (db (p_node (pass [queued "q2" readable]).2)).
Proof.
  refine (proj1 (@synchronization_retains keyed demo_jcs demo_ed demo_clock demo_x strict_int Some Some takes
    (fun _ _ _ => Responded 503 "") (fun _ _ _ _ => Responded 200 "") KeychainDemo.os_backend (fun _ => "vault") "bob"
    (Some "bob") true (Ok tt) None 500
    {| p_node := p_node (profile_of (set_queue (fun _ => [queued "q2" readable]) reachable)); p_keys := keys_of_bob |}
    (pass [queued "q2" readable]).1 (pass [queued "q2" readable]).2 _ _)).
  - reflexivity.
  - apply surjective_pairing.
Defined.
End NodeApiDemo.
