(* ===== verification/Doctor.v ===== *)
(** * Health checks

    [kin/doctor.py]: nine checks of a profile and the report over them.  A
    check returns its result or raises; the report turns what was raised into
    a failed check.  The text of an exception is kept, since the report shows
    it: the checks raise [str(exc)].  The package version, the integrity check
    of SQLite, the directory of migration reports and the network are
    parameters; the tables are those of the current schema. *)

From Stdlib Require Import Ascii String ZArith Lia.
From stdpp Require Import base gmap sets list strings.
From S2P Require Import Prelude Regex Codec PyValue Redaction Schemas Cards Store PeerCards Registry Keychain.
From S2P Require Import CardFiles RetryQueue Pairing.

#[local] Open Scope nat_scope.

(** ** Redaction of diagnostics *)

(** [\b] before a letter holds where no word character precedes; [prev] is the
    character before the text in the original. *)
Definition word_char (c : ascii) : bool :=
  let n := code c in
  cc_alnum c || Ascii.eqb c "_"
  || existsb (Z.eqb n) [170; 178; 179; 181; 185; 186; 188; 189; 190]%Z
  || (192 <=? n)%Z && negb (n =? 215)%Z && negb (n =? 247)%Z.

Fixpoint word_segments (p : pat) (prev : bool) (skip : nat) (s : string) : list segment :=
  match s with
  | "" => []
  | String c s' =>
      match skip with
      | S k => word_segments p (word_char c) k s'
      | 0 =>
          match (if prev then None else pmatch p s) with
          | Some rest =>
              match String.length s - String.length rest with
              | 0 => Keep c :: word_segments p (word_char c) 0 s'
              | S n => Hit (str_take (S n) s) :: word_segments p (word_char c) n s'
              end
          | None => Keep c :: word_segments p (word_char c) 0 s'
          end
      end
  end.

Definition LABELED_KEY_MATERIAL : pat :=
  seqs ([alts (lit_i "private") [lit_i "public"; lit_i "vault"; lit_i "x25519"; lit_i "ed25519"; lit_i "signing";
                                 lit_i "encryption"];
         Redaction.opt dash_; lit_i "key"] ++ assigned).

Definition redact_doctor_text (value : string) : string :=
  join (map (Redaction.shown "[REDACTED SECRET]")
              (word_segments LABELED_KEY_MATERIAL false 0 (redact_ui_text (Some value)))).

Example labelled_key_hidden :
  redact_doctor_text "bad private_key=00ff, my_vault_key: 1" = "bad [REDACTED SECRET], my_vault_key: 1".
Proof. vm_compute. reflexivity. Qed.

(** ** Checks *)

Record DoctorCheck := {
  dc_check : string;
  dc_status : string;
  dc_summary : string;
  dc_action : string;
  dc_facts : document
}.

Definition result_of (check status summary action : string) (facts : document) : DoctorCheck :=
  {| dc_check := check; dc_status := status; dc_summary := redact_doctor_text summary;
     dc_action := redact_doctor_text action; dc_facts := facts |}.

Definition nothing_to_do : string := "No action required.".
Definition text_or_null (o : option string) : json := match o with Some s => JStr s | None => JNull end.
Definition count_json (n : nat) : json := JInt (Z.of_nat n).

(** [str.title] and [str.upper] on the names and statuses of checks, which are
    ASCII. *)
Definition upper_ascii (c : ascii) : ascii :=
  let n := code c in if ((97 <=? n) && (n <=? 122))%Z then chr (n - 32) else c.
Fixpoint title_from (start : bool) (s : string) : string :=
  match s with
  | "" => ""
  | String c s' => String (if start then upper_ascii c else lower_ascii c) (title_from (negb (cc_alpha c)) s')
  end.
Definition title (s : string) : string := title_from true s.
Definition upper (s : string) : string := str_map upper_ascii s.
Definition underscores_spaced (s : string) : string :=
  str_map (fun c => if Ascii.eqb c "_" then " "%char else c) s.

Section doctor.
Context (lax_int : json -> option Z) (safe_load : string -> option json).
Context (http_get : nat -> string -> list (string * string) -> http_result).
Context (kr : backend) (profile : string).
(** [str(exc)] for the exceptions of the keychain. *)
Context (err_text : string -> string).
(** The machine: version of the package, the profile directory and the files
    in and around it, what [PRAGMA integrity_check] answers. *)
Context (package_version : option string) (profile_exists db_exists : bool) (agents_dir : CardFiles.directory).
Context (integrity : string) (failure_reports : nat) (diagnostics_present : bool) (relay_url : string).

Definition raise_text {A} (m : P A) : P A := mcatch m (fun e => mraise (err_text e)).

(** [_open_existing_db] around a query. *)
Definition query {A} (f : tables -> A) : P A :=
  if db_exists then in_node (select f) else mraise "Profile database is not initialized.".

Definition fetch_url (url : string) : P http_result := in_node (draw (fun n => http_get n url [])).

Definition check_version_profile : P DoctorCheck :=
  let v := default "development" package_version in
  ret (result_of "version_profile" (if profile_exists then "pass" else "warn")
         ("KIN " +:+ v +:+ "; selected profile '" +:+ profile +:+ "'.")
         (if profile_exists then nothing_to_do else "Run 'kin init' to initialize this profile.")
         [("version", JStr v); ("profile", JStr profile); ("profile_location", JStr ("~/.kin/profiles/" +:+ profile));
          ("profile_exists", JBool profile_exists)]).

Definition check_keychain : P DoctorCheck :=
  raise_text (in_keychain (assert_secure_backend kr)) ;;;
  ret (result_of "keychain" "pass" "Secure OS credential backend is available." nothing_to_do
         [("secure_backend", JBool true)]).

Definition check_identity : P DoctorCheck :=
  let* row := query (fun t => head (identity t)) in
  match row with
  | None => ret (result_of "identity" "fail" "No local identity is initialized." "Run 'kin init'."
                   [("identity_present", JBool false)])
  | Some r =>
      let* ed_key := raise_text (in_keychain (load_private_key profile)) in
      let* x_key := raise_text (in_keychain (load_x25519_private_key profile)) in
      if negb (Nat.eqb (String.length ed_key) 32) || negb (Nat.eqb (String.length x_key) 32)
      then mraise "Stored identity key material has an invalid length."
      else ret (result_of "identity" "pass"
                  ("Identity '" +:+ i_username r +:+ "' and signing/encryption key entries are present.") nothing_to_do
                  [("identity_present", JBool true); ("username", JStr (i_username r));
                   ("protocol_version", text_or_null (i_protocol_version r)); ("signing_key_present", JBool true);
                   ("encryption_key_present", JBool true)])
  end.

Definition check_relay_directory : P DoctorCheck :=
  let* resp := fetch_url (strip_slash relay_url +:+ "/directory/lookup/__kin_doctor_probe__") in
  match resp with
  | RequestError e => mraise e
  | Responded code _ =>
      if existsb (Z.eqb code) [200; 204; 404]%Z
      then ret (result_of "relay_directory" "pass" "Relay directory is reachable." nothing_to_do
                  [("reachable", JBool true); ("http_status", JInt code)])
      else mraise ("Relay directory returned HTTP " +:+ print_int code +:+ ".")
  end.

Definition check_node_tunnel : P DoctorCheck :=
  let* value := query (get_setting "public_endpoint") in
  match value with
  | Some (String _ _ as endpoint) =>
      let* resp := fetch_url (strip_slash endpoint +:+ "/v1.1/capabilities") in
      match resp with
      | RequestError e => mraise e
      | Responded code _ =>
          if (code =? 200)%Z
          then ret (result_of "node_tunnel" "pass" "Configured node/tunnel endpoint is reachable." nothing_to_do
                      [("configured", JBool true); ("reachable", JBool true); ("http_status", JInt code)])
          else mraise ("Configured node returned HTTP " +:+ print_int code +:+ ".")
      end
  | _ => ret (result_of "node_tunnel" "warn" "No node or tunnel endpoint is configured."
                "Run 'kin serve' or provide --public-endpoint when starting the node."
                [("configured", JBool false); ("reachable", JBool false)])
  end.

Definition check_card_validation : P DoctorCheck :=
  let scan := scan_local_cards lax_int safe_load agents_dir (Some profile) in
  let valid := length (valid_cards scan) in
  let errors := length (per_file_errors scan) in
  let legacy := length (legacy_skipped scan) in
  ret (match errors with
       | S _ =>
           result_of "card_validation" "fail" (print_int (Z.of_nat errors) +:+ " agent card(s) failed validation.")
             "Run 'kin agent validate <path>' for each invalid card."
             [("valid_cards", count_json valid); ("invalid_cards", count_json errors); ("legacy_cards", count_json legacy)]
       | 0 =>
           result_of "card_validation" (if Nat.eqb legacy 0 then "pass" else "warn")
             ("Validated " +:+ print_int (Z.of_nat valid) +:+ " V1.1 agent card(s).")
             (if Nat.eqb legacy 0 then nothing_to_do else "Remove or migrate skipped legacy cards.")
             [("valid_cards", count_json valid); ("invalid_cards", JInt 0); ("legacy_cards", count_json legacy)]
       end).

Definition check_provider_credentials : P DoctorCheck :=
  let* provider := if db_exists then query (get_setting "llm_provider") else ret None in
  match provider with
  | Some (String _ _ as p) =>
      let* credential := mcatch (let* k := in_keychain (load_llm_api_key profile p) in ret (Some k))
                           (fun e => if String.eqb e "SecretNotFoundError" then ret None else mraise (err_text e)) in
      if truthy (default "" credential)
      then ret (result_of "provider_credentials" "pass"
                  ("Credential for provider '" +:+ p +:+ "' is present in the OS keychain.") nothing_to_do
                  [("provider", JStr p); ("credential_present", JBool true)])
      else ret (result_of "provider_credentials" "fail"
                  ("Provider '" +:+ p +:+ "' is configured but its credential is absent.")
                  "Run 'kin configure' to store the credential in the OS keychain."
                  [("provider", JStr p); ("credential_present", JBool false)])
  | _ => ret (result_of "provider_credentials" "warn" "No LLM provider is configured." "Run 'kin configure'."
                [("provider", JNull); ("credential_present", JBool false)])
  end.

Definition count {A} (f : A -> bool) (l : list A) : nat := length (List.filter f l).

Definition ATTENTION : list string := ["peer_review"; "needs_clarification"; "awaiting_owner_approval"].

Definition check_inbox : P DoctorCheck :=
  let* n := query (fun t => (count (fun r => bool_decide (ap_decision r = None)) (approvals t),
                             count (fun r => str_in (s_status r) ATTENTION) (sessions t),
                             count (fun r => String.eqb (q_state r) "pending") (outbound_queue t))) in
  let '(approvals_, sessions_, queued) := n in
  let pending := approvals_ + sessions_ in
  ret (result_of "inbox" (if Nat.eqb pending 0 && Nat.eqb queued 0 then "pass" else "warn")
         ("Inbox has " +:+ print_int (Z.of_nat pending) +:+ " owner-attention item(s); "
          +:+ print_int (Z.of_nat queued) +:+ " outbound item(s) are pending.")
         (if negb (Nat.eqb pending 0) then "Run 'kin inbox --plain' and review pending items."
          else if negb (Nat.eqb queued 0) then "Run 'kin fetch' or start the node to retry queued delivery."
          else nothing_to_do)
         [("owner_attention", count_json pending); ("pending_approvals", count_json approvals_);
          ("pending_sessions", count_json sessions_); ("queued_outbound", count_json queued)]).

Definition check_recovery : P DoctorCheck :=
  let* failed := query (fun t => count (fun r => str_in (q_state r) ["failed"; "expired"; "abandoned"]) (outbound_queue t)) in
  if negb (String.eqb integrity "ok") then mraise "SQLite integrity check failed."
  else
    let attention := negb (Nat.eqb failed 0) || negb (Nat.eqb failure_reports 0) in
    ret (result_of "recovery" (if attention then "warn" else "pass")
           ("Profile database integrity is valid."
            +:+ (if Nat.eqb failed 0 then ""
                 else " " +:+ print_int (Z.of_nat failed) +:+ " failed/expired queued item(s) need review."))
           (if attention then "Review migration reports, diagnostics, and failed queue entries." else nothing_to_do)
           [("database_integrity", JBool true); ("failed_or_expired_queue", count_json failed);
            ("migration_failure_reports", count_json failure_reports);
            ("diagnostics_present", JBool diagnostics_present)]).

(** ** The report *)

(** [_run_check]. *)
Definition run_check (name action : string) (check : P DoctorCheck) : P DoctorCheck :=
  mcatch check (fun e => ret (result_of name "fail" (title (underscores_spaced name) +:+ " check failed: " +:+ e) action
                                [("available", JBool false)])).

Record report := {
  rp_status : string;
  rp_profile : string;
  rp_passed : nat;
  rp_warnings : nat;
  rp_failed : nat;
  rp_checks : list DoctorCheck
}.

(** The nine checks in order, each with the action of its failure. *)
Definition checks : list (string * string * P DoctorCheck) :=
  [("version_profile", "Verify the KIN installation and initialize the selected profile.", check_version_profile);
   ("keychain", "Unlock or configure a supported OS credential manager, then retry.", check_keychain);
   ("identity", "Run 'kin init' or restore the identity into a new profile.", check_identity);
   ("relay_directory", "Check KIN_RELAY_URL and start or reconnect the relay.", check_relay_directory);
   ("node_tunnel", "Start 'kin serve' and verify the configured endpoint or tunnel.", check_node_tunnel);
   ("card_validation", "Validate or repair local agent cards.", check_card_validation);
   ("provider_credentials", "Run 'kin configure'; credentials must remain in the OS keychain.", check_provider_credentials);
   ("inbox", "Initialize the profile or inspect pending work with 'kin inbox --plain'.", check_inbox);
   ("recovery", "Run 'kin migrate' or inspect local recovery reports before retrying.", check_recovery)].

Fixpoint run_checks (l : list (string * string * P DoctorCheck)) : P (list DoctorCheck) :=
  match l with
  | [] => ret []
  | (name, action, check) :: rest =>
      let* c := run_check name action check in
      let* cs := run_checks rest in
      ret (c :: cs)
  end.

Definition with_status_of (status : string) (c : DoctorCheck) : bool := String.eqb (dc_status c) status.

Definition report_of (cs : list DoctorCheck) : report :=
  let failures := count (with_status_of "fail") cs in
  let warnings := count (with_status_of "warn") cs in
  {| rp_status := if negb (Nat.eqb failures 0) then "degraded"
                  else if negb (Nat.eqb warnings 0) then "needs_attention" else "healthy";
     rp_profile := profile; rp_passed := length cs - failures - warnings; rp_warnings := warnings;
     rp_failed := failures; rp_checks := cs |}.

Definition run_doctor : P report := let* cs := run_checks checks in ret (report_of cs).

(** [kin doctor]: the report, and exit code 1 when it is degraded. *)
Definition doctor_exit (r : report) : Z := if String.eqb (rp_status r) "degraded" then 1%Z else 0%Z.
End doctor.

Definition check_json (c : DoctorCheck) : json :=
  JObj [("check", JStr (dc_check c)); ("status", JStr (dc_status c)); ("summary", JStr (dc_summary c));
        ("action", JStr (dc_action c)); ("facts", JObj (dc_facts c))].

Definition report_json (r : report) : json :=
  JObj [("schema_version", JInt 1); ("status", JStr (rp_status r)); ("profile", JStr (rp_profile r));
        ("summary", JObj [("passed", count_json (rp_passed r)); ("warnings", count_json (rp_warnings r));
                          ("failed", count_json (rp_failed r))]);
        ("checks", JList (map check_json (rp_checks r)))].

Definition check_lines (c : DoctorCheck) : list string :=
  ["[" +:+ upper (dc_status c) +:+ "] " +:+ dc_check c +:+ ": " +:+ dc_summary c;
   "  ACTION: " +:+ dc_action c; "  FACTS: " +:+ json_dumps dumps_sorted (JObj (dc_facts c))].

(** [format_doctor_plain], line by line. *)
Definition format_doctor_plain (r : report) : list string :=
  ["KIN DOCTOR"; "STATUS: " +:+ upper (rp_status r); "PROFILE: " +:+ rp_profile r; "CHECKS:"]
  ++ List.concat (map check_lines (rp_checks r))
  ++ ["SUMMARY: passed=" +:+ print_int (Z.of_nat (rp_passed r)) +:+ " warnings=" +:+ print_int (Z.of_nat (rp_warnings r))
      +:+ " failed=" +:+ print_int (Z.of_nat (rp_failed r))].

(** ** What the report depends on *)

Section doctor_props.
Context (lax_int : json -> option Z) (safe_load : string -> option json).
Context (http_get : nat -> string -> list (string * string) -> http_result).
Context (kr : backend) (profile : string) (err_text : string -> string).
Context (package_version : option string) (profile_exists db_exists : bool) (agents_dir : CardFiles.directory).
Context (integrity : string) (failure_reports : nat) (diagnostics_present : bool) (relay_url : string).

Abbreviation doctor := (run_doctor lax_int safe_load http_get kr profile err_text package_version profile_exists
  db_exists agents_dir integrity failure_reports diagnostics_present relay_url).
Abbreviation all_checks := (checks lax_int safe_load http_get kr profile err_text package_version profile_exists
  db_exists agents_dir integrity failure_reports diagnostics_present relay_url).

(** Two answers of the keychain that differ at most in the secret itself. *)
Definition same_up_to {A} (view : A -> bool) (r1 r2 : result string A) : Prop :=
  match r1, r2 with
  | Ok a, Ok b => view a = view b
  | Err e1, Err e2 => e1 = e2
  | _, _ => False
  end.

Definition is_32 (b : bytes) : bool := Nat.eqb (String.length b) 32.

(** Keychains that hold the same entries, of the same validity. *)
Definition same_entries (k1 k2 : keychain) : Prop :=
  same_up_to is_32 (load_private_key profile k1).1 (load_private_key profile k2).1 /\
  same_up_to is_32 (load_x25519_private_key profile k1).1 (load_x25519_private_key profile k2).1 /\
  forall p, same_up_to truthy (load_llm_api_key profile p k1).1 (load_llm_api_key profile p k2).1.

(** A computation that tells such keychains not apart, changes neither of
    them, and leaves the database alone. *)
Definition blind {A} (m : P A) : Prop := forall n k1 k2, same_entries k1 k2 ->
  exists r n', m {| p_node := n; p_keys := k1 |} = (r, {| p_node := n'; p_keys := k1 |}) /\
    m {| p_node := n; p_keys := k2 |} = (r, {| p_node := n'; p_keys := k2 |}) /\ same_db n n'.

Lemma blind_pure {A} (r : result string A) : blind (fun s => (r, s)).
Proof. intros n k1 k2 _. by exists r, n. Qed.

Lemma blind_bind {A B} (m : P A) (k : A -> P B) : blind m -> (forall a, blind (k a)) -> blind (bind m k).
Proof.
  intros Hm Hk n k1 k2 Hs. destruct (Hm n k1 k2 Hs) as (r & n' & E1 & E2 & Hn). unfold bind. rewrite E1, E2.
  destruct r as [a|e]; [|by exists (Err e), n']. destruct (Hk a n' k1 k2 Hs) as (r & n2 & F1 & F2 & Hn2).
  exists r, n2. split_and!; [done..|]. by etrans.
Qed.

Lemma blind_catch {A} (m : P A) (h : string -> P A) : blind m -> (forall e, blind (h e)) -> blind (mcatch m h).
Proof.
  intros Hm Hh n k1 k2 Hs. destruct (Hm n k1 k2 Hs) as (r & n' & E1 & E2 & Hn). unfold mcatch. rewrite E1, E2.
  destruct r as [a|e]; [by exists (Ok a), n'|]. destruct (Hh e n' k1 k2 Hs) as (r & n2 & F1 & F2 & Hn2).
  exists r, n2. split_and!; [done..|]. by etrans.
Qed.

Lemma blind_node {A} (m : N A) : keeps same_db m -> blind (in_node m).
Proof.
  intros Hm n k1 k2 _. specialize (Hm n). unfold in_node. cbn. destruct (m n) as [r n'] eqn:E. by exists r, n'.
Qed.

Lemma blind_query {A} (f : tables -> A) : blind (query db_exists f).
Proof. unfold query. destruct db_exists; [apply blind_node, select_same_db|apply blind_pure]. Qed.

Lemma blind_fetch url : blind (fetch_url http_get url).
Proof. apply blind_node, draw_same_db. Qed.

Lemma load_hex_state service user k : (load_hex service user k).2 = k.
Proof. unfold load_hex, bind, get_password, mgets. destruct (kc_store k !! _) as [h|]; [by destruct (fromhex h)|done]. Qed.

Lemma blind_identity : blind (check_identity profile err_text db_exists).
Proof.
  unfold check_identity. apply blind_bind; [apply blind_query|]. intros [r|]; [|apply blind_pure].
  intros n k1 k2 (He & Hx & _). unfold load_private_key, load_x25519_private_key in *.
  unfold raise_text, bind, mcatch, in_keychain. cbn [p_node p_keys].
  rewrite (surjective_pairing (load_hex (get_private_key_service profile) "private_key" k1)),
    (surjective_pairing (load_hex (get_private_key_service profile) "private_key" k2)), !load_hex_state.
  destruct (load_hex (get_private_key_service profile) "private_key" k1).1 as [e1|e1],
    (load_hex (get_private_key_service profile) "private_key" k2).1 as [e2|e2]; try done; cbn in He.
  2: { subst e2. by eexists _, n. }
  cbn [p_node p_keys].
  rewrite (surjective_pairing (load_hex (get_x25519_private_key_service profile) "x25519_private_key" k1)),
    (surjective_pairing (load_hex (get_x25519_private_key_service profile) "x25519_private_key" k2)), !load_hex_state.
  destruct (load_hex (get_x25519_private_key_service profile) "x25519_private_key" k1).1 as [x1|x1],
    (load_hex (get_x25519_private_key_service profile) "x25519_private_key" k2).1 as [x2|x2]; try done; cbn in Hx.
  2: { subst x2. by eexists _, n. }
  unfold is_32 in *. rewrite He, Hx. destruct (_ || _); by eexists _, n.
Qed.

Lemma blind_credentials : blind (check_provider_credentials profile err_text db_exists).
Proof.
  unfold check_provider_credentials. apply blind_bind.
  { destruct db_exists; [unfold query; apply blind_node, select_same_db|apply blind_pure]. }
  intros [[|a p]|]; try apply blind_pure. intros n k1 k2 (_ & _ & Hc). specialize (Hc (String a p)).
  unfold load_llm_api_key, get_password, bind, mcatch, in_keychain, mgets in *. cbn [p_node p_keys].
  set (svc := get_llm_api_key_service profile (String a p)) in *.
  destruct (kc_store k1 !! (svc, "api_key")) as [c1|], (kc_store k2 !! (svc, "api_key")) as [c2|]; cbn in *; try done.
  - rewrite Hc. destruct (truthy c2); by eexists _, n.
  - by eexists _, n.
Qed.

Lemma blind_check name action check : In (name, action, check) all_checks -> blind check.
Proof.
  intros [E|[E|[E|[E|[E|[E|[E|[E|[E|[]]]]]]]]]]; injection E as <- <- <-.
  - apply blind_pure.
  - unfold check_keychain, raise_text. apply blind_bind; [|intros ?; apply blind_pure]. apply blind_catch.
    + unfold assert_secure_backend, in_keychain. destruct (_ || _); apply blind_pure || (intros n k1 k2 _; by eexists _, n).
    + intros e. apply blind_pure.
  - apply blind_identity.
  - unfold check_relay_directory. apply blind_bind; [apply blind_fetch|]. intros [code text|e]; [|apply blind_pure].
    destruct (existsb _ _); apply blind_pure.
  - unfold check_node_tunnel. apply blind_bind; [apply blind_query|]. intros [[|a u]|]; try apply blind_pure.
    apply blind_bind; [apply blind_fetch|]. intros [code text|e]; [|apply blind_pure].
    destruct (code =? 200)%Z; apply blind_pure.
  - apply blind_pure.
  - apply blind_credentials.
  - unfold check_inbox. apply blind_bind; [apply blind_query|]. intros [[x y] z]. apply blind_pure.
  - unfold check_recovery. apply blind_bind; [apply blind_query|]. intros f. destruct (negb _); apply blind_pure.
Qed.

(** The status a result can have. *)
Definition sound_check (name : string) (c : DoctorCheck) : Prop :=
  dc_check c = name /\ dc_status c ∈ ["pass"; "warn"; "fail"].

Lemma sound_result name status summary action facts :
  status ∈ ["pass"; "warn"; "fail"] -> sound_check name (result_of name status summary action facts).
Proof. by split. Qed.

Ltac sound_ret := apply returns_ret, sound_result; repeat case_match; set_solver.

Lemma check_sound name action check : In (name, action, check) all_checks -> returns (sound_check name) check.
Proof.
  intros [E|[E|[E|[E|[E|[E|[E|[E|[E|[]]]]]]]]]]; injection E as <- <- <-.
  - sound_ret.
  - apply returns_after. intros _. sound_ret.
  - apply returns_after. intros [r|]; [|sound_ret]. do 2 (apply returns_after; intros ?).
    destruct (_ || _); [apply returns_raise|sound_ret].
  - apply returns_after. intros [code text|e]; [|apply returns_raise]. destruct (existsb _ _); [sound_ret|apply returns_raise].
  - apply returns_after. intros [[|a u]|]; try sound_ret. apply returns_after. intros [code text|e]; [|apply returns_raise].
    destruct (code =? 200)%Z; [sound_ret|apply returns_raise].
  - unfold check_card_validation. apply returns_ret. destruct (length (per_file_errors _)); apply sound_result;
      repeat case_match; set_solver.
  - apply returns_after. intros [[|a p]|]; try sound_ret. apply returns_after. intros c. destruct (truthy _); sound_ret.
  - apply returns_after. intros [[x y] z]. sound_ret.
  - apply returns_after. intros f. destruct (negb _); [apply returns_raise|sound_ret].
Qed.

(** A check that is run always has a result. *)
Lemma run_check_result name action (check : P DoctorCheck) n k1 k2 :
  blind check -> returns (sound_check name) check -> same_entries k1 k2 ->
  exists c n', run_check name action check {| p_node := n; p_keys := k1 |} = (Ok c, {| p_node := n'; p_keys := k1 |}) /\
    run_check name action check {| p_node := n; p_keys := k2 |} = (Ok c, {| p_node := n'; p_keys := k2 |}) /\
    same_db n n' /\ sound_check name c.
Proof.
  intros Hb Hs He. destruct (Hb n k1 k2 He) as (r & n' & E1 & E2 & Hn). unfold run_check, mcatch. rewrite E1, E2.
  destruct r as [c|e]; [exists c, n'; split_and!; [done..|by eapply Hs]|].
  eexists _, n'. split_and!; [done..|apply sound_result; set_solver].
Qed.

Lemma run_checks_result l n k1 k2 :
  (forall name action check, In (name, action, check) l -> blind check /\ returns (sound_check name) check) ->
  same_entries k1 k2 ->
  exists cs n', run_checks l {| p_node := n; p_keys := k1 |} = (Ok cs, {| p_node := n'; p_keys := k1 |}) /\
    run_checks l {| p_node := n; p_keys := k2 |} = (Ok cs, {| p_node := n'; p_keys := k2 |}) /\
    same_db n n' /\ Forall2 (fun (x : string * string * P DoctorCheck) c => sound_check x.1.1 c) l cs.
Proof.
  intros Hl He. induction l as [|[[name action] check] l IH] in n, Hl |- *; [by exists [], n|]. cbn [run_checks].
  destruct (Hl name action check (or_introl eq_refl)) as [Hb Hs].
  destruct (run_check_result name action check n k1 k2 Hb Hs He) as (c & n1 & E1 & E2 & Hn & Hc).
  destruct (IH n1) as (cs & n2 & F1 & F2 & Hn2 & Hcs); [intros; apply (Hl name0 action0); by right|].
  exists (c :: cs), n2. unfold bind. rewrite E1, E2, F1, F2. split_and!; [done..| |by constructor]. by etrans.
Qed.

Lemma count_le {A} (f : A -> bool) l : count f l <= length l.
Proof. unfold count. induction l as [|x l IH]; cbn; [lia|]. destruct (f x); cbn; lia. Qed.

Lemma count_partition cs (l : list (string * string * P DoctorCheck)) :
  Forall2 (fun x c => sound_check x.1.1 c) l cs ->
  count (with_status_of "pass") cs + count (with_status_of "warn") cs + count (with_status_of "fail") cs = length cs.
Proof.
  unfold count, with_status_of. induction 1 as [|x c l cs [_ Hst] Hl IH]; [done|]. cbn [List.filter].
  apply elem_of_cons in Hst as [->|[->|[->|[]%elem_of_nil]%elem_of_cons]%elem_of_cons]; cbn; lia.
Qed.

Lemma count_zero {A} (f : A -> bool) l : count f l = 0 <-> forall x, x ∈ l -> f x = false.
Proof.
  unfold count. induction l as [|y l IH]; cbn; [split; [by intros _ x ?%elem_of_nil|done]|].
  destruct (f y) eqn:E; cbn; [split; [done|intros Hx; specialize (Hx y); rewrite E in Hx; discriminate Hx; left]|].
  rewrite IH. split; [intros Hx x [->|Hin]%elem_of_cons; auto|intros Hx x Hin; apply Hx; by right].
Qed.

Definition CHECK_NAMES : list string :=
  ["version_profile"; "keychain"; "identity"; "relay_directory"; "node_tunnel"; "card_validation";
   "provider_credentials"; "inbox"; "recovery"].

Lemma report_status cs (l : list (string * string * P DoctorCheck)) :
  Forall2 (fun x c => sound_check x.1.1 c) l cs ->
  let rp := report_of profile cs in
  rp_passed rp + rp_warnings rp + rp_failed rp = length cs /\
  (rp_status rp = "healthy" <-> forall c, c ∈ cs -> dc_status c = "pass") /\
  (rp_status rp = "degraded" <-> exists c, c ∈ cs /\ dc_status c = "fail").
Proof.
  intros Hl. pose proof (count_partition _ _ Hl) as Hp.
  assert (Hst : forall c, c ∈ cs -> dc_status c ∈ ["pass"; "warn"; "fail"]).
  { intros c Hc. apply list_elem_of_lookup in Hc as [i Hi]. destruct (Forall2_lookup_r _ _ _ _ _ Hl Hi) as (x & _ & _ & Hs).
    exact Hs. }
  pose proof (count_zero (with_status_of "fail") cs) as Hf. pose proof (count_zero (with_status_of "warn") cs) as Hw.
  unfold report_of, with_status_of in *. cbn [rp_passed rp_warnings rp_failed rp_status].
  split; [lia|]. destruct (count (fun c => String.eqb (dc_status c) "fail") cs) as [|f] eqn:Ef; cbn [Nat.eqb negb].
  - split.
    + destruct (count (fun c => String.eqb (dc_status c) "warn") cs) as [|w] eqn:Ew; cbn [Nat.eqb negb].
      * split; [|done]. intros _ c Hc. pose proof (proj1 Hf eq_refl c Hc) as Nf. pose proof (proj1 Hw eq_refl c Hc) as Nw.
        specialize (Hst c Hc). apply String.eqb_neq in Nf, Nw. set_solver.
      * split; [done|]. intros Hall. exfalso. assert (Hz : S w = 0); [|done]. apply Hw. intros c Hc.
        by rewrite (Hall c Hc).
    + split; [by destruct (negb _)|]. intros (c & Hc & Hd). pose proof (proj1 Hf eq_refl c Hc) as Nf.
      by rewrite Hd in Nf.
  - split.
    + split; [done|]. intros Hall. exfalso. assert (Hz : S f = 0); [|done]. apply Hf. intros c Hc. by rewrite (Hall c Hc).
    + split; [|done]. intros _. destruct (decide (Exists (fun c => dc_status c = "fail") cs)) as [(c & Hc & Hd)%Exists_exists|Hn].
      * by exists c.
      * exfalso. assert (Hz : S f = 0); [|done]. apply Hf. intros c Hc. apply String.eqb_neq. intros Hd.
        apply Hn, Exists_exists. by exists c.
Qed.

End doctor_props.

Module DoctorDemo.
Import AuditLog.AuditDemo.

Definition secrets (seed : string) : keychain :=
  {| kc_store := <[(get_private_key_service "bob", "private_key") := hexlify seed]>
                   (<[(get_x25519_private_key_service "bob", "x25519_private_key") := hexlify seed]> ∅);
     kc_tick := 0 |}.

Definition seed1 : string := "0123456789abcdef0123456789abcdef".
Definition seed2 : string := "fedcba9876543210fedcba9876543210".

Definition run (k : keychain) : result string report * profile_state :=
  run_doctor (fun _ => None) (fun _ => None) (fun _ _ _ => Responded 404 "") KeychainDemo.os_backend "bob" id
    (Some "1.1.0") true true None "ok" 0 false "http://localhost:8000" {| p_node := demo_node; p_keys := k |}.

(** No endpoint and no provider: two warnings; the rest passes. *)
Example needs_attention :
  match (run (secrets seed1)).1 with
  | Ok rp => rp_status rp = "needs_attention" /\
             map dc_status (rp_checks rp) = ["pass"; "pass"; "pass"; "pass"; "warn"; "pass"; "warn"; "pass"; "pass"] /\
             head (format_doctor_plain rp) = Some "KIN DOCTOR"
  | Err _ => False
  end.
Proof. vm_compute. split_and!; reflexivity. Qed.

(** A key of the wrong length fails its check, without the key. *)
Example short_key_reported :
  match (run (secrets "short")).1 with
  | Ok rp => rp_status rp = "degraded" /\
             map dc_summary (List.filter (with_status_of "fail") (rp_checks rp)) =
               ["Identity check failed: Stored identity key material has an invalid length."]
  | Err _ => False
  end.
Proof. vm_compute. split; reflexivity. Qed.

End DoctorDemo.
