(* ===== verification/CliViews.v ===== *)
(** * Scriptable views

    [kin/cli_v11.py] and the commands of [kin/cli.py] that print what it and
    the stores return: sessions, inbox, approvals, contacts, tasks, and the
    commands over a session whose result is emitted as JSON or plain text.
    The output of a command is one text; a usage error is an exception. *)

From Stdlib Require Import Ascii String ZArith QArith Lia.
From stdpp Require Import base gmap sets list strings.
From S2P Require Import Prelude Regex Codec PyValue Redaction Schemas Cards Policy Transition Reducer.
From S2P Require Import Store AuditLog SessionStore ApprovalStore ArtifactVault PeerCards Registry History.
From S2P Require Import Keychain CardFiles Relay Identity Ingest RetryQueue Offers Senders Pantry Depth Orchestrator.
From S2P Require Import Backend Tasks Pairing AuditExport OwnerCommands Projections Doctor.

#[local] Open Scope nat_scope.

(** ** Redaction of documents *)

(** [_redact_value]: values, not keys. *)
Fixpoint redact_value (v : json) : json :=
  match v with
  | JStr s => JStr (redact_ui_text (Some s))
  | JList l => JList (map redact_value l)
  | JObj kvs => JObj (map (fun kv => (kv.1, redact_value kv.2)) kvs)
  | _ => v
  end.

(** The texts among the values of a document, and its keys. *)
Fixpoint value_texts (v : json) : list string :=
  match v with
  | JStr s => [s]
  | JList l => List.concat (map value_texts l)
  | JObj kvs => List.concat (map (fun kv => value_texts kv.2) kvs)
  | _ => []
  end.
Fixpoint key_texts (v : json) : list string :=
  match v with
  | JList l => List.concat (map key_texts l)
  | JObj kvs => List.concat (map (fun kv => kv.1 :: key_texts kv.2) kvs)
  | _ => []
  end.

(** [sort_keys=True], at every depth. *)
Fixpoint sorted_json (v : json) : json :=
  match v with
  | JList l => JList (map sorted_json l)
  | JObj kvs => JObj (sort_items (map (fun kv => (kv.1, sorted_json kv.2)) kvs))
  | _ => v
  end.

(** [json.dumps(v, indent=2, sort_keys=True)]. *)
Definition dumps_pretty (v : json) : string := dumps_indent 0 (sorted_json v).

(** ** Emitting *)

(** [_emit_contract_output], and the end of a command: its text and its exit
    code. *)
Definition emit (payload : json) (plain_lines : list string) (json_output plain : bool) : result string string :=
  if json_output && plain then Err "typer.BadParameter"
  else Ok (if json_output then dumps_pretty payload else String.concat LF plain_lines).

Definition error_json (o : option RecoverableError) : json :=
  match o with
  | None => JNull
  | Some e => JObj [("what_happened", JStr (what_happened e)); ("impact", JStr (impact e));
                    ("preserved", JStr (preserved e)); ("next_action", JStr (next_action e));
                    ("technical_detail", opt_str (technical_detail e))]
  end.

Definition refusal {A} (r : answer A) : option RecoverableError := match r with Ok _ => None | Err e => Some e end.
Definition succeeded {A} (r : answer A) : bool := match r with Ok _ => true | Err _ => false end.

Section views.
Context `{NodeEnv} `{Jcs} `{Ed25519} `{Clock} `{X25519} `{LatestRow}.
Context (kr : backend) (urandom32 : nat -> bytes) (profile : string).
Context (db_exists : bool) (err_text : string -> string) (parse_iso_utc : string -> option Z).

Abbreviation vault := (OwnerCommands.vault kr urandom32 profile).

(** [db_path.is_file() .. conn .. get_or_create_vault_key] around a query. *)
Definition with_vault {A} (missing : P A) (f : bytes -> tables -> result string A) : P A :=
  if negb db_exists then missing
  else with_connection (
    let* key := vault in
    let* r := in_node (select (f key)) in
    mlift r).

(** *** Sessions *)

(** [ORDER BY updated_at DESC, session_id ASC]. *)
Definition recent_first (a b : session_row) : bool :=
  negb (String.leb (s_updated_at a) (s_updated_at b))
  || String.eqb (s_updated_at a) (s_updated_at b) && String.leb (s_id a) (s_id b).

Definition session_entry (key : bytes) (r : session_row) : result string document :=
  let? objective := decrypt_field_or_plaintext key (s_objective r) in
  Ok [("session_id", JStr (s_id r)); ("type", JStr (s_type r)); ("initiator_username", JStr (s_initiator r));
      ("receiver_username", JStr (s_receiver r)); ("status", JStr (s_status r));
      ("objective", JStr (redact_ui_text (Some (or_str objective ""))));
      ("sender_agent_id", opt_str (s_sender_agent r)); ("receiver_agent_id", opt_str (s_receiver_agent r));
      ("turn_limit", JInt (s_turn_limit r)); ("created_at", JStr (s_created_at r)); ("updated_at", JStr (s_updated_at r))].

Definition list_sessions : P (list document) :=
  with_vault (ret []) (fun key t => all_ok (session_entry key) (order_by recent_first (sessions t))).

Definition parse_export (raw : string) : result string json :=
  match json_loads raw with Some v => Ok (redact_value v) | None => Err "JSONDecodeError" end.

Definition open_session (session_id : string) : P json :=
  with_vault (mraise "ValueError") (fun key t =>
    let? raw := export_session key session_id "json" false t in parse_export raw).

Definition export_session_content (session_id export_format : string) : P string :=
  if negb (str_in export_format ["markdown"; "json"]) then mraise "ValueError"
  else with_vault (mraise "ValueError") (fun key t =>
    let? raw := export_session key session_id export_format false t in
    if String.eqb export_format "json" then let? v := parse_export raw in Ok (dumps_pretty v)
    else Ok (redact_ui_text (Some raw))).

Definition participant_json (p : ParticipantInfo) : json :=
  JObj [("agent_id", JStr (agent_id p)); ("role", JStr (role p))].

(** [state.model_dump(mode="json")]; the two dictionaries by key. *)
Definition state_json (s : SessionState) : document :=
  [("session_id", JStr (st_session_id s)); ("initiator_username", JStr (initiator_username s));
   ("receiver_username", JStr (receiver_username s)); ("status", JStr (status s));
   ("current_turn", JInt (current_turn s)); ("max_turns", JInt (max_turns s));
   ("actor_sequences", JObj (sort_items (map (fun kv => (kv.1, JInt kv.2)) (map_to_list (actor_sequences s)))));
   ("participants", JObj (sort_items (map (fun kv => (kv.1, participant_json kv.2)) (map_to_list (participants s)))));
   ("last_resumable_status", opt_str (last_resumable_status s)); ("events", JList (events s))].

Definition recover_session (session_id : string) : P json :=
  with_vault (mraise "ValueError") (fun key t =>
    let? st := reconstruct_session_state key session_id t in
    match st with
    | None => Err "ValueError"
    | Some s => Ok (redact_value (JObj (state_json s ++ [("recovered_from_persistence", JBool true)])))
    end).

(** A line prints the value under a key; a missing key raises. *)
Definition shown_field (k : string) (d : document) : result string string :=
  match obj_get k d with Some v => Ok (py_str v) | None => Err "KeyError" end.

Definition as_object (o : option json) : result string document :=
  match o with Some (JObj d) => Ok d | Some _ => Err "TypeError" | None => Err "KeyError" end.

Definition event_plain_lines (v : json) : result string (list string) :=
  let? e := as_object (Some v) in
  let? order := shown_field "event_order" e in
  let? at_ := shown_field "created_at" e in
  let? kind := shown_field "kind" e in
  let? actor := shown_field "actor_username" e in
  let payload := default JNull (obj_get "payload" e) in
  Ok [order +:+ ". " +:+ at_ +:+ " | " +:+ kind +:+ " | @" +:+ actor;
      "  " +:+ json_dumps dumps_sorted (if json_truthy payload then payload else JObj [])].

Definition artifact_plain_line (v : json) : result string string :=
  let? a := as_object (Some v) in
  let? id := shown_field "artifact_id" a in
  let? mime := shown_field "mime_type" a in
  let? sha := shown_field "sha256" a in
  Ok ("- " +:+ id +:+ " | " +:+ mime +:+ " | sha256=" +:+ sha).

Definition items_of (k : string) (d : document) : result string (list json) :=
  match default (JList []) (obj_get k d) with JList l => Ok l | _ => Err "TypeError" end.

Definition session_plain_lines (session : json) : result string (list string) :=
  let? doc := as_object (Some session) in
  let? meta := as_object (obj_get "session" doc) in
  let? id := shown_field "session_id" meta in
  let? st := shown_field "status" meta in
  let? ty := shown_field "type" meta in
  let? from := shown_field "initiator_username" meta in
  let? to := shown_field "receiver_username" meta in
  let objective := default JNull (obj_get "objective" meta) in
  let? evs := items_of "events" doc in
  let? ev_lines := all_ok event_plain_lines evs in
  let? arts := items_of "artifacts" doc in
  let? art_lines := all_ok artifact_plain_line arts in
  Ok (["SESSION: " +:+ id; "STATUS: " +:+ st; "TYPE: " +:+ ty; "PARTICIPANTS: " +:+ from +:+ " -> " +:+ to;
       "OBJECTIVE: " +:+ (if json_truthy objective then py_str objective else ""); "EVENTS:"]
      ++ List.concat ev_lines ++ "ARTIFACTS:" :: art_lines).

(** *** Inbox and approvals *)

Definition inbox_entry (i : NeedsYouItem) : document :=
  [("item_id", JStr (ny_item_id i)); ("session_id", JStr (ny_session_id i)); ("kind", JStr (ny_kind i));
   ("reason", JStr (redact_ui_text (Some (ny_reason i)))); ("urgency", JStr (ny_urgency i));
   ("created_at", JStr (ny_created_at i))].

Definition list_inbox : P (list document) :=
  if negb db_exists then ret []
  else
    let* info := get_local_identity_info profile db_exists in
    with_connection (in_node (select (fun t => map inbox_entry (get_needs_you_items info.1.2 t)))).

Definition approval_entry (v : ApprovalRequest * option string) : json :=
  redact_value (JObj [("request", ApprovalRequest_dump v.1); ("decision", opt_str v.2)]).

Definition list_approvals (now : Z) : P (list json) :=
  with_vault (ret []) (fun key t => Ok (map approval_entry (get_pending_approvals parse_iso_utc key now t))).

(** ** The commands *)

(** [typer.BadParameter(str(exc))] around what is read. *)
Definition or_bad_parameter {A} (m : P A) : P A := mcatch m (fun _ => mraise "typer.BadParameter").

Definition text_of (k : string) (d : document) : string := match obj_get k d with Some v => py_str v | None => "" end.

Definition or_line (l : list string) (none : string) : list string := match l with [] => [none] | _ => l end.

(** [kin session list]. *)
Definition session_list (json_output plain : bool) : P string :=
  let* sessions_ := list_sessions in
  let line d := text_of "session_id" d +:+ " | " +:+ text_of "status" d +:+ " | " +:+ text_of "type" d +:+ " | "
                +:+ text_of "initiator_username" d +:+ " -> " +:+ text_of "receiver_username" d +:+ " | "
                +:+ text_of "objective" d in
  mlift (emit (JObj [("schema_version", JInt 1); ("sessions", JList (map JObj sessions_))])
           ("SESSIONS:" :: or_line (map line sessions_) "No sessions.") json_output plain).

(** [kin session open]: a line that cannot be printed is not converted. *)
Definition session_open (session_id : string) (json_output plain : bool) : P string :=
  let* session := or_bad_parameter (open_session session_id) in
  let* lines := mlift (session_plain_lines session) in
  mlift (emit session lines json_output plain).

(** [kin session export]: the text that is written to [output], and the text
    that is shown. *)
Definition session_export (session_id export_format : string) (output : option string) (json_output plain : bool)
  : P (option (string * string) * result string string) :=
  let* content := or_bad_parameter (export_session_content session_id export_format) in
  let payload := JObj [("schema_version", JInt 1); ("session_id", JStr session_id); ("format", JStr export_format);
                       ("written", JBool (match output with Some _ => true | None => false end));
                       ("output", opt_str output);
                       ("content", match output with Some _ => JNull | None => JStr content end)] in
  let lines := ["SESSION EXPORT: " +:+ session_id; "FORMAT: " +:+ export_format;
                match output with Some path => "OUTPUT: " +:+ path | None => content end] in
  ret ((fun path => (path, content)) <$> output, emit payload lines json_output plain).

(** [kin session recover]. *)
Definition session_recover (session_id : string) (json_output plain : bool) : P string :=
  let* state := or_bad_parameter (recover_session session_id) in
  let* d := mlift (as_object (Some state)) in
  let* evs := mlift (items_of "events" d) in
  mlift (emit state
           ["RECOVERED SESSION: " +:+ text_of "session_id" d; "STATUS: " +:+ text_of "status" d;
            "TURN: " +:+ text_of "current_turn" d +:+ "/" +:+ text_of "max_turns" d;
            "EVENTS: " +:+ print_int (Z.of_nat (length evs)); "SOURCE: durable persistence"] json_output plain).

(** [kin inbox]. *)
Definition inbox (json_output plain : bool) : P string :=
  let* items := list_inbox in
  let line d := text_of "item_id" d +:+ " | " +:+ text_of "urgency" d +:+ " | " +:+ text_of "kind" d +:+ " | session="
                +:+ text_of "session_id" d +:+ " | " +:+ text_of "reason" d in
  mlift (emit (JObj [("schema_version", JInt 1); ("items", JList (map JObj items))])
           ("INBOX:" :: or_line (map line items) "No owner-attention items.") json_output plain).

(** [kin approval list]. *)
Definition approval_lines (v : json) : result string (list string) :=
  let? item := as_object (Some v) in
  let? q := as_object (obj_get "request" item) in
  Ok [text_of "approval_id" q +:+ " | session=" +:+ text_of "session_id" q +:+ " | action=" +:+ text_of "action_class" q
      +:+ " | risk=" +:+ text_of "risk_label" q +:+ " | decision=" +:+ text_of "decision" item;
      "  " +:+ text_of "summary" q].

Definition approval_list (now : Z) (json_output plain : bool) : P string :=
  let* approvals_ := list_approvals now in
  let* lines := mlift (all_ok approval_lines approvals_) in
  mlift (emit (JObj [("schema_version", JInt 1); ("approvals", JList approvals_)])
           ("APPROVALS:" :: or_line (List.concat lines) "No pending or expired approvals.") json_output plain).

(** The end of a command that acted: the output is built after the action, and
    a refusal exits with code 1. *)
Definition after_action {A} (r : answer A) (payload : json) (lines : list string) (json_output plain : bool)
  : P (string * Z) :=
  let* text := mlift (emit payload lines json_output plain) in
  ret (text, if succeeded r then 0%Z else 1%Z).

Definition next_action_line (o : option RecoverableError) : list string :=
  match o with Some e => ["ACTION: " +:+ next_action e] | None => [] end.

(** [kin session pause], [resume] and [cancel]. *)
Definition session_control (c : control) (session_id : string) (reason : option string) (now : Z)
    (json_output plain : bool) : P (string * Z) :=
  let* r := run_control kr urandom32 profile db_exists err_text c session_id reason now in
  after_action r
    (JObj [("schema_version", JInt 1); ("ok", JBool (succeeded r)); ("action", JStr (ct_lower c));
           ("session_id", JStr session_id); ("error", error_json (refusal r))])
    (["SESSION " +:+ str_map Doctor.upper_ascii (ct_lower c) +:+ ": " +:+ session_id;
      "STATUS: " +:+ (if succeeded r then "OK" else "FAILED")] ++ next_action_line (refusal r))
    json_output plain.

(** [kin approval decide]. *)
Definition parse_constraints (o : option string) : result string (option document) :=
  match o with
  | None | Some "" => Ok None
  | Some t => match json_loads t with
              | Some (JObj d) => Ok (Some d)
              | Some JNull => Ok None
              | _ => Err "typer.BadParameter"
              end
  end.

Definition approval_decide (approval_id session_id decision : string) (reason constraints_json : option string)
    (now : Z) (json_output plain : bool) : P (string * Z) :=
  let* constraints := mlift (parse_constraints constraints_json) in
  let* r := decide_pending_approval kr urandom32 profile db_exists err_text approval_id session_id decision reason
              constraints now in
  after_action r
    (JObj [("schema_version", JInt 1); ("ok", JBool (succeeded r)); ("approval_id", JStr approval_id);
           ("session_id", JStr session_id); ("decision", if succeeded r then JStr decision else JNull);
           ("error", error_json (refusal r))])
    (["APPROVAL: " +:+ approval_id; "STATUS: " +:+ (if succeeded r then "RECORDED" else "FAILED")]
     ++ next_action_line (refusal r))
    json_output plain.
End views.

(** *** Tasks of the first protocol *)

Section task_views.
(** The dash in the line about a draft. *)
Context `{NodeEnv} (em_dash : string).

Definition opt_line (o : option string) : string := match o with Some s => s | None => "None" end.

(** [kin tasks]; the output of a run of [typer.echo] is their lines. *)
Definition task_lines (r : task_row) : list string :=
  [t_id r +:+ "  " +:+ opt_line (t_status r) +:+ "  with " +:+ t_contact r; "  " +:+ t_goal r;
   "  updated " +:+ t_updated_at r].

Definition tasks (status_filter : option string) (t : tables) : list string :=
  let wanted r := match status_filter with
                  | Some (String _ _ as st) => bool_decide (t_status r = Some st)
                  | _ => true
                  end in
  match order_by (fun a b => String.leb (t_updated_at b) (t_updated_at a)) (List.filter wanted (Store.tasks t)) with
  | [] => ["No matching tasks."]
  | rows => "TASKS" :: List.concat (map task_lines rows)
  end.

(** [kin status]. *)
Definition message_lines (m : message_row) : list string :=
  [""; "[" +:+ m_created_at m +:+ "] " +:+ m_from m +:+ " (" +:+ opt_line (m_type m) +:+ ")"; m_content m].

Definition task_status_lines (task_id : string) (t : tables) : result string (list string) :=
  let is_task r := String.eqb (t_id r) task_id || bool_decide (t_peer_task_id r = Some task_id) in
  match find_first is_task (Store.tasks t) with
  | None => Err "typer.BadParameter"
  | Some r =>
      Ok (["Task: " +:+ t_id r; "Contact: " +:+ t_contact r; "Status: " +:+ opt_line (t_status r); "Goal: " +:+ t_goal r]
          ++ List.concat (map message_lines
               (order_by (fun a b => String.leb (m_created_at a) (m_created_at b))
                  (List.filter (fun m => String.eqb (m_task m) (t_id r)) (messages t))))
          ++ (match t_draft_content r with
              | Some (String _ _ as d) =>
                  [""; "DRAFT (" +:+ opt_line (t_draft_type r) +:+ ") " +:+ em_dash +:+ " run: kin respond " +:+ t_id r; d]
              | _ => []
              end)
          ++ (match t_result r with Some (String _ _ as x) => [""; "RESULT"; x] | _ => [] end))
  end.

Definition tasks_command (db_exists : bool) (status_filter : option string) : P (list string) :=
  if negb db_exists then ret ["No tasks yet."] else with_connection (in_node (select (tasks status_filter))).

(** A database that is missing is created, without a task. *)
Definition status_command (task_id : string) : P (list string) :=
  with_connection (let* r := in_node (select (task_status_lines task_id)) in mlift r).
End task_views.

(** ** What the owner is shown *)

Lemma value_texts_redacted v : Forall clean (value_texts (redact_value v)).
Proof.
  induction v as [| | | |s|l IH|kvs IH] using json_ind; cbn [redact_value value_texts]; try apply Forall_nil_2.
  - apply Forall_cons_2; [apply redact_ui_clean|apply Forall_nil_2].
  - induction IH as [|x l Hx Hl IHl]; cbn; [apply Forall_nil_2|]. by apply Forall_app_2.
  - induction IH as [|x l Hx Hl IHl]; cbn; [apply Forall_nil_2|]. by apply Forall_app_2.
Qed.

Section shown.
Context `{NodeEnv} `{Jcs} `{Clock} (kr : backend) (urandom32 : nat -> bytes) (profile : string) (db_exists : bool).

(** A read on an open connection sees the tables the profile has. *)
Lemma with_vault_reads {A} e (f : bytes -> tables -> result string A) s :
  fst (with_vault kr urandom32 profile db_exists (mraise e) f s)
  = if db_exists then let? key := fst (OwnerCommands.vault kr urandom32 profile s) in f key (db (p_node s)) else Err e.
Proof.
  unfold with_vault. destruct db_exists; cbn [negb]; [|done].
  unfold with_connection, OwnerCommands.vault, mfinally, bind, in_keychain, in_node.
  by destruct (get_or_create_vault_key kr urandom32 profile (p_keys s)) as [[key|x] k].
Qed.

End shown.

(** ** Acting before the flags are looked at *)

Section acted.
Context `{NodeEnv} `{Jcs} `{Clock} (kr : backend) (urandom32 : nat -> bytes) (profile : string) (db_exists : bool).
Context (err_text : string -> string).

Lemma after_action_acted {A} (m : P (answer A)) payload lines j p s :
  snd (bind m (fun r => after_action r (payload r) (lines r) j p) s) = snd (m s).
Proof. unfold bind, after_action. destruct (m s) as [[r|e] s']; [|done]. by destruct (emit _ _ _ _). Qed.

(** The flags of [kin approval decide] and of the session controls are looked
    at after the command acted: with both, the decision is recorded and the
    command fails with a usage error. *)
Lemma decided_before_flags id sid d reason c cs now j p s :
  parse_constraints c = Ok cs ->
  snd (approval_decide kr urandom32 profile db_exists err_text id sid d reason c now j p s)
  = snd (decide_pending_approval kr urandom32 profile db_exists err_text id sid d reason cs now s) /\
  exists e, fst (approval_decide kr urandom32 profile db_exists err_text id sid d reason c now true true s) = Err e.
Proof.
  intros Hc. unfold approval_decide. rewrite Hc. split; [apply after_action_acted|].
  unfold bind at 1, mlift. unfold bind at 1. destruct (decide_pending_approval _ _ _ _ _ _ _ _ _ _ _ s) as [[r|e] s']; [|by eexists].
  by eexists.
Qed.

Lemma controlled_before_flags c sid reason now j p s :
  snd (session_control kr urandom32 profile db_exists err_text c sid reason now j p s)
  = snd (run_control kr urandom32 profile db_exists err_text c sid reason now s).
Proof. apply after_action_acted. Qed.
End acted.

Module CliViewsDemo.
Import AuditDemo SchemaDemo.

(** The transcript of the demonstration session, with a path in a message. *)
Definition transcript (objective : string) : json :=
  JObj [("session", JObj [("session_id", JStr "s1"); ("type", JStr "ask"); ("initiator_username", JStr "alice");
                          ("receiver_username", JStr "bob"); ("status", JStr "active"); ("objective", JStr objective)]);
        ("events", JList [JObj [("event_order", JInt 1); ("kind", JStr "QUESTION"); ("actor_username", JStr "alice");
                                ("payload", JObj [("message", JStr "see /home/alice/notes")]);
                                ("created_at", JStr "2026-07-23T12:00:00+00:00")]])].

Definition demo_env : NodeEnv.
Proof.
  refine {| aes_encrypt _ _ p := p; aes_decrypt _ _ p := Some p;
            urandom12 _ := "0123456789ab"; uuid4 n := "id-" +:+ print_int (Z.of_nat n);
            utcnow _ := "2026-07-23T12:00:00+00:00";
            json_loads s := if String.eqb (str_take 1 s) "{" then Some (transcript "goal") else None;
            model_json := json_dumps dumps_canonical |}; done.
Defined.
#[local] Existing Instances demo_env demo_jcs IngestDemo.demo_clock.

Abbreviation kr := KeychainDemo.os_backend.
Definition random (_ : nat) : bytes := "vault".
Definition opened : result string json := fst (open_session kr random "bob" true "s1" OwnerDemo.start).
Definition as_text (j p : bool) : result string string :=
  fst (session_open kr random "bob" true "s1" j p OwnerDemo.start).

Example shown_plain :
  as_text false false = as_text false true /\
  as_text false true = Ok (String.concat LF
    ["SESSION: s1"; "STATUS: active"; "TYPE: ask"; "PARTICIPANTS: alice -> bob"; "OBJECTIVE: goal"; "EVENTS:";
     "1. 2026-07-23T12:00:00+00:00 | QUESTION | @alice";
     "  {" +:+ quote dumps_sorted "message" +:+ ": " +:+ quote dumps_sorted "see [REDACTED PATH]" +:+ "}"; "ARTIFACTS:"]) /\
  as_text true true = Err "typer.BadParameter".
Proof. vm_compute. split_and!; reflexivity. Qed.


(** The keys of an object are the peer's text as well, and are left as they are. *)
Example keys_not_redacted :
  redact_value (JObj [("/home/bob/.ssh/id", JStr "/home/bob/.ssh/id")])
  = JObj [("/home/bob/.ssh/id", JStr "[REDACTED PATH]")].
Proof. vm_compute. reflexivity. Qed.

(** Both flags at once: the decision is stored, and the command fails. *)
Definition decide (j p : bool) : result string (string * Z) * profile_state :=
  approval_decide kr random "bob" true id "ap1" "s1" "deny" None None 0 j p OwnerDemo.start.

Example usage_error_after :
  fst (decide true true) = Err "typer.BadParameter" /\ snd (decide true true) = snd (decide false true).
Proof. vm_compute. split; reflexivity. Qed.

Example constraints_of :
  (parse_constraints None, parse_constraints (Some ""), parse_constraints (Some "[1]"))
  = (Ok None, Ok None, Err "typer.BadParameter").
Proof. vm_compute. reflexivity. Qed.
End CliViewsDemo.
