(* ===== verification/Views.v ===== *)
(** * Views of agents, artifacts and approvals

    The last projections of [kin/tui/local_state.py] and the view models of
    [kin/tui/state.py] they build: the agents of the profile and of its peers,
    the artifacts and the approvals of one session, its outcome card and its
    gauges.  All of them only read. *)

From Stdlib Require Import Ascii String ZArith Lia.
From stdpp Require Import base gmap sets list strings.
From S2P Require Import Prelude Regex Codec PyValue Schemas Cards Policy Store AuditLog SessionStore ApprovalStore Adapters.
From S2P Require Import ArtifactVault Registry History Keychain CardFiles Ingest Depth Pairing OwnerCommands Projections.
From S2P Require Import Doctor.

#[local] Open Scope nat_scope.

(** ** Agents *)

Record AgentCardView := {
  av_agent_id : string;
  av_name : string;
  av_description : json;
  av_availability : AgentAvailability;
  av_readiness_reason : string;
  av_is_peer : bool;
  av_capabilities_tags : json;
  av_adapter_kind : string;
  av_accepts : list string;
  av_produces : list string;
  av_boundary_summary : string;
  av_peer_username : option string
}.

(** The text of a member inside an f-string: class and name. *)
Definition enum_text (a : AgentAvailability) : string := "AgentAvailability." +:+ upper (enum_value a).

(** An object under a key of an object; another value has no [get]. *)
Definition object_at (k : string) (d : document) : option document :=
  match default (JObj []) (obj_get k d) with JObj x => Some x | _ => None end.

Section agents.
Context `{NodeEnv} `{Clock}.
(** The bullet between the kind of an adapter and its state. *)
Context (bullet : string).
Context (lax_int : json -> option Z) (safe_load : string -> option json).
Context (webhook_secret : string -> string -> option string) (is_dir : string -> bool).

(** [AgentCardView.from_local_card]. *)
Definition from_local_card (card : AgentCard) (availability : AgentAvailability) (readiness_reason : string)
  : AgentCardView :=
  let kind := match adapter card with WebhookAdapterConfig _ _ => "Webhook" | _ => "Local" end in
  {| av_agent_id := card_id card; av_name := card_name card; av_description := JStr (card_description card);
     av_availability := availability; av_readiness_reason := readiness_reason; av_is_peer := false;
     av_capabilities_tags := JList (map JStr (tags (capabilities card)));
     av_adapter_kind := kind +:+ " " +:+ bullet +:+ " " +:+ enum_text availability;
     av_accepts := accepts (capabilities card); av_produces := produces (capabilities card);
     av_boundary_summary := "Workspace: " +:+ filesystem (boundaries card); av_peer_username := None |}.

(** The rows of the agents table with what readiness says about them. *)
Definition status_of_row (now : Z) (t : tables) (r : agent_row) : string * (bool * AgentAvailability) :=
  let stored := match enum_of (A := AgentAvailability) (ag_availability r) with Some a => a | None => READY end in
  let recommended := find_first (fun x => String.eqb (rr_agent_id x) (ag_id r)) (readiness_recommendations now t) in
  (ag_id r, (ag_enabled r, match recommended with Some x => rr_availability x | None => stored end)).

Definition db_status (now : Z) (t : option tables) : list (string * (bool * AgentAvailability)) :=
  match t with Some t => map (status_of_row now t) (agents t) | None => [] end.

Definition local_view (profile : string) (statuses : list (string * (bool * AgentAvailability))) (card : AgentCard)
  : AgentCardView :=
  let '(enabled, stored) := default (true, READY) (obj_get (card_id card) statuses) in
  let computed := compute_availability webhook_secret is_dir card profile stored enabled in
  from_local_card card computed (AVAILABILITY_EXPLANATIONS computed).

(** [t] is [None] while the profile has no database. *)
Definition get_local_agents_summaries (agents_dir : directory) (profile : string) (now : Z) (t : option tables)
  : list AgentCardView :=
  map (local_view profile (db_status now t)) (valid_cards (scan_local_cards lax_int safe_load agents_dir None)).

(** A cached card that is no object, or whose capabilities are none, is not
    shown. *)
Definition peer_view (r : peer_card_row) : option AgentCardView :=
  match json_loads (pc_card r) with
  | Some (JObj data) =>
      let name := default (JStr (pc_agent r)) (obj_get "name" data) in
      let desc := default (JStr "") (obj_get "description" data) in
      caps ← object_at "capabilities" data;
      let stale := String.eqb (pc_status r) "stale" in
      let availability := if stale then OFFLINE else READY in
      Some {| av_agent_id := pc_agent r; av_name := py_str name +:+ (if stale then " (Stale)" else "");
              av_description := desc; av_availability := availability;
              av_readiness_reason := if stale then "Peer card updated - owner review required"
                                     else "Ready to accept work.";
              av_is_peer := true; av_capabilities_tags := default (JList []) (obj_get "tags" caps);
              av_adapter_kind := "Peer " +:+ bullet +:+ " " +:+ enum_value availability;
              av_accepts := []; av_produces := [];
              av_boundary_summary := "Owner-controlled; reviewed on acceptance";
              av_peer_username := Some (pc_peer r) |}
  | _ => None
  end.

Definition peer_agents (t : option tables) : list AgentCardView :=
  match t with
  | Some t => omap peer_view (order_by (fun a b => String.leb (pc_agent a) (pc_agent b)) (peer_agent_cards t))
  | None => []
  end.

Definition get_all_agent_summaries (agents_dir : directory) (profile : string) (now : Z) (t : option tables)
  : list AgentCardView * list AgentCardView :=
  (get_local_agents_summaries agents_dir profile now t, peer_agents t).
End agents.

(** ** Artifacts *)

(** [ArtifactMetadata] as the stored JSON fills it: a dataclass checks no
    types. *)
Record artifact_meta := {
  vm_artifact_id : json;
  vm_session_id : json;
  vm_sha256 : json;
  vm_mime_type : json;
  vm_size_bytes : json;
  vm_offered_by : json;
  vm_preview_policy : json;
  vm_created_at : json;
  vm_source : json
}.

Record ArtifactView := {
  vw_metadata : artifact_meta;
  vw_display_size : string;
  vw_preview_available : bool
}.

(** [n / d] rounded to tenths, ties to the even digit: the quotient is exact in
    a float, [d] being a power of two. *)
Definition tenths (n d : Z) : Z :=
  let q := (10 * n / d)%Z in
  let r := (10 * n - q * d)%Z in
  if (2 * r <? d)%Z || ((2 * r =? d)%Z && Z.even q) then q else (q + 1)%Z.

Definition one_decimal (n d : Z) : string :=
  let x := tenths n d in print_int (x / 10) +:+ "." +:+ print_int (x mod 10).

Definition size_text (size_bytes : Z) : string :=
  if (size_bytes <? 1024)%Z then print_int size_bytes +:+ " B"
  else if (size_bytes <? 1024 * 1024)%Z then one_decimal size_bytes 1024 +:+ " KB"
  else one_decimal size_bytes (1024 * 1024) +:+ " MB".

Definition PREVIEW_TYPES : list string :=
  ["application/json"; "application/csv"; "text/csv"; "application/yaml"; "text/markdown"].

Definition preview_available (policy mime : string) : bool :=
  negb (str_in policy ["none"; "disabled"; "false"]) && (startswith "text/" mime || str_in mime PREVIEW_TYPES).

Section artifacts.
Context `{NodeEnv}.
(** The three forms of a size that is a float. *)
Context (float_size : pyfloat -> string).

Definition display_size (v : json) : result string string :=
  match v with
  | JInt n => Ok (size_text n)
  | JBool b => Ok (py_str v +:+ " B")
  | JFloat f => Ok (float_size f)
  | _ => Err "TypeError"
  end.

(** [ArtifactView.from_metadata]. *)
Definition from_metadata (m : artifact_meta) : result string ArtifactView :=
  let? shown := display_size (vm_size_bytes m) in
  Ok {| vw_metadata := m; vw_display_size := shown;
        vw_preview_available := preview_available (lower (py_str (vm_preview_policy m))) (lower (py_str (vm_mime_type m))) |}.

(** The metadata of a row, completed from its columns. *)
Definition meta_of_document (session_id : string) (r : artifact_row) (d : document) : artifact_meta :=
  let get k dflt := default dflt (obj_get k d) in
  {| vm_artifact_id := get "artifact_id" (JStr (ar_id r)); vm_session_id := get "session_id" (JStr session_id);
     vm_sha256 := get "sha256" (JStr (ar_sha256 r)); vm_mime_type := get "mime_type" (JStr (ar_mime r));
     vm_size_bytes := get "size_bytes" (JInt (Z.of_nat (String.length (ar_bytes r))));
     vm_offered_by := get "offered_by" (JStr (ar_offered_by r)); vm_preview_policy := get "preview_policy" (JStr "text");
     vm_created_at := get "created_at" (JStr (ar_created_at r)); vm_source := get "source" (JStr "adapter_output") |}.

Definition meta_of_row (session_id : string) (r : artifact_row) : artifact_meta :=
  match ar_metadata r with
  | Some (String _ _ as text) =>
      match json_loads text with
      | Some (JObj d) => meta_of_document session_id r d
      | _ => meta_of_document session_id r []
      end
  | _ => meta_of_document session_id r []
  end.

(** A size that is no number is not caught: the whole list fails. *)
Definition get_artifacts_for_session (session_id : string) (t : tables) : result string (list ArtifactView) :=
  all_ok (fun r => from_metadata (meta_of_row session_id r))
    (order_by (fun a b => String.leb (ar_created_at a) (ar_created_at b))
       (List.filter (fun r => String.eqb (ar_session r) session_id) (Store.artifacts t))).
End artifacts.

(** ** Approvals of one session *)

Section approvals.
Context `{NodeEnv} (key : bytes).

Definition MADE_UP_TIME : string := "2026-08-01T00:00:00Z".
Definition zulu_or (o : option string) (other : string) : string :=
  match o with Some (String _ _ as s) => if has_suffix "Z" s then s else other | _ => other end.

(** The request rebuilt from a row whose stored request cannot be read. *)
Definition session_request (session_id : string) (r : approval_row) : option ApprovalRequest :=
  let words := JStr ("Approval request " +:+ str_take 8 (ap_id r)) in
  let action : ActionClass := match enum_of (ap_action r) with Some a => a | None => WORKSPACE_WRITE end in
  ApprovalRequest_validate
    (JObj [("schema_version", JStr "1.1"); ("approval_id", JStr (ap_id r)); ("session_id", JStr session_id);
           ("agent_id", JStr (or_str (ap_agent r) "agent-unknown")); ("action_class", JStr (enum_value action));
           ("summary", words); ("reason", words); ("risk_label", JStr "medium"); ("requested_scope", JObj []);
           ("expires_at", JStr (zulu_or (Some (ap_expires_at r)) MADE_UP_TIME))]).

(** The decision; the time of one is the time it expires where it has no [Z]. *)
Definition shown_decision (session_id : string) (r : approval_row) : result string (option ApprovalDecision) :=
  match ap_decision r with
  | None | Some "" => Ok None
  | Some text =>
      let kind : DecisionKind :=
        match enum_of text with
        | Some k => k
        | None => if contains "deny" (lower text) then DENY else APPROVE_ONCE
        end in
      let at_ := zulu_or (ap_decided_at r) (zulu_or (Some (ap_expires_at r)) MADE_UP_TIME) in
      let? _ := ensure (TIMESTAMP_REGEX at_) "ValidationError" in
      Ok (Some {| dec_approval_id := ap_id r; dec_session_id := session_id; dec_decision := kind;
                  dec_decided_by := "owner"; dec_decided_at := at_; dec_constraints := None |})
  end.

(** [None] leaves the row out. *)
Definition session_approval (session_id : string) (r : approval_row)
  : result string (option (ApprovalRequest * option ApprovalDecision)) :=
  match (match stored_request key r with Some q => Some q | None => session_request session_id r end) with
  | None => Ok None
  | Some q => let? d := shown_decision session_id r in Ok (Some (q, d))
  end.

Definition get_approvals_for_session (session_id : string) (t : tables)
  : result string (list (ApprovalRequest * option ApprovalDecision)) :=
  let? l := all_ok (session_approval session_id)
              (order_by (fun a b => String.leb (ap_expires_at a) (ap_expires_at b))
                 (List.filter (fun r => String.eqb (ap_session r) session_id) (Store.approvals t))) in
  Ok (omap id l).
End approvals.

(** ** Outcome and budgets *)

Section budgets.
Context `{NodeEnv} `{Clock} (kr : backend) (urandom32 : nat -> bytes) (profile : string) (db_exists : bool).
Context (lax_int : json -> option Z) (from_iso : string -> option (Z * option Z)).

Abbreviation vault := (OwnerCommands.vault kr urandom32 profile).

(** A vault key that cannot be had shows no card; a card that cannot be read
    raises. *)
Definition get_session_outcome_card (session_id : string) : P (option OutcomeCard) :=
  if negb db_exists then ret None
  else
    let* key := mcatch (let* k := vault in ret (Some k)) (fun _ => ret None) in
    match key with
    | None => ret None
    | Some k => with_connection (let* r := in_node (select (get_outcome_card k lax_int session_id)) in mlift r)
    end.

Definition get_session_budget_gauges (session_id : string) (now : Z) : P (option BudgetGaugeSnapshot) :=
  if negb db_exists then ret None
  else with_connection (mcatch
    (let* k := vault in
     let* r := in_node (select (budget_gauges k from_iso session_id now)) in
     let* g := mlift r in
     ret (Some g)) (fun _ => ret None)).
End budgets.

(** ** Facts *)

(** The size that is shown is the nearest tenth. *)
Lemma tenths_nearest n d : (0 < d)%Z -> (2 * Z.abs (10 * n - tenths n d * d) <= d)%Z.
Proof.
  intros Hd. unfold tenths. cbv zeta. pose proof (Z.div_mod (10 * n) d ltac:(lia)) as E.
  pose proof (Z.mod_pos_bound (10 * n) d Hd) as Hb. set (q := (10 * n / d)%Z) in *.
  destruct (_ || _) eqn:Et.
  - apply orb_true_iff in Et as [Et|[Et _]%andb_true_iff]; lia.
  - apply orb_false_iff in Et as [Et _]. nia.
Qed.

(** An agent is shown as ready only when it is enabled, no reservation holds and
    its adapter has what it needs. *)
Lemma shown_ready `{NodeEnv} `{Clock} bullet webhook_secret is_dir profile statuses card :
  av_availability (local_view bullet webhook_secret is_dir profile statuses card) = READY ->
  (forall v, obj_get (card_id card) statuses = Some v -> v = (true, READY)) /\
  match adapter card with
  | WebhookAdapterConfig _ _ => webhook_secret profile (card_id card) <> None
  | LocalCommandAdapterConfig _ dir => is_dir dir = true
  | _ => True
  end.
Proof.
  unfold local_view. destruct (default (true, READY) (obj_get (card_id card) statuses)) as [en st] eqn:E.
  cbn. unfold compute_availability. destruct en; [|done]. cbn [negb]. intros Hr.
  assert (st = READY /\ match adapter card with
                        | WebhookAdapterConfig _ _ => webhook_secret profile (card_id card) <> None
                        | LocalCommandAdapterConfig _ dir => is_dir dir = true
                        | _ => True
                        end) as [-> Ha].
  { destruct (adapter card); [done|destruct (webhook_secret _ _); done|destruct (is_dir _); done|done]. }
  split; [|done]. intros v Hv. rewrite Hv in E. exact E.
Qed.

Module ViewsDemo.
Import AuditLog.AuditDemo.
#[local] Existing Instances demo_env IngestDemo.demo_clock.

(** Below the next unit the rounding reaches it. *)
Example sizes :
  map size_text [0; 1023; 1024; 1126; 1127; 1048575; 1048576]%Z
  = ["0 B"; "1023 B"; "1.0 KB"; "1.1 KB"; "1.1 KB"; "1024.0 KB"; "1.0 MB"].
Proof. vm_compute. reflexivity. Qed.

Definition approval (d : string) : approval_row :=
  {| ap_id := "ap1"; ap_session := "s1"; ap_agent := None; ap_action := "workspace_write"; ap_request := None;
     ap_decision := Some d; ap_decided_at := Some "2026-07-23T12:00:00+00:00";
     ap_expires_at := "2026-07-24T12:00:00Z"; ap_consumed_at := None |}.

(** An unknown decision is shown as an approval, and a time without [Z] as the
    time at which the request expires. *)
Example unknown_decision_approves :
  match shown_decision "s1" (approval "revoked") with
  | Ok (Some d) => Some (dec_decision d, dec_decided_at d)
  | _ => None
  end = Some (APPROVE_ONCE, "2026-07-24T12:00:00Z").
Proof. vm_compute. reflexivity. Qed.

(** A size that is stored as null fails the list of the session. *)
Definition null_size : artifact_meta :=
  {| vm_artifact_id := JNull; vm_session_id := JNull; vm_sha256 := JNull; vm_mime_type := JNull; vm_size_bytes := JNull;
     vm_offered_by := JNull; vm_preview_policy := JNull; vm_created_at := JNull; vm_source := JNull |}.
Example null_size_fails : from_metadata (fun _ => "") null_size = Err "TypeError".
Proof. reflexivity. Qed.

(** The name of the enumeration is part of what is shown for an own agent. *)
Example enum_name_shown : enum_text NEEDS_KEY = "AgentAvailability.NEEDS_KEY".
Proof. vm_compute. reflexivity. Qed.
End ViewsDemo.
