(* ===== verification/Themes.v ===== *)
(** * Themes

    [kin/tui/tokens.py] and [kin/tui/theme_yaml.py]: the semantic roles, the six
    themes, their resolution by name, and the override of roles by a YAML file.
    Parsing YAML and reading files are parameters; the luminance of colours is
    float arithmetic with a power and is left out. *)

From Stdlib Require Import Ascii String ZArith Lia.
From stdpp Require Import base gmap sets list strings.
From S2P Require Import Prelude Regex Codec PyValue Transition Cards.

#[local] Open Scope nat_scope.

(** ** Roles and themes *)

Definition REQUIRED_ROLES : list string :=
  ["surface.base"; "surface.raised"; "surface.selected"; "text.primary"; "text.secondary";
   "text.muted"; "text.inverse"; "border.subtle"; "border.focus"; "border.strong";
   "state.live"; "state.waiting"; "state.approval"; "state.error"; "accent.primary";
   "accent.secondary"; "accent.highlight"; "diff.add"; "diff.remove"; "diff.context"].

Record Theme := {
  theme_name : string;
  surface_base : string;
  surface_raised : string;
  surface_selected : string;
  text_primary : string;
  text_secondary : string;
  text_muted : string;
  text_inverse : string;
  border_subtle : string;
  border_focus : string;
  border_strong : string;
  state_live : string;
  state_waiting : string;
  state_approval : string;
  state_error : string;
  accent_primary : string;
  accent_secondary : string;
  accent_highlight : string;
  diff_add : string;
  diff_remove : string;
  diff_context : string
}.

Definition get_role_map (t : Theme) : list (string * string) :=
  [("surface.base", surface_base t); ("surface.raised", surface_raised t);
   ("surface.selected", surface_selected t); ("text.primary", text_primary t);
   ("text.secondary", text_secondary t); ("text.muted", text_muted t);
   ("text.inverse", text_inverse t); ("border.subtle", border_subtle t);
   ("border.focus", border_focus t); ("border.strong", border_strong t);
   ("state.live", state_live t); ("state.waiting", state_waiting t);
   ("state.approval", state_approval t); ("state.error", state_error t);
   ("accent.primary", accent_primary t); ("accent.secondary", accent_secondary t);
   ("accent.highlight", accent_highlight t); ("diff.add", diff_add t);
   ("diff.remove", diff_remove t); ("diff.context", diff_context t)].

(** [get_role_color]. *)
Definition get_role_color (t : Theme) (role_name : string) : result string string :=
  match obj_get role_name (get_role_map t) with Some c => Ok c | None => Err "KeyError" end.

(** An argument of the constructor, which is called with keywords: a role that
    is missing is a missing argument. *)
Definition role_argument (roles : list (string * string)) (r : string) : result string string :=
  match obj_get r roles with Some c => Ok c | None => Err "TypeError" end.

Definition theme_of (name : string) (roles : list (string * string)) : result string Theme :=
  let? c_surface_base := role_argument roles "surface.base" in
  let? c_surface_raised := role_argument roles "surface.raised" in
  let? c_surface_selected := role_argument roles "surface.selected" in
  let? c_text_primary := role_argument roles "text.primary" in
  let? c_text_secondary := role_argument roles "text.secondary" in
  let? c_text_muted := role_argument roles "text.muted" in
  let? c_text_inverse := role_argument roles "text.inverse" in
  let? c_border_subtle := role_argument roles "border.subtle" in
  let? c_border_focus := role_argument roles "border.focus" in
  let? c_border_strong := role_argument roles "border.strong" in
  let? c_state_live := role_argument roles "state.live" in
  let? c_state_waiting := role_argument roles "state.waiting" in
  let? c_state_approval := role_argument roles "state.approval" in
  let? c_state_error := role_argument roles "state.error" in
  let? c_accent_primary := role_argument roles "accent.primary" in
  let? c_accent_secondary := role_argument roles "accent.secondary" in
  let? c_accent_highlight := role_argument roles "accent.highlight" in
  let? c_diff_add := role_argument roles "diff.add" in
  let? c_diff_remove := role_argument roles "diff.remove" in
  let? c_diff_context := role_argument roles "diff.context" in
  Ok {| theme_name := name;
        surface_base := c_surface_base; surface_raised := c_surface_raised;
        surface_selected := c_surface_selected; text_primary := c_text_primary;
        text_secondary := c_text_secondary; text_muted := c_text_muted;
        text_inverse := c_text_inverse; border_subtle := c_border_subtle;
        border_focus := c_border_focus; border_strong := c_border_strong;
        state_live := c_state_live; state_waiting := c_state_waiting;
        state_approval := c_state_approval; state_error := c_state_error;
        accent_primary := c_accent_primary; accent_secondary := c_accent_secondary;
        accent_highlight := c_accent_highlight; diff_add := c_diff_add;
        diff_remove := c_diff_remove; diff_context := c_diff_context |}.

Definition KIN_GRAPHITE_THEME : Theme :=
  {| theme_name := "kin-graphite";
     surface_base := "#16161e"; surface_raised := "#242536"; surface_selected := "#292e42";
     text_primary := "#c0caf5"; text_secondary := "#a9b1d6"; text_muted := "#6c749c";
     text_inverse := "#15161e"; border_subtle := "#27a1b9"; border_focus := "#bb9af7";
     border_strong := "#7aa2f7"; state_live := "#73daca"; state_waiting := "#e0af68";
     state_approval := "#ff9e64"; state_error := "#f7768e"; accent_primary := "#bb9af7";
     accent_secondary := "#7aa2f7"; accent_highlight := "#7dcfff"; diff_add := "#41a6b5";
     diff_remove := "#f7768e"; diff_context := "#565f89" |}.

Definition KIN_NIGHT_THEME : Theme :=
  {| theme_name := "kin-night";
     surface_base := "#0d0e15"; surface_raised := "#1b1c2b"; surface_selected := "#1f2335";
     text_primary := "#a9b1d6"; text_secondary := "#9aa5ce"; text_muted := "#6c749c";
     text_inverse := "#0d0e15"; border_subtle := "#1a1b26"; border_focus := "#9d7cd8";
     border_strong := "#7aa2f7"; state_live := "#41a6b5"; state_waiting := "#0db9d7";
     state_approval := "#ff9e64"; state_error := "#f7768e"; accent_primary := "#9d7cd8";
     accent_secondary := "#7aa2f7"; accent_highlight := "#7dcfff"; diff_add := "#41a6b5";
     diff_remove := "#f7768e"; diff_context := "#565f89" |}.

Definition NORD_THEME : Theme :=
  {| theme_name := "nord";
     surface_base := "#2e3440"; surface_raised := "#3b4252"; surface_selected := "#434c5e";
     text_primary := "#eceff4"; text_secondary := "#e5e9f0"; text_muted := "#d8dee9";
     text_inverse := "#2e3440"; border_subtle := "#4c566a"; border_focus := "#88c0d0";
     border_strong := "#81a1c1"; state_live := "#a3be8c"; state_waiting := "#ebcb8b";
     state_approval := "#d08770"; state_error := "#ff7a85"; accent_primary := "#88c0d0";
     accent_secondary := "#81a1c1"; accent_highlight := "#88c0d0"; diff_add := "#a3be8c";
     diff_remove := "#ff7a85"; diff_context := "#4c566a" |}.

Definition DRACULA_THEME : Theme :=
  {| theme_name := "dracula";
     surface_base := "#282a36"; surface_raised := "#44475a"; surface_selected := "#6272a4";
     text_primary := "#f8f8f2"; text_secondary := "#bfbfbf"; text_muted := "#6272a4";
     text_inverse := "#282a36"; border_subtle := "#44475a"; border_focus := "#bd93f9";
     border_strong := "#ff79c6"; state_live := "#50fa7b"; state_waiting := "#f1fa8c";
     state_approval := "#ffb86c"; state_error := "#ff5555"; accent_primary := "#bd93f9";
     accent_secondary := "#ff79c6"; accent_highlight := "#8be9fd"; diff_add := "#50fa7b";
     diff_remove := "#ff5555"; diff_context := "#6272a4" |}.

Definition CATPPUCCIN_MOCHA_THEME : Theme :=
  {| theme_name := "catppuccin-mocha";
     surface_base := "#1e1e2e"; surface_raised := "#28283d"; surface_selected := "#313244";
     text_primary := "#cdd6f4"; text_secondary := "#bac2de"; text_muted := "#6c7086";
     text_inverse := "#11111b"; border_subtle := "#45475a"; border_focus := "#cba6f7";
     border_strong := "#89b4fa"; state_live := "#a6e3a1"; state_waiting := "#f9e2af";
     state_approval := "#fab387"; state_error := "#f38ba8"; accent_primary := "#cba6f7";
     accent_secondary := "#89b4fa"; accent_highlight := "#89dceb"; diff_add := "#a6e3a1";
     diff_remove := "#f38ba8"; diff_context := "#6c7086" |}.

Definition HIGH_CONTRAST_THEME : Theme :=
  {| theme_name := "high-contrast";
     surface_base := "#000000"; surface_raised := "#121212"; surface_selected := "#242424";
     text_primary := "#ffffff"; text_secondary := "#e0e0e0"; text_muted := "#a0a0a0";
     text_inverse := "#000000"; border_subtle := "#808080"; border_focus := "#ffff00";
     border_strong := "#ffffff"; state_live := "#00ff00"; state_waiting := "#ffff00";
     state_approval := "#ff8000"; state_error := "#ff6666"; accent_primary := "#ffff00";
     accent_secondary := "#00ffff"; accent_highlight := "#ffffff"; diff_add := "#00ff00";
     diff_remove := "#ff6666"; diff_context := "#808080" |}.

Definition THEME_REGISTRY : list (string * Theme) :=
  [("kin-graphite", KIN_GRAPHITE_THEME); ("kin-night", KIN_NIGHT_THEME); ("nord", NORD_THEME);
   ("dracula", DRACULA_THEME); ("catppuccin-mocha", CATPPUCCIN_MOCHA_THEME); ("high-contrast", HIGH_CONTRAST_THEME)].

Record ThemeResolutionResult := {
  tr_theme : Theme;
  tr_requested_name : string;
  tr_is_fallback : bool;
  tr_fallback_reason : option string
}.

Definition resolve_theme (name : string) : ThemeResolutionResult :=
  match obj_get name THEME_REGISTRY with
  | Some t => {| tr_theme := t; tr_requested_name := name; tr_is_fallback := false; tr_fallback_reason := None |}
  | None =>
      {| tr_theme := KIN_GRAPHITE_THEME; tr_requested_name := name; tr_is_fallback := true;
         tr_fallback_reason := Some ("Theme '" +:+ name +:+ "' is unrecognized; fell back to kin-graphite.") |}
  end.

Definition get_textual_theme_variables (t : Theme) : list (string * string) :=
  map (fun rc => ("$" +:+ str_replace "." "-" rc.1, rc.2)) (get_role_map t).

Definition validate_theme (t : Theme) : result string unit :=
  let keys := map fst (get_role_map t) in
  if negb (forallb (fun r => str_in r keys) REQUIRED_ROLES) then Err "ValueError"
  else if forallb (fun rc => truthy rc.2) (get_role_map t) then Ok tt else Err "ValueError".

Definition validate_widget_role_consumption (role_or_color : string) : result string string :=
  if String.prefix "#" role_or_color || String.prefix "rgb" role_or_color || String.prefix "hsl" role_or_color
  then Err "ValueError"
  else if negb (str_in role_or_color REQUIRED_ROLES) then Err "ValueError"
  else Ok role_or_color.

(** ** Overrides *)

Definition cc_hex (c : ascii) : bool :=
  let n := code c in
  ((48 <=? n) && (n <=? 57) || (65 <=? n) && (n <=? 70) || (97 <=? n) && (n <=? 102))%Z.
Definition three_hex : re := RSeq (RChr cc_hex) (RSeq (RChr cc_hex) (RChr cc_hex)).
Definition HEX_COLOR_PATTERN : re := RSeq (RChr (Ascii.eqb "#")) (RSeq three_hex (ropt three_hex)).

Definition normalize_role_name (raw_key : string) : string := str_replace "_" "." raw_key.

(** One entry of the file. *)
Definition override_entry (kv : string * json) : result string (string * string) :=
  let role := normalize_role_name (strip kv.1) in
  if negb (str_in role REQUIRED_ROLES) then Err "ValueError"
  else match kv.2 with
       | JStr v =>
           let color := strip v in
           if re_match_dollar HEX_COLOR_PATTERN color then Ok (role, color) else Err "ValueError"
       | _ => Err "ValueError"
       end.

Fixpoint override_entries (kvs : list (string * json)) (acc : list (string * string))
  : result string (list (string * string)) :=
  match kvs with
  | [] => Ok acc
  | kv :: rest => let? rc := override_entry kv in override_entries rest (obj_set rc.1 rc.2 acc)
  end.

Section yaml.
(** [yaml.safe_load], [None] for a document it refuses and for one with a key
    that is no text; [Path.exists] and [read_text], where the name may be one
    the system refuses. *)
Context (safe_load : string -> option json) (exists_ : string -> result string bool).
Context (read_text : string -> option string).

Definition parse_theme_yaml_override (yaml_content : string) : result string (list (string * string)) :=
  match safe_load yaml_content with
  | Some (JObj []) => Err "ValueError"
  | Some (JObj kvs) => override_entries kvs []
  | _ => Err "ValueError"
  end.

Inductive theme_source := ThemePath (p : string) | ThemeText (s : string).

Definition source_content (source : theme_source) : result string string :=
  let read p :=
    let? there := exists_ p in
    if negb there then Err "ValueError"
    else match read_text p with Some s => Ok s | None => Err "ValueError" end in
  match source with
  | ThemePath p => read p
  | ThemeText s =>
      if contains (String "010" "") s then Ok s
      else let? there := exists_ s in if there then read s else Ok s
  end.

Definition load_theme_yaml_override (source : theme_source) (base_theme : option Theme) (name : string)
  : result string Theme :=
  let? content := source_content source in
  let? overrides := parse_theme_yaml_override content in
  let base := default KIN_GRAPHITE_THEME base_theme in
  let role_map := fold_left (fun m rc => obj_set rc.1 rc.2 m) overrides (get_role_map base) in
  let? t := theme_of name role_map in
  let? _ := validate_theme t in
  Ok t.
End yaml.

(** ** What an override does *)

Lemma override_entry_ok kv role color :
  override_entry kv = Ok (role, color) ->
  role ∈ REQUIRED_ROLES /\ re_match_dollar HEX_COLOR_PATTERN color = true.
Proof.
  unfold override_entry. destruct (str_in _ _) eqn:Er; [|done]. cbn [negb]. destruct kv.2; try done.
  destruct (re_match_dollar _ _) eqn:Ec; [|done]. intros [= <- <-]. split; [by apply str_in_spec|done].
Qed.

Definition good_overrides (l : list (string * string)) : Prop :=
  NoDup (map fst l) /\ Forall (fun rc => rc.1 ∈ REQUIRED_ROLES /\ re_match_dollar HEX_COLOR_PATTERN rc.2 = true) l.

Lemma obj_set_keys {A} k k' (v : A) l : k' ∈ map fst (obj_set k v l) <-> k' = k \/ k' ∈ map fst l.
Proof.
  induction l as [|[k1 v1] l IH]; cbn; [set_solver|]. destruct (String.eqb_spec k k1) as [->|Hne]; cbn; set_solver.
Qed.

Lemma obj_set_nodup {A} k (v : A) l : NoDup (map fst l) -> NoDup (map fst (obj_set k v l)).
Proof.
  induction l as [|[k1 v1] l IH]; cbn; [intros _; apply NoDup_singleton|].
  intros [Hk Hl]%NoDup_cons. destruct (String.eqb_spec k k1) as [->|Hne]; cbn; [by apply NoDup_cons|].
  apply NoDup_cons. split; [|by apply IH]. rewrite obj_set_keys. by intros [->|?].
Qed.

Lemma override_entries_good kvs acc l :
  override_entries kvs acc = Ok l -> good_overrides acc -> good_overrides l.
Proof.
  revert acc. induction kvs as [|kv kvs IH]; intros acc; cbn [override_entries]; [by intros [= <-]|].
  destruct (override_entry kv) as [[role color]|e] eqn:Ek; [|done]. cbn [rbind fst snd]. intros El [Hn Ha].
  apply (IH _ El). clear IH El. apply override_entry_ok in Ek. split; [by apply obj_set_nodup|]. clear Hn.
  induction Ha as [|[r c] acc Hrc Ha IHa]; cbn; [constructor; [exact Ek|constructor]|].
  destruct (String.eqb_spec role r) as [->|]; by constructor.
Qed.

Lemma obj_get_update {A} k (l m : list (string * A)) :
  NoDup (map fst l) ->
  obj_get k (fold_left (fun m rc => obj_set rc.1 rc.2 m) l m)
  = match obj_get k l with Some v => Some v | None => obj_get k m end.
Proof.
  revert m. induction l as [|[k1 v1] l IH]; intros m; cbn [fold_left map obj_get fst snd]; [done|].
  intros [Hk Hl]%NoDup_cons. rewrite IH by done. destruct (String.eqb_spec k k1) as [->|Hne].
  - destruct (obj_get k1 l) as [v|] eqn:E; [|apply obj_get_set_eq]. exfalso.
    apply Hk, list_elem_of_fmap. exists (k1, v). split; [done|]. by apply Transition.obj_get_In.
  - destruct (obj_get k l); [done|]. by apply obj_get_set_ne.
Qed.

Lemma role_argument_ok m r c : role_argument m r = Ok c -> Some c = obj_get r m.
Proof. unfold role_argument. destruct (obj_get r m); [by intros [= ->]|done]. Qed.

Lemma theme_of_roles name m t :
  theme_of name m = Ok t ->
  theme_name t = name /\ Forall (fun role => obj_get role (get_role_map t) = obj_get role m) REQUIRED_ROLES.
Proof.
  unfold theme_of. intros E.
  repeat (let c := fresh "c" in let H := fresh "H" in apply rbind_Ok in E as (c & H & E); apply role_argument_ok in H).
  injection E as <-. split; [done|].
  repeat (apply Forall_cons_2; [assumption|]). apply Forall_nil_2.
Qed.

(** An override is applied completely or not at all: the theme that is loaded
    has the requested name, shows every role of the file in a hexadecimal
    colour of the file and every other role in the colour of the base, and a
    file with one bad entry gives no theme. *)
Theorem theme_override_exact safe_load exists_ read_text source base name t :
  load_theme_yaml_override safe_load exists_ read_text source base name = Ok t ->
  exists content overrides,
    source_content exists_ read_text source = Ok content /\
    parse_theme_yaml_override safe_load content = Ok overrides /\ good_overrides overrides /\ theme_name t = name /\
    forall role, role ∈ REQUIRED_ROLES ->
      get_role_color t role
      = match obj_get role overrides with
        | Some c => Ok c
        | None => get_role_color (default KIN_GRAPHITE_THEME base) role
        end.
Proof.
  unfold load_theme_yaml_override. intros (content & Hc & E)%rbind_Ok. apply rbind_Ok in E as (overrides & Ho & E).
  apply rbind_Ok in E as (t' & Ht & E). apply rbind_Ok in E as (_ & _ & [= ->]).
  exists content, overrides. assert (good_overrides overrides) as Hg.
  { revert Ho. unfold parse_theme_yaml_override. destruct (safe_load content) as [[| | | | | |[|kv kvs]]|]; try done.
    intros Ho. apply (override_entries_good _ _ _ Ho). split; constructor. }
  apply theme_of_roles in Ht as [Hn Hr]. split_and!; try done. intros role Hrole.
  rewrite Forall_forall in Hr. unfold get_role_color. rewrite (Hr _ Hrole), obj_get_update by apply Hg.
  by destruct (obj_get role overrides).
Qed.

Module ThemesDemo.
Definition load (entries : list (string * json)) : result string Theme :=
  load_theme_yaml_override (fun _ => Some (JObj entries)) (fun _ => Ok false) (fun _ => None)
    (ThemeText "text") None "mine".

Example one_role :
  match load [(" surface_base ", JStr "#FFF")] with
  | Ok t => (theme_name t, surface_base t, surface_raised t)
  | Err _ => ("", "", "")
  end = ("mine", "#FFF", "#242536").
Proof. vm_compute. reflexivity. Qed.

Example refused :
  (load [], load [("text.primary", JStr "red")], load [("text.primary", JInt 1)], load [("body", JStr "#fff")])
  = (Err "ValueError", Err "ValueError", Err "ValueError", Err "ValueError").
Proof. vm_compute. reflexivity. Qed.

Lemma theme_override_exact_witness :
  exists t, load [("diff_add", JStr "#00ff00")] = Ok t /\ theme_name t = "mine".
Proof.
  destruct (load [("diff_add", JStr "#00ff00")]) as [t|e] eqn:E; [|vm_compute in E; discriminate].
  exists t. split; [reflexivity|]. destruct (theme_override_exact _ _ _ _ _ _ _ E) as (? & ? & _ & _ & _ & Hn & _). exact Hn.
Defined.

(** The built-in themes are complete. *)
Example registry_valid :
  forallb (fun nt => match validate_theme nt.2 with Ok _ => String.eqb nt.1 (theme_name nt.2) | Err _ => false end)
    THEME_REGISTRY = true.
Proof. vm_compute. reflexivity. Qed.

Example unknown_theme : theme_name (tr_theme (resolve_theme "solarized")) = "kin-graphite".
Proof. vm_compute. reflexivity. Qed.
End ThemesDemo.
